(* ===== verification/_CoqProject ===== *)
-Q . S2P
Prelude.v
Cannelloni.v
BridgeProofs.v
Spsc.v
BridgeProps.v
Can.v
Main.v
Mmio.v
Switch.v
Phy.v
Board.v
Mem.v
MemProofs.v
Memp.v
Timeouts.v
Pbuf.v
PbufChain.v
PbufHeaders.v
PbufAlloc.v
PbufCopy.v
Emac.v
EmacRing.v
EmacProofs.v
EmacRx.v
Links.v
Ip6Addr.v
Chksum.v
Udp.v
UdpPcbs.v
UdpPackets.v
Netif.v
Ip6Out.v
Mld6.v
Addrs.v
Nd6.v
Nd6In.v
Icmp6.v
Ip6In.v
Ethernet.v
Stack.v
Searches.v
Ip6Packets.v
Ip6Receive.v
StackProps.v
BridgeNet.v
Machine.v
Nd6Props.v
EchoProps.v
MdnsDomain.v
MdnsNames.v
MdnsCompress.v
MdnsOut.v
MdnsIn.v
Mdns.v
MdnsState.v
MdnsOrder.v
MdnsRecords.v
MdnsBoard.v
LwipStrings.v
MdnsProps.v
