(* ===== verification/Prelude.v ===== *)
(** * The CAN/UDP bridge of a TMS570 board

    The program (src/src, src/lwip/ports, and the lwIP stack under
    src/lwip/src it is linked with) joins four CAN controllers to UDP over
    IPv6: frames a CAN controller receives are packed into "cannelloni"
    datagrams and multicast, datagrams from the network are unpacked into
    frames for the controllers. It runs without an operating system on a
    big-endian Cortex-R5: one main loop ([main]) and the interrupts of the
    CAN controllers, the Ethernet controller and a millisecond timer. A
    switch chip (SJA1105), a PHY (DP83867), the DMA engine of the Ethernet
    controller and the CAN message RAM sit behind registers.

    This library translates the program's C functions, and the Python
    generator of the switch's configuration, into Rocq functions and proves
    what makes each of them correct.

    ** How code is modelled

    - A run of C code is an [outcome]: a value, or the [fault] it stops with
      (an access outside an object, a null dereference, a division by zero,
      a failed [LWIP_ASSERT], which halts this port, or a loop that never
      leaves).
    - Integers are [Z] with the wrap-around of their C type written out
      ([u8], [u16], [u32]).
    - Code on a shared state is a computation of the monad [io] of Mmio;
      devices are classes ([Mmio], [Polled], [DCAN], [MdioLaws], [Dma]) whose
      operations the drivers call and whose laws state the documented
      behaviour the drivers rely on. Every class of laws has an instance that
      a witness runs.
    - Memory is modelled where it is shared: the frame buffers and queues of
      the bridge (a store of frames by index), the heap and the pools of
      lwIP (block headers and free lists in memory), packet buffers (headers
      and payload bytes by address) and the DMA descriptors.

    ** Files

    - [Prelude]: outcomes, machine integers, arrays, tactics ([inv_ok],
      [zcase], [ulia]) and the hint databases.
    - [Cannelloni], [BridgeProofs], [BridgeProps]: src/src/cannelloni.c, the
      bridge itself: the ring queue of frames (Module [Queue]) and the packet
      handler, packer and main functions (Module [Bridge]). lwIP is the class
      [NetStack].
    - [Spsc]: the queue shared by an interrupt and the main loop, as a step
      relation over both; the main loop's operations are those of [Bridge].
    - [Can]: src/src/drivers/can.c over the registers and message objects.
    - [Main]: src/src/main.c: callbacks, the configuration of the four
      interfaces and the main loop, with [Can] under [Bridge].
    - [Mmio]: the monad of driver code and register accesses.
    - [Switch]: src/src/drivers/spi.c, src/src/SJA1105.c with its table, and
      src/gen_switch_config.py that generated the table.
    - [Phy]: src/src/drivers/mdio.c and src/src/DP8386.c.
    - [Board]: src/src/drivers/gio.c, vim.c, timer.c, the tick interrupt, and
      src/lwip/ports/hdk/sys_arch.c.
    - [Mem], [MemProofs]: core/mem.c, the heap; [Memp]: core/memp.c, the
      pools. Both are used through the classes [HeapOps], [HeapLaws],
      [PoolOps], [PoolLaws], which these files discharge.
    - [Timeouts]: core/timeouts.c over a pool.
    - [Pbuf], [PbufChain], [PbufHeaders], [PbufAlloc], [PbufCopy]: core/pbuf.c
      over two pools and the heap: the functions, chains as packets with a
      content, headers put in front and taken off, memory, copies.
    - [Emac], [EmacRing], [EmacProofs], [EmacRx]:
      src/lwip/ports/hdk/netif/hdkif.c over [Pbuf] and the DMA engine; its
      transmission, and its receive interrupt.
    - [Links]: linked lists threaded through records in memory.
    - [Ip6Addr]: core/ipv6/ip6_addr.c and the macros of ip6_addr.h.
    - [Chksum]: core/inet_chksum.c over chains of [Pbuf].
    - [Udp], [UdpPcbs], [UdpPackets]: core/udp.c: the definitions, the list of
      control blocks, and datagrams. The IP layer is the class [IpLayer].
    - [Netif]: lwip/netif.h and the state of the IPv6 layer ([ipst]), which is
      the [lower] part of [Udp]'s state. What interfaces point to is the
      class [Hooks].
    - [Ip6Out], [Ip6In]: core/ipv6/ip6.c: source addresses and output; input
      with its extension headers. [Icmp6]: core/ipv6/icmp6.c.
    - [Mld6]: core/ipv6/mld6.c. [Addrs]: an interface's addresses and their
      changes (core/netif.c).
    - [Nd6], [Nd6In]: core/ipv6/nd6.c: caches, queues and timer; messages.
    - [Ethernet]: netif/ethernet.c and core/ipv6/ethip6.c.
    - [Stack]: all of these together: the instances of [IpLayer] and [Hooks],
      the way of a frame up and of a datagram down, interfaces added and
      removed (core/netif.c).
    - [Searches]: the choices of source addresses and of cache entries.
      [Ip6Packets], [Ip6Receive]: packets and frames as bytes, sent and
      received. [StackProps]: the whole path. [Nd6Props]: neighbour discovery
      messages and multicast reports. [EchoProps]: echo requests.
    - [Machine]: the stack on the driver: [Stack]'s output is [hdkif_output] and
      the receive interrupt's [ethernet_input] is [Stack]'s; a datagram from
      one board's [udp_sendto] to its descriptors, and from another's
      descriptors to the application.
    - [BridgeNet]: the bridge on this stack: the instance of [NetStack] and its
      laws, and frames from one board's queue to another's.
    - The mDNS responder (src/lwip/apps/mdns), its state on top of the
      stack's. [MdnsDomain]: mdns_domain.c, names, their
      compression and their reading. [MdnsOut]: mdns_out.c, questions, records,
      packets and the delayed answers. [MdnsIn], [Mdns]: mdns.c: what a
      question asks for, readers and the order of records; then queries,
      responses, conflicts, probing, announcing and the functions for
      applications. [MdnsNames], [MdnsCompress], [MdnsRecords]: names and
      records as labels and fields, read and written. [MdnsOrder]: ties between
      probes. [MdnsState], [MdnsProps]: the states of a host under all calls,
      packets and timers, and the probes of a run. [MdnsBoard]: the registrations of src/src/main.c.
    - [LwipStrings]: the strings of core/def.c and the names of interfaces of
      core/netif.c.

    The parts meet as they do in the code: [Main] calls [Bridge] and [Can];
    [Bridge] calls the stack through [NetStack], which [BridgeNet] implements; [Timeouts] and [Pbuf] take
    memory through the classes [Memp] and [Mem] implement; [Emac] takes
    packets from [Pbuf], interrupt masking and the vector table from [Board];
    [Udp] asks [Netif]'s state for routes and addresses through [IpLayer] and
    sends through [Ip6Out], [Ethernet] and the driver's function in [Hooks];
    [Ethernet] passes frames to [Ip6In], which passes packets to [Udp] and
    [Icmp6], and this to [Nd6In] and [Mld6]. [Mdns] is the callback of a control
    block of [Udp], asks [Netif]'s state for addresses, and takes memory, timers
    and packets from [Mem], [Memp], [Timeouts] and [Pbuf].

    ** What the theorems show

    - The bridge: frames put into datagrams by one board come out of another
      unchanged and in order ([end_to_end], for classic frames without the
      RTR flag), for every packet handler branch
      what is queued and what is dropped, what each pass of the main loop
      does; queues are FIFO under any interleaving of interrupt and main loop
      ([interrupt_and_main_fifo]).
    - Drivers: the CAN driver's frames survive the trip through the message
      registers; the switch's and PHY's registers hold the intended values
      after set-up; the checked-in switch table is the one the generator
      writes, and forwards every frame to the other ports.
    - Memory: the heap never hands out overlapping blocks and is first-fit;
      pool elements and free lists partition the pool; timers fire in order,
      each pass of the timer list terminates, handlers that re-arm themselves
      included ([sys_check_timeouts_terminates]); packet buffers are freed exactly
      when their last reference goes, allocation and truncation leave
      well-formed chains, no element leaks when a pool runs out, and a copy
      has the packet's bytes ([pbuf_clone_copies]).
    - Ethernet: sending always finishes once the engine does, the descriptor
      ring stays well-formed, and the transmit interrupt frees every packet
      sent exactly once and in order. The receive interrupt hands the stack a
      chain of just the pbufs a frame is in, with its lengths and bytes
      ([hdkif_rx_hands_up]).
    - UDP: whatever calls are made, control blocks form a proper list and no
      two claim the same datagrams ([udp_ops_safe]); ports are exclusive and
      the search for one ends; every datagram received is delivered to the
      best match, answered or freed ([udp_input_verdict]), and one that is sent
      arrives as it was ([udp_roundtrip]). The checksum, over any pieces at any
      addresses, is that of RFC 1071, verifies where it was computed and
      detects the change of a byte. Addresses survive printing and parsing.
    - The stack: a datagram handed to [udp_sendto] leaves as one frame to the
      right MAC address, and the frame reaches the callback on another board
      ([datagram_over_ethernet]) and its bridge, which queues the CAN frames that
      were sent ([frames_over_ethernet]), through any extension headers
      ([ip6_input_delivers]). With the driver below, the frame is in the
      descriptors of one DMA engine, and from those of the other the receive
      interrupt brings it to the callback ([datagram_between_engines]). The
      source address is the best by a rank that
      restates RFC 6724 ([ip6_select_source_address_best]); neighbour entries
      give way in a fixed order ([nd6_recycle_order]); messages from beyond
      the link change nothing ([nd6_off_link_dropped]); an advertisement
      resolves a neighbour for the packets that follow
      ([nd6_advertisement_resolves]); an echo request is answered with its own
      data ([icmp6_echo_answered]); reports are sent in time
      ([mld6_report_in_time]).
    - The mDNS responder: the reader of names ends on every packet and accepts
      exactly the names that are there ([mdns_readname_exact]); names written,
      compressed or not, and the records around them are read back
      ([mdns_name_roundtrip], [mdns_record_roundtrip]); names are compared up
      to the case of letters ([mdns_domain_eq_names]) and records by the
      lexicographic order of RFC 6762 ([mdns_tie_break_order]). Whatever
      happens in whatever order, a host answers for its names only after three
      probes for them, counted along the run
      ([mdns_announces_after_probes], [mdns_probe_step]), and probing slows
      down under conflicts ([mdns_rate_limit]).
    - Behaviour that is not what the code means to do is stated as it is (the
      theorems' names end in what goes wrong, e.g.
      [handle_cannelloni_frame_overflow], [can_length_overflow],
      [mem_trim_last_block_stops]).

    ** Bounds and fuel

    Loops over data have the length of the data as fuel. Loops over linked
    lists have one more than the number of cells, which a list without a
    cycle never uses up; walks over descriptors have the number of
    descriptors. Loops that wait for hardware take a number of polls as a
    parameter and are shown to end within the bound the device's laws give
    ([poll_bound], [dma_bound]). Every "returns" is proved, with enough fuel.
    The reader of names has a step for each byte of the longest name and each
    of its jumps ([name_fuel]); loops over a packet's counters of
    questions and records have the counter itself ([counter_fuel]); the walks
    over stored packets have one more than the pool has ([packet_fuel]).

    ** Not modelled

    - Of the mDNS responder, the application's callbacks are parameters (the
      one that writes text records may add text, not call the responder), and
      received datagrams enter at [mdns_recv]: the responder's state lies on
      top of the stack's, so the callbacks of [Stack] are not instantiated
      with it. The callback for changes of an interface's status is not
      compiled in.
    - Of the interfaces, status, link and extension callbacks and the loopback
      interface, which are not compiled in; client data are the multicast
      groups of [Netif] and the hosts of [MdnsOut].
    - [main]'s start-up is modelled in pieces, not as one run.
    - The laws of [DCAN] are those of the message RAM at rest: no reception
      changes it between the accesses of one transfer.
    - Of the bridge on its stack, one call of [transmit_udp_frame] is followed
      to the driver; that the heap has room again for the next one depends on
      the transmit interrupt. The handles lie outside the stack's state, so the
      callback is run on the packet [Stack] hands to it.
    - The queues of packets that wait for a neighbour, ICMPv6 answers, router
      advertisements and duplicate address detection are translated, with
      theorems only for the cases named above.
    - Of UDP, sending through a header pbuf of its own (a packet without room
      in front) is translated but has no theorem.
    - Of the receive side of the Ethernet driver, what becomes of descriptors
      after the stack has had the frame ([rx_give_back]) is translated but has
      no theorem but the case in which it fails ([rx_last_descriptor]).
    - Parts of lwIP that are not compiled in: TCP, IPv4, the socket and
      netconn APIs, PPP, SNMP, HTTP and the other applications.
    - Start-up code, pin multiplexing, linker scripts and the register
      headers of the chip (data for the hardware, no logic); the parts of
      those headers the drivers use are constants here.
    - The host-side tools under bridge/ and tests/. *)

From Stdlib Require Import ZArith Lia.
From stdpp Require Import base list numbers gmap.

#[export] Set Default Goal Selector "!".

(* ------------------------------------------------------------------ *)
(** * Outcomes of C code *)

(** What a run of C code ends in when it does not return: an access outside
    an object, a null dereference, a division by zero, a failed
    [LWIP_ASSERT] (the port's [LWIP_PLATFORM_ASSERT] halts the processor),
    or a loop that never leaves. *)
Inductive fault : Type :=
| OutOfBounds
| NullPointer
| DivByZero
| AssertFailed
| Diverges.

Inductive outcome (A : Type) : Type :=
| Ok (a : A)
| Fault (f : fault).
Arguments Ok {A} a.
Arguments Fault {A} f.

#[export] Instance outcome_ret : MRet outcome := fun A a => Ok a.
#[export] Instance outcome_bind : MBind outcome :=
  fun A B k m => match m with Ok a => k a | Fault f => Fault f end.

#[export] Instance fault_eq_dec : EqDecision fault.
Proof. solve_decision. Defined.
#[export] Instance outcome_eq_dec {A} `{EqDecision A} : EqDecision (outcome A).
Proof. solve_decision. Defined.

Definition is_ok {A} (m : outcome A) : bool :=
  match m with Ok _ => true | Fault _ => false end.

(** [LWIP_ASSERT(message, assertion)]. *)
Definition lwip_assert (b : bool) : outcome unit :=
  if b then Ok tt else Fault AssertFailed.

Section OutcomeLemmas.
Context {A B : Type}.

Lemma bind_ok (m : outcome A) (k : A -> outcome B) a :
  m = Ok a -> (m ≫= k) = k a.
Proof. by intros ->. Qed.

Lemma bind_ok_inv (m : outcome A) (k : A -> outcome B) b :
  (m ≫= k) = Ok b -> exists a, m = Ok a /\ k a = Ok b.
Proof. destruct m as [a|f]; [|done]. by exists a. Qed.

Lemma bind_fault_inv (m : outcome A) (k : A -> outcome B) f :
  (m ≫= k) = Fault f ->
  m = Fault f \/ exists a, m = Ok a /\ k a = Fault f.
Proof. destruct m as [a|g]; simpl; intros H; [right|left]; naive_solver. Qed.
End OutcomeLemmas.

(** Splits every hypothesis that says a sequence of commands returned. *)
Ltac inv_ok :=
  repeat match goal with
  | H : (_ ≫= _) = Ok _ |- _ =>
      apply bind_ok_inv in H; destruct H as (? & ? & H)
  | H : Ok _ = Ok _ |- _ => injection H as H
  | H : Fault _ = Ok _ |- _ => discriminate H
  | H : Ok _ = Fault _ |- _ => discriminate H
  | H : mret _ = Ok _ |- _ => injection H as H
  | H : (_, _) = (_, _) |- _ => injection H as H
  end; simplify_eq/=.

(* ------------------------------------------------------------------ *)
(** * Machine integers *)

Open Scope Z_scope.

Definition u8 (z : Z) : Z := z mod 256.
Definition u16 (z : Z) : Z := z mod 65536.
Definition u32 (z : Z) : Z := z mod 4294967296.

Definition is_u8 (z : Z) : Prop := 0 <= z < 256.
Definition is_u16 (z : Z) : Prop := 0 <= z < 65536.
Definition is_u32 (z : Z) : Prop := 0 <= z < 4294967296.

#[export] Instance is_u8_dec z : Decision (is_u8 z).
Proof. unfold is_u8. apply _. Defined.
#[export] Instance is_u16_dec z : Decision (is_u16 z).
Proof. unfold is_u16. apply _. Defined.
#[export] Instance is_u32_dec z : Decision (is_u32 z).
Proof. unfold is_u32. apply _. Defined.

(** Arithmetic closing tactics: [zify_u] unfolds the wrap-arounds and turns
    quotients and remainders into equations. *)
Ltac u_unfold := unfold u8, u16, u32, is_u8, is_u16, is_u32 in *.
Ltac ulia := u_unfold; Z.div_mod_to_equations; lia.

(** Splits on every integer comparison in the goal and the hypotheses. *)
Ltac zcase_step :=
  let E := fresh "Hz" in
  match goal with
  | |- context [?a <? ?b] => destruct (Z.ltb_spec a b) as [E|E]
  | |- context [?a <=? ?b] => destruct (Z.leb_spec a b) as [E|E]
  | |- context [?a =? ?b] => destruct (Z.eqb_spec a b) as [E|E]
  | H : context [?a <? ?b] |- _ => revert H; destruct (Z.ltb_spec a b) as [E|E]; intros H
  | H : context [?a <=? ?b] |- _ => revert H; destruct (Z.leb_spec a b) as [E|E]; intros H
  | H : context [?a =? ?b] |- _ => revert H; destruct (Z.eqb_spec a b) as [E|E]; intros H
  end.
Ltac zcase := repeat (zcase_step; cbv beta iota in *; try lia).

Lemma u8_small z : is_u8 z -> u8 z = z.
Proof. apply Z.mod_small. Qed.
Lemma u16_small z : is_u16 z -> u16 z = z.
Proof. apply Z.mod_small. Qed.
Lemma u32_small z : is_u32 z -> u32 z = z.
Proof. apply Z.mod_small. Qed.
Lemma u8_range z : is_u8 (u8 z).
Proof. ulia. Qed.
Lemma u16_range z : is_u16 (u16 z).
Proof. ulia. Qed.
Lemma u32_range z : is_u32 (u32 z).
Proof. ulia. Qed.

Create HintDb cint.
Create Rewrite HintDb cint.
#[export] Hint Resolve u8_range u16_range u32_range : cint.
#[export] Hint Rewrite u8_small u16_small u32_small using (u_unfold; lia) : cint.

(** [FOLD_U32T] and [SWAP_BYTES_IN_WORD] of lwip/inet_chksum.h are in
    Chksum; here are the byte splits of big-endian words. *)
Definition be16 (hi lo : Z) : Z := hi * 256 + lo.
Definition be32 (b0 b1 b2 b3 : Z) : Z := ((b0 * 256 + b1) * 256 + b2) * 256 + b3.

(* ------------------------------------------------------------------ *)
(** * Arrays *)

Abbreviation zlen l := (Z.of_nat (length l)).

(** [l[i]], with the fault C leaves undefined when [i] is out of range. *)
Definition rd {A} (l : list A) (i : Z) : outcome A :=
  if i <? 0 then Fault OutOfBounds
  else match l !! Z.to_nat i with Some a => Ok a | None => Fault OutOfBounds end.

(** [l[i] = v]. *)
Definition wr {A} (l : list A) (i : Z) (v : A) : outcome (list A) :=
  if (i <? 0) || (zlen l <=? i) then Fault OutOfBounds
  else Ok (<[Z.to_nat i := v]> l).

(** The [n] elements from [l + i], the source of a [memcpy]. *)
Definition rd_block {A} (l : list A) (i n : Z) : outcome (list A) :=
  if (i <? 0) || (n <? 0) || (zlen l <? i + n) then Fault OutOfBounds
  else Ok (take (Z.to_nat n) (drop (Z.to_nat i) l)).

(** [memcpy(l + i, b, length b)]. *)
Definition wr_block {A} (l : list A) (i : Z) (b : list A) : outcome (list A) :=
  if (i <? 0) || (zlen l <? i + zlen b) then Fault OutOfBounds
  else Ok (take (Z.to_nat i) l ++ b ++ drop (Z.to_nat i + length b) l).

Section ArrayLemmas.
Context {A : Type}.
Implicit Types l b : list A.

Lemma rd_ok l i a : rd l i = Ok a <-> 0 <= i /\ l !! Z.to_nat i = Some a.
Proof.
  unfold rd. destruct (Z.ltb_spec i 0); [split; [done|lia]|].
  destruct (l !! Z.to_nat i); naive_solver.
Qed.

Lemma rd_in l i : 0 <= i < zlen l -> exists a, rd l i = Ok a.
Proof.
  intros H. destruct (lookup_lt_is_Some_2 l (Z.to_nat i)) as [a Ha]; [lia|].
  exists a. apply rd_ok. split; [lia|done].
Qed.

Lemma rd_bound l i a : rd l i = Ok a -> 0 <= i < zlen l.
Proof. intros [? H%lookup_lt_Some]%rd_ok. lia. Qed.

Lemma rd_out l i : ~ (0 <= i < zlen l) -> rd l i = Fault OutOfBounds.
Proof.
  intros H. unfold rd. destruct (Z.ltb_spec i 0) as [|Hi]; [done|].
  rewrite lookup_ge_None_2 by lia. done.
Qed.

Lemma wr_in l i v : 0 <= i < zlen l -> wr l i v = Ok (<[Z.to_nat i := v]> l).
Proof.
  intros H. unfold wr.
  destruct (Z.ltb_spec i 0), (Z.leb_spec (zlen l) i); simpl; [lia..|done].
Qed.

Lemma wr_ok l i v l' :
  wr l i v = Ok l' -> 0 <= i < zlen l /\ l' = <[Z.to_nat i := v]> l.
Proof.
  unfold wr. destruct (Z.ltb_spec i 0), (Z.leb_spec (zlen l) i); simpl; try done.
  intros [= <-]. split; [lia|done].
Qed.

Lemma rd_block_in l i n :
  0 <= i -> 0 <= n -> i + n <= zlen l ->
  rd_block l i n = Ok (take (Z.to_nat n) (drop (Z.to_nat i) l)).
Proof.
  intros. unfold rd_block.
  destruct (Z.ltb_spec i 0), (Z.ltb_spec n 0), (Z.ltb_spec (zlen l) (i + n));
    simpl; try lia; done.
Qed.

Lemma rd_block_ok l i n b :
  rd_block l i n = Ok b ->
  0 <= i /\ 0 <= n /\ i + n <= zlen l /\ b = take (Z.to_nat n) (drop (Z.to_nat i) l).
Proof.
  unfold rd_block.
  destruct (Z.ltb_spec i 0), (Z.ltb_spec n 0), (Z.ltb_spec (zlen l) (i + n));
    simpl; try done. intros [= <-]. auto with lia.
Qed.

Lemma wr_block_in l i b :
  0 <= i -> i + zlen b <= zlen l ->
  wr_block l i b = Ok (take (Z.to_nat i) l ++ b ++ drop (Z.to_nat i + length b) l).
Proof.
  intros. unfold wr_block.
  destruct (Z.ltb_spec i 0), (Z.ltb_spec (zlen l) (i + zlen b)); simpl; try lia; done.
Qed.

Lemma wr_block_out l i b : zlen l < i + zlen b -> wr_block l i b = Fault OutOfBounds.
Proof.
  intros. unfold wr_block.
  destruct (Z.ltb_spec (zlen l) (i + zlen b)); [by rewrite orb_true_r|lia].
Qed.

Lemma wr_block_ok l i b l' :
  wr_block l i b = Ok l' ->
  0 <= i /\ i + zlen b <= zlen l /\
  l' = take (Z.to_nat i) l ++ b ++ drop (Z.to_nat i + length b) l.
Proof.
  unfold wr_block.
  destruct (Z.ltb_spec i 0), (Z.ltb_spec (zlen l) (i + zlen b)); simpl; try done.
  intros [= <-]. auto with lia.
Qed.

Lemma wr_block_length l i b l' : wr_block l i b = Ok l' -> length l' = length l.
Proof.
  intros (? & ? & ->)%wr_block_ok.
  rewrite !length_app, length_take, length_drop. lia.
Qed.
End ArrayLemmas.

(** Sequential writes: the element behind a known prefix. *)
Section WriteLemmas.
Context {A : Type}.
Implicit Types a b m : list A.

Lemma rd_mid a x b i : i = zlen a -> rd (a ++ x :: b) i = Ok x.
Proof.
  intros ->. apply rd_ok. split; [lia|]. rewrite Nat2Z.id.
  by rewrite list_lookup_middle.
Qed.

Lemma wr_snoc a x b v i : i = zlen a -> wr (a ++ x :: b) i v = Ok ((a ++ [v]) ++ b).
Proof.
  intros ->. rewrite wr_in by (rewrite length_app; simpl; lia).
  rewrite Nat2Z.id, insert_app_r_alt, Nat.sub_diag by lia. simpl.
  by rewrite <- app_assoc.
Qed.

Lemma wr_block_mid a m b src i :
  i = zlen a -> length m = length src ->
  wr_block (a ++ m ++ b) i src = Ok ((a ++ src) ++ b).
Proof.
  intros -> Hm. rewrite wr_block_in by (rewrite ?length_app; lia).
  rewrite Nat2Z.id, take_app_length, <- app_assoc. do 3 f_equal.
  rewrite app_assoc, <- Hm, <- length_app. by rewrite drop_app_length.
Qed.

Lemma rd_block_mid a m b i n :
  i = zlen a -> n = zlen m -> rd_block (a ++ m ++ b) i n = Ok m.
Proof.
  intros -> ->. rewrite rd_block_in by (rewrite ?length_app; lia).
  by rewrite !Nat2Z.id, drop_app_length, take_app_length.
Qed.
End WriteLemmas.

(* ------------------------------------------------------------------ *)
(** * Bits and bytes *)

(** A decidable property of bytes is settled by its 256 cases. *)
Lemma u8_cases (p : Z -> bool) :
  forallb p (seqZ 0 256) = true -> forall z, is_u8 z -> p z = true.
Proof.
  intros H z Hz. rewrite forallb_forall in H. apply H, list_elem_of_In, elem_of_seqZ.
  unfold is_u8 in Hz. lia.
Qed.

Lemma land_ones_mod a n m : 0 <= n -> m = Z.ones n -> Z.land a m = a mod 2 ^ n.
Proof. intros ? ->. by apply Z.land_ones. Qed.

Lemma land_lnot_3 a : Z.land a (Z.lnot 3) = 4 * (a / 4).
Proof.
  change 3 with (Z.ones 2).
  rewrite <- Z.ldiff_land, Z.ldiff_ones_r, Z.shiftr_div_pow2, Z.shiftl_mul_pow2 by lia.
  change (2 ^ 2) with 4. lia.
Qed.
Lemma land_255 a : Z.land a 255 = a mod 256.
Proof. by apply (land_ones_mod a 8). Qed.
Lemma land_65535 a : Z.land a 65535 = a mod 65536.
Proof. by apply (land_ones_mod a 16). Qed.

(** [x | b] is [x + b] when the low [n] bits of [x] are clear. *)
Lemma lor_low x b n :
  0 <= n -> x mod 2 ^ n = 0 -> 0 <= b < 2 ^ n -> Z.lor x b = x + b.
Proof.
  intros Hn Hx Hb. symmetry. apply Z.add_nocarry_lor, Z.bits_inj_0. intros i.
  rewrite Z.land_spec. destruct (Z.ltb_spec i 0) as [Hi|Hi].
  { by rewrite Z.testbit_neg_r. }
  destruct (Z.ltb_spec i n).
  - rewrite <- (Z.mod_pow2_bits_low x n) by lia. by rewrite Hx, Z.bits_0.
  - rewrite <- (Z.mod_small b (2 ^ n)) by lia. by rewrite Z.mod_pow2_bits_high, andb_false_r.
Qed.

(** The way C assembles a big-endian word, and takes it apart. *)
Lemma lor_be32 b0 b1 b2 b3 :
  is_u8 b0 -> is_u8 b1 -> is_u8 b2 -> is_u8 b3 ->
  Z.lor (Z.lor (Z.lor (Z.shiftl b0 24) (Z.shiftl b1 16)) (Z.shiftl b2 8)) b3 =
  be32 b0 b1 b2 b3.
Proof.
  unfold is_u8, be32. intros. rewrite !Z.shiftl_mul_pow2 by lia.
  rewrite (lor_low (b0 * 2 ^ 24) _ 24); [|lia| |lia];
    [|apply Z.mod_mul; lia].
  rewrite (lor_low (b0 * 2 ^ 24 + b1 * 2 ^ 16) _ 16); [|lia| |lia].
  2: { replace (_ + _) with ((b0 * 256 + b1) * 2 ^ 16) by lia. apply Z.mod_mul; lia. }
  rewrite (lor_low _ b3 8); [|lia| |lia].
  2: { replace (_ + _) with ((b0 * 65536 + b1 * 256 + b2) * 2 ^ 8) by lia. apply Z.mod_mul; lia. }
  lia.
Qed.

Definition be32_bytes (z : Z) : list Z :=
  [Z.land (Z.shiftr z 24) 0xff; Z.land (Z.shiftr z 16) 0xff;
   Z.land (Z.shiftr z 8) 0xff; Z.land z 0xff].

Lemma be32_bytes_u8 z : Forall is_u8 (be32_bytes z).
Proof. unfold be32_bytes. rewrite !land_255. repeat constructor; ulia. Qed.

Lemma be32_bytes_id z :
  is_u32 z ->
  be32 (Z.land (Z.shiftr z 24) 0xff) (Z.land (Z.shiftr z 16) 0xff)
       (Z.land (Z.shiftr z 8) 0xff) (Z.land z 0xff) = z.
Proof.
  unfold is_u32, be32. intros. rewrite !land_255, !Z.shiftr_div_pow2 by lia.
  change (2 ^ 24) with 16777216. change (2 ^ 16) with 65536. change (2 ^ 8) with 256.
  Z.div_mod_to_equations. lia.
Qed.

Section PrefixLemmas.
Context {A : Type}.
Implicit Types l k : list A.

Lemma rd_prefix l k i x : rd (l ++ k) i = Ok x -> i < zlen l -> rd l i = Ok x.
Proof.
  intros [Hi Hl]%rd_ok Hlt. apply rd_ok. split; [done|].
  by rewrite lookup_app_l in Hl by lia.
Qed.

Lemma rd_block_prefix l k i n b :
  rd_block (l ++ k) i n = Ok b -> i + n <= zlen l -> rd_block l i n = Ok b.
Proof.
  intros (? & ? & _ & ->)%rd_block_ok Hle. rewrite rd_block_in by lia.
  by rewrite drop_app_le, take_app_le by (rewrite ?length_drop; lia).
Qed.
End PrefixLemmas.
