(* ===== verification/Cannelloni.v ===== *)
(** The CAN/UDP bridge proper: src/src/cannelloni.c and cannelloni.h.

    Module Queue models [frames_queue_t], Module Bridge the handle and the
    functions that move frames between the two queues and UDP datagrams. The
    frame buffers live in a store keyed by the buffer's address, because the
    handle only holds pointers to them ([Init.can_tx_buf], [Init.can_rx_buf])
    and two handles may hold the same pointer. *)

From Stdlib Require Import ZArith Lia.
From stdpp Require Import base list numbers gmap.
From S2P Require Import Prelude.

Open Scope Z_scope.

(* ------------------------------------------------------------------ *)
(** * Constants and data of cannelloni.h *)

Definition CANNELLONI_FRAME_BASE_SIZE : Z := 5.
Definition CANNELLONI_DATA_PACKET_BASE_SIZE : Z := 5.
Definition CANNELLONI_FRAME_VERSION : Z := 2.
Definition CANFD_FRAME : Z := 0x80.
Definition CNL_DATA : Z := 0.
Definition CAN_RTR_FLAG : Z := 0x40000000.
Definition CNL_CANFD_MAX_DLEN : Z := 8.

(** [struct canfd_frame]; [data] has [CNL_CANFD_MAX_DLEN] bytes. *)
Record canfd_frame := mk_frame {
  can_id : Z;
  len : Z;
  flags : Z;
  data : list Z
}.

(** [frames_queue_t]; [q_frames] is the address of the frame array. *)
Record frames_queue := mk_queue {
  q_head : Z;
  q_tail : Z;
  q_count : Z;
  q_frames : Z
}.

(** The frame arrays of the program, by address. *)
Abbreviation fstore := (gmap Z (list canfd_frame)).

#[export] Instance canfd_frame_eq_dec : EqDecision canfd_frame.
Proof. solve_decision. Defined.
#[export] Instance frames_queue_eq_dec : EqDecision frames_queue.
Proof. solve_decision. Defined.

(** [canfd_len]: [f->len & ~(CANFD_FRAME)], returned as [uint8_t]. *)
Definition canfd_len (f : canfd_frame) : Z := u8 (Z.land (len f) (Z.lnot CANFD_FRAME)).

(** The frame [frames[i]] of the array at [buf], read and written through a
    pointer. *)
Definition frame_load (st : fstore) (buf i : Z) : outcome canfd_frame :=
  match st !! buf with None => Fault NullPointer | Some fs => rd fs i end.

Definition frame_store (st : fstore) (buf i : Z) (f : canfd_frame) : outcome fstore :=
  match st !! buf with
  | None => Fault NullPointer
  | Some fs => fs' ← wr fs i f; mret (<[buf := fs']> st)
  end.

(* ------------------------------------------------------------------ *)
(** * The ring buffer *)

Module Queue.

Definition queue_init (frames count : Z) : frames_queue :=
  mk_queue 0 0 count frames.

(** [a % b] on [size_t]. *)
Definition modz (a b : Z) : outcome Z :=
  if b =? 0 then Fault DivByZero else Ok (a mod b).

(** The slot handed out is returned as an index into [q->frames]. *)
Definition queue_put (q : frames_queue) : outcome (option Z * frames_queue) :=
  next ← modz (u32 (q_tail q + 1)) (q_count q);
  if next =? q_head q then mret (None, q)
  else mret (Some (q_tail q), mk_queue (q_head q) next (q_count q) (q_frames q)).

Definition queue_take (q : frames_queue) : outcome (option Z * frames_queue) :=
  if q_head q =? q_tail q then mret (None, q)
  else
    next ← modz (u32 (q_head q + 1)) (q_count q);
    mret (Some (q_head q), mk_queue next (q_tail q) (q_count q) (q_frames q)).

Definition queue_peek (q : frames_queue) : option Z :=
  if q_head q =? q_tail q then None else Some (q_head q).

(** ** The abstract queue *)

Definition queue_ok (q : frames_queue) : Prop :=
  0 <= q_head q < q_count q /\ 0 <= q_tail q < q_count q /\ q_count q < 4294967296.

#[export] Instance queue_ok_dec q : Decision (queue_ok q).
Proof. unfold queue_ok. apply _. Defined.

Definition q_len (q : frames_queue) : Z := (q_tail q - q_head q) mod q_count q.

(** The slots in use, from the head. *)
Definition q_slots (q : frames_queue) : list Z :=
  (fun i => (q_head q + i) mod q_count q) <$> seqZ 0 (q_len q).

Section Facts.
Implicit Types q : frames_queue.

Lemma q_len_range q : queue_ok q -> 0 <= q_len q < q_count q.
Proof. intros (? & ? & ?). apply Z.mod_pos_bound. lia. Qed.

Lemma q_slots_length q : queue_ok q -> zlen (q_slots q) = q_len q.
Proof.
  intros H%q_len_range. unfold q_slots. rewrite length_fmap, length_seqZ. lia.
Qed.

Lemma q_len_alt q :
  queue_ok q ->
  q_len q = (if q_head q <=? q_tail q then q_tail q - q_head q
             else q_tail q - q_head q + q_count q).
Proof.
  intros (? & ? & ?). unfold q_len. destruct (Z.leb_spec (q_head q) (q_tail q)).
  - apply Z.mod_small. lia.
  - rewrite <- (Z.mod_add _ 1) by lia. rewrite Z.mod_small; lia.
Qed.

(** Slot [i] of the abstract queue, without the remainder. *)
Lemma slot_alt q i :
  queue_ok q -> 0 <= i < q_count q ->
  (q_head q + i) mod q_count q =
  (if q_head q + i <? q_count q then q_head q + i else q_head q + i - q_count q).
Proof.
  intros (? & ? & ?) ?. destruct (Z.ltb_spec (q_head q + i) (q_count q)).
  - apply Z.mod_small. lia.
  - rewrite <- (Z.mod_add _ (-1)) by lia. rewrite Z.mod_small; lia.
Qed.

Lemma succ_alt c i :
  0 <= i < c -> c < 4294967296 ->
  u32 (i + 1) mod c = (if i + 1 <? c then i + 1 else 0).
Proof.
  intros ? ?. unfold u32. rewrite (Z.mod_small (i + 1) 4294967296) by lia.
  destruct (Z.ltb_spec (i + 1) c); [apply Z.mod_small; lia|].
  replace (i + 1) with c by lia. apply Z.mod_same. lia.
Qed.

Lemma modz_pos a b : 0 < b -> modz a b = Ok (a mod b).
Proof. intros. unfold modz. destruct (Z.eqb_spec b 0); [lia|done]. Qed.

Lemma q_slots_range q s : queue_ok q -> s ∈ q_slots q -> 0 <= s < q_count q.
Proof.
  intros (? & ? & ?) (i & -> & _)%list_elem_of_fmap. apply Z.mod_pos_bound. lia.
Qed.

Lemma q_slots_nil q : queue_ok q -> (q_slots q = []) <-> (q_head q = q_tail q).
Proof.
  intros H. rewrite <- length_zero_iff_nil.
  pose proof (q_slots_length q H). pose proof (q_len_alt q H).
  destruct H as (? & ? & ?).
  zcase.
Qed.

(** [queue_put]: refused exactly when [count - 1] slots are in use,
    otherwise the slot at the tail joins the queue at its end. *)
Lemma queue_put_full q :
  queue_ok q -> q_len q = q_count q - 1 -> queue_put q = Ok (None, q).
Proof.
  intros H Hl. rewrite q_len_alt in Hl by done. destruct H as (? & ? & ?).
  unfold queue_put. rewrite modz_pos by lia. simpl.
  rewrite succ_alt by lia. zcase; done.
Qed.

Lemma queue_put_room q :
  queue_ok q -> q_len q <> q_count q - 1 ->
  exists q', queue_put q = Ok (Some (q_tail q), q') /\ queue_ok q' /\
    q_slots q' = q_slots q ++ [q_tail q] /\ (q_tail q ∉ q_slots q) /\
    q_len q' = q_len q + 1 /\ q_count q' = q_count q /\
    q_frames q' = q_frames q /\ q_head q' = q_head q.
Proof.
  intros H Hl. pose proof (q_len_range q H) as Hr. pose proof H as (? & ? & ?).
  pose proof (succ_alt (q_count q) (q_tail q) ltac:(lia) ltac:(lia)) as Hnt.
  remember (u32 (q_tail q + 1) mod q_count q) as nt eqn:Ent.
  set (q' := mk_queue (q_head q) nt (q_count q) (q_frames q)).
  assert (Hq' : queue_ok q').
  { unfold queue_ok; simpl. zcase. }
  assert (Hlen : q_len q' = q_len q + 1).
  { rewrite (q_len_alt q), (q_len_alt q') in * by done. simpl. zcase. }
  exists q'. split.
  { unfold queue_put. rewrite modz_pos by lia. simpl. rewrite <- Ent.
    destruct (Z.eqb_spec nt (q_head q)) as [He|]; [|done].
    exfalso. rewrite (q_len_alt q'), (q_len_alt q) in Hlen by done.
    simpl in Hlen. zcase. }
  assert (Htail : (q_head q + q_len q) mod q_count q = q_tail q).
  { rewrite slot_alt by done. rewrite q_len_alt by done.
    zcase. }
  repeat split; try done; try apply Hq'.
  - unfold q_slots. rewrite Hlen. simpl.
    rewrite seqZ_app by lia. rewrite fmap_app. simpl. do 2 f_equal.
    rewrite <- Htail. done.
  - unfold q_slots. intros (i & Hi & Hin)%list_elem_of_fmap.
    apply elem_of_seqZ in Hin. rewrite <- Htail in Hi.
    rewrite !slot_alt in Hi by (done || lia). zcase.
Qed.

(** [queue_peek] and [queue_take] give the head of the abstract queue. *)
Lemma queue_peek_slots q : queue_ok q -> queue_peek q = head (q_slots q).
Proof.
  intros H. unfold queue_peek. destruct (Z.eqb_spec (q_head q) (q_tail q)) as [He|Hn].
  - rewrite (proj2 (q_slots_nil q H) He). done.
  - pose proof (q_len_range q H). pose proof (q_slots_length q H).
    assert (q_len q <> 0).
    { intros E. apply Hn, (q_slots_nil q H), length_zero_iff_nil. lia. }
    unfold q_slots. rewrite seqZ_cons by lia. simpl.
    destruct H as (? & ? & ?). rewrite Z.add_0_r, Z.mod_small by lia. done.
Qed.

Lemma queue_take_empty q :
  queue_ok q -> q_slots q = [] -> queue_take q = Ok (None, q).
Proof.
  intros H He. apply q_slots_nil in He; [|done]. unfold queue_take.
  rewrite He, Z.eqb_refl. done.
Qed.

Lemma queue_take_slots q s ss :
  queue_ok q -> q_slots q = s :: ss ->
  exists q', queue_take q = Ok (Some s, q') /\ queue_ok q' /\ q_slots q' = ss /\
    q_len q' = q_len q - 1 /\ q_count q' = q_count q /\
    q_frames q' = q_frames q /\ q_tail q' = q_tail q.
Proof.
  intros H Hs. pose proof (q_len_range q H) as Hr.
  pose proof (q_slots_length q H) as Hl. pose proof H as (? & ? & ?).
  assert (Hne : q_head q <> q_tail q).
  { intros E%(q_slots_nil q H). congruence. }
  assert (Hpos : 0 < q_len q) by (rewrite Hs in Hl; simpl in Hl; lia).
  pose proof (succ_alt (q_count q) (q_head q) ltac:(lia) ltac:(lia)) as Hnh.
  remember (u32 (q_head q + 1) mod q_count q) as nh eqn:Enh.
  set (q' := mk_queue nh (q_tail q) (q_count q) (q_frames q)).
  assert (Hq' : queue_ok q').
  { unfold queue_ok; simpl. zcase. }
  assert (Hlen : q_len q' = q_len q - 1).
  { rewrite (q_len_alt q), (q_len_alt q') in * by done. simpl. zcase. }
  unfold q_slots in Hs. rewrite seqZ_cons in Hs by lia. simpl in Hs.
  injection Hs as Hs Hss. rewrite Z.add_0_r, Z.mod_small in Hs by lia. subst s.
  exists q'. split.
  { unfold queue_take. destruct (Z.eqb_spec (q_head q) (q_tail q)); [lia|].
    rewrite modz_pos by lia. simpl. rewrite <- Enh. done. }
  repeat split; try done; try apply Hq'.
  rewrite <- Hss. unfold q_slots. rewrite Hlen. simpl.
  replace (seqZ (Z.succ 0) (Z.pred (q_len q))) with (Z.add 1 <$> seqZ 0 (q_len q - 1))
    by (rewrite fmap_add_seqZ; f_equal; lia).
  change (list_fmap Z Z) with (@fmap list _ Z Z). rewrite <- list_fmap_compose.
  apply list_fmap_ext. intros k i [Hi ?]%lookup_seqZ. simpl.
  rewrite Enh. unfold u32. rewrite (Z.mod_small (q_head q + 1) 4294967296) by lia.
  rewrite Zplus_mod_idemp_l. f_equal. lia.
Qed.
End Facts.
End Queue.

(* ------------------------------------------------------------------ *)
(** * What the bridge uses of lwIP *)

(** The calls of cannelloni.c into lwIP, on a state [W] of the stack and
    packets [P]. [pbuf_payload p] are the [p->len] bytes at [p->payload];
    [pbuf_fill p b n] is [p] after the bytes at its payload became [b] and
    [p->tot_len = p->len = n]. *)
Class NetStack (W P : Type) := {
  pbuf_tot_len : P -> Z;
  pbuf_payload : P -> list Z;
  pbuf_fill : P -> list Z -> Z -> P;
  pbuf_alloc : Z -> W -> option P * W;
  pbuf_free : P -> W -> W;
  udp_sendto : option Z -> P -> list Z -> Z -> W -> W;
  udp_new : W -> option Z * W;
  udp_bind : Z -> Z -> W -> Z * W;
  udp_recv : Z -> W -> W
}.

(** What it relies on: a fresh [PBUF_RAM] pbuf is one contiguous buffer of
    the requested length, and [sent], the datagrams handed to [udp_sendto],
    grows by that call only. *)
Class NetStackLaws (W P : Type) `{NetStack W P} := {
  sent : W -> list (list Z);
  pbuf_alloc_some n w p w' :
    0 <= n -> pbuf_alloc n w = (Some p, w') ->
    pbuf_tot_len p = n /\ zlen (pbuf_payload p) = n /\ sent w' = sent w;
  pbuf_alloc_none n w w' : pbuf_alloc n w = (None, w') -> sent w' = sent w;
  pbuf_fill_lens p b n :
    zlen b = zlen (pbuf_payload p) -> 0 <= n <= zlen b ->
    pbuf_tot_len (pbuf_fill p b n) = n /\
    pbuf_payload (pbuf_fill p b n) = take (Z.to_nat n) b;
  pbuf_free_sent p w : sent (pbuf_free p w) = sent w;
  udp_sendto_sent pcb p a prt w :
    sent (udp_sendto pcb p a prt w) = sent w ++ [pbuf_payload p]
}.

(* ------------------------------------------------------------------ *)
(** * The handle and its operations *)

Module Bridge.
Import Queue.

(** The [Init] part of the handle; the callbacks [can_tx_fn] and
    [can_rx_fn] are arguments of the functions that call them. *)
Record cnl_init := mk_init {
  port : Z;
  addr : list Z;
  remote_port : Z;
  can_buf_size : Z;
  can_tx_buf : Z;
  can_rx_buf : Z
}.

Record cannelloni_handle := mk_handle {
  Init : cnl_init;
  tx_queue : frames_queue;
  rx_queue : frames_queue;
  sequence_number : Z;
  udp_pcb : option Z;
  udp_rx_count : Z
}.

Definition set_tx_queue (h : cannelloni_handle) (q : frames_queue) :=
  mk_handle (Init h) q (rx_queue h) (sequence_number h) (udp_pcb h) (udp_rx_count h).
Definition set_rx_queue (h : cannelloni_handle) (q : frames_queue) :=
  mk_handle (Init h) (tx_queue h) q (sequence_number h) (udp_pcb h) (udp_rx_count h).
Definition set_sequence_number (h : cannelloni_handle) (n : Z) :=
  mk_handle (Init h) (tx_queue h) (rx_queue h) n (udp_pcb h) (udp_rx_count h).
Definition set_udp_pcb (h : cannelloni_handle) (p : option Z) :=
  mk_handle (Init h) (tx_queue h) (rx_queue h) (sequence_number h) p (udp_rx_count h).
Definition set_udp_rx_count (h : cannelloni_handle) (n : Z) :=
  mk_handle (Init h) (tx_queue h) (rx_queue h) (sequence_number h) (udp_pcb h) n.

(** [get_can_rx_frame]. *)
Definition get_can_rx_frame (h : cannelloni_handle)
    : outcome (option Z * cannelloni_handle) :=
  '(s, q) ← queue_put (rx_queue h);
  mret (s, set_rx_queue h q).

(** ** UDP to CAN *)

(** The [canfd_frame] header at [raw + pos]: id, length and flags, with
    the position behind it. *)
Definition read_frame_header (raw : list Z) (pos : Z) : outcome (Z * Z * Z * Z) :=
  b0 ← rd raw pos; b1 ← rd raw (pos + 1); b2 ← rd raw (pos + 2); b3 ← rd raw (pos + 3);
  let id := u32 (Z.lor (Z.lor (Z.lor (Z.shiftl b0 24) (Z.shiftl b1 16)) (Z.shiftl b2 8)) b3) in
  let pos := u16 (pos + 4) in
  l ← rd raw pos;
  let pos := u16 (pos + 1) in
  if negb (Z.land l CANFD_FRAME =? 0) then
    fl ← rd raw pos; mret (id, l, fl, u16 (pos + 1))
  else mret (id, l, 0, pos).

(** The body of the loop over [data->count]: [None] for each [break]. *)
Definition rx_frame (raw : list Z) (tot_len pos : Z) (q : frames_queue) (st : fstore)
    : outcome (option (Z * frames_queue * fstore)) :=
  if tot_len <? pos + CANNELLONI_FRAME_BASE_SIZE then mret None
  else
    '(id, l, fl, pos) ← read_frame_header raw pos;
    let dlc := u8 (Z.land l (Z.lnot CANFD_FRAME)) in
    let rtr := negb (Z.land id CAN_RTR_FLAG =? 0) in
    if negb rtr && (tot_len <? pos + dlc) then mret None
    else
      '(slot, q') ← queue_put q;
      match slot with
      | None => mret None
      | Some i =>
          old ← frame_load st (q_frames q) i;
          if rtr then
            st' ← frame_store st (q_frames q) i (mk_frame id l fl (data old));
            mret (Some (pos, q', st'))
          else
            src ← rd_block raw pos dlc;
            d ← wr_block (data old) 0 src;
            st' ← frame_store st (q_frames q) i (mk_frame id l fl d);
            mret (Some (u16 (pos + dlc), q', st'))
      end.

Fixpoint rx_frames (n : nat) (raw : list Z) (tot_len pos : Z) (q : frames_queue)
    (st : fstore) : outcome (frames_queue * fstore) :=
  match n with
  | O => mret (q, st)
  | S n =>
      r ← rx_frame raw tot_len pos q st;
      match r with
      | None => mret (q, st)
      | Some (pos, q, st) => rx_frames n raw tot_len pos q st
      end
  end.

Section Net.
Context {W P : Type} {NS : NetStack W P}.

Definition handle_cannelloni_frame (h : cannelloni_handle) (st : fstore)
    (p : option P) (w : W) : outcome (cannelloni_handle * fstore * W) :=
  match p with
  | None => mret (h, st, w)
  | Some p =>
      let raw := pbuf_payload p in
      r ← (if CANNELLONI_DATA_PACKET_BASE_SIZE <? pbuf_tot_len p then
             version ← rd raw 0;
             op_code ← rd raw 1;
             if (version =? CANNELLONI_FRAME_VERSION) && (op_code =? CNL_DATA) then
               hi ← rd raw 3; lo ← rd raw 4;
               '(q, st) ← rx_frames (Z.to_nat (be16 hi lo)) raw (pbuf_tot_len p)
                            CANNELLONI_DATA_PACKET_BASE_SIZE (tx_queue h) st;
               mret (set_tx_queue (set_udp_rx_count h (u32 (udp_rx_count h + 1))) q, st)
             else mret (h, st)
           else mret (h, st));
      mret (r.1, r.2, pbuf_free p w)
  end.

(** ** CAN to UDP *)

(** The bytes of one frame written at [data + pos]. *)
Definition put_frame (d : list Z) (pos : Z) (f : canfd_frame) : outcome (list Z * Z) :=
  d ← wr d (pos + 0) (Z.land (Z.shiftr (can_id f) 24) 0xff);
  d ← wr d (pos + 1) (Z.land (Z.shiftr (can_id f) 16) 0xff);
  d ← wr d (pos + 2) (Z.land (Z.shiftr (can_id f) 8) 0xff);
  d ← wr d (pos + 3) (Z.land (can_id f) 0xff);
  let pos := u16 (pos + 4) in
  d ← wr d pos (len f);
  let pos := u16 (pos + 1) in
  src ← rd_block (data f) 0 (canfd_len f);
  d ← wr_block d pos src;
  mret (d, u16 (pos + canfd_len f)).

(** The loop of [transmit_udp_frame]: the queue, the buffer, the
    position, the number of frames and whether a frame was left. *)
Fixpoint tx_frames (fuel : nat) (st : fstore) (tot_len : Z) (q : frames_queue)
    (d : list Z) (pos n : Z) : outcome (frames_queue * list Z * Z * Z * bool) :=
  match queue_peek q with
  | None => mret (q, d, pos, n, false)
  | Some i =>
      f ← frame_load st (q_frames q) i;
      if pos + CANNELLONI_FRAME_BASE_SIZE + canfd_len f <? tot_len then
        match fuel with
        | O => Fault Diverges
        | S fuel =>
            '(s, q') ← queue_take q;
            match s with
            | None => Fault NullPointer
            | Some j =>
                g ← frame_load st (q_frames q) j;
                '(d, pos) ← put_frame d pos g;
                tx_frames fuel st tot_len q' d pos (u16 (n + 1))
            end
        end
      else mret (q, d, pos, n, true)
  end.

(** The header stored through [struct cannelloni_data_packet]. *)
Definition put_header (d : list Z) (seq count : Z) : outcome (list Z) :=
  d ← wr d 0 CANNELLONI_FRAME_VERSION;
  d ← wr d 1 CNL_DATA;
  d ← wr d 2 (u8 seq);
  d ← wr d 3 (count / 256);
  wr d 4 (count mod 256).

Definition transmit_udp_frame (h : cannelloni_handle) (st : fstore) (w : W)
    : outcome (bool * cannelloni_handle * W) :=
  match queue_peek (rx_queue h) with
  | None => mret (false, h, w)
  | Some _ =>
      match pbuf_alloc 1200 w with
      | (None, w) => mret (false, h, w)
      | (Some p, w) =>
          '(q, d, pos, n, more) ←
            tx_frames (Z.to_nat (q_count (rx_queue h))) st (pbuf_tot_len p) (rx_queue h)
              (pbuf_payload p) CANNELLONI_DATA_PACKET_BASE_SIZE 0;
          d ← put_header d (sequence_number h) n;
          let h := set_sequence_number (set_rx_queue h q) (u32 (sequence_number h + 1)) in
          let p := pbuf_fill p d pos in
          let w := udp_sendto (udp_pcb h) p (addr (Init h)) (remote_port (Init h)) w in
          mret (more, h, pbuf_free p w)
      end
  end.

(** ** The main loop's step *)

Section Callbacks.
(** [C] is the state of the CAN controller behind the callbacks. *)
Context {C : Type}.
Variable can_tx_fn : option (canfd_frame -> C -> outcome (bool * C)).
Variable can_rx_fn :
  option (cannelloni_handle -> fstore -> C -> outcome (cannelloni_handle * fstore * C)).

Fixpoint tx_can_loop (fuel : nat) (tx : canfd_frame -> C -> outcome (bool * C))
    (q : frames_queue) (st : fstore) (c : C) : outcome (frames_queue * C) :=
  match queue_peek q with
  | None => mret (q, c)
  | Some i =>
      f ← frame_load st (q_frames q) i;
      '(done, c) ← tx f c;
      if done : bool then
        match fuel with
        | O => Fault Diverges
        | S fuel => '(_, q) ← queue_take q; tx_can_loop fuel tx q st c
        end
      else mret (q, c)
  end.

Definition transmit_can_frames (h : cannelloni_handle) (st : fstore) (c : C)
    : outcome (cannelloni_handle * C) :=
  match can_tx_fn with
  | None => mret (h, c)
  | Some tx =>
      '(q, c) ← tx_can_loop (Z.to_nat (q_count (tx_queue h))) tx (tx_queue h) st c;
      mret (set_tx_queue h q, c)
  end.

Definition receive_can_frames (h : cannelloni_handle) (st : fstore) (c : C)
    : outcome (cannelloni_handle * fstore * C) :=
  match can_rx_fn with
  | None => mret (h, st, c)
  | Some rx => rx h st c
  end.

(** [while (transmit_udp_frame(handle));] *)
Fixpoint transmit_all (fuel : nat) (h : cannelloni_handle) (st : fstore) (w : W)
    : outcome (cannelloni_handle * W) :=
  '(more, h, w) ← transmit_udp_frame h st w;
  if more : bool then
    match fuel with
    | O => Fault Diverges
    | S fuel => transmit_all fuel h st w
    end
  else mret (h, w).

Definition run_cannelloni (h : cannelloni_handle) (st : fstore) (c : C) (w : W)
    : outcome (cannelloni_handle * fstore * C * W) :=
  '(h, c) ← transmit_can_frames h st c;
  '(h, st, c) ← receive_can_frames h st c;
  '(h, w) ← transmit_all (Z.to_nat (q_count (rx_queue h))) h st w;
  mret (h, st, c, w).
End Callbacks.

Definition init_cannelloni (h : cannelloni_handle) (w : W)
    : cannelloni_handle * W :=
  let i := Init h in
  let h := mk_handle i (queue_init (can_tx_buf i) (can_buf_size i))
             (queue_init (can_rx_buf i) (can_buf_size i)) 0 (udp_pcb h) 0 in
  let '(pcb, w) := udp_new w in
  let h := set_udp_pcb h pcb in
  match pcb with
  | None => (h, w)
  | Some pcb =>
      let '(err, w) := udp_bind pcb (port i) w in
      if negb (err =? 0) then (h, w) else (h, udp_recv pcb w)
  end.
End Net.
End Bridge.
