(* ===== verification/BridgeProofs.v ===== *)
(** Proofs about the bridge: the frame queues as bounded FIFOs, the datagram
    format, and what each function of src/src/cannelloni.c does to the two
    queues. *)

From Stdlib Require Import ZArith Lia.
From stdpp Require Import base list numbers gmap.
From S2P Require Import Prelude Cannelloni.
Import Queue Bridge.

Open Scope Z_scope.

(* ------------------------------------------------------------------ *)
(** * Queues of frames in a store *)

Definition data_ok (f : canfd_frame) : Prop := zlen (data f) = CNL_CANFD_MAX_DLEN.

(** [q], over the frame arrays [st], holds the frames [l], oldest first. *)
Record q_rep (st : fstore) (q : frames_queue) (l : list canfd_frame) : Prop := {
  rep_ok : queue_ok q;
  rep_buf : exists arr, st !! q_frames q = Some arr /\ zlen arr = q_count q /\ Forall data_ok arr;
  rep_view : Forall2 (fun s f => frame_load st (q_frames q) s = Ok f) (q_slots q) l
}.

(** The most frames a queue holds: one slot stays free. *)
Definition q_room (q : frames_queue) (l : list canfd_frame) : bool :=
  zlen l <? q_count q - 1.

Section QueueRep.
Implicit Types (st : fstore) (q : frames_queue) (l : list canfd_frame).

Lemma frame_load_some st buf arr i :
  st !! buf = Some arr -> frame_load st buf i = rd arr i.
Proof. unfold frame_load. by intros ->. Qed.

Lemma q_rep_len st q l : q_rep st q l -> zlen l = q_len q.
Proof.
  intros [Hok _ Hv%Forall2_length]. rewrite <- q_slots_length by done. lia.
Qed.

Lemma Forall2_impl_in {A B} (R S : A -> B -> Prop) xs ys :
  Forall2 R xs ys -> (forall x y, x ∈ xs -> R x y -> S x y) -> Forall2 S xs ys.
Proof. induction 1; constructor; set_solver. Qed.

Lemma q_rep_data st q l : q_rep st q l -> Forall data_ok l.
Proof.
  intros [Hok (arr & Hb & Hl & Hd) Hv]. clear Hok.
  induction Hv as [|s f ss l Hs _ IH]; constructor; [|done].
  erewrite frame_load_some in Hs by done. apply rd_ok in Hs as [_ Hs].
  rewrite Forall_lookup in Hd. eauto.
Qed.

Lemma frame_store_ok st q arr i f :
  st !! q_frames q = Some arr -> 0 <= i < zlen arr ->
  frame_store st (q_frames q) i f = Ok (<[q_frames q := <[Z.to_nat i := f]> arr]> st).
Proof. intros Hb Hi. unfold frame_store. rewrite Hb, wr_in by done. done. Qed.

Lemma frame_load_store st q arr i j f :
  st !! q_frames q = Some arr -> 0 <= i < zlen arr -> 0 <= j ->
  frame_load (<[q_frames q := <[Z.to_nat i := f]> arr]> st) (q_frames q) j =
  (if j =? i then Ok f else frame_load st (q_frames q) j).
Proof.
  intros Hb Hi Hj. erewrite !frame_load_some; [|done|by rewrite lookup_insert_eq].
  unfold rd. destruct (Z.ltb_spec j 0); [lia|]. zcase.
  - subst. rewrite list_lookup_insert_eq by lia. done.
  - rewrite list_lookup_insert_ne by lia. done.
Qed.

(** The tail slot exists, is not in use, and writing a frame there after
    [queue_put] makes it the newest frame of the queue. *)
Lemma q_rep_put st q l :
  q_rep st q l -> q_room q l = true ->
  exists q', queue_put q = Ok (Some (q_tail q), q') /\
    q_frames q' = q_frames q /\ q_count q' = q_count q /\ q_head q' = q_head q /\
    (exists old, frame_load st (q_frames q) (q_tail q) = Ok old /\ data_ok old) /\
    forall f, data_ok f -> exists st',
      frame_store st (q_frames q) (q_tail q) f = Ok st' /\ q_rep st' q' (l ++ [f]) /\
      forall b, b <> q_frames q -> st' !! b = st !! b.
Proof.
  intros HR Hroom. pose proof (q_rep_len st q l HR) as Hlen.
  destruct HR as [Hok (arr & Hb & Hl & Hd) Hv].
  unfold q_room in Hroom. apply Z.ltb_lt in Hroom.
  destruct (queue_put_room q Hok) as (q' & Hput & Hok' & Hsl & Hnin & _ & Hc & Hf & Hhd); [lia|].
  pose proof Hok as (_ & Htl & _).
  exists q'. split_and!; [done..| |].
  - destruct (rd_in arr (q_tail q)) as [old Hold]; [lia|].
    exists old. erewrite frame_load_some by done. split; [done|].
    apply rd_ok in Hold as [_ Hold]. rewrite Forall_lookup in Hd. eauto.
  - intros f Hdf. eexists. split; [by apply frame_store_ok; [done|lia]|]. split.
    + split; [done| |].
      * rewrite Hf. eexists. rewrite lookup_insert_eq. split; [done|].
        rewrite length_insert. split; [lia|]. by apply Forall_insert.
      * rewrite Hf, Hsl. apply Forall2_app.
        -- eapply Forall2_impl_in; [exact Hv|]. intros s g Hs Hg.
           pose proof (q_slots_range q s Hok Hs).
           rewrite (frame_load_store st q arr) by (done || lia).
           destruct (Z.eqb_spec s (q_tail q)); [congruence|done].
        -- constructor; [|done]. rewrite (frame_load_store st q arr) by (done || lia).
           by rewrite Z.eqb_refl.
    + intros b Hne. by rewrite lookup_insert_ne.
Qed.

Lemma q_rep_put_full st q l :
  q_rep st q l -> q_room q l = false -> queue_put q = Ok (None, q).
Proof.
  intros HR Hroom. pose proof (q_rep_len st q l HR) as Hlen. destruct HR as [Hok _ _].
  unfold q_room in Hroom. apply Z.ltb_ge in Hroom. pose proof (q_len_range q Hok).
  apply queue_put_full; [done|lia].
Qed.

Lemma q_rep_nil st q : q_rep st q [] -> queue_peek q = None /\ queue_take q = Ok (None, q).
Proof.
  intros [Hok _ Hv%Forall2_nil_inv_r].
  split; [by rewrite queue_peek_slots, Hv|by apply queue_take_empty].
Qed.

Lemma q_rep_cons st q f l :
  q_rep st q (f :: l) ->
  exists s q', queue_peek q = Some s /\ frame_load st (q_frames q) s = Ok f /\
    queue_take q = Ok (Some s, q') /\ q_rep st q' l /\
    q_count q' = q_count q /\ q_frames q' = q_frames q.
Proof.
  intros [Hok (arr & Hb & Hl & Hd) Hv].
  apply Forall2_cons_inv_r in Hv as (s & ss & Hs & Hv & Hsl).
  destruct (queue_take_slots q s ss Hok Hsl) as (q' & Ht & Hok' & Hss & _ & Hc & Hf & _).
  exists s, q'. rewrite queue_peek_slots, Hsl by done.
  split_and!; try done. split; [done| |].
  - exists arr. by rewrite Hc, Hf.
  - by rewrite Hf, Hss.
Qed.
End QueueRep.

(* ------------------------------------------------------------------ *)
(** * The datagram format *)

(** Bytes of a frame as [transmit_udp_frame] writes them. *)
Definition enc_frame (f : canfd_frame) : list Z :=
  be32_bytes (can_id f) ++ [len f] ++ take (Z.to_nat (canfd_len f)) (data f).

Definition enc_body (fs : list canfd_frame) : list Z := concat (enc_frame <$> fs).

Definition enc_header (seq count : Z) : list Z :=
  [CANNELLONI_FRAME_VERSION; CNL_DATA; u8 seq; count / 256; count mod 256].

Definition enc_datagram (seq : Z) (fs : list canfd_frame) : list Z :=
  enc_header seq (zlen fs) ++ enc_body fs.


(** Frames are the same on the wire when id, length and the data bytes the
    length announces agree; [flags] and the rest of [data] do not count. *)
Definition frame_eqv (f g : canfd_frame) : Prop :=
  can_id f = can_id g /\ len f = len g /\
  take (Z.to_nat (canfd_len f)) (data f) = take (Z.to_nat (canfd_len g)) (data g).

#[export] Instance frame_eqv_equiv : Equivalence frame_eqv.
Proof.
  split.
  - by intros f.
  - intros f g (? & ? & ?). by split_and!.
  - intros f g h (? & ? & ?) (? & ? & ?). split_and!; congruence.
Qed.

#[export] Instance enc_frame_proper : Proper (frame_eqv ==> eq) enc_frame.
Proof. intros f g (Hi & Hl & Hd). unfold enc_frame. by rewrite Hi, Hl, Hd. Qed.

(** A frame the wire format carries: a classic frame of at most 8 bytes
    without the RTR flag. *)
Definition frame_ok (f : canfd_frame) : bool :=
  bool_decide (is_u32 (can_id f)) && (0 <=? len f) && (len f <=? 8) &&
  (Z.land (can_id f) CAN_RTR_FLAG =? 0) && (zlen (data f) =? 8).

(** A frame the encoder reads inside its [data] array. *)
Definition frame_fits (f : canfd_frame) : Prop := canfd_len f <= 8 /\ data_ok f.

Section Codec.
Implicit Types (f g : canfd_frame) (fs : list canfd_frame) (raw d : list Z).

Lemma canfd_len_u8 f : is_u8 (canfd_len f).
Proof. apply u8_range. Qed.

Lemma short_len l :
  0 <= l <= 8 -> u8 (Z.land l (Z.lnot CANFD_FRAME)) = l /\ Z.land l CANFD_FRAME = 0.
Proof.
  intros. assert (Hc : (u8 (Z.land l (Z.lnot CANFD_FRAME)) =? l) && (Z.land l CANFD_FRAME =? 0)
                  || (8 <? l) = true).
  { apply (u8_cases (fun l => (u8 (Z.land l (Z.lnot CANFD_FRAME)) =? l) &&
             (Z.land l CANFD_FRAME =? 0) || (8 <? l))); [by vm_compute|]. red. lia. }
  apply orb_true_iff in Hc as [Hc|?]; [|lia]. apply andb_true_iff in Hc. lia.
Qed.

Lemma frame_ok_fields f :
  frame_ok f = true ->
  is_u32 (can_id f) /\ 0 <= len f <= 8 /\ canfd_len f = len f /\
  Z.land (can_id f) CAN_RTR_FLAG = 0 /\ Z.land (len f) CANFD_FRAME = 0 /\ data_ok f.
Proof.
  unfold frame_ok. rewrite !andb_true_iff, bool_decide_eq_true, !Z.leb_le, !Z.eqb_eq.
  intros ((((Hid & ?) & ?) & ?) & ?). destruct (short_len (len f)); [lia|].
  unfold canfd_len, data_ok, CNL_CANFD_MAX_DLEN. auto with lia.
Qed.

Lemma frame_ok_fits f : frame_ok f = true -> frame_fits f.
Proof. intros (_ & ? & He & _ & _ & ?)%frame_ok_fields. split; [lia|done]. Qed.

Lemma enc_frame_length f : frame_fits f -> zlen (enc_frame f) = 5 + canfd_len f.
Proof.
  intros [Hl Hd]. unfold data_ok, CNL_CANFD_MAX_DLEN in Hd. pose proof (canfd_len_u8 f).
  unfold enc_frame. rewrite !length_app, length_take. simpl. red in H. lia.
Qed.

Lemma enc_body_app fs1 fs2 : enc_body (fs1 ++ fs2) = enc_body fs1 ++ enc_body fs2.
Proof. unfold enc_body. by rewrite fmap_app, concat_app. Qed.

Lemma enc_body_nil : enc_body [] = [].
Proof. done. Qed.

Lemma enc_body_cons f fs : enc_body (f :: fs) = enc_frame f ++ enc_body fs.
Proof. done. Qed.

Lemma enc_body_length fs : Forall frame_fits fs -> 5 * zlen fs <= zlen (enc_body fs).
Proof.
  induction 1 as [|f fs Hf _ IH]; [done|].
  rewrite enc_body_cons, length_app. pose proof (enc_frame_length f Hf).
  pose proof (canfd_len_u8 f) as []. rewrite length_cons. lia.
Qed.

(** [put_frame] writes [enc_frame] and advances past it. *)
Lemma put_frame_spec f a m b pos :
  frame_fits f -> pos = zlen a -> zlen m = 5 + canfd_len f ->
  pos + zlen m < 65536 ->
  put_frame (a ++ m ++ b) pos f = Ok (a ++ enc_frame f ++ b, pos + zlen m).
Proof.
  intros [Hl Hd] -> Hm Hb. pose proof (canfd_len_u8 f) as [Hlo _].
  destruct m as [|x0 [|x1 [|x2 [|x3 [|x4 m]]]]]; try (simpl in Hm; lia).
  assert (Hm5 : zlen m = canfd_len f) by (simpl in Hm; lia).
  unfold put_frame. simpl app.
  rewrite wr_snoc by lia. simpl. rewrite wr_snoc by (rewrite !length_app; simpl; lia). simpl.
  rewrite wr_snoc by (rewrite !length_app; simpl; lia). simpl.
  rewrite wr_snoc by (rewrite !length_app; simpl; lia). simpl.
  rewrite (u16_small (zlen a + 4)) by (red; lia).
  rewrite wr_snoc by (rewrite !length_app; simpl; lia). simpl.
  rewrite (u16_small (zlen a + 4 + 1)) by (red; lia).
  unfold data_ok, CNL_CANFD_MAX_DLEN in Hd.
  rewrite rd_block_in by lia. rewrite drop_0. simpl.
  rewrite wr_block_mid by (rewrite ?length_app, ?length_take; simpl; lia). simpl.
  rewrite u16_small by (red; lia).
  unfold enc_frame, be32_bytes. rewrite <- !app_assoc. simpl. f_equal. f_equal. lia.
Qed.
End Codec.
#[local] Opaque enc_frame enc_body.

(* ------------------------------------------------------------------ *)
(** * CAN to UDP *)

(** Greedy packing: the frames [transmit_udp_frame] takes with [pos] bytes
    already written, and the frames it leaves. *)
Fixpoint pack (tot pos : Z) (fs : list canfd_frame) : list canfd_frame * list canfd_frame :=
  match fs with
  | [] => ([], [])
  | f :: fs' =>
      if pos + CANNELLONI_FRAME_BASE_SIZE + canfd_len f <? tot then
        let r := pack tot (pos + 5 + canfd_len f) fs' in (f :: r.1, r.2)
      else ([], fs)
  end.

Section Transmit.
Implicit Types (fs : list canfd_frame) (st : fstore) (q : frames_queue).

Lemma pack_app tot pos fs : (pack tot pos fs).1 ++ (pack tot pos fs).2 = fs.
Proof.
  revert pos. induction fs as [|f fs IH]; intros pos; simpl; [done|].
  case_match; simpl; [by rewrite IH|done].
Qed.

Lemma pack_size tot pos fs :
  Forall frame_fits fs -> pos < tot ->
  pos + zlen (enc_body (pack tot pos fs).1) < tot.
Proof.
  intros H. revert pos. induction H as [|f fs Hf _ IH]; intros pos Hp; simpl.
  { rewrite enc_body_nil. simpl. lia. }
  unfold CANNELLONI_FRAME_BASE_SIZE.
  destruct (Z.ltb_spec (pos + 5 + canfd_len f) tot); simpl; [|rewrite enc_body_nil; simpl; lia].
  rewrite enc_body_cons, length_app. specialize (IH (pos + 5 + canfd_len f) ltac:(lia)).
  pose proof (enc_frame_length f Hf). lia.
Qed.

(** The packing is greedy: the first frame left behind did not fit. *)
Lemma pack_rest tot pos fs g rest :
  Forall frame_fits fs -> (pack tot pos fs).2 = g :: rest ->
  tot <= pos + zlen (enc_body (pack tot pos fs).1) + 5 + canfd_len g.
Proof.
  intros H. revert pos. induction H as [|f fs Hf _ IH]; intros pos; [done|].
  cbn [pack]. unfold CANNELLONI_FRAME_BASE_SIZE.
  destruct (Z.ltb_spec (pos + 5 + canfd_len f) tot); cbn [fst snd].
  - intros Hr%IH. rewrite enc_body_cons, length_app, Nat2Z.inj_add.
    rewrite (enc_frame_length f Hf). lia.
  - intros [= -> ->]. rewrite enc_body_nil. simpl. lia.
Qed.

Lemma pack_first tot pos f fs :
  pos + 5 + canfd_len f < tot ->
  (pack tot pos (f :: fs)).1 = f :: (pack tot (pos + 5 + canfd_len f) fs).1.
Proof.
  intros. simpl. unfold CANNELLONI_FRAME_BASE_SIZE.
  destruct (Z.ltb_spec (pos + 5 + canfd_len f) tot); [done|lia].
Qed.

(** The loop packs greedily, writes the encodings behind the bytes already
    there and leaves the rest in the queue. *)
Lemma tx_frames_spec fuel st tot q a b n fs :
  q_rep st q fs -> Forall frame_fits fs -> (length fs <= fuel)%nat ->
  zlen a + zlen b = tot -> zlen a < tot -> tot < 65536 ->
  0 <= n -> n + zlen fs < 65536 ->
  exists q' b',
    tx_frames fuel st tot q (a ++ b) (zlen a) n =
      Ok (q', a ++ enc_body (pack tot (zlen a) fs).1 ++ b',
          zlen a + zlen (enc_body (pack tot (zlen a) fs).1),
          n + zlen (pack tot (zlen a) fs).1,
          negb (bool_decide ((pack tot (zlen a) fs).2 = []))) /\
    q_rep st q' (pack tot (zlen a) fs).2 /\
    zlen (enc_body (pack tot (zlen a) fs).1) + zlen b' = zlen b /\
    q_count q' = q_count q.
Proof.
  intros HR Hfit. revert q a b n fuel HR.
  induction Hfit as [|f fs Hf _ IH]; intros q a b n fuel HR Hfuel Hab Ha Htot Hn Hnl.
  { exists q, b. destruct (q_rep_nil _ _ HR) as [Hp _].
    destruct fuel; simpl; rewrite Hp; rewrite enc_body_nil; simpl; rewrite !Z.add_0_r; done. }
  destruct (q_rep_cons _ _ _ _ HR) as (s & q1 & Hp & Hl & Ht & HR1 & Hc & _).
  destruct fuel as [|fuel]; [simpl in Hfuel; lia|].
  simpl. rewrite Hp, Hl. simpl. unfold CANNELLONI_FRAME_BASE_SIZE.
  destruct (Z.ltb_spec (zlen a + 5 + canfd_len f) tot) as [Hlt|Hge]; simpl.
  2: { exists q, b. rewrite enc_body_nil. simpl.
       rewrite !Z.add_0_r. done. }
  rewrite Ht. simpl. rewrite Hl. simpl.
  pose proof (enc_frame_length f Hf) as Hel. pose proof (canfd_len_u8 f) as [Hlo _].
  assert (Hb : b = take (length (enc_frame f)) b ++ drop (length (enc_frame f)) b)
    by (by rewrite take_drop).
  rewrite Hb, (put_frame_spec f); try done; try (rewrite length_take; lia).
  simpl. rewrite app_assoc.
  replace (zlen a + zlen (take (length (enc_frame f)) b)) with (zlen (a ++ enc_frame f))
    by (rewrite length_app, length_take; lia).
  assert (Hpos : zlen (a ++ enc_frame f) = zlen a + 5 + canfd_len f)
    by (rewrite length_app; lia).
  rewrite (u16_small (n + 1)) by (red; simpl in Hnl; lia).
  edestruct (IH q1 (a ++ enc_frame f) (drop (length (enc_frame f)) b) (n + 1) fuel)
    as (q2 & b' & He & HR2 & Hlen & Hc2); try done;
    try (rewrite ?length_drop; simpl in *; lia).
  rewrite <- Hpos, He. exists q2, b'. simpl.
  rewrite length_drop in Hlen. rewrite enc_body_cons, <- app_assoc.
  split_and!; [|done|rewrite <- Hb, length_app; lia|congruence].
  rewrite !length_app, <- !app_assoc, !Nat2Z.inj_add, Nat2Z.inj_succ.
  rewrite <- Z.add_1_l, !Z.add_assoc. done.
Qed.

Lemma put_header_spec x b seq n :
  zlen x = 5 -> put_header (x ++ b) seq n = Ok (enc_header seq n ++ b).
Proof.
  intros Hx. destruct x as [|x0 [|x1 [|x2 [|x3 [|x4 [|]]]]]]; simpl in Hx; try lia.
  unfold put_header, enc_header.
  change (Z.to_nat 0) with 0%nat in *.
  do 5 (rewrite wr_in by (simpl; lia); cbn [mbind outcome_bind]). done.
Qed.

Lemma enc_datagram_length seq fs : zlen (enc_datagram seq fs) = 5 + zlen (enc_body fs).
Proof. unfold enc_datagram. rewrite length_app, Nat2Z.inj_add. done. Qed.

Lemma pack_nonempty f fs :
  frame_fits f -> exists now, (pack 1200 5 (f :: fs)).1 = f :: now.
Proof. intros [Hl _]. rewrite pack_first by lia. eauto. Qed.
End Transmit.

Section TransmitNet.
Context {W P : Type} {NS : NetStack W P} {NSL : NetStackLaws W P}.
Implicit Types (h : cannelloni_handle) (fs : list canfd_frame) (w : W).

Lemma transmit_empty h st w :
  q_rep st (rx_queue h) [] -> transmit_udp_frame h st w = Ok (false, h, w).
Proof. intros [Hp _]%q_rep_nil. unfold transmit_udp_frame. by rewrite Hp. Qed.

Lemma transmit_no_pbuf h st w w1 :
  queue_peek (rx_queue h) <> None -> pbuf_alloc 1200 w = (None, w1) ->
  transmit_udp_frame h st w = Ok (false, h, w1) /\ sent w1 = sent w.
Proof.
  intros Hp Ha. unfold transmit_udp_frame. destruct (queue_peek _); [|done].
  rewrite Ha. split; [done|]. by eapply pbuf_alloc_none.
Qed.

(** One call: what is done with the packet [p]. *)
Lemma transmit_packet h st w fs p w1 :
  q_rep st (rx_queue h) fs -> fs <> [] -> Forall frame_fits fs ->
  q_count (rx_queue h) < 65536 -> pbuf_alloc 1200 w = (Some p, w1) ->
  let dg := enc_datagram (sequence_number h) (pack 1200 5 fs).1 in
  exists q' d, let x := pbuf_fill p d (zlen dg) in
    transmit_udp_frame h st w =
      Ok (negb (bool_decide ((pack 1200 5 fs).2 = [])),
          set_sequence_number (set_rx_queue h q') (u32 (sequence_number h + 1)),
          pbuf_free x (udp_sendto (udp_pcb h) x (addr (Init h)) (remote_port (Init h)) w1)) /\
    q_rep st q' (pack 1200 5 fs).2 /\ q_count q' = q_count (rx_queue h) /\
    zlen d = zlen (pbuf_payload p) /\ pbuf_tot_len x = zlen dg /\ pbuf_payload x = dg.
Proof.
  intros HR Hne Hfit Hc Ha. unfold transmit_udp_frame.
  destruct fs as [|f fs]; [done|].
  destruct (q_rep_cons _ _ _ _ HR) as (s & _ & Hp & _). rewrite Hp, Ha.
  destruct (pbuf_alloc_some 1200 _ _ _ ltac:(lia) Ha) as (Htl & Hpl & _).
  pose proof (q_rep_len _ _ _ HR) as Hlen. destruct HR as [Hok Hbuf Hv].
  pose proof (q_len_range _ Hok) as Hlr.
  remember (pbuf_payload p) as d eqn:Ed.
  assert (Hd : d = take 5 d ++ drop 5 d) by (by rewrite take_drop).
  assert (H5 : zlen (take 5 d) = 5) by (rewrite length_take; lia).
  assert (H1195 : zlen (drop 5 d) = 1195) by (rewrite length_drop; lia).
  edestruct (tx_frames_spec (Z.to_nat (q_count (rx_queue h))) st 1200 (rx_queue h)
               (take 5 d) (drop 5 d) 0 (f :: fs))
    as (q' & b' & He & HR' & Hbl & Hc'); try done; try lia.
  rewrite H5 in *. rewrite Htl, Hd. unfold CANNELLONI_DATA_PACKET_BASE_SIZE.
  rewrite He. cbn -[pack enc_header]. rewrite put_header_spec by done.
  cbn -[pack enc_header]. rewrite Z.add_0_l. set (now := (pack 1200 5 (f :: fs)).1) in *.
  assert (Hbl2 : zlen (enc_body now) + zlen b' = 1195) by lia.
  assert (Edg : zlen (enc_datagram (sequence_number h) now) = 5 + zlen (enc_body now))
    by (unfold enc_datagram; rewrite length_app; simpl; lia).
  exists q', (enc_header (sequence_number h) (zlen now) ++ enc_body now ++ b').
  rewrite Edg. split; [done|]. split_and!; [done|done|rewrite !length_app; simpl; lia| |].
  all: destruct (pbuf_fill_lens p (enc_header (sequence_number h) (zlen now) ++ enc_body now ++ b')
    (5 + zlen (enc_body now))) as [Ht Hx]; [rewrite <- Ed, !length_app; simpl; lia|rewrite !length_app; simpl; lia|].
  - done.
  - rewrite Hx. unfold enc_datagram. rewrite app_assoc, take_app_le, take_ge; [done| |];
      rewrite length_app; simpl; lia.
Qed.

Lemma transmit_one h st w fs p w1 :
  q_rep st (rx_queue h) fs -> fs <> [] -> Forall frame_fits fs ->
  q_count (rx_queue h) < 65536 -> pbuf_alloc 1200 w = (Some p, w1) ->
  exists q' w',
    transmit_udp_frame h st w =
      Ok (negb (bool_decide ((pack 1200 5 fs).2 = [])),
          set_sequence_number (set_rx_queue h q') (u32 (sequence_number h + 1)), w') /\
    q_rep st q' (pack 1200 5 fs).2 /\ q_count q' = q_count (rx_queue h) /\
    sent w' = sent w ++ [enc_datagram (sequence_number h) (pack 1200 5 fs).1].
Proof.
  intros HR Hne Hfit Hc Ha. destruct (pbuf_alloc_some 1200 _ _ _ ltac:(lia) Ha) as (_ & _ & Hs).
  destruct (transmit_packet h st w fs p w1 HR Hne Hfit Hc Ha) as (q' & d & E & HR' & Hc' & _ & _ & Hx).
  do 2 eexists. split; [exact E|]. split_and!; [done|done|]. by rewrite pbuf_free_sent, udp_sendto_sent, Hs, Hx.
Qed.

(** Datagrams for consecutive sequence numbers. *)
Fixpoint datagrams (seq : Z) (chunks : list (list canfd_frame)) : list (list Z) :=
  match chunks with
  | [] => []
  | c :: cs => enc_datagram seq c :: datagrams (u32 (seq + 1)) cs
  end.

(** Handles that differ in the receive queue and the sequence number. *)
Definition same_but_rx h h' : Prop :=
  Init h' = Init h /\ tx_queue h' = tx_queue h /\ udp_pcb h' = udp_pcb h /\
  udp_rx_count h' = udp_rx_count h /\ q_count (rx_queue h') = q_count (rx_queue h).

Lemma transmit_all_spec fuel h st w fs :
  q_rep st (rx_queue h) fs -> Forall frame_fits fs ->
  q_count (rx_queue h) < 65536 -> (length fs <= fuel)%nat ->
  exists h' w' chunks rest,
    transmit_all fuel h st w = Ok (h', w') /\ fs = concat chunks ++ rest /\
    q_rep st (rx_queue h') rest /\ same_but_rx h h' /\
    sent w' = sent w ++ datagrams (sequence_number h) chunks /\
    Forall (fun d => zlen d < 1200) (datagrams (sequence_number h) chunks) /\
    (rest = [] \/ exists w1, pbuf_alloc 1200 w1 = (None, w') /\ sent w1 = sent w').
Proof.
  revert h w fs. induction fuel as [|fuel IH]; intros h w fs HR Hfit Hc Hfuel.
  { destruct fs; [|simpl in Hfuel; lia]. exists h, w, [], []. simpl.
    rewrite transmit_empty by done. simpl. rewrite app_nil_r.
    split_and!; try done. by left. }
  destruct fs as [|f fs].
  { exists h, w, [], []. simpl. rewrite transmit_empty by done. simpl.
    rewrite app_nil_r. split_and!; try done. by left. }
  destruct (pbuf_alloc 1200 w) as [[p|] w1] eqn:Ha.
  2: { destruct (q_rep_cons _ _ _ _ HR) as (s & _ & Hp & _).
       destruct (transmit_no_pbuf h st w w1 ltac:(by rewrite Hp) Ha) as (Ht & Hs).
       exists h, w1, [], (f :: fs). simpl. rewrite Ht. simpl. rewrite app_nil_r.
       split_and!; try done. right. eauto. }
  destruct (transmit_one h st w (f :: fs) p w1) as (q' & w2 & Ht & HR2 & Hc2 & Hs2); try done.
  pose proof (pack_app 1200 5 (f :: fs)) as Happ.
  pose proof (pack_size 1200 5 (f :: fs) Hfit ltac:(lia)) as Hsz.
  destruct (pack_nonempty f fs) as [now Hnow]; [by inversion Hfit|].
  set (later := (pack 1200 5 (f :: fs)).2) in *.
  assert (Hll : (length later <= fuel)%nat).
  { apply (f_equal length) in Happ. rewrite length_app, Hnow in Happ. simpl in *. lia. }
  edestruct (IH (set_sequence_number (set_rx_queue h q') (u32 (sequence_number h + 1))) w2 later)
    as (h' & w' & chunks & rest & Hta & Hfs & HRr & Hsame & Hs & Hdg & Hend); simpl;
    try done; try lia.
  { rewrite <- Happ in Hfit. by apply Forall_app in Hfit as []. }
  exists h', w', ((pack 1200 5 (f :: fs)).1 :: chunks), rest.
  assert (Hd1 : zlen (enc_datagram (sequence_number h) (pack 1200 5 (f :: fs)).1) < 1200)
    by (rewrite enc_datagram_length; lia).
  cbn [transmit_all datagrams concat]. rewrite Ht. cbn [mbind outcome_bind].
  split_and!.
  - destruct (decide (later = [])) as [He|Hne].
    + rewrite bool_decide_true by done. simpl. rewrite <- Hta.
      destruct fuel; cbn [transmit_all]; rewrite transmit_empty by (by rewrite <- He);
        done.
    + by rewrite bool_decide_false by done.
  - rewrite <- Happ at 1. by rewrite Hfs, app_assoc.
  - done.
  - unfold same_but_rx in *. simpl in Hsame. destruct_and!. split_and!; congruence.
  - by rewrite Hs, Hs2, <- app_assoc.
  - by constructor.
  - done.
Qed.
End TransmitNet.

(* ------------------------------------------------------------------ *)
(** * UDP to CAN *)

(** The frames of a datagram that are accepted: those that lie inside the
    first [tot] bytes and find a free slot. *)
Fixpoint accepted (tot pos room : Z) (gs : list canfd_frame) : list canfd_frame :=
  match gs with
  | [] => []
  | g :: gs' =>
      if (tot <? pos + 5 + canfd_len g) || (room <=? 0) then []
      else g :: accepted tot (pos + 5 + canfd_len g) (room - 1) gs'
  end.

#[local] Transparent enc_frame enc_body.
Section Receive.
Implicit Types (raw cut pre post : list Z) (st : fstore) (q : frames_queue).

Lemma read_header_spec raw cut pre post g pos :
  raw ++ cut = pre ++ enc_frame g ++ post -> frame_ok g = true ->
  pos = zlen pre -> pos + 5 <= zlen raw -> pos + 5 < 65536 ->
  read_frame_header raw pos = Ok (can_id g, len g, 0, pos + 5).
Proof.
  intros Heq Hg -> Hraw Hlt.
  destruct (frame_ok_fields g Hg) as (Hid & Hl & _ & _ & Hfd & _).
  unfold enc_frame, be32_bytes in Heq. simpl in Heq.
  symmetry in Heq.
  assert (Hrd : forall a x b i, pre ++ a ++ x :: b = raw ++ cut ->
            i = zlen pre + zlen a -> (length a < 5)%nat -> rd raw i = Ok x).
  { intros a x b i Hab -> Ha. apply (rd_prefix raw cut); [|lia].
    rewrite <- Hab, app_assoc. apply rd_mid. rewrite length_app. lia. }
  unfold read_frame_header.
  rewrite (Hrd [] _ _ (zlen pre) Heq) by (simpl; lia). cbn [mbind outcome_bind].
  rewrite (Hrd [_] _ _ (zlen pre + 1) Heq) by (simpl; lia). cbn [mbind outcome_bind].
  rewrite (Hrd [_; _] _ _ (zlen pre + 2) Heq) by (simpl; lia). cbn [mbind outcome_bind].
  rewrite (Hrd [_; _; _] _ _ (zlen pre + 3) Heq) by (simpl; lia). cbn [mbind outcome_bind].
  rewrite (u16_small (zlen pre + 4)) by (red; lia).
  rewrite (Hrd [_; _; _; _] _ _ (zlen pre + 4) Heq) by (simpl; lia). cbn [mbind outcome_bind].
  rewrite Hfd. simpl. pose proof (be32_bytes_u8 (can_id g)) as Hb.
  unfold be32_bytes in Hb. rewrite !Forall_cons in Hb. destruct_and!.
  rewrite lor_be32, be32_bytes_id, u32_small by done.
  rewrite u16_small by (red; lia). do 2 f_equal. lia.
Qed.

Lemma data_block raw cut pre post g :
  raw ++ cut = pre ++ enc_frame g ++ post -> frame_ok g = true ->
  zlen pre + 5 + canfd_len g <= zlen raw ->
  rd_block raw (zlen pre + 5) (canfd_len g) = Ok (take (Z.to_nat (canfd_len g)) (data g)).
Proof.
  intros Heq Hg Hle. destruct (frame_ok_fields g Hg) as (_ & Hl & Hcl & _ & _ & Hd).
  unfold data_ok, CNL_CANFD_MAX_DLEN in Hd.
  apply (rd_block_prefix raw cut); [|lia]. rewrite Heq.
  replace (pre ++ enc_frame g ++ post) with
    ((pre ++ be32_bytes (can_id g) ++ [len g]) ++
     take (Z.to_nat (canfd_len g)) (data g) ++ post)
    by (unfold enc_frame; by rewrite <- !app_assoc).
  apply rd_block_mid.
  - rewrite !length_app. simpl. lia.
  - rewrite length_take. lia.
Qed.

Lemma rx_frame_rejected raw cut pre post g q st l tot pos :
  raw ++ cut = pre ++ enc_frame g ++ post -> frame_ok g = true -> q_rep st q l ->
  pos = zlen pre -> tot <= zlen raw -> tot < 65536 ->
  (tot <? pos + 5 + canfd_len g) || (q_count q - 1 - zlen l <=? 0) = true ->
  rx_frame raw tot pos q st = Ok None.
Proof.
  intros Heq Hg HR Hpos Htot Hlt Hrej.
  destruct (frame_ok_fields g Hg) as (_ & Hl & Hcl & Hrtr & _ & _).
  unfold rx_frame, CANNELLONI_FRAME_BASE_SIZE.
  destruct (Z.ltb_spec tot (pos + 5)); [done|].
  rewrite (read_header_spec raw cut pre post g) by (done || lia).
  cbn [mbind outcome_bind]. rewrite Hrtr. change (0 =? 0) with true. cbn [negb andb].
  fold (canfd_len g). destruct (Z.ltb_spec tot (pos + 5 + canfd_len g)); [done|].
  simpl in Hrej. rewrite (q_rep_put_full _ _ _ HR); [done|].
  unfold q_room. lia.
Qed.

Lemma rx_frame_accepted raw cut pre post g q st l tot pos :
  raw ++ cut = pre ++ enc_frame g ++ post -> frame_ok g = true -> q_rep st q l ->
  pos = zlen pre -> tot <= zlen raw -> tot < 65536 ->
  (tot <? pos + 5 + canfd_len g) || (q_count q - 1 - zlen l <=? 0) = false ->
  exists q' st' g',
    rx_frame raw tot pos q st = Ok (Some (pos + 5 + canfd_len g, q', st')) /\
    q_rep st' q' (l ++ [g']) /\ frame_eqv g' g /\ flags g' = 0 /\
    q_count q' = q_count q /\ q_frames q' = q_frames q /\ q_head q' = q_head q /\
    (forall b, b <> q_frames q -> st' !! b = st !! b).
Proof.
  intros Heq Hg HR Hpos Htot Hlt Hacc.
  destruct (frame_ok_fields g Hg) as (_ & Hl & Hcl & Hrtr & _ & Hd).
  apply orb_false_iff in Hacc as [Hfit Hroom]. apply Z.ltb_ge in Hfit.
  destruct (q_rep_put st q l HR) as (q' & Hput & Hf & Hc & Hhd & (old & Hold & Hodat) & Hst).
  { unfold q_room. lia. }
  unfold data_ok, CNL_CANFD_MAX_DLEN in *.
  assert (Htl : zlen (take (Z.to_nat (canfd_len g)) (data g)) = canfd_len g)
    by (rewrite length_take; lia).
  set (g' := mk_frame (can_id g) (len g) 0
               (take (Z.to_nat (canfd_len g)) (data g) ++
                drop (length (take (Z.to_nat (canfd_len g)) (data g))) (data old))).
  assert (Hdg' : data_ok g').
  { unfold data_ok, g', CNL_CANFD_MAX_DLEN. simpl. rewrite length_app, length_drop. lia. }
  destruct (Hst g' Hdg') as (st' & Hs & HR' & Hother).
  exists q', st', g'. split_and!; try done.
  - unfold rx_frame, CANNELLONI_FRAME_BASE_SIZE.
    destruct (Z.ltb_spec tot (pos + 5)); [lia|].
    rewrite (read_header_spec raw cut pre post g) by (done || lia).
    cbn [mbind outcome_bind]. rewrite Hrtr. change (0 =? 0) with true. cbn [negb andb].
    fold (canfd_len g). destruct (Z.ltb_spec tot (pos + 5 + canfd_len g)); [lia|].
    rewrite Hput. cbn [mbind outcome_bind]. rewrite Hold. cbn [mbind outcome_bind].
    rewrite Hpos, (data_block raw cut pre post g) by (done || lia).
    cbn [mbind outcome_bind]. rewrite wr_block_in by lia. cbn [mbind outcome_bind].
    change (Z.to_nat 0) with 0%nat. rewrite take_0. cbn [app Nat.add]. fold g'. rewrite Hs.
    cbn [mbind outcome_bind]. rewrite u16_small by (red; lia). done.
  - unfold frame_eqv, g', canfd_len. simpl. fold (canfd_len g).
    split_and!; [done|done|]. rewrite take_app_length'; [done|]. lia.
Qed.

Lemma rx_frames_spec gs raw cut pre post q st l tot :
  raw ++ cut = pre ++ enc_body gs ++ post -> Forall (fun g => frame_ok g = true) gs ->
  q_rep st q l -> tot <= zlen raw -> tot < 65536 ->
  exists q' st' gs',
    rx_frames (length gs) raw tot (zlen pre) q st = Ok (q', st') /\
    q_rep st' q' (l ++ gs') /\
    Forall2 frame_eqv gs' (accepted tot (zlen pre) (q_count q - 1 - zlen l) gs) /\
    q_count q' = q_count q /\ q_frames q' = q_frames q /\ q_head q' = q_head q /\
    (forall b, b <> q_frames q -> st' !! b = st !! b).
Proof.
  intros Heq Hgs. revert pre q st l Heq.
  induction Hgs as [|g gs Hg _ IH]; intros pre q st l Heq HR Htot Hlt.
  { exists q, st, []. rewrite app_nil_r. split_and!; (done || by constructor). }
  rewrite enc_body_cons, <- app_assoc in Heq. cbn [length rx_frames accepted].
  destruct ((tot <? zlen pre + 5 + canfd_len g) || (q_count q - 1 - zlen l <=? 0)) eqn:E.
  { rewrite (rx_frame_rejected raw cut pre (enc_body gs ++ post) g q st l) by done.
    exists q, st, []. rewrite app_nil_r. split_and!; (done || by constructor). }
  destruct (rx_frame_accepted raw cut pre (enc_body gs ++ post) g q st l tot (zlen pre))
    as (q1 & st1 & g' & Hrx & HR1 & Heqv & Hfl & Hc & Hf & Hhd & Hoth); try done.
  rewrite Hrx. cbn [mbind outcome_bind].
  pose proof (enc_frame_length g (frame_ok_fits g Hg)) as Hel.
  replace (zlen pre + 5 + canfd_len g) with (zlen (pre ++ enc_frame g))
    by (rewrite length_app; lia).
  destruct (IH (pre ++ enc_frame g) q1 st1 (l ++ [g']))
    as (q2 & st2 & gs' & Hrxs & HR2 & Heqs & Hc2 & Hf2 & Hhd2 & Hoth2); try done.
  { by rewrite <- app_assoc. }
  exists q2, st2, (g' :: gs'). rewrite Hrxs. split_and!; try done.
  - by rewrite <- app_assoc in HR2.
  - constructor; [done|].
    assert (E2 : q_count q1 - 1 - zlen (l ++ [g']) = q_count q - 1 - zlen l - 1)
      by (rewrite length_app, Hc; simpl; lia).
    by rewrite E2 in Heqs.
  - congruence.
  - congruence.
  - congruence.
  - intros b Hb. rewrite Hoth2 by congruence. by apply Hoth.
Qed.

Lemma accepted_all tot pos room gs :
  Forall (fun g => frame_ok g = true) gs ->
  pos + zlen (enc_body gs) <= tot -> zlen gs <= room -> accepted tot pos room gs = gs.
Proof.
  intros Hgs. revert pos room. induction Hgs as [|g gs Hg _ IH]; intros pos room Ht Hr; [done|].
  rewrite enc_body_cons, length_app in Ht.
  pose proof (enc_frame_length g (frame_ok_fits g Hg)). simpl in *.
  destruct (Z.ltb_spec tot (pos + 5 + canfd_len g)), (Z.leb_spec room 0); simpl; try lia.
  f_equal. apply IH; lia.
Qed.
End Receive.
#[local] Opaque enc_frame enc_body.

Section ReceiveNet.
Context {W P : Type} {NS : NetStack W P}.
Implicit Types (h : cannelloni_handle) (p : P) (w : W).

(** Handles that differ in the transmit queue and the receive counter. *)
Definition same_but_tx h h' : Prop :=
  Init h' = Init h /\ rx_queue h' = rx_queue h /\ udp_pcb h' = udp_pcb h /\
  sequence_number h' = sequence_number h /\
  q_count (tx_queue h') = q_count (tx_queue h) /\
  q_frames (tx_queue h') = q_frames (tx_queue h) /\
  q_head (tx_queue h') = q_head (tx_queue h).

Lemma rd_header (a b : list Z) n x : a !! n = Some x -> rd (a ++ b) (Z.of_nat n) = Ok x.
Proof.
  intros H. apply rd_ok. split; [lia|]. rewrite Nat2Z.id. by apply lookup_app_l_Some.
Qed.

Lemma receive_spec h st p w l seq gs cut post :
  pbuf_payload p ++ cut = enc_datagram seq gs ++ post ->
  Forall (fun g => frame_ok g = true) gs -> zlen gs < 65536 ->
  5 < pbuf_tot_len p <= zlen (pbuf_payload p) -> pbuf_tot_len p < 65536 ->
  q_rep st (tx_queue h) l ->
  exists h' st' gs',
    handle_cannelloni_frame h st (Some p) w = Ok (h', st', pbuf_free p w) /\
    q_rep st' (tx_queue h') (l ++ gs') /\
    Forall2 frame_eqv gs'
      (accepted (pbuf_tot_len p) 5 (q_count (tx_queue h) - 1 - zlen l) gs) /\
    same_but_tx h h' /\ udp_rx_count h' = u32 (udp_rx_count h + 1) /\
    (forall b, b <> q_frames (tx_queue h) -> st' !! b = st !! b).
Proof.
  intros Heq Hgs Hn Htot Hlt HR. unfold enc_datagram in Heq. rewrite <- app_assoc in Heq.
  destruct (rx_frames_spec gs (pbuf_payload p) cut (enc_header seq (zlen gs)) post
              (tx_queue h) st l (pbuf_tot_len p))
    as (q' & st' & gs' & Hrx & HR' & Heqv & Hc & Hf & Hhd & Hoth); try done; [lia|].
  exists (set_tx_queue (set_udp_rx_count h (u32 (udp_rx_count h + 1))) q'), st', gs'.
  split_and!; try done.
  unfold handle_cannelloni_frame, CANNELLONI_DATA_PACKET_BASE_SIZE.
  destruct (Z.ltb_spec 5 (pbuf_tot_len p)); [|lia].
  assert (Hrd : forall n x i, enc_header seq (zlen gs) !! n = Some x -> i = Z.of_nat n ->
            rd (pbuf_payload p) i = Ok x).
  { intros n x i Hx ->. pose proof (lookup_lt_Some _ _ _ Hx) as Hlt5. simpl in Hlt5.
    apply (rd_prefix _ cut); [|lia]. rewrite Heq. by apply rd_header. }
  rewrite (Hrd 0%nat _ 0 eq_refl eq_refl). cbn [mbind outcome_bind].
  rewrite (Hrd 1%nat _ 1 eq_refl eq_refl). cbn [mbind outcome_bind].
  change ((_ =? _) && _) with true. cbn iota.
  rewrite (Hrd 3%nat _ 3 eq_refl eq_refl). cbn [mbind outcome_bind].
  rewrite (Hrd 4%nat _ 4 eq_refl eq_refl). cbn [mbind outcome_bind].
  replace (Z.to_nat (be16 (zlen gs / 256) (zlen gs mod 256))) with (length gs)
    by (unfold be16; Z.div_mod_to_equations; lia).
  change (zlen (enc_header seq (zlen gs))) with 5 in Hrx. rewrite Hrx. done.
Qed.

(** A packet that is not a cannelloni data packet changes nothing. *)
Lemma receive_ignored h st p w :
  pbuf_tot_len p <= 5 \/
  (exists v o rest, pbuf_payload p = v :: o :: rest /\ (v <> 2 \/ o <> 0)) ->
  handle_cannelloni_frame h st (Some p) w = Ok (h, st, pbuf_free p w).
Proof.
  unfold handle_cannelloni_frame, CANNELLONI_DATA_PACKET_BASE_SIZE.
  intros [Hle|(v & o & rest & -> & Hvo)].
  - destruct (Z.ltb_spec 5 (pbuf_tot_len p)); [lia|done].
  - destruct (5 <? pbuf_tot_len p); [|done].
    change (rd (v :: o :: rest) 0) with (Ok v). change (rd (v :: o :: rest) 1) with (Ok o).
    cbn [mbind outcome_bind]. unfold CANNELLONI_FRAME_VERSION, CNL_DATA.
    destruct (Z.eqb_spec v 2), (Z.eqb_spec o 0); try done. lia.
Qed.
End ReceiveNet.

(* ------------------------------------------------------------------ *)
(** * Any packet at all *)

(** Whatever the bytes, a run of the receive loop that returns appended some
    frames to the queue and touched no other buffer. *)
Section ReceiveAny.
Implicit Types (st : fstore) (q : frames_queue).

Lemma rx_frame_rep raw tot pos q st l pos' q' st' :
  q_rep st q l -> rx_frame raw tot pos q st = Ok (Some (pos', q', st')) ->
  exists g, q_rep st' q' (l ++ [g]) /\ q_count q' = q_count q /\
    q_frames q' = q_frames q /\ q_head q' = q_head q /\
    (forall b, b <> q_frames q -> st' !! b = st !! b).
Proof.
  intros HR Hrx. unfold rx_frame in Hrx. case_match; [done|].
  apply bind_ok_inv in Hrx as ([[[id ln] fl] p1] & _ & Hrx). case_match; [done|].
  destruct (q_room q l) eqn:Hroom; [|by rewrite (q_rep_put_full _ _ _ HR Hroom) in Hrx].
  destruct (q_rep_put st q l HR Hroom) as (q1 & Hput & Hf & Hc & Hhd & (old & Hold & Ho) & Hst).
  rewrite Hput in Hrx. cbn [mbind outcome_bind] in Hrx. rewrite Hold in Hrx.
  cbn [mbind outcome_bind] in Hrx. destruct (negb (Z.land id CAN_RTR_FLAG =? 0)).
  - destruct (Hst (mk_frame id ln fl (data old)) Ho) as (st1 & Hs & HR1 & Hoth).
    rewrite Hs in Hrx. inv_ok. exists (mk_frame id ln fl (data old)). by auto 10.
  - apply bind_ok_inv in Hrx as (src & _ & Hrx).
    apply bind_ok_inv in Hrx as (d & Hd & Hrx). apply wr_block_length in Hd.
    destruct (Hst (mk_frame id ln fl d)) as (st1 & Hs & HR1 & Hoth).
    { unfold data_ok in *. simpl. lia. }
    rewrite Hs in Hrx. inv_ok. exists (mk_frame id ln fl d). by auto 10.
Qed.

Lemma rx_frames_rep n raw tot pos q st l q' st' :
  q_rep st q l -> rx_frames n raw tot pos q st = Ok (q', st') ->
  exists gs, q_rep st' q' (l ++ gs) /\ q_count q' = q_count q /\
    q_frames q' = q_frames q /\ q_head q' = q_head q /\
    (forall b, b <> q_frames q -> st' !! b = st !! b).
Proof.
  revert pos q st l. induction n as [|n IH]; intros pos q st l HR Hrx; simpl in Hrx.
  { inv_ok. exists []. by rewrite app_nil_r. }
  apply bind_ok_inv in Hrx as ([[[p1 q1] st1]|] & Hf & Hrx).
  2: { inv_ok. exists []. by rewrite app_nil_r. }
  destruct (rx_frame_rep _ _ _ _ _ _ _ _ _ HR Hf) as (g & HR1 & Hc & Hfr & Hhd & Hoth).
  destruct (IH _ _ _ _ HR1 Hrx) as (gs & HR2 & Hc2 & Hfr2 & Hhd2 & Hoth2).
  exists (g :: gs). rewrite <- app_assoc in HR2. split_and!; [done|congruence..|].
  intros b Hb. rewrite Hoth2 by congruence. by apply Hoth.
Qed.

Context {W P : Type} {NS : NetStack W P}.

Lemma receive_rep h st (p : option P) (w : W) l h' st' w' :
  q_rep st (tx_queue h) l -> handle_cannelloni_frame h st p w = Ok (h', st', w') ->
  exists gs, q_rep st' (tx_queue h') (l ++ gs) /\ same_but_tx h h' /\
    (forall b, b <> q_frames (tx_queue h) -> st' !! b = st !! b).
Proof.
  intros HR Hh. destruct p as [p|]; simpl in Hh.
  2: { inv_ok. exists []. rewrite app_nil_r. split_and!; done. }
  apply bind_ok_inv in Hh as ([h1 st1] & Hb & Hh). inv_ok.
  assert (Hsame : (h', st') = (h, st) \/ exists n q1,
            rx_frames n (pbuf_payload p) (pbuf_tot_len p) 5 (tx_queue h) st = Ok (q1, st') /\
            h' = set_tx_queue (set_udp_rx_count h (u32 (udp_rx_count h + 1))) q1).
  { case_match; [|left; by inv_ok].
    apply bind_ok_inv in Hb as (v & _ & Hb). apply bind_ok_inv in Hb as (o & _ & Hb).
    case_match; [|left; by inv_ok].
    apply bind_ok_inv in Hb as (hi & _ & Hb). apply bind_ok_inv in Hb as (lo & _ & Hb).
    apply bind_ok_inv in Hb as ([q1 st1] & Hrx & Hb). inv_ok. right. eauto. }
  destruct Hsame as [[= -> ->]|(n & q1 & Hrx & ->)].
  - exists []. rewrite app_nil_r. split_and!; done.
  - destruct (rx_frames_rep _ _ _ _ _ _ _ _ _ HR Hrx) as (gs & HR1 & Hc & Hf & Hhd & Hoth).
    exists gs. simpl. split_and!; done.
Qed.
End ReceiveAny.

(* ------------------------------------------------------------------ *)
(** * Queue to CAN driver *)

(** What [transmit_can_frames] does, on the list of queued frames: offer them
    in order until the driver refuses one. *)
Fixpoint drain {C} (tx : canfd_frame -> C -> outcome (bool * C)) (fs : list canfd_frame)
    (c : C) : outcome (list canfd_frame * C) :=
  match fs with
  | [] => Ok ([], c)
  | f :: fs' =>
      '(done, c) ← tx f c;
      if done : bool then drain tx fs' c else Ok (f :: fs', c)
  end.

Section DrainFacts.
Context {C : Type} (tx : canfd_frame -> C -> outcome (bool * C)).

Lemma tx_can_loop_spec fuel st q fs c :
  q_rep st q fs -> (length fs <= fuel)%nat ->
  match drain tx fs c with
  | Ok (rest, c') => exists q', tx_can_loop fuel tx q st c = Ok (q', c') /\
      q_rep st q' rest /\ q_count q' = q_count q /\ q_frames q' = q_frames q
  | Fault e => tx_can_loop fuel tx q st c = Fault e
  end.
Proof.
  revert q fuel c. induction fs as [|f fs IH]; intros q fuel c HR Hfuel; simpl.
  { destruct (q_rep_nil _ _ HR) as [Hp _]. exists q. destruct fuel; simpl; rewrite Hp; done. }
  destruct (q_rep_cons _ _ _ _ HR) as (s & q1 & Hp & Hl & Ht & HR1 & Hc & Hf).
  destruct fuel as [|fuel]; [simpl in Hfuel; lia|]. simpl. rewrite Hp, Hl. simpl.
  destruct (tx f c) as [[[] c1]|e]; simpl; [| |done].
  - rewrite Ht. simpl. specialize (IH q1 fuel c1 HR1 ltac:(simpl in Hfuel; lia)).
    destruct (drain tx fs c1) as [[rest c']|e]; [|done].
    destruct IH as (q' & ? & ? & ? & ?). exists q'. split_and!; congruence.
  - exists q. split_and!; done.
Qed.

Lemma drain_suffix fs c rest c' :
  drain tx fs c = Ok (rest, c') -> exists sent_fs, fs = sent_fs ++ rest.
Proof.
  revert c. induction fs as [|f fs IH]; intros c H; simpl in H.
  { inv_ok. by exists []. }
  apply bind_ok_inv in H as ([[] c1] & _ & H).
  - destruct (IH c1 H) as [s ->]. by exists (f :: s).
  - inv_ok. by exists [].
Qed.
End DrainFacts.

(* ------------------------------------------------------------------ *)
(** * A bridge feeding another *)

Section Deliver.
Context {W P : Type} {NS : NetStack W P}.

(** The packets of a list delivered one after the other. *)
Fixpoint deliver (h : cannelloni_handle) (st : fstore) (ps : list P) (w : W)
    : outcome (cannelloni_handle * fstore * W) :=
  match ps with
  | [] => mret (h, st, w)
  | p :: ps => '(h, st, w) ← handle_cannelloni_frame h st (Some p) w; deliver h st ps w
  end.

(** [p] carries the datagram [d] in one contiguous buffer. *)
Definition carries (p : P) (d : list Z) : Prop :=
  pbuf_payload p = d /\ pbuf_tot_len p = zlen d.

Lemma deliver_one h st p w l seq c :
  carries p (enc_datagram seq c) -> zlen (enc_datagram seq c) < 1200 ->
  Forall (fun g => frame_ok g = true) c ->
  zlen l + zlen c < q_count (tx_queue h) -> q_rep st (tx_queue h) l ->
  exists h' st' c', handle_cannelloni_frame h st (Some p) w = Ok (h', st', pbuf_free p w) /\
    q_rep st' (tx_queue h') (l ++ c') /\ Forall2 frame_eqv c' c /\
    q_count (tx_queue h') = q_count (tx_queue h) /\
    q_frames (tx_queue h') = q_frames (tx_queue h).
Proof.
  intros [Hpl Htl] Hd Hok Hroom HR. rewrite enc_datagram_length in *.
  pose proof (enc_body_length c (Forall_impl _ _ _ Hok frame_ok_fits)) as Hbl.
  destruct c as [|g c].
  { exists h, st, []. rewrite app_nil_r. rewrite enc_body_nil in Htl. simpl in Htl.
    split_and!; try done; try by constructor. apply receive_ignored. left. lia. }
  destruct (receive_spec h st p w l seq (g :: c) [] [])
    as (h' & st' & gs' & Hh & HR' & Heqv & Hsame & _); try done.
  - by rewrite !app_nil_r.
  - lia.
  - rewrite Hpl, Htl, enc_datagram_length. simpl in Hbl. lia.
  - lia.
  - destruct Hsame as (_ & _ & _ & _ & Hc & Hf & _). exists h', st', gs'.
    rewrite accepted_all in Heqv; [done|done| |]; lia.
Qed.

Lemma deliver_spec chunks seq h st ps w l :
  Forall2 carries ps (datagrams seq chunks) ->
  Forall (fun d => zlen d < 1200) (datagrams seq chunks) ->
  Forall (fun g => frame_ok g = true) (concat chunks) ->
  zlen l + zlen (concat chunks) < q_count (tx_queue h) -> q_rep st (tx_queue h) l ->
  exists h' st' w' fs', deliver h st ps w = Ok (h', st', w') /\
    q_rep st' (tx_queue h') (l ++ fs') /\ Forall2 frame_eqv fs' (concat chunks).
Proof.
  revert seq h st ps w l. induction chunks as [|c cs IH];
    intros seq h st ps w l Hps Hsz Hok Hroom HR.
  { apply Forall2_nil_inv_r in Hps as ->. exists h, st, w, []. rewrite app_nil_r.
    split_and!; done || constructor. }
  apply Forall2_cons_inv_r in Hps as (p & ps' & Hp & Hps & ->).
  apply Forall_cons in Hsz as [Hs1 Hsz]. cbn [concat] in Hok, Hroom.
  apply Forall_app in Hok as [Hok1 Hok]. rewrite length_app in Hroom.
  destruct (deliver_one h st p w l seq c Hp Hs1 Hok1 ltac:(lia) HR)
    as (h1 & st1 & c' & Hh & HR1 & Heqv & Hc & _).
  assert (length c' = length c) by (by eapply Forall2_length).
  destruct (IH (u32 (seq + 1)) h1 st1 ps' (pbuf_free p w) (l ++ c'))
    as (h2 & st2 & w2 & fs' & Hd & HR2 & Heqs); try done.
  { rewrite length_app. lia. }
  exists h2, st2, w2, (c' ++ fs'). cbn [deliver]. rewrite Hh. cbn [mbind outcome_bind].
  split_and!; [done|by rewrite app_assoc|by apply Forall2_app].
Qed.
End Deliver.
