(* ===== verification/Spsc.v ===== *)
(** The transmit queue between the Ethernet interrupt and the main loop.

    [handle_cannelloni_frame] runs inside the EMAC receive interrupt
    (hdkif_rx_inthandler calls [ethernet_input], and so on down to the UDP
    callback) and may interrupt [transmit_can_frames] between any two of its
    operations. The interrupt handler runs to completion, the main loop does
    not disable interrupts around the queue. The step relation interleaves
    the operations of the two; [s_in] and [s_out] log the frames that entered
    the queue and the frames the CAN driver accepted. *)

From Stdlib Require Import ZArith Lia.
From stdpp Require Import base list numbers gmap relations.
From S2P Require Import Prelude Cannelloni BridgeProofs.
Import Queue Bridge.

Open Scope Z_scope.

(** Where [transmit_can_frames] stands: outside the loop body, after
    [queue_peek] returned a frame, or after the driver took it and before
    [queue_take]. *)
Inductive main_pc : Type :=
| Idle
| Offered (slot : Z)
| Accepted.

(** The frames in the queue, read through its slots. *)
Definition q_view (st : fstore) (q : frames_queue) : list canfd_frame :=
  omap (fun s => match frame_load st (q_frames q) s with Ok f => Some f | Fault _ => None end)
       (q_slots q).

Section Interleaving.
Context {W P C : Type} {NS : NetStack W P}.
Variable can_tx_fn : canfd_frame -> C -> outcome (bool * C).

Record sys := mk_sys {
  s_h : cannelloni_handle;
  s_st : fstore;
  s_c : C;
  s_w : W;
  s_pc : main_pc;
  s_in : list canfd_frame;
  s_out : list canfd_frame
}.

Inductive spsc_step : sys -> sys -> Prop :=
| step_interrupt h st c w pc i o (p : option P) h' st' w' :
    handle_cannelloni_frame h st p w = Ok (h', st', w') ->
    spsc_step (mk_sys h st c w pc i o)
              (mk_sys h' st' c w' pc
                 (i ++ drop (length (q_slots (tx_queue h))) (q_view st' (tx_queue h'))) o)
| step_peek h st c w i o s :
    queue_peek (tx_queue h) = Some s ->
    spsc_step (mk_sys h st c w Idle i o) (mk_sys h st c w (Offered s) i o)
| step_accept h st c w i o s f c' :
    frame_load st (q_frames (tx_queue h)) s = Ok f -> can_tx_fn f c = Ok (true, c') ->
    spsc_step (mk_sys h st c w (Offered s) i o) (mk_sys h st c' w Accepted i (o ++ [f]))
| step_refuse h st c w i o s f c' :
    frame_load st (q_frames (tx_queue h)) s = Ok f -> can_tx_fn f c = Ok (false, c') ->
    spsc_step (mk_sys h st c w (Offered s) i o) (mk_sys h st c' w Idle i o)
| step_take h st c w i o s q' :
    queue_take (tx_queue h) = Ok (s, q') ->
    spsc_step (mk_sys h st c w Accepted i o) (mk_sys (set_tx_queue h q') st c w Idle i o).

Lemma q_view_rep st q l : q_rep st q l -> q_view st q = l.
Proof.
  intros [_ _ Hv]. unfold q_view. induction Hv as [|s f ss l Hs _ IH]; [done|].
  simpl. rewrite Hs. by f_equal.
Qed.

Lemma q_slots_view st q l : q_rep st q l -> length (q_slots q) = length l.
Proof. intros [_ _ Hv]. by eapply Forall2_length. Qed.

(** The interrupt only adds frames behind those already queued: the slot at
    the head, and the frame in it that the main loop may be sending, stay. *)
Lemma interrupt_head h st (p : option P) w h' st' (w' : W) i f l :
  q_rep st (tx_queue h) (f :: l) -> handle_cannelloni_frame h st p w = Ok (h', st', w') ->
  queue_peek (tx_queue h) = Some i ->
  queue_peek (tx_queue h') = Some i /\
  frame_load st' (q_frames (tx_queue h')) i = Ok f.
Proof.
  intros HR Hh Hi. destruct (receive_rep _ _ _ _ _ _ _ _ HR Hh) as (gs & HR' & Hs & _).
  simpl in HR'. destruct (q_rep_cons _ _ _ _ HR') as (s & q' & Hp & Hl & _).
  destruct Hs as (_ & _ & _ & _ & _ & _ & Hhd). unfold queue_peek in *.
  rewrite Hhd in *. destruct (_ =? q_tail (tx_queue h)); [done|].
  destruct (_ =? q_tail (tx_queue h')); [done|]. injection Hi as <-. by injection Hp as <-.
Qed.

(** The logs agree with the queue, up to the frame being taken. *)
Definition spsc_inv (s : sys) : Prop :=
  exists l, q_rep (s_st s) (tx_queue (s_h s)) l /\
    match s_pc s with
    | Idle => s_in s = s_out s ++ l
    | Offered i => s_in s = s_out s ++ l /\ queue_peek (tx_queue (s_h s)) = Some i
    | Accepted => exists f l' o, l = f :: l' /\ s_out s = o ++ [f] /\ s_in s = o ++ l
    end.

Lemma peek_some_cons st q l i :
  q_rep st q l -> queue_peek q = Some i ->
  exists f l' q', l = f :: l' /\ frame_load st (q_frames q) i = Ok f /\
    queue_take q = Ok (Some i, q') /\ q_rep st q' l'.
Proof using.
  intros HR Hi. destruct l as [|f l].
  - destruct (q_rep_nil _ _ HR) as [Hp _]. congruence.
  - destruct (q_rep_cons _ _ _ _ HR) as (s & q' & Hp & Hl & Ht & HR' & _).
    rewrite Hi in Hp. injection Hp as <-. by exists f, l, q'.
Qed.

Lemma spsc_step_inv s s' : spsc_step s s' -> spsc_inv s -> spsc_inv s'.
Proof.
  intros Hs (l & HR & Hl). destruct Hs as [h st c w pc i o p h' st' w' Hh|h st c w i o s Hp
    |h st c w i o s f c' Hf Htx|h st c w i o s f c' Hf Htx|h st c w i o s q' Ht]; simpl in *.
  - pose proof (q_slots_view _ _ _ HR) as Hlen.
    destruct (receive_rep _ _ _ _ _ _ _ _ HR Hh) as (gs & HR' & Hsame & _).
    rewrite (q_view_rep _ _ _ HR'), Hlen, drop_app_length. exists (l ++ gs). split; [done|].
    destruct pc as [|k|]; simpl in *.
    + by rewrite Hl, app_assoc.
    + destruct Hl as [-> Hk]. split; [by rewrite app_assoc|].
      destruct (peek_some_cons _ _ _ _ HR Hk) as (f & l' & _ & -> & _).
      by destruct (interrupt_head _ _ _ _ _ _ _ _ _ _ HR Hh Hk).
    + destruct Hl as (f & l' & o' & -> & -> & ->). exists f, (l' ++ gs), o'.
      by rewrite <- app_assoc.
  - exists l. split; [done|]. split; done.
  - destruct Hl as [-> Hk]. destruct (peek_some_cons _ _ _ _ HR Hk) as (g & l' & q1 & -> & Hg & _).
    exists (g :: l'). split; [done|]. exists g, l', o. split_and!; [done| |done].
    rewrite Hf in Hg. by injection Hg as ->.
  - destruct Hl as [-> _]. by exists l.
  - destruct Hl as (f & l' & o' & -> & -> & ->).
    destruct (q_rep_cons _ _ _ _ HR) as (s1 & q1 & _ & _ & Ht1 & HR1 & _).
    rewrite Ht in Ht1. injection Ht1 as -> ->. exists l'. split; [done|]. simpl.
    by rewrite <- app_assoc.
Qed.

Lemma spsc_reachable_inv s s' : rtc spsc_step s s' -> spsc_inv s -> spsc_inv s'.
Proof. induction 1; eauto using spsc_step_inv. Qed.
End Interleaving.
