(* ===== verification/BridgeProps.v ===== *)
(** The properties of the bridge, each with a run on concrete frames. *)

From Stdlib Require Import ZArith Lia.
From stdpp Require Import base list numbers gmap relations.
From S2P Require Import Prelude Cannelloni BridgeProofs Spsc.
Import Queue Bridge.

Open Scope Z_scope.

(** A network that remembers what was sent, for the concrete runs. *)
#[export] Instance log_net : NetStack (list (list Z)) (Z * list Z) := {|
  pbuf_tot_len p := p.1;
  pbuf_payload p := p.2;
  pbuf_fill p b n := (n, take (Z.to_nat n) b);
  pbuf_alloc n w := (Some (n, replicate (Z.to_nat n) 0), w);
  pbuf_free p w := w;
  udp_sendto pcb p a prt w := w ++ [p.2];
  udp_new w := (Some 1, w);
  udp_bind pcb prt w := (0, w);
  udp_recv pcb w := w
|}.

#[export] Instance log_net_laws : NetStackLaws (list (list Z)) (Z * list Z).
Proof.
  refine {| sent w := w |}; simpl; try done.
  - intros n w p w' ? [= <- <-]. simpl. rewrite length_replicate. split_and!; [done|lia|done].
Defined.

(** Concrete frames, buffers and handles. *)
Definition frame_a : canfd_frame := mk_frame 0x123 3 0 [1; 2; 3; 4; 5; 6; 7; 8].
Definition frame_b : canfd_frame := mk_frame 0x92345678 8 0 [9; 8; 7; 6; 5; 4; 3; 2].
Definition blank : canfd_frame := mk_frame 0 0 0 (replicate 8 0).

Definition demo_store : fstore :=
  <[100 := replicate 4 blank]> (<[200 := [frame_a; frame_b; blank; blank]]> ∅).

Definition demo_handle (tx rx : frames_queue) : cannelloni_handle :=
  mk_handle (mk_init 20010 [1; 2; 3; 4] 20010 4 100 200) tx rx 7 (Some 1) 0.

Definition demo : cannelloni_handle := demo_handle (mk_queue 0 0 4 100) (mk_queue 0 2 4 200).

Lemma demo_rx_rep : q_rep demo_store (rx_queue demo) [frame_a; frame_b].
Proof.
  split; [by apply (bool_decide_unpack _); vm_compute| |].
  - eexists. split; [by vm_compute|]. split; [done|]. repeat constructor; done.
  - by repeat constructor.
Qed.

Lemma demo_tx_rep : q_rep demo_store (tx_queue demo) [].
Proof.
  split; [by apply (bool_decide_unpack _); vm_compute| |].
  - eexists. split; [by vm_compute|]. split; [done|]. repeat constructor; done.
  - by repeat constructor.
Qed.

Lemma demo_frames_ok : Forall (fun f => frame_ok f = true) [frame_a; frame_b].
Proof. repeat constructor. Qed.

Lemma demo_frames_fit : Forall frame_fits [frame_a; frame_b].
Proof. repeat constructor; vm_compute; congruence. Qed.

(** A network with memory for so many pbufs, which it does not get back while
    they wait to be transmitted. *)
#[export] Instance scarce_net : NetStack (nat * list (list Z)) (Z * list Z) := {|
  pbuf_tot_len p := p.1;
  pbuf_payload p := p.2;
  pbuf_fill p b n := (n, take (Z.to_nat n) b);
  pbuf_alloc n w := match w with (O, l) => (None, w) | (S k, l) => (Some (n, replicate (Z.to_nat n) 0), (k, l)) end;
  pbuf_free p w := w;
  udp_sendto pcb p a prt w := (w.1, w.2 ++ [p.2]);
  udp_new w := (Some 1, w);
  udp_bind pcb prt w := (0, w);
  udp_recv pcb w := w
|}.

#[export] Instance scarce_net_laws : NetStackLaws (nat * list (list Z)) (Z * list Z).
Proof.
  refine {| sent w := w.2 |}; simpl; try done.
  - intros n [[|k] l] p w' ? E; [done|]. injection E as <- <-. simpl. rewrite length_replicate. split_and!; [done|lia|done].
  - intros n [[|k] l] w' E; [|done]. by injection E as <-.
Defined.

(* ------------------------------------------------------------------ *)
(** * The queue *)

(** A run of [queue_put] and [queue_take] calls: the slots handed out by
    each, oldest first. *)
Inductive qop := QPut | QTake.

Fixpoint queue_run (q : frames_queue) (ops : list qop)
    : outcome (frames_queue * list Z * list Z) :=
  match ops with
  | [] => mret (q, [], [])
  | QPut :: ops =>
      '(s, q) ← queue_put q;
      '(q, puts, takes) ← queue_run q ops;
      mret (q, option_list s ++ puts, takes)
  | QTake :: ops =>
      '(s, q) ← queue_take q;
      '(q, puts, takes) ← queue_run q ops;
      mret (q, puts, option_list s ++ takes)
  end.

Lemma queue_run_spec ops q :
  queue_ok q -> exists q' puts takes, queue_run q ops = Ok (q', puts, takes) /\
    queue_ok q' /\ q_count q' = q_count q /\ q_slots q ++ puts = takes ++ q_slots q'.
Proof.
  revert q. induction ops as [|[] ops IH]; intros q H.
  - exists q, [], []. by rewrite app_nil_r.
  - simpl. destruct (decide (q_len q = q_count q - 1)) as [E|E].
    + rewrite queue_put_full by done. simpl.
      destruct (IH q H) as (q' & puts & takes & -> & ? & ? & ?). simpl. eauto 8.
    + destruct (queue_put_room q H E) as (q1 & -> & H1 & Hs & _ & _ & Hc & _). simpl.
      destruct (IH q1 H1) as (q' & puts & takes & -> & ? & ? & Hr). simpl.
      exists q', (q_tail q :: puts), takes. split_and!; [done|done|congruence|].
      rewrite <- Hr, Hs, <- app_assoc. done.
  - simpl. destruct (q_slots q) as [|s ss] eqn:Hs.
    + rewrite queue_take_empty by done. simpl.
      destruct (IH q H) as (q' & puts & takes & -> & ? & ? & Hr). simpl.
      rewrite Hs in Hr. eauto 8.
    + destruct (queue_take_slots q s ss H Hs) as (q1 & -> & H1 & Hs1 & _ & Hc & _). simpl.
      destruct (IH q1 H1) as (q' & puts & takes & -> & ? & ? & Hr). simpl.
      exists q', puts, (s :: takes). split_and!; [done|done|congruence|].
      simpl. rewrite <- Hr, Hs1. done.
Qed.

(** C40: [frames_queue_t] is a FIFO of [count - 1] slots. From a valid queue
    that is empty, any sequence of [queue_put] and [queue_take] calls returns
    without a fault, hands slots out for reading in the order in which they
    were handed out for writing, each once, and what is left is what the queue
    still holds; a put is refused exactly when [count - 1] slots are in use. *)
Theorem queue_fifo q ops :
  queue_ok q -> q_slots q = [] ->
  exists q' puts takes,
    queue_run q ops = Ok (q', puts, takes) /\ queue_ok q' /\ puts = takes ++ q_slots q' /\
    (q_len q' = q_count q - 1 <-> queue_put q' = Ok (None, q')).
Proof.
  intros H Hs. destruct (queue_run_spec ops q H) as (q' & puts & takes & Hr & Hq' & Hc & E).
  rewrite Hs in E. exists q', puts, takes. split_and!; [done|done|done|].
  rewrite <- Hc. split; [by apply queue_put_full|]. intros Hp.
  destruct (decide (q_len q' = q_count q' - 1)) as [|Hn]; [done|].
  destruct (queue_put_room q' Hq' Hn) as (? & ? & _). congruence.
Qed.

Lemma queue_fifo_witness :
  exists q' puts takes,
    queue_run (mk_queue 2 2 4 100) [QPut; QPut; QTake; QPut; QPut; QPut; QTake] =
      Ok (q', puts, takes) /\ queue_ok q' /\ puts = takes ++ q_slots q' /\
    (q_len q' = 4 - 1 <-> queue_put q' = Ok (None, q')).
Proof.
  apply (queue_fifo (mk_queue 2 2 4 100)); [by apply (bool_decide_unpack _); vm_compute|done].
Defined.

(** [init_cannelloni] on buffers of [can_buf_size] frames leaves two
    empty, usable queues over these buffers and resets the counters; the UDP
    receive callback is registered exactly when the control block was created
    and bound. *)
Theorem init_cannelloni_ready {W P} {NS : NetStack W P} (h : cannelloni_handle) (w : W) st atx arx :
  st !! can_tx_buf (Init h) = Some atx -> st !! can_rx_buf (Init h) = Some arx ->
  zlen atx = can_buf_size (Init h) -> zlen arx = can_buf_size (Init h) ->
  Forall data_ok atx -> Forall data_ok arx ->
  0 < can_buf_size (Init h) < 4294967296 ->
  exists h' w', init_cannelloni h w = (h', w') /\ Init h' = Init h /\
    q_rep st (tx_queue h') [] /\ q_rep st (rx_queue h') [] /\
    sequence_number h' = 0 /\ udp_rx_count h' = 0 /\ udp_pcb h' = (udp_new w).1 /\
    w' = match udp_new w with
         | (None, w1) => w1
         | (Some pcb, w1) =>
             let '(err, w2) := udp_bind pcb (port (Init h)) w1 in
             if err =? 0 then udp_recv pcb w2 else w2
         end.
Proof.
  intros Ht Hr Lt Lr Dt Dr Hn.
  assert (Hrep : forall buf arr, st !! buf = Some arr -> zlen arr = can_buf_size (Init h) ->
    Forall data_ok arr -> q_rep st (queue_init buf (can_buf_size (Init h))) []).
  { intros buf arr Hb Hl Hd. split.
    - unfold queue_ok. simpl. lia.
    - by exists arr.
    - assert (E : q_slots (queue_init buf (can_buf_size (Init h))) = []); [|by rewrite E].
      apply q_slots_nil; [|done]. unfold queue_ok. simpl. lia. }
  unfold init_cannelloni. destruct (udp_new w) as [[pcb|] w1]; simpl.
  - destruct (udp_bind pcb (port (Init h)) w1) as [err w2].
    destruct (err =? 0); simpl; (do 2 eexists); (split; [done|]);
      split_and!; simpl; solve [done | by eapply Hrep].
  - (do 2 eexists); (split; [done|]). split_and!; simpl; solve [done | by eapply Hrep].
Qed.

Lemma init_cannelloni_ready_witness :
  exists h' w', init_cannelloni (NS := log_net) demo [] = (h', w') /\ Init h' = Init demo /\
    q_rep demo_store (tx_queue h') [] /\ q_rep demo_store (rx_queue h') [] /\
    sequence_number h' = 0 /\ udp_rx_count h' = 0 /\ udp_pcb h' = Some 1 /\ w' = [].
Proof.
  apply (init_cannelloni_ready (NS := log_net) demo [] demo_store (replicate 4 blank)
           [frame_a; frame_b; blank; blank]); try by vm_compute.
  all: repeat constructor; done.
Defined.

(* ------------------------------------------------------------------ *)
(** * CAN to UDP to CAN *)

(** C1: End to end, for the frames a CAN controller delivers: classic ones
    of at most eight bytes without the RTR flag ([frame_ok]; what becomes of
    others is [rtr_frame_desynchronises] and
    [handle_cannelloni_frame_overflow]). The loop
    [while (transmit_udp_frame(handle))] of a sender terminates. It has put a
    prefix of its receive queue into datagrams shorter than 1200 bytes, and
    keeps the rest: nothing, unless its last [pbuf_alloc] failed. When packets
    with these bytes are handed to [handle_cannelloni_frame] of a receiver with
    room, the receiver's transmit queue gains the frames of the prefix
    (identifier, length and data bytes) in the same order, none lost,
    duplicated or added. *)
Theorem end_to_end {W P} {NS : NetStack W P} {L : NetStackLaws W P}
    (hs hr : cannelloni_handle) sts str ws wr fs l :
  q_rep sts (rx_queue hs) fs -> Forall (fun f => frame_ok f = true) fs ->
  q_count (rx_queue hs) < 65536 ->
  q_rep str (tx_queue hr) l -> zlen l + zlen fs < q_count (tx_queue hr) ->
  exists hs' ws' ds gs rest,
    transmit_all (Z.to_nat (q_count (rx_queue hs))) hs sts ws = Ok (hs', ws') /\
    fs = gs ++ rest /\ q_rep sts (rx_queue hs') rest /\
    (rest = [] \/ exists w, pbuf_alloc 1200 w = (None, ws') /\ sent w = sent ws') /\
    sent ws' = sent ws ++ ds /\ Forall (fun d => zlen d < 1200) ds /\
    forall ps, Forall2 carries ps ds -> exists hr' str' wr' fs',
      deliver hr str ps wr = Ok (hr', str', wr') /\
      q_rep str' (tx_queue hr') (l ++ fs') /\ Forall2 frame_eqv fs' gs.
Proof.
  intros HR Hok Hc HRr Hroom.
  assert (Hfit : Forall frame_fits fs) by (eapply Forall_impl; [done|apply frame_ok_fits]).
  pose proof (q_rep_len _ _ _ HR). pose proof (q_len_range _ (rep_ok _ _ _ HR)).
  destruct (transmit_all_spec (Z.to_nat (q_count (rx_queue hs))) hs sts ws fs HR Hfit Hc)
    as (hs' & ws' & chunks & rest & Ht & Efs & HR' & _ & Hs & Hlen & Hrest); [lia|].
  exists hs', ws', (datagrams (sequence_number hs) chunks), (concat chunks), rest. split_and!; try done.
  rewrite Efs in Hok, Hroom. apply Forall_app in Hok as [Hok _]. rewrite length_app in Hroom.
  intros ps Hps. apply (deliver_spec chunks (sequence_number hs)); try done. lia.
Qed.

(** With memory for one pbuf everything is sent, without any nothing is. *)
Lemma end_to_end_witness :
  (exists hs' ws' ds gs rest,
    transmit_all (NS := scarce_net) (Z.to_nat 4) demo demo_store (1%nat, []) = Ok (hs', ws') /\
    [frame_a; frame_b] = gs ++ rest /\ sent ws' = [] ++ ds /\ rest = [] /\
    forall ps, Forall2 carries ps ds -> exists hr' str' wr' fs',
      deliver demo demo_store ps (0%nat, []) = Ok (hr', str', wr') /\
      q_rep str' (tx_queue hr') ([] ++ fs') /\ Forall2 frame_eqv fs' gs) /\
  exists hs', transmit_all (NS := scarce_net) (Z.to_nat 4) demo demo_store (0%nat, []) = Ok (hs', (0%nat, [])) /\
    q_rep demo_store (rx_queue hs') [frame_a; frame_b].
Proof.
  pose proof (fun k => end_to_end (L := scarce_net_laws) demo demo demo_store demo_store (k, []) (0%nat, [])
    [frame_a; frame_b] [] demo_rx_rep demo_frames_ok eq_refl demo_tx_rep eq_refl) as T.
  assert (E1 : match transmit_all (NS := scarce_net) (Z.to_nat 4) demo demo_store (1%nat, []) with
      Ok (h, w) => rx_queue h = mk_queue 2 2 4 200 | _ => False end) by (vm_compute; reflexivity).
  assert (E0 : match transmit_all (NS := scarce_net) (Z.to_nat 4) demo demo_store (0%nat, []) with
      Ok (h, w) => w = (0%nat, []) | _ => False end) by (vm_compute; reflexivity).
  split.
  - destruct (T 1%nat) as (hs' & ws' & ds & gs & rest & Et & Hf & HR & _ & Hs & _ & Hd).
    change (q_count (rx_queue demo)) with 4 in Et. rewrite Et in E1.
    exists hs', ws', ds, gs, rest. split_and!; try done. destruct rest as [|f rest]; [done|].
    destruct (q_rep_cons _ _ _ _ HR) as (s & _ & Hp & _). by rewrite E1 in Hp.
  - destruct (T 0%nat) as (hs' & ws' & ds & gs & rest & Et & Hf & HR & _ & Hs & _ & _).
    change (q_count (rx_queue demo)) with 4 in Et. rewrite Et in E0. subst ws'. exists hs'. split; [exact Et|].
    destruct ds as [|d ds]; [|done]. 
    assert (Eq : match transmit_all (NS := scarce_net) (Z.to_nat 4) demo demo_store (0%nat, []) with
      Ok (h, w) => h = demo | _ => False end) by (vm_compute; reflexivity).
    rewrite Et in Eq. subst hs'. exact demo_rx_rep.
Defined.

(** C31: [transmit_udp_frame] on a non-empty queue with a pbuf at hand sends
    exactly one datagram: version 2, op code 0, the low byte of the sequence
    number, the count in network order and the encodings of the longest
    prefix of the queue whose datagram stays below 1200 bytes; that prefix is
    not empty, leaves the queue, the sequence number is incremented, and the
    result says whether frames are left. *)
Theorem transmit_udp_frame_sends {W P} {NS : NetStack W P} {L : NetStackLaws W P}
    (h : cannelloni_handle) st (w : W) f fs p w1 :
  q_rep st (rx_queue h) (f :: fs) -> Forall frame_fits (f :: fs) ->
  q_count (rx_queue h) < 65536 -> pbuf_alloc 1200 w = (Some p, w1) ->
  exists now rest q' w',
    f :: fs = now ++ rest /\ now <> [] /\
    transmit_udp_frame h st w =
      Ok (negb (bool_decide (rest = [])),
          set_sequence_number (set_rx_queue h q') (u32 (sequence_number h + 1)), w') /\
    q_rep st q' rest /\ sent w' = sent w ++ [enc_datagram (sequence_number h) now] /\
    zlen (enc_datagram (sequence_number h) now) < 1200 /\
    (forall g rest', rest = g :: rest' ->
       1200 <= zlen (enc_datagram (sequence_number h) now) + 5 + canfd_len g).
Proof.
  intros HR Hfit Hc Ha.
  destruct (transmit_one h st w (f :: fs) p w1 HR ltac:(done) Hfit Hc Ha)
    as (q' & w' & Ht & HR' & _ & Hs).
  exists (pack 1200 5 (f :: fs)).1, (pack 1200 5 (f :: fs)).2, q', w'.
  split; [by rewrite pack_app|]. split.
  { destruct (pack_nonempty f fs) as (? & ->); [by inversion Hfit|done]. }
  do 3 (split; [done|]). rewrite enc_datagram_length. split; [by apply pack_size|].
  intros g rest' Hr. by apply (pack_rest 1200 5 (f :: fs) g rest').
Qed.

Lemma transmit_udp_frame_sends_witness :
  exists now rest q' w',
    [frame_a; frame_b] = now ++ rest /\ now <> [] /\
    transmit_udp_frame demo demo_store [] =
      Ok (negb (bool_decide (rest = [])),
          set_sequence_number (set_rx_queue demo q') (u32 (7 + 1)), w') /\
    q_rep demo_store q' rest /\ sent w' = sent ([] : list (list Z)) ++ [enc_datagram 7 now] /\
    zlen (enc_datagram 7 now) < 1200 /\
    (forall g rest', rest = g :: rest' ->
       1200 <= zlen (enc_datagram 7 now) + 5 + canfd_len g).
Proof.
  apply (transmit_udp_frame_sends (L := log_net_laws) demo demo_store [] frame_a [frame_b]
           (1200, replicate 1200 0) []).
  - apply demo_rx_rep.
  - apply demo_frames_fit.
  - by vm_compute.
  - by vm_compute.
Defined.




(** A packet of at most five bytes, or with another version or op code,
    changes neither the handle nor the buffers and is freed. *)
Theorem handle_cannelloni_frame_ignores {W P} {NS : NetStack W P} h st (p : P) (w : W) :
  pbuf_tot_len p <= 5 \/
  (exists v o rest, pbuf_payload p = v :: o :: rest /\ (v <> 2 \/ o <> 0)) ->
  handle_cannelloni_frame h st (Some p) w = Ok (h, st, pbuf_free p w).
Proof. apply receive_ignored. Qed.

Lemma handle_cannelloni_frame_ignores_witness :
  handle_cannelloni_frame demo demo_store (Some (9, [1; 0; 0; 0; 1; 0; 0; 0; 0])) [] =
    Ok (demo, demo_store, []).
Proof.
  apply (handle_cannelloni_frame_ignores (NS := log_net) demo demo_store (9, [1; 0; 0; 0; 1; 0; 0; 0; 0]) []).
  right. exists 1, 0, [0; 0; 1; 0; 0; 0; 0]. split; [done|left; lia].
Defined.

(** [transmit_can_frames] offers the frames of the transmit queue to the
    driver in order until it refuses one or the queue is empty: the queue
    keeps exactly what the driver did not take, a fault of the driver is the
    only fault, and with no callback nothing happens. *)
Theorem transmit_can_frames_drains {C} (tx : canfd_frame -> C -> outcome (bool * C)) h st c fs :
  q_rep st (tx_queue h) fs ->
  transmit_can_frames None h st c = Ok (h, c) /\
  match drain tx fs c with
  | Ok (rest, c') =>
      exists q', transmit_can_frames (Some tx) h st c = Ok (set_tx_queue h q', c') /\
        q_rep st q' rest /\ exists sent_fs, fs = sent_fs ++ rest
  | Fault e => transmit_can_frames (Some tx) h st c = Fault e
  end.
Proof.
  intros HR. split; [done|]. pose proof (q_rep_len _ _ _ HR).
  pose proof (q_len_range _ (rep_ok _ _ _ HR)).
  pose proof (tx_can_loop_spec tx (Z.to_nat (q_count (tx_queue h))) st (tx_queue h) fs c HR
    ltac:(lia)) as Hs.
  unfold transmit_can_frames. destruct (drain tx fs c) as [[rest c']|e] eqn:Hd.
  - destruct Hs as (q' & -> & HR' & _). exists q'. simpl. split_and!; [done|done|].
    by eapply drain_suffix.
  - by rewrite Hs.
Qed.

(** A driver with room for [c] more frames. *)
Definition room_tx (_ : canfd_frame) (c : Z) : outcome (bool * Z) :=
  if 0 <? c then Ok (true, c - 1) else Ok (false, c).

Definition demo_tx : cannelloni_handle := demo_handle (mk_queue 0 2 4 200) (mk_queue 0 0 4 100).

Lemma transmit_can_frames_drains_witness :
  transmit_can_frames None demo_tx demo_store 1 = Ok (demo_tx, 1) /\
  exists q', transmit_can_frames (Some room_tx) demo_tx demo_store 1 =
      Ok (set_tx_queue demo_tx q', 0) /\
    q_rep demo_store q' [frame_b] /\ exists sent_fs, [frame_a; frame_b] = sent_fs ++ [frame_b].
Proof.
  apply (transmit_can_frames_drains room_tx demo_tx demo_store 1 [frame_a; frame_b]).
  apply demo_rx_rep.
Defined.

(** C32: One pass of the main loop over a handle. The transmit queue is
    offered to the driver first; when the driver faults, so does the pass.
    Otherwise, when the receive callback leaves the frames [fs2] in the receive
    queue and the transmit queue alone, [run_cannelloni] returns: the transmit
    queue keeps what the driver refused; a prefix of [fs2] went out in order in
    datagrams with consecutive sequence numbers, and the receive queue keeps
    the rest: nothing, unless the last [pbuf_alloc] failed. *)
Theorem run_cannelloni_pass {W P C} {NS : NetStack W P} {L : NetStackLaws W P}
    (tx : canfd_frame -> C -> outcome (bool * C))
    (rx : cannelloni_handle -> fstore -> C -> outcome (cannelloni_handle * fstore * C))
    h st c w fs h2 st2 c2 fs2 :
  q_rep st (tx_queue h) fs ->
  match drain tx fs c with
  | Fault e => run_cannelloni (Some tx) (Some rx) h st c w = Fault e
  | Ok (rest, c1) =>
      (forall q', q_rep st q' rest ->
         rx (set_tx_queue h q') st c1 = Ok (set_tx_queue h2 q', st2, c2) /\ q_rep st2 q' rest) ->
      q_rep st2 (rx_queue h2) fs2 -> Forall frame_fits fs2 -> q_count (rx_queue h2) < 65536 ->
      exists h' w' chunks rest2,
        run_cannelloni (Some tx) (Some rx) h st c w = Ok (h', st2, c2, w') /\
        q_rep st2 (tx_queue h') rest /\ q_rep st2 (rx_queue h') rest2 /\ fs2 = concat chunks ++ rest2 /\
        sent w' = sent w ++ datagrams (sequence_number h2) chunks /\
        (rest2 = [] \/ exists w1, pbuf_alloc 1200 w1 = (None, w') /\ sent w1 = sent w')
  end.
Proof.
  intros HR. pose proof (q_rep_len _ _ _ HR). pose proof (q_len_range _ (rep_ok _ _ _ HR)).
  pose proof (tx_can_loop_spec tx (Z.to_nat (q_count (tx_queue h))) st (tx_queue h) fs c HR
    ltac:(lia)) as Ht.
  destruct (drain tx fs c) as [[rest c1]|e].
  2: { unfold run_cannelloni, transmit_can_frames. by rewrite Ht. }
  intros Hrx HR2 Hfit Hc. destruct Ht as (q' & Ht & HR' & _).
  destruct (Hrx q' HR') as [Hr HR1].
  pose proof (q_rep_len _ _ _ HR2). pose proof (q_len_range _ (rep_ok _ _ _ HR2)).
  destruct (transmit_all_spec (Z.to_nat (q_count (rx_queue h2))) (set_tx_queue h2 q') st2 w fs2
    HR2 Hfit Hc ltac:(lia)) as (h' & w' & chunks & r & Ha & E & HRx & Hsame & Hs & _ & Hrest).
  destruct Hsame as (_ & Htq & _).
  exists h', w', chunks, r. split; [|by rewrite Htq].
  unfold run_cannelloni, transmit_can_frames. rewrite Ht. cbn -[transmit_all].
  rewrite Hr. cbn -[transmit_all]. cbn -[transmit_all] in Ha. rewrite Ha. done.
Qed.

(** The callback that receives nothing. *)
Definition no_rx (h : cannelloni_handle) (st : fstore) (c : Z)
    : outcome (cannelloni_handle * fstore * Z) := Ok (h, st, c).

Lemma run_cannelloni_pass_witness :
  exists h' w' chunks rest2,
    run_cannelloni (NS := scarce_net) (Some room_tx) (Some no_rx) demo demo_store 1 (1%nat, []) = Ok (h', demo_store, 1, w') /\
    q_rep demo_store (tx_queue h') [] /\ q_rep demo_store (rx_queue h') rest2 /\
    [frame_a; frame_b] = concat chunks ++ rest2 /\
    sent w' = [] ++ datagrams 7 chunks /\
    (rest2 = [] \/ exists w1, pbuf_alloc 1200 w1 = (None, w') /\ sent w1 = sent w').
Proof.
  apply (run_cannelloni_pass (L := scarce_net_laws) room_tx no_rx demo demo_store 1 (1%nat, []) []
           demo demo_store 1 [frame_a; frame_b] demo_tx_rep).
  - intros q' HR. by split.
  - apply demo_rx_rep.
  - apply demo_frames_fit.
  - by vm_compute.
Defined.

(* ------------------------------------------------------------------ *)
(** * What the receive path does not check *)

Lemma rx_frame_overflow raw id l tot q st lq :
  q_rep st q lq -> q_room q lq = true -> read_frame_header raw 5 = Ok (id, l, 0, 10) ->
  Z.land id CAN_RTR_FLAG = 0 -> 8 < l < 128 ->
  10 + l <= tot -> 10 + l <= zlen raw -> rx_frame raw tot 5 q st = Fault OutOfBounds.
Proof.
  intros HR Hroom Hh Hrtr Hl Ht Hraw.
  destruct (q_rep_put _ _ _ HR Hroom) as (q' & Hput & _ & _ & _ & (old & Hold & Hdata) & _).
  assert (Hlen : u8 (Z.land l (Z.lnot CANFD_FRAME)) = l).
  { assert (Hall : forallb (fun k => u8 (Z.land k (Z.lnot CANFD_FRAME)) =? k) (seqZ 9 119) = true)
      by by vm_compute.
    rewrite forallb_forall in Hall. apply Z.eqb_eq, Hall, list_elem_of_In, elem_of_seqZ. lia. }
  unfold rx_frame, CANNELLONI_FRAME_BASE_SIZE. destruct (Z.ltb_spec tot (5 + 5)); [lia|].
  rewrite Hh. cbn -[Z.land rd_block wr_block]. rewrite Hrtr, Hlen. simpl.
  destruct (Z.ltb_spec tot (10 + l)); [lia|]. rewrite Hput. simpl. rewrite Hold. simpl.
  rewrite rd_block_in by lia. simpl. rewrite wr_block_out; [done|].
  rewrite length_take, length_drop. unfold data_ok, CNL_CANFD_MAX_DLEN in Hdata. lia.
Qed.

Lemma rd_head (a b : list Z) i x :
  0 <= i -> a !! Z.to_nat i = Some x -> rd (a ++ b) i = Ok x.
Proof. intros Hi Hx. rewrite <- (Z2Nat.id i) by done. by apply rd_header. Qed.

Lemma first_header seq n b0 b1 b2 b3 l rest :
  is_u8 b0 -> is_u8 b1 -> is_u8 b2 -> is_u8 b3 -> 0 <= l < 128 ->
  read_frame_header ([2; 0; seq; 0; n; b0; b1; b2; b3; l] ++ rest) 5 =
    Ok (be32 b0 b1 b2 b3, l, 0, 10).
Proof.
  intros H0 H1 H2 H3 Hl. unfold read_frame_header.
  change (5 + 1) with 6. change (5 + 2) with 7. change (5 + 3) with 8.
  change (u16 (5 + 4)) with 9. change (u16 (9 + 1)) with 10.
  rewrite !(rd_head [2; 0; seq; 0; n; b0; b1; b2; b3; l] rest 5 b0),
    (rd_head [2; 0; seq; 0; n; b0; b1; b2; b3; l] rest 6 b1),
    (rd_head [2; 0; seq; 0; n; b0; b1; b2; b3; l] rest 7 b2),
    (rd_head [2; 0; seq; 0; n; b0; b1; b2; b3; l] rest 8 b3) by (lia || done).
  cbn -[Z.land Z.lor Z.shiftl rd u32 app]. rewrite lor_be32 by done.
  rewrite (rd_head [2; 0; seq; 0; n; b0; b1; b2; b3; l] rest 9 l) by (lia || done).
  cbn -[Z.land u32 app be32].
  assert (Hfd : Z.land l CANFD_FRAME = 0).
  { assert (Hall : forallb (fun k => Z.land k CANFD_FRAME =? 0) (seqZ 0 128) = true)
      by by vm_compute.
    rewrite forallb_forall in Hall. apply Z.eqb_eq, Hall, list_elem_of_In, elem_of_seqZ. lia. }
  rewrite Hfd. simpl. do 4 f_equal. unfold u32, be32 in *. apply Z.mod_small. unfold is_u8 in *. lia.
Qed.

(** A data packet whose first frame has a length of 9 to 127 (no FD bit,
    no RTR bit) and carries that many bytes is not refused: with room in the
    queue [handle_cannelloni_frame] copies past the eight bytes of
    [frame->data]. *)
Theorem handle_cannelloni_frame_overflow {W P} {NS : NetStack W P}
    h st (p : P) (w : W) lq seq n b0 b1 b2 b3 l rest :
  q_rep st (tx_queue h) lq -> q_room (tx_queue h) lq = true ->
  pbuf_payload p = [2; 0; seq; 0; n; b0; b1; b2; b3; l] ++ rest -> 0 < n < 256 ->
  is_u8 b0 -> is_u8 b1 -> is_u8 b2 -> is_u8 b3 ->
  Z.land (be32 b0 b1 b2 b3) CAN_RTR_FLAG = 0 ->
  8 < l < 128 -> l <= zlen rest -> pbuf_tot_len p = zlen (pbuf_payload p) ->
  handle_cannelloni_frame h st (Some p) w = Fault OutOfBounds.
Proof.
  intros HR Hroom Hp Hn ? ? ? ? Hrtr Hl Hrest Htot.
  assert (Hlen : zlen (pbuf_payload p) = 10 + zlen rest) by (rewrite Hp, length_app; simpl; lia).
  pose proof (rx_frame_overflow _ _ l (10 + zlen rest) _ _ lq HR Hroom
    (first_header seq n b0 b1 b2 b3 l rest ltac:(done) ltac:(done) ltac:(done) ltac:(done)
       ltac:(lia)) Hrtr Hl ltac:(lia) ltac:(rewrite <- Hp; lia)) as Hf.
  unfold handle_cannelloni_frame. rewrite Htot, Hlen. unfold CANNELLONI_DATA_PACKET_BASE_SIZE.
  destruct (Z.ltb_spec 5 (10 + zlen rest)); [|lia].
  rewrite Hp. cbn -[rx_frames be16 Z.add Z.of_nat Z.to_nat app rd].
  rewrite !(rd_head [2; 0; seq; 0; n; b0; b1; b2; b3; l] rest 0 2),
    (rd_head [2; 0; seq; 0; n; b0; b1; b2; b3; l] rest 1 0),
    (rd_head [2; 0; seq; 0; n; b0; b1; b2; b3; l] rest 3 0),
    (rd_head [2; 0; seq; 0; n; b0; b1; b2; b3; l] rest 4 n) by (lia || done).
  cbn -[rx_frames be16 Z.add Z.of_nat Z.to_nat app].
  destruct (Z.to_nat (be16 0 n)) as [|k] eqn:Hk; [unfold be16 in Hk; lia|].
  cbn -[rx_frame Z.add Z.of_nat app]. by rewrite Hf.
Qed.

(** A packet with one frame of 12 bytes. *)
Definition long_packet : Z * list Z :=
  (22, [2; 0; 9; 0; 1; 0; 0; 1; 0x23; 12] ++ replicate 12 0xaa).

Lemma handle_cannelloni_frame_overflow_witness :
  handle_cannelloni_frame demo demo_store (Some long_packet) [] = Fault OutOfBounds.
Proof.
  apply (handle_cannelloni_frame_overflow (NS := log_net) demo demo_store long_packet [] []
           9 1 0 0 1 0x23 12 (replicate 12 0xaa)); try (by vm_compute); try (unfold is_u8; lia).
  apply demo_tx_rep.
Defined.

(** A queue with a remote frame and a data frame, and a transmit buffer that
    still holds an old frame. *)
Definition rtr_frame : canfd_frame := mk_frame 0x40000123 8 0 [1; 2; 3; 4; 0; 0; 0; 0].

Definition rtr_store : fstore :=
  <[100 := [frame_b; blank; blank; blank]]>
    (<[200 := [rtr_frame; frame_a; blank; blank]]> ∅).

(** What [transmit_udp_frame] of one handle sends, received by another. *)
Definition relay (st : fstore) : outcome (list (list Z) * list canfd_frame) :=
  '(_, _, w) ← transmit_udp_frame demo st [];
  '(h, st, w') ← handle_cannelloni_frame demo st ((fun d => (zlen d, d)) <$> head w) [];
  mret (w, q_view st (tx_queue h)).

(** Sender and receiver disagree on remote frames: the encoder writes the
    [len] data bytes of a frame with the RTR bit, the decoder takes none. Of
    the two frames of this datagram the receiver queues the first with the
    data its slot held before ([frame_b]'s), and a second one made up from
    the data bytes of the first; the second frame itself is lost. *)
Theorem rtr_frame_desynchronises :
  relay rtr_store =
    Ok ([enc_datagram 7 [rtr_frame; frame_a]],
        [mk_frame 0x40000123 8 0 (data frame_b); mk_frame 0x01020304 0 0 (replicate 8 0)]).
Proof. by vm_compute. Qed.

(* ------------------------------------------------------------------ *)
(** * Interrupt and main loop *)

(** C4: The transmit queue is safe between the receive interrupt, which may
    strike between any two operations of the main loop, and the main loop,
    without a lock: in every reachable state the frames the driver accepted
    are a prefix of the frames that were queued, in order; nothing is lost or
    sent twice. The main loop's operations on the queue cannot fault: a
    [queue_take] always has a next step, and the frame being offered is the
    oldest one queued, can be loaded, and is accepted or refused as the driver
    answers. So the main loop goes on unless the driver faults on that frame,
    as [can_send] does on one longer than eight bytes. *)
Theorem interrupt_and_main_fifo {W P C} {NS : NetStack W P}
    (tx : canfd_frame -> C -> outcome (bool * C)) h st c (w : W) s :
  q_rep st (tx_queue h) [] ->
  rtc (spsc_step (P := P) tx) (mk_sys h st c w Idle [] []) s ->
  (exists pending, s_in s = s_out s ++ pending) /\
  (s_pc s = Idle -> s_in s = s_out s ++ q_view (s_st s) (tx_queue (s_h s))) /\
  (exists r, queue_take (tx_queue (s_h s)) = Ok r) /\
  (s_pc s = Accepted -> exists s', spsc_step (P := P) tx s s' /\ s_pc s' = Idle /\ s_out s' = s_out s) /\
  (forall i, s_pc s = Offered i -> exists f l,
     frame_load (s_st s) (q_frames (tx_queue (s_h s))) i = Ok f /\ s_in s = s_out s ++ f :: l /\
     forall b c', tx f (s_c s) = Ok (b, c') -> exists s', spsc_step (P := P) tx s s' /\ s_c s' = c' /\
       s_pc s' = (if b : bool then Accepted else Idle) /\ s_out s' = (if b then s_out s ++ [f] else s_out s)).
Proof.
  intros HR Hs.
  assert (Hinv : spsc_inv s).
  { eapply spsc_reachable_inv; [done|]. exists []. by split. }
  destruct Hinv as (l & HRs & Hl). rewrite (q_view_rep _ _ _ HRs).
  assert (Htake : exists r, queue_take (tx_queue (s_h s)) = Ok r).
  { destruct l as [|f l].
    - destruct (q_rep_nil _ _ HRs) as [_ Ht]. eauto.
    - destruct (q_rep_cons _ _ _ _ HRs) as (? & ? & _ & _ & Ht & _). eauto. }
  split_and!.
  - destruct (s_pc s); [eauto|destruct Hl; eauto|].
    destruct Hl as (f & l' & o & -> & -> & ->). exists l'. by rewrite <- app_assoc.
  - intros Hpc. by rewrite Hpc in Hl.
  - exact Htake.
  - intros Hpc. destruct Htake as ([r q'] & Ht). destruct s as [h' st' c' w' pc i o]. simpl in *. subst pc.
    eexists. split; [by eapply step_take|done].
  - intros i Hpc. rewrite Hpc in Hl. destruct Hl as [Hin Hk].
    destruct (peek_some_cons _ _ _ _ HRs Hk) as (f & l2 & _ & -> & Hf & _). exists f, l2. split_and!; [done..|].
    intros b c' Htx. destruct s as [h' st' c1 w' pc i' o]. simpl in *. subst pc. destruct b.
    + eexists. split; [by eapply step_accept|done].
    + eexists. split; [by eapply step_refuse|done].
Qed.

(** A packet with one frame arrives, the main loop peeks, a second packet
    arrives, the driver accepts the first frame. *)
Definition frame_packet (f : canfd_frame) : Z * list Z :=
  (zlen (enc_datagram 0 [f]), enc_datagram 0 [f]).

Lemma interrupt_and_main_fifo_witness :
  exists s : @sys (list (list Z)) Z, s_out s = [mk_frame 0x123 3 0 [1; 2; 3; 0; 0; 0; 0; 0]] /\
    length (s_in s) = 2%nat /\ exists pending, s_in s = s_out s ++ pending.
Proof.
  eexists. split; [|split]; cycle 2.
  - apply (interrupt_and_main_fifo (NS := log_net) room_tx demo demo_store 1 [] _ demo_tx_rep).
    eapply rtc_l; [eapply (step_interrupt _ _ _ _ _ _ _ _ (Some (frame_packet frame_a))); by vm_compute|].
    eapply rtc_l; [eapply step_peek; by vm_compute|].
    eapply rtc_l; [eapply (step_interrupt _ _ _ _ _ _ _ _ (Some (frame_packet frame_b))); by vm_compute|].
    eapply rtc_l; [eapply step_accept; by vm_compute|].
    apply rtc_refl.
  - by vm_compute.
  - by vm_compute.
Defined.
