(* ===== verification/Can.v ===== *)
(** The DCAN driver: src/src/drivers/can.c and can.h.

    The registers the driver only writes and reads back are the fields of
    [canBASE]; what the controller does by itself (the busy flag, the transfer
    started by a write of IF1NO, the transmission requests) is the class
    [DCAN], with the documented behaviour as its laws. *)

From Stdlib Require Import ZArith Lia.
From stdpp Require Import base list numbers.
From S2P Require Import Prelude.

Open Scope Z_scope.

(* ------------------------------------------------------------------ *)
(** * Registers and constants *)

(** [canBASE_t], the registers of the first interface set. *)
Record canBASE := mk_can {
  CTL : Z;
  BTR : Z;
  IF1CMD : Z;
  IF1NO : Z;
  IF1MSK : Z;
  IF1ARB : Z;
  IF1MCTL : Z;
  IF1DATx : list Z;
  TIOC : Z;
  RIOC : Z
}.

#[export] Instance canBASE_eq_dec : EqDecision canBASE.
Proof. solve_decision. Defined.

Definition set_CTL (v : Z) r :=
  mk_can v (BTR r) (IF1CMD r) (IF1NO r) (IF1MSK r) (IF1ARB r) (IF1MCTL r) (IF1DATx r) (TIOC r) (RIOC r).
Definition set_BTR (v : Z) r :=
  mk_can (CTL r) v (IF1CMD r) (IF1NO r) (IF1MSK r) (IF1ARB r) (IF1MCTL r) (IF1DATx r) (TIOC r) (RIOC r).
Definition set_IF1CMD (v : Z) r :=
  mk_can (CTL r) (BTR r) v (IF1NO r) (IF1MSK r) (IF1ARB r) (IF1MCTL r) (IF1DATx r) (TIOC r) (RIOC r).
Definition set_IF1NO (v : Z) r :=
  mk_can (CTL r) (BTR r) (IF1CMD r) v (IF1MSK r) (IF1ARB r) (IF1MCTL r) (IF1DATx r) (TIOC r) (RIOC r).
Definition set_IF1MSK (v : Z) r :=
  mk_can (CTL r) (BTR r) (IF1CMD r) (IF1NO r) v (IF1ARB r) (IF1MCTL r) (IF1DATx r) (TIOC r) (RIOC r).
Definition set_IF1ARB (v : Z) r :=
  mk_can (CTL r) (BTR r) (IF1CMD r) (IF1NO r) (IF1MSK r) v (IF1MCTL r) (IF1DATx r) (TIOC r) (RIOC r).
Definition set_IF1MCTL (v : Z) r :=
  mk_can (CTL r) (BTR r) (IF1CMD r) (IF1NO r) (IF1MSK r) (IF1ARB r) v (IF1DATx r) (TIOC r) (RIOC r).
Definition set_IF1DATx (v : list Z) r :=
  mk_can (CTL r) (BTR r) (IF1CMD r) (IF1NO r) (IF1MSK r) (IF1ARB r) (IF1MCTL r) v (TIOC r) (RIOC r).
Definition set_TIOC (v : Z) r :=
  mk_can (CTL r) (BTR r) (IF1CMD r) (IF1NO r) (IF1MSK r) (IF1ARB r) (IF1MCTL r) (IF1DATx r) v (RIOC r).
Definition set_RIOC (v : Z) r :=
  mk_can (CTL r) (BTR r) (IF1CMD r) (IF1NO r) (IF1MSK r) (IF1ARB r) (IF1MCTL r) (IF1DATx r) (TIOC r) v.

Definition CAN_RX_QUEUE_FIRST_MBOX : Z := 2.
Definition CAN_MBOX_LAST : Z := 64.

Definition CAN_MSGID_EXTENDED : Z := Z.shiftl 1 31.
Definition CAN_MSGID_XTD_MASK : Z := Z.shiftl 1 29 - 1.
Definition CAN_MSGID_STD_MASK : Z := Z.shiftl 1 11 - 1.

Definition DCAN_IFARB_MSGVAL_SHIFT : Z := 31.
Definition DCAN_IFARB_XTD_SHIFT : Z := 30.
Definition DCAN_IFARB_DIR_SHIFT : Z := 29.
Definition DCAN_IFARB_ID_STD_SHIFT : Z := 18.

Definition DCAN_IFMCTL_NEWDAT_SHIFT : Z := 15.
Definition DCAN_IFMCTL_UMASK_SHIFT : Z := 12.
Definition DCAN_IFMCTL_RXIE_SHIFT : Z := 10.
Definition DCAN_IFMCTL_TXRQST_SHIFT : Z := 8.
Definition DCAN_IFMCTL_EOB_SHIFT : Z := 7.
Definition DCAN_IFMCTL_DLC_SHIFT : Z := 0.

Definition DCAN_IFCMD_WRRD_SHIFT : Z := 7.
Definition DCAN_IFCMD_MASK_SHIFT : Z := 6.
Definition DCAN_IFCMD_ARB_SHIFT : Z := 5.
Definition DCAN_IFCMD_CONTROL_SHIFT : Z := 4.
Definition DCAN_IFCMD_CLRINTPND_SHIFT : Z := 3.
Definition DCAN_IFCMD_TXRQST_SHIFT : Z := 2.
Definition DCAN_IFCMD_DATAA_SHIFT : Z := 1.
Definition DCAN_IFCMD_DATAB_SHIFT : Z := 0.

Definition DCAN_IFMSK_MDIR_SHIFT : Z := 30.

Definition DCAN_CTL_SECDED_DISABLE : Z := 0x5.
Definition DCAN_CTL_SECDED_SHIFT : Z := 10.
Definition DCAN_CTL_INIT_SHIFT : Z := 0.
Definition DCAN_CTL_CCE_SHIFT : Z := 6.

Definition DCAN_BTR_BRP_SHIFT : Z := 0.
Definition DCAN_BTR_SJW_SHIFT : Z := 6.
Definition DCAN_BTR_TSEG1_SHIFT : Z := 8.
Definition DCAN_BTR_TSEG2_SHIFT : Z := 12.
Definition DCAN_BTR_BRPE_SHIFT : Z := 16.

Definition DCAN_IOC_PU_SHIFT : Z := 18.
Definition DCAN_IOC_FUNC_SHIFT : Z := 3.

Definition data_byte_order : list Z := [3; 2; 1; 0; 7; 6; 5; 4].

(** [1U << n]. *)
Definition bit (n : Z) : Z := Z.shiftl 1 n.
#[global] Arguments bit : simpl never.

(* ------------------------------------------------------------------ *)
(** * The controller *)

(** [if_stat] is a read of IF1STAT, [if_no] what a write of IF1NO starts
    (the registers already hold the new IF1NO), [TXRQx] the transmission
    request registers. *)
Class DCAN (H : Type) := {
  if_stat : canBASE -> H -> Z * H;
  if_no : canBASE -> H -> canBASE * H;
  TXRQx : H -> list Z
}.

(** A message object of the message RAM. *)
Record mbox_t := mk_mbox { m_msk : Z; m_arb : Z; m_mctl : Z; m_data : list Z }.

#[export] Instance mbox_eq_dec : EqDecision mbox_t.
Proof. solve_decision. Defined.

(** What a transfer writes to the message object, by the bits of IF1CMD. *)
Definition mbox_write (r : canBASE) (m : mbox_t) : mbox_t :=
  let c := IF1CMD r in
  mk_mbox (if Z.testbit c DCAN_IFCMD_MASK_SHIFT then IF1MSK r else m_msk m)
          (if Z.testbit c DCAN_IFCMD_ARB_SHIFT then IF1ARB r else m_arb m)
          (if Z.testbit c DCAN_IFCMD_CONTROL_SHIFT then IF1MCTL r else m_mctl m)
          ((if Z.testbit c DCAN_IFCMD_DATAA_SHIFT then take 4 (IF1DATx r) else take 4 (m_data m)) ++
           (if Z.testbit c DCAN_IFCMD_DATAB_SHIFT then drop 4 (IF1DATx r) else drop 4 (m_data m))).

(** And what it reads from it. *)
Definition mbox_read (m : mbox_t) (r : canBASE) : canBASE :=
  let c := IF1CMD r in
  let r := if Z.testbit c DCAN_IFCMD_MASK_SHIFT then set_IF1MSK (m_msk m) r else r in
  let r := if Z.testbit c DCAN_IFCMD_ARB_SHIFT then set_IF1ARB (m_arb m) r else r in
  let r := if Z.testbit c DCAN_IFCMD_CONTROL_SHIFT then set_IF1MCTL (m_mctl m) r else r in
  let r := if Z.testbit c DCAN_IFCMD_DATAA_SHIFT
           then set_IF1DATx (take 4 (m_data m) ++ drop 4 (IF1DATx r)) r else r in
  if Z.testbit c DCAN_IFCMD_DATAB_SHIFT
  then set_IF1DATx (take 4 (IF1DATx r) ++ drop 4 (m_data m)) r else r.

(** The documented behaviour: the busy flag clears after at most [stat_bound]
    reads and reading it does not touch the message RAM; a transfer moves the
    registers selected by IF1CMD to or from the one message object that IF1NO
    names; a read transfer with TXRQST/NEWDAT set clears its NEWDAT bit. *)
Class DCANLaws (H : Type) `{DCAN H} := {
  mram : H -> Z -> mbox_t;
  stat_bound : nat;
  stat_left : H -> nat;
  stat_left_bound h : (stat_left h <= stat_bound)%nat;
  if_stat_busy r h s h' :
    if_stat r h = (s, h') -> Z.land s 0x80 = 0x80 -> (stat_left h' < stat_left h)%nat;
  if_stat_mram r h s h' m : if_stat r h = (s, h') -> mram h' m = mram h m;
  if_no_write r h r' h' :
    Z.testbit (IF1CMD r) DCAN_IFCMD_WRRD_SHIFT = true -> if_no r h = (r', h') ->
    r' = r /\ mram h' (IF1NO r) = mbox_write r (mram h (IF1NO r)) /\
    forall m, m <> IF1NO r -> mram h' m = mram h m;
  if_no_read r h r' h' :
    Z.testbit (IF1CMD r) DCAN_IFCMD_WRRD_SHIFT = false -> if_no r h = (r', h') ->
    r' = mbox_read (mram h (IF1NO r)) r /\
    mram h' (IF1NO r) =
      (let m := mram h (IF1NO r) in
       if Z.testbit (IF1CMD r) DCAN_IFCMD_TXRQST_SHIFT
       then mk_mbox (m_msk m) (m_arb m) (Z.clearbit (m_mctl m) DCAN_IFMCTL_NEWDAT_SHIFT) (m_data m)
       else m) /\
    forall m, m <> IF1NO r -> mram h' m = mram h m
}.

(* ------------------------------------------------------------------ *)
(** * The driver *)

Section Driver.
Context {H : Type} {D : DCAN H}.

(** A controller: the register block and the rest of its state. *)
Abbreviation dev := (canBASE * H)%type.

(** [while ((canreg->IF1STAT & 0x80U) == 0x80U) {}]. *)
Fixpoint can_if_wait_ready (fuel : nat) (c : dev) : outcome dev :=
  let '(s, h) := if_stat c.1 c.2 in
  if Z.land s 0x80 =? 0x80 then
    match fuel with
    | O => Fault Diverges
    | S fuel => can_if_wait_ready fuel (c.1, h)
    end
  else mret (c.1, h).

(** Writing IF1NO. *)
Definition wr_IF1NO (n : Z) (c : dev) : dev := if_no (set_IF1NO n c.1) c.2.

Section Fuel.
(** Reads of IF1STAT the driver may make in one wait. *)
Variable fuel : nat.

(** The body of the loop of [can_init]. *)
Definition can_init_mbox (mbox : Z) (c : dev) : outcome dev :=
  '(r, h) ← can_if_wait_ready fuel c;
  let r := set_IF1MSK (bit DCAN_IFMSK_MDIR_SHIFT) r in
  let r := set_IF1ARB (Z.lor (bit DCAN_IFARB_MSGVAL_SHIFT) (bit DCAN_IFARB_XTD_SHIFT)) r in
  let r := set_IF1MCTL
    (Z.lor (Z.lor (bit DCAN_IFMCTL_UMASK_SHIFT)
                  (Z.shiftl (if mbox =? 64 then 1 else 0) DCAN_IFMCTL_EOB_SHIFT))
           (bit DCAN_IFMCTL_RXIE_SHIFT)) r in
  let r := set_IF1CMD
    (Z.lor (Z.lor (Z.lor (Z.lor (bit DCAN_IFCMD_WRRD_SHIFT) (bit DCAN_IFCMD_MASK_SHIFT))
       (bit DCAN_IFCMD_ARB_SHIFT)) (bit DCAN_IFCMD_CONTROL_SHIFT))
       (bit DCAN_IFCMD_CLRINTPND_SHIFT)) r in
  mret (wr_IF1NO mbox (r, h)).

Fixpoint can_init_mboxes (mboxes : list Z) (c : dev) : outcome dev :=
  match mboxes with
  | [] => mret c
  | m :: ms => c ← can_init_mbox m c; can_init_mboxes ms c
  end.

Definition can_init (c : dev) : outcome dev :=
  let '(r, h) := c in
  let r := set_CTL
    (Z.lor (Z.lor (Z.shiftl DCAN_CTL_SECDED_DISABLE DCAN_CTL_SECDED_SHIFT)
       (bit DCAN_CTL_INIT_SHIFT)) (bit DCAN_CTL_CCE_SHIFT)) r in
  '(r, h) ← can_init_mboxes
    (seqZ CAN_RX_QUEUE_FIRST_MBOX (CAN_MBOX_LAST - CAN_RX_QUEUE_FIRST_MBOX + 1)) (r, h);
  let r := set_BTR
    (Z.lor (Z.lor (Z.lor (Z.lor (Z.shiftl 0 DCAN_BTR_BRPE_SHIFT)
       (Z.shiftl (4 - 1) DCAN_BTR_TSEG2_SHIFT)) (Z.shiftl (6 + 4 - 1) DCAN_BTR_TSEG1_SHIFT))
       (Z.shiftl (4 - 1) DCAN_BTR_SJW_SHIFT)) (Z.shiftl 9 DCAN_BTR_BRP_SHIFT)) r in
  let ioc := Z.lor (bit DCAN_IOC_PU_SHIFT) (bit DCAN_IOC_FUNC_SHIFT) in
  let r := set_TIOC ioc r in
  let r := set_RIOC ioc r in
  let r := set_CTL (Z.land (CTL r)
    (Z.lnot (Z.lor (bit DCAN_CTL_INIT_SHIFT) (bit DCAN_CTL_CCE_SHIFT)))) r in
  mret (r, h).

Definition can_mbox_has_data (mbox : Z) (c : dev) : outcome (bool * dev) :=
  if CAN_MBOX_LAST <? mbox then mret (false, c)
  else
    '(r, h) ← can_if_wait_ready fuel c;
    let r := set_IF1CMD
      (Z.lor (Z.lor (Z.lor (Z.lor (Z.lor (bit DCAN_IFCMD_ARB_SHIFT) (bit DCAN_IFCMD_CONTROL_SHIFT))
         (bit DCAN_IFCMD_CLRINTPND_SHIFT)) (bit DCAN_IFCMD_TXRQST_SHIFT))
         (bit DCAN_IFCMD_DATAA_SHIFT)) (bit DCAN_IFCMD_DATAB_SHIFT)) r in
    c ← can_if_wait_ready fuel (wr_IF1NO mbox (r, h));
    mret (negb (Z.land (IF1MCTL c.1) (bit DCAN_IFMCTL_NEWDAT_SHIFT) =? 0), c).

(** [data[i] = canreg->IF1DATx[data_byte_order[i]]] for [i < len]. *)
Fixpoint rx_bytes (n : nat) (i : Z) (r : canBASE) (data : list Z) : outcome (list Z) :=
  match n with
  | O => mret data
  | S n =>
      k ← rd data_byte_order i;
      b ← rd (IF1DATx r) k;
      data ← wr data i b;
      rx_bytes n (i + 1) r data
  end.

(** Returns what is stored through [id], [len] and [data]. *)
Definition can_fill_rx_mbox (r : canBASE) (data : list Z) : outcome (Z * Z * list Z) :=
  let id := Z.land (IF1ARB r) 0x1FFFFFFF in
  let id := if Z.land (IF1ARB r) (bit DCAN_IFARB_XTD_SHIFT) =? 0
            then Z.shiftr id 18 else Z.lor id CAN_MSGID_EXTENDED in
  let len := Z.land (IF1MCTL r) 15 in
  data ← rx_bytes (Z.to_nat len) 0 r data;
  mret (id, len, data).

(** [canreg->IF1DATx[data_byte_order[i]] = data[i]] for [i < dlc]. *)
Fixpoint tx_bytes (n : nat) (i : Z) (data : list Z) (dat : list Z) : outcome (list Z) :=
  match n with
  | O => mret dat
  | S n =>
      k ← rd data_byte_order i;
      b ← rd data i;
      dat ← wr dat k b;
      tx_bytes n (i + 1) data dat
  end.

Definition can_send (id dlc : Z) (data : list Z) (c : dev) : outcome (bool * dev) :=
  let mbox := 1 in
  let regIndex := Z.shiftr (mbox - 1) 5 in
  let b := Z.shiftl 1 (Z.land (mbox - 1) 0x1F) in
  rq ← rd (TXRQx c.2) regIndex;
  if negb (Z.land rq b =? 0) then mret (false, c)
  else
    '(r, h) ← can_if_wait_ready fuel c;
    let r := set_IF1ARB (Z.lor (bit DCAN_IFARB_MSGVAL_SHIFT) (bit DCAN_IFARB_DIR_SHIFT)) r in
    let r :=
      if negb (Z.land id CAN_MSGID_EXTENDED =? 0) then
        set_IF1ARB (Z.lor (IF1ARB r) (Z.lor (bit DCAN_IFARB_XTD_SHIFT)
                                            (Z.land id CAN_MSGID_XTD_MASK))) r
      else
        set_IF1ARB (Z.lor (IF1ARB r)
          (u32 (Z.shiftl (Z.land id CAN_MSGID_STD_MASK) DCAN_IFARB_ID_STD_SHIFT))) r in
    let r := set_IF1MCTL
      (Z.lor (Z.lor (bit DCAN_IFMCTL_NEWDAT_SHIFT) (bit DCAN_IFMCTL_TXRQST_SHIFT))
             (Z.shiftl dlc DCAN_IFMCTL_DLC_SHIFT)) r in
    dat ← tx_bytes (Z.to_nat dlc) 0 data (IF1DATx r);
    let r := set_IF1CMD 0xFF (set_IF1DATx dat r) in
    mret (true, wr_IF1NO 1 (r, h)).
End Fuel.
End Driver.

(* ------------------------------------------------------------------ *)
(** * Facts *)

(** The identifier that reaches the wire: 29 bits with the extended flag or
    11 bits without. *)
Definition canon_id (id : Z) : Z :=
  if Z.testbit id 31 then Z.lor (Z.land id CAN_MSGID_XTD_MASK) CAN_MSGID_EXTENDED
  else Z.land id CAN_MSGID_STD_MASK.

Lemma land_bit_eqb a n : 0 <= n -> negb (Z.land a (bit n) =? 0) = Z.testbit a n.
Proof.
  intros Hn. unfold bit. destruct (Z.testbit a n) eqn:E.
  - destruct (Z.eqb_spec (Z.land a (Z.shiftl 1 n)) 0) as [H|]; [|done].
    apply (f_equal (fun z => Z.testbit z n)) in H.
    rewrite Z.land_spec, E, Z.shiftl_1_l, Z.pow2_bits_true, Z.bits_0 in H by done. done.
  - assert (H : Z.land a (Z.shiftl 1 n) = 0); [|by rewrite H].
    apply Z.bits_inj'. intros k Hk. rewrite Z.land_spec, Z.shiftl_1_l, Z.bits_0.
    destruct (decide (k = n)) as [->|]; [by rewrite E|].
    rewrite Z.pow2_bits_false by done. apply andb_false_r.
Qed.

(** Bytes written in the order of the data registers are read back in it. *)
Lemma bytes_roundtrip n data dat :
  0 <= n <= 8 -> zlen data = 8 -> zlen dat = 8 ->
  exists dat', tx_bytes (Z.to_nat n) 0 data dat = Ok dat' /\ zlen dat' = 8 /\
    forall r out, IF1DATx r = dat' -> zlen out = 8 ->
      rx_bytes (Z.to_nat n) 0 r out =
        Ok (take (Z.to_nat n) data ++ drop (Z.to_nat n) out).
Proof.
  intros Hn Hd Ht.
  do 8 (destruct data as [|? data]; [simpl in Hd; lia|]).
  destruct data; [|simpl in Hd; lia].
  do 8 (destruct dat as [|? dat]; [simpl in Ht; lia|]).
  destruct dat; [|simpl in Ht; lia].
  assert (Hm : (Z.to_nat n <= 8)%nat) by lia. revert Hm. generalize (Z.to_nat n). intros m Hm.
  do 9 (destruct m as [|m]; [eexists; split; [reflexivity|]; split; [reflexivity|];
    intros r out Hr Ho;
    do 8 (destruct out as [|? out]; [simpl in Ho; lia|]);
    destruct out; [|simpl in Ho; lia]; simpl; unfold rx_bytes; simpl; rewrite ?Hr; reflexivity|]).
  lia.
Qed.

(** The ninth byte has no place in the data registers. *)
Lemma tx_bytes_overflow n data dat :
  8 < n -> zlen data = 8 -> zlen dat = 8 ->
  tx_bytes (Z.to_nat n) 0 data dat = Fault OutOfBounds.
Proof.
  intros Hn Hd Ht.
  do 8 (destruct data as [|? data]; [simpl in Hd; lia|]).
  destruct data; [|simpl in Hd; lia].
  do 8 (destruct dat as [|? dat]; [simpl in Ht; lia|]).
  destruct dat; [|simpl in Ht; lia].
  assert (Hm : (9 <= Z.to_nat n)%nat) by lia. revert Hm. generalize (Z.to_nat n). intros m Hm.
  do 9 (destruct m as [|m]; [lia|]). reflexivity.
Qed.

Lemma rx_bytes_overflow n r out :
  8 < n -> zlen out = 8 -> zlen (IF1DATx r) = 8 ->
  rx_bytes (Z.to_nat n) 0 r out = Fault OutOfBounds.
Proof.
  intros Hn Ho Hr.
  destruct r as [r1 r2 r3 r4 r5 r6 r7 dat r8 r9]. simpl in Hr.
  do 8 (destruct dat as [|? dat]; [simpl in Hr; lia|]).
  destruct dat; [|simpl in Hr; lia].
  do 8 (destruct out as [|? out]; [simpl in Ho; lia|]).
  destruct out; [|simpl in Ho; lia].
  assert (Hm : (9 <= Z.to_nat n)%nat) by lia. revert Hm. generalize (Z.to_nat n). intros m Hm.
  do 9 (destruct m as [|m]; [lia|]). reflexivity.
Qed.

(** ** Identifiers *)

Definition arb_of_id (id : Z) : Z :=
  Z.lor (Z.lor (bit DCAN_IFARB_MSGVAL_SHIFT) (bit DCAN_IFARB_DIR_SHIFT))
    (if negb (Z.land id CAN_MSGID_EXTENDED =? 0)
     then Z.lor (bit DCAN_IFARB_XTD_SHIFT) (Z.land id CAN_MSGID_XTD_MASK)
     else u32 (Z.shiftl (Z.land id CAN_MSGID_STD_MASK) DCAN_IFARB_ID_STD_SHIFT)).

Definition id_of_arb (arb : Z) : Z :=
  let id := Z.land arb 0x1FFFFFFF in
  if Z.land arb (bit DCAN_IFARB_XTD_SHIFT) =? 0 then Z.shiftr id 18
  else Z.lor id CAN_MSGID_EXTENDED.

Lemma testbit_bit n k : 0 <= k -> 0 <= n -> Z.testbit (bit n) k = (k =? n).
Proof.
  intros. unfold bit. rewrite Z.shiftl_1_l, Z.pow2_bits_eqb by done. by rewrite Z.eqb_sym.
Qed.

Lemma std_mask_shift id :
  u32 (Z.shiftl (Z.land id CAN_MSGID_STD_MASK) DCAN_IFARB_ID_STD_SHIFT) =
  Z.shiftl (Z.land id (Z.ones 11)) 18.
Proof.
  unfold u32. apply Z.mod_small.
  rewrite Z.land_ones, Z.shiftl_mul_pow2 by lia.
  pose proof (Z.mod_pos_bound id (2 ^ 11) ltac:(lia)). lia.
Qed.

Lemma id_roundtrip id : id_of_arb (Z.clearbit (arb_of_id id) DCAN_IFARB_DIR_SHIFT) = canon_id id.
Proof.
  assert (Hx : forall a, Z.land a (bit DCAN_IFARB_XTD_SHIFT) =? 0 = negb (Z.testbit a 30)).
  { intros a. rewrite <- (land_bit_eqb a 30) by lia. by rewrite negb_involutive. }
  unfold id_of_arb. rewrite Hx, Z.clearbit_neq by done.
  unfold arb_of_id. change CAN_MSGID_EXTENDED with (bit 31). rewrite land_bit_eqb by lia.
  change 0x1FFFFFFF with (Z.ones 29). rewrite std_mask_shift.
  unfold canon_id. change CAN_MSGID_XTD_MASK with (Z.ones 29).
  change CAN_MSGID_STD_MASK with (Z.ones 11). change CAN_MSGID_EXTENDED with (bit 31).
  unfold DCAN_IFARB_MSGVAL_SHIFT, DCAN_IFARB_DIR_SHIFT, DCAN_IFARB_XTD_SHIFT.
  rewrite !Z.lor_spec, !testbit_bit by lia.
  destruct (Z.testbit id 31) eqn:E.
  - rewrite Z.lor_spec, testbit_bit by lia. simpl. apply Z.bits_inj'. intros k Hk.
    rewrite !Z.lor_spec, !Z.land_spec, Z.clearbit_eqb, !Z.lor_spec, Z.land_spec,
      !testbit_bit, !Z.testbit_ones_nonneg by lia.
    destruct (Z.ltb_spec k 29); [|by rewrite !andb_false_r].
    destruct (Z.eqb_spec k 31), (Z.eqb_spec k 29), (Z.eqb_spec 29 k), (Z.eqb_spec k 30); try lia.
    by destruct (Z.testbit id k).
  - rewrite Z.shiftl_spec, Z.land_spec, Z.testbit_ones_nonneg by lia.
    simpl. rewrite andb_false_r. simpl. apply Z.bits_inj'. intros k Hk.
    rewrite Z.shiftr_spec, !Z.land_spec, Z.clearbit_eqb, !Z.lor_spec, Z.shiftl_spec,
      Z.land_spec, !testbit_bit, !Z.testbit_ones_nonneg by lia.
    replace (k + 18 - 18) with k by lia.
    destruct (Z.ltb_spec k 11); [|destruct (Z.testbit id k); simpl; zcase; lia || done].
    destruct (Z.eqb_spec (k + 18) 31), (Z.eqb_spec (k + 18) 29), (Z.eqb_spec 29 (k + 18)),
      (Z.ltb_spec (k + 18) 29); try lia.
    by destruct (Z.testbit id k).
Qed.

(** ** Transfers *)

Section Transfers.
Context {H : Type} {D : DCAN H} {L : DCANLaws H}.
Implicit Types (r : canBASE) (h : H).

Lemma wait_ready r h fuel :
  (stat_bound <= fuel)%nat ->
  exists h', can_if_wait_ready fuel (r, h) = Ok (r, h') /\ forall m, mram h' m = mram h m.
Proof.
  intros Hf. pose proof (stat_left_bound h) as Hb.
  assert (Hl : (stat_left h <= fuel)%nat) by lia. clear Hf Hb. revert h Hl.
  induction fuel as [|fuel IH]; intros h Hl; simpl; destruct (if_stat r h) as [s h1] eqn:E;
    destruct (Z.eqb_spec (Z.land s 0x80) 0x80) as [Hb|]; simpl.
  all: try (exists h1; split; [done|]; intros m; by eapply if_stat_mram).
  - pose proof (if_stat_busy _ _ _ _ E Hb). lia.
  - pose proof (if_stat_busy _ _ _ _ E Hb).
    destruct (IH h1) as (h2 & E2 & Hm); [lia|]. exists h2. split; [done|].
    intros m. rewrite Hm. by eapply if_stat_mram.
Qed.

(** What [can_mbox_has_data] leaves in the registers and the message RAM. *)
Lemma has_data_spec mbox r h fuel :
  (stat_bound <= fuel)%nat -> mbox <= CAN_MBOX_LAST ->
  zlen (IF1DATx r) = 8 -> zlen (m_data (mram h mbox)) = 8 ->
  exists r' h',
    can_mbox_has_data fuel mbox (r, h) =
      Ok (Z.testbit (m_mctl (mram h mbox)) DCAN_IFMCTL_NEWDAT_SHIFT, (r', h')) /\
    IF1ARB r' = m_arb (mram h mbox) /\ IF1MCTL r' = m_mctl (mram h mbox) /\
    IF1DATx r' = m_data (mram h mbox) /\
    mram h' mbox = mk_mbox (m_msk (mram h mbox)) (m_arb (mram h mbox))
      (Z.clearbit (m_mctl (mram h mbox)) DCAN_IFMCTL_NEWDAT_SHIFT) (m_data (mram h mbox)) /\
    forall m, m <> mbox -> mram h' m = mram h m.
Proof.
  intros Hf Hm Hr Hd. unfold can_mbox_has_data. destruct (Z.ltb_spec CAN_MBOX_LAST mbox); [lia|].
  destruct (wait_ready r h fuel Hf) as (h1 & -> & Hm1). cbn [mbind outcome_bind].
  unfold wr_IF1NO. cbn [fst snd].
  match goal with |- context [set_IF1CMD ?c r] => change c with 63 end.
  set (r1 := set_IF1NO mbox (set_IF1CMD 63 r)).
  destruct (if_no r1 h1) as [r2 h2] eqn:E2.
  destruct (if_no_read r1 h1 r2 h2 ltac:(done) E2) as (Er2 & Hm2 & Ho2).
  change (IF1NO r1) with mbox in *. cbv zeta in Hm2.
  change (Z.testbit (IF1CMD r1) DCAN_IFCMD_TXRQST_SHIFT) with true in Hm2.
  destruct (wait_ready r2 h2 fuel Hf) as (h3 & -> & Hm3). cbn [mbind outcome_bind fst].
  exists r2, h3.
  assert (Hregs : IF1ARB r2 = m_arb (mram h mbox) /\ IF1MCTL r2 = m_mctl (mram h mbox) /\
    IF1DATx r2 = m_data (mram h mbox)).
  { rewrite Er2. unfold mbox_read. rewrite Hm1. simpl. split_and!; [done|done|].
    rewrite take_app_length', take_drop; [done|]. rewrite length_take. lia. }
  destruct Hregs as (Ha & Hc & Hdt). split_and!; try done.
  - rewrite Hc, land_bit_eqb by done. done.
  - by rewrite Hm3, Hm2, !Hm1.
  - intros m Hne. by rewrite Hm3, Ho2, Hm1.
Qed.

(** [can_send] on a free transmit mailbox. *)
Lemma can_send_spec id dlc data r h rq fuel :
  (stat_bound <= fuel)%nat -> TXRQx h = rq :: tail (TXRQx h) -> Z.testbit rq 0 = false ->
  0 <= dlc <= 8 -> zlen data = 8 -> zlen (IF1DATx r) = 8 ->
  exists r' h' dat,
    can_send fuel id dlc data (r, h) = Ok (true, (r', h')) /\
    mram h' 1 = mk_mbox (IF1MSK r) (arb_of_id id)
      (Z.lor (Z.lor (bit DCAN_IFMCTL_NEWDAT_SHIFT) (bit DCAN_IFMCTL_TXRQST_SHIFT)) dlc) dat /\
    tx_bytes (Z.to_nat dlc) 0 data (IF1DATx r) = Ok dat /\
    zlen (IF1DATx r') = 8 /\
    forall m, m <> 1 -> mram h' m = mram h m.
Proof.
  intros Hf Hrq Hfree Hdlc Hdat Hr. unfold can_send.
  assert (E1 : rd (TXRQx h) 0 = Ok rq) by (rewrite Hrq; done).
  change (Z.shiftr (1 - 1) 5) with 0. cbn [snd]. rewrite E1. cbn [mbind outcome_bind].
  change (Z.shiftl 1 (Z.land (1 - 1) 31)) with (bit 0). rewrite land_bit_eqb, Hfree by lia.
  destruct (wait_ready r h fuel Hf) as (h1 & -> & Hm1). cbn [mbind outcome_bind].
  destruct (bytes_roundtrip dlc data (IF1DATx r) Hdlc Hdat Hr) as (dat & Ht & Hl & _).
  match goal with |- context [if negb ?b then ?x else ?y] => set (r1 := if negb b then x else y) end.
  assert (Hr1 : r1 = set_IF1ARB (arb_of_id id) r).
  { unfold r1, arb_of_id. by destruct (negb _). }
  rewrite Hr1. cbn [IF1DATx set_IF1MCTL set_IF1ARB]. rewrite Ht. cbn [mbind outcome_bind].
  unfold wr_IF1NO. cbn [fst snd]. destruct (if_no _ h1) as [r2 h2] eqn:E2.
  pose proof (fun Hw => if_no_write _ h1 r2 h2 Hw E2) as Hw. destruct (Hw eq_refl) as (-> & Hm2 & Ho2).
  eexists _, h2, dat. split; [reflexivity|]. cbn [IF1NO set_IF1NO] in *. split_and!; [| done | exact Hl |].
  - rewrite Hm2. unfold mbox_write. simpl. f_equal. apply take_drop.
  - intros m Hne. by rewrite Ho2, Hm1.
Qed.

(** ** Initialisation *)

(** A receive mailbox after [can_init]: valid, extended, accepting every
    identifier, the last one ends the FIFO. *)
Definition rx_mbox (mbox : Z) (m : mbox_t) : mbox_t :=
  mk_mbox 0x40000000 0xC0000000 (if mbox =? 64 then 0x1480 else 0x1400) (m_data m).

Lemma init_mbox_spec mbox r h fuel :
  (stat_bound <= fuel)%nat ->
  exists r' h', can_init_mbox fuel mbox (r, h) = Ok (r', h') /\ CTL r' = CTL r /\
    mram h' mbox = mk_mbox (m_msk (rx_mbox mbox (mram h mbox))) (m_arb (rx_mbox mbox (mram h mbox)))
      (m_mctl (rx_mbox mbox (mram h mbox))) (take 4 (m_data (mram h mbox)) ++ drop 4 (m_data (mram h mbox))) /\
    forall m, m <> mbox -> mram h' m = mram h m.
Proof.
  intros Hf. unfold can_init_mbox.
  destruct (wait_ready r h fuel Hf) as (h1 & -> & Hm1). cbn [mbind outcome_bind].
  unfold wr_IF1NO. cbn [fst snd]. destruct (if_no _ h1) as [r2 h2] eqn:E2.
  pose proof (fun Hw => if_no_write _ h1 r2 h2 Hw E2) as Hw.
  destruct (Hw eq_refl) as (-> & Hm2 & Ho2).
  eexists _, h2. split; [reflexivity|]. cbn [IF1NO set_IF1NO] in *. split_and!; [done| |].
  - rewrite Hm2, Hm1. unfold mbox_write, rx_mbox. simpl. destruct (mbox =? 64); done.
  - intros m Hne. by rewrite Ho2, Hm1.
Qed.

Lemma init_mboxes_spec ms r h fuel :
  (stat_bound <= fuel)%nat -> NoDup ms ->
  exists r' h', can_init_mboxes fuel ms (r, h) = Ok (r', h') /\ CTL r' = CTL r /\
    (forall m, m ∈ ms -> mram h' m = rx_mbox m (mram h m)) /\
    forall m, m ∉ ms -> mram h' m = mram h m.
Proof.
  intros Hf Hnd. revert r h. induction Hnd as [|m ms Hm _ IH]; intros r h.
  { exists r, h. split_and!; [done|done| |done]. intros m Hm. by apply not_elem_of_nil in Hm. }
  cbn [can_init_mboxes]. destruct (init_mbox_spec m r h fuel Hf) as (r1 & h1 & -> & Hc1 & Hm1 & Ho1).
  cbn [mbind outcome_bind]. destruct (IH r1 h1) as (r2 & h2 & -> & Hc2 & Hin & Hout).
  exists r2, h2. split_and!; [done|congruence| |].
  - intros k [->|Hk]%elem_of_cons.
    + rewrite Hout, Hm1, take_drop by done. done.
    + rewrite Hin, Ho1 by (done || congruence). done.
  - intros k [Hk1 Hk2]%not_elem_of_cons. rewrite Hout, Ho1 by done. done.
Qed.
Lemma can_init_result r h fuel :
  (stat_bound <= fuel)%nat ->
  exists r' h', can_init fuel (r, h) = Ok (r', h') /\
    CTL r' = Z.shiftl DCAN_CTL_SECDED_DISABLE DCAN_CTL_SECDED_SHIFT /\ BTR r' = 0x39C9 /\
    TIOC r' = 0x40008 /\ RIOC r' = 0x40008 /\
    (forall m, m ∈ seqZ 2 63 -> mram h' m = rx_mbox m (mram h m)) /\
    (forall m, m ∉ seqZ 2 63 -> mram h' m = mram h m).
Proof.
  intros Hf. unfold can_init.
  match goal with |- context [set_CTL ?c r] => set (r0 := set_CTL c r) end.
  destruct (init_mboxes_spec (seqZ 2 63) r0 h fuel Hf ltac:(apply NoDup_seqZ))
    as (r1 & h1 & E & Hc & Hin & Hout).
  change (seqZ CAN_RX_QUEUE_FIRST_MBOX (CAN_MBOX_LAST - CAN_RX_QUEUE_FIRST_MBOX + 1))
    with (seqZ 2 63).
  rewrite E. cbn [mbind outcome_bind]. eexists _, h1. split; [reflexivity|].
  cbn [CTL BTR TIOC RIOC set_CTL set_BTR set_TIOC set_RIOC]. by rewrite Hc.
Qed.
End Transfers.

(* ------------------------------------------------------------------ *)
(** * A simulated controller for the concrete runs *)

Record sim := mk_sim { sim_busy : bool; sim_txrq : list Z; sim_ram : Z -> mbox_t }.

Definition upd {A} (f : Z -> A) (k : Z) (v : A) : Z -> A := fun j => if j =? k then v else f j.

(** Each transfer keeps the interface busy for one read. *)
#[export] Instance sim_can : DCAN sim := {|
  if_stat r h :=
    if sim_busy h then (0x80, mk_sim false (sim_txrq h) (sim_ram h)) else (0, h);
  if_no r h :=
    let n := IF1NO r in
    let m := sim_ram h n in
    if Z.testbit (IF1CMD r) DCAN_IFCMD_WRRD_SHIFT then
      (r, mk_sim true (sim_txrq h) (upd (sim_ram h) n (mbox_write r m)))
    else
      (mbox_read m r, mk_sim true (sim_txrq h) (upd (sim_ram h) n
        (if Z.testbit (IF1CMD r) DCAN_IFCMD_TXRQST_SHIFT
         then mk_mbox (m_msk m) (m_arb m) (Z.clearbit (m_mctl m) DCAN_IFMCTL_NEWDAT_SHIFT) (m_data m)
         else m)));
  TXRQx := sim_txrq
|}.

Lemma upd_same {A} (f : Z -> A) k v : upd f k v k = v.
Proof. unfold upd. by rewrite Z.eqb_refl. Qed.
Lemma upd_other {A} (f : Z -> A) k v j : j <> k -> upd f k v j = f j.
Proof. intros. unfold upd. by rewrite (proj2 (Z.eqb_neq j k)). Qed.

#[export] Instance sim_can_laws : DCANLaws sim.
Proof.
  refine {| mram := sim_ram; stat_bound := 1; stat_left h := if sim_busy h then 1%nat else 0%nat |}.
  - intros h. destruct (sim_busy h); lia.
  - intros r h s h'. simpl. destruct (sim_busy h); [|by intros [= <- <-]].
    intros [= <- <-] _. simpl. lia.
  - intros r h s h' m. simpl. destruct (sim_busy h); by intros [= _ <-].
  - intros r h r' h' Hw. unfold if_no, sim_can. rewrite Hw. intros [= <- <-]. cbn [sim_ram].
    rewrite upd_same. split_and!; [done|done|]. intros. by apply upd_other.
  - intros r h r' h' Hw. unfold if_no, sim_can. rewrite Hw. intros [= <- <-]. cbn [sim_ram].
    rewrite upd_same. split_and!; [done|done|]. intros. by apply upd_other.
Defined.

(** A blank controller, and one that received the transmit mailbox of [h]
    over the bus in mailbox [m]. *)
Definition blank_mbox : mbox_t := mk_mbox 0 0 0 (replicate 8 0).
Definition blank_regs : canBASE := mk_can 0 0 0 0 0 0 0 (replicate 8 0) 0 0.
Definition blank_sim : sim := mk_sim true [0; 0; 0; 0] (fun _ => blank_mbox).

(** A message object that took over a frame sent from [m]: the direction is
    receive, NEWDAT is set, identifier, DLC and data are the sender's. *)
Definition received_as (m m' : mbox_t) : Prop :=
  m_arb m' = Z.clearbit (m_arb m) DCAN_IFARB_DIR_SHIFT /\
  Z.land (m_mctl m') 15 = Z.land (m_mctl m) 15 /\
  Z.testbit (m_mctl m') DCAN_IFMCTL_NEWDAT_SHIFT = true /\ m_data m' = m_data m.

(* ------------------------------------------------------------------ *)
(** * Properties *)

Lemma dlc_bits dlc :
  0 <= dlc <= 8 ->
  Z.land (Z.lor (Z.lor (bit DCAN_IFMCTL_NEWDAT_SHIFT) (bit DCAN_IFMCTL_TXRQST_SHIFT)) dlc) 15 = dlc.
Proof.
  intros Hd.
  assert (Hall : forallb (fun d =>
    Z.land (Z.lor (Z.lor (bit DCAN_IFMCTL_NEWDAT_SHIFT) (bit DCAN_IFMCTL_TXRQST_SHIFT)) d) 15 =? d)
    (seqZ 0 9) = true) by by vm_compute.
  rewrite forallb_forall in Hall. apply Z.eqb_eq, Hall, list_elem_of_In, elem_of_seqZ. lia.
Qed.

(** C37: A frame crosses the CAN bus unchanged. [can_send] on a free transmit
    mailbox returns true and fills message object 1; on a controller whose
    object [mbox] took that object over, [can_mbox_has_data] reports data and
    [can_fill_rx_mbox] stores the identifier reduced to its 29 or 11 bits, the
    length and the data bytes, leaving the bytes behind them alone. No other
    message object is touched and NEWDAT is cleared. *)
Theorem can_loopback {H} {D : DCAN H} {L : DCANLaws H}
    id dlc data (r1 r2 : canBASE) (h1 h2 : H) rq mbox out fuel :
  (stat_bound <= fuel)%nat -> TXRQx h1 = rq :: tail (TXRQx h1) -> Z.testbit rq 0 = false ->
  0 <= dlc <= 8 -> zlen data = 8 -> zlen out = 8 ->
  zlen (IF1DATx r1) = 8 -> zlen (IF1DATx r2) = 8 -> mbox <= CAN_MBOX_LAST ->
  exists r1' h1',
    can_send fuel id dlc data (r1, h1) = Ok (true, (r1', h1')) /\
    (forall m, m <> 1 -> mram h1' m = mram h1 m) /\
    (received_as (mram h1' 1) (mram h2 mbox) ->
     exists r2' h2',
       can_mbox_has_data fuel mbox (r2, h2) = Ok (true, (r2', h2')) /\
       can_fill_rx_mbox r2' out =
         Ok (canon_id id, dlc, take (Z.to_nat dlc) data ++ drop (Z.to_nat dlc) out) /\
       Z.testbit (m_mctl (mram h2' mbox)) DCAN_IFMCTL_NEWDAT_SHIFT = false /\
       forall m, m <> mbox -> mram h2' m = mram h2 m).
Proof.
  intros Hf Hrq Hfree Hdlc Hd Ho Hr1 Hr2 Hmb.
  destruct (can_send_spec id dlc data r1 h1 rq fuel Hf Hrq Hfree Hdlc Hd Hr1)
    as (r1' & h1' & dat & Es & Em & Et & _ & Eo).
  exists r1', h1'. split_and!; [done|done|]. intros (Ha & Hc & Hn & Hdt).
  rewrite Em in Ha, Hc, Hdt. cbn [m_arb m_mctl m_data] in Ha, Hc, Hdt.
  destruct (bytes_roundtrip dlc data (IF1DATx r1) Hdlc Hd Hr1) as (dat' & Et' & Hl & Hrx).
  assert (dat' = dat) as -> by congruence. rewrite dlc_bits in Hc by done.
  destruct (has_data_spec mbox r2 h2 fuel Hf Hmb Hr2) as (r2' & h2' & Eh & Ea & Ec & Ed & Em' & Eo').
  { by rewrite Hdt. }
  rewrite Hn in Eh. exists r2', h2'. split_and!; [done| | |done].
  - unfold can_fill_rx_mbox. rewrite Ec, Hc, (Hrx r2' out) by (done || congruence).
    cbn [mbind outcome_bind]. rewrite <- (id_roundtrip id), <- Ha, <- Ea. done.
  - rewrite Em'. cbn [m_mctl]. by rewrite Z.clearbit_eq.
Qed.

(** A frame from a free controller to mailbox 2 of another one. *)
Definition loop_sim : sim :=
  mk_sim false [0] (fun _ => mk_mbox 0 (Z.clearbit (arb_of_id 0x92345678) 29) 0x8003 [0; 3; 2; 1; 0; 0; 0; 0]).

Lemma can_loopback_witness :
  exists r1' h1',
    can_send 5 0x92345678 3 [1; 2; 3; 9; 9; 9; 9; 9] (blank_regs, blank_sim) = Ok (true, (r1', h1')) /\
    received_as (mram h1' 1) (mram loop_sim 2) /\
    exists r2' h2',
      can_mbox_has_data 5 2 (blank_regs, loop_sim) = Ok (true, (r2', h2')) /\
      can_fill_rx_mbox r2' (replicate 8 7) = Ok (0x92345678, 3, [1; 2; 3; 7; 7; 7; 7; 7]).
Proof.
  destruct (can_loopback 0x92345678 3 [1; 2; 3; 9; 9; 9; 9; 9] blank_regs blank_regs blank_sim
    loop_sim 0 2 (replicate 8 7) 5) as (r1' & h1' & Hs & _ & Hr);
    [by apply (bool_decide_unpack _)|done|done|done|done|done|done|done|done|].
  exists r1', h1'. split; [done|].
  assert (Hra : received_as (mram h1' 1) (mram loop_sim 2)).
  { revert Hs. vm_compute. intros [= <- <-]. split_and!; reflexivity. }
  split; [done|]. destruct (Hr Hra) as (r2' & h2' & Eh & Ef & _). exists r2', h2'.
  split; [done|]. rewrite Ef. by vm_compute.
Defined.

(** [can_init] terminates whatever the busy flag does within its bound,
    leaves the controller in normal operation with ECC disabled, and prepares
    the mailboxes 2 to 64 as one receive FIFO: valid, accepting every
    identifier, the end-of-block bit only in the last; mailbox 1 is not
    touched. *)
Theorem can_init_mailboxes {H} {D : DCAN H} {L : DCANLaws H} (r : canBASE) (h : H) fuel :
  (stat_bound <= fuel)%nat ->
  exists r' h',
    can_init fuel (r, h) = Ok (r', h') /\
    CTL r' = Z.shiftl DCAN_CTL_SECDED_DISABLE DCAN_CTL_SECDED_SHIFT /\ BTR r' = 0x39C9 /\
    TIOC r' = 0x40008 /\ RIOC r' = 0x40008 /\
    (forall m, 2 <= m <= 64 -> mram h' m = rx_mbox m (mram h m)) /\
    (forall m, m < 2 \/ 64 < m -> mram h' m = mram h m).
Proof.
  intros Hf. destruct (can_init_result r h fuel Hf) as (r' & h' & E & ? & ? & ? & ? & Hin & Hout).
  exists r', h'. split_and!; [done..| |].
  - intros m Hm. apply Hin, elem_of_seqZ. lia.
  - intros m Hm. apply Hout. intros Hi%elem_of_seqZ. lia.
Qed.

Lemma can_init_mailboxes_witness :
  exists r' h', can_init 3 (blank_regs, blank_sim) = Ok (r', h') /\
    mram h' 64 = mk_mbox 0x40000000 0xC0000000 0x1480 (replicate 8 0) /\ mram h' 1 = blank_mbox.
Proof.
  destruct (can_init_mailboxes blank_regs blank_sim 3) as (r' & h' & E & _ & _ & _ & _ & Hin & Hout);
    [by apply (bool_decide_unpack _)|].
  exists r', h'. split; [done|]. split.
  - rewrite (Hin 64) by lia. done.
  - rewrite (Hout 1) by lia. done.
Defined.

(** Neither direction of the driver bounds the length by the eight data
    bytes: [can_send] with a length above 8 (a long or CAN FD frame from the
    network) and [can_fill_rx_mbox] on a frame with a DLC of 9 to 15 (legal on
    the bus, it means eight bytes) index past the data registers. *)
Theorem can_length_overflow {H} {D : DCAN H} {L : DCANLaws H}
    id dlc data out (r : canBASE) (h : H) rq fuel :
  (stat_bound <= fuel)%nat -> TXRQx h = rq :: tail (TXRQx h) -> Z.testbit rq 0 = false ->
  zlen data = 8 -> zlen out = 8 -> zlen (IF1DATx r) = 8 ->
  (8 < dlc -> can_send fuel id dlc data (r, h) = Fault OutOfBounds) /\
  (8 < Z.land (IF1MCTL r) 15 -> can_fill_rx_mbox r out = Fault OutOfBounds).
Proof.
  intros Hf Hrq Hfree Hd Ho Hr. split.
  - intros Hdlc. unfold can_send.
    assert (E1 : rd (TXRQx h) 0 = Ok rq) by (rewrite Hrq; done).
    change (Z.shiftr (1 - 1) 5) with 0. cbn [snd]. rewrite E1. cbn [mbind outcome_bind].
    change (Z.shiftl 1 (Z.land (1 - 1) 31)) with (bit 0). rewrite land_bit_eqb, Hfree by lia.
    destruct (wait_ready r h fuel Hf) as (h1 & -> & _). cbn [mbind outcome_bind].
    rewrite tx_bytes_overflow; [done|done|done|]. by destruct (negb (Z.land id _ =? 0)).
  - intros Hdlc. unfold can_fill_rx_mbox. by rewrite rx_bytes_overflow.
Qed.

Lemma can_length_overflow_witness :
  can_send 1 0x123 12 (replicate 8 1) (blank_regs, blank_sim) = Fault OutOfBounds /\
  can_fill_rx_mbox (set_IF1MCTL 0x800F blank_regs) (replicate 8 0) = Fault OutOfBounds.
Proof.
  split.
  - apply (can_length_overflow 0x123 12 (replicate 8 1) (replicate 8 0) blank_regs blank_sim 0 1);
      try done; by apply (bool_decide_unpack _).
  - apply (can_length_overflow 0x123 12 (replicate 8 1) (replicate 8 0) (set_IF1MCTL 0x800F blank_regs)
      blank_sim 0 1); try done; by apply (bool_decide_unpack _).
Defined.
