(* ===== verification/Main.v ===== *)
(** The application: src/src/main.c.

    The callbacks between the bridge and the CAN driver, the configuration of
    the four interfaces and the main loop. The state of the program is the
    four handles, the frame store, the four CAN controllers and the network
    stack; the start-up calls into the hardware layer are in Board. *)

From Stdlib Require Import ZArith Lia.
From stdpp Require Import base list numbers gmap.
From S2P Require Import Prelude Cannelloni BridgeProofs BridgeProps Can.
Import Queue Bridge.

Open Scope Z_scope.

Definition CAN_IFACES : Z := 4.
Definition CNL_BUF_SIZE : Z := 128.
Definition IP6_MULTICAST_SCOPE_LINK_LOCAL : Z := 2.

(** The addresses of [can_interfaces[i].tx_buf] and [can_interfaces[i].rx_buf]. *)
Definition tx_buf (i : Z) : Z := 2 * i.
Definition rx_buf (i : Z) : Z := 2 * i + 1.

(** [node_id]: the device's die identification register. *)
Definition node_id (DIEIDL_REG0 : Z) : Z :=
  if DIEIDL_REG0 =? 0x1600600D then 1
  else if DIEIDL_REG0 =? 0x16013009 then 2
  else 0.

Section Callbacks.
Context {H : Type} {D : DCAN H}.
Variable fuel : nat.

(** [on_can_transmit] on the controller [iface->canreg]. *)
Definition on_can_transmit (f : canfd_frame) (c : canBASE * H) : outcome (bool * (canBASE * H)) :=
  can_send fuel (can_id f) (len f) (data f) c.

(** The loop of [on_can_receive]; [n] bounds the mailboxes left. *)
Fixpoint on_can_receive_loop (n : nat) (mbox : Z) (h : cannelloni_handle) (st : fstore)
    (c : canBASE * H) : outcome (cannelloni_handle * fstore * (canBASE * H)) :=
  '(has, c) ← can_mbox_has_data fuel mbox c;
  if negb has then mret (h, st, c)
  else
    '(slot, h) ← get_can_rx_frame h;
    match slot with
    | None => mret (h, st, c)
    | Some i =>
        frame ← frame_load st (q_frames (rx_queue h)) i;
        '(id, l, d) ← can_fill_rx_mbox c.1 (data frame);
        st ← frame_store st (q_frames (rx_queue h)) i (mk_frame id l (flags frame) d);
        match n with
        | O => Fault Diverges
        | S n => on_can_receive_loop n (u8 (mbox + 1)) h st c
        end
    end.

Definition on_can_receive (h : cannelloni_handle) (st : fstore) (c : canBASE * H)
    : outcome (cannelloni_handle * fstore * (canBASE * H)) :=
  on_can_receive_loop (Z.to_nat CAN_MBOX_LAST) CAN_RX_QUEUE_FIRST_MBOX h st c.
End Callbacks.

(* ------------------------------------------------------------------ *)
(** * Configuration and main loop *)

(** [((0xFF00U | scope) << 16) | IP6_ADDR_BLOCK2(addr)] in place of the first
    word of the interface's link-local address; network and host order agree
    on this machine. *)
Definition multicast_addr (ip6_addr : list Z) : outcome (list Z) :=
  a0 ← rd ip6_addr 0;
  wr ip6_addr 0
    (Z.lor (u32 (Z.shiftl (Z.lor 0xFF00 IP6_MULTICAST_SCOPE_LINK_LOCAL) 16)) (Z.land a0 0xffff)).

(** The [Init] fields the loop of [main] sets for interface [i]. *)
Definition iface_init (node i : Z) (ip6_addr : list Z) : outcome cnl_init :=
  a ← multicast_addr ip6_addr;
  let p := u16 (20000 + node * 10 + i) in
  mret (mk_init p a p CNL_BUF_SIZE (tx_buf 0) (rx_buf 0)).

Definition blank_handle (i : cnl_init) : cannelloni_handle :=
  mk_handle i (mk_queue 0 0 0 0) (mk_queue 0 0 0 0) 0 None 0.

Section Program.
Context {W P H : Type} {NS : NetStack W P} {D : DCAN H}.
Variable fuel : nat.
(** [mdns_resp_add_service] for node, interface and port. *)
Variable mdns_resp_add_service : Z -> Z -> Z -> W -> W.
(** [sys_check_timeouts]. *)
Variable sys_check_timeouts : W -> W.

(** A CAN interface: its handle and its controller. *)
Definition CANInterface : Type := cannelloni_handle * (canBASE * H).

(** The body of the configuration loop. *)
Definition configure_iface (node i : Z) (ip6_addr : list Z) (c : canBASE * H) (w : W)
    : outcome (CANInterface * W) :=
  ini ← iface_init node i ip6_addr;
  c ← can_init fuel c;
  let '(h, w) := init_cannelloni (blank_handle ini) w in
  mret ((h, c), mdns_resp_add_service node i (port ini) w).

Fixpoint configure (node i : Z) (ip6_addr : list Z) (cs : list (canBASE * H)) (w : W)
    : outcome (list CANInterface * W) :=
  match cs with
  | [] => mret ([], w)
  | c :: cs =>
      '(x, w) ← configure_iface node i ip6_addr c w;
      '(xs, w) ← configure node (i + 1) ip6_addr cs w;
      mret (x :: xs, w)
  end.

(** [run_cannelloni(&can_interfaces[i].cannelloni)] for each interface. *)
Fixpoint run_ifaces (xs : list CANInterface) (st : fstore) (w : W)
    : outcome (list CANInterface * fstore * W) :=
  match xs with
  | [] => mret ([], st, w)
  | (h, c) :: xs =>
      '(h, st, c, w) ← run_cannelloni (Some (on_can_transmit fuel)) (Some (on_can_receive fuel))
                         h st c w;
      '(xs, st, w) ← run_ifaces xs st w;
      mret ((h, c) :: xs, st, w)
  end.

(** One iteration of [for (;;)]. *)
Definition main_loop_body (xs : list CANInterface) (st : fstore) (w : W)
    : outcome (list CANInterface * fstore * W) :=
  run_ifaces xs st (sys_check_timeouts w).
End Program.

(* ------------------------------------------------------------------ *)
(** * Reception *)

Section Reception.
Context {H : Type} {D : DCAN H} {L : DCANLaws H}.
Implicit Types (h : cannelloni_handle) (st : fstore) (hw : H) (r : canBASE).

(** The data bytes of a message object in their order on the bus. *)
Definition bus_order (d : list Z) : list Z :=
  omap (fun k => d !! Z.to_nat k) data_byte_order.

Definition mbox_ok (m : mbox_t) : Prop :=
  Z.land (m_mctl m) 15 <= 8 /\ zlen (m_data m) = 8.

(** The frame a message object holds, over the frame [old] in the slot. *)
Definition mbox_frame (old : canfd_frame) (m : mbox_t) : canfd_frame :=
  let n := Z.to_nat (Z.land (m_mctl m) 15) in
  mk_frame (id_of_arb (m_arb m)) (Z.land (m_mctl m) 15) (flags old)
    (take n (bus_order (m_data m)) ++ drop n (data old)).

(** The mailboxes with new data, from [mbox] up to the first without. *)
Fixpoint fresh_mboxes (n : nat) (mbox : Z) (ram : Z -> mbox_t) : list mbox_t :=
  match n with
  | O => []
  | S n =>
      if Z.testbit (m_mctl (ram mbox)) DCAN_IFMCTL_NEWDAT_SHIFT
      then ram mbox :: fresh_mboxes n (mbox + 1) ram else []
  end.

Lemma rx_bytes_spec n r out :
  0 <= n <= 8 -> zlen (IF1DATx r) = 8 -> zlen out = 8 ->
  rx_bytes (Z.to_nat n) 0 r out =
    Ok (take (Z.to_nat n) (bus_order (IF1DATx r)) ++ drop (Z.to_nat n) out).
Proof.
  intros Hn Hr Ho.
  destruct r as [r1 r2 r3 r4 r5 r6 r7 dat r8 r9]. simpl in Hr.
  do 8 (destruct dat as [|? dat]; [simpl in Hr; lia|]).
  destruct dat; [|simpl in Hr; lia].
  do 8 (destruct out as [|? out]; [simpl in Ho; lia|]).
  destruct out; [|simpl in Ho; lia].
  assert (Hm : (Z.to_nat n <= 8)%nat) by lia. revert Hm. generalize (Z.to_nat n). intros m Hm.
  do 9 (destruct m as [|m]; [reflexivity|]). lia.
Qed.

Lemma fill_spec r out m :
  mbox_ok m -> IF1ARB r = m_arb m -> IF1MCTL r = m_mctl m -> IF1DATx r = m_data m ->
  zlen out = 8 -> exists d,
  can_fill_rx_mbox r out = Ok (id_of_arb (m_arb m), Z.land (m_mctl m) 15, d) /\
  d = take (Z.to_nat (Z.land (m_mctl m) 15)) (bus_order (m_data m)) ++
      drop (Z.to_nat (Z.land (m_mctl m) 15)) out /\ zlen d = 8.
Proof.
  intros [Hd Hl] Ea Ec Ed Ho. unfold can_fill_rx_mbox. rewrite Ea, Ec.
  assert (Hp : 0 <= Z.land (m_mctl m) 15) by (apply Z.land_nonneg; lia).
  rewrite rx_bytes_spec by (rewrite ?Ed; done || lia). eexists. split; [done|].
  rewrite Ed. split; [done|].
  rewrite length_app, length_take, length_drop.
  assert (Hb : length (bus_order (m_data m)) = 8%nat); [|lia].
  destruct (m_data m) as [|? l]; [simpl in Hl; lia|].
  do 7 (destruct l as [|? l]; [simpl in Hl; lia|]). destruct l; [|simpl in Hl; lia]. done.
Qed.

Definition clear_newdat (m : mbox_t) : mbox_t :=
  mk_mbox (m_msk m) (m_arb m) (Z.clearbit (m_mctl m) DCAN_IFMCTL_NEWDAT_SHIFT) (m_data m).

Lemma clear_newdat_id m : Z.testbit (m_mctl m) DCAN_IFMCTL_NEWDAT_SHIFT = false -> clear_newdat m = m.
Proof.
  intros Hb. destruct m as [k a c d]. unfold clear_newdat. cbn [m_msk m_arb m_mctl m_data] in *. f_equal.
  apply Z.bits_inj'. intros n Hn. rewrite Z.clearbit_eqb.
  destruct (Z.eqb_spec DCAN_IFMCTL_NEWDAT_SHIFT n) as [<-|]; [|by rewrite andb_true_r].
  by rewrite Hb.
Qed.

(** Both ways out of the loop before the queue is full. *)
Lemma has_data_last fuel (c : canBASE * H) : can_mbox_has_data fuel 65 c = Ok (false, c).
Proof. done. Qed.

Lemma fresh_ext n mbox (f g : Z -> mbox_t) :
  (forall m, mbox <= m -> f m = g m) -> fresh_mboxes n mbox f = fresh_mboxes n mbox g.
Proof.
  revert mbox. induction n as [|n IH]; intros mbox Hfg; [done|]. simpl. rewrite Hfg by lia.
  case_match; [|done]. f_equal. apply IH. intros. apply Hfg. lia.
Qed.

Lemma receive_loop_spec fuel n k mbox h st r hw l :
  (stat_bound <= fuel)%nat -> q_rep st (rx_queue h) l -> zlen (IF1DATx r) = 8 ->
  mbox + Z.of_nat k = 65 -> 2 <= mbox -> (k <= n)%nat ->
  (forall m, mbox <= m <= 64 -> mbox_ok (mram hw m)) ->
  let ms := fresh_mboxes k mbox (mram hw) in
  let room := Z.to_nat (q_count (rx_queue h) - 1 - zlen l) in
  exists h' st' r' hw' gs,
    on_can_receive_loop fuel n mbox h st (r, hw) = Ok (h', st', (r', hw')) /\
    q_rep st' (rx_queue h') (l ++ gs) /\
    Forall2 (fun g m => exists old, g = mbox_frame old m) gs (take room ms) /\
    (exists q', h' = set_rx_queue h q' /\ q_count q' = q_count (rx_queue h) /\
       q_frames q' = q_frames (rx_queue h)) /\
    (forall b, b <> q_frames (rx_queue h) -> st' !! b = st !! b) /\
    forall m, mram hw' m =
      (if (mbox <=? m) && (m <? mbox + Z.of_nat (Nat.min (length ms) (S room)))
       then clear_newdat (mram hw m) else mram hw m).
Proof.
  intros Hf. revert n mbox h st r hw l.
  induction k as [|k IH]; intros n mbox h st r hw l HR Hr Hk Hm Hn Hok ms room.
  - replace mbox with 65 by lia. exists h, st, r, hw, [].
    split_and!.
    + by destruct n.
    + by rewrite app_nil_r.
    + unfold ms. simpl. by rewrite take_nil.
    + exists (rx_queue h). by destruct h.
    + done.
    + intros m. change (length ms) with 0%nat. cbn [Nat.min Z.of_nat]. zcase; done.
  - destruct (Hok mbox ltac:(lia)) as [Hd Hl].
    destruct (has_data_spec mbox r hw fuel Hf ltac:(unfold CAN_MBOX_LAST; lia) Hr Hl)
      as (r1 & hw1 & E1 & Ea & Ec & Ed & Em & Eo).
    set (m0 := mram hw mbox) in *.
    assert (Hram1 : forall m, mram hw1 m = if m =? mbox then clear_newdat m0 else mram hw m).
    { intros m. destruct (Z.eqb_spec m mbox) as [->|]; [done|by apply Eo]. }
    assert (Hms : ms = if Z.testbit (m_mctl m0) DCAN_IFMCTL_NEWDAT_SHIFT
                       then m0 :: fresh_mboxes k (mbox + 1) (mram hw1) else []).
    { unfold ms. cbn [fresh_mboxes]. fold m0. case_match; [|done]. f_equal.
      apply fresh_ext. intros m ?. rewrite Hram1. by rewrite (proj2 (Z.eqb_neq m mbox)) by lia. }
    destruct n as [|n]; [lia|]. cbn [on_can_receive_loop]. rewrite E1. cbn [mbind outcome_bind].
    destruct (Z.testbit (m_mctl m0) DCAN_IFMCTL_NEWDAT_SHIFT) eqn:Hnew; cbn [negb].
    2: { exists h, st, r1, hw1, []. rewrite Hms, take_nil, app_nil_r.
      split_and!; [done|done|done| |done|].
      - exists (rx_queue h). by destruct h.
      - intros m. rewrite Hram1. simpl. rewrite clear_newdat_id by done.
        destruct (Z.eqb_spec m mbox) as [->|]; zcase; done. }
    unfold get_can_rx_frame. destruct (q_room (rx_queue h) l) eqn:Hroom.
    2: { rewrite (q_rep_put_full st _ l HR Hroom). cbn [mbind outcome_bind mret outcome_ret].
      unfold q_room in Hroom. apply Z.ltb_ge in Hroom.
      assert (Hz : room = 0%nat) by lia.
      exists h, st, r1, hw1, []. rewrite Hms, Hz, app_nil_r.
      split_and!; [by destruct h|done|constructor| |done|].
      - exists (rx_queue h). by destruct h.
      - intros m. rewrite Hram1. cbn [length Nat.min].
        destruct (Z.eqb_spec m mbox) as [->|]; zcase; done. }
    destruct (q_rep_put st _ l HR Hroom) as (q' & Hput & Hf' & Hc' & _ & (old & Hold & Hdo) & Hst).
    rewrite Hput. cbn [mbind outcome_bind mret outcome_ret set_rx_queue rx_queue].
    rewrite Hf', Hold. cbn [mbind outcome_bind fst].
    destruct (fill_spec r1 (data old) m0) as (d & Efill & Ed' & Hdl); try done.
    rewrite Efill. cbn [mbind outcome_bind].
    change (Z.of_nat (S k)) with (Z.of_nat (1 + k)) in Hk.
    destruct (Hst (mk_frame (id_of_arb (m_arb m0)) (Z.land (m_mctl m0) 15) (flags old) d) Hdl)
      as (st1 & Est & HR1 & Hother).
    rewrite Est. cbn [mbind outcome_bind]. rewrite u8_small by (unfold is_u8; lia).
    unfold q_room in Hroom. apply Z.ltb_lt in Hroom.
    destruct (IH n (mbox + 1) (set_rx_queue h q') st1 r1 hw1 _ HR1)
      as (h' & st' & r' & hw' & gs & El & HR' & HF & (q2 & -> & Hc2 & Hf2) & Ho & Hram); try lia.
    { by rewrite Ed. }
    { intros m ?. rewrite Hram1, (proj2 (Z.eqb_neq m mbox)) by lia. apply Hok. lia. }
    cbn [set_rx_queue rx_queue] in HR', HF, Hc2, Hf2, Ho, Hram.
    rewrite length_app in HF, Hram. cbn [length] in HF, Hram.
    assert (Hr1 : room = S (Z.to_nat (q_count q' - 1 - Z.of_nat (length l + 1)))) by lia.
    remember (Z.to_nat (q_count q' - 1 - Z.of_nat (length l + 1))) as room1.
    eexists _, st', r', hw', (_ :: gs). split; [exact El|]. rewrite Hms, Hr1. cbn [take].
    split_and!.
    + by rewrite <- app_assoc in HR'.
    + constructor; [|done]. exists old. unfold mbox_frame. by rewrite Ed'.
    + exists q2. by rewrite Hc2, Hf2.
    + intros b Hb. rewrite Ho by congruence. by apply Hother.
    + intros m. rewrite Hram, !Hram1. cbn [length Nat.min].
      destruct (Z.eqb_spec m mbox) as [->|]; zcase; done.
Qed.
End Reception.

(* ------------------------------------------------------------------ *)
(** * Properties *)

(** [on_can_receive] terminates and moves the frames of the mailboxes
    2, 3, ... with new data, up to the first without, into the receive queue
    in mailbox order: identifier, length and data as on the bus. When the
    queue fills up the loop stops, and the next mailbox has lost its NEWDAT
    bit although its frame was not queued. *)
Theorem on_can_receive_queues {H} {D : DCAN H} {L : DCANLaws H} fuel
    (h : cannelloni_handle) (st : fstore) (r : canBASE) (hw : H) l :
  (stat_bound <= fuel)%nat -> q_rep st (rx_queue h) l -> zlen (IF1DATx r) = 8 ->
  (forall m, 2 <= m <= 64 -> mbox_ok (mram hw m)) ->
  let ms := fresh_mboxes 63 2 (mram hw) in
  let room := Z.to_nat (q_count (rx_queue h) - 1 - zlen l) in
  exists q' st' r' hw' gs,
    on_can_receive fuel h st (r, hw) = Ok (set_rx_queue h q', st', (r', hw')) /\
    q_rep st' q' (l ++ gs) /\
    Forall2 (fun g m => exists old, g = mbox_frame old m) gs (take room ms) /\
    forall m, mram hw' m =
      (if (2 <=? m) && (m <? 2 + Z.of_nat (Nat.min (length ms) (S room)))
       then clear_newdat (mram hw m) else mram hw m).
Proof.
  intros Hf HR Hr Hok ms room.
  destruct (receive_loop_spec fuel 64 63 2 h st r hw l Hf HR Hr ltac:(lia) ltac:(lia) ltac:(lia) Hok)
    as (h' & st' & r' & hw' & gs & E & HR' & HF & (q' & -> & _) & _ & Hm).
  exists q', st', r', hw', gs. split_and!; done.
Qed.

Definition demo_st : fstore := <[1 := replicate 3 (mk_frame 0 0 0 (replicate 8 0))]> ∅.
Definition demo_iface : cannelloni_handle :=
  mk_handle (mk_init 20010 [] 20010 3 0 1) (mk_queue 0 0 3 0) (mk_queue 0 0 3 1) 0 None 0.

(** Frames in the mailboxes 2, 3 and 4, and room for two. *)
Definition three_fresh : sim :=
  mk_sim false [0] (fun m => mk_mbox 0 0x4C0 (if m <? 5 then 0x8002 else 0) [0; 0; 7; m; 0; 0; 0; 0]).

Lemma demo_st_rep : q_rep demo_st (rx_queue demo_iface) [].
Proof.
  split; [by apply (bool_decide_unpack _); vm_compute| |].
  - eexists. split; [by vm_compute|]. split; [done|]. repeat constructor; done.
  - by repeat constructor.
Qed.

Lemma on_can_receive_queues_witness :
  exists q' st' r' hw' gs,
    on_can_receive 1 demo_iface demo_st (blank_regs, three_fresh) =
      Ok (set_rx_queue demo_iface q', st', (r', hw')) /\ length gs = 2%nat /\
    q_rep st' q' gs /\ Z.testbit (m_mctl (mram hw' 4)) 15 = false.
Proof.
  destruct (on_can_receive_queues 1 demo_iface demo_st blank_regs three_fresh [])
    as (q' & st' & r' & hw' & gs & E & HR & HF & Hm).
  - by apply (bool_decide_unpack _).
  - apply demo_st_rep.
  - done.
  - intros m Hm. split; [|done]. unfold mram, sim_can_laws, three_fresh, sim_ram, m_mctl.
    destruct (m <? 5); done.
  - exists q', st', r', hw', gs. split; [done|]. split; [by apply Forall2_length in HF|].
    split; [done|]. by rewrite (Hm 4).
Defined.

Section Configured.
Context {W P H : Type} {NS : NetStack W P} {D : DCAN H} {L : DCANLaws H}.
Variable mdns_resp_add_service : Z -> Z -> Z -> W -> W.

(** The handle of interface [i] after the configuration loop. *)
Definition configured (node i : Z) (addr0 : list Z) (h : cannelloni_handle) : Prop :=
  port (Init h) = 20000 + node * 10 + i /\ remote_port (Init h) = port (Init h) /\
  Bridge.addr (Init h) = addr0 /\
  tx_queue h = mk_queue 0 0 128 (tx_buf 0) /\ rx_queue h = mk_queue 0 0 128 (rx_buf 0) /\
  sequence_number h = 0.

Lemma multicast_addr_spec a0 rest :
  multicast_addr (a0 :: rest) = Ok (Z.lor 0xFF020000 (Z.land a0 0xffff) :: rest).
Proof.
  unfold multicast_addr. assert (rd (a0 :: rest) 0 = Ok a0) as -> by by apply (rd_mid []).
  cbn [mbind outcome_bind]. by apply (wr_snoc [] a0 rest _ 0).
Qed.

Lemma configure_iface_spec fuel node i a0 rest c w :
  (stat_bound <= fuel)%nat -> 0 <= node <= 2 -> 0 <= i < 10 ->
  exists h c' w', configure_iface fuel mdns_resp_add_service node i (a0 :: rest) c w = Ok ((h, c'), w') /\
    configured node i (Z.lor 0xFF020000 (Z.land a0 0xffff) :: rest) h /\ CTL c'.1 = 0x1400.
Proof.
  intros Hf Hn Hi. destruct c as [r hw].
  destruct (can_init_result r hw fuel Hf) as (r' & hw' & E & Hc & _).
  unfold configure_iface, iface_init. rewrite multicast_addr_spec. cbn [mbind outcome_bind mret outcome_ret].
  rewrite E. cbn [mbind outcome_bind]. rewrite u16_small by (unfold is_u16; lia).
  unfold init_cannelloni. destruct (udp_new w) as [[pcb|] w1].
  - destruct (udp_bind pcb _ w1) as [err w2]. destruct (negb (err =? 0));
      (do 3 eexists); (split; [reflexivity|]); by repeat split.
  - (do 3 eexists). split; [reflexivity|]. by repeat split.
Qed.

Lemma configure_spec fuel node i a0 rest cs w :
  (stat_bound <= fuel)%nat -> 0 <= node <= 2 -> 0 <= i -> i + zlen cs <= 10 ->
  exists xs w', configure fuel mdns_resp_add_service node i (a0 :: rest) cs w = Ok (xs, w') /\
    length xs = length cs /\
    forall k h c, xs !! k = Some (h, c) ->
      configured node (i + Z.of_nat k) (Z.lor 0xFF020000 (Z.land a0 0xffff) :: rest) h /\
      CTL c.1 = 0x1400.
Proof.
  intros Hf Hn. revert i w. induction cs as [|c cs IH]; intros i w Hi Hlen.
  { exists [], w. split_and!; [done|done|]. intros k h c Hk. by rewrite lookup_nil in Hk. }
  cbn [configure length] in *.
  destruct (configure_iface_spec fuel node i a0 rest c w Hf Hn ltac:(lia))
    as (h0 & c0 & w1 & E0 & Hh0 & Hc0).
  destruct (IH (i + 1) w1 ltac:(lia) ltac:(lia)) as (xs & w2 & E & Hl & Hxs).
  rewrite E0. cbn [mbind outcome_bind]. rewrite E. exists ((h0, c0) :: xs), w2.
  split_and!; [done|simpl; lia|]. intros [|k] h c' Hk; simpl in Hk.
  - injection Hk as <- <-. by rewrite Z.add_0_r.
  - apply Hxs in Hk. by replace (i + Z.of_nat (S k)) with (i + 1 + Z.of_nat k) by lia.
Qed.
End Configured.

(** ** The shared transmit buffer *)

Lemma empty_rep st buf arr n :
  st !! buf = Some arr -> zlen arr = n -> Forall data_ok arr -> 0 < n < 4294967296 ->
  q_rep st (mk_queue 0 0 n buf) [].
Proof.
  intros Hb Hl Hd Hn. assert (Hq : queue_ok (mk_queue 0 0 n buf)) by (unfold queue_ok; simpl; lia).
  split; [done|by exists arr|]. by rewrite (proj2 (q_slots_nil _ Hq)).
Qed.

Lemma one_slot st q f :
  q_rep st q [f] -> q_slots q = [q_head q] /\ frame_load st (q_frames q) (q_head q) = Ok f.
Proof.
  intros HR. destruct (q_rep_cons _ _ _ _ HR) as (s & q' & Hp & Hl & _).
  assert (s = q_head q) as ->.
  { unfold queue_peek in Hp. destruct (q_head q =? q_tail q); congruence. }
  split; [|done]. destruct HR as [Hok _ Hv]. rewrite queue_peek_slots in Hp by done.
  apply Forall2_length in Hv. destruct (q_slots q) as [|s [|]]; simpl in *; congruence.
Qed.

Section Shared.
Context {W P : Type} {NS : NetStack W P}.

(** One frame received into an empty queue lands in the slot at its head. *)
Lemma receive_first h st (p : P) (w : W) seq f :
  carries p (enc_datagram seq [f]) -> frame_ok f = true ->
  q_rep st (tx_queue h) [] -> 1 < q_count (tx_queue h) ->
  exists h' st' f', handle_cannelloni_frame h st (Some p) w = Ok (h', st', pbuf_free p w) /\
    frame_eqv f' f /\ q_slots (tx_queue h') = [q_head (tx_queue h)] /\
    q_frames (tx_queue h') = q_frames (tx_queue h) /\
    frame_load st' (q_frames (tx_queue h)) (q_head (tx_queue h)) = Ok f' /\
    forall buf, (exists arr, st !! buf = Some arr /\ zlen arr = 128 /\ Forall data_ok arr) ->
      exists arr, st' !! buf = Some arr /\ zlen arr = 128 /\ Forall data_ok arr.
Proof.
  intros [Hp Ht] Hok HR Hroom. pose proof (frame_ok_fits f Hok) as Hfit.
  pose proof (frame_ok_fields f Hok) as (_ & Hl & Hcl & _).
  assert (Hlen : zlen (enc_body [f]) = 5 + canfd_len f).
  { rewrite enc_body_cons, enc_body_nil, app_nil_r. by apply enc_frame_length. }
  pose proof (enc_datagram_length seq [f]) as Hdl.
  destruct (receive_spec h st p w [] seq [f] [] []) as (h' & st' & gs & E & HR' & HF & Hs & _ & Ho).
  all: rewrite ?Ht, ?Hp; try done; try lia.
  { by constructor. }
  rewrite accepted_all in HF; [|by constructor|lia|simpl; lia].
  apply Forall2_cons_inv_r in HF as (f' & gs' & Hf & HF & ->).
  apply Forall2_nil_inv_r in HF as ->. simpl in HR'.
  destruct Hs as (_ & _ & _ & _ & Hc & Hfr & Hhd). destruct (one_slot _ _ _ HR') as [Hsl Hld].
  rewrite Hhd in Hsl, Hld. rewrite Hfr in Hld.
  exists h', st', f'. split_and!; try done. intros buf (arr & Hb & Ha & Hd).
  destruct (decide (buf = q_frames (tx_queue h))) as [->|Hne].
  - destruct HR as [_ (arr0 & Hb0 & Hl0 & _) _]. destruct HR' as [_ (arr' & Hb' & Hl' & Hd') _].
    rewrite Hfr in Hb'. rewrite Hc in Hl'. exists arr'. rewrite Hb in Hb0. injection Hb0 as <-.
    split_and!; [done|lia|done].
  - exists arr. by rewrite Ho.
Qed.

(** All four interfaces are given the buffers of interface 0
    ([can_interfaces->tx_buf]), so the transmit queues of two interfaces
    overwrite each other: after a packet with frame [f] for one interface and
    a packet with frame [g] for another, the queue of the first holds [g]. *)
Theorem shared_tx_buffer node i j a hi hj st arr (pi pj : P) (w w' : W) si sj f g :
  configured node i a hi -> configured node j a hj ->
  st !! tx_buf 0 = Some arr -> zlen arr = 128 -> Forall data_ok arr ->
  carries pi (enc_datagram si [f]) -> carries pj (enc_datagram sj [g]) ->
  frame_ok f = true -> frame_ok g = true ->
  exists hi' hj' st1 st2 g',
    handle_cannelloni_frame hi st (Some pi) w = Ok (hi', st1, pbuf_free pi w) /\
    handle_cannelloni_frame hj st1 (Some pj) w' = Ok (hj', st2, pbuf_free pj w') /\
    q_slots (tx_queue hi') = [0] /\
    frame_load st2 (q_frames (tx_queue hi')) 0 = Ok g' /\ frame_eqv g' g.
Proof.
  intros (_ & _ & _ & Hqi & _) (_ & _ & _ & Hqj & _) Hb Hl Hd Hpi Hpj Hf Hg.
  destruct (receive_first hi st pi w si f) as (hi' & st1 & f' & Ei & _ & Hsi & Hfi & _ & Hkeep);
    rewrite ?Hqi; try done.
  { by eapply empty_rep. }
  destruct (Hkeep (tx_buf 0)) as (arr1 & Hb1 & Hl1 & Hd1); [by exists arr|].
  destruct (receive_first hj st1 pj w' sj g) as (hj' & st2 & g' & Ej & Heq & _ & _ & Hld & _);
    rewrite ?Hqj; try done.
  { by eapply empty_rep. }
  rewrite Hqi in Hsi, Hfi. rewrite Hqj in Hld. simpl in *.
  exists hi', hj', st1, st2, g'. by rewrite Hfi.
Qed.
End Shared.

Definition iface_of (node i : Z) : cannelloni_handle :=
  mk_handle (mk_init (20000 + node * 10 + i) [0; 0; 0; 0] (20000 + node * 10 + i) 128 0 1)
    (mk_queue 0 0 128 0) (mk_queue 0 0 128 1) 0 (Some 1) 0.

Lemma shared_tx_buffer_witness :
  exists hi' hj' st1 st2 g',
    handle_cannelloni_frame (iface_of 1 0) {[ 0 := replicate 128 blank ]} (Some (frame_packet frame_a))
      [] = Ok (hi', st1, []) /\
    handle_cannelloni_frame (iface_of 1 3) st1 (Some (frame_packet frame_b)) [] = Ok (hj', st2, []) /\
    q_slots (tx_queue hi') = [0] /\
    frame_load st2 (q_frames (tx_queue hi')) 0 = Ok g' /\ frame_eqv g' frame_b.
Proof.
  apply (shared_tx_buffer (NS := log_net) 1 0 3 [0; 0; 0; 0] (iface_of 1 0) (iface_of 1 3)
    {[ 0 := replicate 128 blank ]} (replicate 128 blank) (frame_packet frame_a)
    (frame_packet frame_b) [] [] 0 0 frame_a frame_b); try by vm_compute.
  by apply Forall_replicate.
Defined.

(** The configuration loop of [main] succeeds for every node and leaves
    each of the four interfaces with its own UDP port [20000 + 10 * node + i]
    in both directions, the link-local multicast address ff02::/16 that keeps
    the rest of the interface's own address, two empty queues of 128 slots
    and a CAN controller in normal operation. *)
Theorem configuration {W P H} {NS : NetStack W P} {D : DCAN H} {L : DCANLaws H} fuel
    (mdns_resp_add_service : Z -> Z -> Z -> W -> W) reg a0 rest cs w :
  (stat_bound <= fuel)%nat -> zlen cs = CAN_IFACES ->
  exists xs w',
    configure fuel mdns_resp_add_service (node_id reg) 0 (a0 :: rest) cs w = Ok (xs, w') /\
    zlen xs = 4 /\
    (forall k h c, xs !! k = Some (h, c) ->
       configured (node_id reg) (Z.of_nat k) (Z.lor 0xFF020000 (Z.land a0 0xffff) :: rest) h /\
       CTL c.1 = 0x1400) /\
    (forall k1 k2 h1 h2 c1 c2, xs !! k1 = Some (h1, c1) -> xs !! k2 = Some (h2, c2) ->
       port (Init h1) = port (Init h2) -> k1 = k2).
Proof.
  intros Hf Hcs. unfold CAN_IFACES in Hcs.
  assert (Hn : 0 <= node_id reg <= 2).
  { unfold node_id. destruct (_ =? _); [lia|]. destruct (_ =? _); lia. }
  destruct (configure_spec mdns_resp_add_service fuel (node_id reg) 0 a0 rest cs w Hf Hn)
    as (xs & w' & E & Hl & Hxs); [lia|lia|].
  exists xs, w'. split_and!; [done|lia|exact Hxs|].
  intros k1 k2 h1 h2 c1 c2 H1 H2 Hp. destruct (Hxs _ _ _ H1) as [(P1 & _) _].
  destruct (Hxs _ _ _ H2) as [(P2 & _) _]. lia.
Qed.

Lemma configuration_witness :
  exists xs w',
    configure 1 (fun _ _ _ w => w) (node_id 0x16013009) 0 [0xFE800000; 0; 1; 2]
      (replicate 4 (blank_regs, blank_sim)) [] = Ok (xs, w') /\ zlen xs = 4 /\
    forall h c, xs !! 3%nat = Some (h, c) -> port (Init h) = 20023.
Proof.
  destruct (configuration (NS := log_net) 1 (fun _ _ _ w => w) 0x16013009 0xFE800000 [0; 1; 2]
    (replicate 4 (blank_regs, blank_sim)) []) as (xs & w' & E & Hl & Hx & _);
    [by apply (bool_decide_unpack _)|done|].
  exists xs, w'. split; [done|]. split; [done|]. intros h c Hk.
  by destruct (Hx 3%nat h c Hk) as [[-> _] _].
Defined.
