(* ===== verification/Mmio.v ===== *)
(** Memory-mapped devices: register reads and writes in program order.

    A device driver is a computation over the state [H] of its device; the
    class [Mmio] says what a read and a write of a register do. Registers
    hold 32 bits. *)

From Stdlib Require Import ZArith Lia.
From stdpp Require Import base list numbers.
From S2P Require Import Prelude.

Open Scope Z_scope.

Class Mmio (R H : Type) := {
  io_read : R -> H -> Z * H;
  io_write : R -> Z -> H -> H
}.

(** Driver code. *)
Definition io (H A : Type) : Type := H -> outcome (A * H).

#[export] Instance io_ret {H} : MRet (io H) := fun A x h => Ok (x, h).
#[export] Instance io_bind {H} : MBind (io H) := fun A B k m h =>
  '(x, h) ← m h; k x h.

Definition io_fault {H A} (e : fault) : io H A := fun _ => Fault e.
Definition io_assert {H} (b : bool) : io H unit := fun h => _ ← lwip_assert b; Ok (tt, h).
Definition io_get {H} : io H H := fun h => Ok (h, h).
Definition io_modify {H} (f : H -> H) : io H unit := fun h => Ok (tt, f h).
Definition io_when {H} (b : bool) (m : io H unit) : io H unit := if b then m else mret tt.

Section Access.
Context {R H : Type} {M : Mmio R H}.

Definition rd_reg (r : R) : io H Z := fun h => Ok (io_read r h).
Definition wr_reg (r : R) (v : Z) : io H unit := fun h => Ok (tt, io_write r (u32 v) h).

(** [reg |= v], [reg &= v]: a read, then a write. *)
Definition or_reg (r : R) (v : Z) : io H unit := x ← rd_reg r; wr_reg r (Z.lor x v).
Definition and_reg (r : R) (v : Z) : io H unit := x ← rd_reg r; wr_reg r (Z.land x v).

(** [while (busy(reg));] *)
Fixpoint poll (fuel : nat) (r : R) (busy : Z -> bool) : io H unit :=
  x ← rd_reg r;
  if busy x then
    match fuel with
    | O => io_fault Diverges
    | S fuel => poll fuel r busy
    end
  else mret tt.
End Access.

(** A device that answers a poll within a bound: [left] reads of [r] are
    still busy, and reading leaves the rest of the state, seen through
    [view], alone. *)
Class Polled {R H V} `{Mmio R H} (r : R) (busy : Z -> bool) (view : H -> V) := {
  poll_bound : nat;
  poll_left : H -> nat;
  poll_left_le h : (poll_left h <= poll_bound)%nat;
  poll_busy h x h' : io_read r h = (x, h') -> busy x = true -> (poll_left h' < poll_left h)%nat;
  poll_view h x h' : io_read r h = (x, h') -> view h' = view h
}.

Lemma poll_ok {R H V} `{Mmio R H} (r : R) busy (view : H -> V) {PL : Polled r busy view} fuel h :
  (poll_bound <= fuel)%nat ->
  exists h', poll fuel r busy h = Ok (tt, h') /\ view h' = view h.
Proof.
  intros Hf. pose proof (poll_left_le h) as Hl.
  assert (Hle : (poll_left h <= fuel)%nat) by lia. clear Hf Hl. revert h Hle.
  induction fuel as [|fuel IH]; intros h Hle; cbn [poll]; unfold mbind, io_bind, rd_reg; simpl;
    destruct (io_read r h) as [x h1] eqn:E; destruct (busy x) eqn:Hb.
  all: try (exists h1; split; [done|]; by eapply poll_view).
  - pose proof (poll_busy _ _ _ E Hb). lia.
  - pose proof (poll_busy _ _ _ E Hb). destruct (IH h1 ltac:(lia)) as (h2 & E2 & Hv).
    exists h2. split; [done|]. rewrite Hv. by eapply poll_view.
Qed.

(** Running driver code. *)
Lemma io_bind_ok {H A B} (m : io H A) (k : A -> io H B) h x h' :
  m h = Ok (x, h') -> (m ≫= k) h = k x h'.
Proof. unfold mbind, io_bind. by intros ->. Qed.

Lemma wr_bind {R H B} `{Mmio R H} r v (k : unit -> io H B) h :
  (wr_reg r v ≫= k) h = k tt (io_write r (u32 v) h).
Proof. done. Qed.

Lemma rd_bind {R H B} `{Mmio R H} (r : R) (k : Z -> io H B) h x h' :
  io_read r h = (x, h') -> (rd_reg r ≫= k) h = k x h'.
Proof. unfold mbind, io_bind, rd_reg. simpl. by intros ->. Qed.
