(* ===== verification/Switch.v ===== *)
(** The Ethernet switch: src/src/drivers/spi.c, src/src/SJA1105.c and the
    generator of its table, src/gen_switch_config.py. *)

From Stdlib Require Import ZArith Lia.
From stdpp Require Import base list numbers.
From S2P Require Import Prelude Mmio.

Open Scope Z_scope.

(* ------------------------------------------------------------------ *)
(** * The SPI master *)

Inductive spi_reg := GCR0 | PC0 | GCR1 | DELAY | FMT0 | BUF | DAT1.

#[export] Instance spi_reg_eq_dec : EqDecision spi_reg.
Proof. solve_decision. Defined.

Definition CS : Z := 0.
Definition CS_DELAY : Z := 45.
Definition TRANSACTION_DELAY : Z := 0xFF.
Definition SPIGCR1_MASTER_SHIFT : Z := 0.
Definition SPIGCR1_CLKMOD_SHIFT : Z := 1.
Definition SPIGCR1_SPIEN_SHIFT : Z := 24.
Definition SPIPC0_SCS0_SHIFT : Z := 0.
Definition SPIPC0_SCS1_SHIFT : Z := 1.
Definition SPIPC0_CLK_SHIFT : Z := 9.
Definition SPIPC0_SIMO_SHIFT : Z := 10.
Definition SPIPC0_SOMI_SHIFT : Z := 11.
Definition SPIDELAY_C2TDELAY_SHIFT : Z := 24.
Definition SPIDELAY_T2CDELAY_SHIFT : Z := 16.
Definition SPIFMT_CHARLEN_SHIFT : Z := 0.
Definition SPIFMT_PRESCALE_SHIFT : Z := 8.
Definition SPIFMT_WDELAY_SHIFT : Z := 24.
Definition SPIDAT1_CSNR_SHIFT : Z := 16.
Definition SPIDAT1_DFSEL_SHIFT : Z := 24.
Definition SPIDAT1_WDEL_SHIFT : Z := 26.
Definition SPIDAT1_CSHOLD_SHIFT : Z := 28.
Definition SPIBUF_TXFULL_SHIFT : Z := 29.

Definition bitv (n : Z) : Z := Z.shiftl 1 n.

(** [(BUF & (1U << SPIBUF_TXFULL_SHIFT)) != 0]. *)
Definition tx_full (x : Z) : bool := negb (Z.land x (bitv SPIBUF_TXFULL_SHIFT) =? 0).

(** The word written to DAT1 for a byte; the chip select is held except after
    the last one. *)
Definition spi_flags (last : bool) : Z :=
  let flags := Z.lor (Z.shiftl (Z.land 0xFF (Z.lnot (Z.shiftl 1 CS))) SPIDAT1_CSNR_SHIFT)
                     (bitv SPIDAT1_WDEL_SHIFT) in
  let flags := Z.lor flags (Z.shiftl CS SPIDAT1_DFSEL_SHIFT) in
  if last then flags else Z.lor flags (bitv SPIDAT1_CSHOLD_SHIFT).

Section Spi.
Context {H : Type} {M : Mmio spi_reg H}.

Definition spi_init : io H unit :=
  _ ← wr_reg GCR0 1;
  _ ← wr_reg PC0 (Z.lor (Z.lor (Z.lor (Z.lor (bitv SPIPC0_SCS0_SHIFT) (bitv SPIPC0_SCS1_SHIFT))
        (bitv SPIPC0_CLK_SHIFT)) (bitv SPIPC0_SIMO_SHIFT)) (bitv SPIPC0_SOMI_SHIFT));
  _ ← wr_reg GCR1 (Z.lor (Z.lor (bitv SPIGCR1_MASTER_SHIFT) (bitv SPIGCR1_CLKMOD_SHIFT))
        (bitv SPIGCR1_SPIEN_SHIFT));
  _ ← wr_reg DELAY (Z.lor (Z.shiftl CS_DELAY SPIDELAY_C2TDELAY_SHIFT)
        (Z.shiftl CS_DELAY SPIDELAY_T2CDELAY_SHIFT));
  wr_reg FMT0 (Z.lor (Z.lor (Z.shiftl TRANSACTION_DELAY SPIFMT_WDELAY_SHIFT)
    (Z.shiftl 74 SPIFMT_PRESCALE_SHIFT)) (Z.shiftl 8 SPIFMT_CHARLEN_SHIFT)).

Fixpoint spi_transfer (fuel : nat) (tx : list Z) : io H unit :=
  match tx with
  | [] => mret tt
  | b :: tx =>
      _ ← poll fuel BUF tx_full;
      _ ← wr_reg DAT1 (Z.lor b (spi_flags (bool_decide (tx = []))));
      spi_transfer fuel tx
  end.
End Spi.

(* ------------------------------------------------------------------ *)
(** * The static configuration *)

Definition STATIC_CONFIG_ADDR : Z := 0x20000.

(** The macro [WRITE(addr)] as bytes. *)
Definition WRITE (addr : Z) : list Z :=
  [u8 (Z.lor 0x80 (Z.land (Z.shiftr addr 20) 1)); u8 (Z.shiftr addr 12);
   u8 (Z.land (Z.shiftr addr 4) 0xFF); u8 (Z.land (u32 (Z.shiftl addr 4)) 0xFF)].

(** The device identifier. *)
Definition config_device : list Z := [
  0x9e; 0; 0x03; 0x0e
].

(** Block 0x6, the L2 policing table. *)
Definition config_l2_policy : list Z := [
  0x06; 0; 0; 0;
  0; 0; 0; 0x5a;
  0x4e; 0xd2; 0xc5; 0x0f;
  0xfe; 0xf7; 0; 0;
  0x03; 0xff; 0xff; 0xff;
  0xfe; 0xf7; 0; 0;
  0x03; 0xff; 0xff; 0xff;
  0xfe; 0xf7; 0; 0;
  0x03; 0xff; 0xff; 0xff;
  0xfe; 0xf7; 0; 0;
  0x03; 0xff; 0xff; 0xff;
  0xfe; 0xf7; 0; 0;
  0x03; 0xff; 0xff; 0xff;
  0xfe; 0xf7; 0; 0;
  0x03; 0xff; 0xff; 0xff;
  0xfe; 0xf7; 0; 0;
  0x03; 0xff; 0xff; 0xff;
  0xfe; 0xf7; 0; 0;
  0x03; 0xff; 0xff; 0xff;
  0xfe; 0xf7; 0; 0;
  0x03; 0xff; 0xff; 0xff;
  0xfe; 0xf7; 0; 0;
  0x03; 0xff; 0xff; 0xff;
  0xfe; 0xf7; 0; 0;
  0x03; 0xff; 0xff; 0xff;
  0xfe; 0xf7; 0; 0;
  0x03; 0xff; 0xff; 0xff;
  0xfe; 0xf7; 0; 0;
  0x03; 0xff; 0xff; 0xff;
  0xfe; 0xf7; 0; 0;
  0x03; 0xff; 0xff; 0xff;
  0xfe; 0xf7; 0; 0;
  0x03; 0xff; 0xff; 0xff;
  0xfe; 0xf7; 0; 0;
  0x03; 0xff; 0xff; 0xff;
  0xfe; 0xf7; 0; 0;
  0x03; 0xff; 0xff; 0xff;
  0xfe; 0xf7; 0; 0;
  0x03; 0xff; 0xff; 0xff;
  0xfe; 0xf7; 0; 0;
  0x03; 0xff; 0xff; 0xff;
  0xfe; 0xf7; 0; 0;
  0x03; 0xff; 0xff; 0xff;
  0xfe; 0xf7; 0; 0;
  0x03; 0xff; 0xff; 0xff;
  0xfe; 0xf7; 0; 0;
  0x03; 0xff; 0xff; 0xff;
  0xfe; 0xf7; 0; 0;
  0x03; 0xff; 0xff; 0xff;
  0xfe; 0xf7; 0; 0;
  0x03; 0xff; 0xff; 0xff;
  0xfe; 0xf7; 0; 0;
  0x03; 0xff; 0xff; 0xff;
  0xfe; 0xf7; 0; 0;
  0x03; 0xff; 0xff; 0xff;
  0xfe; 0xf7; 0; 0;
  0x03; 0xff; 0xff; 0xff;
  0xfe; 0xf7; 0; 0;
  0x03; 0xff; 0xff; 0xff;
  0xfe; 0xf7; 0; 0;
  0x03; 0xff; 0xff; 0xff;
  0xfe; 0xf7; 0; 0;
  0x03; 0xff; 0xff; 0xff;
  0xfe; 0xf7; 0; 0;
  0x03; 0xff; 0xff; 0xff;
  0xfe; 0xf7; 0; 0;
  0x03; 0xff; 0xff; 0xff;
  0xfe; 0xf7; 0; 0;
  0x03; 0xff; 0xff; 0xff;
  0xfe; 0xf7; 0; 0;
  0x03; 0xff; 0xff; 0xff;
  0xfe; 0xf7; 0; 0;
  0x03; 0xff; 0xff; 0xff;
  0xfe; 0xf7; 0; 0;
  0x03; 0xff; 0xff; 0xff;
  0xfe; 0xf7; 0; 0;
  0x03; 0xff; 0xff; 0xff;
  0xfe; 0xf7; 0; 0;
  0x03; 0xff; 0xff; 0xff;
  0xfe; 0xf7; 0; 0;
  0x03; 0xff; 0xff; 0xff;
  0xfe; 0xf7; 0; 0;
  0x03; 0xff; 0xff; 0xff;
  0xfe; 0xf7; 0; 0;
  0x03; 0xff; 0xff; 0xff;
  0xfe; 0xf7; 0; 0;
  0x03; 0xff; 0xff; 0xff;
  0xfe; 0xf7; 0; 0;
  0x03; 0xff; 0xff; 0xff;
  0xfe; 0xf7; 0; 0;
  0x03; 0xff; 0xff; 0xff;
  0xfe; 0xf7; 0; 0;
  0x03; 0xff; 0xff; 0xff;
  0xf0; 0x5a; 0xd9; 0x4e
].

(** Block 0x8, the L2 forwarding table. *)
Definition config_l2_forwarding : list Z := [
  0x08; 0; 0; 0;
  0; 0; 0; 0x1a;
  0x6a; 0xf6; 0x23; 0x53;
  0; 0; 0; 0;
  0xf7; 0xbc; 0; 0;
  0; 0; 0; 0;
  0xef; 0x7a; 0; 0;
  0; 0; 0; 0;
  0xde; 0xf6; 0; 0;
  0; 0; 0; 0;
  0xbd; 0xee; 0; 0;
  0; 0; 0; 0;
  0x7b; 0xde; 0; 0;
  0; 0; 0; 0;
  0; 0; 0; 0;
  0; 0; 0; 0;
  0; 0; 0; 0;
  0; 0; 0; 0;
  0; 0; 0; 0;
  0; 0; 0; 0;
  0; 0; 0; 0;
  0; 0; 0; 0;
  0; 0; 0; 0;
  0; 0; 0; 0;
  0; 0; 0; 0;
  0; 0; 0; 0;
  0; 0; 0; 0;
  0; 0; 0; 0;
  0; 0; 0; 0;
  0xed; 0x1c; 0x07; 0x02
].

(** Block 0x9, the MAC configuration table. *)
Definition config_mac : list Z := [
  0x09; 0; 0; 0;
  0; 0; 0; 0x23;
  0xda; 0xb5; 0xbd; 0xc8;
  0; 0; 0; 0x0e;
  0; 0; 0; 0;
  0x07; 0xfc; 0x01; 0x04;
  0; 0; 0; 0;
  0; 0; 0; 0;
  0; 0; 0; 0;
  0; 0; 0; 0;
  0; 0; 0; 0x0e;
  0; 0; 0; 0;
  0x07; 0xfc; 0x01; 0x04;
  0; 0; 0; 0;
  0; 0; 0; 0;
  0; 0; 0; 0;
  0; 0; 0; 0;
  0; 0; 0; 0x0e;
  0; 0; 0; 0;
  0x07; 0xfc; 0x01; 0x04;
  0; 0; 0; 0;
  0; 0; 0; 0;
  0; 0; 0; 0;
  0; 0; 0; 0;
  0; 0; 0; 0x0e;
  0; 0; 0; 0;
  0x07; 0xfc; 0x01; 0x04;
  0; 0; 0; 0;
  0; 0; 0; 0;
  0; 0; 0; 0;
  0; 0; 0; 0;
  0; 0; 0; 0x0e;
  0; 0; 0; 0;
  0x07; 0xfc; 0x01; 0x02;
  0; 0; 0; 0;
  0; 0; 0; 0;
  0; 0; 0; 0;
  0; 0; 0; 0;
  0xb2; 0x41; 0xdf; 0x1f
].

(** Block 0xe, the L2 forwarding parameters. *)
Definition config_l2_param : list Z := [
  0x0e; 0; 0; 0;
  0; 0; 0; 0x03;
  0xc8; 0xa7; 0xce; 0xe6;
  0; 0x74; 0x20; 0;
  0; 0; 0; 0;
  0; 0; 0; 0;
  0x02; 0xeb; 0x6c; 0x5a
].

(** Block 0x11, the general parameters. *)
Definition config_general : list Z := [
  0x11; 0; 0; 0;
  0; 0; 0; 0x0a;
  0x57; 0x1f; 0x81; 0x3f;
  0; 0; 0; 0;
  0x42; 0x04; 0; 0;
  0; 0; 0x04; 0x45;
  0; 0; 0; 0;
  0xff; 0x0f; 0xf8; 0;
  0xff; 0xff; 0xff; 0xff;
  0xff; 0xff; 0xff; 0xff;
  0; 0xff; 0xff; 0xff;
  0; 0; 0; 0;
  0; 0; 0; 0;
  0xa0; 0xee; 0x2a; 0x0c
].

(** Block 0x4e, the xMII mode parameters. *)
Definition config_xmii : list Z := [
  0x4e; 0; 0; 0;
  0; 0; 0; 0x01;
  0x3a; 0x5d; 0x5e; 0x24;
  0x46; 0x48; 0; 0;
  0x86; 0x5b; 0xfe; 0xb4
].

(** The final block with the CRC over everything. *)
Definition config_total : list Z := [
  0; 0; 0; 0;
  0; 0; 0; 0;
  0xfc; 0x27; 0x42; 0x56
].

(** The array [config]. *)
Definition config : list Z :=
  WRITE STATIC_CONFIG_ADDR ++ config_device ++ config_l2_policy ++ config_l2_forwarding ++
  config_mac ++ config_l2_param ++ config_general ++ config_xmii ++ config_total.

Section Sja1105.
Context {H : Type} {M : Mmio spi_reg H}.
Variable fuel : nat.

Definition SJA1105_write (addr value : Z) : io H unit :=
  spi_transfer fuel (WRITE addr ++
    [u8 (Z.shiftr value 24); u8 (Z.shiftr value 16); u8 (Z.shiftr value 8); u8 value]).

Definition SJA1105_init : io H unit :=
  _ ← spi_init;
  _ ← SJA1105_write 0x100032 0xB000800;
  spi_transfer fuel config.
End Sja1105.

(* ------------------------------------------------------------------ *)
(** * The generator *)

(** A record of gen_switch_config.py: the number of words and, for each
    symbol, its last and first bit and its value. *)
Record mem := mk_mem { WORDS : nat; symbols : list (Z * Z * Z) }.

Definition sym_bits (s : Z * Z * Z) : Z := s.1.1 - s.1.2 + 1.

(** The value of a symbol in place; [None] is the exception. *)
Definition sym_val (s : Z * Z * Z) : option Z :=
  let mask := Z.shiftl 1 (sym_bits s) - 1 in
  let val := if s.2 =? -1 then mask else s.2 in
  if Z.land val mask =? val then Some (Z.shiftl (Z.land val mask) s.1.2) else None.

Fixpoint register_val (acc : Z) (ss : list (Z * Z * Z)) : option Z :=
  match ss with
  | [] => Some acc
  | s :: ss => match sym_val s with Some v => register_val (Z.lor acc v) ss | None => None end
  end.

Fixpoint dwords (n : nat) (v : Z) : list Z :=
  match n with
  | O => []
  | S n => Z.land v 0xFFFFFFFF :: dwords n (Z.shiftr v 32)
  end.

Definition to_bytes (m : mem) : option (list Z) := dwords (WORDS m) <$> register_val 0 (symbols m).

(** Python's integers are unbounded, and so is [crc]. *)
Definition bit_reverse (val width : Z) : Z :=
  foldl (fun new_val i =>
           Z.lor new_val (Z.shiftl (if Z.land val (Z.shiftl 1 i) =? 0 then 0 else 1) (width - i - 1)))
        0 (seqZ 0 width).

Definition bit_not (n numbits : Z) : Z := Z.shiftl 1 numbits - 1 - n.

Fixpoint crc32_bits (n : nat) (crc b : Z) : Z :=
  match n with
  | O => crc
  | S n =>
      let crc' := Z.shiftl crc 1 in
      crc32_bits n (if Z.land (Z.lxor crc b) (Z.shiftl 1 31) =? 0 then crc'
                    else Z.lxor crc' 0x04C11DB7) (Z.shiftl b 1)
  end.

Definition crc32_add (crc b : Z) : Z := crc32_bits 8 crc (bit_reverse b 32).

Definition crc32_word (crc w : Z) : Z :=
  crc32_add (crc32_add (crc32_add (crc32_add crc (Z.land w 0xFF)) (Z.land (Z.shiftr w 8) 0xFF))
    (Z.land (Z.shiftr w 16) 0xFF)) (Z.land (Z.shiftr w 24) 0xFF).

Definition crc32 (data : list Z) : Z :=
  bit_reverse (bit_not (foldl crc32_word 0xFFFFFFFF data) 32) 32.

(** The words of a block: header, payload and their checksums. *)
Definition block_words (block_id : Z) (records : list mem) : option (list Z) :=
  rs ← mapM to_bytes records;
  let payload := concat rs in
  let hdr := [Z.shiftl block_id 24; zlen payload] in
  Some (hdr ++ [crc32 hdr] ++ payload ++ [crc32 payload]).

(** [Writer.write]: the words of the table. *)
Definition write_blocks (device_id : Z) (blocks : list (Z * list mem)) : option (list Z) :=
  ws ← mapM (fun b => block_words b.1 b.2) blocks;
  let written := device_id :: concat ws ++ [0; 0] in
  Some (written ++ [crc32 written]).

(** The four bytes [add_word] prints. *)
Definition word_bytes (w : Z) : list Z :=
  [Z.land (Z.shiftr w 24) 0xFF; Z.land (Z.shiftr w 16) 0xFF; Z.land (Z.shiftr w 8) 0xFF; Z.land w 0xFF].

Definition L2PolicyRecord (SHARINDX SMAX RATE MAXLEN PARTITION : Z) : mem :=
  mk_mem 2
    [(63, 58, SHARINDX); (57, 42, SMAX); (41, 26, RATE); (25, 15, MAXLEN); (14, 12,
     PARTITION)].

Definition L2ForwardingRecord (BC_DOMAIN REACH_PORT FL_DOMAIN : Z) : mem :=
  mk_mem 2
    [(63, 59, BC_DOMAIN); (58, 54, REACH_PORT); (53, 49, FL_DOMAIN); (48, 46, 0);
     (27, 25, 0)].

Definition XMIIModeParams (xMII_MAC0 xMII_MAC1 xMII_MAC2 xMII_MODE3 xMII_MODE4 : Z) : mem :=
  mk_mem 1
    [(18, 17, 0); (19, 19, xMII_MAC0); (21, 20, 0); (22, 22, xMII_MAC1); (24, 23, 0);
     (25, 25, xMII_MAC2); (27, 26, xMII_MODE3); (28, 28, 0); (30, 29, xMII_MODE4);
     (31, 31, 0)].

Definition GeneralParameters (MAC_FLT1 MAC_FLT0 CASC_PORT HOST_PORT MIRR_PORT TPID TPID2 : Z) : mem :=
  mk_mem 10
    [(351, 351, 0); (350, 350, 0); (349, 347, 0); (346, 344, 0); (343, 296, 0); (295,
     248, 0); (247, 200, MAC_FLT1); (199, 152, MAC_FLT0); (151, 151, 0); (150, 150,
     0); (149, 149, 0); (148, 148, 0); (147, 145, CASC_PORT); (144, 142, HOST_PORT);
     (141, 139, MIRR_PORT); (138, 107, 0); (106, 75, 0); (74, 59, TPID); (58, 58, 0);
     (57, 42, TPID2); (41, 41, 0); (40, 29, 0); (28, 26, 0); (25, 25, 0); (24, 22, 0)].

Definition L2ForwardingParam (PART_SPC0 : Z) : mem :=
  mk_mem 3
    [(22, 13, PART_SPC0)].

Definition MACConfigTable (TP_DELIN TP_DELOUT : Z) : mem :=
  mk_mem 7
    [(122, 114, 0); (113, 105, 0); (104, 104, 0); (103, 99, 0); (98, 97, 0); (96, 81,
     TP_DELIN); (80, 65, TP_DELOUT); (64, 57, 0); (56, 54, 0); (53, 42, 0); (41, 41,
     0); (40, 40, 0); (39, 39, 0); (38, 38, 0); (37, 37, 0); (36, 36, 0); (35, 35,
     0); (34, 34, 0); (33, 33, 0); (32, 32, 0); (31, 31, 0); (30, 30, 0); (29, 29,
     0); (28, 17, 0); (16, 14, 0); (13, 13, 0); (4, 0, 14)].

Definition MAX_PORTS : Z := 5.

Definition ports_bits (excluding : Z) : Z := Z.land 31 (Z.lnot (Z.shiftl 1 excluding)).

Definition blocks : list (Z * list mem) :=
  [(0x6, replicate 45 (L2PolicyRecord 0 (-1) (-1) 1518 0));
   (0x8, ((fun i => L2ForwardingRecord (ports_bits i) (ports_bits i) (ports_bits i)) <$> seqZ 0 MAX_PORTS) ++
         replicate 8 (L2ForwardingRecord 0 0 0));
   (0x9, replicate 4 (MACConfigTable 1022 130) ++ [MACConfigTable 1022 129]);
   (0xE, [L2ForwardingParam 929]);
   (0x11, [GeneralParameters (-1) (-1) (-1) (-1) (-1) 0x88A8 0x8100]);
   (0x4E, [XMIIModeParams 1 1 1 1 2])].

(** [Mem.parse]: a symbol of a record given as bytes. *)
Fixpoint parse_words (l : list Z) : Z :=
  match l with
  | b0 :: b1 :: b2 :: b3 :: l => Z.lor (be32 b0 b1 b2 b3) (Z.shiftl (parse_words l) 32)
  | _ => 0
  end.

Definition parse_symbol (l : list Z) (end_bit start_bit : Z) : Z :=
  Z.land (Z.shiftr (parse_words l) start_bit) (Z.shiftl 1 (end_bit - start_bit + 1) - 1).

(* ------------------------------------------------------------------ *)
(** * Facts *)

(** What the driver relies on: a read of BUF and the writes of the other
    registers do not send anything, a write of DAT1 sends that word, and the
    transmit buffer drains. *)
Class SpiLaws (H : Type) `{Mmio spi_reg H} := {
  spi_log : H -> list Z;
  #[global] spi_polled :: Polled BUF tx_full spi_log;
  spi_send v h : spi_log (io_write DAT1 v h) = spi_log h ++ [v];
  spi_quiet r v h : r <> DAT1 -> spi_log (io_write r v h) = spi_log h
}.

(** The words of one transfer: chip select held up to the last byte. *)
Fixpoint spi_words (tx : list Z) : list Z :=
  match tx with
  | [] => []
  | b :: tx => Z.lor b (if bool_decide (tx = []) then 0x04FE0000 else 0x14FE0000) :: spi_words tx
  end.

Lemma spi_flags_eq b : spi_flags b = if b then 0x04FE0000 else 0x14FE0000.
Proof. by destruct b. Qed.

Lemma lor_u32 a b : is_u32 a -> is_u32 b -> u32 (Z.lor a b) = Z.lor a b.
Proof.
  unfold is_u32, u32. intros Ha Hb. apply Z.mod_small. split; [apply Z.lor_nonneg; lia|].
  destruct (decide (Z.lor a b = 0)) as [->|]; [lia|].
  apply Z.log2_lt_cancel. change (Z.log2 4294967296) with 32. rewrite Z.log2_lor by lia.
  assert (Hl : forall x, 0 <= x < 4294967296 -> Z.log2 x < 32).
  { intros x Hx. destruct (decide (x = 0)) as [->|]; [done|]. apply Z.log2_lt_pow2; lia. }
  apply Z.max_lub_lt; by apply Hl.
Qed.

Section SpiFacts.
Context {H : Type} {M : Mmio spi_reg H} {L : SpiLaws H}.
Implicit Types h : H.

Lemma spi_transfer_spec fuel tx h :
  (poll_bound <= fuel)%nat -> Forall is_u8 tx ->
  exists h', spi_transfer fuel tx h = Ok (tt, h') /\ spi_log h' = spi_log h ++ spi_words tx.
Proof.
  intros Hf Htx. revert h. induction Htx as [|b tx Hb _ IH]; intros h.
  { exists h. by rewrite app_nil_r. }
  cbn [spi_transfer]. destruct (poll_ok BUF tx_full spi_log fuel h Hf) as (h1 & E1 & Hl1).
  rewrite (io_bind_ok _ _ _ _ _ E1), wr_bind. rewrite spi_flags_eq, lor_u32.
  2: by unfold is_u8, is_u32 in *; lia.
  2: by unfold is_u32; destruct (bool_decide _); lia.
  edestruct IH as (h2 & E2 & Hl2).
  exists h2. split; [exact E2|].
  by rewrite Hl2, spi_send, Hl1, <- app_assoc.
Qed.

Lemma spi_init_spec h : exists h', spi_init h = Ok (tt, h') /\ spi_log h' = spi_log h.
Proof.
  eexists. split; [reflexivity|]. by rewrite !spi_quiet by done.
Qed.

Lemma WRITE_u8 addr : Forall is_u8 (WRITE addr).
Proof. unfold WRITE. repeat constructor; apply u8_range. Qed.

Lemma SJA1105_write_spec fuel addr value h :
  (poll_bound <= fuel)%nat ->
  exists h', SJA1105_write fuel addr value h = Ok (tt, h') /\
    spi_log h' = spi_log h ++ spi_words (WRITE addr ++
      [u8 (Z.shiftr value 24); u8 (Z.shiftr value 16); u8 (Z.shiftr value 8); u8 value]).
Proof.
  intros Hf. apply spi_transfer_spec; [done|]. apply Forall_app. split; [apply WRITE_u8|].
  repeat constructor; apply u8_range.
Qed.

Lemma config_u8 : Forall is_u8 config.
Proof.
  assert (Hc : forallb (fun b => (0 <=? b) && (b <? 256)) config = true) by by vm_compute.
  rewrite forallb_forall in Hc. apply Forall_forall. intros b Hb. apply Hc in Hb.
  unfold is_u8. lia.
Qed.
End SpiFacts.

(** A transmit buffer that is full for one read after each word. *)
Record spi_sim := mk_spi { spi_full : bool; spi_sent : list Z }.

#[export] Instance spi_sim_mmio : Mmio spi_reg spi_sim := {|
  io_read r h :=
    match r with
    | BUF => (if spi_full h then 0x20000000 else 0, mk_spi false (spi_sent h))
    | _ => (0, h)
    end;
  io_write r v h := match r with DAT1 => mk_spi true (spi_sent h ++ [v]) | _ => h end
|}.

#[export] Instance spi_sim_polled : Polled BUF tx_full spi_sent.
Proof.
  refine {| poll_bound := 1; poll_left h := if spi_full h then 1%nat else 0%nat |}.
  - intros h. destruct (spi_full h); lia.
  - intros [f s] x h' [= <- <-]. destruct f; [simpl; lia|done].
  - by intros [f s] x h' [= <- <-].
Defined.

#[export] Instance spi_sim_laws : SpiLaws spi_sim.
Proof.
  refine {| spi_log := spi_sent; spi_polled := spi_sim_polled |}; [done|].
  by intros [] v h Hr.
Defined.

(* ------------------------------------------------------------------ *)
(** * Properties *)

(** The table in SJA1105.c is what gen_switch_config.py generates for its
    blocks: device identifier, the six blocks with header and payload
    checksums in order, the final checksum; no symbol overflows its field. *)
Theorem switch_config_generated :
  (fun ws => WRITE STATIC_CONFIG_ADDR ++ concat (word_bytes <$> ws)) <$>
    write_blocks 0x9E00030E blocks = Some config.
Proof. by vm_compute. Qed.

(** Record [i] of the L2 forwarding table, as bytes. *)
Definition l2_forwarding_record (i : Z) : list Z :=
  take 8 (drop (Z.to_nat (12 + 8 * i)) config_l2_forwarding).

(** In the programmed forwarding table every one of the five ports
    reaches, broadcasts to and floods exactly the four other ports, never
    itself. *)
Theorem switch_forwards_to_others i j :
  0 <= i < MAX_PORTS -> 0 <= j < MAX_PORTS ->
  Z.testbit (parse_symbol (l2_forwarding_record i) 58 54) j = negb (i =? j) /\
  Z.testbit (parse_symbol (l2_forwarding_record i) 63 59) j = negb (i =? j) /\
  Z.testbit (parse_symbol (l2_forwarding_record i) 53 49) j = negb (i =? j).
Proof.
  unfold MAX_PORTS. intros Hi Hj.
  assert (i = 0 \/ i = 1 \/ i = 2 \/ i = 3 \/ i = 4) as Hi' by lia.
  assert (j = 0 \/ j = 1 \/ j = 2 \/ j = 3 \/ j = 4) as Hj' by lia.
  destruct Hi' as [->|[->|[->|[->| ->]]]], Hj' as [->|[->|[->|[->| ->]]]]; by vm_compute.
Qed.

Lemma switch_forwards_to_others_witness :
  Z.testbit (parse_symbol (l2_forwarding_record 2) 58 54) 2 = negb (2 =? 2) /\
  Z.testbit (parse_symbol (l2_forwarding_record 2) 63 59) 2 = negb (2 =? 2) /\
  Z.testbit (parse_symbol (l2_forwarding_record 2) 53 49) 2 = negb (2 =? 2).
Proof. apply (switch_forwards_to_others 2 2); unfold MAX_PORTS; lia. Defined.

(** [SJA1105_init] terminates on a transmit buffer that drains and sends
    two transfers: the reset command and the whole table, every byte once and
    in order, the chip select released only after the last byte of each. *)
Theorem SJA1105_init_sends {H} {M : Mmio spi_reg H} {L : SpiLaws H} fuel (h : H) :
  (poll_bound <= fuel)%nat ->
  exists h', SJA1105_init fuel h = Ok (tt, h') /\
    spi_log h' = spi_log h ++ spi_words [0x81; 0; 0x03; 0x20; 0x0B; 0; 8; 0] ++ spi_words config.
Proof.
  intros Hf. unfold SJA1105_init. destruct (spi_init_spec h) as (h1 & E1 & Hl1).
  rewrite (io_bind_ok _ _ _ _ _ E1).
  destruct (SJA1105_write_spec fuel 0x100032 0xB000800 h1 Hf) as (h2 & E2 & Hl2).
  rewrite (io_bind_ok _ _ _ _ _ E2).
  destruct (spi_transfer_spec fuel config h2 Hf config_u8) as (h3 & E3 & Hl3).
  exists h3. split; [done|]. rewrite Hl3, Hl2, Hl1, <- app_assoc. done.
Qed.

Lemma SJA1105_init_sends_witness :
  exists h', SJA1105_init 1 (mk_spi true []) = Ok (tt, h') /\
    spi_log h' = [] ++ spi_words [0x81; 0; 0x03; 0x20; 0x0B; 0; 8; 0] ++ spi_words config.
Proof. apply (SJA1105_init_sends (L := spi_sim_laws) 1 (mk_spi true [])). by apply (bool_decide_unpack _). Defined.
