(* ===== verification/Phy.v ===== *)
(** The Ethernet PHY: src/src/drivers/mdio.c and src/src/DP8386.c. *)

From Stdlib Require Import ZArith Lia.
From stdpp Require Import base list numbers.
From S2P Require Import Prelude Mmio.

Open Scope Z_scope.

(* ------------------------------------------------------------------ *)
(** * The MDIO driver *)

Inductive mdio_reg := MDIO_USERACCESS0 | MDIO_CONTROL.

#[export] Instance mdio_reg_eq_dec : EqDecision mdio_reg.
Proof. solve_decision. Defined.

Definition PHY_REG_MASK : Z := 0x1F.
Definition PHY_ADDR_MASK : Z := 0x1F.
Definition PHY_DATA_MASK : Z := 0xFFFF.
Definition PHY_REG_SHIFT : Z := 21.
Definition PHY_ADDR_SHIFT : Z := 16.
Definition MDIO_LAST_STD_REG : Z := 31.
Definition MDIO_ADDAR : Z := 0xE.
Definition MDIO_REGCR : Z := 0xD.
Definition MDIO_REGCR_DEVAD_ALL : Z := 0x1F.
Definition MDIO_REGCR_FN_ADDR : Z := 0.
Definition MDIO_REGCR_FN_DATA_NO_INCR : Z := Z.shiftl 1 14.

(** HL_hw_mdio.h. *)
Definition MDIO_USERACCESS0_GO : Z := 0x80000000.
Definition MDIO_USERACCESS0_WRITE : Z := 0x40000000.
Definition MDIO_USERACCESS0_READ : Z := 0.
Definition MDIO_USERACCESS0_ACK : Z := 0x20000000.
Definition MDIO_CONTROL_ENABLE : Z := 0x40000000.
Definition MDIO_CONTROL_FAULTENB : Z := 0x00040000.
Definition MDIO_CONTROL_CLKDIV : Z := 0x0000FFFF.

(** [VCLK3_FREQ * 1000000U], exact in single precision. *)
Definition periph_clk : Z := 75000000.

(** [(x & MDIO_USERACCESS0_GO) == MDIO_USERACCESS0_GO]. *)
Definition mdio_go (x : Z) : bool := Z.land x MDIO_USERACCESS0_GO =? MDIO_USERACCESS0_GO.

Section Mdio.
Context {H : Type} {M : Mmio mdio_reg H}.
Variable fuel : nat.

Definition mdio_wait_until_rdy : io H unit := poll fuel MDIO_USERACCESS0 mdio_go.

Definition mdio_reg_read (phyAddr regNum : Z) : io H Z :=
  _ ← mdio_wait_until_rdy;
  _ ← wr_reg MDIO_USERACCESS0
        (Z.lor (Z.lor (Z.lor MDIO_USERACCESS0_READ MDIO_USERACCESS0_GO)
          (Z.shiftl (Z.land regNum PHY_REG_MASK) PHY_REG_SHIFT))
          (Z.shiftl (Z.land phyAddr PHY_ADDR_MASK) PHY_ADDR_SHIFT));
  _ ← mdio_wait_until_rdy;
  x ← rd_reg MDIO_USERACCESS0;
  if Z.land x MDIO_USERACCESS0_ACK =? MDIO_USERACCESS0_ACK then
    y ← rd_reg MDIO_USERACCESS0;
    mret (u16 (Z.land y PHY_DATA_MASK))
  else mret 0.

Definition mdio_reg_write (phyAddr regNum RegVal : Z) : io H unit :=
  _ ← mdio_wait_until_rdy;
  _ ← wr_reg MDIO_USERACCESS0
        (Z.lor (Z.lor (Z.lor (Z.lor MDIO_USERACCESS0_WRITE MDIO_USERACCESS0_GO)
          (Z.shiftl (Z.land regNum PHY_REG_MASK) PHY_REG_SHIFT))
          (Z.shiftl (Z.land phyAddr PHY_ADDR_MASK) PHY_ADDR_SHIFT)) RegVal);
  mdio_wait_until_rdy.

Definition mdio_init (clk : Z) : io H unit :=
  if clk =? 0 then io_fault DivByZero
  else
    let clkDiv := u32 (periph_clk / clk - 1) in
    wr_reg MDIO_CONTROL
      (Z.lor (Z.lor (Z.land clkDiv MDIO_CONTROL_CLKDIV) MDIO_CONTROL_ENABLE) MDIO_CONTROL_FAULTENB).

Definition mdio_disable : io H unit := and_reg MDIO_CONTROL (Z.lnot MDIO_CONTROL_ENABLE).

(** Returned as [uint8_t]. *)
Definition mdio_send_addr (phyid addr : Z) : io H Z :=
  if addr <=? MDIO_LAST_STD_REG then mret (u8 addr)
  else
    _ ← mdio_reg_write phyid MDIO_REGCR (Z.lor MDIO_REGCR_FN_ADDR MDIO_REGCR_DEVAD_ALL);
    _ ← mdio_reg_write phyid MDIO_ADDAR addr;
    _ ← mdio_reg_write phyid MDIO_REGCR (Z.lor MDIO_REGCR_FN_DATA_NO_INCR MDIO_REGCR_DEVAD_ALL);
    mret MDIO_ADDAR.

Definition mdio_read (phyid addr : Z) : io H Z :=
  addr ← mdio_send_addr phyid addr;
  mdio_reg_read phyid addr.

Definition mdio_write (phyid addr value : Z) : io H unit :=
  addr ← mdio_send_addr phyid addr;
  mdio_reg_write phyid addr value.
End Mdio.

(* ------------------------------------------------------------------ *)
(** * The DP83867 *)

Definition DP8386_PHYID : Z := 3.
Definition DP8386_RGMIICTL : Z := 0x32.
Definition RGMII_RX_CLK_DELAY_SHIFT : Z := 0.
Definition RGMII_TX_CLK_DELAY_SHIFT : Z := 1.
Definition RGMII_TX_HALF_FULL_THR_SHIFT : Z := 3.
Definition RGMII_RX_HALF_FULL_THR_SHIFT : Z := 5.
Definition RGMII_EN_SHIFT : Z := 7.

Definition RGMIICTL : Z :=
  Z.lor (Z.lor (Z.lor (Z.lor (Z.shiftl 1 RGMII_EN_SHIFT) (Z.shiftl 2 RGMII_RX_HALF_FULL_THR_SHIFT))
    (Z.shiftl 2 RGMII_TX_HALF_FULL_THR_SHIFT)) (Z.shiftl 1 RGMII_TX_CLK_DELAY_SHIFT))
    (Z.shiftl 1 RGMII_RX_CLK_DELAY_SHIFT).

Section Dp8386.
Context {H : Type} {M : Mmio mdio_reg H}.
Variable fuel : nat.

(** The loop of [DP8386_init]; the delays do nothing but wait. *)
Fixpoint rgmii_loop (n : nat) : io H unit :=
  _ ← mdio_write fuel DP8386_PHYID DP8386_RGMIICTL RGMIICTL;
  x ← mdio_read fuel DP8386_PHYID DP8386_RGMIICTL;
  if x =? RGMIICTL then mret tt
  else match n with O => io_fault Diverges | S n => rgmii_loop n end.

Definition DP8386_init (n : nat) : io H unit :=
  _ ← mdio_init 100000;
  _ ← rgmii_loop n;
  mdio_disable.
End Dp8386.

(* ------------------------------------------------------------------ *)
(** * The PHY behind the bus *)

(** The registers of a PHY: the standard ones, the extended ones, and the two
    that address them. *)
Record phy := mk_phy { std : Z -> Z; ext : Z -> Z; regcr : Z; addar : Z }.

Definition updz (f : Z -> Z) (k v : Z) : Z -> Z := fun j => if j =? k then v else f j.

(** A write and a read frame: register 14 is the address or the data of an
    extended access, by the function in register 13. *)
Definition phy_write (p : phy) (r v : Z) : phy :=
  if r =? 0xD then mk_phy (std p) (ext p) v (addar p)
  else if r =? 0xE then
    if Z.shiftr (regcr p) 14 =? 0 then mk_phy (std p) (ext p) (regcr p) v
    else mk_phy (std p) (updz (ext p) (addar p) v) (regcr p) (addar p)
  else mk_phy (updz (std p) r v) (ext p) (regcr p) (addar p).

Definition phy_read (p : phy) (r : Z) : Z :=
  if r =? 0xD then regcr p
  else if r =? 0xE then
    if Z.shiftr (regcr p) 14 =? 0 then addar p else ext p (addar p)
  else std p r.

(** The documented behaviour of the MDIO module with one PHY at address [a]
    that acknowledges: GO stays set for a bounded number of reads, a command
    with the WRITE bit reaches the PHY, one without leaves the register's
    value to be read with ACK. *)
Class MdioLaws (H : Type) (a : Z) `{Mmio mdio_reg H} := {
  mdio_phy : H -> phy;
  mdio_answer : H -> Z;
  mdio_idle : H -> bool;
  #[global] mdio_polled :: Polled MDIO_USERACCESS0 mdio_go (fun h => (mdio_phy h, mdio_answer h));
  mdio_idle_after h x h' :
    io_read MDIO_USERACCESS0 h = (x, h') -> mdio_go x = false -> mdio_idle h' = true;
  mdio_idle_read h x h' :
    io_read MDIO_USERACCESS0 h = (x, h') -> mdio_idle h = true ->
    mdio_idle h' = true /\ Z.land x MDIO_USERACCESS0_ACK = MDIO_USERACCESS0_ACK /\
    Z.land x PHY_DATA_MASK = mdio_answer h;
  mdio_cmd v h :
    Z.testbit v 31 = true -> Z.land (Z.shiftr v PHY_ADDR_SHIFT) PHY_ADDR_MASK = a ->
    let r := Z.land (Z.shiftr v PHY_REG_SHIFT) PHY_REG_MASK in
    let h' := io_write MDIO_USERACCESS0 v h in
    if Z.testbit v 30 then mdio_phy h' = phy_write (mdio_phy h) r (Z.land v PHY_DATA_MASK)
    else mdio_phy h' = mdio_phy h /\ mdio_answer h' = u16 (phy_read (mdio_phy h) r);
  mdio_control v h : mdio_phy (io_write MDIO_CONTROL v h) = mdio_phy h;
  mdio_control_kept v h : is_u32 v -> (io_read MDIO_CONTROL (io_write MDIO_CONTROL v h)).1 = v;
  mdio_control_read h : mdio_phy (io_read MDIO_CONTROL h).2 = mdio_phy h
}.

(* ------------------------------------------------------------------ *)
(** * Facts *)

(** The fields of a command word. *)
Definition mdio_word (c r a v : Z) : Z := c + r * 2097152 + a * 65536 + v.

Lemma cmd_word c r a v :
  c mod 2 ^ 30 = 0 -> 0 <= r < 32 -> 0 <= a < 32 -> is_u16 v ->
  Z.lor (Z.lor (Z.lor c (Z.shiftl (Z.land r PHY_REG_MASK) PHY_REG_SHIFT))
    (Z.shiftl (Z.land a PHY_ADDR_MASK) PHY_ADDR_SHIFT)) v = mdio_word c r a v.
Proof.
  intros Hc Hr Ha Hv. unfold mdio_word, PHY_REG_MASK, PHY_ADDR_MASK, PHY_REG_SHIFT, PHY_ADDR_SHIFT.
  rewrite !(land_ones_mod _ 5 31) by done. change (2 ^ 5) with 32.
  rewrite !Z.mod_small, !Z.shiftl_mul_pow2 by lia.
  change (2 ^ 21) with 2097152. change (2 ^ 16) with 65536. change (2 ^ 30) with 1073741824 in Hc.
  unfold is_u16 in Hv.
  rewrite (lor_low c _ 30); [|lia| |lia].
  2: { by change (2 ^ 30) with 1073741824. }
  rewrite (lor_low (c + r * 2097152) _ 21); [|lia| |lia].
  2: { change (2 ^ 21) with 2097152. Z.div_mod_to_equations. lia. }
  rewrite (lor_low _ v 16); [lia|lia| |lia].
  change (2 ^ 16) with 65536. Z.div_mod_to_equations. lia.
Qed.

Lemma word_fields c r a v :
  c = 0x80000000 \/ c = 0xC0000000 -> 0 <= r < 32 -> 0 <= a < 32 -> is_u16 v ->
  u32 (mdio_word c r a v) = mdio_word c r a v /\
  Z.testbit (mdio_word c r a v) 31 = true /\
  Z.testbit (mdio_word c r a v) 30 = (c =? 0xC0000000) /\
  Z.land (Z.shiftr (mdio_word c r a v) PHY_ADDR_SHIFT) PHY_ADDR_MASK = a /\
  Z.land (Z.shiftr (mdio_word c r a v) PHY_REG_SHIFT) PHY_REG_MASK = r /\
  Z.land (mdio_word c r a v) PHY_DATA_MASK = v.
Proof.
  intros Hc Hr Ha Hv. unfold mdio_word, PHY_REG_MASK, PHY_ADDR_MASK, PHY_REG_SHIFT, PHY_ADDR_SHIFT,
    PHY_DATA_MASK, u32, is_u16 in *.
  rewrite !(land_ones_mod _ 5 31), land_65535, !Z.shiftr_div_pow2 by done.
  change (2 ^ 5) with 32. change (2 ^ 21) with 2097152. change (2 ^ 16) with 65536.
  assert (Hb : forall w n, 0 <= n -> Z.testbit w n = ((w / 2 ^ n) mod 2 =? 1)).
  { intros w n Hn. destruct (Z.eqb_spec ((w / 2 ^ n) mod 2) 1) as [E|E].
    - by apply Z.testbit_true.
    - apply Z.testbit_false; [done|]. Z.div_mod_to_equations. lia. }
  rewrite !Hb by done. change (2 ^ 31) with 2147483648. change (2 ^ 30) with 1073741824.
  split_and!; [|apply Z.eqb_eq| | | |].
  3: { destruct Hc as [-> | ->]; [apply Z.eqb_neq|apply Z.eqb_eq]; Z.div_mod_to_equations; lia. }
  all: destruct Hc as [-> | ->]; Z.div_mod_to_equations; lia.
Qed.

Section MdioFacts.
Context {H : Type} {a : Z} {M : Mmio mdio_reg H} {L : MdioLaws H a}.
Implicit Types h : H.

Lemma poll_idle n h h' : poll n MDIO_USERACCESS0 mdio_go h = Ok (tt, h') -> mdio_idle h' = true.
Proof.
  revert h. induction n as [|n IH]; intros h;
    cbn [poll]; unfold mbind, io_bind, rd_reg; simpl;
    destruct (io_read MDIO_USERACCESS0 h) as [x h1] eqn:E1; destruct (mdio_go x) eqn:Hg; simpl;
    try done; try apply IH; intros [= <-]; by eapply mdio_idle_after.
Qed.

Variable fuel : nat.
Hypothesis Hfuel : (poll_bound (Polled := mdio_polled) <= fuel)%nat.
Hypothesis Ha : 0 <= a < 32.

Lemma wait_rdy h :
  exists h', mdio_wait_until_rdy fuel h = Ok (tt, h') /\ mdio_phy h' = mdio_phy h /\
    mdio_answer h' = mdio_answer h /\ mdio_idle h' = true.
Proof using Hfuel.
  unfold mdio_wait_until_rdy.
  destruct (poll_ok MDIO_USERACCESS0 mdio_go (fun h => (mdio_phy h, mdio_answer h)) fuel h Hfuel)
    as (h' & E & [= Hp Hm]).
  exists h'. split_and!; try done. by eapply poll_idle.
Qed.

Lemma reg_write_spec r v h :
  0 <= r < 32 -> is_u16 v ->
  exists h', mdio_reg_write fuel a r v h = Ok (tt, h') /\ mdio_phy h' = phy_write (mdio_phy h) r v.
Proof using Hfuel Ha.
  intros Hr Hv. unfold mdio_reg_write. destruct (wait_rdy h) as (h1 & E1 & Hp1 & _).
  rewrite (io_bind_ok _ _ _ _ _ E1), wr_bind.
  change (Z.lor MDIO_USERACCESS0_WRITE MDIO_USERACCESS0_GO) with 0xC0000000.
  rewrite cmd_word by done.
  destruct (word_fields 0xC0000000 r a v) as (-> & H31 & H30 & Hfa & Hfr & Hfv); [by right|done..|].
  pose proof (mdio_cmd _ h1 H31 Hfa) as Hc. cbv zeta in Hc. rewrite H30, Hfr, Hfv in Hc.
  destruct (wait_rdy (io_write MDIO_USERACCESS0 (mdio_word 0xC0000000 r a v) h1))
    as (h2 & E2 & Hp2 & _).
  exists h2. split; [done|]. simpl in Hc. by rewrite Hp2, Hc, Hp1.
Qed.

Lemma reg_read_spec r h :
  0 <= r < 32 ->
  exists h', mdio_reg_read fuel a r h = Ok (u16 (phy_read (mdio_phy h) r), h') /\
    mdio_phy h' = mdio_phy h.
Proof using Hfuel Ha.
  intros Hr. unfold mdio_reg_read. destruct (wait_rdy h) as (h1 & E1 & Hp1 & _).
  rewrite (io_bind_ok _ _ _ _ _ E1), wr_bind.
  change (Z.lor MDIO_USERACCESS0_READ MDIO_USERACCESS0_GO) with 0x80000000.
  pose proof (cmd_word 0x80000000 r a 0 ltac:(done) Hr Ha ltac:(done)) as Hw.
  rewrite Z.lor_0_r in Hw. rewrite Hw.
  destruct (word_fields 0x80000000 r a 0) as (-> & H31 & H30 & Hfa & Hfr & _); [by left|done..|].
  pose proof (mdio_cmd _ h1 H31 Hfa) as Hc. cbv zeta in Hc. rewrite H30, Hfr in Hc.
  destruct Hc as [Hcp Hca].
  destruct (wait_rdy (io_write MDIO_USERACCESS0 (mdio_word 0x80000000 r a 0) h1))
    as (h2 & E2 & Hp2 & Ha2 & Hi2).
  rewrite (io_bind_ok _ _ _ _ _ E2).
  destruct (io_read MDIO_USERACCESS0 h2) as [x h3] eqn:E3.
  rewrite (rd_bind _ _ _ _ _ E3). destruct (mdio_idle_read _ _ _ E3 Hi2) as (Hi3 & Hack & _).
  rewrite Hack, Z.eqb_refl.
  destruct (io_read MDIO_USERACCESS0 h3) as [y h4] eqn:E4.
  rewrite (rd_bind _ _ _ _ _ E4). destruct (mdio_idle_read _ _ _ E4 Hi3) as (_ & _ & Hd).
  pose proof (poll_view _ _ _ E3) as [= Hp3 Ha3]. pose proof (poll_view _ _ _ E4) as [= Hp4 _].
  exists h4. rewrite Hd, Ha3, Ha2, Hca, Hp1. split; [|congruence].
  unfold u16. by rewrite Z.mod_mod by lia.
Qed.

(** The register and, for an extended address, the PHY after the three
    address frames. *)
Definition sent_addr (addr : Z) : Z := if addr <=? 31 then addr else 0xE.
Definition addressed (p : phy) (addr : Z) : phy :=
  if addr <=? 31 then p else mk_phy (std p) (ext p) 0x401F addr.

Lemma send_addr_spec addr h :
  is_u16 addr ->
  exists h', mdio_send_addr fuel a addr h = Ok (sent_addr addr, h') /\
    mdio_phy h' = addressed (mdio_phy h) addr.
Proof using Hfuel Ha.
  intros Hadr. unfold mdio_send_addr, sent_addr, addressed, MDIO_LAST_STD_REG, is_u16 in *.
  destruct (Z.leb_spec addr 31).
  { exists h. split; [|done]. rewrite u8_small by (unfold is_u8; lia). done. }
  destruct (reg_write_spec MDIO_REGCR (Z.lor MDIO_REGCR_FN_ADDR MDIO_REGCR_DEVAD_ALL) h)
    as (h1 & E1 & Hp1); [done..|].
  rewrite (io_bind_ok _ _ _ _ _ E1).
  destruct (reg_write_spec MDIO_ADDAR addr h1) as (h2 & E2 & Hp2); [done..|].
  rewrite (io_bind_ok _ _ _ _ _ E2).
  destruct (reg_write_spec MDIO_REGCR (Z.lor MDIO_REGCR_FN_DATA_NO_INCR MDIO_REGCR_DEVAD_ALL) h2)
    as (h3 & E3 & Hp3); [done..|].
  rewrite (io_bind_ok _ _ _ _ _ E3). exists h3. split; [done|]. by rewrite Hp3, Hp2, Hp1.
Qed.

(** A register of the PHY by its full address: standard or extended. *)
Definition phy_reg (p : phy) (addr : Z) : Z := if addr <=? 31 then std p addr else ext p addr.

(** Registers that are not themselves the window of the extended access. *)
Definition plain_addr (addr : Z) : Prop := is_u16 addr /\ addr <> 0xD /\ addr <> 0xE.

Lemma sent_addr_range addr : is_u16 addr -> 0 <= sent_addr addr < 32.
Proof. unfold sent_addr, is_u16. zcase. Qed.

Lemma mdio_read_spec addr h :
  plain_addr addr ->
  exists h', mdio_read fuel a addr h = Ok (u16 (phy_reg (mdio_phy h) addr), h') /\
    (forall k, phy_reg (mdio_phy h') k = phy_reg (mdio_phy h) k).
Proof using Hfuel Ha.
  intros (Hr & Hd & He). unfold mdio_read. destruct (send_addr_spec addr h Hr) as (h1 & E1 & Hp1).
  rewrite (io_bind_ok _ _ _ _ _ E1).
  destruct (reg_read_spec (sent_addr addr) h1 (sent_addr_range addr Hr)) as (h2 & E2 & Hp2).
  exists h2. rewrite E2, Hp2, Hp1. unfold sent_addr, addressed, phy_reg, phy_read.
  destruct (Z.leb_spec addr 31).
  - by rewrite (proj2 (Z.eqb_neq addr 0xD)), (proj2 (Z.eqb_neq addr 0xE)).
  - done.
Qed.

Lemma mdio_write_spec addr v h :
  plain_addr addr -> is_u16 v ->
  exists h', mdio_write fuel a addr v h = Ok (tt, h') /\
    (forall k, k <> 0xD -> k <> 0xE ->
       phy_reg (mdio_phy h') k = if k =? addr then v else phy_reg (mdio_phy h) k).
Proof using Hfuel Ha.
  intros (Hr & Hd & He) Hv. unfold mdio_write. destruct (send_addr_spec addr h Hr) as (h1 & E1 & Hp1).
  rewrite (io_bind_ok _ _ _ _ _ E1).
  destruct (reg_write_spec (sent_addr addr) v h1 (sent_addr_range addr Hr) Hv) as (h2 & E2 & Hp2).
  exists h2. split; [done|]. intros k Hkd Hke. rewrite Hp2, Hp1.
  unfold sent_addr, addressed, phy_reg, phy_write. destruct (Z.leb_spec addr 31).
  - rewrite (proj2 (Z.eqb_neq addr 0xD)), (proj2 (Z.eqb_neq addr 0xE)) by done. simpl. unfold updz.
    zcase; done.
  - simpl. unfold updz. zcase; done.
Qed.
End MdioFacts.

(** A PHY at address 3 that is busy for one read after each command. *)
Record mdio_sim := mk_mdio { md_busy : bool; md_phy : phy; md_ans : Z; md_ctl : Z }.

#[export] Instance mdio_sim_mmio : Mmio mdio_reg mdio_sim := {|
  io_read r h :=
    match r with
    | MDIO_CONTROL => (md_ctl h, h)
    | MDIO_USERACCESS0 =>
        if md_busy h then (0x80000000, mk_mdio false (md_phy h) (md_ans h) (md_ctl h))
        else (0x20000000 + u16 (md_ans h), h)
    end;
  io_write r v h :=
    match r with
    | MDIO_CONTROL => mk_mdio (md_busy h) (md_phy h) (md_ans h) v
    | MDIO_USERACCESS0 =>
        let k := Z.land (Z.shiftr v PHY_REG_SHIFT) PHY_REG_MASK in
        if Z.testbit v 30
        then mk_mdio true (phy_write (md_phy h) k (Z.land v PHY_DATA_MASK)) (md_ans h) (md_ctl h)
        else mk_mdio true (md_phy h) (u16 (phy_read (md_phy h) k)) (md_ctl h)
    end
|}.

Lemma ack_word v : Z.land (0x20000000 + u16 v) MDIO_USERACCESS0_ACK = MDIO_USERACCESS0_ACK /\
  Z.land (0x20000000 + u16 v) PHY_DATA_MASK = u16 v /\ mdio_go (0x20000000 + u16 v) = false.
Proof.
  pose proof (u16_range v) as Hv. unfold is_u16 in Hv. unfold mdio_go.
  rewrite <- (lor_low 0x20000000 (u16 v) 16) by (done || lia).
  assert (Hh : forall m, m mod 2 ^ 16 = 0 -> Z.land (u16 v) m = 0).
  { intros m Hm. apply Z.bits_inj'. intros n Hn. rewrite Z.land_spec, Z.bits_0.
    destruct (Z.ltb_spec n 16).
    - rewrite <- (Z.mod_pow2_bits_low m 16), Hm, Z.bits_0 by lia. apply andb_false_r.
    - by rewrite <- (Z.mod_small (u16 v) (2 ^ 16)), Z.mod_pow2_bits_high by lia. }
  rewrite !Z.land_lor_distr_l. unfold MDIO_USERACCESS0_ACK, MDIO_USERACCESS0_GO.
  rewrite (Hh 0x20000000), (Hh 0x80000000) by done. split_and!; [done| |by vm_compute].
  unfold PHY_DATA_MASK. change (Z.land 0x20000000 65535) with 0. rewrite Z.lor_0_l.
  rewrite land_65535. apply Z.mod_small. lia.
Qed.

#[export] Instance mdio_sim_polled :
  Polled MDIO_USERACCESS0 mdio_go (fun h => (md_phy h, u16 (md_ans h))).
Proof.
  refine {| poll_bound := 1; poll_left h := if md_busy h then 1%nat else 0%nat |}.
  - intros h. destruct (md_busy h); lia.
  - intros [b p v c] x h'. simpl. destruct b; intros [= <- <-]; simpl; [lia|].
    by rewrite (proj2 (proj2 (ack_word v))).
  - intros [b p v c] x h'. simpl. by destruct b; intros [= _ <-].
Defined.

#[export] Instance mdio_sim_laws : MdioLaws mdio_sim 3.
Proof.
  refine {| mdio_phy := md_phy; mdio_answer h := u16 (md_ans h); mdio_idle h := negb (md_busy h);
            mdio_polled := mdio_sim_polled |}.
  - intros [b p v c] x h'. simpl. destruct b; by intros [= <- <-].
  - intros [b p v c] x h'. simpl. destruct b; [done|]. intros [= <- <-] _. simpl.
    split; [done|]. split; apply ack_word.
  - intros v h _ _. unfold io_write, mdio_sim_mmio. cbv zeta.
    destruct (Z.testbit v 30); [done|]. split; [done|]. cbn [md_ans].
    unfold u16. by rewrite Z.mod_mod by lia.
  - done.
  - done.
  - done.
Defined.

(* ------------------------------------------------------------------ *)
(** * Properties *)

(** [mdio_write] then [mdio_read] of the same register, standard or
    extended, of a PHY that answers returns the value written, and leaves
    every other register of the PHY as it was (the address window, registers
    13 and 14, apart). *)
Theorem mdio_roundtrip {H} {a : Z} {M : Mmio mdio_reg H} {L : MdioLaws H a} fuel addr v (h : H) :
  (poll_bound (Polled := mdio_polled) <= fuel)%nat -> 0 <= a < 32 ->
  plain_addr addr -> is_u16 v ->
  exists h', (_ ← mdio_write fuel a addr v; mdio_read fuel a addr) h = Ok (v, h') /\
    forall k, k <> 0xD -> k <> 0xE -> k <> addr ->
      phy_reg (mdio_phy h') k = phy_reg (mdio_phy h) k.
Proof.
  intros Hf Ha Hadr Hv. pose proof Hadr as (_ & Hd & He).
  destruct (mdio_write_spec fuel Hf Ha addr v h Hadr Hv) as (h1 & E1 & Hp1).
  rewrite (io_bind_ok _ _ _ _ _ E1).
  destruct (mdio_read_spec fuel Hf Ha addr h1 Hadr) as (h2 & E2 & Hp2).
  exists h2. rewrite E2, Hp1, Z.eqb_refl, u16_small by done. split; [done|].
  intros k Hk1 Hk2 Hne. rewrite Hp2, Hp1 by done. by rewrite (proj2 (Z.eqb_neq k addr)).
Qed.

Definition phy0 : phy := mk_phy (fun _ => 0) (fun _ => 0) 0 0.

Lemma mdio_roundtrip_witness :
  exists h', (_ ← mdio_write 2 3 0x86 0x1234; mdio_read 2 3 0x86) (mk_mdio true phy0 0 0) =
      Ok (0x1234, h') /\
    forall k, k <> 0xD -> k <> 0xE -> k <> 0x86 -> phy_reg (mdio_phy h') k = phy_reg phy0 k.
Proof.
  apply (mdio_roundtrip (L := mdio_sim_laws) 2 0x86 0x1234 (mk_mdio true phy0 0 0));
    [simpl; lia|lia|repeat split; lia|split; lia].
Defined.

(** [DP8386_init] leaves its loop after the first round when the PHY at
    address 3 stores what it is told: the extended register RGMIICTL then
    holds 0xD3 (RGMII on, both clock delays on, thresholds 2), no other
    register has changed, and the MDIO controller is disabled again. *)
Theorem DP8386_init_configures {H} {M : Mmio mdio_reg H} {L : MdioLaws H 3} fuel n (h : H) :
  (poll_bound (Polled := mdio_polled) <= fuel)%nat ->
  exists h', DP8386_init fuel n h = Ok (tt, h') /\
    phy_reg (mdio_phy h') DP8386_RGMIICTL = 0xD3 /\
    (forall k, k <> 0xD -> k <> 0xE -> k <> DP8386_RGMIICTL ->
       phy_reg (mdio_phy h') k = phy_reg (mdio_phy h) k) /\
    Z.testbit (io_read MDIO_CONTROL h').1 30 = false.
Proof.
  intros Hf. assert (Ha : 0 <= 3 < 32) by lia.
  assert (Hadr : plain_addr DP8386_RGMIICTL) by (repeat split; done || lia).
  unfold DP8386_init, mdio_init. change (100000 =? 0) with false. cbv iota zeta. rewrite wr_bind.
  match goal with |- context [io_write MDIO_CONTROL ?v h] => set (h1 := io_write MDIO_CONTROL v h) end.
  destruct (mdio_write_spec fuel Hf Ha _ RGMIICTL h1 Hadr ltac:(done)) as (h2 & E2 & Hp2).
  destruct (mdio_read_spec fuel Hf Ha _ h2 Hadr) as (h3 & E3 & Hp3).
  assert (Hl : rgmii_loop fuel n h1 = Ok (tt, h3)).
  { destruct n; cbn [rgmii_loop];
      rewrite (io_bind_ok _ _ _ _ _ E2), (io_bind_ok _ _ _ _ _ E3), Hp2 by done; done. }
  rewrite (io_bind_ok _ _ _ _ _ Hl). unfold mdio_disable, and_reg.
  destruct (io_read MDIO_CONTROL h3) as [x h4] eqn:E4. rewrite (rd_bind _ _ _ _ _ E4).
  eexists. split; [reflexivity|].
  assert (Hp4 : mdio_phy h4 = mdio_phy h3).
  { pose proof (mdio_control_read h3) as Hc. by rewrite E4 in Hc. }
  split_and!.
  - by rewrite mdio_control, Hp4, Hp3, Hp2, Z.eqb_refl.
  - intros k Hk1 Hk2 Hne. rewrite mdio_control, Hp4, Hp3, Hp2 by done.
    rewrite (proj2 (Z.eqb_neq k _)) by done. unfold h1. by rewrite mdio_control.
  - rewrite mdio_control_kept by apply u32_range. unfold u32.
    change 4294967296 with (2 ^ 32). rewrite Z.mod_pow2_bits_low, Z.land_spec by lia.
    change (Z.testbit (Z.lnot MDIO_CONTROL_ENABLE) 30) with false. apply andb_false_r.
Qed.

Lemma DP8386_init_configures_witness :
  exists h', DP8386_init 2 0 (mk_mdio true phy0 0 0) = Ok (tt, h') /\
    phy_reg (mdio_phy h') DP8386_RGMIICTL = 0xD3 /\
    (forall k, k <> 0xD -> k <> 0xE -> k <> DP8386_RGMIICTL ->
       phy_reg (mdio_phy h') k = phy_reg phy0 k) /\
    Z.testbit (io_read MDIO_CONTROL h').1 30 = false.
Proof.
  apply (DP8386_init_configures (L := mdio_sim_laws) 2 0 (mk_mdio true phy0 0 0)). simpl. lia.
Defined.
