(* ===== verification/Board.v ===== *)
(** The small drivers and the port layer: src/src/drivers/gio.c, vim.c,
    timer.c, the interrupt wrappers of src/src/main.c and
    src/lwip/ports/hdk/sys_arch.c. *)

From Stdlib Require Import ZArith Lia.
From stdpp Require Import base list numbers.
From S2P Require Import Prelude Mmio.

Open Scope Z_scope.

(* ------------------------------------------------------------------ *)
(** * General purpose I/O *)

Section Gio.
(** Registers of the ports; [port] is the port's address. *)
Inductive gio_reg := GIO_GCR0 | GIO_DIR (port : Z) | GIO_DSET (port : Z) | GIO_DCLR (port : Z).

Definition GIO_GCR0_RESET_SHIFT : Z := 0.

Context {H : Type} {M : Mmio gio_reg H}.

Definition gio_init : io H unit := wr_reg GIO_GCR0 (Z.shiftl 1 GIO_GCR0_RESET_SHIFT).

Definition gio_mode_output (port pin level : Z) : io H unit :=
  _ ← or_reg (GIO_DIR port) (u32 (Z.shiftl 1 pin));
  if negb (level =? 0) then or_reg (GIO_DSET port) (u32 (Z.shiftl 1 pin))
  else or_reg (GIO_DCLR port) (u32 (Z.shiftl 1 pin)).
End Gio.

(* ------------------------------------------------------------------ *)
(** * The interrupt controller *)

(** A handler, by its address. *)
Abbreviation isr_handler := Z (only parsing).

Definition VIM_CHANNELS : Z := 128.

Record vim := mk_vim {
  vimRAM : list isr_handler;
  REQMASKSET : list Z
}.

(** The addresses of the handlers of vim.c. *)
Definition phantomInterrupt : isr_handler := 1.
Definition esmHighInterrupt : isr_handler := 2.

Definition vim_register_irq (channel : Z) (handler : isr_handler) (v : vim) : outcome vim :=
  ram ← wr (vimRAM v) (channel + 1) handler;
  m ← rd (REQMASKSET v) (channel / 32);
  mask ← wr (REQMASKSET v) (channel / 32) (Z.lor m (Z.shiftl 1 (channel mod 32)));
  mret (mk_vim ram mask).

Fixpoint vim_fill (n : nat) (i : Z) (ram : list isr_handler) : outcome (list isr_handler) :=
  match n with
  | O => mret ram
  | S n => ram ← wr ram i phantomInterrupt; vim_fill n (i + 1) ram
  end.

Definition vim_init (v : vim) : outcome vim :=
  ram ← vim_fill (Z.to_nat VIM_CHANNELS) 0 (vimRAM v);
  vim_register_irq 0 esmHighInterrupt (mk_vim ram (REQMASKSET v)).

(* ------------------------------------------------------------------ *)
(** * The millisecond timer *)

Inductive rti_reg := GCTRL | CPUCx | COMPx | UDCPx | INTFLAG | SETINTENA.

Definition RTI_INT_CMP0 : Z := 1.
Definition RTI_GCTRL_NTUSEL_NTU1 : Z := 5.
Definition RTI_GCTRL_NTUSEL_SHIFT : Z := 16.

(** The address of [rtiCompare0Interrupt]. *)
Definition rtiCompare0Interrupt_addr : isr_handler := 3.

Section Timer.
Context {H : Type} {M : Mmio rti_reg H}.

Definition rtiCompare0Interrupt (tick_ms : Z) : io H Z :=
  _ ← wr_reg INTFLAG RTI_INT_CMP0;
  mret (u32 (tick_ms + 1)).

Definition timer_init_regs : io H unit :=
  _ ← wr_reg GCTRL (Z.shiftl RTI_GCTRL_NTUSEL_NTU1 RTI_GCTRL_NTUSEL_SHIFT);
  _ ← wr_reg CPUCx 7;
  _ ← wr_reg COMPx 9375;
  _ ← wr_reg UDCPx 9375;
  _ ← wr_reg INTFLAG RTI_INT_CMP0;
  _ ← wr_reg SETINTENA RTI_INT_CMP0;
  or_reg GCTRL (Z.shiftl 1 (Z.land 0 3)).

Definition timer_init (v : vim) (h : H) : outcome (vim * H) :=
  v ← vim_register_irq 2 rtiCompare0Interrupt_addr v;
  '(_, h) ← timer_init_regs h;
  mret (v, h).
End Timer.

(** [sys_now]. *)
Definition sys_now (tick_ms : Z) : Z := tick_ms.

(* ------------------------------------------------------------------ *)
(** * Critical sections *)

(** The program status register; bit 7 masks IRQ, bit 6 FIQ. *)
Definition CPSR : Type := Z.

Definition IntMasterIRQEnable (c : CPSR) : CPSR := Z.clearbit c 7.
Definition IntMasterIRQDisable (c : CPSR) : CPSR := Z.setbit c 7.
Definition IntMasterStatusGet (c : CPSR) : Z := Z.land 0xC0 c.

Definition sys_arch_protect (c : CPSR) : Z * CPSR :=
  let status := Z.land (IntMasterStatusGet c) 0xFF in
  (status, IntMasterIRQDisable c).

Definition sys_arch_unprotect (lev : Z) (c : CPSR) : CPSR :=
  if Z.land lev 0x80 =? 0 then IntMasterIRQEnable c else c.

(** Code with critical sections: sequences of steps, each a plain one or a
    [SYS_ARCH_PROTECT(lev) ... SYS_ARCH_UNPROTECT(lev)] around a body. *)
Inductive code := Plain | Seq (a b : code) | Protected (body : code).

(** Runs the code; the second component lists for each plain step whether
    interrupts were masked. *)
Fixpoint run_code (k : code) (c : CPSR) : CPSR * list bool :=
  match k with
  | Plain => (c, [Z.testbit c 7])
  | Seq a b => let '(c, l1) := run_code a c in let '(c, l2) := run_code b c in (c, l1 ++ l2)
  | Protected body =>
      let '(lev, c) := sys_arch_protect c in
      let '(c, l) := run_code body c in
      (sys_arch_unprotect lev c, l)
  end.

(** The steps outside any section of [k]. *)
Fixpoint bare (k : code) : list bool :=
  match k with
  | Plain => [true]
  | Seq a b => bare a ++ bare b
  | Protected body => (fun _ => false) <$> bare body
  end.

Lemma unprotect_protect c :
  sys_arch_unprotect (sys_arch_protect c).1 (sys_arch_protect c).2 = c.
Proof.
  unfold sys_arch_protect, sys_arch_unprotect, IntMasterStatusGet, IntMasterIRQEnable,
    IntMasterIRQDisable. cbn [fst snd].
  assert (Hl : Z.land (Z.land (Z.land 0xC0 c) 0xFF) 0x80 = Z.land c 0x80).
  { rewrite (Z.land_comm 0xC0), <- !Z.land_assoc. done. }
  rewrite Hl. apply Z.bits_inj'; intros n Hn.
  assert (Hb : Z.testbit (Z.land c 0x80) 7 = Z.testbit c 7) by (rewrite Z.land_spec; apply andb_true_r).
  destruct (Z.eqb_spec (Z.land c 0x80) 0) as [E|E].
  - rewrite Z.clearbit_eqb, Z.setbit_eqb by lia. rewrite E, Z.bits_0 in Hb.
    destruct (Z.eqb_spec 7 n) as [<-|]; [by rewrite <- Hb|].
    by rewrite orb_false_l, andb_true_r.
  - rewrite Z.setbit_eqb by lia. destruct (Z.eqb_spec 7 n) as [<-|]; [|done].
    destruct (Z.testbit c 7) eqn:E7; [done|]. exfalso. apply E. apply Z.bits_inj'. intros k Hk.
    rewrite Z.land_spec, Z.bits_0. destruct (decide (k = 7)) as [->|]; [by rewrite E7|].
    change 0x80 with (2 ^ 7). rewrite Z.pow2_bits_false by done. apply andb_false_r.
Qed.

Lemma protect_masks c : Z.testbit (sys_arch_protect c).2 7 = true.
Proof. unfold sys_arch_protect, IntMasterIRQDisable. cbn [snd]. by rewrite Z.setbit_eq. Qed.

Lemma run_code_cpsr k c : (run_code k c).1 = c.
Proof.
  revert c. induction k as [|a IHa b IHb|body IH]; intros c; simpl; [done| |].
  - specialize (IHa c). destruct (run_code a c) as [c1 l1]. simpl in IHa. subst c1.
    specialize (IHb c). by destruct (run_code b c).
  - pose proof (unprotect_protect c) as Hu. unfold sys_arch_protect in *. cbn [fst snd] in Hu.
    specialize (IH (IntMasterIRQDisable c)). destruct (run_code body _) as [c1 l]. simpl in *.
    by subst c1.
Qed.

Lemma run_code_masked k c :
  Z.testbit c 7 = true -> Forall (fun b => b = true) (run_code k c).2.
Proof.
  revert c. induction k as [|a IHa b IHb|body IH]; intros c Hc; simpl.
  - by constructor.
  - pose proof (run_code_cpsr a c) as Ea. specialize (IHa c Hc).
    destruct (run_code a c) as [c1 l1]. simpl in *. subst c1. specialize (IHb c Hc).
    destruct (run_code b c) as [c2 l2]. by apply Forall_app.
  - specialize (IH (IntMasterIRQDisable c)). destruct (run_code body _) as [c1 l].
    apply IH. unfold IntMasterIRQDisable. by rewrite Z.setbit_eq.
Qed.

Lemma run_code_length k c : length (run_code k c).2 = length (bare k).
Proof.
  revert c. induction k as [|a IHa b IHb|body IH]; intros c; cbn [run_code bare]; [done| |].
  - specialize (IHa c). destruct (run_code a c) as [c1 l1]. specialize (IHb c1).
    destruct (run_code b c1) as [c2 l2]. cbn [snd] in *. rewrite !length_app. lia.
  - rewrite length_fmap. specialize (IH (IntMasterIRQDisable c)). unfold sys_arch_protect.
    by destruct (run_code body (IntMasterIRQDisable c)).
Qed.

(* ------------------------------------------------------------------ *)
(** * Properties *)

(** Critical sections nest: whatever the interrupt state on entry,
    [sys_arch_protect]/[sys_arch_unprotect] pairs, nested or in sequence,
    restore the status register exactly, and every step inside a section runs
    with interrupts masked, while a step outside runs with the mask it found. *)
Theorem critical_sections_nest (k : code) (c : CPSR) :
  (run_code k c).1 = c /\
  Forall2 (fun outside masked => if outside : bool then masked = Z.testbit c 7 else masked = true)
    (bare k) (run_code k c).2.
Proof.
  split; [apply run_code_cpsr|]. induction k as [|a IHa b IHb|body IH]; simpl.
  - by repeat constructor.
  - pose proof (run_code_cpsr a c) as Ea. destruct (run_code a c) as [c1 l1]. simpl in *.
    subst c1. destruct (run_code b c) as [c2 l2]. by apply Forall2_app.
  - pose proof (run_code_masked body (IntMasterIRQDisable c) (protect_masks c)) as Hm.
    pose proof (run_code_length body (IntMasterIRQDisable c)) as Hlen. unfold sys_arch_protect.
    destruct (run_code body (IntMasterIRQDisable c)) as [c1 l]. cbn [snd] in *.
    clear IH. revert l Hm Hlen. induction (bare body) as [|x xs IH]; intros [|y l] Hm Hlen;
      try done; constructor; inversion Hm; subst; [done|]. apply IH; [done|]. simpl in Hlen. lia.
Qed.
