(* ===== verification/Mem.v ===== *)
(** The heap of lwIP: core/mem.c, with one context (neither
    LWIP_ALLOW_MEM_FREE_FROM_OTHER_CONTEXT nor the overflow and sanity checks).

    The heap is an array [ram] tiled by blocks, each behind a header
    [struct mem]; the headers live in a map keyed by their offset in [ram], as
    in [ptr_to_mem]. The refinement part reads the headers as the list of
    block sizes and relates each operation to one on that list. *)

From Stdlib Require Import ZArith Lia.
From stdpp Require Import base list numbers gmap sets relations.
From S2P Require Import Prelude Mmio.

Open Scope Z_scope.

(* ------------------------------------------------------------------ *)
(** * Data *)

Definition MEM_SIZE : Z := 256 * 1024.
Definition MIN_SIZE : Z := 12.

(** [LWIP_MEM_ALIGN_SIZE] on the 32-bit [mem_size_t]; MEM_ALIGNMENT is 4. *)
Definition LWIP_MEM_ALIGN_SIZE (size : Z) : Z := Z.land (u32 (size + 4 - 1)) (u32 (Z.lnot (4 - 1))).

Definition MIN_SIZE_ALIGNED : Z := LWIP_MEM_ALIGN_SIZE MIN_SIZE.
(** [sizeof(struct mem)]: two words and a byte. *)
Definition SIZEOF_STRUCT_MEM : Z := LWIP_MEM_ALIGN_SIZE 12.
Definition MEM_SIZE_ALIGNED : Z := LWIP_MEM_ALIGN_SIZE MEM_SIZE.

Record mem := mk_mem { next : Z; prev : Z; used : Z }.

#[export] Instance mem_eq_dec : EqDecision mem.
Proof. solve_decision. Defined.

(** The variables of the module. [lfree], a pointer into [ram] in C, is its
    offset; [ram_end] is the offset [MEM_SIZE_ALIGNED]. *)
Record ram_heap := mk_ram { ram : Z; hdrs : gmap Z mem; lfree : Z }.

Definition hd_next (n : Z) (m : mem) : mem := mk_mem n (prev m) (used m).
Definition hd_prev (p : Z) (m : mem) : mem := mk_mem (next m) p (used m).
Definition hd_used (u : Z) (m : mem) : mem := mk_mem (next m) (prev m) u.

(** [ptr_to_mem(ptr)->...]: bytes that never held a header are not read. *)
Definition ptr_to_mem (ptr : Z) : io ram_heap mem := fun h =>
  match hdrs h !! ptr with Some m => Ok (m, h) | None => Fault OutOfBounds end.

Definition put_mem (ptr : Z) (m : mem) : io ram_heap unit :=
  io_modify (fun h => mk_ram (ram h) (<[ptr := m]> (hdrs h)) (lfree h)).

Definition upd_mem (ptr : Z) (f : mem -> mem) : io ram_heap unit :=
  m ← ptr_to_mem ptr; put_mem ptr (f m).

Definition set_lfree (ptr : Z) : io ram_heap unit :=
  io_modify (fun h => mk_ram (ram h) (hdrs h) ptr).

(** No block list is longer. *)
Definition max_blocks : nat := Z.to_nat (MEM_SIZE_ALIGNED / (SIZEOF_STRUCT_MEM + MIN_SIZE_ALIGNED)).
Arguments max_blocks : simpl never.

(* ------------------------------------------------------------------ *)
(** * The operations *)

(** [if (next != MEM_SIZE_ALIGNED) ptr_to_mem(next)->prev = ptr;] *)
Definition link_prev (next ptr : Z) : io ram_heap unit :=
  io_when (negb (next =? MEM_SIZE_ALIGNED)) (upd_mem next (hd_prev ptr)).

Definition plug_next (mem : Z) : io ram_heap unit :=
  m ← ptr_to_mem mem;
  _ ← io_assert (next m <=? MEM_SIZE_ALIGNED);
  let nmem := next m in
  n ← ptr_to_mem nmem;
  if negb (mem =? nmem) && (used n =? 0) && negb (nmem =? MEM_SIZE_ALIGNED) then
    h ← io_get;
    _ ← io_when (lfree h =? nmem) (set_lfree mem);
    _ ← upd_mem mem (hd_next (next n));
    link_prev (next n) mem
  else mret tt.

Definition plug_prev (mem : Z) : io ram_heap unit :=
  m ← ptr_to_mem mem;
  let pmem := prev m in
  p ← ptr_to_mem pmem;
  if negb (pmem =? mem) && (used p =? 0) then
    h ← io_get;
    _ ← io_when (lfree h =? mem) (set_lfree pmem);
    _ ← upd_mem pmem (hd_next (next m));
    link_prev (next m) pmem
  else mret tt.

Definition plug_holes (mem : Z) : io ram_heap unit :=
  _ ← io_assert (0 <=? mem);
  _ ← io_assert (mem <? MEM_SIZE_ALIGNED);
  m ← ptr_to_mem mem;
  _ ← io_assert (used m =? 0);
  _ ← plug_next mem;
  plug_prev mem.

(** [mem_init]; the array [ram_heap] is at [array]. *)
Definition mem_init (array : Z) : io ram_heap unit :=
  _ ← io_assert (Z.land SIZEOF_STRUCT_MEM (4 - 1) =? 0);
  _ ← io_modify (fun h => mk_ram (Z.land (array + 4 - 1) (Z.lnot (4 - 1))) (hdrs h) (lfree h));
  _ ← put_mem 0 (mk_mem MEM_SIZE_ALIGNED 0 0);
  _ ← put_mem MEM_SIZE_ALIGNED (mk_mem MEM_SIZE_ALIGNED MEM_SIZE_ALIGNED 1);
  set_lfree 0.

(** The neighbours' headers are read only when the conditions before them in
    the source decide nothing. *)
Definition mem_link_valid (mem : Z) : io ram_heap bool :=
  m ← ptr_to_mem mem;
  if (MEM_SIZE_ALIGNED <? next m) || (MEM_SIZE_ALIGNED <? prev m) then mret false
  else
    p ← ptr_to_mem (prev m);
    if negb (prev m =? mem) && negb (next p =? mem) then mret false
    else
      n ← ptr_to_mem (next m);
      if negb (next m =? MEM_SIZE_ALIGNED) && negb (prev n =? mem) then mret false
      else mret true.

(** [LWIP_MEM_ILLEGAL_FREE]: a failed assertion. *)
Definition LWIP_MEM_ILLEGAL_FREE : io ram_heap unit := io_assert false.

Definition mem_free (rmem : Z) : io ram_heap unit :=
  if rmem =? 0 then mret tt
  else if negb (Z.land rmem (4 - 1) =? 0) then LWIP_MEM_ILLEGAL_FREE
  else
    h ← io_get;
    let mem := rmem - SIZEOF_STRUCT_MEM - ram h in
    if (mem <? 0) || (ram h + MEM_SIZE_ALIGNED <? rmem + MIN_SIZE_ALIGNED) then LWIP_MEM_ILLEGAL_FREE
    else
      m ← ptr_to_mem mem;
      if used m =? 0 then LWIP_MEM_ILLEGAL_FREE
      else
        valid ← mem_link_valid mem;
        if negb valid then LWIP_MEM_ILLEGAL_FREE
        else
          _ ← upd_mem mem (hd_used 0);
          h ← io_get;
          _ ← io_when (mem <? lfree h) (set_lfree mem);
          plug_holes mem.

(** The requested size rounded up, at least [MIN_SIZE_ALIGNED]. *)
Definition block_size (size_in : Z) : Z :=
  let size := LWIP_MEM_ALIGN_SIZE size_in in
  if size <? MIN_SIZE_ALIGNED then MIN_SIZE_ALIGNED else size.

(** The two ways [mem_trim] returns space: the next block is unused and
    moves down, or a new unused block is cut off. *)
Definition trim_move (ptr newsize : Z) (m m2 : mem) : io ram_heap unit :=
  _ ← io_assert (negb (next m =? MEM_SIZE_ALIGNED));
  let next2 := next m2 in
  let ptr2 := u32 (ptr + SIZEOF_STRUCT_MEM + newsize) in
  h ← io_get;
  _ ← io_when (lfree h =? next m) (set_lfree ptr2);
  _ ← put_mem ptr2 (mk_mem next2 ptr 0);
  _ ← upd_mem ptr (hd_next ptr2);
  link_prev next2 ptr2.

Definition trim_split (ptr newsize : Z) (m : mem) : io ram_heap unit :=
  let ptr2 := u32 (ptr + SIZEOF_STRUCT_MEM + newsize) in
  _ ← io_assert (negb (next m =? MEM_SIZE_ALIGNED));
  h ← io_get;
  _ ← io_when (ptr2 <? lfree h) (set_lfree ptr2);
  _ ← put_mem ptr2 (mk_mem (next m) ptr 0);
  _ ← upd_mem ptr (hd_next ptr2);
  link_prev (next m) ptr2.

Definition trim_block (ptr newsize size : Z) (m : mem) : io ram_heap unit :=
  m2 ← ptr_to_mem (next m);
  if used m2 =? 0 then trim_move ptr newsize m m2
  else if newsize + SIZEOF_STRUCT_MEM + MIN_SIZE_ALIGNED <=? size then trim_split ptr newsize m
  else mret tt.

Definition mem_trim (rmem new_size : Z) : io ram_heap (option Z) :=
  let newsize := block_size new_size in
  if (MEM_SIZE_ALIGNED <? newsize) || (newsize <? new_size) then mret None
  else
    h ← io_get;
    _ ← io_assert ((ram h <=? rmem) && (rmem <? ram h + MEM_SIZE_ALIGNED));
    let ptr := rmem - SIZEOF_STRUCT_MEM - ram h in
    m ← ptr_to_mem ptr;
    let size := u32 (u32 (next m - ptr) - SIZEOF_STRUCT_MEM) in
    _ ← io_assert (newsize <=? size);
    if newsize =? size then mret (Some rmem)
    else
      _ ← trim_block ptr newsize size m;
      mret (Some rmem).

(** The search of [mem_malloc]: the first unused block large enough. *)
Definition fits_at (ptr size : Z) (m : mem) : bool :=
  (used m =? 0) && (size <=? u32 (next m - (ptr + SIZEOF_STRUCT_MEM))).

Fixpoint mem_search (fuel : nat) (size ptr : Z) : io ram_heap (option Z) :=
  if ptr <? u32 (MEM_SIZE_ALIGNED - size) then
    m ← ptr_to_mem ptr;
    if fits_at ptr size m then mret (Some ptr)
    else match fuel with O => io_fault Diverges | S fuel => mem_search fuel size (next m) end
  else mret None.

(** [while (cur->used && cur != ram_end) cur = ptr_to_mem(cur->next);] *)
Fixpoint first_unused (fuel : nat) (cur : Z) : io ram_heap Z :=
  m ← ptr_to_mem cur;
  if negb (used m =? 0) && negb (cur =? MEM_SIZE_ALIGNED) then
    match fuel with O => io_fault Diverges | S fuel => first_unused fuel (next m) end
  else mret cur.

(** Taking the block found, split when the rest holds another block. *)
Definition take_block (ptr size : Z) (m : mem) : io ram_heap unit :=
  if size + (SIZEOF_STRUCT_MEM + MIN_SIZE_ALIGNED) <=? u32 (next m - (ptr + SIZEOF_STRUCT_MEM)) then
    let ptr2 := u32 (ptr + SIZEOF_STRUCT_MEM + size) in
    _ ← io_assert (negb (ptr2 =? MEM_SIZE_ALIGNED));
    _ ← put_mem ptr2 (mk_mem (next m) ptr 0);
    _ ← put_mem ptr (mk_mem ptr2 (prev m) 1);
    link_prev (next m) ptr2
  else upd_mem ptr (hd_used 1).

(** The end of [mem_malloc]: [lfree] moves on when its block was taken. *)
Definition adjust_lfree (ptr : Z) : io ram_heap unit :=
  h ← io_get;
  io_when (ptr =? lfree h)
    (cur ← first_unused max_blocks (lfree h);
     _ ← set_lfree cur;
     c ← ptr_to_mem cur;
     io_assert ((cur =? MEM_SIZE_ALIGNED) || (used c =? 0))).

Definition mem_malloc (size_in : Z) : io ram_heap (option Z) :=
  if size_in =? 0 then mret None
  else
    let size := block_size size_in in
    if (MEM_SIZE_ALIGNED <? size) || (size <? size_in) then mret None
    else
      h ← io_get;
      found ← mem_search max_blocks size (lfree h);
      match found with
      | None => mret None
      | Some ptr =>
          m ← ptr_to_mem ptr;
          _ ← take_block ptr size m;
          _ ← adjust_lfree ptr;
          h ← io_get;
          let mem := ram h + ptr in
          _ ← io_assert (mem + SIZEOF_STRUCT_MEM + size <=? ram h + MEM_SIZE_ALIGNED);
          _ ← io_assert ((mem + SIZEOF_STRUCT_MEM) mod 4 =? 0);
          _ ← io_assert (Z.land mem (4 - 1) =? 0);
          mret (Some (mem + SIZEOF_STRUCT_MEM))
      end.

(* ------------------------------------------------------------------ *)
(** * The interface of the heap *)

(** What pbuf.c uses of the heap, and what it relies on: [heap_rep h bl] says
    that the allocated blocks and their sizes are [bl]. Trimming is promised
    for the blocks [heap_trimmable] allows. *)
Class HeapOps (HP : Type) := {
  heap_malloc : Z -> HP -> outcome (option Z * HP);
  heap_free : Z -> HP -> outcome HP;
  heap_trim : Z -> Z -> HP -> outcome (option Z * HP)
}.

Class HeapLaws (HP : Type) `{HeapOps HP} := {
  heap_rep : HP -> gmap Z Z -> Prop;
  heap_trimmable : HP -> Z -> Z -> Prop;
  heap_addr h bl a n : heap_rep h bl -> bl !! a = Some n -> 0 < a /\ a mod 4 = 0;
  heap_disjoint h bl a n b m :
    heap_rep h bl -> bl !! a = Some n -> bl !! b = Some m -> a <> b -> a + n <= b \/ b + m <= a;
  heap_malloc_ok h bl n :
    heap_rep h bl -> 0 < n < 4294967296 ->
    exists r h', heap_malloc n h = Ok (r, h') /\
      match r with
      | None => heap_rep h' bl
      | Some a => bl !! a = None /\ exists m, n <= m /\ heap_rep h' (<[a := m]> bl)
      end;
  heap_free_ok h bl a n :
    heap_rep h bl -> bl !! a = Some n -> exists h', heap_free a h = Ok h' /\ heap_rep h' (delete a bl);
  heap_trim_ok h bl a m n :
    heap_rep h bl -> bl !! a = Some m -> 12 <= n <= m -> heap_trimmable h a n ->
    exists h' m', heap_trim a n h = Ok (Some a, h') /\ n <= m' <= m /\ heap_rep h' (<[a := m']> bl)
}.

#[export] Instance mem_heap_ops : HeapOps ram_heap := {|
  heap_malloc := mem_malloc;
  heap_free a h := '(_, h) ← mem_free a h; Ok h;
  heap_trim := mem_trim
|}.
