(* ===== verification/MemProofs.v ===== *)
(** What the heap of Mem promises: the headers always describe a list of
    blocks that tile [ram], without two unused neighbours, and the operations
    are first-fit allocation, freeing with coalescing and trimming on that
    list. *)

From Stdlib Require Import ZArith Lia.
From stdpp Require Import base list numbers gmap sets relations.
From S2P Require Import Prelude Mmio Mem.

Open Scope Z_scope.

(* ------------------------------------------------------------------ *)
(** * Sizes *)

Lemma MEM_SIZE_ALIGNED_eq : MEM_SIZE_ALIGNED = 262144.
Proof. done. Qed.
Lemma MIN_SIZE_ALIGNED_eq : MIN_SIZE_ALIGNED = 12.
Proof. done. Qed.
Lemma SIZEOF_STRUCT_MEM_eq : SIZEOF_STRUCT_MEM = 12.
Proof. done. Qed.
Ltac consts := rewrite ?MEM_SIZE_ALIGNED_eq, ?MIN_SIZE_ALIGNED_eq, ?SIZEOF_STRUCT_MEM_eq in *.
Ltac clia := consts; lia.

Lemma align_size_eq n : LWIP_MEM_ALIGN_SIZE n = 4 * (u32 (n + 3) / 4).
Proof.
  unfold LWIP_MEM_ALIGN_SIZE. replace (n + 4 - 1) with (n + 3) by lia.
  change (u32 (Z.lnot (4 - 1))) with (Z.land (Z.ones 32) (Z.lnot 3)).
  rewrite Z.land_assoc, (Z.land_ones _ 32) by lia.
  rewrite (Z.mod_small (u32 (n + 3))) by apply u32_range. apply land_lnot_3.
Qed.

(** The block of a request: rounded up to words, at least 12, unless the
    rounding leaves 32 bits. *)
Lemma block_size_spec n :
  0 < n < 4294967296 ->
  (block_size n < n /\ 4294967292 < n) \/
  (block_size n mod 4 = 0 /\ 12 <= block_size n /\ n <= block_size n < n + 12).
Proof.
  intros Hn. unfold block_size. rewrite align_size_eq, MIN_SIZE_ALIGNED_eq. unfold u32.
  destruct (Z_lt_dec 4294967292 n) as [Hb|Hb]; [left|right].
  - rewrite <- (Z_mod_plus_full (n + 3) (-1) 4294967296), Z.mod_small by lia. zcase; Z.div_mod_to_equations; lia.
  - rewrite (Z.mod_small (n + 3)) by lia. zcase; Z.div_mod_to_equations; lia.
Qed.

(* ------------------------------------------------------------------ *)
(** * Block lists *)

(** A block: its size, the header included, and whether it is used. *)
Abbreviation block := (Z * bool)%type.

Definition block_ok (b : block) : Prop := 24 <= b.1 /\ b.1 mod 4 = 0.
Definition total (l : list block) : Z := foldr (fun b n => b.1 + n) 0 l.
Definition is_free (b : block) : bool := negb b.2.
(** The offset of the first unused block. *)
Fixpoint first_free (ptr : Z) (l : list block) : Z :=
  match l with
  | [] => ptr
  | (sz, true) :: l => first_free (ptr + sz) l
  | (_, false) :: _ => ptr
  end.

(** No two neighbours are unused. *)
Definition starts_free (l : list block) : bool :=
  match l with (_, false) :: _ => true | _ => false end.
Definition ends_free (l : list block) : bool :=
  match last l with Some (_, false) => true | _ => false end.
Fixpoint compact (l : list block) : Prop :=
  match l with
  | [] => True
  | b :: l => is_free b && starts_free l = false /\ compact l
  end.

(** Neighbouring unused blocks made one. *)
Fixpoint squeeze (l : list block) : list block :=
  match l with
  | [] => []
  | (s, u) :: l =>
      match u, squeeze l with
      | false, (s2, false) :: l' => (s + s2, false) :: l'
      | _, l' => (s, u) :: l'
      end
  end.

(** The headers from [ptr] to [ptr'] describe [l]; the header before [ptr] is
    [pv], the last one before [ptr'] is [pv']. *)
Fixpoint seg (hd : gmap Z mem) (pv ptr : Z) (l : list block) (pv' ptr' : Z) : Prop :=
  match l with
  | [] => pv = pv' /\ ptr = ptr'
  | (sz, u) :: l =>
      hd !! ptr = Some (mk_mem (ptr + sz) pv (Z.b2z u)) /\ block_ok (sz, u) /\
      seg hd ptr (ptr + sz) l pv' ptr'
  end.

Record rep (h : ram_heap) (l : list block) : Prop := {
  rep_ram : ram h mod 4 = 0;
  rep_pos : 0 < ram h;
  rep_seg : exists pv, seg (hdrs h) 0 0 l pv MEM_SIZE_ALIGNED;
  rep_end : hdrs h !! MEM_SIZE_ALIGNED = Some (mk_mem MEM_SIZE_ALIGNED MEM_SIZE_ALIGNED 1);
  rep_lfree : lfree h = first_free 0 l;
  rep_compact : compact l
}.

Lemma total_app l1 l2 : total (l1 ++ l2) = total l1 + total l2.
Proof. induction l1; simpl; lia. Qed.

Lemma seg_app hd pv ptr l1 l2 pv' ptr' :
  seg hd pv ptr (l1 ++ l2) pv' ptr' <->
  exists p, seg hd pv ptr l1 p (ptr + total l1) /\ seg hd p (ptr + total l1) l2 pv' ptr'.
Proof.
  revert pv ptr. induction l1 as [|[sz u] l1 IH]; intros pv ptr; simpl.
  - rewrite Z.add_0_r. naive_solver.
  - rewrite Z.add_assoc. setoid_rewrite IH. naive_solver.
Qed.

Lemma seg_total hd pv ptr l pv' ptr' : seg hd pv ptr l pv' ptr' -> ptr' = ptr + total l.
Proof.
  revert pv ptr. induction l as [|[sz u] l IH]; intros pv ptr; simpl; [lia|].
  intros (_ & _ & Hs). apply IH in Hs. lia.
Qed.

Lemma seg_ok hd pv ptr l pv' ptr' : seg hd pv ptr l pv' ptr' -> Forall block_ok l.
Proof. revert pv ptr. induction l as [|[sz u] l IH]; intros pv ptr; simpl; naive_solver. Qed.

Lemma total_pos l : Forall block_ok l -> 24 * zlen l <= total l /\ total l mod 4 = 0.
Proof.
  induction 1 as [|[sz u] l [H1 H2] _ [IH1 IH2]]; [done|]. cbn [fst] in *. simpl.
  split; [lia|]. rewrite Z.add_mod, H2, IH2 by lia. done.
Qed.

Lemma total_member l : Forall block_ok l -> Forall (fun b => b.1 <= total l) l.
Proof.
  induction 1 as [|b l [H1 _] Hl IH]; constructor; simpl.
  - pose proof (total_pos _ Hl). lia.
  - eapply Forall_impl; [exact IH|]. intros c Hc. cbv beta in Hc. lia.
Qed.

(** Only headers inside the segment matter. *)
Lemma seg_frame hd hd' pv ptr l pv' ptr' :
  (forall a, ptr <= a < ptr' -> hd' !! a = hd !! a) ->
  seg hd pv ptr l pv' ptr' -> seg hd' pv ptr l pv' ptr'.
Proof.
  revert pv ptr. induction l as [|[sz u] l IH]; intros pv ptr Hf; simpl; [done|].
  intros (Hp & Hok & Hs). pose proof (seg_total _ _ _ _ _ _ Hs).
  pose proof (total_pos _ (seg_ok _ _ _ _ _ _ Hs)). destruct Hok as [Hsz ?]. cbn [fst] in *.
  rewrite Hf by lia. split_and!; [done|done|]. apply IH; [|done]. intros a Ha. apply Hf. lia.
Qed.

Lemma seg_insert_out hd a m pv ptr l pv' ptr' :
  ~ (ptr <= a < ptr') -> seg hd pv ptr l pv' ptr' -> seg (<[a:=m]> hd) pv ptr l pv' ptr'.
Proof. intros Ha. apply seg_frame. intros b Hb. rewrite lookup_insert_ne; [done|lia]. Qed.

(** [link_prev] on the map. *)
Definition linked_prev (hd : gmap Z mem) (a ptr : Z) : gmap Z mem :=
  if a =? MEM_SIZE_ALIGNED then hd else alter (hd_prev ptr) a hd.

Lemma seg_link hd pv ptr l pv' new :
  seg hd pv ptr l pv' MEM_SIZE_ALIGNED ->
  exists pv'', seg (linked_prev hd ptr new) new ptr l pv'' MEM_SIZE_ALIGNED.
Proof.
  destruct l as [|[sz u] l]; simpl.
  - intros [-> ->]. by exists new.
  - intros (Hp & Hok & Hs). exists pv'. pose proof (seg_total _ _ _ _ _ _ Hs).
    pose proof (total_pos _ (seg_ok _ _ _ _ _ _ Hs)). destruct Hok as [Hsz ?]. cbn [fst] in *.
    unfold linked_prev. rewrite (proj2 (Z.eqb_neq _ _)) by lia.
    rewrite lookup_alter_eq, Hp. split_and!; [done|done|].
    eapply seg_frame; [|exact Hs]. intros a Ha. rewrite lookup_alter_ne; [done|lia].
Qed.

Lemma linked_prev_out hd ptr new a :
  a <> ptr \/ a = MEM_SIZE_ALIGNED -> linked_prev hd ptr new !! a = hd !! a.
Proof.
  intros H. unfold linked_prev. destruct (Z.eqb_spec ptr MEM_SIZE_ALIGNED); [done|].
  apply lookup_alter_ne. destruct H as [H| ->]; congruence.
Qed.

Lemma compact_app l1 l2 :
  compact (l1 ++ l2) <-> compact l1 /\ compact l2 /\ ends_free l1 && starts_free l2 = false.
Proof.
  induction l1 as [|b l1 IH]; [by destruct l2 as [|[? []]]; simpl; naive_solver|].
  cbn [app compact]. rewrite IH. destruct l1 as [|c l1].
  - unfold ends_free. simpl. destruct b as [? []]; simpl; naive_solver.
  - assert (E : ends_free (b :: c :: l1) = ends_free (c :: l1)) by done.
    rewrite E. simpl. tauto.
Qed.

Lemma squeeze_compact l : compact (squeeze l).
Proof.
  induction l as [|[s u] l IH]; [done|]. simpl. destruct u; [by split|].
  destruct (squeeze l) as [|[s2 []] l']; simpl in *; by destruct_and?.
Qed.

Lemma squeeze_id l : compact l -> squeeze l = l.
Proof.
  induction l as [|[s u] l IH]; [done|]. simpl. intros [H1 H2]. rewrite (IH H2).
  destruct u; [done|]. by destruct l as [|[s2 []] l].
Qed.

Lemma squeeze_app l1 l2 : squeeze (l1 ++ squeeze l2) = squeeze (l1 ++ l2).
Proof.
  induction l1 as [|[s u] l1 IH]; [apply squeeze_id, squeeze_compact|]. simpl. by rewrite IH.
Qed.

(** [l1] compact and ending used: squeezing leaves it alone. *)
Lemma squeeze_prefix l1 l2 :
  compact l1 -> ends_free l1 = false -> squeeze (l1 ++ l2) = l1 ++ squeeze l2.
Proof.
  induction l1 as [|[s u] l1 IH]; [done|]. intros [H1 H2] He. simpl.
  assert (He' : ends_free l1 = false) by (destruct l1 as [|c l1]; [done|exact He]).
  rewrite (IH H2 He'). destruct u; [done|].
  destruct l1 as [|[s2 []] l1]; simpl in *; done.
Qed.

Lemma total_squeeze l : total (squeeze l) = total l.
Proof.
  induction l as [|[s u] l IH]; [done|]. simpl. destruct u; simpl; [lia|].
  destruct (squeeze l) as [|[s2 []] l']; simpl in *; lia.
Qed.

Lemma first_free_mid ptr l1 s s' l2 l2' :
  first_free ptr (l1 ++ (s, false) :: l2) = first_free ptr (l1 ++ (s', false) :: l2').
Proof. revert ptr. induction l1 as [|[sz []] l1 IH]; intros ptr; simpl; auto. Qed.

Lemma first_free_squeeze ptr l : first_free ptr (squeeze l) = first_free ptr l.
Proof.
  revert ptr. induction l as [|[s []] l IH]; intros ptr; simpl; [done|apply IH|].
  by destruct (squeeze l) as [|[s2 []] l'].
Qed.

Lemma first_free_app ptr l1 l2 :
  first_free ptr (l1 ++ l2) =
  if forallb snd l1 then first_free (ptr + total l1) l2 else first_free ptr l1.
Proof.
  revert ptr. induction l1 as [|[s []] l1 IH]; intros ptr; simpl; [by rewrite Z.add_0_r| |done].
  by rewrite IH, Z.add_assoc.
Qed.

Lemma first_free_range ptr l : Forall block_ok l -> ptr <= first_free ptr l <= ptr + total l.
Proof.
  intros H. revert ptr. induction H as [|[s u] l [Hs _] Hl IH]; intros ptr; simpl; [lia|].
  pose proof (total_pos _ Hl). cbn [fst] in Hs. destruct u; [|lia]. specialize (IH (ptr + s)). lia.
Qed.

Lemma first_free_lt ptr l : Forall block_ok l -> forallb snd l = false ->
  first_free ptr l < ptr + total l.
Proof.
  intros H. revert ptr. induction H as [|[s u] l [Hs _] Hl IH]; intros ptr; simpl; [done|].
  pose proof (total_pos _ Hl). cbn [fst] in Hs. destruct u; simpl; intros E; [|lia].
  specialize (IH (ptr + s) E). lia.
Qed.

(* ------------------------------------------------------------------ *)
(** * Running the operations *)

Lemma ptr_to_mem_ok (h : ram_heap) ptr m : hdrs h !! ptr = Some m -> ptr_to_mem ptr h = Ok (m, h).
Proof. unfold ptr_to_mem. by intros ->. Qed.

Lemma upd_mem_ok (h : ram_heap) ptr f m :
  hdrs h !! ptr = Some m ->
  upd_mem ptr f h = Ok (tt, mk_ram (ram h) (<[ptr := f m]> (hdrs h)) (lfree h)).
Proof.
  intros H. unfold upd_mem. by rewrite (io_bind_ok _ _ _ _ _ (ptr_to_mem_ok _ _ _ H)).
Qed.

Lemma link_prev_ok (h : ram_heap) a ptr :
  a = MEM_SIZE_ALIGNED \/ is_Some (hdrs h !! a) ->
  link_prev a ptr h = Ok (tt, mk_ram (ram h) (linked_prev (hdrs h) a ptr) (lfree h)).
Proof.
  intros H. unfold link_prev, linked_prev. destruct (Z.eqb_spec a MEM_SIZE_ALIGNED); simpl.
  - by destruct h.
  - destruct H as [?|[m Hm]]; [done|]. rewrite (upd_mem_ok _ _ _ m) by done.
    f_equal. f_equal. f_equal. symmetry. apply map_eq. intros b.
    destruct (decide (b = a)) as [->|]; [by rewrite lookup_alter_eq, lookup_insert_eq, Hm|].
    by rewrite lookup_alter_ne, lookup_insert_ne.
Qed.

(** Reads, writes and assertions in sequence. *)
Ltac hstep :=
  match goal with
  | |- (ptr_to_mem ?p ≫= _) ?h = _ => erewrite (io_bind_ok (ptr_to_mem p)); [|by apply ptr_to_mem_ok]
  | |- (upd_mem ?p ?f ≫= _) ?h = _ => erewrite (io_bind_ok (upd_mem p f)); [|by apply upd_mem_ok]
  | |- (link_prev ?p ?f ≫= _) ?h = _ => erewrite (io_bind_ok (link_prev p f)); [|by apply link_prev_ok]
  | |- (io_assert ?b ≫= _) ?h = _ => replace b with true; [|symmetry]; [erewrite io_bind_ok by done|]
  | |- (io_get ≫= _) ?h = _ => erewrite io_bind_ok by done
  | |- (put_mem _ _ ≫= _) ?h = _ => erewrite io_bind_ok by done
  | |- (set_lfree _ ≫= _) ?h = _ => erewrite io_bind_ok by done
  | |- (io_modify _ ≫= _) ?h = _ => erewrite io_bind_ok by done
  end; cbn [ram hdrs lfree next prev used].

(** The tiling alone, while an operation is at work. *)
Definition tiles (hd : gmap Z mem) (l : list block) : Prop :=
  (exists pv, seg hd 0 0 l pv MEM_SIZE_ALIGNED) /\
  hd !! MEM_SIZE_ALIGNED = Some (mk_mem MEM_SIZE_ALIGNED MEM_SIZE_ALIGNED 1).

Lemma tiles_ok hd l : tiles hd l -> Forall block_ok l /\ total l = MEM_SIZE_ALIGNED.
Proof.
  intros [[pv Hs] _]. split; [by eapply seg_ok|]. pose proof (seg_total _ _ _ _ _ _ Hs). lia.
Qed.

Lemma tiles_split hd l1 b l2 :
  tiles hd (l1 ++ b :: l2) ->
  exists pv pv', seg hd 0 0 l1 pv (total l1) /\
    hd !! total l1 = Some (mk_mem (total l1 + b.1) pv (Z.b2z b.2)) /\ block_ok b /\
    seg hd (total l1) (total l1 + b.1) l2 pv' MEM_SIZE_ALIGNED /\
    hd !! MEM_SIZE_ALIGNED = Some (mk_mem MEM_SIZE_ALIGNED MEM_SIZE_ALIGNED 1) /\
    0 <= total l1 /\ total l1 mod 4 = 0 /\ total l1 + b.1 + total l2 = MEM_SIZE_ALIGNED /\ 0 <= total l2.
Proof.
  intros Ht. destruct (tiles_ok _ _ Ht) as [Hok Htot]. destruct Ht as [[pv' Hs] He].
  apply seg_app in Hs as (pv & Hs1 & Hs2). destruct b as [sz u]. cbn [seg] in Hs2.
  destruct Hs2 as (Hp & Hb & Hs2). apply Forall_app in Hok as [H1 [_ H2]%Forall_cons].
  pose proof (total_pos _ H1). pose proof (total_pos _ H2).
  rewrite total_app in Htot. simpl in Htot.
  exists pv, pv'. rewrite Z.add_0_l in *. cbn [fst snd]. split_and!; try done; lia.
Qed.

(** The blocks in the middle replaced: the headers before are untouched. *)
Lemma tiles_join hd hd' l1 mid l2 pv p2 b pv' :
  seg hd 0 0 l1 pv (total l1) -> (forall x, 0 <= x < total l1 -> hd' !! x = hd !! x) ->
  seg hd' pv (total l1) mid p2 b -> seg hd' p2 b l2 pv' MEM_SIZE_ALIGNED ->
  hd' !! MEM_SIZE_ALIGNED = Some (mk_mem MEM_SIZE_ALIGNED MEM_SIZE_ALIGNED 1) ->
  tiles hd' (l1 ++ mid ++ l2).
Proof.
  intros H1 Hf H2 H3 He. split; [|done]. exists pv'. apply seg_app. exists pv.
  rewrite Z.add_0_l. split; [by eapply seg_frame|].
  apply seg_app. exists p2. pose proof (seg_total _ _ _ _ _ _ H2) as <-. done.
Qed.

(* ------------------------------------------------------------------ *)
(** * Allocation *)

Definition fits (size : Z) (b : block) : bool := is_free b && (size <=? b.1 - 12).

Lemma fits_at_spec ptr size sz pv u :
  0 <= ptr -> block_ok (sz, u) -> ptr + sz <= MEM_SIZE_ALIGNED ->
  fits_at ptr size (mk_mem (ptr + sz) pv (Z.b2z u)) = fits size (sz, u).
Proof.
  intros Hp [Hs _] He. consts. cbn [fst] in Hs. unfold fits_at, fits, is_free. consts.
  cbn [used next fst snd]. rewrite u32_small by (unfold is_u32; lia).
  replace (ptr + sz - (ptr + 12)) with (sz - 12) by lia. by destruct u.
Qed.

Definition found (size ptr : Z) (l : list block) (r : option Z) : Prop :=
  match r with
  | None => Forall (fun b => fits size b = false) l
  | Some p => exists l1 sz l2, l = l1 ++ (sz, false) :: l2 /\ p = ptr + total l1 /\
      Forall (fun b => fits size b = false) l1 /\ size <= sz - 12
  end.

Lemma found_cons size ptr b l r :
  fits size b = false -> found size (ptr + b.1) l r -> found size ptr (b :: l) r.
Proof.
  intros Hb. destruct r as [p|]; simpl; [|by constructor].
  intros (l1 & sz & l2 & -> & -> & H1 & H2). exists (b :: l1), sz, l2. simpl.
  split_and!; [done|lia|by constructor|done].
Qed.

Lemma mem_search_spec h size pv ptr l pv' fuel :
  seg (hdrs h) pv ptr l pv' MEM_SIZE_ALIGNED -> 0 <= ptr -> 12 <= size <= MEM_SIZE_ALIGNED ->
  (length l <= fuel)%nat ->
  exists r, mem_search fuel size ptr h = Ok (r, h) /\ found size ptr l r.
Proof.
  intros Hs Hp Hsz. revert pv ptr fuel Hs Hp. induction l as [|[sz u] l IH]; intros pv ptr fuel Hs Hp Hf.
  - destruct Hs as [_ ->]. exists None. split; [|constructor]. consts.
    destruct fuel; unfold mem_search; consts; rewrite u32_small by (unfold is_u32; lia); zcase; done.
  - pose proof (seg_ok _ _ _ _ _ _ Hs) as [_ Hok]%Forall_cons. pose proof (total_pos _ Hok).
    cbn [seg] in Hs. destruct Hs as (Hh & Hb & Hs). pose proof (seg_total _ _ _ _ _ _ Hs).
    destruct fuel as [|fuel]; [simpl in Hf; lia|]. cbn [mem_search].
    pose proof Hb as [Hb1 _]. cbn [fst] in Hb1.
    destruct (Z.ltb_spec ptr (u32 (MEM_SIZE_ALIGNED - size))) as [Hlt|Hge].
    + rewrite (io_bind_ok _ _ _ _ _ (ptr_to_mem_ok _ _ _ Hh)).
      rewrite fits_at_spec by (done || lia). destruct (fits size (sz, u)) eqn:Hfit.
      * exists (Some ptr). split; [done|]. apply andb_prop in Hfit as [Hu Hle].
        destruct u; [done|]. exists [], sz, l. simpl in *. split_and!; [done|lia|done|lia].
      * destruct (IH ptr (ptr + sz) fuel Hs ltac:(lia) ltac:(simpl in Hf; lia)) as (r & E & Hr).
        cbn [next]. exists r. split; [done|]. by apply found_cons.
    + exists None. split; [done|]. consts. rewrite u32_small in Hge by (unfold is_u32; lia).
      constructor; [|eapply Forall_impl; [exact (total_member _ Hok)|]]; unfold fits; intros;
        apply andb_false_intro2, Z.leb_gt; cbn [fst] in *; lia.
Qed.

Lemma first_unused_spec h pv ptr l pv' fuel :
  seg (hdrs h) pv ptr l pv' MEM_SIZE_ALIGNED ->
  hdrs h !! MEM_SIZE_ALIGNED = Some (mk_mem MEM_SIZE_ALIGNED MEM_SIZE_ALIGNED 1) ->
  0 <= ptr -> (length l <= fuel)%nat ->
  first_unused fuel ptr h = Ok (first_free ptr l, h).
Proof.
  intros Hs He. revert pv ptr fuel Hs. induction l as [|[sz u] l IH]; intros pv ptr fuel Hs Hp Hf.
  - destruct Hs as [_ ->].
    destruct fuel; cbn [first_unused]; hstep; rewrite Z.eqb_refl; done.
  - destruct fuel as [|fuel]; [simpl in Hf; lia|].
    pose proof (seg_ok _ _ _ _ _ _ Hs) as [_ Hok]%Forall_cons. pose proof (total_pos _ Hok).
    cbn [seg] in Hs. destruct Hs as (Hh & [Hb _] & Hs). pose proof (seg_total _ _ _ _ _ _ Hs).
    cbn [first_unused fst] in *. hstep. destruct u; cbn [Z.b2z negb Z.eqb andb first_free]; [|done].
    rewrite (proj2 (Z.eqb_neq _ _)) by lia. apply (IH ptr); [done|lia|simpl in Hf; lia].
Qed.

(** What taking [size] bytes from an unused block of [sz] leaves. *)
Definition carve (size sz : Z) : list block :=
  if size + 24 <=? sz - 12 then [(12 + size, true); (sz - 12 - size, false)] else [(sz, true)].

Lemma seg_linkable hd pv ptr l pv' :
  seg hd pv ptr l pv' MEM_SIZE_ALIGNED -> ptr = MEM_SIZE_ALIGNED \/ is_Some (hd !! ptr).
Proof. destruct l as [|[sz u] l]; simpl; [intros [_ ->]; by left|intros (-> & _); right; by eexists]. Qed.

Lemma linkable_insert (hd : gmap Z mem) a m ptr :
  ptr = MEM_SIZE_ALIGNED \/ is_Some (hd !! ptr) ->
  ptr = MEM_SIZE_ALIGNED \/ is_Some (<[a:=m]> hd !! ptr).
Proof. intros [H|H]; [by left|right]. apply lookup_insert_is_Some'. by right. Qed.

(** One block, or two, put between the blocks [l1] and the blocks [l2] at [e]. *)
Lemma tiles_relink hd l1 pv1 e s u l2 p2 q :
  seg hd 0 0 l1 pv1 (total l1) -> seg hd p2 e l2 q MEM_SIZE_ALIGNED ->
  hd !! MEM_SIZE_ALIGNED = Some (mk_mem MEM_SIZE_ALIGNED MEM_SIZE_ALIGNED 1) ->
  block_ok (s, u) -> e = total l1 + s ->
  tiles (linked_prev (<[total l1 := mk_mem e pv1 (Z.b2z u)]> hd) e (total l1)) (l1 ++ (s, u) :: l2).
Proof.
  intros S1 S2 He Hb ->. pose proof Hb as [Hb1 _]. cbn [fst] in Hb1.
  pose proof (total_pos _ (seg_ok _ _ _ _ _ _ S2)). pose proof (seg_total _ _ _ _ _ _ S2).
  apply (seg_insert_out _ (total l1) (mk_mem (total l1 + s) pv1 (Z.b2z u))) in S2; [|lia].
  destruct (seg_link _ _ _ _ _ (total l1) S2) as [pv2 S3].
  eapply (tiles_join _ _ _ [(s, u)]); [exact S1| | |exact S3|].
  - intros x Hx. by rewrite linked_prev_out, lookup_insert_ne by lia.
  - cbn [seg]. rewrite linked_prev_out by lia. rewrite lookup_insert_eq. by split_and!.
  - rewrite linked_prev_out by by right. by rewrite lookup_insert_ne by lia.
Qed.

Lemma tiles_relink2 hd l1 pv1 e s1 u1 s2 u2 l2 p2 q :
  seg hd 0 0 l1 pv1 (total l1) -> seg hd p2 e l2 q MEM_SIZE_ALIGNED ->
  hd !! MEM_SIZE_ALIGNED = Some (mk_mem MEM_SIZE_ALIGNED MEM_SIZE_ALIGNED 1) ->
  block_ok (s1, u1) -> block_ok (s2, u2) -> 0 <= total l1 -> e = total l1 + s1 + s2 ->
  tiles (linked_prev (<[total l1 := mk_mem (total l1 + s1) pv1 (Z.b2z u1)]>
      (<[total l1 + s1 := mk_mem e (total l1) (Z.b2z u2)]> hd)) e (total l1 + s1))
    (l1 ++ (s1, u1) :: (s2, u2) :: l2).
Proof.
  intros S1 S2 He Hb1 Hb2 H0 E. pose proof Hb1 as [Hs1 _]. pose proof Hb2 as [Hs2 _]. cbn [fst] in *.
  pose proof (total_pos _ (seg_ok _ _ _ _ _ _ S2)). pose proof (seg_total _ _ _ _ _ _ S2).
  set (hd1 := <[total l1 := mk_mem (total l1 + s1) pv1 (Z.b2z u1)]> hd).
  assert (T : total (l1 ++ [(s1, u1)]) = total l1 + s1) by (rewrite total_app; simpl; lia).
  rewrite insert_insert_ne by lia. fold hd1. rewrite <- T.
  change ((s1, u1) :: (s2, u2) :: l2) with ([(s1, u1)] ++ (s2, u2) :: l2). rewrite app_assoc.
  eapply tiles_relink; [| | |done|lia].
  - rewrite seg_app. exists pv1. rewrite Z.add_0_l. split.
    + apply seg_insert_out; [lia|exact S1].
    + cbn [seg]. unfold hd1. rewrite lookup_insert_eq, T. by split_and!.
  - apply seg_insert_out; [lia|exact S2].
  - unfold hd1. rewrite lookup_insert_ne by lia. exact He.
Qed.

Lemma take_block_spec h size l1 sz l2 pv :
  tiles (hdrs h) (l1 ++ (sz, false) :: l2) -> size <= sz - 12 -> 12 <= size -> size mod 4 = 0 ->
  hdrs h !! total l1 = Some (mk_mem (total l1 + sz) pv 0) ->
  exists hd', take_block (total l1) size (mk_mem (total l1 + sz) pv 0) h = Ok (tt, mk_ram (ram h) hd' (lfree h)) /\
    tiles hd' (l1 ++ carve size sz ++ l2).
Proof.
  intros Ht Hle Hmin Hal Hh.
  destruct (tiles_split _ _ _ _ Ht) as (pv1 & pv' & S1 & Hh' & [Hb1 Hb2] & S2 & He & H0 & Hm & Htot & H2).
  cbn [fst snd Z.b2z] in *. rewrite Hh in Hh'. injection Hh' as ->.
  unfold take_block, carve. cbn [next prev].
  rewrite u32_small by (unfold is_u32; clia).
  replace (total l1 + sz - (total l1 + SIZEOF_STRUCT_MEM)) with (sz - 12) by clia.
  change (SIZEOF_STRUCT_MEM + MIN_SIZE_ALIGNED) with 24.
  destruct (Z.leb_spec (size + 24) (sz - 12)) as [Hbig|Hsmall].
  - rewrite u32_small by (unfold is_u32; clia).
    eexists. split.
    { hstep; [|apply negb_true_iff, Z.eqb_neq; clia]. hstep. hstep. rewrite link_prev_ok; [done|].
      do 2 apply linkable_insert. by eapply seg_linkable. }
    cbn [hdrs ram lfree].
    replace (total l1 + SIZEOF_STRUCT_MEM + size) with (total l1 + (12 + size)) by clia.
    apply (tiles_relink2 _ _ _ _ _ true _ false _ _ _ S1 S2 He);
      try (split; cbn [fst]); try lia; Z.div_mod_to_equations; lia.
  - eexists. split; [by apply upd_mem_ok|].
    eapply tiles_join; [exact S1| | |eapply seg_insert_out; [|exact S2]|].
    + intros x Hx. by rewrite lookup_insert_ne by lia.
    + cbn [seg Z.b2z]. rewrite lookup_insert_eq. by split_and!.
    + lia.
    + by rewrite lookup_insert_ne by clia.
Qed.

Lemma split_free l : exists lu lf, l = lu ++ lf /\ forallb snd lu = true /\
  (lf = [] \/ starts_free lf = true) /\ forall ptr, first_free ptr l = ptr + total lu.
Proof.
  induction l as [|[sz []] l (lu & lf & -> & Hu & Hf & E)].
  - exists [], []. split_and!; [done|done|by left|]. intros. simpl. lia.
  - exists ((sz, true) :: lu), lf. split_and!; [done|done|done|]. intros. simpl. rewrite E. lia.
  - exists [], ((sz, false) :: lu ++ lf). split_and!; [done|done|by right|]. intros. simpl. lia.
Qed.

Lemma used_unfit size l : forallb snd l = true -> Forall (fun b => fits size b = false) l.
Proof.
  induction l as [|[sz u] l IH]; [done|]. simpl. intros [-> H]%andb_prop. by constructor; [|apply IH].
Qed.

Lemma max_blocks_ok hd l : tiles hd l -> (length l <= max_blocks)%nat.
Proof.
  intros [Hok Ht]%tiles_ok. pose proof (total_pos _ Hok). unfold max_blocks. consts.
  change (262144 / (12 + 12)) with 10922. lia.
Qed.

Lemma compact_carve size l1 sz l2 :
  compact (l1 ++ (sz, false) :: l2) -> compact (l1 ++ carve size sz ++ l2).
Proof.
  rewrite !compact_app. cbn [compact]. intros (H1 & (H2 & H3) & H4). unfold carve.
  zcase_step; cbn [app compact starts_free is_free]; rewrite ?andb_false_r; by split_and!.
Qed.

Lemma rep_tiles h l : rep h l -> tiles (hdrs h) l.
Proof. intros []. by split. Qed.

Lemma first_free_hdr hd pv ptr l pv' :
  seg hd pv ptr l pv' MEM_SIZE_ALIGNED ->
  hd !! MEM_SIZE_ALIGNED = Some (mk_mem MEM_SIZE_ALIGNED MEM_SIZE_ALIGNED 1) ->
  exists m, hd !! first_free ptr l = Some m /\
    (first_free ptr l =? MEM_SIZE_ALIGNED) || (used m =? 0) = true.
Proof.
  intros Hs He. revert pv ptr Hs. induction l as [|[sz []] l IH]; intros pv ptr Hs; simpl.
  - destruct Hs as [_ ->]. eexists. split; [exact He|]. by rewrite Z.eqb_refl.
  - destruct Hs as (_ & _ & Hs). by apply IH in Hs.
  - destruct Hs as (Hh & _ & _). eexists. split; [exact Hh|]. apply orb_true_r.
Qed.

Lemma adjust_lfree_spec h lu l1 l :
  tiles (hdrs h) (lu ++ l1 ++ l) -> forallb snd lu = true -> l1 = [] \/ starts_free l1 = true ->
  lfree h = total lu ->
  adjust_lfree (total (lu ++ l1)) h = Ok (tt, mk_ram (ram h) (hdrs h) (first_free 0 (lu ++ l1 ++ l))).
Proof.
  intros Ht Hu H1 Hl. pose proof (tiles_ok _ _ Ht) as [Hok Htot].
  pose proof (max_blocks_ok _ _ Ht) as Hmax. rewrite !length_app in Hmax.
  destruct Ht as [[pv (p1 & _ & Hs)%seg_app] He]. rewrite Z.add_0_l in *.
  apply Forall_app in Hok as [Hoku Hok]. pose proof (total_pos _ Hoku).
  unfold adjust_lfree. revert Hmax. generalize max_blocks as fuel. intros fuel Hmax.
  hstep. rewrite Hl, total_app, first_free_app, Hu, Z.add_0_l.
  destruct H1 as [->|H1].
  - cbn [app total foldr length] in *. rewrite Z.add_0_r, Z.eqb_refl. unfold io_when.
    pose proof (first_unused_spec h _ _ _ _ fuel Hs He ltac:(lia) ltac:(lia)) as Ef.
    rewrite (io_bind_ok _ _ _ _ _ Ef).
    destruct (first_free_hdr _ _ _ _ _ Hs He) as (m & Hm & Ha).
    hstep. hstep. unfold io_assert. by rewrite Ha.
  - destruct l1 as [|[sz []] l1]; [done|done|]. apply Forall_app in Hok as [[[Hsz _] Hok1]%Forall_cons _].
    pose proof (total_pos _ Hok1). cbn [fst] in Hsz.
    simpl. rewrite (proj2 (Z.eqb_neq _ _)) by lia. simpl. rewrite <- Hl. by destruct h.
Qed.

(** First fit, and NULL exactly when no unused block is large enough. *)
Lemma mem_malloc_spec h l n :
  rep h l -> 0 < n < 4294967296 ->
  (mem_malloc n h = Ok (None, h) /\
   (block_size n < n \/ Forall (fun b => fits (block_size n) b = false) l)) \/
  (exists l1 sz l2 h', l = l1 ++ (sz, false) :: l2 /\
     Forall (fun b => fits (block_size n) b = false) l1 /\ n <= block_size n <= sz - 12 /\
     mem_malloc n h = Ok (Some (ram h + total l1 + 12), h') /\ ram h' = ram h /\
     rep h' (l1 ++ carve (block_size n) sz ++ l2)).
Proof.
  intros HR Hn. pose proof (rep_tiles _ _ HR) as Ht. pose proof (tiles_ok _ _ Ht) as [Hok Htot].
  unfold mem_malloc. rewrite (proj2 (Z.eqb_neq n 0)) by lia.
  destruct (block_size_spec n Hn) as [[Hlt _]|(Hm & Hmin & Hle)].
  { left. split; [|by left]. rewrite (proj2 (Z.ltb_lt _ _) Hlt), orb_true_r. done. }
  rewrite (proj2 (Z.ltb_ge (block_size n) n)) by lia. rewrite orb_false_r.
  destruct (Z.ltb_spec MEM_SIZE_ALIGNED (block_size n)) as [Hbig|Hsz].
  { left. split; [done|]. right. eapply Forall_impl; [exact (total_member _ Hok)|].
    intros b Hb. cbv beta in Hb. unfold fits. apply andb_false_intro2, Z.leb_gt. lia. }
  destruct (split_free l) as (lu & lf & -> & Hu & Hlf & Eff).
  pose proof (max_blocks_ok _ _ Ht) as Hmax. rewrite length_app in Hmax.
  assert (Emb : exists mb, mb = max_blocks) by by eexists. destruct Emb as [mb Emb].
  rewrite <- Emb in *.
  destruct HR as [Hal Hpos [pv Hs] He Hl Hc]. rewrite Eff, Z.add_0_l in Hl.
  pose proof Hs as (p1 & Hs1 & Hs2)%seg_app. rewrite Z.add_0_l in *.
  apply Forall_app in Hok as [Hoku Hokf]. pose proof (total_pos _ Hoku).
  destruct (mem_search_spec h (block_size n) p1 (total lu) lf pv mb Hs2) as (r & Es & Hr);
    [lia|lia|lia|].
  destruct r as [ptr|].
  2: { left. split; [|right; apply Forall_app; split; [by apply used_unfit|done]].
       hstep. rewrite Hl. by rewrite (io_bind_ok _ _ _ _ _ Es). }
  right. destruct Hr as (l1 & sz & l2 & -> & -> & Hnf & Hfit).
  rewrite app_assoc in Ht. pose proof (tiles_split _ _ _ _ Ht) as
    (pv1 & pv2 & _ & Hh & [Hb1 Hb2] & _ & _ & _ & Hmt & Htot' & Hl2). cbn [fst snd Z.b2z] in *.
  destruct (take_block_spec h (block_size n) (lu ++ l1) sz l2 pv1) as (hd' & Et & Ht'); try done.
  assert (Hlf1 : l1 = [] \/ starts_free l1 = true).
  { destruct l1; [by left|right]. by destruct Hlf as [?|Hlf]. }
  rewrite <- app_assoc in Ht'.
  pose proof (adjust_lfree_spec (mk_ram (ram h) hd' (lfree h)) lu l1 _ Ht' Hu Hlf1 Hl) as Ea.
  exists (lu ++ l1), sz, l2, (mk_ram (ram h) hd' (first_free 0 (lu ++ l1 ++ carve (block_size n) sz ++ l2))).
  split; [by rewrite app_assoc|].
  split; [apply Forall_app; split; [by apply used_unfit|done]|]. split; [lia|].
  split; [|split; [done|]].
  2: { rewrite <- app_assoc. destruct Ht' as [? ?]. split; try done.
       rewrite app_assoc. apply compact_carve. by rewrite <- app_assoc. }
  hstep. rewrite Hl, (io_bind_ok _ _ _ _ _ Es), <- total_app. hstep.
  rewrite (io_bind_ok _ _ _ _ _ Et), (io_bind_ok _ _ _ _ _ Ea). hstep.
  hstep; [|apply Z.leb_le; clia].
  hstep; [|apply Z.eqb_eq; consts; Z.div_mod_to_equations; lia].
  change (4 - 1) with (Z.ones 2). rewrite Z.land_ones by lia.
  hstep; [|apply Z.eqb_eq; change (2 ^ 2) with 4; Z.div_mod_to_equations; lia].
  by rewrite SIZEOF_STRUCT_MEM_eq.
Qed.

(* ------------------------------------------------------------------ *)
(** * Freeing *)

(** The list while [plug_holes] works on the unused block behind [l1]. *)
Lemma plug_next_spec h l1 sz l2 :
  tiles (hdrs h) (l1 ++ (sz, false) :: l2) -> compact l2 -> lfree h = first_free 0 (l1 ++ (sz, false) :: l2) ->
  exists hd', plug_next (total l1) h = Ok (tt, mk_ram (ram h) hd' (lfree h)) /\
    tiles hd' (l1 ++ squeeze ((sz, false) :: l2)).
Proof.
  intros Ht Hc Hl. pose proof (tiles_ok _ _ Ht) as [Hok _].
  destruct (tiles_split _ _ _ _ Ht) as (pv1 & pv' & S1 & Hh & [Hb1 Hb2] & S2 & He & H0 & Hm & Htot & H2).
  cbn [fst snd Z.b2z] in *. unfold plug_next. cbn [squeeze]. rewrite (squeeze_id l2 Hc).
  destruct l2 as [|[s2 u2] l2].
  - destruct S2 as [_ E]. exists (hdrs h). rewrite E in Hh. split; [|done].
    hstep. hstep; [|by apply Z.leb_refl]. hstep. rewrite andb_false_r. by destruct h.
  - cbn [seg] in S2. destruct S2 as (Hn & [Hs2 Hs2'] & S3). cbn [fst total foldr] in *.
    apply Forall_app in Hok as [_ [_ [_ Hok]%Forall_cons]%Forall_cons]. pose proof (total_pos _ Hok).
    fold (total l2) in *.
    destruct u2.
    + exists (hdrs h). split; [|done].
      hstep. hstep; [|apply Z.leb_le; lia]. hstep. rewrite andb_false_r. by destruct h.
    + assert (Hlt : lfree h <> total l1 + sz).
      { rewrite Hl, first_free_app. destruct (forallb snd l1) eqn:Hu; simpl; [lia|].
        pose proof (tiles_ok _ _ Ht) as [[Hok1 _]%Forall_app _].
        pose proof (first_free_lt 0 _ Hok1 Hu). lia. }
      eexists. split.
      { hstep. hstep; [|apply Z.leb_le; lia]. hstep.
        rewrite (proj2 (Z.eqb_neq (total l1) _)) by lia. rewrite (proj2 (Z.eqb_neq _ MEM_SIZE_ALIGNED)) by lia.
        cbn [negb andb Z.eqb Z.b2z]. hstep. rewrite (proj2 (Z.eqb_neq (lfree h) _)) by done.
        cbn [io_when]. erewrite io_bind_ok by done. hstep.
        rewrite link_prev_ok; [done|]. apply linkable_insert. by eapply seg_linkable. }
      cbn [hdrs ram lfree]. apply (tiles_relink _ _ _ _ (sz + s2) false _ _ _ S1 S3 He); [split|]; cbn [fst]; try lia.
      Z.div_mod_to_equations. lia.
Qed.

Lemma exists_last_or {A} (l : list A) : l = [] \/ exists l' x, l = l' ++ [x].
Proof. destruct l using rev_ind; [by left|right; by eexists _, _]. Qed.

Lemma ends_free_snoc l b : ends_free (l ++ [b]) = is_free b.
Proof. unfold ends_free. rewrite last_snoc. by destruct b as [? []]. Qed.

Lemma plug_prev_spec h l1 sz l2 :
  tiles (hdrs h) (l1 ++ (sz, false) :: l2) -> compact l1 -> compact ((sz, false) :: l2) ->
  lfree h = first_free 0 (l1 ++ (sz, false) :: l2) ->
  exists hd', plug_prev (total l1) h = Ok (tt, mk_ram (ram h) hd' (lfree h)) /\
    tiles hd' (squeeze (l1 ++ (sz, false) :: l2)).
Proof.
  intros Ht Hc1 Hc2 Hl. pose proof (tiles_ok _ _ Ht) as [Hok _].
  destruct (tiles_split _ _ _ _ Ht) as (pv1 & pv' & S1 & Hh & [Hb1 Hb2] & S2 & He & H0 & Hm & Htot & H2).
  cbn [fst snd Z.b2z] in *. unfold plug_prev.
  destruct (exists_last_or l1) as [->|(l0 & [s0 u0] & ->)].
  - destruct S1 as [<- _]. exists (hdrs h). rewrite app_nil_l, (squeeze_id _ Hc2). split; [|done].
    cbn [total foldr] in *. hstep. hstep. rewrite Z.eqb_refl. by destruct h.
  - pose proof S1 as (p0 & S0 & S0')%seg_app. cbn [seg] in S0'. destruct S0' as (Hh0 & Hb0 & <- & E0).
    rewrite Z.add_0_l in *. pose proof Hb0 as [Hs0 Hs0']. cbn [fst] in *.
    apply Forall_app in Hok as [[Hok0 _]%Forall_app _]. pose proof (total_pos _ Hok0).
    destruct u0.
    + exists (hdrs h). rewrite squeeze_prefix, (squeeze_id _ Hc2) by (done || by rewrite ends_free_snoc).
      split; [|done]. hstep. hstep. rewrite andb_false_r. by destruct h.
    + assert (Hlt : lfree h <> total (l0 ++ [(s0, false)])).
      { rewrite Hl, <- E0, <- app_assoc, first_free_app. destruct (forallb snd l0) eqn:Hu; simpl; [lia|].
        pose proof (first_free_lt 0 _ Hok0 Hu). lia. }
      eexists. split.
      { hstep. hstep. rewrite (proj2 (Z.eqb_neq (total l0) _)) by lia. cbn [negb andb Z.eqb Z.b2z].
        hstep. rewrite (proj2 (Z.eqb_neq (lfree h) _)) by done.
        cbn [io_when]. erewrite io_bind_ok by done. hstep.
        rewrite link_prev_ok; [done|]. apply linkable_insert. by eapply seg_linkable. }
      cbn [hdrs ram lfree]. rewrite <- app_assoc. apply compact_app in Hc1 as (Hc0 & _ & He0).
      rewrite andb_true_r in He0. rewrite squeeze_prefix by done.
      replace (squeeze ([(s0, false)] ++ (sz, false) :: l2)) with ((s0 + sz, false) :: l2).
      2: { change ([(s0, false)] ++ (sz, false) :: l2) with ((s0, false) :: (sz, false) :: l2).
           generalize (squeeze_id _ Hc2). intros Eq. cbn [squeeze] in Eq |- *. by rewrite Eq. }
      apply (tiles_relink _ _ _ _ (s0 + sz) false _ _ _ S0 S2 He); [split|]; cbn [fst]; try lia.
      Z.div_mod_to_equations. lia.
Qed.

Lemma seg_prev hd l1 pv : seg hd 0 0 l1 pv (total l1) ->
  (l1 = [] /\ pv = 0) \/
  (0 <= pv < total l1 /\ exists m, hd !! pv = Some m /\ next m = total l1).
Proof.
  destruct (exists_last_or l1) as [->|(l0 & [s0 u0] & ->)]; [intros [<- _]; by left|].
  intros Hs. right. pose proof (seg_ok _ _ _ _ _ _ Hs) as [Hok _]%Forall_app.
  pose proof (total_pos _ Hok). apply seg_app in Hs as (p & _ & Hh & [Hb _] & <- & E).
  rewrite Z.add_0_l in *. cbn [fst] in Hb. split; [lia|]. by eexists.
Qed.

Lemma seg_next hd pv ptr l pv' : seg hd pv ptr l pv' MEM_SIZE_ALIGNED ->
  ptr = MEM_SIZE_ALIGNED \/ exists m, hd !! ptr = Some m /\ prev m = pv.
Proof. destruct l as [|[sz u] l]; [intros [_ ->]; by left|intros (H & _); right; by eexists]. Qed.

Lemma mem_link_valid_spec h l1 sz u l2 :
  tiles (hdrs h) (l1 ++ (sz, u) :: l2) -> mem_link_valid (total l1) h = Ok (true, h).
Proof.
  intros Ht.
  destruct (tiles_split _ _ _ _ Ht) as (pv1 & pv' & S1 & Hh & [Hb1 Hb2] & S2 & He & H0 & Hm & Htot & H2).
  cbn [fst snd] in *. unfold mem_link_valid. hstep.
  assert (Hp : 0 <= pv1 <= total l1 /\
    exists m, hdrs h !! pv1 = Some m /\ (pv1 = total l1 \/ next m = total l1)).
  { destruct (seg_prev _ _ _ S1) as [[-> ->]|(Hr & m & Hm' & Hn)].
    - split; [done|]. eexists. split; [exact Hh|by left].
    - split; [lia|]. eexists. split; [exact Hm'|by right]. }
  destruct Hp as (Hr & mp & Hmp & Hnp).
  rewrite (proj2 (Z.ltb_ge _ _)), (proj2 (Z.ltb_ge _ _)) by lia. cbn [orb]. hstep.
  assert (E : negb (pv1 =? total l1) && negb (next mp =? total l1) = false).
  { destruct Hnp as [->| ->]; by rewrite Z.eqb_refl, ?andb_false_r. }
  rewrite E. destruct (seg_next _ _ _ _ _ S2) as [Ee|(mn & Hn & Hpn)].
  - rewrite Ee. hstep. by rewrite Z.eqb_refl.
  - hstep. by rewrite Hpn, Z.eqb_refl, andb_false_r.
Qed.

Lemma tiles_used hd l1 sz u u' l2 pv :
  tiles hd (l1 ++ (sz, u) :: l2) -> hd !! total l1 = Some (mk_mem (total l1 + sz) pv (Z.b2z u)) ->
  tiles (<[total l1 := mk_mem (total l1 + sz) pv (Z.b2z u')]> hd) (l1 ++ (sz, u') :: l2).
Proof.
  intros Ht Hh'.
  destruct (tiles_split _ _ _ _ Ht) as (pv1 & pv' & S1 & Hh & [Hb1 Hb2] & S2 & He & H0 & Hm & Htot & H2).
  cbn [fst snd] in *. rewrite Hh in Hh'. injection Hh' as <-.
  eapply (tiles_join _ _ _ [(sz, u')]); [exact S1| | |eapply seg_insert_out; [|exact S2]|].
  - intros x Hx. by rewrite lookup_insert_ne by lia.
  - cbn [seg]. rewrite lookup_insert_eq. by split_and!.
  - lia.
  - by rewrite lookup_insert_ne by lia.
Qed.

(** Where [lfree] stands after the block behind [l1] became unused. *)
Lemma first_free_release l1 sz l2 :
  Forall block_ok (l1 ++ (sz, true) :: l2) ->
  (if total l1 <? first_free 0 (l1 ++ (sz, true) :: l2) then total l1
   else first_free 0 (l1 ++ (sz, true) :: l2)) = first_free 0 (l1 ++ (sz, false) :: l2).
Proof.
  intros [Hok1 [[Hs _] Hok2]%Forall_cons]%Forall_app. cbn [fst] in Hs. rewrite !first_free_app.
  destruct (forallb snd l1) eqn:Hu; rewrite ?Z.add_0_l; simpl.
  - pose proof (first_free_range (total l1 + sz) _ Hok2). zcase.
  - pose proof (first_free_lt 0 _ Hok1 Hu). zcase.
Qed.

Lemma plug_holes_spec h l1 sz l2 :
  tiles (hdrs h) (l1 ++ (sz, false) :: l2) -> compact l1 -> compact l2 ->
  lfree h = first_free 0 (l1 ++ (sz, false) :: l2) ->
  exists hd', plug_holes (total l1) h = Ok (tt, mk_ram (ram h) hd' (lfree h)) /\
    tiles hd' (squeeze (l1 ++ (sz, false) :: l2)).
Proof.
  intros Ht Hc1 Hc2 Hl.
  destruct (tiles_split _ _ _ _ Ht) as (pv1 & pv' & S1 & Hh & [Hb1 Hb2] & S2 & He & H0 & Hm & Htot & H2).
  cbn [fst snd] in *.
  destruct (plug_next_spec h l1 sz l2 Ht Hc2 Hl) as (hd1 & E1 & Ht1).
  assert (Hsq : exists sz' l2', squeeze ((sz, false) :: l2) = (sz', false) :: l2').
  { simpl. destruct (squeeze l2) as [|[s2 []] l2']; by eexists _, _. }
  destruct Hsq as (sz' & l2' & Esq). rewrite Esq in Ht1.
  destruct (plug_prev_spec (mk_ram (ram h) hd1 (lfree h)) l1 sz' l2' Ht1 Hc1) as (hd2 & E2 & Ht2).
  { rewrite <- Esq. apply squeeze_compact. }
  { cbn [lfree]. rewrite Hl. apply first_free_mid. }
  exists hd2. split.
  - unfold plug_holes. hstep; [|by apply Z.leb_le]. hstep; [|apply Z.ltb_lt; lia].
    hstep. hstep; [|done]. by rewrite (io_bind_ok _ _ _ _ _ E1).
  - by rewrite <- Esq, squeeze_app in Ht2.
Qed.

Lemma compact_used l1 sz l2 : compact (l1 ++ (sz, true) :: l2) -> compact l1 /\ compact l2.
Proof. rewrite compact_app. simpl. tauto. Qed.

Lemma when_lfree_ok b ptr h :
  io_when b (set_lfree ptr) h = Ok (tt, mk_ram (ram h) (hdrs h) (if b then ptr else lfree h)).
Proof. by destruct b, h. Qed.

Lemma mem_free_spec h l1 sz l2 :
  rep h (l1 ++ (sz, true) :: l2) ->
  exists h', mem_free (ram h + total l1 + 12) h = Ok (tt, h') /\ ram h' = ram h /\
    rep h' (squeeze (l1 ++ (sz, false) :: l2)).
Proof.
  intros HR. pose proof (rep_tiles _ _ HR) as Ht. destruct HR as [Hal Hpos _ _ Hl Hc].
  destruct (compact_used _ _ _ Hc) as [Hc1 Hc2]. pose proof (tiles_ok _ _ Ht) as [Hok _].
  destruct (tiles_split _ _ _ _ Ht) as (pv1 & pv' & S1 & Hh & [Hb1 Hb2] & S2 & He & H0 & Hm & Htot & H2).
  cbn [fst snd Z.b2z] in *.
  set (hd1 := <[total l1 := mk_mem (total l1 + sz) pv1 0]> (hdrs h)).
  pose proof (tiles_used _ _ _ true false _ _ Ht Hh) as Ht1. fold hd1 in Ht1.
  destruct (plug_holes_spec (mk_ram (ram h) hd1 (first_free 0 (l1 ++ (sz, false) :: l2))) l1 sz l2
    Ht1 Hc1 Hc2 eq_refl) as (hd2 & E & Ht2).
  exists (mk_ram (ram h) hd2 (first_free 0 (l1 ++ (sz, false) :: l2))). split_and!; [|done|].
  - unfold mem_free. rewrite (proj2 (Z.eqb_neq _ _)) by lia.
    change (4 - 1) with (Z.ones 2). rewrite Z.land_ones by lia. change (2 ^ 2) with 4.
    rewrite (proj2 (Z.eqb_eq ((ram h + total l1 + 12) mod 4) 0)) by (Z.div_mod_to_equations; lia).
    cbn [negb]. hstep. replace (ram h + total l1 + 12 - SIZEOF_STRUCT_MEM - ram h) with (total l1) by clia.
    rewrite (proj2 (Z.ltb_ge _ _)), (proj2 (Z.ltb_ge _ _)) by clia. cbn [orb].
    hstep. cbn [Z.eqb]. rewrite (io_bind_ok _ _ _ _ _ (mem_link_valid_spec _ _ _ _ _ Ht)). cbn [negb].
    hstep. hstep. rewrite Hl. erewrite io_bind_ok by apply when_lfree_ok.
    cbn [lfree ram hdrs]. rewrite (first_free_release l1 sz l2 Hok). exact E.
  - destruct Ht2 as [? ?]. split; try done; [|apply squeeze_compact].
    cbn [lfree]. by rewrite first_free_squeeze.
Qed.

(* ------------------------------------------------------------------ *)
(** * Trimming *)

(** The used block of [sz] and what follows, after trimming to [n] bytes. *)
Definition trim_blocks (n sz : Z) (l2 : list block) : list block :=
  if (n =? sz - 12) then (sz, true) :: l2
  else if starts_free l2 || (n + 24 <=? sz - 12) then
    (12 + n, true) :: squeeze ((sz - 12 - n, false) :: l2)
  else (sz, true) :: l2.

Lemma compact_trim n l1 sz l2 :
  compact (l1 ++ (sz, true) :: l2) -> compact (l1 ++ trim_blocks n sz l2).
Proof.
  intros Hc. unfold trim_blocks. destruct (n =? sz - 12); [done|].
  destruct (starts_free l2 || (n + 24 <=? sz - 12)); [|done].
  apply compact_app in Hc as (Hc1 & _ & _). apply compact_app.
  split_and!; [done| |apply andb_false_r]. split; [done|apply squeeze_compact].
Qed.

Lemma first_free_trim l1 n s l2 :
  first_free 0 (l1 ++ (12 + n, true) :: (s, false) :: l2) =
  if forallb snd l1 then total l1 + 12 + n else first_free 0 l1.
Proof. rewrite first_free_app. simpl. destruct (forallb snd l1); [lia|done]. Qed.

Lemma trim_move_spec h l1 sz n s2 l2 pv :
  rep h (l1 ++ (sz, true) :: (s2, false) :: l2) -> 12 <= n < sz - 12 -> n mod 4 = 0 ->
  hdrs h !! total l1 = Some (mk_mem (total l1 + sz) pv 1) ->
  exists hd', trim_move (total l1) n (mk_mem (total l1 + sz) pv 1)
      (mk_mem (total l1 + sz + s2) (total l1) 0) h =
      Ok (tt, mk_ram (ram h) hd' (first_free 0 (l1 ++ (12 + n, true) :: (sz - 12 - n + s2, false) :: l2))) /\
    tiles hd' (l1 ++ (12 + n, true) :: (sz - 12 - n + s2, false) :: l2).
Proof.
  intros HR Hn Hal Hh'. pose proof (rep_tiles _ _ HR) as Ht. destruct HR as [_ _ _ _ Hl Hc].
  pose proof (tiles_ok _ _ Ht) as [Hok _].
  destruct (tiles_split _ _ _ _ Ht) as (pv1 & pv' & S1 & Hh & [Hb1 Hb2] & S2 & He & H0 & Hm & Htot & H2).
  cbn [fst snd Z.b2z seg total foldr] in *. rewrite Hh in Hh'. injection Hh' as <-.
  destruct S2 as (Hn2 & [Hs2 Hs2'] & S3). cbn [fst] in *.
  pose proof (total_pos _ (seg_ok _ _ _ _ _ _ S3)). fold (total l2) in *.
  assert (Hp2 : u32 (total l1 + SIZEOF_STRUCT_MEM + n) = total l1 + (12 + n)).
  { rewrite u32_small by (unfold is_u32; clia). clia. }
  eexists. split.
  { unfold trim_move. cbn [next prev used]. rewrite Hp2.
    hstep; [|apply negb_true_iff, Z.eqb_neq; lia]. hstep.
    erewrite io_bind_ok by apply when_lfree_ok. cbn [ram hdrs lfree]. hstep.
    erewrite io_bind_ok.
    2: { apply upd_mem_ok. cbn [hdrs]. rewrite lookup_insert_ne by lia. exact Hh. }
    rewrite link_prev_ok; [cbn [ram hdrs lfree]|].
    2: { do 2 apply linkable_insert. by eapply seg_linkable. }
    f_equal. f_equal. f_equal. rewrite first_free_trim, Hl, first_free_app.
    destruct (forallb snd l1) eqn:Hu; simpl; rewrite ?Z.add_0_l.
    - rewrite Z.eqb_refl. lia.
    - apply Forall_app in Hok as [Hok1 _]. pose proof (first_free_lt 0 _ Hok1 Hu).
      rewrite (proj2 (Z.eqb_neq _ _)) by lia. done. }
  apply (tiles_relink2 _ _ _ _ _ true _ false _ _ _ S1 S3 He);
    try (split; cbn [fst]); try lia; Z.div_mod_to_equations; lia.
Qed.

Lemma trim_split_spec h l1 sz n l2 pv :
  rep h (l1 ++ (sz, true) :: l2) -> 12 <= n -> n + 24 <= sz - 12 -> n mod 4 = 0 ->
  starts_free l2 = false -> total l1 + sz <> MEM_SIZE_ALIGNED ->
  hdrs h !! total l1 = Some (mk_mem (total l1 + sz) pv 1) ->
  exists hd', trim_split (total l1) n (mk_mem (total l1 + sz) pv 1) h =
      Ok (tt, mk_ram (ram h) hd' (first_free 0 (l1 ++ (12 + n, true) :: (sz - 12 - n, false) :: l2))) /\
    tiles hd' (l1 ++ (12 + n, true) :: (sz - 12 - n, false) :: l2).
Proof.
  intros HR Hn0 Hn Hal Hsf Hend Hh'. pose proof (rep_tiles _ _ HR) as Ht. destruct HR as [_ _ _ _ Hl Hc].
  pose proof (tiles_ok _ _ Ht) as [Hok _].
  destruct (tiles_split _ _ _ _ Ht) as (pv1 & pv' & S1 & Hh & [Hb1 Hb2] & S2 & He & H0 & Hm & Htot & H2).
  cbn [fst snd Z.b2z] in *. rewrite Hh in Hh'. injection Hh' as <-.
  assert (Hp2 : u32 (total l1 + SIZEOF_STRUCT_MEM + n) = total l1 + (12 + n)).
  { rewrite u32_small by (unfold is_u32; clia). clia. }
  eexists. split.
  { unfold trim_split. cbn [next prev used]. rewrite Hp2.
    hstep; [|by apply negb_true_iff, Z.eqb_neq]. hstep.
    erewrite io_bind_ok by apply when_lfree_ok. cbn [ram hdrs lfree]. hstep.
    erewrite io_bind_ok.
    2: { apply upd_mem_ok. cbn [hdrs]. rewrite lookup_insert_ne by lia. exact Hh. }
    rewrite link_prev_ok; [cbn [ram hdrs lfree]|].
    2: { do 2 apply linkable_insert. by eapply seg_linkable. }
    f_equal. f_equal. f_equal. rewrite first_free_trim, Hl, first_free_app.
    apply Forall_app in Hok as [Hok1 [_ Hok2]%Forall_cons].
    destruct (forallb snd l1) eqn:Hu; simpl; rewrite ?Z.add_0_l.
    - pose proof (first_free_range (total l1 + sz) _ Hok2). zcase.
    - pose proof (first_free_lt 0 _ Hok1 Hu). zcase. }
  apply (tiles_relink2 _ _ _ _ _ true _ false _ _ _ S1 S2 He);
    try (split; cbn [fst]); try lia; Z.div_mod_to_equations; lia.
Qed.

Lemma trim_blocks_move n sz s2 l2 :
  compact ((s2, false) :: l2) -> n <> sz - 12 ->
  trim_blocks n sz ((s2, false) :: l2) = (12 + n, true) :: (sz - 12 - n + s2, false) :: l2.
Proof.
  intros Hc Hn. unfold trim_blocks. rewrite (proj2 (Z.eqb_neq _ _)) by done. cbn [starts_free orb].
  pose proof (squeeze_id _ Hc) as E. cbn [squeeze] in E |- *. by rewrite E.
Qed.

Lemma trim_blocks_split n sz l2 :
  compact l2 -> starts_free l2 = false -> n + 24 <= sz - 12 ->
  trim_blocks n sz l2 = (12 + n, true) :: (sz - 12 - n, false) :: l2.
Proof.
  intros Hc Hs Hn. unfold trim_blocks. rewrite (proj2 (Z.eqb_neq _ _)), Hs by lia. cbn [orb].
  rewrite (proj2 (Z.leb_le _ _)) by done. rewrite squeeze_id; [done|]. by split.
Qed.

Lemma trim_block_spec h l1 sz l2 n pv :
  rep h (l1 ++ (sz, true) :: l2) -> 12 <= n < sz - 12 -> n mod 4 = 0 ->
  (n + 24 <= sz - 12 -> l2 <> []) ->
  hdrs h !! total l1 = Some (mk_mem (total l1 + sz) pv 1) ->
  exists hd', trim_block (total l1) n (sz - 12) (mk_mem (total l1 + sz) pv 1) h =
      Ok (tt, mk_ram (ram h) hd' (first_free 0 (l1 ++ trim_blocks n sz l2))) /\
    tiles hd' (l1 ++ trim_blocks n sz l2).
Proof.
  intros HR Hn Hal Hlast Hh. pose proof (rep_tiles _ _ HR) as Ht. pose proof HR as [_ _ _ _ Hl Hc].
  destruct (tiles_split _ _ _ _ Ht) as (pv1 & pv' & S1 & Hh' & [Hb1 Hb2] & S2 & He & H0 & Hm & Htot & H2).
  cbn [fst snd Z.b2z] in *. destruct (compact_used _ _ _ Hc) as [_ Hc2].
  unfold trim_block. cbn [next].
  assert (Hsame : starts_free l2 = false -> ~ (n + 24 <= sz - 12) -> trim_blocks n sz l2 = (sz, true) :: l2).
  { intros Hs Hbig. unfold trim_blocks. rewrite Hs. zcase; done. }
  assert (Hnext : exists m2, hdrs h !! (total l1 + sz) = Some m2 /\
    ((exists s2 l2', l2 = (s2, false) :: l2' /\ m2 = mk_mem (total l1 + sz + s2) (total l1) 0) \/
     (starts_free l2 = false /\ used m2 = 1 /\ (l2 <> [] -> total l1 + sz <> MEM_SIZE_ALIGNED)))).
  { destruct l2 as [|[s2 u2] l2].
    - destruct S2 as [_ ->]. eexists. split; [exact He|]. right. by split_and!.
    - destruct S2 as (Hh2 & [Hs2 _] & S3). cbn [fst] in Hs2. pose proof (seg_total _ _ _ _ _ _ S3).
      pose proof (total_pos _ (seg_ok _ _ _ _ _ _ S3)).
      eexists. split; [exact Hh2|]. destruct u2; [right|left; by eexists _, _].
      split_and!; [done|done|]. intros _. lia. }
  destruct Hnext as (m2 & Hm2 & [(s2 & l2' & -> & ->)|(Hs & Hu & Hne)]).
  - rewrite trim_blocks_move by (done || lia).
    destruct (trim_move_spec h l1 sz n s2 l2' pv HR Hn Hal Hh) as (hd' & E & Ht').
    exists hd'. split; [|done]. hstep. cbn [Z.eqb]. exact E.
  - change (n + SIZEOF_STRUCT_MEM + MIN_SIZE_ALIGNED) with (n + 12 + 12).
    destruct (Z.leb_spec (n + 12 + 12) (sz - 12)) as [Hbig|Hsmall].
    + rewrite trim_blocks_split by (done || lia).
      destruct (trim_split_spec h l1 sz n l2 pv HR) as (hd' & E & Ht'); try done; try lia.
      { apply Hne, Hlast. lia. }
      exists hd'. split; [|done]. hstep. rewrite Hu. exact E.
    + rewrite Hsame by (done || lia). exists (hdrs h). split; [|done]. hstep. rewrite Hu.
      cbn [Z.eqb]. rewrite <- Hl. by destruct h.
Qed.

Lemma mem_trim_spec h l1 sz l2 new_size :
  rep h (l1 ++ (sz, true) :: l2) -> 0 < new_size < 4294967296 -> new_size <= block_size new_size <= sz - 12 ->
  (block_size new_size + 24 <= sz - 12 -> l2 <> []) ->
  exists h', mem_trim (ram h + total l1 + 12) new_size h = Ok (Some (ram h + total l1 + 12), h') /\
    ram h' = ram h /\ rep h' (l1 ++ trim_blocks (block_size new_size) sz l2).
Proof.
  intros HR Hnew Hn Hlast. pose proof (rep_tiles _ _ HR) as Ht. pose proof HR as [Hal Hpos _ _ Hl Hc].
  destruct (tiles_split _ _ _ _ Ht) as (pv1 & pv' & S1 & Hh & [Hb1 Hb2] & S2 & He & H0 & Hm & Htot & H2).
  cbn [fst snd Z.b2z] in *. destruct (block_size_spec _ Hnew) as [?|(Hm4 & Hmin & Hle)]; [lia|].
  set (n := block_size new_size) in *.
  assert (Esz : u32 (u32 (total l1 + sz - total l1) - SIZEOF_STRUCT_MEM) = sz - 12).
  { rewrite !u32_small by (unfold is_u32; rewrite ?u32_small by (unfold is_u32; clia); clia). clia. }
  pose proof (compact_trim n _ _ _ Hc) as Hc'. destruct (compact_used _ _ _ Hc) as [_ Hc2].
  destruct (Z.eqb_spec n (sz - 12)) as [En|Hne].
  - exists h. split_and!; [|done|unfold trim_blocks; by rewrite (proj2 (Z.eqb_eq _ _) En)].
    unfold mem_trim. fold n. rewrite (proj2 (Z.ltb_ge MEM_SIZE_ALIGNED n)), (proj2 (Z.ltb_ge n new_size)) by lia.
    cbn [orb]. hstep. hstep; [|apply andb_true_intro; split; [apply Z.leb_le|apply Z.ltb_lt]; lia].
    replace (ram h + total l1 + 12 - SIZEOF_STRUCT_MEM - ram h) with (total l1) by clia.
    hstep. rewrite Esz. hstep; [|apply Z.leb_le; lia]. by rewrite (proj2 (Z.eqb_eq _ _) En).
  - destruct (trim_block_spec h l1 sz l2 n pv1 HR ltac:(lia) Hm4 Hlast Hh) as (hd' & E & Ht').
    exists (mk_ram (ram h) hd' (first_free 0 (l1 ++ trim_blocks n sz l2))). split_and!; [|done|destruct Ht' as [? ?]; by split].
    unfold mem_trim. fold n. rewrite (proj2 (Z.ltb_ge MEM_SIZE_ALIGNED n)), (proj2 (Z.ltb_ge n new_size)) by lia.
    cbn [orb]. hstep. hstep; [|apply andb_true_intro; split; [apply Z.leb_le|apply Z.ltb_lt]; lia].
    replace (ram h + total l1 + 12 - SIZEOF_STRUCT_MEM - ram h) with (total l1) by clia.
    hstep. rewrite Esz. hstep; [|apply Z.leb_le; lia]. rewrite (proj2 (Z.eqb_neq _ _) Hne).
    by rewrite (io_bind_ok _ _ _ _ _ E).
Qed.

(* ------------------------------------------------------------------ *)
(** * The allocated blocks *)

(** Address and size of the memory handed out for each used block of [l];
    the first block's header is at [p]. *)
Fixpoint allocs (p : Z) (l : list block) : list (Z * Z) :=
  match l with
  | [] => []
  | (sz, true) :: l => (p + 12, sz - 12) :: allocs (p + sz) l
  | (sz, false) :: l => allocs (p + sz) l
  end.

Definition mem_rep (h : ram_heap) (bl : gmap Z Z) : Prop :=
  exists l, rep h l /\ bl = list_to_map (allocs (ram h) l).

Lemma allocs_app p l1 l2 : allocs p (l1 ++ l2) = allocs p l1 ++ allocs (p + total l1) l2.
Proof.
  revert p. induction l1 as [|[sz []] l1 IH]; intros p; simpl; [by rewrite Z.add_0_r|..];
    by rewrite IH, Z.add_assoc.
Qed.

Lemma allocs_range p l : Forall block_ok l ->
  Forall (fun b => p + 12 <= b.1 /\ b.1 + b.2 <= p + total l /\ 12 <= b.2) (allocs p l).
Proof.
  intros H. revert p. induction H as [|[sz u] l [Hs _] Hl IH]; intros p; simpl; [constructor|].
  cbn [fst] in Hs. pose proof (total_pos _ Hl).
  assert (Hrest : Forall (fun b => p + 12 <= b.1 /\ b.1 + b.2 <= p + (sz + total l) /\ 12 <= b.2)
    (allocs (p + sz) l)).
  { eapply Forall_impl; [exact (IH (p + sz))|]. intros b Hb. cbv beta in Hb. lia. }
  destruct u; [|done]. constructor; [cbn [fst snd]; lia|done].
Qed.

Lemma allocs_nodup p l : Forall block_ok l -> NoDup (allocs p l).*1.
Proof.
  intros H. revert p. induction H as [|[sz u] l [Hs _] Hl IH]; intros p; simpl; [constructor|].
  cbn [fst] in Hs. destruct u; [|apply IH]. rewrite fmap_cons. constructor; [|apply IH].
  intros ([a n] & Ha & Hin)%list_elem_of_fmap. cbn [fst] in Ha.
  pose proof (proj1 (Forall_forall _ _) (allocs_range (p + sz) l Hl)) as Hr.
  specialize (Hr _ Hin). cbn [fst snd] in Hr. lia.
Qed.

Lemma allocs_split p l a n : (a, n) ∈ allocs p l ->
  exists l1 sz l2, l = l1 ++ (sz, true) :: l2 /\ a = p + total l1 + 12 /\ n = sz - 12.
Proof.
  revert p. induction l as [|[sz []] l IH]; intros p; simpl; [by intros ?%not_elem_of_nil|..].
  - intros [E|Hin]%elem_of_cons.
    + injection E as -> ->. exists [], sz, l. simpl. split_and!; [done|lia|done].
    + destruct (IH _ Hin) as (l1 & s & l2 & -> & -> & ->). exists ((sz, true) :: l1), s, l2.
      simpl. split_and!; [done|lia|done].
  - intros Hin. destruct (IH _ Hin) as (l1 & s & l2 & -> & -> & ->). exists ((sz, false) :: l1), s, l2.
    simpl. split_and!; [done|lia|done].
Qed.

Lemma allocs_squeeze p l : allocs p (squeeze l) = allocs p l.
Proof.
  revert p. induction l as [|[s []] l IH]; intros p; simpl; [done|by rewrite IH|].
  rewrite <- IH. destruct (squeeze l) as [|[s2 []] l']; simpl; by rewrite ?Z.add_assoc.
Qed.

Lemma rep_ok h l : rep h l -> Forall block_ok l /\ total l = MEM_SIZE_ALIGNED.
Proof. intros H%rep_tiles. by apply tiles_ok in H. Qed.

Lemma mem_rep_lookup h l a n : rep h l ->
  (list_to_map (allocs (ram h) l) : gmap Z Z) !! a = Some n <-> (a, n) ∈ allocs (ram h) l.
Proof. intros [Hok _]%rep_ok. rewrite <- elem_of_list_to_map by by apply allocs_nodup. done. Qed.

Lemma allocs_disjoint p l a n b m : Forall block_ok l ->
  (a, n) ∈ allocs p l -> (b, m) ∈ allocs p l -> a <> b -> a + n <= b \/ b + m <= a.
Proof.
  intros H. revert p. induction H as [|[sz u] l [Hs _] Hl IH]; intros p; simpl; [by intros ?%not_elem_of_nil|].
  cbn [fst] in Hs. destruct u; [|apply IH].
  pose proof (proj1 (Forall_forall _ _) (allocs_range (p + sz) l Hl)) as Hr.
  intros [Ea|Ha]%elem_of_cons [Eb|Hb]%elem_of_cons Hne.
  - congruence.
  - injection Ea as -> ->. specialize (Hr _ Hb). cbn [fst snd] in Hr. lia.
  - injection Eb as -> ->. specialize (Hr _ Ha). cbn [fst snd] in Hr. lia.
  - by eapply IH.
Qed.

(** The blocks without the one at [l1]. *)
Definition others (p : Z) (l1 : list block) (sz : Z) (l2 : list block) : gmap Z Z :=
  list_to_map (allocs p l1 ++ allocs (p + total l1 + sz) l2).

Lemma alloc_map_free p l1 sz l2 :
  (list_to_map (allocs p (l1 ++ (sz, false) :: l2)) : gmap Z Z) = others p l1 sz l2.
Proof. unfold others. by rewrite allocs_app. Qed.

Lemma alloc_map_used p l1 sz l2 :
  Forall block_ok (l1 ++ (sz, true) :: l2) ->
  (list_to_map (allocs p (l1 ++ (sz, true) :: l2)) : gmap Z Z) =
    <[p + total l1 + 12 := sz - 12]> (others p l1 sz l2) /\
  others p l1 sz l2 !! (p + total l1 + 12) = None.
Proof.
  intros Hok. pose proof (allocs_nodup p _ Hok) as Hnd. unfold others. rewrite allocs_app in *.
  cbn [allocs] in *. split.
  - rewrite <- list_to_map_cons. apply list_to_map_proper; [done|].
    symmetry. apply Permutation_middle.
  - apply not_elem_of_list_to_map. rewrite fmap_app in *. cbn [fmap list_fmap fst] in Hnd.
    rewrite <- Permutation_middle in Hnd. by apply NoDup_cons in Hnd as [? _].
Qed.

Lemma total_carve size sz : total (carve size sz) = sz.
Proof. unfold carve. zcase_step; simpl; lia. Qed.

Lemma others_carve p l1 size sz l2 :
  Forall block_ok (l1 ++ carve size sz ++ l2) -> size <= sz - 12 ->
  exists m, size <= m /\ (list_to_map (allocs p (l1 ++ carve size sz ++ l2)) : gmap Z Z) =
    <[p + total l1 + 12 := m]> (others p l1 sz l2) /\ others p l1 sz l2 !! (p + total l1 + 12) = None.
Proof.
  intros Hok Hle. unfold carve in *. destruct (Z.leb_spec (size + 24) (sz - 12)) as [Hb|Hb]; cbn [app] in *.
  - exists size. destruct (alloc_map_used p l1 (12 + size) ((sz - 12 - size, false) :: l2) Hok) as [E Hn].
    assert (Eo : others p l1 (12 + size) ((sz - 12 - size, false) :: l2) = others p l1 sz l2).
    { unfold others. cbn [allocs]. do 3 f_equal. lia. }
    rewrite Eo in *. split_and!; [lia| |done]. rewrite E. f_equal. lia.
  - exists (sz - 12). by destruct (alloc_map_used p l1 sz l2 Hok).
Qed.

Lemma others_trim p l1 n sz l2 :
  Forall block_ok (l1 ++ trim_blocks n sz l2) -> n <= sz - 12 ->
  exists m, n <= m <= sz - 12 /\ (list_to_map (allocs p (l1 ++ trim_blocks n sz l2)) : gmap Z Z) =
    <[p + total l1 + 12 := m]> (others p l1 sz l2).
Proof.
  intros Hok Hle. unfold trim_blocks in *.
  destruct (Z.eqb_spec n (sz - 12)); [exists (sz - 12); split; [lia|]; by apply alloc_map_used|].
  destruct (starts_free l2 || (n + 24 <=? sz - 12)); [|exists (sz - 12); split; [lia|]; by apply alloc_map_used].
  exists n. split; [lia|]. destruct (alloc_map_used p l1 (12 + n) _ Hok) as [-> _].
  assert (Eo : others p l1 (12 + n) (squeeze ((sz - 12 - n, false) :: l2)) = others p l1 sz l2).
  { unfold others. rewrite allocs_squeeze. cbn [allocs]. do 3 f_equal. lia. }
  rewrite Eo. f_equal. lia.
Qed.

(* ------------------------------------------------------------------ *)
(** * The implementation of the interface *)

Lemma mem_rep_block h bl a n : mem_rep h bl -> bl !! a = Some n ->
  exists l1 sz l2, rep h (l1 ++ (sz, true) :: l2) /\ a = ram h + total l1 + 12 /\ n = sz - 12 /\
    bl = <[a := n]> (others (ram h) l1 sz l2) /\ others (ram h) l1 sz l2 !! a = None.
Proof.
  intros (l & HR & ->) Ha%mem_rep_lookup; [|done].
  destruct (allocs_split _ _ _ _ Ha) as (l1 & sz & l2 & -> & -> & ->).
  exists l1, sz, l2. pose proof (rep_ok _ _ HR) as [Hok _].
  destruct (alloc_map_used (ram h) l1 sz l2 Hok). by split_and!.
Qed.

Lemma mem_malloc_laws h bl n :
  mem_rep h bl -> 0 < n < 4294967296 ->
  exists r h', mem_malloc n h = Ok (r, h') /\
    match r with
    | None => mem_rep h' bl
    | Some a => bl !! a = None /\ exists m, n <= m /\ mem_rep h' (<[a := m]> bl)
    end.
Proof.
  intros (l & HR & ->) Hn.
  destruct (mem_malloc_spec h l n HR Hn) as [[E _]|(l1 & sz & l2 & h' & -> & _ & Hle & E & Hr & HR')].
  - exists None, h. split; [done|]. by exists l.
  - exists (Some (ram h + total l1 + 12)), h'. split; [done|]. rewrite alloc_map_free.
    destruct (others_carve (ram h) l1 (block_size n) sz l2) as (m & Hm & Em & Hnone);
      [by apply rep_ok in HR' as [? _]|lia|].
    split; [done|]. exists m. split; [lia|]. eexists. split; [exact HR'|]. by rewrite Hr, Em.
Qed.

Lemma mem_free_laws h bl a n :
  mem_rep h bl -> bl !! a = Some n ->
  exists h', mem_free a h = Ok (tt, h') /\ mem_rep h' (delete a bl).
Proof.
  intros HR Ha. destruct (mem_rep_block _ _ _ _ HR Ha) as (l1 & sz & l2 & HR1 & Ea & _ & Eb & Hn).
  destruct (mem_free_spec h l1 sz l2 HR1) as (h' & E & Hr & HR'). rewrite <- Ea in E.
  exists h'. split; [done|]. eexists. split; [exact HR'|].
  rewrite Hr, allocs_squeeze, alloc_map_free, Eb. by apply delete_insert_id.
Qed.

(** The last block can only be trimmed when too little would be cut off to
    make a block. *)
Definition mem_trimmable (h : ram_heap) (a n : Z) : Prop :=
  forall l1 sz l2, rep h (l1 ++ (sz, true) :: l2) -> a = ram h + total l1 + 12 ->
    block_size n <= sz - 12 /\ (block_size n + 24 <= sz - 12 -> l2 <> []).

Lemma mem_trim_laws h bl a m n :
  mem_rep h bl -> bl !! a = Some m -> 12 <= n <= m -> mem_trimmable h a n ->
  exists h' m', mem_trim a n h = Ok (Some a, h') /\ n <= m' <= m /\ mem_rep h' (<[a := m']> bl).
Proof.
  intros HR Ha Hn Htr. destruct (mem_rep_block _ _ _ _ HR Ha) as (l1 & sz & l2 & HR1 & Ea & Em & Eb & Hnone).
  destruct (Htr l1 sz l2 HR1 Ea) as [Hfit Hlast]. destruct (rep_ok _ _ HR1) as [Hok Htot].
  rewrite total_app in Htot. apply Forall_app in Hok as [Hok1 [_ Hok2]%Forall_cons].
  pose proof (total_pos _ Hok1). pose proof (total_pos _ Hok2). simpl in Htot. fold (total l2) in Htot.
  assert (Hn32 : 0 < n < 4294967296) by clia.
  destruct (block_size_spec n Hn32) as [?|(_ & _ & Hb)]; [clia|].
  destruct (mem_trim_spec h l1 sz l2 n HR1 Hn32 ltac:(lia) Hlast) as (h' & E & Hr & HR').
  destruct (others_trim (ram h) l1 (block_size n) sz l2) as (m' & Hm' & Em');
    [by apply rep_ok in HR' as [? _]|lia|].
  exists h', m'. rewrite <- Ea in *. split_and!; [done|lia|lia|]. eexists. split; [exact HR'|].
  rewrite Hr, Em', Eb. by rewrite insert_insert_eq.
Qed.

#[export] Instance mem_heap_laws : HeapLaws ram_heap.
Proof.
  refine {| heap_rep := mem_rep; heap_trimmable := mem_trimmable |}.
  - intros h bl a n HR Ha. destruct (mem_rep_block _ _ _ _ HR Ha) as (l1 & sz & l2 & HR1 & -> & _).
    destruct (tiles_split _ _ _ _ (rep_tiles _ _ HR1)) as (? & ? & _ & _ & _ & _ & _ & H0 & Hm & _).
    destruct HR1 as [Hal Hpos _ _ _ _]. split; [lia|]. Z.div_mod_to_equations. lia.
  - intros h bl a n b m (l & HR & ->) Ha%mem_rep_lookup Hb%mem_rep_lookup Hne; [|done..].
    by eapply allocs_disjoint; [by apply rep_ok in HR as [? _]|..].
  - exact mem_malloc_laws.
  - intros h bl a n HR Ha. destruct (mem_free_laws h bl a n HR Ha) as (h' & E & HR').
    exists h'. split; [|done]. simpl. by rewrite E.
  - exact mem_trim_laws.
Defined.

(* ------------------------------------------------------------------ *)
(** * Properties *)

Lemma mem_init_rep array h :
  0 < array ->
  exists h', mem_init array h = Ok (tt, h') /\ array <= ram h' < array + 4 /\
    rep h' [(MEM_SIZE_ALIGNED, false)].
Proof.
  intros Ha. unfold mem_init. change (4 - 1) with 3. rewrite land_lnot_3.
  eexists. split.
  { hstep; [|done]. hstep. hstep. hstep. done. }
  cbn [ram hdrs lfree]. split; [Z.div_mod_to_equations; lia|]. split; cbn [ram hdrs lfree].
  - Z.div_mod_to_equations; lia.
  - Z.div_mod_to_equations; lia.
  - exists 0. cbn [seg]. rewrite lookup_insert_ne, lookup_insert_eq by done. by split_and!.
  - by rewrite lookup_insert_eq.
  - done.
  - by split.
Qed.

(** C36: [mem_malloc] is first fit and complete: it takes the first unused
    block that is large enough, cut to the rounded request when the rest
    holds another block, and returns NULL only when no unused block is large
    enough or the request is too large to be rounded up. No assertion of it
    fails. *)
Theorem mem_malloc_first_fit h l size_in :
  rep h l -> 0 < size_in < 4294967296 ->
  (mem_malloc size_in h = Ok (None, h) /\
   (4294967292 < size_in \/ Forall (fun b => is_free b = true -> b.1 - 12 < block_size size_in) l)) \/
  (exists l1 sz l2 h', l = l1 ++ (sz, false) :: l2 /\
     Forall (fun b => is_free b = true -> b.1 - 12 < block_size size_in) l1 /\
     size_in <= block_size size_in <= sz - 12 /\
     mem_malloc size_in h = Ok (Some (ram h + total l1 + 12), h') /\ ram h' = ram h /\
     rep h' (l1 ++ carve (block_size size_in) sz ++ l2)).
Proof.
  intros HR Hn.
  assert (Hf : forall b, fits (block_size size_in) b = false -> is_free b = true -> b.1 - 12 < block_size size_in).
  { intros b Hb Hfree. unfold fits in Hb. rewrite Hfree in Hb. by apply Z.leb_gt. }
  destruct (mem_malloc_spec h l size_in HR Hn) as [[E H]|(l1 & sz & l2 & h' & -> & H & Hr)]; [left|right].
  - split; [done|]. destruct H as [H|H]; [left|right; by eapply Forall_impl].
    destruct (block_size_spec _ Hn) as [?|?]; lia.
  - exists l1, sz, l2, h'. split_and!; try apply Hr; [done|by eapply Forall_impl].
Qed.

(** The heap of the program, its array at 0x08001001. *)
Definition heap0 : ram_heap :=
  match mem_init 0x08001001 (mk_ram 0 ∅ 0) with Ok (_, h) => h | Fault _ => mk_ram 0 ∅ 0 end.

Lemma heap0_rep : rep heap0 [(MEM_SIZE_ALIGNED, false)] /\ ram heap0 = 0x08001004.
Proof.
  destruct (mem_init_rep 0x08001001 (mk_ram 0 ∅ 0)) as (h' & E & _ & HR); [lia|].
  unfold heap0. rewrite E. split; [done|]. vm_compute in E. by injection E as <-.
Qed.

Lemma mem_malloc_first_fit_witness :
  rep heap0 [(MEM_SIZE_ALIGNED, false)] /\
  ((mem_malloc 1214 heap0 = Ok (None, heap0) /\
    (4294967292 < 1214 \/
     Forall (fun b => is_free b = true -> b.1 - 12 < block_size 1214) [(MEM_SIZE_ALIGNED, false)])) \/
   (exists l1 sz l2 h', [(MEM_SIZE_ALIGNED, false)] = l1 ++ (sz, false) :: l2 /\
     Forall (fun b => is_free b = true -> b.1 - 12 < block_size 1214) l1 /\
     1214 <= block_size 1214 <= sz - 12 /\
     mem_malloc 1214 heap0 = Ok (Some (ram heap0 + total l1 + 12), h') /\ ram h' = ram heap0 /\
     rep h' (l1 ++ carve (block_size 1214) sz ++ l2))).
Proof.
  split; [apply heap0_rep|].
  apply (mem_malloc_first_fit heap0 [(MEM_SIZE_ALIGNED, false)] 1214); [apply heap0_rep|lia].
Defined.

(** The heap and the blocks its users hold, with the sizes they asked for. *)
Inductive heap_step : ram_heap * gmap Z Z -> ram_heap * gmap Z Z -> Prop :=
| step_malloc n a h h' held :
    0 < n < 4294967296 -> mem_malloc n h = Ok (Some a, h') -> heap_step (h, held) (h', <[a := n]> held)
| step_malloc_null n h h' held :
    0 < n < 4294967296 -> mem_malloc n h = Ok (None, h') -> heap_step (h, held) (h', held)
| step_free a n h h' held :
    held !! a = Some n -> mem_free a h = Ok (tt, h') -> heap_step (h, held) (h', delete a held)
| step_trim a m n h h' held :
    held !! a = Some m -> 12 <= n <= m -> mem_trimmable h a n -> mem_trim a n h = Ok (Some a, h') ->
    heap_step (h, held) (h', <[a := n]> held).

Definition heap_inv (s : ram_heap * gmap Z Z) : Prop :=
  exists bl, mem_rep s.1 bl /\ dom bl = dom s.2 /\
    forall a n, s.2 !! a = Some n -> exists m, bl !! a = Some m /\ n <= m.

Lemma heap_inv_update h bl held a n m :
  mem_rep h (<[a := m]> bl) -> dom bl = dom held ->
  (forall b k, held !! b = Some k -> exists j, bl !! b = Some j /\ k <= j) -> n <= m ->
  heap_inv (h, <[a := n]> held).
Proof.
  intros HR Hd Hs Hn. exists (<[a := m]> bl). cbn [fst snd]. split_and!; [done|set_solver|].
  intros b k. destruct (decide (a = b)) as [->|Hne].
  - rewrite !lookup_insert_eq. intros [= <-]. by eexists.
  - rewrite !lookup_insert_ne by done. apply Hs.
Qed.

Lemma heap_step_inv s s' : heap_step s s' -> heap_inv s -> heap_inv s'.
Proof.
  intros [n a h h' held Hn E|n h h' held Hn E|a n h h' held Ha E|a m n h h' held Ha Hn Ht E]
    (bl & HR & Hd & Hs); cbn [fst snd] in *.
  - destruct (mem_malloc_laws h bl n HR Hn) as (r & h2 & E2 & Hr). rewrite E in E2.
    injection E2 as <- <-. destruct Hr as (_ & m & Hm & HR'). by eapply heap_inv_update.
  - destruct (mem_malloc_laws h bl n HR Hn) as (r & h2 & E2 & Hr). rewrite E in E2.
    injection E2 as <- <-. by exists bl.
  - destruct (Hs a n Ha) as (m & Hm & _). destruct (mem_free_laws h bl a m HR Hm) as (h2 & E2 & HR').
    rewrite E in E2. injection E2 as <-. exists (delete a bl). cbn [fst snd].
    split_and!; [done|set_solver|]. intros b k [Hne Hb]%lookup_delete_Some.
    rewrite lookup_delete_ne by done. by apply Hs.
  - destruct (Hs a m Ha) as (m2 & Hm & Hle).
    destruct (mem_trim_laws h bl a m2 n HR Hm ltac:(lia) Ht) as (h2 & m' & E2 & Hm' & HR').
    rewrite E in E2. injection E2 as <-. eapply heap_inv_update; [done..|lia].
Qed.

Lemma heap_steps_inv s s' : rtc heap_step s s' -> heap_inv s -> heap_inv s'.
Proof. induction 1; eauto using heap_step_inv. Qed.

(** A compact heap without used blocks is one unused block. *)
Lemma all_free h l : rep h l -> allocs (ram h) l = [] -> l = [(MEM_SIZE_ALIGNED, false)].
Proof.
  intros HR Ha. pose proof (rep_ok _ _ HR) as [_ Htot]. destruct HR as [_ _ _ _ _ Hc].
  destruct l as [|[s []] l]; [done|done|]. destruct l as [|[s2 []] l]; simpl in *.
  - replace s with MEM_SIZE_ALIGNED by lia. done.
  - done.
  - by destruct Hc as [? _].
Qed.

(** C28: In every sequence of [mem_malloc], [mem_free] of held blocks and
    allowed [mem_trim] after [mem_init], the blocks handed out are word
    aligned, never overlap and hold what was asked for, every held block can
    be freed, and when everything is freed the heap is one unused block
    again: nothing leaks and nothing stays fragmented. *)
Theorem heap_blocks_disjoint array h0 h h' held :
  0 < array -> mem_init array h0 = Ok (tt, h) -> rtc heap_step (h, ∅) (h', held) ->
  (forall a n, held !! a = Some n -> 0 < a /\ a mod 4 = 0 /\ exists h2, mem_free a h' = Ok (tt, h2)) /\
  (forall a n b m, held !! a = Some n -> held !! b = Some m -> a <> b -> a + n <= b \/ b + m <= a) /\
  (held = ∅ -> rep h' [(MEM_SIZE_ALIGNED, false)]).
Proof.
  intros Ha E Hs. destruct (mem_init_rep array h0 Ha) as (h1 & E1 & _ & HR0). rewrite E in E1. injection E1 as <-.
  destruct (heap_steps_inv _ _ Hs) as (bl & HR & Hd & Hb).
  { exists ∅. split_and!; [by eexists|done|done]. }
  cbn [fst snd] in *. split_and!.
  - intros a n Hn. destruct (Hb a n Hn) as (m & Hm & _).
    destruct (heap_addr (HeapLaws := mem_heap_laws) h' bl a m HR Hm) as [? ?].
    destruct (mem_free_laws h' bl a m HR Hm) as (h2 & E2 & _). split_and!; [done|done|by exists h2].
  - intros a n b m Hn Hm Hne. destruct (Hb a n Hn) as (n' & Hn' & ?). destruct (Hb b m Hm) as (m' & Hm' & ?).
    pose proof (heap_disjoint (HeapLaws := mem_heap_laws) h' bl a n' b m' HR Hn' Hm' Hne). lia.
  - intros ->. rewrite dom_empty_L in Hd. apply dom_empty_inv_L in Hd as ->.
    destruct HR as (l & HR & El). rewrite <- (all_free h' l HR); [done|].
    destruct (allocs (ram h') l) as [|[a n] r]; [done|]. cbn [list_to_map foldr] in El.
    symmetry in El. by apply insert_non_empty in El.
Qed.

Lemma heap_blocks_disjoint_witness :
  exists h h1 h2 h3, mem_init 0x08001001 (mk_ram 0 ∅ 0) = Ok (tt, h) /\
    mem_malloc 1214 h = Ok (Some 0x08001010, h1) /\ mem_malloc 50 h1 = Ok (Some 0x080014DC, h2) /\
    mem_free 0x08001010 h2 = Ok (tt, h3) /\
    (exists h4, mem_free 0x080014DC h3 = Ok (tt, h4)).
Proof.
  do 4 eexists. do 4 (split; [by vm_compute|]).
  eapply (heap_blocks_disjoint 0x08001001 (mk_ram 0 ∅ 0) _ _ {[0x080014DC := 50]}); [lia|by vm_compute| |done].
  eapply rtc_l; [eapply (step_malloc 1214); [lia|by vm_compute]|].
  eapply rtc_l; [eapply (step_malloc 50); [lia|by vm_compute]|].
  eapply rtc_l; [eapply (step_free 0x08001010 1214); [done|by vm_compute]|].
  apply rtc_refl.
Defined.

(** The last block of the heap cannot be trimmed: when enough would be
    cut off to make a block, [mem_trim] runs into its own assertion on
    [mem->next] and the processor stops. *)
Theorem mem_trim_last_block_stops h l1 sz new_size :
  rep h (l1 ++ [(sz, true)]) -> 0 < new_size < 4294967296 ->
  new_size <= block_size new_size -> block_size new_size + 24 <= sz - 12 ->
  mem_trim (ram h + total l1 + 12) new_size h = Fault AssertFailed.
Proof.
  intros HR Hnew Hn Hbig. pose proof (rep_tiles _ _ HR) as Ht.
  destruct (tiles_split _ _ _ _ Ht) as (pv1 & pv' & S1 & Hh & [Hb1 Hb2] & S2 & He & H0 & Hm & Htot & H2).
  cbn [fst snd Z.b2z total foldr] in *. destruct S2 as [_ Ee]. rewrite Ee in Hh.
  destruct (block_size_spec _ Hnew) as [?|(Hm4 & Hmin & Hle)]; [lia|].
  set (n := block_size new_size) in *.
  unfold mem_trim. fold n. rewrite (proj2 (Z.ltb_ge MEM_SIZE_ALIGNED n)), (proj2 (Z.ltb_ge n new_size)) by lia.
  cbn [orb]. hstep. hstep; [|apply andb_true_intro; split; [apply Z.leb_le|apply Z.ltb_lt]; lia].
  replace (ram h + total l1 + 12 - SIZEOF_STRUCT_MEM - ram h) with (total l1) by clia.
  hstep. replace (u32 (u32 (MEM_SIZE_ALIGNED - total l1) - SIZEOF_STRUCT_MEM)) with (sz - 12).
  2: { rewrite !u32_small by (unfold is_u32; rewrite ?u32_small by (unfold is_u32; clia); clia). clia. }
  hstep; [|apply Z.leb_le; lia]. rewrite (proj2 (Z.eqb_neq _ _)) by lia.
  unfold trim_block. cbn [next]. unfold mbind, io_bind, outcome_bind.
  rewrite (ptr_to_mem_ok _ _ _ He). cbn [used Z.eqb].
  change (n + SIZEOF_STRUCT_MEM + MIN_SIZE_ALIGNED) with (n + 12 + 12).
  rewrite (proj2 (Z.leb_le _ _)) by lia. done.
Qed.

Lemma mem_trim_last_block_stops_witness :
  exists h, mem_malloc 262132 heap0 = Ok (Some 0x08001010, h) /\
    mem_trim 0x08001010 1214 h = Fault AssertFailed.
Proof.
  destruct heap0_rep as [HR Hram].
  destruct (mem_malloc_spec heap0 _ 262132 HR) as [[E _]|(l1 & sz & l2 & h & El & _ & Hle & E & Hr & HR')];
    [lia|by vm_compute in E|].
  assert (Hl : l1 = [] /\ sz = 262144 /\ l2 = []).
  { destruct l1 as [|? [|]]; simplify_eq/=; done. }
  destruct Hl as (-> & -> & ->). exists h. rewrite Hram in *. split; [exact E|].
  replace 0x08001010 with (ram h + total [] + 12) by by rewrite Hr.
  apply (mem_trim_last_block_stops h [] 262144 1214); [exact HR'|lia|by vm_compute..].
Defined.
