(* ===== verification/Memp.v ===== *)
(** The fixed-size pools of lwIP: src/lwip/src/core/memp.c.

    The free elements of a pool form a list linked through their own first
    words, which belong to the client while an element is allocated. Built
    with MEMP_MEM_MALLOC, MEMP_OVERFLOW_CHECK, MEMP_SANITY_CHECK and the
    statistics off, as in lwipopts.h; MEMP_SIZE is then 0. The interrupt
    protection around the list operations makes each of them one step. *)

From Stdlib Require Import ZArith Lia.
From stdpp Require Import base list numbers gmap sets relations.
From S2P Require Import Prelude.

Open Scope Z_scope.

Definition MEM_ALIGNMENT : Z := 4.
Definition MEMP_SIZE : Z := 0.

(** [LWIP_MEM_ALIGN]. *)
Definition LWIP_MEM_ALIGN (addr : Z) : Z :=
  Z.land (addr + MEM_ALIGNMENT - 1) (Z.lnot (MEM_ALIGNMENT - 1)).

Record memp_desc := mk_desc { size : Z; num : nat; base : Z }.

(** The state of a pool: [*desc->tab] (0 is NULL) and the words at the
    elements' addresses. *)
Record pool := mk_pool { tab : Z; words : gmap Z Z }.

Definition next (p : pool) (a : Z) : outcome Z :=
  match words p !! a with Some n => Ok n | None => Fault OutOfBounds end.

(** [a->next = n]. *)
Definition set_next (a n : Z) (p : pool) : pool := mk_pool (tab p) (<[a := n]> (words p)).

Fixpoint init_elements (n : nat) (desc : memp_desc) (memp : Z) (p : pool) : pool :=
  match n with
  | O => p
  | S n =>
      let p := set_next memp (tab p) p in
      let p := mk_pool memp (words p) in
      init_elements n desc (memp + MEMP_SIZE + size desc) p
  end.

Definition memp_init_pool (desc : memp_desc) (p : pool) : pool :=
  init_elements (num desc) desc (LWIP_MEM_ALIGN (base desc)) (mk_pool 0 (words p)).

Definition do_memp_malloc_pool (p : pool) : outcome (option Z * pool) :=
  let memp := tab p in
  if memp =? 0 then mret (None, p)
  else
    n ← next p memp;
    let p := mk_pool n (words p) in
    _ ← lwip_assert (memp mod MEM_ALIGNMENT =? 0);
    mret (Some (memp + MEMP_SIZE), p).

Definition do_memp_free_pool (mem : Z) (p : pool) : outcome pool :=
  _ ← lwip_assert (mem mod MEM_ALIGNMENT =? 0);
  let memp := mem - MEMP_SIZE in
  mret (mk_pool memp (words (set_next memp (tab p) p))).

(** [memp_malloc] and [memp_free] of one pool; NULL is [None]. *)
Definition memp_malloc (p : pool) : outcome (option Z * pool) := do_memp_malloc_pool p.

Definition memp_free (mem : option Z) (p : pool) : outcome pool :=
  match mem with None => mret p | Some mem => do_memp_free_pool mem p end.

(* ------------------------------------------------------------------ *)
(** * The interface of a pool *)

(** What the other components use of a pool, and what they rely on: [free l]
    says that the pool's free elements are [l], most recently freed first. *)
Class PoolOps (PS : Type) := {
  pool_malloc : PS -> outcome (option Z * PS);
  pool_free : Z -> PS -> outcome PS
}.

Class PoolLaws (PS : Type) `{PoolOps PS} := {
  pool_elements : gset Z;
  pool_rep : PS -> list Z -> Prop;
  pool_rep_wf ps l : pool_rep ps l -> NoDup l /\ list_to_set l ⊆ pool_elements;
  pool_rep_addr ps l a : pool_rep ps l -> a ∈ pool_elements -> 0 < a /\ a mod MEM_ALIGNMENT = 0;
  pool_malloc_none ps : pool_rep ps [] -> pool_malloc ps = Ok (None, ps);
  pool_malloc_some ps a l :
    pool_rep ps (a :: l) -> exists ps', pool_malloc ps = Ok (Some a, ps') /\ pool_rep ps' l;
  pool_free_ok ps a l :
    pool_rep ps l -> a ∈ pool_elements -> a ∉ l ->
    exists ps', pool_free a ps = Ok ps' /\ pool_rep ps' (a :: l)
}.

#[export] Instance memp_pool_ops : PoolOps pool := {|
  pool_malloc := memp_malloc;
  pool_free a := memp_free (Some a)
|}.

(* ------------------------------------------------------------------ *)
(** * The free list *)

(** [linked w a l]: the list from [a] through [w] is [l]. *)
Fixpoint linked (w : gmap Z Z) (a : Z) (l : list Z) : Prop :=
  match l with
  | [] => a = 0
  | b :: l => a = b /\ b <> 0 /\ exists n, w !! b = Some n /\ linked w n l
  end.

Definition element (a : Z) : Prop := 0 < a /\ a mod MEM_ALIGNMENT = 0.

Definition memp_rep (els : gset Z) (p : pool) (l : list Z) : Prop :=
  linked (words p) (tab p) l /\ NoDup l /\ list_to_set l ⊆ els /\ set_Forall element els.

Lemma linked_ext w w' a l :
  (forall b, b ∈ l -> w' !! b = w !! b) -> linked w a l -> linked w' a l.
Proof.
  revert a. induction l as [|b l IH]; intros a Hw; simpl; [done|].
  intros (-> & Hb & n & Hn & Hl). split_and!; [done|done|]. exists n.
  rewrite Hw by set_solver. split; [done|]. apply IH; [set_solver|done].
Qed.

Section Facts.
Variable els : gset Z.
Implicit Types p : pool.

Lemma memp_malloc_none p : memp_rep els p [] -> memp_malloc p = Ok (None, p).
Proof. intros (Hl & _). simpl in Hl. unfold memp_malloc, do_memp_malloc_pool. by rewrite Hl. Qed.

Lemma memp_malloc_some p a l :
  memp_rep els p (a :: l) -> exists p', memp_malloc p = Ok (Some a, p') /\ memp_rep els p' l.
Proof.
  intros ((Ha & Hne & n & Hn & Hl) & Hnd & Hsub & Hel). unfold memp_malloc, do_memp_malloc_pool.
  rewrite Ha, (proj2 (Z.eqb_neq a 0)) by done. unfold next. rewrite Hn. cbn [mbind outcome_bind].
  destruct (Hel a) as [_ Hal]; [set_solver|]. rewrite Hal. cbn [Z.eqb lwip_assert mbind outcome_bind].
  exists (mk_pool n (words p)). unfold MEMP_SIZE. rewrite Z.add_0_r. split; [done|].
  apply NoDup_cons in Hnd as [_ Hnd]. split_and!; [done|done|set_solver|done].
Qed.

Lemma memp_free_ok p a l :
  memp_rep els p l -> a ∈ els -> a ∉ l ->
  exists p', memp_free (Some a) p = Ok p' /\ memp_rep els p' (a :: l).
Proof.
  intros (Hl & Hnd & Hsub & Hel) Ha Hnin. unfold memp_free, do_memp_free_pool.
  destruct (Hel a Ha) as [Hpos Hal]. rewrite Hal. cbn [Z.eqb lwip_assert mbind outcome_bind].
  eexists. split; [done|]. unfold MEMP_SIZE. rewrite Z.sub_0_r. split_and!.
  - simpl. split_and!; [done|lia|]. exists (tab p). rewrite lookup_insert_eq. split; [done|].
    eapply linked_ext; [|done]. intros b Hb. by rewrite lookup_insert_ne by set_solver.
  - by apply NoDup_cons.
  - set_solver.
  - done.
Qed.

(** The client may write to an element it holds. *)
Lemma client_write p a v l : memp_rep els p l -> a ∉ l -> memp_rep els (set_next a v p) l.
Proof.
  intros (Hl & ?) Hnin. split; [|done]. eapply linked_ext; [|exact Hl].
  intros b Hb. simpl. by rewrite lookup_insert_ne by set_solver.
Qed.
End Facts.

(** The elements of a pool, in address order. *)
Definition elements_from (n : nat) (a sz : Z) : list Z := (fun i => a + i * sz) <$> seqZ 0 (Z.of_nat n).

Lemma elements_from_S n a sz : elements_from (S n) a sz = a :: elements_from n (a + sz) sz.
Proof.
  unfold elements_from. rewrite seqZ_cons by lia. replace (Z.pred (Z.of_nat (S n))) with (Z.of_nat n) by lia.
  replace (seqZ (Z.succ 0) (Z.of_nat n)) with (Z.add 1 <$> seqZ 0 (Z.of_nat n))
    by (rewrite fmap_add_seqZ; f_equal; lia).
  cbn [fmap list_fmap]. f_equal; [lia|].
  change (list_fmap Z Z) with (@fmap list _ Z Z). rewrite <- list_fmap_compose.
  apply list_fmap_ext. intros k i _. simpl. lia.
Qed.

Lemma elements_from_lt n a sz b : 0 < sz -> b ∈ elements_from n a sz -> a <= b.
Proof. intros Hs (i & -> & Hi%elem_of_seqZ)%list_elem_of_fmap. nia. Qed.

Lemma init_elements_linked n desc a p l :
  0 < size desc -> 0 < a -> linked (words p) (tab p) l ->
  (forall b, b ∈ l -> b < a) ->
  let p' := init_elements n desc a p in
  linked (words p') (tab p') (reverse (elements_from n a (size desc)) ++ l).
Proof.
  intros Hs. revert a p l. induction n as [|n IH]; intros a p l Ha Hl Hlt; [done|].
  cbn [init_elements]. rewrite elements_from_S. rewrite reverse_cons, <- app_assoc. cbn [app].
  unfold MEMP_SIZE. rewrite Z.add_0_r. apply IH; [lia| |].
  - simpl. split_and!; [done|lia|]. exists (tab p). rewrite lookup_insert_eq. split; [done|].
    eapply linked_ext; [|exact Hl]. intros b Hb%Hlt. by rewrite lookup_insert_ne by lia.
  - intros b [->|Hb%Hlt]%elem_of_cons; lia.
Qed.

(** A pool of the program: its description and the set of its elements. *)
Definition desc_ok (desc : memp_desc) : Prop :=
  0 < size desc /\ size desc mod MEM_ALIGNMENT = 0 /\ 0 < base desc.

Definition pool_els (desc : memp_desc) : list Z :=
  elements_from (num desc) (LWIP_MEM_ALIGN (base desc)) (size desc).

Lemma mem_align_spec a : LWIP_MEM_ALIGN a mod MEM_ALIGNMENT = 0 /\ a <= LWIP_MEM_ALIGN a < a + 4.
Proof.
  unfold LWIP_MEM_ALIGN, MEM_ALIGNMENT. replace (a + 4 - 1) with (a + 3) by lia.
  change (4 - 1) with 3. rewrite land_lnot_3. split; Z.div_mod_to_equations; lia.
Qed.

Lemma elements_from_nodup n a sz : 0 < sz -> NoDup (elements_from n a sz).
Proof. intros. apply NoDup_fmap_2_strong; [intros; nia|apply NoDup_seqZ]. Qed.

Lemma pool_els_element desc a : desc_ok desc -> a ∈ pool_els desc -> element a.
Proof.
  intros (Hs & Hm & Hb) (i & -> & Hi%elem_of_seqZ)%list_elem_of_fmap.
  destruct (mem_align_spec (base desc)) as [Hal Hr]. unfold element, MEM_ALIGNMENT in *.
  split; [nia|]. rewrite Z.add_mod, Z.mul_mod, Hal, Hm by lia. by rewrite Z.mul_0_r.
Qed.

Lemma init_rep desc p :
  desc_ok desc ->
  memp_rep (list_to_set (pool_els desc)) (memp_init_pool desc p) (reverse (pool_els desc)).
Proof.
  intros Hd. pose proof Hd as (Hs & _ & Hb). destruct (mem_align_spec (base desc)) as [_ Hr].
  split_and!.
  - rewrite <- (app_nil_r (reverse _)). apply init_elements_linked; [done|lia|done|].
    intros b Hb'. by apply not_elem_of_nil in Hb'.
  - rewrite reverse_Permutation. by apply elements_from_nodup.
  - intros a. rewrite !elem_of_list_to_set. by rewrite elem_of_reverse.
  - intros a Ha%elem_of_list_to_set. by eapply pool_els_element.
Qed.

(** [memp_malloc]/[memp_free] implement the interface. *)
#[export] Instance memp_pool_laws (els : gset Z) : PoolLaws pool | 10.
Proof.
  refine {| pool_elements := els; pool_rep := memp_rep els |}.
  - by intros ps l (_ & ? & ? & _).
  - intros ps l a (_ & _ & _ & He) Ha. by apply He.
  - apply memp_malloc_none.
  - apply memp_malloc_some.
  - apply memp_free_ok.
Defined.

(* ------------------------------------------------------------------ *)
(** * Properties *)

(** The clients of a pool: allocation, release of an element one holds, and
    writes to it. The second component is the list of the elements held. *)
Inductive pool_step (p : pool) (held : list Z) : pool -> list Z -> Prop :=
| step_malloc a p' :
    memp_malloc p = Ok (Some a, p') -> pool_step p held p' (a :: held)
| step_malloc_null p' :
    memp_malloc p = Ok (None, p') -> pool_step p held p' held
| step_free a h1 h2 p' :
    held = h1 ++ a :: h2 -> memp_free (Some a) p = Ok p' -> pool_step p held p' (h1 ++ h2)
| step_write a v : a ∈ held -> pool_step p held (set_next a v p) held.

Definition pstep (s s' : pool * list Z) : Prop := pool_step s.1 s.2 s'.1 s'.2.

Definition pool_inv (els : list Z) (s : pool * list Z) : Prop :=
  exists l, memp_rep (list_to_set els) s.1 l /\ l ++ s.2 ≡ₚ els.

Lemma pool_step_inv els s s' : NoDup els -> pstep s s' -> pool_inv els s -> pool_inv els s'.
Proof.
  destruct s as [p held], s' as [p' held']. unfold pstep, pool_inv. cbn [fst snd].
  intros Hnd Hs (l & HR & HP).
  destruct Hs as [a p' Hm|p' Hm|a h1 h2 p' -> Hf|a v Ha].
  - destruct l as [|b l]; [rewrite (memp_malloc_none _ _ HR) in Hm; congruence|].
    destruct (memp_malloc_some _ _ _ _ HR) as (p1 & E & HR1). rewrite E in Hm.
    injection Hm as -> ->. exists l. split; [done|]. rewrite <- HP. simpl. by rewrite Permutation_middle.
  - destruct l as [|b l].
    + rewrite (memp_malloc_none _ _ HR) in Hm. injection Hm as <-. by exists [].
    + destruct (memp_malloc_some _ _ _ _ HR) as (p1 & E & HR1). congruence.
  - assert (HP' : a :: (l ++ h1 ++ h2) ≡ₚ els) by (rewrite <- HP, <- !Permutation_middle; done).
    assert (Hn : NoDup (a :: (l ++ h1 ++ h2))) by (by rewrite HP').
    apply NoDup_cons in Hn as [Hn _].
    destruct (memp_free_ok _ p a l HR) as (p1 & E & HR1).
    { rewrite elem_of_list_to_set, <- HP'. by left. }
    { intros Hl. apply Hn, elem_of_app. by left. }
    rewrite E in Hf. injection Hf as ->. exists (a :: l). split; [done|]. by rewrite <- HP'.
  - exists l. split; [|done]. apply client_write; [done|]. intros Hl.
    rewrite <- HP in Hnd. apply NoDup_app in Hnd as (_ & Hd & _). by eapply Hd.
Qed.

(** C35: A pool neither loses nor invents elements. From [memp_init_pool], in
    every state its clients can reach by allocating, freeing what they hold
    and writing to what they hold, the free list and the elements held make up
    the pool's [num] elements, each once; [memp_malloc] then hands out an
    element nobody holds and returns NULL exactly when all are held, and
    freeing an element that is held does not fault. *)
Theorem pool_conservation desc p0 p held :
  desc_ok desc -> rtc pstep (memp_init_pool desc p0, []) (p, held) ->
  exists l, memp_rep (list_to_set (pool_els desc)) p l /\ l ++ held ≡ₚ pool_els desc /\
    (length l + length held = num desc)%nat /\
    ((exists p', memp_malloc p = Ok (None, p')) <-> length held = num desc) /\
    (forall a p', memp_malloc p = Ok (Some a, p') -> a ∈ pool_els desc /\ a ∉ held) /\
    (forall a, a ∈ held -> exists p', memp_free (Some a) p = Ok p').
Proof.
  intros Hd Hs. pose proof (init_rep desc p0 Hd) as HR0.
  assert (Hnd : NoDup (pool_els desc)) by (apply elements_from_nodup; apply Hd).
  assert (Hinv : pool_inv (pool_els desc) (p, held)).
  { assert (H0 : pool_inv (pool_els desc) (memp_init_pool desc p0, [])).
    { eexists. split; [exact HR0|]. rewrite app_nil_r. apply reverse_Permutation. }
    revert Hs H0. generalize (memp_init_pool desc p0, @nil Z). intros s Hs.
    induction Hs; eauto using pool_step_inv. }
  destruct Hinv as (l & HR & HP). cbn [fst snd] in HR, HP. exists l.
  assert (Hlen : (length l + length held = num desc)%nat).
  { rewrite <- length_app, HP. unfold pool_els, elements_from. rewrite length_fmap, length_seqZ. lia. }
  rewrite <- HP in Hnd. apply NoDup_app in Hnd as (_ & Hdis & _).
  split_and!; [done|done|done| | |].
  - destruct l as [|a l].
    + rewrite (memp_malloc_none _ _ HR). simpl in Hlen. split; [done|]. by eexists.
    + destruct (memp_malloc_some _ _ _ _ HR) as (p1 & E & _). rewrite E. simpl in Hlen.
      split; [by intros [? [=]]|lia].
  - intros a p'. destruct l as [|b l]; [by rewrite (memp_malloc_none _ _ HR)|].
    destruct (memp_malloc_some _ _ _ _ HR) as (p1 & E & _). rewrite E. intros [= -> ->].
    split; [rewrite <- HP; by left|apply Hdis; by left].
  - intros a Ha. destruct (memp_free_ok _ p a l HR) as (p1 & E & _); [| |by exists p1].
    + rewrite elem_of_list_to_set, <- HP. apply elem_of_app. by right.
    + intros Hl. by eapply Hdis.
Qed.

(** A pool of three elements of eight bytes; one is taken and written to. *)
Definition demo_desc : memp_desc := mk_desc 8 3 101.

Lemma pool_conservation_witness :
  exists p held l, memp_rep (list_to_set (pool_els demo_desc)) p l /\
    l ++ held ≡ₚ pool_els demo_desc /\ (length l + length held = 3)%nat.
Proof.
  set (p0 := memp_init_pool demo_desc (mk_pool 0 ∅)).
  destruct (memp_malloc p0) as [[[a|] p1]|] eqn:E; [|by vm_compute in E..].
  destruct (pool_conservation demo_desc (mk_pool 0 ∅) (set_next a 7 p1) [a]) as (l & HR & HP & Hl & _).
  - by vm_compute.
  - apply (rtc_l _ _ (p1, [a])); [exact (step_malloc p0 [] a p1 E)|].
    apply (rtc_l _ _ (set_next a 7 p1, [a])); [apply (step_write p1 [a] a 7); by left|].
    apply rtc_refl.
  - exists (set_next a 7 p1), [a], l. done.
Defined.
