(* ===== verification/Timeouts.v ===== *)
(** The timers of lwIP: src/lwip/src/core/timeouts.c.

    The list [next_timeout] is ordered by due time on a 32-bit millisecond
    clock that wraps around; its nodes come from the pool MEMP_SYS_TIMEOUT.
    The cyclic timers of this configuration are those of ND6 and MLD6. *)

From Stdlib Require Import ZArith Lia.
From stdpp Require Import base list numbers gmap sorting.
From S2P Require Import Prelude Memp.

Open Scope Z_scope.

Definition LWIP_MAX_TIMEOUT : Z := 0x7fffffff.
Definition LWIP_UINT32_MAX : Z := 0xffffffff.
Definition SYS_TIMEOUTS_SLEEPTIME_INFINITE : Z := 0xffffffff.

Definition TIME_LESS_THAN (t compare_to : Z) : bool :=
  LWIP_MAX_TIMEOUT <? u32 (t - compare_to).

(** [struct sys_timeo], with the address of its pool element. *)
Record sys_timeo := mk_timeo { t_elem : Z; time : Z; h : Z; arg : Z }.

#[export] Instance sys_timeo_eq_dec : EqDecision sys_timeo.
Proof. solve_decision. Defined.

(** [struct lwip_cyclic_timer]: the interval and the handler. *)
Record lwip_cyclic_timer_t := mk_cyclic { interval_ms : Z; handler : Z }.

Definition nd6_tmr : Z := 2.
Definition mld6_tmr : Z := 3.
Definition ND6_TMR_INTERVAL : Z := 1000.
Definition MLD6_TMR_INTERVAL : Z := 100.

Definition lwip_cyclic_timers : list lwip_cyclic_timer_t :=
  [mk_cyclic ND6_TMR_INTERVAL nd6_tmr; mk_cyclic MLD6_TMR_INTERVAL mld6_tmr].

(** The address of [lwip_cyclic_timer]. *)
Definition lwip_cyclic_timer_addr : Z := 1.

(** The state of the module: the list, the due time of the timer being
    handled, the pool and the rest of the program. *)
Record timers (PS W : Type) := mk_timers {
  next_timeout : list sys_timeo;
  current_timeout_due_time : Z;
  t_pool : PS;
  t_world : W
}.
Arguments mk_timers {PS W}.
Arguments next_timeout {PS W}.
Arguments current_timeout_due_time {PS W}.
Arguments t_pool {PS W}.
Arguments t_world {PS W}.

(** The walk behind the head: [timeout] goes in front of the first later
    timer. *)
Fixpoint insert_after (timeout t : sys_timeo) (rest : list sys_timeo) : list sys_timeo :=
  match rest with
  | [] => [t; timeout]
  | n :: rest' =>
      if TIME_LESS_THAN (time timeout) (time n) then t :: timeout :: rest
      else t :: insert_after timeout n rest'
  end.

Definition insert_timeout (timeout : sys_timeo) (l : list sys_timeo) : list sys_timeo :=
  match l with
  | [] => [timeout]
  | t :: rest =>
      if TIME_LESS_THAN (time timeout) (time t) then timeout :: l
      else insert_after timeout t rest
  end.

Section Module.
Context {PS W : Type} {PO : PoolOps PS}.
(** [sys_now()]. *)
Variable sys_now : W -> Z.
(** The handlers of other modules, by address. *)
Variable other_handler : Z -> Z -> timers PS W -> outcome (timers PS W).

Implicit Types s : timers PS W.

Definition sys_timeout_abs (abs_time handler a : Z) s : outcome (timers PS W) :=
  '(m, ps) ← pool_malloc (t_pool s);
  match m with
  | None => Fault AssertFailed
  | Some e =>
      mret (mk_timers (insert_timeout (mk_timeo e abs_time handler a) (next_timeout s))
              (current_timeout_due_time s) ps (t_world s))
  end.

Definition sys_timeout (msecs handler a : Z) s : outcome (timers PS W) :=
  _ ← lwip_assert (msecs <=? LWIP_UINT32_MAX / 4);
  sys_timeout_abs (u32 (sys_now (t_world s) + msecs)) handler a s.

Definition lwip_cyclic_timer (a : Z) s : outcome (timers PS W) :=
  cyclic ← rd lwip_cyclic_timers a;
  s ← other_handler (handler cyclic) 0 s;
  let now := sys_now (t_world s) in
  let next_timeout_time := u32 (current_timeout_due_time s + interval_ms cyclic) in
  if TIME_LESS_THAN next_timeout_time now
  then sys_timeout_abs (u32 (now + interval_ms cyclic)) lwip_cyclic_timer_addr a s
  else sys_timeout_abs next_timeout_time lwip_cyclic_timer_addr a s.

Fixpoint sys_timeouts_init_from (i : Z) (cs : list lwip_cyclic_timer_t) s : outcome (timers PS W) :=
  match cs with
  | [] => mret s
  | c :: cs =>
      s ← sys_timeout (interval_ms c) lwip_cyclic_timer_addr i s;
      sys_timeouts_init_from (i + 1) cs s
  end.

Definition sys_timeouts_init s : outcome (timers PS W) :=
  sys_timeouts_init_from 0 lwip_cyclic_timers s.

(** Unlinks the first timer for [handler] and [a]. *)
Fixpoint unlink (handler a : Z) (l : list sys_timeo) : option (sys_timeo * list sys_timeo) :=
  match l with
  | [] => None
  | t :: l =>
      if (h t =? handler) && (arg t =? a) then Some (t, l)
      else match unlink handler a l with Some (u, l) => Some (u, t :: l) | None => None end
  end.

Definition sys_untimeout (handler a : Z) s : outcome (timers PS W) :=
  match unlink handler a (next_timeout s) with
  | None => mret s
  | Some (t, l) =>
      ps ← pool_free (t_elem t) (t_pool s);
      mret (mk_timers l (current_timeout_due_time s) ps (t_world s))
  end.

Definition call_handler (handler a : Z) s : outcome (timers PS W) :=
  if handler =? 0 then mret s
  else if handler =? lwip_cyclic_timer_addr then lwip_cyclic_timer a s
  else other_handler handler a s.

(** Takes the timer at the head off the list and calls its handler. *)
Definition fire (t : sys_timeo) (rest : list sys_timeo) s : outcome (timers PS W) :=
  ps ← pool_free (t_elem t) (t_pool s);
  call_handler (h t) (arg t) (mk_timers rest (time t) ps (t_world s)).

Fixpoint check_loop (fuel : nat) (now : Z) s : outcome (timers PS W) :=
  match next_timeout s with
  | [] => mret s
  | t :: rest =>
      if TIME_LESS_THAN now (time t) then mret s
      else
        match fuel with
        | O => Fault Diverges
        | S fuel => s ← fire t rest s; check_loop fuel now s
        end
  end.

Definition sys_check_timeouts (fuel : nat) s : outcome (timers PS W) :=
  check_loop fuel (sys_now (t_world s)) s.

Definition sys_restart_timeouts s : timers PS W :=
  match next_timeout s with
  | [] => s
  | t :: _ =>
      let now := sys_now (t_world s) in
      let base := time t in
      mk_timers ((fun t => mk_timeo (t_elem t) (u32 (u32 (time t - base) + now)) (h t) (arg t))
                   <$> next_timeout s)
        (current_timeout_due_time s) (t_pool s) (t_world s)
  end.

Definition sys_timeouts_sleeptime s : outcome Z :=
  match next_timeout s with
  | [] => mret SYS_TIMEOUTS_SLEEPTIME_INFINITE
  | t :: _ =>
      let now := sys_now (t_world s) in
      if TIME_LESS_THAN (time t) now then mret 0
      else
        let ret := u32 (time t - now) in
        _ ← lwip_assert (ret <=? LWIP_MAX_TIMEOUT);
        mret ret
  end.
End Module.

(* ------------------------------------------------------------------ *)
(** * The order of the list *)

(** Times are compared by their distance from a base, and agree with the
    order of these distances while they are below half the range. *)
Definition off (base t : Z) : Z := u32 (t - base).
Definition in_window (base : Z) (t : sys_timeo) : Prop := off base (time t) < 2147483648.
Definition earlier (base : Z) (t u : sys_timeo) : Prop := off base (time t) <= off base (time u).

Definition ordered (base : Z) (l : list sys_timeo) : Prop :=
  Forall (in_window base) l /\ StronglySorted (earlier base) l.

Lemma off_range base t : 0 <= off base t < 4294967296.
Proof. apply u32_range. Qed.

Lemma time_less_than_off base t u :
  off base t < 2147483648 -> off base u < 2147483648 ->
  TIME_LESS_THAN t u = (off base t <? off base u).
Proof.
  pose proof (off_range base t). pose proof (off_range base u).
  intros Ht Hu. unfold TIME_LESS_THAN, LWIP_MAX_TIMEOUT.
  assert (E : u32 (t - u) = u32 (off base t - off base u)).
  { unfold off, u32. rewrite <- Zminus_mod. by replace (t - base - (u - base)) with (t - u) by lia. }
  rewrite E. unfold u32. destruct (Z.ltb_spec (off base t) (off base u)).
  - rewrite <- (Z.mod_add _ 1), Z.mod_small by lia. apply Z.ltb_lt. lia.
  - rewrite Z.mod_small by lia. apply Z.ltb_ge. lia.
Qed.

Lemma insert_after_eq t u l :
  TIME_LESS_THAN (time t) (time u) = false -> insert_after t u l = u :: insert_timeout t l.
Proof.
  revert u. induction l as [|x l IH]; intros u Hu; [done|]. simpl.
  destruct (TIME_LESS_THAN (time t) (time x)) eqn:E; [done|]. by rewrite IH.
Qed.

(** The new timer goes behind all that are not later. *)
Lemma insert_split base t l :
  in_window base t -> ordered base l ->
  exists l1 l2, l = l1 ++ l2 /\ insert_timeout t l = l1 ++ t :: l2 /\
    Forall (fun x => off base (time x) <= off base (time t)) l1 /\
    Forall (fun x => off base (time t) < off base (time x)) l2.
Proof.
  intros Ht [Hw Hs]. induction Hs as [|x l Hs IH Hx].
  { exists [], []. by repeat split. }
  apply Forall_cons in Hw as [Hwx Hw]. simpl.
  pose proof (time_less_than_off base (time t) (time x) Ht Hwx) as Hlt.
  destruct (Z.ltb_spec (off base (time t)) (off base (time x))).
  - rewrite Hlt. exists [], (x :: l). split_and!; [done|done|done|]. constructor; [done|].
    eapply Forall_impl; [exact Hx|]. intros y Hy. unfold earlier in Hy. lia.
  - rewrite Hlt. destruct (IH Hw) as (l1 & l2 & -> & E & H1 & H2).
    exists (x :: l1), l2. split_and!; [done| |by constructor|done].
    rewrite insert_after_eq by done. by rewrite E.
Qed.

Lemma sorted_app_insert base t l1 l2 :
  StronglySorted (earlier base) (l1 ++ l2) ->
  Forall (fun x => off base (time x) <= off base (time t)) l1 ->
  Forall (fun x => off base (time t) < off base (time x)) l2 ->
  StronglySorted (earlier base) (l1 ++ t :: l2).
Proof.
  induction l1 as [|x l1 IH]; simpl; intros Hs H1 H2.
  - constructor; [done|]. eapply Forall_impl; [exact H2|]. intros y Hy. unfold earlier. cbv beta in Hy. lia.
  - apply StronglySorted_inv in Hs as [Hs Hx]. apply Forall_cons in H1 as [Hxt H1].
    constructor; [by apply IH|]. apply Forall_app in Hx as [Hx1 Hx2].
    apply Forall_app. split; [done|]. by constructor.
Qed.

Lemma insert_ordered base t l :
  in_window base t -> ordered base l ->
  ordered base (insert_timeout t l) /\ insert_timeout t l ≡ₚ t :: l.
Proof.
  intros Ht Hl. destruct (insert_split base t l Ht Hl) as (l1 & l2 & -> & -> & H1 & H2).
  destruct Hl as [Hw Hs]. split.
  - split; [|by apply sorted_app_insert]. apply Forall_app in Hw as [Hw1 Hw2].
    apply Forall_app. split; [done|]. by constructor.
  - by rewrite Permutation_middle.
Qed.

(* ------------------------------------------------------------------ *)
(** * The pool *)

Section Invariant.
Context {PS W : Type} {PO : PoolOps PS} {PL : PoolLaws PS}.
Implicit Types s : timers PS W.

(** The list is ordered and its nodes are exactly the elements of the pool
    that are not free. *)
Record timers_ok (base : Z) (fl : list Z) s : Prop := {
  ok_ordered : ordered base (next_timeout s);
  ok_pool : pool_rep (t_pool s) fl;
  ok_nodup : NoDup (fl ++ (t_elem <$> next_timeout s));
  ok_elems : list_to_set (fl ++ (t_elem <$> next_timeout s)) = pool_elements
}.

Variable sys_now : W -> Z.

(** A new timer takes the element freed last. *)
Lemma timeout_abs_spec base e fl abs_time hd a s :
  timers_ok base (e :: fl) s -> off base abs_time < 2147483648 ->
  exists s', sys_timeout_abs abs_time hd a s = Ok s' /\
    next_timeout s' = insert_timeout (mk_timeo e abs_time hd a) (next_timeout s) /\
    current_timeout_due_time s' = current_timeout_due_time s /\ t_world s' = t_world s /\
    timers_ok base fl s'.
Proof using Type.
  intros [Hord Hp Hnd Hel] Ht. destruct (pool_malloc_some _ _ _ Hp) as (ps' & E & Hp').
  unfold sys_timeout_abs. rewrite E. cbn [mbind outcome_bind mret outcome_ret].
  eexists. split; [done|]. cbn [next_timeout current_timeout_due_time t_world t_pool].
  split_and!; try done.
  set (t := mk_timeo e abs_time hd a).
  destruct (insert_ordered base t (next_timeout s) Ht Hord) as [Hord' HP].
  assert (HP' : fl ++ (t_elem <$> insert_timeout t (next_timeout s)) ≡ₚ
                (e :: fl) ++ (t_elem <$> next_timeout s)).
  { rewrite HP. cbn [fmap list_fmap app t_elem t]. by rewrite Permutation_middle. }
  split; cbn [next_timeout t_pool]; [done|done|by rewrite HP'|].
  rewrite <- Hel. apply set_eq. intros x. rewrite !elem_of_list_to_set. by rewrite HP'.
Qed.

Lemma timeout_abs_empty base abs_time hd a s :
  timers_ok base [] s -> sys_timeout_abs abs_time hd a s = Fault AssertFailed.
Proof using Type.
  intros [_ Hp _ _]. unfold sys_timeout_abs. by rewrite (pool_malloc_none _ Hp).
Qed.

(** Taking a timer off and returning its node. *)
Lemma free_timer base fl l1 t l2 s due w :
  timers_ok base fl s -> next_timeout s = l1 ++ t :: l2 ->
  exists ps, pool_free (t_elem t) (t_pool s) = Ok ps /\
    timers_ok base (t_elem t :: fl) (mk_timers (l1 ++ l2) due ps w).
Proof using Type.
  intros [[Hw Hs] Hp Hnd Hel] El. rewrite El, fmap_app in *. cbn [fmap list_fmap] in *.
  assert (HP : fl ++ (t_elem <$> l1) ++ t_elem t :: (t_elem <$> l2) ≡ₚ
               (t_elem t :: fl) ++ (t_elem <$> (l1 ++ l2))).
  { rewrite fmap_app. cbn [app]. rewrite <- !Permutation_middle. done. }
  assert (Hnd' : NoDup ((t_elem t :: fl) ++ (t_elem <$> (l1 ++ l2)))) by (by rewrite <- HP).
  destruct (pool_free_ok (t_pool s) (t_elem t) fl Hp) as (ps & E & Hp').
  { rewrite <- Hel, elem_of_list_to_set, HP. by left. }
  { cbn [app] in Hnd'. apply NoDup_cons in Hnd' as [Hn _]. intros Hi. apply Hn, elem_of_app. by left. }
  exists ps. split; [done|]. split; cbn [next_timeout t_pool]; [|done|done|].
  - split.
    + apply Forall_app in Hw as [Hw1 Hw2]. apply Forall_cons in Hw2 as [_ Hw2]. by apply Forall_app.
    + clear -Hs. induction l1 as [|x l1 IH]; simpl in *; apply StronglySorted_inv in Hs as [Hs Hx]; [done|].
      constructor; [by apply IH|]. apply Forall_app in Hx as [Hx1 Hx2].
      apply Forall_cons in Hx2 as [_ Hx2]. by apply Forall_app.
  - rewrite <- Hel. apply set_eq. intros x. rewrite !elem_of_list_to_set. by rewrite HP.
Qed.

Lemma unlink_spec hd a l :
  match unlink hd a l with
  | Some (t, l') => exists l1 l2, l = l1 ++ t :: l2 /\ l' = l1 ++ l2 /\ h t = hd /\ arg t = a /\
      Forall (fun x => h x <> hd \/ arg x <> a) l1
  | None => Forall (fun x => h x <> hd \/ arg x <> a) l
  end.
Proof using Type.
  induction l as [|x l IH]; simpl; [done|].
  destruct (Z.eqb_spec (h x) hd), (Z.eqb_spec (arg x) a); simpl;
    [exists [], l; by repeat split|..];
    (destruct (unlink hd a l) as [[t l']|]; [destruct IH as (l1 & l2 & -> & -> & ? & ? & ?);
      exists (x :: l1), l2; split_and!; try done; constructor; auto|constructor; auto]).
Qed.
End Invariant.

(* ------------------------------------------------------------------ *)
(** * Running the expired timers *)

(** Whether [sys_check_timeouts] calls a timer at [now]. *)
Definition due (now : Z) (t : sys_timeo) : bool := negb (TIME_LESS_THAN now (time t)).

Section Check.
Context {PS W : Type} {PO : PoolOps PS} {PL : PoolLaws PS}.
Variable sys_now : W -> Z.
(** The handlers of other modules. *)
Variable other_handler : Z -> Z -> timers PS W -> outcome (timers PS W).
(** The time at which the check started, and the worlds the handlers may
    lead to: the clock advances by less than 2^29 ms (six days) during it. *)
Variable now : Z.
Variable Wok : W -> Prop.
Hypothesis Wok_now : forall w, Wok w -> 0 <= off now (sys_now w) < 536870912.
Implicit Types s : timers PS W.

(** What a handler may do with the timers, besides its own work: start some,
    itself among them, that are due later than at once, and stop some, other
    than the cyclic ones. *)
Inductive timer_step : timers PS W -> timers PS W -> Prop :=
| ts_work s w : Wok w -> timer_step s (mk_timers (next_timeout s) (current_timeout_due_time s) (t_pool s) w)
| ts_timeout s msecs hd a s' : 0 < msecs <= 536870912 -> hd <> lwip_cyclic_timer_addr ->
    sys_timeout sys_now msecs hd a s = Ok s' -> timer_step s s'
| ts_untimeout s hd a s' : hd <> lwip_cyclic_timer_addr -> sys_untimeout hd a s = Ok s' -> timer_step s s'.

(** The base of the window: 2^30 ms before [now]. *)
Definition check_base : Z := now - 1073741824.

(** The timers of this configuration: the cyclic ones and those of other
    modules. *)
Definition known (t : sys_timeo) : Prop :=
  h t = lwip_cyclic_timer_addr -> arg t = 0 \/ arg t = 1.

Definition is_cyclic (t : sys_timeo) : bool := h t =? lwip_cyclic_timer_addr.
Definition cyclic_args (l : list sys_timeo) : list Z := arg <$> filter is_cyclic l.

Definition check_inv (fl : list Z) s : Prop :=
  timers_ok check_base fl s /\ Forall known (next_timeout s) /\ Wok (t_world s).

(** How often a timer can still be called: a cyclic timer that is late by
    exactly its interval is due again at once. *)
Definition calls_left (t : sys_timeo) : nat :=
  let o := off check_base (time t) in
  if o <? 1073741824 then 2 else if o =? 1073741824 then 1 else 0.

Definition total_calls (l : list sys_timeo) : nat := sum_list (calls_left <$> l).

Lemma off_now : off check_base now = 1073741824.
Proof using Type. unfold off, check_base. by replace (now - (now - 1073741824)) with 1073741824 by lia. Qed.

Lemma off_add base t d :
  0 <= d -> off base t + d < 4294967296 -> off base (u32 (t + d)) = off base t + d.
Proof using Type.
  intros Hd Hb. pose proof (off_range base t). unfold off, u32 in *.
  rewrite Zminus_mod_idemp_l. replace (t + d - base) with (t - base + d) by lia.
  rewrite <- Zplus_mod_idemp_l. apply Z.mod_small. lia.
Qed.

Lemma off_shift w : Wok w -> off check_base (sys_now w) = 1073741824 + off now (sys_now w).
Proof using Wok_now.
  intros Hw. pose proof (Wok_now w Hw) as Hb. unfold off, check_base, u32 in *.
  replace (sys_now w - (now - 1073741824)) with (sys_now w - now + 1073741824) by lia.
  rewrite <- Zplus_mod_idemp_l, Z.mod_small by lia. lia.
Qed.

Lemma due_off t : in_window check_base t -> due now t = (off check_base (time t) <=? 1073741824).
Proof using Type.
  intros Ht. unfold due. rewrite (time_less_than_off check_base) by (rewrite ?off_now; done || lia).
  rewrite off_now. rewrite Z.leb_antisym. done.
Qed.

Lemma total_insert t l : ordered check_base l -> in_window check_base t ->
  total_calls (insert_timeout t l) = (calls_left t + total_calls l)%nat.
Proof using Type.
  intros Hl Ht. destruct (insert_ordered check_base t l Ht Hl) as [_ HP].
  unfold total_calls. by rewrite HP.
Qed.

(** The handlers do no more than that, or stop the program. *)
Definition handler_safe : Prop := forall hd a fl s, check_inv fl s ->
  match other_handler hd a s with Ok s' => rtc timer_step s s' | Fault e => e <> Diverges end.
(** When the pool has a node they return, and those of the cyclic timers leave
    one. *)
Definition handler_total : Prop := forall hd a fl s, check_inv fl s -> fl <> [] ->
  exists s', other_handler hd a s = Ok s' /\ (hd = nd6_tmr \/ hd = mld6_tmr -> ~ pool_rep (t_pool s') []).

(** The timers behind a handler: ordered, none due that was not due before,
    the cyclic ones as before. *)
Definition later_timers s s' : Prop :=
  current_timeout_due_time s' = current_timeout_due_time s /\
  (total_calls (next_timeout s') <= total_calls (next_timeout s))%nat /\
  cyclic_args (next_timeout s') ≡ₚ cyclic_args (next_timeout s).

#[local] Instance later_timers_preorder : PreOrder later_timers.
Proof using Type.
  split; [by intros s|]. intros s1 s2 s3 (H1 & H2 & H3) (H4 & H5 & H6). split_and!; [congruence|lia|by rewrite H6].
Qed.

Lemma not_cyclic t : h t <> lwip_cyclic_timer_addr -> ~ is_cyclic t.
Proof using Type. intros Hne Hc. by apply Is_true_eq_true, Z.eqb_eq in Hc. Qed.

Lemma timer_step_ok fl s s' : check_inv fl s -> timer_step s s' -> exists fl', check_inv fl' s' /\ later_timers s s'.
Proof using Wok_now.
  intros (Hok & Hk & Hw) Hs. destruct Hs as [s w Hw'|s msecs hd a s' Hm Hne E|s hd a s' Hne E].
  - exists fl. split; [|done]. split; [by destruct Hok|]. by split.
  - unfold sys_timeout in E. change (LWIP_UINT32_MAX / 4) with 0x3fffffff in E. rewrite (proj2 (Z.leb_le msecs _)) in E by lia.
    cbn [lwip_assert mbind outcome_bind] in E. pose proof (Wok_now _ Hw) as Hn. pose proof (off_shift _ Hw) as Hsh.
    assert (Ho : off check_base (u32 (sys_now (t_world s) + msecs)) = off check_base (sys_now (t_world s)) + msecs) by (apply off_add; lia).
    destruct fl as [|e fl]; [by rewrite (timeout_abs_empty _ _ _ _ _ Hok) in E|].
    destruct (timeout_abs_spec check_base e fl (u32 (sys_now (t_world s) + msecs)) hd a s Hok) as (s1 & E1 & El & Ed & Ew & Hok1); [lia|].
    rewrite E1 in E. injection E as <-. set (t := mk_timeo e _ hd a) in *.
    assert (Hwt : in_window check_base t) by (unfold in_window; cbn [t time]; lia).
    destruct (insert_ordered check_base t _ Hwt (ok_ordered _ _ _ Hok)) as [_ HP].
    exists fl. split; [split; [done|]; rewrite Ew; split; [|done]|split; [done|]].
    + rewrite El, HP. constructor; [|done]. intros E0. by destruct Hne.
    + rewrite El, total_insert by (done || apply Hok). split.
      * enough (calls_left t = 0%nat) by lia. unfold calls_left. cbn [t time]. rewrite Ho. zcase; lia.
      * unfold cyclic_args. rewrite HP, filter_cons_False; [done|]. by apply not_cyclic.
  - unfold sys_untimeout in E. pose proof (unlink_spec hd a (next_timeout s)) as Hu.
    destruct (unlink hd a (next_timeout s)) as [[t l]|]; [|injection E as <-; by exists fl].
    destruct Hu as (l1 & l2 & El & -> & Hh & _). destruct (free_timer check_base fl l1 t l2 s (current_timeout_due_time s) (t_world s) Hok El)
      as (ps & Ef & Hok1).
    rewrite Ef in E. cbn [mbind outcome_bind] in E. injection E as <-. exists (t_elem t :: fl). rewrite El in Hk.
    apply Forall_app in Hk as [Hk1 [_ Hk2]%Forall_cons]. split; [split; [done|]; split; [by apply Forall_app|done]|].
    unfold later_timers. cbn [next_timeout current_timeout_due_time]. rewrite El. split; [done|]. split.
    + unfold total_calls. rewrite <- (Permutation_middle l1 l2 t). cbn [fmap list_fmap sum_list]. lia.
    + unfold cyclic_args. rewrite <- (Permutation_middle l1 l2 t), filter_cons_False; [done|]. apply not_cyclic. congruence.
Qed.

Lemma timer_steps_ok fl s s' : check_inv fl s -> rtc timer_step s s' -> exists fl', check_inv fl' s' /\ later_timers s s'.
Proof using Wok_now.
  intros Hi Hs. revert fl Hi. induction Hs as [s|s s1 s' Hs _ IH]; intros fl Hi; [by exists fl|].
  destruct (timer_step_ok fl s s1 Hi Hs) as (fl1 & Hi1 & Hl1). destruct (IH fl1 Hi1) as (fl2 & Hi2 & Hl2).
  exists fl2. split; [done|]. by etransitivity.
Qed.

(** Re-arming a cyclic timer: it keeps its rhythm unless the next due time
    has passed already, and is then due an interval from now. *)
Lemma cyclic_rearm c a e fl s :
  rd lwip_cyclic_timers a = Ok c -> timers_ok check_base (e :: fl) s -> Wok (t_world s) ->
  off check_base (current_timeout_due_time s) <= 1073741824 ->
  let d := current_timeout_due_time s in
  let next_timeout_time := u32 (d + interval_ms c) in
  exists s' abs,
    (if TIME_LESS_THAN next_timeout_time (sys_now (t_world s))
     then sys_timeout_abs (u32 (sys_now (t_world s) + interval_ms c)) lwip_cyclic_timer_addr a s
     else sys_timeout_abs next_timeout_time lwip_cyclic_timer_addr a s) = Ok s' /\
    next_timeout s' = insert_timeout (mk_timeo e abs lwip_cyclic_timer_addr a) (next_timeout s) /\
    t_world s' = t_world s /\ timers_ok check_base fl s' /\
    off check_base abs =
      (if off check_base d + interval_ms c <? off check_base (sys_now (t_world s))
       then off check_base (sys_now (t_world s)) + interval_ms c else off check_base d + interval_ms c) /\
    1073741824 <= off check_base (sys_now (t_world s)) /\ off check_base abs < 2147483648 /\
    0 < interval_ms c.
Proof using Wok_now.
  intros Hc Hok Hw Hd d nt. fold d in Hd. pose proof (off_range check_base d) as Hd0.
  assert (HI : 0 < interval_ms c <= 1000).
  { unfold rd, lwip_cyclic_timers in Hc. destruct (a <? 0); [done|].
    destruct (Z.to_nat a) as [|[|k]]; simpl in Hc; [injection Hc as <-|injection Hc as <-|];
      try (unfold interval_ms, ND6_TMR_INTERVAL, MLD6_TMR_INTERVAL; lia).
    done. }
  pose proof (off_shift _ Hw) as Hn. pose proof (Wok_now _ Hw) as Hn'. set (w := t_world s) in *.
  assert (Ho1 : off check_base nt = off check_base d + interval_ms c).
  { apply off_add; lia. }
  rewrite (time_less_than_off check_base) by lia. rewrite Ho1.
  destruct (Z.ltb_spec (off check_base d + interval_ms c) (off check_base (sys_now w))).
  - assert (Ho2 : off check_base (u32 (sys_now w + interval_ms c)) =
      off check_base (sys_now w) + interval_ms c) by (apply off_add; lia).
    destruct (timeout_abs_spec check_base e fl (u32 (sys_now w + interval_ms c))
      lwip_cyclic_timer_addr a _ Hok) as (s' & E & El & _ & Ew & Ho); [lia|].
    exists s', (u32 (sys_now w + interval_ms c)). split_and!; try done; lia.
  - destruct (timeout_abs_spec check_base e fl nt lwip_cyclic_timer_addr a _ Hok) as (s' & E & El & _ & Ew & Ho); [lia|].
    exists s', nt. split_and!; try done; lia.
Qed.

Lemma cyclic_entry a : a = 0 \/ a = 1 ->
  exists c, rd lwip_cyclic_timers a = Ok c /\ (handler c = nd6_tmr \/ handler c = mld6_tmr).
Proof using Type. intros [-> | ->]; eexists; (split; [done|]); [by left|by right]. Qed.

(** What is left behind the call of a due timer. *)
Definition fired (t : sys_timeo) (rest : list sys_timeo) (r : outcome (timers PS W)) : Prop :=
  match r with
  | Ok s' => exists fl', check_inv fl' s' /\ (total_calls (next_timeout s') < total_calls (t :: rest))%nat /\
      cyclic_args (next_timeout s') ≡ₚ cyclic_args (t :: rest)
  | Fault e => e <> Diverges /\ ~ handler_total
  end.

Lemma cyclic_fire t rest fl s :
  handler_safe -> check_inv fl s -> next_timeout s = t :: rest -> due now t = true -> is_cyclic t = true ->
  fired t rest (fire sys_now other_handler t rest s).
Proof using Wok_now.
  intros Hsafe (Hok & Hk & Hw) El Hdue Hcy. pose proof Hok as [[Hwin _] _ _ _].
  rewrite El in Hwin, Hk. apply Forall_cons in Hwin as [Hwt Hwr]. apply Forall_cons in Hk as [Hkt Hkr].
  rewrite due_off in Hdue by done. apply Z.leb_le in Hdue. assert (Hcy' := Hcy).
  unfold is_cyclic in Hcy'. apply Z.eqb_eq in Hcy'.
  destruct (cyclic_entry (arg t) (Hkt Hcy')) as (c & Hc & Hnm).
  destruct (free_timer check_base fl [] t rest s (time t) (t_world s) Hok El) as (ps & Ef & Hok1). cbn [app] in *.
  assert (Hi1 : check_inv (t_elem t :: fl) (mk_timers rest (time t) ps (t_world s))) by by split.
  unfold fire. rewrite Ef. cbn [mbind outcome_bind]. unfold call_handler. rewrite Hcy'. cbn [Z.eqb Pos.eqb lwip_cyclic_timer_addr].
  unfold lwip_cyclic_timer. rewrite Hc. cbn [mbind outcome_bind].
  specialize (Hsafe (handler c) 0 _ _ Hi1). set (s1 := mk_timers rest (time t) ps (t_world s)) in *.
  assert (Htot : handler_total -> exists s', other_handler (handler c) 0 s1 = Ok s' /\ ~ pool_rep (t_pool s') []).
  { intros Ht. destruct (Ht (handler c) 0 _ _ Hi1) as (s' & E & Hn); [done|]. exists s'. split; [done|]. by apply Hn. }
  destruct (other_handler (handler c) 0 s1) as [s2|e]; cbn [mbind outcome_bind].
  2: { split; [done|]. intros Ht. by destruct (Htot Ht) as (? & ? & _). }
  destruct (timer_steps_ok _ _ _ Hi1 Hsafe) as (fl2 & (Hok2 & Hk2 & Hw2) & Hd & Htc & Hca). cbn [s1 next_timeout current_timeout_due_time] in Hd, Htc, Hca.
  destruct fl2 as [|e fl2].
  - assert (Hno : ~ handler_total).
    { intros Ht. destruct (Htot Ht) as (s' & [= <-] & Hn). apply Hn, Hok2. }
    destruct (TIME_LESS_THAN _ _); by rewrite (timeout_abs_empty _ _ _ _ _ Hok2).
  - destruct (cyclic_rearm c (arg t) e fl2 s2 Hc Hok2 Hw2) as (s3 & abs & E & El3 & Ew3 & Hok3 & Habs & Hnow & Hlt & HI); [by rewrite Hd|].
    rewrite E. exists fl2. set (t' := mk_timeo e abs lwip_cyclic_timer_addr (arg t)) in *.
    destruct (insert_ordered check_base t' _ Hlt (ok_ordered _ _ _ Hok2)) as [_ HP]. split; [split; [done|]|split].
    + rewrite Ew3. split; [|done]. rewrite El3, HP. constructor; [|done]. intros _. by apply Hkt.
    + rewrite El3, total_insert by (done || apply Hok2). change (total_calls (t :: rest)) with (calls_left t + total_calls rest)%nat.
      enough (calls_left t' < calls_left t)%nat by lia. unfold calls_left. cbn [time t']. rewrite Habs, Hd.
      pose proof (off_range check_base (time t)). zcase; lia.
    + unfold cyclic_args in *. rewrite El3, HP, !filter_cons, Hcy, decide_True by done. cbn. by rewrite Hca.
Qed.

(** Any other timer is gone when it is called. *)
Lemma other_fire t rest fl s :
  handler_safe -> check_inv fl s -> next_timeout s = t :: rest -> due now t = true -> is_cyclic t = false ->
  fired t rest (fire sys_now other_handler t rest s).
Proof using Wok_now.
  intros Hsafe (Hok & Hk & Hw) El Hdue Hcy. rewrite El in Hk. apply Forall_cons in Hk as [_ Hkr].
  destruct (free_timer check_base fl [] t rest s (time t) (t_world s) Hok El) as (ps & Ef & Hok1). cbn [app] in *.
  assert (Hi1 : check_inv (t_elem t :: fl) (mk_timers rest (time t) ps (t_world s))) by by split.
  assert (Hca : cyclic_args (t :: rest) = cyclic_args rest) by (unfold cyclic_args; by rewrite filter_cons, Hcy).
  assert (Hcl : (total_calls rest < total_calls (t :: rest))%nat).
  { change (total_calls (t :: rest)) with (calls_left t + total_calls rest)%nat. pose proof Hok as [[Hwin _] _ _ _].
    rewrite El in Hwin. apply Forall_cons in Hwin as [Hwt _]. rewrite due_off in Hdue by done. unfold calls_left. zcase; lia. }
  unfold fire. rewrite Ef. cbn [mbind outcome_bind]. unfold call_handler. unfold is_cyclic in Hcy. rewrite Hcy.
  destruct (h t =? 0); [by exists (t_elem t :: fl); rewrite Hca|].
  specialize (Hsafe (h t) (arg t) _ _ Hi1). set (s1 := mk_timers rest (time t) ps (t_world s)) in *.
  destruct (other_handler (h t) (arg t) s1) as [s2|e] eqn:Eo.
  - destruct (timer_steps_ok _ _ _ Hi1 Hsafe) as (fl2 & Hi2 & _ & Htc & Hc2). exists fl2. cbn [s1 next_timeout] in *.
    split; [done|]. split; [lia|]. by rewrite Hca.
  - split; [done|]. intros Ht. destruct (Ht (h t) (arg t) _ _ Hi1) as (s' & E & _); [done|]. congruence.
Qed.

Lemma calls_left_due t : in_window check_base t -> due now t = true -> (0 < calls_left t)%nat.
Proof using Type.
  intros Hw. rewrite due_off by done. unfold calls_left. zcase; lia.
Qed.

Lemma check_loop_spec fuel fl s :
  handler_safe -> check_inv fl s -> (total_calls (next_timeout s) <= fuel)%nat ->
  match check_loop sys_now other_handler fuel now s with
  | Ok s' => exists fl', check_inv fl' s' /\ Forall (fun t => due now t = false) (next_timeout s') /\
      cyclic_args (next_timeout s') ≡ₚ cyclic_args (next_timeout s)
  | Fault e => e <> Diverges /\ ~ handler_total
  end.
Proof using Wok_now.
  intros Hsafe. revert fl s. induction fuel as [|fuel IH]; intros fl s Hinv Hf; cbn [check_loop];
    destruct (next_timeout s) as [|t rest] eqn:El;
    try (exists fl; rewrite El; split; [done|]; split; [constructor|done]).
  all: pose proof Hinv as ([[Hwin Hso] _ _ _] & _ & _); rewrite El in Hwin, Hso;
    pose proof Hwin as Hwin'; apply Forall_cons in Hwin' as [Hwt Hwr];
    destruct (due now t) eqn:Hdue; pose proof Hdue as Hdue'; unfold due in Hdue';
    [apply negb_true_iff in Hdue'|apply negb_false_iff in Hdue']; rewrite Hdue'.
  1: { pose proof (calls_left_due t Hwt Hdue). unfold total_calls in Hf. simpl in Hf. lia. }
  1, 3: exists fl; rewrite El; split_and!; try done;
    apply StronglySorted_inv in Hso as [_ Hx]; constructor; [done|];
    apply Forall_forall; intros u Hu; rewrite Forall_forall in Hx, Hwr;
    specialize (Hx u Hu); specialize (Hwr u Hu); rewrite due_off in Hdue by done;
    rewrite due_off by done; unfold earlier in Hx; lia.
  assert (Hfi : fired t rest (fire sys_now other_handler t rest s)).
  { destruct (is_cyclic t) eqn:Hcy; [by eapply cyclic_fire|by eapply other_fire]. }
  unfold fired in Hfi. destruct (fire sys_now other_handler t rest s) as [s1|e]; [|done]. cbn [mbind outcome_bind].
  destruct Hfi as (fl1 & Hi1 & Hlt & Hc1). specialize (IH fl1 s1 Hi1 ltac:(lia)).
  destruct (check_loop _ _ _ _ _) as [s2|e]; [|done]. destruct IH as (fl2 & Hi2 & Hnd & Hc2). exists fl2. by rewrite Hc2.
Qed.
End Check.

(* ------------------------------------------------------------------ *)
(** * Properties *)

(** [sys_timeout] keeps the list ordered on the wrapping clock, timers
    that are due at the same time in the order in which they were started:
    the new timer stands behind all that are not later. Its node comes from
    the pool, and an empty pool stops the program at the assertion. *)
Theorem sys_timeout_orders {PS W} {PO : PoolOps PS} {PL : PoolLaws PS} (sys_now : W -> Z)
    base fl msecs hd a (s : timers PS W) :
  timers_ok base fl s -> 0 <= msecs <= 0x3fffffff ->
  off base (sys_now (t_world s)) + msecs < 2147483648 ->
  match fl with
  | [] => sys_timeout sys_now msecs hd a s = Fault AssertFailed
  | e :: fl' =>
      exists s' t l1 l2, sys_timeout sys_now msecs hd a s = Ok s' /\ timers_ok base fl' s' /\
        t = mk_timeo e (u32 (sys_now (t_world s) + msecs)) hd a /\
        off base (time t) = off base (sys_now (t_world s)) + msecs /\
        next_timeout s = l1 ++ l2 /\ next_timeout s' = l1 ++ t :: l2 /\
        Forall (fun x => off base (time x) <= off base (time t)) l1 /\
        Forall (fun x => off base (time t) < off base (time x)) l2
  end.
Proof.
  intros Hok Hm Hw. unfold sys_timeout. change (LWIP_UINT32_MAX / 4) with 0x3fffffff.
  rewrite (proj2 (Z.leb_le msecs _)) by lia. cbn [lwip_assert mbind outcome_bind].
  pose proof (off_range base (sys_now (t_world s))).
  assert (Ho : off base (u32 (sys_now (t_world s) + msecs)) = off base (sys_now (t_world s)) + msecs)
    by (apply off_add; lia).
  destruct fl as [|e fl']; [by eapply timeout_abs_empty|].
  destruct (timeout_abs_spec base e fl' (u32 (sys_now (t_world s) + msecs)) hd a s Hok)
    as (s' & E & El & _ & _ & Hok'); [lia|].
  destruct (insert_split base (mk_timeo e (u32 (sys_now (t_world s) + msecs)) hd a) (next_timeout s))
    as (l1 & l2 & E1 & E2 & H1 & H2); [unfold in_window; cbn [time]; lia|by destruct Hok|].
  exists s', (mk_timeo e (u32 (sys_now (t_world s) + msecs)) hd a), l1, l2.
  split_and!; try done. by rewrite El.
Qed.

(** The pool MEMP_SYS_TIMEOUT, eight nodes, and a module without timers. *)
Definition timeo_desc : memp_desc := mk_desc 16 8 0x1001.
Definition timeo_pool : pool := memp_init_pool timeo_desc (mk_pool 0 ∅).
Definition timeo_els : list Z := pool_els timeo_desc.
Definition no_timers : timers pool Z := mk_timers [] 0 timeo_pool 0xFFFFFFF0.

Lemma no_timers_ok base :
  timers_ok (PL := memp_pool_laws (list_to_set timeo_els)) base (reverse timeo_els) no_timers.
Proof.
  assert (Hd : desc_ok timeo_desc) by by vm_compute.
  split; cbn [next_timeout no_timers t_pool fmap list_fmap].
  - split; constructor.
  - by apply init_rep.
  - rewrite app_nil_r, reverse_Permutation. apply elements_from_nodup. by vm_compute.
  - rewrite app_nil_r. change (list_to_set (reverse timeo_els) =@{gset Z} list_to_set timeo_els).
    by rewrite reverse_Permutation.
Qed.

Lemma sys_timeout_orders_witness :
  exists s' t l1 l2, sys_timeout (fun w => w) 100 7 0 no_timers = Ok s' /\
    timers_ok (PL := memp_pool_laws (list_to_set timeo_els)) 0xFFFFFF00 (tail (reverse timeo_els)) s' /\
    t = mk_timeo 0x1074 84 7 0 /\ off 0xFFFFFF00 (time t) = 240 + 100 /\
    [] = l1 ++ l2 /\ next_timeout s' = l1 ++ t :: l2 /\
    Forall (fun x => off 0xFFFFFF00 (time x) <= off 0xFFFFFF00 (time t)) l1 /\
    Forall (fun x => off 0xFFFFFF00 (time t) < off 0xFFFFFF00 (time x)) l2.
Proof.
  apply (sys_timeout_orders (PL := memp_pool_laws (list_to_set timeo_els)) (fun w => w) 0xFFFFFF00
    (reverse timeo_els) 100 7 0 no_timers (no_timers_ok 0xFFFFFF00)); [lia|by vm_compute].
Defined.

(** C34: [sys_check_timeouts] terminates, with handlers that start and stop
    timers: with the two cyclic timers of this configuration, and handlers of
    other modules that may re-arm themselves, start other timers to be due
    later than at once, and stop timers ([timer_step]), under a clock that
    advances during the check, at most two calls are made for each timer of the
    list as it was. It does not run for ever; when it returns, no timer is due
    at the time of the check, the list is ordered, every cyclic timer is armed
    again and no node of the pool is lost. It returns, unless a handler stops
    the program or leaves no node for a cyclic timer. *)
Theorem sys_check_timeouts_terminates {PS W} {PO : PoolOps PS} {PL : PoolLaws PS}
    (sys_now : W -> Z) (other_handler : Z -> Z -> timers PS W -> outcome (timers PS W)) (Wok : W -> Prop) fl (s : timers PS W) fuel :
  let now := sys_now (t_world s) in
  (forall w, Wok w -> 0 <= off now (sys_now w) < 536870912) ->
  handler_safe sys_now other_handler now Wok ->
  check_inv now Wok fl s -> (2 * length (next_timeout s) <= fuel)%nat ->
  match sys_check_timeouts sys_now other_handler fuel s with
  | Ok s' => exists fl', check_inv now Wok fl' s' /\ Forall (fun t => due now t = false) (next_timeout s') /\
      cyclic_args (next_timeout s') ≡ₚ cyclic_args (next_timeout s)
  | Fault e => e <> Diverges /\ ~ handler_total other_handler now Wok
  end.
Proof.
  intros now Hn Hsafe Hinv Hf. unfold sys_check_timeouts. fold now.
  apply (check_loop_spec sys_now other_handler now Wok Hn fuel fl s Hsafe Hinv).
  etrans; [|exact Hf]. unfold total_calls. clear.
  induction (next_timeout s) as [|t l IH]; [done|]. rewrite fmap_cons. cbn [sum_list].
  change (id (calls_left now t)) with (calls_left now t). assert (calls_left now t <= 2)%nat by (unfold calls_left; zcase). cbn [length]. lia.
Qed.

(** A handler that re-arms itself for 250 ms later, and others that do not
    touch the timers. *)
Definition rearming (hd a : Z) (s : timers pool Z) : outcome (timers pool Z) :=
  if hd =? 9 then sys_timeout (fun w => w) 250 9 a s else Ok s.
Definition still_clock (w : Z) : Prop := w = 0xFFFFFFF0.

Lemma rearming_safe : handler_safe (PL := memp_pool_laws (list_to_set timeo_els)) (fun w => w) rearming 0xFFFFFFF0 still_clock.
Proof.
  intros hd a fl s (Hok & _). unfold rearming. destruct (hd =? 9); [|reflexivity].
  destruct (sys_timeout (fun w => w) 250 9 a s) as [s'|e] eqn:E.
  - apply rtc_once. by apply (ts_timeout _ _ s 250 9 a s').
  - unfold sys_timeout in E. change (lwip_assert _) with (@Ok unit tt) in E. cbn [mbind outcome_bind] in E.
    unfold sys_timeout_abs in E. pose proof (ok_pool _ _ _ Hok) as Hp. destruct fl as [|x fl].
    + rewrite (pool_malloc_none _ Hp) in E. by injection E as <-.
    + destruct (pool_malloc_some _ _ _ Hp) as (ps & Ep & _). by rewrite Ep in E.
Qed.

(** The MLD6 timer, due 5 ms ago on a clock about to wrap around, and one that
    re-arms itself. *)
Lemma sys_check_timeouts_terminates_witness :
  exists s0 s1 s' fl', sys_timeout_abs 0xFFFFFFEB lwip_cyclic_timer_addr 1 no_timers = Ok s0 /\
    sys_timeout_abs 0xFFFFFFEC 9 0 s0 = Ok s1 /\
    sys_check_timeouts (fun w => w) rearming 4 s1 = Ok s' /\
    check_inv (PL := memp_pool_laws (list_to_set timeo_els)) 0xFFFFFFF0 still_clock fl' s' /\
    cyclic_args (next_timeout s') ≡ₚ [1] /\ length (next_timeout s') = 2%nat.
Proof.
  destruct (timeout_abs_spec (PL := memp_pool_laws (list_to_set timeo_els)) (check_base 0xFFFFFFF0)
    0x1074 (tail (reverse timeo_els)) 0xFFFFFFEB lwip_cyclic_timer_addr 1 no_timers
    (no_timers_ok _)) as (s0 & E & El & _ & Ew & Hok); [by vm_compute|].
  destruct (timeout_abs_spec (PL := memp_pool_laws (list_to_set timeo_els)) (check_base 0xFFFFFFF0)
    0x1064 (tail (tail (reverse timeo_els))) 0xFFFFFFEC 9 0 s0 Hok) as (s1 & E1 & El1 & _ & Ew1 & Hok1); [by vm_compute|].
  assert (Er : match sys_check_timeouts (fun w => w) rearming 4 s1 with Ok s' => length (next_timeout s') = 2%nat | _ => False end).
  { assert (Es : (s0 ← sys_timeout_abs 0xFFFFFFEB lwip_cyclic_timer_addr 1 no_timers; sys_timeout_abs 0xFFFFFFEC 9 0 s0) = Ok s1)
      by (rewrite E; exact E1).
    vm_compute in Es. injection Es as <-. vm_compute. reflexivity. }
  pose proof (sys_check_timeouts_terminates (PL := memp_pool_laws (list_to_set timeo_els))
    (fun w => w) rearming still_clock (tail (tail (reverse timeo_els))) s1 4) as T. cbv zeta in T. rewrite Ew1, Ew in T. cbn [no_timers t_world] in T.
  destruct (sys_check_timeouts (fun w => w) rearming 4 s1) as [s'|f] eqn:Ec; [|done].
  destruct T as (fl' & Hi & _ & HP).
  - by intros w ->.
  - apply rearming_safe.
  - split; [exact Hok1|]. rewrite Ew1, Ew, El1, El. split; [|done]. constructor; [by right|]. constructor; [done|constructor].
  - by rewrite El1, El.
  - rewrite El1, El in HP. exists s0, s1, s', fl'.
    split; [exact E|]. split; [exact E1|]. split; [exact Ec|]. split; [exact Hi|]. split; [exact HP|exact Er].
Defined.

(** [sys_untimeout] removes exactly the first timer with the handler and
    argument, returns its node to the pool and leaves the others in order;
    without such a timer nothing changes. *)
Theorem sys_untimeout_removes {PS W} {PO : PoolOps PS} {PL : PoolLaws PS}
    base fl hd a (s : timers PS W) :
  timers_ok base fl s ->
  (exists l1 t l2 s', next_timeout s = l1 ++ t :: l2 /\ h t = hd /\ arg t = a /\
     Forall (fun x => h x <> hd \/ arg x <> a) l1 /\ sys_untimeout hd a s = Ok s' /\
     next_timeout s' = l1 ++ l2 /\ timers_ok base (t_elem t :: fl) s') \/
  (Forall (fun x => h x <> hd \/ arg x <> a) (next_timeout s) /\ sys_untimeout hd a s = Ok s).
Proof.
  intros Hok. unfold sys_untimeout. pose proof (unlink_spec hd a (next_timeout s)) as Hu.
  destruct (unlink hd a (next_timeout s)) as [[t l]|]; [left|by right].
  destruct Hu as (l1 & l2 & El & -> & Hh & Ha & Hn).
  destruct (free_timer base fl l1 t l2 s (current_timeout_due_time s) (t_world s) Hok El)
    as (ps & E & Hok').
  rewrite E. cbn [mbind outcome_bind]. by exists l1, t, l2, (mk_timers (l1 ++ l2)
    (current_timeout_due_time s) ps (t_world s)).
Qed.

Lemma sys_untimeout_removes_witness :
  Forall (fun x => h x <> 7 \/ arg x <> 0) (next_timeout no_timers) /\
  sys_untimeout 7 0 no_timers = Ok no_timers.
Proof.
  destruct (sys_untimeout_removes (PL := memp_pool_laws (list_to_set timeo_els)) 0 (reverse timeo_els)
    7 0 no_timers (no_timers_ok 0)) as [(l1 & t & l2 & s' & E & _)|H]; [by destruct l1|exact H].
Defined.

(** [sys_timeouts_sleeptime] never trips its assertion and is exact: 0
    when the earliest timer is overdue, otherwise the milliseconds to the
    earliest timer, before which no timer of the list is due. *)
Theorem sleeptime_exact {PS W} {PO : PoolOps PS} (sys_now : W -> Z) base (s : timers PS W) t rest :
  let now := sys_now (t_world s) in
  ordered base (next_timeout s) -> next_timeout s = t :: rest -> off base now < 2147483648 ->
  exists ms, sys_timeouts_sleeptime sys_now s = Ok ms /\
    ms = Z.max 0 (off base (time t) - off base now) /\
    Forall (fun u => off base now + ms <= Z.max (off base now) (off base (time u))) (next_timeout s).
Proof.
  intros now [Hw Hs] El Hn. rewrite El in *. apply Forall_cons in Hw as [Hwt Hwr].
  pose proof (off_range base now). unfold sys_timeouts_sleeptime. rewrite El. fold now.
  rewrite (time_less_than_off base) by done. unfold in_window in Hwt.
  apply StronglySorted_inv in Hs as [_ Hx].
  assert (Hall : forall ms, ms = Z.max 0 (off base (time t) - off base now) ->
    Forall (fun u => off base now + ms <= Z.max (off base now) (off base (time u))) (t :: rest)).
  { intros ms ->. constructor; [lia|]. eapply Forall_impl; [exact Hx|].
    intros u Hu. unfold earlier in Hu. lia. }
  destruct (Z.ltb_spec (off base (time t)) (off base now)).
  - exists 0. split; [done|]. split; [lia|]. apply Hall. lia.
  - assert (E : u32 (time t - now) = off base (time t) - off base now).
    { unfold off, u32 in *. rewrite <- (Z.mod_small ((time t - base) mod 4294967296 - _) 4294967296) by lia.
      rewrite <- Zminus_mod. by replace (time t - base - (now - base)) with (time t - now) by lia. }
    rewrite E. unfold LWIP_MAX_TIMEOUT. rewrite (proj2 (Z.leb_le _ _)) by lia.
    eexists. split; [done|]. split; [lia|]. apply Hall. lia.
Qed.

Lemma sleeptime_exact_witness :
  exists ms, sys_timeouts_sleeptime (fun w => w)
      (mk_timers [mk_timeo 4 5 7 0; mk_timeo 8 9 7 1] 0 timeo_pool 0xFFFFFFF0) = Ok ms /\
    ms = Z.max 0 (off 0xFFFFFF00 5 - off 0xFFFFFF00 0xFFFFFFF0) /\
    Forall (fun u => off 0xFFFFFF00 0xFFFFFFF0 + ms <=
      Z.max (off 0xFFFFFF00 0xFFFFFFF0) (off 0xFFFFFF00 (time u)))
      [mk_timeo 4 5 7 0; mk_timeo 8 9 7 1].
Proof.
  apply (sleeptime_exact (fun w => w) 0xFFFFFF00
    (mk_timers [mk_timeo 4 5 7 0; mk_timeo 8 9 7 1] 0 timeo_pool 0xFFFFFFF0)
    (mk_timeo 4 5 7 0) [mk_timeo 8 9 7 1]).
  - split; [repeat constructor|]. repeat constructor. by vm_compute.
  - done.
  - by vm_compute.
Defined.
