(* ===== verification/Pbuf.v ===== *)
(** Packet buffers: core/pbuf.c and lwip/pbuf.h, without custom pbufs (IP
    fragmentation is off), TCP out-of-sequence data and checksum on copy.

    A pbuf is a header [struct pbuf] with a reference count, the start and
    length of its payload and the link to the next one of the chain. The
    headers live in a map keyed by their address, payload bytes in another;
    the MEMP_PBUF_POOL and MEMP_PBUF pools and the heap are used through
    their interfaces [PoolOps] and [HeapOps]. A freed header is gone from the
    map, so that a use after free is a fault. *)

From Stdlib Require Import ZArith Lia.
From stdpp Require Import base list numbers gmap sets.
From S2P Require Import Prelude Mmio Mem Memp.

Open Scope Z_scope.

(* ------------------------------------------------------------------ *)
(** * Constants *)

Definition PBUF_POOL_BUFSIZE : Z := 1400.
Definition PBUF_POOL_BUFSIZE_ALIGNED : Z := LWIP_MEM_ALIGN_SIZE PBUF_POOL_BUFSIZE.
(** Two pointers, two halfwords and four bytes. *)
Definition SIZEOF_STRUCT_PBUF : Z := LWIP_MEM_ALIGN_SIZE 16.

(** [pbuf_layer]. *)
Definition PBUF_TRANSPORT_HLEN : Z := 20.
Definition PBUF_IP_HLEN : Z := 40.
Definition PBUF_LINK_HLEN : Z := 14.
Definition PBUF_LINK_ENCAPSULATION_HLEN : Z := 0.
Definition PBUF_TRANSPORT : Z :=
  PBUF_LINK_ENCAPSULATION_HLEN + PBUF_LINK_HLEN + PBUF_IP_HLEN + PBUF_TRANSPORT_HLEN.
Definition PBUF_IP : Z := PBUF_LINK_ENCAPSULATION_HLEN + PBUF_LINK_HLEN + PBUF_IP_HLEN.
Definition PBUF_LINK : Z := PBUF_LINK_ENCAPSULATION_HLEN + PBUF_LINK_HLEN.
Definition PBUF_RAW_TX : Z := PBUF_LINK_ENCAPSULATION_HLEN.
Definition PBUF_RAW : Z := 0.

Definition PBUF_TYPE_FLAG_STRUCT_DATA_CONTIGUOUS : Z := 0x80.
Definition PBUF_TYPE_FLAG_DATA_VOLATILE : Z := 0x40.
Definition PBUF_TYPE_ALLOC_SRC_MASK : Z := 0x0F.
Definition PBUF_ALLOC_FLAG_RX : Z := 0x0100.
Definition PBUF_ALLOC_FLAG_DATA_CONTIGUOUS : Z := 0x0200.
Definition PBUF_TYPE_ALLOC_SRC_MASK_STD_HEAP : Z := 0x00.
Definition PBUF_TYPE_ALLOC_SRC_MASK_STD_MEMP_PBUF : Z := 0x01.
Definition PBUF_TYPE_ALLOC_SRC_MASK_STD_MEMP_PBUF_POOL : Z := 0x02.

(** [pbuf_type], its values in [pbuf_type_val]. *)
Inductive pbuf_type := PBUF_RAM | PBUF_ROM | PBUF_REF | PBUF_POOL.

Definition pbuf_type_val (t : pbuf_type) : Z :=
  match t with
  | PBUF_RAM => Z.lor (Z.lor PBUF_ALLOC_FLAG_DATA_CONTIGUOUS PBUF_TYPE_FLAG_STRUCT_DATA_CONTIGUOUS)
                  PBUF_TYPE_ALLOC_SRC_MASK_STD_HEAP
  | PBUF_ROM => PBUF_TYPE_ALLOC_SRC_MASK_STD_MEMP_PBUF
  | PBUF_REF => Z.lor PBUF_TYPE_FLAG_DATA_VOLATILE PBUF_TYPE_ALLOC_SRC_MASK_STD_MEMP_PBUF
  | PBUF_POOL => Z.lor (Z.lor PBUF_ALLOC_FLAG_RX PBUF_TYPE_FLAG_STRUCT_DATA_CONTIGUOUS)
                   PBUF_TYPE_ALLOC_SRC_MASK_STD_MEMP_PBUF_POOL
  end.

Definition NETIF_NO_INDEX : Z := 0.

Definition ERR_OK : Z := 0.
Definition ERR_MEM : Z := -1.
Definition ERR_VAL : Z := -6.
Definition ERR_ARG : Z := -16.

(* ------------------------------------------------------------------ *)
(** * State *)

Record pbuf := mk_pbuf {
  next : Z;
  payload : Z;
  tot_len : Z;
  len : Z;
  type_internal : Z;
  flags : Z;
  ref : Z;
  if_idx : Z
}.

#[export] Instance pbuf_eq_dec : EqDecision pbuf.
Proof. solve_decision. Defined.

Definition set_next (v : Z) (b : pbuf) : pbuf :=
  mk_pbuf v (payload b) (tot_len b) (len b) (type_internal b) (flags b) (ref b) (if_idx b).
Definition set_payload (v : Z) (b : pbuf) : pbuf :=
  mk_pbuf (next b) v (tot_len b) (len b) (type_internal b) (flags b) (ref b) (if_idx b).
Definition set_tot_len (v : Z) (b : pbuf) : pbuf :=
  mk_pbuf (next b) (payload b) (u16 v) (len b) (type_internal b) (flags b) (ref b) (if_idx b).
Definition set_len (v : Z) (b : pbuf) : pbuf :=
  mk_pbuf (next b) (payload b) (tot_len b) (u16 v) (type_internal b) (flags b) (ref b) (if_idx b).
Definition set_ref (v : Z) (b : pbuf) : pbuf :=
  mk_pbuf (next b) (payload b) (tot_len b) (len b) (type_internal b) (flags b) (u8 v) (if_idx b).

(** The pools and the heap, the pbuf headers by address (NULL is 0) and the
    bytes payloads may point to. *)
Record pheap (PP RP HP : Type) := mk_pheap {
  pool_st : PP;
  rom_st : RP;
  heap_st : HP;
  pbufs : gmap Z pbuf;
  bytes : gmap Z Z
}.
Arguments mk_pheap {PP RP HP}.
Arguments pool_st {PP RP HP}.
Arguments rom_st {PP RP HP}.
Arguments heap_st {PP RP HP}.
Arguments pbufs {PP RP HP}.
Arguments bytes {PP RP HP}.

(** [pbuf_get_allocsrc]. *)
Definition pbuf_get_allocsrc (b : pbuf) : Z := Z.land (type_internal b) PBUF_TYPE_ALLOC_SRC_MASK.
Definition pbuf_match_allocsrc (b : pbuf) (type : Z) : bool :=
  pbuf_get_allocsrc b =? Z.land type PBUF_TYPE_ALLOC_SRC_MASK.

(** Reading and writing bytes; an unmapped address is a fault. *)
Fixpoint load_bytes (m : gmap Z Z) (a : Z) (n : nat) : outcome (list Z) :=
  match n with
  | O => Ok []
  | S n =>
      match m !! a with
      | None => Fault OutOfBounds
      | Some x => l ← load_bytes m (a + 1) n; Ok (x :: l)
      end
  end.

Fixpoint store_bytes (m : gmap Z Z) (a : Z) (l : list Z) : outcome (gmap Z Z) :=
  match l with
  | [] => Ok m
  | x :: l =>
      match m !! a with
      | None => Fault OutOfBounds
      | Some _ => store_bytes (<[a := x]> m) (a + 1) l
      end
  end.

(** [p->...] on the headers. *)
Definition deref (m : gmap Z pbuf) (p : Z) : outcome pbuf :=
  match m !! p with Some b => Ok b | None => Fault NullPointer end.

(** The longest walk along [next] that can end: one that visits more headers
    than there are has met one twice. *)
Definition chain_fuel (m : gmap Z pbuf) : nat := S (stdpp.base.size m).

(* ------------------------------------------------------------------ *)
(** * Reading a chain *)

Fixpoint clen_loop (fuel : nat) (m : gmap Z pbuf) (p n : Z) : outcome Z :=
  if p =? 0 then Ok n
  else
    match fuel with
    | O => Fault Diverges
    | S fuel => b ← deref m p; clen_loop fuel m (next b) (u16 (n + 1))
    end.
Definition pbuf_clen (m : gmap Z pbuf) (p : Z) : outcome Z := clen_loop (chain_fuel m) m p 0.

Fixpoint skip_loop (fuel : nat) (m : gmap Z pbuf) (q offset_left : Z) : outcome (Z * Z) :=
  if q =? 0 then Ok (0, offset_left)
  else
    b ← deref m q;
    if len b <=? offset_left then
      match fuel with
      | O => Fault Diverges
      | S fuel => skip_loop fuel m (next b) (u16 (offset_left - len b))
      end
    else Ok (q, offset_left).
Definition pbuf_skip_const (m : gmap Z pbuf) (in_ in_offset : Z) : outcome (Z * Z) :=
  skip_loop (chain_fuel m) m in_ in_offset.
Definition pbuf_skip := pbuf_skip_const.

(** [pbuf_copy_partial]; the array [dataptr] points to is passed and
    returned, NULL is [None]. *)
Fixpoint copy_partial_loop (fuel : nat) (m : gmap Z pbuf) (bs : gmap Z Z)
    (p n offset left copied_total : Z) (dataptr : list Z) : outcome (Z * list Z) :=
  if negb (n =? 0) && negb (p =? 0) then
    b ← deref m p;
    match fuel with
    | O => Fault Diverges
    | S fuel =>
        if negb (offset =? 0) && (len b <=? offset) then
          copy_partial_loop fuel m bs (next b) n (u16 (offset - len b)) left copied_total dataptr
        else
          let buf_copy_len := u16 (len b - offset) in
          let buf_copy_len := if n <? buf_copy_len then n else buf_copy_len in
          l ← load_bytes bs (payload b + offset) (Z.to_nat buf_copy_len);
          dataptr ← wr_block dataptr left l;
          copy_partial_loop fuel m bs (next b) (u16 (n - buf_copy_len)) 0
            (u16 (left + buf_copy_len)) (u16 (copied_total + buf_copy_len)) dataptr
    end
  else Ok (copied_total, dataptr).
Definition pbuf_copy_partial (m : gmap Z pbuf) (bs : gmap Z Z) (buf : Z) (dataptr : option (list Z))
    (n offset : Z) : outcome (Z * option (list Z)) :=
  if buf =? 0 then Ok (0, dataptr)
  else
    match dataptr with
    | None => Ok (0, None)
    | Some data =>
        '(r, data) ← copy_partial_loop (chain_fuel m) m bs buf n offset 0 0 data;
        Ok (r, Some data)
    end.

(** [pbuf_get_contiguous]: NULL, the address inside the chain, or the buffer
    with the copied bytes. *)
Inductive contiguous := ContNull | ContPayload (a : Z) | ContBuffer (data : list Z).

Definition pbuf_get_contiguous (m : gmap Z pbuf) (bs : gmap Z Z) (p : Z) (buffer : option (list Z))
    (bufsize n offset : Z) : outcome contiguous :=
  if p =? 0 then Ok ContNull
  else
    match buffer with
    | None => Ok ContNull
    | Some data =>
        if bufsize <? n then Ok ContNull
        else
          '(q, out_offset) ← pbuf_skip_const m p offset;
          if q =? 0 then Ok ContNull
          else
            b ← deref m q;
            if out_offset + n <=? len b then Ok (ContPayload (payload b + out_offset))
            else
              '(r, data) ← pbuf_copy_partial m bs q (Some data) n out_offset;
              if negb (r =? n) then Ok ContNull
              else match data with Some data => Ok (ContBuffer data) | None => Ok ContNull end
    end.

Definition pbuf_try_get_at (m : gmap Z pbuf) (bs : gmap Z Z) (p offset : Z) : outcome Z :=
  '(q, q_idx) ← pbuf_skip_const m p offset;
  if q =? 0 then Ok (-1)
  else
    b ← deref m q;
    if q_idx <? len b then
      match bs !! (payload b + q_idx) with Some x => Ok x | None => Fault OutOfBounds end
    else Ok (-1).

Definition pbuf_get_at (m : gmap Z pbuf) (bs : gmap Z Z) (p offset : Z) : outcome Z :=
  r ← pbuf_try_get_at m bs p offset;
  Ok (if 0 <=? r then u8 r else 0).

(** [for (i = 0; i < n; i++)] of [pbuf_memcmp]; [k] is [n - i]. *)
Fixpoint memcmp_loop (k : nat) (m : gmap Z pbuf) (bs : gmap Z Z) (q start i : Z) (s2 : list Z) : outcome Z :=
  match k with
  | O => Ok 0
  | S k =>
      a ← pbuf_get_at m bs q (u16 (start + i));
      b ← rd s2 i;
      if negb (a =? b) then Ok (u16 (Z.min (i + 1) 0xFFFF))
      else memcmp_loop k m bs q start (i + 1) s2
  end.
Definition pbuf_memcmp (m : gmap Z pbuf) (bs : gmap Z Z) (p offset : Z) (s2 : list Z) (n : Z) : outcome Z :=
  b ← deref m p;
  if tot_len b <? offset + n then Ok 0xffff
  else
    '(q, start) ← skip_loop (chain_fuel m) m p offset;
    memcmp_loop (Z.to_nat n) m bs q start 0 s2.

Fixpoint memfind_loop (fuel : nat) (m : gmap Z pbuf) (bs : gmap Z Z) (p : Z) (mem : list Z)
    (mem_len i max_cmp_start : Z) : outcome Z :=
  if i <=? max_cmp_start then
    plus ← pbuf_memcmp m bs p i mem mem_len;
    if plus =? 0 then Ok i
    else
      match fuel with
      | O => Fault Diverges
      | S fuel => memfind_loop fuel m bs p mem mem_len (u16 (i + 1)) max_cmp_start
      end
  else Ok 0xFFFF.
Definition pbuf_memfind (m : gmap Z pbuf) (bs : gmap Z Z) (p : Z) (mem : list Z) (mem_len start_offset : Z) : outcome Z :=
  b ← deref m p;
  let max_cmp_start := u16 (tot_len b - mem_len) in
  if mem_len + start_offset <=? tot_len b then
    memfind_loop (S (Z.to_nat max_cmp_start)) m bs p mem mem_len start_offset max_cmp_start
  else Ok 0xFFFF.

(** [substr] is the string before its NUL; NULL is [None]. *)
Definition pbuf_strstr (m : gmap Z pbuf) (bs : gmap Z Z) (p : Z) (substr : option (list Z)) : outcome Z :=
  match substr with
  | None | Some [] => Ok 0xFFFF
  | Some substr =>
      b ← deref m p;
      if tot_len b =? 0xFFFF then Ok 0xFFFF
      else
        let substr_len := zlen substr in
        if 0xFFFF <=? substr_len then Ok 0xFFFF
        else pbuf_memfind m bs p substr (u16 substr_len) 0
  end.

(* ------------------------------------------------------------------ *)
(** * Writing payloads *)

Fixpoint take_loop (fuel : nat) (m : gmap Z pbuf) (bs : gmap Z Z) (p : Z) (dataptr : list Z)
    (total_copy_len copied_total : Z) : outcome (gmap Z Z * Z) :=
  if total_copy_len =? 0 then Ok (bs, copied_total)
  else
    _ ← lwip_assert (negb (p =? 0));
    b ← deref m p;
    match fuel with
    | O => Fault Diverges
    | S fuel =>
        let buf_copy_len := if len b <? total_copy_len then len b else total_copy_len in
        l ← rd_block dataptr copied_total buf_copy_len;
        bs ← store_bytes bs (payload b) l;
        take_loop fuel m bs (next b) dataptr (total_copy_len - buf_copy_len) (copied_total + buf_copy_len)
    end.
Definition pbuf_take (m : gmap Z pbuf) (bs : gmap Z Z) (buf : Z) (dataptr : option (list Z)) (n : Z)
    : outcome (Z * gmap Z Z) :=
  if buf =? 0 then Ok (ERR_ARG, bs)
  else
    match dataptr with
    | None => Ok (ERR_ARG, bs)
    | Some data =>
        b ← deref m buf;
        if tot_len b <? n then Ok (ERR_MEM, bs)
        else
          '(bs, copied_total) ← take_loop (chain_fuel m) m bs buf data n 0;
          _ ← lwip_assert (copied_total =? n);
          Ok (ERR_OK, bs)
    end.

Definition pbuf_take_at (m : gmap Z pbuf) (bs : gmap Z Z) (buf : Z) (dataptr : list Z) (n offset : Z)
    : outcome (Z * gmap Z Z) :=
  '(q, target_offset) ← pbuf_skip m buf offset;
  if q =? 0 then Ok (ERR_MEM, bs)
  else
    b ← deref m q;
    if target_offset + n <=? tot_len b then
      _ ← lwip_assert (target_offset <? len b);
      let first_copy_len := u16 (Z.min (len b - target_offset) n) in
      l ← rd_block dataptr 0 first_copy_len;
      bs ← store_bytes bs (payload b + target_offset) l;
      let remaining_len := u16 (n - first_copy_len) in
      if 0 <? remaining_len then
        pbuf_take m bs (next b) (Some (drop (Z.to_nat first_copy_len) dataptr)) remaining_len
      else Ok (ERR_OK, bs)
    else Ok (ERR_MEM, bs).

Definition pbuf_put_at (m : gmap Z pbuf) (bs : gmap Z Z) (p offset data : Z) : outcome (gmap Z Z) :=
  '(q, q_idx) ← pbuf_skip m p offset;
  if q =? 0 then Ok bs
  else
    b ← deref m q;
    if q_idx <? len b then store_bytes bs (payload b + q_idx) [data] else Ok bs.

(** One of the two "does not allow packet queues" checks. *)
Definition queue_check (m : gmap Z pbuf) (p : Z) : outcome bool :=
  if p =? 0 then Ok true
  else b ← deref m p; Ok (negb ((len b =? tot_len b) && negb (next b =? 0))).

Fixpoint copy_pbuf_loop (fuel : nat) (m : gmap Z pbuf) (bs : gmap Z Z)
    (p_to p_from offset_to offset_from copy_len : Z) : outcome (Z * gmap Z Z) :=
  t ← deref m p_to;
  f ← deref m p_from;
  let n := if u32 (len f - offset_from) <=? u32 (len t - offset_to)
           then u32 (len f - offset_from) else u32 (len t - offset_to) in
  let n := Z.min copy_len n in
  data ← load_bytes bs (payload f + offset_from) (Z.to_nat n);
  bs ← store_bytes bs (payload t + offset_to) data;
  let offset_to := u32 (offset_to + n) in
  let offset_from := u32 (offset_from + n) in
  let copy_len := u16 (copy_len - n) in
  _ ← lwip_assert (offset_to <=? len t);
  _ ← lwip_assert (offset_from <=? len f);
  let '(offset_from, p_from) := if len f <=? offset_from then (0, next f) else (offset_from, p_from) in
  if (p_from =? 0) && negb (copy_len =? 0) then Ok (ERR_ARG, bs)
  else
    let '(offset_to, p_to) := if offset_to =? len t then (0, next t) else (offset_to, p_to) in
    if (p_to =? 0) && negb (copy_len =? 0) then Ok (ERR_ARG, bs)
    else
      from_ok ← queue_check m p_from;
      if negb from_ok then Ok (ERR_VAL, bs)
      else
        to_ok ← queue_check m p_to;
        if negb to_ok then Ok (ERR_VAL, bs)
        else if copy_len =? 0 then Ok (ERR_OK, bs)
        else
          match fuel with
          | O => Fault Diverges
          | S fuel => copy_pbuf_loop fuel m bs p_to p_from offset_to offset_from copy_len
          end.

(** Every round but the last leaves one of the two chains' pbufs behind. *)
Definition pbuf_copy_partial_pbuf (m : gmap Z pbuf) (bs : gmap Z Z) (p_to p_from copy_len offset : Z)
    : outcome (Z * gmap Z Z) :=
  if p_from =? 0 then Ok (ERR_ARG, bs)
  else
    f ← deref m p_from;
    if tot_len f <? copy_len then Ok (ERR_ARG, bs)
    else if p_to =? 0 then Ok (ERR_ARG, bs)
    else
      t ← deref m p_to;
      if tot_len t <? offset + copy_len then Ok (ERR_ARG, bs)
      else copy_pbuf_loop (2 * chain_fuel m) m bs p_to p_from offset 0 copy_len.

Definition pbuf_copy (m : gmap Z pbuf) (bs : gmap Z Z) (p_to p_from : Z) : outcome (Z * gmap Z Z) :=
  if p_from =? 0 then Ok (ERR_ARG, bs)
  else
    f ← deref m p_from;
    pbuf_copy_partial_pbuf m bs p_to p_from (tot_len f) 0.

(* ------------------------------------------------------------------ *)
(** * Headers *)

Definition pbuf_add_header_impl (m : gmap Z pbuf) (p header_size_increment : Z) (force : bool)
    : outcome (Z * gmap Z pbuf) :=
  _ ← lwip_assert (negb (p =? 0));
  if 0xFFFF <? header_size_increment then Ok (1, m)
  else if header_size_increment =? 0 then Ok (0, m)
  else
    b ← deref m p;
    let increment_magnitude := u16 header_size_increment in
    if u16 (increment_magnitude + tot_len b) <? increment_magnitude then Ok (1, m)
    else
      let new := payload b - header_size_increment in
      let enlarge := set_tot_len (tot_len b + increment_magnitude)
        (set_len (len b + increment_magnitude) (set_payload new b)) in
      if negb (Z.land (type_internal b) PBUF_TYPE_FLAG_STRUCT_DATA_CONTIGUOUS =? 0) then
        if new <? p + SIZEOF_STRUCT_PBUF then Ok (1, m)
        else Ok (0, <[p := enlarge]> m)
      else if force then Ok (0, <[p := enlarge]> m)
      else Ok (1, m).

Definition pbuf_add_header (m : gmap Z pbuf) (p n : Z) := pbuf_add_header_impl m p n false.
Definition pbuf_add_header_force (m : gmap Z pbuf) (p n : Z) := pbuf_add_header_impl m p n true.

Definition pbuf_remove_header (m : gmap Z pbuf) (p header_size_decrement : Z) : outcome (Z * gmap Z pbuf) :=
  _ ← lwip_assert (negb (p =? 0));
  if 0xFFFF <? header_size_decrement then Ok (1, m)
  else if header_size_decrement =? 0 then Ok (0, m)
  else
    let increment_magnitude := u16 header_size_decrement in
    b ← deref m p;
    if len b <? increment_magnitude then Ok (1, m)
    else
      Ok (0, <[p := set_tot_len (tot_len b - increment_magnitude)
                (set_len (len b - increment_magnitude)
                  (set_payload (payload b + header_size_decrement) b))]> m).

Definition pbuf_header_impl (m : gmap Z pbuf) (p header_size_increment : Z) (force : bool)
    : outcome (Z * gmap Z pbuf) :=
  if header_size_increment <? 0 then pbuf_remove_header m p (- header_size_increment)
  else pbuf_add_header_impl m p header_size_increment force.
Definition pbuf_header (m : gmap Z pbuf) (p n : Z) := pbuf_header_impl m p n false.
Definition pbuf_header_force (m : gmap Z pbuf) (p n : Z) := pbuf_header_impl m p n true.

(* ------------------------------------------------------------------ *)
(** * Allocation, reference counts and links *)

Section Heap.
Context {PP RP HP : Type} `{PoolOps PP} `{PoolOps RP} `{HeapOps HP}.
Implicit Types (s : pheap PP RP HP).

Abbreviation pio := (io (pheap PP RP HP)).

Definition with_pbufs (f : gmap Z pbuf -> gmap Z pbuf) s : pheap PP RP HP :=
  mk_pheap (pool_st s) (rom_st s) (heap_st s) (f (pbufs s)) (bytes s).

Definition pb_read (p : Z) : pio pbuf := fun s => b ← deref (pbufs s) p; Ok (b, s).
Definition pb_write (p : Z) (b : pbuf) : pio unit := io_modify (with_pbufs <[p := b]>).
Definition pb_update (p : Z) (f : pbuf -> pbuf) : pio unit := b ← pb_read p; pb_write p (f b).
(** The header's memory is given back: no header is there any more. *)
Definition pb_forget (p : Z) : pio unit := io_modify (with_pbufs (delete p)).

(** [memp_malloc] and [memp_free] of MEMP_PBUF_POOL and of MEMP_PBUF,
    [mem_malloc], [mem_free] and [mem_trim]. *)
Definition memp_malloc_PBUF_POOL : pio (option Z) := fun s =>
  '(r, ps) ← pool_malloc (pool_st s); Ok (r, mk_pheap ps (rom_st s) (heap_st s) (pbufs s) (bytes s)).
Definition memp_free_PBUF_POOL (p : Z) : pio unit := fun s =>
  ps ← pool_free p (pool_st s); Ok (tt, mk_pheap ps (rom_st s) (heap_st s) (pbufs s) (bytes s)).
Definition memp_malloc_PBUF : pio (option Z) := fun s =>
  '(r, ps) ← pool_malloc (rom_st s); Ok (r, mk_pheap (pool_st s) ps (heap_st s) (pbufs s) (bytes s)).
Definition memp_free_PBUF (p : Z) : pio unit := fun s =>
  ps ← pool_free p (rom_st s); Ok (tt, mk_pheap (pool_st s) ps (heap_st s) (pbufs s) (bytes s)).
Definition pb_mem_malloc (n : Z) : pio (option Z) := fun s =>
  '(r, hs) ← heap_malloc n (heap_st s); Ok (r, mk_pheap (pool_st s) (rom_st s) hs (pbufs s) (bytes s)).
Definition pb_mem_free (p : Z) : pio unit := fun s =>
  hs ← heap_free p (heap_st s); Ok (tt, mk_pheap (pool_st s) (rom_st s) hs (pbufs s) (bytes s)).
Definition pb_mem_trim (p n : Z) : pio (option Z) := fun s =>
  '(r, hs) ← heap_trim p n (heap_st s); Ok (r, mk_pheap (pool_st s) (rom_st s) hs (pbufs s) (bytes s)).

(** The operations above, on the state. *)
Definition pb_remove_header (p n : Z) : pio Z := fun s =>
  '(r, m) ← pbuf_remove_header (pbufs s) p n; Ok (r, with_pbufs (fun _ => m) s).
Definition pb_copy (q p : Z) : pio Z := fun s =>
  '(err, bs) ← pbuf_copy (pbufs s) (bytes s) q p;
  Ok (err, mk_pheap (pool_st s) (rom_st s) (heap_st s) (pbufs s) bs).

Definition pbuf_init_alloced_pbuf (p payload tot_len len type flags : Z) : pio unit :=
  pb_write p (mk_pbuf 0 payload tot_len len (u8 type) flags 1 NETIF_NO_INDEX).

(** Back to where the header came from. *)
Definition free_to_source (p alloc_src : Z) : pio unit :=
  if alloc_src =? PBUF_TYPE_ALLOC_SRC_MASK_STD_MEMP_PBUF_POOL then memp_free_PBUF_POOL p
  else if alloc_src =? PBUF_TYPE_ALLOC_SRC_MASK_STD_MEMP_PBUF then memp_free_PBUF p
  else if alloc_src =? PBUF_TYPE_ALLOC_SRC_MASK_STD_HEAP then pb_mem_free p
  else io_assert false.

Fixpoint pbuf_free_loop (fuel : nat) (p count : Z) : pio Z :=
  if p =? 0 then mret count
  else
    match fuel with
    | O => io_fault Diverges
    | S fuel =>
        b ← pb_read p;
        _ ← io_assert (0 <? ref b);
        let b := set_ref (ref b - 1) b in
        _ ← pb_write p b;
        if ref b =? 0 then
          let q := next b in
          _ ← free_to_source p (pbuf_get_allocsrc b);
          _ ← pb_forget p;
          pbuf_free_loop fuel q (u8 (count + 1))
        else mret count
    end.
Definition pbuf_free (p : Z) : pio Z :=
  _ ← io_assert (negb (p =? 0));
  s ← io_get;
  pbuf_free_loop (chain_fuel (pbufs s)) p 0.

Definition pbuf_alloc_reference (payload length : Z) (type : pbuf_type) : pio (option Z) :=
  _ ← io_assert (match type with PBUF_REF | PBUF_ROM => true | _ => false end);
  r ← memp_malloc_PBUF;
  match r with
  | None => mret None
  | Some p =>
      _ ← pbuf_init_alloced_pbuf p payload length length (pbuf_type_val type) 0;
      mret (Some p)
  end.

(** The do-while of PBUF_POOL; [p] and [last] are NULL at first. *)
Fixpoint alloc_pool_loop (fuel : nat) (p last rem_len offset : Z) : pio (option Z) :=
  r ← memp_malloc_PBUF_POOL;
  match r with
  | None =>
      _ ← (if negb (p =? 0) then _ ← pbuf_free p; mret tt else mret tt);
      mret None
  | Some q =>
      let room := PBUF_POOL_BUFSIZE_ALIGNED - LWIP_MEM_ALIGN_SIZE offset in
      let qlen := Z.min rem_len (u16 room) in
      let pl := LWIP_MEM_ALIGN (q + SIZEOF_STRUCT_PBUF + offset) in
      _ ← pbuf_init_alloced_pbuf q pl rem_len qlen (pbuf_type_val PBUF_POOL) 0;
      _ ← io_assert (pl mod MEM_ALIGNMENT =? 0);
      _ ← io_assert (0 <? room);
      _ ← (if p =? 0 then mret tt else pb_update last (set_next q));
      let p := if p =? 0 then q else p in
      let rem_len := u16 (rem_len - qlen) in
      if 0 <? rem_len then
        match fuel with
        | O => io_fault Diverges
        | S fuel => alloc_pool_loop fuel p q rem_len 0
        end
      else mret (Some p)
  end.

Definition alloc_ram (offset length : Z) : pio (option Z) :=
  let payload_len := u32 (LWIP_MEM_ALIGN_SIZE offset + LWIP_MEM_ALIGN_SIZE length) in
  let alloc_len := u32 (LWIP_MEM_ALIGN_SIZE SIZEOF_STRUCT_PBUF + payload_len) in
  if (payload_len <? LWIP_MEM_ALIGN_SIZE length) || (alloc_len <? LWIP_MEM_ALIGN_SIZE length) then mret None
  else
    r ← pb_mem_malloc alloc_len;
    match r with
    | None => mret None
    | Some p =>
        let pl := LWIP_MEM_ALIGN (p + SIZEOF_STRUCT_PBUF + offset) in
        _ ← pbuf_init_alloced_pbuf p pl length length (pbuf_type_val PBUF_RAM) 0;
        _ ← io_assert (pl mod MEM_ALIGNMENT =? 0);
        mret (Some p)
    end.

Definition pbuf_alloc (layer length : Z) (type : pbuf_type) : pio (option Z) :=
  let offset := u16 layer in
  match type with
  | PBUF_REF | PBUF_ROM => pbuf_alloc_reference 0 length type
  | PBUF_POOL => alloc_pool_loop (Z.to_nat length) 0 0 length offset
  | PBUF_RAM => alloc_ram offset length
  end.

(** The search of [pbuf_realloc] for the last pbuf that stays. *)
Fixpoint realloc_walk (fuel : nat) (q rem_len shrink : Z) : pio (Z * Z) :=
  b ← pb_read q;
  if len b <? rem_len then
    match fuel with
    | O => io_fault Diverges
    | S fuel =>
        let rem_len := u16 (rem_len - len b) in
        _ ← pb_write q (set_tot_len (tot_len b - shrink) b);
        let q := next b in
        _ ← io_assert (negb (q =? 0));
        realloc_walk fuel q rem_len shrink
    end
  else mret (q, rem_len).

(** The memory of a heap pbuf behind its new end is given back. *)
Definition realloc_trim (q rem_len : Z) (b : pbuf) : pio unit :=
  io_when (pbuf_match_allocsrc b PBUF_TYPE_ALLOC_SRC_MASK_STD_HEAP && negb (rem_len =? len b))
    (r ← pb_mem_trim q (payload b - q + rem_len);
     _ ← io_assert (match r with Some _ => true | None => false end);
     io_assert (bool_decide (r = Some q))).

(** [q] becomes the last pbuf, with [rem_len] bytes. *)
Definition realloc_cut (q rem_len : Z) : pio unit :=
  b ← pb_read q;
  _ ← realloc_trim q rem_len b;
  _ ← pb_update q (fun b => set_tot_len rem_len (set_len rem_len b));
  _ ← io_when (negb (next b =? 0)) (_ ← pbuf_free (next b); mret tt);
  pb_update q (set_next 0).

Definition pbuf_realloc (p new_len : Z) : pio unit :=
  _ ← io_assert (negb (p =? 0));
  b ← pb_read p;
  if tot_len b <=? new_len then mret tt
  else
    let shrink := u16 (tot_len b - new_len) in
    s ← io_get;
    '(q, rem_len) ← realloc_walk (chain_fuel (pbufs s)) p new_len shrink;
    realloc_cut q rem_len.

Fixpoint free_header_loop (fuel : nat) (p free_left : Z) : pio Z :=
  if negb (free_left =? 0) && negb (p =? 0) then
    b ← pb_read p;
    match fuel with
    | O => io_fault Diverges
    | S fuel =>
        if len b <=? free_left then
          _ ← pb_write p (set_next 0 b);
          _ ← pbuf_free p;
          free_header_loop fuel (next b) (u16 (free_left - len b))
        else
          _ ← pb_remove_header p free_left;
          mret p
    end
  else mret p.
Definition pbuf_free_header (q size : Z) : pio Z :=
  s ← io_get; free_header_loop (chain_fuel (pbufs s)) q size.

Definition pbuf_ref (p : Z) : pio unit :=
  if p =? 0 then mret tt
  else
    b ← pb_read p;
    let b := set_ref (ref b + 1) b in
    _ ← pb_write p b;
    io_assert (0 <? ref b).

Fixpoint cat_walk (fuel : nat) (p add : Z) : pio Z :=
  b ← pb_read p;
  if next b =? 0 then mret p
  else
    match fuel with
    | O => io_fault Diverges
    | S fuel =>
        _ ← pb_write p (set_tot_len (tot_len b + add) b);
        cat_walk fuel (next b) add
    end.
Definition pbuf_cat (h t : Z) : pio unit :=
  if (h =? 0) || (t =? 0) then mret tt
  else
    tb ← pb_read t;
    s ← io_get;
    p ← cat_walk (chain_fuel (pbufs s)) h (tot_len tb);
    b ← pb_read p;
    _ ← io_assert (tot_len b =? len b);
    _ ← io_assert (next b =? 0);
    _ ← pb_write p (set_tot_len (tot_len b + tot_len tb) b);
    pb_update p (set_next t).

Definition pbuf_chain (h t : Z) : pio unit :=
  _ ← pbuf_cat h t; pbuf_ref t.

Definition pbuf_dechain (p : Z) : pio Z :=
  b ← pb_read p;
  let q := next b in
  tail_gone ←
    (if negb (q =? 0) then
       qb ← pb_read q;
       _ ← io_assert (tot_len qb =? tot_len b - len b);
       _ ← pb_write q (set_tot_len (tot_len b - len b) qb);
       _ ← pb_update p (set_next 0);
       _ ← pb_update p (fun b => set_tot_len (len b) b);
       pbuf_free q
     else mret 1);
  b ← pb_read p;
  _ ← io_assert (tot_len b =? len b);
  mret (if 0 <? tail_gone then 0 else q).

Definition pbuf_clone (layer : Z) (type : pbuf_type) (p : Z) : pio (option Z) :=
  b ← pb_read p;
  r ← pbuf_alloc layer (tot_len b) type;
  match r with
  | None => mret None
  | Some q =>
      err ← pb_copy q p;
      _ ← io_assert (err =? ERR_OK);
      mret (Some q)
  end.

Definition pbuf_coalesce (p layer : Z) : pio Z :=
  b ← pb_read p;
  if next b =? 0 then mret p
  else
    r ← pbuf_clone layer PBUF_RAM p;
    match r with
    | None => mret p
    | Some q => _ ← pbuf_free p; mret q
    end.
End Heap.
