(* ===== verification/PbufChain.v ===== *)
(** Chains of pbufs and their content: the functions of Pbuf that read and
    write payloads are slices, searches and updates of one byte string. *)

From Stdlib Require Import ZArith Lia.
From stdpp Require Import base list numbers gmap sets.
From S2P Require Import Prelude Mmio Mem Memp Pbuf.

Open Scope Z_scope.

(* ------------------------------------------------------------------ *)
(** * Chains *)

(** The headers from [p] along [next] are [l]. *)
Fixpoint chain (m : gmap Z pbuf) (p : Z) (l : list (Z * pbuf)) : Prop :=
  match l with
  | [] => p = 0
  | (a, b) :: l => p = a /\ a <> 0 /\ m !! a = Some b /\ chain m (next b) l
  end.

Definition head_ptr (l : list (Z * pbuf)) : Z := match l with [] => 0 | (a, _) :: _ => a end.

Definition lens (l : list (Z * pbuf)) : Z := foldr (fun x n => len x.2 + n) 0 l.

Definition wf_pbuf (b : pbuf) : Prop := is_u16 (len b) /\ is_u16 (tot_len b) /\ is_u8 (ref b).

(** One packet: every [tot_len] is the length of the rest of the chain. *)
Fixpoint packet (l : list (Z * pbuf)) : Prop :=
  match l with
  | [] => True
  | (_, b) :: l' => tot_len b = len b + lens l' /\ wf_pbuf b /\ packet l'
  end.

Lemma chain_head m p l : chain m p l -> p = head_ptr l.
Proof. destruct l as [|[a b] l]; simpl; [done|]. by intros [-> _]. Qed.

Lemma chain_nonzero m p l : chain m p l -> p = 0 <-> l = [].
Proof. destruct l as [|[a b] l]; simpl; [done|]. intros (-> & Ha & _). naive_solver. Qed.

Lemma chain_fun m p l l' : chain m p l -> chain m p l' -> l = l'.
Proof.
  revert p l'. induction l as [|[a b] l IH]; intros p [|[a' b'] l'] Hl Hl'; simpl in *; [done| | |].
  - destruct Hl' as (-> & ? & _). done.
  - destruct Hl as (-> & ? & _). done.
  - destruct Hl as (-> & _ & Hb & Hl), Hl' as (-> & _ & Hb' & Hl').
    rewrite Hb in Hb'. injection Hb' as <-. f_equal. by eapply IH.
Qed.

Lemma chain_suffix m p l1 l2 : chain m p (l1 ++ l2) -> chain m (head_ptr l2) l2.
Proof.
  revert p. induction l1 as [|[a b] l1 IH]; intros p; simpl.
  - intros H. by rewrite <- (chain_head _ _ _ H).
  - intros (_ & _ & _ & H). by eapply IH.
Qed.

Lemma chain_nodup m p l : chain m p l -> NoDup l.*1.
Proof.
  revert p. induction l as [|[a b] l IH]; intros p H; [constructor|].
  pose proof H as (-> & Ha & Hb & Hl). rewrite fmap_cons. constructor; [|by eapply IH].
  intros ([a' b'] & Ea & Hin)%list_elem_of_fmap. cbn [fst] in Ea. subst a'.
  apply list_elem_of_split in Hin as (l1 & l2 & ->).
  pose proof (chain_suffix _ _ ((a, b) :: l1) _ H) as Hs. cbn [head_ptr] in Hs.
  pose proof (chain_fun _ _ _ _ H Hs) as E.
  apply (f_equal length) in E. simpl in E. rewrite length_app in E. simpl in E. lia.
Qed.

Lemma chain_lookup m p l a b : chain m p l -> (a, b) ∈ l -> m !! a = Some b.
Proof.
  revert p. induction l as [|[a' b'] l IH]; intros p; simpl; [by intros _ ?%not_elem_of_nil|].
  intros (_ & _ & Hb & Hl) [[= -> ->]|Hin]%elem_of_cons; [done|by eapply IH].
Qed.

Lemma chain_length m p l : chain m p l -> (length l <= stdpp.base.size m)%nat.
Proof.
  intros H. pose proof (chain_nodup _ _ _ H) as Hn.
  rewrite <- size_dom, <- (length_fmap fst), <- (size_list_to_set (C := gset Z)) by done.
  apply subseteq_size. intros a ([a' b] & -> & Hin)%elem_of_list_to_set%list_elem_of_fmap.
  apply elem_of_dom. exists b. by eapply chain_lookup.
Qed.

(** Headers outside the chain may change. *)
Lemma chain_agree m m' p l :
  (forall a, a ∈ l.*1 -> m' !! a = m !! a) -> chain m p l -> chain m' p l.
Proof.
  revert p. induction l as [|[a b] l IH]; intros p Hm; simpl; [done|].
  intros (-> & Ha & Hb & Hl). split_and!; [done|done| |].
  - rewrite Hm; [done|]. rewrite fmap_cons. by left.
  - apply IH; [|done]. intros c Hc. apply Hm. rewrite fmap_cons. by right.
Qed.

Lemma lens_app l1 l2 : lens (l1 ++ l2) = lens l1 + lens l2.
Proof. induction l1; simpl; lia. Qed.

Lemma packet_lens l : packet l -> 0 <= lens l < 65536.
Proof.
  destruct l as [|[a b] l]; simpl; [lia|]. intros (E & [? [? ?]] & Hp). unfold is_u16 in *.
  lia.
Qed.

Lemma packet_app l1 l2 : packet (l1 ++ l2) -> packet l2.
Proof. induction l1 as [|[a b] l1 IH]; simpl; naive_solver. Qed.

(* ------------------------------------------------------------------ *)
(** * Bytes *)

Lemma load_bytes_ok bs a n l :
  load_bytes bs a n = Ok l <-> length l = n /\ forall i, (i < n)%nat -> bs !! (a + Z.of_nat i) = l !! i.
Proof.
  revert a l. induction n as [|n IH]; intros a l; simpl.
  - split; [intros [= <-]; split; [done|lia]|]. intros [?%nil_length_inv _]. by subst.
  - split.
    + destruct (bs !! a) as [x|] eqn:E; [|done]. intros (l' & H & [= <-])%bind_ok_inv.
      apply IH in H as [Hn Hl]. split; [by simpl; rewrite Hn|]. intros [|i] Hi; [by rewrite Z.add_0_r|].
      simpl. rewrite <- Hl by lia. f_equal. lia.
    + intros [Hn Hl]. destruct l as [|x l]; [done|]. pose proof (Hl 0%nat ltac:(lia)) as H0.
      rewrite Z.add_0_r in H0. simpl in H0. rewrite H0.
      assert (E : load_bytes bs (a + 1) n = Ok l).
      { apply IH. split; [by injection Hn|]. intros i Hi.
        specialize (Hl (S i) ltac:(lia)). simpl in Hl. rewrite <- Hl. f_equal. lia. }
      by rewrite E.
Qed.

Lemma load_bytes_sub bs a n l off k :
  load_bytes bs a n = Ok l -> (off + k <= n)%nat ->
  load_bytes bs (a + Z.of_nat off) k = Ok (take k (drop off l)).
Proof.
  rewrite !load_bytes_ok. intros [Hn Hl] Hk. split; [rewrite length_take, length_drop; lia|].
  intros i Hi. rewrite lookup_take_lt, lookup_drop by lia. rewrite <- Hl by lia. f_equal. lia.
Qed.

Lemma load_bytes_agree bs bs' a n :
  (forall i, a <= i < a + Z.of_nat n -> bs' !! i = bs !! i) -> load_bytes bs' a n = load_bytes bs a n.
Proof.
  revert a. induction n as [|n IH]; intros a Hm; simpl; [done|].
  rewrite Hm by lia. destruct (bs !! a); [|done]. rewrite IH; [done|]. intros i Hi. apply Hm. lia.
Qed.

(** The bytes a chain holds. *)
Fixpoint content (bs : gmap Z Z) (l : list (Z * pbuf)) (c : list Z) : Prop :=
  match l with
  | [] => c = []
  | (_, b) :: l => exists c1 c2, c = c1 ++ c2 /\
      load_bytes bs (payload b) (Z.to_nat (len b)) = Ok c1 /\ content bs l c2
  end.

Lemma content_length bs l c : content bs l c -> packet l -> zlen c = lens l.
Proof.
  revert c. induction l as [|[a b] l IH]; intros c; simpl; [by intros -> _|].
  intros (c1 & c2 & -> & [Hn _]%load_bytes_ok & Hc) (_ & [Hb _] & Hp). specialize (IH _ Hc Hp).
  rewrite length_app. unfold is_u16 in Hb. lia.
Qed.

Lemma content_app bs l1 l2 c :
  content bs (l1 ++ l2) c <-> exists c1 c2, c = c1 ++ c2 /\ content bs l1 c1 /\ content bs l2 c2.
Proof.
  revert c. induction l1 as [|[a b] l1 IH]; intros c; simpl.
  - split; [intros H; by exists [], c|by intros (? & ? & -> & -> & ?)].
  - split.
    + intros (c1 & c2 & -> & Hb & (c3 & c4 & -> & H1 & H2)%IH). exists (c1 ++ c3), c4.
      split_and!; [by rewrite app_assoc| |done]. by exists c1, c3.
    + intros (? & c4 & -> & (c1 & c2 & -> & Hb & H1) & H2). exists c1, (c2 ++ c4).
      split_and!; [by rewrite app_assoc|done|]. apply IH. by exists c2, c4.
Qed.

(* ------------------------------------------------------------------ *)
(** * Reading *)

Definition in_head (l : list (Z * pbuf)) (off : Z) : Prop :=
  match l with [] => True | (_, b) :: _ => off < len b end.

Lemma skip_loop_spec fuel m p l off bs c :
  chain m p l -> packet l -> content bs l c -> is_u16 off -> (length l <= fuel)%nat ->
  exists q off' l', skip_loop fuel m p off = Ok (q, off') /\ chain m q l' /\ packet l' /\
    content bs l' (drop (Z.to_nat (off - off')) c) /\ 0 <= off' <= off /\ in_head l' off' /\
    (length l' <= length l)%nat.
Proof.
  revert p l off c. induction fuel as [|fuel IH]; intros p l off c Hl Hp Hc Hoff Hf.
  all: destruct l as [|[a b] l]; [|simpl in Hf].
  1, 3: simpl in Hl; subst p; exists 0, off, []; rewrite Z.sub_diag; simpl;
    unfold is_u16 in Hoff; split_and!; [done..|lia|lia|done|lia].
  - lia.
  - pose proof Hl as (-> & Ha & Hb & Hl'). pose proof Hp as (_ & [Hlen _] & Hp').
    cbn [skip_loop]. rewrite (proj2 (Z.eqb_neq a 0)) by done. unfold deref. rewrite Hb.
    cbn [mbind outcome_bind]. unfold is_u16 in *. destruct (Z.leb_spec (len b) off) as [Hle|Hgt].
    + destruct Hc as (c1 & c2 & -> & [Hn _]%load_bytes_ok & Hc).
      rewrite u16_small by (unfold is_u16; lia).
      destruct (IH (next b) l (off - len b) c2) as (q & off' & l' & E & H1 & H2 & H3 & H4 & H5 & H6);
        try done; [unfold is_u16; lia|lia|].
      exists q, off', l'. split_and!; try done; try lia; [|simpl; lia].
      replace (drop _ (c1 ++ c2)) with (drop (Z.to_nat (off - len b - off')) c2); [done|].
      rewrite drop_app_ge by lia. f_equal. lia.
    + exists a, off, ((a, b) :: l). rewrite Z.sub_diag. split_and!; try done; lia.
Qed.

(** What lies at an offset of a chain entered at its head. *)
Lemma content_head bs a b l c off : content bs ((a, b) :: l) c -> 0 <= off < len b ->
  bs !! (payload b + off) = c !! Z.to_nat off.
Proof.
  intros (c1 & c2 & -> & [Hn Hl]%load_bytes_ok & _) Hoff.
  rewrite lookup_app_l by lia. rewrite <- Hl by lia. f_equal. lia.
Qed.

Lemma content_lookup bs l c i : content bs l c -> packet l -> (i < length c)%nat -> is_Some (c !! i).
Proof. intros _ _. apply lookup_lt_is_Some_2. Qed.

Lemma pbuf_try_get_at_spec m bs p l c off :
  chain m p l -> packet l -> content bs l c -> is_u16 off ->
  pbuf_try_get_at m bs p off = Ok (default (-1) (c !! Z.to_nat off)).
Proof.
  intros Hl Hp Hc Hoff. unfold pbuf_try_get_at, pbuf_skip_const, chain_fuel.
  destruct (skip_loop_spec (S (stdpp.base.size m)) m p l off bs c) as
    (q & off' & l' & -> & Hl' & Hp' & Hc' & Ho & Hh & _); try done.
  { pose proof (chain_length _ _ _ Hl). lia. }
  cbn [mbind outcome_bind].
  replace (c !! Z.to_nat off) with (drop (Z.to_nat (off - off')) c !! Z.to_nat off')
    by (rewrite lookup_drop; f_equal; lia).
  destruct l' as [|[a b] l'].
  - simpl in Hl', Hc'. subst q. by rewrite Hc'.
  - pose proof Hl' as (-> & Ha & Hb & _). rewrite (proj2 (Z.eqb_neq a 0)) by done.
    unfold deref. rewrite Hb. cbn [mbind outcome_bind]. rewrite (proj2 (Z.ltb_lt _ _)) by done.
    rewrite (content_head _ _ _ _ _ _ Hc') by (simpl in Hh; lia).
    assert (Hs : is_Some (drop (Z.to_nat (off - off')) c !! Z.to_nat off')); [|by destruct Hs as [x ->]].
    apply lookup_lt_is_Some_2. pose proof (content_length _ _ _ Hc' Hp') as Hcl. simpl in Hcl, Hh.
    destruct Hp' as (_ & _ & Hp'). pose proof (packet_lens _ Hp'). lia.
Qed.

Lemma pbuf_get_at_spec m bs p l c off :
  chain m p l -> packet l -> content bs l c -> Forall is_u8 c -> is_u16 off ->
  pbuf_get_at m bs p off = Ok (default 0 (c !! Z.to_nat off)).
Proof.
  intros Hl Hp Hc Hu Hoff. unfold pbuf_get_at. rewrite (pbuf_try_get_at_spec _ _ _ _ _ _ Hl Hp Hc Hoff).
  cbn [mbind outcome_bind]. destruct (c !! Z.to_nat off) as [x|] eqn:E; [|done]. cbn [default id].
  apply (Forall_lookup_1 _ _ _ _ Hu) in E. unfold is_u8 in E.
  simpl. rewrite (proj2 (Z.leb_le 0 x)) by lia. by rewrite u8_small by (unfold is_u8; lia).
Qed.

(** The pattern [s2] stands at [off] in [c]. *)
Definition occurs (c s2 : list Z) (off : Z) : Prop := take (length s2) (drop (Z.to_nat off) c) = s2.

Lemma memcmp_loop_spec m bs q l c start off s2 k i :
  chain m q l -> packet l -> Forall is_u8 c -> content bs l (drop (Z.to_nat off) c) ->
  0 <= start -> 0 <= off -> i + Z.of_nat k = zlen s2 -> 0 <= i ->
  off + start + zlen s2 <= zlen c -> zlen c < 65536 -> 
  exists r, memcmp_loop k m bs q start i s2 = Ok r /\
    (r = 0 <-> forall j, i <= j < zlen s2 -> c !! Z.to_nat (off + start + j) = s2 !! Z.to_nat j).
Proof.
  intros Hl Hp Hu Hc Hs Ho. revert i. induction k as [|k IH]; intros i Hk Hi Hlen Hz.
  - exists 0. split; [done|]. split; [|done]. intros _ j Hj. lia.
  - cbn [memcmp_loop]. rewrite (u16_small (start + i)) by (unfold is_u16; lia).
    rewrite (pbuf_get_at_spec _ _ _ _ _ _ Hl Hp Hc) by (try apply Forall_drop; unfold is_u16; done || lia).
    cbn [mbind outcome_bind].
    assert (Hx : is_Some (c !! Z.to_nat (off + start + i))) by (apply lookup_lt_is_Some_2; lia).
    assert (Hy : is_Some (s2 !! Z.to_nat i)) by (apply lookup_lt_is_Some_2; lia).
    rewrite lookup_drop. replace (Z.to_nat off + Z.to_nat (start + i))%nat with (Z.to_nat (off + start + i)) by lia.
    destruct Hx as [x Hx], Hy as [y Hy]. rewrite Hx. cbn [default id].
    rewrite (proj2 (rd_ok s2 i y) (conj Hi Hy)). cbn [mbind outcome_bind]. destruct (Z.eqb_spec x y) as [->|Hne]; cbn [negb].
    + destruct (IH (i + 1)) as (r & E & Hr); [lia..|]. exists r. split; [done|]. rewrite Hr.
      split; intros H j Hj; [|apply H; lia].
      destruct (decide (j = i)) as [->|]; [by rewrite Hx, Hy|apply H; lia].
    + eexists. split; [done|]. rewrite u16_small by (unfold is_u16; lia).
      split; [lia|]. intros H. specialize (H i ltac:(lia)). rewrite Hx, Hy in H. congruence.
Qed.

Lemma occurs_lookup c s2 off : 0 <= off -> off + zlen s2 <= zlen c ->
  occurs c s2 off <-> forall j, 0 <= j < zlen s2 -> c !! Z.to_nat (off + j) = s2 !! Z.to_nat j.
Proof.
  intros Ho Hl. unfold occurs. split.
  - intros E j Hj. rewrite <- E at 1. rewrite lookup_take_lt, lookup_drop by lia. f_equal. lia.
  - intros H. apply list_eq. intros j. destruct (decide (j < length s2)%nat) as [Hj|Hj].
    + rewrite lookup_take_lt, lookup_drop by lia. specialize (H (Z.of_nat j) ltac:(lia)).
      rewrite Nat2Z.id in H. rewrite <- H. f_equal. lia.
    + rewrite !lookup_ge_None_2; [done|lia|rewrite length_take; lia].
Qed.

Lemma pbuf_memcmp_spec m bs p l c off s2 :
  chain m p l -> packet l -> content bs l c -> Forall is_u8 c -> l <> [] -> is_u16 off ->
  off + zlen s2 <= zlen c ->
  exists r, pbuf_memcmp m bs p off s2 (zlen s2) = Ok r /\ (r = 0 <-> occurs c s2 off).
Proof.
  intros Hl Hp Hc Hu Hne Hoff Hle. pose proof (content_length _ _ _ Hc Hp) as Hlen.
  pose proof (packet_lens _ Hp) as Hlens.
  destruct l as [|[a b] l]; [done|]. pose proof Hl as (-> & Ha & Hb & _).
  unfold pbuf_memcmp, deref. rewrite Hb. cbn [mbind outcome_bind].
  pose proof Hp as (Et & _ & _). simpl in Hlen.
  rewrite (proj2 (Z.ltb_ge _ _)) by lia. unfold chain_fuel.
  destruct (skip_loop_spec (S (stdpp.base.size m)) m a ((a, b) :: l) off bs c) as
    (q & off' & l' & -> & Hl' & Hp' & Hc' & Ho & Hh & _); try done.
  { pose proof (chain_length _ _ _ Hl). lia. }
  rewrite Nat2Z.id.
  destruct (memcmp_loop_spec m bs q l' c off' (off - off') s2 (length s2) 0) as (r & E & Hr);
    try done; try (simpl in Hlens; lia).
  exists r. split; [done|]. rewrite Hr, occurs_lookup by (unfold is_u16 in Hoff; lia).
  by replace (off - off' + off') with off by lia.
Qed.

Lemma memfind_loop_spec m bs p l c pat fuel i mx :
  chain m p l -> packet l -> content bs l c -> Forall is_u8 c -> l <> [] ->
  mx = zlen c - zlen pat -> is_u16 mx -> 0 <= i <= mx -> (Z.to_nat (mx - i) < fuel)%nat ->
  exists r, memfind_loop fuel m bs p pat (zlen pat) i mx = Ok r /\
    ((i <= r <= mx /\ occurs c pat r /\ forall j, i <= j < r -> ~ occurs c pat j) \/
     (r = 0xFFFF /\ forall j, i <= j <= mx -> ~ occurs c pat j)).
Proof.
  intros Hl Hp Hc Hu Hne Emx Hmx. pose proof (content_length _ _ _ Hc Hp) as Hlen.
  pose proof (packet_lens _ Hp) as Hlens. unfold is_u16 in Hmx.
  revert i. induction fuel as [|fuel IH]; intros i Hi Hf; [lia|]. cbn [memfind_loop].
  rewrite (proj2 (Z.leb_le _ _)) by lia.
  destruct (pbuf_memcmp_spec m bs p l c i pat) as (r & -> & Hr); try done; [unfold is_u16; lia|lia|].
  cbn [mbind outcome_bind]. destruct (Z.eqb_spec r 0) as [->|Hr0].
  - exists i. split; [done|]. left. split_and!; [lia|lia|by apply Hr|]. intros j Hj. lia.
  - assert (Hno : ~ occurs c pat i) by (rewrite <- Hr; done).
    destruct (decide (i = mx)) as [->|Hlt].
    + exists 0xFFFF. split; [|right; split; [done|]; intros j Hj; by replace j with mx by lia].
      destruct (decide (mx = 65535)) as [E65|]; [|rewrite u16_small by (unfold is_u16; lia)].
      * (* the pattern is empty and occurs *)
        destruct Hno. destruct pat; [done|simpl in *; lia].
      * destruct fuel; cbn [memfind_loop]; by rewrite (proj2 (Z.leb_gt _ _)) by lia.
    + rewrite u16_small by (unfold is_u16; lia).
      destruct (IH (i + 1)) as (r' & E & Hr'); [lia|lia|]. exists r'. split; [done|].
      destruct Hr' as [(Hb & Ho & Hall)|(-> & Hall)]; [left|right]; split_and!; try done; try lia;
        intros j Hj; destruct (decide (j = i)) as [->|]; try done; apply Hall; lia.
Qed.

(** Copying out: [k] bytes of the content from [off] on. *)
Lemma copy_partial_loop_spec fuel m bs p l c n off left total d0 d1 d2 :
  chain m p l -> packet l -> content bs l c -> is_u16 n -> is_u16 off -> (length l <= fuel)%nat ->
  zlen d1 = Z.max 0 (Z.min n (zlen c - off)) -> left = zlen d0 -> 0 <= total ->
  left + zlen d1 < 65536 -> total + zlen d1 < 65536 ->
  copy_partial_loop fuel m bs p n off left total (d0 ++ d1 ++ d2) =
    Ok (total + zlen d1, d0 ++ take (length d1) (drop (Z.to_nat off) c) ++ d2).
Proof.
  unfold is_u16. revert p l c n off left total d0 d1.
  induction fuel as [|fuel IH]; intros p l c n off left total d0 d1 Hl Hp Hc Hn Hoff Hf Hk -> Ht Hlt Htt.
  all: destruct l as [|[a b] l]; [simpl in Hl, Hc; subst p c; destruct d1; [|simpl in Hk; lia]|].
  1, 3: cbn [copy_partial_loop]; rewrite andb_false_r, Z.add_0_r; done.
  { simpl in Hf. lia. }
  pose proof Hl as (-> & Ha & Hb & Hl'). pose proof Hp as (_ & [Hlen _] & Hp').
  pose proof Hc as (c1 & c2 & -> & Hload & Hc'). pose proof Hload as [Hc1 _]%load_bytes_ok.
  unfold is_u16 in Hlen. rewrite length_app in Hk. cbn [copy_partial_loop].
  rewrite (proj2 (Z.eqb_neq a 0)) by done. unfold deref. rewrite Hb. cbn [negb mbind outcome_bind].
  rewrite andb_true_r. destruct (Z.eqb_spec n 0) as [->|Hn0]; cbn [negb].
  { destruct d1; [|simpl in Hk; lia]. by rewrite Z.add_0_r. }
  destruct (negb (off =? 0) && (len b <=? off)) eqn:Hskip.
  - apply andb_prop in Hskip as [_ Hle%Z.leb_le]. rewrite u16_small by (unfold is_u16; lia).
    rewrite (IH (next b) l c2) by (done || simpl in Hf; lia).
    do 4 f_equal. rewrite drop_app_ge by lia. do 2 f_equal. lia.
  - assert (Hin : off = 0 \/ off < len b).
    { destruct (Z.eqb_spec off 0); [by left|right]. simpl in Hskip. by apply Z.leb_gt. }
    rewrite (u16_small (len b - off)) by (unfold is_u16; lia).
    set (w := if n <? len b - off then n else len b - off).
    assert (Hw : w = Z.min n (len b - off)) by (subst w; zcase). clearbody w.
    replace off with (Z.of_nat (Z.to_nat off)) at 1 by lia.
    rewrite (load_bytes_sub _ _ _ _ _ _ Hload) by lia. cbn [mbind outcome_bind].
    rewrite <- (take_drop (Z.to_nat w) d1), <- app_assoc.
    rewrite wr_block_mid by (rewrite ?length_take, ?length_drop; lia). cbn [mbind outcome_bind].
    rewrite !u16_small by (unfold is_u16; lia).
    rewrite (IH (next b) l c2) by (done || rewrite ?length_app, ?length_take, ?length_drop; simpl in Hf; lia).
    rewrite <- !app_assoc. rewrite !length_drop, length_app, length_take, length_drop.
    f_equal. f_equal; [lia|]. f_equal. rewrite app_assoc. f_equal.
    rewrite drop_0, drop_app_le, take_app, length_drop by lia.
    assert (Hd : (Z.to_nat w `min` length d1 + (length d1 - Z.to_nat w) = length d1)%nat) by lia.
    rewrite Hd. destruct (decide (n < len b - off)).
    + replace (length d1) with (Z.to_nat w) by lia. f_equal. rewrite Nat.sub_diag.
      by replace (Z.to_nat w - (length c1 - Z.to_nat off))%nat with 0%nat by lia.
    + rewrite !(take_ge (drop _ c1)) by (rewrite length_drop; lia). do 2 f_equal. lia.
Qed.

(* ------------------------------------------------------------------ *)
(** * Writing *)

Lemma store_bytes_ok m a l :
  (forall i, a <= i < a + zlen l -> is_Some (m !! i)) ->
  exists m', store_bytes m a l = Ok m' /\
    forall i, m' !! i = if (a <=? i) && (i <? a + zlen l) then l !! Z.to_nat (i - a) else m !! i.
Proof.
  revert m a. induction l as [|x l IH]; intros m a Hm; cbn [store_bytes].
  - exists m. split; [done|]. intros i. simpl. zcase; by rewrite ?andb_false_r.
  - destruct (Hm a) as [y Hy]; [simpl; lia|]. rewrite Hy.
    destruct (IH (<[a:=x]> m) (a + 1)) as (m' & E & Hm').
    { intros i Hi. destruct (decide (i = a)) as [->|]; [by rewrite lookup_insert_eq|].
      rewrite lookup_insert_ne by done. apply Hm. simpl. lia. }
    exists m'. split; [done|]. intros i. rewrite Hm'. cbn [length].
    destruct (decide (i = a)) as [->|Hne].
    + rewrite (proj2 (Z.leb_gt _ _)), (proj2 (Z.leb_le a a)) by lia. cbn [andb].
      rewrite (proj2 (Z.ltb_lt _ _)) by lia. by rewrite lookup_insert_eq, Z.sub_diag.
    + rewrite lookup_insert_ne by done. zcase; cbn [andb]; try done.
      replace (Z.to_nat (i - a)) with (S (Z.to_nat (i - (a + 1)))) by lia. done.
Qed.

(** The address [i] belongs to a payload of the chain. *)
Definition in_payload (l : list (Z * pbuf)) (i : Z) : Prop :=
  exists a b, (a, b) ∈ l /\ payload b <= i < payload b + len b.

Fixpoint disjoint_payloads (l : list (Z * pbuf)) : Prop :=
  match l with
  | [] => True
  | (_, b) :: l => (forall i, payload b <= i < payload b + len b -> ~ in_payload l i) /\ disjoint_payloads l
  end.

Lemma in_payload_cons a b l i :
  in_payload ((a, b) :: l) i <-> payload b <= i < payload b + len b \/ in_payload l i.
Proof.
  unfold in_payload. setoid_rewrite elem_of_cons. naive_solver.
Qed.

Lemma content_agree bs bs' l c :
  (forall i, in_payload l i -> bs' !! i = bs !! i) -> content bs l c -> content bs' l c.
Proof.
  revert c. induction l as [|[a b] l IH]; intros c Hm; [done|].
  intros (c1 & c2 & -> & Hl & Hc). exists c1, c2. split_and!; [done| |].
  - rewrite <- Hl. apply load_bytes_agree. intros i Hi. apply Hm, in_payload_cons. left.
    pose proof Hl as [Hn _]%load_bytes_ok. lia.
  - apply IH; [|done]. intros i Hi. apply Hm, in_payload_cons. by right.
Qed.

(** Copying in: the first [n] bytes of the content are replaced. *)
Lemma take_loop_spec fuel m bs p l c d n copied :
  chain m p l -> packet l -> content bs l c -> disjoint_payloads l -> (length l <= fuel)%nat ->
  0 <= n <= zlen c -> 0 <= copied -> copied + n <= zlen d ->
  exists bs', take_loop fuel m bs p d n copied = Ok (bs', copied + n) /\
    content bs' l (take (Z.to_nat n) (drop (Z.to_nat copied) d) ++ drop (Z.to_nat n) c) /\
    (forall i, ~ in_payload l i -> bs' !! i = bs !! i).
Proof.
  revert bs p l c n copied. induction fuel as [|fuel IH]; intros bs p l c n copied Hl Hp Hc Hd Hf Hn H0 Hcop.
  all: destruct (decide (n = 0)) as [->|Hn0];
    [exists bs; rewrite Z.add_0_r, drop_0; by destruct l|].
  all: destruct l as [|[a b] l]; [simpl in Hc; subst c; simpl in Hn; lia|].
  { simpl in Hf. lia. }
  pose proof Hl as (-> & Ha & Hb & Hl'). pose proof Hp as (_ & [Hlen _] & Hp').
  pose proof Hc as (c1 & c2 & -> & Hload & Hc'). pose proof Hload as [Hc1 Hm1]%load_bytes_ok.
  destruct Hd as [Hd1 Hd2]. unfold is_u16 in Hlen. rewrite length_app in Hn. cbn [take_loop].
  rewrite (proj2 (Z.eqb_neq n 0)), (proj2 (Z.eqb_neq a 0)) by done. unfold deref. rewrite Hb.
  cbn [negb lwip_assert mbind outcome_bind].
  set (w := if len b <? n then len b else n).
  assert (Hw : w = Z.min n (len b)) by (subst w; zcase). clearbody w.
  rewrite rd_block_in by lia. cbn [mbind outcome_bind].
  set (s := take (Z.to_nat w) (drop (Z.to_nat copied) d)).
  assert (Hs : zlen s = w) by (subst s; rewrite length_take, length_drop; lia).
  destruct (store_bytes_ok bs (payload b) s) as (bs1 & -> & Hbs1).
  { intros i Hi. replace i with (payload b + Z.of_nat (Z.to_nat (i - payload b))) by lia.
    rewrite Hm1 by lia. apply lookup_lt_is_Some_2. lia. }
  cbn [mbind outcome_bind]. rewrite Hs in Hbs1.
  assert (Hout : forall i, ~ payload b <= i < payload b + len b -> bs1 !! i = bs !! i).
  { intros i Hi. rewrite Hbs1. zcase; by rewrite ?andb_false_r. }
  destruct (IH bs1 (next b) l c2 (n - w) (copied + w)) as (bs2 & E & Hc2 & Hout2); try done; try lia.
  { eapply content_agree; [|done]. intros i Hi. apply Hout. intros Hi'. by apply (Hd1 i Hi'). }
  { simpl in Hf. lia. }
  exists bs2. rewrite E. split_and!; [do 2 f_equal; lia| |].
  - exists (s ++ drop (Z.to_nat w) c1), (take (Z.to_nat (n - w)) (drop (Z.to_nat (copied + w)) d) ++
      drop (Z.to_nat (n - w)) c2). split_and!; [| |done].
    + subst s. rewrite drop_app. rewrite Hc1. destruct (decide (n <= len b)).
      * replace w with n by lia. rewrite Z.sub_diag. simpl.
        replace (Z.to_nat n - Z.to_nat (len b))%nat with 0%nat by lia. by rewrite app_assoc.
      * replace w with (len b) by lia. rewrite !(drop_ge c1) by lia. rewrite app_nil_r. simpl.
        replace (Z.to_nat n) with (Z.to_nat (len b) + Z.to_nat (n - len b))%nat by lia.
        rewrite <- take_take_drop, drop_drop, <- app_assoc. do 2 f_equal; [do 2 f_equal; lia|f_equal; lia].
    + apply load_bytes_ok. split; [rewrite length_app, length_drop; lia|]. intros i Hi.
      rewrite Hout2 by (apply Hd1; lia). rewrite Hbs1. destruct (decide (Z.of_nat i < w)).
      * rewrite (proj2 (Z.leb_le _ _)), (proj2 (Z.ltb_lt _ _)) by lia. cbn [andb].
        rewrite lookup_app_l by lia. f_equal. lia.
      * rewrite (proj2 (Z.ltb_ge _ _)), andb_false_r by lia.
        rewrite Hm1, lookup_app_r, lookup_drop by lia. f_equal. lia.
  - intros i Hi. rewrite in_payload_cons in Hi. rewrite Hout2 by naive_solver. apply Hout. naive_solver.
Qed.

(* ------------------------------------------------------------------ *)
(** * Properties *)

(** [pbuf_take] and [pbuf_copy_partial] are inverse: when the packet is
    long enough, data copied into it replaces the first bytes of its content,
    wherever the chain is cut, no byte outside the chain's payloads changes,
    and copying the same number of bytes out gives the data back. A packet
    that is too short is refused and nothing is written. *)
Theorem pbuf_take_roundtrip m bs p l c d buf :
  chain m p l -> packet l -> content bs l c -> disjoint_payloads l -> l <> [] ->
  zlen buf = zlen d -> is_u16 (zlen d) ->
  (zlen c < zlen d /\ pbuf_take m bs p (Some d) (zlen d) = Ok (ERR_MEM, bs)) \/
  (exists bs', pbuf_take m bs p (Some d) (zlen d) = Ok (ERR_OK, bs') /\
     content bs' l (d ++ drop (length d) c) /\
     (forall i, ~ in_payload l i -> bs' !! i = bs !! i) /\
     pbuf_copy_partial m bs' p (Some buf) (zlen d) 0 = Ok (zlen d, Some d)).
Proof.
  intros Hl Hp Hc Hd Hne Hbuf Hn. pose proof (content_length _ _ _ Hc Hp) as Hlen.
  pose proof (chain_length _ _ _ Hl) as Hfuel. unfold is_u16 in Hn.
  assert (Hp0 : p <> 0) by (rewrite chain_nonzero; done).
  unfold pbuf_take. rewrite (proj2 (Z.eqb_neq p 0)) by done.
  destruct l as [|[a b] l]; [done|]. pose proof Hl as (-> & _ & Hb & _). pose proof Hp as (Et & _).
  assert (Hder : deref m a = Ok b) by (unfold deref; by rewrite Hb).
  rewrite !Hder. cbn [mbind outcome_bind]. simpl in Hlen.
  destruct (Z.ltb_spec (tot_len b) (zlen d)) as [Hlt|Hge]; [left; split; [lia|done]|right].
  destruct (take_loop_spec (chain_fuel m) m bs a _ c d (zlen d) 0 Hl Hp Hc Hd) as (bs' & E & Hc' & Hout);
    [unfold chain_fuel; lia|lia|lia|lia|].
  rewrite Z.add_0_l in E. rewrite drop_0, Nat2Z.id, firstn_all in Hc'.
  exists bs'. rewrite E. cbn [mbind outcome_bind]. rewrite Z.eqb_refl. split_and!; [done..|].
  unfold pbuf_copy_partial. rewrite (proj2 (Z.eqb_neq a 0)) by done.
  pose proof (copy_partial_loop_spec (chain_fuel m) m bs' a _ _ (zlen d) 0 0 0 [] buf [] Hl Hp Hc') as Ec.
  rewrite !app_nil_r, app_nil_l in Ec.
  rewrite Ec by (unfold is_u16, chain_fuel; rewrite ?length_app, ?length_drop; cbn [length] in *; lia).
  cbn [mbind outcome_bind]. rewrite Z.add_0_l, Hbuf. simpl. rewrite drop_0, take_app_le by lia.
  by replace (length buf) with (length d) by lia; rewrite firstn_all.
Qed.

(** The packet 1 2 | 3 1 2, in two pbufs. *)
Definition demo_chain : list (Z * pbuf) :=
  [(0x100, mk_pbuf 0x200 0x1000 5 2 0 0 1 0); (0x200, mk_pbuf 0 0x2000 3 3 0 0 1 0)].
Definition demo_pbufs : gmap Z pbuf := list_to_map demo_chain.
Definition demo_bytes : gmap Z Z :=
  list_to_map [(0x1000, 1); (0x1001, 2); (0x2000, 3); (0x2001, 1); (0x2002, 2)].

Lemma demo_ok : chain demo_pbufs 0x100 demo_chain /\ packet demo_chain /\
  content demo_bytes demo_chain [1; 2; 3; 1; 2] /\ disjoint_payloads demo_chain /\ demo_chain <> [].
Proof.
  split_and!; try done.
  - exists [1; 2], [3; 1; 2]. split_and!; try done. exists [3; 1; 2], []. by split_and!.
  - split; [|split; [|done]]; intros i Hi (a & b & Hin & Hi').
    + apply list_elem_of_singleton in Hin as [= -> ->]. simpl in *. lia.
    + by apply not_elem_of_nil in Hin.
Qed.

Lemma pbuf_take_roundtrip_witness :
  exists bs', pbuf_take demo_pbufs demo_bytes 0x100 (Some [7; 8; 9]) 3 = Ok (ERR_OK, bs') /\
     content bs' demo_chain [7; 8; 9; 1; 2] /\
     pbuf_copy_partial demo_pbufs bs' 0x100 (Some [0; 0; 0]) 3 0 = Ok (3, Some [7; 8; 9]).
Proof.
  destruct demo_ok as (H1 & H2 & H3 & H4 & H5).
  destruct (pbuf_take_roundtrip demo_pbufs demo_bytes 0x100 demo_chain _ [7; 8; 9] [0; 0; 0] H1 H2 H3 H4 H5)
    as [[H _]|(bs' & E & Hc & _ & Ec)]; [done|by vm_compute|by vm_compute in H|].
  by exists bs'.
Defined.

Lemma copy_partial_ok m bs p l c buf n offset :
  chain m p l -> packet l -> content bs l c -> l <> [] -> is_u16 n -> is_u16 offset ->
  let k := Z.max 0 (Z.min n (zlen c - offset)) in
  k <= zlen buf ->
  pbuf_copy_partial m bs p (Some buf) n offset =
    Ok (k, Some (take (Z.to_nat k) (drop (Z.to_nat offset) c) ++ drop (Z.to_nat k) buf)).
Proof.
  intros Hl Hp Hc Hne Hn Ho k Hk. pose proof (content_length _ _ _ Hc Hp) as Hlen.
  pose proof (packet_lens _ Hp) as Hlens. pose proof (chain_length _ _ _ Hl) as Hfuel.
  assert (Hp0 : p <> 0) by (rewrite chain_nonzero; done).
  unfold pbuf_copy_partial. rewrite (proj2 (Z.eqb_neq p 0)) by done.
  unfold is_u16 in *. assert (Hk0 : 0 <= k) by lia.
  assert (Hlk : length (take (Z.to_nat k) buf) = Z.to_nat k) by (rewrite length_take; lia).
  pose proof (copy_partial_loop_spec (chain_fuel m) m bs p l c n offset 0 0 []
    (take (Z.to_nat k) buf) (drop (Z.to_nat k) buf) Hl Hp Hc) as Ec.
  rewrite !app_nil_l, take_drop, Hlk, Z2Nat.id, Z.add_0_l in Ec by done.
  by rewrite Ec by (unfold is_u16, chain_fuel; simpl; lia).
Qed.

(** [pbuf_copy_partial] copies out the slice of the packet's content that
    starts at [offset]: as many of the [n] bytes as there are behind it, into
    the front of the array, and returns their number, 0 when the offset lies
    behind the packet. *)
Theorem pbuf_copy_partial_slice m bs p l c buf n offset :
  chain m p l -> packet l -> content bs l c -> l <> [] -> is_u16 n -> is_u16 offset ->
  let k := Z.max 0 (Z.min n (zlen c - offset)) in
  k <= zlen buf ->
  pbuf_copy_partial m bs p (Some buf) n offset =
    Ok (k, Some (take (Z.to_nat k) (drop (Z.to_nat offset) c) ++ drop (Z.to_nat k) buf)).
Proof. intros. by eapply copy_partial_ok. Qed.

Lemma pbuf_copy_partial_slice_witness :
  chain demo_pbufs 0x100 demo_chain /\
  pbuf_copy_partial demo_pbufs demo_bytes 0x100 (Some [0; 0; 0; 0]) 3 1 = Ok (3, Some [2; 3; 1; 0]).
Proof.
  destruct demo_ok as (H1 & H2 & H3 & H4 & H5). split; [exact H1|].
  apply (pbuf_copy_partial_slice demo_pbufs demo_bytes 0x100 demo_chain [1; 2; 3; 1; 2] [0; 0; 0; 0] 3 1);
    try done; by vm_compute.
Defined.

(** [pbuf_memfind] finds the first occurrence: it returns the smallest
    offset, from [start_offset] on, at which the pattern stands in the
    packet's content, and 0xFFFF exactly when there is none. *)
Theorem pbuf_memfind_first m bs p l c pat start_offset :
  chain m p l -> packet l -> content bs l c -> Forall is_u8 c -> l <> [] ->
  is_u16 start_offset -> zlen pat < 65536 ->
  let here i := start_offset <= i /\ i + zlen pat <= zlen c /\ occurs c pat i in
  exists r, pbuf_memfind m bs p pat (zlen pat) start_offset = Ok r /\
    ((here r /\ forall j, here j -> r <= j) \/ (r = 0xFFFF /\ forall j, ~ here j)).
Proof.
  intros Hl Hp Hc Hu Hne Hs Hpat here. pose proof (content_length _ _ _ Hc Hp) as Hlen.
  pose proof (packet_lens _ Hp) as Hlens. unfold is_u16 in Hs.
  unfold pbuf_memfind, deref. destruct l as [|[a b] l]; [done|].
  pose proof Hl as (-> & _ & Hb & _). pose proof Hp as (Et & _). rewrite Hb. cbn [mbind outcome_bind].
  simpl in Hlen, Hlens. destruct (Z.leb_spec (zlen pat + start_offset) (tot_len b)) as [Hle|Hgt].
  - rewrite u16_small by (unfold is_u16; lia).
    destruct (memfind_loop_spec m bs a _ c pat (S (Z.to_nat (tot_len b - zlen pat))) start_offset
      (tot_len b - zlen pat) Hl Hp Hc Hu Hne) as (r & E & Hr); try (unfold is_u16; lia).
    exists r. split; [done|]. unfold here. destruct Hr as [(Hr & Ho & Hf)|(-> & Hf)]; [left|right].
    + split_and!; [lia|lia|done|]. intros j (? & ? & Hj). destruct (Z_lt_dec j r); [|lia].
      by destruct (Hf j ltac:(lia)).
    + split; [done|]. intros j (? & ? & Hj). by apply (Hf j ltac:(lia)).
  - eexists. split; [done|]. right. split; [done|]. intros j (? & ? & _). lia.
Qed.

Lemma pbuf_memfind_first_witness :
  exists r, pbuf_memfind demo_pbufs demo_bytes 0x100 [1; 2] 2 1 = Ok r /\
    ((1 <= r /\ r + 2 <= 5 /\ occurs [1; 2; 3; 1; 2] [1; 2] r) \/ r = 0xFFFF).
Proof.
  destruct demo_ok as (H1 & H2 & H3 & H4 & H5).
  destruct (pbuf_memfind_first demo_pbufs demo_bytes 0x100 demo_chain [1; 2; 3; 1; 2] [1; 2] 1 H1 H2 H3)
    as (r & E & [(Hr & _)|(-> & _)]); try done.
  - by repeat constructor.
  - exists r. split; [exact E|]. by left.
Defined.
