(* ===== verification/PbufHeaders.v ===== *)
(** Headers of packets: a header is put in front of a packet by moving the
    payload pointer of its first pbuf back over the headroom, taken off by
    moving it on, and filled in or read field by field. *)

From Stdlib Require Import ZArith Lia.
From stdpp Require Import base list numbers gmap sets.
From S2P Require Import Prelude Mmio Mem Memp Pbuf PbufChain.

Open Scope Z_scope.

(* ------------------------------------------------------------------ *)
(** * Moving the payload pointer *)

(** The first pbuf with [n] bytes more, or less, in front. *)
Definition grown (n : Z) (b : pbuf) : pbuf :=
  set_tot_len (tot_len b + n) (set_len (len b + n) (set_payload (payload b - n) b)).
Definition trimmed (n : Z) (b : pbuf) : pbuf :=
  set_tot_len (tot_len b - n) (set_len (len b - n) (set_payload (payload b + n) b)).

(** A chain whose first header changed. *)
Lemma chain_set_head m p b l b' : chain m p ((p, b) :: l) -> next b' = next b ->
  chain (<[p := b']> m) p ((p, b') :: l).
Proof.
  intros Hl E. pose proof (chain_nodup _ _ _ Hl) as Hn. rewrite fmap_cons, NoDup_cons in Hn. destruct Hn as [Hn _].
  destruct Hl as (_ & Hz & Hb & Hl). split_and!; [done|done|by rewrite lookup_insert_eq|]. rewrite E.
  apply (chain_agree m); [|done]. intros a Ha. rewrite lookup_insert_ne; [done|]. intros ->. by apply Hn.
Qed.

(** Headers that differ in more than the payload's place and length leave
    the content alone. *)
Lemma content_same_head bs p b l c b' : content bs ((p, b) :: l) c -> payload b' = payload b -> len b' = len b ->
  content bs ((p, b') :: l) c.
Proof. intros (c1 & c2 & -> & Hl & Hc) Ep El. exists c1, c2. by rewrite Ep, El. Qed.

Lemma grown_packet n bs p b l c h : packet ((p, b) :: l) -> content bs ((p, b) :: l) c ->
  load_bytes bs (payload b - n) (Z.to_nat n) = Ok h -> 0 <= n -> zlen c + n < 65536 ->
  packet ((p, grown n b) :: l) /\ content bs ((p, grown n b) :: l) (h ++ c) /\
  tot_len (grown n b) = zlen c + n /\ len (grown n b) = len b + n.
Proof.
  intros Hp Hc Hh Hn Hlt. pose proof (content_length _ _ _ Hc Hp) as Hcl. destruct Hp as (Et & [Hl [Ht Hr]] & Hp).
  simpl in Hcl. pose proof (packet_lens l Hp). unfold is_u16 in Hl.
  assert (El : u16 (len b + n) = len b + n) by (apply u16_small; ulia).
  assert (Etot : u16 (tot_len b + n) = tot_len b + n) by (apply u16_small; ulia).
  split; [|split; [|split; [change (u16 (tot_len b + n) = zlen c + n); lia|exact El]]].
  - cbn [packet grown set_tot_len set_len set_payload tot_len len ref]. rewrite El, Etot.
    split; [lia|]. split; [|done]. split_and!; [apply u16_range|apply u16_range|done].
  - destruct Hc as (c1 & c2 & -> & Hl1 & Hc2). exists (h ++ c1), c2. split; [by rewrite app_assoc|].
    split; [|done]. cbn [grown set_tot_len set_len set_payload payload len]. rewrite El.
    pose proof Hh as [Hhn Hhm]%load_bytes_ok. pose proof Hl1 as [Hn1 Hm1]%load_bytes_ok.
    apply load_bytes_ok. split; [rewrite length_app; lia|]. intros i Hi. destruct (decide (i < Z.to_nat n)%nat).
    + rewrite lookup_app_l by lia. by rewrite <- Hhm by lia.
    + rewrite lookup_app_r, Hhn by lia. rewrite <- Hm1 by lia. f_equal. lia.
Qed.

Lemma trimmed_packet n bs p b l c : packet ((p, b) :: l) -> content bs ((p, b) :: l) c -> 0 <= n <= len b ->
  packet ((p, trimmed n b) :: l) /\ content bs ((p, trimmed n b) :: l) (drop (Z.to_nat n) c) /\
  tot_len (trimmed n b) = tot_len b - n /\ len (trimmed n b) = len b - n.
Proof.
  intros (Et & [Hl [Ht Hr]] & Hp) (c1 & c2 & -> & Hl1 & Hc2) Hlen.
  pose proof (packet_lens l Hp). pose proof Hl1 as [Hn1 _]%load_bytes_ok. unfold is_u16 in Hl.
  assert (El : u16 (len b - n) = len b - n) by (apply u16_small; ulia).
  assert (Etot : u16 (tot_len b - n) = tot_len b - n) by (apply u16_small; ulia).
  split; [|split; [|split; [exact Etot|exact El]]].
  - cbn [packet trimmed set_tot_len set_len set_payload tot_len len ref]. rewrite El, Etot.
    split; [lia|]. split; [|done]. split_and!; [apply u16_range|apply u16_range|done].
  - exists (drop (Z.to_nat n) c1), c2. split; [by rewrite drop_app_le by lia|]. split; [|done].
    cbn [trimmed set_tot_len set_len set_payload payload len]. rewrite El.
    pose proof (load_bytes_sub _ _ _ _ (Z.to_nat n) (Z.to_nat (len b) - Z.to_nat n) Hl1 ltac:(lia)) as H8.
    replace (Z.to_nat (len b - n)) with (Z.to_nat (len b) - Z.to_nat n)%nat by lia.
    rewrite take_ge in H8 by (rewrite length_drop; lia). by rewrite Z2Nat.id in H8 by lia.
Qed.

Lemma add_header_ok n m p b : m !! p = Some b -> p <> 0 -> 0 < n -> tot_len b + n < 65536 -> 0 <= tot_len b ->
  Z.land (type_internal b) PBUF_TYPE_FLAG_STRUCT_DATA_CONTIGUOUS <> 0 -> p + SIZEOF_STRUCT_PBUF <= payload b - n ->
  pbuf_add_header m p n = Ok (0, <[p := grown n b]> m).
Proof.
  intros Hb Hp Hn Hlt Ht Hf Hroom. unfold pbuf_add_header, pbuf_add_header_impl.
  rewrite (proj2 (Z.eqb_neq p 0)) by done. cbn [negb lwip_assert mbind outcome_bind].
  rewrite (proj2 (Z.ltb_ge 0xFFFF n)), (proj2 (Z.eqb_neq n 0)) by lia.
  unfold deref. rewrite Hb. cbn [mbind outcome_bind]. rewrite (u16_small n) by ulia.
  rewrite (u16_small (n + tot_len b)), (proj2 (Z.ltb_ge _ _)) by ulia.
  rewrite (proj2 (Z.eqb_neq _ _) Hf). cbn [negb]. by rewrite (proj2 (Z.ltb_ge _ _)) by lia.
Qed.

Lemma remove_header_ok n m p b : m !! p = Some b -> p <> 0 -> 0 < n <= len b -> len b < 65536 ->
  pbuf_remove_header m p n = Ok (0, <[p := trimmed n b]> m).
Proof.
  intros Hb Hp Hn Hlen. unfold pbuf_remove_header.
  rewrite (proj2 (Z.eqb_neq p 0)) by done. cbn [negb lwip_assert mbind outcome_bind].
  rewrite (proj2 (Z.ltb_ge 0xFFFF n)), (proj2 (Z.eqb_neq n 0)) by lia. unfold deref. rewrite Hb. cbn [mbind outcome_bind].
  rewrite (u16_small n) by ulia. by rewrite (proj2 (Z.ltb_ge (len b) n)) by lia.
Qed.

(** Taking off in turn what was put on. *)
Lemma trimmed_trimmed n m b : 0 <= n -> 0 <= m -> n + m <= len b < 65536 -> len b <= tot_len b < 65536 ->
  trimmed m (trimmed n b) = trimmed (n + m) b.
Proof.
  intros. unfold trimmed, set_tot_len, set_len, set_payload.
  cbn [payload len tot_len Pbuf.next type_internal flags ref if_idx].
  rewrite !(u16_small (_ - n)), !(u16_small (_ - n - m)), !(u16_small (_ - (n + m))) by ulia. f_equal; lia.
Qed.

(* ------------------------------------------------------------------ *)
(** * Fields in memory *)

(** Bytes [v] at [off] in the first buffer of a chain: the content gets them,
    and nothing else in memory changes. *)
Definition put_at (off : Z) (v c : list Z) : list Z := take (Z.to_nat off) c ++ v ++ drop (Z.to_nat off + length v) c.

Lemma store_block bs q b l c off v : content bs ((q, b) :: l) c -> disjoint_payloads ((q, b) :: l) ->
  0 <= off -> off + zlen v <= len b ->
  exists bs', store_bytes bs (payload b + off) v = Ok bs' /\ content bs' ((q, b) :: l) (put_at off v c) /\
    (forall i, ~ payload b <= i < payload b + len b -> bs' !! i = bs !! i) /\ (forall i, is_Some (bs !! i) -> is_Some (bs' !! i)).
Proof.
  intros Hc [Hd _] Hoff Hlen. pose proof Hc as (c1 & c2 & -> & Hl & Hc2). pose proof Hl as [Hn Hm]%load_bytes_ok.
  destruct (store_bytes_ok bs (payload b + off) v) as (bs' & E & Hbs').
  { intros i Hi. replace i with (payload b + Z.of_nat (Z.to_nat (i - payload b))) by lia.
    rewrite Hm by lia. apply lookup_lt_is_Some_2. lia. }
  exists bs'. split; [exact E|]. unfold put_at. split; [|split].
  - exists (take (Z.to_nat off) c1 ++ v ++ drop (Z.to_nat off + length v) c1), c2. split_and!.
    + rewrite <- !app_assoc. rewrite take_app_le, drop_app_le by lia. done.
    + apply load_bytes_ok. split; [rewrite !length_app, length_take, length_drop; lia|]. intros i Hi. rewrite Hbs'.
      destruct (decide (off <= Z.of_nat i < off + zlen v)) as [Hin|Hout].
      * rewrite (proj2 (Z.leb_le _ _)), (proj2 (Z.ltb_lt _ _)) by lia. cbn [andb].
        rewrite lookup_app_r, length_take by (rewrite length_take; lia).
        rewrite lookup_app_l by lia. f_equal. lia.
      * assert (Eb : (payload b + off <=? payload b + Z.of_nat i) && (payload b + Z.of_nat i <? payload b + off + zlen v) = false)
          by (zcase; done).
        rewrite Eb, Hm by done. destruct (decide (Z.of_nat i < off)).
        -- rewrite lookup_app_l by (rewrite length_take; lia). by rewrite lookup_take_lt by lia.
        -- rewrite lookup_app_r, length_take by (rewrite length_take; lia).
           rewrite lookup_app_r by lia. rewrite lookup_drop. f_equal. lia.
    + apply (content_agree bs); [|done]. intros i Hi. rewrite Hbs'.
      destruct (Z.leb_spec (payload b + off) i), (Z.ltb_spec i (payload b + off + zlen v)); cbn [andb]; try done.
      destruct (Hd i ltac:(lia) Hi).
  - intros i Hi. rewrite Hbs'. zcase; cbn [andb]; try done; lia.
  - intros i Hi. rewrite Hbs'. zcase; cbn [andb]; try done. apply lookup_lt_is_Some_2. lia.
Qed.

(** Bytes read from the first buffer of a chain. *)
Lemma load_block bs q b l c off n : content bs ((q, b) :: l) c -> 0 <= off -> off + Z.of_nat n <= len b ->
  load_bytes bs (payload b + off) n = Ok (take n (drop (Z.to_nat off) c)).
Proof.
  intros (c1 & c2 & -> & Hl & _) Hoff Hn. pose proof Hl as [Hlen _]%load_bytes_ok.
  pose proof (load_bytes_sub _ _ _ _ (Z.to_nat off) n Hl ltac:(lia)) as E. rewrite Z2Nat.id in E by done. rewrite E.
  rewrite drop_app_le, take_app_le by (rewrite ?length_drop; lia). done.
Qed.

(* ------------------------------------------------------------------ *)
(** * Headroom *)

(** In front of the packet's first pbuf there are [n] bytes for headers. *)
Record headroom (bs : gmap Z Z) (p : Z) (b : pbuf) (l : list (Z * pbuf)) (n : Z) : Prop := {
  hr_contiguous : Z.land (type_internal b) PBUF_TYPE_FLAG_STRUCT_DATA_CONTIGUOUS <> 0;
  hr_place : p + SIZEOF_STRUCT_PBUF <= payload b - n;
  hr_mapped i : payload b - n <= i < payload b -> is_Some (bs !! i);
  hr_apart i : payload b - n <= i < payload b + len b -> ~ in_payload l i;
  hr_tail : disjoint_payloads l
}.

Lemma headroom_disjoint bs p b l n : headroom bs p b l n -> 0 <= n -> disjoint_payloads ((p, b) :: l).
Proof. intros [_ _ _ Ha Ht] Hn. split; [|done]. intros i Hi. apply Ha. lia. Qed.

Lemma headroom_bytes bs p b l n m : headroom bs p b l n -> 0 <= m <= n ->
  exists h, load_bytes bs (payload b - m) (Z.to_nat m) = Ok h /\ length h = Z.to_nat m.
Proof.
  intros [_ _ Hm _ _] Hn. assert (G : forall k, Z.of_nat k <= m ->
    exists h, load_bytes bs (payload b - Z.of_nat k) k = Ok h).
  { induction k as [|k IH]; intros Hk; [by exists []|]. destruct IH as [h Eh]; [lia|].
    destruct (Hm (payload b - Z.of_nat (S k)) ltac:(lia)) as [x Ex]. exists (x :: h). cbn [load_bytes].
    rewrite Ex. replace (payload b - Z.of_nat (S k) + 1) with (payload b - Z.of_nat k) by lia. by rewrite Eh. }
  destruct (G (Z.to_nat m) ltac:(lia)) as [h Eh]. rewrite Z2Nat.id in Eh by lia. exists h.
  split; [done|]. by apply load_bytes_ok in Eh as [? _].
Qed.

(** What is left when [m] bytes are used; writing into the packet leaves it. *)
Lemma headroom_grown bs bs' p b b' l n m : headroom bs p b l n -> 0 <= m <= n ->
  (forall i, is_Some (bs !! i) -> is_Some (bs' !! i)) ->
  payload b' = payload b - m -> len b' = len b + m -> type_internal b' = type_internal b ->
  headroom bs' p b' l (n - m).
Proof.
  intros [Hc Hp Hm Ha Ht] Hn Hd Ep El Et. split; rewrite ?Ep, ?El, ?Et; [done|lia| | |done].
  - intros i Hi. apply Hd, Hm. lia.
  - intros i Hi. apply Ha. lia.
Qed.

Lemma headroom_same bs bs' p b b' l n : headroom bs p b l n -> 0 <= n ->
  (forall i, is_Some (bs !! i) -> is_Some (bs' !! i)) ->
  payload b' = payload b -> len b' = len b -> type_internal b' = type_internal b -> headroom bs' p b' l n.
Proof.
  intros Hh Hn Hd Ep El Et. rewrite <- (Z.sub_0_r n). apply (headroom_grown bs _ _ b); try done; lia.
Qed.

(** A header of [m] bytes put in front: the packet starts with what the
    headroom held. *)
Lemma push_header bs mp p b l c n m : chain mp p ((p, b) :: l) -> packet ((p, b) :: l) -> content bs ((p, b) :: l) c ->
  headroom bs p b l n -> 0 < m <= n -> zlen c + m < 65536 ->
  pbuf_add_header mp p m = Ok (0, <[p := grown m b]> mp) /\
  chain (<[p := grown m b]> mp) p ((p, grown m b) :: l) /\ packet ((p, grown m b) :: l) /\
  (exists h, content bs ((p, grown m b) :: l) (h ++ c) /\ length h = Z.to_nat m) /\
  headroom bs p (grown m b) l (n - m) /\ tot_len (grown m b) = zlen c + m /\ len (grown m b) = len b + m.
Proof.
  intros Hch Hp Hc Hh Hm Hlt. destruct (headroom_bytes _ _ _ _ _ m Hh ltac:(lia)) as (h & Eh & Hlen).
  destruct (grown_packet m _ _ _ _ _ _ Hp Hc Eh ltac:(lia) Hlt) as (Hp1 & Hc1 & Et & El).
  pose proof (content_length _ _ _ Hc Hp) as Hcl. pose proof Hp as (Etot & (Hl & Ht & _) & Hpl). simpl in Hcl.
  destruct Hh as [Hf Hplace Hmap Hap Htl] eqn:Ehr. clear Ehr. unfold is_u16 in Ht.
  split_and!; try done.
  - apply add_header_ok; try done; try apply Hch; unfold is_u16 in *; lia.
  - by apply (chain_set_head _ _ b).
  - by exists h.
  - apply (headroom_grown bs _ _ b); try done. lia.
Qed.
