(* ===== verification/PbufAlloc.v ===== *)
(** Allocation and reference counts of pbufs: every header in use belongs to
    exactly one of the two pools and the heap, and [pbuf_alloc], [pbuf_free]
    and [pbuf_realloc] keep it so. *)

From Stdlib Require Import ZArith Lia.
From stdpp Require Import base list numbers gmap sets.
From S2P Require Import Prelude Mmio Mem MemProofs Memp Pbuf PbufChain.

Open Scope Z_scope.

Section Inv.
Context {PP RP HP : Type} {OP : PoolOps PP} {OR : PoolOps RP} {OH : HeapOps HP}.
Context `{PLP : !PoolLaws PP} `{PLR : !PoolLaws RP} `{HLH : !HeapLaws HP}.
Implicit Types (s : pheap PP RP HP).

Abbreviation POOL := (pool_elements (PS := PP)).
Abbreviation ROM := (pool_elements (PS := RP)).

(** Where a header at [a] comes from. *)
Definition from_source (bl : gmap Z Z) (a src : Z) : Prop :=
  (a ∈ POOL /\ src = 2) \/ (a ∈ ROM /\ src = 1) \/ (is_Some (bl !! a) /\ src = 0).

(** [lp] and [lr] are the free elements of the two pools, [bl] the blocks of
    the heap. *)
Record pheap_inv s (lp lr : list Z) (bl : gmap Z Z) : Prop := {
  inv_pool : pool_rep (pool_st s) lp;
  inv_rom : pool_rep (rom_st s) lr;
  inv_heap : heap_rep (heap_st s) bl;
  inv_pool_free a : a ∈ POOL -> a ∈ lp <-> pbufs s !! a = None;
  inv_rom_free a : a ∈ ROM -> a ∈ lr <-> pbufs s !! a = None;
  inv_src a b : pbufs s !! a = Some b -> from_source bl a (pbuf_get_allocsrc b);
  inv_sep : POOL ## ROM;
  inv_sep_heap a : is_Some (bl !! a) -> a ∉ POOL /\ a ∉ ROM
}.

(** A header changed in place. *)
Lemma inv_update s lp lr bl a b b' :
  pheap_inv s lp lr bl -> pbufs s !! a = Some b -> pbuf_get_allocsrc b' = pbuf_get_allocsrc b ->
  pheap_inv (with_pbufs <[a := b']> s) lp lr bl.
Proof using Type.
  intros [H1 H2 H3 H4 H5 H6 H7 H8] Hb Hsrc. split; try done; cbn [pbufs with_pbufs].
  - intros c Hc. rewrite H4 by done. destruct (decide (c = a)) as [->|];
      [by rewrite Hb, lookup_insert_eq|by rewrite lookup_insert_ne].
  - intros c Hc. rewrite H5 by done. destruct (decide (c = a)) as [->|];
      [by rewrite Hb, lookup_insert_eq|by rewrite lookup_insert_ne].
  - intros c d. destruct (decide (c = a)) as [->|]; [|rewrite lookup_insert_ne by done; apply H6].
    rewrite lookup_insert_eq. intros [= <-]. rewrite Hsrc. by apply H6.
Qed.

(** A header given back to its source. *)
Definition release (a src : Z) : io (pheap PP RP HP) unit :=
  _ ← free_to_source a src; pb_forget a.

(** What is free in the pools, and the blocks of the heap, with the pbuf [x]
    back where it came from. *)
Definition give_back (f : list Z * list Z * gmap Z Z) (x : Z * pbuf) : list Z * list Z * gmap Z Z :=
  let '(lp, lr, bl) := f in
  if pbuf_get_allocsrc x.2 =? PBUF_TYPE_ALLOC_SRC_MASK_STD_MEMP_PBUF_POOL then (x.1 :: lp, lr, bl)
  else if pbuf_get_allocsrc x.2 =? PBUF_TYPE_ALLOC_SRC_MASK_STD_MEMP_PBUF then (lp, x.1 :: lr, bl)
  else (lp, lr, delete x.1 bl).

Lemma release_spec s lp lr bl a b :
  pheap_inv s lp lr bl -> pbufs s !! a = Some b ->
  exists s' lp' lr' bl', release a (pbuf_get_allocsrc b) s = Ok (tt, s') /\
    pbufs s' = delete a (pbufs s) /\ bytes s' = bytes s /\
    give_back (lp, lr, bl) (a, b) = (lp', lr', bl') /\ pheap_inv s' lp' lr' bl'.
Proof using Type.
  intros [H1 H2 H3 H4 H5 H6 H7 H8] Hb. unfold give_back, release, free_to_source, mbind, io_bind, outcome_bind. cbn [fst snd].
  assert (Hdel : forall c, c <> a -> delete a (pbufs s) !! c = pbufs s !! c)
    by (intros; by apply lookup_delete_ne).
  destruct (H6 a b Hb) as [[Ha ->]|[[Ha ->]|[[n Ha] ->]]]; cbn [Z.eqb Pos.eqb PBUF_TYPE_ALLOC_SRC_MASK_STD_MEMP_PBUF_POOL
    PBUF_TYPE_ALLOC_SRC_MASK_STD_MEMP_PBUF PBUF_TYPE_ALLOC_SRC_MASK_STD_HEAP].
  - destruct (pool_free_ok (pool_st s) a lp H1 Ha) as (ps & E & H1').
    { intros Hin%H4; [congruence|done]. }
    unfold memp_free_PBUF_POOL, mbind, outcome_bind. rewrite E.
    eexists _, (a :: lp), lr, bl. split; [done|]. split_and!; [done..|]. split; try done; cbn [pbufs with_pbufs].
    + intros c Hc. rewrite elem_of_cons. destruct (decide (c = a)) as [->|]; [rewrite lookup_delete_eq; tauto|].
      rewrite Hdel, <- H4 by done. tauto.
    + intros c Hc. rewrite H5, Hdel; [done| |done]. intros ->. set_solver.
    + intros c d [Hne Hc]%lookup_delete_Some. by apply H6.
  - destruct (pool_free_ok (rom_st s) a lr H2 Ha) as (ps & E & H2').
    { intros Hin%H5; [congruence|done]. }
    unfold memp_free_PBUF, mbind, outcome_bind. rewrite E.
    eexists _, lp, (a :: lr), bl. split; [done|]. split_and!; [done..|]. split; try done; cbn [pbufs with_pbufs].
    + intros c Hc. rewrite H4, Hdel; [done| |done]. intros ->. set_solver.
    + intros c Hc. rewrite elem_of_cons. destruct (decide (c = a)) as [->|]; [rewrite lookup_delete_eq; tauto|].
      rewrite Hdel, <- H5 by done. tauto.
    + intros c d [Hne Hc]%lookup_delete_Some. by apply H6.
  - destruct (heap_free_ok (heap_st s) bl a n H3 Ha) as (hs & E & H3').
    destruct (H8 a) as [Hn1 Hn2]; [by eexists|].
    unfold pb_mem_free, mbind, outcome_bind. rewrite E.
    eexists _, lp, lr, (delete a bl). split; [done|]. split_and!; [done..|]. split; try done; cbn [pbufs with_pbufs].
    + intros c Hc. rewrite H4, Hdel; [done| |done]. by intros ->.
    + intros c Hc. rewrite H5, Hdel; [done| |done]. by intros ->.
    + intros c d [Hne Hc]%lookup_delete_Some. destruct (H6 c d Hc) as [?|[?|[? ?]]]; [by left|right; by left|].
      right; right. by rewrite lookup_delete_ne.
    + intros c [m [Hne Hc]%lookup_delete_Some]. apply H8. by eexists.
Qed.

(* ------------------------------------------------------------------ *)
(** ** Freeing *)

(** The headers of a chain after [pbuf_free]: those held by nobody else are
    gone up to the first that somebody else holds, which loses a reference. *)
Fixpoint after_free (l : list (Z * pbuf)) (m : gmap Z pbuf) : gmap Z pbuf :=
  match l with
  | [] => m
  | (a, b) :: l => if ref b =? 1 then after_free l (delete a m) else <[a := set_ref (ref b - 1) b]> m
  end.

(** The pbufs that go. *)
Fixpoint freed (l : list (Z * pbuf)) : list (Z * pbuf) :=
  match l with
  | [] => []
  | (a, b) :: l => if ref b =? 1 then (a, b) :: freed l else []
  end.

Definition held (x : Z * pbuf) : Prop := 0 < ref x.2 < 256.

Lemma after_free_outside l m a : a ∉ l.*1 -> after_free l m !! a = m !! a.
Proof using Type.
  revert m. induction l as [|[c b] l IH]; intros m; simpl; [done|].
  rewrite not_elem_of_cons. intros [Hne Hin]. destruct (ref b =? 1).
  - rewrite IH by done. by apply lookup_delete_ne.
  - by apply lookup_insert_ne.
Qed.

(** The prefix that goes and the header that stays. *)
Lemma after_free_split l m : NoDup l.*1 ->
  exists l1 l2, l = l1 ++ l2 /\ Forall (fun x => ref x.2 = 1) l1 /\ freed l = l1 /\
    (forall a, a ∈ l1.*1 -> after_free l m !! a = None) /\
    match l2 with
    | [] => True
    | (a, b) :: _ => ref b <> 1 /\ after_free l m !! a = Some (set_ref (ref b - 1) b)
    end /\
    (forall a, a ∉ l1.*1 -> a <> head_ptr l2 \/ l2 = [] -> after_free l m !! a = m !! a).
Proof using Type.
  revert m. induction l as [|[c b] l IH]; intros m Hnd.
  { exists [], []. split_and!; try done. by intros a ?%not_elem_of_nil. }
  rewrite fmap_cons in Hnd. apply NoDup_cons in Hnd as [Hc Hnd]. cbn [fst] in Hc.
  cbn [after_free freed]. destruct (Z.eqb_spec (ref b) 1) as [E|E].
  - destruct (IH (delete c m) Hnd) as (l1 & l2 & -> & H1 & Hn & Hd & H2 & Ho).
    exists ((c, b) :: l1), l2. split_and!; [done|by constructor|by rewrite Hn| |done|].
    + intros a. rewrite fmap_cons, elem_of_cons. intros [->|Ha]; [|by apply Hd]. cbn [fst].
      rewrite after_free_outside by done. apply lookup_delete_eq.
    + intros a. rewrite fmap_cons, not_elem_of_cons. intros [Hac Ha] Hl2. rewrite Ho by done.
      by apply lookup_delete_ne.
  - exists [], ((c, b) :: l). cbn [head_ptr].
    split_and!; try done; [by intros a ?%not_elem_of_nil|apply lookup_insert_eq|].
    intros a _ [Hac|?]; [|done]. by apply lookup_insert_ne.
Qed.

Lemma pbuf_free_loop_spec fuel s lp lr bl p l count :
  pheap_inv s lp lr bl -> chain (pbufs s) p l -> Forall held l -> is_u8 count -> (length l <= fuel)%nat ->
  exists s' lp' lr' bl', pbuf_free_loop fuel p count s = Ok (u8 (count + zlen (freed l)), s') /\
    pbufs s' = after_free l (pbufs s) /\ bytes s' = bytes s /\
    foldl give_back (lp, lr, bl) (freed l) = (lp', lr', bl') /\ pheap_inv s' lp' lr' bl'.
Proof using Type.
  revert s lp lr bl p l count.
  induction fuel as [|fuel IH]; intros s lp lr bl p l count Hinv Hl Hh Hc Hf.
  all: destruct l as [|[a b] l]; [simpl in Hl; subst p; exists s, lp, lr, bl; cbn [freed length foldl];
    rewrite Z.add_0_r, u8_small by done; split_and!; done|].
  { simpl in Hf. lia. }
  pose proof (chain_nodup _ _ _ Hl) as Hnd. rewrite fmap_cons in Hnd. apply NoDup_cons in Hnd as [Hnin _].
  destruct Hl as (-> & Ha & Hb & Hl). apply Forall_cons in Hh as [[Hr1 Hr2] Hh]. cbn [snd] in Hr1, Hr2.
  cbn [pbuf_free_loop]. rewrite (proj2 (Z.eqb_neq a 0)) by done.
  unfold pb_read at 1. unfold deref. unfold mbind at 1, io_bind at 1, outcome_bind at 1. rewrite Hb.
  cbn [mbind outcome_bind]. rewrite (proj2 (Z.ltb_lt _ _)) by done.
  set (b' := set_ref (ref b - 1) b).
  assert (Eb' : ref b' = ref b - 1) by (subst b'; cbn [ref set_ref]; by rewrite u8_small by (unfold is_u8; lia)).
  erewrite io_bind_ok by done. erewrite io_bind_ok by done. rewrite Eb'.
  pose proof (inv_update s lp lr bl a b b' Hinv Hb eq_refl) as Hinv1.
  cbn [after_free freed]. destruct (Z.eqb_spec (ref b) 1) as [E1|E1].
  - rewrite (proj2 (Z.eqb_eq (ref b - 1) 0)) by lia.
    destruct (release_spec _ lp lr bl a b' Hinv1) as (s2 & lp2 & lr2 & bl2 & E2 & Hm2 & Hby & Hg2 & Hinv2);
      [apply lookup_insert_eq|].
    cbn [pbufs with_pbufs] in Hm2. rewrite delete_insert_eq in Hm2.
    destruct (IH s2 lp2 lr2 bl2 (next b) l (u8 (count + 1)) Hinv2) as (s3 & lp3 & lr3 & bl3 & E3 & Hm3 & Hby3 & Hg3 & Hinv3);
      [|done|apply u8_range|simpl in Hf; lia|].
    { rewrite Hm2. eapply chain_agree; [|exact Hl]. intros c Hc'. apply lookup_delete_ne. by intros <-. }
    exists s3, lp3, lr3, bl3. rewrite Hm3, Hby3, Hm2. split_and!; try done.
    2: { cbn [foldl]. change (give_back (lp, lr, bl) (a, b)) with (give_back (lp, lr, bl) (a, b')). by rewrite Hg2. }
    unfold release in E2. unfold mbind, io_bind, outcome_bind in E2 |- *.
    destruct (free_to_source a _ _) as [[[] s1]|]; [|done]. cbn [mbind] in *. rewrite E2.
    cbn [mbind outcome_bind].
    change (next b') with (next b). rewrite E3. do 2 f_equal. unfold u8. rewrite Zplus_mod_idemp_l. f_equal. cbn [length]. lia.
  - rewrite (proj2 (Z.eqb_neq (ref b - 1) 0)) by lia.
    eexists _, lp, lr, bl. split; [by rewrite Z.add_0_r, u8_small by done|]. by split_and!.
Qed.

Lemma pbuf_free_given s lp lr bl p l :
  pheap_inv s lp lr bl -> chain (pbufs s) p l -> Forall held l -> l <> [] ->
  exists s' lp' lr' bl', pbuf_free p s = Ok (u8 (zlen (freed l)), s') /\
    pbufs s' = after_free l (pbufs s) /\ bytes s' = bytes s /\
    foldl give_back (lp, lr, bl) (freed l) = (lp', lr', bl') /\ pheap_inv s' lp' lr' bl'.
Proof using Type.
  intros Hinv Hl Hh Hne. pose proof (chain_length _ _ _ Hl) as Hlen.
  assert (Hp0 : p <> 0) by (rewrite chain_nonzero; done).
  unfold pbuf_free. rewrite (proj2 (Z.eqb_neq p 0)) by done.
  erewrite io_bind_ok by done. erewrite io_bind_ok by done.
  apply pbuf_free_loop_spec with (count := 0) (lp := lp) (lr := lr) (bl := bl); try done.
  unfold chain_fuel. lia.
Qed.

Lemma pbuf_free_spec s lp lr bl p l :
  pheap_inv s lp lr bl -> chain (pbufs s) p l -> Forall held l -> l <> [] ->
  exists s' lp' lr' bl', pbuf_free p s = Ok (u8 (zlen (freed l)), s') /\
    pbufs s' = after_free l (pbufs s) /\ bytes s' = bytes s /\ pheap_inv s' lp' lr' bl'.
Proof using Type.
  intros Hinv Hl Hh Hne. destruct (pbuf_free_given s lp lr bl p l Hinv Hl Hh Hne) as (s' & lp' & lr' & bl' & E & Hm & Hb & _ & Hi).
  by exists s', lp', lr', bl'.
Qed.

(* ------------------------------------------------------------------ *)
(** ** Allocation from the pool *)

(** The data bytes of a pool element behind [off] bytes of headroom. *)
Definition room (off : Z) : Z := PBUF_POOL_BUFSIZE_ALIGNED - LWIP_MEM_ALIGN_SIZE off.

Lemma room_spec off : 0 <= off <= 1396 -> 4 <= room off <= 1400 /\ room 0 = 1400 /\
  LWIP_MEM_ALIGN_SIZE off = 4 * ((off + 3) / 4).
Proof using Type.
  intros Ho. unfold room. change PBUF_POOL_BUFSIZE_ALIGNED with 1400.
  assert (E : LWIP_MEM_ALIGN_SIZE off = 4 * ((off + 3) / 4)).
  { unfold LWIP_MEM_ALIGN_SIZE. replace (off + 4 - 1) with (off + 3) by lia.
    rewrite u32_small by (unfold is_u32; lia).
    change (u32 (Z.lnot (4 - 1))) with (Z.land (Z.lnot 3) (Z.ones 32)).
    rewrite Z.land_assoc, land_lnot_3, Z.land_ones by lia. apply Z.mod_small. Z.div_mod_to_equations. lia. }
  rewrite E. split_and!; [Z.div_mod_to_equations; lia..|done|done].
Qed.

(** The pbufs [pbuf_alloc] makes of the elements [ks]. *)
Definition pool_pbuf (q nxt rem off : Z) : pbuf :=
  mk_pbuf nxt (LWIP_MEM_ALIGN (q + SIZEOF_STRUCT_PBUF + off)) rem (Z.min rem (room off))
    (u8 (pbuf_type_val PBUF_POOL)) 0 1 NETIF_NO_INDEX.

Fixpoint pool_chain (ks : list Z) (rem off : Z) : list (Z * pbuf) :=
  match ks with
  | [] => []
  | q :: ks => (q, pool_pbuf q (hd 0 ks) rem off) :: pool_chain ks (rem - Z.min rem (room off)) 0
  end.

(** What is left to allocate after [ks]. *)
Fixpoint rem_after (ks : list Z) (rem off : Z) : Z * Z :=
  match ks with
  | [] => (rem, off)
  | _ :: ks => rem_after ks (rem - Z.min rem (room off)) 0
  end.

(** The number of elements needed. *)
Definition needed (rem off : Z) : Z :=
  if rem <=? room off then 1 else 1 + (rem - room off + 1399) / 1400.

Lemma needed_step rem off : 0 <= off <= 1396 -> room off < rem ->
  needed rem off = 1 + needed (rem - room off) 0.
Proof using Type.
  intros Ho Hr. unfold needed. destruct (room_spec off Ho) as (_ & E0 & _). rewrite E0.
  zcase; Z.div_mod_to_equations; lia.
Qed.

Lemma needed_pos rem off : 0 <= rem -> 0 <= off <= 1396 -> 1 <= needed rem off.
Proof using Type. intros. unfold needed. zcase; Z.div_mod_to_equations; lia. Qed.

Lemma pool_chain_keys ks rem off : (pool_chain ks rem off).*1 = ks.
Proof using Type. revert rem off. induction ks; intros; simpl; [done|]. by f_equal. Qed.

Lemma pool_chain_held ks rem off : Forall held (pool_chain ks rem off).
Proof using Type. revert rem off. induction ks; intros; simpl; constructor; [done|]. auto. Qed.

Lemma rem_after_snoc ks q rem off :
  rem_after (ks ++ [q]) rem off =
  let '(r, o) := rem_after ks rem off in (r - Z.min r (room o), 0).
Proof using Type. revert rem off. induction ks as [|k ks IH]; intros; simpl; [done|]. apply IH. Qed.

Lemma pool_chain_snoc m ks q rem off z bz r o :
  rem_after ks rem off = (r, o) -> NoDup (ks ++ [q]) -> q <> 0 ->
  chain m (hd 0 ks) (pool_chain ks rem off) -> last ks = Some z -> m !! z = Some bz ->
  chain (<[z := set_next q bz]> (<[q := pool_pbuf q 0 r o]> m)) (hd 0 (ks ++ [q]))
    (pool_chain (ks ++ [q]) rem off).
Proof using Type.
  revert rem off. induction ks as [|a ks IH]; intros rem off Hr Hnd Hq Hc Hz Hbz; [done|].
  cbn [app] in Hnd. apply NoDup_cons in Hnd as [Ha Hnd]. cbn [rem_after] in Hr.
  cbn [pool_chain] in Hc. destruct Hc as (_ & Ha0 & Hb & Hc).
  cbn [app pool_chain chain hd]. change (next (pool_pbuf a ?x rem off)) with x in *.
  destruct ks as [|c ks].
  - cbn [last] in Hz. injection Hz as <-. cbn [rem_after] in Hr. injection Hr as <- <-.
    rewrite Hb in Hbz. injection Hbz as <-. split_and!; [done|done|by rewrite lookup_insert_eq|].
    cbn [app pool_chain chain hd]. split_and!; [done|done| |done].
    rewrite lookup_insert_ne, lookup_insert_eq; [done|]. intros <-. apply Ha. by left.
  - cbn [app hd]. assert (Hza : z ∈ c :: ks) by by apply last_Some_elem_of.
    split_and!; [done|done| |].
    + rewrite !lookup_insert_ne; [done|..]; intros ->; apply Ha; set_solver.
    + by apply IH.
Qed.

Lemma inv_alloc_pool s q lp lr bl b :
  pheap_inv s (q :: lp) lr bl -> pbuf_get_allocsrc b = 2 ->
  exists ps, pool_malloc (pool_st s) = Ok (Some q, ps) /\
    pheap_inv (mk_pheap ps (rom_st s) (heap_st s) (<[q := b]> (pbufs s)) (bytes s)) lp lr bl /\
    pbufs s !! q = None /\ 0 < q /\ q mod MEM_ALIGNMENT = 0.
Proof using Type.
  intros [H1 H2 H3 H4 H5 H6 H7 H8] Hsrc. destruct (pool_malloc_some _ _ _ H1) as (ps & E & H1').
  destruct (pool_rep_wf _ _ H1) as [Hnd Hsub]. apply NoDup_cons in Hnd as [Hq _].
  assert (HqP : q ∈ POOL) by set_solver.
  destruct (pool_rep_addr _ _ q H1 HqP) as [Hq0 Hqa].
  exists ps. split; [done|]. split; [|split_and!; [apply H4; [done|by left]|done..]].
  split; try done; cbn [pbufs].
  - intros a Ha. destruct (decide (a = q)) as [->|Hne]; [by rewrite lookup_insert_eq|].
    rewrite lookup_insert_ne by done. rewrite <- H4 by done. rewrite elem_of_cons. naive_solver.
  - intros a Ha. rewrite H5 by done. rewrite lookup_insert_ne; [done|]. intros <-. set_solver.
  - intros a c. destruct (decide (a = q)) as [->|Hne]; [|rewrite lookup_insert_ne by done; apply H6].
    rewrite lookup_insert_eq. intros [= <-]. left. by rewrite Hsrc.
Qed.

Lemma pool_pbuf_src q nxt rem off : pbuf_get_allocsrc (pool_pbuf q nxt rem off) = 2.
Proof using Type. done. Qed.

(** The state while elements [ks] have been taken for a request. *)
Definition taken (s0 s : pheap PP RP HP) (ks : list Z) (rem off : Z) : Prop :=
  chain (pbufs s) (hd 0 ks) (pool_chain ks rem off) /\ NoDup ks /\
  (forall a, a ∈ ks -> pbufs s0 !! a = None) /\
  (forall a, a ∉ ks -> pbufs s !! a = pbufs s0 !! a) /\ bytes s = bytes s0.

(** One round of the loop: the element [q] is put at the end of the chain. *)
Definition take_element (p lst q : Z) (nw : pbuf) (ps : PP) s : pheap PP RP HP :=
  let s1 := mk_pheap ps (rom_st s) (heap_st s) (<[q := nw]> (pbufs s)) (bytes s) in
  if p =? 0 then s1
  else match pbufs s1 !! lst with Some b => with_pbufs <[lst := set_next q b]> s1 | None => s1 end.

Lemma chain_hd_nonzero s0 s ks rem off : taken s0 s ks rem off -> hd 0 ks = 0 <-> ks = [].
Proof using Type.
  intros (Hc & _). destruct ks as [|k ks]; [done|]. cbn [pool_chain chain hd] in *.
  destruct Hc as (_ & Hk & _). naive_solver.
Qed.

Lemma take_element_spec s0 s ks rem off r o q lp lr bl lst :
  pheap_inv s (q :: lp) lr bl -> taken s0 s ks rem off -> rem_after ks rem off = (r, o) ->
  default 0 (last ks) = lst ->
  exists ps, pool_malloc (pool_st s) = Ok (Some q, ps) /\ 0 < q /\ q mod MEM_ALIGNMENT = 0 /\
    let s' := take_element (hd 0 ks) lst q (pool_pbuf q 0 r o) ps s in
    pheap_inv s' lp lr bl /\ taken s0 s' (ks ++ [q]) rem off /\
    (ks <> [] -> is_Some (<[q := pool_pbuf q 0 r o]> (pbufs s) !! lst)).
Proof using Type.
  intros Hinv Ht Hr Hlast.
  destruct (inv_alloc_pool s q lp lr bl (pool_pbuf q 0 r o) Hinv) as (ps & E & Hinv' & Hq & Hq0 & Hqa);
    [by rewrite pool_pbuf_src|].
  exists ps. split_and!; [done..|]. intros s'.
  pose proof (chain_hd_nonzero _ _ _ _ _ Ht) as Hhd. destruct Ht as (Hc & Hnd & Hnone & Hsame & Hby).
  assert (Hqks : q ∉ ks).
  { intros Hin. rewrite <- (pool_chain_keys ks rem off) in Hin.
    apply list_elem_of_fmap in Hin as ([q' b] & Eq & Hin). cbn [fst] in Eq. subst q'.
    pose proof (chain_lookup _ _ _ _ _ Hc Hin). congruence. }
  assert (Hnd' : NoDup (ks ++ [q])).
  { apply NoDup_app. split_and!; [done| |apply NoDup_singleton]. intros a Ha ->%list_elem_of_singleton. done. }
  assert (Hnone' : forall a, a ∈ ks ++ [q] -> pbufs s0 !! a = None).
  { intros a [Ha| ->%list_elem_of_singleton]%elem_of_app; [by apply Hnone|]. by rewrite <- Hsame. }
  destruct ks as [|k ks].
  - subst s'. unfold take_element. cbn [hd last default rem_after] in *. injection Hr as <- <-. simpl.
    split_and!; [done| |done]. split_and!; try done; cbn [pbufs].
    + split_and!; [done|lia|by rewrite lookup_insert_eq|done].
    + intros a Ha. rewrite lookup_insert_ne by set_solver. apply Hsame. set_solver.
  - destruct (last (k :: ks)) as [z|] eqn:Ez; [|by apply last_None in Ez]. cbn [default id] in Hlast. subst z.
    assert (Hz : lst ∈ k :: ks) by by apply last_Some_elem_of.
    assert (Hzq : lst <> q) by by intros ->.
    assert (Hbz : exists bz, pbufs s !! lst = Some bz).
    { rewrite <- (pool_chain_keys (k :: ks) rem off) in Hz.
      apply list_elem_of_fmap in Hz as ([z' b] & Eq & Hin). cbn [fst] in Eq. subst z'.
      exists b. by eapply chain_lookup. }
    destruct Hbz as [bz Hbz].
    assert (Hk0 : hd 0 (k :: ks) <> 0) by (rewrite Hhd; done).
    subst s'. unfold take_element. rewrite (proj2 (Z.eqb_neq _ 0)) by done. cbn [pbufs].
    rewrite lookup_insert_ne, Hbz by done. split_and!.
    + apply (inv_update _ _ _ _ _ bz); [done| |done]. cbn [pbufs]. by rewrite lookup_insert_ne.
    + split_and!; try done; cbn [pbufs with_pbufs].
      * eapply pool_chain_snoc; try done. lia.
      * intros a Ha. rewrite !lookup_insert_ne by set_solver. apply Hsame. set_solver.
    + intros _. by eexists.
Qed.

(** Giving up: what was taken goes back. *)
Lemma alloc_gives_up s0 s ks rem off lp lr bl :
  pheap_inv s lp lr bl -> taken s0 s ks rem off -> ks <> [] ->
  exists n s' lp' lr' bl', pbuf_free (hd 0 ks) s = Ok (n, s') /\ pbufs s' = pbufs s0 /\
    bytes s' = bytes s0 /\ pheap_inv s' lp' lr' bl'.
Proof using Type.
  intros Hinv (Hc & Hnd & Hnone & Hsame & Hby) Hne.
  destruct (pbuf_free_spec s lp lr bl _ _ Hinv Hc (pool_chain_held _ _ _)) as
    (s' & lp' & lr' & bl' & E & Hm & Hby' & Hinv'); [by destruct ks|].
  eexists _, s', lp', lr', bl'. split; [exact E|]. rewrite Hm, Hby', Hby. split_and!; [|done..].
  apply map_eq. intros a. destruct (decide (a ∈ ks)) as [Ha|Ha].
  - rewrite (Hnone a Ha).
    assert (Hgen : forall ks rem off m, a ∈ ks \/ m !! a = None -> after_free (pool_chain ks rem off) m !! a = None).
    { clear. induction ks as [|k ks IH]; intros rem off m Hor; simpl.
      - destruct Hor as [Hin|]; [by apply not_elem_of_nil in Hin|done].
      - apply IH. destruct (decide (a = k)) as [->|]; [right; apply lookup_delete_eq|].
        rewrite elem_of_cons in Hor. rewrite lookup_delete_ne by done. naive_solver. }
    apply Hgen. by left.
  - rewrite after_free_outside by by rewrite pool_chain_keys. by apply Hsame.
Qed.

Lemma align_mod a : LWIP_MEM_ALIGN a mod MEM_ALIGNMENT = 0 /\ a <= LWIP_MEM_ALIGN a < a + 4 /\
  LWIP_MEM_ALIGN a = 4 * ((a + 3) / 4).
Proof using Type.
  unfold LWIP_MEM_ALIGN, MEM_ALIGNMENT. replace (a + 4 - 1) with (a + 3) by lia.
  change (4 - 1) with 3. rewrite land_lnot_3. split_and!; [Z.div_mod_to_equations; lia..|done].
Qed.

Lemma alloc_pool_step fuel p lst q r o ps s :
  pool_malloc (pool_st s) = Ok (Some q, ps) -> 0 <= o <= 1396 -> is_u16 r ->
  (p <> 0 -> is_Some (<[q := pool_pbuf q 0 r o]> (pbufs s) !! lst)) ->
  let s' := take_element p lst q (pool_pbuf q 0 r o) ps s in
  let p' := if p =? 0 then q else p in
  let r' := r - Z.min r (room o) in
  alloc_pool_loop fuel p lst r o s =
    if 0 <? r' then
      match fuel with
      | O => Fault Diverges
      | S fuel => alloc_pool_loop fuel p' q r' 0 s'
      end
    else Ok (Some p', s').
Proof using Type.
  intros E Ho Hr Hlst s' p' r'. destruct (room_spec o Ho) as (Hroom & _). unfold is_u16 in Hr.
  set (nw := pool_pbuf q 0 r o) in *.
  set (s1 := mk_pheap ps (rom_st s) (heap_st s) (<[q := nw]> (pbufs s)) (bytes s)).
  assert (Em : memp_malloc_PBUF_POOL s = Ok (Some q, mk_pheap ps (rom_st s) (heap_st s) (pbufs s) (bytes s))).
  { unfold memp_malloc_PBUF_POOL. by rewrite E. }
  assert (Eu : (if p =? 0 then mret tt else pb_update lst (set_next q)) s1 = Ok (tt, s')).
  { subst s'. unfold take_element. fold s1. destruct (Z.eqb_spec p 0) as [|Hp]; [done|].
    destruct (Hlst Hp) as [bz Hz]. unfold pb_update, pb_read, deref, mbind, io_bind, outcome_bind.
    cbn [pbufs s1]. rewrite Hz. done. }
  destruct fuel as [|fuel]; cbn [alloc_pool_loop]; rewrite (io_bind_ok _ _ _ _ _ Em); fold (room o);
    rewrite (u16_small (room o)) by (unfold is_u16; lia);
    (erewrite io_bind_ok; [|done]); fold (pool_pbuf q 0 r o); fold nw;
    change (with_pbufs <[q := mk_pbuf 0 (LWIP_MEM_ALIGN (q + SIZEOF_STRUCT_PBUF + o)) r (Z.min r (room o))
      (u8 (pbuf_type_val PBUF_POOL)) 0 1 NETIF_NO_INDEX]>
      (mk_pheap ps (rom_st s) (heap_st s) (pbufs s) (bytes s))) with s1;
    rewrite (proj2 (Z.eqb_eq _ _) (proj1 (align_mod (q + SIZEOF_STRUCT_PBUF + o))));
    rewrite (proj2 (Z.ltb_lt 0 (room o))) by lia;
    do 2 (erewrite io_bind_ok by done); rewrite (io_bind_ok _ _ _ _ _ Eu);
    rewrite (u16_small (r - _)) by (unfold is_u16; lia); fold r' p'; by destruct (0 <? r').
Qed.

Lemma alloc_pool_none fuel p lst r o s :
  pool_malloc (pool_st s) = Ok (None, pool_st s) ->
  alloc_pool_loop fuel p lst r o s =
    if p =? 0 then Ok (None, s)
    else match pbuf_free p s with Ok (_, s') => Ok (None, s') | Fault e => Fault e end.
Proof using Type.
  intros E. assert (Em : memp_malloc_PBUF_POOL s = Ok (None, s)).
  { unfold memp_malloc_PBUF_POOL. rewrite E. by destruct s. }
  destruct fuel; cbn [alloc_pool_loop]; rewrite (io_bind_ok _ _ _ _ _ Em); destruct (p =? 0); try done;
    cbn [negb]; unfold mbind, io_bind; destruct (pbuf_free p s) as [[n s']|]; done.
Qed.

(** What the loop answers, for a request of [rem] behind [off] and the free
    elements [lp] left after [ks]. *)
Definition alloc_answer (s0 : pheap PP RP HP) (ks lp lr : list Z) (bl : gmap Z Z) (rem off : Z)
    (n : nat) (r : outcome (option Z * pheap PP RP HP)) : Prop :=
  if decide (n <= length lp)%nat then
    exists s', r = Ok (Some (hd 0 (ks ++ take n lp)), s') /\ taken s0 s' (ks ++ take n lp) rem off /\
      (rem_after (ks ++ take n lp) rem off).1 = 0 /\ pheap_inv s' (drop n lp) lr bl
  else
    exists s' lp' lr' bl', r = Ok (None, s') /\ pbufs s' = pbufs s0 /\ bytes s' = bytes s0 /\
      pheap_inv s' lp' lr' bl'.

Lemma alloc_pool_loop_spec s0 lp : forall fuel ks s lr bl rem off r o,
  pheap_inv s lp lr bl -> taken s0 s ks rem off -> rem_after ks rem off = (r, o) ->
  0 <= o <= 1396 -> is_u16 r -> (Z.to_nat r <= fuel)%nat ->
  alloc_answer s0 ks lp lr bl rem off (Z.to_nat (needed r o))
    (alloc_pool_loop fuel (hd 0 ks) (default 0 (last ks)) r o s).
Proof using Type.
  induction lp as [|q lp IH]; intros fuel ks s lr bl rem off r o Hinv Ht Hr Ho Hu Hf;
    pose proof (needed_pos r o ltac:(unfold is_u16 in Hu; lia) Ho) as Hpos; unfold alloc_answer.
  - rewrite decide_False by (simpl; lia).
    rewrite alloc_pool_none by (eapply pool_malloc_none; by destruct Hinv).
    pose proof (chain_hd_nonzero _ _ _ _ _ Ht) as Hhd.
    destruct (Z.eqb_spec (hd 0 ks) 0) as [Hz|Hz].
    + apply Hhd in Hz as ->. exists s, [], lr, bl. destruct Ht as (_ & _ & _ & Hsame & Hby).
      split_and!; [done| |done|done]. apply map_eq. intros a. apply Hsame. by apply not_elem_of_nil.
    + destruct (alloc_gives_up s0 s ks rem off _ _ _ Hinv Ht) as (n & s' & lp' & lr' & bl' & -> & Hs');
        [by intros ->|]. by exists s', lp', lr', bl'.
  - destruct (take_element_spec s0 s ks rem off r o q lp lr bl _ Hinv Ht Hr eq_refl) as
      (ps & E & Hq0 & Hqa & Hinv' & Ht' & Hlst).
    pose proof (chain_hd_nonzero _ _ _ _ _ Ht) as Hhd.
    rewrite (alloc_pool_step fuel _ _ q r o ps s E Ho Hu) by (rewrite Hhd; exact Hlst).
    set (s' := take_element _ _ _ _ _ _) in *.
    destruct (room_spec o Ho) as (Hroom & Hroom0 & _). unfold is_u16 in Hu.
    assert (Ehd : (if hd 0 ks =? 0 then q else hd 0 ks) = hd 0 (ks ++ [q])).
    { destruct ks as [|k ks]; [done|]. rewrite (proj2 (Z.eqb_neq _ 0)); [done|]. rewrite Hhd. done. }
    rewrite Ehd. pose proof (rem_after_snoc ks q rem off) as Hr'. rewrite Hr in Hr'.
    destruct (Z.ltb_spec 0 (r - Z.min r (room o))) as [Hmore|Hdone].
    + destruct fuel as [|fuel]; [lia|].
      rewrite needed_step by lia. replace (Z.min r (room o)) with (room o) in * by lia.
      pose proof (needed_pos (r - room o) 0 ltac:(lia) ltac:(lia)) as Hpos'.
      specialize (IH fuel (ks ++ [q]) s' lr bl rem off (r - room o) 0 Hinv' Ht' Hr' ltac:(lia)
        ltac:(unfold is_u16; lia) ltac:(lia)).
      rewrite last_snoc in IH. cbn [default id] in IH. unfold alloc_answer in IH.
      replace (Z.to_nat (1 + needed (r - room o) 0)) with (S (Z.to_nat (needed (r - room o) 0))) by lia.
      destruct (decide (Z.to_nat (needed (r - room o) 0) <= length lp)%nat).
      * rewrite decide_True by (simpl; lia). cbn [take drop].
        by rewrite <- app_assoc in IH.
      * rewrite decide_False by (simpl; lia). exact IH.
    + replace (needed r o) with 1 by (unfold needed; zcase). change (Z.to_nat 1) with 1%nat.
      rewrite decide_True by (simpl; lia). exists s'. cbn [take drop].
      rewrite take_0, drop_0. split_and!; try done. rewrite Hr'. cbn [fst]. lia.
Qed.

Lemma lens_pool_chain ks rem off :
  lens (pool_chain ks rem off) = rem - (rem_after ks rem off).1.
Proof using Type.
  revert rem off. induction ks as [|k ks IH]; intros rem off; cbn [pool_chain rem_after lens foldr]; [simpl; lia|].
  fold (lens (pool_chain ks (rem - Z.min rem (room off)) 0)). rewrite IH. cbn [snd]. unfold pool_pbuf. cbn [len]. lia.
Qed.

Lemma pool_chain_packet ks rem off :
  (rem_after ks rem off).1 = 0 -> is_u16 rem -> 0 <= off <= 1396 -> packet (pool_chain ks rem off).
Proof using Type.
  revert rem off. induction ks as [|k ks IH]; intros rem off Hr Hu Ho; cbn [pool_chain packet]; [done|].
  cbn [rem_after] in Hr. destruct (room_spec off Ho) as (Hroom & _). unfold is_u16 in Hu.
  rewrite lens_pool_chain, Hr. unfold pool_pbuf. cbn [tot_len len ref]. split_and!; [lia| |].
  - unfold wf_pbuf, is_u16, is_u8. cbn [tot_len len ref]. lia.
  - apply IH; [done|unfold is_u16; lia|lia].
Qed.

(** A pbuf inside its pool element: headroom before the payload, which is
    word aligned, and the payload before the end. *)
Definition in_element (off : Z) (x : Z * pbuf) : Prop :=
  x.1 + SIZEOF_STRUCT_PBUF <= payload x.2 /\ payload x.2 mod 4 = 0 /\
  payload x.2 + len x.2 <= x.1 + SIZEOF_STRUCT_PBUF + PBUF_POOL_BUFSIZE /\ ref x.2 = 1.

Lemma pool_chain_in_element ks rem off :
  Forall (fun q => q mod 4 = 0) ks -> 0 <= rem -> 0 <= off <= 1396 ->
  Forall (in_element off) (pool_chain ks rem off).
Proof using Type.
  intros Hks. revert rem off. assert (Hgen : forall off', Forall (in_element off') = Forall (in_element 0)) by done.
  induction Hks as [|q ks Hq _ IH]; intros rem off Hr Ho; cbn [pool_chain]; constructor.
  - unfold in_element, pool_pbuf. cbn [fst snd payload len ref].
    destruct (room_spec off Ho) as (Hroom & _ & Ea).
    destruct (align_mod (q + SIZEOF_STRUCT_PBUF + off)) as (Hm & Hb & Eq).
    unfold room in *. rewrite Ea in *. change PBUF_POOL_BUFSIZE_ALIGNED with 1400 in *.
    change SIZEOF_STRUCT_PBUF with 16 in *. change PBUF_POOL_BUFSIZE with 1400.
    change MEM_ALIGNMENT with 4 in Hm. split_and!; [lia|done| |done].
    rewrite Eq. Z.div_mod_to_equations. lia.
  - rewrite (Hgen off). apply IH; [|lia]. lia.
Qed.


(* ------------------------------------------------------------------ *)
(** ** Shrinking *)

Lemma pb_read_ok s p b : pbufs s !! p = Some b -> pb_read p s = Ok (b, s).
Proof using Type. unfold pb_read, deref. by intros ->. Qed.

Lemma pb_update_ok s p f b : pbufs s !! p = Some b ->
  pb_update p f s = Ok (tt, with_pbufs <[p := f b]> s).
Proof using Type. intros Hb. unfold pb_update. by rewrite (io_bind_ok _ _ _ _ _ (pb_read_ok _ _ _ Hb)). Qed.

(** What stays the same but for headers. *)
Definition same_rest (s s' : pheap PP RP HP) : Prop :=
  pool_st s' = pool_st s /\ rom_st s' = rom_st s /\ heap_st s' = heap_st s /\ bytes s' = bytes s.

Definition shrunk (shrink : Z) (x : Z * pbuf) : Z * pbuf := (x.1, set_tot_len (tot_len x.2 - shrink) x.2).

Lemma realloc_walk_spec fuel s lp lr bl q l rem :
  pheap_inv s lp lr bl -> chain (pbufs s) q l -> packet l -> 0 <= rem < lens l -> (length l <= fuel)%nat ->
  exists l1 a b l2 s', l = l1 ++ (a, b) :: l2 /\
    realloc_walk fuel q rem (lens l - rem) s = Ok ((a, rem - lens l1), s') /\
    0 <= rem - lens l1 <= len b /\ same_rest s s' /\ pheap_inv s' lp lr bl /\
    (forall x, x ∈ l1 -> pbufs s' !! x.1 = Some (shrunk (lens l - rem) x).2) /\
    (forall c, c ∉ l1.*1 -> pbufs s' !! c = pbufs s !! c).
Proof using Type.
  revert s q l rem. induction fuel as [|fuel IH]; intros s q l rem Hinv Hl Hp Hr Hf.
  all: destruct l as [|[a b] l]; [simpl in Hr; lia|].
  { simpl in Hf. lia. }
  pose proof (chain_nodup _ _ _ Hl) as Hnd. rewrite fmap_cons in Hnd. apply NoDup_cons in Hnd as [Hnin _].
  pose proof Hl as (-> & Ha & Hb & Hl'). pose proof Hp as (Et & [Hlen _] & Hp'). unfold is_u16 in Hlen.
  pose proof (packet_lens _ Hp) as Hpl. pose proof (packet_lens _ Hp') as Hpl'. cbn [lens foldr snd] in Hr, Hpl.
  fold (lens l) in Hr, Hpl. assert (El : lens ((a, b) :: l) = len b + lens l) by done.
  cbn [realloc_walk]. rewrite (io_bind_ok _ _ _ _ _ (pb_read_ok _ _ _ Hb)).
  destruct (Z.ltb_spec (len b) rem) as [Hlt|Hge].
  - rewrite u16_small by (unfold is_u16; lia).
    assert (Hn0 : next b <> 0).
    { rewrite (chain_nonzero _ _ _ Hl'). intros ->. simpl in Hr. lia. }
    set (b' := set_tot_len (tot_len b - (lens ((a, b) :: l) - rem)) b).
    pose proof (inv_update s lp lr bl a b b' Hinv Hb eq_refl) as Hinv1.
    destruct (IH (with_pbufs <[a := b']> s) (next b) l (rem - len b) Hinv1) as
      (l1 & a2 & b2 & l2 & s' & -> & E & Hr2 & Hrest & Hinv2 & Hin & Hout); [|done|lia|simpl in Hf; lia|].
    { eapply chain_agree; [|exact Hl']. intros c Hc. cbn [pbufs with_pbufs].
      rewrite lookup_insert_ne; [done|]. by intros <-. }
    exists ((a, b) :: l1), a2, b2, l2, s'. split; [done|]. rewrite El in *.
    replace (lens (l1 ++ (a2, b2) :: l2) - (rem - len b)) with (len b + lens (l1 ++ (a2, b2) :: l2) - rem) in * by lia.
    assert (El1 : lens ((a, b) :: l1) = len b + lens l1) by done. rewrite El1.
    assert (Ha1 : a ∉ l1.*1).
    { intros Hin'. apply Hnin. rewrite fmap_app. apply elem_of_app. by left. }
    split_and!; try done; try lia.
    + erewrite io_bind_ok by done. rewrite (proj2 (Z.eqb_neq _ 0)) by done.
      erewrite io_bind_ok by done. rewrite E. do 3 f_equal. lia.
    + intros x [->|Hx]%elem_of_cons; [|by apply Hin].
      cbn [fst]. rewrite Hout by done. cbn [pbufs with_pbufs]. rewrite lookup_insert_eq.
      subst b'. by rewrite El.
    + intros c. rewrite fmap_cons, not_elem_of_cons. intros [Hca Hc]. rewrite Hout by done.
      cbn [pbufs with_pbufs]. by apply lookup_insert_ne.
  - exists [], a, b, l, s. cbn [lens foldr]. rewrite Z.sub_0_r. split_and!; try done; try lia.
    intros x Hx. by apply not_elem_of_nil in Hx.
Qed.

Lemma chain_cut m m' p l1 a b l2 b' (f : Z * pbuf -> Z * pbuf) :
  chain m p (l1 ++ (a, b) :: l2) ->
  (forall x, (f x).1 = x.1 /\ next (f x).2 = next x.2) ->
  (forall x, x ∈ l1 -> m' !! x.1 = Some (f x).2) -> m' !! a = Some b' -> next b' = 0 ->
  chain m' p ((f <$> l1) ++ [(a, b')]).
Proof using Type.
  intros Hc Hf Hm Ha Hn. revert p Hc. induction l1 as [|[c d] l1 IH]; intros p Hc; simpl in *.
  - destruct Hc as (-> & ? & _). by split_and!.
  - destruct Hc as (-> & Hc0 & Hd & Hc). pose proof (Hm (c, d)) as Hm1. cbn [fst] in Hm1.
    destruct (Hf (c, d)) as [E1 E2]. cbn [fst snd] in E1, E2.
    destruct (f (c, d)) as [c' d']. cbn [fst snd] in *. subst c'. split_and!; [done|done| |].
    + apply Hm1. by left.
    + rewrite E2. apply IH; [|done]. intros x Hx. apply Hm. by right.
Qed.

Lemma packet_cut l1 a b l2 rem b' :
  packet (l1 ++ (a, b) :: l2) -> 0 <= rem <= len b -> len b' = rem -> tot_len b' = rem -> is_u8 (ref b') ->
  let shrink := lens (l1 ++ (a, b) :: l2) - (lens l1 + rem) in
  packet ((shrunk shrink <$> l1) ++ [(a, b')]) /\
  lens ((shrunk shrink <$> l1) ++ [(a, b')]) = lens l1 + rem.
Proof using Type.
  intros Hp Hr El Et Hu shrink.
  assert (Hlens : forall l, lens (shrunk shrink <$> l) = lens l).
  { induction l as [|[c d] l IH]; [done|]. simpl. fold (shrunk shrink <$> l). simpl in IH. lia. }
  assert (Htot : forall l1', packet (l1' ++ (a, b) :: l2) -> (exists pre, l1 = pre ++ l1') ->
    packet ((shrunk shrink <$> l1') ++ [(a, b')])).
  { induction l1' as [|[c d] l1' IH]; intros Hp' [pre Epre].
    - simpl. destruct Hp' as (_ & [Hb _] & _). unfold wf_pbuf, is_u16 in *. split_and!; try lia; done.
    - destruct Hp' as (Ed & [Hd1 [Hd2 Hd3]] & Hp''). rewrite lens_app in Ed. cbn [lens foldr snd] in Ed. fold (lens l2) in Ed.
      rewrite fmap_cons. cbn [app packet]. unfold shrunk at 1. cbn [fst snd].
      rewrite lens_app, Hlens. cbn [lens foldr snd].
      assert (Es : shrink = len b + lens l2 - rem).
      { unfold shrink. rewrite lens_app. cbn [lens foldr snd]. fold (lens l2). lia. }
      pose proof (packet_lens _ Hp'') as Hpl. rewrite lens_app in Hpl. cbn [lens foldr snd] in Hpl. fold (lens l2) in Hpl.
      destruct (packet_app _ _ Hp'') as (Eb & _ & Hp2). pose proof (packet_lens _ Hp2).
      assert (Hl1' : 0 <= lens l1').
      { clear - Hp''. induction l1' as [|[e f] l1' IH]; [done|]. destruct Hp'' as (_ & [He _] & Hp'').
        specialize (IH Hp''). unfold is_u16 in He. simpl. lia. }
      unfold is_u16 in *. unfold wf_pbuf, set_tot_len, is_u16. cbn [tot_len len ref].
      rewrite u16_small by (unfold is_u16; lia). split_and!; try lia; [done|].
      apply IH; [done|]. exists (pre ++ [(c, d)]). by rewrite <- app_assoc. }
  split; [apply Htot; [done|by exists []]|]. rewrite lens_app, Hlens. simpl. lia.
Qed.

Lemma content_shrunk bs shrink l c : content bs (shrunk shrink <$> l) c <-> content bs l c.
Proof using Type.
  revert c. induction l as [|[a b] l IH]; intros c; [done|]. simpl.
  split; intros (c1 & c2 & ? & ? & ?%IH); by exists c1, c2.
Qed.

Lemma content_cut bs l1 a b l2 rem b' shrink c :
  content bs (l1 ++ (a, b) :: l2) c -> packet (l1 ++ (a, b) :: l2) ->
  0 <= rem <= len b -> len b' = rem -> payload b' = payload b ->
  content bs ((shrunk shrink <$> l1) ++ [(a, b')]) (take (Z.to_nat (lens l1 + rem)) c).
Proof using Type.
  intros Hc Hp Hr El Epl. apply content_app in Hc as (c1 & c2 & -> & Hc1 & (c3 & c4 & -> & Hl & Hc4)).
  assert (Hlen1 : Z.of_nat (length c1) = lens l1).
  { clear - Hc1 Hp. revert c1 Hc1. induction l1 as [|[e f] l1 IH]; intros c1 Hc1; [by simpl in Hc1; subst|].
    destruct Hc1 as (d1 & d2 & -> & [Hn _]%load_bytes_ok & Hc1), Hp as (_ & [He _] & Hp).
    specialize (IH Hp _ Hc1). unfold is_u16 in He. rewrite length_app. simpl. fold (lens l1). lia. }
  pose proof Hl as [Hn _]%load_bytes_ok.
  apply content_app. exists c1, (take (Z.to_nat rem) c3). split_and!.
  - rewrite take_app, take_ge by lia. f_equal. rewrite take_app_le by lia. f_equal. lia.
  - by apply content_shrunk.
  - exists (take (Z.to_nat rem) c3), []. rewrite app_nil_r. split_and!; [done| |done].
    pose proof (load_bytes_sub _ _ _ _ 0 (Z.to_nat rem) Hl ltac:(lia)) as Hs.
    rewrite Z.add_0_r, drop_0 in Hs. by rewrite El, Epl.
Qed.

Lemma shrunk_fields shrink x : (shrunk shrink x).1 = x.1 /\ next (shrunk shrink x).2 = next x.2.
Proof using Type. by destruct x as [a b]. Qed.

(** The heap block of a PBUF_RAM pbuf can be cut behind its first [k] bytes. *)
Definition can_trim s (bl : gmap Z Z) (a : Z) (b : pbuf) : Prop :=
  forall k, pbuf_get_allocsrc b = 0 -> 0 <= k <= len b ->
    exists m, bl !! a = Some m /\ 12 <= payload b - a + k <= m /\
      heap_trimmable (heap_st s) a (payload b - a + k).

Lemma realloc_trim_spec s lp lr bl a b rem :
  pheap_inv s lp lr bl -> can_trim s bl a b -> 0 <= rem <= len b ->
  exists s' bl', realloc_trim a rem b s = Ok (tt, s') /\ pbufs s' = pbufs s /\ bytes s' = bytes s /\
    pheap_inv s' lp lr bl'.
Proof using Type.
  intros Hinv Htr Hr. unfold realloc_trim, pbuf_match_allocsrc.
  change (Z.land PBUF_TYPE_ALLOC_SRC_MASK_STD_HEAP PBUF_TYPE_ALLOC_SRC_MASK) with 0.
  destruct (Z.eqb_spec (pbuf_get_allocsrc b) 0) as [Hsrc|Hsrc]; [|by exists s, bl].
  destruct (Z.eqb_spec rem (len b)) as [Hrem|Hrem]; [by exists s, bl|]. cbn [andb negb io_when].
  destruct (Htr rem Hsrc Hr) as (m & Hm & Hb & Ht).
  pose proof Hinv as [H1 H2 H3 H4 H5 H6 H7 H8].
  destruct (heap_trim_ok _ _ _ _ _ H3 Hm Hb Ht) as (hs & m' & E & Hm' & H3').
  eexists _, (<[a := m']> bl). split.
  { erewrite io_bind_ok by (unfold pb_mem_trim; by rewrite E). erewrite io_bind_ok by done.
    unfold io_assert. by rewrite bool_decide_true. }
  cbn [pbufs bytes]. split_and!; [done..|]. split; try done; cbn [pbufs pool_st rom_st heap_st].
  - intros c d Hc. destruct (H6 c d Hc) as [?|[?|[Hs ?]]]; [by left|right; by left|right; right].
    split; [|done]. apply lookup_insert_is_Some'. by right.
  - intros c Hc. apply H8. apply lookup_insert_is_Some' in Hc as [<-|]; [by eexists|done].
Qed.

Lemma after_free_agree l2 m m' a : a ∈ l2.*1 -> (forall x, x ∈ l2.*1 -> m' !! x = m !! x) ->
  after_free l2 m' !! a = after_free l2 m !! a.
Proof using Type.
  revert m m'. induction l2 as [|[c b] l IH]; intros m m' Hin Hm; cbn [fmap list_fmap fst after_free] in *;
    [set_solver|].
  destruct (ref b =? 1).
  - destruct (decide (a ∈ l.*1)) as [Hl|Hl].
    + apply IH; [done|]. intros x Hx. destruct (decide (x = c)) as [->|];
        [by rewrite !lookup_delete_eq|]. rewrite !lookup_delete_ne by done. apply Hm. set_solver.
    + rewrite !after_free_outside by done. assert (a = c) as -> by set_solver.
      by rewrite !lookup_delete_eq.
  - destruct (decide (a = c)) as [->|]; [by rewrite !lookup_insert_eq|].
    rewrite !lookup_insert_ne by done. by apply Hm.
Qed.

Lemma after_free_insert l2 m a b : a ∉ l2.*1 -> after_free l2 (<[a := b]> m) = <[a := b]> (after_free l2 m).
Proof using Type.
  revert m. induction l2 as [|[c d] l2 IH]; intros m; simpl; [done|].
  rewrite not_elem_of_cons. intros [Hne Hin]. destruct (ref d =? 1).
  - rewrite delete_insert_ne by done. by apply IH.
  - by apply insert_insert_ne.
Qed.

Lemma realloc_cut_spec s lp lr bl a b l2 rem :
  pheap_inv s lp lr bl -> chain (pbufs s) a ((a, b) :: l2) -> Forall held l2 -> can_trim s bl a b ->
  0 <= rem <= len b -> is_u16 (len b) ->
  exists s' lp' lr' bl' b', realloc_cut a rem s = Ok (tt, s') /\
    pbufs s' = <[a := b']> (after_free l2 (pbufs s)) /\ bytes s' = bytes s /\
    len b' = rem /\ tot_len b' = rem /\ payload b' = payload b /\ ref b' = ref b /\ next b' = 0 /\
    pheap_inv s' lp' lr' bl'.
Proof using Type.
  intros Hinv Hc Hh Htr Hrem Hlen. pose proof (chain_nodup _ _ _ Hc) as Hnd.
  rewrite fmap_cons in Hnd. apply NoDup_cons in Hnd as [Ha2 _]. cbn [fst] in Ha2.
  destruct Hc as (_ & Ha & Hb & Hl2). unfold is_u16 in Hlen.
  destruct (realloc_trim_spec s lp lr bl a b rem Hinv Htr Hrem) as (s2 & bl2 & E2 & Hm2 & Hby2 & Hinv2).
  set (b1 := set_tot_len rem (set_len rem b)).
  assert (Hb2 : pbufs s2 !! a = Some b) by by rewrite Hm2.
  pose proof (inv_update s2 lp lr bl2 a b b1 Hinv2 Hb2 eq_refl) as Hinv3.
  set (s3 := with_pbufs <[a := b1]> s2) in *.
  assert (Hl3 : chain (pbufs s3) (next b) l2).
  { eapply chain_agree; [|exact Hl2]. intros c Hc. cbn [pbufs s3 with_pbufs].
    rewrite lookup_insert_ne; [by rewrite Hm2|]. by intros <-. }
  assert (H4 : exists s4 lp4 lr4 bl4,
    io_when (negb (next b =? 0)) (_ ← pbuf_free (next b); mret tt) s3 = Ok (tt, s4) /\
    pbufs s4 = after_free l2 (pbufs s3) /\ bytes s4 = bytes s3 /\ pheap_inv s4 lp4 lr4 bl4).
  { pose proof (chain_nonzero _ _ _ Hl3) as Hz. destruct (Z.eqb_spec (next b) 0) as [En|En]; cbn [negb io_when].
    - apply Hz in En as ->. by exists s3, lp, lr, bl2.
    - destruct (pbuf_free_spec s3 lp lr bl2 _ l2 Hinv3 Hl3 Hh) as (s4 & lp4 & lr4 & bl4 & E4 & Hs4);
        [by intros ->; apply En, Hz|].
      exists s4, lp4, lr4, bl4. by rewrite (io_bind_ok _ _ _ _ _ E4). }
  destruct H4 as (s4 & lp4 & lr4 & bl4 & E4 & Hm4 & Hby4 & Hinv4).
  assert (Hb4 : pbufs s4 !! a = Some b1).
  { rewrite Hm4, after_free_outside by done. apply lookup_insert_eq. }
  exists (with_pbufs <[a := set_next 0 b1]> s4), lp4, lr4, bl4, (set_next 0 b1). split_and!.
  - unfold realloc_cut. rewrite (io_bind_ok _ _ _ _ _ (pb_read_ok _ _ _ Hb)), (io_bind_ok _ _ _ _ _ E2).
    rewrite (io_bind_ok _ _ _ _ _ (pb_update_ok _ _ _ _ Hb2)), (io_bind_ok _ _ _ _ _ E4).
    by apply pb_update_ok.
  - cbn [pbufs with_pbufs]. rewrite Hm4. cbn [pbufs s3 with_pbufs].
    rewrite after_free_insert, Hm2 by done. apply insert_insert_eq.
  - cbn [bytes with_pbufs]. by rewrite Hby4, <- Hby2.
  - apply u16_small. unfold is_u16. lia.
  - apply u16_small. unfold is_u16. lia.
  - done.
  - done.
  - done.
  - by apply (inv_update _ _ _ _ _ b1).
Qed.
End Inv.

(* ------------------------------------------------------------------ *)
(** * Properties *)

Section Properties.
Context {PP RP HP : Type} {OP : PoolOps PP} {OR : PoolOps RP} {OH : HeapOps HP}.

(** C33: [pbuf_alloc] of a PBUF_POOL packet: when the pool has enough elements,
    a chain of exactly as many pbufs as the length needs is made of the first
    free ones, every [tot_len] the length of the rest, every payload word
    aligned and inside its element, one reference each, and nothing else
    changes. Otherwise NULL is returned and everything taken meanwhile is
    given back: no pbuf leaks when the pool runs out in the middle. *)
Theorem pbuf_alloc_pool `{PLP : !PoolLaws PP} `{PLR : !PoolLaws RP} `{HLH : !HeapLaws HP}
    (s : pheap PP RP HP) lp lr bl layer length :
  pheap_inv s lp lr bl -> is_u16 length -> 0 <= layer <= 1396 ->
  let n := Z.to_nat (needed length layer) in
  if decide (n <= List.length lp)%nat then
    exists s' l, pbuf_alloc layer length PBUF_POOL s = Ok (Some (head_ptr l), s') /\
      l.*1 = take n lp /\ chain (pbufs s') (head_ptr l) l /\ packet l /\ lens l = length /\
      Forall (in_element layer) l /\ pheap_inv s' (drop n lp) lr bl /\
      (forall a, a ∉ take n lp -> pbufs s' !! a = pbufs s !! a) /\ bytes s' = bytes s
  else
    exists s' lp' lr' bl', pbuf_alloc layer length PBUF_POOL s = Ok (None, s') /\
      pbufs s' = pbufs s /\ bytes s' = bytes s /\ pheap_inv s' lp' lr' bl'.
Proof.
  intros Hinv Hlen Hlay n. unfold pbuf_alloc. unfold is_u16 in Hlen.
  rewrite (u16_small layer) by (unfold is_u16; lia).
  assert (Ht : taken s s [] length layer).
  { split_and!; [done|constructor|by intros a ?%not_elem_of_nil|done|done]. }
  pose proof (alloc_pool_loop_spec s lp (Z.to_nat length) [] s lr bl length layer length layer Hinv Ht
    eq_refl Hlay Hlen ltac:(lia)) as Ha.
  cbn [hd last default app] in Ha. unfold alloc_answer in Ha. fold n in Ha.
  destruct (decide (n <= List.length lp)%nat) as [Hn|Hn]; [|exact Ha].
  destruct Ha as (s' & E & (Hc & Hnd & _ & Hsame & Hby) & Hrem & Hinv'). cbn [app] in *.
  exists s', (pool_chain (take n lp) length layer).
  assert (Ehp : head_ptr (pool_chain (take n lp) length layer) = hd 0 (take n lp)) by by destruct (take n lp).
  rewrite Ehp. split_and!; try done.
  - apply pool_chain_keys.
  - by apply pool_chain_packet.
  - rewrite lens_pool_chain, Hrem. lia.
  - apply pool_chain_in_element; [|lia|done]. apply Forall_forall. intros q Hq.
    destruct Hinv as [H1 _ _ _ _ _ _ _].
    destruct (pool_rep_wf _ _ H1) as [_ Hsub].
    assert (Hqp : q ∈ pool_elements (PS := PP)).
    { apply Hsub, elem_of_list_to_set. by apply (subseteq_take n lp). }
    by destruct (pool_rep_addr _ _ q H1 Hqp).
Qed.

(** C17: [pbuf_free] of a chain gives the longest prefix of pbufs that nobody
    else holds back to where each came from and answers how many they were;
    the first pbuf with another reference stays, with one reference less, and
    keeps the rest of the chain. All other headers and every byte of data
    stay. The free elements of the two pools and the blocks in use of the heap
    are afterwards those of before with each pbuf of the prefix given back to
    its source, a pool's element pushed on that pool's free list, a block of
    the heap freed, and nothing else taken or returned; so an element of the
    pool is free exactly if it was free before or belongs to the prefix. *)
Theorem pbuf_free_releases `{PLP : !PoolLaws PP} `{PLR : !PoolLaws RP} `{HLH : !HeapLaws HP}
    (s : pheap PP RP HP) lp lr bl p l :
  pheap_inv s lp lr bl -> chain (pbufs s) p l -> Forall held l -> l <> [] ->
  exists l1 l2 s' lp' lr' bl',
    l = l1 ++ l2 /\ Forall (fun x => ref x.2 = 1) l1 /\
    pbuf_free p s = Ok (u8 (zlen l1), s') /\
    (forall a, a ∈ l1.*1 -> pbufs s' !! a = None) /\
    match l2 with
    | [] => True
    | (a, b) :: l3 => 1 < ref b /\ chain (pbufs s') a ((a, set_ref (ref b - 1) b) :: l3)
    end /\
    (forall a, a ∉ l1.*1 -> a <> head_ptr l2 \/ l2 = [] -> pbufs s' !! a = pbufs s !! a) /\
    bytes s' = bytes s /\ pheap_inv s' lp' lr' bl' /\
    foldl give_back (lp, lr, bl) l1 = (lp', lr', bl') /\
    (forall a, a ∈ pool_elements (PS := PP) -> a ∈ lp' <-> a ∈ lp \/ a ∈ l1.*1).
Proof.
  intros Hinv Hl Hh Hne. pose proof (chain_nodup _ _ _ Hl) as Hnd.
  destruct (pbuf_free_given s lp lr bl p l Hinv Hl Hh Hne) as (s' & lp' & lr' & bl' & E & Hm & Hby & Hg & Hinv').
  destruct (after_free_split l (pbufs s) Hnd) as (l1 & l2 & -> & H1 & Hn & Hd & H2 & Ho).
  rewrite <- Hm in Hd, H2, Ho. rewrite Hn in E, Hg.
  assert (Hin : forall x, x ∈ l1.*1 -> is_Some (pbufs s !! x)).
  { intros x Hx. apply list_elem_of_fmap in Hx as ([y by'] & -> & Hy).
    exists by'. apply (chain_lookup _ _ _ _ _ Hl). apply elem_of_app. by left. }
  assert (Hhd : l2 = [] \/ is_Some (pbufs s !! head_ptr l2) /\ is_Some (pbufs s' !! head_ptr l2)).
  { destruct l2 as [|[a b] l3]; [by left|right]. cbn [head_ptr]. destruct H2 as [_ ->].
    split; [|by eexists]. exists b. apply (chain_lookup _ _ _ _ _ Hl). apply elem_of_app. right. by left. }
  exists l1, l2, s', lp', lr', bl'. split_and!; try done.
  - destruct l2 as [|[a b] l3]; [done|]. destruct H2 as [Hr Ha].
    apply Forall_app in Hh as [_ [Hb _]%Forall_cons]. unfold held in Hb. cbn [snd] in Hb. split; [lia|].
    destruct (chain_suffix _ _ _ _ Hl) as (_ & Ha0 & _ & Hl3). split_and!; try done.
    eapply chain_agree; [|exact Hl3]. intros x Hx.
    rewrite fmap_app, fmap_cons in Hnd. apply NoDup_app in Hnd as (_ & Hdis & [Hx3 _]%NoDup_cons).
    apply Ho; [|left; by intros ->]. intros Hx1. apply (Hdis x Hx1). by right.
  - intros a Ha. rewrite (inv_pool_free _ _ _ _ Hinv' a Ha), (inv_pool_free _ _ _ _ Hinv a Ha).
    destruct (decide (a ∈ l1.*1)) as [Hx|Hx]; [by rewrite Hd by done; intuition|].
    destruct Hhd as [Hl2|[Hs1 Hs2]]; [by rewrite Ho by auto; intuition|].
    destruct (decide (a = head_ptr l2)) as [->|Hxa]; [|by rewrite Ho by auto; intuition].
    destruct Hs1 as [? ->], Hs2 as [? ->]. split; [done|]. by intros [?|?].
Qed.

(** [pbuf_realloc] shortens a packet to its first [new_len] bytes: the
    chain is cut behind the pbuf that holds the last of them, every length is
    adjusted, the pbufs behind are freed unless somebody else holds them, and
    all other headers stay. A packet that is short enough is left alone. *)
Theorem pbuf_realloc_truncates `{PLP : !PoolLaws PP} `{PLR : !PoolLaws RP} `{HLH : !HeapLaws HP}
    (s : pheap PP RP HP) lp lr bl p l c new_len :
  pheap_inv s lp lr bl -> chain (pbufs s) p l -> packet l -> Forall held l -> l <> [] ->
  content (bytes s) l c -> (forall a b, (a, b) ∈ l -> can_trim s bl a b) -> is_u16 new_len ->
  if zlen c <=? new_len then pbuf_realloc p new_len s = Ok (tt, s)
  else
    exists s' l' l2 lp' lr' bl', pbuf_realloc p new_len s = Ok (tt, s') /\
      chain (pbufs s') p l' /\ packet l' /\ lens l' = new_len /\
      content (bytes s') l' (take (Z.to_nat new_len) c) /\
      (exists l1, l = l1 ++ l2 /\ l'.*1 = l1.*1) /\
      (forall a, a ∈ l2.*1 -> pbufs s' !! a = after_free l2 (pbufs s) !! a) /\
      (forall a, a ∉ l.*1 -> pbufs s' !! a = pbufs s !! a) /\ pheap_inv s' lp' lr' bl'.
Proof.
  intros Hinv Hl Hp Hh Hne Hc Htr Hn. pose proof (content_length _ _ _ Hc Hp) as Hlen.
  pose proof (chain_length _ _ _ Hl) as Hfuel. pose proof (packet_lens _ Hp) as Hpl.
  assert (Hp0 : p <> 0) by (rewrite chain_nonzero; done).
  assert (Hb0 : exists b0, pbufs s !! p = Some b0 /\ tot_len b0 = lens l).
  { destruct l as [|[a b] l]; [done|]. destruct Hl as (-> & _ & Hb & _), Hp as (Et & _). by exists b. }
  destruct Hb0 as (b0 & Hb0 & Et0). unfold is_u16 in Hn.
  rewrite Hlen. destruct (Z.leb_spec (lens l) new_len) as [Hle|Hgt].
  { unfold pbuf_realloc. rewrite (proj2 (Z.eqb_neq p 0)) by done. erewrite io_bind_ok by done.
    rewrite (io_bind_ok _ _ _ _ _ (pb_read_ok _ _ _ Hb0)), Et0.
    by rewrite (proj2 (Z.leb_le _ _)) by lia. }
  destruct (realloc_walk_spec (chain_fuel (pbufs s)) s lp lr bl p l new_len Hinv Hl Hp) as
    (l1 & a & b & l2 & s1 & -> & Ew & Hrem & (Hr1 & Hr2 & Hr3 & Hr4) & Hinv1 & Hin1 & Hout1);
    [lia|unfold chain_fuel; lia|].
  pose proof (chain_nodup _ _ _ Hl) as Hnd. rewrite fmap_app, fmap_cons in Hnd.
  apply NoDup_app in Hnd as (_ & Hdis & [Ha2 _]%NoDup_cons). cbn [fst] in Ha2, Hdis.
  assert (Hal1 : a ∉ l1.*1) by (intros Hin; by apply (Hdis a Hin); left).
  assert (Hl2 : forall x, x ∈ l2.*1 -> x ∉ l1.*1) by (intros x Hx Hin; by apply (Hdis x Hin); right).
  pose proof (chain_suffix _ _ _ _ Hl) as Hcut. cbn [head_ptr] in Hcut.
  assert (Hcut1 : chain (pbufs s1) a ((a, b) :: l2)).
  { eapply chain_agree; [|exact Hcut]. intros x Hx. apply Hout1.
    rewrite fmap_cons in Hx. apply elem_of_cons in Hx as [->|Hx]; [done|by apply Hl2]. }
  pose proof (packet_app _ _ Hp) as (_ & [Hlenb [_ Hrefb]] & _).
  apply Forall_app in Hh as [_ [_ Hh2]%Forall_cons].
  assert (Htr1 : can_trim s1 bl a b).
  { pose proof (Htr a b ltac:(apply elem_of_app; right; by left)) as Ht. unfold can_trim. by rewrite Hr3. }
  destruct (realloc_cut_spec s1 lp lr bl a b l2 (new_len - lens l1) Hinv1 Hcut1 Hh2 Htr1 Hrem Hlenb) as
    (s2 & lp2 & lr2 & bl2 & b' & Ec & Hm2 & Hby2 & Elen & Etot & Epl & Eref & Enext & Hinv2).
  set (L := lens (l1 ++ (a, b) :: l2)) in *.
  exists s2, ((shrunk (L - new_len) <$> l1) ++ [(a, b')]), l2, lp2, lr2, bl2.
  assert (Hesc : forall x, x ∉ l2.*1 -> x <> a -> pbufs s2 !! x = pbufs s1 !! x).
  { intros x Hx Hxa. rewrite Hm2, lookup_insert_ne by done. by apply after_free_outside. }
  pose proof (packet_cut l1 a b l2 (new_len - lens l1) b' Hp Hrem Elen Etot ltac:(by rewrite Eref)) as Hpc.
  cbv zeta in Hpc. fold L in Hpc. replace (lens l1 + (new_len - lens l1)) with new_len in Hpc by lia.
  split_and!.
  - unfold pbuf_realloc. rewrite (proj2 (Z.eqb_neq p 0)) by done. erewrite io_bind_ok by done.
    rewrite (io_bind_ok _ _ _ _ _ (pb_read_ok _ _ _ Hb0)), Et0, (proj2 (Z.leb_gt _ _)) by lia.
    erewrite io_bind_ok by done. rewrite u16_small by (unfold is_u16; lia).
    by rewrite (io_bind_ok _ _ _ _ _ Ew).
  - eapply chain_cut; [exact Hl|apply shrunk_fields| | |done].
    + intros x Hx. assert (Hx1 : x.1 ∈ l1.*1) by by apply list_elem_of_fmap_2.
      rewrite Hesc; [by apply Hin1|intros Hx2; by apply (Hl2 _ Hx2)|by intros Exa; rewrite Exa in Hx1].
    + rewrite Hm2. apply lookup_insert_eq.
  - apply Hpc.
  - apply Hpc.
  - rewrite Hby2, Hr4. replace new_len with (lens l1 + (new_len - lens l1)) at 2 by lia.
    by eapply content_cut.
  - exists (l1 ++ [(a, b)]). split; [by rewrite <- app_assoc|].
    rewrite !fmap_app. f_equal. rewrite <- list_fmap_compose. apply list_fmap_ext. by intros i [].
  - intros x Hx. rewrite Hm2, lookup_insert_ne by (intros <-; done).
    apply after_free_agree; [done|]. intros y Hy. apply Hout1. by apply Hl2.
  - intros x Hx. rewrite fmap_app, fmap_cons, not_elem_of_app, not_elem_of_cons in Hx.
    destruct Hx as (Hx1 & Hxa & Hx2). rewrite Hesc by done. by apply Hout1.
  - done.
Qed.
End Properties.

(** Pools of three and two elements and the heap of the program, nothing in
    use. *)
Definition pool3 : memp_desc := mk_desc 1416 3 0x20001.
Definition rom2 : memp_desc := mk_desc 16 2 0x30001.
Definition fresh : pheap pool pool ram_heap :=
  mk_pheap (memp_init_pool pool3 (mk_pool 0 ∅)) (memp_init_pool rom2 (mk_pool 0 ∅)) heap0 ∅ ∅.
Definition laws3 : PoolLaws pool := memp_pool_laws (list_to_set (pool_els pool3)).
Definition laws2 : PoolLaws pool := memp_pool_laws (list_to_set (pool_els rom2)).

Lemma fresh_inv :
  pheap_inv (PLP := laws3) (PLR := laws2) fresh (reverse (pool_els pool3)) (reverse (pool_els rom2)) ∅.
Proof.
  split; cbn [pool_st rom_st heap_st pbufs fresh].
  - apply init_rep. by vm_compute.
  - apply init_rep. by vm_compute.
  - destruct heap0_rep as [HR _]. by exists [(MEM_SIZE_ALIGNED, false)].
  - intros a Ha%elem_of_list_to_set. rewrite elem_of_reverse. done.
  - intros a Ha%elem_of_list_to_set. rewrite elem_of_reverse. done.
  - done.
  - apply (bool_decide_unpack _). by vm_compute.
  - by intros a [n Hn].
Qed.

Lemma pbuf_alloc_pool_witness :
  exists s' l, pbuf_alloc PBUF_LINK 2000 PBUF_POOL fresh = Ok (Some (head_ptr l), s') /\
    l.*1 = [0x20b14; 0x2058c] /\ packet l /\ lens l = 2000 /\
    pheap_inv (PLP := laws3) (PLR := laws2) s' [0x20004] (reverse (pool_els rom2)) ∅.
Proof.
  destruct (pbuf_alloc_pool (PLP := laws3) (PLR := laws2) fresh _ _ _ PBUF_LINK 2000 fresh_inv)
    as (s' & l & E & Hk & _ & Hp & Hl & _ & Hinv & _); [by vm_compute|by vm_compute|].
  exists s', l. by split_and!.
Defined.

(** Two pbufs of the pool in use: 1 2 | 3 4 5; the second is held twice in
    [shared]. *)
Definition used_pool : pool :=
  match pool_malloc (pool_st fresh) with
  | Ok (_, ps) => match pool_malloc ps with Ok (_, ps) => ps | Fault _ => ps end
  | Fault _ => pool_st fresh
  end.

Definition used_chain (r : Z) : list (Z * pbuf) :=
  [(0x20b14, mk_pbuf 0x2058c 0x20b24 5 2 (u8 (pbuf_type_val PBUF_POOL)) 0 1 NETIF_NO_INDEX);
   (0x2058c, mk_pbuf 0 0x2059c 3 3 (u8 (pbuf_type_val PBUF_POOL)) 0 r NETIF_NO_INDEX)].

Definition used (r : Z) : pheap pool pool ram_heap :=
  mk_pheap used_pool (rom_st fresh) heap0 (list_to_map (used_chain r))
    (list_to_map [(0x20b24, 1); (0x20b25, 2); (0x2059c, 3); (0x2059d, 4); (0x2059e, 5)]).

Lemma used_inv r :
  pheap_inv (PLP := laws3) (PLR := laws2) (used r) [0x20004] (reverse (pool_els rom2)) ∅.
Proof.
  assert (Hnot : forall a, a ∈ pool_els rom2 -> pbufs (used r) !! a = None).
  { intros a Ha. cbv in Ha. set_unfold in Ha. destruct Ha as [->|[->|[]]]; done. }
  split; cbn [pool_st rom_st heap_st].
  - destruct (init_rep pool3 (mk_pool 0 ∅)) as (H1 & H2 & H3 & H4); [by vm_compute|].
    destruct (pool_malloc_some (PoolLaws := laws3) (pool_st fresh) 0x20b14 [0x2058c; 0x20004])
      as (ps & E & HR); [by apply init_rep; vm_compute|].
    destruct (pool_malloc_some (PoolLaws := laws3) ps 0x2058c [0x20004]) as (ps' & E' & HR'); [done|].
    unfold used, used_pool. cbn [pool_st]. by rewrite E, E'.
  - apply init_rep. by vm_compute.
  - destruct heap0_rep as [HR _]. by exists [(MEM_SIZE_ALIGNED, false)].
  - intros a Ha%elem_of_list_to_set. cbv in Ha. set_unfold in Ha.
    destruct Ha as [->|[->|[->|[]]]]; rewrite list_elem_of_singleton.
    + done.
    + by split; intros [=].
    + by split; intros [=].
  - intros a Ha%elem_of_list_to_set. rewrite elem_of_reverse, Hnot by done. done.
  - intros a b Hb%elem_of_list_to_map_2. left. unfold used_chain in Hb.
    rewrite elem_of_cons, list_elem_of_singleton in Hb.
    destruct Hb as [[= -> ->]|[= -> ->]]; (split; [|done]); by apply (bool_decide_unpack _); vm_compute.
  - apply (bool_decide_unpack _). by vm_compute.
  - by intros a [n Hn].
Qed.

Lemma used_facts r : 0 < r < 256 ->
  chain (pbufs (used r)) 0x20b14 (used_chain r) /\ packet (used_chain r) /\ Forall held (used_chain r) /\
  used_chain r <> [] /\ content (bytes (used r)) (used_chain r) [1; 2; 3; 4; 5].
Proof.
  intros Hr. split_and!; try done.
  - unfold used_chain, packet, wf_pbuf, is_u16, is_u8. simpl. lia.
  - repeat constructor; simpl; lia.
  - exists [1; 2], [3; 4; 5]. split_and!; try done. exists [3; 4; 5], []. by split_and!.
Qed.

Lemma pbuf_free_releases_witness :
  exists s', pbuf_free 0x20b14 (used 2) = Ok (1, s') /\
    pbufs s' !! 0x20b14 = None /\
    pbufs s' !! 0x2058c = Some (mk_pbuf 0 0x2059c 3 3 (u8 (pbuf_type_val PBUF_POOL)) 0 1 NETIF_NO_INDEX).
Proof.
  destruct (used_facts 2 ltac:(lia)) as (H1 & H2 & H3 & H4 & H5).
  destruct (pbuf_free_releases (PLP := laws3) (PLR := laws2) (used 2) _ _ _ _ _ (used_inv 2) H1 H3 H4)
    as (l1 & l2 & s' & lp' & lr' & bl' & El & Hf & E & Hn & H & _).
  exists s'. destruct l1 as [|x [|y l1]].
  - cbn [app] in El. subst l2. destruct H as [H _]. by vm_compute in H.
  - injection El as <- <-. destruct H as (_ & _ & _ & Hb & _). split_and!; [done|apply Hn; by left|done].
  - injection El as <- <- _. apply Forall_cons in Hf as [_ [Hf _]%Forall_cons]. done.
Defined.

Lemma pbuf_realloc_truncates_witness :
  exists s' l', pbuf_realloc 0x20b14 1 (used 1) = Ok (tt, s') /\
    chain (pbufs s') 0x20b14 l' /\ lens l' = 1 /\ content (bytes s') l' [1].
Proof.
  destruct (used_facts 1 ltac:(lia)) as (H1 & H2 & H3 & H4 & H5).
  pose proof (pbuf_realloc_truncates (PLP := laws3) (PLR := laws2) (used 1) _ _ _ _ _ [1; 2; 3; 4; 5] 1
    (used_inv 1) H1 H2 H3 H4 H5) as H.
  destruct H as (s' & l' & l2 & lp' & lr' & bl' & E & Hc & _ & Hl & Hct & _).
  - intros a b Hin k Hs. unfold used_chain in Hin. rewrite elem_of_cons, list_elem_of_singleton in Hin.
    by destruct Hin as [[= -> ->]|[= -> ->]].
  - by vm_compute.
  - exists s', l'. exact (conj E (conj Hc (conj Hl Hct))).
Defined.
