(* ===== verification/PbufCopy.v ===== *)
(** A packet copied into one buffer: [pbuf_alloc] of PBUF_RAM, [pbuf_copy]
    into a buffer of the packet's length, and [pbuf_clone]. *)

From Stdlib Require Import ZArith Lia.
From stdpp Require Import base list numbers gmap sets.
From S2P Require Import Prelude Mmio Mem MemProofs Memp Pbuf PbufChain PbufHeaders PbufAlloc.

Open Scope Z_scope.

(* ------------------------------------------------------------------ *)
(** * Copying *)

(** Every pbuf behind the first holds something, so that none of them looks
    like the end of a packet in a queue of packets. *)
Definition no_empty_tail (l : list (Z * pbuf)) : Prop := Forall (fun x => 0 < len x.2) (tail l).

Lemma copy_loop_spec m q t (bs0 : gmap Z Z) : m !! q = Some t -> q <> 0 -> next t = 0 -> 0 <= len t < 65536 ->
  forall lf fuel bs p c pre, chain m p lf -> packet lf -> content bs lf c -> lf <> [] -> no_empty_tail lf ->
  (forall i, payload t <= i < payload t + len t -> ~ in_payload lf i) ->
  (forall i, payload t <= i < payload t + len t -> is_Some (bs !! i)) ->
  load_bytes bs (payload t) (length pre) = Ok pre -> zlen pre + zlen c = len t ->
  (forall i, ~ payload t <= i < payload t + len t -> bs !! i = bs0 !! i) ->
  (length lf <= S fuel)%nat ->
  exists bs', copy_pbuf_loop fuel m bs q p (zlen pre) 0 (zlen c) = Ok (ERR_OK, bs') /\
    load_bytes bs' (payload t) (Z.to_nat (len t)) = Ok (pre ++ c) /\
    (forall i, ~ payload t <= i < payload t + len t -> bs' !! i = bs0 !! i) /\
    (forall i, is_Some (bs !! i) -> is_Some (bs' !! i)).
Proof.
  intros Hq Hq0 Ht Hlt lf. induction lf as [|[a b] lf IH]; intros fuel bs p c pre Hch Hp Hc Hne Htl Hap Hmap Hpre Hlen Hout Hfuel;
    [done|]. clear Hne.
  destruct Hch as (-> & Ha0 & Hb & Hch). destruct Hc as (c1 & c2 & -> & Hl1 & Hc2). pose proof Hl1 as [Hn1 _]%load_bytes_ok.
  pose proof Hp as (Etot & [Hlb [Htb _]] & Hpf). pose proof (content_length _ _ _ Hc2 Hpf) as Hl2. unfold is_u16 in Hlb, Htb.
  rewrite length_app in Hlen.
  destruct (store_bytes_ok bs (payload t + zlen pre) c1) as (bs1 & E1 & Hbs1).
  { intros i Hi. apply Hmap. lia. }
  assert (Hb1 : forall i, ~ payload t + zlen pre <= i < payload t + zlen pre + zlen c1 -> bs1 !! i = bs !! i).
  { intros i Hi. rewrite Hbs1. zcase; cbn [andb]; try done; lia. }
  assert (Hpre1 : load_bytes bs1 (payload t) (length (pre ++ c1)) = Ok (pre ++ c1)).
  { apply load_bytes_ok. split; [done|]. intros i Hi. rewrite length_app in Hi. rewrite Hbs1.
    apply load_bytes_ok in Hpre as [_ Hpre]. destruct (decide (i < length pre)%nat).
    - rewrite lookup_app_l, <- Hpre by lia. rewrite (proj2 (Z.leb_gt _ _)) by lia. done.
    - rewrite lookup_app_r by lia. rewrite (proj2 (Z.leb_le _ _)), (proj2 (Z.ltb_lt _ _)) by lia. cbn [andb]. f_equal. lia. }
  assert (Hm1 : forall i, is_Some (bs !! i) -> is_Some (bs1 !! i)).
  { intros i Hi. rewrite Hbs1. zcase; cbn [andb]; try done. apply lookup_lt_is_Some_2. lia. }
  assert (En : Z.min (zlen (c1 ++ c2)) (if u32 (len b - 0) <=? u32 (len t - zlen pre) then u32 (len b - 0) else u32 (len t - zlen pre)) = len b).
  { rewrite length_app, Z.sub_0_r, (u32_small (len b)), (u32_small (len t - zlen pre)) by ulia.
    rewrite (proj2 (Z.leb_le _ _)) by lia. lia. }
  assert (Eround : forall fuel', copy_pbuf_loop fuel' m bs q a (zlen pre) 0 (zlen (c1 ++ c2)) =
    if (next b =? 0) && negb (zlen c2 =? 0) then Ok (ERR_ARG, bs1)
    else
      let '(offset_to, p_to) := if zlen (pre ++ c1) =? len t then (0, 0) else (zlen (pre ++ c1), q) in
      if (p_to =? 0) && negb (zlen c2 =? 0) then Ok (ERR_ARG, bs1)
      else
        from_ok ← queue_check m (next b);
        if negb from_ok then Ok (ERR_VAL, bs1)
        else
          to_ok ← queue_check m p_to;
          if negb to_ok then Ok (ERR_VAL, bs1)
          else if zlen c2 =? 0 then Ok (ERR_OK, bs1)
          else match fuel' with
               | O => Fault Diverges
               | S fuel' => copy_pbuf_loop fuel' m bs1 p_to (next b) offset_to 0 (zlen c2)
               end).
  { intros fuel'. destruct fuel' as [|fuel']; cbn [copy_pbuf_loop]; unfold deref; rewrite Hq, Hb; cbn [mbind outcome_bind]; rewrite En;
      rewrite Z.add_0_r, Hl1; cbn [mbind outcome_bind]; rewrite E1; cbn [mbind outcome_bind];
      rewrite !length_app, (u32_small (zlen pre + len b)), (u32_small (0 + len b)), (u16_small (Z.of_nat (length c1 + length c2) - len b)) by ulia;
      rewrite (proj2 (Z.leb_le _ (len t))), (proj2 (Z.leb_le (0 + len b) (len b))) by lia; cbn [lwip_assert mbind outcome_bind];
      rewrite Z.add_0_l, Z.leb_refl, Ht;
      replace (Z.of_nat (length c1 + length c2) - len b) with (zlen c2) by lia;
      replace (zlen pre + len b) with (Z.of_nat (length pre + length c1)) by lia; done. }
  destruct lf as [|[a2 b2] lf].
  - exists bs1. simpl in Hc2. subst c2. cbn in Hch. rewrite Hch in Eround. cbn [length] in *.
    assert (Elen : zlen (pre ++ c1) = len t) by (rewrite length_app; lia).
    split_and!; [|by rewrite app_nil_r, <- Elen, Nat2Z.id| |done].
    + rewrite (Eround fuel), Elen, !Z.eqb_refl. done.
    + intros i Hi. rewrite Hb1 by lia. by apply Hout.
  - destruct fuel as [|fuel]; [simpl in Hfuel; lia|]. cbn [tail] in Htl. apply Forall_cons in Htl as [Hb2 Htl]. cbn [snd] in Hb2.
    pose proof Hch as (En2 & Hn0 & Hlb2 & _). pose proof Hpf as (Et2 & [Hw2 _] & Hpf2). cbn [lens fmap list_fmap] in Hl2.
    assert (Hl2' : len b2 <= zlen c2).
    { destruct Hc2 as (d1 & d2 & -> & [Hd1 _]%load_bytes_ok & _). rewrite length_app. lia. }
    assert (Htl' : no_empty_tail ((a2, b2) :: lf)) by done.
    assert (Hc2' : content bs1 ((a2, b2) :: lf) c2).
    { apply (content_agree bs); [|done]. intros i Hi. apply Hb1. intros Hin. apply (Hap i); [lia|]. apply in_payload_cons. by right. }
    destruct (IH fuel bs1 (next b) c2 (pre ++ c1) Hch Hpf Hc2') as (bs' & E & Hl' & Ho' & Hm'); try done.
    + intros i Hi Hin. apply (Hap i Hi). apply in_payload_cons. by right.
    + intros i Hi. by apply Hm1, Hmap.
    + rewrite length_app. lia.
    + intros i Hi. rewrite Hb1 by lia. by apply Hout.
    + simpl in Hfuel |- *. lia.
    + exists bs'. rewrite <- app_assoc in Hl'. split_and!; [|done|done|intros i Hi; by apply Hm', Hm1].
      rewrite (Eround (S fuel)), (proj2 (Z.eqb_neq (next b) 0)) by (rewrite En2; done). cbn [andb].
      rewrite (proj2 (Z.eqb_neq (zlen (pre ++ c1)) (len t))) by (rewrite length_app; lia).
      rewrite (proj2 (Z.eqb_neq q 0)), (proj2 (Z.eqb_neq (zlen c2) 0)) by (done || lia). cbn [andb].
      unfold queue_check. rewrite (proj2 (Z.eqb_neq (next b) 0)), (proj2 (Z.eqb_neq q 0)) by (done || (rewrite En2; done)).
      unfold deref. rewrite En2, Hlb2. cbn [mbind outcome_bind].
      assert (Eq2 : negb ((len b2 =? tot_len b2) && negb (next b2 =? 0)) = true).
      { destruct (Z.eqb_spec (len b2) (tot_len b2)) as [Eq|]; [|done]. cbn [andb].
        assert (Hlf : lf = []).
        { destruct lf as [|[a3 b3] lf]; [done|]. apply Forall_cons in Htl as [Hb3 _]. cbn [snd] in Hb3.
          pose proof (packet_lens ((a3, b3) :: lf) Hpf2). rewrite Et2 in Eq. cbn in Eq, H. pose proof Hpf2 as (_ & [Hw3 _] & Hpf3).
          pose proof (packet_lens _ Hpf3). unfold lens in *. lia. }
        subst lf. destruct Hch as (_ & _ & _ & Hz). cbn in Hz. by rewrite Hz. }
      rewrite Eq2. cbn [negb mbind outcome_bind]. rewrite Hq. cbn [mbind outcome_bind]. rewrite Ht, andb_false_r. cbn [negb].
      rewrite En2 in E. exact E.
Qed.

(** A packet copied into a buffer of its length. *)
Lemma pbuf_copy_ok m bs q t p l c : m !! q = Some t -> q <> 0 -> next t = 0 -> len t = zlen c -> tot_len t = len t ->
  chain m p l -> packet l -> content bs l c -> l <> [] -> no_empty_tail l ->
  (forall i, payload t <= i < payload t + len t -> is_Some (bs !! i) /\ ~ in_payload l i) ->
  exists bs', pbuf_copy m bs q p = Ok (ERR_OK, bs') /\ content bs' [(q, t)] c /\ content bs' l c /\
    (forall i, ~ payload t <= i < payload t + len t -> bs' !! i = bs !! i) /\ (forall i, is_Some (bs !! i) -> is_Some (bs' !! i)).
Proof.
  intros Hq Hq0 Ht Hlen Htot Hch Hp Hc Hne Htl Hfresh. pose proof (content_length _ _ _ Hc Hp) as Hcl.
  pose proof (packet_lens _ Hp) as Hb. pose proof (chain_length _ _ _ Hch) as Hfuel.
  assert (Hp0 : p <> 0) by (rewrite chain_nonzero; done).
  destruct (copy_loop_spec m q t bs Hq Hq0 Ht ltac:(lia) l (2 * chain_fuel m) bs p c [] Hch Hp Hc Hne Htl) as (bs' & E & Hl & Ho & Hm);
    try done; try (intros i Hi; by apply Hfresh).
  { unfold chain_fuel. lia. }
  exists bs'. split_and!; try done.
  - unfold pbuf_copy, pbuf_copy_partial_pbuf. rewrite (proj2 (Z.eqb_neq p 0)), (proj2 (Z.eqb_neq q 0)) by done.
    destruct l as [|[a b] l]; [done|]. destruct Hch as (-> & _ & Ha & _). destruct Hp as (Et & _). unfold deref. rewrite Ha.
    cbn [mbind outcome_bind]. rewrite Z.ltb_irrefl, Hq. cbn [mbind outcome_bind].
    assert (Etb : tot_len b = zlen c) by (rewrite Hcl, Et; cbn; unfold lens; lia). rewrite Etb.
    rewrite (proj2 (Z.ltb_ge (tot_len t) _)) by lia. exact E.
  - exists c, []. by rewrite app_nil_r.
  - apply (content_agree bs); [|done]. intros i Hi. apply Ho. intros Hin. by apply (Hfresh i Hin).
Qed.

(* ------------------------------------------------------------------ *)
(** * A buffer from the heap *)

Section Ram.
Context {PP RP HP : Type} {OP : PoolOps PP} {OR : PoolOps RP} {OH : HeapOps HP}.
Context `{PLP : !PoolLaws PP} `{PLR : !PoolLaws RP} `{HLH : !HeapLaws HP}.
Implicit Types (s : pheap PP RP HP).

(** The bytes a buffer of [n] with [off] in front of it takes. *)
Definition ram_size (off n : Z) : Z := 16 + 4 * ((off + 3) / 4) + 4 * ((n + 3) / 4).

(** The memory the heap would hand out for [k] bytes: it exists, it is not
    that of a pool, and the packet [l] is not in it. *)
Definition fresh_memory s l (k : Z) : Prop := forall a h, heap_malloc k (heap_st s) = Ok (Some a, h) ->
  a ∉ pool_elements (PS := PP) /\ a ∉ pool_elements (PS := RP) /\
  forall i, a <= i < a + k -> is_Some (bytes s !! i) /\ ~ in_payload l i.

(** The header of such a buffer at [p]. *)
Definition ram_pbuf (p off n : Z) : pbuf := mk_pbuf 0 (p + 16 + 4 * ((off + 3) / 4)) n n (u8 (pbuf_type_val PBUF_RAM)) 0 1 NETIF_NO_INDEX.

Lemma align_small n : 0 <= n < 4294967290 -> LWIP_MEM_ALIGN_SIZE n = 4 * ((n + 3) / 4).
Proof using Type. intros Hn. rewrite align_size_eq, u32_small by ulia. done. Qed.

Lemma alloc_ram_ok s lp lr bl l off n : pheap_inv s lp lr bl -> 0 <= off < 65536 -> 0 <= n < 65536 -> fresh_memory s l (ram_size off n) ->
  exists r hs, alloc_ram off n s = Ok (r, match r with
      | None => mk_pheap (pool_st s) (rom_st s) hs (pbufs s) (bytes s)
      | Some p => mk_pheap (pool_st s) (rom_st s) hs (<[p := ram_pbuf p off n]> (pbufs s)) (bytes s)
      end) /\
    match r with
    | None => pheap_inv (mk_pheap (pool_st s) (rom_st s) hs (pbufs s) (bytes s)) lp lr bl
    | Some p => 0 < p /\ pbufs s !! p = None /\ bl !! p = None /\
        (forall i, p <= i < p + ram_size off n -> is_Some (bytes s !! i) /\ ~ in_payload l i) /\
        exists m, pheap_inv (mk_pheap (pool_st s) (rom_st s) hs (<[p := ram_pbuf p off n]> (pbufs s)) (bytes s)) lp lr (<[p := m]> bl)
    end.
Proof using Type*.
  intros Hinv Hoff Hn Hfresh. pose proof Hinv as [H1 H2 H3 H4 H5 H6 H7 H8]. set (k := ram_size off n) in *.
  assert (Hk : 0 < k < 4294967296) by (unfold k, ram_size; Z.div_mod_to_equations; lia).
  destruct (heap_malloc_ok _ _ _ H3 Hk) as (r & hs & E & Hr). exists r, hs.
  assert (Ea : alloc_ram off n s = (r0 ← pb_mem_malloc k;
    match r0 with
    | None => mret None
    | Some p =>
        let pl := LWIP_MEM_ALIGN (p + SIZEOF_STRUCT_PBUF + off) in
        _ ← pbuf_init_alloced_pbuf p pl n n (pbuf_type_val PBUF_RAM) 0;
        _ ← io_assert (pl mod MEM_ALIGNMENT =? 0);
        mret (Some p)
    end) s).
  { unfold alloc_ram. rewrite !align_small by (unfold SIZEOF_STRUCT_PBUF; rewrite ?align_small; lia).
    change (4 * ((SIZEOF_STRUCT_PBUF + 3) / 4)) with 16.
    rewrite (u32_small (4 * _ + 4 * _)) by ulia. rewrite (u32_small (16 + _)) by ulia.
    rewrite !(proj2 (Z.ltb_ge _ _)) by (Z.div_mod_to_equations; lia). cbn [orb]. by rewrite Z.add_assoc. }
  rewrite Ea. unfold pb_mem_malloc, mbind, io_bind. rewrite E. cbn [mbind outcome_bind]. destruct r as [p|].
  - destruct Hr as (Hbl & m & Hm & H3'). destruct (heap_addr _ _ p m H3' ltac:(by rewrite lookup_insert_eq)) as [Hp0 Hpm].
    destruct (Hfresh p hs E) as (HpP & HpR & Hmem).
    assert (Epl : LWIP_MEM_ALIGN (p + SIZEOF_STRUCT_PBUF + off) = p + 16 + 4 * ((off + 3) / 4)).
    { destruct (align_mod (p + SIZEOF_STRUCT_PBUF + off)) as (_ & _ & ->). change SIZEOF_STRUCT_PBUF with 16.
      Z.div_mod_to_equations. lia. }
    assert (Hnone : pbufs s !! p = None).
    { destruct (pbufs s !! p) as [b|] eqn:Eb; [|done]. destruct (H6 p b Eb) as [[? _]|[[? _]|[[? Hs] _]]]; [done|done|by rewrite Hbl in Hs]. }
    split.
    + destruct (align_mod (p + SIZEOF_STRUCT_PBUF + off)) as (Emod & _). cbn. rewrite Emod, Z.eqb_refl, Epl. done.
    + split_and!; try done. exists m. split; try done; cbn [pbufs].
      * intros a Ha. rewrite lookup_insert_ne by (intros <-; done). by apply H4.
      * intros a Ha. rewrite lookup_insert_ne by (intros <-; done). by apply H5.
      * intros a b. destruct (decide (a = p)) as [->|Hne]; rewrite ?lookup_insert_eq, ?lookup_insert_ne by done.
        -- intros [= <-]. right. right. by rewrite lookup_insert_eq.
        -- intros Eb. destruct (H6 a b Eb) as [?|[?|?]]; [by left|by right; left|right; right]. by rewrite lookup_insert_ne.
      * intros a. destruct (decide (a = p)) as [->|Hne]; [done|]. rewrite lookup_insert_ne by done. apply H8.
  - split; [done|]. by split.
Qed.

(** [b] at [q] is a buffer of its own with [c] and room for [off] bytes in
    front; the packet [l] at [p] is as it was. *)
Record copy_of s (q : Z) (b : pbuf) (c : list Z) (off p : Z) (l : list (Z * pbuf)) : Prop := {
  co_chain : chain (pbufs s) q [(q, b)];
  co_packet : packet [(q, b)];
  co_content : content (bytes s) [(q, b)] c;
  co_headroom : headroom (bytes s) q b [] off;
  co_ref : ref b = 1;
  co_source : chain (pbufs s) p l /\ content (bytes s) l c
}.

(** Allocation and copy in turn. *)
Lemma alloc_copy_ok s lp lr bl p l c layer : pheap_inv s lp lr bl -> chain (pbufs s) p l -> packet l -> content (bytes s) l c ->
  l <> [] -> no_empty_tail l -> fresh_memory s l (ram_size (u16 layer) (zlen c)) ->
  exists r s1, pbuf_alloc layer (zlen c) PBUF_RAM s = Ok (r, s1) /\
    match r with
    | None => pheap_inv s1 lp lr bl /\ pbufs s1 = pbufs s /\ bytes s1 = bytes s
    | Some q => exists s2 b m, pb_copy q p s1 = Ok (ERR_OK, s2) /\ copy_of s2 q b c (u16 layer) p l /\
        pbufs s2 = pbufs s1 /\ pheap_inv s2 lp lr (<[q := m]> bl) /\ bl !! q = None
    end.
Proof using Type*.
  intros Hinv Hch Hp Hc Hne Htl Hfresh. pose proof (content_length _ _ _ Hc Hp) as Hcl. pose proof (packet_lens _ Hp) as Hb.
  pose proof (u16_range layer) as Hlay. unfold is_u16 in Hlay. set (off := u16 layer) in *.
  destruct (alloc_ram_ok s lp lr bl l off (zlen c) Hinv Hlay ltac:(lia) Hfresh) as (r & hs & E & Hr).
  exists r. eexists. split; [exact E|]. destruct r as [q|]; [|done].
  destruct Hr as (Hq0 & Hnone & Hbl & Hmem & m & Hinv1). set (b := ram_pbuf q off (zlen c)) in *.
  assert (Hin : forall i, q + 16 <= i < payload b + len b -> q <= i < q + ram_size off (zlen c))
    by (unfold b, ram_size; cbn; intros i Hi; Z.div_mod_to_equations; lia).
  assert (Hpl : q + 16 + off <= payload b) by (unfold b; cbn; Z.div_mod_to_equations; lia).
  assert (Hqne : forall a, a ∈ l.*1 -> a <> q).
  { intros a ([a' b'] & Ea & Hab)%list_elem_of_fmap Eq. pose proof (chain_lookup _ _ _ _ _ Hch Hab) as Ha. cbn in Ea. congruence. }
  assert (Hch1 : chain (<[q := b]> (pbufs s)) p l).
  { apply (chain_agree (pbufs s)); [|done]. intros a Ha. rewrite lookup_insert_ne; [done|]. intros <-. by apply (Hqne q). }
  destruct (pbuf_copy_ok (<[q := b]> (pbufs s)) (bytes s) q b p l c (lookup_insert_eq _ _ _) ltac:(lia) eq_refl eq_refl eq_refl Hch1 Hp Hc Hne Htl)
    as (bs & Ec & Hcq & Hcl2 & Hout & Hmap).
  { intros i Hi. apply Hmem, Hin. lia. }
  exists (mk_pheap (pool_st s) (rom_st s) hs (<[q := b]> (pbufs s)) bs), b, m. split_and!; try done.
  - unfold pb_copy. cbn [pbufs bytes]. by rewrite Ec.
  - split; try done.
    + split_and!; [done|lia|apply lookup_insert_eq|done].
    + split; [cbn; lia|]. split; [|done]. unfold wf_pbuf, is_u16, is_u8. cbn. lia.
    + split; try done.
      * change SIZEOF_STRUCT_PBUF with 16. lia.
      * intros i Hi. apply Hmap, Hmem, Hin. cbn [len b ram_pbuf]. lia.
      * intros i _ (a & b' & Hx%not_elem_of_nil & _). exact Hx.
  - by destruct Hinv1; split.
Qed.
End Ram.

(** C24: [pbuf_clone] gives a copy in one buffer of the heap: the same bytes
    whatever pbufs the packet was spread over, with the room in front that was
    asked for, held once, while the packet itself stays as it was. When the
    heap has no room nothing changes. Every pbuf still belongs to exactly one
    source, the new one to the heap. *)
Theorem pbuf_clone_copies {PP RP HP : Type} `{OP : PoolOps PP} `{OR : PoolOps RP} `{OH : HeapOps HP} `{PLP : !PoolLaws PP}
    `{PLR : !PoolLaws RP} `{HLH : !HeapLaws HP} (s : pheap PP RP HP) lp lr bl p l c layer :
  pheap_inv s lp lr bl -> chain (pbufs s) p l -> packet l -> content (bytes s) l c -> l <> [] -> no_empty_tail l ->
  fresh_memory s l (ram_size (u16 layer) (zlen c)) ->
  exists r s', pbuf_clone layer PBUF_RAM p s = Ok (r, s') /\
    match r with
    | None => pheap_inv s' lp lr bl /\ pbufs s' = pbufs s /\ bytes s' = bytes s
    | Some q => exists b m, copy_of s' q b c (u16 layer) p l /\ pheap_inv s' lp lr (<[q := m]> bl) /\ bl !! q = None
    end.
Proof.
  intros Hinv Hch Hp Hc Hne Htl Hfresh. destruct l as [|[a b0] l]; [done|].
  assert (Hb : pbufs s !! p = Some b0 /\ tot_len b0 = zlen c).
  { rewrite (content_length _ _ _ Hc Hp). destruct Hch as (-> & _ & Hb & _), Hp as (Et & _). split; [done|]. cbn. unfold lens in Et. lia. }
  destruct Hb as [Hb Et].
  destruct (alloc_copy_ok s lp lr bl p _ c layer Hinv Hch Hp Hc Hne Htl Hfresh) as (r & s1 & E1 & Hr).
  unfold pbuf_clone. rewrite (io_bind_ok _ _ _ _ _ (pb_read_ok _ _ _ Hb)), Et, (io_bind_ok _ _ _ _ _ E1). destruct r as [q|].
  - destruct Hr as (s2 & b & m & E2 & Hco & _ & Hinv2 & Hbl). exists (Some q), s2. rewrite (io_bind_ok _ _ _ _ _ E2). split; [done|].
    by exists b, m.
  - by exists None, s1.
Qed.

(** The packet 1 2 | 3 4 5 in the pool, the heap's memory empty. *)
Definition spread : pheap pool pool ram_heap :=
  mk_pheap (pool_st (used 1)) (rom_st (used 1)) (heap_st (used 1)) (pbufs (used 1))
    (bytes (used 1) ∪ list_to_map ((fun a => (a, 0)) <$> seqZ 0x08001004 200)).

Lemma spread_inv : pheap_inv (PLP := laws3) (PLR := laws2) spread [0x20004] (reverse (pool_els rom2)) ∅.
Proof. by destruct (used_inv 1); split. Qed.

Lemma spread_fresh : fresh_memory (PLP := laws3) (PLR := laws2) spread (used_chain 1) (ram_size (u16 PBUF_LINK) 5).
Proof.
  intros a h E.
  assert (Ea : match heap_malloc (ram_size (u16 PBUF_LINK) 5) (heap_st spread) with Ok (Some a, _) => a = 0x8001010 | _ => False end)
    by (vm_compute; reflexivity).
  rewrite E in Ea. subst a.
  split; [by apply (bool_decide_unpack _); vm_compute|]. split; [by apply (bool_decide_unpack _); vm_compute|].
  change (ram_size (u16 PBUF_LINK) 5) with 40. intros i Hi. split.
  - assert (C : forallb (fun i => bool_decide (is_Some (bytes spread !! i))) (seqZ 0x8001010 40) = true) by (vm_compute; reflexivity).
    rewrite forallb_forall in C. apply (bool_decide_eq_true_1 _), C, list_elem_of_In, elem_of_seqZ. lia.
  - intros (a & b & Hin & Hb). unfold used_chain in Hin. rewrite elem_of_cons, list_elem_of_singleton in Hin.
    destruct Hin as [[= -> ->]|[= -> ->]]; cbn in Hb; lia.
Qed.

Lemma pbuf_clone_copies_witness :
  exists s' b, pbuf_clone PBUF_LINK PBUF_RAM 0x20b14 spread = Ok (Some 0x8001010, s') /\
    content (bytes s') [(0x8001010, b)] [1; 2; 3; 4; 5] /\ content (bytes s') (used_chain 1) [1; 2; 3; 4; 5].
Proof.
  destruct (used_facts 1 ltac:(lia)) as (H1 & H2 & _ & H4 & _).
  assert (H5 : content (bytes spread) (used_chain 1) [1; 2; 3; 4; 5])
    by (exists [1; 2], [3; 4; 5]; split_and!; [done|vm_compute; reflexivity|]; exists [3; 4; 5], []; split_and!; [done|vm_compute; reflexivity|done]).
  destruct (pbuf_clone_copies (PLP := laws3) (PLR := laws2) spread _ _ _ 0x20b14 (used_chain 1) [1; 2; 3; 4; 5] PBUF_LINK spread_inv
    H1 H2 H5 H4 ltac:(by repeat constructor) spread_fresh) as (r & s' & E & Hr).
  assert (Er : match pbuf_clone PBUF_LINK PBUF_RAM 0x20b14 spread with Ok (r, _) => r = Some 0x8001010 | _ => False end)
    by (vm_compute; reflexivity).
  rewrite E in Er. subst r. destruct Hr as (b & m & Hco & _). exists s', b. split; [exact E|]. split; [apply Hco|apply Hco].
Defined.
