(* ===== verification/Emac.v ===== *)
(** The Ethernet interface driver: src/lwip/ports/hdk/netif/hdkif.c.

    The driver and the DMA engine of the EMAC share the buffer descriptors in
    the control RAM. The engine may run before every volatile read
    ([dma_run]); a write to a register may start it ([dma_write]). The control
    RAM is a map of descriptors by address, both kinds of which have one
    layout; fields hold what the engine sees, so the words the driver swizzles
    are swizzled here. [ethernet_input] is the protocol stack above: it may
    send packets itself and works on the whole state. *)

From Stdlib Require Import ZArith Lia.
From stdpp Require Import base list numbers gmap sets.
From S2P Require Import Prelude Mmio Board Mem Memp Pbuf.

Open Scope Z_scope.

(* ------------------------------------------------------------------ *)
(** * Constants *)

Definition ETHARP_HWADDR_LEN : Z := 6.
Definition MAX_TRANSFER_UNIT : Z := 1514.
Definition MAX_RX_PBUF_ALLOC : Z := 10.
Definition MIN_PKT_LEN : Z := 60.
Definition PBUF_LEN_MAX : Z := MAX_TRANSFER_UNIT.
Definition SIZE_EMAC_CTRL_RAM : Z := 0x2000.

Definition EMAC_CTRL_RAM_0_BASE : Z := 0xFC520000.
Definition EMAC_0_BASE : Z := 0xFCF78000.
Definition EMAC_CTRL_0_BASE : Z := 0xFCF78800.

Definition EMAC_BUF_DESC_OWNER : Z := 0x20000000.
Definition EMAC_BUF_DESC_SOP : Z := 0x80000000.
Definition EMAC_BUF_DESC_EOP : Z := 0x40000000.
Definition EMAC_BUF_DESC_EOQ : Z := 0x10000000.

Definition EMAC_DUPLEX_FULL : Z := 0x00000001.
Definition EMAC_RMIISPEED_100MBPS : Z := 0x00008000.
Definition EMAC_INT_CORE0_RX : Z := 0x1.
Definition EMAC_INT_CORE0_TX : Z := 0x2.
Definition EMAC_CONTROL_RESET : Z := 0x01.
Definition EMAC_SOFT_RESET : Z := 0x01.
Definition EMAC_MAX_HEADER_DESC : Z := 8.

(** HL_hw_emac.h, HL_hw_emac_ctrl.h, HL_reg_system.h. *)
Definition EMAC_TXCONTROL : Z := 0x4.
Definition EMAC_RXCONTROL : Z := 0x14.
Definition EMAC_TXINTMASKSET : Z := 0x88.
Definition EMAC_TXINTMASKCLEAR : Z := 0x8C.
Definition EMAC_MACEOIVECTOR : Z := 0x94.
Definition EMAC_RXINTMASKSET : Z := 0xA8.
Definition EMAC_RXINTMASKCLEAR : Z := 0xAC.
Definition EMAC_RXMBPENABLE : Z := 0x100.
Definition EMAC_RXBUFFEROFFSET : Z := 0x110.
Definition EMAC_RXFREEBUFFER (n : Z) : Z := 0x140 + n * 4.
Definition EMAC_MACCONTROL : Z := 0x160.
Definition EMAC_SOFTRESET : Z := 0x174.
Definition EMAC_MACSRCADDRLO : Z := 0x1D0.
Definition EMAC_MACSRCADDRHI : Z := 0x1D4.
Definition EMAC_MACHASH1 : Z := 0x1D8.
Definition EMAC_MACHASH2 : Z := 0x1DC.
Definition EMAC_TXHDP (n : Z) : Z := 0x600 + n * 4.
Definition EMAC_RXHDP (n : Z) : Z := 0x620 + n * 4.
Definition EMAC_TXCP (n : Z) : Z := 0x640 + n * 4.
Definition EMAC_RXCP (n : Z) : Z := 0x660 + n * 4.
Definition EMAC_TXCONTROL_TXEN : Z := 0x1.
Definition EMAC_RXCONTROL_RXEN : Z := 0x1.
Definition EMAC_RXMBPENABLE_RXCAFEN : Z := 0x00200000.
Definition EMAC_MACCONTROL_RMIISPEED : Z := 0x00008000.
Definition EMAC_MACCONTROL_GMIIEN : Z := 0x00000020.
Definition EMAC_MACCONTROL_FULLDUPLEX : Z := 0x00000001.
Definition EMAC_CTRL_SOFTRESET : Z := 0x4.
Definition EMAC_CTRL_CnRXEN (n : Z) : Z := 0x14 + n * 16.
Definition EMAC_CTRL_CnTXEN (n : Z) : Z := 0x18 + n * 16.
Definition DIEIDL_REG0 : Z := 0xFFFFE100 + 0xF0.

(** netif.h. *)
Definition NETIF_FLAG_BROADCAST : Z := 0x02.
Definition NETIF_FLAG_LINK_UP : Z := 0x04.
Definition NETIF_FLAG_MLD6 : Z := 0x40.

(** The addresses of the two interrupt routines. *)
Definition EMACCore0TxIsr_addr : isr_handler := 4.
Definition EMACCore0RxIsr_addr : isr_handler := 5.

(* ------------------------------------------------------------------ *)
(** * State *)

(** [struct emac_tx_bdp] and [struct emac_rx_bdp]. *)
Record bdp := mk_bdp {
  bd_next : Z;
  bufptr : Z;
  bufoff_len : Z;
  flags_pktlen : Z;
  bd_pbuf : Z
}.
Definition SIZEOF_BDP : Z := 20.

Definition set_bd_next (v : Z) (b : bdp) : bdp :=
  mk_bdp v (bufptr b) (bufoff_len b) (flags_pktlen b) (bd_pbuf b).
Definition set_bufptr (v : Z) (b : bdp) : bdp :=
  mk_bdp (bd_next b) v (bufoff_len b) (flags_pktlen b) (bd_pbuf b).
Definition set_bufoff_len (v : Z) (b : bdp) : bdp :=
  mk_bdp (bd_next b) (bufptr b) v (flags_pktlen b) (bd_pbuf b).
Definition set_flags (v : Z) (b : bdp) : bdp :=
  mk_bdp (bd_next b) (bufptr b) (bufoff_len b) v (bd_pbuf b).
Definition set_bd_pbuf (v : Z) (b : bdp) : bdp :=
  mk_bdp (bd_next b) (bufptr b) (bufoff_len b) (flags_pktlen b) v.

Record txch := mk_txch { tx_free_head : Z; tx_active_tail : Z; next_bd_to_process : Z }.
Record rxch := mk_rxch { rx_free_head : Z; rx_active_head : Z; rx_active_tail : Z; freed_pbuf_len : Z }.
Record hdkif := mk_hdkif {
  inst_num : Z;
  emac_base : Z;
  emac_ctrl_base : Z;
  emac_ctrl_ram : Z;
  tx : txch;
  rx : rxch
}.

(** The fields of [struct netif] the driver sets. *)
Record netif := mk_netif {
  hwaddr_len : Z;
  hwaddr : list Z;
  mtu : Z;
  nif_flags : Z;
  name : Z * Z;
  num : Z
}.

(** The engine: [dma] is its own state, [regs] the registers by address,
    [bds] the descriptors. *)
Record hw (D : Type) := mk_hw { dma : D; regs : gmap Z Z; bds : gmap Z bdp }.
Arguments mk_hw {D}.
Arguments dma {D}.
Arguments regs {D}.
Arguments bds {D}.

(** What the engine does by itself, and on a register write; it may store a
    received frame in memory. *)
Class Dma (D : Type) := {
  dma_run : hw D * gmap Z Z -> hw D * gmap Z Z;
  dma_write : Z -> Z -> D -> D
}.

(** What the driver works on; [rest] is the rest of the program, which it does
    not look at. *)
Record eth (D PP RP HP X : Type) := mk_eth {
  dev : hw D;
  ctl : hdkif;
  nif : netif;
  cpsr : CPSR;
  irqs : vim;
  heap : pheap PP RP HP;
  rest : X
}.
Arguments mk_eth {D PP RP HP X}.
Arguments dev {D PP RP HP X}.
Arguments ctl {D PP RP HP X}.
Arguments nif {D PP RP HP X}.
Arguments cpsr {D PP RP HP X}.
Arguments irqs {D PP RP HP X}.
Arguments heap {D PP RP HP X}.
Arguments rest {D PP RP HP X}.

(* ------------------------------------------------------------------ *)
(** * Byte order *)

Definition hdkif_swizzle_data (word : Z) : Z :=
  Z.lor (Z.lor (Z.lor (Z.land (u32 (Z.shiftl word 24)) 0xFF000000)
    (Z.land (u32 (Z.shiftl word 8)) 0x00FF0000))
    (Z.land (Z.shiftr word 8) 0x0000FF00))
    (Z.land (Z.shiftr word 24) 0x000000FF).
Definition hdkif_swizzle_txp (p : Z) : Z := hdkif_swizzle_data p.
Definition hdkif_swizzle_rxp (p : Z) : Z := hdkif_swizzle_data p.

(** [hdkif_swizzle_data(bd->flags_pktlen) & mask]. *)
Definition flag (w mask : Z) : Z := Z.land (hdkif_swizzle_data w) mask.

Section Driver.
Context {D PP RP HP X : Type} `{Dma D} `{PoolOps PP} `{PoolOps RP} `{HeapOps HP}.
(** The polls the hardware may take; the rest of the stack. *)
Variable fuel : nat.

Abbreviation state := (eth D PP RP HP X).
Abbreviation eio := (io state).

(* ------------------------------------------------------------------ *)
(** * Accesses *)

Definition with_dev (f : hw D -> hw D) (s : state) : state :=
  mk_eth (f (dev s)) (ctl s) (nif s) (cpsr s) (irqs s) (heap s) (rest s).
Definition with_ctl (f : hdkif -> hdkif) (s : state) : state :=
  mk_eth (dev s) (f (ctl s)) (nif s) (cpsr s) (irqs s) (heap s) (rest s).
Definition with_nif (f : netif -> netif) (s : state) : state :=
  mk_eth (dev s) (ctl s) (f (nif s)) (cpsr s) (irqs s) (heap s) (rest s).
Definition with_cpsr (f : CPSR -> CPSR) (s : state) : state :=
  mk_eth (dev s) (ctl s) (nif s) (f (cpsr s)) (irqs s) (heap s) (rest s).

Definition set_tx (t : txch) (h : hdkif) : hdkif :=
  mk_hdkif (inst_num h) (emac_base h) (emac_ctrl_base h) (emac_ctrl_ram h) t (rx h).
Definition set_rx (r : rxch) (h : hdkif) : hdkif :=
  mk_hdkif (inst_num h) (emac_base h) (emac_ctrl_base h) (emac_ctrl_ram h) (tx h) r.

(** The engine runs, until the next read. *)
Definition run_dma (s : state) : state :=
  let '(h, bs) := dma_run (dev s, bytes (heap s)) in
  mk_eth h (ctl s) (nif s) (cpsr s) (irqs s)
    (mk_pheap (pool_st (heap s)) (rom_st (heap s)) (heap_st (heap s)) (pbufs (heap s)) bs) (rest s).

(** [HWREG(a)]. *)
Definition hwreg_rd (a : Z) : eio Z := fun s =>
  let s := run_dma s in Ok (default 0 (regs (dev s) !! a), s).
Definition hwreg_wr (a v : Z) : eio unit :=
  io_modify (with_dev (fun h => mk_hw (dma_write a (u32 v) (dma h)) (<[a := u32 v]> (regs h)) (bds h))).
Definition hwreg_or (a v : Z) : eio unit := x ← hwreg_rd a; hwreg_wr a (Z.lor x v).
Definition hwreg_and (a v : Z) : eio unit := x ← hwreg_rd a; hwreg_wr a (Z.land x v).

(** [p->field] and [p->field = v] of a descriptor. *)
Definition bd_rd (p : Z) : eio bdp := fun s =>
  let s := run_dma s in
  match bds (dev s) !! p with Some b => Ok (b, s) | None => Fault NullPointer end.
Definition bd_wr (p : Z) (f : bdp -> bdp) : eio unit := fun s =>
  match bds (dev s) !! p with
  | Some b => Ok (tt, with_dev (fun h => mk_hw (dma h) (regs h) (<[p := f b]> (bds h))) s)
  | None => Fault NullPointer
  end.

(** [while (cond(read)) ;] *)
Fixpoint spin {A} (n : nat) (read : eio A) (cond : A -> bool) : eio unit :=
  x ← read;
  if cond x then match n with O => io_fault Diverges | S n => spin n read cond end
  else mret tt.

Definition on_heap {A} (m : io (pheap PP RP HP) A) : eio A := fun s =>
  '(x, h) ← m (heap s); Ok (x, mk_eth (dev s) (ctl s) (nif s) (cpsr s) (irqs s) h (rest s)).

(* ------------------------------------------------------------------ *)
(** * Registers *)

Definition EMACTxIntPulseEnable (emacBase emacCtrlBase ctrlCore channel : Z) : eio unit :=
  _ ← hwreg_or (emacBase + EMAC_TXINTMASKSET) (Z.shiftl 1 channel);
  hwreg_or (emacCtrlBase + EMAC_CTRL_CnTXEN ctrlCore) (Z.shiftl 1 channel).
Definition EMACRxIntPulseEnable (emacBase emacCtrlBase ctrlCore channel : Z) : eio unit :=
  _ ← hwreg_or (emacBase + EMAC_RXINTMASKSET) (Z.shiftl 1 channel);
  hwreg_or (emacCtrlBase + EMAC_CTRL_CnRXEN ctrlCore) (Z.shiftl 1 channel).
Definition EMACRMIISpeedSet (emacBase speed : Z) : eio unit :=
  _ ← hwreg_and (emacBase + EMAC_MACCONTROL) (Z.lnot EMAC_MACCONTROL_RMIISPEED);
  hwreg_or (emacBase + EMAC_MACCONTROL) speed.
Definition EMACMIIEnable (emacBase : Z) : eio unit :=
  hwreg_or (emacBase + EMAC_MACCONTROL) EMAC_MACCONTROL_GMIIEN.
Definition EMACDuplexSet (emacBase duplexMode : Z) : eio unit :=
  _ ← hwreg_and (emacBase + EMAC_MACCONTROL) (Z.lnot EMAC_MACCONTROL_FULLDUPLEX);
  hwreg_or (emacBase + EMAC_MACCONTROL) duplexMode.
Definition EMACTxEnable (emacBase : Z) : eio unit := hwreg_wr (emacBase + EMAC_TXCONTROL) EMAC_TXCONTROL_TXEN.
Definition EMACRxEnable (emacBase : Z) : eio unit := hwreg_wr (emacBase + EMAC_RXCONTROL) EMAC_RXCONTROL_RXEN.
Definition EMACTxHdrDescPtrWrite (emacBase descHdr channel : Z) : eio unit :=
  hwreg_wr (emacBase + EMAC_TXHDP channel) descHdr.
Definition EMACRxHdrDescPtrWrite (emacBase descHdr channel : Z) : eio unit :=
  hwreg_wr (emacBase + EMAC_RXHDP channel) descHdr.

Fixpoint hdp_init_loop (n : nat) (emacBase cnt : Z) : eio unit :=
  match n with
  | O => mret tt
  | S n =>
      _ ← hwreg_wr (emacBase + EMAC_RXHDP cnt) 0;
      _ ← hwreg_wr (emacBase + EMAC_TXHDP cnt) 0;
      _ ← hwreg_wr (emacBase + EMAC_RXCP cnt) 0;
      _ ← hwreg_wr (emacBase + EMAC_TXCP cnt) 0;
      _ ← hwreg_wr (emacBase + EMAC_RXFREEBUFFER cnt) 0xFF;
      hdp_init_loop n emacBase (cnt + 1)
  end.

Definition EMACInit (emacCtrlBase emacBase : Z) : eio unit :=
  _ ← hwreg_wr (emacCtrlBase + EMAC_CTRL_SOFTRESET) EMAC_CONTROL_RESET;
  _ ← spin fuel (hwreg_rd (emacCtrlBase + EMAC_CTRL_SOFTRESET))
        (fun x => Z.land x EMAC_CONTROL_RESET =? EMAC_CONTROL_RESET);
  _ ← hwreg_wr (emacBase + EMAC_SOFTRESET) EMAC_SOFT_RESET;
  _ ← spin fuel (hwreg_rd (emacBase + EMAC_SOFTRESET))
        (fun x => Z.land x EMAC_SOFT_RESET =? EMAC_SOFT_RESET);
  _ ← hwreg_wr (emacBase + EMAC_MACCONTROL) 0;
  _ ← hwreg_wr (emacBase + EMAC_RXCONTROL) 0;
  _ ← hwreg_wr (emacBase + EMAC_TXCONTROL) 0;
  _ ← hdp_init_loop (Z.to_nat EMAC_MAX_HEADER_DESC) emacBase 0;
  _ ← hwreg_wr (emacBase + EMAC_TXINTMASKCLEAR) 0xFF;
  _ ← hwreg_wr (emacBase + EMAC_RXINTMASKCLEAR) 0xFF;
  _ ← hwreg_wr (emacBase + EMAC_MACHASH1) 0;
  _ ← hwreg_wr (emacBase + EMAC_MACHASH2) 0;
  hwreg_wr (emacBase + EMAC_RXBUFFEROFFSET) 0.

Definition EMACMACSrcAddrSet (emacBase : Z) (macAddr : list Z) : eio unit :=
  let at_ i := default 0 (macAddr !! i) in
  _ ← hwreg_wr (emacBase + EMAC_MACSRCADDRHI)
        (Z.lor (Z.lor (Z.lor (at_ 0%nat) (Z.shiftl (at_ 1%nat) 8)) (Z.shiftl (at_ 2%nat) 16)) (Z.shiftl (at_ 3%nat) 24));
  hwreg_wr (emacBase + EMAC_MACSRCADDRLO) (Z.lor (at_ 4%nat) (Z.shiftl (at_ 5%nat) 8)).

Definition EMACCoreIntAck (emacBase eoiFlag : Z) : eio unit := hwreg_wr (emacBase + EMAC_MACEOIVECTOR) eoiFlag.
Definition EMACTxCPWrite (emacBase channel comPtr : Z) : eio unit := hwreg_wr (emacBase + EMAC_TXCP channel) comPtr.
Definition EMACRxCPWrite (emacBase channel comPtr : Z) : eio unit := hwreg_wr (emacBase + EMAC_RXCP channel) comPtr.
Definition EMACNumFreeBufSet (emacBase channel nBuf : Z) : eio unit :=
  hwreg_wr (emacBase + EMAC_RXFREEBUFFER channel) nBuf.

Definition hdkif_inst_config : eio unit :=
  s ← io_get;
  let h := ctl s in
  if inst_num h =? 0 then
    io_modify (with_ctl (fun h => mk_hdkif (inst_num h) EMAC_0_BASE EMAC_CTRL_0_BASE EMAC_CTRL_RAM_0_BASE (tx h) (rx h)))
  else mret tt.

(* ------------------------------------------------------------------ *)
(** * Transmission *)

(** The descriptors of the chain from [q]; returns the one behind the last
    and the last. *)
Fixpoint tx_fill (n : nat) (q pbuf curr_bd bd_end : Z) : eio (Z * Z) :=
  if q =? 0 then mret (curr_bd, bd_end)
  else
    match n with
    | O => io_fault Diverges
    | S n =>
        b ← on_heap (pb_read q);
        _ ← bd_wr curr_bd (set_bufptr (hdkif_swizzle_data (payload b)));
        _ ← bd_wr curr_bd (set_bufoff_len (hdkif_swizzle_data (Z.land (len b) 0xFFFF)));
        _ ← bd_wr curr_bd (set_bd_pbuf pbuf);
        x ← bd_rd curr_bd;
        tx_fill n (next b) pbuf (hdkif_swizzle_txp (bd_next x)) curr_bd
    end.

(** The engine is started, or told of the packet when it has ended. *)
Definition tx_start (active_head : Z) : eio unit :=
  s ← io_get;
  let tail := tx_active_tail (tx (ctl s)) in
  if tail =? 0 then EMACTxHdrDescPtrWrite (emac_base (ctl s)) active_head 0
  else
    _ ← spin fuel (bd_rd tail) (fun x => negb (EMAC_BUF_DESC_EOQ =? flag (flags_pktlen x) EMAC_BUF_DESC_EOQ));
    _ ← spin fuel (hwreg_rd 0xFCF78600) (fun x => negb (0 =? x));
    _ ← bd_wr tail (set_bd_next (hdkif_swizzle_txp active_head));
    x ← bd_rd tail;
    if EMAC_BUF_DESC_EOQ =? flag (flags_pktlen x) EMAC_BUF_DESC_EOQ
    then EMACTxHdrDescPtrWrite (emac_base (ctl s)) active_head 0
    else mret tt.

Definition set_tx_free_head (v : Z) (t : txch) : txch := mk_txch v (tx_active_tail t) (next_bd_to_process t).
Definition set_tx_active_tail (v : Z) (t : txch) : txch := mk_txch (tx_free_head t) v (next_bd_to_process t).
Definition set_next_bd (v : Z) (t : txch) : txch := mk_txch (tx_free_head t) (tx_active_tail t) v.
Definition tx_upd (f : txch -> txch) : eio unit := io_modify (with_ctl (fun h => set_tx (f (tx h)) h)).

Definition hdkif_transmit (pbuf : Z) : eio unit :=
  s ← io_get;
  let active_head := tx_free_head (tx (ctl s)) in
  b ← on_heap (pb_read pbuf);
  let flags := Z.lor (tot_len b) (Z.lor EMAC_BUF_DESC_SOP EMAC_BUF_DESC_OWNER) in
  _ ← bd_wr active_head (set_flags (hdkif_swizzle_data flags));
  '(curr_bd, bd_end) ← tx_fill (chain_fuel (pbufs (heap s))) pbuf pbuf active_head 0;
  _ ← bd_wr bd_end (set_bd_next 0);
  x ← bd_rd bd_end;
  _ ← bd_wr bd_end (set_flags (Z.lor (flags_pktlen x) (hdkif_swizzle_data EMAC_BUF_DESC_EOP)));
  _ ← tx_upd (set_tx_free_head curr_bd);
  _ ← tx_start active_head;
  tx_upd (set_tx_active_tail bd_end).

Definition hdkif_output (p : Z) : eio Z :=
  s ← io_get;
  let '(lev, c) := sys_arch_protect (cpsr s) in
  _ ← io_modify (with_cpsr (fun _ => c));
  b ← on_heap (pb_read p);
  _ ← io_when (tot_len b <? MIN_PKT_LEN)
        (on_heap (pb_update p (fun b => set_len MIN_PKT_LEN (set_tot_len MIN_PKT_LEN b))));
  _ ← on_heap (pbuf_ref p);
  _ ← hdkif_transmit p;
  _ ← io_modify (with_cpsr (sys_arch_unprotect lev));
  mret ERR_OK.

(* ------------------------------------------------------------------ *)
(** * The transmit interrupt *)

(** From the start of a packet to its last descriptor. *)
Fixpoint find_eop (n : nat) (curr_bd : Z) : eio Z :=
  x ← bd_rd curr_bd;
  if negb (flag (flags_pktlen x) EMAC_BUF_DESC_EOP =? EMAC_BUF_DESC_EOP) then
    match n with
    | O => io_fault Diverges
    | S n => x ← bd_rd curr_bd; find_eop n (hdkif_swizzle_txp (bd_next x))
    end
  else mret curr_bd.

(** [bd->flags_pktlen &= hdkif_swizzle_data(~(mask))]. *)
Definition bd_clear (p mask : Z) : eio unit :=
  x ← bd_rd p;
  bd_wr p (set_flags (Z.land (flags_pktlen x) (hdkif_swizzle_data (u32 (Z.lnot mask))))).

(** The number of descriptors. *)
Definition num_bds : nat := Z.to_nat (SIZE_EMAC_CTRL_RAM / SIZEOF_BDP).

(** The packet that ends in [last] is done with. *)
Definition tx_done (last : Z) : eio unit :=
  x ← bd_rd last;
  _ ← (if bd_next x =? 0 then
         s ← io_get; tx_upd (set_next_bd (tx_free_head (tx (ctl s))))
       else
         y ← bd_rd last; tx_upd (set_next_bd (hdkif_swizzle_txp (bd_next y))));
  s ← io_get;
  _ ← EMACTxCPWrite (emac_base (ctl s)) 0 last;
  z ← bd_rd last;
  _ ← on_heap (pbuf_free (bd_pbuf z));
  mret tt.

Fixpoint tx_int_loop (n : nat) (curr_bd : Z) : eio unit :=
  x ← bd_rd curr_bd;
  if flag (flags_pktlen x) EMAC_BUF_DESC_SOP =? 0 then mret tt
  else
    match n with
    | O => io_fault Diverges
    | S n =>
        let first := curr_bd in
        _ ← spin fuel (bd_rd first) (fun x => flag (flags_pktlen x) EMAC_BUF_DESC_OWNER =? EMAC_BUF_DESC_OWNER);
        last ← find_eop num_bds first;
        _ ← bd_clear first EMAC_BUF_DESC_SOP;
        _ ← bd_clear last EMAC_BUF_DESC_EOP;
        _ ← tx_done last;
        s ← io_get;
        tx_int_loop n (next_bd_to_process (tx (ctl s)))
    end.

Definition hdkif_tx_inthandler : eio unit :=
  s ← io_get;
  _ ← tx_int_loop num_bds (next_bd_to_process (tx (ctl s)));
  _ ← EMACCoreIntAck (emac_base (ctl s)) EMAC_INT_CORE0_RX;
  EMACCoreIntAck (emac_base (ctl s)) EMAC_INT_CORE0_TX.
Definition EMACCore0TxIsr : eio unit := hdkif_tx_inthandler.

(* ------------------------------------------------------------------ *)
(** * Set-up *)

Definition set_hwaddr (l : list Z) (n : netif) : netif :=
  mk_netif ETHARP_HWADDR_LEN l (mtu n) (nif_flags n) (name n) (num n).

(** The locally administered address made of the die's serial number. *)
Definition hwaddr_init : eio unit :=
  a ← hwreg_rd DIEIDL_REG0;
  b ← hwreg_rd DIEIDL_REG0;
  c ← hwreg_rd DIEIDL_REG0;
  d ← hwreg_rd DIEIDL_REG0;
  io_modify (with_nif (set_hwaddr
    [0x02; 0x00; u8 (Z.shiftr a 24); u8 (Z.shiftr b 16); u8 (Z.shiftr c 8); u8 d])).

(** [while (num_bd--)] *)
Fixpoint tx_ring_loop (n : nat) (curr_txbd last_txbd : Z) : eio (Z * Z) :=
  match n with
  | O => mret (curr_txbd, last_txbd)
  | S n =>
      _ ← bd_wr curr_txbd (set_bd_next (hdkif_swizzle_txp (u32 (curr_txbd + SIZEOF_BDP))));
      _ ← bd_wr curr_txbd (set_flags 0);
      x ← bd_rd curr_txbd;
      tx_ring_loop n (hdkif_swizzle_txp (bd_next x)) curr_txbd
  end.

(** The descriptors of the received chain from [q]. *)
Fixpoint rx_ring_fill (n : nat) (q curr_bd last_bd num_bd : Z) : eio (Z * Z * Z) :=
  if q =? 0 then mret (curr_bd, last_bd, num_bd)
  else
    match n with
    | O => io_fault Diverges
    | S n =>
        b ← on_heap (pb_read q);
        _ ← bd_wr curr_bd (set_bufptr (hdkif_swizzle_data (payload b)));
        _ ← bd_wr curr_bd (set_bufoff_len (hdkif_swizzle_data (len b)));
        _ ← bd_wr curr_bd (set_bd_next (hdkif_swizzle_rxp (u32 (curr_bd + SIZEOF_BDP))));
        _ ← bd_wr curr_bd (set_flags (hdkif_swizzle_data EMAC_BUF_DESC_OWNER));
        _ ← bd_wr curr_bd (set_bd_pbuf q);
        x ← bd_rd curr_bd;
        rx_ring_fill n (next b) (hdkif_swizzle_rxp (bd_next x)) curr_bd (u32 (num_bd - 1))
    end.

(** [while (pbuf_cnt < MAX_RX_PBUF_ALLOC)]; [n] is what is left of the
    count. Returns the last descriptor. *)
Fixpoint rx_ring_loop (n : nat) (curr_bd last_bd num_bd : Z) : eio Z :=
  match n with
  | O => mret last_bd
  | S n =>
      r ← on_heap (pbuf_alloc PBUF_RAW PBUF_LEN_MAX PBUF_POOL);
      match r with
      | None => mret last_bd
      | Some p =>
          s ← io_get;
          let m := pbufs (heap s) in
          c ← (fun s => c ← pbuf_clen m p; Ok (c, s));
          if c <=? num_bd then
            '(curr_bd, last_bd, num_bd) ← rx_ring_fill (chain_fuel m) p curr_bd last_bd num_bd;
            rx_ring_loop n curr_bd last_bd num_bd
          else
            _ ← on_heap (pbuf_free p);
            mret last_bd
      end
  end.

(** The transmit ring; returns the address behind it. *)
Definition tx_ring_init : eio Z :=
  s ← io_get;
  let base := emac_ctrl_ram (ctl s) in
  _ ← tx_upd (fun _ => mk_txch base 0 base);
  '(curr_txbd, last_txbd) ← tx_ring_loop (Z.to_nat (Z.shiftr SIZE_EMAC_CTRL_RAM 1 / SIZEOF_BDP)) base 0;
  _ ← bd_wr last_txbd (set_bd_next (hdkif_swizzle_txp base));
  mret curr_txbd.

Definition rx_upd (f : rxch -> rxch) : eio unit := io_modify (with_ctl (fun h => set_rx (f (rx h)) h)).

(** The receive list. *)
Definition rx_ring_init (curr_txbd : Z) : eio unit :=
  let head := u32 (curr_txbd + SIZEOF_BDP) in
  _ ← rx_upd (fun r => mk_rxch 0 head (rx_active_tail r) 0);
  last_bd ← rx_ring_loop (Z.to_nat MAX_RX_PBUF_ALLOC) head head
             (Z.shiftr SIZE_EMAC_CTRL_RAM 1 / SIZEOF_BDP - 1);
  _ ← bd_wr last_bd (set_bd_next 0);
  rx_upd (fun r => mk_rxch (rx_free_head r) (rx_active_head r) last_bd (freed_pbuf_len r)).

Definition register_irq (channel : Z) (handler : isr_handler) : eio unit := fun s =>
  v ← vim_register_irq channel handler (irqs s);
  Ok (tt, mk_eth (dev s) (ctl s) (nif s) (cpsr s) v (heap s) (rest s)).

Definition emac_enable : eio unit :=
  s ← io_get;
  let base := emac_base (ctl s) in
  let ctrl := emac_ctrl_base (ctl s) in
  _ ← EMACCoreIntAck base EMAC_INT_CORE0_RX;
  _ ← EMACCoreIntAck base EMAC_INT_CORE0_TX;
  _ ← EMACNumFreeBufSet base 0 10;
  _ ← EMACTxEnable base;
  _ ← EMACRxEnable base;
  _ ← EMACRxHdrDescPtrWrite base (rx_active_head (rx (ctl s))) 0;
  _ ← EMACMIIEnable base;
  _ ← EMACTxIntPulseEnable base ctrl 0 0;
  _ ← EMACRxIntPulseEnable base ctrl 0 0;
  _ ← register_irq 77 EMACCore0TxIsr_addr;
  register_irq 79 EMACCore0RxIsr_addr.

Definition hdkif_hw_init : eio Z :=
  _ ← hwaddr_init;
  _ ← io_modify (with_nif (fun n => mk_netif (hwaddr_len n) (hwaddr n) MAX_TRANSFER_UNIT
        (Z.lor (Z.lor NETIF_FLAG_BROADCAST NETIF_FLAG_LINK_UP) NETIF_FLAG_MLD6) (name n) (num n)));
  s ← io_get;
  let base := emac_base (ctl s) in
  _ ← EMACInit (emac_ctrl_base (ctl s)) base;
  _ ← EMACMACSrcAddrSet base (hwaddr (nif s));
  _ ← EMACDuplexSet base EMAC_DUPLEX_FULL;
  _ ← EMACRMIISpeedSet base EMAC_RMIISPEED_100MBPS;
  _ ← hwreg_or (base + EMAC_RXMBPENABLE) EMAC_RXMBPENABLE_RXCAFEN;
  curr_txbd ← tx_ring_init;
  _ ← rx_ring_init curr_txbd;
  _ ← emac_enable;
  mret ERR_OK.

(** [inst] is the number [netif->state] points to; there is one instance. *)
Definition hdkif_init (inst : Z) : eio Z :=
  if negb (inst =? 0) then io_fault OutOfBounds
  else
    _ ← io_modify (with_ctl (fun h => mk_hdkif inst (emac_base h) (emac_ctrl_base h) (emac_ctrl_ram h) (tx h) (rx h)));
    _ ← io_modify (with_nif (fun n => mk_netif (hwaddr_len n) (hwaddr n) (mtu n) (nif_flags n) (0x65, 0x6e) (u8 inst)));
    _ ← hdkif_inst_config;
    hdkif_hw_init.

(* ------------------------------------------------------------------ *)
(** * The receive interrupt *)

Variable ethernet_input : Z -> eio Z.

(** The do-while over the descriptors of one packet; returns the descriptor
    behind it, its last one, the last pbuf and the length to replace. *)
Fixpoint rx_collect (n : nat) (curr_bd tot ex_len len_to_alloc : Z) : eio (Z * Z * Z * Z) :=
  x ← bd_rd curr_bd;
  let pbuf := bd_pbuf x in
  b ← on_heap (pb_read pbuf);
  _ ← io_when (next b =? 0)
        (x ← bd_rd curr_bd;
         y ← bd_rd (hdkif_swizzle_rxp (bd_next x));
         on_heap (pb_update pbuf (set_next (bd_pbuf y))));
  b ← on_heap (pb_read pbuf);
  let len_to_alloc := u32 (len_to_alloc + len b) in
  x ← bd_rd curr_bd;
  _ ← on_heap (pb_update pbuf (set_len (flag (bufoff_len x) 0xFFFF)));
  _ ← on_heap (pb_update pbuf (set_tot_len (tot - ex_len)));
  let processed_bd := curr_bd in
  b ← on_heap (pb_read pbuf);
  let ex_len := u32 (ex_len + len b) in
  x ← bd_rd curr_bd;
  let curr_bd := hdkif_swizzle_rxp (bd_next x) in
  x ← bd_rd processed_bd;
  if negb (flag (flags_pktlen x) EMAC_BUF_DESC_EOP =? EMAC_BUF_DESC_EOP) then
    match n with
    | O => io_fault Diverges
    | S n => rx_collect n curr_bd tot ex_len len_to_alloc
    end
  else mret (curr_bd, processed_bd, pbuf, len_to_alloc).

(** The free descriptors get the pbufs of the new chain, while both last. *)
Fixpoint rx_refill (n : nat) (q curr_bd last_bd : Z) : eio (Z * Z * Z) :=
  s ← io_get;
  if negb (q =? 0) && negb (curr_bd =? rx_active_head (rx (ctl s))) then
    match n with
    | O => io_fault Diverges
    | S n =>
        b ← on_heap (pb_read q);
        _ ← bd_wr curr_bd (set_bufptr (hdkif_swizzle_data (payload b)));
        _ ← bd_wr curr_bd (set_bufoff_len (hdkif_swizzle_data (Z.land (len b) 0xFFFF)));
        _ ← bd_wr curr_bd (set_flags (hdkif_swizzle_data EMAC_BUF_DESC_OWNER));
        _ ← rx_upd (fun r => mk_rxch (rx_free_head r) (rx_active_head r) (rx_active_tail r)
              (u32 (freed_pbuf_len r - len b)));
        _ ← bd_wr curr_bd (set_bd_pbuf q);
        x ← bd_rd curr_bd;
        rx_refill n (next b) (hdkif_swizzle_rxp (bd_next x)) curr_bd
    end
  else mret (q, curr_bd, last_bd).

(** The descriptors given back to the engine; returns the last of them. *)
Definition rx_give_back (new_pbuf last_bd : Z) : eio Z :=
  s ← io_get;
  '(q, curr_bd, last_bd) ← rx_refill (chain_fuel (pbufs (heap s))) new_pbuf (rx_free_head (rx (ctl s))) last_bd;
  _ ← io_when (negb (q =? 0)) (_ ← on_heap (pbuf_free q); mret tt);
  let tail := rx_active_tail (rx (ctl s)) in
  _ ← bd_wr last_bd (set_bd_next 0);
  _ ← bd_wr tail (set_bd_next (hdkif_swizzle_rxp (rx_free_head (rx (ctl s)))));
  x ← bd_rd tail;
  _ ← io_when (negb (flag (flags_pktlen x) EMAC_BUF_DESC_EOQ =? 0))
        (EMACRxHdrDescPtrWrite (emac_base (ctl s)) (rx_free_head (rx (ctl s))) 0);
  _ ← rx_upd (fun r => mk_rxch curr_bd (rx_active_head r) last_bd (freed_pbuf_len r));
  mret last_bd.

(** After the stack has had a packet: its descriptors get other pbufs. *)
Definition rx_replace (curr_bd processed_bd len_to_alloc last_bd : Z) : eio Z :=
  s ← io_get;
  _ ← EMACRxCPWrite (emac_base (ctl s)) 0 processed_bd;
  _ ← rx_upd (fun r => mk_rxch (rx_free_head r) curr_bd (rx_active_tail r) (u32 (freed_pbuf_len r + len_to_alloc)));
  s ← io_get;
  r ← on_heap (pbuf_alloc PBUF_RAW (u16 (freed_pbuf_len (rx (ctl s)))) PBUF_POOL);
  match r with
  | None => mret last_bd
  | Some new_pbuf => rx_give_back new_pbuf last_bd
  end.

(** One packet, from its first descriptor. *)
Definition rx_packet (curr_bd last_bd : Z) : eio Z :=
  _ ← rx_upd (fun r => if rx_free_head r =? 0
                        then mk_rxch curr_bd (rx_active_head r) (rx_active_tail r) (freed_pbuf_len r) else r);
  x ← bd_rd curr_bd;
  let tot := flag (flags_pktlen x) 0xFFFF in
  x ← bd_rd curr_bd;
  let q := bd_pbuf x in
  '(curr_bd, processed_bd, pbuf, len_to_alloc) ← rx_collect num_bds curr_bd tot 0 0;
  _ ← on_heap (pb_update pbuf (set_next 0));
  _ ← ethernet_input q;
  rx_replace curr_bd processed_bd len_to_alloc last_bd.

(** [n] bounds the packets of one interrupt. *)
Fixpoint rx_int_loop (n : nat) (curr_bd last_bd : Z) : eio unit :=
  x ← bd_rd curr_bd;
  if flag (flags_pktlen x) EMAC_BUF_DESC_SOP =? 0 then mret tt
  else
    match n with
    | O => io_fault Diverges
    | S n =>
        x ← bd_rd curr_bd;
        last_bd ← (if negb (flag (flags_pktlen x) EMAC_BUF_DESC_OWNER =? EMAC_BUF_DESC_OWNER)
                   then rx_packet curr_bd last_bd else mret last_bd);
        s ← io_get;
        rx_int_loop n (rx_active_head (rx (ctl s))) last_bd
    end.

Definition rx_int_ack : eio unit :=
  s ← io_get;
  _ ← EMACCoreIntAck (emac_base (ctl s)) EMAC_INT_CORE0_RX;
  EMACCoreIntAck (emac_base (ctl s)) EMAC_INT_CORE0_TX.
Definition hdkif_rx_inthandler : eio unit :=
  s ← io_get;
  _ ← rx_int_loop fuel (rx_active_head (rx (ctl s))) (rx_active_tail (rx (ctl s)));
  rx_int_ack.
Definition EMACCore0RxIsr : eio unit := hdkif_rx_inthandler.
End Driver.
