(* ===== verification/EmacRing.v ===== *)
(** The transmit descriptors of the Ethernet driver: byte order and flag bits,
    the ring and the packets in it, what the DMA engine may do to them
    ([DmaLaws]) and what one access of the driver does while it runs. *)

From Stdlib Require Import ZArith Lia.
From stdpp Require Import functions base list numbers gmap sets.
From S2P Require Import Prelude Mmio Board Mem MemProofs Memp Pbuf PbufChain PbufAlloc Emac.

Open Scope Z_scope.

(* ------------------------------------------------------------------ *)
(** * Byte order *)

(** Where bit [i] of the swizzled word comes from. *)
Definition swapped (i : Z) : Z := 24 - 8 * (i / 8) + i mod 8.

Lemma land_byte w s k i : 0 <= i -> 0 <= k <= 3 ->
  Z.testbit (Z.land (Z.shiftr w s) (Z.shiftl 0xFF (8 * k))) i =
  Z.testbit (Z.shiftr w s) i && (8 * k <=? i) && (i <? 8 * k + 8).
Proof.
  intros Hi Hk. rewrite Z.land_spec, Z.shiftl_spec by done. change 0xFF with (Z.ones 8).
  rewrite <- andb_assoc. f_equal. destruct (Z.leb_spec (8 * k) i) as [E|E]; simpl.
  - destruct (Z.ltb_spec i (8 * k + 8)); [apply Z.ones_spec_low; lia|apply Z.ones_spec_high; lia].
  - apply Z.testbit_neg_r. lia.
Qed.

Lemma swz_testbit w i : 0 <= i ->
  Z.testbit (hdkif_swizzle_data w) i = (i <? 32) && Z.testbit w (swapped i).
Proof.
  intros Hi. unfold hdkif_swizzle_data. rewrite !Z.lor_spec.
  assert (Hu : forall s k, 0 <= s -> 0 <= k <= 3 ->
    Z.land (u32 (Z.shiftl w s)) (Z.shiftl 0xFF (8 * k)) = Z.land (Z.shiftr w (- s)) (Z.shiftl 0xFF (8 * k))).
  { intros s k Hs Hk. apply Z.bits_inj'. intros n Hn. rewrite !Z.land_spec.
    rewrite Z.shiftl_spec by done. change 0xFF with (Z.ones 8).
    destruct (Z.ltb_spec (n - 8 * k) 8); [|rewrite Z.ones_spec_high by lia; by rewrite !andb_false_r].
    f_equal. unfold u32. change 4294967296 with (2 ^ 32). rewrite Z.mod_pow2_bits_low by lia.
    by rewrite Z.shiftr_opp_r. }
  change 0xFF000000 with (Z.shiftl 0xFF (8 * 3)). change 0x00FF0000 with (Z.shiftl 0xFF (8 * 2)).
  change 0x0000FF00 with (Z.shiftl 0xFF (8 * 1)).
  change (Z.land (Z.shiftr w 24) 0xFF) with (Z.land (Z.shiftr w 24) (Z.shiftl 0xFF (8 * 0))).
  rewrite !Hu, !land_byte, !Z.shiftr_spec by lia. unfold swapped.
  assert (Hc : i / 8 = 0 \/ i / 8 = 1 \/ i / 8 = 2 \/ i / 8 = 3 \/ 32 <= i) by (Z.div_mod_to_equations; lia).
  pose proof (Z.div_mod i 8 ltac:(lia)). pose proof (Z.mod_pos_bound i 8 ltac:(lia)).
  assert (Hlt : i <? 32 = (i / 8 <=? 3)) by (zcase; Z.div_mod_to_equations; lia).
  rewrite Hlt. set (q := i / 8) in *. set (r := i mod 8) in *.
  destruct Hc as [E|[E|[E|[E|E]]]].
  5: assert (4 <= q) by (unfold q; Z.div_mod_to_equations; lia).
  all: repeat match goal with
    | |- context [?a <=? ?b] => first [rewrite (proj2 (Z.leb_le a b)) by lia|rewrite (proj2 (Z.leb_gt a b)) by lia]
    | |- context [?a <? ?b] => first [rewrite (proj2 (Z.ltb_lt a b)) by lia|rewrite (proj2 (Z.ltb_ge a b)) by lia]
    end; rewrite ?andb_true_r, ?andb_false_r, ?orb_false_r, ?orb_false_l; cbn [andb]; first [done|f_equal; lia].
Qed.

Lemma swz_range w : is_u32 (hdkif_swizzle_data w).
Proof.
  assert (E : hdkif_swizzle_data w = u32 (hdkif_swizzle_data w)); [|rewrite E; apply u32_range].
  apply Z.bits_inj'. intros i Hi. unfold u32. change 4294967296 with (2 ^ 32).
  destruct (Z.ltb_spec i 32).
  - by rewrite Z.mod_pow2_bits_low by lia.
  - rewrite Z.mod_pow2_bits_high by lia. rewrite swz_testbit by done.
    by rewrite (proj2 (Z.ltb_ge _ _)).
Qed.

Lemma swapped_spec i : 0 <= i < 32 -> 0 <= swapped i < 32 /\ swapped (swapped i) = i.
Proof. unfold swapped. intros Hi. Z.div_mod_to_equations. lia. Qed.

Lemma swz_swz w : is_u32 w -> hdkif_swizzle_data (hdkif_swizzle_data w) = w.
Proof.
  intros Hw. apply Z.bits_inj'. intros i Hi. rewrite swz_testbit by done.
  destruct (Z.ltb_spec i 32).
  - pose proof (swapped_spec i ltac:(lia)) as [Hs1 Hs2]. rewrite swz_testbit by lia. rewrite Hs2.
    by rewrite (proj2 (Z.ltb_lt (swapped i) 32)) by lia.
  - symmetry. rewrite <- (u32_small w) by done. unfold u32. change 4294967296 with (2 ^ 32).
    rewrite Z.mod_pow2_bits_high by lia. done.
Qed.

Lemma swz_lor a b : hdkif_swizzle_data (Z.lor a b) = Z.lor (hdkif_swizzle_data a) (hdkif_swizzle_data b).
Proof.
  apply Z.bits_inj'. intros i Hi. rewrite Z.lor_spec, !swz_testbit, Z.lor_spec by done. apply andb_orb_distrib_r.
Qed.

Lemma swz_land a b : hdkif_swizzle_data (Z.land a b) = Z.land (hdkif_swizzle_data a) (hdkif_swizzle_data b).
Proof.
  apply Z.bits_inj'. intros i Hi. rewrite Z.land_spec, !swz_testbit, Z.land_spec by done.
  by destruct (i <? 32), (Z.testbit a _).
Qed.

(* ------------------------------------------------------------------ *)
(** * Descriptors *)

(** The transmit descriptors are a ring; [slot i] is the [i]-th of them, round
    and round. *)
Definition NUM_TX : Z := 204.
Definition slot (i : Z) : Z := EMAC_CTRL_RAM_0_BASE + SIZEOF_BDP * (i mod NUM_TX).

Lemma slot_inj i j : slot i = slot j -> i mod NUM_TX = j mod NUM_TX.
Proof. unfold slot, SIZEOF_BDP. lia. Qed.

Lemma slot_ne i j : i <> j -> -204 < i - j < 204 -> slot i <> slot j.
Proof. intros Hne Hb E%slot_inj. unfold NUM_TX in *. Z.div_mod_to_equations. lia. Qed.

Lemma slot_turn i : slot (i + 204) = slot i.
Proof. unfold slot, NUM_TX. do 2 f_equal. Z.div_mod_to_equations. lia. Qed.

Lemma slot_range i : is_u32 (slot i) /\ slot i <> 0.
Proof.
  unfold slot, NUM_TX, EMAC_CTRL_RAM_0_BASE, SIZEOF_BDP, is_u32. Z.div_mod_to_equations. lia.
Qed.

Lemma swz_slot i : hdkif_swizzle_txp (hdkif_swizzle_data (slot i)) = slot i.
Proof. apply swz_swz, slot_range. Qed.

Lemma swz_slot_0 i : hdkif_swizzle_data (slot i) <> 0.
Proof.
  intros E. pose proof (swz_slot i) as Hs. rewrite E in Hs. by destruct (slot_range i) as [_ Hn].
Qed.

(** Flags are bits of the word as the engine sees it. *)
Definition SOP_BIT : Z := 31.
Definition EOP_BIT : Z := 30.
Definition OWNER_BIT : Z := 29.
Definition EOQ_BIT : Z := 28.
Definition fbit (b : bdp) (k : Z) : bool := Z.testbit (hdkif_swizzle_data (flags_pktlen b)) k.

Lemma land_pow2 x k : 0 <= k -> Z.land x (2 ^ k) = if Z.testbit x k then 2 ^ k else 0.
Proof.
  intros Hk. apply Z.bits_inj'. intros i Hi. rewrite Z.land_spec, Z.pow2_bits_eqb by done.
  destruct (Z.eqb_spec k i) as [->|Hne].
  - rewrite andb_true_r. destruct (Z.testbit x i); [by rewrite Z.pow2_bits_true|by rewrite Z.bits_0].
  - rewrite andb_false_r. destruct (Z.testbit x k); [by rewrite Z.pow2_bits_false|by rewrite Z.bits_0].
Qed.

Lemma flag_bit w k : 0 <= k ->
  (flag w (2 ^ k) =? 2 ^ k) = Z.testbit (hdkif_swizzle_data w) k /\
  (2 ^ k =? flag w (2 ^ k)) = Z.testbit (hdkif_swizzle_data w) k /\
  (flag w (2 ^ k) =? 0) = negb (Z.testbit (hdkif_swizzle_data w) k).
Proof.
  intros Hk. unfold flag. rewrite land_pow2 by done. pose proof (Z.pow_pos_nonneg 2 k ltac:(lia) Hk).
  destruct (Z.testbit _ k); rewrite ?Z.eqb_refl; split_and!; try done; zcase.
Qed.

(** What the engine leaves alone: all but the OWNER and EOQ bits. *)
Definition STATUS : Z := Z.lor EMAC_BUF_DESC_OWNER EMAC_BUF_DESC_EOQ.
Record bdv := mk_bdv { v_next : Z; v_ptr : Z; v_len : Z; v_flags : Z; v_pbuf : Z }.
Definition bd_view (b : bdp) : bdv :=
  mk_bdv (bd_next b) (bufptr b) (bufoff_len b) (Z.ldiff (hdkif_swizzle_data (flags_pktlen b)) STATUS) (bd_pbuf b).
Definition vbit (v : bdv) (k : Z) : bool := Z.testbit (v_flags v) k.

Lemma status_bit k : 0 <= k -> Z.testbit STATUS k = (k =? 29) || (k =? 28).
Proof.
  intros Hk. change STATUS with (Z.lor (2 ^ 29) (2 ^ 28)).
  rewrite Z.lor_spec, !Z.pow2_bits_eqb by lia. f_equal; apply Z.eqb_sym.
Qed.

Lemma vbit_view b k : 0 <= k -> k <> 28 -> k <> 29 -> vbit (bd_view b) k = fbit b k.
Proof.
  intros Hk H1 H2. unfold vbit, fbit, bd_view. cbn [v_flags]. rewrite Z.ldiff_spec, status_bit by done.
  rewrite !(proj2 (Z.eqb_neq _ _)) by done. apply andb_true_r.
Qed.

Definition vset_next (x : Z) (v : bdv) : bdv := mk_bdv x (v_ptr v) (v_len v) (v_flags v) (v_pbuf v).
Definition vset_flags (x : Z) (v : bdv) : bdv := mk_bdv (v_next v) (v_ptr v) (v_len v) x (v_pbuf v).

(** A frame in the [m] descriptors from the [c]-th on: linked, the last one
    marked as the end of the packet and only that. *)
Definition frame (V : Z -> bdv) (c m : Z) : Prop :=
  0 < m /\ forall j, 0 <= j < m ->
    vbit (V (slot (c + j))) EOP_BIT = (j =? m - 1) /\
    (j < m - 1 -> v_next (V (slot (c + j))) = hdkif_swizzle_data (slot (c + j + 1))).

(** A packet in flight, of pbuf [p]. *)
Definition pkt (V : Z -> bdv) (c m p : Z) : Prop :=
  frame V c m /\ (forall j, 0 <= j < m -> vbit (V (slot (c + j))) SOP_BIT = (j =? 0)) /\
  v_pbuf (V (slot (c + m - 1))) = p.

(** [frame] at the end of the queue. *)
Definition last_frame (V : Z -> bdv) (tail c m : Z) : Prop :=
  frame V c m /\ tail = slot (c + m - 1) /\ v_next (V tail) = 0.

Definition TXHDP0 : Z := EMAC_0_BASE + EMAC_TXHDP 0.

(** Receive descriptors are behind those for transmission. *)
Definition is_rx (a : Z) : Prop := EMAC_CTRL_RAM_0_BASE + SIZEOF_BDP * NUM_TX <= a.

(** The buffer of a descriptor. *)
Definition in_buffer (b : bdp) (i : Z) : Prop :=
  hdkif_swizzle_data (bufptr b) <= i < hdkif_swizzle_data (bufptr b) + flag (bufoff_len b) 0xFFFF.

(** A buffer the engine may write to. *)
Definition owned_at {D} (h : hw D) (i : Z) : Prop :=
  exists a b, is_rx a /\ bds h !! a = Some b /\ fbit b OWNER_BIT = true /\ in_buffer b i.

(** What the engine does by itself in memory: it fills buffers it owns. *)
Definition received {D} (h h' : hw D) (bs bs' : gmap Z Z) : Prop :=
  (forall i, owned_at h' i -> owned_at h i) /\ forall i, owned_at h i \/ bs' !! i = bs !! i.

Lemma received_trans {D} (h1 h2 h3 : hw D) b1 b2 b3 : received h1 h2 b1 b2 -> received h2 h3 b2 b3 -> received h1 h3 b1 b3.
Proof.
  intros [O1 B1] [O2 B2]. split; [auto|]. intros i. destruct (B1 i) as [?|<-]; [by left|]. destruct (B2 i) as [?|<-]; [left; auto|by right].
Qed.

Lemma received_same {D} (h h' : hw D) bs : bds h' = bds h -> received h h' bs bs.
Proof. intros E. split; [|by right]. intros i (a & b & Ha & Hb & H). exists a, b. by rewrite <- E. Qed.

(** The documented behaviour of the transmit channel. [todo] is the first
    descriptor of the queue written to the head descriptor pointer that is
    not done with; the engine is done within [dma_bound] looks at it. It
    changes nothing but OWNER and EOQ bits of transmit descriptors, and when
    it is done it has, between two looks, cleared OWNER at the start of the
    packet, set EOQ at its end and cleared the head descriptor pointer. In
    memory it changes only receive buffers it owns. *)
Class DmaLaws (D : Type) `{Dma D} := {
  todo : D -> option Z;
  dma_left : hw D -> nat;
  dma_bound : nat;
  dma_left_le h : (dma_left h <= dma_bound)%nat;
  run_todo h bs : todo (dma (dma_run (h, bs)).1) = todo (dma h) \/ todo (dma (dma_run (h, bs)).1) = None;
  run_progress h bs : todo (dma (dma_run (h, bs)).1) <> None -> (dma_left (dma_run (h, bs)).1 < dma_left h)%nat;
  run_view h bs i : bd_view <$> bds (dma_run (h, bs)).1 !! slot i = bd_view <$> bds h !! slot i;
  run_owner h bs i b b' :
    bds h !! slot i = Some b -> bds (dma_run (h, bs)).1 !! slot i = Some b' ->
    fbit b' OWNER_BIT = fbit b OWNER_BIT &&
      negb (bool_decide (todo (dma h) = Some (slot i) /\ todo (dma (dma_run (h, bs)).1) = None));
  run_eoq h bs i b b' :
    bds h !! slot i = Some b -> bds (dma_run (h, bs)).1 !! slot i = Some b' ->
    fbit b EOQ_BIT = true -> fbit b' EOQ_BIT = true;
  run_done h bs V c m b' :
    (forall i, bd_view <$> bds h !! slot i = Some (V (slot i))) ->
    todo (dma h) = Some (slot c) -> last_frame V (slot (c + m - 1)) c m ->
    todo (dma (dma_run (h, bs)).1) = None ->
    bds (dma_run (h, bs)).1 !! slot (c + m - 1) = Some b' -> fbit b' EOQ_BIT = true;
  run_hdp h bs :
    default 0 (regs (dma_run (h, bs)).1 !! TXHDP0) = 0 <-> todo (dma (dma_run (h, bs)).1) = None;
  write_hdp a d : is_u32 a -> todo d = None -> todo (dma_write TXHDP0 a d) = if a =? 0 then None else Some a;
  write_other r v d : r <> TXHDP0 -> todo (dma_write r v d) = todo d;
  run_received h bs : received h (dma_run (h, bs)).1 bs (dma_run (h, bs)).2
}.

(* ------------------------------------------------------------------ *)
(** * The engine in the background *)

Section Background.
Context {D PP RP HP X : Type} {DM : Dma D} {OP : PoolOps PP} {OR : PoolOps RP} {OH : HeapOps HP}.
Context {DL : DmaLaws D}.
Abbreviation state := (eth D PP RP HP X).
Implicit Types (s : state) (V : Z -> bdv).

(** The same but for received bytes. *)
Definition same_heap (h h' : pheap PP RP HP) : Prop :=
  pool_st h' = pool_st h /\ rom_st h' = rom_st h /\ heap_st h' = heap_st h /\ pbufs h' = pbufs h.

(** The rest of the program, and its memory. *)
Definition others s s' : Prop :=
  rest s' = rest s /\ received (dev s) (dev s') (bytes (heap s)) (bytes (heap s')).

#[global] Instance others_refl : Reflexive others.
Proof using Type. intros s. split; [done|]. split; auto. Qed.
#[global] Instance others_trans : Transitive others.
Proof using Type. intros s1 s2 s3 [E1 R1] [E2 R2]. split; [congruence|by eapply received_trans]. Qed.

Lemma others_same s s' : rest s' = rest s -> bds (dev s') = bds (dev s) -> bytes (heap s') = bytes (heap s) -> others s s'.
Proof using Type. intros E1 E2 E3. split; [done|]. rewrite E3. by apply received_same. Qed.

(** The same but for the hardware, and no new work for it. *)
Definition still s s' : Prop :=
  ctl s' = ctl s /\ nif s' = nif s /\ cpsr s' = cpsr s /\ irqs s' = irqs s /\ same_heap (heap s) (heap s') /\
  others s s'.
Definition quiet s s' : Prop :=
  still s s' /\ (todo (dma (dev s')) = None \/ todo (dma (dev s')) = todo (dma (dev s))).

#[global] Instance still_refl : Reflexive still.
Proof using Type. intros s. unfold still. by split_and!. Qed.
#[global] Instance still_trans : Transitive still.
Proof using Type.
  intros s1 s2 s3 (E1 & E2 & E3 & E4 & (E5 & E6 & E7 & E8) & E9) (F1 & F2 & F3 & F4 & (F5 & F6 & F7 & F8) & F9).
  unfold still, same_heap. rewrite F1, F2, F3, F4, F5, F6, F7, F8. split_and!; try done. by etransitivity.
Qed.
#[global] Instance quiet_refl : Reflexive quiet.
Proof using Type. intros s. split; [done|by right]. Qed.
#[global] Instance quiet_trans : Transitive quiet.
Proof using Type.
  intros s1 s2 s3 [E1 E9] [F1 F9]. split; [by etransitivity|].
  destruct F9 as [?|F9]; [by left|]. by rewrite F9.
Qed.

(** The transmit descriptors are [V]; the last frame is the one from slot
    [c] on, of [m] descriptors, to [tail] (0 before the first); the engine
    owns nothing but what it has to do and [exc], a frame being built. *)
Record tx_dev s V (tail exc c m : Z) : Prop := {
  d_view i : bd_view <$> bds (dev s) !! slot i = Some (V (slot i));
  d_owner i b : bds (dev s) !! slot i = Some b ->
    fbit b OWNER_BIT = true <-> slot i = exc \/ todo (dma (dev s)) = Some (slot i);
  d_eoq b : todo (dma (dev s)) = None -> tail <> 0 -> bds (dev s) !! tail = Some b -> fbit b EOQ_BIT = true;
  d_tail : tail <> 0 -> tail = slot (c + m - 1);
  d_todo a : todo (dma (dev s)) = Some a -> a = slot c /\ a <> exc /\ last_frame V tail c m /\ tail <> 0
}.

Lemma bd_at s V tail exc c m i : tx_dev s V tail exc c m ->
  exists b, bds (dev s) !! slot i = Some b /\ bd_view b = V (slot i).
Proof using Type.
  intros HD. pose proof (d_view _ _ _ _ _ _ HD i) as Hv.
  destruct (bds (dev s) !! slot i) as [b|]; [|done]. exists b. by injection Hv.
Qed.

Lemma run_dev s : dev (run_dma s) = (dma_run (dev s, bytes (heap s))).1.
Proof using Type. unfold run_dma. by destruct (dma_run _). Qed.

Lemma run_quiet s : quiet s (run_dma s).
Proof using Type.
  split.
  { pose proof (run_received (dev s) (bytes (heap s))) as Hr. unfold run_dma, still, same_heap, others.
    destruct (dma_run _). by split_and!. }
  rewrite run_dev. destruct (run_todo (dev s) (bytes (heap s))); [by right|by left].
Qed.

Lemma run_tx_dev s V tail exc c m : tx_dev s V tail exc c m -> tx_dev (run_dma s) V tail exc c m.
Proof using Type.
  intros HD. pose proof HD as [Hv Ho Hq Ht Hd]. split; rewrite ?run_dev.
  - intros i. rewrite run_view. apply Hv.
  - intros i b' Hb'. destruct (bd_at s V tail exc c m i HD) as (b & Hb & _).
    rewrite (run_owner _ _ _ _ _ Hb Hb'), andb_true_iff, (Ho i b Hb), negb_true_iff, bool_decide_eq_false.
    destruct (run_todo (dev s) (bytes (heap s))) as [E|E]; rewrite E; [intuition congruence|].
    split.
    + intros [[?|?] Hn]; [by left|]. destruct Hn. done.
    + intros [Hex|?]; [|done]. split; [by left|]. intros [Et _]. by destruct (Hd _ Et) as (_ & ? & _).
  - intros b' Hn Htail Hb'. destruct (todo (dma (dev s))) as [a|] eqn:Et.
    + destruct (Hd a eq_refl) as (-> & _ & Hf & _). pose proof Hf as (_ & -> & _).
      by eapply (run_done (dev s) _ V c m).
    + pose proof (Ht Htail) as Etail. subst tail. destruct (bd_at s V _ exc c m (c + m - 1) HD) as (b & Hb & _).
      eapply run_eoq; [exact Hb|exact Hb'|]. by apply Hq.
  - done.
  - intros a Ha. destruct (run_todo (dev s) (bytes (heap s))) as [E|E]; rewrite E in Ha; [by apply Hd|done].
Qed.

(** One look at a descriptor. *)
Lemma bd_rd_ok s V tail exc c m i : tx_dev s V tail exc c m ->
  exists b, bd_rd (slot i) s = Ok (b, run_dma s) /\ bds (dev (run_dma s)) !! slot i = Some b /\
    bd_view b = V (slot i) /\ tx_dev (run_dma s) V tail exc c m.
Proof using Type.
  intros HD%run_tx_dev. destruct (bd_at _ _ _ _ _ _ i HD) as (b & Hb & Hv). exists b.
  unfold bd_rd. by rewrite Hb.
Qed.

(** A write that keeps OWNER and EOQ. *)
Definition keeps (b' b : bdp) : Prop :=
  fbit b' OWNER_BIT = fbit b OWNER_BIT /\ fbit b' EOQ_BIT = fbit b EOQ_BIT.

Definition written (i : Z) (b : bdp) s : state := with_dev (fun h => mk_hw (dma h) (regs h) (<[slot i := b]> (bds h))) s.

Lemma slot_not_rx i : ~ is_rx (slot i).
Proof using Type. unfold is_rx, slot, NUM_TX, EMAC_CTRL_RAM_0_BASE, SIZEOF_BDP. Z.div_mod_to_equations. lia. Qed.

Lemma written_received i b s : received (dev s) (dev (written i b s)) (bytes (heap s)) (bytes (heap (written i b s))).
Proof using Type.
  split; [|by right]. intros j (a & d & Ha & Hd & Ho & Hi). exists a, d. split_and!; try done.
  cbn [dev written with_dev bds] in Hd. rewrite lookup_insert_ne in Hd; [done|]. intros <-. by apply (slot_not_rx i).
Qed.

Lemma written_quiet i b s : quiet s (written i b s).
Proof using Type.
  split; [|by right]. unfold still, same_heap, others. split_and!; try done; apply written_received.
Qed.

Lemma written_tx_dev s V tail exc c m i b b' :
  tx_dev s V tail exc c m -> bds (dev s) !! slot i = Some b -> keeps b' b ->
  (forall a, todo (dma (dev s)) = Some a -> last_frame (<[slot i := bd_view b']> V) tail c m) ->
  tx_dev (written i b' s) (<[slot i := bd_view b']> V) tail exc c m.
Proof using Type.
  intros [Hv Ho Hq Ht Hd] Hb [K1 K2] Hf. split; cbn [dev with_dev written bds dma].
  - intros j. destruct (decide (slot j = slot i)) as [->|Hne].
    + by rewrite lookup_insert_eq, fn_lookup_insert.
    + by rewrite lookup_insert_ne, fn_lookup_insert_ne.
  - intros j d. destruct (decide (slot j = slot i)) as [->|Hne].
    + rewrite lookup_insert_eq. intros [= <-]. rewrite K1. by apply Ho.
    + rewrite lookup_insert_ne by done. apply Ho.
  - intros d Hn Htail. destruct (decide (tail = slot i)) as [->|Hne].
    + rewrite lookup_insert_eq. intros [= <-]. rewrite K2. by apply Hq.
    + rewrite lookup_insert_ne by done. by apply Hq.
  - done.
  - intros a Ha. destruct (Hd a Ha) as (-> & ? & _ & ?). split_and!; try done. by apply (Hf _ Ha).
Qed.

(** The last frame survives writes outside of it. *)
Definition live s V tail c m : Prop := todo (dma (dev s)) = None \/ last_frame V tail c m.

Lemma live_quiet s s' V tail c m : quiet s s' -> live s V tail c m -> live s' V tail c m.
Proof using Type.
  intros [_ [E|E]] [H|H]; unfold live; rewrite E; [by left|by left|left|by right]. done.
Qed.

Lemma bd_wr_ok s V tail exc c m i f (v' : bdv) :
  tx_dev s V tail exc c m ->
  (forall b, bd_view b = V (slot i) -> bd_view (f b) = v' /\ keeps (f b) b) ->
  live s (<[slot i := v']> V) tail c m ->
  exists s', bd_wr (slot i) f s = Ok (tt, s') /\ quiet s s' /\ tx_dev s' (<[slot i := v']> V) tail exc c m.
Proof using Type.
  intros HD Hf Hl. destruct (bd_at _ _ _ _ _ _ i HD) as (b & Hb & Hv). destruct (Hf b Hv) as [E K].
  exists (written i (f b) s). unfold bd_wr. rewrite Hb. split; [done|]. split; [apply written_quiet|].
  rewrite <- E. eapply written_tx_dev; [exact HD|exact Hb|exact K|]. rewrite E.
  intros a Ha. destruct Hl as [?|?]; [congruence|done].
Qed.

(** A read, and a write of the flags made of it. *)
Lemma bd_rmw_ok s V tail exc c m i (g : Z -> Z) (v' : bdv) :
  tx_dev s V tail exc c m ->
  (forall b, bd_view b = V (slot i) ->
    bd_view (set_flags (g (flags_pktlen b)) b) = v' /\ keeps (set_flags (g (flags_pktlen b)) b) b) ->
  live s (<[slot i := v']> V) tail c m ->
  exists s', (x ← bd_rd (slot i); bd_wr (slot i) (set_flags (g (flags_pktlen x)))) s = Ok (tt, s') /\
    quiet s s' /\ tx_dev s' (<[slot i := v']> V) tail exc c m.
Proof using Type.
  intros HD Hf Hl. destruct (bd_rd_ok _ _ _ _ _ _ i HD) as (b & E & Hb & Hv & HD').
  rewrite (io_bind_ok _ _ _ _ _ E). destruct (Hf b Hv) as [E' K].
  exists (written i (set_flags (g (flags_pktlen b)) b) (run_dma s)).
  unfold bd_wr. rewrite Hb. pose proof (run_quiet s) as Hq. split_and!; [done| |].
  - etransitivity; [exact Hq|apply written_quiet].
  - rewrite <- E'. eapply written_tx_dev; [exact HD'|exact Hb|exact K|]. rewrite E'.
    intros a Ha. destruct (live_quiet _ _ _ _ _ _ Hq Hl) as [?|?]; [congruence|done].
Qed.

(** Waiting for the engine: a condition that says that it has something to do
    is false after a while. *)
Lemma spin_ok {A} (read : io state A) (cond : A -> bool) (Inv : state -> Prop) n s :
  (forall s, Inv s -> exists x, read s = Ok (x, run_dma s) /\ Inv (run_dma s) /\
    (cond x = true -> todo (dma (dev (run_dma s))) <> None)) ->
  Inv s -> (dma_left (dev s) <= n)%nat ->
  exists s' s0 x, spin n read cond s = Ok (tt, s') /\ quiet s s' /\ Inv s' /\
    read s0 = Ok (x, s') /\ s' = run_dma s0 /\ cond x = false.
Proof using Type.
  intros Hread. revert s. induction n as [|n IH]; intros s HI Hn; destruct (Hread s HI) as (x & E & HI' & Hc);
    cbn [spin]; rewrite (io_bind_ok _ _ _ _ _ E); destruct (cond x) eqn:Ec.
  - pose proof (Hc eq_refl) as Hp. rewrite run_dev in Hp. apply run_progress in Hp. lia.
  - exists (run_dma s), s, x. split_and!; try done. apply run_quiet.
  - pose proof (Hc eq_refl) as Hp. rewrite run_dev in Hp. apply run_progress in Hp. rewrite <- run_dev in Hp.
    destruct (IH (run_dma s) HI' ltac:(lia)) as (s' & s0 & y & Es & Hq & H).
    exists s', s0, y. split; [done|]. split; [|done]. etransitivity; [apply run_quiet|done].
  - exists (run_dma s), s, x. split_and!; try done. apply run_quiet.
Qed.
End Background.

(* ------------------------------------------------------------------ *)
(** * The ring *)

(** Packets in flight: how many descriptors each has, and its pbuf. *)
Definition total (pend : list (Z * Z)) : Z := foldr (fun x n => x.1 + n) 0 pend.

Fixpoint pkts (V : Z -> bdv) (k : Z) (pend : list (Z * Z)) : Prop :=
  match pend with
  | [] => True
  | (m, p) :: pend => pkt V k m p /\ pkts V (k + m) pend
  end.

(** [n] descriptors from the [k]-th on are in use, the last of them (or of
    those used before) is [tail]. *)
Record ring (V : Z -> bdv) (k n tail : Z) : Prop := {
  r_link i : slot i <> tail -> v_next (V (slot i)) = hdkif_swizzle_data (slot (i + 1));
  r_tail : tail <> 0 -> tail = slot (k + n - 1) /\ v_next (V tail) = 0;
  r_none : tail = 0 -> n = 0;
  r_free i : k + n <= i < k + 204 ->
    vbit (V (slot i)) SOP_BIT = false /\ vbit (V (slot i)) EOP_BIT = false;
  r_size : 0 <= n <= 203
}.

Lemma in_flight_app a b : total (a ++ b) = total a + total b.
Proof. induction a as [|[m p] a IH]; simpl; [done|]. rewrite IH. lia. Qed.

Lemma pkts_app V k a b : pkts V k (a ++ b) <-> pkts V k a /\ pkts V (k + total a) b.
Proof.
  revert k. induction a as [|[m p] a IH]; intros k; cbn [app pkts total foldr fst].
  - rewrite Z.add_0_r. tauto.
  - fold (total a). rewrite IH. replace (k + m + total a) with (k + (m + total a)) by lia. tauto.
Qed.

Lemma pkts_total V k pend : pkts V k pend -> zlen pend <= total pend.
Proof.
  revert k. induction pend as [|[m p] l IH]; intros k; [done|]. intros [[[Hm _] _] H%IH].
  cbn [length total foldr fst]. fold (total l). lia.
Qed.

Lemma frame_agree V V' c m :
  frame V c m -> (forall j, c <= j < c + m -> V' (slot j) = V (slot j)) -> frame V' c m.
Proof.
  intros [Hm Hf] HV. split; [done|]. intros j Hj. rewrite HV by lia. by apply Hf.
Qed.

Lemma last_frame_agree V V' tail c m :
  last_frame V tail c m -> (forall j, c <= j < c + m -> V' (slot j) = V (slot j)) -> last_frame V' tail c m.
Proof.
  intros (Hf & -> & Hn) HV. pose proof Hf as [Hm _].
  split_and!; [by eapply frame_agree|done|]. by rewrite HV by lia.
Qed.

Lemma slot_window i k : exists j, k <= j < k + 204 /\ slot i = slot j /\ slot (i + 1) = slot (j + 1).
Proof.
  exists (k + (i - k) mod 204). unfold slot, NUM_TX.
  pose proof (Z.mod_pos_bound (i - k) 204 ltac:(lia)).
  assert (E : forall x, (k + (i - k) mod 204 + x) mod 204 = (i + x) mod 204).
  { intros x. replace (k + (i - k) mod 204 + x) with (k + x + (i - k) mod 204) by lia.
    rewrite Zplus_mod_idemp_r. f_equal. lia. }
  pose proof (E 0) as E0. rewrite !Z.add_0_r in E0. rewrite E0, E. lia.
Qed.

(** What [tx_fill] writes. *)
Definition filled (b : pbuf) (p : Z) (v : bdv) : bdv :=
  mk_bdv (v_next v) (hdkif_swizzle_data (payload b)) (hdkif_swizzle_data (Z.land (len b) 0xFFFF)) (v_flags v) p.

Fixpoint fill (V : Z -> bdv) (i : Z) (l : list (Z * pbuf)) (p : Z) : Z -> bdv :=
  match l with
  | [] => V
  | (_, b) :: l => fill (<[slot i := filled b p (V (slot i))]> V) (i + 1) l p
  end.

Lemma fill_outside V i l p a : (forall j, i <= j < i + zlen l -> slot j <> a) -> fill V i l p a = V a.
Proof.
  revert V i. induction l as [|[q b] l IH]; intros V i Ha; cbn [fill]; [done|].
  cbn [length] in Ha. rewrite IH by (intros; apply Ha; lia).
  apply fn_lookup_insert_ne. intros E. apply (Ha i); [lia|done].
Qed.

Lemma fill_inside V i l p j q b : zlen l <= 204 -> l !! j = Some (q, b) ->
  fill V i l p (slot (i + Z.of_nat j)) = filled b p (V (slot (i + Z.of_nat j))).
Proof.
  revert V i j. induction l as [|[r d] l IH]; intros V i j Hl Hj; [done|]. cbn [fill length] in *.
  destruct j as [|j]; simpl in Hj.
  - injection Hj as -> ->. rewrite Z.add_0_r, fill_outside by (intros; apply slot_ne; lia).
    by rewrite fn_lookup_insert.
  - replace (i + Z.of_nat (S j)) with (i + 1 + Z.of_nat j) by lia.
    pose proof (lookup_lt_Some _ _ _ Hj).
    rewrite IH by (try done; lia). rewrite fn_lookup_insert_ne by (apply slot_ne; lia). done.
Qed.

Lemma fill_keeps V i l p a : v_next (fill V i l p a) = v_next (V a) /\ v_flags (fill V i l p a) = v_flags (V a).
Proof.
  revert V i. induction l as [|[q b] l IH]; intros V i; cbn [fill]; [done|].
  destruct (IH (<[slot i := filled b p (V (slot i))]> V) (i + 1)) as [-> ->].
  destruct (decide (a = slot i)) as [->|]; [by rewrite fn_lookup_insert|by rewrite fn_lookup_insert_ne].
Qed.

(* ------------------------------------------------------------------ *)
(** * A frame is built *)

(** [V'] may differ from [V] between two indices in what is behind the last
    descriptor. *)
Definition agree (V V' : Z -> bdv) (lo hi : Z) : Prop :=
  forall j, lo <= j < hi -> v_flags (V' (slot j)) = v_flags (V (slot j)) /\
    v_pbuf (V' (slot j)) = v_pbuf (V (slot j)) /\
    (j < hi - 1 -> v_next (V' (slot j)) = v_next (V (slot j))).

Lemma pkts_agree V V' k pend : pkts V k pend -> agree V V' k (k + total pend) -> pkts V' k pend.
Proof.
  revert k. induction pend as [|[m p] pend IH]; intros k; [done|]. intros [H1 H2] HV.
  unfold agree in HV. cbn [total foldr fst] in HV. fold (total pend) in HV.
  pose proof (pkts_total _ _ _ H2). destruct H1 as ([Hm Hf] & Hs & Hp).
  assert (Hfl : forall j, 0 <= j < m -> v_flags (V' (slot (k + j))) = v_flags (V (slot (k + j))))
    by (intros j Hj; apply HV; lia).
  split; [|apply IH; [done|]; intros j Hj; destruct (HV j ltac:(lia)) as (? & ? & Hn); split_and!; try done;
    intros Hlt; apply Hn; lia].
  split_and!.
  - split; [done|]. intros j Hj. unfold vbit. rewrite Hfl by done. destruct (Hf j Hj) as [He Hn].
    split; [done|]. intros Hlt. destruct (HV (k + j) ltac:(lia)) as (_ & _ & Hn'). rewrite Hn' by lia. by apply Hn.
  - intros j Hj. unfold vbit. rewrite Hfl by done. by apply Hs.
  - destruct (HV (k + m - 1) ltac:(lia)) as (_ & Hp' & _). congruence.
Qed.

Lemma slot_succ i j : slot i = slot j -> slot (i + 1) = slot (j + 1).
Proof.
  intros E%slot_inj. unfold slot. do 2 f_equal. unfold NUM_TX in *.
  rewrite <- (Zplus_mod_idemp_l i), E, Zplus_mod_idemp_l. done.
Qed.

(** The flags of a frame's first descriptor but for OWNER. *)
Definition head_flags (tot : Z) : Z := Z.lor tot (Z.lor EMAC_BUF_DESC_SOP EMAC_BUF_DESC_OWNER).

Lemma head_flags_spec tot : is_u16 tot ->
  is_u32 (head_flags tot) /\ Z.testbit (head_flags tot) OWNER_BIT = true /\
  Z.testbit (Z.ldiff (head_flags tot) STATUS) SOP_BIT = true /\
  Z.testbit (Z.ldiff (head_flags tot) STATUS) EOP_BIT = false /\
  Z.land (head_flags tot) 0xFFFF = tot.
Proof.
  intros Ht. unfold is_u16 in Ht. unfold head_flags. change (Z.lor EMAC_BUF_DESC_SOP EMAC_BUF_DESC_OWNER) with 0xA0000000.
  rewrite Z.lor_comm.
  assert (Hb : forall k, 16 <= k -> Z.testbit tot k = false).
  { intros k Hk. rewrite <- (Z.mod_small tot (2 ^ 16)) by (change (2 ^ 16) with 65536; lia).
    apply Z.mod_pow2_bits_high. lia. }
  split_and!.
  - rewrite (lor_low _ _ 16); [unfold is_u32; lia|lia|done|lia].
  - rewrite Z.lor_spec, Hb by done. done.
  - rewrite Z.ldiff_spec, Z.lor_spec, Hb by done. done.
  - rewrite Z.ldiff_spec, Z.lor_spec, Hb by done. done.
  - change 0xFFFF with (Z.ones 16). apply Z.bits_inj'. intros k Hk. rewrite Z.land_spec, Z.lor_spec.
    destruct (Z.ltb_spec k 16).
    + rewrite Z.ones_spec_low, andb_true_r by lia. change 0xA0000000 with (Z.shiftl 0xA000 16).
      rewrite Z.shiftl_spec_low by lia. done.
    + rewrite Z.ones_spec_high, andb_false_r, Hb by lia. done.
Qed.

(** The descriptors after a packet from pbuf [p] with the pbufs [l] has been
    put behind the [n] in use, before the engine is told and after. *)
Section Built.
Variables (V : Z -> bdv) (i : Z) (l : list (Z * pbuf)) (p tot tail : Z).
Let e := i + zlen l - 1.

Definition claimed : Z -> bdv := <[slot i := vset_flags (Z.ldiff (head_flags tot) STATUS) (V (slot i))]> V.
Definition closed : Z -> bdv :=
  let W := fill claimed i l p in
  <[slot e := vset_flags (Z.lor (v_flags (W (slot e))) EMAC_BUF_DESC_EOP) (vset_next 0 (W (slot e)))]> W.
Definition built : Z -> bdv :=
  if tail =? 0 then closed else <[tail := vset_next (hdkif_swizzle_data (slot i)) (closed tail)]> closed.

Lemma closed_next a : v_next (closed a) = if decide (a = slot e) then 0 else v_next (V a).
Proof.
  unfold closed. cbv zeta. destruct (decide (a = slot e)) as [->|Hne]; [by rewrite fn_lookup_insert|].
  rewrite fn_lookup_insert_ne by done. destruct (fill_keeps claimed i l p a) as [-> _].
  unfold claimed. destruct (decide (a = slot i)) as [->|]; [by rewrite fn_lookup_insert|by rewrite fn_lookup_insert_ne].
Qed.

Lemma built_rest a : v_flags (built a) = v_flags (closed a) /\ v_pbuf (built a) = v_pbuf (closed a) /\
  v_ptr (built a) = v_ptr (closed a) /\ v_len (built a) = v_len (closed a).
Proof.
  unfold built. destruct (Z.eqb_spec tail 0); [done|].
  destruct (decide (a = tail)) as [->|]; [by rewrite fn_lookup_insert|by rewrite fn_lookup_insert_ne].
Qed.

Lemma closed_flags a : v_flags (closed a) =
  let f := if decide (a = slot i) then Z.ldiff (head_flags tot) STATUS else v_flags (V a) in
  if decide (a = slot e) then Z.lor f EMAC_BUF_DESC_EOP else f.
Proof.
  assert (E : v_flags (fill claimed i l p a) =
    if decide (a = slot i) then Z.ldiff (head_flags tot) STATUS else v_flags (V a)).
  { destruct (fill_keeps claimed i l p a) as [_ ->]. unfold claimed.
    destruct (decide (a = slot i)) as [->|]; [by rewrite fn_lookup_insert|by rewrite fn_lookup_insert_ne]. }
  cbv zeta. rewrite <- E. unfold closed. cbv zeta.
  destruct (decide (a = slot e)) as [->|]; [by rewrite fn_lookup_insert|by rewrite fn_lookup_insert_ne].
Qed.

Lemma closed_data j q b : zlen l <= 203 -> l !! j = Some (q, b) ->
  let v := closed (slot (i + Z.of_nat j)) in
  v_pbuf v = p /\ v_ptr v = hdkif_swizzle_data (payload b) /\ v_len v = hdkif_swizzle_data (Z.land (len b) 0xFFFF).
Proof.
  intros Hl Hj. pose proof (fill_inside claimed i l p j q b ltac:(lia) Hj) as Hf. cbv zeta.
  unfold closed. cbv zeta. set (W := fill claimed i l p) in *.
  destruct (decide (slot (i + Z.of_nat j) = slot e)) as [E|E].
  - rewrite E, fn_lookup_insert. cbn [v_pbuf v_ptr v_len vset_flags vset_next]. by rewrite <- E, Hf.
  - by rewrite fn_lookup_insert_ne, Hf.
Qed.

Lemma closed_outside a : (forall j, i <= j < i + zlen l -> slot j <> a) -> l <> [] -> closed a = V a.
Proof.
  intros Ha Hl. assert (0 < zlen l) by (destruct l; [done|cbn [length]; lia]).
  unfold closed. cbv zeta. rewrite fn_lookup_insert_ne by (apply Ha; unfold e; lia).
  rewrite fill_outside by done. unfold claimed. apply fn_lookup_insert_ne. apply Ha. lia.
Qed.
End Built.

Lemma built_ok V k pend tail p l tot :
  ring V k (total pend) tail -> pkts V k pend -> l <> [] -> total pend + zlen l <= 203 -> is_u16 tot ->
  let i := k + total pend in
  let V' := built V i l p tot tail in
  ring V' k (total (pend ++ [(zlen l, p)])) (slot (i + zlen l - 1)) /\
  pkts V' k (pend ++ [(zlen l, p)]) /\ last_frame V' (slot (i + zlen l - 1)) i (zlen l) /\
  last_frame (closed V i l p tot) (slot (i + zlen l - 1)) i (zlen l).
Proof.
  intros HR HP Hl Hn Ht i V'. destruct (head_flags_spec tot Ht) as (_ & _ & Hsop & Heop & _).
  pose proof HR as [Rl Rt Rn Rf Rs]. set (n := total pend) in *. set (mm := zlen l) in *.
  assert (Hmm : 0 < mm) by (subst mm; destruct l; [done|cbn [length]; lia]). set (e := i + mm - 1).
  assert (Htl : forall j, i <= j < i + mm -> slot j <> tail).
  { intros j Hj E. destruct (slot_range j) as [_ H0]. rewrite E in H0. destruct (Rt H0) as [Et _].
    rewrite Et in E. revert E. apply slot_ne; lia. }
  assert (Hbit : forall b j, i <= j < i + mm -> b = SOP_BIT \/ b = EOP_BIT ->
    vbit (closed V i l p tot (slot j)) b = if b =? SOP_BIT then j =? i else j =? e).
  { intros b j Hj Hb. unfold vbit. rewrite closed_flags. cbv zeta. fold mm e.
    destruct (Rf j ltac:(lia)) as [F1 F2].
    assert (E : Z.testbit (if decide (slot j = slot i) then Z.ldiff (head_flags tot) STATUS else v_flags (V (slot j))) b
      = if b =? SOP_BIT then j =? i else false).
    { destruct (decide (slot j = slot i)) as [Es|Es].
      - assert (j = i) as ->. { destruct (decide (j = i)); [done|]. exfalso. revert Es. apply slot_ne; lia. }
        rewrite Z.eqb_refl. by destruct Hb as [-> | ->].
      - rewrite (proj2 (Z.eqb_neq j i)) by (intros ->; done). by destruct Hb as [-> | ->]. }
    destruct (decide (slot j = slot e)) as [Es|Es].
    - assert (j = e) as ->. { destruct (decide (j = e)); [done|]. exfalso. revert Es. apply slot_ne; lia. }
      rewrite Z.lor_spec, E. destruct Hb as [-> | ->]; cbn -[e]; [apply orb_false_r|]. by rewrite Z.eqb_refl.
    - rewrite E. destruct Hb as [-> | ->]; [done|]. cbn -[e]. symmetry. apply Z.eqb_neq. by intros ->. }
  assert (Hf : frame (closed V i l p tot) i mm).
  { split; [done|]. intros j Hj. split.
    - rewrite Hbit by (try lia; by right). cbn -[e]. unfold e. zcase.
    - intros Hlt. rewrite closed_next. fold mm e. rewrite decide_False by (apply slot_ne; lia).
      apply Rl. apply Htl. lia. }
  assert (Hnx : v_next (closed V i l p tot (slot e)) = 0).
  { rewrite closed_next. fold mm e. by rewrite decide_True. }
  assert (Hin : forall j, i <= j < i + mm -> V' (slot j) = closed V i l p tot (slot j)).
  { intros j Hj. unfold V', built. destruct (Z.eqb_spec tail 0); [done|].
    apply fn_lookup_insert_ne. intros E. by apply (Htl j). }
  assert (Hlast : last_frame (closed V i l p tot) (slot e) i mm) by (split_and!; done).
  assert (Hrest : forall a, v_flags (V' a) = v_flags (closed V i l p tot a) /\ v_pbuf (V' a) = v_pbuf (closed V i l p tot a)).
  { intros a. by destruct (built_rest V i l p tot tail a) as (? & ? & _). }
  split_and!; [| |eapply last_frame_agree; done|done].
  - rewrite in_flight_app. cbn [total foldr fst]. rewrite Z.add_0_r. fold n. split.
    + intros j Hj. unfold V', built. destruct (Z.eqb_spec tail 0) as [E0|E0].
      { rewrite closed_next. fold mm e. rewrite decide_False by done. apply Rl. rewrite E0. apply slot_range. }
      destruct (decide (slot j = tail)) as [Et|Et].
      * rewrite Et, fn_lookup_insert. cbn [v_next vset_next]. destruct (Rt E0) as [Et' _].
        rewrite Et' in Et. apply slot_succ in Et. rewrite Et. f_equal. f_equal. lia.
      * rewrite fn_lookup_insert_ne, closed_next by done. fold mm e. rewrite decide_False by done. by apply Rl.
    + intros _. split; [f_equal; lia|]. by rewrite Hin by lia.
    + intros E. by destruct (slot_range e).
    + intros j Hj. unfold vbit. destruct (Hrest (slot j)) as [-> _].
      rewrite closed_outside; [apply Rf; lia| |done]. intros j' Hj'. apply slot_ne; lia.
    + lia.
  - apply pkts_app. split.
    + eapply pkts_agree; [done|]. intros j Hj.
      destruct (Hrest (slot j)) as [-> ->].
      rewrite closed_outside; [|intros j' Hj'; apply slot_ne; lia|done]. split_and!; [done|done|].
      intros Hlt. unfold V', built. destruct (Z.eqb_spec tail 0); [by rewrite closed_outside; [|intros j' Hj'; apply slot_ne; lia|]|].
      rewrite fn_lookup_insert_ne; [by rewrite closed_outside; [|intros j' Hj'; apply slot_ne; lia|]|].
      destruct (Rt n0) as [-> _]. apply not_eq_sym, slot_ne; lia.
    + split; [|done]. fold n i. split_and!.
      * eapply frame_agree; [done|]. intros j Hj. apply Hin. lia.
      * intros j Hj. unfold vbit. rewrite Hin by lia. fold (vbit (closed V i l p tot (slot (i + j))) SOP_BIT).
        rewrite Hbit by (try lia; by left). cbn -[e]. zcase.
      * rewrite Hin by lia. destruct (lookup_lt_is_Some_2 l (length l - 1)) as [[q b] Hb]; [lia|].
        pose proof (closed_data V i l p tot (length l - 1) q b ltac:(lia) Hb) as [Hp _].
        replace (i + mm - 1) with (i + Z.of_nat (length l - 1)) by lia. exact Hp.
Qed.
