(* ===== verification/EmacProofs.v ===== *)
(** The Ethernet driver's transmit side: [hdkif_output], the transmit
    interrupt and the set-up of the ring. *)

From Stdlib Require Import ZArith Lia.
From stdpp Require Import functions base list numbers gmap sets.
From S2P Require Import Prelude Mmio Board Mem MemProofs Memp Pbuf PbufChain PbufAlloc Emac EmacRing.

Open Scope Z_scope.

(* ------------------------------------------------------------------ *)
(** * Transmission *)

Section Transmit.
Context {D PP RP HP X : Type} {DM : Dma D} {OP : PoolOps PP} {OR : PoolOps RP} {OH : HeapOps HP}.
Context {DL : DmaLaws D}.
Abbreviation state := (eth D PP RP HP X).
Implicit Types (s : state) (V : Z -> bdv).

Lemma on_heap_ok {A} (m : io (pheap PP RP HP) A) s x h :
  m (heap s) = Ok (x, h) -> on_heap m s = Ok (x, mk_eth (dev s) (ctl s) (nif s) (cpsr s) (irqs s) h (rest s)).
Proof using Type. unfold on_heap. by intros ->. Qed.

Lemma on_heap_read q s b : pbufs (heap s) !! q = Some b -> on_heap (pb_read q) s = Ok (b, s).
Proof using Type.
  intros Hb. rewrite (on_heap_ok _ _ _ _ (pb_read_ok _ _ _ Hb)). by destruct s.
Qed.

Lemma tx_dev_ext s V V' tail exc c m :
  tx_dev s V tail exc c m -> (forall i, V' (slot i) = V (slot i)) -> tx_dev s V' tail exc c m.
Proof using Type.
  intros [H1 H2 H3 H4 H5] HV. split; try done.
  - intros i. by rewrite HV.
  - intros a Ha. destruct (H5 a Ha) as (-> & ? & ? & ?). split_and!; try done. by eapply last_frame_agree.
Qed.

(** The engine is not at work on slot [i]. *)
Definition apart s V tail c m i : Prop :=
  todo (dma (dev s)) = None \/ last_frame V tail c m /\ (forall j, c <= j < c + m -> slot j <> slot i).

Lemma apart_live s V tail c m i v : apart s V tail c m i -> live s (<[slot i := v]> V) tail c m.
Proof using Type.
  intros [?|[Hf Hj]]; [by left|right]. eapply last_frame_agree; [done|].
  intros j Hj'. apply fn_lookup_insert_ne. intros E. by apply (Hj j Hj').
Qed.

Lemma apart_insert s V tail c m i i' v :
  apart s V tail c m i -> apart s V tail c m i' -> apart s (<[slot i := v]> V) tail c m i'.
Proof using Type.
  intros H [?|[Hf Hj]]; [by left|]. destruct (apart_live _ _ _ _ _ _ v H) as [?|?]; [by left|by right].
Qed.

Lemma apart_fill s V tail c m i l p x :
  (forall j, i <= j < i + zlen l -> apart s V tail c m j) -> apart s V tail c m x ->
  apart s (fill V i l p) tail c m x.
Proof using Type.
  revert V i. induction l as [|[q b] l IH]; intros V i Hj Hx; cbn [fill]; [done|]. cbn [length] in Hj.
  apply IH; [intros j Hj'|]; apply apart_insert; try done; apply Hj; lia.
Qed.

Lemma apart_quiet s s' V tail c m i : quiet s s' -> apart s V tail c m i -> apart s' V tail c m i.
Proof using Type.
  intros [_ [E|E]] H; unfold apart in *; rewrite E; [by left|done].
Qed.

Lemma wr_step s V tail exc c m i f v' {B} (k : unit -> io state B) :
  tx_dev s V tail exc c m -> apart s V tail c m i ->
  (forall b, bd_view b = V (slot i) -> bd_view (f b) = v' /\ keeps (f b) b) ->
  exists s', (bd_wr (slot i) f ≫= k) s = k tt s' /\ quiet s s' /\ tx_dev s' (<[slot i := v']> V) tail exc c m.
Proof using Type.
  intros HD Ha Hf. destruct (bd_wr_ok s V tail exc c m i f v' HD Hf (apart_live _ _ _ _ _ _ v' Ha)) as (s' & E & H).
  exists s'. by rewrite (io_bind_ok _ _ _ _ _ E).
Qed.

Lemma bd_wr_wr p f g {B} (k : unit -> io state B) s :
  (_ ← bd_wr p f; _ ← bd_wr p g; k tt) s = (bd_wr p (g ∘ f) ≫= k) s.
Proof using Type.
  unfold mbind, io_bind, outcome_bind, bd_wr. destruct (bds (dev s) !! p) as [b|] eqn:E; [|done].
  cbn [mbind dev with_dev bds]. rewrite lookup_insert_eq. cbn [mbind].
  unfold with_dev. cbn [dev ctl nif cpsr irqs heap bds dma regs]. by rewrite insert_insert_eq.
Qed.

Lemma tx_fill_spec n s V tail exc c m p l q i e :
  tx_dev s V tail exc c m -> chain (pbufs (heap s)) q l -> (length l <= n)%nat -> zlen l <= 203 ->
  (forall j, i <= j < i + zlen l ->
    v_next (V (slot j)) = hdkif_swizzle_data (slot (j + 1)) /\ apart s V tail c m j) ->
  exists s', tx_fill n q p (slot i) e s =
      Ok ((slot (i + zlen l), if decide (l = []) then e else slot (i + zlen l - 1)), s') /\
    quiet s s' /\ tx_dev s' (fill V i l p) tail exc c m.
Proof using Type.
  revert s V l q i e. induction n as [|n IH]; intros s V l q i e HD Hl Hn Hz Hi.
  all: destruct l as [|[a b] l]; cbn [length] in *;
    [simpl in Hl; subst q; exists s; cbn [fill tx_fill]; rewrite Z.add_0_r; done|].
  { lia. }
  destruct Hl as (-> & Ha & Hb & Hl). cbn [tx_fill]. rewrite (proj2 (Z.eqb_neq a 0)) by done.
  rewrite (io_bind_ok _ _ _ _ _ (on_heap_read _ _ _ Hb)).
  destruct (Hi i ltac:(lia)) as [Hnext Hap].
  rewrite (bd_wr_wr (slot i) _ _ (fun _ => _ ← bd_wr (slot i) (set_bd_pbuf p); x ← bd_rd (slot i);
    tx_fill n (next b) p (hdkif_swizzle_txp (bd_next x)) (slot i))).
  rewrite (bd_wr_wr (slot i) _ _ (fun _ => x ← bd_rd (slot i);
    tx_fill n (next b) p (hdkif_swizzle_txp (bd_next x)) (slot i))).
  match goal with |- context [(bd_wr _ ?f ≫= ?k) s] =>
    destruct (wr_step s V tail exc c m i f (filled b p (V (slot i))) k HD Hap) as (s1 & -> & Q1 & HD1) end.
  { intros d Hd. rewrite <- Hd. done. }
  destruct (bd_rd_ok _ _ _ _ _ _ i HD1) as (x & E & _ & Hx & HD2). rewrite (io_bind_ok _ _ _ _ _ E).
  rewrite fn_lookup_insert in Hx. assert (Ex : bd_next x = hdkif_swizzle_data (slot (i + 1))).
  { rewrite <- Hnext. by injection Hx. }
  rewrite Ex, swz_slot.
  assert (Q2 : quiet s (run_dma s1)) by (etransitivity; [exact Q1|apply run_quiet]).
  destruct (IH (run_dma s1) _ l (next b) (i + 1) (slot i) HD2) as (s' & Ef & Q3 & HD3); [|lia|lia| |].
  { destruct Q2 as [(_ & _ & _ & _ & (_ & _ & _ & ->) & _) _]. done. }
  { intros j Hj. destruct (Hi j ltac:(lia)) as [Hjn Hja]. split.
    - rewrite fn_lookup_insert_ne by (apply slot_ne; lia). done.
    - eapply apart_quiet; [exact Q2|]. by apply apart_insert. }
  exists s'. rewrite Ef. split_and!; [|by etransitivity|done].
  replace (i + 1 + zlen l) with (i + Z.of_nat (S (length l))) by lia.
  rewrite (decide_False (P := (a, b) :: l = [])) by done.
  destruct (decide (l = [])) as [->|]; [|done]. cbn [length]. by replace (i + Z.of_nat 1 - 1) with i by lia.
Qed.
Lemma claim_ok s V tail c m i w : tx_dev s V tail 0 c m -> apart s V tail c m i -> tail <> slot i ->
  is_u32 w -> Z.testbit w OWNER_BIT = true ->
  exists s', bd_wr (slot i) (set_flags (hdkif_swizzle_data w)) s = Ok (tt, s') /\ quiet s s' /\
    tx_dev s' (<[slot i := vset_flags (Z.ldiff w STATUS) (V (slot i))]> V) tail (slot i) c m.
Proof using Type.
  intros HD Ha Ht Hw Hb. destruct (bd_at _ _ _ _ _ _ i HD) as (b & Eb & Hv).
  exists (written i (set_flags (hdkif_swizzle_data w) b) s). unfold bd_wr. rewrite Eb.
  split; [done|]. split; [apply written_quiet|]. pose proof HD as [H1 H2 H3 H4 H5].
  assert (Hvw : bd_view (set_flags (hdkif_swizzle_data w) b) = vset_flags (Z.ldiff w STATUS) (V (slot i))).
  { rewrite <- Hv. unfold bd_view, vset_flags, set_flags. cbn. by rewrite swz_swz. }
  split; cbn [dev with_dev written bds dma].
  - intros j. destruct (decide (slot j = slot i)) as [->|Hne].
    + rewrite lookup_insert_eq, fn_lookup_insert, <- Hvw. done.
    + rewrite lookup_insert_ne, fn_lookup_insert_ne by done. apply H1.
  - intros j d. destruct (decide (slot j = slot i)) as [->|Hne].
    + rewrite lookup_insert_eq. intros [= <-]. unfold fbit. cbn [flags_pktlen set_flags].
      rewrite swz_swz, Hb by done. split; [by left|done].
    + rewrite lookup_insert_ne by done. intros Hd. rewrite (H2 j d Hd).
      destruct (slot_range j) as [_ Hj0]. intuition.
  - intros d Hn Htail. rewrite lookup_insert_ne by done. by apply H3.
  - done.
  - intros x Hx. destruct (H5 x Hx) as (-> & _ & Hf & Ht0). split; [done|].
    destruct Ha as [?|[Hf' Hj]]; [congruence|]. pose proof Hf as [[Hm _] _].
    split; [apply Hj; lia|]. split; [|done]. eapply last_frame_agree; [done|].
    intros j Hj'. apply fn_lookup_insert_ne. intros E. by apply (Hj j).
Qed.

Lemma kick_ok s V tail c m i mm : tx_dev s V tail (slot i) c m -> todo (dma (dev s)) = None ->
  last_frame V (slot (i + mm - 1)) i mm ->
  exists s', EMACTxHdrDescPtrWrite EMAC_0_BASE (slot i) 0 s = Ok (tt, s') /\ still s s' /\
    todo (dma (dev s')) = Some (slot i) /\ tx_dev s' V (slot (i + mm - 1)) 0 i mm.
Proof using Type.
  intros [H1 H2 H3 H4 H5] Hn Hf. eexists. split; [done|]. split; [by split_and!; try apply others_same|].
  destruct (slot_range i) as [Hi Hi0]. cbn [dev with_dev dma bds].
  assert (Ht : todo (dma_write (EMAC_0_BASE + EMAC_TXHDP 0) (u32 (slot i)) (dma (dev s))) = Some (slot i)).
  { rewrite u32_small by done. fold TXHDP0. rewrite write_hdp by done. by rewrite (proj2 (Z.eqb_neq _ _)). }
  split; [done|]. split; cbn [dev with_dev dma bds]; rewrite ?Ht; try done.
  - intros j b Hb. rewrite (H2 j b Hb), Hn. destruct (slot_range j) as [_ Hj0]. intuition congruence.
  - intros a [= <-]. split; [done|]. split; [done|]. split; [done|]. apply slot_range.
Qed.

(** The transmit side: [pend] is in flight from the [k]-th descriptor on. *)
Record tx_inv s (k : Z) (pend : list (Z * Z)) V (tail c m : Z) : Prop := {
  i_dev : tx_dev s V tail 0 c m;
  i_ring : ring V k (total pend) tail;
  i_pkts : pkts V k pend;
  i_ctl : tx (ctl s) = mk_txch (slot (k + total pend)) tail (slot k);
  i_base : emac_base (ctl s) = EMAC_0_BASE;
  i_idle : pend = [] -> todo (dma (dev s)) = None;
  i_last : pend <> [] -> last_frame V tail c m /\ exists pend' p, pend = pend' ++ [(m, p)] /\ c = k + total pend'
}.
Definition tx_ok s (k : Z) (pend : list (Z * Z)) : Prop := exists V tail c m, tx_inv s k pend V tail c m.

Lemma tx_dev_dev s s' V tail exc c m : dev s' = dev s -> tx_dev s V tail exc c m -> tx_dev s' V tail exc c m.
Proof using Type. intros E [H1 H2 H3 H4 H5]. by split; rewrite ?E. Qed.

Lemma low_flags x : Z.land (Z.ldiff x STATUS) 0xFFFF = Z.land x 0xFFFF /\
  Z.land (Z.lor x EMAC_BUF_DESC_EOP) 0xFFFF = Z.land x 0xFFFF.
Proof using Type.
  change 0xFFFF with (Z.ones 16). split; apply Z.bits_inj'; intros k Hk; rewrite !Z.land_spec;
    destruct (Z.ltb_spec k 16); rewrite ?(Z.ones_spec_low 16 k), ?(Z.ones_spec_high 16 k), ?andb_true_r, ?andb_false_r by lia;
    try done.
  - rewrite Z.ldiff_spec, status_bit by done. rewrite !(proj2 (Z.eqb_neq _ _)) by lia. apply andb_true_r.
  - rewrite Z.lor_spec. change EMAC_BUF_DESC_EOP with (2 ^ 30). rewrite Z.pow2_bits_false by lia. apply orb_false_r.
Qed.

Lemma eop_status x : Z.ldiff (Z.lor x EMAC_BUF_DESC_EOP) STATUS = Z.lor (Z.ldiff x STATUS) EMAC_BUF_DESC_EOP.
Proof using Type.
  apply Z.bits_inj'. intros k Hk. rewrite Z.ldiff_spec, !Z.lor_spec, Z.ldiff_spec, status_bit by done.
  change EMAC_BUF_DESC_EOP with (2 ^ 30). rewrite Z.pow2_bits_eqb by done.
  destruct (Z.eqb_spec 30 k) as [<-|]; [by rewrite !orb_true_r|by rewrite !orb_false_r].
Qed.

(** The free descriptors are apart. *)
Lemma free_apart s k pend V tail c m j : tx_inv s k pend V tail c m ->
  k + total pend <= j < k + 204 -> apart s V tail c m j.
Proof using Type.
  intros HI Hj. destruct (decide (pend = [])) as [E|E]; [left; by eapply i_idle|right].
  destruct (i_last _ _ _ _ _ _ _ HI E) as (Hf & pend' & p & -> & ->). split; [done|].
  pose proof (i_pkts _ _ _ _ _ _ _ HI) as [Hk%pkts_total _]%pkts_app.
  rewrite in_flight_app in Hj. cbn [total foldr fst] in Hj. intros j' Hj'. apply slot_ne; lia.
Qed.

(** The last two writes to a frame. *)
Lemma close_ok s W tail exc c m e B (k : unit -> io state B) :
  tx_dev s W tail exc c m -> apart s W tail c m e ->
  exists s', (_ ← bd_wr (slot e) (set_bd_next 0);
      x ← bd_rd (slot e);
      _ ← bd_wr (slot e) (set_flags (Z.lor (flags_pktlen x) (hdkif_swizzle_data EMAC_BUF_DESC_EOP)));
      k tt) s = k tt s' /\ quiet s s' /\
    tx_dev s' (<[slot e := vset_flags (Z.lor (v_flags (W (slot e))) EMAC_BUF_DESC_EOP) (vset_next 0 (W (slot e)))]> W) tail exc c m.
Proof using Type.
  intros HD Ha. destruct (wr_step s W tail exc c m e (set_bd_next 0) (vset_next 0 (W (slot e)))
    (fun _ => x ← bd_rd (slot e);
      _ ← bd_wr (slot e) (set_flags (Z.lor (flags_pktlen x) (hdkif_swizzle_data EMAC_BUF_DESC_EOP)));
      k tt) HD Ha) as (s1 & -> & Q1 & HD1).
  { intros b Hb. by rewrite <- Hb. }
  set (W1 := <[slot e := vset_next 0 (W (slot e))]> W) in *.
  assert (HW1 : W1 (slot e) = vset_next 0 (W (slot e))) by apply fn_lookup_insert.
  destruct (bd_rmw_ok s1 W1 tail exc c m e (fun f => Z.lor f (hdkif_swizzle_data EMAC_BUF_DESC_EOP))
    (vset_flags (Z.lor (v_flags (W (slot e))) EMAC_BUF_DESC_EOP) (vset_next 0 (W (slot e)))) HD1) as (s2 & E2 & Q2 & HD2).
  { intros b Hb. rewrite HW1 in Hb.
    assert (Eb : hdkif_swizzle_data (Z.lor (flags_pktlen b) (hdkif_swizzle_data EMAC_BUF_DESC_EOP)) =
      Z.lor (hdkif_swizzle_data (flags_pktlen b)) EMAC_BUF_DESC_EOP) by (rewrite swz_lor, swz_swz; done).
    assert (Ef : v_flags (W (slot e)) = Z.ldiff (hdkif_swizzle_data (flags_pktlen b)) STATUS)
      by (injection Hb as _ _ _ Hf _; done).
    split.
    - rewrite <- Hb. unfold bd_view, vset_flags. cbn [bd_next bufptr bufoff_len flags_pktlen bd_pbuf set_flags v_next v_ptr v_len v_pbuf].
      f_equal. rewrite Eb, Ef. apply eop_status.
    - unfold keeps, fbit. cbn [flags_pktlen set_flags]. rewrite Eb, !Z.lor_spec. change EMAC_BUF_DESC_EOP with (2 ^ 30).
      rewrite !Z.pow2_bits_false, !orb_false_r by done. done. }
  { apply apart_live. eapply apart_quiet; [exact Q1|]. by apply apart_insert. }
  exists s2. split_and!; [|by etransitivity|].
  - unfold mbind, io_bind in E2 |- *. destruct (bd_rd (slot e) s1) as [[x s1']|]; [|done]. cbn [mbind outcome_bind] in *.
    by rewrite E2.
  - eapply tx_dev_ext; [exact HD2|]. intros j. destruct (decide (slot j = slot e)) as [->|Hne].
    + by rewrite !fn_lookup_insert.
    + unfold W1. by rewrite !fn_lookup_insert_ne.
Qed.

Variable fuel : nat.
Hypothesis Hfuel : (dma_bound <= fuel)%nat.

Lemma tx_start_ok s V tail c m i mm :
  tx_dev s V tail (slot i) c m -> tx_active_tail (tx (ctl s)) = tail -> emac_base (ctl s) = EMAC_0_BASE ->
  last_frame V (slot (i + mm - 1)) i mm -> (forall j, i <= j < i + mm -> slot j <> tail) ->
  exists s', tx_start fuel (slot i) s = Ok (tt, s') /\ still s s' /\ todo (dma (dev s')) = Some (slot i) /\
    tx_dev s' (if tail =? 0 then V else <[tail := vset_next (hdkif_swizzle_data (slot i)) (V tail)]> V)
      (slot (i + mm - 1)) 0 i mm.
Proof using Hfuel.
  intros HD Et Eb Hf Hj. unfold tx_start. erewrite io_bind_ok by done. cbv zeta. rewrite Et, Eb. clear Et.
  destruct (Z.eqb_spec tail 0) as [E0|E0].
  { eapply kick_ok; [done| |done]. destruct (todo (dma (dev s))) eqn:E; [|done].
    by destruct (d_todo _ _ _ _ _ _ HD _ E) as (_ & _ & _ & ?). }
  pose proof (d_tail _ _ _ _ _ _ HD E0) as Etail. set (t := c + m - 1) in *. subst tail.
  destruct (spin_ok (bd_rd (slot t)) (fun x => negb (EMAC_BUF_DESC_EOQ =? flag (flags_pktlen x) EMAC_BUF_DESC_EOQ))
    (fun s => tx_dev s V (slot t) (slot i) c m) fuel s) as (s1 & _ & _ & E1 & Q1 & HD1 & _).
  { intros s0 HD0. destruct (bd_rd_ok _ _ _ _ _ _ t HD0) as (b & E & Hb & _ & HD'). exists b.
    split_and!; [done|done|]. intros Hc Hn. rewrite negb_true_iff in Hc.
    change EMAC_BUF_DESC_EOQ with (2 ^ EOQ_BIT) in Hc. rewrite (proj1 (proj2 (flag_bit _ EOQ_BIT ltac:(done)))) in Hc.
    pose proof (d_eoq _ _ _ _ _ _ HD' b Hn E0 Hb) as Hq. unfold fbit in Hq. congruence. }
  { done. }
  { pose proof (dma_left_le (dev s)). lia. }
  rewrite (io_bind_ok _ _ _ _ _ E1).
  destruct (spin_ok (hwreg_rd 0xFCF78600) (fun x => negb (0 =? x))
    (fun s => tx_dev s V (slot t) (slot i) c m) fuel s1) as (s2 & s2' & x & E2 & Q2 & HD2 & Ex & -> & Hc).
  { intros s0 HD0. eexists. split; [done|]. split; [by apply run_tx_dev|].
    intros Hc. rewrite negb_true_iff, Z.eqb_neq in Hc. rewrite run_dev in *.
    intros Hn. apply run_hdp in Hn. by symmetry in Hn. }
  { done. }
  { pose proof (dma_left_le (dev s1)). lia. }
  rewrite (io_bind_ok _ _ _ _ _ E2). set (s2 := run_dma s2') in *.
  assert (Hn : todo (dma (dev s2)) = None).
  { apply negb_false_iff, Z.eqb_eq in Hc. unfold s2. rewrite run_dev. apply (run_hdp _ (bytes (heap s2'))).
    rewrite <- run_dev. unfold hwreg_rd in Ex. injection Ex as Ex. transitivity x; [exact Ex|done]. }
  set (V' := <[slot t := vset_next (hdkif_swizzle_data (slot i)) (V (slot t))]> V).
  destruct (bd_wr_ok s2 V (slot t) (slot i) c m t (set_bd_next (hdkif_swizzle_txp (slot i))) (V' (slot t)) HD2)
    as (s3 & E3 & Q3 & HD3).
  { intros b Hb. unfold V'. rewrite fn_lookup_insert, <- Hb. done. }
  { by left. }
  rewrite (io_bind_ok _ _ _ _ _ E3).
  destruct (bd_rd_ok _ _ _ _ _ _ t HD3) as (b & E4 & Hb & _ & HD4). rewrite (io_bind_ok _ _ _ _ _ E4).
  assert (Hn4 : todo (dma (dev (run_dma s3))) = None).
  { destruct (run_quiet s3) as [_ [?| ->]]; [done|]. destruct Q3 as [_ [?| ->]]; done. }
  pose proof (d_eoq _ _ _ _ _ _ HD4 b Hn4 E0 Hb) as Hq. unfold fbit in Hq.
  change EMAC_BUF_DESC_EOQ with (2 ^ EOQ_BIT). rewrite (proj1 (proj2 (flag_bit _ EOQ_BIT ltac:(done)))), Hq.
  assert (HV' : forall a, (<[slot t := V' (slot t)]> V) a = V' a).
  { intros a. unfold V'. by rewrite fn_lookup_insert. }
  destruct (kick_ok (run_dma s3) V' (slot t) c m i mm) as (s4 & E5 & S5 & Ht5 & HD5); [|done| |].
  { eapply tx_dev_ext; [exact HD4|]. done. }
  { eapply last_frame_agree; [done|]. intros j Hj'. unfold V'. apply fn_lookup_insert_ne.
    intros E. by apply (Hj j Hj'). }
  exists s4. rewrite E5. split_and!; [done| |done|done].
  destruct Q1 as [Q1 _], Q2 as [Q2 _], Q3 as [Q3 _], (run_quiet s3) as [Q4 _].
  etransitivity; [exact Q1|]. etransitivity; [exact Q2|]. etransitivity; [exact Q3|]. by etransitivity.
Qed.
Lemma transmit_ok s k pend V tail c m p b l :
  tx_inv s k pend V tail c m -> chain (pbufs (heap s)) p ((p, b) :: l) -> is_u16 (tot_len b) ->
  let i := k + total pend in
  let l' := (p, b) :: l in
  total pend + zlen l' <= 203 ->
  exists s', hdkif_transmit fuel p s = Ok (tt, s') /\
    nif s' = nif s /\ cpsr s' = cpsr s /\ irqs s' = irqs s /\ same_heap (heap s) (heap s') /\
    rx (ctl s') = rx (ctl s) /\ others s s' /\ todo (dma (dev s')) = Some (slot i) /\
    tx_inv s' k (pend ++ [(zlen l', p)]) (built V i l' p (tot_len b) tail) (slot (i + zlen l' - 1)) i (zlen l').
Proof using Hfuel.
  intros HI Hl Ht i l' Hn. pose proof HI as [HD HR HK HC HB _ _]. set (tot := tot_len b) in *.
  destruct (head_flags_spec tot Ht) as (Hw & Hwo & _).
  assert (Hap : forall j, i <= j < i + zlen l' -> apart s V tail c m j).
  { intros j Hj. eapply free_apart; [done|]. lia. }
  assert (Htail : forall j, i <= j < i + zlen l' -> slot j <> tail).
  { intros j Hj E. destruct (slot_range j) as [_ H0]. rewrite E in H0.
    destruct (r_tail _ _ _ _ HR H0) as [Et _]. pose proof (r_size _ _ _ _ HR).
    rewrite Et in E. revert E. apply slot_ne; lia. }
  assert (Hz : zlen l' = 1 + zlen l) by (cbn [length l']; lia). pose proof (r_size _ _ _ _ HR) as Hsz.
  pose proof Hl as (_ & Hp0 & Hb & _).
  unfold hdkif_transmit. erewrite io_bind_ok by done. cbv zeta.
  rewrite (io_bind_ok _ _ _ _ _ (on_heap_read _ _ _ Hb)), HC. cbn [tx_free_head]. fold i tot.
  destruct (claim_ok s V tail c m i (head_flags tot) HD (Hap i ltac:(lia))
    ltac:(apply not_eq_sym, Htail; lia) Hw Hwo) as (s1 & E1 & Q1 & HD1).
  unfold head_flags in E1. rewrite (io_bind_ok _ _ _ _ _ E1). clear E1. fold (claimed V i tot) in HD1.
  assert (Ha1 : forall j, i <= j < i + zlen l' -> apart s1 (claimed V i tot) tail c m j).
  { intros j Hj. eapply apart_quiet; [exact Q1|]. apply apart_insert; apply Hap; lia. }
  assert (Hh1 : pbufs (heap s1) = pbufs (heap s)) by (destruct Q1 as [(_ & _ & _ & _ & (_ & _ & _ & ?) & _) _]; done).
  destruct (tx_fill_spec (chain_fuel (pbufs (heap s))) s1 (claimed V i tot) tail (slot i) c m p l' p i 0 HD1)
    as (s2 & E2 & Q2 & HD2); [by rewrite Hh1| |lia| |].
  { pose proof (chain_length _ _ _ Hl). unfold chain_fuel, l'. lia. }
  { intros j Hj. split; [|by apply Ha1]. pose proof (r_link _ _ _ _ HR j (Htail j Hj)) as Hlink.
    unfold claimed. destruct (decide (slot j = slot i)) as [E|E].
    - rewrite <- Hlink, E. by rewrite fn_lookup_insert.
    - by rewrite fn_lookup_insert_ne. }
  rewrite (io_bind_ok _ _ _ _ _ E2), decide_False by done. clear E2. set (e := i + zlen l' - 1) in *.
  assert (Ha2 : apart s2 (fill (claimed V i tot) i l' p) tail c m e).
  { eapply apart_quiet; [exact Q2|]. apply apart_fill; [done|]. apply Ha1. lia. }
  match goal with |- context [(_ ← bd_wr _ _; x ← _; _ ← _; ?k) s2] =>
    destruct (close_ok s2 _ tail (slot i) c m e _ (fun _ => k) HD2 Ha2) as (s3 & -> & Q3 & HD3) end.
  fold e in HD3. change (tx_dev s3 (closed V i l' p tot) tail (slot i) c m) in HD3.
  erewrite io_bind_ok by done. set (s4 := with_ctl _ s3).
  destruct (built_ok V k pend tail p l' tot HR HK ltac:(done) Hn Ht) as (HR' & HK' & HL' & HLc).
  fold i e in HR', HK', HL', HLc.
  assert (Hctl : ctl s3 = ctl s).
  { destruct Q1 as [[E1 _] _], Q2 as [[E2 _] _], Q3 as [[E3 _] _]. congruence. }
  assert (HD4 : tx_dev s4 (closed V i l' p tot) tail (slot i) c m) by (by eapply tx_dev_dev; [|exact HD3]).
  destruct (tx_start_ok s4 _ tail c m i (zlen l') HD4) as (s5 & E5 & (F1 & F2 & F3 & F4 & F5 & F6) & Ht5 & HD5);
    [cbn [ctl with_ctl s4 tx set_tx tx_active_tail set_tx_free_head]; by rewrite Hctl, HC|
     cbn [ctl with_ctl s4 set_tx emac_base]; by rewrite Hctl|done|done|].
  rewrite (io_bind_ok _ _ _ _ _ E5). eexists. split; [done|].
  assert (HS : still s s3).
  { destruct Q1 as [S1 _], Q2 as [S2 _], Q3 as [S3 _]. etransitivity; [exact S1|]. by etransitivity. }
  destruct HS as (_ & G2 & G3 & G4 & G5 & G6).
  assert (G5' : same_heap (heap s) (heap s5)).
  { destruct F5 as (? & ? & ? & ?), G5 as (? & ? & ? & ?). cbn [heap with_ctl s4] in *. split_and!; congruence. }
  cbn [nif cpsr irqs heap with_ctl ctl rx set_tx dev].
  split_and!; [by rewrite F2|by rewrite F3|by rewrite F4|exact G5'|by rewrite F1; cbn; rewrite Hctl| |done|].
  { exact (others_trans s s3 s5 G6 F6). }
  split; cbn [nif cpsr irqs heap with_ctl ctl tx set_tx dev emac_base]; try done.
  - by eapply tx_dev_dev; [|exact HD5].
  - rewrite F1. cbn. rewrite Hctl, HC. unfold set_tx_active_tail. cbn.
    rewrite in_flight_app. cbn [total foldr fst]. rewrite Z.add_0_r, Z.add_assoc. done.
  - rewrite F1. cbn. by rewrite Hctl.
  - intros [_ ?]%app_nil. done.
  - intros _. split; [done|]. by exists pend, p.
Qed.
Lemma tx_inv_dev s s' k pend V tail c m :
  dev s' = dev s -> ctl s' = ctl s -> tx_inv s k pend V tail c m -> tx_inv s' k pend V tail c m.
Proof using Type.
  intros E1 E2 [H1 H2 H3 H4 H5 H6 H7]. split; rewrite ?E1, ?E2; try done. by eapply tx_dev_dev.
Qed.
End Transmit.

(* ------------------------------------------------------------------ *)
(** * The transmit interrupt *)

(** Computations on the pbufs that do not look at payloads. *)
Section Respects.
Context {PP RP HP : Type} {OP : PoolOps PP} {OR : PoolOps RP} {OH : HeapOps HP}.
Implicit Types (h : pheap PP RP HP).

Definition respects {A} (m : io (pheap PP RP HP) A) : Prop :=
  forall h h' x h1, same_heap h h' -> m h = Ok (x, h1) -> exists h1', m h' = Ok (x, h1') /\ same_heap h1 h1'.

Lemma respects_bind {A B} (m : io _ A) (k : A -> io _ B) :
  respects m -> (forall x, respects (k x)) -> respects (m ≫= k).
Proof using Type.
  intros Hm Hk h h' y h2 Hs. unfold mbind, io_bind. destruct (m h) as [[x h1]|] eqn:E; [|done].
  destruct (Hm _ _ _ _ Hs E) as (h1' & -> & Hs1). by apply Hk.
Qed.

Lemma respects_ret {A} (x : A) : respects (mret x).
Proof using Type. intros h h' y h1 Hs [= <- <-]. by exists h'. Qed.

Lemma respects_prim {A} (m : io (pheap PP RP HP) A) :
  (forall ps rs hs m0 bs bs' x ps1 rs1 hs1 m1 bs1,
    m (mk_pheap ps rs hs m0 bs) = Ok (x, mk_pheap ps1 rs1 hs1 m1 bs1) ->
    exists bs1', m (mk_pheap ps rs hs m0 bs') = Ok (x, mk_pheap ps1 rs1 hs1 m1 bs1')) -> respects m.
Proof using Type.
  intros H [ps rs hs m0 bs] [ps' rs' hs' m0' bs'] x [ps1 rs1 hs1 m1 bs1] (E1 & E2 & E3 & E4) E. cbn in *. subst.
  destruct (H _ _ _ _ _ bs' _ _ _ _ _ _ E) as [bs1' E']. eexists. by split.
Qed.

Ltac prim := apply respects_prim; intros ps rs hs m0 bs bs' x ps1 rs1 hs1 m1 bs1;
  unfold pb_read, io_assert, pb_write, pb_forget, io_modify, memp_free_PBUF_POOL, memp_free_PBUF, pb_mem_free,
    with_pbufs, mbind, outcome_bind, io_bind, io_get; cbn [pbufs pool_st rom_st heap_st bytes].

Lemma respects_free_to_source p src : respects (free_to_source p src).
Proof using Type.
  unfold free_to_source. repeat case_match.
  - prim. destruct (pool_free _ _); [|done]. intros [= <- <- <- <- <- <-]. eauto.
  - prim. destruct (pool_free _ _); [|done]. intros [= <- <- <- <- <- <-]. eauto.
  - prim. destruct (heap_free _ _); [|done]. intros [= <- <- <- <- <- <-]. eauto.
  - prim. done.
Qed.

Lemma respects_free_loop fuel p count : respects (pbuf_free_loop fuel p count).
Proof using Type.
  revert p count. induction fuel as [|fuel IH]; intros p count; cbn [pbuf_free_loop];
    (destruct (p =? 0); [apply respects_ret|]); [by intros h h' x h1 _|].
  apply respects_bind; [prim; destruct (deref _ _); [|done]; intros [= <- <- <- <- <- <-]; eauto|]. intros b.
  apply respects_bind; [prim; destruct (lwip_assert _); [|done]; intros [= <- <- <- <- <- <-]; eauto|]. intros _.
  apply respects_bind; [prim; intros [= <- <- <- <- <- <-]; eauto|]. intros _.
  case_match; [|apply respects_ret]. apply respects_bind; [apply respects_free_to_source|]. intros _.
  apply respects_bind; [prim; intros [= <- <- <- <- <- <-]; eauto|]. intros _. apply IH.
Qed.

Lemma respects_free p : respects (pbuf_free p).
Proof using Type.
  intros h h' x h1 Hs. unfold pbuf_free. unfold io_assert, lwip_assert.
  destruct (negb (p =? 0)); [|done]. pose proof Hs as (_ & _ & _ & E).
  change (pbuf_free_loop (chain_fuel (pbufs h)) p 0 h = Ok (x, h1) ->
    exists h1', pbuf_free_loop (chain_fuel (pbufs h')) p 0 h' = Ok (x, h1') /\ same_heap h1 h1').
  rewrite E. by apply respects_free_loop.
Qed.

(** The pbufs are freed one after the other. *)
Fixpoint free_all (ps : list Z) : io (pheap PP RP HP) unit :=
  match ps with
  | [] => mret tt
  | p :: ps => _ ← pbuf_free p; free_all ps
  end.

Lemma respects_free_all ps : respects (free_all ps).
Proof using Type.
  induction ps as [|p ps IH]; cbn [free_all]; [apply respects_ret|].
  apply respects_bind; [apply respects_free|done].
Qed.
End Respects.

(** A descriptor chain without the marks of its packet. *)
Definition without (mask : Z) (v : bdv) : bdv := vset_flags (Z.land (v_flags v) (u32 (Z.lnot mask))) v.
Definition cleared (V : Z -> bdv) (k e : Z) : Z -> bdv :=
  let W := <[slot k := without EMAC_BUF_DESC_SOP (V (slot k))]> V in
  <[slot e := without EMAC_BUF_DESC_EOP (W (slot e))]> W.

Lemma lnot_bit k i : 0 <= k < 32 -> 0 <= i < 32 -> Z.testbit (u32 (Z.lnot (2 ^ k))) i = negb (i =? k).
Proof.
  intros Hk Hi. unfold u32. change 4294967296 with (2 ^ 32). rewrite Z.mod_pow2_bits_low by lia.
  rewrite Z.lnot_spec, Z.pow2_bits_eqb by lia. f_equal. apply Z.eqb_sym.
Qed.

Lemma vbit_without k v i : 0 <= k < 32 -> 0 <= i < 32 ->
  vbit (without (2 ^ k) v) i = vbit v i && negb (i =? k).
Proof. intros Hk Hi. unfold vbit, without. cbn [v_flags vset_flags]. by rewrite Z.land_spec, lnot_bit. Qed.

Lemma cleared_rest V k e a : v_next (cleared V k e a) = v_next (V a) /\ v_pbuf (cleared V k e a) = v_pbuf (V a) /\
  (a <> slot k -> a <> slot e -> cleared V k e a = V a).
Proof.
  unfold cleared. cbv zeta. set (W := <[slot k := _]> V).
  assert (HW : v_next (W a) = v_next (V a) /\ v_pbuf (W a) = v_pbuf (V a) /\ (a <> slot k -> W a = V a)).
  { unfold W. destruct (decide (a = slot k)) as [->|]; [by rewrite fn_lookup_insert|by rewrite fn_lookup_insert_ne]. }
  destruct HW as (H1 & H2 & H3).
  destruct (decide (a = slot e)) as [->|]; [rewrite fn_lookup_insert|rewrite fn_lookup_insert_ne by done].
  - by split_and!.
  - split_and!; [done|done|]. intros Hk _. by apply H3.
Qed.

Lemma cleared_bit V k e a b : b = SOP_BIT \/ b = EOP_BIT ->
  vbit (cleared V k e a) b = vbit (V a) b && negb (bool_decide (b = SOP_BIT /\ a = slot k \/ b = EOP_BIT /\ a = slot e)).
Proof.
  intros Hb. assert (Hb' : 0 <= b < 32) by (destruct Hb as [-> | ->]; done).
  unfold cleared. cbv zeta. set (W := <[slot k := _]> V).
  assert (HW : vbit (W a) b = vbit (V a) b && negb (bool_decide (b = SOP_BIT /\ a = slot k))).
  { unfold W. destruct (decide (a = slot k)) as [->|].
    - rewrite fn_lookup_insert. change EMAC_BUF_DESC_SOP with (2 ^ SOP_BIT). rewrite vbit_without by done.
      do 2 f_equal. destruct (Z.eqb_spec b SOP_BIT); [by rewrite bool_decide_true|by rewrite bool_decide_false by tauto].
    - rewrite fn_lookup_insert_ne, bool_decide_false by (intuition congruence). by rewrite andb_true_r. }
  destruct (decide (a = slot e)) as [->|].
  - rewrite fn_lookup_insert. change EMAC_BUF_DESC_EOP with (2 ^ EOP_BIT). rewrite vbit_without, HW by done.
    rewrite <- andb_assoc. f_equal.
    destruct Hb as [-> | ->]; cbn; [|by rewrite andb_false_r, bool_decide_true by auto].
    rewrite andb_true_r. f_equal. apply bool_decide_ext. intuition. done.
  - rewrite fn_lookup_insert_ne, HW by done. do 2 f_equal. apply bool_decide_ext. intuition.
Qed.

(** The ring without its first packet. *)
Lemma cleared_ok V k m p pend tail :
  ring V k (total ((m, p) :: pend)) tail -> pkts V k ((m, p) :: pend) ->
  let V' := cleared V k (k + m - 1) in
  ring V' (k + m) (total pend) tail /\ pkts V' (k + m) pend /\
  (forall j, k + m <= j < k + m + total pend -> V' (slot j) = V (slot j)).
Proof.
  intros HR [H1 H2] V'. cbn [total foldr fst] in HR. fold (total pend) in HR.
  pose proof (pkts_total _ _ _ H2) as Ht. pose proof H1 as ([Hm Hf] & Hs & _). destruct HR as [Rl Rt Rn Rf Rs].
  assert (Hag : forall j, k + m <= j < k + m + total pend -> V' (slot j) = V (slot j)).
  { intros j Hj. apply cleared_rest; apply slot_ne; lia. }
  assert (Hnx : forall a, v_next (V' a) = v_next (V a)) by (intros a; apply cleared_rest).
  split_and!; [|eapply pkts_agree; [done|]; intros j Hj; by rewrite Hag by done|done]. split.
  - intros j Hj. rewrite Hnx. by apply Rl.
  - intros H0. rewrite Hnx. destruct (Rt H0) as [Et ?].
    split; [|done]. rewrite Et. f_equal. lia.
  - intros H0. apply Rn in H0. lia.
  - intros j Hj. unfold V'. rewrite !cleared_bit by auto. destruct (Z.ltb_spec j (k + 204)) as [Hlt|Hge].
    + destruct (Rf j ltac:(lia)) as [-> ->]. done.
    + replace (slot j) with (slot (k + (j - 204 - k))) by (rewrite <- slot_turn; f_equal; lia).
      set (i := j - 204 - k) in *. rewrite Hs, (proj1 (Hf i ltac:(lia))) by lia. split.
      * destruct (Z.eqb_spec i 0) as [->|]; [|done]. rewrite bool_decide_true; [done|]. left. split; [done|f_equal; lia].
      * destruct (Z.eqb_spec i (m - 1)) as [->|]; [|done]. rewrite bool_decide_true; [done|]. right. split; [done|f_equal; lia].
  - lia.
Qed.

Section Isr.
Context {D PP RP HP X : Type} {DM : Dma D} {OP : PoolOps PP} {OR : PoolOps RP} {OH : HeapOps HP}.
Context {DL : DmaLaws D}.
Abbreviation state := (eth D PP RP HP X).
Implicit Types (s : state) (V : Z -> bdv).

Lemma clear_ok s V tail exc c m i k {B} (K : unit -> io state B) :
  tx_dev s V tail exc c m -> apart s V tail c m i -> k = SOP_BIT \/ k = EOP_BIT ->
  exists s', (bd_clear (slot i) (2 ^ k) ≫= K) s = K tt s' /\ quiet s s' /\
    tx_dev s' (<[slot i := without (2 ^ k) (V (slot i))]> V) tail exc c m.
Proof using Type.
  intros HD Ha Hk. assert (Hk' : 30 <= k < 32) by (destruct Hk as [-> | ->]; done).
  set (M := u32 (Z.lnot (2 ^ k))).
  destruct (bd_rmw_ok s V tail exc c m i (fun f => Z.land f (hdkif_swizzle_data M)) (without (2 ^ k) (V (slot i))) HD)
    as (s' & E & Q & HD'); [|by apply apart_live|exists s'; unfold bd_clear; by rewrite (io_bind_ok _ _ _ _ _ E)].
  intros b Hb. assert (Eb : hdkif_swizzle_data (Z.land (flags_pktlen b) (hdkif_swizzle_data M)) =
    Z.land (hdkif_swizzle_data (flags_pktlen b)) M) by (rewrite swz_land, swz_swz by apply u32_range; done).
  split.
  - rewrite <- Hb. unfold bd_view, without, vset_flags. cbn [bd_next bufptr bufoff_len flags_pktlen bd_pbuf set_flags v_next v_ptr v_len v_flags v_pbuf].
    f_equal. rewrite Eb. apply Z.bits_inj'. intros j Hj. rewrite Z.ldiff_spec, !Z.land_spec, Z.ldiff_spec.
    rewrite <- !andb_assoc. f_equal. apply andb_comm.
  - unfold keeps, fbit. cbn [flags_pktlen set_flags]. rewrite Eb, !Z.land_spec. unfold M.
    rewrite !lnot_bit by (unfold OWNER_BIT, EOQ_BIT; lia). unfold OWNER_BIT, EOQ_BIT.
    rewrite !(proj2 (Z.eqb_neq _ k)) by lia. by rewrite !andb_true_r.
Qed.

Lemma find_eop_ok n s V tail exc c m k mm j : tx_dev s V tail exc c m -> frame V k mm ->
  0 <= j < mm -> mm - 1 - j <= Z.of_nat n ->
  exists s', find_eop n (slot (k + j)) s = Ok (slot (k + mm - 1), s') /\ quiet s s' /\ tx_dev s' V tail exc c m.
Proof using Type.
  revert s j. induction n as [|n IH]; intros s j HD Hf Hj Hn; cbn [find_eop];
    destruct (bd_rd_ok _ _ _ _ _ _ (k + j) HD) as (x & E & _ & Hx & HD'); rewrite (io_bind_ok _ _ _ _ _ E);
    destruct (proj2 Hf j Hj) as [He Hnx]; rewrite <- Hx, vbit_view in He by done; unfold fbit in He;
    change EMAC_BUF_DESC_EOP with (2 ^ EOP_BIT); rewrite (proj1 (flag_bit _ EOP_BIT ltac:(done))), He;
    destruct (Z.eqb_spec j (mm - 1)) as [Ej|Ej]; cbn [negb].
  - exists (run_dma s). rewrite Ej, Z.add_sub_assoc. split_and!; [done|apply run_quiet|done].
  - lia.
  - exists (run_dma s). rewrite Ej, Z.add_sub_assoc. split_and!; [done|apply run_quiet|done].
  - destruct (bd_rd_ok _ _ _ _ _ _ (k + j) HD') as (y & E' & _ & Hy & HD''). rewrite (io_bind_ok _ _ _ _ _ E').
    assert (Ey : bd_next y = hdkif_swizzle_data (slot (k + (j + 1)))).
    { rewrite Z.add_assoc, <- Hnx by lia. by rewrite <- Hy. }
    rewrite Ey, swz_slot. destruct (IH (run_dma (run_dma s)) (j + 1) HD'' Hf ltac:(lia) ltac:(lia)) as (s' & E2 & Q & H).
    exists s'. split_and!; try done. etransitivity; [apply run_quiet|]. etransitivity; [apply run_quiet|done].
Qed.

Lemma reg_ok s V tail exc c m r v : tx_dev s V tail exc c m -> r <> TXHDP0 ->
  exists s', hwreg_wr r v s = Ok (tt, s') /\ quiet s s' /\ tx_dev s' V tail exc c m.
Proof using Type.
  intros [H1 H2 H3 H4 H5] Hr. eexists. split; [done|].
  assert (Et : todo (dma_write r (u32 v) (dma (dev s))) = todo (dma (dev s))) by by apply write_other.
  split; [split; [by split_and!; try apply others_same|by right]|]. by split; cbn [dev with_dev dma bds]; rewrite ?Et.
Qed.

(** The next packet's first descriptor is the one behind [e]. *)
Lemma advance_ok s V tail exc c m e {B} (K : unit -> io state B) :
  tx_dev s V tail exc c m ->
  (if decide (slot e = tail) then v_next (V (slot e)) = 0 /\ tx_free_head (tx (ctl s)) = slot (e + 1)
   else v_next (V (slot e)) = hdkif_swizzle_data (slot (e + 1))) ->
  exists s', (x ← bd_rd (slot e);
    _ ← (if bd_next x =? 0 then s ← io_get; tx_upd (set_next_bd (tx_free_head (tx (ctl s))))
         else y ← bd_rd (slot e); tx_upd (set_next_bd (hdkif_swizzle_txp (bd_next y))));
    K tt) s = K tt s' /\ quiet s (with_ctl (fun _ => ctl s) s') /\ tx_dev s' V tail exc c m /\
    ctl s' = set_tx (set_next_bd (slot (e + 1)) (tx (ctl s))) (ctl s).
Proof using Type.
  intros HD Hn. destruct (bd_rd_ok _ _ _ _ _ _ e HD) as (x & E & _ & Hx & HD'). rewrite (io_bind_ok _ _ _ _ _ E).
  destruct (run_quiet s) as [(G1 & G2 & G3 & G4 & G5) G6].
  assert (Ex : bd_next x = v_next (V (slot e))) by by rewrite <- Hx.
  destruct (decide (slot e = tail)) as [Et|Et].
  - destruct Hn as [Hn Hfh]. rewrite Ex, Hn, Z.eqb_refl. eexists. split; [done|].
    split; [|split; [by eapply tx_dev_dev; [|exact HD']|]]; cbn [ctl with_ctl]; [|by rewrite G1, Hfh].
    by split.
  - rewrite Ex, Hn, (proj2 (Z.eqb_neq _ _)) by apply swz_slot_0.
    destruct (bd_rd_ok _ _ _ _ _ _ e HD') as (y & E' & _ & Hy & HD'').
    assert (Ey : bd_next y = hdkif_swizzle_data (slot (e + 1))) by by rewrite <- Hn, <- Hy.
    eexists. split; [by rewrite (io_bind_ok _ _ _ _ _ (eq_trans (io_bind_ok _ _ _ _ _ E') (eq_refl _)))|].
    rewrite Ey, swz_slot. pose proof (quiet_trans _ _ _ (run_quiet s) (run_quiet (run_dma s))) as [(F1 & F2 & F3 & F4 & F5) F6].
    split; [by split|]. split; [by eapply tx_dev_dev; [|exact HD'']|]. cbn [ctl with_ctl]. by rewrite F1.
Qed.

(** Once the first packet's OWNER bit is clear, the engine is done with it. *)
Lemma first_apart s k mm p pend V tail c m s' b :
  tx_inv s k ((mm, p) :: pend) V tail c m -> quiet s s' -> tx_dev s' V tail 0 c m ->
  bds (dev s') !! slot k = Some b -> fbit b OWNER_BIT = false ->
  forall j, k <= j < k + mm -> apart s' V tail c m j.
Proof using Type.
  intros HI Q HD Hb Ho j Hj. destruct (i_last _ _ _ _ _ _ _ HI ltac:(done)) as (Hf & pend' & q & E & ->).
  destruct (todo (dma (dev s'))) as [a|] eqn:Ea; [|by left].
  destruct (d_todo _ _ _ _ _ _ HD a Ea) as (-> & _).
  pose proof (r_size _ _ _ _ (i_ring _ _ _ _ _ _ _ HI)) as Hsz. pose proof (i_pkts _ _ _ _ _ _ _ HI) as HK.
  destruct pend' as [|[m' p'] pend'].
  - injection E as -> -> ->. cbn [total foldr] in *. rewrite Z.add_0_r in *.
    assert (Hn : fbit b OWNER_BIT = true) by (apply (d_owner _ _ _ _ _ _ HD k b Hb); by right). congruence.
  - injection E as <- <- ->. right. split; [done|]. destruct HK as [_ [Hk%pkts_total _]%pkts_app].
    cbn [total foldr fst] in *. fold (total pend') in *. fold (total (pend' ++ [(m, q)])) in *.
    rewrite in_flight_app in Hsz. cbn [total foldr fst] in Hsz. pose proof Hf as [[Hm _] _].
    intros j' Hj'. apply slot_ne; lia.
Qed.

Lemma tx_inv_next s k mm p pend V tail c m s' :
  tx_inv s k ((mm, p) :: pend) V tail c m ->
  tx_dev s' (cleared V k (k + mm - 1)) tail 0 c m ->
  (forall j, k <= j < k + mm -> apart s' V tail c m j) ->
  ctl s' = set_tx (set_next_bd (slot (k + mm)) (tx (ctl s))) (ctl s) ->
  tx_inv s' (k + mm) pend (cleared V k (k + mm - 1)) tail c m.
Proof using Type.
  intros HI HD Ha HC. destruct (cleared_ok V k mm p pend tail (i_ring _ _ _ _ _ _ _ HI) (i_pkts _ _ _ _ _ _ _ HI))
    as (HR & HK & Hag).
  pose proof (i_ctl _ _ _ _ _ _ _ HI) as Hc. cbn [total foldr fst] in Hc. fold (total pend) in Hc.
  destruct (i_last _ _ _ _ _ _ _ HI ltac:(done)) as (Hf & pend' & q & E & Ec).
  pose proof (i_pkts _ _ _ _ _ _ _ HI) as [[[Hmm _] _] _].
  split; try done.
  - rewrite HC. cbn [tx set_tx]. rewrite Hc. unfold set_next_bd. cbn. f_equal. f_equal. lia.
  - rewrite HC. apply (i_base _ _ _ _ _ _ _ HI).
  - intros ->. destruct pend' as [|[m' p'] [|? ?]]; [|done|done]. injection E as -> ->.
    cbn [total foldr] in Ec. rewrite Z.add_0_r in Ec. subst c.
    destruct (Ha k ltac:(lia)) as [?|[_ Hd]]; [done|]. exfalso. apply (Hd k); [lia|done].
  - intros Hne. destruct pend' as [|[m' p'] pend']; [by injection E|]. injection E as <- <- ->.
    cbn [total foldr fst] in Ec. fold (total pend') in Ec. split; [|exists pend', q; split; [done|lia]].
    eapply last_frame_agree; [done|]. intros j Hj. apply Hag.
    pose proof (i_pkts _ _ _ _ _ _ _ HI) as [_ [Hk%pkts_total _]%pkts_app].
    rewrite in_flight_app. cbn [total foldr fst]. lia.
Qed.

Variable fuel : nat.
Hypothesis Hfuel : (dma_bound <= fuel)%nat.

Lemma spin_owner s k V tail c m : tx_dev s V tail 0 c m ->
  exists s' b, spin fuel (bd_rd (slot k)) (fun x => flag (flags_pktlen x) EMAC_BUF_DESC_OWNER =? EMAC_BUF_DESC_OWNER) s
      = Ok (tt, s') /\ quiet s s' /\ tx_dev s' V tail 0 c m /\
    bds (dev s') !! slot k = Some b /\ fbit b OWNER_BIT = false.
Proof using Hfuel.
  intros HD. change EMAC_BUF_DESC_OWNER with (2 ^ OWNER_BIT).
  destruct (spin_ok (bd_rd (slot k)) (fun x => flag (flags_pktlen x) (2 ^ OWNER_BIT) =? 2 ^ OWNER_BIT)
    (fun s => tx_dev s V tail 0 c m) fuel s) as (s' & s0 & x & E & Q & HD' & Ex & Es & Hc).
  - intros s0 HD0. destruct (bd_rd_ok _ _ _ _ _ _ k HD0) as (b & E & Hb & _ & HD'). exists b.
    split_and!; [done|done|]. rewrite (proj1 (flag_bit _ OWNER_BIT ltac:(done))). intros Ho.
    apply (d_owner _ _ _ _ _ _ HD' k b Hb) in Ho as [H0|?]; [|congruence]. by destruct (slot_range k).
  - done.
  - pose proof (dma_left_le (dev s)). lia.
  - exists s', x. split_and!; try done.
    + unfold bd_rd in Ex. destruct (bds (dev (run_dma s0)) !! slot k) eqn:Eb; [|done]. injection Ex as -> <-. done.
    + by rewrite (proj1 (flag_bit _ OWNER_BIT ltac:(done))) in Hc.
Qed.

(** The first packet is waited for and loses its marks. *)
Lemma tx_clear_ok s k mm p pend V tail c m {B} (K : Z -> io state B) :
  tx_inv s k ((mm, p) :: pend) V tail c m ->
  let e := k + mm - 1 in
  exists s', (_ ← spin fuel (bd_rd (slot k)) (fun x => flag (flags_pktlen x) EMAC_BUF_DESC_OWNER =? EMAC_BUF_DESC_OWNER);
      last ← find_eop num_bds (slot k);
      _ ← bd_clear (slot k) EMAC_BUF_DESC_SOP;
      _ ← bd_clear last EMAC_BUF_DESC_EOP;
      K last) s = K (slot e) s' /\
    quiet s s' /\ tx_dev s' (cleared V k e) tail 0 c m /\
    (forall j, k <= j < k + mm -> apart s' V tail c m j).
Proof using Hfuel.
  intros HI e. pose proof HI as [HD HR [HP1 HK] _ _ _ _]. pose proof HP1 as (Hf & _). pose proof Hf as [Hm _].
  pose proof (r_size _ _ _ _ HR) as Hsz. cbn [total foldr fst] in Hsz. fold (total pend) in Hsz.
  pose proof (pkts_total _ _ _ HK) as Htp.
  destruct (spin_owner s k V tail c m HD) as (s2 & b & E2 & Q2 & HD2 & Hb & Ho).
  rewrite (io_bind_ok _ _ _ _ _ E2).
  pose proof (first_apart s k mm p pend V tail c m s2 b HI Q2 HD2 Hb Ho) as Ha2.
  destruct (find_eop_ok num_bds s2 V tail 0 c m k mm 0 HD2 Hf ltac:(lia)) as (s3 & E3 & Q3 & HD3);
    [change (Z.of_nat num_bds) with 409; lia|].
  rewrite Z.add_0_r in E3. rewrite (io_bind_ok _ _ _ _ _ E3). fold e.
  assert (Ha3 : forall j, k <= j < k + mm -> apart s3 V tail c m j)
    by (intros j Hj; eapply apart_quiet; [exact Q3|by apply Ha2]).
  destruct (clear_ok s3 V tail 0 c m k SOP_BIT (fun _ => _ ← bd_clear (slot e) EMAC_BUF_DESC_EOP; K (slot e)) HD3
    (Ha3 k ltac:(lia)) ltac:(by left)) as (s4 & E4 & Q4 & HD4).
  change (2 ^ SOP_BIT) with EMAC_BUF_DESC_SOP in *. rewrite E4.
  assert (Ha4 : forall j, k <= j < k + mm -> apart s4 V tail c m j)
    by (intros j Hj; eapply apart_quiet; [exact Q4|by apply Ha3]).
  destruct (clear_ok s4 _ tail 0 c m e EOP_BIT (fun _ => K (slot e)) HD4
    (apart_insert _ _ _ _ _ _ _ _ (Ha4 k ltac:(lia)) (Ha4 e ltac:(lia))) ltac:(by right)) as (s5 & E5 & Q5 & HD5).
  change (2 ^ EOP_BIT) with EMAC_BUF_DESC_EOP in *. rewrite E5.
  exists s5. split; [done|]. split; [|split].
  - etransitivity; [exact Q2|]. etransitivity; [exact Q3|]. by etransitivity.
  - exact HD5.
  - intros j Hj. eapply apart_quiet; [exact Q5|by apply Ha4].
Qed.

(** Then its pbuf is freed. *)
Lemma tx_done_ok s V tail exc c m e x h h1 :
  tx_dev s V tail exc c m -> emac_base (ctl s) = EMAC_0_BASE ->
  (if decide (slot e = tail) then v_next (V (slot e)) = 0 /\ tx_free_head (tx (ctl s)) = slot (e + 1)
   else v_next (V (slot e)) = hdkif_swizzle_data (slot (e + 1))) ->
  same_heap h (heap s) -> pbuf_free (v_pbuf (V (slot e))) h = Ok (x, h1) ->
  exists s', tx_done (slot e) s = Ok (tt, s') /\ tx_dev s' V tail exc c m /\ same_heap h1 (heap s') /\
    ctl s' = set_tx (set_next_bd (slot (e + 1)) (tx (ctl s))) (ctl s) /\
    nif s' = nif s /\ cpsr s' = cpsr s /\ irqs s' = irqs s /\
    (todo (dma (dev s')) = None \/ todo (dma (dev s')) = todo (dma (dev s))).
Proof using Type.
  intros HD HB Hn Hh Hfree. unfold tx_done.
  match goal with |- context [_ ← bd_rd (slot e); _ ← _; ?K] =>
    destruct (advance_ok s V tail exc c m e (fun _ => K) HD Hn) as (s1 & -> & Q1 & HD1 & HC1) end.
  erewrite io_bind_ok by done. rewrite HC1. cbn [emac_base set_tx]. rewrite HB.
  destruct (reg_ok s1 V tail exc c m (EMAC_0_BASE + EMAC_TXCP 0) (slot e) HD1 ltac:(done)) as (s2 & E2 & Q2 & HD2).
  unfold EMACTxCPWrite. rewrite (io_bind_ok _ _ _ _ _ E2).
  destruct (bd_rd_ok _ _ _ _ _ _ e HD2) as (z & E3 & _ & Hz & HD3). rewrite (io_bind_ok _ _ _ _ _ E3).
  assert (Ez : bd_pbuf z = v_pbuf (V (slot e))) by by rewrite <- Hz. rewrite Ez.
  destruct Q1 as [(_ & A1 & A2 & A3 & A4) A5]. cbn [nif cpsr irqs heap with_ctl dev] in *.
  pose proof (quiet_trans _ _ _ Q2 (run_quiet s2)) as [(B0 & B1 & B2 & B3 & B4) B5].
  assert (Hh3 : same_heap h (heap (run_dma s2))).
  { destruct Hh as (? & ? & ? & ?), A4 as [(? & ? & ? & ?) _], B4 as [(? & ? & ? & ?) _]. split_and!; congruence. }
  destruct (respects_free _ h (heap (run_dma s2)) x h1 Hh3 Hfree) as (h1' & Ef & Hh1).
  rewrite (io_bind_ok _ _ _ _ _ (on_heap_ok _ (run_dma s2) _ _ Ef)). eexists. split; [done|].
  split; [by eapply tx_dev_dev; [|exact HD3]|]. cbn [heap ctl nif cpsr irqs dev].
  split; [done|]. rewrite B0, B1, B2, B3. split_and!; try done.
  destruct B5 as [?| ->]; [by left|done].
Qed.

(** One packet. *)
Lemma tx_packet_ok n s k mm p pend V tail c m x h h1 :
  tx_inv s k ((mm, p) :: pend) V tail c m -> same_heap h (heap s) -> pbuf_free p h = Ok (x, h1) ->
  exists s', tx_int_loop fuel (S n) (slot k) s = tx_int_loop fuel n (slot (k + mm)) s' /\
    tx_inv s' (k + mm) pend (cleared V k (k + mm - 1)) tail c m /\ same_heap h1 (heap s') /\
    nif s' = nif s /\ cpsr s' = cpsr s /\ irqs s' = irqs s /\ rx (ctl s') = rx (ctl s).
Proof using Hfuel.
  intros HI Hh Hfree. pose proof HI as [HD HR [HP1 HK] HC HB _ _]. pose proof HP1 as (Hf & Hs & Hpb).
  pose proof Hf as [Hm _]. cbn [total foldr fst] in HR, HC. fold (total pend) in HR, HC.
  pose proof (pkts_total _ _ _ HK) as Htp. set (e := k + mm - 1) in *. cbn [tx_int_loop].
  destruct (bd_rd_ok _ _ _ _ _ _ k HD) as (b & E & _ & Hb & HD1). rewrite (io_bind_ok _ _ _ _ _ E).
  assert (Hsop : (flag (flags_pktlen b) EMAC_BUF_DESC_SOP =? 0) = false).
  { change EMAC_BUF_DESC_SOP with (2 ^ SOP_BIT). rewrite (proj2 (proj2 (flag_bit _ SOP_BIT ltac:(done)))).
    fold (fbit b SOP_BIT). rewrite <- vbit_view, Hb by done. specialize (Hs 0 ltac:(lia)). rewrite Z.add_0_r in Hs.
    by rewrite Hs. }
  rewrite Hsop. cbv zeta.
  destruct (run_quiet s) as [(R1 & R2 & R3 & R4 & R5) R6].
  assert (HI1 : tx_inv (run_dma s) k ((mm, p) :: pend) V tail c m).
  { destruct HI as [? ? ? ? ? ? ?]. split; rewrite ?R1; try done. }
  destruct (tx_clear_ok (run_dma s) k mm p pend V tail c m (fun last => _ ← tx_done last; s ← io_get;
    tx_int_loop fuel n (next_bd_to_process (tx (ctl s)))) HI1) as (s2 & -> & Q2 & HD2 & Ha2). fold e in HD2 |- *.
  assert (Q02 : quiet s s2) by (etransitivity; [apply run_quiet|exact Q2]).
  destruct Q02 as [(G1 & G2 & G3 & G4 & G5) G6].
  assert (Hh2 : same_heap h (heap s2)).
  { destruct Hh as (? & ? & ? & ?), G5 as [(? & ? & ? & ?) _]. split_and!; congruence. }
  destruct (tx_done_ok s2 (cleared V k e) tail 0 c m e x h h1 HD2) as (s3 & E3 & HD3 & Hh3 & HC3 & F1 & F2 & F3 & F4);
    [by rewrite G1| |done| |].
  { rewrite (proj1 (cleared_rest V k e (slot e))), G1, HC. cbn [tx_free_head].
    destruct (decide (slot e = tail)) as [Et|Et]; [|by apply (r_link _ _ _ _ HR)].
    assert (H0 : tail <> 0) by (rewrite <- Et; apply slot_range).
    destruct (r_tail _ _ _ _ HR H0) as [Et' Hn0]. rewrite Et. split; [done|].
    rewrite Et' in Et. apply slot_succ in Et. rewrite Et. f_equal. lia. }
  { rewrite (proj1 (proj2 (cleared_rest V k e (slot e)))). by rewrite Hpb. }
  rewrite (io_bind_ok _ _ _ _ _ E3). erewrite io_bind_ok by done. rewrite HC3. cbn [tx set_tx next_bd_to_process set_next_bd].
  exists s3. replace (e + 1) with (k + mm) in * by (unfold e; lia). split; [done|]. rewrite F1, F2, F3, HC3, G2, G3, G4.
  split; [|split_and!; try done; cbn [rx set_tx]; by rewrite G1].
  eapply tx_inv_next; [exact HI|exact HD3| |by rewrite HC3, G1].
  intros j Hj. specialize (Ha2 j Hj). unfold apart in *. destruct F4 as [?|F4]; [by left|by rewrite F4].
Qed.

Lemma tx_int_loop_ok n s k pend V tail c m h h' :
  tx_inv s k pend V tail c m -> same_heap h (heap s) -> free_all (snd <$> pend) h = Ok (tt, h') ->
  (length pend <= n)%nat ->
  exists s', tx_int_loop fuel n (slot k) s = Ok (tt, s') /\ tx_ok s' (k + total pend) [] /\
    same_heap h' (heap s') /\ nif s' = nif s /\ cpsr s' = cpsr s /\ irqs s' = irqs s /\ rx (ctl s') = rx (ctl s).
Proof using Hfuel.
  revert s k pend V h. induction n as [|n IH]; intros s k pend V h HI Hh Hfree Hn;
    (destruct pend as [|[mm p] pend]; cbn [length] in Hn; [clear Hn|]).
  1,3: cbn in Hfree; injection Hfree as <-; pose proof HI as [HD HR _ _ _ _ _];
    destruct (bd_rd_ok _ _ _ _ _ _ k HD) as (b & E & _ & Hb & HD1); cbn [tx_int_loop];
    rewrite (io_bind_ok _ _ _ _ _ E); change EMAC_BUF_DESC_SOP with (2 ^ SOP_BIT);
    rewrite (proj2 (proj2 (flag_bit _ SOP_BIT ltac:(done)))); fold (fbit b SOP_BIT);
    rewrite <- vbit_view, Hb by done; cbn [total foldr] in HR; rewrite (proj1 (r_free _ _ _ _ HR k ltac:(lia)));
    cbn [negb]; exists (run_dma s); destruct (run_quiet s) as [(R1 & R2 & R3 & R4 & R5) R6];
    rewrite R1; (split_and!; [done| | |done..]);
    [exists V, tail, c, m; cbn [total foldr]; rewrite Z.add_0_r; destruct HI as [? ? ? ? ? Hi ?];
     split; rewrite ?R1; try done; intros _; destruct R6 as [?| ->]; [done|by apply Hi]|];
    destruct Hh as (? & ? & ? & ?), R5 as [(? & ? & ? & ?) _]; split_and!; congruence.
  - lia.
  - cbn [fmap list_fmap free_all snd] in Hfree. destruct (pbuf_free p h) as [[x h1]|] eqn:Ef;
      [|by unfold mbind, io_bind in Hfree; rewrite Ef in Hfree].
    rewrite (io_bind_ok _ _ _ _ _ Ef) in Hfree.
    destruct (tx_packet_ok n s k mm p pend V tail c m x h h1 HI Hh Ef) as (s1 & -> & HI1 & Hh1 & E1 & E2 & E3 & E4).
    destruct (IH s1 (k + mm) pend _ h1 HI1 Hh1 Hfree ltac:(lia)) as (s2 & E & Hok & Hh2 & F1 & F2 & F3 & F4).
    exists s2. cbn [total foldr fst]. fold (total pend). rewrite Z.add_assoc. rewrite F1, F2, F3, F4.
    split_and!; try done.
Qed.
End Isr.

(** What [hdkif_output] makes of the first pbuf: padded, and held once more. *)
Definition outgoing (b : pbuf) : pbuf :=
  set_ref (ref b + 1) (if tot_len b <? MIN_PKT_LEN then set_len MIN_PKT_LEN (set_tot_len MIN_PKT_LEN b) else b).

(** The descriptors from slot [i] on describe the pbufs of [l]. *)
Definition describes {D} (h : hw D) (i : Z) (l : list (Z * pbuf)) : Prop :=
  forall j q b, l !! j = Some (q, b) -> exists x, bds h !! slot (i + Z.of_nat j) = Some x /\
    bufptr x = hdkif_swizzle_data (payload b) /\ bufoff_len x = hdkif_swizzle_data (Z.land (len b) 0xFFFF).

Section Output.
Context {D PP RP HP X : Type} {DM : Dma D} {OP : PoolOps PP} {OR : PoolOps RP} {OH : HeapOps HP}.
Context {DL : DmaLaws D}.
Implicit Types (s : eth D PP RP HP X).

Lemma built_describes s V i l p tot tail exc c m : l <> [] -> zlen l <= 203 -> is_u16 tot ->
  tx_dev s (built V i l p tot tail) (slot (i + zlen l - 1)) exc c m ->
  describes (dev s) i l /\
  exists x, bds (dev s) !! slot i = Some x /\ flag (flags_pktlen x) 0xFFFF = tot.
Proof using Type.
  intros Hl Hz Ht HD. split.
  - intros j q b Hj. destruct (bd_at _ _ _ _ _ _ (i + Z.of_nat j) HD) as (x & Hx & Hv). exists x.
    destruct (built_rest V i l p tot tail (slot (i + Z.of_nat j))) as (_ & _ & E1 & E2).
    destruct (closed_data V i l p tot j q b Hz Hj) as (_ & E3 & E4).
    rewrite <- Hv in E1, E2. split_and!; [done|by rewrite <- E3, <- E1|by rewrite <- E4, <- E2].
  - destruct (bd_at _ _ _ _ _ _ i HD) as (x & Hx & Hv). exists x. split; [done|].
    destruct (built_rest V i l p tot tail (slot i)) as (E1 & _). rewrite <- Hv, closed_flags in E1.
    destruct (head_flags_spec tot Ht) as (_ & _ & _ & _ & Hlow).
    unfold flag. destruct (low_flags (hdkif_swizzle_data (flags_pktlen x))) as [<- _]. cbn [bd_view v_flags] in E1.
    rewrite E1. cbv zeta. rewrite (decide_True (P := slot i = slot i)) by done.
    destruct (decide _); [rewrite (proj2 (low_flags _))|]; by rewrite (proj1 (low_flags _)).
Qed.
(** The padded length is that of the frame, the link stays. *)
Lemma outgoing_fields b : is_u16 (tot_len b) ->
  tot_len (outgoing b) = Z.max MIN_PKT_LEN (tot_len b) /\ next (outgoing b) = next b.
Proof using Type.
  intros Ht. unfold outgoing, MIN_PKT_LEN. destruct (Z.ltb_spec (tot_len b) 60); cbn; split; try done; [|lia].
  rewrite u16_small by (by vm_compute). lia.
Qed.

(** [hdkif_output] up to the descriptors: interrupts are off, the packet is
    padded and held. *)
Lemma output_prepared fuel (s : eth D PP RP HP X) p b : p <> 0 -> pbufs (heap s) !! p = Some b -> 0 <= ref b < 255 ->
  exists lev cp, sys_arch_unprotect lev cp = cpsr s /\
    hdkif_output fuel p s = (_ ← hdkif_transmit fuel p; _ ← io_modify (with_cpsr (sys_arch_unprotect lev)); mret ERR_OK)
      (mk_eth (dev s) (ctl s) (nif s) cp (irqs s) (with_pbufs <[p := outgoing b]> (heap s)) (rest s)).
Proof using Type.
  intros Hp0 Hb Hr. unfold hdkif_output. erewrite io_bind_ok by done. pose proof (unprotect_protect (cpsr s)) as Hu.
  destruct (sys_arch_protect (cpsr s)) as [lev cp]. exists lev, cp. split; [exact Hu|].
  erewrite io_bind_ok by done. set (s1 := with_cpsr (fun _ => cp) s).
  rewrite (io_bind_ok _ _ _ _ _ (on_heap_read p s1 b Hb)).
  set (b1 := if tot_len b <? MIN_PKT_LEN then set_len MIN_PKT_LEN (set_tot_len MIN_PKT_LEN b) else b).
  set (s2 := mk_eth (dev s) (ctl s) (nif s) cp (irqs s) (with_pbufs <[p := b1]> (heap s)) (rest s)).
  assert (E2 : io_when (tot_len b <? MIN_PKT_LEN)
    (on_heap (pb_update p (fun b => set_len MIN_PKT_LEN (set_tot_len MIN_PKT_LEN b)))) s1 = Ok (tt, s2)).
  { unfold s2, b1. destruct (tot_len b <? MIN_PKT_LEN); cbn [io_when].
    - by rewrite (on_heap_ok _ s1 _ _ (pb_update_ok (heap s1) p _ b Hb)).
    - unfold s1, with_cpsr, with_pbufs. rewrite insert_id by done. by destruct (heap s). }
  assert (Er : ref b1 = ref b) by (unfold b1; by destruct (tot_len b <? MIN_PKT_LEN)).
  rewrite (io_bind_ok _ _ _ _ _ E2). clear E2.
  assert (E3 : on_heap (pbuf_ref p) s2 =
    Ok (tt, mk_eth (dev s) (ctl s) (nif s) cp (irqs s) (with_pbufs <[p := outgoing b]> (heap s)) (rest s))).
  { rewrite (on_heap_ok _ _ tt (with_pbufs <[p := outgoing b]> (heap s))); [done|].
    unfold pbuf_ref. rewrite (proj2 (Z.eqb_neq p 0)) by done.
    rewrite (io_bind_ok _ _ _ _ _ (pb_read_ok _ p b1 (lookup_insert_eq _ _ _))).
    erewrite io_bind_ok by done. rewrite Er. unfold outgoing. fold b1. cbn [heap s2].
    unfold io_assert, io_modify, with_pbufs. cbn [pbufs ref set_ref pool_st rom_st heap_st bytes].
    rewrite u8_small by (unfold is_u8; lia). rewrite (proj2 (Z.ltb_lt _ _)) by lia.
    cbn. by rewrite insert_insert_eq. }
  by rewrite (io_bind_ok _ _ _ _ _ E3).
Qed.
End Output.

(* ------------------------------------------------------------------ *)
(** * Set-up of the ring *)

Section RingInit.
Context {D PP RP HP X : Type} {DM : Dma D} {OP : PoolOps PP} {OR : PoolOps RP} {OH : HeapOps HP}.
Context {DL : DmaLaws D}.
Abbreviation state := (eth D PP RP HP X).
Implicit Types (s : state).

(** A descriptor the loop has been over. *)
Definition initialised (j : Z) (b : bdp) : Prop :=
  bd_next b = hdkif_swizzle_data (EMAC_CTRL_RAM_0_BASE + SIZEOF_BDP * (j + 1)) /\
  fbit b SOP_BIT = false /\ fbit b EOP_BIT = false /\ fbit b OWNER_BIT = false.

Definition ring_upto s (i : Z) : Prop :=
  todo (dma (dev s)) = None /\
  forall j, 0 <= j < 204 -> exists b, bds (dev s) !! slot j = Some b /\ (j < i -> initialised j b).

Lemma ring_upto_run s i : ring_upto s i -> ring_upto (run_dma s) i.
Proof using Type.
  intros [Hn Hb]. split; [by destruct (run_quiet s) as [_ [?| ->]]|]. intros j Hj. rewrite run_dev.
  destruct (Hb j Hj) as (b & Eb & Hi). pose proof (run_view (dev s) (bytes (heap s)) j) as Hv. rewrite Eb in Hv.
  destruct (bds (dma_run (dev s, bytes (heap s))).1 !! slot j) as [b'|] eqn:Eb'; [|done].
  change (Some (bd_view b') = Some (bd_view b)) in Hv. injection Hv as E1 _ _ E2 _.
  exists b'. split; [done|]. intros Hlt. destruct (Hi Hlt) as (H1 & H2 & H3 & H4).
  assert (Hv : forall k, 0 <= k -> k <> 28 -> k <> 29 -> fbit b' k = fbit b k).
  { intros k Hk H28 H29. rewrite <- !vbit_view by done. unfold vbit, bd_view. cbn [v_flags]. by rewrite E2. }
  split_and!; [by rewrite E1|by rewrite Hv|by rewrite Hv|].
  rewrite (run_owner _ _ _ _ _ Eb Eb'), H4. done.
Qed.

(** A write to a descriptor, as far as [ring_upto] goes. *)
Lemma ring_upto_wr s i j f b : ring_upto s i -> 0 <= j < 204 -> bds (dev s) !! slot j = Some b ->
  exists s', bd_wr (slot j) f s = Ok (tt, s') /\ quiet s s' /\ bds (dev s') !! slot j = Some (f b) /\
    ((j < i -> initialised j (f b)) -> ring_upto s' i) /\
    (i = j -> initialised j (f b) -> ring_upto s' (i + 1)).
Proof using Type.
  intros [Hn Hb] Hj Eb. exists (written j (f b) s). unfold bd_wr. rewrite Eb.
  split; [done|]. split; [apply written_quiet|]. split; [apply lookup_insert_eq|].
  assert (Hlook : forall x, 0 <= x < 204 -> x <> j -> bds (dev (written j (f b) s)) !! slot x = bds (dev s) !! slot x).
  { intros x Hx Hne. apply lookup_insert_ne. apply slot_ne; lia. }
  split.
  - intros Hi. split; [done|]. intros x Hx. destruct (decide (x = j)) as [->|Hne].
    + exists (f b). split; [apply lookup_insert_eq|done].
    + rewrite Hlook by done. by apply Hb.
  - intros -> Hi. split; [done|]. intros x Hx. destruct (decide (x = j)) as [->|Hne].
    + exists (f b). split; [apply lookup_insert_eq|done].
    + rewrite Hlook by done. destruct (Hb x Hx) as (d & ? & Hd). exists d. split; [done|]. intros. apply Hd. lia.
Qed.

Lemma base_range j : 0 <= j <= 204 -> is_u32 (EMAC_CTRL_RAM_0_BASE + SIZEOF_BDP * j).
Proof using Type. unfold is_u32, EMAC_CTRL_RAM_0_BASE, SIZEOF_BDP. lia. Qed.

Lemma slot_base j : 0 <= j < 204 -> slot j = EMAC_CTRL_RAM_0_BASE + SIZEOF_BDP * j.
Proof using Type. intros Hj. unfold slot, NUM_TX. by rewrite Z.mod_small. Qed.

Lemma tx_ring_loop_ok n s i last : ring_upto s i -> 0 <= i -> i + Z.of_nat n = 204 ->
  exists s', tx_ring_loop n (EMAC_CTRL_RAM_0_BASE + SIZEOF_BDP * i) last s =
      Ok ((EMAC_CTRL_RAM_0_BASE + SIZEOF_BDP * 204, if decide (n = 0%nat) then last else slot 203), s') /\
    quiet s s' /\ ring_upto s' 204.
Proof using Type.
  revert s i last. induction n as [|n IH]; intros s i last HR Hi Hn; cbn [tx_ring_loop].
  { exists s. replace i with 204 in * by lia. done. }
  rewrite <- slot_base by lia. pose proof HR as [_ Hb]. destruct (Hb i ltac:(lia)) as (b & Eb & _).
  assert (Eu : u32 (slot i + SIZEOF_BDP) = EMAC_CTRL_RAM_0_BASE + SIZEOF_BDP * (i + 1)).
  { rewrite slot_base by lia. rewrite <- (u32_small (_ + _ * (i + 1))) by (apply base_range; lia). f_equal. lia. }
  rewrite Eu. set (v := hdkif_swizzle_txp _).
  destruct (ring_upto_wr s i i (set_bd_next v) b HR ltac:(lia) Eb) as (s1 & E1 & Q1 & Eb1 & HR1 & _).
  rewrite (io_bind_ok _ _ _ _ _ E1).
  destruct (ring_upto_wr s1 i i (set_flags 0) _ (HR1 ltac:(lia)) ltac:(lia) Eb1) as (s2 & E2 & Q2 & Eb2 & _ & HR2).
  rewrite (io_bind_ok _ _ _ _ _ E2).
  pose proof (ring_upto_run _ _ (HR2 eq_refl ltac:(by split_and!))) as HR3.
  pose proof HR3 as [_ Hb3]. destruct (Hb3 i ltac:(lia)) as (b3 & Eb3 & Hi3). destruct (Hi3 ltac:(lia)) as (En & _).
  assert (E3 : bd_rd (slot i) s2 = Ok (b3, run_dma s2)) by (unfold bd_rd; by rewrite Eb3).
  rewrite (io_bind_ok _ _ _ _ _ E3), En. unfold hdkif_swizzle_txp. rewrite swz_swz by (apply base_range; lia).
  destruct (IH (run_dma s2) (i + 1) (slot i) HR3 ltac:(lia) ltac:(lia)) as (s' & E & Q & HR').
  exists s'. rewrite E. split_and!; [|by etransitivity; [exact Q1|]; etransitivity; [exact Q2|]; etransitivity; [apply run_quiet|]|done].
  do 3 f_equal. rewrite (decide_False (P := S n = 0%nat)) by done. destruct (decide (n = 0%nat)) as [->|]; [|done].
  f_equal. lia.
Qed.

(** The view of a state's descriptors. *)
Definition view_of (h : hw D) (a : Z) : bdv := default (mk_bdv 0 0 0 0 0) (bd_view <$> bds h !! a).

Lemma linked_tx_ok s :
  todo (dma (dev s)) = None -> tx (ctl s) = mk_txch (slot 0) 0 (slot 0) -> emac_base (ctl s) = EMAC_0_BASE ->
  (forall j, 0 <= j < 204 -> exists b, bds (dev s) !! slot j = Some b /\
    bd_next b = hdkif_swizzle_data (slot (j + 1)) /\
    fbit b SOP_BIT = false /\ fbit b EOP_BIT = false /\ fbit b OWNER_BIT = false) ->
  tx_ok s 0 [].
Proof using Type.
  intros Hn HC HB Hb. exists (view_of (dev s)), 0, 0, 0.
  assert (Hall : forall i, exists b, bds (dev s) !! slot i = Some b /\ view_of (dev s) (slot i) = bd_view b /\
    bd_next b = hdkif_swizzle_data (slot (i + 1)) /\
    fbit b SOP_BIT = false /\ fbit b EOP_BIT = false /\ fbit b OWNER_BIT = false).
  { intros i. destruct (slot_window i 0) as (j & Hj & E1 & E2). destruct (Hb j ltac:(lia)) as (d & Ed & Hd).
    exists d. unfold view_of. rewrite E1, E2, Ed. split; [done|]. by split. }
  split; try done; cbn [total foldr].
  - split; try done.
    + intros i. destruct (Hall i) as (d & Ed & -> & _). by rewrite Ed.
    + intros i d Ed. destruct (Hall i) as (d' & Ed' & _ & _ & _ & _ & Ho).
      rewrite Ed in Ed'. injection Ed' as <-. rewrite Ho, Hn. destruct (slot_range i). split; [done|]. by intros [?|?].
    + intros a Ha. congruence.
  - split; try done.
    + intros i _. by destruct (Hall i) as (d & _ & -> & Hd & _).
    + intros i _. destruct (Hall i) as (d & _ & -> & _ & Hs & He & _). by rewrite !vbit_view.
Qed.
End RingInit.

(* ------------------------------------------------------------------ *)
(** * An engine *)

(** One that is done with a packet at the second look: the first descriptor
    and whether it has been looked at. *)
Definition engine : Type := option (positive * bool).

Definition finish (a p : Z) (b : bdp) : option bdp :=
  let w := hdkif_swizzle_data (flags_pktlen b) in
  let w := if p =? a then Z.ldiff w EMAC_BUF_DESC_OWNER else w in
  let w := if bd_next b =? 0 then Z.lor w EMAC_BUF_DESC_EOQ else w in
  Some (set_flags (hdkif_swizzle_data w) b).

#[export] Instance engine_dma : Dma engine := {|
  dma_run '(h, bs) :=
    match dma h with
    | None => (mk_hw None (<[TXHDP0 := 0]> (regs h)) (bds h), bs)
    | Some (a, true) => (mk_hw (Some (a, false)) (<[TXHDP0 := Z.pos a]> (regs h)) (bds h), bs)
    | Some (a, false) => (mk_hw None (<[TXHDP0 := 0]> (regs h)) (map_imap (finish (Z.pos a)) (bds h)), bs)
    end;
  dma_write r v d :=
    if r =? TXHDP0 then match v with Z.pos a => Some (a, true) | _ => None end else d
|}.

Lemma finish_bits a p b b' : finish a p b = Some b' ->
  bd_view b' = bd_view b /\
  fbit b' OWNER_BIT = fbit b OWNER_BIT && negb (p =? a) /\
  fbit b' EOQ_BIT = fbit b EOQ_BIT || (bd_next b =? 0).
Proof.
  unfold finish. cbv zeta. set (x := hdkif_swizzle_data (flags_pktlen b)). set (y := if p =? a then _ else x).
  set (w := if bd_next b =? 0 then _ else y). intros [= <-].
  assert (Hx : forall k, 32 <= k -> Z.testbit x k = false).
  { intros k Hk. unfold x. rewrite swz_testbit, (proj2 (Z.ltb_ge k 32)) by lia. done. }
  assert (Hw : forall k, 0 <= k -> Z.testbit w k =
    Z.testbit x k && negb ((p =? a) && (k =? 29)) || (bd_next b =? 0) && (k =? 28)).
  { intros k Hk. assert (Hy : Z.testbit y k = Z.testbit x k && negb ((p =? a) && (k =? 29))).
    { unfold y. destruct (p =? a); cbn [andb]; [|by rewrite andb_true_r]. rewrite Z.ldiff_spec.
      change EMAC_BUF_DESC_OWNER with (2 ^ 29). rewrite Z.pow2_bits_eqb by done. by rewrite (Z.eqb_sym 29 k). }
    unfold w. destruct (bd_next b =? 0); cbn [andb]; [|by rewrite orb_false_r]. rewrite Z.lor_spec, Hy.
    change EMAC_BUF_DESC_EOQ with (2 ^ 28). rewrite Z.pow2_bits_eqb by done. by rewrite (Z.eqb_sym 28 k). }
  assert (Hu : is_u32 w).
  { assert (E : w = u32 w); [|rewrite E; apply u32_range]. apply Z.bits_inj'. intros k Hk. unfold u32.
    change 4294967296 with (2 ^ 32). destruct (Z.ltb_spec k 32); [by rewrite Z.mod_pow2_bits_low by lia|].
    rewrite Z.mod_pow2_bits_high, Hw, Hx by lia. rewrite (proj2 (Z.eqb_neq k 28)) by lia. by rewrite andb_false_r. }
  unfold fbit, bd_view. cbn [flags_pktlen set_flags bd_next bufptr bufoff_len bd_pbuf]. rewrite swz_swz by done.
  split_and!.
  - f_equal. apply Z.bits_inj'. intros k Hk. rewrite !Z.ldiff_spec, Hw, status_bit by done. fold x.
    destruct (k =? 29), (k =? 28); rewrite ?andb_false_r, ?orb_false_r, ?andb_true_r; done.
  - rewrite Hw by done. unfold OWNER_BIT. cbn. by rewrite andb_true_r, andb_false_r, orb_false_r.
  - rewrite Hw by done. unfold EOQ_BIT. cbn. by rewrite andb_false_r, !andb_true_r.
Qed.

#[export] Instance engine_laws : DmaLaws engine.
Proof.
  refine {| todo (d : engine) := Z.pos ∘ fst <$> d;
    dma_left h := match dma h with Some (_, true) => 1%nat | _ => 0%nat end;
    dma_bound := 1 |}.
  - intros h. destruct (dma h) as [[a []]|]; lia.
  - intros [[[a []]|] r m] bs; cbn; auto.
  - intros [[[a []]|] r m] bs; cbn; [lia|done..].
  - intros [[[a []]|] r m] bs i; cbn; [done| |done]. rewrite map_lookup_imap.
    destruct (m !! slot i) as [b|] eqn:Eb; [|done]. cbn. f_equal. by apply (finish_bits (Z.pos a) (slot i)).
  - intros [[[a []]|] r m] bs i b b' Hb; cbn [bds dma dma_run engine_dma fst fmap option_fmap option_map compose] in *; intros Hb'.
    + rewrite bool_decide_false by (by intros [_ ?]). rewrite andb_true_r. congruence.
    + rewrite map_lookup_imap, Hb in Hb'. cbn [mbind option_bind] in Hb'.
      destruct (finish_bits _ _ _ _ Hb') as (_ & -> & _). do 2 f_equal.
      destruct (Z.eqb_spec (slot i) (Z.pos a)) as [E|E]; [by rewrite bool_decide_true by (by rewrite E)|].
      rewrite bool_decide_false; [done|]. intros [[= ?] _]. congruence.
    + rewrite bool_decide_false by (by intros [? _]). rewrite andb_true_r. congruence.
  - intros [[[a []]|] r m] bs i b b' Hb; cbn [bds dma dma_run engine_dma fst] in *; intros Hb' Hq; [congruence| |congruence].
    rewrite map_lookup_imap, Hb in Hb'. cbn [mbind option_bind] in Hb'.
    destruct (finish_bits _ _ _ _ Hb') as (_ & _ & ->). by rewrite Hq.
  - intros [[[a []]|] r m] bs V c mm b' HV; cbn [bds dma dma_run engine_dma fst] in *; [done| |done]. intros _ Hf _ Hb'.
    rewrite map_lookup_imap in Hb'. specialize (HV (c + mm - 1)).
    destruct (m !! slot (c + mm - 1)) as [b|] eqn:Eb; [|done]. cbn [mbind option_bind] in Hb'. injection HV as HV.
    destruct (finish_bits _ _ _ _ Hb') as (_ & _ & ->). destruct Hf as (_ & _ & Hn).
    rewrite <- HV in Hn. cbn [v_next bd_view] in Hn. rewrite Hn. apply orb_true_r.
  - intros [[[a []]|] r m] bs; cbn; rewrite lookup_insert_eq; cbn; done.
  - intros a d Ha Hn. unfold dma_write, engine_dma. rewrite Z.eqb_refl. unfold is_u32 in Ha.
    destruct a; [done|done|lia].
  - intros r v d Hr. unfold dma_write, engine_dma. by rewrite (proj2 (Z.eqb_neq _ _)).
  - intros [[[a []]|] r m] bs; cbn [dma dma_run engine_dma fst snd bds]; try by apply received_same.
    split; [|by right]. intros i (x & b' & Hx & Hb' & Ho & Hi). cbn [bds] in *. rewrite map_lookup_imap in Hb'.
    destruct (m !! x) as [b|] eqn:Hb; [|done]. cbn [mbind option_bind] in Hb'.
    destruct (finish_bits _ _ _ _ Hb') as (Hv & Hw & _). rewrite Ho in Hw. symmetry in Hw. apply andb_true_iff in Hw as [Hw _].
    exists x, b. split_and!; try done. unfold in_buffer in *. injection Hv as _ <- <- _ _. done.
Defined.

(** The driver with its ring set up and the pbufs 1 2 | 3 4 5. *)
Definition ring_of (f : Z -> bdp) : gmap Z bdp := list_to_map ((fun j => (slot j, f j)) <$> seqZ 0 204).
Definition demo_ctl : hdkif :=
  mk_hdkif 0 EMAC_0_BASE EMAC_CTRL_0_BASE EMAC_CTRL_RAM_0_BASE (mk_txch (slot 0) 0 (slot 0)) (mk_rxch 0 0 0 0).
Definition demo_eth (f : Z -> bdp) : eth engine pool pool ram_heap unit :=
  mk_eth (mk_hw None ∅ (ring_of f)) demo_ctl (mk_netif 6 [] 0 0 (0, 0) 0) 0 (mk_vim [] []) (used 1) tt.
Definition linked_bd (j : Z) : bdp := mk_bdp (hdkif_swizzle_data (slot (j + 1))) 0 0 0 0.

Lemma ring_of_at f j : 0 <= j < 204 -> ring_of f !! slot j = Some (f j).
Proof.
  intros Hj. unfold ring_of. apply elem_of_list_to_map_1.
  - rewrite <- list_fmap_compose. apply (NoDup_fmap_2_strong _ _ ).
    + intros x y Hx%elem_of_seqZ Hy%elem_of_seqZ E. destruct (decide (x = y)); [done|].
      exfalso. revert E. apply slot_ne; lia.
    + apply NoDup_seqZ.
  - apply list_elem_of_fmap. exists j. split; [done|]. apply elem_of_seqZ. lia.
Qed.

Lemma demo_tx_ok : tx_ok (demo_eth linked_bd) 0 [].
Proof.
  apply linked_tx_ok; [done|done|done|]. intros j Hj. exists (linked_bd j). split; [by apply ring_of_at|]. by split_and!.
Qed.

(** [hdkif_output], with what it leaves alone. *)
Lemma hdkif_output_ok {D PP RP HP X} {DM : Dma D} {OP : PoolOps PP} {OR : PoolOps RP} {OH : HeapOps HP}
    {DL : DmaLaws D} fuel (s : eth D PP RP HP X) k pend p b l :
  (dma_bound <= fuel)%nat -> tx_ok s k pend ->
  chain (pbufs (heap s)) p ((p, b) :: l) -> is_u16 (tot_len b) -> 0 <= ref b < 255 ->
  total pend + 1 + zlen l <= 203 ->
  exists s', hdkif_output fuel p s = Ok (ERR_OK, s') /\
    tx_ok s' k (pend ++ [(1 + zlen l, p)]) /\ todo (dma (dev s')) = Some (slot (k + total pend)) /\
    describes (dev s') (k + total pend) ((p, outgoing b) :: l) /\
    (exists x, bds (dev s') !! slot (k + total pend) = Some x /\
      flag (flags_pktlen x) 0xFFFF = Z.max MIN_PKT_LEN (tot_len b)) /\
    pbufs (heap s') = <[p := outgoing b]> (pbufs (heap s)) /\ cpsr s' = cpsr s /\
    nif s' = nif s /\ irqs s' = irqs s /\ others s s'.
Proof.
  intros Hfuel (V & tail & c & m & HI) Hl Ht Hr Hn. pose proof Hl as (_ & Hp0 & Hb & Hl2).
  pose proof (chain_nodup _ _ _ Hl) as Hnd. rewrite fmap_cons in Hnd. apply NoDup_cons in Hnd as [Hpl _].
  destruct (output_prepared fuel s p b Hp0 Hb Hr) as (lev & cp & Hu & ->). destruct (outgoing_fields b Ht) as [Et En].
  set (s3 := mk_eth (dev s) (ctl s) (nif s) cp (irqs s) (with_pbufs <[p := outgoing b]> (heap s)) (rest s)).
  assert (Ht' : is_u16 (tot_len (outgoing b))) by (rewrite Et; unfold MIN_PKT_LEN, is_u16 in *; lia).
  destruct (transmit_ok fuel Hfuel s3 k pend V tail c m p (outgoing b) l) as
    (s4 & E4 & Hn4 & Hc4 & Hv4 & (_ & _ & _ & Hh) & _ & Ho4 & Htd & HI4); [by eapply tx_inv_dev; [| |exact HI]| |done|cbn [length]; lia|].
  { split_and!; [done|done|apply lookup_insert_eq|]. rewrite En.
    eapply chain_agree; [|exact Hl2]. intros x Hx. cbn [pbufs heap s3 with_pbufs].
    apply lookup_insert_ne. by intros <-. }
  rewrite (io_bind_ok _ _ _ _ _ E4). erewrite io_bind_ok by done. eexists. split; [done|].
  assert (Hz : zlen ((p, outgoing b) :: l) = 1 + zlen l) by (cbn [length]; lia).
  destruct (built_describes s4 V (k + total pend) ((p, outgoing b) :: l) p (tot_len (outgoing b)) tail 0 _ _
    ltac:(done) ltac:(pose proof (r_size _ _ _ _ (i_ring _ _ _ _ _ _ _ HI)); lia) Ht' (i_dev _ _ _ _ _ _ _ HI4)) as [Hd Hx].
  cbn [dev with_cpsr heap cpsr]. split_and!; try done.
  - rewrite <- Hz. eexists _, _, _, _. by eapply tx_inv_dev; [| |exact HI4].
  - by rewrite <- Et.
  - by rewrite Hc4.
Qed.

(* ------------------------------------------------------------------ *)
(** * Properties *)

(** C27: [hdkif_output] always returns, whatever the engine is still busy
    with: it waits for the packet before to be done, and then the engine has
    the new packet to work on. The packet follows those in flight in the
    descriptor ring, which stays well-formed; its descriptors carry the
    address and length of every pbuf of the chain and the packet's length, at
    least 60; the first pbuf is held once more, no other pbuf changes, and the
    interrupt mask is as before. *)
Theorem hdkif_output_queues {D PP RP HP X} {DM : Dma D} {OP : PoolOps PP} {OR : PoolOps RP} {OH : HeapOps HP}
    {DL : DmaLaws D} fuel (s : eth D PP RP HP X) k pend p b l :
  (dma_bound <= fuel)%nat -> tx_ok s k pend ->
  chain (pbufs (heap s)) p ((p, b) :: l) -> is_u16 (tot_len b) -> 0 <= ref b < 255 ->
  total pend + 1 + zlen l <= 203 ->
  exists s', hdkif_output fuel p s = Ok (ERR_OK, s') /\
    tx_ok s' k (pend ++ [(1 + zlen l, p)]) /\ todo (dma (dev s')) = Some (slot (k + total pend)) /\
    describes (dev s') (k + total pend) ((p, outgoing b) :: l) /\
    (exists x, bds (dev s') !! slot (k + total pend) = Some x /\
      flag (flags_pktlen x) 0xFFFF = Z.max MIN_PKT_LEN (tot_len b)) /\
    pbufs (heap s') = <[p := outgoing b]> (pbufs (heap s)) /\ cpsr s' = cpsr s.
Proof.
  intros Hfuel Hok Hl Ht Hr Hn. destruct (hdkif_output_ok fuel s k pend p b l Hfuel Hok Hl Ht Hr Hn) as
    (s' & E & H1 & H2 & H3 & H4 & H5 & H6 & _). by exists s'.
Qed.

Lemma hdkif_output_queues_witness :
  exists s', hdkif_output 1 0x20b14 (demo_eth linked_bd) = Ok (ERR_OK, s') /\
    tx_ok s' 0 [(2, 0x20b14)] /\ todo (dma (dev s')) = Some (slot 0).
Proof.
  destruct (used_facts 1 ltac:(lia)) as (Hc & _).
  destruct (hdkif_output_queues (DL := engine_laws) 1 (demo_eth linked_bd) 0 [] 0x20b14 _ _ (le_n 1) demo_tx_ok Hc)
    as (s' & E & Hok & Ht & _); [by vm_compute|by vm_compute|by vm_compute|].
  exists s'. exact (conj E (conj Hok Ht)).
Defined.

(** C29: The transmit interrupt frees the pbuf of every packet in flight, each
    once and in the order they were sent, and nothing else; it waits for the
    one the engine may still be sending, and leaves the ring empty and the
    engine idle. *)
Theorem hdkif_tx_inthandler_frees {D PP RP HP X} {DM : Dma D} {OP : PoolOps PP} {OR : PoolOps RP} {OH : HeapOps HP}
    {DL : DmaLaws D} fuel (s : eth D PP RP HP X) k pend h :
  (dma_bound <= fuel)%nat -> tx_ok s k pend -> free_all (snd <$> pend) (heap s) = Ok (tt, h) ->
  exists s', hdkif_tx_inthandler fuel s = Ok (tt, s') /\
    tx_ok s' (k + total pend) [] /\ todo (dma (dev s')) = None /\ same_heap h (heap s') /\ cpsr s' = cpsr s.
Proof.
  intros Hfuel (V & tail & c & m & HI) Hfree.
  pose proof (pkts_total _ _ _ (i_pkts _ _ _ _ _ _ _ HI)) as Hlen.
  pose proof (r_size _ _ _ _ (i_ring _ _ _ _ _ _ _ HI)) as Hsz.
  unfold hdkif_tx_inthandler. erewrite io_bind_ok by done. rewrite (i_ctl _ _ _ _ _ _ _ HI).
  destruct (tx_int_loop_ok fuel Hfuel num_bds s k pend V tail c m (heap s) h HI) as
    (s1 & E1 & (V1 & t1 & c1 & m1 & HI1) & Hh & _ & Hc & _ & _); [done|done|change num_bds with 409%nat; lia|].
  cbn [next_bd_to_process]. rewrite (io_bind_ok _ _ _ _ _ E1), (i_base _ _ _ _ _ _ _ HI).
  destruct (reg_ok s1 V1 t1 0 c1 m1 (EMAC_0_BASE + EMAC_MACEOIVECTOR) EMAC_INT_CORE0_RX (i_dev _ _ _ _ _ _ _ HI1)
    ltac:(done)) as (s2 & E2 & [(A1 & _ & A3 & _ & A5) A6] & HD2).
  destruct (reg_ok s2 V1 t1 0 c1 m1 (EMAC_0_BASE + EMAC_MACEOIVECTOR) EMAC_INT_CORE0_TX HD2
    ltac:(done)) as (s3 & E3 & [(B1 & _ & B3 & _ & B5) B6] & HD3).
  unfold EMACCoreIntAck. rewrite (io_bind_ok _ _ _ _ _ E2). exists s3. split; [exact E3|].
  assert (Hn : todo (dma (dev s3)) = None).
  { pose proof (i_idle _ _ _ _ _ _ _ HI1 eq_refl). destruct B6 as [?| ->]; [done|]. destruct A6 as [?| ->]; done. }
  split_and!; [|done| |congruence].
  - exists V1, t1, c1, m1. destruct HI1 as [? ? ? ? ? ? ?]. split; rewrite ?B1, ?A1; try done.
  - destruct Hh as (? & ? & ? & ?), A5 as [(? & ? & ? & ?) _], B5 as [(? & ? & ? & ?) _]. split_and!; congruence.
Qed.

Lemma hdkif_tx_inthandler_frees_witness :
  exists s s', hdkif_transmit 1 0x20b14 (demo_eth linked_bd) = Ok (tt, s) /\
    hdkif_tx_inthandler 1 s = Ok (tt, s') /\ todo (dma (dev s')) = None /\
    pbufs (heap s') !! 0x20b14 = None /\ pbufs (heap s') !! 0x2058c = None.
Proof.
  destruct (used_facts 1 ltac:(lia)) as (Hc & _). destruct demo_tx_ok as (V & tail & c & m & HI).
  destruct (transmit_ok (DL := engine_laws) 1 (le_n 1) (demo_eth linked_bd) 0 [] V tail c m _ _ _ HI Hc) as
    (s & E & _ & _ & _ & Hh & _ & _ & _ & HI'); [by vm_compute|by vm_compute|].
  assert (Hf : match free_all [0x20b14] (used 1) with
    | Ok (_, h) => pbufs h !! 0x20b14 = None /\ pbufs h !! 0x2058c = None
    | Fault _ => False
    end) by (vm_compute; split; reflexivity).
  destruct (free_all [0x20b14] (used 1)) as [[[] h]|] eqn:Ef; [|destruct Hf].
  destruct (respects_free_all _ _ _ _ _ Hh Ef) as (h' & Ef' & Hh').
  destruct (hdkif_tx_inthandler_frees (DL := engine_laws) 1 s 0 [(2, 0x20b14)] h') as (s' & Ei & _ & Ht & Hs & _);
    [exact (le_n 1)|eexists _, _, _, _; exact HI'|exact Ef'|].
  exists s, s'. split; [exact E|]. split; [exact Ei|]. split; [exact Ht|].
  destruct Hs as (_ & _ & _ & ->), Hh' as (_ & _ & _ & ->). exact Hf.
Defined.

(** C39: Setting up the transmit ring makes it well-formed: all 204
    descriptors are linked into one circle, none is marked or owned by the
    engine, and no packet is in flight. It returns the address behind the
    ring, where the receive descriptors go. *)
Theorem tx_ring_init_wf {D PP RP HP X} {DM : Dma D} {OP : PoolOps PP} {OR : PoolOps RP} {OH : HeapOps HP}
    {DL : DmaLaws D} (s : eth D PP RP HP X) :
  emac_ctrl_ram (ctl s) = EMAC_CTRL_RAM_0_BASE -> emac_base (ctl s) = EMAC_0_BASE ->
  todo (dma (dev s)) = None -> (forall j, 0 <= j < 204 -> is_Some (bds (dev s) !! slot j)) ->
  exists s', tx_ring_init s = Ok (EMAC_CTRL_RAM_0_BASE + SIZEOF_BDP * 204, s') /\ tx_ok s' 0 [] /\
    same_heap (heap s) (heap s') /\ rx (ctl s') = rx (ctl s).
Proof.
  intros Hram Hbase Hn Hbds. unfold tx_ring_init. erewrite io_bind_ok by done. cbv zeta. rewrite Hram.
  erewrite io_bind_ok by done. set (s0 := with_ctl _ s).
  assert (HR0 : ring_upto s0 0).
  { split; [done|]. intros j Hj. destruct (Hbds j Hj) as [b Hb]. exists b. split; [exact Hb|lia]. }
  assert (E0 : EMAC_CTRL_RAM_0_BASE = EMAC_CTRL_RAM_0_BASE + SIZEOF_BDP * 0) by lia.
  destruct (tx_ring_loop_ok 204 s0 0 0 HR0 ltac:(lia) ltac:(lia)) as (s1 & E1 & [(A1 & _ & _ & _ & A5) A6] & HR1).
  rewrite <- E0 in E1. change (Z.to_nat (Z.shiftr SIZE_EMAC_CTRL_RAM 1 / SIZEOF_BDP)) with 204%nat.
  rewrite (io_bind_ok _ _ _ _ _ E1), decide_False by done. pose proof HR1 as [_ Hb1].
  destruct (Hb1 203 ltac:(lia)) as (b & Eb & Hb). destruct (Hb ltac:(lia)) as (_ & Hb').
  change (hdkif_swizzle_txp EMAC_CTRL_RAM_0_BASE) with (hdkif_swizzle_txp (slot 0)).
  destruct (ring_upto_wr s1 204 203 (set_bd_next (hdkif_swizzle_txp (slot 0))) b HR1 ltac:(lia) Eb)
    as (s2 & E2 & [(B1 & _ & _ & _ & B5) B6] & Eb2 & HR2 & _).
  rewrite (io_bind_ok _ _ _ _ _ E2). exists s2. split; [done|].
  assert (HC : ctl s2 = ctl s0) by congruence.
  split_and!; [| |by rewrite HC].
  - apply linked_tx_ok; [|by rewrite HC|by rewrite HC|].
    + destruct HR1 as [Hn1 _]. destruct B6 as [?| ->]; done.
    + intros j Hj. destruct (decide (j = 203)) as [->|Hne].
      * eexists. split; [exact Eb2|]. split; [symmetry; f_equal; apply (slot_turn 0)|exact Hb'].
      * assert (Hlook : bds (dev s2) !! slot j = bds (dev s1) !! slot j).
        { unfold bd_wr in E2. rewrite Eb in E2. injection E2 as <-. apply lookup_insert_ne. apply slot_ne; lia. }
        destruct (Hb1 j Hj) as (d & Ed & Hd). destruct (Hd ltac:(lia)) as (Hnx & Hd').
        exists d. rewrite Hlook. split; [done|]. split; [|done]. by rewrite slot_base by lia.
  - destruct A5 as [(? & ? & ? & ?) _], B5 as [(? & ? & ? & ?) _]. cbn [heap with_ctl s0] in *. split_and!; congruence.
Qed.

Lemma tx_ring_init_wf_witness :
  exists s', tx_ring_init (demo_eth (fun _ => mk_bdp 0 0 0 0xFFFFFFFF 0)) = Ok (0xFC520FF0, s') /\ tx_ok s' 0 [].
Proof.
  destruct (tx_ring_init_wf (demo_eth (fun _ => mk_bdp 0 0 0 0xFFFFFFFF 0))) as (s' & E & Hok & _).
  - reflexivity.
  - reflexivity.
  - reflexivity.
  - intros j Hj. eexists. by apply ring_of_at.
  - exists s'. exact (conj E Hok).
Defined.
