(* ===== verification/EmacRx.v ===== *)
(** The Ethernet driver's receive side: what the interrupt makes of a frame
    the engine has put into the buffers of one or more descriptors. *)

From Stdlib Require Import ZArith Lia.
From stdpp Require Import functions base list numbers gmap sets.
From S2P Require Import Prelude Mmio Board Mem MemProofs Memp Pbuf PbufChain PbufAlloc Emac EmacRing EmacProofs.

Open Scope Z_scope.

(* ------------------------------------------------------------------ *)
(** * The engine *)

(** The documented behaviour of the receive channel: by itself the engine
    changes nothing but descriptors it owns, and these only when it gives them
    back, and bytes in their buffers. *)
Class RxLaws (D : Type) `{Dma D} := {
  run_rx_none (h : hw D) bs a : is_rx a -> bds h !! a = None -> bds (dma_run (h, bs)).1 !! a = None;
  run_rx_some (h : hw D) bs a b : is_rx a -> bds h !! a = Some b ->
    exists b', bds (dma_run (h, bs)).1 !! a = Some b' /\
      (b' = b \/ fbit b OWNER_BIT = true /\ fbit b' OWNER_BIT = false /\ bd_next b' = bd_next b /\ bufptr b' = bufptr b /\
       bd_pbuf b' = bd_pbuf b);
  run_rx_bytes (h : hw D) bs i : owned_at h i \/ (dma_run (h, bs)).2 !! i = bs !! i
}.

Section Receive.
Context {D PP RP HP X : Type} {DM : Dma D} {OP : PoolOps PP} {OR : PoolOps RP} {OH : HeapOps HP}.
Context {RL : RxLaws D}.
Abbreviation state := (eth D PP RP HP X).
Implicit Types (s : state).

(** Time passes: the engine has run, the driver may have changed headers of
    pbufs. *)
Record passed s s' : Prop := {
  ps_rest : ctl s' = ctl s /\ nif s' = nif s /\ cpsr s' = cpsr s /\ irqs s' = irqs s /\ rest s' = rest s;
  ps_heap : pool_st (heap s') = pool_st (heap s) /\ rom_st (heap s') = rom_st (heap s) /\ heap_st (heap s') = heap_st (heap s);
  ps_kept a b : is_rx a -> bds (dev s) !! a = Some b -> fbit b OWNER_BIT = false -> bds (dev s') !! a = Some b;
  ps_some a b : is_rx a -> bds (dev s) !! a = Some b ->
    exists b', bds (dev s') !! a = Some b' /\ bd_next b' = bd_next b /\ bd_pbuf b' = bd_pbuf b;
  ps_owned i : owned_at (dev s') i -> owned_at (dev s) i;
  ps_bytes i : ~ owned_at (dev s) i -> bytes (heap s') !! i = bytes (heap s) !! i
}.

#[global] Instance passed_refl : Reflexive passed.
Proof using Type. intros s. split; try done. intros a b _ Hb. by exists b. Qed.

#[global] Instance passed_trans : Transitive passed.
Proof using Type.
  intros s1 s2 s3 [R1 H1 K1 S1 O1 B1] [R2 H2 K2 S2 O2 B2]. split.
  - destruct_and!. split_and!; congruence.
  - destruct_and!. split_and!; congruence.
  - intros a b Ha Hb Ho. apply K2; [done|by apply K1|done].
  - intros a b Ha Hb. destruct (S1 a b Ha Hb) as (b' & Hb' & ? & ?). destruct (S2 a b' Ha Hb') as (b'' & ? & ? & ?).
    exists b''. split_and!; congruence.
  - auto.
  - intros i Hi. rewrite B2 by auto. by apply B1.
Qed.

Lemma run_passed s : passed s (run_dma s) /\ pbufs (heap (run_dma s)) = pbufs (heap s).
Proof using RL.
  assert (Ed := run_dev s). unfold run_dma in *. destruct (dma_run (dev s, bytes (heap s))) as [h bs] eqn:E.
  cbn [dev heap pbufs fst] in *. split; [|done].
  assert (Eh : h = (dma_run (dev s, bytes (heap s))).1) by by rewrite E.
  split; cbn [ctl nif cpsr irqs heap dev pool_st rom_st heap_st bytes]; try done.
  - intros a b Ha Hb Ho. destruct (run_rx_some (dev s) (bytes (heap s)) a b Ha Hb) as (b' & Hb' & [->|(? & _)]); [by rewrite Eh|congruence].
  - intros a b Ha Hb. destruct (run_rx_some (dev s) (bytes (heap s)) a b Ha Hb) as (b' & Hb' & Hc). exists b'. rewrite Eh.
    split; [done|]. by destruct Hc as [->|(_ & _ & ? & _ & ?)].
  - intros i (a & b' & Ha & Hb' & Ho & Hi). destruct (bds (dev s) !! a) as [b|] eqn:Hb.
    + destruct (run_rx_some (dev s) (bytes (heap s)) a b Ha Hb) as (b2 & Hb2 & Hc). rewrite <- Eh, Hb' in Hb2. injection Hb2 as <-.
      destruct Hc as [->|(_ & ? & _)]; [by exists a, b|congruence].
    + rewrite Eh, (run_rx_none _ _ _ Ha Hb) in Hb'. done.
  - intros i Hi. destruct (run_rx_bytes (dev s) (bytes (heap s)) i) as [?|Hb]; [done|]. by rewrite E in Hb.
Qed.

(* ------------------------------------------------------------------ *)
(** * One descriptor *)

Lemma rd_kept s a d : is_rx a -> bds (dev s) !! a = Some d -> fbit d OWNER_BIT = false ->
  exists s', bd_rd a s = Ok (d, s') /\ passed s s' /\ pbufs (heap s') = pbufs (heap s).
Proof using RL.
  intros Ha Hd Ho. destruct (run_passed s) as [Hp Hb]. exists (run_dma s). split; [|done].
  unfold bd_rd. by rewrite (ps_kept _ _ Hp a d Ha Hd Ho).
Qed.

Lemma rd_some s a d : is_rx a -> bds (dev s) !! a = Some d ->
  exists d' s', bd_rd a s = Ok (d', s') /\ bd_pbuf d' = bd_pbuf d /\ passed s s' /\ pbufs (heap s') = pbufs (heap s).
Proof using RL.
  intros Ha Hd. destruct (run_passed s) as [Hp Hb]. destruct (ps_some _ _ Hp a d Ha Hd) as (d' & Hd' & _ & E).
  exists d', (run_dma s). split; [|done]. unfold bd_rd. by rewrite Hd'.
Qed.

Lemma update_passed s p f b : pbufs (heap s) !! p = Some b ->
  exists s', on_heap (pb_update p f) s = Ok (tt, s') /\ passed s s' /\ pbufs (heap s') = <[p := f b]> (pbufs (heap s)).
Proof using Type.
  intros Hb. eexists. split; [by apply on_heap_ok, pb_update_ok|]. split; [|done].
  split; try done. intros a d _ Hd. by exists d.
Qed.

(** The length of what a descriptor holds, and what becomes of its pbuf when
    [t] bytes of the frame are left and the next pbuf is [nx]. *)
Definition dlen (d : bdp) : Z := flag (bufoff_len d) 0xFFFF.
Definition trimmed (t nx : Z) (d : bdp) (b : pbuf) : pbuf :=
  mk_pbuf nx (payload b) (u16 t) (dlen d) (type_internal b) (Pbuf.flags b) (ref b) (if_idx b).

Lemma dlen_range d : 0 <= dlen d < 65536.
Proof using Type.
  unfold dlen, flag. change 0xFFFF with (Z.ones 16). rewrite Z.land_ones by done. apply Z.mod_pos_bound. done.
Qed.

(** The round of [rx_collect] for a descriptor: [nx] is the next pbuf. *)
Lemma collect_one n s a d b nx tot ex la :
  is_rx a -> bds (dev s) !! a = Some d -> fbit d OWNER_BIT = false -> pbufs (heap s) !! bd_pbuf d = Some b ->
  (if next b =? 0 then is_rx (hdkif_swizzle_data (bd_next d)) /\
     exists y, bds (dev s) !! hdkif_swizzle_data (bd_next d) = Some y /\ bd_pbuf y = nx
   else next b = nx) ->
  exists s', passed s s' /\ pbufs (heap s') = <[bd_pbuf d := trimmed (tot - ex) nx d b]> (pbufs (heap s)) /\
    rx_collect n a tot ex la s =
      (if fbit d EOP_BIT then mret (hdkif_swizzle_data (bd_next d), a, bd_pbuf d, u32 (la + len b))
       else match n with
         | O => io_fault Diverges
         | S n => rx_collect n (hdkif_swizzle_data (bd_next d)) tot (u32 (ex + dlen d)) (u32 (la + len b))
         end) s'.
Proof using RL.
  intros Ha Hd Ho Hb Hnx.
  destruct (rd_kept s a d Ha Hd Ho) as (s1 & E1 & P1 & B1).
  assert (Hb1 : pbufs (heap s1) !! bd_pbuf d = Some b) by by rewrite B1.
  assert (H2 : exists s2, io_when (next b =? 0) (x ← bd_rd a; y ← bd_rd (hdkif_swizzle_rxp (bd_next x));
      on_heap (pb_update (bd_pbuf d) (set_next (bd_pbuf y)))) s1 = Ok (tt, s2) /\ passed s1 s2 /\
      pbufs (heap s2) = <[bd_pbuf d := set_next nx b]> (pbufs (heap s1))).
  { destruct (Z.eqb_spec (next b) 0) as [E|E]; cbn [io_when].
    - destruct Hnx as (Hr & y & Hy & <-).
      destruct (rd_kept s1 a d Ha (ps_kept _ _ P1 a d Ha Hd Ho) Ho) as (s2 & E2 & P2 & B2).
      destruct (ps_some _ _ (passed_trans _ _ _ P1 P2) _ y Hr Hy) as (y1 & Hy1 & _ & Ey1).
      destruct (rd_some s2 _ y1 Hr Hy1) as (y2 & s3 & E3 & Ey2 & P3 & B3).
      destruct (update_passed s3 (bd_pbuf d) (set_next (bd_pbuf y2)) b) as (s4 & E4 & P4 & B4); [by rewrite B3, B2|].
      exists s4. rewrite (io_bind_ok _ _ _ _ _ E2), (io_bind_ok _ _ _ _ _ E3). split; [exact E4|]. split.
      + etransitivity; [exact P2|]. by etransitivity.
      + by rewrite B4, B3, B2, Ey2, Ey1.
    - exists s1. split; [done|]. split; [done|]. rewrite insert_id; [done|]. rewrite Hb1. f_equal. subst nx. by destruct b. }
  destruct H2 as (s2 & E2 & P2 & B2). set (b2 := set_next nx b) in *. set (q := bd_pbuf d) in *.
  assert (Hb2 : pbufs (heap s2) !! q = Some b2) by (rewrite B2; apply lookup_insert_eq).
  assert (P12 : passed s s2) by by etransitivity.
  destruct (rd_kept s2 a d Ha (ps_kept _ _ P12 a d Ha Hd Ho) Ho) as (s3 & E3 & P3 & B3).
  destruct (update_passed s3 q (set_len (dlen d)) b2) as (s4 & E4 & P4 & B4); [by rewrite B3|].
  destruct (update_passed s4 q (set_tot_len (tot - ex)) (set_len (dlen d) b2)) as (s5 & E5 & P5 & B5); [by rewrite B4, lookup_insert_eq|].
  assert (P25 : passed s s5) by (etransitivity; [exact P12|]; etransitivity; [exact P3|]; by etransitivity).
  destruct (rd_kept s5 a d Ha (ps_kept _ _ P25 a d Ha Hd Ho) Ho) as (s6 & E6 & P6 & B6).
  assert (P26 : passed s s6) by by etransitivity.
  destruct (rd_kept s6 a d Ha (ps_kept _ _ P26 a d Ha Hd Ho) Ho) as (s7 & E7 & P7 & B7).
  assert (Ef : set_tot_len (tot - ex) (set_len (dlen d) b2) = trimmed (tot - ex) nx d b).
  { unfold set_tot_len, set_len, trimmed, b2. cbn. by rewrite (u16_small (dlen d)) by (apply dlen_range). }
  assert (Eall : pbufs (heap s7) = <[q := trimmed (tot - ex) nx d b]> (pbufs (heap s))).
  { rewrite B7, B6, B5, Ef, B4, insert_insert_eq, B3, B2, insert_insert_eq, B1. done. }
  exists s7. split; [by etransitivity|]. split; [exact Eall|].
  assert (Hread : forall st : state, pbufs (heap st) = pbufs (heap s5) -> on_heap (pb_read q) st = Ok (trimmed (tot - ex) nx d b, st)).
  { intros st Est. apply on_heap_read. by rewrite Est, B5, lookup_insert_eq, Ef. }
  destruct n as [|n]; cbn [rx_collect].
  all: rewrite (io_bind_ok _ _ _ _ _ E1); fold q; rewrite (io_bind_ok _ _ _ _ _ (on_heap_read q s1 b Hb1)), (io_bind_ok _ _ _ _ _ E2).
  all: rewrite (io_bind_ok _ _ _ _ _ (on_heap_read q s2 b2 Hb2)), (io_bind_ok _ _ _ _ _ E3).
  all: fold (dlen d); rewrite (io_bind_ok _ _ _ _ _ E4), (io_bind_ok _ _ _ _ _ E5), (io_bind_ok _ _ _ _ _ (Hread s5 eq_refl)).
  all: rewrite (io_bind_ok _ _ _ _ _ E6), (io_bind_ok _ _ _ _ _ E7).
  all: unfold EMAC_BUF_DESC_EOP; change 0x40000000 with (2 ^ EOP_BIT); destruct (flag_bit (flags_pktlen d) EOP_BIT ltac:(done)) as [-> _].
  all: fold (fbit d EOP_BIT); destruct (fbit d EOP_BIT); done.
Qed.

(* ------------------------------------------------------------------ *)
(** * A frame *)

(** Descriptors with their pbufs. *)
Abbreviation bdl := (list (Z * bdp * pbuf)).
Implicit Types (l : bdl) (m : gmap Z pbuf).
Definition bd_head l (nxt : Z) : Z := match l with [] => nxt | (a, _, _) :: _ => a end.
Definition pb_head l (nx : Z) : Z := match l with [] => nx | (_, d, _) :: _ => bd_pbuf d end.
Definition pb_addrs l : list Z := (fun x => bd_pbuf x.1.2) <$> l.
Definition dlens l : Z := foldr (fun x n => dlen x.1.2 + n) 0 l.
(** What has to be allocated again. *)
Definition freed (la : Z) l : Z := foldl (fun la x => u32 (la + len x.2)) la l.
Definition last_bd l : Z := match last l with Some (a, _, _) => a | None => 0 end.
Definition last_pb l : Z := match last l with Some (_, d, _) => bd_pbuf d | None => 0 end.

(** A frame the engine has put into the descriptors [l]; behind them is [nxt],
    and [nx] its pbuf. A pbuf ends its chain or is linked to the next one. *)
Fixpoint rx_frame s l (nxt nx : Z) : Prop :=
  match l with
  | [] => True
  | (a, d, b) :: l' =>
      is_rx a /\ bds (dev s) !! a = Some d /\ fbit d OWNER_BIT = false /\ fbit d EOP_BIT = bool_decide (l' = []) /\
      hdkif_swizzle_data (bd_next d) = bd_head l' nxt /\ bd_pbuf d <> 0 /\ pbufs (heap s) !! bd_pbuf d = Some b /\
      (if next b =? 0 then is_rx (bd_head l' nxt) /\
         exists y, bds (dev s) !! bd_head l' nxt = Some y /\ bd_pbuf y = pb_head l' nx
       else next b = pb_head l' nx) /\
      rx_frame s l' nxt nx
  end.

Lemma rx_frame_passed s s' l nxt nx : passed s s' -> (forall p, p ∈ pb_addrs l -> pbufs (heap s') !! p = pbufs (heap s) !! p) ->
  rx_frame s l nxt nx -> rx_frame s' l nxt nx.
Proof using Type.
  intros Hps. induction l as [|[[a d] b] l IH]; [done|]. intros Hpb (Ha & Hd & Ho & He & Hn & H0 & Hb & Hx & Hl).
  split_and!; try done.
  - by apply (ps_kept _ _ Hps).
  - rewrite Hpb; [done|by left].
  - destruct (next b =? 0); [|done]. destruct Hx as (Hr & y & Hy & Ey). split; [done|].
    destruct (ps_some _ _ Hps _ y Hr Hy) as (y' & Hy' & _ & E). exists y'. by rewrite E.
  - apply IH; [|done]. intros q Hq. apply Hpb. by right.
Qed.

Lemma rx_frame_same s s' l nxt nx : dev s' = dev s -> pbufs (heap s') = pbufs (heap s) -> rx_frame s l nxt nx -> rx_frame s' l nxt nx.
Proof using Type. intros Ed Eb. induction l as [|[[a d] b] l IH]; [done|]. cbn [rx_frame]. rewrite Ed, Eb. intuition. Qed.

(** The pbufs of [l] when the frame has [t] bytes from them on and the last
    is linked to [nx]. *)
Fixpoint collected (t nx : Z) l : list (Z * pbuf) :=
  match l with
  | [] => []
  | (_, d, b) :: l' => (bd_pbuf d, trimmed t (pb_head l' nx) d b) :: collected (t - dlen d) nx l'
  end.

Lemma dlens_cons a d b l : dlens ((a, d, b) :: l) = dlen d + dlens l.
Proof using Type. done. Qed.

Lemma dlens_nonneg l : 0 <= dlens l.
Proof using Type.
  induction l as [|[[a d] b] l IH]; [done|]. rewrite dlens_cons. pose proof (dlen_range d). lia.
Qed.

Lemma collect_ok l : forall a d b n s nxt nx tot ex la,
  rx_frame s ((a, d, b) :: l) nxt nx -> NoDup (pb_addrs ((a, d, b) :: l)) -> (length l <= n)%nat ->
  0 <= ex -> ex + dlens ((a, d, b) :: l) < 65536 ->
  exists s', passed s s' /\ (forall p, p ∉ pb_addrs ((a, d, b) :: l) -> pbufs (heap s') !! p = pbufs (heap s) !! p) /\
    Forall (fun x => pbufs (heap s') !! x.1 = Some x.2) (collected (tot - ex) nx ((a, d, b) :: l)) /\
    rx_collect n a tot ex la s =
      Ok (nxt, last_bd ((a, d, b) :: l), last_pb ((a, d, b) :: l),
          freed la ((a, d, b) :: l), s').
Proof using RL.
  induction l as [|[[a2 d2] b2] l IH]; intros a d b n s nxt nx tot ex la (Ha & Hd & Ho & He & Hn & H0 & Hb & Hx & Hl) Hnd Hlen Hex Hsum.
  - destruct (collect_one n s a d b nx tot ex la Ha Hd Ho Hb) as (s' & Hps & HB & E).
    { rewrite Hn. exact Hx. }
    exists s'. split; [done|]. split; [|split].
    + intros p Hp. rewrite HB. apply lookup_insert_ne. intros <-. apply Hp. by left.
    + constructor; [|done]. cbn. rewrite HB. apply lookup_insert_eq.
    + rewrite E, He, Hn. done.
  - destruct n as [|n]; [cbn in Hlen; lia|].
    destruct (collect_one (S n) s a d b (bd_pbuf d2) tot ex la Ha Hd Ho Hb) as (s1 & Hps & HB & E).
    { rewrite Hn. exact Hx. }
    pose proof (dlen_range d) as Hdl. unfold pb_addrs in Hnd. rewrite fmap_cons in Hnd. apply NoDup_cons in Hnd as [Hnot Hnd].
    rewrite dlens_cons in Hsum. pose proof (dlens_nonneg ((a2, d2, b2) :: l)) as Hpos.
    assert (Hkeep : forall p, p ∈ pb_addrs ((a2, d2, b2) :: l) -> pbufs (heap s1) !! p = pbufs (heap s) !! p).
    { intros p Hp. rewrite HB. apply lookup_insert_ne. intros <-. by apply Hnot. }
    destruct (IH a2 d2 b2 n s1 nxt nx tot (u32 (ex + dlen d)) (u32 (la + len b))) as (s2 & HP2 & HB2 & HF & E2).
    { by apply (rx_frame_passed s). }
    { done. }
    { cbn in Hlen. lia. }
    { apply u32_range. }
    { rewrite u32_small by (unfold is_u32; lia). lia. }
    rewrite (u32_small (ex + dlen d)) in HF by (unfold is_u32; lia).
    exists s2. split; [by etransitivity|]. split; [|split].
    + intros p Hp. unfold pb_addrs in Hp. rewrite fmap_cons, not_elem_of_cons in Hp. destruct Hp as [Hp1 Hp2].
      rewrite HB2 by done. rewrite HB. by apply lookup_insert_ne.
    + cbn [collected] in HF |- *. constructor.
      * cbn [fst snd pb_head]. rewrite HB2 by exact Hnot. rewrite HB. apply lookup_insert_eq.
      * by replace (tot - ex - dlen d) with (tot - (ex + dlen d)) by lia.
    + rewrite E, He, Hn, bool_decide_false by done. exact E2.
Qed.

(* ------------------------------------------------------------------ *)
(** * The packet *)

(** The bytes of the frame, piece by piece. *)
Fixpoint frame_bytes (bs : gmap Z Z) l (c : list Z) : Prop :=
  match l with
  | [] => c = []
  | (_, d, b) :: l' => exists c1 c2, c = c1 ++ c2 /\
      load_bytes bs (payload b) (Z.to_nat (dlen d)) = Ok c1 /\ frame_bytes bs l' c2
  end.

Definition settled s l : Prop := forall a d b i, (a, d, b) ∈ l -> payload b <= i < payload b + dlen d -> ~ owned_at (dev s) i.

Definition in_heap m (x : Z * pbuf) : Prop := m !! x.1 = Some x.2.

Lemma collected_addrs t nx l : (collected t nx l).*1 = pb_addrs l.
Proof using Type. revert t. induction l as [|[[a d] b] l IH]; intros t; [done|]. cbn. by rewrite IH. Qed.

Lemma close_chain l : forall t nx m, l <> [] -> NoDup (pb_addrs l) -> Forall (in_heap m) (collected t nx l) ->
  exists bl, m !! last_pb l = Some bl /\ last_pb l ∈ pb_addrs l /\
    Forall (in_heap (<[last_pb l := set_next 0 bl]> m)) (collected t 0 l).
Proof using Type.
  induction l as [|[[a d] b] l IH]; intros t nx m Hne Hnd HF; [done|]. cbn [collected] in HF |- *.
  apply Forall_cons in HF as [Hb HF]. unfold pb_addrs in Hnd. rewrite fmap_cons in Hnd. apply NoDup_cons in Hnd as [Hnot Hnd].
  destruct l as [|x l].
  - exists (trimmed t nx d b). split; [exact Hb|]. split; [by left|]. constructor; [|done]. unfold in_heap. cbn. by rewrite lookup_insert_eq.
  - destruct (IH (t - dlen d) nx m ltac:(done) Hnd HF) as (bl & Hbl & Hin & HF').
    change (last_pb ((a, d, b) :: x :: l)) with (last_pb (x :: l)). exists bl. split; [done|]. split; [by right|].
    constructor; [|exact HF']. unfold in_heap in Hb |- *. cbn [fst snd] in Hb |- *.
    rewrite lookup_insert_ne; [by destruct x as [[a2 d2] b2]|]. intros E. apply Hnot. cbn [fst snd]. rewrite <- E. exact Hin.
Qed.

Lemma collected_chain l : forall t m, Forall (fun x : Z * bdp * pbuf => bd_pbuf x.1.2 <> 0) l ->
  Forall (in_heap m) (collected t 0 l) -> chain m (pb_head l 0) (collected t 0 l).
Proof using Type.
  induction l as [|[[a d] b] l IH]; intros t m H0 HF; [done|]. cbn [collected pb_head] in HF |- *.
  apply Forall_cons in HF as [Hb HF]. apply Forall_cons in H0 as [Hd H0]. split_and!; [done|done|done|]. cbn. by apply IH.
Qed.

Lemma collected_lens l : forall t nx, lens (collected t nx l) = dlens l.
Proof using Type.
  induction l as [|[[a d] b] l IH]; intros t nx; [done|]. cbn [collected]. unfold lens. cbn [foldr snd]. fold (lens (collected (t - dlen d) nx l)).
  by rewrite IH.
Qed.

Lemma collected_packet l nx : dlens l < 65536 -> Forall (fun x : Z * bdp * pbuf => is_u8 (ref x.2)) l ->
  packet (collected (dlens l) nx l).
Proof using Type.
  induction l as [|[[a d] b] l IH]; intros Hlt Hr; [done|]. cbn [collected packet]. rewrite dlens_cons in *.
  pose proof (dlens_nonneg l). pose proof (dlen_range d). apply Forall_cons in Hr as [Hr1 Hr].
  replace (dlen d + dlens l - dlen d) with (dlens l) by lia. rewrite collected_lens.
  unfold wf_pbuf. cbn. rewrite u16_small by (unfold is_u16; lia). split; [done|]. split; [|apply IH; [lia|done]].
  unfold is_u16. cbn in Hr1. split_and!; try done; lia.
Qed.

Lemma collected_content bs l nx : forall t c, frame_bytes bs l c -> content bs (collected t nx l) c.
Proof using Type.
  induction l as [|[[a d] b] l IH]; intros t c; [done|]. intros (c1 & c2 & -> & E & H). exists c1, c2. split; [done|]. split; [exact E|]. by apply IH.
Qed.

Lemma frame_bytes_agree bs bs' l : (forall a d b i, (a, d, b) ∈ l -> payload b <= i < payload b + dlen d -> bs' !! i = bs !! i) ->
  forall c, frame_bytes bs l c -> frame_bytes bs' l c.
Proof using Type.
  induction l as [|[[a d] b] l IH]; [done|]. intros Ha c (c1 & c2 & -> & E & H). exists c1, c2. split; [done|]. split.
  - rewrite <- E. apply load_bytes_agree. intros i Hi. apply (Ha a d b); [by left|]. pose proof (dlen_range d). lia.
  - apply IH; [|done]. intros a' d' b' i Hin. apply (Ha a' d' b'). by right.
Qed.

Lemma rx_frame_pbufs s l nxt nx : rx_frame s l nxt nx -> Forall (fun x : Z * bdp * pbuf => bd_pbuf x.1.2 <> 0) l.
Proof using Type.
  induction l as [|[[a d] b] l IH]; [done|]. intros (_ & _ & _ & _ & _ & H0 & _ & _ & H). constructor; [done|by apply IH].
Qed.

Lemma rx_frame_kept s s' l nxt nx : passed s s' -> rx_frame s l nxt nx ->
  Forall (fun x : Z * bdp * pbuf => bds (dev s') !! x.1.1 = Some x.1.2) l.
Proof using Type.
  intros Hps. induction l as [|[[a d] b] l IH]; [done|]. intros (Ha & Hd & Ho & _ & _ & _ & _ & _ & H). constructor; [|by apply IH].
  by apply (ps_kept _ _ Hps).
Qed.

(** The descriptors to be given back start with this packet unless there are
    some already. *)
Definition to_free (a : Z) (r : rxch) : rxch :=
  if rx_free_head r =? 0 then mk_rxch a (rx_active_head r) (rx_active_tail r) (freed_pbuf_len r) else r.

(** A frame of [c] in the descriptors [l], the first at [a], and behind them
    [nxt]. *)
Record rx_ready s (a : Z) (d : bdp) (b : pbuf) l (nxt nx : Z) (c : list Z) : Prop := {
  rr_frame : rx_frame s ((a, d, b) :: l) nxt nx;
  rr_pbufs : NoDup (pb_addrs ((a, d, b) :: l)) /\ Forall (fun x : Z * bdp * pbuf => is_u8 (ref x.2)) ((a, d, b) :: l);
  rr_size : (length l <= num_bds)%nat;
  rr_length : flag (flags_pktlen d) 0xFFFF = dlens ((a, d, b) :: l);
  rr_bytes : frame_bytes (bytes (heap s)) ((a, d, b) :: l) c;
  rr_settled : settled s ((a, d, b) :: l)
}.

(** What the stack is given: the frame in a chain of its own. *)
Record handed_up s s' (a : Z) (d : bdp) (b : pbuf) l (c : list Z) : Prop := {
  hu_chain : chain (pbufs (heap s')) (bd_pbuf d) (collected (zlen c) 0 ((a, d, b) :: l));
  hu_packet : packet (collected (zlen c) 0 ((a, d, b) :: l));
  hu_content : content (bytes (heap s')) (collected (zlen c) 0 ((a, d, b) :: l)) c;
  hu_others p : p ∉ pb_addrs ((a, d, b) :: l) -> pbufs (heap s') !! p = pbufs (heap s) !! p;
  hu_bds : Forall (fun x : Z * bdp * pbuf => bds (dev s') !! x.1.1 = Some x.1.2) ((a, d, b) :: l);
  hu_ctl : ctl s' = set_rx (to_free a (rx (ctl s))) (ctl s);
  hu_rest : nif s' = nif s /\ cpsr s' = cpsr s /\ irqs s' = irqs s /\ rest s' = rest s /\
    pool_st (heap s') = pool_st (heap s) /\ rom_st (heap s') = rom_st (heap s) /\ heap_st (heap s') = heap_st (heap s)
}.

Lemma frame_bytes_length bs l : forall c, frame_bytes bs l c -> zlen c = dlens l.
Proof using Type.
  induction l as [|[[a d] b] l IH]; intros c; [by intros ->|]. intros (c1 & c2 & -> & E & H). rewrite dlens_cons, length_app.
  apply load_bytes_ok in E as [E _]. rewrite <- (IH c2 H). pose proof (dlen_range d). lia.
Qed.

Lemma rx_packet_ok ethernet_input s a d b l nxt nx c last : rx_ready s a d b l nxt nx c ->
  exists s', handed_up s s' a d b l c /\
    rx_packet ethernet_input a last s =
      (_ ← ethernet_input (bd_pbuf d); rx_replace nxt (last_bd ((a, d, b) :: l)) (freed 0 ((a, d, b) :: l)) last) s'.
Proof using RL.
  intros [Hf [Hnd Hr] Hsz Hlen Hby Hset]. pose proof (frame_bytes_length _ _ _ Hby) as Hc.
  set (s0 := with_ctl (fun h => set_rx (to_free a (rx h)) h) s). assert (Hf0 : rx_frame s0 ((a, d, b) :: l) nxt nx) by by apply (rx_frame_same s).
  pose proof Hf0 as (Ha & Hd & Ho & _).
  destruct (rd_kept s0 a d Ha Hd Ho) as (s1 & E1 & P1 & B1).
  destruct (rd_kept s1 a d Ha (ps_kept _ _ P1 a d Ha Hd Ho) Ho) as (s2 & E2 & P2 & B2).
  assert (P02 : passed s0 s2) by by etransitivity.
  assert (Hlt : dlens ((a, d, b) :: l) < 65536).
  { rewrite <- Hlen. unfold flag. change 0xFFFF with (Z.ones 16). rewrite Z.land_ones by done.
    apply Z.mod_pos_bound. done. }
  destruct (collect_ok l a d b num_bds s2 nxt nx (dlens ((a, d, b) :: l)) 0 0) as (s3 & P3 & B3 & F3 & E3); try done.
  { apply (rx_frame_passed s0); [done| |done]. intros p _. by rewrite B2, B1. }
  rewrite Z.sub_0_r in F3. destruct (close_chain ((a, d, b) :: l) _ nx _ ltac:(discriminate) Hnd F3) as (bl & Hbl & Hin & F4).
  destruct (update_passed s3 (last_pb ((a, d, b) :: l)) (set_next 0) bl Hbl) as (s4 & E4 & P4 & B4).
  assert (P04 : passed s0 s4) by (etransitivity; [exact P02|]; by etransitivity).
  exists s4. split; [|].
  - rewrite <- B4 in F4. split; rewrite ?Hc.
    + by apply (collected_chain _ _ _ (rx_frame_pbufs _ _ _ _ Hf)).
    + by apply collected_packet.
    + apply collected_content, (frame_bytes_agree (bytes (heap s))); [|done]. intros a' d' b' i Hl Hi.
      apply (ps_bytes _ _ P04). by apply (Hset a' d' b').
    + intros p Hp. rewrite B4, lookup_insert_ne by (intros <-; done). by rewrite B3, B2, B1.
    + by apply (rx_frame_kept s0 s4 _ nxt nx).
    + apply P04.
    + destruct (ps_rest _ _ P04) as (_ & H1 & H2 & H3 & H3'), (ps_heap _ _ P04) as (H4 & H5 & H6). by split_and!.
  - unfold rx_packet. rewrite (io_bind_ok (rx_upd _) _ s tt s0 eq_refl).
    rewrite (io_bind_ok _ _ _ _ _ E1), (io_bind_ok _ _ _ _ _ E2), Hlen, (io_bind_ok _ _ _ _ _ E3). by rewrite (io_bind_ok _ _ _ _ _ E4).
Qed.

Lemma rx_ready_passed s s1 a d b l nxt nx c : passed s s1 -> pbufs (heap s1) = pbufs (heap s) ->
  rx_ready s a d b l nxt nx c -> rx_ready s1 a d b l nxt nx c.
Proof using Type.
  intros Hps Hb [Hf Hpb Hsz Hlen Hby Hset]. split; try done.
  - apply (rx_frame_passed s); [done| |done]. intros p _. by rewrite Hb.
  - apply (frame_bytes_agree (bytes (heap s))); [|done]. intros a' d' b' i Hl Hi. apply (ps_bytes _ _ Hps). by apply (Hset a' d' b').
  - intros a' d' b' i Hl Hi Hw. by apply (Hset a' d' b' i Hl Hi), (ps_owned _ _ Hps).
Qed.

Lemma handed_up_passed s s1 s' a d b l c : passed s s1 -> pbufs (heap s1) = pbufs (heap s) ->
  handed_up s1 s' a d b l c -> handed_up s s' a d b l c.
Proof using Type.
  intros Hps Hb [H1 H2 H3 H4 H5 H6 H7]. destruct (ps_rest _ _ Hps) as (E1 & E2 & E3 & E4 & E4'), (ps_heap _ _ Hps) as (E5 & E6 & E7).
  split; try done.
  - intros p Hp. rewrite <- Hb. by apply H4.
  - by rewrite H6, E1.
  - destruct_and!. split_and!; congruence.
Qed.

(** What is left of the interrupt once the stack has had its first packet. *)
Definition rx_after (ethernet_input : Z -> io state Z) (n : nat) (nxt processed len last : Z) : io state unit :=
  last ← rx_replace nxt processed len last;
  s ← io_get;
  _ ← rx_int_loop ethernet_input n (rx_active_head (rx (ctl s))) last;
  rx_int_ack.

Lemma rx_inthandler_ok ethernet_input n s a d b l nxt nx c :
  rx_ready s a d b l nxt nx c -> rx_active_head (rx (ctl s)) = a -> fbit d SOP_BIT = true ->
  exists s', handed_up s s' a d b l c /\
    hdkif_rx_inthandler (S n) ethernet_input s =
      (_ ← ethernet_input (bd_pbuf d);
       rx_after ethernet_input n nxt (last_bd ((a, d, b) :: l)) (freed 0 ((a, d, b) :: l)) (rx_active_tail (rx (ctl s)))) s'.
Proof using RL.
  intros Hr Ha Hsop. pose proof Hr as [(Hrx & Hd & Ho & _) _ _ _ _ _].
  destruct (rd_kept s a d Hrx Hd Ho) as (s1 & E1 & P1 & B1).
  destruct (rd_kept s1 a d Hrx (ps_kept _ _ P1 a d Hrx Hd Ho) Ho) as (s2 & E2 & P2 & B2).
  assert (P02 : passed s s2) by by etransitivity. assert (B02 : pbufs (heap s2) = pbufs (heap s)) by congruence.
  destruct (rx_packet_ok ethernet_input s2 a d b l nxt nx c (rx_active_tail (rx (ctl s)))
    (rx_ready_passed _ _ _ _ _ _ _ _ _ P02 B02 Hr)) as (s' & Hu & E3).
  exists s'. split; [by apply (handed_up_passed s s2)|].
  destruct (flag_bit (flags_pktlen d) SOP_BIT ltac:(done)) as (_ & _ & Fs). destruct (flag_bit (flags_pktlen d) OWNER_BIT ltac:(done)) as [Fo _].
  fold (fbit d SOP_BIT) in Fs. fold (fbit d OWNER_BIT) in Fo. rewrite Hsop in Fs. rewrite Ho in Fo.
  assert (Gs : (flag (flags_pktlen d) EMAC_BUF_DESC_SOP =? 0) = false) by exact Fs.
  assert (Go : (flag (flags_pktlen d) EMAC_BUF_DESC_OWNER =? EMAC_BUF_DESC_OWNER) = false) by exact Fo.
  unfold hdkif_rx_inthandler. rewrite (io_bind_ok _ _ _ s s eq_refl), Ha.
  unfold mbind at 1, io_bind at 1. cbn [rx_int_loop]. rewrite (io_bind_ok _ _ _ _ _ E1), Gs, (io_bind_ok _ _ _ _ _ E2), Go. cbn [negb].
  unfold mbind, io_bind in E3 |- *. rewrite E3. destruct (ethernet_input (bd_pbuf d) s') as [[x s3]|]; [|done].
  cbn [mbind outcome_bind]. unfold rx_after, mbind, io_bind. by destruct (rx_replace _ _ _ _ s3) as [[y s4]|].
Qed.
End Receive.

(* ------------------------------------------------------------------ *)
(** * An engine *)

(** A small engine: it may have a frame for the descriptor at an address, and
    stores it there when the descriptor is its own and the buffer large
    enough. *)
Definition receiver : Type := option (Z * list Z).
Definition with_frame (c : list Z) (d : bdp) : bdp :=
  mk_bdp (bd_next d) (bufptr d) (hdkif_swizzle_data (zlen c))
    (hdkif_swizzle_data (Z.lor EMAC_BUF_DESC_SOP (Z.lor EMAC_BUF_DESC_EOP (zlen c)))) (bd_pbuf d).
Definition fits (a : Z) (c : list Z) (d : bdp) : bool :=
  bool_decide (is_rx a) && fbit d OWNER_BIT && negb (fbit (with_frame c d) OWNER_BIT) && (zlen c <=? dlen d).

Lemma store_bytes_other c : forall m p m', store_bytes m p c = Ok m' -> forall i, ~ (p <= i < p + zlen c) -> m' !! i = m !! i.
Proof.
  induction c as [|x c IH]; intros m p m' E i Hi; cbn [store_bytes] in E; [congruence|].
  destruct (m !! p); [|done]. cbn [length] in Hi. rewrite (IH _ _ _ E) by lia. apply lookup_insert_ne. lia.
Qed.

Instance receiver_dma : Dma receiver := {|
  dma_run '(h, bs) :=
    match dma h with
    | Some (a, c) =>
        match bds h !! a with
        | Some d =>
            match fits a c d, store_bytes bs (hdkif_swizzle_data (bufptr d)) c with
            | true, Ok bs' => (mk_hw None (regs h) (<[a := with_frame c d]> (bds h)), bs')
            | _, _ => (h, bs)
            end
        | None => (h, bs)
        end
    | None => (h, bs)
    end;
  dma_write _ _ d := d
|}.

Instance receiver_laws : RxLaws receiver.
Proof.
  split.
  - intros [[[p c]|] r m] bs a _; cbn; [|done]. intros Hn. destruct (m !! p) as [d|] eqn:Hd; [|done].
    destruct (fits p c d), (store_bytes bs (hdkif_swizzle_data (bufptr d)) c); try done. cbn. rewrite lookup_insert_ne; [done|]. intros ->. congruence.
  - intros [[[p c]|] r m] bs a b _; cbn; [|by exists b; auto]. intros Hb. destruct (m !! p) as [d|] eqn:Hd; [|by exists b; auto].
    destruct (fits p c d) eqn:Hf, (store_bytes bs (hdkif_swizzle_data (bufptr d)) c); try (by exists b; auto). cbn. destruct (decide (p = a)) as [->|Hne].
    + rewrite lookup_insert_eq. simplify_eq. eexists. split; [done|]. right.
      unfold fits in Hf. rewrite !andb_true_iff, negb_true_iff in Hf. by destruct_and!.
    + rewrite lookup_insert_ne by done. by exists b; auto.
  - intros [[[p c]|] r m] bs i; cbn; [|by right]. destruct (m !! p) as [d|] eqn:Hd; [|by right].
    destruct (fits p c d) eqn:Hf, (store_bytes bs (hdkif_swizzle_data (bufptr d)) c) as [bs'|] eqn:Es; try by right. unfold fits in Hf. rewrite !andb_true_iff, bool_decide_eq_true, Z.leb_le in Hf.
    destruct (decide (hdkif_swizzle_data (bufptr d) <= i < hdkif_swizzle_data (bufptr d) + zlen c)) as [Hi|Hi].
    + left. exists p, d. destruct_and!. split_and!; try done. unfold in_buffer. fold (dlen d). lia.
    + right. cbn. apply (store_bytes_other _ _ _ _ Es). lia.
Defined.

(** Five bytes of buffers and three descriptors: the frame 1 2 3 in the first
    two, the last waiting for the next frame. Nothing is left in the pool. *)
Definition rx_bd (i : Z) : Z := EMAC_CTRL_RAM_0_BASE + SIZEOF_BDP * (NUM_TX + i).
Definition demo_d1 : bdp := mk_bdp (hdkif_swizzle_data (rx_bd 1)) (hdkif_swizzle_data 0x20b24) (hdkif_swizzle_data 2)
  (hdkif_swizzle_data (Z.lor EMAC_BUF_DESC_SOP 3)) 0x20b14.
Definition demo_d2 : bdp := mk_bdp (hdkif_swizzle_data (rx_bd 2)) (hdkif_swizzle_data 0x2059c) (hdkif_swizzle_data 1)
  (hdkif_swizzle_data EMAC_BUF_DESC_EOP) 0x2058c.
Definition demo_d3 : bdp := mk_bdp 0 (hdkif_swizzle_data 0x20014) (hdkif_swizzle_data 1400)
  (hdkif_swizzle_data EMAC_BUF_DESC_OWNER) 0x20004.
Definition demo_rx : eth receiver pool pool ram_heap unit :=
  mk_eth (mk_hw (Some (rx_bd 2, [9])) ∅ (list_to_map [(rx_bd 0, demo_d1); (rx_bd 1, demo_d2); (rx_bd 2, demo_d3)]))
    (mk_hdkif 0 EMAC_0_BASE EMAC_CTRL_0_BASE EMAC_CTRL_RAM_0_BASE (mk_txch 0 0 0) (mk_rxch 0 (rx_bd 0) (rx_bd 2) 0))
    (mk_netif 6 [] 0 0 (0, 0) 0) 0 (mk_vim [] [])
    (mk_pheap (match pool_malloc used_pool with Ok (_, ps) => ps | Fault _ => used_pool end) (rom_st fresh) heap0
       (<[0x20004 := mk_pbuf 0 0x20014 1400 1400 (u8 (pbuf_type_val PBUF_POOL)) 0 1 NETIF_NO_INDEX]> (pbufs (used 1)))
       (<[0x20014 := 0]> (bytes (used 1)))) tt.

Definition demo_b1 : pbuf := mk_pbuf 0x2058c 0x20b24 5 2 (u8 (pbuf_type_val PBUF_POOL)) 0 1 NETIF_NO_INDEX.
Definition demo_b2 : pbuf := mk_pbuf 0 0x2059c 3 3 (u8 (pbuf_type_val PBUF_POOL)) 0 1 NETIF_NO_INDEX.

Lemma demo_rx_ready :
  rx_ready demo_rx (rx_bd 0) demo_d1 demo_b1 [(rx_bd 1, demo_d2, demo_b2)] (rx_bd 2) 0x20004 [1; 2; 3].
Proof.
  split.
  - cbn [rx_frame]. split_and!; try (by vm_compute).
    change (is_rx (rx_bd 2) /\ exists y, bds (dev demo_rx) !! rx_bd 2 = Some y /\ bd_pbuf y = 0x20004).
    split; [by vm_compute|]. by exists demo_d3.
  - split; [by apply (bool_decide_unpack _); vm_compute|]. by repeat constructor.
  - by vm_compute; lia.
  - by vm_compute.
  - exists [1; 2], [3]. split; [done|]. split; [by vm_compute|]. exists [3], []. by vm_compute.
  - intros a d b i Hin Hi (p & y & _ & Hy & Ho & Hb).
    assert (Hl : 0x20b24 <= i < 0x20b26 \/ 0x2059c <= i < 0x2059d).
    { rewrite !elem_of_cons in Hin. destruct Hin as [[= -> -> ->]|[[= -> -> ->]|[]%elem_of_nil]]; [left|right]; exact Hi. }
    unfold demo_rx in Hy. cbn [dev bds] in Hy. apply elem_of_list_to_map_2 in Hy. rewrite !elem_of_cons in Hy.
    destruct Hy as [[= -> ->]|[[= -> ->]|[[= -> ->]|[]%elem_of_nil]]]; [by vm_compute in Ho|by vm_compute in Ho|].
    unfold in_buffer in Hb. change (0x20014 <= i < 0x20014 + 1400) in Hb. lia.
Qed.

(** A frame in the last descriptor, when the pool could not replace the pbufs
    of the packets before and its pbuf ends a chain: the driver reads the pbuf
    of a descriptor that is not there. *)
Example rx_last_descriptor : hdkif_rx_inthandler 3 (fun _ => mret ERR_OK) demo_rx = Fault NullPointer.
Proof. vm_compute. reflexivity. Qed.

(* ------------------------------------------------------------------ *)
(** * Property *)

(** C26: The receive interrupt hands frames up unharmed. When the engine has
    put a frame into the buffers of one or more descriptors from
    [active_head] on, [hdkif_rx_inthandler] makes one packet of the pbufs of
    just these descriptors, linking those of different chains and cutting what
    the frame does not reach; its lengths are those of the frame, its content
    is the frame's bytes. The stack gets this packet first; no other pbuf is
    touched, and descriptors and registers wait for what the stack leaves to
    be replaced. *)
Theorem hdkif_rx_hands_up {D PP RP HP X : Type} {DM : Dma D} {OP : PoolOps PP} {OR : PoolOps RP} {OH : HeapOps HP} {RL : RxLaws D}
    n ethernet_input (s : eth D PP RP HP X) a d b l nxt nx c :
  rx_ready s a d b l nxt nx c -> rx_active_head (rx (ctl s)) = a -> fbit d SOP_BIT = true ->
  exists s', handed_up s s' a d b l c /\
    hdkif_rx_inthandler (S n) ethernet_input s =
      (_ ← ethernet_input (bd_pbuf d);
       rx_after ethernet_input n nxt (last_bd ((a, d, b) :: l)) (freed 0 ((a, d, b) :: l)) (rx_active_tail (rx (ctl s)))) s'.
Proof. apply rx_inthandler_ok. Qed.

Lemma hdkif_rx_hands_up_witness :
  exists s', handed_up demo_rx s' (rx_bd 0) demo_d1 demo_b1 [(rx_bd 1, demo_d2, demo_b2)] [1; 2; 3].
Proof.
  destruct (hdkif_rx_hands_up (RL := receiver_laws) 0 (fun _ => mret ERR_OK) demo_rx _ _ _ _ _ _ _ demo_rx_ready eq_refl)
    as (s' & Hu & _); [by vm_compute|].
  exists s'. exact Hu.
Defined.
