(* ===== verification/Links.v ===== *)
(** Linked lists in a store of records by address: what lwIP's lists of
    control blocks, interfaces and groups share. [links p l] says that
    following the link field from [p] visits the cells [l] and ends in NULL. *)

From Stdlib Require Import ZArith Lia.
From stdpp Require Import base list numbers gmap sets.
From S2P Require Import Prelude.

Open Scope Z_scope.

Section Links.
Context {A : Type} (link : A -> Z).
Implicit Types (m : gmap Z A) (l : list (Z * A)).

Fixpoint links m (p : Z) l : Prop :=
  match l with
  | [] => p = 0
  | (a, b) :: l => p = a /\ a <> 0 /\ m !! a = Some b /\ links m (link b) l
  end.

Definition first_of l : Z := match l with [] => 0 | (a, _) :: _ => a end.

Lemma links_first m p l : links m p l -> p = first_of l.
Proof using Type. destruct l as [|[a b] l]; simpl; [done|]. by intros [-> _]. Qed.

Lemma links_fun m p l l' : links m p l -> links m p l' -> l = l'.
Proof using Type.
  revert p l'. induction l as [|[a b] l IH]; intros p [|[a' b'] l'] Hl Hl'; simpl in *; [done| | |].
  - destruct Hl' as (-> & ? & _). done.
  - destruct Hl as (-> & ? & _). done.
  - destruct Hl as (-> & _ & Hb & Hl), Hl' as (-> & _ & Hb' & Hl').
    rewrite Hb in Hb'. injection Hb' as <-. f_equal. by eapply IH.
Qed.

Lemma links_suffix m p l1 l2 : links m p (l1 ++ l2) -> links m (first_of l2) l2.
Proof using Type.
  revert p. induction l1 as [|[a b] l1 IH]; intros p; simpl.
  - intros H. by rewrite <- (links_first _ _ _ H).
  - intros (_ & _ & _ & H). by eapply IH.
Qed.

Lemma links_nodup m p l : links m p l -> NoDup l.*1.
Proof using Type.
  revert p. induction l as [|[a b] l IH]; intros p H; [constructor|].
  pose proof H as (-> & Ha & Hb & Hl). rewrite fmap_cons. constructor; [|by eapply IH].
  intros ([a' b'] & Ea & Hin)%list_elem_of_fmap. cbn [fst] in Ea. subst a'.
  apply list_elem_of_split in Hin as (l1 & l2 & ->).
  pose proof (links_suffix _ _ ((a, b) :: l1) _ H) as Hs. cbn [first_of] in Hs.
  pose proof (links_fun _ _ _ _ H Hs) as E.
  apply (f_equal length) in E. simpl in E. rewrite length_app in E. simpl in E. lia.
Qed.

Lemma links_lookup m p l a b : links m p l -> (a, b) ∈ l -> m !! a = Some b /\ a <> 0.
Proof using Type.
  revert p. induction l as [|[a' b'] l IH]; intros p; simpl; [by intros _ ?%not_elem_of_nil|].
  intros (_ & Ha & Hb & Hl) [[= -> ->]|Hin]%elem_of_cons; [done|by eapply IH].
Qed.

Lemma links_length m p l : links m p l -> (length l <= stdpp.base.size m)%nat.
Proof using Type.
  intros H. pose proof (links_nodup _ _ _ H) as Hn.
  rewrite <- size_dom, <- (length_fmap fst), <- (size_list_to_set (C := gset Z)) by done.
  apply subseteq_size. intros a ([a' b] & -> & Hin)%elem_of_list_to_set%list_elem_of_fmap.
  apply elem_of_dom. exists b. by eapply links_lookup.
Qed.

(** Cells outside the list may change. *)
Lemma links_agree m m' p l : (forall a, a ∈ l.*1 -> m' !! a = m !! a) -> links m p l -> links m' p l.
Proof using Type.
  revert p. induction l as [|[a b] l IH]; intros p Hm; simpl; [done|].
  intros (-> & Ha & Hb & Hl). split_and!; [done|done| |].
  - rewrite Hm; [done|]. rewrite fmap_cons. by left.
  - apply IH; [|done]. intros c Hc. apply Hm. rewrite fmap_cons. by right.
Qed.

Lemma links_insert_out m p l a b : a ∉ l.*1 -> links m p l -> links (<[a := b]> m) p l.
Proof using Type.
  intros Ha. apply links_agree. intros c Hc. rewrite lookup_insert_ne; [done|]. by intros ->.
Qed.

(** A new cell in front. *)
Lemma links_cons m p l a b : links m p l -> a <> 0 -> a ∉ l.*1 -> link b = p ->
  links (<[a := b]> m) a ((a, b) :: l).
Proof using Type.
  intros Hl Ha Hn <-. simpl. split_and!; [done|done|by rewrite lookup_insert_eq|].
  by apply links_insert_out.
Qed.

(** A cell changed in place, its link kept. *)
Lemma links_update m p l1 a b l2 b' : links m p (l1 ++ (a, b) :: l2) -> link b' = link b ->
  links (<[a := b']> m) p (l1 ++ (a, b') :: l2).
Proof using Type.
  intros H E. pose proof (links_nodup _ _ _ H) as Hn.
  revert p H. rewrite fmap_app, fmap_cons, NoDup_app, NoDup_cons in Hn. destruct Hn as (_ & Hd & Ha & _).
  induction l1 as [|[c d] l1 IH]; intros p; simpl.
  - intros (-> & Hz & Hb & Hl). split_and!; [done|done|by rewrite lookup_insert_eq|].
    rewrite E. by apply links_insert_out.
  - intros (-> & Hz & Hc & Hl). split_and!; [done|done| |apply IH; [|done]].
    + rewrite lookup_insert_ne; [done|]. intros ->. apply (Hd c); [rewrite fmap_cons; by left|by left].
    + intros x Hx. apply Hd. rewrite fmap_cons. by right.
Qed.

(** A cell taken out of the middle, its predecessor linked past it. *)
Lemma links_unlink m p l1 c d a b l2 d' : links m p (l1 ++ (c, d) :: (a, b) :: l2) -> link d' = link b ->
  links (<[c := d']> m) p (l1 ++ (c, d') :: l2).
Proof using Type.
  intros H E. pose proof (links_nodup _ _ _ H) as Hn.
  revert p H. rewrite fmap_app, !fmap_cons, NoDup_app, !NoDup_cons in Hn. destruct Hn as (_ & Hd & Hc & _).
  induction l1 as [|[e f] l1 IH]; intros p; simpl.
  - intros (-> & Hz & Hb & Ea & Hz' & Hb' & Hl). split_and!; [done|done|by rewrite lookup_insert_eq|].
    rewrite E. apply links_insert_out; [|done]. set_solver.
  - intros (-> & Hz & He & Hl). split_and!; [done|done| |apply IH; [|done]].
    + rewrite lookup_insert_ne; [done|]. intros ->. apply (Hd e); [rewrite fmap_cons; by left|by left].
    + intros x Hx. apply Hd. rewrite fmap_cons. by right.
Qed.

Lemma links_delete m p l a : a ∉ l.*1 -> links m p l -> links (delete a m) p l.
Proof using Type.
  intros Ha. apply links_agree. intros c Hc. rewrite lookup_delete_ne; [done|]. by intros ->.
Qed.

(** The cell of an address on the list. *)
Lemma links_split m p l a : links m p l -> a ∈ l.*1 -> exists b l1 l2, l = l1 ++ (a, b) :: l2 /\ m !! a = Some b /\ a <> 0.
Proof using Type.
  intros Hl ([a' b] & -> & Hin)%list_elem_of_fmap. pose proof (links_lookup _ _ _ _ _ Hl Hin) as [Hb Ha].
  apply list_elem_of_split in Hin as (l1 & l2 & ->). by exists b, l1, l2.
Qed.

(** The first cell that passes a test, NULL if none does. *)
Fixpoint first_such (test : Z -> A -> bool) l : Z :=
  match l with [] => 0 | (a, b) :: l => if test a b then a else first_such test l end.

Lemma first_such_none test l : (forall a b, (a, b) ∈ l -> test a b = false) -> first_such test l = 0.
Proof using Type.
  induction l as [|[a b] l IH]; intros H; simpl; [done|]. rewrite H by by left. apply IH. intros c d Hc.
  apply H. by right.
Qed.

Lemma first_such_some m p test l : links m p l -> first_such test l <> 0 ->
  exists l1 a b l2, l = l1 ++ (a, b) :: l2 /\ first_such test l = a /\ test a b = true /\
    (forall c d, (c, d) ∈ l1 -> test c d = false).
Proof using Type.
  revert p. induction l as [|[a b] l IH]; intros p; simpl; [done|]. intros (_ & _ & _ & Hl) H.
  destruct (test a b) eqn:E.
  - exists [], a, b, l. split_and!; try done. by intros ? ? ?%not_elem_of_nil.
  - destruct (IH _ Hl H) as (l1 & c & d & l2 & -> & ? & ? & Hn). exists ((a, b) :: l1), c, d, l2.
    split_and!; try done. intros e f [[= -> ->]|He]%elem_of_cons; [done|by eapply Hn].
Qed.

Lemma first_such_zero m p test l : links m p l -> first_such test l = 0 ->
  forall a b, (a, b) ∈ l -> test a b = false.
Proof using Type.
  revert p. induction l as [|[a b] l IH]; intros p; simpl; [by intros _ _ ? ? ?%not_elem_of_nil|].
  intros (_ & Ha & _ & Hl) H c d. destruct (test a b) eqn:E; [done|].
  intros [[= -> ->]|Hin]%elem_of_cons; [done|by eapply IH].
Qed.
End Links.
