(* ===== verification/Ip6Addr.v ===== *)
(** IPv6 addresses: core/ipv6/ip6_addr.c and the classifications of
    lwip/ip6_addr.h the stack uses.

    With one interface ([LWIP_SINGLE_NETIF]) addresses carry no zone, and on
    a big-endian processor [lwip_htonl] is the identity, so that an address
    is its four 32-bit words. Text is the list of the characters before the
    terminating NUL. *)

From Stdlib Require Import ZArith Lia.
From stdpp Require Import base list numbers.
From S2P Require Import Prelude.

Open Scope Z_scope.

(* ------------------------------------------------------------------ *)
(** * Addresses *)

Record ip6_addr := mk_ip6 { addr : list Z }.

#[export] Instance ip6_addr_eq_dec : EqDecision ip6_addr.
Proof. solve_decision. Defined.

Definition IP6_ADDR (a b c d : Z) : ip6_addr := mk_ip6 [a; b; c; d].

(** [lwip_htonl], big-endian. *)
Definition lwip_htonl (x : Z) : Z := u32 x.
Definition lwip_htons (x : Z) : Z := u16 x.

(** A word of an address object, which has all four. *)
Definition word (a : ip6_addr) (i : Z) : Z := default 0 (addr a !! Z.to_nat i).

Definition ip6_addr_net_zoneless_eq (a b : ip6_addr) : bool :=
  (word a 0 =? word b 0) && (word a 1 =? word b 1).
Definition ip6_addr_net_eq := ip6_addr_net_zoneless_eq.
Definition ip6_addr_zoneless_eq (a b : ip6_addr) : bool :=
  (word a 0 =? word b 0) && (word a 1 =? word b 1) && (word a 2 =? word b 2) && (word a 3 =? word b 3).
Definition ip6_addr_eq := ip6_addr_zoneless_eq.
Definition ip6_addr_isany_val (a : ip6_addr) : bool :=
  (word a 0 =? 0) && (word a 1 =? 0) && (word a 2 =? 0) && (word a 3 =? 0).
(** NULL is [None]. *)
Definition ip6_addr_isany (a : option ip6_addr) : bool :=
  match a with None => true | Some a => ip6_addr_isany_val a end.
Definition ip6_addr_isloopback (a : ip6_addr) : bool :=
  (word a 0 =? 0) && (word a 1 =? 0) && (word a 2 =? 0) && (word a 3 =? 0x00000001).
Definition ip6_addr_isglobal (a : ip6_addr) : bool := Z.land (word a 0) 0xe0000000 =? 0x20000000.
Definition ip6_addr_islinklocal (a : ip6_addr) : bool := Z.land (word a 0) 0xffc00000 =? 0xfe800000.
Definition ip6_addr_issitelocal (a : ip6_addr) : bool := Z.land (word a 0) 0xffc00000 =? 0xfec00000.
Definition ip6_addr_isuniquelocal (a : ip6_addr) : bool := Z.land (word a 0) 0xfe000000 =? 0xfc000000.
Definition ip6_addr_isipv4mappedipv6 (a : ip6_addr) : bool :=
  (word a 0 =? 0) && (word a 1 =? 0) && (word a 2 =? 0x0000FFFF).
Definition ip6_addr_ismulticast (a : ip6_addr) : bool := Z.land (word a 0) 0xff000000 =? 0xff000000.
Definition ip6_addr_multicast_scope (a : ip6_addr) : Z :=
  Z.land (Z.shiftr (lwip_htonl (word a 0)) 16) 0xf.
Definition ip6_addr_ismulticast_iflocal (a : ip6_addr) : bool :=
  Z.land (word a 0) 0xff8f0000 =? 0xff010000.
Definition ip6_addr_ismulticast_linklocal (a : ip6_addr) : bool :=
  Z.land (word a 0) 0xff8f0000 =? 0xff020000.
Definition ip6_addr_isallnodes_iflocal (a : ip6_addr) : bool :=
  (word a 0 =? 0xff010000) && (word a 1 =? 0) && (word a 2 =? 0) && (word a 3 =? 0x00000001).
Definition ip6_addr_isallnodes_linklocal (a : ip6_addr) : bool :=
  (word a 0 =? 0xff020000) && (word a 1 =? 0) && (word a 2 =? 0) && (word a 3 =? 0x00000001).
Definition ip6_addr_set_allnodes_linklocal : ip6_addr := IP6_ADDR 0xff020000 0 0 0x00000001.
Definition ip6_addr_set_allrouters_linklocal : ip6_addr := IP6_ADDR 0xff020000 0 0 0x00000002.
Definition ip6_addr_issolicitednode (a : ip6_addr) : bool :=
  (word a 0 =? 0xff020000) && (word a 2 =? 0x00000001) &&
  (Z.land (word a 3) 0xff000000 =? 0xff000000).
Definition ip6_addr_set_solicitednode (if_id : Z) : ip6_addr :=
  IP6_ADDR 0xff020000 0 0x00000001 (Z.lor 0xff000000 if_id).
Definition ip6_addr_solicitednode_eq (a sn_addr : ip6_addr) : bool :=
  (word a 0 =? 0xff020000) && (word a 1 =? 0) && (word a 2 =? 0x00000001) &&
  (word a 3 =? Z.lor 0xff000000 (word sn_addr 3)).

(* ------------------------------------------------------------------ *)
(** * Characters *)

Definition in_range (c lo up : Z) : bool := (lo <=? c) && (c <=? up).
Definition lwip_isdigit (c : Z) : bool := in_range c 48 57.
Definition lwip_isxdigit (c : Z) : bool :=
  lwip_isdigit c || in_range c 97 102 || in_range c 65 70.
Definition lwip_islower (c : Z) : bool := in_range c 97 122.
(** [':']. *)
Definition colon : Z := 58.

Definition lwip_xchar (i : Z) : Z := if i <? 10 then 48 + i else 65 + i - 10.

(* ------------------------------------------------------------------ *)
(** * [ip6addr_aton] *)

(** The variables of the function; [p_addr] is what [addr] points to, NULL
    is [None]. *)
Record parser := mk_parser {
  p_addr : option ip6_addr;
  addr_index : Z;
  zero_blocks : Z;
  current_block_index : Z;
  current_block_value : Z
}.

Definition set_p_addr (a : option ip6_addr) (s : parser) : parser :=
  mk_parser a (addr_index s) (zero_blocks s) (current_block_index s) (current_block_value s).
Definition set_addr_index (i : Z) (s : parser) : parser :=
  mk_parser (p_addr s) (u32 i) (zero_blocks s) (current_block_index s) (current_block_value s).
Definition set_zero_blocks (n : Z) (s : parser) : parser :=
  mk_parser (p_addr s) (addr_index s) (u32 n) (current_block_index s) (current_block_value s).
Definition set_block_index (i : Z) (s : parser) : parser :=
  mk_parser (p_addr s) (addr_index s) (zero_blocks s) (u32 i) (current_block_value s).
Definition set_block_value (v : Z) (s : parser) : parser :=
  mk_parser (p_addr s) (addr_index s) (zero_blocks s) (current_block_index s) (u32 v).

(** The loop that counts the colons before the first other character. *)
Fixpoint count_blocks (cp : list Z) (zero_blocks : Z) : Z :=
  match cp with
  | [] => zero_blocks
  | c :: cp =>
      if c =? colon then count_blocks cp (u32 (zero_blocks - 1))
      else if negb (lwip_isxdigit c) then zero_blocks
      else count_blocks cp zero_blocks
  end.

Definition odd (n : Z) : bool := negb (Z.land n 0x1 =? 0).

(** [addr->addr[addr_index] = v]. *)
Definition store_word (s : parser) (a : ip6_addr) (v : Z) : outcome parser :=
  l ← wr (addr a) (addr_index s) (u32 v); Ok (set_p_addr (Some (mk_ip6 l)) s).

(** The block read so far goes to its half of the word. *)
Definition put_block (s : parser) : outcome parser :=
  match p_addr s with
  | None => Ok s
  | Some a =>
      if odd (current_block_index s) then
        w ← rd (addr a) (addr_index s);
        s ← store_word s a (Z.lor w (current_block_value s));
        Ok (set_addr_index (addr_index s + 1) s)
      else store_word s a (Z.shiftl (current_block_value s) 16)
  end.

(** How a loop leaves: by falling through or with [return 0]. *)
Inductive step_result := Continue (s : parser) | Return0 (s : parser).

(** [while (zero_blocks > 0)]. *)
Fixpoint zero_loop (fuel : nat) (s : parser) : outcome step_result :=
  if 0 <? zero_blocks s then
    match fuel with
    | O => Fault Diverges
    | S fuel =>
        let s := set_zero_blocks (zero_blocks s - 1) s in
        s ← (if odd (current_block_index s) then Ok (set_addr_index (addr_index s + 1) s)
             else match p_addr s with None => Ok s | Some a => store_word s a 0 end);
        let s := set_block_index (current_block_index s + 1) s in
        if 7 <? current_block_index s then Ok (Return0 s) else zero_loop fuel s
    end
  else Ok (Continue s).

(** A block index is at most 7 when the loop is entered. *)
Definition zero_fuel : nat := 8.

Definition digit_value (c : Z) : Z :=
  if lwip_isdigit c then u32 (c - 48)
  else u32 (10 + (if lwip_islower c then c - 97 else c - 65)).

(** [for (s = cp; *s != 0; s++)]. *)
Fixpoint parse_loop (cp : list Z) (s : parser) : outcome step_result :=
  match cp with
  | [] => Ok (Continue s)
  | c :: cp =>
      if c =? colon then
        s ← put_block s;
        let s := set_block_index (current_block_index s + 1) s in
        let s := set_block_value 0 s in
        if 7 <? current_block_index s then Ok (Return0 s)
        else
          match cp with
          | c1 :: cp1 =>
              if c1 =? colon then
                if bool_decide (head cp1 = Some colon) then Ok (Return0 s)
                else
                  r ← zero_loop zero_fuel s;
                  match r with
                  | Return0 s => Ok (Return0 s)
                  | Continue s => parse_loop cp1 s
                  end
              else parse_loop cp s
          | [] => parse_loop cp s
          end
      else if lwip_isxdigit c then
        parse_loop cp (set_block_value (Z.shiftl (current_block_value s) 4 + digit_value c) s)
      else Ok (Continue s)
  end.

(** The words in network byte order. *)
Definition to_network (a : ip6_addr) : ip6_addr := mk_ip6 (lwip_htonl <$> addr a).

Definition ip6addr_aton (cp : list Z) (a : option ip6_addr) : outcome (Z * option ip6_addr) :=
  r ← parse_loop cp (mk_parser a 0 (count_blocks cp 8) 0 0);
  match r with
  | Return0 s => Ok (0, p_addr s)
  | Continue s =>
      s ← put_block s;
      Ok (if negb (current_block_index s =? 7) then 0 else 1, to_network <$> p_addr s)
  end.

(* ------------------------------------------------------------------ *)
(** * [ip6addr_ntoa_r] *)

(** [buf], its index [i] and the flags of the loop. *)
Record printer := mk_printer { buf : list Z; pos : Z; empty_block_flag : Z; zero_flag : Z }.

Definition set_empty_flag (v : Z) (s : printer) : printer :=
  mk_printer (buf s) (pos s) v (zero_flag s).
Definition set_zero_flag (v : Z) (s : printer) : printer :=
  mk_printer (buf s) (pos s) (empty_block_flag s) v.

(** [buf[i++] = c; if (i >= buflen) return NULL;], NULL being [None]. *)
Definition emit (buflen : Z) (c : Z) (s : printer) : outcome (option printer) :=
  b ← wr (buf s) (pos s) c;
  let s := mk_printer b (pos s + 1) (empty_block_flag s) (zero_flag s) in
  Ok (if buflen <=? pos s then None else Some s).

(** Sequencing past [return NULL]. *)
Definition or_null {A} (m : outcome (option A)) (k : A -> outcome (option A)) : outcome (option A) :=
  r ← m; match r with None => Ok None | Some s => k s end.

(** One 16-bit block of the address. *)
Definition block_value (a : ip6_addr) (index : Z) : outcome Z :=
  w ← rd (addr a) (Z.shiftr index 1);
  let v := lwip_htonl w in
  Ok (Z.land (if Z.land index 0x1 =? 0 then Z.shiftr v 16 else v) 0xffff).

(** [lwip_htonl(addr->addr[(current_block_index + 1) >> 1])] and its shift. *)
Definition next_block (a : ip6_addr) (index : Z) : outcome Z :=
  w ← rd (addr a) (Z.shiftr (index + 1) 1);
  let v := lwip_htonl w in
  Ok (Z.land (if Z.land index 0x1 =? 0x01 then Z.shiftr v 16 else v) 0xffff).

(** One hexadecimal digit, left out while only zeros were met. *)
Definition emit_digit (buflen v mask shift : Z) (s : printer) : outcome (option printer) :=
  if (Z.land v mask =? 0) && negb (zero_flag s =? 0) then Ok (Some s)
  else
    or_null (emit buflen (lwip_xchar (Z.shiftr (Z.land v mask) shift)) s)
      (fun s => Ok (Some (set_zero_flag 0 s))).

(** The part of the loop that prints a block: the separator, then up to four
    digits. *)
Definition emit_block (buflen index v : Z) (s : printer) : outcome (option printer) :=
  or_null (if 0 <? index then emit buflen colon s else Ok (Some s)) (fun s =>
  or_null (if Z.land v 0xf000 =? 0 then Ok (Some (set_zero_flag 1 s))
           else
             or_null (emit buflen (lwip_xchar (Z.shiftr (Z.land v 0xf000) 12)) s)
               (fun s => Ok (Some (set_zero_flag 0 s)))) (fun s =>
  or_null (emit_digit buflen v 0xf00 8 s) (fun s =>
  or_null (emit_digit buflen v 0xf0 4 s) (fun s =>
  emit buflen (lwip_xchar (Z.land v 0xf)) s)))).

(** One turn of the loop. [break] only happens at the last block, where it is
    [continue]. *)
Definition print_block (a : ip6_addr) (buflen index : Z) (s : printer) : outcome (option printer) :=
  v ← block_value a index;
  if v =? 0 then
    if (index =? 7) && (empty_block_flag s =? 1) then emit buflen colon s
    else if empty_block_flag s =? 0 then
      nv ← next_block a index;
      if nv =? 0 then emit buflen colon (set_empty_flag 1 s)
      else emit_block buflen index v s
    else if empty_block_flag s =? 1 then Ok (Some s)
    else emit_block buflen index v s
  else
    emit_block buflen index v (if empty_block_flag s =? 1 then set_empty_flag 2 s else s).

(** The loop from block [index] with [n] blocks left. *)
Fixpoint print_loop (n : nat) (a : ip6_addr) (buflen index : Z) (s : printer) : outcome (option printer) :=
  match n with
  | O => Ok (Some s)
  | S n => or_null (print_block a buflen index s) (print_loop n a buflen (index + 1))
  end.

(** NULL, or the buffer with a terminated string. *)
Definition ip6addr_ntoa_r (a : ip6_addr) (b : list Z) (buflen : Z) : outcome (option (list Z)) :=
  r ← print_loop 8 a buflen 0 (mk_printer b 0 0 0);
  match r with
  | None => Ok None
  | Some s => b ← wr (buf s) (pos s) 0; Ok (Some b)
  end.

(** The static buffer has 40 characters. *)
Definition ip6addr_ntoa (a : ip6_addr) (str : list Z) : outcome (option (list Z)) :=
  ip6addr_ntoa_r a str 40.

(** The string a buffer holds. *)
Fixpoint c_string (b : list Z) : list Z :=
  match b with
  | [] => []
  | c :: b => if c =? 0 then [] else c :: c_string b
  end.

(* ------------------------------------------------------------------ *)
(** * Blocks and digits *)

(** The address with the 16-bit blocks [bs]. *)
Fixpoint words_of (bs : list Z) : list Z :=
  match bs with
  | b0 :: b1 :: bs => (b0 * 65536 + b1) :: words_of bs
  | _ => []
  end.
Definition blocks_ok (bs : list Z) : Prop := length bs = 8%nat /\ Forall is_u16 bs.

Lemma blocks_split bs : blocks_ok bs -> exists b0 b1 b2 b3 b4 b5 b6 b7,
  bs = [b0; b1; b2; b3; b4; b5; b6; b7] /\ is_u16 b0 /\ is_u16 b1 /\ is_u16 b2 /\ is_u16 b3 /\
  is_u16 b4 /\ is_u16 b5 /\ is_u16 b6 /\ is_u16 b7.
Proof.
  intros [Hl Hf]. do 8 (destruct bs as [|? bs]; [done|]). destruct bs; [|done].
  rewrite !Forall_cons_iff in Hf. eexists _, _, _, _, _, _, _, _. naive_solver.
Qed.

(** Every address is that of its blocks. *)
Definition wf_ip6 (a : ip6_addr) : Prop := length (addr a) = 4%nat /\ Forall is_u32 (addr a).

Lemma wf_ip6_blocks a : wf_ip6 a -> exists bs, blocks_ok bs /\ addr a = words_of bs.
Proof.
  intros [Hl Hf]. destruct a as [[|a [|b [|c [|d [|]]]]]]; try done. cbn [addr] in *.
  rewrite !Forall_cons_iff in Hf. destruct Hf as (Ha & Hb & Hc & Hd & _).
  exists [a / 65536; a mod 65536; b / 65536; b mod 65536; c / 65536; c mod 65536; d / 65536; d mod 65536].
  split; [|cbn; repeat f_equal; ulia].
  split; [done|]. rewrite !Forall_cons_iff. split_and!; try done; ulia.
Qed.

Lemma block_value_spec bs i b : blocks_ok bs -> 0 <= i -> bs !! Z.to_nat i = Some b ->
  block_value (mk_ip6 (words_of bs)) i = Ok b.
Proof.
  intros (b0 & b1 & b2 & b3 & b4 & b5 & b6 & b7 & -> & ? & ? & ? & ? & ? & ? & ? & ?)%blocks_split Hi Hb.
  pose proof (lookup_lt_Some _ _ _ Hb) as Hlt. cbn [length] in Hlt.
  assert (Hs : forall hi lo, is_u16 hi -> is_u16 lo ->
    Z.land (Z.shiftr (lwip_htonl (hi * 65536 + lo)) 16) 65535 = hi /\
    Z.land (lwip_htonl (hi * 65536 + lo)) 65535 = lo).
  { intros hi lo Hh Hlo. unfold lwip_htonl. rewrite !land_65535, Z.shiftr_div_pow2 by lia. split; ulia. }
  assert (i = 0 \/ i = 1 \/ i = 2 \/ i = 3 \/ i = 4 \/ i = 5 \/ i = 6 \/ i = 7) as C by lia.
  repeat (destruct C as [->|C]); try subst i; cbn in Hb; injection Hb as <-; unfold block_value; cbn [addr words_of];
    (erewrite (proj2 (rd_ok _ _ _)) by (split; [|reflexivity]; done)); cbn [mbind outcome_bind];
    f_equal; cbn -[Z.land Z.shiftr lwip_htonl]; by apply Hs.
Qed.

Lemma land_1 a : Z.land a 0x1 = a mod 2.
Proof. by apply (land_ones_mod a 1). Qed.

Lemma next_block_spec bs i b : blocks_ok bs -> 0 <= i -> bs !! Z.to_nat (i + 1) = Some b ->
  next_block (mk_ip6 (words_of bs)) i = Ok b.
Proof.
  intros Hbs Hi Hb. rewrite <- (block_value_spec bs (i + 1) b Hbs ltac:(lia) Hb).
  unfold next_block, block_value. destruct (rd _ _) as [w|]; [|done]. cbn [mbind outcome_bind].
  rewrite !land_1.
  destruct (Z.eqb_spec (i mod 2) 1), (Z.eqb_spec ((i + 1) mod 2) 0); try done; exfalso; ulia.
Qed.

Lemma next_block_over bs : length bs = 8%nat -> next_block (mk_ip6 (words_of bs)) 7 = Fault OutOfBounds.
Proof. intros Hl. by do 9 (destruct bs as [|? bs]; try done). Qed.

(** The digits printed for a block. *)
Definition hex (v : Z) : list Z :=
  (if v <? 0x1000 then [] else [lwip_xchar (v / 0x1000)]) ++
  (if v <? 0x100 then [] else [lwip_xchar (v / 0x100 mod 16)]) ++
  (if v <? 0x10 then [] else [lwip_xchar (v / 0x10 mod 16)]) ++
  [lwip_xchar (v mod 16)].

Lemma xchar_digit d : 0 <= d < 16 ->
  lwip_isxdigit (lwip_xchar d) = true /\ (lwip_xchar d =? colon) = false /\
  digit_value (lwip_xchar d) = d /\ lwip_xchar d <> 0.
Proof.
  intros Hd. assert (Hc : (lwip_isxdigit (lwip_xchar d) && negb (lwip_xchar d =? colon) &&
    (digit_value (lwip_xchar d) =? d) && negb (lwip_xchar d =? 0)) = true).
  { pattern d. match goal with |- ?p d => set (P := p) end.
    assert (Hall : forallb (fun d => bool_decide (P d)) (seqZ 0 16) = true) by (vm_compute; reflexivity).
    rewrite forallb_forall in Hall. apply (bool_decide_unpack _). rewrite Hall; [done|].
    apply list_elem_of_In, elem_of_seqZ. lia. }
  rewrite !andb_true_iff, !negb_true_iff, Z.eqb_eq, (Z.eqb_neq _ 0) in Hc. naive_solver.
Qed.

Lemma hex_length v : 1 <= zlen (hex v) <= 4.
Proof. unfold hex. repeat case_match; simpl; lia. Qed.

Lemma count_xdigit d r z : 0 <= d < 16 -> count_blocks (lwip_xchar d :: r) z = count_blocks r z.
Proof. intros Hd. destruct (xchar_digit d Hd) as (H1 & H2 & _). simpl. by rewrite H1, H2. Qed.

Lemma count_hex v r z : is_u16 v -> count_blocks (hex v ++ r) z = count_blocks r z.
Proof.
  unfold hex, is_u16. intros Hv. zcase; simpl app; rewrite ?count_xdigit by ulia; done.
Qed.

Lemma parse_xdigit d r s : 0 <= d < 16 ->
  parse_loop (lwip_xchar d :: r) s =
    parse_loop r (set_block_value (current_block_value s * 16 + d) s).
Proof.
  intros Hd. destruct (xchar_digit d Hd) as (H1 & H2 & H3 & _). cbn [parse_loop].
  rewrite H2, H1, H3, Z.shiftl_mul_pow2 by lia. done.
Qed.

Lemma parse_hex v r s : is_u16 v -> current_block_value s = 0 ->
  parse_loop (hex v ++ r) s = parse_loop r (set_block_value v s).
Proof.
  unfold hex, is_u16. intros Hv Hs. zcase; simpl app; rewrite ?parse_xdigit by ulia;
    f_equal; unfold set_block_value; cbn [current_block_value p_addr addr_index zero_blocks current_block_index];
    rewrite ?Hs; f_equal; ulia.
Qed.

(* ------------------------------------------------------------------ *)
(** * What is printed *)

(** The text as separators and numbered blocks. *)
Inductive tok := TColon | THex (j : nat).
#[export] Instance tok_eq_dec : EqDecision tok.
Proof. solve_decision. Defined.

(** The printer on the list of which blocks are zero, from block [i] on; [None] when it
    reads past the address. *)
Fixpoint tokens (i : nat) (flag : Z) (zs : list bool) : option (list tok) :=
  let sep := match i with O => [] | S _ => [TColon] end in
  match zs with
  | [] => Some []
  | z :: zs' =>
      let block f := ts ← tokens (S i) f zs'; Some (sep ++ THex i :: ts) in
      if z then
        if bool_decide (i = 7%nat) && (flag =? 1) then Some [TColon]
        else if flag =? 0 then
          match zs' with
          | [] => None
          | true :: _ => ts ← tokens (S i) 1 zs'; Some (TColon :: ts)
          | false :: _ => block flag
          end
        else if flag =? 1 then tokens (S i) flag zs'
        else block flag
      else block (if flag =? 1 then 2 else flag)
  end.

Definition render1 (bs : list Z) (t : tok) : list Z :=
  match t with TColon => [colon] | THex j => hex (nth j bs 0) end.
Definition render (bs : list Z) (ts : list tok) : list Z := ts ≫= render1 bs.

Lemma render_app bs ts us : render bs (ts ++ us) = render bs ts ++ render bs us.
Proof. apply bind_app. Qed.

Section Printing.
Context (n buflen : Z) (Hbuf : buflen <= n).

(** The printer after the text [out]. *)
Definition printed (s : printer) (out : list Z) (flag : Z) : Prop :=
  (exists rest, buf s = out ++ rest) /\ pos s = zlen out /\ zlen (buf s) = n /\ empty_block_flag s = flag.

Lemma emit_spec s out flag c : printed s out flag -> zlen out + 1 < buflen ->
  exists s', emit buflen c s = Ok (Some s') /\ printed s' (out ++ [c]) flag /\ zero_flag s' = zero_flag s.
Proof.
  intros ([rest Hb] & Hp & Hl & Hf) Hlt. unfold emit.
  destruct rest as [|x rest]; [rewrite Hb, length_app in Hl; simpl in Hl; lia|].
  rewrite Hb, wr_snoc by done. cbn [mbind outcome_bind pos]. zcase. eexists. split; [reflexivity|].
  unfold printed. cbn [buf pos empty_block_flag zero_flag].
  split_and!; [by exists rest| | |done|done];
    rewrite !length_app in *; rewrite Hb, length_app in Hl; simpl in *; lia.
Qed.

Lemma set_zero_flag_printed s out flag v : printed s out flag -> printed (set_zero_flag v s) out flag.
Proof. done. Qed.

Lemma set_empty_flag_printed s out flag v : printed s out flag -> printed (set_empty_flag v s) out v.
Proof. unfold printed. cbn. naive_solver. Qed.

(** A digit that may be left out; [b] says whether only zeros came before. *)
Lemma emit_digit_spec s out flag (v mask shift d : Z) (b : bool) :
  printed s out flag -> zlen out + 1 < buflen -> 0 <= d ->
  Z.land v mask = d * 2 ^ shift -> 0 <= shift -> negb (zero_flag s =? 0) = b ->
  exists s', emit_digit buflen v mask shift s = Ok (Some s') /\
    printed s' (out ++ (if (d =? 0) && b then [] else [lwip_xchar d])) flag /\
    negb (zero_flag s' =? 0) = (d =? 0) && b.
Proof.
  intros Hp Hlt Hd E Hsh Hb. unfold emit_digit. rewrite E, Hb, Z.shiftr_div_pow2 by done.
  rewrite Z.div_mul by (apply Z.pow_nonzero; lia).
  replace (d * 2 ^ shift =? 0) with (d =? 0)
    by (pose proof (Z.pow_pos_nonneg 2 shift ltac:(lia) Hsh); destruct (Z.eqb_spec d 0), (Z.eqb_spec (d * 2 ^ shift) 0); nia).
  destruct ((d =? 0) && b) eqn:Eb.
  - exists s. rewrite app_nil_r. split_and!; [done|done|]. rewrite Hb. by destruct (d =? 0), b.
  - destruct (emit_spec s out flag (lwip_xchar d) Hp Hlt) as (s1 & -> & Hp1 & _). cbn [or_null mbind outcome_bind].
    eexists. split; [reflexivity|]. split; [by apply set_zero_flag_printed|done].
Qed.

Lemma nibble v k : 0 <= k -> Z.land v (15 * 2 ^ k) = (v / 2 ^ k mod 16) * 2 ^ k.
Proof.
  intros Hk. change 15 with (Z.ones 4). rewrite <- !Z.shiftl_mul_pow2, <- Z.shiftr_div_pow2 by done.
  apply Z.bits_inj'. intros m Hm. rewrite Z.land_spec, !Z.shiftl_spec by done.
  change (Z.shiftr v k mod 16) with (Z.shiftr v k mod 2 ^ 4). rewrite <- Z.land_ones, Z.land_spec by lia.
  destruct (Z.lt_ge_cases m k); [rewrite !(Z.testbit_neg_r _ (m - k)) by lia; by rewrite andb_false_r|].
  rewrite Z.shiftr_spec by lia. by replace (m - k + k) with m by lia.
Qed.

Lemma emit_block_spec s out flag index v :
  printed s out flag -> is_u16 v -> zlen out + 5 < buflen + (if 0 <? index then 0 else 1) ->
  exists s', emit_block buflen index v s = Ok (Some s') /\
    printed s' (out ++ (if 0 <? index then [colon] else []) ++ hex v) flag.
Proof.
  intros Hp Hv Hlt. unfold emit_block.
  assert (exists s0, (if 0 <? index then emit buflen colon s else Ok (Some s)) = Ok (Some s0) /\
    printed s0 (out ++ (if 0 <? index then [colon] else [])) flag) as (s0 & -> & Hp0).
  { destruct (0 <? index).
    - destruct (emit_spec s out flag colon Hp ltac:(lia)) as (s0 & -> & ? & _). by exists s0.
    - exists s. by rewrite app_nil_r. }
  rewrite (app_assoc out). set (o := out ++ _) in *.
  assert (Ho : zlen o + 4 < buflen).
  { unfold o. rewrite length_app. destruct (0 <? index); simpl; lia. }
  clearbody o. clear Hp Hlt. unfold or_null at 1. cbn [mbind outcome_bind].
  destruct (emit_digit_spec (set_zero_flag 1 s0) o flag v 0xf000 12 (v / 4096 mod 16) true)
    as (s1 & E1 & Hp1 & Hz1); [done|lia|ulia|apply (nibble v 12); lia|lia|done|].
  assert (E1' : (if Z.land v 0xf000 =? 0 then Ok (Some (set_zero_flag 1 s0))
    else or_null (emit buflen (lwip_xchar (Z.shiftr (Z.land v 0xf000) 12)) s0)
      (fun s => Ok (Some (set_zero_flag 0 s)))) = Ok (Some s1)).
  { rewrite <- E1. unfold emit_digit. cbn [zero_flag set_zero_flag].
    destruct (Z.land v 0xf000 =? 0); [done|]. simpl. unfold emit. cbn [buf pos set_zero_flag].
    destruct (wr _ _ _); [|done]. cbn. by destruct (buflen <=? _). }
  rewrite E1'. unfold or_null at 1. cbn [mbind outcome_bind]. clear E1 E1'.
  match type of Hp1 with printed _ ?o1 _ => assert (Ho1 : zlen o1 + 3 < buflen);
    [rewrite length_app; case_match; simpl; lia|set (o1' := o1) in *] end.
  destruct (emit_digit_spec s1 o1' flag v 0xf00 8 (v / 256 mod 16) _ Hp1 ltac:(lia) ltac:(ulia)
    (nibble v 8 ltac:(lia)) ltac:(lia) Hz1) as (s2 & -> & Hp2 & Hz2).
  unfold or_null at 1. cbn [mbind outcome_bind].
  match type of Hp2 with printed _ ?o2 _ => assert (Ho2 : zlen o2 + 2 < buflen);
    [rewrite length_app; case_match; simpl; lia|set (o2' := o2) in *] end.
  destruct (emit_digit_spec s2 o2' flag v 0xf0 4 (v / 16 mod 16) _ Hp2 ltac:(lia) ltac:(ulia)
    (nibble v 4 ltac:(lia)) ltac:(lia) Hz2) as (s3 & -> & Hp3 & _).
  unfold or_null at 1. cbn [mbind outcome_bind].
  match type of Hp3 with printed _ ?o3 _ => assert (Ho3 : zlen o3 + 1 < buflen);
    [rewrite length_app; case_match; simpl; lia|] end.
  rewrite (land_ones_mod v 4) by done.
  destruct (emit_spec s3 _ flag (lwip_xchar (v mod 2 ^ 4)) Hp3 Ho3) as (s4 & -> & Hp4 & _).
  exists s4. split; [done|]. revert Hp4. unfold o2', o1', hex, is_u16 in *. change (2 ^ 4) with 16.
  rewrite <- !app_assoc. intros Hp4.
  match goal with |- printed _ ?a _ => match type of Hp4 with printed _ ?b _ =>
    replace a with b; [done|] end end.
  f_equal.
  destruct (Z.ltb_spec v 0x1000), (Z.ltb_spec v 0x100), (Z.ltb_spec v 0x10); try lia;
    destruct (Z.eqb_spec (v / 4096 mod 16) 0), (Z.eqb_spec (v / 256 mod 16) 0), (Z.eqb_spec (v / 16 mod 16) 0);
    try (exfalso; ulia); simpl; try done.
  all: replace (v / 4096 mod 16) with (v / 4096) by ulia; done.
Qed.

(** The text is at most 39 characters: four digits and a separator a block. *)
Definition short (i : nat) (out : list Z) : Prop :=
  zlen out <= 5 * Z.of_nat i - (match i with O => 0 | S _ => 1 end).

Context (bs : list Z) (Hbs : blocks_ok bs) (Hlen : 40 <= buflen).

Definition prints (k i : nat) (s : printer) (out : list Z) (r : option (list tok)) : Prop :=
  match r with
  | None => print_loop k (mk_ip6 (words_of bs)) buflen (Z.of_nat i) s = Fault OutOfBounds
  | Some ts => exists s' f', print_loop k (mk_ip6 (words_of bs)) buflen (Z.of_nat i) s = Ok (Some s') /\
      printed s' (out ++ render bs ts) f' /\ short (i + k) (out ++ render bs ts)
  end.

(** A turn of the loop that prints [us], then the rest. *)
Lemma prints_turn k i s s1 out us f r :
  print_block (mk_ip6 (words_of bs)) buflen (Z.of_nat i) s = Ok (Some s1) ->
  printed s1 (out ++ render bs us) f ->
  (forall s1, printed s1 (out ++ render bs us) f -> prints k (S i) s1 (out ++ render bs us) r) ->
  prints (S k) i s out (ts ← r; Some (us ++ ts)).
Proof.
  intros E Hp IH. specialize (IH s1 Hp). unfold prints in *. cbn [print_loop]. rewrite E. cbn [or_null mbind outcome_bind].
  replace (Z.of_nat i + 1) with (Z.of_nat (S i)) by lia. destruct r as [ts|]; cbn [mbind option_bind]; [|done].
  rewrite render_app, app_assoc, <- Nat.add_succ_comm. done.
Qed.

Lemma block_turn i s out f b (Hi : (i < 8)%nat) :
  printed s out f -> short i out -> bs !! i = Some b ->
  exists s1, emit_block buflen (Z.of_nat i) b s = Ok (Some s1) /\
    let us := match i with O => [THex i] | S _ => [TColon; THex i] end in
    printed s1 (out ++ render bs us) f /\ short (S i) (out ++ render bs us).
Proof.
  intros Hp Hs Hb.
  assert (Hu : is_u16 b) by (destruct Hbs as [_ Hf]; rewrite Forall_lookup in Hf; by eapply Hf).
  destruct (emit_block_spec s out f (Z.of_nat i) b Hp Hu) as (s1 & E & Hp1).
  { unfold short in Hs. destruct i; zcase. }
  exists s1. split; [done|].
  assert (Hr : render bs (match i with O => [THex i] | S _ => [TColon; THex i] end) =
    (if 0 <? Z.of_nat i then [colon] else []) ++ hex b).
  { unfold render. rewrite <- (nth_lookup_Some bs i 0 b Hb). destruct i; cbn; by rewrite ?app_nil_r. }
  cbv zeta. rewrite Hr. split; [done|]. unfold short in *. pose proof (hex_length b).
  rewrite !length_app. destruct i; simpl in *; lia.
Qed.

(** The statement of the loop for the blocks from [i] on. *)
Definition zeros (i : nat) : list bool := (fun b => b =? 0) <$> drop i bs.
Definition is_flag (f : Z) : Prop := f = 0 \/ f = 1 \/ f = 2.
Definition loop_ok (k i : nat) : Prop := forall s out f,
  is_flag f -> printed s out f -> short i out -> prints k i s out (tokens i f (zeros i)).

Lemma turn_block k i s out f s0 f0 b :
  loop_ok k (S i) -> (i < 8)%nat -> is_flag f0 -> printed s0 out f0 -> short i out -> bs !! i = Some b ->
  print_block (mk_ip6 (words_of bs)) buflen (Z.of_nat i) s = emit_block buflen (Z.of_nat i) b s0 ->
  printed s out f ->
  prints (S k) i s out (ts ← tokens (S i) f0 (zeros (S i));
    Some (match i with O => [] | S _ => [TColon] end ++ THex i :: ts)).
Proof.
  intros IH Hi Hf Hp0 Hs Hb E Hp.
  destruct (block_turn i s0 out f0 b Hi Hp0 Hs Hb) as (s1 & E1 & Hp1 & Hs1). rewrite E1 in E.
  pose proof (prints_turn k i s s1 out _ f0 (tokens (S i) f0 (zeros (S i))) E Hp1
    (fun s1 Hp1 => IH s1 _ f0 Hf Hp1 Hs1)) as H.
  by destruct i.
Qed.

Lemma turn_colon k i s out s0 f0 :
  loop_ok k (S i) -> (i < 8)%nat -> is_flag f0 -> printed s0 out f0 -> short i out ->
  print_block (mk_ip6 (words_of bs)) buflen (Z.of_nat i) s = emit buflen colon s0 ->
  prints (S k) i s out (ts ← tokens (S i) f0 (zeros (S i)); Some (TColon :: ts)).
Proof.
  intros IH Hi Hf Hp0 Hs E.
  destruct (emit_spec s0 out f0 colon Hp0 ltac:(unfold short in Hs; destruct i; lia)) as (s1 & E1 & Hp1 & _).
  rewrite E1 in E. apply (prints_turn k i s s1 out [TColon] f0 _ E); [done|].
  intros s2 Hp2. apply IH; [done|done|]. unfold short, render in *. rewrite length_app. destruct i; simpl in *; lia.
Qed.

Lemma turn_skip k i s out :
  loop_ok k (S i) -> printed s out 1 -> short i out ->
  print_block (mk_ip6 (words_of bs)) buflen (Z.of_nat i) s = Ok (Some s) ->
  prints (S k) i s out (tokens (S i) 1 (zeros (S i))).
Proof.
  intros IH Hp Hs E.
  specialize (IH s out 1 ltac:(by right; left) Hp ltac:(unfold short in *; destruct i; lia)).
  unfold prints in *. cbn [print_loop]. rewrite E. cbn [or_null mbind outcome_bind].
  replace (Z.of_nat i + 1) with (Z.of_nat (S i)) by lia. by rewrite <- Nat.add_succ_comm.
Qed.

(** The block of [i] is zero and no run of zeros was met before. *)
Lemma turn_first k i s out :
  loop_ok k (S i) -> (i + S k = 8)%nat -> printed s out 0 -> short i out -> bs !! i = Some 0 ->
  prints (S k) i s out (tokens i 0 (zeros i)).
Proof.
  intros IH Hik Hp Hs Hb. pose proof Hp as (_ & _ & _ & Hflag).
  pose proof (block_value_spec bs (Z.of_nat i) 0 Hbs ltac:(lia) ltac:(by rewrite Nat2Z.id)) as Hv.
  assert (Hz : zeros i = true :: zeros (S i)) by (unfold zeros; by rewrite (drop_S _ _ _ Hb)).
  rewrite Hz. cbn [tokens Z.eqb]. rewrite andb_false_r.
  assert (E : print_block (mk_ip6 (words_of bs)) buflen (Z.of_nat i) s =
    (nv ← next_block (mk_ip6 (words_of bs)) (Z.of_nat i);
     if nv =? 0 then emit buflen colon (set_empty_flag 1 s) else emit_block buflen (Z.of_nat i) 0 s)).
  { unfold print_block. rewrite Hv, Hflag. cbn. by rewrite andb_false_r. }
  destruct (bs !! S i) as [b|] eqn:Hb'.
  - rewrite (next_block_spec bs (Z.of_nat i) b) in E
      by (done || lia || (replace (Z.to_nat (Z.of_nat i + 1)) with (S i) by lia; done)).
    cbn [mbind outcome_bind] in E.
    assert (Hz' : zeros (S i) = (b =? 0) :: zeros (S (S i))) by (unfold zeros; by rewrite (drop_S _ _ _ Hb')).
    pose proof (turn_colon k i s out (set_empty_flag 1 s) 1 IH ltac:(lia) ltac:(by right; left)
      ltac:(by eapply set_empty_flag_printed) Hs) as Hc.
    pose proof (turn_block k i s out 0 s 0 0 IH ltac:(lia) ltac:(by left) Hp Hs Hb) as Hbl.
    rewrite Hz' in *. destruct (b =? 0); [by apply Hc|by apply Hbl].
  - apply lookup_ge_None in Hb'. destruct Hbs as [Hl _].
    assert (i = 7%nat) as -> by lia. unfold zeros. rewrite drop_ge by lia. cbn [fmap list_fmap prints].
    change (Z.of_nat 7) with 7 in E. rewrite (next_block_over _ Hl) in E.
    cbn [print_loop]. change (Z.of_nat 7) with 7. by rewrite E.
Qed.

Lemma print_loop_spec k i : (i + k = 8)%nat -> loop_ok k i.
Proof.
  revert i. induction k as [|k IH]; intros i Hik s out f Hf Hp Hs.
  - unfold zeros. rewrite drop_ge by (destruct Hbs; lia). cbn. exists s, f.
    unfold render. rewrite app_nil_r, Nat.add_0_r. by split_and!.
  - specialize (IH (S i) ltac:(lia)).
    destruct (lookup_lt_is_Some_2 bs i) as [b Hb]; [destruct Hbs; lia|].
    pose proof (block_value_spec bs (Z.of_nat i) b Hbs ltac:(lia) ltac:(by rewrite Nat2Z.id)) as Hv.
    pose proof Hp as (_ & _ & _ & Hflag).
    assert (Hz : zeros i = (b =? 0) :: zeros (S i)) by (unfold zeros; by rewrite (drop_S _ _ _ Hb)).
    pose proof (fun s0 f0 Hf0 Hp0 E => turn_block k i s out f s0 f0 b IH ltac:(lia) Hf0 Hp0 Hs Hb E Hp) as Hbl.
    unfold print_block in Hbl. rewrite Hv, Hflag in Hbl. cbn [mbind outcome_bind] in Hbl.
    destruct (Z.eqb_spec b 0) as [->|Hnz].
    + destruct Hf as [-> | [-> | ->]]; [by apply turn_first| |].
      * rewrite Hz. cbn [tokens]. destruct (decide (i = 7%nat)) as [->|].
        -- rewrite bool_decide_eq_true_2 by done. cbn [andb Z.eqb Pos.eqb].
           pose proof (turn_colon k 7 s out s 1 IH ltac:(lia) ltac:(by right; left) Hp Hs) as Hc.
           unfold print_block in Hc. rewrite Hv, Hflag in Hc. specialize (Hc eq_refl).
           unfold zeros in Hc. rewrite drop_ge in Hc by (destruct Hbs; lia). exact Hc.
        -- rewrite bool_decide_eq_false_2 by done. cbn [andb Z.eqb Pos.eqb]. apply turn_skip; [done..|].
           unfold print_block. rewrite Hv, Hflag. cbn [mbind outcome_bind Z.eqb Pos.eqb andb].
           destruct (Z.eqb_spec (Z.of_nat i) 7); [lia|done].
      * rewrite Hz. cbn [tokens Z.eqb Pos.eqb]. rewrite andb_false_r.
        apply (Hbl s 2); [by right; right|done|]. cbn. by rewrite andb_false_r.
    + rewrite Hz. cbn [tokens]. destruct (Z.eqb_spec f 1) as [->|].
      * apply (Hbl (set_empty_flag 2 s) 2); [by right; right|by eapply set_empty_flag_printed|done].
      * by apply (Hbl s f).
Qed.
End Printing.

(* ------------------------------------------------------------------ *)
(** * How the text is read back *)

(** Half a word: zero, or the number of a block of the text. *)
Abbreviation half := (option nat).
Definition half_value (bs : list Z) (h : half) : Z := match h with None => 0 | Some j => nth j bs 0 end.

(** The parser on separators and blocks; a word not yet written is [None]. *)
Record abs_parser := mk_abs {
  cells : list (option (half * half));
  a_index : nat;
  a_zero : nat;
  a_block : nat;
  a_value : half
}.

Definition abs_put (s : abs_parser) : option abs_parser :=
  if Nat.odd (a_block s) then
    match cells s !! a_index s with
    | Some (Some (h, None)) =>
        Some (mk_abs (<[a_index s := Some (h, a_value s)]> (cells s)) (S (a_index s))
                (a_zero s) (a_block s) (a_value s))
    | _ => None
    end
  else if bool_decide (a_index s < 4)%nat then
    Some (mk_abs (<[a_index s := Some (a_value s, None)]> (cells s)) (a_index s)
            (a_zero s) (a_block s) (a_value s))
  else None.

Fixpoint abs_zeros (fuel : nat) (s : abs_parser) : option abs_parser :=
  match a_zero s with
  | O => Some s
  | S z =>
      match fuel with
      | O => None
      | S fuel =>
          if bool_decide (a_block s < 7 /\ a_index s < 4)%nat then
            abs_zeros fuel
              (if Nat.odd (a_block s) then
                 mk_abs (cells s) (S (a_index s)) z (S (a_block s)) (a_value s)
               else mk_abs (<[a_index s := Some (None, None)]> (cells s)) (a_index s) z (S (a_block s)) (a_value s))
          else None
      end
  end.

Fixpoint abs_parse (ts : list tok) (s : abs_parser) : option abs_parser :=
  match ts with
  | [] => Some s
  | TColon :: ts =>
      s ← abs_put s;
      if bool_decide (7 <= a_block s)%nat then None
      else
        let s := mk_abs (cells s) (a_index s) (a_zero s) (S (a_block s)) None in
        match ts with
        | TColon :: ts =>
            if bool_decide (head ts = Some TColon) then None
            else s ← abs_zeros zero_fuel s; abs_parse ts s
        | _ => abs_parse ts s
        end
  | THex j :: ts =>
      match a_value s with
      | None => abs_parse ts (mk_abs (cells s) (a_index s) (a_zero s) (a_block s) (Some j))
      | Some _ => None
      end
  end.

Section Reading.
Context (bs : list Z) (Hbs : blocks_ok bs).

Definition cell_ok (l : list Z) (j : nat) (c : option (half * half)) : Prop :=
  match c with
  | None => True
  | Some (h, lo) => l !! j = Some (half_value bs h * 65536 + half_value bs lo)
  end.

Definition reads (a : abs_parser) (s : parser) : Prop :=
  (exists l, p_addr s = Some (mk_ip6 l) /\ length l = 4%nat /\
    forall j c, cells a !! j = Some c -> cell_ok l j c) /\
  length (cells a) = 4%nat /\ addr_index s = Z.of_nat (a_index a) /\ (a_index a <= 4)%nat /\
  zero_blocks s = Z.of_nat (a_zero a) /\ (a_zero a <= 8)%nat /\
  current_block_index s = Z.of_nat (a_block a) /\ (a_block a <= 7)%nat /\
  current_block_value s = half_value bs (a_value a).

Lemma half_u16 h : is_u16 (half_value bs h).
Proof.
  destruct h as [j|]; [|done]. cbn. destruct Hbs as [_ Hf].
  destruct (nth_in_or_default j bs 0) as [Hin| ->]; [|done].
  rewrite Forall_forall in Hf. by apply Hf.
Qed.

Lemma odd_nat n : (n <= 7)%nat -> odd (Z.of_nat n) = Nat.odd n.
Proof. intros Hn. by do 8 (destruct n as [|n]; [done|]); lia. Qed.

Lemma half_word hi lo : is_u32 (half_value bs hi * 65536 + half_value bs lo).
Proof. pose proof (half_u16 hi). pose proof (half_u16 lo). ulia. Qed.

Definition write_cell (a : abs_parser) (c : half * half) : abs_parser :=
  mk_abs (<[a_index a := Some c]> (cells a)) (a_index a) (a_zero a) (a_block a) (a_value a).

Lemma store_sim a s p hi lo : reads a s -> (a_index a < 4)%nat -> p_addr s = Some p ->
  exists s', store_word s p (half_value bs hi * 65536 + half_value bs lo) = Ok s' /\
    reads (write_cell a (hi, lo)) s'.
Proof.
  intros ((l & Hm & Hl & Hc) & Hcl & Ha & Hrest) Hlt Hp. rewrite Hp in Hm. injection Hm as ->.
  unfold store_word. cbn [addr]. rewrite Ha, wr_in, Nat2Z.id, u32_small by (lia || apply half_word).
  eexists. split; [reflexivity|]. split; [|cbn; rewrite length_insert; exact (conj Hcl (conj Ha Hrest))].
  eexists. split_and!; [done|by rewrite length_insert|]. intros j c. cbn [cells write_cell].
  rewrite list_lookup_insert. case_decide as Hj.
  - destruct Hj as [<- _]. intros [= <-]. cbn. by rewrite list_lookup_insert_eq by lia.
  - intros Hjc. specialize (Hc j c Hjc). destruct c as [[h o]|]; [|done]. cbn in *.
    rewrite list_lookup_insert_ne; [done|]. intros E. apply Hj. split; [done|lia].
Qed.

Lemma index_sim a s : reads a s -> (a_index a < 4)%nat ->
  reads (mk_abs (cells a) (S (a_index a)) (a_zero a) (a_block a) (a_value a)) (set_addr_index (addr_index s + 1) s).
Proof.
  intros (Hm & Hcl & Ha & Hal & Hrest) Hlt. unfold reads. cbn. rewrite Ha, u32_small by ulia.
  split_and!; try done; lia.
Qed.

Lemma put_sim a s a' : reads a s -> abs_put a = Some a' ->
  exists s', put_block s = Ok s' /\ reads a' s'.
Proof.
  intros Hr. pose proof Hr as ((l & Hm & Hl & Hc) & Hcl & Ha & Hal & Hz & Hzl & Hb & Hbl & Hv).
  unfold abs_put, put_block. rewrite Hm, Hb, odd_nat, Hv by done. pose proof (half_u16 (a_value a)) as Hu.
  destruct (Nat.odd (a_block a)).
  - destruct (cells a !! a_index a) as [[[h [|]]|]|] eqn:Ec; try done. intros [= <-].
    pose proof (lookup_lt_Some _ _ _ Ec) as Hlt. rewrite Hcl in Hlt. pose proof (Hc _ _ Ec) as Hw.
    rewrite Ha. erewrite (proj2 (rd_ok l _ _)) by (split; [lia|rewrite Nat2Z.id; exact Hw]).
    cbn [mbind outcome_bind half_value]. rewrite Z.add_0_r, (lor_low _ _ 16) by (done || lia || ulia).
    destruct (store_sim a s _ h (a_value a) Hr Hlt Hm) as (s1 & -> & Hr1). cbn [mbind outcome_bind].
    eexists. split; [reflexivity|]. by apply (index_sim (write_cell a (h, a_value a))).
  - case_bool_decide as Hlt; [|done]. intros [= <-]. rewrite Z.shiftl_mul_pow2 by done.
    destruct (store_sim a s _ (a_value a) None Hr Hlt Hm) as (s1 & E & Hr1).
    cbn [half_value] in E. rewrite Z.add_0_r in E. by exists s1.
Qed.

Lemma zeros_sim fuel a s a' : reads a s -> abs_zeros fuel a = Some a' ->
  exists s', zero_loop fuel s = Ok (Continue s') /\ reads a' s'.
Proof.
  revert a s. induction fuel as [|fuel IH]; intros a s Hr; pose proof Hr as
    ((l & Hm & _) & Hcl & Ha & Hal & Hz & Hzl & Hb & Hbl & Hv); cbn [abs_zeros zero_loop];
    rewrite Hz; destruct (a_zero a) as [|z] eqn:Ez; try done.
  1, 2: intros [= <-]; by exists s.
  case_bool_decide as Hlt; [|done]. destruct (Z.ltb_spec 0 (Z.of_nat (S z))); [|lia].
  cbn [set_zero_blocks current_block_index p_addr addr_index]. rewrite Hb, Hm, odd_nat by done.
  set (a1 := mk_abs (cells a) (a_index a) z (a_block a) (a_value a)).
  assert (Hr1 : reads a1 (set_zero_blocks (Z.of_nat (S z) - 1) s)).
  { destruct Hr as (? & Hr). unfold reads. cbn. rewrite u32_small by ulia. split_and!; try done; lia. }
  assert (Hblk : forall a2 s2, reads a2 s2 -> (a_block a2 < 7)%nat ->
    (7 <? current_block_index (set_block_index (current_block_index s2 + 1) s2)) = false /\
    reads (mk_abs (cells a2) (a_index a2) (a_zero a2) (S (a_block a2)) (a_value a2))
      (set_block_index (current_block_index s2 + 1) s2)).
  { intros a2 s2 (? & ? & ? & ? & ? & ? & Hb2 & ? & ?) Hlt2. unfold reads. cbn. rewrite Hb2, u32_small by ulia.
    split; [lia|]. split_and!; try done; lia. }
  destruct (Nat.odd (a_block a)).
  - pose proof (index_sim a1 _ Hr1 ltac:(simpl; lia)) as Hr2.
    destruct (Hblk _ _ Hr2 ltac:(simpl; lia)) as [E Hr3]. cbn [mbind outcome_bind].
    cbn [set_zero_blocks addr_index] in E, Hr3. rewrite E. by apply IH.
  - destruct (store_sim a1 _ _ None None Hr1 ltac:(simpl; lia) Hm) as (s2 & E2 & Hr2).
    cbn [half_value] in E2. change (0 * 65536 + 0) with 0 in E2. rewrite E2. cbn [mbind outcome_bind].
    destruct (Hblk _ _ Hr2 ltac:(simpl; lia)) as [E Hr3]. rewrite E. by apply IH.
Qed.

Lemma hex_head v : is_u16 v -> exists d r, hex v = lwip_xchar d :: r /\ 0 <= d < 16.
Proof. unfold hex, is_u16. intros Hv. zcase; eexists _, _; (split; [reflexivity|ulia]). Qed.

Lemma render_colon ts : bool_decide (head (render bs ts) = Some colon) = bool_decide (head ts = Some TColon).
Proof.
  destruct ts as [|[|j] ts]; [done|done|]. cbn [render mbind list_bind render1].
  destruct (hex_head (nth j bs 0) (half_u16 (Some j))) as (d & r & E & Hd). 
  destruct (xchar_digit d Hd) as (_ & Hc & _). rewrite E. cbn [app head].
  rewrite !bool_decide_eq_false_2; [done|done|]. intros [= Hx]. by rewrite Hx in Hc.
Qed.

Lemma colon_sim a s : reads a s -> (a_block a < 7)%nat ->
  let s' := set_block_value 0 (set_block_index (current_block_index s + 1) s) in
  (7 <? current_block_index s') = false /\
  reads (mk_abs (cells a) (a_index a) (a_zero a) (S (a_block a)) None) s'.
Proof.
  intros (Hm & Hcl & Ha & Hal & Hz & Hzl & Hb & Hbl & Hv) Hlt. unfold reads. cbn.
  rewrite Hb, u32_small by ulia. split; [lia|]. split_and!; try done; lia.
Qed.

(** One separator: the next character decides whether zeros follow. *)
Lemma parse_colon ts s s1 : put_block s = Ok s1 ->
  let s2 := set_block_value 0 (set_block_index (current_block_index s1 + 1) s1) in
  (7 <? current_block_index s2) = false ->
  parse_loop (render bs (TColon :: ts)) s =
    match ts with
    | TColon :: ts =>
        if bool_decide (head ts = Some TColon) then Ok (Return0 s2)
        else r ← zero_loop zero_fuel s2;
             match r with Return0 s => Ok (Return0 s) | Continue s => parse_loop (render bs ts) s end
    | _ => parse_loop (render bs ts) s2
    end.
Proof.
  intros E s2 H7. change (render bs (TColon :: ts)) with (colon :: render bs ts).
  cbn [parse_loop]. change (colon =? colon) with true. cbv iota. rewrite E. cbn [mbind outcome_bind].
  fold s2. cbv zeta. rewrite H7. destruct ts as [|[|j] ts]; [done| |].
  - change (render bs (TColon :: ts)) with (colon :: render bs ts).
    change (colon =? colon) with true. cbv iota. by rewrite render_colon.
  - change (render bs (THex j :: ts)) with (hex (nth j bs 0) ++ render bs ts).
    destruct (hex_head (nth j bs 0) (half_u16 (Some j))) as (d & r & Eh & Hd). rewrite Eh. cbn [app].
    by destruct (xchar_digit d Hd) as (_ & -> & _).
Qed.

Lemma parse_sim n ts : (length ts < n)%nat -> forall a s a', reads a s -> abs_parse ts a = Some a' ->
  exists s', parse_loop (render bs ts) s = Ok (Continue s') /\ reads a' s'.
Proof.
  revert ts. induction n as [|n IH]; intros ts Hn a s a' Hr; [lia|].
  destruct ts as [|[|j] ts]; simpl in Hn.
  - intros [= <-]. by exists s.
  - cbn [abs_parse]. destruct (abs_put a) as [a1|] eqn:Ep; [|done]. cbn [mbind option_bind].
    destruct (put_sim _ _ _ Hr Ep) as (s1 & E1 & Hr1).
    case_bool_decide as Hlt; [done|]. destruct (colon_sim _ _ Hr1 ltac:(lia)) as [H7 Hr2].
    rewrite (parse_colon _ _ _ E1 H7).
    destruct ts as [|[|j] ts]; [apply IH; [simpl; lia|exact Hr2]| |apply IH; [simpl in *; lia|exact Hr2]].
    case_bool_decide as Hh; [done|]. simpl in Hn.
    destruct (abs_zeros zero_fuel _) as [a2|] eqn:Ez; [|done]. cbn [mbind option_bind].
    destruct (zeros_sim _ _ _ _ Hr2 Ez) as (s3 & -> & Hr3). cbn [mbind outcome_bind].
    apply IH; [lia|exact Hr3].
  - cbn [abs_parse]. destruct (a_value a) as [|] eqn:Ev; [done|].
    destruct Hr as (Hm & Hcl & Ha & Hal & Hz & Hzl & Hb & Hbl & Hv). rewrite Ev in Hv.
    change (render bs (THex j :: ts)) with (hex (nth j bs 0) ++ render bs ts).
    rewrite parse_hex by (apply (half_u16 (Some j)) || done). apply IH; [lia|].
    unfold reads. cbn. rewrite u32_small by (pose proof (half_u16 (Some j)) as Hu; simpl in Hu; ulia).
    by split_and!.
Qed.

(** Counting the separators. *)
Fixpoint colons (ts : list tok) : nat :=
  match ts with [] => O | TColon :: ts => S (colons ts) | THex _ :: ts => colons ts end.

Lemma count_render ts z : (colons ts <= z)%nat -> (z <= 8)%nat ->
  count_blocks (render bs ts) (Z.of_nat z) = Z.of_nat (z - colons ts).
Proof.
  revert z. induction ts as [|[|j] ts IH]; intros z Hc Hz; [simpl; by rewrite Nat.sub_0_r| |].
  - change (render bs (TColon :: ts)) with (colon :: render bs ts). cbn [count_blocks colons] in *.
    change (colon =? colon) with true. cbv iota. rewrite u32_small by ulia.
    replace (Z.of_nat z - 1) with (Z.of_nat (z - 1)) by lia. rewrite IH by lia. f_equal. lia.
  - change (render bs (THex j :: ts)) with (hex (nth j bs 0) ++ render bs ts).
    rewrite count_hex by apply (half_u16 (Some j)). by apply IH.
Qed.
End Reading.

(** The whole of the abstract parser, on the text of an address whose zero
    blocks are [zs]. *)
Definition abs_init (ts : list tok) : abs_parser := mk_abs (repeat None 4) 0 (8 - colons ts) 0 None.

Definition half_good (zs : list bool) (h : half) (j : nat) : bool :=
  match h with Some i => bool_decide (i = j) | None => nth j zs false end.

Definition reads_back (zs : list bool) : bool :=
  match tokens 0 0 zs with
  | None => true
  | Some ts =>
      bool_decide (colons ts <= 8)%nat &&
      match (a ← abs_parse ts (abs_init ts); abs_put a) with
      | Some a =>
          bool_decide (a_block a = 7%nat) &&
          forallb (fun k => match cells a !! k with
                            | Some (Some (h, lo)) => half_good zs h (2 * k) && half_good zs lo (2 * k + 1)
                            | _ => false
                            end) (seq 0 4)
      | None => false
      end
  end.

Fixpoint bool_lists (n : nat) : list (list bool) :=
  match n with O => [[]] | S n => bool_lists n ≫= fun l => [true :: l; false :: l] end.

Lemma bool_lists_all l : l ∈ bool_lists (length l).
Proof.
  induction l as [|b l IH]; simpl; [by left|]. apply list_elem_of_bind. exists l.
  split; [|done]. destruct b; [by left|by right; left].
Qed.

Lemma pattern_cases (p : list bool -> bool) : forallb p (bool_lists 8) = true ->
  forall zs, length zs = 8%nat -> p zs = true.
Proof.
  intros H zs Hl. rewrite forallb_forall in H. apply H, list_elem_of_In. rewrite <- Hl.
  apply bool_lists_all.
Qed.

Lemma reads_back_all zs : length zs = 8%nat -> reads_back zs = true.
Proof. apply pattern_cases. vm_compute. reflexivity. Qed.

(** The printer reads past the address when the last block is zero and the
    text has no run of zeros to show for it. *)
Fixpoint has_run (zs : list bool) : bool :=
  match zs with
  | z :: zs' => (z && match zs' with z' :: _ => z' | [] => false end) || has_run zs'
  | [] => false
  end.

Lemma tokens_none zs : length zs = 8%nat ->
  (if tokens 0 0 zs then false else true) = nth 7 zs false && negb (has_run zs).
Proof.
  intros Hl. apply eqb_prop.
  apply (pattern_cases (fun zs => Bool.eqb (if tokens 0 0 zs then false else true)
    (nth 7 zs false && negb (has_run zs)))); [by vm_compute|done].
Qed.

(* ------------------------------------------------------------------ *)
(** * Round trip *)

Definition blocks (a : ip6_addr) : list Z := addr a ≫= fun w => [w / 65536; w mod 65536].
Definition zero_blocks_of (a : ip6_addr) : list bool := (fun b => b =? 0) <$> blocks a.

(** The last block is zero and no two zero blocks are adjacent. *)
Definition lone_last_zero (a : ip6_addr) : bool :=
  nth 7 (zero_blocks_of a) false && negb (has_run (zero_blocks_of a)).

Lemma wf_blocks a : wf_ip6 a -> blocks_ok (blocks a) /\ a = mk_ip6 (words_of (blocks a)).
Proof.
  intros [Hl Hf]. destruct a as [[|a [|b [|c [|d [|]]]]]]; try done. cbn [addr] in *.
  rewrite !Forall_cons_iff in Hf. destruct Hf as (Ha & Hb & Hc & Hd & _). unfold blocks. cbn.
  split; [|repeat f_equal; ulia]. split; [done|]. rewrite !Forall_cons_iff. split_and!; try done; ulia.
Qed.

Lemma hex_nonzero v : is_u16 v -> Forall (fun c => c <> 0) (hex v).
Proof.
  unfold hex, is_u16. intros Hv. zcase; rewrite ?Forall_app, !Forall_cons_iff; split_and!; try constructor;
    apply xchar_digit; ulia.
Qed.

Lemma render_nonzero bs ts : blocks_ok bs -> Forall (fun c => c <> 0) (render bs ts).
Proof.
  intros Hbs. induction ts as [|[|j] ts IH]; [constructor|by constructor|].
  change (render bs (THex j :: ts)) with (hex (nth j bs 0) ++ render bs ts). apply Forall_app. split; [|done].
  apply hex_nonzero, (half_u16 bs Hbs (Some j)).
Qed.

Lemma c_string_app l r : Forall (fun c => c <> 0) l -> c_string (l ++ 0 :: r) = l.
Proof.
  induction 1 as [|c l Hc _ IH]; [done|]. simpl. destruct (Z.eqb_spec c 0); [done|]. by f_equal.
Qed.

Lemma half_good_value bs h j : half_good ((fun b => b =? 0) <$> bs) h j = true -> half_value bs h = nth j bs 0.
Proof.
  destruct h as [i|]; cbn [half_good half_value]; [by intros ->%bool_decide_eq_true|].
  revert j. induction bs as [|b bs IH]; intros [|j]; cbn; try done; [|apply IH].
  by intros ->%Z.eqb_eq.
Qed.

(** Words whose halves are the blocks make the address. *)
Lemma words_read bs l : blocks_ok bs -> length l = 4%nat ->
  (forall k, (k < 4)%nat -> l !! k = Some (nth (2 * k) bs 0 * 65536 + nth (2 * k + 1) bs 0)) ->
  to_network (mk_ip6 l) = mk_ip6 (words_of bs).
Proof.
  intros (b0 & b1 & b2 & b3 & b4 & b5 & b6 & b7 & -> & Hb)%blocks_split Hl Hw.
  do 4 (destruct l as [|? l]; [done|]). destruct l; [|done].
  pose proof (Hw 0%nat ltac:(lia)) as E0. pose proof (Hw 1%nat ltac:(lia)) as E1.
  pose proof (Hw 2%nat ltac:(lia)) as E2. pose proof (Hw 3%nat ltac:(lia)) as E3.
  injection E0 as ->. injection E1 as ->. injection E2 as ->. injection E3 as ->.
  unfold to_network, lwip_htonl. cbn. by rewrite !u32_small by ulia.
Qed.

(** Reading the tokens of an address gives the address. *)
Lemma aton_render a ts mem : wf_ip6 a -> length mem = 4%nat ->
  tokens 0 0 (zero_blocks_of a) = Some ts ->
  ip6addr_aton (render (blocks a) ts) (Some (mk_ip6 mem)) = Ok (1, Some a).
Proof.
  intros Hwf Hmem Ht. destruct (wf_blocks a Hwf) as [Hbs Ha]. set (bs := blocks a) in *.
  pose proof (reads_back_all (zero_blocks_of a)) as H. unfold zero_blocks_of in H at 1. rewrite length_fmap in H.
  specialize (H (proj1 Hbs)). unfold reads_back in H. rewrite Ht in H.
  apply andb_prop in H as [Hcol%bool_decide_eq_true H].
  destruct (abs_parse ts (abs_init ts)) as [a1|] eqn:E1; [|done]. cbn [mbind option_bind] in H.
  destruct (abs_put a1) as [a2|] eqn:E2; [|done]. apply andb_prop in H as [Hb%bool_decide_eq_true Hc].
  assert (Hr : reads bs (abs_init ts) (mk_parser (Some (mk_ip6 mem)) 0 (count_blocks (render bs ts) 8) 0 0)).
  { change 8 with (Z.of_nat 8). rewrite (count_render bs Hbs) by lia. unfold reads. cbn. split_and!; try done; try lia.
    exists mem. split_and!; [done|done|]. intros j c Hj. by do 4 (destruct j as [|j]; [by injection Hj as <-|]). }
  destruct (parse_sim bs Hbs _ ts (Nat.lt_succ_diag_r _) _ _ _ Hr E1) as (s1 & Hp1 & Hr1).
  destruct (put_sim bs Hbs _ _ _ Hr1 E2) as (s2 & Hp2 & Hr2).
  unfold ip6addr_aton. rewrite Hp1. cbn [mbind outcome_bind]. rewrite Hp2. cbn [mbind outcome_bind].
  destruct Hr2 as ((l & Hm & Hl & Hcell) & _ & _ & _ & _ & _ & Hbi & _). rewrite Hbi, Hb, Hm. cbn [fmap option_fmap option_map].
  change (negb (Z.of_nat 7 =? 7)) with false. cbv iota. do 3 f_equal.
  rewrite Ha. apply words_read; [done|done|]. intros k Hk. rewrite forallb_forall in Hc.
  specialize (Hc k ltac:(apply in_seq; lia)). specialize (Hcell k).
  destruct (cells a2 !! k) as [[[h lo]|]|]; [|done|done]. apply andb_prop in Hc as [Hh Hlo].
  rewrite <- (half_good_value bs h), <- (half_good_value bs lo) by done. by apply (Hcell (Some (h, lo))).
Qed.

(** The whole loop of the printer. *)
Lemma print_all a b buflen : wf_ip6 a -> 40 <= buflen <= zlen b ->
  let r := print_loop 8 a buflen 0 (mk_printer b 0 0 0) in
  match tokens 0 0 (zero_blocks_of a) with
  | None => lone_last_zero a = true /\ r = Fault OutOfBounds
  | Some ts => lone_last_zero a = false /\ zlen (render (blocks a) ts) <= 39 /\
      exists s f, r = Ok (Some s) /\ printed (zlen b) s (render (blocks a) ts) f
  end.
Proof.
  intros Hwf Hb r. destruct (wf_blocks a Hwf) as [Hbs Ha].
  pose proof (tokens_none (zero_blocks_of a)) as Ht. unfold zero_blocks_of in Ht at 1.
  rewrite length_fmap in Ht. specialize (Ht (proj1 Hbs)). fold (lone_last_zero a) in Ht.
  pose proof (print_loop_spec (zlen b) buflen ltac:(lia) (blocks a) Hbs ltac:(lia) 8 0 eq_refl
    (mk_printer b 0 0 0) [] 0 ltac:(by left)) as H. unfold prints, zeros in H. rewrite drop_0, <- Ha in H.
  change ((fun b0 => b0 =? 0) <$> blocks a) with (zero_blocks_of a) in H.
  assert (Hp : printed (zlen b) (mk_printer b 0 0 0) [] 0) by (split_and!; [by exists b|done..]).
  specialize (H Hp ltac:(unfold short; simpl; lia)).
  destruct (tokens 0 0 (zero_blocks_of a)) as [ts|]; [|done].
  destruct H as (s & f & E & Hs & Hsh). unfold short in Hsh. simpl in Hsh. split_and!; [done|lia|].
  by exists s, f.
Qed.

(** C15: An address whose last block is not a lone zero is printed into any
    buffer of at least 40 characters, as a string of at most 39, and parsing
    that string gives the address back whatever the object it is read into
    held before. *)
Theorem ip6addr_roundtrip a b buflen mem :
  wf_ip6 a -> lone_last_zero a = false -> 40 <= buflen <= zlen b -> length mem = 4%nat ->
  exists b', ip6addr_ntoa_r a b buflen = Ok (Some b') /\ zlen (c_string b') <= 39 /\
    ip6addr_aton (c_string b') (Some (mk_ip6 mem)) = Ok (1, Some a).
Proof.
  intros Hwf Hz Hb Hmem. destruct (wf_blocks a Hwf) as [Hbs _].
  pose proof (print_all a b buflen Hwf Hb) as H. cbv zeta in H. unfold ip6addr_ntoa_r.
  destruct (tokens 0 0 (zero_blocks_of a)) as [ts|] eqn:Ets; [|by rewrite Hz in H; destruct H].
  destruct H as (_ & Hlen & s & f & -> & [rest Hs] & Hpos & Hn & _). cbn [mbind outcome_bind]. rewrite Hs in *.
  destruct rest as [|x rest]; [rewrite app_nil_r in Hn; lia|].
  rewrite wr_snoc by done. cbn [mbind outcome_bind]. eexists. split; [reflexivity|].
  rewrite <- app_assoc. cbn [app]. rewrite c_string_app by by apply render_nonzero.
  split; [lia|]. by apply aton_render.
Qed.

Lemma ip6addr_roundtrip_witness :
  exists b', ip6addr_ntoa_r (IP6_ADDR 0xff020000 0 0 0x00fb) (repeat 1 46) 46 = Ok (Some b') /\
    zlen (c_string b') <= 39 /\
    ip6addr_aton (c_string b') (Some (mk_ip6 [5; 5; 5; 5])) = Ok (1, Some (IP6_ADDR 0xff020000 0 0 0x00fb)).
Proof.
  apply ip6addr_roundtrip; [|reflexivity|split; [done|reflexivity]|reflexivity].
  split; [reflexivity|]. repeat constructor; done.
Defined.

(** When the last block is zero and no two zero blocks are adjacent, as
    in 1:2:3:4:5:6:7:0, printing reads a fifth word of the four an address
    has. *)
Theorem ip6addr_ntoa_r_overreads a b buflen :
  wf_ip6 a -> lone_last_zero a = true -> 40 <= buflen <= zlen b ->
  ip6addr_ntoa_r a b buflen = Fault OutOfBounds.
Proof.
  intros Hwf Hz Hb. pose proof (print_all a b buflen Hwf Hb) as H. cbv zeta in H. unfold ip6addr_ntoa_r.
  destruct (tokens 0 0 (zero_blocks_of a)) as [ts|]; destruct H as [Hz' H]; [by rewrite Hz in Hz'|].
  by rewrite H.
Qed.

Lemma ip6addr_ntoa_r_overreads_witness :
  ip6addr_ntoa_r (IP6_ADDR 0x00010002 0x00030004 0x00050006 0x00070000) (repeat 1 40) 40 = Fault OutOfBounds.
Proof.
  apply ip6addr_ntoa_r_overreads; [|reflexivity|split; [done|reflexivity]].
  split; [reflexivity|]. repeat constructor; done.
Defined.

(** A group of more than four digits is not refused: its upper digits are
    combined into the block before it ("0:12345::" is read as 1:2345::). *)
Lemma ip6addr_aton_long_group :
  ip6addr_aton [48; 58; 49; 50; 51; 52; 53; 58; 58] (Some (mk_ip6 [0; 0; 0; 0])) =
    Ok (1, Some (IP6_ADDR 0x00012345 0 0 0)).
Proof. vm_compute. reflexivity. Qed.
