(* ===== verification/Chksum.v ===== *)
(** The Internet checksum: core/inet_chksum.c with [LWIP_CHKSUM_ALGORITHM] 2,
    over memory and over chains of pbufs, alone or with the IPv6
    pseudo-header. *)

From Stdlib Require Import ZArith Lia.
From stdpp Require Import base list numbers gmap.
From S2P Require Import Prelude Mmio Mem Memp Pbuf PbufChain Ip6Addr.

Open Scope Z_scope.

(* ------------------------------------------------------------------ *)
(** * Code *)

(** The expansion has no parentheses around the whole; every use is the right
    side of an assignment. *)
Definition SWAP_BYTES_IN_WORD (w : Z) : Z :=
  Z.lor (Z.shiftl (Z.land w 0xff) 8) (Z.shiftr (Z.land w 0xff00) 8).
Definition FOLD_U32T (u : Z) : Z := u32 (Z.shiftr u 16 + Z.land u 0x0000ffff).

(** A byte and a big-endian halfword in memory. *)
Definition load8 (m : gmap Z Z) (a : Z) : outcome Z :=
  match m !! a with Some x => Ok x | None => Fault OutOfBounds end.
Definition load16 (m : gmap Z Z) (a : Z) : outcome Z :=
  hi ← load8 m a; lo ← load8 m (a + 1); Ok (be16 hi lo).

(** Byte [i] of the halfword [t] set to [b]; byte 0 is the high one. *)
Definition set_byte (t i b : Z) : Z :=
  if i =? 0 then be16 b (t mod 256) else be16 (t / 256) b.

(** [while (len > 1) { sum += *ps++; len -= 2; }] *)
Fixpoint sum_words (fuel : nat) (m : gmap Z Z) (ps len sum : Z) : outcome (Z * Z * Z) :=
  if 1 <? len then
    match fuel with
    | O => Fault Diverges
    | S fuel => w ← load16 m ps; sum_words fuel m (ps + 2) (len - 2) (u32 (sum + w))
    end
  else Ok (ps, len, sum).

Definition lwip_standard_chksum (m : gmap Z Z) (dataptr len : Z) : outcome Z :=
  let pb := dataptr in
  let odd := Z.land pb 1 in
  '(t, pb, len) ←
    (if negb (odd =? 0) && (0 <? len) then
       b ← load8 m pb; Ok (set_byte 0 1 b, pb + 1, len - 1)
     else Ok (0, pb, len));
  '(ps, len, sum) ← sum_words (Z.to_nat len) m pb len 0;
  t ← (if 0 <? len then b ← load8 m ps; Ok (set_byte t 0 b) else Ok t);
  let sum := u32 (sum + t) in
  let sum := FOLD_U32T sum in
  let sum := FOLD_U32T sum in
  let sum := if negb (odd =? 0) then SWAP_BYTES_IN_WORD sum else sum in
  Ok (u16 sum).
Definition LWIP_CHKSUM := lwip_standard_chksum.

(** [if (q->len % 2 != 0) { swapped = !swapped; acc = SWAP_BYTES_IN_WORD(acc); }] *)
Definition swap_odd (n : Z) (swapped : bool) (acc : Z) : bool * Z :=
  if negb (n mod 2 =? 0) then (negb swapped, SWAP_BYTES_IN_WORD acc) else (swapped, acc).

(** [for (q = p; q != NULL; q = q->next)] of the functions over chains. *)
Fixpoint sum_chain (fuel : nat) (m : gmap Z pbuf) (bs : gmap Z Z) (q : Z) (swapped : bool) (acc : Z)
    : outcome (bool * Z) :=
  if q =? 0 then Ok (swapped, acc)
  else
    match fuel with
    | O => Fault Diverges
    | S fuel =>
        b ← deref m q;
        c ← LWIP_CHKSUM bs (payload b) (len b);
        let acc := FOLD_U32T (u32 (acc + c)) in
        let '(swapped, acc) := swap_odd (len b) swapped acc in
        sum_chain fuel m bs (next b) swapped acc
    end.

Definition unswap (swapped : bool) (acc : Z) : Z :=
  if swapped then SWAP_BYTES_IN_WORD acc else acc.

(** [acc += (u32_t)lwip_htons((u16_t)proto); ... return (u16_t)~(acc & 0xffffUL);] *)
Definition finish_pseudo (proto proto_len acc : Z) : Z :=
  let acc := u32 (acc + lwip_htons proto) in
  let acc := u32 (acc + lwip_htons proto_len) in
  let acc := FOLD_U32T acc in
  let acc := FOLD_U32T acc in
  u16 (Z.lnot (Z.land acc 0xffff)).

Definition inet_cksum_pseudo_base (m : gmap Z pbuf) (bs : gmap Z Z) (p proto proto_len acc : Z) : outcome Z :=
  '(swapped, acc) ← sum_chain (chain_fuel m) m bs p false acc;
  Ok (finish_pseudo proto proto_len (unswap swapped acc)).

(** The addresses of the pseudo-header, a word of each in turn. *)
Definition add_word (acc a : Z) : Z :=
  u32 (u32 (acc + Z.land a 0xffff) + Z.land (Z.shiftr a 16) 0xffff).
Fixpoint sum_addresses (n : nat) (src dest : ip6_addr) (addr_part acc : Z) : outcome Z :=
  match n with
  | O => Ok acc
  | S n =>
      a ← rd (addr src) addr_part;
      let acc := add_word acc a in
      a ← rd (addr dest) addr_part;
      sum_addresses n src dest (u8 (addr_part + 1)) (add_word acc a)
  end.

Definition ip6_chksum_pseudo (m : gmap Z pbuf) (bs : gmap Z Z) (p proto proto_len : Z) (src dest : ip6_addr)
    : outcome Z :=
  acc ← sum_addresses 4 src dest 0 0;
  inet_cksum_pseudo_base m bs p proto proto_len (FOLD_U32T (FOLD_U32T acc)).

(** [IP_IS_V6] is 1. *)
Definition ip_chksum_pseudo := ip6_chksum_pseudo.

Fixpoint sum_chain_partial (fuel : nat) (m : gmap Z pbuf) (bs : gmap Z Z) (q chksum_len : Z)
    (swapped : bool) (acc : Z) : outcome (bool * Z) :=
  if negb (q =? 0) && (0 <? chksum_len) then
    match fuel with
    | O => Fault Diverges
    | S fuel =>
        b ← deref m q;
        let chklen := if chksum_len <? len b then chksum_len else len b in
        c ← LWIP_CHKSUM bs (payload b) chklen;
        let acc := u32 (acc + c) in
        let chksum_len := u16 (chksum_len - chklen) in
        _ ← lwip_assert (chksum_len <? 0x7fff);
        let acc := FOLD_U32T acc in
        let '(swapped, acc) := swap_odd (len b) swapped acc in
        sum_chain_partial fuel m bs (next b) chksum_len swapped acc
    end
  else Ok (swapped, acc).

Definition inet_cksum_pseudo_partial_base (m : gmap Z pbuf) (bs : gmap Z Z) (p proto proto_len chksum_len acc : Z)
    : outcome Z :=
  '(swapped, acc) ← sum_chain_partial (chain_fuel m) m bs p chksum_len false acc;
  Ok (finish_pseudo proto proto_len (unswap swapped acc)).

Definition ip6_chksum_pseudo_partial (m : gmap Z pbuf) (bs : gmap Z Z) (p proto proto_len chksum_len : Z)
    (src dest : ip6_addr) : outcome Z :=
  acc ← sum_addresses 4 src dest 0 0;
  inet_cksum_pseudo_partial_base m bs p proto proto_len chksum_len (FOLD_U32T (FOLD_U32T acc)).
Definition ip_chksum_pseudo_partial := ip6_chksum_pseudo_partial.

Definition inet_chksum (m : gmap Z Z) (dataptr len : Z) : outcome Z :=
  c ← LWIP_CHKSUM m dataptr len; Ok (u16 (Z.lnot c)).

Definition inet_chksum_pbuf (m : gmap Z pbuf) (bs : gmap Z Z) (p : Z) : outcome Z :=
  '(swapped, acc) ← sum_chain (chain_fuel m) m bs p false 0;
  Ok (u16 (Z.lnot (Z.land (unswap swapped acc) 0xffff))).

(* ------------------------------------------------------------------ *)
(** * One's complement sums *)

(** RFC 1071: the one's complement sum of the 16-bit words of the data, an
    odd last byte padded with zero. *)
Definition oc_add (a b : Z) : Z := if a + b <? 65536 then a + b else a + b - 65535.
Fixpoint oc_sum (l : list Z) : Z :=
  match l with
  | [] => 0
  | [a] => be16 a 0
  | a :: b :: l => oc_add (be16 a b) (oc_sum l)
  end.
Definition rfc1071 (l : list Z) : Z := 65535 - oc_sum l.

(** The same word without the carries: two sums are the same if they are
    equal modulo 65535, and 0 only like 0. *)
Fixpoint be_sum (l : list Z) : Z :=
  match l with
  | [] => 0
  | [a] => be16 a 0
  | a :: b :: l => be16 a b + be_sum l
  end.
Definition oc (s : Z) : Z := if s =? 0 then 0 else 1 + (s - 1) mod 65535.

Lemma list_pair_ind {A} (P : list A -> Prop) :
  P [] -> (forall a, P [a]) -> (forall a b l, P l -> P (a :: b :: l)) -> forall l, P l.
Proof.
  intros H0 H1 H2 l. assert (P l /\ forall a, P (a :: l)) as [? _]; [|done].
  induction l as [|a l [IH1 IH2]]; split; auto.
Qed.

Lemma oc_range s : 0 <= s -> 0 <= oc s <= 65535 /\ (oc s = 0 <-> s = 0).
Proof. unfold oc. intros. destruct (Z.eqb_spec s 0); ulia. Qed.

Lemma oc_unique a b k : 0 <= a -> 0 <= b -> (a = 0 <-> b = 0) -> a = b + 65535 * k -> oc a = oc b.
Proof.
  unfold oc. intros Ha Hb H0 ->. destruct (Z.eqb_spec (b + 65535 * k) 0), (Z.eqb_spec b 0); try lia.
  replace (b + 65535 * k - 1) with (b - 1 + k * 65535) by lia. by rewrite Z.mod_add.
Qed.

Lemma oc_id s : 0 <= s <= 65535 -> oc s = s.
Proof. unfold oc. intros. destruct (Z.eqb_spec s 0); [lia|]. rewrite Z.mod_small; lia. Qed.

(** [oc s] and [s] differ by a multiple of 65535. *)
Lemma oc_eq s : 0 <= s -> exists k, s = oc s + 65535 * k /\ 0 <= k.
Proof.
  intros Hs. unfold oc. destruct (Z.eqb_spec s 0); [by exists 0|]. exists ((s - 1) / 65535). ulia.
Qed.

Lemma oc_add_l a b : 0 <= a -> 0 <= b -> oc (oc a + b) = oc (a + b).
Proof.
  intros Ha Hb. destruct (oc_eq a Ha) as (k & E & Hk). pose proof (oc_range a Ha) as [? ?].
  apply (oc_unique _ _ (- k)); lia.
Qed.

Lemma oc_add_spec a b : 0 <= a <= 65535 -> 0 <= b <= 65535 -> oc_add a b = oc (a + b).
Proof.
  intros Ha Hb. unfold oc_add. destruct (Z.ltb_spec (a + b) 65536); [by rewrite oc_id by lia|].
  rewrite <- (oc_id (a + b - 65535)) by lia. apply (oc_unique _ _ (-1)); lia.
Qed.

Lemma fold_spec u : is_u32 u -> FOLD_U32T u = u / 65536 + u mod 65536 /\ oc (FOLD_U32T u) = oc u.
Proof.
  intros Hu. unfold FOLD_U32T. rewrite land_65535, Z.shiftr_div_pow2 by done. change (2 ^ 16) with 65536.
  rewrite u32_small by ulia. split; [done|]. apply (oc_unique _ _ (- (u / 65536))); ulia.
Qed.

(** Below 2 * 65535 one fold is the whole reduction, below 2^32 two are. *)
Lemma fold_once u : 0 <= u <= 131070 -> FOLD_U32T u = oc u.
Proof.
  intros Hu. destruct (fold_spec u ltac:(ulia)) as [E Ho]. rewrite <- Ho, E. rewrite oc_id; [done|ulia].
Qed.

Lemma fold_twice u : is_u32 u -> FOLD_U32T (FOLD_U32T u) = oc u.
Proof.
  intros Hu. destruct (fold_spec u Hu) as [E Ho]. rewrite <- Ho. apply fold_once. rewrite E. ulia.
Qed.

Lemma swap_spec w : is_u16 w -> SWAP_BYTES_IN_WORD w = w mod 256 * 256 + w / 256.
Proof.
  intros Hw. unfold SWAP_BYTES_IN_WORD. rewrite land_255, Z.shiftl_mul_pow2 by done.
  rewrite Z.shiftr_land. change (Z.shiftr 0xff00 8) with 0xff. rewrite land_255.
  rewrite Z.shiftr_div_pow2 by done. change (2 ^ 8) with 256. rewrite (lor_low _ _ 8) by (lia || ulia).
  ulia.
Qed.

(** Swapping the bytes multiplies by 256. *)
Lemma swap_oc s : 0 <= s -> SWAP_BYTES_IN_WORD (oc s) = oc (256 * s).
Proof.
  intros Hs. destruct (oc_range s Hs) as [Hr H0]. rewrite swap_spec by ulia.
  set (w := oc s) in *.
  rewrite <- (oc_id (w mod 256 * 256 + w / 256)) by ulia.
  destruct (oc_eq s Hs) as (k & E & Hk). fold w in E.
  apply (oc_unique _ _ (- (256 * k) - w / 256)); [ulia|lia|ulia|]. rewrite E.
  pose proof (Z.div_mod w 256). lia.
Qed.

Lemma be_sum_pos l : Forall is_u8 l -> 0 <= be_sum l.
Proof.
  induction l as [|a|a b l IH] using list_pair_ind; simpl; [done| |]; rewrite ?Forall_cons_iff; unfold be16, is_u8;
    [lia|]. intros (? & ? & Hl). specialize (IH Hl). lia.
Qed.

Lemma oc_sum_spec l : Forall is_u8 l -> oc_sum l = oc (be_sum l).
Proof.
  induction l as [|a|a b l IH] using list_pair_ind; cbn [oc_sum be_sum]; [done| |];
    rewrite ?Forall_cons_iff; unfold is_u8.
  - intros. rewrite oc_id; [done|]. unfold be16. lia.
  - intros (? & ? & Hl). pose proof (be_sum_pos l Hl). rewrite IH by done.
    rewrite oc_add_spec by (apply oc_range || (unfold be16; lia); done).
    rewrite Z.add_comm, oc_add_l by (unfold be16; lia). by rewrite Z.add_comm.
Qed.

Lemma be_sum_bound l : Forall is_u8 l -> be_sum l <= 65535 * ((zlen l + 1) / 2).
Proof.
  induction l as [|a|a b l IH] using list_pair_ind; cbn [be_sum]; [done| |];
    rewrite ?Forall_cons_iff; unfold be16, is_u8.
  - intros [? _]. simpl. ulia.
  - intros (? & ? & Hl). specialize (IH Hl). simpl. ulia.
Qed.

Definition odd_len {A} (l : list A) : bool := Nat.odd (length l).
(** The weight of a word that starts at an odd position. *)
Definition scale (sw : bool) (s : Z) : Z := if sw then 256 * s else s.

Lemma be_sum_pair a b l : be_sum (a :: b :: l) = 256 * a + b + be_sum l.
Proof. cbn [be_sum]. unfold be16. lia. Qed.

Lemma be_sum_one a : be_sum [a] = 256 * a.
Proof. cbn [be_sum]. unfold be16. lia. Qed.

Lemma be_sum_cons x l : Forall is_u8 (x :: l) ->
  (be_sum (x :: l) = 0 <-> x = 0 /\ be_sum l = 0) /\
  exists k, 256 * x + 256 * be_sum l = be_sum (x :: l) + 65535 * k /\ 0 <= k.
Proof.
  revert x. induction l as [|y|y z l IH] using list_pair_ind; intros x; rewrite ?Forall_cons_iff; unfold is_u8.
  - intros. cbn [be_sum]. unfold be16. split; [lia|]. exists 0. lia.
  - intros. cbn [be_sum]. unfold be16. split; [lia|]. exists y. lia.
  - intros (Hx & Hy & Hz & Hl). destruct (IH z) as [H0 (k & E & Hk)]; [by apply Forall_cons_iff|].
    assert (0 <= be_sum (z :: l)) by (apply be_sum_pos, Forall_cons_iff; done).
    pose proof (be_sum_pos l Hl). rewrite !be_sum_pair. split; [lia|]. exists (y + k). lia.
Qed.

Lemma be_sum_app a b : Forall is_u8 a -> Forall is_u8 b ->
  (be_sum (a ++ b) = 0 <-> be_sum a = 0 /\ be_sum b = 0) /\
  exists k, be_sum a + scale (odd_len a) (be_sum b) = be_sum (a ++ b) + 65535 * k /\ 0 <= k.
Proof.
  intros Ha Hb. induction a as [|x|x y a IH] using list_pair_ind.
  - simpl. split; [lia|]. exists 0. lia.
  - destruct (be_sum_cons x b) as [H0 (k & E & Hk)]; [by apply (Forall_app_2 _ [x] b)|]. rewrite Forall_cons_iff in Ha.
    cbn [app]. rewrite be_sum_one. split; [lia|]. exists k. by change (odd_len [x]) with true.
  - rewrite !Forall_cons_iff in Ha. destruct Ha as (Hx & Hy & Ha). destruct (IH Ha) as [H0 (k & E & Hk)].
    pose proof (be_sum_pos a Ha). assert (0 <= be_sum (a ++ b)) by (by apply be_sum_pos, Forall_app).
    cbn [app]. rewrite !be_sum_pair. unfold is_u8 in *. split; [lia|]. exists k.
    change (odd_len (x :: y :: a)) with (odd_len a). lia.
Qed.

Lemma be_sum_app_even a b : Forall is_u8 a -> odd_len a = false -> be_sum (a ++ b) = be_sum a + be_sum b.
Proof.
  intros _. induction a as [|x|x y a IH] using list_pair_ind; [done|done|].
  change (odd_len (x :: y :: a)) with (odd_len a). intros H. cbn [app]. rewrite !be_sum_pair, IH by done. lia.
Qed.

(* ------------------------------------------------------------------ *)
(** * The sum of a block of memory *)

Lemma load8_at m a n c i x : load_bytes m a n = Ok c -> c !! i = Some x -> load8 m (a + Z.of_nat i) = Ok x.
Proof.
  intros [Hn Hl]%load_bytes_ok Hx. unfold load8. rewrite Hl; [by rewrite Hx|]. apply lookup_lt_Some in Hx. lia.
Qed.

Lemma load_bytes_drop m a c c1 c2 : load_bytes m a (length c) = Ok c -> c = c1 ++ c2 ->
  load_bytes m (a + zlen c1) (length c2) = Ok c2.
Proof.
  intros H ->. rewrite length_app in H.
  rewrite (load_bytes_sub _ _ _ _ _ (length c2) H) by lia. by rewrite drop_app_length, firstn_all.
Qed.

Lemma sum_words_spec m c : forall fuel ps sum, load_bytes m ps (length c) = Ok c -> Forall is_u8 c ->
  0 <= sum -> sum + be_sum c < 4294967296 -> (length c <= fuel)%nat ->
  exists c1 r, c = c1 ++ r /\ odd_len c1 = false /\ (length r <= 1)%nat /\
    sum_words fuel m ps (zlen c) sum = Ok (ps + zlen c1, zlen r, sum + be_sum c1).
Proof.
  induction c as [|a|a b c IH] using list_pair_ind; intros fuel ps sum Hl Hc Hs Hlt Hf.
  - exists [], []. rewrite !Z.add_0_r. split_and!; [done|done|simpl; lia|]. by destruct fuel.
  - exists [], [a]. rewrite !Z.add_0_r. split_and!; [done|done|simpl; lia|]. by destruct fuel.
  - rewrite !Forall_cons_iff in Hc. destruct Hc as (Ha & Hb & Hc). rewrite be_sum_pair in Hlt. cbn [length] in Hf.
    pose proof (be_sum_pos c Hc). destruct fuel as [|fuel]; [lia|].
    pose proof (load8_at _ _ _ _ 0 a Hl eq_refl) as E0. pose proof (load8_at _ _ _ _ 1 b Hl eq_refl) as E1.
    pose proof (load_bytes_drop m ps (a :: b :: c) [a; b] c Hl eq_refl) as Hd.
    change (ps + Z.of_nat 0) with (ps + 0) in E0. rewrite Z.add_0_r in E0. change (Z.of_nat 1) with 1 in E1.
    change (zlen [a; b]) with 2 in Hd. unfold is_u8 in *.
    destruct (IH fuel (ps + 2) (sum + be16 a b) Hd Hc ltac:(unfold be16; lia) ltac:(unfold be16; lia) ltac:(lia))
      as (c1 & r & -> & Ho & Hr & E).
    exists (a :: b :: c1), r. split_and!; [done|done|done|]. cbn [sum_words].
    destruct (Z.ltb_spec 1 (zlen (a :: b :: c1 ++ r))); [|simpl in *; lia].
    unfold load16. rewrite E0. cbn [mbind outcome_bind]. rewrite E1. cbn [mbind outcome_bind].
    rewrite u32_small by (unfold be16; ulia).
    replace (zlen (a :: b :: c1 ++ r) - 2) with (zlen (c1 ++ r)) by (simpl; lia). rewrite E.
    rewrite be_sum_pair. cbn [length]. unfold be16. do 2 f_equal; [f_equal|]; lia.
Qed.

(** What the end bytes and the folds make of the words. *)
Lemma chksum_end m ps c1 r t : load_bytes m ps (length r) = Ok r -> (length r <= 1)%nat -> is_u8 t ->
  odd_len c1 = false -> Forall is_u8 (c1 ++ r) -> be_sum (c1 ++ r) + 255 < 4294967296 ->
  exists t', (if 0 <? zlen r then b ← load8 m ps; Ok (set_byte t 0 b) else Ok t) = Ok t' /\
    FOLD_U32T (FOLD_U32T (u32 (be_sum c1 + t'))) = oc (t + be_sum (c1 ++ r)).
Proof.
  intros Hl Hr Ht Ho [Hc1 Hru]%Forall_app Hb. rewrite be_sum_app_even in * by done.
  pose proof (be_sum_pos c1 Hc1). unfold is_u8 in Ht. destruct r as [|x [|]]; [| |simpl in Hr; lia].
  - exists t. split; [done|]. change (be_sum []) with 0 in *. rewrite u32_small by ulia. rewrite fold_twice by ulia. f_equal. lia.
  - pose proof (load8_at _ _ _ _ 0 x Hl eq_refl) as E. rewrite Z.add_0_r in E.
    rewrite Forall_cons_iff in Hru. destruct Hru as [Hx _].
    change (0 <? zlen [x]) with true. cbv iota. rewrite E. cbn [mbind outcome_bind].
    eexists. split; [reflexivity|]. unfold set_byte. cbn [Z.eqb]. rewrite be_sum_one in *. unfold be16, is_u8 in *.
    rewrite (Z.mod_small t) by lia. rewrite u32_small by ulia. rewrite fold_twice by ulia. f_equal. lia.
Qed.

Lemma standard_chksum_spec m a c : load_bytes m a (length c) = Ok c -> Forall is_u8 c -> zlen c <= 0x20000 ->
  lwip_standard_chksum m a (zlen c) = Ok (oc (be_sum c)).
Proof.
  intros Hl Hc Hlen. pose proof (be_sum_bound c Hc) as Hbound. unfold lwip_standard_chksum.
  destruct (negb (Z.land a 1 =? 0)) eqn:Eodd; [destruct c as [|b c]|].
  - cbn. done.
  - change (true && (0 <? zlen (b :: c))) with true. cbv iota.
    pose proof (load8_at _ _ _ _ 0 b Hl eq_refl) as E. rewrite Z.add_0_r in E. rewrite E. cbn [mbind outcome_bind].
    pose proof Hc as Hc0. rewrite Forall_cons_iff in Hc. destruct Hc as [Hb Hc].
    pose proof (load_bytes_drop m a (b :: c) [b] c Hl eq_refl) as Hd. change (zlen [b]) with 1 in Hd.
    replace (zlen (b :: c) - 1) with (zlen c) by (simpl; lia).
    destruct (be_sum_cons b c Hc0) as [H0 (k & Ek & Hk)].
    pose proof (be_sum_bound c Hc) as Hbc. pose proof (be_sum_pos c Hc) as Hpos. simpl in Hlen.
    destruct (sum_words_spec m c (Z.to_nat (zlen c)) (a + 1) 0) as (c1 & r & -> & Ho & Hr & Ew); try done; try lia; [ulia|].
    rewrite Ew. cbn [mbind outcome_bind]. change (set_byte 0 1 b) with (0 * 256 + b). change (0 * 256 + b) with b.
    pose proof (load_bytes_drop _ _ _ c1 r Hd eq_refl) as Hdr.
    destruct (chksum_end m (a + 1 + zlen c1) c1 r b Hdr Hr Hb Ho Hc ltac:(ulia)) as (t' & -> & Ef).
    cbn [mbind outcome_bind]. rewrite Z.add_0_l, Ef. unfold is_u8 in Hb.
    rewrite swap_oc by lia. rewrite u16_small by (pose proof (oc_range (256 * (b + be_sum (c1 ++ r)))); ulia).
    f_equal. apply (oc_unique _ _ k); [lia|by apply be_sum_pos|rewrite H0; lia|lia].
  - cbn [andb]. cbn [mbind outcome_bind]. pose proof (be_sum_pos c Hc) as Hpos.
    destruct (sum_words_spec m c (Z.to_nat (zlen c)) a 0) as (c1 & r & -> & Ho & Hr & Ew); try done; try lia; [ulia|].
    rewrite Ew. cbn [mbind outcome_bind]. pose proof (load_bytes_drop _ _ _ c1 r Hl eq_refl) as Hdr.
    destruct (chksum_end m (a + zlen c1) c1 r 0 Hdr Hr ltac:(done) Ho Hc ltac:(ulia)) as (t' & -> & Ef).
    cbn [mbind outcome_bind]. rewrite Z.add_0_l, Ef, Z.add_0_l.
    rewrite u16_small; [done|]. pose proof (oc_range (be_sum (c1 ++ r)) Hpos). ulia.
Qed.

(* ------------------------------------------------------------------ *)
(** * The sum of a chain *)

Lemma odd_len_app {A} (a b : list A) : odd_len (a ++ b) = xorb (odd_len a) (odd_len b).
Proof. unfold odd_len. by rewrite length_app, Nat.odd_add. Qed.

Lemma odd_len_mod {A} (l : list A) : negb (zlen l mod 2 =? 0) = odd_len l.
Proof.
  unfold odd_len. induction l as [|a|a b l IH] using list_pair_ind; [done|done|].
  cbn [length]. change (Nat.odd (S (S (length l)))) with (Nat.odd (length l)). rewrite <- IH.
  replace (Z.of_nat (S (S (length l)))) with (zlen l + 1 * 2) by lia. by rewrite Z.mod_add.
Qed.

(** Swapping the accumulator after a part of odd length keeps it the sum of
    what was read, with the words that start at odd positions scaled. *)
Lemma swap_step A d c swapped : 0 <= A -> Forall is_u8 d -> Forall is_u8 c -> swapped = odd_len d ->
  swap_odd (zlen c) swapped (oc (scale swapped (A + be_sum d) + be_sum c)) =
    (odd_len (d ++ c), oc (scale (odd_len (d ++ c)) (A + be_sum (d ++ c)))).
Proof.
  intros HA Hd Hc ->. destruct (be_sum_app d c Hd Hc) as [H0 (k & E & Hk)].
  pose proof (be_sum_pos d Hd). pose proof (be_sum_pos c Hc).
  assert (0 <= be_sum (d ++ c)) by (by apply be_sum_pos, Forall_app).
  unfold swap_odd. rewrite odd_len_mod, odd_len_app.
  destruct (odd_len c), (odd_len d); cbn [xorb negb scale] in *; rewrite ?swap_oc by lia; f_equal.
  - apply (oc_unique _ _ (A + be_sum d + k)); lia.
  - apply (oc_unique _ _ (256 * k)); lia.
  - apply (oc_unique _ _ (256 * k - be_sum c)); lia.
  - apply (oc_unique _ _ k); lia.
Qed.

Lemma scale_oc_range sw s : 0 <= s -> 0 <= oc (scale sw s) <= 65535.
Proof. intros. apply oc_range. destruct sw; simpl; lia. Qed.

(** One buffer added to the accumulator. *)
Lemma acc_step acc S c : acc = oc S -> 0 <= S -> Forall is_u8 c ->
  FOLD_U32T (u32 (acc + oc (be_sum c))) = oc (S + be_sum c).
Proof.
  intros -> HS Hc. pose proof (be_sum_pos c Hc). pose proof (oc_range S HS). pose proof (oc_range (be_sum c)).
  rewrite u32_small by ulia. rewrite fold_once by lia.
  rewrite Z.add_comm, oc_add_l by lia. by rewrite Z.add_comm, oc_add_l by lia.
Qed.

Lemma sum_chain_spec m bs c : forall fuel q l d A swapped acc,
  chain m q l -> packet l -> content bs l c -> Forall is_u8 c -> Forall is_u8 d -> 0 <= A ->
  (length l <= fuel)%nat -> swapped = odd_len d -> acc = oc (scale swapped (A + be_sum d)) ->
  sum_chain fuel m bs q swapped acc =
    Ok (odd_len (d ++ c), oc (scale (odd_len (d ++ c)) (A + be_sum (d ++ c)))).
Proof.
  intros fuel q l. revert fuel q c. induction l as [|[a b] l IH]; intros fuel q c d A swapped acc
    Hch Hp Hct Hc Hd HA Hf Hsw Hacc.
  - simpl in Hct. subst c. simpl in Hch. subst q. rewrite app_nil_r, <- Hsw, <- Hacc. by destruct fuel.
  - destruct fuel as [|fuel]; [simpl in Hf; lia|]. destruct Hch as (-> & Ha & Hb & Hch).
    destruct Hct as (c1 & c2 & -> & Hl & Hct). apply Forall_app in Hc as [Hc1 Hc2].
    destruct Hp as (_ & [Hlen _] & Hp). cbn [sum_chain]. rewrite (proj2 (Z.eqb_neq a 0)) by done.
    unfold deref. rewrite Hb. cbn [mbind outcome_bind].
    pose proof Hl as [Hn _]%load_bytes_ok. unfold is_u16 in Hlen. rewrite <- Hn in Hl.
    replace (len b) with (zlen c1) in * by lia. unfold LWIP_CHKSUM. rewrite standard_chksum_spec by (done || lia).
    cbn [mbind outcome_bind]. pose proof (be_sum_pos d Hd).
    rewrite (acc_step _ _ _ Hacc) by (done || (destruct swapped; simpl; lia)).
    rewrite (swap_step A d c1 swapped) by done. rewrite app_assoc.
    apply (IH fuel (next b) c2 (d ++ c1) A); try done; [by apply Forall_app|simpl in Hf; lia].
Qed.

Lemma unswap_spec sw s : 0 <= s -> unswap sw (oc (scale sw s)) = oc s.
Proof.
  intros Hs. destruct sw; cbn [unswap scale]; [|done]. rewrite swap_oc by lia.
  apply (oc_unique _ _ s); lia.
Qed.

Lemma complement a : is_u16 a -> u16 (Z.lnot (Z.land a 0xffff)) = 65535 - a.
Proof. intros Ha. rewrite land_65535. unfold Z.lnot. ulia. Qed.

Lemma finish_spec proto proto_len s : is_u8 proto -> is_u16 proto_len -> 0 <= s ->
  finish_pseudo proto proto_len (oc s) = 65535 - oc (s + proto + proto_len).
Proof.
  intros Hp Hl Hs. pose proof (oc_range s Hs). unfold finish_pseudo, lwip_htons.
  rewrite (u16_small proto), (u16_small proto_len) by ulia.
  rewrite (u32_small (oc s + proto)) by ulia. rewrite u32_small by ulia. rewrite fold_twice by ulia.
  rewrite complement by (pose proof (oc_range (oc s + proto + proto_len)); ulia).
  unfold is_u8, is_u16 in *. by rewrite <- !Z.add_assoc, oc_add_l by lia.
Qed.

(** The bytes of a word and of an address, in network order. *)
Definition word_bytes (w : Z) : list Z :=
  [w / 16777216; w / 65536 mod 256; w / 256 mod 256; w mod 256].
Definition ip6_bytes (a : ip6_addr) : list Z := addr a ≫= word_bytes.
(** RFC 8200, 8.1. *)
Definition pseudo_header (src dest : ip6_addr) (upper_len next_header : Z) : list Z :=
  ip6_bytes src ++ ip6_bytes dest ++ word_bytes upper_len ++ [0; 0; 0; next_header].

Lemma add_word_spec acc a : is_u32 a -> 0 <= acc <= 1000000 ->
  add_word acc a = acc + be_sum (word_bytes a) /\ 0 <= be_sum (word_bytes a) <= 131070.
Proof.
  intros Ha Hacc. unfold add_word, word_bytes. rewrite !be_sum_pair. change (be_sum []) with 0.
  rewrite !land_65535, Z.shiftr_div_pow2 by done. change (2 ^ 16) with 65536.
  rewrite !u32_small by ulia. ulia.
Qed.

Lemma word_bytes_u8 w : is_u32 w -> Forall is_u8 (word_bytes w).
Proof. intros Hw. unfold word_bytes. rewrite !Forall_cons_iff. split_and!; try done; ulia. Qed.

Lemma ip6_bytes_ok a : wf_ip6 a -> Forall is_u8 (ip6_bytes a) /\ odd_len (ip6_bytes a) = false.
Proof.
  destruct a as [[|a [|b [|c [|d [|]]]]]]; intros [Hl Hf]; try done. split; [|done].
  cbn [addr] in Hf. rewrite !Forall_cons_iff in Hf. destruct Hf as (Ha & Hb & Hc & Hd & _).
  unfold ip6_bytes. cbn [addr mbind list_bind]. rewrite !Forall_app. split_and!; try by apply word_bytes_u8.
  constructor.
Qed.

Lemma sum_addresses_spec src dest : wf_ip6 src -> wf_ip6 dest ->
  sum_addresses 4 src dest 0 0 = Ok (be_sum (ip6_bytes src) + be_sum (ip6_bytes dest)) /\
  0 <= be_sum (ip6_bytes src) + be_sum (ip6_bytes dest) <= 1048560.
Proof.
  destruct src as [[|a0 [|a1 [|a2 [|a3 [|]]]]]]; intros [Hl Hf]; try done.
  destruct dest as [[|b0 [|b1 [|b2 [|b3 [|]]]]]]; intros [Hl' Hf']; try done.
  cbn [addr] in Hf, Hf'. rewrite !Forall_cons_iff in Hf, Hf'.
  destruct Hf as (Ha0 & Ha1 & Ha2 & Ha3 & _), Hf' as (Hb0 & Hb1 & Hb2 & Hb3 & _).
  unfold ip6_bytes. cbn [addr mbind list_bind]. rewrite !be_sum_app_even by (done || by apply word_bytes_u8).
  change (be_sum []) with 0.
  destruct (add_word_spec 0 a0 Ha0 ltac:(lia)) as [E0 B0].
  destruct (add_word_spec (0 + be_sum (word_bytes a0)) b0 Hb0 ltac:(lia)) as [F0 C0].
  match goal with |- ?x = _ /\ _ => change x with (Ok (add_word (add_word (add_word (add_word (add_word (add_word
    (add_word (add_word 0 a0) b0) a1) b1) a2) b2) a3) b3)) end.
  rewrite E0, F0.
  destruct (add_word_spec (0 + be_sum (word_bytes a0) + be_sum (word_bytes b0)) a1 Ha1 ltac:(lia)) as [-> B1].
  match goal with |- context [add_word ?x b1] => destruct (add_word_spec x b1 Hb1 ltac:(lia)) as [-> C1] end.
  match goal with |- context [add_word ?x a2] => destruct (add_word_spec x a2 Ha2 ltac:(lia)) as [-> B2] end.
  match goal with |- context [add_word ?x b2] => destruct (add_word_spec x b2 Hb2 ltac:(lia)) as [-> C2] end.
  match goal with |- context [add_word ?x a3] => destruct (add_word_spec x a3 Ha3 ltac:(lia)) as [-> B3] end.
  match goal with |- context [add_word ?x b3] => destruct (add_word_spec x b3 Hb3 ltac:(lia)) as [-> C3] end.
  split; [f_equal|]; lia.
Qed.

Lemma pseudo_header_ok src dest n h : wf_ip6 src -> wf_ip6 dest -> is_u16 n -> is_u8 h ->
  Forall is_u8 (pseudo_header src dest n h) /\ odd_len (pseudo_header src dest n h) = false /\
  be_sum (pseudo_header src dest n h) = be_sum (ip6_bytes src) + be_sum (ip6_bytes dest) + n + h.
Proof.
  intros Hs Hd Hn Hh. destruct (ip6_bytes_ok src Hs) as [Hs1 Hs2], (ip6_bytes_ok dest Hd) as [Hd1 Hd2].
  assert (Hw : Forall is_u8 (word_bytes n)) by (apply word_bytes_u8; ulia). unfold pseudo_header.
  split_and!.
  - rewrite !Forall_app. split_and!; try done. rewrite !Forall_cons_iff. by split_and!.
  - by rewrite !odd_len_app, Hs2, Hd2.
  - rewrite !be_sum_app_even by done. unfold word_bytes. rewrite !be_sum_pair. change (be_sum []) with 0. ulia.
Qed.

Lemma rfc1071_spec l : Forall is_u8 l -> rfc1071 l = 65535 - oc (be_sum l).
Proof. intros Hl. unfold rfc1071. by rewrite oc_sum_spec. Qed.

(** The chain of a packet is walked to its end. *)
Lemma sum_packet m bs p l c A : chain m p l -> packet l -> content bs l c -> Forall is_u8 c -> 0 <= A ->
  exists sw acc, sum_chain (chain_fuel m) m bs p false (oc A) = Ok (sw, acc) /\ unswap sw acc = oc (A + be_sum c).
Proof.
  intros Hch Hp Hct Hc HA. pose proof (be_sum_pos c Hc).
  rewrite (sum_chain_spec m bs c (chain_fuel m) p l [] A false (oc A)); try done.
  - eexists _, _. split; [reflexivity|]. cbn [app]. apply unswap_spec. lia.
  - unfold chain_fuel. pose proof (chain_length _ _ _ Hch). lia.
  - cbn [scale be_sum]. by rewrite Z.add_0_r.
Qed.

Lemma pseudo_spec m bs p l c src dest proto n : chain m p l -> packet l -> content bs l c -> Forall is_u8 c ->
  wf_ip6 src -> wf_ip6 dest -> is_u8 proto -> is_u16 n ->
  ip6_chksum_pseudo m bs p proto n src dest =
    Ok (65535 - oc (be_sum (pseudo_header src dest n proto) + be_sum c)).
Proof.
  intros Hch Hp Hct Hc Hs Hd Hpr Hn. destruct (sum_addresses_spec src dest Hs Hd) as [E B].
  destruct (pseudo_header_ok src dest n proto Hs Hd Hn Hpr) as (_ & _ & ->).
  set (A := be_sum (ip6_bytes src) + be_sum (ip6_bytes dest)) in *. pose proof (be_sum_pos c Hc).
  unfold ip6_chksum_pseudo. rewrite E. cbn [mbind outcome_bind]. rewrite fold_twice by ulia.
  unfold inet_cksum_pseudo_base.
  destruct (sum_packet m bs p l c A Hch Hp Hct Hc ltac:(lia)) as (sw & acc & -> & Ea).
  cbn [mbind outcome_bind]. rewrite Ea, finish_spec by (done || lia). do 3 f_equal. lia.
Qed.

(* ------------------------------------------------------------------ *)
(** * Properties *)

(** C14: The checksum of a UDP or ICMPv6 packet is the one RFC 1071 and RFC
    8200 define, computed over the pseudo-header and the data, in whatever
    pieces and at whatever addresses the chain holds the data. *)
Theorem ip6_chksum_pseudo_rfc1071 m bs p l c src dest proto n :
  chain m p l -> packet l -> content bs l c -> Forall is_u8 c ->
  wf_ip6 src -> wf_ip6 dest -> is_u8 proto -> is_u16 n ->
  ip6_chksum_pseudo m bs p proto n src dest = Ok (rfc1071 (pseudo_header src dest n proto ++ c)).
Proof.
  intros Hch Hp Hct Hc Hs Hd Hpr Hn.
  destruct (pseudo_header_ok src dest n proto Hs Hd Hn Hpr) as (Hh & Ho & _).
  rewrite (pseudo_spec _ _ _ _ _ _ _ _ _ Hch Hp Hct Hc Hs Hd Hpr Hn), rfc1071_spec by by apply Forall_app.
  by rewrite be_sum_app_even.
Qed.

(** Without the pseudo-header, over a chain and over a block of memory. *)
Lemma inet_chksum_pbuf_rfc1071 m bs p l c :
  chain m p l -> packet l -> content bs l c -> Forall is_u8 c ->
  inet_chksum_pbuf m bs p = Ok (rfc1071 c).
Proof.
  intros Hch Hp Hct Hc. unfold inet_chksum_pbuf.
  destruct (sum_packet m bs p l c 0 Hch Hp Hct Hc ltac:(lia)) as (sw & acc & E & Ea).
  change (oc 0) with 0 in E. rewrite E. cbn [mbind outcome_bind]. rewrite Ea, Z.add_0_l, rfc1071_spec by done.
  rewrite complement; [done|]. pose proof (oc_range (be_sum c) (be_sum_pos c Hc)). ulia.
Qed.

Lemma inet_chksum_rfc1071 m a c : load_bytes m a (length c) = Ok c -> Forall is_u8 c -> is_u16 (zlen c) ->
  inet_chksum m a (zlen c) = Ok (rfc1071 c).
Proof.
  intros Hl Hc Hn. unfold inet_chksum, LWIP_CHKSUM. rewrite standard_chksum_spec by (done || ulia).
  cbn [mbind outcome_bind]. rewrite rfc1071_spec by done.
  pose proof (oc_range (be_sum c) (be_sum_pos c Hc)). f_equal. unfold Z.lnot. ulia.
Qed.

(** The checksum field in its data. *)
Definition with_field (c1 c2 : list Z) (f : Z) : list Z := c1 ++ [f / 256; f mod 256] ++ c2.
(** UDP sends 0xffff for 0. *)
Definition wire_chksum (c : Z) : Z := if c =? 0 then 0xffff else c.

Lemma with_field_sum c1 c2 f : Forall is_u8 c1 -> Forall is_u8 c2 -> odd_len c1 = false -> is_u16 f ->
  Forall is_u8 (with_field c1 c2 f) /\ be_sum (with_field c1 c2 f) = be_sum c1 + f + be_sum c2.
Proof.
  intros H1 H2 Ho Hf. unfold with_field. split.
  - rewrite !Forall_app, !Forall_cons_iff. split_and!; try done; ulia.
  - rewrite !be_sum_app_even by (done || (rewrite !Forall_cons_iff; split_and!; try done; ulia)).
    rewrite be_sum_pair. change (be_sum []) with 0. ulia.
Qed.

(** The sum with the field filled in has the complement 0. *)
Lemma wire_complement S : 0 <= S ->
  is_u16 (wire_chksum (65535 - oc S)) /\ oc (S + wire_chksum (65535 - oc S)) = 65535.
Proof.
  intros HS0. pose proof (oc_range S HS0) as [Hr Hz]. destruct (oc_eq S HS0) as (k & Ek & Hk).
  set (f := wire_chksum (65535 - oc S)) in *.
  assert (Hf : is_u16 f /\ (f = 65535 - oc S \/ f = 65535 /\ oc S = 65535)).
  { unfold f, wire_chksum. destruct (Z.eqb_spec (65535 - oc S) 0); ulia. }
  destruct Hf as [Hfu Hf]. split; [done|]. change (oc (S + f) = oc 65535).
  destruct Hf as [Hf|[Hf Ho']]; [apply (oc_unique _ _ k)|apply (oc_unique _ _ (1 + k))]; unfold is_u16 in *; lia.
Qed.

Lemma wire_rfc1071 pre c1 c2 : Forall is_u8 pre -> odd_len pre = false ->
  Forall is_u8 c1 -> odd_len c1 = false -> Forall is_u8 c2 ->
  is_u16 (wire_chksum (rfc1071 (pre ++ with_field c1 c2 0))) /\
  rfc1071 (pre ++ with_field c1 c2 (wire_chksum (rfc1071 (pre ++ with_field c1 c2 0)))) = 0.
Proof.
  intros Hp Ho H1 Ho1 H2. destruct (with_field_sum c1 c2 0 H1 H2 Ho1 ltac:(ulia)) as [Hc E].
  pose proof (be_sum_pos _ Hp). pose proof (be_sum_pos _ H1). pose proof (be_sum_pos _ H2).
  rewrite (rfc1071_spec (pre ++ with_field c1 c2 0)), be_sum_app_even, E by (done || by apply Forall_app).
  destruct (wire_complement (be_sum pre + (be_sum c1 + 0 + be_sum c2)) ltac:(lia)) as [Hf Ef].
  split; [done|]. destruct (with_field_sum c1 c2 _ H1 H2 Ho1 Hf) as [Hc' E'].
  rewrite rfc1071_spec, be_sum_app_even, E' by (done || by apply Forall_app).
  match goal with H : oc ?x = 65535 |- context [oc ?y] => replace y with x by lia end. lia.
Qed.

(** C16: The receiver accepts what the sender computed: when the sender
    sums a packet whose checksum field is zero and puts the complement there
    (0xffff for 0), the receiver, with the packet in buffers of its own,
    computes 0. *)
Theorem chksum_verifies m bs p l m' bs' p' l' c1 c2 src dest proto n ck :
  chain m p l -> packet l -> content bs l (with_field c1 c2 0) ->
  Forall is_u8 c1 -> Forall is_u8 c2 -> odd_len c1 = false ->
  wf_ip6 src -> wf_ip6 dest -> is_u8 proto -> is_u16 n ->
  ip6_chksum_pseudo m bs p proto n src dest = Ok ck ->
  chain m' p' l' -> packet l' -> content bs' l' (with_field c1 c2 (wire_chksum ck)) ->
  ip6_chksum_pseudo m' bs' p' proto n src dest = Ok 0.
Proof.
  intros Hch Hp Hct H1 H2 Ho Hs Hd Hpr Hn Hck Hch' Hp' Hct'.
  destruct (pseudo_header_ok src dest n proto Hs Hd Hn Hpr) as (Hh & _ & _).
  pose proof (be_sum_pos _ Hh). pose proof (be_sum_pos _ H1). pose proof (be_sum_pos _ H2).
  destruct (with_field_sum c1 c2 0 H1 H2 Ho ltac:(ulia)) as [Hc E].
  rewrite (pseudo_spec _ _ _ _ _ _ _ _ _ Hch Hp Hct Hc Hs Hd Hpr Hn), E in Hck. injection Hck as <-.
  set (S := be_sum (pseudo_header src dest n proto) + (be_sum c1 + 0 + be_sum c2)) in *.
  destruct (wire_complement S ltac:(lia)) as [Hf Ef].
  destruct (with_field_sum c1 c2 _ H1 H2 Ho Hf) as [Hc' E'].
  rewrite (pseudo_spec _ _ _ _ _ _ _ _ _ Hch' Hp' Hct' Hc' Hs Hd Hpr Hn), E'. f_equal.
  match type of Ef with oc ?x = _ => match goal with |- context [oc ?y] => replace y with x by (unfold S; lia) end end. lia.
Qed.

(** A byte counts once or 256 times. *)
Lemma be_sum_insert c : forall i x y, c !! i = Some y ->
  exists w, (w = 1 \/ w = 256) /\ be_sum (<[i := x]> c) = be_sum c + w * (x - y).
Proof.
  induction c as [|a|a b c IH] using list_pair_ind; intros [|[|i]] x y; try done; intros Hy.
  - injection Hy as ->. exists 256. cbn [insert list_insert]. rewrite !be_sum_one. lia.
  - injection Hy as ->. exists 256. change (<[0%nat := x]> (y :: b :: c)) with (x :: b :: c). rewrite !be_sum_pair. lia.
  - injection Hy as ->. exists 1. change (<[1%nat := x]> (a :: y :: c)) with (a :: x :: c). rewrite !be_sum_pair. lia.
  - destruct (IH i x y Hy) as (w & Hw & E). exists w. change (<[S (S i) := x]> (a :: b :: c)) with (a :: b :: <[i := x]> c).
    rewrite !be_sum_pair. lia.
Qed.

(** A packet that verifies no longer does when any one of its bytes is
    another. *)
Theorem chksum_detects_byte m bs p l m' bs' p' l' c i x y src dest proto n :
  chain m p l -> packet l -> content bs l c -> Forall is_u8 c ->
  wf_ip6 src -> wf_ip6 dest -> is_u8 proto -> is_u16 n ->
  ip6_chksum_pseudo m bs p proto n src dest = Ok 0 ->
  c !! i = Some y -> is_u8 x -> x <> y ->
  chain m' p' l' -> packet l' -> content bs' l' (<[i := x]> c) ->
  exists v, ip6_chksum_pseudo m' bs' p' proto n src dest = Ok v /\ v <> 0.
Proof.
  intros Hch Hp Hct Hc Hs Hd Hpr Hn H0 Hy Hx Hxy Hch' Hp' Hct'.
  destruct (pseudo_header_ok src dest n proto Hs Hd Hn Hpr) as (Hh & _ & _). pose proof (be_sum_pos _ Hh).
  assert (Hc' : Forall is_u8 (<[i := x]> c)) by by apply Forall_insert.
  pose proof (be_sum_pos _ Hc). pose proof (be_sum_pos _ Hc').
  rewrite (pseudo_spec _ _ _ _ _ _ _ _ _ Hch Hp Hct Hc Hs Hd Hpr Hn) in H0. injection H0 as H0.
  rewrite (pseudo_spec _ _ _ _ _ _ _ _ _ Hch' Hp' Hct' Hc' Hs Hd Hpr Hn). eexists. split; [reflexivity|].
  destruct (be_sum_insert c i x y Hy) as (w & Hw & E). rewrite E in *.
  assert (Hyu : is_u8 y) by (rewrite Forall_lookup in Hc; by eapply Hc).
  set (S := be_sum (pseudo_header src dest n proto) + be_sum c) in *.
  destruct (oc_eq S ltac:(lia)) as (k & Ek & _).
  destruct (oc_eq (be_sum (pseudo_header src dest n proto) + (be_sum c + w * (x - y))) ltac:(lia)) as (k' & Ek' & _).
  intros Hv. unfold is_u8 in *.
  assert (w * (x - y) = 65535 * (k' - k)) by lia. destruct Hw as [-> | ->]; lia.
Qed.

(* ------------------------------------------------------------------ *)
(** * Witnesses: a datagram of eleven bytes in two pieces, the first at an odd
    address and of odd length, and in one *)

Definition two_pieces : list (Z * pbuf) :=
  [(0x10, mk_pbuf 0x20 0x101 11 3 0x41 0 1 0); (0x20, mk_pbuf 0 0x200 8 8 0x41 0 1 0)].
Definition one_piece : list (Z * pbuf) := [(0x30, mk_pbuf 0 0x300 11 11 0x41 0 1 0)].
Definition at_address (a : Z) (l : list Z) : gmap Z Z := list_to_map (zip (seqZ a (zlen l)) l).
Definition udp_start : list Z := [192; 0; 20; 233; 0; 11].
Definition udp_data : list Z := [1; 2; 3].
Definition sent : list Z := with_field udp_start udp_data 0.
Definition received : list Z := with_field udp_start udp_data (wire_chksum 10349).
Definition sent_bytes : gmap Z Z := at_address 0x101 (take 3 sent) ∪ at_address 0x200 (drop 3 sent).
Definition node : ip6_addr := IP6_ADDR 0xfe800000 0 0 1.
Definition group : ip6_addr := IP6_ADDR 0xff020000 0 0 0xfb.

Lemma nodes_ok : wf_ip6 node /\ wf_ip6 group.
Proof. split; (split; [done|]); cbn; rewrite !Forall_cons_iff; by split_and!. Qed.

Lemma two_pieces_ok : chain (list_to_map two_pieces) 0x10 two_pieces /\ packet two_pieces /\
  content sent_bytes two_pieces sent.
Proof.
  split_and!; try done. exists (take 3 sent), (drop 3 sent). split_and!; [done|by vm_compute|].
  exists (drop 3 sent), []. split_and!; [done|by vm_compute|done].
Qed.

Lemma one_piece_ok c : length c = 11%nat -> load_bytes (at_address 0x300 c) 0x300 11 = Ok c ->
  chain (list_to_map one_piece) 0x30 one_piece /\ packet one_piece /\
  content (at_address 0x300 c) one_piece c.
Proof. intros Hl Hc. split_and!; try done. exists c, []. by rewrite app_nil_r. Qed.

Lemma data_ok : Forall is_u8 udp_start /\ Forall is_u8 udp_data /\ Forall is_u8 received.
Proof. unfold received, with_field, udp_start, udp_data. cbn. rewrite !Forall_cons_iff. by split_and!. Qed.

Lemma ip6_chksum_pseudo_rfc1071_witness :
  ip6_chksum_pseudo (list_to_map two_pieces) sent_bytes 0x10 17 11 node group =
    Ok (rfc1071 (pseudo_header node group 11 17 ++ sent)) /\
  rfc1071 (pseudo_header node group 11 17 ++ sent) = 10349.
Proof.
  destruct two_pieces_ok as (H1 & H2 & H3), nodes_ok as [Hn Hg], data_ok as (Hs & Hd & _).
  split; [|vm_compute; reflexivity].
  apply (ip6_chksum_pseudo_rfc1071 _ _ _ _ _ _ _ _ _ H1 H2 H3); try done.
  by apply (with_field_sum udp_start udp_data 0 Hs Hd eq_refl).
Defined.

Lemma chksum_verifies_witness :
  ip6_chksum_pseudo (list_to_map one_piece) (at_address 0x300 received) 0x30 17 11 node group = Ok 0.
Proof.
  destruct two_pieces_ok as (H1 & H2 & H3), nodes_ok as [Hn Hg], data_ok as (Hs & Hd & _).
  destruct (one_piece_ok received eq_refl ltac:(vm_compute; reflexivity)) as (H4 & H5 & H6).
  assert (Hck : ip6_chksum_pseudo (list_to_map two_pieces) sent_bytes 0x10 17 11 node group = Ok 10349)
    by (vm_compute; reflexivity).
  assert (H17 : is_u8 17) by (unfold is_u8; lia). assert (H11 : is_u16 11) by (unfold is_u16; lia).
  exact (chksum_verifies _ _ _ _ _ _ _ _ udp_start udp_data node group 17 11 10349 H1 H2 H3 Hs Hd eq_refl
    Hn Hg H17 H11 Hck H4 H5 H6).
Defined.

Lemma chksum_detects_byte_witness :
  exists v, ip6_chksum_pseudo (list_to_map one_piece) (at_address 0x300 (<[9%nat := 7]> received)) 0x30 17 11
    node group = Ok v /\ v <> 0.
Proof.
  destruct nodes_ok as [Hn Hg], data_ok as (_ & _ & Hr).
  destruct (one_piece_ok received eq_refl ltac:(vm_compute; reflexivity)) as (H1 & H2 & H3).
  destruct (one_piece_ok (<[9%nat := 7]> received) (length_insert received 9 7) ltac:(vm_compute; reflexivity)) as (H4 & H5 & H6).
  assert (H0 : ip6_chksum_pseudo (list_to_map one_piece) (at_address 0x300 received) 0x30 17 11 node group = Ok 0)
    by (vm_compute; reflexivity).
  assert (H17 : is_u8 17) by (unfold is_u8; lia). assert (H11 : is_u16 11) by (unfold is_u16; lia).
  assert (H7 : is_u8 7) by (unfold is_u8; lia). assert (H72 : 7 <> 2) by lia.
  exact (chksum_detects_byte _ _ _ _ _ _ _ _ received 9 7 2 node group 17 11 H1 H2 H3 Hr Hn Hg H17 H11 H0
    eq_refl H7 H72 H4 H5 H6).
Defined.
