(* ===== verification/Udp.v ===== *)
(** UDP: core/udp.c, without UDP-Lite, SO_REUSE and checksum on copy.

    Protocol control blocks come from the pool MEMP_UDP_PCB; the active ones
    are linked from [udp_pcbs] through their [next] fields. A freed one is
    gone from the map, so that a use after free is a fault. Packets live in
    [Pbuf]'s state. The layers below and above are parameters: the class
    [IpLayer] is what UDP reads of interfaces, routes and the packet being
    received; sending a packet, the ICMPv6 error and the receive callbacks
    are computations on the whole state. *)

From Stdlib Require Import ZArith Lia.
From stdpp Require Import base list numbers gmap.
From S2P Require Import Prelude Mmio Mem Memp Pbuf Ip6Addr Chksum.

Open Scope Z_scope.

(* ------------------------------------------------------------------ *)
(** * Constants *)

Definition UDP_HLEN : Z := 8.
Definition UDP_TTL : Z := 255.
Definition IP_PROTO_UDP : Z := 17.
Definition UDP_FLAGS_CONNECTED : Z := 0x04.
Definition UDP_FLAGS_MULTICAST_LOOP : Z := 0x08.
Definition UDP_LOCAL_PORT_RANGE_START : Z := 0xc000.
Definition UDP_LOCAL_PORT_RANGE_END : Z := 0xffff.
Definition UDP_ENSURE_LOCAL_PORT_RANGE (port : Z) : Z :=
  u16 (Z.land port (u16 (Z.lnot UDP_LOCAL_PORT_RANGE_START)) + UDP_LOCAL_PORT_RANGE_START).
Definition PBUF_FLAG_MCASTLOOP : Z := 0x04.
Definition ERR_RTE : Z := -4.
Definition ERR_USE : Z := -8.

(* ------------------------------------------------------------------ *)
(** * State *)

(** [struct udp_pcb]; a callback is the address of a function. *)
Record udp_pcb := mk_pcb {
  local_ip : ip6_addr;
  remote_ip : ip6_addr;
  netif_idx : Z;
  so_options : Z;
  tos : Z;
  ttl : Z;
  u_next : Z;
  u_flags : Z;
  local_port : Z;
  remote_port : Z;
  mcast_ifindex : Z;
  mcast_ttl : Z;
  recv : Z;
  recv_arg : Z
}.

Definition set_local_ip (v : ip6_addr) (p : udp_pcb) : udp_pcb :=
  mk_pcb v (remote_ip p) (netif_idx p) (so_options p) (tos p) (ttl p) (u_next p) (u_flags p)
    (local_port p) (remote_port p) (mcast_ifindex p) (mcast_ttl p) (recv p) (recv_arg p).
Definition set_remote_ip (v : ip6_addr) (p : udp_pcb) : udp_pcb :=
  mk_pcb (local_ip p) v (netif_idx p) (so_options p) (tos p) (ttl p) (u_next p) (u_flags p)
    (local_port p) (remote_port p) (mcast_ifindex p) (mcast_ttl p) (recv p) (recv_arg p).
Definition set_netif_idx (v : Z) (p : udp_pcb) : udp_pcb :=
  mk_pcb (local_ip p) (remote_ip p) (u8 v) (so_options p) (tos p) (ttl p) (u_next p) (u_flags p)
    (local_port p) (remote_port p) (mcast_ifindex p) (mcast_ttl p) (recv p) (recv_arg p).
Definition set_u_next (v : Z) (p : udp_pcb) : udp_pcb :=
  mk_pcb (local_ip p) (remote_ip p) (netif_idx p) (so_options p) (tos p) (ttl p) v (u_flags p)
    (local_port p) (remote_port p) (mcast_ifindex p) (mcast_ttl p) (recv p) (recv_arg p).
Definition set_u_flags (v : Z) (p : udp_pcb) : udp_pcb :=
  mk_pcb (local_ip p) (remote_ip p) (netif_idx p) (so_options p) (tos p) (ttl p) (u_next p) (u8 v)
    (local_port p) (remote_port p) (mcast_ifindex p) (mcast_ttl p) (recv p) (recv_arg p).
Definition set_local_port (v : Z) (p : udp_pcb) : udp_pcb :=
  mk_pcb (local_ip p) (remote_ip p) (netif_idx p) (so_options p) (tos p) (ttl p) (u_next p) (u_flags p)
    (u16 v) (remote_port p) (mcast_ifindex p) (mcast_ttl p) (recv p) (recv_arg p).
Definition set_remote_port (v : Z) (p : udp_pcb) : udp_pcb :=
  mk_pcb (local_ip p) (remote_ip p) (netif_idx p) (so_options p) (tos p) (ttl p) (u_next p) (u_flags p)
    (local_port p) (u16 v) (mcast_ifindex p) (mcast_ttl p) (recv p) (recv_arg p).
Definition set_recv (f a : Z) (p : udp_pcb) : udp_pcb :=
  mk_pcb (local_ip p) (remote_ip p) (netif_idx p) (so_options p) (tos p) (ttl p) (u_next p) (u_flags p)
    (local_port p) (remote_port p) (mcast_ifindex p) (mcast_ttl p) f a.

(** [udp_set_flags], [udp_clear_flags]. *)
Definition udp_set_flags (f : Z) (p : udp_pcb) : udp_pcb := set_u_flags (Z.lor (u_flags p) f) p.
Definition udp_clear_flags (f : Z) (p : udp_pcb) : udp_pcb :=
  set_u_flags (Z.land (u_flags p) (u8 (Z.land (Z.lnot f) 0xff))) p.

(** The module's variables and the control blocks by address; NULL is 0. *)
Record udp_vars := mk_udp { udp_port : Z; udp_pcbs : Z; pcbs : gmap Z udp_pcb }.

(** What UDP asks of the layer below; an interface is an address. *)
Class IpLayer (N : Type) := {
  netif_get_index : N -> Z -> Z;
  netif_get_by_index : N -> Z -> Z;
  ip_route : N -> ip6_addr -> ip6_addr -> Z;
  ip6_select_source_address : N -> Z -> ip6_addr -> option ip6_addr;
  netif_get_ip6_addr_match : N -> Z -> ip6_addr -> Z;
  ip_current_input_netif : N -> Z;
  ip_current_src_addr : N -> ip6_addr;
  ip_current_dest_addr : N -> ip6_addr;
  ip_current_header_tot_len : N -> Z
}.

Record net (PP RP HP UP N : Type) := mk_net {
  n_heap : pheap PP RP HP;
  udp : udp_vars;
  udp_pool : UP;
  lower : N
}.
Arguments mk_net {PP RP HP UP N}.
Arguments n_heap {PP RP HP UP N}.
Arguments udp {PP RP HP UP N}.
Arguments udp_pool {PP RP HP UP N}.
Arguments lower {PP RP HP UP N}.

(* ------------------------------------------------------------------ *)
(** * Walks over the list *)

(** [p->...] of a control block. *)
Definition pcb_at (m : gmap Z udp_pcb) (p : Z) : outcome udp_pcb :=
  match m !! p with Some b => Ok b | None => Fault NullPointer end.
Definition pcb_fuel (m : gmap Z udp_pcb) : nat := S (stdpp.base.size m).

(** [for (pcb = udp_pcbs; pcb != NULL; pcb = pcb->next)] up to the first for
    which [test] holds; 0 when there is none. *)
Fixpoint find_pcb (fuel : nat) (m : gmap Z udp_pcb) (test : Z -> udp_pcb -> bool) (pcb : Z) : outcome Z :=
  if pcb =? 0 then Ok 0
  else
    match fuel with
    | O => Fault Diverges
    | S fuel => b ← pcb_at m pcb; if test pcb b then Ok pcb else find_pcb fuel m test (u_next b)
    end.

Section Module.
Context {PP RP HP UP N : Type} `{PoolOps PP} `{PoolOps RP} `{HeapOps HP} `{PoolOps UP} `{IpLayer N}.
Abbreviation state := (net PP RP HP UP N).
Abbreviation uio := (io state).

(** [rand()]. *)
Variable LWIP_RAND : N -> Z.
(** [ip_output_if_src(q, src, dst, ttl, tos, proto, netif)]. *)
Variable ip_output_if_src : Z -> ip6_addr -> ip6_addr -> Z -> Z -> Z -> Z -> uio Z.
(** [icmp6_dest_unreach(p, ICMP6_DUR_PORT)]. *)
Variable icmp_port_unreach : Z -> uio unit.
(** A call of the callback at an address:
    [recv(arg, pcb, p, addr, port)]. *)
Variable call_recv : Z -> Z -> Z -> Z -> ip6_addr -> Z -> uio unit.

Definition with_udp (f : udp_vars -> udp_vars) (s : state) : state :=
  mk_net (n_heap s) (f (udp s)) (udp_pool s) (lower s).
Definition set_pcbs (f : gmap Z udp_pcb -> gmap Z udp_pcb) (u : udp_vars) : udp_vars :=
  mk_udp (udp_port u) (udp_pcbs u) (f (pcbs u)).
Definition set_port (v : Z) (u : udp_vars) : udp_vars := mk_udp (u16 v) (udp_pcbs u) (pcbs u).
Definition set_head (v : Z) (u : udp_vars) : udp_vars := mk_udp (udp_port u) v (pcbs u).

Definition vars : uio udp_vars := s ← io_get; mret (udp s).
Definition get_pcb (p : Z) : uio udp_pcb := fun s => b ← pcb_at (pcbs (udp s)) p; Ok (b, s).
Definition upd_pcb (p : Z) (f : udp_pcb -> udp_pcb) : uio unit :=
  b ← get_pcb p; io_modify (with_udp (set_pcbs <[p := f b]>)).
Definition search (test : Z -> udp_pcb -> bool) : uio Z := fun s =>
  r ← find_pcb (pcb_fuel (pcbs (udp s))) (pcbs (udp s)) test (udp_pcbs (udp s)); Ok (r, s).

(** Operations of [Pbuf] and its heap. *)
Definition on_pbufs {A} (m : io (pheap PP RP HP) A) : uio A := fun s =>
  '(x, h) ← m (n_heap s); Ok (x, mk_net h (udp s) (udp_pool s) (lower s)).
Definition pbuf_change (f : gmap Z pbuf -> outcome (Z * gmap Z pbuf)) : io (pheap PP RP HP) Z := fun s =>
  '(r, m) ← f (pbufs s); Ok (r, with_pbufs (fun _ => m) s).
Definition read16 (a : Z) : uio Z := fun s => v ← load16 (bytes (n_heap s)) a; Ok (v, s).
Definition write16 (a v : Z) : io (pheap PP RP HP) unit := fun s =>
  bs ← store_bytes (bytes s) a [u16 v / 256; u16 v mod 256];
  Ok (tt, mk_pheap (pool_st s) (rom_st s) (heap_st s) (pbufs s) bs).
Definition chksum_pseudo (p proto proto_len : Z) (src dest : ip6_addr) : io (pheap PP RP HP) Z := fun s =>
  c ← ip_chksum_pseudo (pbufs s) (bytes s) p proto proto_len src dest; Ok (c, s).

(** The fields of [struct udp_hdr] from its start. *)
Definition HDR_src : Z := 0.
Definition HDR_dest : Z := 2.
Definition HDR_len : Z := 4.
Definition HDR_chksum : Z := 6.

(* ------------------------------------------------------------------ *)
(** * Ports *)

Definition udp_init : uio unit :=
  io_modify (fun s => with_udp (set_port (UDP_ENSURE_LOCAL_PORT_RANGE (LWIP_RAND (lower s)))) s).

(** From the label [again]; [n] counts the ports found in use. *)
Fixpoint new_port_loop (fuel : nat) (n : Z) : uio Z :=
  v ← vars;
  let port := if udp_port v =? UDP_LOCAL_PORT_RANGE_END then UDP_LOCAL_PORT_RANGE_START
              else u16 (udp_port v + 1) in
  _ ← io_modify (with_udp (set_port port));
  used ← search (fun _ b => local_port b =? port);
  if used =? 0 then mret port
  else
    let n := u16 (n + 1) in
    if UDP_LOCAL_PORT_RANGE_END - UDP_LOCAL_PORT_RANGE_START <? n then mret 0
    else
      match fuel with
      | O => io_fault Diverges
      | S fuel => new_port_loop fuel n
      end.

(** Every port of the range is tried once. *)
Definition new_port_fuel : nat := Z.to_nat (UDP_LOCAL_PORT_RANGE_END - UDP_LOCAL_PORT_RANGE_START).
Definition udp_new_port : uio Z := new_port_loop new_port_fuel 0.

(* ------------------------------------------------------------------ *)
(** * Control blocks *)

(** Another control block with the port and the address, or with either
    address unspecified. *)
Definition bind_clash (pcb : Z) (ipaddr : ip6_addr) (port : Z) (ipcb : Z) (b : udp_pcb) : bool :=
  negb (pcb =? ipcb) && (local_port b =? port) &&
  (ip6_addr_eq (local_ip b) ipaddr || ip6_addr_isany_val ipaddr || ip6_addr_isany_val (local_ip b)).

(** The assignment and the insertion at the end of [udp_bind]. *)
Definition bind_to (pcb : Z) (ipaddr : ip6_addr) (port : Z) (rebind : bool) : uio Z :=
  _ ← upd_pcb pcb (set_local_ip ipaddr);
  _ ← upd_pcb pcb (set_local_port port);
  _ ← io_when (negb rebind)
    (v ← vars; _ ← upd_pcb pcb (set_u_next (udp_pcbs v)); io_modify (with_udp (set_head pcb)));
  mret ERR_OK.

(** NULL addresses are [None]. *)
Definition udp_bind (pcb : Z) (ipaddr : option ip6_addr) (port : Z) : uio Z :=
  match ipaddr with
  | None => mret ERR_ARG
  | Some ipaddr =>
      if pcb =? 0 then mret ERR_ARG
      else
        r ← search (fun ipcb _ => pcb =? ipcb);
        let rebind := negb (r =? 0) in
        if port =? 0 then
          port ← udp_new_port;
          if port =? 0 then mret ERR_USE else bind_to pcb ipaddr port rebind
        else
          r ← search (bind_clash pcb ipaddr port);
          if negb (r =? 0) then mret ERR_USE else bind_to pcb ipaddr port rebind
  end.

Definition udp_bind_netif (pcb netif : Z) : uio unit :=
  s ← io_get;
  upd_pcb pcb (set_netif_idx (if netif =? 0 then NETIF_NO_INDEX else netif_get_index (lower s) netif)).

Definition udp_connect (pcb : Z) (ipaddr : option ip6_addr) (port : Z) : uio Z :=
  if pcb =? 0 then mret ERR_ARG
  else
    match ipaddr with
    | None => mret ERR_ARG
    | Some ipaddr =>
        b ← get_pcb pcb;
        err ← (if local_port b =? 0 then udp_bind pcb (Some (local_ip b)) (local_port b) else mret ERR_OK);
        if negb (err =? ERR_OK) then mret err
        else
          _ ← upd_pcb pcb (set_remote_ip ipaddr);
          _ ← upd_pcb pcb (set_remote_port port);
          _ ← upd_pcb pcb (udp_set_flags UDP_FLAGS_CONNECTED);
          r ← search (fun ipcb _ => pcb =? ipcb);
          if negb (r =? 0) then mret ERR_OK
          else
            v ← vars;
            _ ← upd_pcb pcb (set_u_next (udp_pcbs v));
            _ ← io_modify (with_udp (set_head pcb));
            mret ERR_OK
    end.

Definition udp_disconnect (pcb : Z) : uio unit :=
  if pcb =? 0 then mret tt
  else
    _ ← upd_pcb pcb (set_remote_ip (IP6_ADDR 0 0 0 0));
    _ ← upd_pcb pcb (set_remote_port 0);
    _ ← upd_pcb pcb (set_netif_idx NETIF_NO_INDEX);
    upd_pcb pcb (udp_clear_flags UDP_FLAGS_CONNECTED).

Definition udp_recv (pcb recv recv_arg : Z) : uio unit :=
  if pcb =? 0 then mret tt else upd_pcb pcb (set_recv recv recv_arg).

Definition memp_free_UDP_PCB (pcb : Z) : uio unit := fun s =>
  ps ← pool_free pcb (udp_pool s);
  Ok (tt, mk_net (n_heap s) (set_pcbs (delete pcb) (udp s)) ps (lower s)).

(** The list part of [udp_remove]. *)
Definition udp_unlink (pcb : Z) : uio unit :=
  v ← vars;
  if udp_pcbs v =? pcb then
    b ← get_pcb (udp_pcbs v);
    io_modify (with_udp (set_head (u_next b)))
  else
    pcb2 ← search (fun _ b => negb (u_next b =? 0) && (u_next b =? pcb));
    if pcb2 =? 0 then mret tt
    else b ← get_pcb pcb; upd_pcb pcb2 (set_u_next (u_next b)).

Definition udp_remove (pcb : Z) : uio unit :=
  if pcb =? 0 then mret tt
  else _ ← udp_unlink pcb; memp_free_UDP_PCB pcb.

(** NULL is 0. *)
Definition udp_new : uio Z := fun s =>
  '(r, ps) ← pool_malloc (udp_pool s);
  let zero := IP6_ADDR 0 0 0 0 in
  match r with
  | None => Ok (0, mk_net (n_heap s) (udp s) ps (lower s))
  | Some pcb =>
      let b := mk_pcb zero zero 0 0 0 UDP_TTL 0 0 0 0 0 UDP_TTL 0 0 in
      Ok (pcb, mk_net (n_heap s) (set_pcbs <[pcb := b]> (udp s)) ps (lower s))
  end.
Definition udp_new_ip_type (type : Z) : uio Z := udp_new.

Fixpoint addr_changed_loop (fuel : nat) (old_addr new_addr : ip6_addr) (upcb : Z) : uio unit :=
  if upcb =? 0 then mret tt
  else
    match fuel with
    | O => io_fault Diverges
    | S fuel =>
        b ← get_pcb upcb;
        _ ← io_when (ip6_addr_eq (local_ip b) old_addr) (upd_pcb upcb (set_local_ip new_addr));
        addr_changed_loop fuel old_addr new_addr (u_next b)
    end.
Definition udp_netif_ip_addr_changed (old_addr new_addr : option ip6_addr) : uio unit :=
  match old_addr, new_addr with
  | Some o, Some n =>
      if negb (ip6_addr_isany_val o) && negb (ip6_addr_isany_val n) then
        v ← vars; addr_changed_loop (pcb_fuel (pcbs v)) o n (udp_pcbs v)
      else mret tt
  | _, _ => mret tt
  end.

(* ------------------------------------------------------------------ *)
(** * Receiving *)

(** [broadcast] is 0 without IPv4. *)
Definition udp_input_local_match (n : N) (b : udp_pcb) : bool :=
  if negb (netif_idx b =? NETIF_NO_INDEX) &&
     negb (netif_idx b =? netif_get_index n (ip_current_input_netif n)) then false
  else ip6_addr_isany_val (local_ip b) || ip6_addr_eq (local_ip b) (ip_current_dest_addr n).

Definition fully_matches (n : N) (src : Z) (b : udp_pcb) : bool :=
  (remote_port b =? src) &&
  (ip6_addr_isany_val (remote_ip b) || ip6_addr_eq (remote_ip b) (ip_current_src_addr n)).

(** The search of [udp_input]: the control block that stopped it, or NULL,
    the one before it and the first unconnected match. *)
Fixpoint input_walk (fuel : nat) (m : gmap Z udp_pcb) (n : N) (src dest pcb prev uncon_pcb : Z)
    : outcome (Z * Z * Z) :=
  if pcb =? 0 then Ok (0, prev, uncon_pcb)
  else
    match fuel with
    | O => Fault Diverges
    | S fuel =>
        b ← pcb_at m pcb;
        if (local_port b =? dest) && udp_input_local_match n b then
          let uncon_pcb :=
            if (Z.land (u_flags b) UDP_FLAGS_CONNECTED =? 0) && (uncon_pcb =? 0) then pcb else uncon_pcb in
          if fully_matches n src b then Ok (pcb, prev, uncon_pcb)
          else input_walk fuel m n src dest (u_next b) pcb uncon_pcb
        else input_walk fuel m n src dest (u_next b) pcb uncon_pcb
    end.

(** A full match moves to the front. *)
Definition move_to_front (pcb prev : Z) : uio unit :=
  io_when (negb (prev =? 0))
    (b ← get_pcb pcb;
     _ ← upd_pcb prev (set_u_next (u_next b));
     v ← vars;
     _ ← upd_pcb pcb (set_u_next (udp_pcbs v));
     io_modify (with_udp (set_head pcb))).

Definition input_search (src dest : Z) : uio (Z * Z * Z) := fun s =>
  r ← input_walk (pcb_fuel (pcbs (udp s))) (pcbs (udp s)) (lower s) src dest (udp_pcbs (udp s)) 0 0; Ok (r, s).

(** Which control block gets a datagram; NULL is 0. *)
Definition udp_demux (src dest : Z) : uio Z :=
  '(pcb, prev, uncon_pcb) ← input_search src dest;
  if pcb =? 0 then mret uncon_pcb
  else _ ← move_to_front pcb prev; mret pcb.

Definition free (p : Z) : uio unit := _ ← on_pbufs (pbuf_free p); mret tt.

(** [pcb] has the packet, or nobody has. *)
Definition udp_deliver (p pcb src : Z) : uio unit :=
  s ← io_get;
  if negb (pcb =? 0) then
    b ← get_pcb pcb;
    if negb (recv b =? 0) then call_recv (recv b) (recv_arg b) pcb p (ip_current_src_addr (lower s)) src
    else free p
  else
    _ ← (if negb (ip6_addr_ismulticast (ip_current_dest_addr (lower s))) then
           _ ← on_pbufs (pbuf_change (fun m => pbuf_header_force m p (ip_current_header_tot_len (lower s) + UDP_HLEN)));
           icmp_port_unreach p
         else mret tt);
    free p.

Definition udp_input (p inp : Z) : uio unit :=
  _ ← io_assert (negb (p =? 0));
  _ ← io_assert (negb (inp =? 0));
  b ← on_pbufs (pb_read p);
  if len b <? UDP_HLEN then free p
  else
    let udphdr := payload b in
    src ← read16 (udphdr + HDR_src);
    dest ← read16 (udphdr + HDR_dest);
    pcb ← udp_demux src dest;
    s ← io_get;
    let for_us := negb (pcb =? 0) || (0 <=? netif_get_ip6_addr_match (lower s) inp (ip_current_dest_addr (lower s))) in
    if for_us then
      chksum ← read16 (udphdr + HDR_chksum);
      c ← (if negb (chksum =? 0) then
             b ← on_pbufs (pb_read p);
             on_pbufs (chksum_pseudo p IP_PROTO_UDP (tot_len b) (ip_current_src_addr (lower s)) (ip_current_dest_addr (lower s)))
           else mret 0);
      if negb (c =? 0) then free p
      else
        r ← on_pbufs (pbuf_change (fun m => pbuf_remove_header m p UDP_HLEN));
        if negb (r =? 0) then io_assert false
        else udp_deliver p pcb src
    else free p.

(* ------------------------------------------------------------------ *)
(** * Sending *)

(** The header goes in front of the data, or into a pbuf of its own. *)
Definition udp_add_header (p : Z) : uio (option Z) :=
  r ← on_pbufs (pbuf_change (fun m => pbuf_add_header m p UDP_HLEN));
  if negb (r =? 0) then
    q ← on_pbufs (pbuf_alloc PBUF_IP UDP_HLEN PBUF_RAM);
    match q with
    | None => mret None
    | Some q =>
        b ← on_pbufs (pb_read p);
        _ ← io_when (negb (tot_len b =? 0)) (on_pbufs (pbuf_chain q p));
        mret (Some q)
    end
  else mret (Some p).

Definition set_flags (v : Z) (b : pbuf) : pbuf :=
  mk_pbuf (next b) (payload b) (tot_len b) (len b) (type_internal b) (u8 v) (ref b) (if_idx b).

(** The fields of the header, the checksum last. *)
Definition udp_fill_header (q src_port dst_port : Z) (mcast_loop : bool) (src_ip dst_ip : ip6_addr)
    : io (pheap PP RP HP) unit :=
  b ← pb_read q;
  _ ← io_assert (UDP_HLEN <=? len b);
  let udphdr := payload b in
  _ ← write16 (udphdr + HDR_src) src_port;
  _ ← write16 (udphdr + HDR_dest) dst_port;
  _ ← write16 (udphdr + HDR_chksum) 0x0000;
  _ ← io_when mcast_loop (pb_update q (fun b => set_flags (Z.lor (flags b) PBUF_FLAG_MCASTLOOP) b));
  b ← pb_read q;
  _ ← write16 (udphdr + HDR_len) (tot_len b);
  c ← chksum_pseudo q IP_PROTO_UDP (tot_len b) src_ip dst_ip;
  write16 (udphdr + HDR_chksum) (if c =? 0x0000 then 0xffff else c).

(** From [q] on: the header, the time to live and the packet's way down. *)
Definition udp_transmit (pcb p q : Z) (dst_ip : ip6_addr) (dst_port netif : Z) (src_ip : ip6_addr) : uio Z :=
  b ← get_pcb pcb;
  let mcast := ip6_addr_ismulticast dst_ip in
  _ ← on_pbufs (udp_fill_header q (local_port b) dst_port
        (negb (Z.land (u_flags b) UDP_FLAGS_MULTICAST_LOOP =? 0) && mcast) src_ip dst_ip);
  err ← ip_output_if_src q src_ip dst_ip (if mcast then mcast_ttl b else ttl b) (tos b) IP_PROTO_UDP netif;
  _ ← io_when (negb (q =? p)) (free q);
  mret err.

Definition udp_sendto_if_src (pcb p : Z) (dst_ip : option ip6_addr) (dst_port netif : Z) (src_ip : option ip6_addr)
    : uio Z :=
  if (pcb =? 0) || (p =? 0) then mret ERR_ARG
  else
    match dst_ip, src_ip with
    | Some dst_ip, Some src_ip =>
        if netif =? 0 then mret ERR_ARG
        else
          b ← get_pcb pcb;
          err ← (if local_port b =? 0 then udp_bind pcb (Some (local_ip b)) (local_port b) else mret ERR_OK);
          if negb (err =? ERR_OK) then mret err
          else
            b ← on_pbufs (pb_read p);
            if u16 (tot_len b + UDP_HLEN) <? tot_len b then mret ERR_MEM
            else
              r ← udp_add_header p;
              match r with
              | None => mret ERR_MEM
              | Some q => udp_transmit pcb p q dst_ip dst_port netif src_ip
              end
    | _, _ => mret ERR_ARG
    end.

Definition udp_sendto_if (pcb p : Z) (dst_ip : option ip6_addr) (dst_port netif : Z) : uio Z :=
  if (pcb =? 0) || (p =? 0) then mret ERR_ARG
  else
    match dst_ip with
    | None => mret ERR_ARG
    | Some dst =>
        if netif =? 0 then mret ERR_ARG
        else
          b ← get_pcb pcb;
          s ← io_get;
          if ip6_addr_isany_val (local_ip b) || ip6_addr_ismulticast (local_ip b) then
            match ip6_select_source_address (lower s) netif dst with
            | None => mret ERR_RTE
            | Some src_ip => udp_sendto_if_src pcb p dst_ip dst_port netif (Some src_ip)
            end
          else if netif_get_ip6_addr_match (lower s) netif (local_ip b) <? 0 then mret ERR_RTE
          else udp_sendto_if_src pcb p dst_ip dst_port netif (Some (local_ip b))
    end.

Definition udp_sendto (pcb p : Z) (dst_ip : option ip6_addr) (dst_port : Z) : uio Z :=
  if (pcb =? 0) || (p =? 0) then mret ERR_ARG
  else
    match dst_ip with
    | None => mret ERR_ARG
    | Some dst =>
        b ← get_pcb pcb;
        s ← io_get;
        let n := lower s in
        let netif :=
          if negb (netif_idx b =? NETIF_NO_INDEX) then netif_get_by_index n (netif_idx b)
          else
            let netif :=
              if ip6_addr_ismulticast dst && negb (mcast_ifindex b =? NETIF_NO_INDEX)
              then netif_get_by_index n (mcast_ifindex b) else 0 in
            if netif =? 0 then ip_route n (local_ip b) dst else netif in
        if netif =? 0 then mret ERR_RTE
        else udp_sendto_if pcb p dst_ip dst_port netif
    end.

Definition udp_send (pcb p : Z) : uio Z :=
  if (pcb =? 0) || (p =? 0) then mret ERR_ARG
  else b ← get_pcb pcb; udp_sendto pcb p (Some (remote_ip b)) (remote_port b).
End Module.
