(* ===== verification/UdpPcbs.v ===== *)
(** The control blocks of UDP: every operation on them keeps the list well
    formed and the bindings apart, and the ports [udp_new_port] gives out are
    free. *)

From Stdlib Require Import ZArith Lia.
From stdpp Require Import base list numbers gmap sets.
From S2P Require Import Prelude Mmio Mem Memp Pbuf Links Ip6Addr Chksum Udp.

Open Scope Z_scope.

Section Pcbs.
Context {PP RP HP UP N : Type} {PPO : PoolOps PP} {RPO : PoolOps RP} {HPO : HeapOps HP}
  {UPO : PoolOps UP} {UPL : PoolLaws UP} {IPL : IpLayer N}.
Abbreviation state := (net PP RP HP UP N).
Implicit Types (s : state) (l : list (Z * udp_pcb)) (b : udp_pcb).

(** Two control blocks that would both take a datagram: one port, and one
    address or an unspecified one. *)
Definition clash b b' : Prop :=
  local_port b = local_port b' /\
  (ip6_addr_eq (local_ip b) (local_ip b') = true \/ ip6_addr_isany_val (local_ip b) = true \/
   ip6_addr_isany_val (local_ip b') = true).

Definition dynamic (port : Z) : Prop := UDP_LOCAL_PORT_RANGE_START <= port <= UDP_LOCAL_PORT_RANGE_END.

(** [l] are the active control blocks, [lu] the free elements of the pool. *)
Record udp_inv s l (lu : list Z) : Prop := {
  ui_links : links u_next (pcbs (udp s)) (udp_pcbs (udp s)) l;
  ui_port : dynamic (udp_port (udp s));
  ui_bound a b : (a, b) ∈ l -> 0 < local_port b < 65536;
  ui_apart a b a' b' : (a, b) ∈ l -> (a', b') ∈ l -> a <> a' -> ~ clash b b';
  ui_unlisted a b : pcbs (udp s) !! a = Some b -> a ∉ l.*1 -> local_port b = 0;
  ui_pool : pool_rep (udp_pool s) lu;
  ui_free a : a ∈ pool_elements (PS := UP) -> a ∈ lu <-> pcbs (udp s) !! a = None;
  ui_elem a b : pcbs (udp s) !! a = Some b -> a ∈ pool_elements (PS := UP);
  ui_num : Z.of_nat (stdpp.base.size (pool_elements (PS := UP))) < 16384
}.

Lemma find_pcb_spec m test l : forall fuel p, links u_next m p l -> (length l <= fuel)%nat ->
  find_pcb fuel m test p = Ok (first_such test l).
Proof using Type.
  induction l as [|[a b] l IH]; intros fuel p Hl Hf; simpl in Hl.
  - subst p. by destruct fuel.
  - destruct Hl as (-> & Ha & Hb & Hl), fuel as [|fuel]; [simpl in Hf; lia|]. cbn [find_pcb first_such].
    rewrite (proj2 (Z.eqb_neq a 0)) by done. unfold pcb_at. rewrite Hb. cbn [mbind outcome_bind].
    destruct (test a b); [done|]. apply IH; [done|]. simpl in Hf. lia.
Qed.

Lemma search_spec s l test : links u_next (pcbs (udp s)) (udp_pcbs (udp s)) l ->
  search test s = Ok (first_such test l, s).
Proof using Type.
  intros Hl. unfold search. rewrite (find_pcb_spec _ _ _ _ _ Hl); [done|].
  unfold pcb_fuel. pose proof (links_length _ _ _ _ Hl). lia.
Qed.

Lemma vars_bind {B} (k : udp_vars -> io state B) s : (vars ≫= k) s = k (udp s) s.
Proof using Type. done. Qed.

Lemma get_pcb_ok s p b : pcbs (udp s) !! p = Some b -> get_pcb p s = Ok (b, s).
Proof using Type. unfold get_pcb, pcb_at. by intros ->. Qed.

Lemma upd_pcb_ok s p f b : pcbs (udp s) !! p = Some b ->
  upd_pcb p f s = Ok (tt, with_udp (set_pcbs <[p := f b]>) s).
Proof using Type. intros Hb. unfold upd_pcb, mbind, io_bind. by rewrite (get_pcb_ok _ _ _ Hb). Qed.

(** Fewer control blocks than there are elements. *)
Lemma inv_length s l lu : udp_inv s l lu -> zlen l < 16384.
Proof using Type.
  intros Hi. pose proof (ui_num _ _ _ Hi). pose proof (links_length _ _ _ _ (ui_links _ _ _ Hi)).
  assert (stdpp.base.size (dom (pcbs (udp s)) : gset Z) <= stdpp.base.size (pool_elements (PS := UP)))%nat as Hd.
  { apply subseteq_size. intros a [b Hb]%elem_of_dom. by eapply ui_elem. }
  rewrite size_dom in Hd. lia.
Qed.

Lemma inv_nonzero s l lu a b : udp_inv s l lu -> pcbs (udp s) !! a = Some b -> a <> 0.
Proof using Type.
  intros Hi Hb. pose proof (pool_rep_addr _ _ a (ui_pool _ _ _ Hi) (ui_elem _ _ _ Hi _ _ Hb)). lia.
Qed.

(** A control block changed in place, its binding and its link kept. *)
Definition same_binding b b' : Prop :=
  u_next b' = u_next b /\ local_ip b' = local_ip b /\ local_port b' = local_port b.

Lemma inv_same_binding s l lu a b b' : udp_inv s l lu -> pcbs (udp s) !! a = Some b -> same_binding b b' ->
  exists l', udp_inv (with_udp (set_pcbs <[a := b']>) s) l' lu /\ l'.*1 = l.*1.
Proof using Type.
  intros [H1 H2 H3 H4 H5 H6 H7 H8 H9] Hb (E1 & E2 & E3).
  assert (Hrest : forall l', links u_next (<[a := b']> (pcbs (udp s))) (udp_pcbs (udp s)) l' ->
    l'.*1 = l.*1 -> (forall c d, (c, d) ∈ l' -> exists d0, (c, d0) ∈ l /\ local_ip d = local_ip d0 /\
      local_port d = local_port d0) ->
    udp_inv (with_udp (set_pcbs <[a := b']>) s) l' lu).
  { intros l' Hl' Hk Hd. split; cbn [with_udp set_pcbs udp pcbs udp_pcbs udp_port udp_pool]; try done.
    - intros c d Hin. destruct (Hd c d Hin) as (d0 & Hin0 & _ & ->). by eapply H3.
    - intros c d c' d' Hin Hin' Hne. destruct (Hd c d Hin) as (d0 & Hin0 & Ei & Ep), (Hd c' d' Hin') as (d1 & Hin1 & Ei' & Ep').
      unfold clash. rewrite Ei, Ep, Ei', Ep'. by apply (H4 c d0 c' d1).
    - intros c d. rewrite Hk. intros [[<- <-]|[Hne Hc]]%lookup_insert_Some; [rewrite E3|]; by apply H5.
    - intros c Hc. rewrite H7, lookup_insert_None by done. split; [|tauto]. intros Hn. split; [done|]. intros ->. congruence.
    - intros c d [[<- <-]|[Hne Hc]]%lookup_insert_Some; by eapply H8. }
  destruct (decide (a ∈ l.*1)) as [Ha|Ha].
  - destruct (links_split _ _ _ _ _ H1 Ha) as (b0 & l1 & l2 & -> & Hb0 & _). rewrite Hb in Hb0. injection Hb0 as <-.
    exists (l1 ++ (a, b') :: l2). rewrite !fmap_app, !fmap_cons in *. split; [|done].
    apply Hrest; [by apply (links_update _ _ _ _ _ b)|by rewrite !fmap_app, !fmap_cons|].
    intros c d Hin. rewrite elem_of_app, elem_of_cons in Hin. destruct Hin as [Hin|[[= -> ->]|Hin]].
    + exists d. split; [|done]. apply elem_of_app. by left.
    + exists b. split; [|done]. apply elem_of_app. right. by left.
    + exists d. split; [|done]. apply elem_of_app. right. by right.
  - exists l. split; [|done]. apply Hrest; [by apply links_insert_out|done|]. intros c d Hin. by exists d.
Qed.

(* ------------------------------------------------------------------ *)
(** * Ports *)

Definition in_use l (port : Z) : Prop := exists a b, (a, b) ∈ l /\ local_port b = port.

(** The [k]th port after [p]. *)
Definition port_after (p : Z) (k : nat) : Z :=
  UDP_LOCAL_PORT_RANGE_START + (p - UDP_LOCAL_PORT_RANGE_START + Z.of_nat k) mod 16384.

Lemma port_after_dynamic p k : dynamic (port_after p k).
Proof using Type. unfold dynamic, port_after, UDP_LOCAL_PORT_RANGE_START, UDP_LOCAL_PORT_RANGE_END. ulia. Qed.

Lemma port_after_next p k : dynamic p ->
  (if port_after p k =? UDP_LOCAL_PORT_RANGE_END then UDP_LOCAL_PORT_RANGE_START
   else u16 (port_after p k + 1)) = port_after p (S k).
Proof using Type.
  unfold dynamic, port_after, UDP_LOCAL_PORT_RANGE_START, UDP_LOCAL_PORT_RANGE_END. intros Hp.
  match goal with |- context [?a =? ?b] => destruct (Z.eqb_spec a b) end; ulia.
Qed.

Lemma port_after_distinct p n : Z.of_nat n <= 16384 -> NoDup (port_after p <$> seq 1 n).
Proof using Type.
  intros Hn. apply NoDup_fmap_2_strong; [|apply NoDup_seq].
  intros i j Hi%elem_of_seq Hj%elem_of_seq. unfold port_after, UDP_LOCAL_PORT_RANGE_START. intros E. ulia.
Qed.

Lemma tried_ports l p n : Z.of_nat n <= 16384 -> (forall k, (1 <= k <= n)%nat -> in_use l (port_after p k)) ->
  (n <= length l)%nat.
Proof using Type.
  intros Hn Hu. rewrite <- (length_fmap (fun x => local_port x.2) l).
  replace n with (length (port_after p <$> seq 1 n)) by by rewrite length_fmap, length_seq.
  apply submseteq_length, NoDup_submseteq; [by apply port_after_distinct|].
  intros x (k & -> & Hk%elem_of_seq)%list_elem_of_fmap.
  destruct (Hu k ltac:(lia)) as (a & b & Hin & <-). apply list_elem_of_fmap. by exists (a, b).
Qed.

Lemma inv_set_port s l lu port : udp_inv s l lu -> dynamic port ->
  udp_inv (with_udp (set_port port) s) l lu /\ udp_port (udp (with_udp (set_port port) s)) = port.
Proof using Type.
  intros [H1 H2 H3 H4 H5 H6 H7 H8 H9] Hd.
  assert (E : u16 port = port) by (apply u16_small; unfold dynamic, UDP_LOCAL_PORT_RANGE_START, UDP_LOCAL_PORT_RANGE_END in Hd; ulia).
  split; [|done]. split; try done. cbn [udp with_udp set_port udp_port]. by rewrite E.
Qed.

(** One turn of the loop. *)
Lemma new_port_step fuel n s l lu p k : udp_inv s l lu -> dynamic p -> udp_port (udp s) = port_after p k ->
  let port := port_after p (S k) in
  let s' := with_udp (set_port port) s in
  new_port_loop fuel n s =
    if first_such (fun _ b => local_port b =? port) l =? 0 then Ok (port, s')
    else if UDP_LOCAL_PORT_RANGE_END - UDP_LOCAL_PORT_RANGE_START <? u16 (n + 1) then Ok (0, s')
    else match fuel with O => Fault Diverges | S fuel => new_port_loop fuel (u16 (n + 1)) s' end.
Proof using Type.
  intros Hi Hp Hport port s'.
  destruct (inv_set_port s l lu port Hi (port_after_dynamic p (S k))) as [Hi' _].
  pose proof (search_spec s' l (fun _ b => local_port b =? port) (ui_links _ _ _ Hi')) as Es.
  assert (E : new_port_loop fuel n s = (used ← search (fun _ b => local_port b =? port);
    if used =? 0 then mret port
    else if UDP_LOCAL_PORT_RANGE_END - UDP_LOCAL_PORT_RANGE_START <? u16 (n + 1) then mret 0
    else match fuel with O => io_fault Diverges | S fuel => new_port_loop fuel (u16 (n + 1)) end) s').
  { unfold s', port. rewrite <- port_after_next, <- Hport by done. by destruct fuel. }
  rewrite E, (io_bind_ok _ _ _ _ _ Es). clear E. do 2 (case_match; [done|]). by destruct fuel.
Qed.

Lemma new_port_loop_spec p fuel : forall n s l lu, udp_inv s l lu -> dynamic p ->
  udp_port (udp s) = port_after p n -> (forall k, (1 <= k <= n)%nat -> in_use l (port_after p k)) ->
  16383 <= Z.of_nat (fuel + n) ->
  exists k, (k <= length l)%nat /\ ~ in_use l (port_after p (S k)) /\
    new_port_loop fuel (Z.of_nat n) s = Ok (port_after p (S k), with_udp (set_port (port_after p (S k))) s).
Proof using Type.
  induction fuel as [|fuel IH]; intros n s l lu Hi Hp Hport Hu Hf.
  all: pose proof (inv_length _ _ _ Hi) as Hlen;
    destruct (decide (Z.of_nat n <= 16384)) as [Hn|Hn];
      [|pose proof (tried_ports l p (Z.to_nat 16384) ltac:(lia) ltac:(intros; apply Hu; lia)); lia];
    pose proof (tried_ports l p n Hn Hu) as Hnl;
    rewrite (new_port_step _ _ s l lu p n Hi Hp Hport);
    set (port := port_after p (S n)) in *;
    destruct (Z.eqb_spec (first_such (fun _ b => local_port b =? port) l) 0) as [Hz|Hz].
  1, 3: exists n; split_and!; [done| |done]; intros (a & b & Hin & E);
    pose proof (first_such_zero _ _ _ _ _ (ui_links _ _ _ Hi) Hz a b Hin) as Hf2; cbn in Hf2;
    apply Z.eqb_neq in Hf2; done.
  all: destruct (first_such_some _ _ _ _ _ (ui_links _ _ _ Hi) Hz) as (l1 & a & b & l2 & El & _ & Hb%Z.eqb_eq & _);
    assert (Hu' : forall k, (1 <= k <= S n)%nat -> in_use l (port_after p k)) by
      (intros k Hk; destruct (decide (k = S n)) as [->|]; [exists a, b; rewrite El, elem_of_app;
        split; [right; by left|done]|apply Hu; lia]).
  - pose proof (tried_ports l p (S n) ltac:(lia) Hu'). lia.
  - rewrite u16_small by ulia. unfold UDP_LOCAL_PORT_RANGE_END, UDP_LOCAL_PORT_RANGE_START.
    pose proof (tried_ports l p (S n) ltac:(lia) Hu'). destruct (Z.ltb_spec (0xffff - 0xc000) (Z.of_nat n + 1)); [lia|].
    destruct (inv_set_port s l lu port Hi (port_after_dynamic p (S n))) as [Hi' Hp'].
    destruct (IH (S n) (with_udp (set_port port) s) l lu Hi' Hp Hp' Hu' ltac:(lia)) as (k & Hk & Hfree & E).
    exists k. split_and!; [done|done|]. replace (Z.of_nat n + 1) with (Z.of_nat (S n)) by lia. by rewrite E.
Qed.
Lemma udp_new_port_spec s l lu : udp_inv s l lu ->
  exists port, dynamic port /\ ~ in_use l port /\
    udp_new_port s = Ok (port, with_udp (set_port port) s) /\
    exists k, (k <= length l)%nat /\ port = port_after (udp_port (udp s)) (S k).
Proof using Type.
  intros Hi. pose proof (ui_port _ _ _ Hi) as Hp.
  destruct (new_port_loop_spec (udp_port (udp s)) new_port_fuel 0 s l lu Hi Hp) as (k & Hk & Hf & E).
  - unfold port_after, dynamic, UDP_LOCAL_PORT_RANGE_START, UDP_LOCAL_PORT_RANGE_END in *. ulia.
  - lia.
  - unfold new_port_fuel, UDP_LOCAL_PORT_RANGE_START, UDP_LOCAL_PORT_RANGE_END. lia.
  - exists (port_after (udp_port (udp s)) (S k)). split_and!; [apply port_after_dynamic|done|done|by exists k].
Qed.

(* ------------------------------------------------------------------ *)
(** * Binding *)

Lemma ip6_addr_eq_sym (a b : ip6_addr) : ip6_addr_eq a b = ip6_addr_eq b a.
Proof using Type. unfold ip6_addr_eq, ip6_addr_zoneless_eq. by rewrite !(Z.eqb_sym (word a _)). Qed.

Lemma clash_sym b b' : clash b b' -> clash b' b.
Proof using Type. unfold clash. rewrite (ip6_addr_eq_sym (local_ip b')). intuition congruence. Qed.

(** A binding no other control block of the list is in the way of. *)
Definition can_bind l (pcb : Z) (ip : ip6_addr) (port : Z) : Prop :=
  0 < port < 65536 /\ forall a b, (a, b) ∈ l -> a <> pcb -> bind_clash pcb ip port a b = false.

Lemma can_bind_apart l pcb ip port a b b' : can_bind l pcb ip port -> (a, b) ∈ l -> a <> pcb ->
  local_ip b' = ip -> local_port b' = port -> ~ clash b b'.
Proof using Type.
  intros [_ Hc] Hin Hne <- <- (Ep & Hip). specialize (Hc a b Hin Hne). unfold bind_clash in Hc.
  rewrite (proj2 (Z.eqb_neq pcb a)), (proj2 (Z.eqb_eq _ _) Ep) in Hc by done. cbn in Hc.
  destruct Hip as [Hip|[Hip|Hip]]; rewrite Hip, ?orb_true_r in Hc; done.
Qed.

Lemma inv_rebind s l1 l2 lu pcb b b' : udp_inv s (l1 ++ (pcb, b) :: l2) lu ->
  can_bind (l1 ++ (pcb, b) :: l2) pcb (local_ip b') (local_port b') -> u_next b' = u_next b ->
  udp_inv (with_udp (set_pcbs <[pcb := b']>) s) (l1 ++ (pcb, b') :: l2) lu.
Proof using Type.
  intros Hi Hc En. pose proof (links_nodup _ _ _ _ (ui_links _ _ _ Hi)) as Hn.
  destruct (links_lookup _ _ _ _ pcb b (ui_links _ _ _ Hi)) as [Hb _]; [apply elem_of_app; right; by left|].
  destruct Hi as [H1 H2 H3 H4 H5 H6 H7 H8 H9].
  assert (Hother : forall c d, (c, d) ∈ l1 ++ (pcb, b') :: l2 -> (c, d) = (pcb, b') \/ c <> pcb /\ (c, d) ∈ l1 ++ (pcb, b) :: l2).
  { intros c d Hin. rewrite fmap_app, fmap_cons, NoDup_app, NoDup_cons in Hn. destruct Hn as (_ & Hd & Hp & _).
    rewrite elem_of_app, elem_of_cons in *. destruct Hin as [Hin|[?|Hin]]; [right|by left|right]; (split; [|tauto]).
    - intros ->. apply (Hd pcb); [apply list_elem_of_fmap; by exists (pcb, d)|by left].
    - intros ->. apply Hp, list_elem_of_fmap. by exists (pcb, d). }
  split; cbn [with_udp set_pcbs udp pcbs udp_pcbs udp_port udp_pool]; try done.
  - by apply (links_update _ _ _ _ _ b).
  - intros c d Hin. destruct (Hother c d Hin) as [[= -> ->]|[Hne Hin']]; [apply Hc|by eapply H3].
  - intros c d c' d' Hin Hin' Hne. destruct (Hother c d Hin) as [[= -> ->]|[Hp Hq]], (Hother c' d' Hin') as [[= -> ->]|[Hp' Hq']].
    + done.
    + intros Hcl%clash_sym. by apply (can_bind_apart _ _ _ _ c' d' b' Hc Hq').
    + by apply (can_bind_apart _ _ _ _ c d b' Hc Hq).
    + by apply (H4 c d c' d').
  - intros c d. rewrite fmap_app, fmap_cons. intros [[<- <-]|[Hne Hcd]]%lookup_insert_Some Hin.
    + destruct Hin. apply elem_of_app. right. by left.
    + apply (H5 c d Hcd). by rewrite fmap_app, fmap_cons.
  - intros c Hcp. rewrite H7, lookup_insert_None by done. split; [|tauto]. intros Hcn. split; [done|]. intros ->. congruence.
  - intros c d [[<- <-]|[Hne Hcd]]%lookup_insert_Some; by eapply H8.
Qed.

Lemma inv_enlist s l lu pcb b b' : udp_inv s l lu -> pcbs (udp s) !! pcb = Some b -> pcb ∉ l.*1 ->
  can_bind l pcb (local_ip b') (local_port b') -> u_next b' = udp_pcbs (udp s) ->
  udp_inv (with_udp (set_head pcb) (with_udp (set_pcbs <[pcb := b']>) s)) ((pcb, b') :: l) lu.
Proof using Type.
  intros Hi Hb Hp Hc En. pose proof (inv_nonzero _ _ _ _ _ Hi Hb) as Hz. destruct Hi as [H1 H2 H3 H4 H5 H6 H7 H8 H9].
  assert (Hne : forall c d, (c, d) ∈ l -> c <> pcb).
  { intros c d Hin ->. apply Hp, list_elem_of_fmap. by exists (pcb, d). }
  split; cbn [with_udp set_pcbs set_head udp pcbs udp_pcbs udp_port udp_pool]; try done.
  - by apply (links_cons _ _ (udp_pcbs (udp s))).
  - intros c d [[= -> ->]|Hin]%elem_of_cons; [apply Hc|by eapply H3].
  - intros c d c' d' [[= -> ->]|Hin]%elem_of_cons [[= -> ->]|Hin']%elem_of_cons Hcc.
    + done.
    + intros Hcl%clash_sym. by apply (can_bind_apart _ _ _ _ c' d' b' Hc Hin' (Hne _ _ Hin')).
    + by apply (can_bind_apart _ _ _ _ c d b' Hc Hin (Hne _ _ Hin)).
    + by apply (H4 c d c' d').
  - intros c d. rewrite fmap_cons. intros [[<- <-]|[Hcc Hcd]]%lookup_insert_Some Hin; [destruct Hin; by left|].
    apply (H5 c d Hcd). intros Hin'. apply Hin. by right.
  - intros c Hcp. rewrite H7, lookup_insert_None by done. split; [|tauto]. intros Hcn. split; [done|]. intros ->. congruence.
  - intros c d [[<- <-]|[Hcc Hcd]]%lookup_insert_Some; by eapply H8.
Qed.

(** The bindings of the list; order does not matter. *)
Definition bound l (pcb : Z) (ip : ip6_addr) (port : Z) : Prop :=
  exists b, (pcb, b) ∈ l /\ local_ip b = ip /\ local_port b = port.

Lemma set_pcbs_twice s p b b' :
  with_udp (set_pcbs <[p := b']>) (with_udp (set_pcbs <[p := b]>) s) = with_udp (set_pcbs <[p := b']>) s.
Proof using Type. unfold with_udp, set_pcbs. cbn. by rewrite insert_insert_eq. Qed.

Lemma upd_pcb_again s p f b :
  upd_pcb p f (with_udp (set_pcbs <[p := b]>) s) = Ok (tt, with_udp (set_pcbs <[p := f b]>) s).
Proof using Type. rewrite (upd_pcb_ok _ _ _ b); [by rewrite set_pcbs_twice|]. apply lookup_insert_eq. Qed.

Lemma bind_to_spec s l lu pcb b ip port : udp_inv s l lu -> pcbs (udp s) !! pcb = Some b ->
  can_bind l pcb ip port ->
  exists s' l', bind_to pcb ip port (bool_decide (pcb ∈ l.*1)) s = Ok (ERR_OK, s') /\ udp_inv s' l' lu /\
    bound l' pcb ip port /\ n_heap s' = n_heap s /\ lower s' = lower s /\
    dom (pcbs (udp s')) = dom (pcbs (udp s)).
Proof using Type.
  intros Hi Hb Hc.
  assert (Eu : u16 port = port) by (apply u16_small; destruct Hc; ulia).
  set (b1 := set_local_port port (set_local_ip ip b)).
  assert (E : forall k : unit -> io state Z, (_ ← upd_pcb pcb (set_local_ip ip); x ← upd_pcb pcb (set_local_port port); k x) s =
    k tt (with_udp (set_pcbs <[pcb := b1]>) s)).
  { intros k. rewrite (io_bind_ok _ _ _ _ _ (upd_pcb_ok _ _ _ _ Hb)).
    by rewrite (io_bind_ok _ _ _ _ _ (upd_pcb_again _ _ _ _)). }
  unfold bind_to. rewrite E. clear E. set (s1 := with_udp (set_pcbs <[pcb := b1]>) s).
  case_bool_decide as Hin.
  - destruct (links_split _ _ _ _ _ (ui_links _ _ _ Hi) Hin) as (b0 & l1 & l2 & -> & Hb0 & _).
    rewrite Hb in Hb0. injection Hb0 as <-.
    exists s1, (l1 ++ (pcb, b1) :: l2). split; [done|]. split_and!; try done.
    + apply (inv_rebind s l1 l2 lu pcb b b1 Hi); [|done]. cbn. by rewrite Eu.
    + exists b1. cbn. split; [apply elem_of_app; right; by left|done].
    + cbn. rewrite dom_insert_lookup_L; [done|by eexists].
  - set (b2 := set_u_next (udp_pcbs (udp s)) b1).
    assert (E : (_ ← io_when (negb false) (v ← vars; _ ← upd_pcb pcb (set_u_next (udp_pcbs v)); io_modify (with_udp (set_head pcb)));
      mret ERR_OK) s1 = Ok (ERR_OK, with_udp (set_head pcb) (with_udp (set_pcbs <[pcb := b2]>) s))).
    { cbn [negb io_when].
      rewrite (io_bind_ok _ _ _ tt (with_udp (set_head pcb) (with_udp (set_pcbs <[pcb := b2]>) s))); [done|].
      rewrite vars_bind. unfold s1. by rewrite (io_bind_ok _ _ _ _ _ (upd_pcb_again _ _ _ _)). }
    eexists _, ((pcb, b2) :: l). split; [exact E|]. split_and!; try done.
    + apply (inv_enlist s l lu pcb b b2 Hi Hb Hin); [|done]. cbn. by rewrite Eu.
    + exists b2. cbn. split; [by left|done].
    + cbn. rewrite dom_insert_lookup_L; [done|by eexists].
Qed.
Lemma listed_spec m p l pcb : links u_next m p l -> pcb <> 0 ->
  negb (first_such (fun ipcb _ => pcb =? ipcb) l =? 0) = bool_decide (pcb ∈ l.*1).
Proof using Type.
  intros Hl Hz. destruct (Z.eqb_spec (first_such (fun ipcb _ => pcb =? ipcb) l) 0) as [E|E]; symmetry.
  - apply bool_decide_eq_false_2. intros ([a b] & -> & Hin)%list_elem_of_fmap.
    pose proof (first_such_zero _ _ _ _ _ Hl E a b Hin) as H. simpl in H. by rewrite Z.eqb_refl in H.
  - apply bool_decide_eq_true_2. destruct (first_such_some _ _ _ _ _ Hl E) as (l1 & a & b & l2 & -> & _ & ->%Z.eqb_eq & _).
    apply list_elem_of_fmap. exists (a, b). split; [done|]. apply elem_of_app. right. by left.
Qed.

(** What [udp_bind] does to a control block, by its answer. *)
Definition bind_answer s s' l l' (pcb : Z) (ip : ip6_addr) (port err : Z) : Prop :=
  (err = ERR_OK /\ exists port', bound l' pcb ip port' /\ (port <> 0 -> port' = port) /\
     (port = 0 -> dynamic port' /\ ~ in_use l port')) \/
  (err = ERR_USE /\ s' = s /\ port <> 0 /\
     exists a b, (a, b) ∈ l /\ bind_clash pcb ip port a b = true).

Lemma bind_spec s l lu pcb b ip port : udp_inv s l lu -> pcbs (udp s) !! pcb = Some b -> 0 <= port < 65536 ->
  exists err s' l', udp_bind pcb (Some ip) port s = Ok (err, s') /\ udp_inv s' l' lu /\
    bind_answer s s' l l' pcb ip port err /\ n_heap s' = n_heap s /\ lower s' = lower s /\
    dom (pcbs (udp s')) = dom (pcbs (udp s)).
Proof using Type.
  intros Hi Hb Hport. pose proof (inv_nonzero _ _ _ _ _ Hi Hb) as Hz. unfold udp_bind.
  rewrite (proj2 (Z.eqb_neq pcb 0)) by done. pose proof (ui_links _ _ _ Hi) as Hl.
  rewrite (io_bind_ok _ _ _ _ _ (search_spec s l _ Hl)), (listed_spec _ _ _ _ Hl Hz).
  destruct (Z.eqb_spec port 0) as [->|Hp0].
  - destruct (udp_new_port_spec s l lu Hi) as (np & Hd & Hfree & E & _).
    rewrite (io_bind_ok _ _ _ _ _ E). unfold dynamic, UDP_LOCAL_PORT_RANGE_START, UDP_LOCAL_PORT_RANGE_END in Hd.
    rewrite (proj2 (Z.eqb_neq np 0)) by lia. destruct (inv_set_port s l lu np Hi Hd) as [Hi' _].
    destruct (bind_to_spec (with_udp (set_port np) s) l lu pcb b ip np Hi' Hb) as (s' & l' & E' & Hi2 & Hbd & Hrest).
    { split; [lia|]. intros a c Hin _. unfold bind_clash.
      destruct (Z.eqb_spec (local_port c) np); [destruct Hfree; by exists a, c|]. by rewrite andb_false_r. }
    exists ERR_OK, s', l'. split; [done|]. split; [done|]. split; [|done]. left. split; [done|]. by exists np.
  - rewrite (io_bind_ok _ _ _ _ _ (search_spec s l _ Hl)).
    destruct (Z.eqb_spec (first_such (bind_clash pcb ip port) l) 0) as [E|E]; cbn [negb].
    + destruct (bind_to_spec s l lu pcb b ip port Hi Hb) as (s' & l' & E' & Hi2 & Hbd & Hrest).
      { split; [lia|]. intros a c Hin _. by apply (first_such_zero _ _ _ _ _ Hl E). }
      exists ERR_OK, s', l'. split; [done|]. split; [done|]. split; [|done]. left. split; [done|]. by exists port.
    + exists ERR_USE, s, l. split; [done|]. split; [done|]. split; [|done]. right. split_and!; try done.
      destruct (first_such_some _ _ _ _ _ Hl E) as (l1 & a & c & l2 & -> & _ & Hc & _). exists a, c.
      split; [|done]. apply elem_of_app. right. by left.
Qed.

(** Changes of fields that are no part of the binding. *)
Lemma upd_same_spec s l lu pcb b f : udp_inv s l lu -> pcbs (udp s) !! pcb = Some b -> same_binding b (f b) ->
  exists s' l', upd_pcb pcb f s = Ok (tt, s') /\ udp_inv s' l' lu /\ l'.*1 = l.*1 /\
    pcbs (udp s') !! pcb = Some (f b).
Proof using Type.
  intros Hi Hb Hf. destruct (inv_same_binding s l lu pcb b (f b) Hi Hb Hf) as (l' & Hi' & Hk).
  eexists _, l'. split; [by apply upd_pcb_ok|]. split_and!; [done|done|]. apply lookup_insert_eq.
Qed.

(** A bound control block is on the list. *)
Lemma bound_listed s l lu pcb b : udp_inv s l lu -> pcbs (udp s) !! pcb = Some b ->
  local_port b <> 0 -> pcb ∈ l.*1.
Proof using Type.
  intros Hi Hb Hp. destruct (decide (pcb ∈ l.*1)); [done|]. by destruct (Hp (ui_unlisted _ _ _ Hi _ _ Hb n)).
Qed.

Lemma connect_spec s l lu pcb b ip port : udp_inv s l lu -> pcbs (udp s) !! pcb = Some b -> 0 <= port < 65536 ->
  exists err s' l', udp_connect pcb (Some ip) port s = Ok (err, s') /\ udp_inv s' l' lu.
Proof using Type.
  intros Hi Hb Hport. pose proof (inv_nonzero _ _ _ _ _ Hi Hb) as Hz. unfold udp_connect.
  rewrite (proj2 (Z.eqb_neq pcb 0)) by done. rewrite (io_bind_ok _ _ _ _ _ (get_pcb_ok _ _ _ Hb)).
  assert (exists err s1 l1, (if local_port b =? 0 then udp_bind pcb (Some (local_ip b)) (local_port b)
    else mret ERR_OK) s = Ok (err, s1) /\ udp_inv s1 l1 lu /\ (err = ERR_OK ->
      pcb ∈ l1.*1)) as (err & s1 & l1 & E & Hi1 & Hl1).
  { destruct (Z.eqb_spec (local_port b) 0) as [E0|E0].
    - destruct (bind_spec s l lu pcb b (local_ip b) (local_port b) Hi Hb ltac:(lia)) as (err & s1 & l1 & E & Hi1 & Ha & _).
      exists err, s1, l1. split_and!; [done|done|]. intros ->. destruct Ha as [(_ & p' & (c & Hin & _) & _)|(? & _)]; [|done].
      apply list_elem_of_fmap. by exists (pcb, c).
    - exists ERR_OK, s, l. split_and!; [done|done|]. intros _. by eapply bound_listed. }
  rewrite (io_bind_ok _ _ _ _ _ E). destruct (Z.eqb_spec err ERR_OK) as [->|]; cbn [negb]; [|by eexists _, _, _].
  specialize (Hl1 eq_refl). destruct (links_split _ _ _ _ _ (ui_links _ _ _ Hi1) Hl1) as (b1 & _ & _ & _ & Hb1 & _).
  destruct (upd_same_spec s1 l1 lu pcb b1 (set_remote_ip ip) Hi1 Hb1 ltac:(done)) as (s2 & l2 & E2 & Hi2 & Hk2 & Hb2).
  destruct (upd_same_spec s2 l2 lu pcb _ (set_remote_port port) Hi2 Hb2 ltac:(done)) as (s3 & l3 & E3 & Hi3 & Hk3 & Hb3).
  destruct (upd_same_spec s3 l3 lu pcb _ (udp_set_flags UDP_FLAGS_CONNECTED) Hi3 Hb3 ltac:(done)) as (s4 & l4 & E4 & Hi4 & Hk4 & _).
  rewrite (io_bind_ok _ _ _ _ _ E2), (io_bind_ok _ _ _ _ _ E3), (io_bind_ok _ _ _ _ _ E4).
  rewrite (io_bind_ok _ _ _ _ _ (search_spec s4 l4 _ (ui_links _ _ _ Hi4))).
  rewrite (listed_spec _ _ _ _ (ui_links _ _ _ Hi4) Hz), bool_decide_eq_true_2 by congruence.
  by eexists _, s4, l4.
Qed.

Lemma disconnect_spec s l lu pcb b : udp_inv s l lu -> pcbs (udp s) !! pcb = Some b ->
  exists s' l', udp_disconnect pcb s = Ok (tt, s') /\ udp_inv s' l' lu.
Proof using Type.
  intros Hi Hb. pose proof (inv_nonzero _ _ _ _ _ Hi Hb) as Hz. unfold udp_disconnect.
  rewrite (proj2 (Z.eqb_neq pcb 0)) by done.
  destruct (upd_same_spec s l lu pcb b (set_remote_ip (IP6_ADDR 0 0 0 0)) Hi Hb ltac:(done)) as (s1 & l1 & E1 & Hi1 & _ & Hb1).
  destruct (upd_same_spec s1 l1 lu pcb _ (set_remote_port 0) Hi1 Hb1 ltac:(done)) as (s2 & l2 & E2 & Hi2 & _ & Hb2).
  destruct (upd_same_spec s2 l2 lu pcb _ (set_netif_idx NETIF_NO_INDEX) Hi2 Hb2 ltac:(done)) as (s3 & l3 & E3 & Hi3 & _ & Hb3).
  destruct (upd_same_spec s3 l3 lu pcb _ (udp_clear_flags UDP_FLAGS_CONNECTED) Hi3 Hb3 ltac:(done)) as (s4 & l4 & E4 & Hi4 & _).
  rewrite (io_bind_ok _ _ _ _ _ E1), (io_bind_ok _ _ _ _ _ E2), (io_bind_ok _ _ _ _ _ E3). by exists s4, l4.
Qed.
(* ------------------------------------------------------------------ *)
(** * Creating and removing *)

(** Every control block of [l'] has the binding it has in [l]. *)
Definition keeps_bindings l l' : Prop := forall c d, (c, d) ∈ l' ->
  exists d0, (c, d0) ∈ l /\ local_ip d = local_ip d0 /\ local_port d = local_port d0.

(** The clauses about bindings follow from those of the state before. *)
Lemma inv_from s l lu s' l' lu' : udp_inv s l lu -> keeps_bindings l l' ->
  links u_next (pcbs (udp s')) (udp_pcbs (udp s')) l' -> udp_port (udp s') = udp_port (udp s) ->
  (forall c d, pcbs (udp s') !! c = Some d -> c ∉ l'.*1 -> local_port d = 0) ->
  pool_rep (udp_pool s') lu' ->
  (forall a, a ∈ pool_elements (PS := UP) -> a ∈ lu' <-> pcbs (udp s') !! a = None) ->
  (forall a b, pcbs (udp s') !! a = Some b -> a ∈ pool_elements (PS := UP)) ->
  udp_inv s' l' lu'.
Proof using Type.
  intros [H1 H2 H3 H4 H5 H6 H7 H8 H9] Hk Hl Hp Hu Hr Hf He. split; try done.
  - by rewrite Hp.
  - intros c d Hin. destruct (Hk c d Hin) as (d0 & Hin0 & _ & ->). by eapply H3.
  - intros c d c' d' Hin Hin' Hne. destruct (Hk c d Hin) as (d0 & Hin0 & Ei & Ep), (Hk c' d' Hin') as (d1 & Hin1 & Ei' & Ep').
    unfold clash. rewrite Ei, Ep, Ei', Ep'. by apply (H4 c d0 c' d1).
Qed.

(** [udp_remove] after the list is taken care of. *)
Lemma free_spec s l lu m hd l' pcb b : udp_inv s l lu -> pcbs (udp s) !! pcb = Some b ->
  keeps_bindings l l' -> links u_next m hd l' -> pcb ∉ l'.*1 -> dom m = dom (pcbs (udp s)) ->
  (forall c d, m !! c = Some d -> c <> pcb -> c ∉ l'.*1 -> local_port d = 0) ->
  exists s', memp_free_UDP_PCB pcb (with_udp (fun _ => mk_udp (udp_port (udp s)) hd m) s) = Ok (tt, s') /\
    udp_inv s' l' (pcb :: lu) /\ pcbs (udp s') = delete pcb m.
Proof using Type.
  intros Hi Hb Hk Hl Hp Hd Hu. pose proof (ui_elem _ _ _ Hi _ _ Hb) as He.
  destruct (pool_free_ok (udp_pool s) pcb lu (ui_pool _ _ _ Hi) He) as (ps & E & Hr).
  { intros Hin%(ui_free _ _ _ Hi); [congruence|done]. }
  assert (Hnone : forall a, m !! a = None <-> pcbs (udp s) !! a = None).
  { intros a. rewrite <- !not_elem_of_dom. by rewrite Hd. }
  unfold memp_free_UDP_PCB. cbn [with_udp udp_pool udp n_heap lower]. rewrite E. cbn [mbind outcome_bind].
  eexists. split; [done|]. split; [|done]. apply (inv_from s l lu _ _ _ Hi Hk); cbn [udp set_pcbs pcbs udp_pcbs udp_port udp_pool]; try done.
  - by apply links_delete.
  - intros c d [Hne Hc]%lookup_delete_Some. by eapply Hu.
  - intros a Ha. rewrite elem_of_cons, lookup_delete_None, Hnone, <- (ui_free _ _ _ Hi) by done. naive_solver.
  - intros a d [Hne Hc]%lookup_delete_Some. assert (is_Some (pcbs (udp s) !! a)) as [? Hs].
    { apply elem_of_dom. rewrite <- Hd. by apply elem_of_dom_2 in Hc. }
    by eapply ui_elem.
Qed.

Lemma with_udp_id s : with_udp (fun _ => mk_udp (udp_port (udp s)) (udp_pcbs (udp s)) (pcbs (udp s))) s = s.
Proof using Type. by destruct s as [? [? ? ?] ? ?]. Qed.

(** The predecessor of a control block is the only cell linked to it. *)
Lemma pred_spec m p l1 c d a b l2 : links u_next m p (l1 ++ (c, d) :: (a, b) :: l2) ->
  first_such (fun _ b => negb (u_next b =? 0) && (u_next b =? a)) (l1 ++ (c, d) :: (a, b) :: l2) = c.
Proof using Type.
  revert p. induction l1 as [|[e f] l1 IH]; intros p Hl.
  - destruct Hl as (_ & _ & _ & Hd & Ha & _). simpl. rewrite Hd, Z.eqb_refl.
    by rewrite (proj2 (Z.eqb_neq a 0)).
  - pose proof (links_nodup _ _ _ _ Hl) as Hn. destruct Hl as (_ & _ & _ & Hl). cbn [app first_such].
    pose proof (links_first _ _ _ _ Hl) as Hf. rewrite (IH _ Hl).
    destruct (Z.eqb_spec (u_next f) a) as [Ef|]; [|by rewrite andb_false_r]. exfalso.
    pose proof (links_nodup _ _ _ _ Hl) as Hn'. rewrite Ef in Hf.
    destruct l1 as [|[g h] l1]; cbn [app first_of] in *; rewrite Hf in Hn'.
    + rewrite !fmap_cons, !NoDup_cons in Hn'. cbn [fst] in Hn'. set_solver.
    + rewrite fmap_cons, fmap_app, !fmap_cons, NoDup_cons in Hn'. cbn [fst] in Hn'. set_solver.
Qed.

(** What unlinking leaves: a list without the control block. *)
Definition unlinked s l (pcb hd : Z) (m : gmap Z udp_pcb) l' : Prop :=
  udp_unlink pcb s = Ok (tt, with_udp (fun _ => mk_udp (udp_port (udp s)) hd m) s) /\
  links u_next m hd l' /\ keeps_bindings l l' /\ pcb ∉ l'.*1 /\
  (forall c, c ∈ l.*1 -> c <> pcb -> c ∈ l'.*1) /\ dom m = dom (pcbs (udp s)) /\
  (forall c d, m !! c = Some d -> c ∉ l.*1 -> pcbs (udp s) !! c = Some d).

Lemma unlink_none s l pcb : links u_next (pcbs (udp s)) (udp_pcbs (udp s)) l -> pcb ∉ l.*1 -> pcb <> 0 ->
  unlinked s l pcb (udp_pcbs (udp s)) (pcbs (udp s)) l.
Proof using Type.
  intros Hl Hin Hz. split; [|split_and!; try done; intros c d Hcd; by exists d].
  rewrite with_udp_id. unfold udp_unlink. rewrite vars_bind.
  destruct (Z.eqb_spec (udp_pcbs (udp s)) pcb) as [Eh|Eh].
  - destruct l as [|[a b] l]; simpl in Hl; [congruence|]. destruct Hl as [E _]. destruct Hin.
    apply list_elem_of_fmap. exists (a, b). split; [simpl; congruence|by left].
  - rewrite (io_bind_ok _ _ _ _ _ (search_spec s _ _ Hl)).
    destruct (Z.eqb_spec (first_such (fun _ b => negb (u_next b =? 0) && (u_next b =? pcb)) l) 0) as [E|E]; [done|].
    destruct (first_such_some _ _ _ _ _ Hl E) as (l1 & a & b & l2 & -> & _ & [_ Hb%Z.eqb_eq]%andb_prop & _).
    pose proof (links_suffix _ _ _ _ _ Hl) as (_ & _ & _ & Hs). rewrite Hb in Hs.
    destruct l2 as [|[c d] l2]; [done|]. destruct Hs as [-> _]. destruct Hin.
    apply list_elem_of_fmap. exists (c, d). split; [done|]. apply elem_of_app. right. right. by left.
Qed.

Lemma unlink_head s l pcb b : links u_next (pcbs (udp s)) (udp_pcbs (udp s)) ((pcb, b) :: l) ->
  unlinked s ((pcb, b) :: l) pcb (u_next b) (pcbs (udp s)) l.
Proof using Type.
  intros Hl. pose proof (links_nodup _ _ _ _ Hl) as Hn. rewrite fmap_cons, NoDup_cons in Hn.
  destruct Hl as (Eh & Hz & Hb & Hl). split; [|split_and!; try done].
  - unfold udp_unlink. rewrite vars_bind.
    by rewrite Eh, Z.eqb_refl, (io_bind_ok _ _ _ _ _ (get_pcb_ok _ _ _ Hb)).
  - intros c d Hin. exists d. split; [by right|done].
  - apply Hn.
  - intros c Hin Hne. rewrite fmap_cons in Hin. set_solver.
Qed.

Lemma unlink_mid s l1 c d pcb b l2 : links u_next (pcbs (udp s)) (udp_pcbs (udp s)) (l1 ++ (c, d) :: (pcb, b) :: l2) ->
  unlinked s (l1 ++ (c, d) :: (pcb, b) :: l2) pcb (udp_pcbs (udp s))
    (<[c := set_u_next (u_next b) d]> (pcbs (udp s))) (l1 ++ (c, set_u_next (u_next b) d) :: l2).
Proof using Type.
  intros Hl. pose proof (links_nodup _ _ _ _ Hl) as Hn.
  destruct (links_lookup _ _ _ _ c d Hl) as [Hc Hc0]; [apply elem_of_app; right; by left|].
  destruct (links_lookup _ _ _ _ pcb b Hl) as [Hb Hz]; [apply elem_of_app; right; right; by left|].
  rewrite fmap_app, !fmap_cons, NoDup_app, !NoDup_cons in Hn. cbn [fst] in Hn. destruct Hn as (_ & Hd & Hc1 & Hp1 & _).
  split; [|split_and!].
  - unfold udp_unlink. rewrite vars_bind.
    destruct (Z.eqb_spec (udp_pcbs (udp s)) pcb) as [Eh|_].
    { exfalso. pose proof (links_first _ _ _ _ Hl) as Hf. rewrite Eh in Hf. destruct l1 as [|[e f] l1]; cbn in Hf.
      - apply Hc1. rewrite Hf. by left.
      - apply (Hd pcb); [rewrite Hf, fmap_cons; by left|right; by left]. }
    rewrite (io_bind_ok _ _ _ _ _ (search_spec s _ _ Hl)), (pred_spec _ _ _ _ _ _ _ _ Hl).
    rewrite (proj2 (Z.eqb_neq c 0)) by done. rewrite (io_bind_ok _ _ _ _ _ (get_pcb_ok _ _ _ Hb)).
    by apply upd_pcb_ok.
  - by apply (links_unlink _ _ _ _ _ _ _ _ _ _ Hl).
  - intros e f. rewrite elem_of_app, elem_of_cons. intros [H|[[= -> ->]|H]].
    + exists f. split; [|done]. apply elem_of_app. by left.
    + exists d. split; [|done]. apply elem_of_app. right. by left.
    + exists f. split; [|done]. apply elem_of_app. right. right. by right.
  - rewrite fmap_app, fmap_cons, elem_of_app, elem_of_cons. cbn [fst]. intros [H|[->|H]]; [|set_solver|done].
    apply (Hd pcb H). right. by left.
  - intros e. rewrite !fmap_app, !fmap_cons. set_solver.
  - apply dom_insert_lookup_L. by eexists.
  - intros e f [[<- <-]|[Hne He]]%lookup_insert_Some Hnin; [|done].
    destruct Hnin. rewrite fmap_app, !fmap_cons. set_solver.
Qed.

Lemma udp_unlink_spec s l pcb b : links u_next (pcbs (udp s)) (udp_pcbs (udp s)) l -> pcbs (udp s) !! pcb = Some b ->
  pcb <> 0 -> exists hd m l', unlinked s l pcb hd m l'.
Proof using Type.
  intros Hl Hb Hz. destruct (decide (pcb ∈ l.*1)) as [Hin|Hin]; [|by eexists _, _, _; apply unlink_none].
  destruct (links_split _ _ _ _ _ Hl Hin) as (b0 & l1 & l2 & -> & _).
  destruct l1 as [|[c d] l1 _] using rev_ind; [by eexists _, _, _; apply unlink_head|].
  rewrite <- app_assoc in *. by eexists _, _, _; apply unlink_mid.
Qed.

Lemma remove_spec s l lu pcb b : udp_inv s l lu -> pcbs (udp s) !! pcb = Some b ->
  exists s' l', udp_remove pcb s = Ok (tt, s') /\ udp_inv s' l' (pcb :: lu) /\
    dom (pcbs (udp s')) = dom (pcbs (udp s)) ∖ {[pcb]}.
Proof using Type.
  intros Hi Hb. pose proof (inv_nonzero _ _ _ _ _ Hi Hb) as Hz.
  destruct (udp_unlink_spec s l pcb b (ui_links _ _ _ Hi) Hb Hz) as (hd & m & l' & E & Hl & Hk & Hp & Hkey & Hd & Hm).
  destruct (free_spec s l lu m hd l' pcb b Hi Hb Hk Hl Hp Hd) as (s' & E' & Hi' & Ed).
  { intros c d Hc Hne Hnin. destruct (decide (c ∈ l.*1)) as [Hin|Hin]; [destruct (Hnin (Hkey c Hin Hne))|].
    by apply (ui_unlisted _ _ _ Hi c d (Hm c d Hc Hin)). }
  exists s', l'. unfold udp_remove. rewrite (proj2 (Z.eqb_neq pcb 0)), (io_bind_ok _ _ _ _ _ E) by done.
  split_and!; [done|done|]. by rewrite Ed, dom_delete_L, Hd.
Qed.

Lemma new_spec s l lu : udp_inv s l lu ->
  exists r s' lu', udp_new s = Ok (r, s') /\ udp_inv s' l lu' /\
    match lu with
    | [] => r = 0 /\ s' = s
    | a :: lu0 => r = a /\ lu' = lu0 /\ pcbs (udp s) !! a = None /\
        exists b, pcbs (udp s') = <[a := b]> (pcbs (udp s)) /\ local_port b = 0
    end.
Proof using Type.
  intros Hi. unfold udp_new. destruct lu as [|a lu].
  - rewrite (pool_malloc_none _ (ui_pool _ _ _ Hi)). cbn [mbind outcome_bind]. exists 0, s, [].
    split; [|split; [done|done]]. by destruct s.
  - destruct (pool_malloc_some _ _ _ (ui_pool _ _ _ Hi)) as (ps & E & Hr). rewrite E. cbn [mbind outcome_bind].
    destruct (pool_rep_wf _ _ (ui_pool _ _ _ Hi)) as [Hnd Hsub]. apply NoDup_cons in Hnd as [Hna _].
    assert (Ha : a ∈ pool_elements (PS := UP)) by set_solver.
    assert (Hn : pcbs (udp s) !! a = None) by (apply (ui_free _ _ _ Hi); [done|by left]).
    assert (Hnl : a ∉ l.*1).
    { intros Hin. destruct (links_split _ _ _ _ _ (ui_links _ _ _ Hi) Hin) as (? & ? & ? & _ & Hs & _). congruence. }
    eexists a, _, lu. split; [done|]. split; [|split_and!; [done|done|done|by eexists]].
    apply (inv_from s l (a :: lu) _ _ _ Hi); cbn [udp set_pcbs pcbs udp_pcbs udp_port udp_pool]; try done.
    + intros c d Hin. by exists d.
    + by apply links_insert_out, ui_links with (1 := Hi).
    + intros c d [[<- <-]|[Hne Hc]]%lookup_insert_Some Hin; [done|]. by apply (ui_unlisted _ _ _ Hi c d).
    + intros c Hc. rewrite lookup_insert_None, <- (ui_free _ _ _ Hi), elem_of_cons by done. naive_solver.
    + intros c d [[<- <-]|[Hne Hc]]%lookup_insert_Some; [done|]. by eapply ui_elem.
Qed.
(* ------------------------------------------------------------------ *)
(** * Choosing the receiver *)

(** The control block of a datagram to port [dest] from port [src]: the first
    on the list that matches both ends, or else the first that is not
    connected and matches the local end. *)
Definition local_end (n : N) (dest : Z) b : bool := (local_port b =? dest) && udp_input_local_match n b.
Definition both_ends (n : N) (src dest : Z) (_ : Z) b : bool := local_end n dest b && fully_matches n src b.
Definition unconnected (n : N) (dest : Z) (_ : Z) b : bool :=
  local_end n dest b && (Z.land (u_flags b) UDP_FLAGS_CONNECTED =? 0).
Definition receiver (n : N) (src dest : Z) l : Z :=
  if first_such (both_ends n src dest) l =? 0 then first_such (unconnected n dest) l
  else first_such (both_ends n src dest) l.

Fixpoint last_key (prev : Z) l : Z := match l with [] => prev | (a, _) :: l => last_key a l end.

Lemma last_key_snoc prev l a b : last_key prev (l ++ [(a, b)]) = a.
Proof using Type. revert prev. induction l as [|[c d] l IH]; intros prev; simpl; [done|apply IH]. Qed.

(** One cell of the walk. *)
Lemma input_walk_step fuel m n src dest a b prev unc : a <> 0 -> m !! a = Some b ->
  let unc' := if unconnected n dest a b && (unc =? 0) then a else unc in
  input_walk (S fuel) m n src dest a prev unc =
    if both_ends n src dest a b then Ok (a, prev, unc')
    else input_walk fuel m n src dest (u_next b) a unc'.
Proof using Type.
  intros Ha Hb. cbn [input_walk]. rewrite (proj2 (Z.eqb_neq a 0)) by done. unfold pcb_at. rewrite Hb.
  cbn [mbind outcome_bind]. unfold unconnected, both_ends. fold (local_end n dest b).
  by destruct (local_end n dest b).
Qed.

Lemma input_walk_none m n src dest l : forall fuel p prev unc, links u_next m p l -> (length l <= fuel)%nat ->
  first_such (both_ends n src dest) l = 0 ->
  input_walk fuel m n src dest p prev unc =
    Ok (0, last_key prev l, if unc =? 0 then first_such (unconnected n dest) l else unc).
Proof using Type.
  induction l as [|[a b] l IH]; intros fuel p prev unc Hl Hf Hn; simpl in Hl.
  - subst p. by destruct fuel; cbn; destruct (Z.eqb_spec unc 0) as [->|].
  - destruct Hl as (-> & Ha & Hb & Hl), fuel as [|fuel]; [simpl in Hf; lia|]. cbn [first_such] in *.
    rewrite (input_walk_step _ _ _ _ _ _ b) by done. cbv zeta. destruct (both_ends n src dest a b); [done|].
    simpl in Hf. rewrite (IH fuel) by (done || lia). cbn [last_key].
    destruct (unconnected n dest a b), (Z.eqb_spec unc 0) as [->|]; cbn [andb]; try done.
    + by rewrite (proj2 (Z.eqb_neq a 0)).
    + by rewrite (proj2 (Z.eqb_neq unc 0)).
    + by rewrite (proj2 (Z.eqb_neq unc 0)).
Qed.

Lemma input_walk_some m n src dest l1 a b l2 : forall fuel p prev unc,
  links u_next m p (l1 ++ (a, b) :: l2) -> (length (l1 ++ (a, b) :: l2) <= fuel)%nat ->
  both_ends n src dest a b = true -> (forall c d, (c, d) ∈ l1 -> both_ends n src dest c d = false) ->
  exists unc', input_walk fuel m n src dest p prev unc = Ok (a, last_key prev l1, unc').
Proof using Type.
  induction l1 as [|[c d] l1 IH]; intros fuel p prev unc Hl Hf Hb Hn; simpl in Hl;
    destruct Hl as (-> & Hz & Hm & Hl), fuel as [|fuel]; try (simpl in Hf; lia);
    rewrite (input_walk_step _ _ _ _ _ _ _ _ _ Hz Hm); cbv zeta.
  - rewrite Hb. by eexists.
  - rewrite Hn by by left. apply IH; [done|simpl in Hf; lia|done|]. intros e f Hin. apply Hn. by right.
Qed.

(** Moving the found control block to the front changes the order only. *)
Lemma move_to_front_spec s lu l1 a b l2 : udp_inv s (l1 ++ (a, b) :: l2) lu ->
  exists s' l', move_to_front a (last_key 0 l1) s = Ok (tt, s') /\ udp_inv s' l' lu /\
    l'.*1 = a :: (l1 ++ l2).*1 /\ lower s' = lower s /\ n_heap s' = n_heap s /\
    forall c d, (c, d) ∈ l' -> exists d0, (c, d0) ∈ l1 ++ (a, b) :: l2 /\ d = set_u_next (u_next d) d0.
Proof using Type.
  intros Hi. pose proof (ui_links _ _ _ Hi) as Hl. unfold move_to_front.
  assert (Hself : forall d, d = set_u_next (u_next d) d) by by intros [].
  destruct l1 as [|[c d] l1 _] using rev_ind.
  - exists s, ((a, b) :: l2). cbn. split_and!; try done. intros e f Hin. by exists f.
  - rewrite last_key_snoc. rewrite <- app_assoc in *. cbn [app] in *.
    pose proof (links_nodup _ _ _ _ Hl) as Hn. rewrite fmap_app, !fmap_cons, NoDup_app, !NoDup_cons in Hn.
    cbn [fst] in Hn. destruct Hn as (_ & Hd & Hc1 & Ha1 & _).
    destruct (links_lookup _ _ _ _ c d Hl) as [Hc Hc0]; [apply elem_of_app; right; by left|].
    destruct (links_lookup _ _ _ _ a b Hl) as [Ha Ha0]; [apply elem_of_app; right; right; by left|].
    assert (Hca : c <> a) by (intros ->; apply Hc1; by left).
    rewrite (proj2 (Z.eqb_neq c 0)) by done. cbn [negb io_when].
    rewrite (io_bind_ok _ _ _ _ _ (get_pcb_ok _ _ _ Ha)), (io_bind_ok _ _ _ _ _ (upd_pcb_ok _ _ _ _ Hc)), vars_bind.
    set (d' := set_u_next (u_next b) d). set (s1 := with_udp (set_pcbs <[c := d']>) s).
    assert (Ha' : pcbs (udp s1) !! a = Some b) by (cbn; by rewrite lookup_insert_ne).
    rewrite (io_bind_ok _ _ _ _ _ (upd_pcb_ok _ _ _ _ Ha')). set (b' := set_u_next (udp_pcbs (udp s1)) b).
    assert (Hk : a ∉ (l1 ++ (c, d') :: l2).*1).
    { rewrite fmap_app, fmap_cons, elem_of_app, elem_of_cons. cbn [fst]. intros [H|[->|H]]; [|done|done].
      apply (Hd a H). right. by left. }
    eexists _, ((a, b') :: l1 ++ (c, d') :: l2). split; [reflexivity|].
    assert (Hb : forall e f, (e, f) ∈ (a, b') :: l1 ++ (c, d') :: l2 -> exists d0, (e, d0) ∈ l1 ++ (c, d) :: (a, b) :: l2 /\
      f = set_u_next (u_next f) d0).
    { intros e f. rewrite elem_of_cons, elem_of_app, elem_of_cons. intros [[= -> ->]|[H|[[= -> ->]|H]]].
      - exists b. split; [set_solver|done].
      - exists f. split; [set_solver|done].
      - exists d. split; [set_solver|done].
      - exists f. split; [set_solver|done]. }
    split_and!; try done; [|by rewrite !fmap_cons, !fmap_app, !fmap_cons|by rewrite <- app_assoc].
    apply (inv_from s _ lu _ _ _ Hi); cbn [with_udp set_pcbs set_head udp pcbs udp_pcbs udp_port udp_pool];
      try done; try by apply Hi.
    + intros e f Hin. destruct (Hb e f Hin) as (d0 & Hin0 & ->). by exists d0.
    + change (pcbs (udp s1)) with (<[c := d']> (pcbs (udp s))).
      apply (links_cons _ _ (udp_pcbs (udp s))); [|done|done|done]. by apply (links_unlink _ _ _ _ _ _ _ _ _ _ Hl).
    + change (pcbs (udp s1)) with (<[c := d']> (pcbs (udp s))).
      intros e f [[<- <-]|[Hne He]]%lookup_insert_Some Hin; [destruct Hin; by left|].
      apply lookup_insert_Some in He as [[<- <-]|[Hne' He]]; [set_solver|].
      apply (ui_unlisted _ _ _ Hi e f He). rewrite fmap_cons, !fmap_app, !fmap_cons in *. set_solver.
    + change (pcbs (udp s1)) with (<[c := d']> (pcbs (udp s))).
      intros e He. rewrite !lookup_insert_None, <- (ui_free _ _ _ Hi) by done. split; [|tauto].
      intros Hin. split_and!; [done| |]; intros ->; apply (ui_free _ _ _ Hi) in Hin; congruence.
    + change (pcbs (udp s1)) with (<[c := d']> (pcbs (udp s))).
      intros e f [[<- <-]|[_ [[<- <-]|[_ He]]%lookup_insert_Some]]%lookup_insert_Some; by eapply ui_elem.
Qed.

Lemma demux_spec s l lu src dest : udp_inv s l lu ->
  exists s' l', udp_demux src dest s = Ok (receiver (lower s) src dest l, s') /\ udp_inv s' l' lu /\
    lower s' = lower s /\ n_heap s' = n_heap s /\ l'.*1 ≡ₚ l.*1 /\
    forall c d, (c, d) ∈ l' -> exists d0, (c, d0) ∈ l /\ d = set_u_next (u_next d) d0.
Proof using Type.
  intros Hi. pose proof (ui_links _ _ _ Hi) as Hl. pose proof (links_length _ _ _ _ Hl) as Hlen.
  assert (Hf : (length l <= pcb_fuel (pcbs (udp s)))%nat) by (unfold pcb_fuel; lia).
  unfold udp_demux, receiver, input_search.
  destruct (Z.eqb_spec (first_such (both_ends (lower s) src dest) l) 0) as [E|E].
  - exists s, l. split; [|split_and!; try done; intros c d Hin; exists d; split; [done|by destruct d]].
    unfold mbind, io_bind. rewrite (input_walk_none _ _ _ _ _ _ _ _ _ Hl Hf E). done.
  - destruct (first_such_some _ _ _ _ _ Hl E) as (l1 & a & b & l2 & -> & -> & Hb & Hn).
    destruct (input_walk_some _ _ _ _ _ _ _ _ _ _ 0 0 Hl Hf Hb Hn) as (unc' & Ew).
    destruct (links_lookup _ _ _ _ a b Hl) as [_ Ha]; [apply elem_of_app; right; by left|].
    destruct (move_to_front_spec s lu l1 a b l2 Hi) as (s' & l' & Em & Hi' & Hk & Hlo & Hh & Hb').
    exists s', l'. split; [|split_and!; try done].
    + unfold mbind at 1, io_bind at 1. rewrite Ew. cbn [mbind outcome_bind].
      rewrite (proj2 (Z.eqb_neq a 0)) by done. by rewrite (io_bind_ok _ _ _ _ _ Em).
    + rewrite Hk, !fmap_app, fmap_cons. cbn [fst]. by rewrite Permutation_middle.
Qed.
(* ------------------------------------------------------------------ *)
(** * Properties *)

(** The calls other modules make, and the choice of [udp_input]. *)
Inductive udp_op : Type :=
| OpNew
| OpBind (pcb : Z) (ipaddr : ip6_addr) (port : Z)
| OpBindNetif (pcb netif : Z)
| OpConnect (pcb : Z) (ipaddr : ip6_addr) (port : Z)
| OpDisconnect (pcb : Z)
| OpRecv (pcb recv recv_arg : Z)
| OpRemove (pcb : Z)
| OpDemux (src dest : Z).

Definition run_op (op : udp_op) : io state Z :=
  match op with
  | OpNew => udp_new
  | OpBind pcb ip port => udp_bind pcb (Some ip) port
  | OpBindNetif pcb netif => _ ← udp_bind_netif pcb netif; mret 0
  | OpConnect pcb ip port => udp_connect pcb (Some ip) port
  | OpDisconnect pcb => _ ← udp_disconnect pcb; mret 0
  | OpRecv pcb f a => _ ← udp_recv pcb f a; mret 0
  | OpRemove pcb => _ ← udp_remove pcb; mret 0
  | OpDemux src dest => udp_demux src dest
  end.

(** Callers pass control blocks they created and did not remove. *)
Definition op_ok s (op : udp_op) : Prop :=
  match op with
  | OpNew | OpDemux _ _ => True
  | OpBind pcb _ port | OpConnect pcb _ port => is_Some (pcbs (udp s) !! pcb) /\ is_u16 port
  | OpBindNetif pcb _ | OpDisconnect pcb | OpRecv pcb _ _ | OpRemove pcb => is_Some (pcbs (udp s) !! pcb)
  end.

Inductive udp_step : state -> state -> Prop :=
| udp_step_op op r s s' : op_ok s op -> run_op op s = Ok (r, s') -> udp_step s s'.

Lemma run_op_inv s l lu op : udp_inv s l lu -> op_ok s op ->
  exists r s' l' lu', run_op op s = Ok (r, s') /\ udp_inv s' l' lu'.
Proof using Type.
  intros Hi Hok. destruct op as [|pcb ip port|pcb nif|pcb ip port|pcb|pcb f a|pcb|src dest]; cbn [op_ok run_op] in *.
  - destruct (new_spec s l lu Hi) as (r & s' & lu' & E & Hi' & _). by exists r, s', l, lu'.
  - destruct Hok as [[b Hb] Hp]. destruct (bind_spec s l lu pcb b ip port Hi Hb Hp) as (err & s' & l' & E & Hi' & _).
    by exists err, s', l', lu.
  - destruct Hok as [b Hb].
    destruct (upd_same_spec s l lu pcb b (set_netif_idx (if nif =? 0 then NETIF_NO_INDEX else netif_get_index (lower s) nif)) Hi Hb
      ltac:(done)) as (s' & l' & E & Hi' & _).
    exists 0, s', l', lu. split; [|done]. unfold udp_bind_netif. rewrite (io_bind_ok _ _ _ tt s'); [done|].
    by rewrite (io_bind_ok _ _ _ s s eq_refl).
  - destruct Hok as [[b Hb] Hp]. destruct (connect_spec s l lu pcb b ip port Hi Hb Hp) as (err & s' & l' & E & Hi').
    by exists err, s', l', lu.
  - destruct Hok as [b Hb]. destruct (disconnect_spec s l lu pcb b Hi Hb) as (s' & l' & E & Hi').
    exists 0, s', l', lu. split; [|done]. by rewrite (io_bind_ok _ _ _ _ _ E).
  - destruct Hok as [b Hb]. destruct (upd_same_spec s l lu pcb b (set_recv f a) Hi Hb ltac:(done)) as (s' & l' & E & Hi' & _).
    exists 0, s', l', lu. split; [|done]. rewrite (io_bind_ok _ _ _ tt s'); [done|]. unfold udp_recv.
    by rewrite (proj2 (Z.eqb_neq pcb 0)) by exact (inv_nonzero _ _ _ _ _ Hi Hb).
  - destruct Hok as [b Hb]. destruct (remove_spec s l lu pcb b Hi Hb) as (s' & l' & E & Hi' & _).
    exists 0, s', l', (pcb :: lu). split; [|done]. by rewrite (io_bind_ok _ _ _ _ _ E).
  - destruct (demux_spec s l lu src dest Hi) as (s' & l' & E & Hi' & _). by exists (receiver (lower s) src dest l), s', l', lu.
Qed.

(** Nothing allocated, as the variables are when the program starts. *)
Definition udp_fresh s (lu : list Z) : Prop :=
  udp_pcbs (udp s) = 0 /\ pcbs (udp s) = ∅ /\ pool_rep (udp_pool s) lu /\
  (forall a, a ∈ pool_elements (PS := UP) -> a ∈ lu) /\
  Z.of_nat (stdpp.base.size (pool_elements (PS := UP))) < 16384.

Lemma init_inv (rand : N -> Z) s lu : udp_fresh s lu ->
  exists s', udp_init rand s = Ok (tt, s') /\ udp_inv s' [] lu.
Proof using Type.
  intros (Hh & Hm & Hr & Ha & Hn). eexists. split; [reflexivity|].
  split; cbn [with_udp set_port udp pcbs udp_pcbs udp_port udp_pool]; try done.
  - unfold dynamic, UDP_ENSURE_LOCAL_PORT_RANGE, UDP_LOCAL_PORT_RANGE_START, UDP_LOCAL_PORT_RANGE_END.
    change (u16 (Z.lnot 0xc000)) with (Z.ones 14). rewrite Z.land_ones by lia. change (2 ^ 14) with 16384. ulia.
  - by intros ? ? ?%not_elem_of_nil.
  - by intros ? ? ? ? ?%not_elem_of_nil.
  - rewrite Hm. by intros ? ? ?%lookup_empty_Some.
  - intros a Hel. rewrite Hm. split; [intros _; apply lookup_empty|intros _; by apply Ha].
  - rewrite Hm. by intros ? ? ?%lookup_empty_Some.
Qed.

Lemma udp_init_inv s lu (rand : N -> Z) : udp_fresh s lu -> forall s0 s', udp_init rand s = Ok (tt, s0) ->
  rtc udp_step s0 s' -> exists l lu', udp_inv s' l lu'.
Proof using Type.
  intros Hf s0 s' E Hs. destruct (init_inv rand s lu Hf) as (s1 & E1 & Hi). rewrite E in E1. injection E1 as <-.
  assert (Hex : exists l lu', udp_inv s0 l lu') by by eexists _, _. clear Hi E Hf.
  induction Hs as [|s0 s1 s2 Hst _ IH]; [done|]. apply IH. destruct Hex as (l & lu' & Hi).
  destruct Hst as [op r s0 s1 Hok E]. destruct (run_op_inv s0 l lu' op Hi Hok) as (r' & s1' & l' & lu'' & E' & Hi').
  rewrite E in E'. injection E' as <- <-. by exists l', lu''.
Qed.
End Pcbs.

(** C12: From start-up on, whatever control blocks are created, bound,
    connected, disconnected, removed and chosen by received datagrams, no
    operation faults or fails to end: the list stays a proper list of
    allocated blocks, all of them bound, and no two of them claim the same
    datagrams. *)
Theorem udp_ops_safe {PP RP HP UP N : Type} `{PPO : PoolOps PP} `{RPO : PoolOps RP} `{HPO : HeapOps HP}
    `{UPO : PoolOps UP} `{UPL : !PoolLaws UP} `{IPL : IpLayer N} (rand : N -> Z)
    (s s0 s' : net PP RP HP UP N) (lu : list Z) :
  udp_fresh s lu -> udp_init rand s = Ok (tt, s0) -> rtc udp_step s0 s' ->
  (exists l, links u_next (pcbs (udp s')) (udp_pcbs (udp s')) l /\
     (forall a b, (a, b) ∈ l -> 0 < local_port b < 65536) /\
     (forall a b a' b', (a, b) ∈ l -> (a', b') ∈ l -> a <> a' -> ~ clash b b')) /\
  forall op, op_ok s' op -> is_ok (run_op op s') = true.
Proof.
  intros Hf E Hs. destruct (udp_init_inv s lu rand Hf s0 s' E Hs) as (l & lu' & Hi). split.
  - exists l. split_and!; [apply Hi|apply Hi|]. by apply (ui_apart _ _ _ Hi).
  - intros op Hok. destruct (run_op_inv s' l lu' op Hi Hok) as (r & s2 & l' & lu2 & -> & _). done.
Qed.

(** C38: Binding a control block gives it the address and the port asked for
    and a place on the list, or refuses and changes nothing, when another
    block already has the port with the address or with an unspecified one.
    For port 0 it is given a free port between 49152 and 65535. *)
Theorem udp_bind_exclusive {PP RP HP UP N : Type} `{PPO : PoolOps PP} `{RPO : PoolOps RP} `{HPO : HeapOps HP}
    `{UPO : PoolOps UP} `{UPL : !PoolLaws UP} `{IPL : IpLayer N}
    (s : net PP RP HP UP N) l lu pcb b ip port :
  udp_inv s l lu -> pcbs (udp s) !! pcb = Some b -> is_u16 port ->
  exists err s' l', udp_bind pcb (Some ip) port s = Ok (err, s') /\ udp_inv s' l' lu /\
    bind_answer s s' l l' pcb ip port err.
Proof.
  intros Hi Hb Hp. destruct (bind_spec s l lu pcb b ip port Hi Hb Hp) as (err & s' & l' & E & Hi' & Ha & _).
  by exists err, s', l'.
Qed.

(** The search for a free port ends, after no more attempts than there
    are control blocks and one, with the next port in cyclic order that no
    control block uses. *)
Theorem udp_new_port_free {PP RP HP UP N : Type} `{PPO : PoolOps PP} `{RPO : PoolOps RP} `{HPO : HeapOps HP}
    `{UPO : PoolOps UP} `{UPL : !PoolLaws UP} `{IPL : IpLayer N} (s : net PP RP HP UP N) l lu :
  udp_inv s l lu ->
  exists port k, udp_new_port s = Ok (port, with_udp (set_port port) s) /\ (k <= length l)%nat /\
    port = port_after (udp_port (udp s)) (S k) /\ dynamic port /\
    forall a b, (a, b) ∈ l -> local_port b <> port.
Proof.
  intros Hi. destruct (udp_new_port_spec s l lu Hi) as (port & Hd & Hf & E & k & Hk & Ep). exists port, k.
  split_and!; try done. intros a b Hin Eb. apply Hf. by exists a, b.
Qed.

(* ------------------------------------------------------------------ *)
(** * Witnesses: a pool of four control blocks on one interface *)

(** [struct udp_pcb] has 60 bytes. *)
Definition udp_desc : memp_desc := mk_desc 60 4 0x40001.
Definition udp_laws : PoolLaws pool := memp_pool_laws (list_to_set (pool_els udp_desc)).

(** One interface at address 1 and the packet being received. *)
Record lan := mk_lan { own : ip6_addr; from : ip6_addr; to : ip6_addr }.
#[export] Instance lan_ip : IpLayer lan := {|
  netif_get_index _ _ := 1;
  netif_get_by_index _ i := if i =? 1 then 1 else 0;
  ip_route _ _ _ := 1;
  ip6_select_source_address n _ _ := Some (own n);
  netif_get_ip6_addr_match n _ a := if ip6_addr_eq a (own n) then 0 else -1;
  ip_current_input_netif _ := 1;
  ip_current_src_addr := from;
  ip_current_dest_addr := to;
  ip_current_header_tot_len _ := 40
|}.

Definition no_heap : pheap pool pool ram_heap :=
  mk_pheap (mk_pool 0 ∅) (mk_pool 0 ∅) (mk_ram 0 ∅ 0) ∅ ∅.
Definition any6 : ip6_addr := IP6_ADDR 0 0 0 0.
Definition start : net pool pool ram_heap pool lan :=
  mk_net no_heap (mk_udp 0 0 ∅) (memp_init_pool udp_desc (mk_pool 0 ∅)) (mk_lan node node node).

#[export] Instance op_ok_dec (s : net pool pool ram_heap pool lan) op : Decision (op_ok s op).
Proof. destruct op; cbn [op_ok]; apply _. Defined.

(** A sequence of calls, each with valid arguments. *)
Fixpoint run_ops (ops : list udp_op) (s : net pool pool ram_heap pool lan) : outcome (net pool pool ram_heap pool lan) :=
  match ops with
  | [] => Ok s
  | op :: ops => if decide (op_ok s op) then '(_, s) ← run_op op s; run_ops ops s else Fault AssertFailed
  end.

Lemma run_ops_steps ops s s' : run_ops ops s = Ok s' -> rtc udp_step s s'.
Proof.
  revert s. induction ops as [|op ops IH]; intros s; cbn [run_ops]; [intros [= <-]; by constructor|].
  case_decide as Hok; [|done]. intros ([r s1] & E & H)%bind_ok_inv. eapply rtc_l; [by econstructor|by apply IH].
Qed.

Definition started : net pool pool ram_heap pool lan :=
  with_udp (set_port (UDP_ENSURE_LOCAL_PORT_RANGE 1234567)) start.
Definition after (ops : list udp_op) : net pool pool ram_heap pool lan :=
  match run_ops ops started with Ok s => s | Fault _ => start end.

Lemma after_steps ops : is_ok (run_ops ops started) = true -> rtc udp_step started (after ops).
Proof. unfold after. destruct (run_ops ops started) eqn:E; [|done]. intros _. by eapply run_ops_steps. Qed.

(** A block bound by connecting it, a second one bound to a port, a third
    refused that port; the first moved to the front by a datagram from its
    peer; the second removed. *)
Definition some_ops : list udp_op :=
  [OpNew; OpConnect 262328 node 5353; OpNew; OpBind 262268 any6 20000; OpRecv 262268 7 8; OpNew;
   OpBind 262208 node 20000; OpDemux 5353 54920; OpRemove 262268].

Lemma start_fresh : udp_fresh (UPL := udp_laws) start (reverse (pool_els udp_desc)).
Proof.
  split_and!; try done.
  - apply init_rep. by vm_compute.
  - intros a Ha%elem_of_list_to_set. by rewrite elem_of_reverse.
Qed.

Lemma udp_ops_safe_witness :
  rtc udp_step started (after some_ops) /\
  (exists l, links u_next (pcbs (udp (after some_ops))) (udp_pcbs (udp (after some_ops))) l /\
     (forall a b, (a, b) ∈ l -> 0 < local_port b < 65536) /\
     (forall a b a' b', (a, b) ∈ l -> (a', b') ∈ l -> a <> a' -> ~ clash b b')) /\
  udp_pcbs (udp (after some_ops)) = 262328.
Proof.
  assert (Hs : rtc udp_step started (after some_ops)) by (apply after_steps; vm_compute; reflexivity).
  split; [exact Hs|]. split; [|vm_compute; reflexivity].
  exact (proj1 (udp_ops_safe (UPL := udp_laws) (fun _ => 1234567) start started (after some_ops)
    (reverse (pool_els udp_desc)) start_fresh eq_refl Hs)).
Defined.

Lemma after_inv ops : is_ok (run_ops ops started) = true ->
  exists l lu, udp_inv (UPL := udp_laws) (after ops) l lu.
Proof.
  intros H. by apply (udp_init_inv (UPL := udp_laws) start (reverse (pool_els udp_desc)) (fun _ => 1234567)
    start_fresh started _ eq_refl), after_steps.
Qed.

Lemma udp_bind_exclusive_witness :
  exists l lu err s' l', udp_inv (UPL := udp_laws) (after (take 6 some_ops)) l lu /\
    udp_bind 262208 (Some node) 20000 (after (take 6 some_ops)) = Ok (err, s') /\
    udp_inv (UPL := udp_laws) s' l' lu /\
    bind_answer (after (take 6 some_ops)) s' l l' 262208 node 20000 err.
Proof.
  destruct (after_inv (take 6 some_ops) ltac:(vm_compute; reflexivity)) as (l & lu & Hi).
  destruct (pcbs (udp (after (take 6 some_ops))) !! 262208) as [b|] eqn:Eb; [|exfalso; by vm_compute in Eb].
  assert (Hp : is_u16 20000) by (unfold is_u16; lia).
  destruct (udp_bind_exclusive (UPL := udp_laws) _ l lu 262208 b node 20000 Hi Eb Hp) as (err & s' & l' & H).
  exists l, lu, err, s', l'. exact (conj Hi H).
Defined.

Lemma udp_new_port_free_witness :
  exists l lu port k, udp_inv (UPL := udp_laws) (after (take 6 some_ops)) l lu /\
    udp_new_port (after (take 6 some_ops)) = Ok (port, with_udp (set_port port) (after (take 6 some_ops))) /\
    (k <= length l)%nat /\ port = port_after (udp_port (udp (after (take 6 some_ops)))) (S k) /\ dynamic port /\
    forall a b, (a, b) ∈ l -> local_port b <> port.
Proof.
  destruct (after_inv (take 6 some_ops) ltac:(vm_compute; reflexivity)) as (l & lu & Hi).
  destruct (udp_new_port_free (UPL := udp_laws) _ l lu Hi) as (port & k & H). exists l, lu, port, k. exact (conj Hi H).
Defined.
