(* ===== verification/UdpPackets.v ===== *)
(** UDP datagrams: what [udp_sendto_if_src] hands to IP, what [udp_input]
    does with a packet, and that the second undoes the first. *)

From Stdlib Require Import ZArith Lia.
From stdpp Require Import base list numbers gmap sets.
From S2P Require Import Prelude Mmio Mem Memp Pbuf PbufChain PbufHeaders PbufAlloc Links Ip6Addr Chksum Udp UdpPcbs.

Open Scope Z_scope.

(* ------------------------------------------------------------------ *)
(** * Datagrams *)

Definition half_bytes (v : Z) : list Z := [v / 256; v mod 256].

(** RFC 768: source port, destination port, length and checksum. *)
Definition udp_header (sport dport n ck : Z) : list Z :=
  half_bytes sport ++ half_bytes dport ++ half_bytes n ++ half_bytes ck.
(** The datagram with its checksum over the pseudo-header, itself and the
    data; a checksum of 0 is sent as 0xffff. *)
Definition udp_checksum (src dst : ip6_addr) (sport dport : Z) (data : list Z) : Z :=
  let n := zlen data + UDP_HLEN in
  wire_chksum (rfc1071 (pseudo_header src dst n IP_PROTO_UDP ++ udp_header sport dport n 0 ++ data)).
Definition udp_datagram (src dst : ip6_addr) (sport dport : Z) (data : list Z) : list Z :=
  udp_header sport dport (zlen data + UDP_HLEN) (udp_checksum src dst sport dport data) ++ data.

Lemma half_bytes_u8 v : is_u16 v -> Forall is_u8 (half_bytes v).
Proof. intros Hv. unfold half_bytes. rewrite !Forall_cons_iff. split_and!; try done; ulia. Qed.

Lemma be16_half v : be16 (v / 256) (v mod 256) = v.
Proof. unfold be16. ulia. Qed.

Lemma rfc1071_u16 l : Forall is_u8 l -> is_u16 (rfc1071 l).
Proof. intros Hl. rewrite rfc1071_spec by done. pose proof (oc_range (be_sum l) (be_sum_pos l Hl)). ulia. Qed.

(* ------------------------------------------------------------------ *)
(** * Fields in memory *)

Lemma load_field bs q b l c off hi lo : content bs ((q, b) :: l) c -> 0 <= off -> off + 2 <= len b ->
  c !! Z.to_nat off = Some hi -> c !! (Z.to_nat off + 1)%nat = Some lo -> load16 bs (payload b + off) = Ok (be16 hi lo).
Proof.
  intros Hc Hoff Hlen Hh Hlo. unfold load16, load8.
  rewrite (content_head _ _ _ _ _ off Hc) by lia. rewrite Hh. cbn [mbind outcome_bind].
  replace (payload b + off + 1) with (payload b + (off + 1)) by lia.
  rewrite (content_head _ _ _ _ _ (off + 1) Hc) by lia.
  replace (Z.to_nat (off + 1)) with (Z.to_nat off + 1)%nat by lia. by rewrite Hlo.
Qed.

(* ------------------------------------------------------------------ *)
(** * The header filled in *)

Section Fill.
Context {PP RP HP : Type} {PPO : PoolOps PP} {RPO : PoolOps RP} {HPO : HeapOps HP}.
Implicit Types h : pheap PP RP HP.

Definition with_bytes (bs : gmap Z Z) h : pheap PP RP HP :=
  mk_pheap (pool_st h) (rom_st h) (heap_st h) (pbufs h) bs.

(** What writing into a packet keeps: memory stays mapped. *)
Definition mapped_in (bs bs' : gmap Z Z) : Prop := forall i, is_Some (bs !! i) -> is_Some (bs' !! i).

Lemma write16_spec h q b l c off v : content (bytes h) ((q, b) :: l) c -> disjoint_payloads ((q, b) :: l) ->
  0 <= off -> off + 2 <= len b -> is_u16 v ->
  exists bs', write16 (payload b + off) v h = Ok (tt, with_bytes bs' h) /\
    content bs' ((q, b) :: l) (put_at off (half_bytes v) c) /\ mapped_in (bytes h) bs'.
Proof using Type.
  intros Hc Hd Hoff Hlen Hv. destruct (store_block (bytes h) q b l c off (half_bytes v) Hc Hd Hoff Hlen) as (bs' & E & Hc' & _ & Hm).
  exists bs'. split; [|done]. unfold write16. rewrite u16_small by done. unfold half_bytes in E. by rewrite E.
Qed.

(** The checksum over the pseudo-header and a packet. *)
Lemma pseudo_ok h p l c src dst n proto : chain (pbufs h) p l -> packet l -> content (bytes h) l c -> Forall is_u8 c ->
  is_u8 proto -> is_u16 n -> wf_ip6 src -> wf_ip6 dst ->
  chksum_pseudo p proto n src dst h = Ok (rfc1071 (pseudo_header src dst n proto ++ c), h).
Proof using Type.
  intros Hch Hp Hc Hu Hpr Hn Hs Hd. destruct (pseudo_header_ok src dst n proto Hs Hd Hn Hpr) as (Hh & Ho & _).
  unfold chksum_pseudo, ip_chksum_pseudo. rewrite (pseudo_spec _ _ _ _ _ src dst proto n Hch Hp Hc Hu Hs Hd Hpr Hn).
  rewrite rfc1071_spec by by apply Forall_app. by rewrite (be_sum_app_even (pseudo_header _ _ _ _)).
Qed.

(** The last steps: the length and the checksum. *)
Lemma fill_tail_spec h q b l sport dport data src dst :
  chain (pbufs h) q ((q, b) :: l) -> packet ((q, b) :: l) -> disjoint_payloads ((q, b) :: l) ->
  (exists o1 o2, content (bytes h) ((q, b) :: l) (half_bytes sport ++ half_bytes dport ++ [o1; o2] ++ half_bytes 0 ++ data)) ->
  UDP_HLEN <= len b -> tot_len b = zlen data + UDP_HLEN -> Forall is_u8 data -> is_u16 sport -> is_u16 dport ->
  wf_ip6 src -> wf_ip6 dst ->
  exists bs', (_ ← write16 (payload b + HDR_len) (tot_len b);
    c ← chksum_pseudo q IP_PROTO_UDP (tot_len b) src dst;
    write16 (payload b + HDR_chksum) (if c =? 0x0000 then 0xffff else c)) h = Ok (tt, with_bytes bs' h) /\
    content bs' ((q, b) :: l) (udp_datagram src dst sport dport data) /\ mapped_in (bytes h) bs'.
Proof using Type.
  intros Hch Hp Hd (o1 & o2 & Hc) Hlen Htot Hdata Hsp Hdp Hs Hdst. pose proof Hp as (_ & (_ & Ht & _) & _).
  unfold UDP_HLEN, HDR_len, HDR_chksum in *.
  destruct (write16_spec h q b l _ 4 (tot_len b) Hc Hd ltac:(lia) ltac:(lia) Ht) as (bs1 & E1 & Hc1 & Hm1).
  rewrite (io_bind_ok _ _ _ _ _ E1).
  assert (Hc1' : content bs1 ((q, b) :: l) (udp_header sport dport (tot_len b) 0 ++ data)) by exact Hc1. clear Hc1.
  assert (Hu8 : Forall is_u8 (udp_header sport dport (tot_len b) 0 ++ data)).
  { unfold udp_header. rewrite !Forall_app. split_and!; try done; by apply half_bytes_u8. }
  assert (Hpr : is_u8 IP_PROTO_UDP) by done.
  destruct (pseudo_header_ok src dst (tot_len b) IP_PROTO_UDP Hs Hdst Ht Hpr) as (Hh & Ho & _).
  set (ck := rfc1071 (pseudo_header src dst (tot_len b) IP_PROTO_UDP ++ udp_header sport dport (tot_len b) 0 ++ data)).
  assert (E2 : chksum_pseudo q IP_PROTO_UDP (tot_len b) src dst (with_bytes bs1 h) = Ok (ck, with_bytes bs1 h))
    by (apply (pseudo_ok (with_bytes bs1 h) q ((q, b) :: l)); done).
  rewrite (io_bind_ok _ _ _ _ _ E2).
  assert (Hck : is_u16 ck) by (by apply rfc1071_u16, Forall_app).
  assert (Hw : is_u16 (wire_chksum ck)) by (unfold wire_chksum; destruct (ck =? 0); done).
  destruct (write16_spec (with_bytes bs1 h) q b l _ 6 (wire_chksum ck) Hc1' Hd ltac:(lia) ltac:(lia) Hw) as (bs2 & E & Hc2 & Hm2).
  exists bs2. split; [exact E|]. split; [|intros i Hi; by apply Hm2, Hm1].
  unfold udp_datagram, udp_checksum, UDP_HLEN. rewrite <- Htot. exact Hc2.
Qed.

(** The header written apart from those fields, the flag on the way. *)
Lemma fill_start_spec h q b l hd data sport dport (mcast_loop : bool) :
  chain (pbufs h) q ((q, b) :: l) -> disjoint_payloads ((q, b) :: l) ->
  content (bytes h) ((q, b) :: l) (hd ++ data) -> length hd = 8%nat -> UDP_HLEN <= len b ->
  is_u16 sport -> is_u16 dport ->
  let b1 := if mcast_loop then set_flags (Z.lor (flags b) PBUF_FLAG_MCASTLOOP) b else b in
  exists h', (_ ← write16 (payload b + HDR_src) sport;
      _ ← write16 (payload b + HDR_dest) dport;
      _ ← write16 (payload b + HDR_chksum) 0x0000;
      io_when mcast_loop (pb_update q (fun b => set_flags (Z.lor (flags b) PBUF_FLAG_MCASTLOOP) b))) h = Ok (tt, h') /\
    chain (pbufs h') q ((q, b1) :: l) /\
    (exists o1 o2, content (bytes h') ((q, b1) :: l) (half_bytes sport ++ half_bytes dport ++ [o1; o2] ++ half_bytes 0 ++ data)) /\
    mapped_in (bytes h) (bytes h') /\ pool_st h' = pool_st h /\ rom_st h' = rom_st h /\ heap_st h' = heap_st h.
Proof using Type.
  intros Hch Hd Hc Hhd Hlen Hsp Hdp b1. assert (Hq : pbufs h !! q = Some b) by apply Hch.
  unfold UDP_HLEN in *. do 8 (destruct hd as [|? hd]; [done|]). destruct hd; [|done]. unfold HDR_src, HDR_dest, HDR_chksum.
  destruct (write16_spec h q b l _ 0 sport Hc Hd ltac:(lia) ltac:(lia) Hsp) as (bs1 & E1 & Hc1 & Hm1).
  destruct (write16_spec (with_bytes bs1 h) q b l _ 2 dport Hc1 Hd ltac:(lia) ltac:(lia) Hdp) as (bs2 & E2 & Hc2 & Hm2).
  destruct (write16_spec (with_bytes bs2 (with_bytes bs1 h)) q b l _ 6 0 Hc2 Hd ltac:(lia) ltac:(lia) ltac:(done)) as (bs3 & E3 & Hc3 & Hm3).
  rewrite (io_bind_ok _ _ _ _ _ E1), (io_bind_ok _ _ _ _ _ E2), (io_bind_ok _ _ _ _ _ E3).
  set (h3 := with_bytes bs3 (with_bytes bs2 (with_bytes bs1 h))) in *.
  assert (Hm : mapped_in (bytes h) bs3) by (intros i Hi; by apply Hm3, Hm2, Hm1).
  exists (if mcast_loop then with_pbufs <[q := b1]> h3 else h3). unfold b1. destruct mcast_loop; split_and!; try done.
  - exact (pb_update_ok h3 q _ b Hq).
  - by apply (chain_set_head _ _ b).
  - exists z3, z4. by apply (content_same_head _ _ b).
  - by exists z3, z4.
Qed.

Lemma fill_header_spec h q b l hd data sport dport mcast_loop src dst :
  chain (pbufs h) q ((q, b) :: l) -> packet ((q, b) :: l) -> disjoint_payloads ((q, b) :: l) ->
  content (bytes h) ((q, b) :: l) (hd ++ data) -> length hd = 8%nat ->
  UDP_HLEN <= len b -> tot_len b = zlen data + UDP_HLEN -> Forall is_u8 data -> is_u16 sport -> is_u16 dport ->
  wf_ip6 src -> wf_ip6 dst ->
  exists h' b', udp_fill_header q sport dport mcast_loop src dst h = Ok (tt, h') /\
    chain (pbufs h') q ((q, b') :: l) /\ packet ((q, b') :: l) /\
    content (bytes h') ((q, b') :: l) (udp_datagram src dst sport dport data) /\ mapped_in (bytes h) (bytes h') /\
    payload b' = payload b /\ len b' = len b /\ type_internal b' = type_internal b /\ ref b' = ref b /\
    pool_st h' = pool_st h /\ rom_st h' = rom_st h /\ heap_st h' = heap_st h.
Proof using Type.
  intros Hch Hp Hd Hc Hhd Hlen Htot Hdata Hsp Hdp Hs Hdst.
  assert (Hq : pbufs h !! q = Some b) by apply Hch.
  unfold udp_fill_header. rewrite (io_bind_ok _ _ _ _ _ (pb_read_ok _ _ _ Hq)).
  rewrite (proj2 (Z.leb_le UDP_HLEN (len b))) by done. rewrite (io_bind_ok _ _ _ tt h eq_refl).
  destruct (fill_start_spec h q b l hd data sport dport mcast_loop Hch Hd Hc Hhd Hlen Hsp Hdp) as (h4 & E4 & Hch4 & Hc4 & Hm4 & Hst).
  set (b1 := if mcast_loop then _ else _) in *.
  assert (H4 : next b1 = next b /\ payload b1 = payload b /\ len b1 = len b /\ tot_len b1 = tot_len b /\ ref b1 = ref b /\
    type_internal b1 = type_internal b) by (unfold b1; by destruct mcast_loop).
  destruct H4 as (_ & Ep & El & Et & Er & Ety).
  assert (Hq4 : pbufs h4 !! q = Some b1) by apply Hch4.
  assert (Hp4 : packet ((q, b1) :: l)).
  { destruct Hp as (Ht & (? & ? & ?) & Hp). unfold packet, wf_pbuf. fold packet. by rewrite El, Et, Er. }
  assert (Hd4 : disjoint_payloads ((q, b1) :: l)) by (destruct Hd as [Hd1 Hd2]; split; [|done]; by rewrite Ep, El).
  destruct (fill_tail_spec h4 q b1 l sport dport data src dst Hch4 Hp4 Hd4 Hc4) as (bs5 & E5 & Hc5 & Hm5);
    rewrite ?El, ?Et; try done.
  exists (with_bytes bs5 h4), b1. split_and!; try done; try apply Hst; [|intros i Hi; by apply Hm5, Hm4].
  rewrite Ep, Et in E5. unfold mbind, io_bind in E4 |- *.
  destruct (write16 (payload b + HDR_src) sport h) as [[[] h1]|]; [|done]. cbn [mbind outcome_bind] in E4 |- *.
  destruct (write16 (payload b + HDR_dest) dport h1) as [[[] h2]|]; [|done]. cbn [mbind outcome_bind] in E4 |- *.
  destruct (write16 (payload b + HDR_chksum) 0 h2) as [[[] h3]|]; [|done]. cbn [mbind outcome_bind] in E4 |- *.
  rewrite E4. cbn [mbind outcome_bind]. rewrite (pb_read_ok _ _ _ Hq4). cbn [mbind outcome_bind]. rewrite Et. exact E5.
Qed.
End Fill.

(* ------------------------------------------------------------------ *)
(** * Receiving *)

Section Net.
Context {PP RP HP UP N : Type} {PPO : PoolOps PP} {RPO : PoolOps RP} {HPO : HeapOps HP}
  {UPO : PoolOps UP} {UPL : PoolLaws UP} {IPL : IpLayer N}.
Abbreviation state := (net PP RP HP UP N).
Implicit Types s : state.
Variable ip_output_if_src : Z -> ip6_addr -> ip6_addr -> Z -> Z -> Z -> Z -> io state Z.
Variable icmp_port_unreach : Z -> io state unit.
Variable call_recv : Z -> Z -> Z -> Z -> ip6_addr -> Z -> io state unit.

Definition with_heap (h : pheap PP RP HP) s : state := mk_net h (udp s) (udp_pool s) (lower s).

Lemma on_pbufs_ok {A} (m : io (pheap PP RP HP) A) s x h :
  m (n_heap s) = Ok (x, h) -> on_pbufs m s = Ok (x, with_heap h s).
Proof using Type. unfold on_pbufs. by intros ->. Qed.

Lemma with_heap_id s : with_heap (n_heap s) s = s.
Proof using Type. by destruct s. Qed.

Lemma on_read_ok s p b : pbufs (n_heap s) !! p = Some b -> on_pbufs (pb_read p) s = Ok (b, s).
Proof using Type. intros Hb. rewrite (on_pbufs_ok _ _ _ _ (pb_read_ok _ _ _ Hb)). by rewrite with_heap_id. Qed.

Lemma on_pbufs_same {A} (m : io (pheap PP RP HP) A) s x : m (n_heap s) = Ok (x, n_heap s) -> on_pbufs m s = Ok (x, s).
Proof using Type. intros E. rewrite (on_pbufs_ok _ _ _ _ E). by rewrite with_heap_id. Qed.

(** The packet without its header. *)
Definition stripped (p : Z) (b : pbuf) s : state :=
  with_heap (with_pbufs (fun _ => <[p := trimmed UDP_HLEN b]> (pbufs (n_heap s))) (n_heap s)) s.

Lemma strip_ok s p b : pbufs (n_heap s) !! p = Some b -> p <> 0 -> UDP_HLEN <= len b < 65536 ->
  on_pbufs (pbuf_change (fun m => pbuf_remove_header m p UDP_HLEN)) s = Ok (0, stripped p b s).
Proof using Type.
  intros Hb Hp Hlen. apply on_pbufs_ok. unfold pbuf_change, UDP_HLEN in *.
  by rewrite (remove_header_ok 8 _ p b Hb Hp) by lia.
Qed.

(** Whether a packet with content [c] and checksum field [ck] is refused. *)
Definition bad_checksum (src dst : ip6_addr) (c : list Z) (ck : Z) : bool :=
  negb (ck =? 0) && negb (rfc1071 (pseudo_header src dst (zlen c) IP_PROTO_UDP ++ c) =? 0).

Lemma chksum_ok s p b lp c : chain (pbufs (n_heap s)) p ((p, b) :: lp) -> packet ((p, b) :: lp) ->
  content (bytes (n_heap s)) ((p, b) :: lp) c -> Forall is_u8 c ->
  wf_ip6 (ip_current_src_addr (lower s)) -> wf_ip6 (ip_current_dest_addr (lower s)) ->
  on_pbufs (chksum_pseudo p IP_PROTO_UDP (tot_len b) (ip_current_src_addr (lower s)) (ip_current_dest_addr (lower s))) s =
    Ok (rfc1071 (pseudo_header (ip_current_src_addr (lower s)) (ip_current_dest_addr (lower s)) (zlen c) IP_PROTO_UDP ++ c), s).
Proof using Type.
  intros Hch Hp Hc Hu Hs Hd. pose proof (content_length _ _ _ Hc Hp) as Hl. pose proof Hp as (Et & Hw & _). simpl in Hl.
  assert (Ht : tot_len b = zlen c) by lia. assert (Htu : is_u16 (zlen c)) by (rewrite <- Ht; apply Hw).
  apply on_pbufs_same. rewrite Ht. by apply (pseudo_ok (n_heap s) p ((p, b) :: lp)).
Qed.

Lemma input_spec s l lu p inp b lp a0 a1 d0 d1 n0 n1 k0 k1 data :
  let c := [a0; a1; d0; d1; n0; n1; k0; k1] ++ data in
  let n := lower s in
  let r := receiver n (be16 a0 a1) (be16 d0 d1) l in
  udp_inv s l lu -> inp <> 0 ->
  chain (pbufs (n_heap s)) p ((p, b) :: lp) -> packet ((p, b) :: lp) ->
  content (bytes (n_heap s)) ((p, b) :: lp) c -> UDP_HLEN <= len b -> Forall is_u8 c ->
  wf_ip6 (ip_current_src_addr n) -> wf_ip6 (ip_current_dest_addr n) ->
  exists s1 l1, udp_demux (be16 a0 a1) (be16 d0 d1) s = Ok (r, s1) /\ udp_inv s1 l1 lu /\
    lower s1 = n /\ n_heap s1 = n_heap s /\ l1.*1 ≡ₚ l.*1 /\ (forall a b, (a, b) ∈ l1 -> exists b0, (a, b0) ∈ l /\ b = set_u_next (u_next b) b0) /\
    udp_input icmp_port_unreach call_recv p inp s =
      if negb (r =? 0) || (0 <=? netif_get_ip6_addr_match n inp (ip_current_dest_addr n)) then
        if bad_checksum (ip_current_src_addr n) (ip_current_dest_addr n) c (be16 k0 k1) then free p s1
        else udp_deliver icmp_port_unreach call_recv p r (be16 a0 a1) (stripped p b s1)
      else free p s1.
Proof using Type.
  intros c n r Hi Hinp Hch Hp Hc Hlen Hu Hs Hd.
  assert (Hb : pbufs (n_heap s) !! p = Some b) by apply Hch. assert (Hp0 : p <> 0) by apply Hch.
  destruct (demux_spec s l lu (be16 a0 a1) (be16 d0 d1) Hi) as (s1 & l1 & E & Hi1 & Hlo & Hh & Hk1 & Hk).
  exists s1, l1. split_and!; try done.
  assert (Hlen' : UDP_HLEN <= len b < 65536) by (destruct Hp as (_ & ((_ & ?) & _) & _); lia). unfold UDP_HLEN in *.
  assert (Hfield : forall off hi lo, 0 <= off -> off + 2 <= 8 -> c !! Z.to_nat off = Some hi -> c !! (Z.to_nat off + 1)%nat = Some lo ->
    forall s, n_heap s = n_heap s1 -> read16 (payload b + off) s = Ok (be16 hi lo, s)).
  { intros off hi lo H1 H2 H3 H4 s2 E2. unfold read16. rewrite E2, Hh.
    by rewrite (load_field _ _ _ _ _ off hi lo Hc) by (done || lia). }
  unfold udp_input. rewrite (proj2 (Z.eqb_neq p 0)), (proj2 (Z.eqb_neq inp 0)) by done.
  rewrite (io_bind_ok _ _ _ tt s eq_refl), (io_bind_ok _ _ _ tt s eq_refl), (io_bind_ok _ _ _ _ _ (on_read_ok _ _ _ Hb)).
  unfold UDP_HLEN. rewrite (proj2 (Z.ltb_ge (len b) 8)) by done.
  rewrite (io_bind_ok _ _ _ _ _ (Hfield 0 a0 a1 ltac:(lia) ltac:(lia) eq_refl eq_refl s (eq_sym Hh))).
  rewrite (io_bind_ok _ _ _ _ _ (Hfield 2 d0 d1 ltac:(lia) ltac:(lia) eq_refl eq_refl s (eq_sym Hh))).
  rewrite (io_bind_ok _ _ _ _ _ E), (io_bind_ok _ _ _ s1 s1 eq_refl), Hlo. fold n. fold r.
  destruct (negb (r =? 0) || (0 <=? netif_get_ip6_addr_match n inp (ip_current_dest_addr n))); [|done].
  rewrite (io_bind_ok _ _ _ _ _ (Hfield 6 k0 k1 ltac:(lia) ltac:(lia) eq_refl eq_refl s1 eq_refl)).
  assert (Hb1 : pbufs (n_heap s1) !! p = Some b) by by rewrite Hh.
  assert (Ec : (if negb (be16 k0 k1 =? 0) then
      b ← on_pbufs (pb_read p);
      on_pbufs (chksum_pseudo p IP_PROTO_UDP (tot_len b) (ip_current_src_addr n) (ip_current_dest_addr n))
    else mret 0) s1 = Ok (if negb (be16 k0 k1 =? 0) then
      rfc1071 (pseudo_header (ip_current_src_addr n) (ip_current_dest_addr n) (zlen c) IP_PROTO_UDP ++ c) else 0, s1)).
  { destruct (negb (be16 k0 k1 =? 0)); [|done]. rewrite (io_bind_ok _ _ _ _ _ (on_read_ok _ _ _ Hb1)).
    unfold n in *. rewrite <- Hlo in *. rewrite <- Hh in Hch, Hc. by apply (chksum_ok s1 p b lp c). }
  rewrite (io_bind_ok _ _ _ _ _ Ec). clear Ec. unfold bad_checksum.
  assert (Er : (r0 ← on_pbufs (pbuf_change (fun m => pbuf_remove_header m p 8)); if negb (r0 =? 0) then io_assert false
    else udp_deliver icmp_port_unreach call_recv p r (be16 a0 a1)) s1 =
    udp_deliver icmp_port_unreach call_recv p r (be16 a0 a1) (stripped p b s1)).
  { by rewrite (io_bind_ok _ _ _ _ _ (strip_ok s1 p b Hb1 Hp0 Hlen')). }
  destruct (be16 k0 k1 =? 0); cbn [negb andb]; [exact Er|].
  destruct (rfc1071 _ =? 0); cbn [negb]; [exact Er|done].
Qed.

(** A block for the datagram that has a callback: the callback gets the
    data. *)
Lemma deliver_data s l lu p b lp c r src : udp_inv s l lu ->
  chain (pbufs (n_heap s)) p ((p, b) :: lp) -> packet ((p, b) :: lp) -> content (bytes (n_heap s)) ((p, b) :: lp) c ->
  UDP_HLEN <= len b ->
  (exists br, (r, br) ∈ l /\ recv br <> 0) ->
  exists br, (r, br) ∈ l /\
  udp_deliver icmp_port_unreach call_recv p r src (stripped p b s) =
    call_recv (recv br) (recv_arg br) r p (ip_current_src_addr (lower s)) src (stripped p b s) /\
  let h := n_heap (stripped p b s) in
  chain (pbufs h) p ((p, trimmed UDP_HLEN b) :: lp) /\ packet ((p, trimmed UDP_HLEN b) :: lp) /\
  content (bytes h) ((p, trimmed UDP_HLEN b) :: lp) (drop 8 c).
Proof using Type.
  intros Hi Hch Hp Hc Hlen (br & Hin & Hrecv). exists br. split; [done|].
  destruct (links_lookup _ _ _ _ _ _ (ui_links _ _ _ Hi) Hin) as [Hbr Hr0].
  destruct (trimmed_packet UDP_HLEN _ _ _ _ _ Hp Hc ltac:(unfold UDP_HLEN in *; lia)) as (Hp' & Hc' & _). split; [|cbv zeta; split_and!; try done].
  - unfold udp_deliver. rewrite (io_bind_ok _ _ _ _ _ eq_refl), (proj2 (Z.eqb_neq r 0)) by done. cbn [negb].
    assert (Hbr' : pcbs (udp (stripped p b s)) !! r = Some br) by done.
    rewrite (io_bind_ok _ _ _ _ _ (get_pcb_ok _ _ _ Hbr')), (proj2 (Z.eqb_neq (recv br) 0)) by done. done.
  - cbn [stripped with_heap n_heap with_pbufs pbufs]. by apply (chain_set_head _ _ b).
Qed.
End Net.

(* ------------------------------------------------------------------ *)
(** * Sending *)

Lemma udp_datagram_ok src dst sport dport data :
  wf_ip6 src -> wf_ip6 dst -> is_u16 sport -> is_u16 dport -> Forall is_u8 data -> zlen data + UDP_HLEN < 65536 ->
  Forall is_u8 (udp_datagram src dst sport dport data) /\
  forall ck, bad_checksum src dst (udp_datagram src dst sport dport data) ck = false.
Proof.
  intros Hs Hd Hsp Hdp Hdata Hlt. set (n := zlen data + UDP_HLEN) in *.
  assert (Hn : is_u16 n) by (unfold n, UDP_HLEN, is_u16 in *; lia). assert (Hpr : is_u8 IP_PROTO_UDP) by done.
  destruct (pseudo_header_ok src dst n IP_PROTO_UDP Hs Hd Hn Hpr) as (Hh & Ho & _).
  set (c1 := half_bytes sport ++ half_bytes dport ++ half_bytes n).
  assert (H1 : Forall is_u8 c1) by (unfold c1; rewrite !Forall_app; split_and!; by apply half_bytes_u8).
  assert (E : forall ck, udp_header sport dport n ck ++ data = with_field c1 data ck) by done.
  destruct (wire_rfc1071 (pseudo_header src dst n IP_PROTO_UDP) c1 data Hh Ho H1 eq_refl Hdata) as [Hf E0].
  unfold udp_datagram, udp_checksum. fold n. rewrite !E.
  set (f := wire_chksum _) in *. split.
  - apply (with_field_sum c1 data f H1 Hdata eq_refl Hf).
  - intros ck. unfold bad_checksum.
    assert (El : zlen (with_field c1 data f) = n) by (unfold with_field; rewrite !length_app; unfold c1, n, UDP_HLEN; simpl; lia).
    rewrite El, E0. apply andb_false_r.
Qed.

Section Send.
Context {PP RP HP UP N : Type} {PPO : PoolOps PP} {RPO : PoolOps RP} {HPO : HeapOps HP}
  {UPO : PoolOps UP} {IPL : IpLayer N}.
Abbreviation state := (net PP RP HP UP N).
Implicit Types s : state.
Variable ip_output_if_src : Z -> ip6_addr -> ip6_addr -> Z -> Z -> Z -> Z -> io state Z.

(** A packet [p] with content [data] and [n] bytes in front for headers. *)
Record sendable s (p : Z) (b : pbuf) l data (n : Z) : Prop := {
  sb_chain : chain (pbufs (n_heap s)) p ((p, b) :: l);
  sb_packet : packet ((p, b) :: l);
  sb_content : content (bytes (n_heap s)) ((p, b) :: l) data;
  sb_bytes : Forall is_u8 data;
  sb_length : zlen data + UDP_HLEN < 65536;
  sb_headroom : headroom (bytes (n_heap s)) p b l n;
  sb_room : UDP_HLEN <= n
}.

(** The packet as it is handed to IP, [n] bytes of the headroom left. *)
Definition sent_as s s1 (p : Z) (b : pbuf) l (n : Z) (c : list Z) : Prop :=
  exists b1, chain (pbufs (n_heap s1)) p ((p, b1) :: l) /\ packet ((p, b1) :: l) /\
    content (bytes (n_heap s1)) ((p, b1) :: l) c /\ headroom (bytes (n_heap s1)) p b1 l n /\ ref b1 = ref b /\
    UDP_HLEN <= len b1 /\ payload b1 = payload b - UDP_HLEN /\ udp s1 = udp s /\ udp_pool s1 = udp_pool s /\ lower s1 = lower s.

Lemma send_spec s pcb bp p b l data n dst dport netif src :
  sendable s p b l data n -> pcb <> 0 -> pcbs (udp s) !! pcb = Some bp -> local_port bp <> 0 ->
  is_u16 (local_port bp) -> is_u16 dport -> netif <> 0 -> wf_ip6 src -> wf_ip6 dst ->
  exists s1, sent_as s s1 p b l (n - UDP_HLEN) (udp_datagram src dst (local_port bp) dport data) /\
    udp_sendto_if_src ip_output_if_src pcb p (Some dst) dport netif (Some src) s =
      ip_output_if_src p src dst (if ip6_addr_ismulticast dst then mcast_ttl bp else ttl bp) (tos bp) IP_PROTO_UDP netif s1.
Proof using Type.
  intros [Hch Hp Hc Hdata Hlt Hroom Hn] Hpcb Hbp Hport Hsp Hdp Hnetif Hs Hd.
  assert (Hb : pbufs (n_heap s) !! p = Some b) by apply Hch. assert (Hp0 : p <> 0) by apply Hch.
  destruct (push_header _ _ _ _ _ _ _ UDP_HLEN Hch Hp Hc Hroom ltac:(unfold UDP_HLEN in *; lia) Hlt)
    as (Ea & Hch1 & Hp1 & (hd & Hc1 & Hhd) & Hroom1 & Et1 & El1).
  assert (Ht : tot_len b = zlen data /\ is_u16 (len b) /\ is_u16 (tot_len b)).
  { pose proof (content_length _ _ _ Hc Hp) as El. destruct Hp as (Et & (Hl & Ht & _) & _). simpl in El. split_and!; [lia|done|done]. }
  destruct Ht as (Et & [Hl _] & Htu).
  set (h1 := with_pbufs (fun _ => <[p := grown UDP_HLEN b]> (pbufs (n_heap s))) (n_heap s)).
  destruct (fill_header_spec h1 p (grown UDP_HLEN b) l hd data (local_port bp) dport
    (negb (Z.land (u_flags bp) UDP_FLAGS_MULTICAST_LOOP =? 0) && ip6_addr_ismulticast dst) src dst Hch1 Hp1
    (headroom_disjoint _ _ _ _ _ Hroom1 ltac:(lia)) Hc1)
    as (h2 & b2 & E2 & Hch2 & Hp2 & Hc2 & Hm2 & Ep2 & El2 & Ety2 & Er2 & _); try done.
  { rewrite El1. lia. }
  exists (with_heap h2 (with_heap h1 s)). split.
  { exists b2. split_and!; try done; [|rewrite El2, El1; lia].
    apply (headroom_same (bytes h1) _ _ (grown UDP_HLEN b)); try done. lia. }
  unfold udp_sendto_if_src. rewrite (proj2 (Z.eqb_neq pcb 0)), (proj2 (Z.eqb_neq p 0)), (proj2 (Z.eqb_neq netif 0)) by done.
  cbn [orb]. rewrite (io_bind_ok _ _ _ _ _ (get_pcb_ok _ _ _ Hbp)), (proj2 (Z.eqb_neq (local_port bp) 0)) by done.
  rewrite (io_bind_ok _ _ _ ERR_OK s eq_refl). cbn [negb Z.eqb ERR_OK].
  rewrite (io_bind_ok _ _ _ _ _ (on_read_ok _ _ _ Hb)), Et.
  rewrite (u16_small (zlen data + UDP_HLEN)) by (unfold is_u16, UDP_HLEN in *; lia).
  rewrite (proj2 (Z.ltb_ge (zlen data + UDP_HLEN) _)) by (unfold UDP_HLEN; lia).
  assert (Eh : udp_add_header p s = Ok (Some p, with_heap h1 s)).
  { unfold udp_add_header. erewrite (io_bind_ok _ _ _ 0 (with_heap h1 s)); [done|]. apply on_pbufs_ok. unfold pbuf_change.
    by rewrite Ea. }
  rewrite (io_bind_ok _ _ _ _ _ Eh). unfold udp_transmit.
  assert (Hbp1 : pcbs (udp (with_heap h1 s)) !! pcb = Some bp) by done.
  rewrite (io_bind_ok _ _ _ _ _ (get_pcb_ok _ _ _ Hbp1)).
  rewrite (io_bind_ok _ _ _ _ _ (on_pbufs_ok _ (with_heap h1 s) tt h2 E2)), Z.eqb_refl. cbn [negb].
  unfold mbind, io_bind. destruct (ip_output_if_src _ _ _ _ _ _ _ _) as [[err s3]|]; done.
Qed.
End Send.

(* ------------------------------------------------------------------ *)
(** * Properties *)

(** What becomes of a datagram. *)
Inductive verdict : Type :=
| Discard
| Deliver (pcb : Z) (b : udp_pcb)
| Refuse.

Section Verdict.
Context {PP RP HP UP N : Type} {PPO : PoolOps PP} {RPO : PoolOps RP} {HPO : HeapOps HP}
  {UPO : PoolOps UP} {UPL : PoolLaws UP} {IPL : IpLayer N}.
Abbreviation state := (net PP RP HP UP N).
Implicit Types s : state.
Variable icmp_port_unreach : Z -> io state unit.
Variable call_recv : Z -> Z -> Z -> Z -> ip6_addr -> Z -> io state unit.

(** The datagram [c] with the ports [sport] and [dport] and the checksum
    field [ck], received on [inp]. *)
Definition udp_verdict s l (inp sport dport ck : Z) (c : list Z) : verdict :=
  let n := lower s in
  let r := receiver n sport dport l in
  if negb (r =? 0) || (0 <=? netif_get_ip6_addr_match n inp (ip_current_dest_addr n)) then
    if bad_checksum (ip_current_src_addr n) (ip_current_dest_addr n) c ck then Discard
    else if r =? 0 then
      if ip6_addr_ismulticast (ip_current_dest_addr n) then Discard else Refuse
    else match pcbs (udp s) !! r with
         | Some b => if recv b =? 0 then Discard else Deliver r b
         | None => Discard
         end
  else Discard.

(** How it is carried out in the state [s1] after the search. *)
Definition carried_out s1 (v : verdict) (p : Z) (b : pbuf) (sport : Z) (answer : outcome (unit * state)) : Prop :=
  match v with
  | Discard => answer = free p s1 \/ answer = free p (stripped p b s1)
  | Deliver r br =>
      answer = call_recv (recv br) (recv_arg br) r p (ip_current_src_addr (lower s1)) sport (stripped p b s1)
  | Refuse =>
      answer = (_ ← on_pbufs (pbuf_change (fun m =>
                  pbuf_header_force m p (ip_current_header_tot_len (lower s1) + UDP_HLEN)));
                _ ← icmp_port_unreach p; free p) (stripped p b s1)
  end.

Lemma first_such_mem test (l : list (Z * udp_pcb)) : first_such test l <> 0 -> first_such test l ∈ l.*1.
Proof using Type.
  induction l as [|[a b] l IH]; cbn [first_such fmap list_fmap fst]; [done|]. destruct (test a b); [by left|].
  intros H. right. by apply IH.
Qed.

Lemma receiver_mem (n : N) sport dport l : receiver n sport dport l <> 0 -> receiver n sport dport l ∈ l.*1.
Proof using Type.
  unfold receiver. intros Hr. destruct (Z.eqb_spec (first_such (both_ends n sport dport) l) 0); by apply first_such_mem.
Qed.

(** The control block found is the same before and after the search, but
    for its place in the list. *)
Lemma receiver_entry s s1 l l1 lu sport dport : udp_inv s l lu -> udp_inv s1 l1 lu -> l1.*1 ≡ₚ l.*1 ->
  (forall a b, (a, b) ∈ l1 -> exists b0, (a, b0) ∈ l /\ b = set_u_next (u_next b) b0) ->
  let r := receiver (lower s) sport dport l in r <> 0 ->
  exists b0 b1, pcbs (udp s) !! r = Some b0 /\ (r, b0) ∈ l /\ (r, b1) ∈ l1 /\ pcbs (udp s1) !! r = Some b1 /\
    recv b1 = recv b0 /\ recv_arg b1 = recv_arg b0.
Proof using Type.
  intros Hi Hi1 Hperm Hk r Hr. pose proof (receiver_mem _ _ _ _ Hr) as Hin. fold r in Hin.
  rewrite <- Hperm in Hin. apply list_elem_of_fmap in Hin as ([a b1] & Ea & Hin1). cbn [fst] in Ea. rewrite <- Ea in Hin1.
  destruct (Hk _ _ Hin1) as (b0 & Hin0 & E). exists b0, b1.
  destruct (links_lookup _ _ _ _ _ _ (ui_links _ _ _ Hi) Hin0) as [? _].
  destruct (links_lookup _ _ _ _ _ _ (ui_links _ _ _ Hi1) Hin1) as [? _]. split_and!; try done; by rewrite E.
Qed.

(** What is done once the checksum is good. *)
Lemma deliver_verdict s s1 l l1 lu p b sport dport : udp_inv s l lu -> udp_inv s1 l1 lu -> l1.*1 ≡ₚ l.*1 ->
  (forall a b, (a, b) ∈ l1 -> exists b0, (a, b0) ∈ l /\ b = set_u_next (u_next b) b0) -> lower s1 = lower s ->
  let r := receiver (lower s) sport dport l in
  carried_out s1 (if r =? 0 then
      if ip6_addr_ismulticast (ip_current_dest_addr (lower s)) then Discard else Refuse
    else match pcbs (udp s) !! r with
         | Some b => if recv b =? 0 then Discard else Deliver r b
         | None => Discard
         end) p b sport (udp_deliver icmp_port_unreach call_recv p r sport (stripped p b s1)).
Proof using Type.
  intros Hi Hi1 Hperm Hk Hlo r. unfold udp_deliver. rewrite (io_bind_ok _ _ _ _ _ eq_refl).
  cbn [lower stripped with_heap]. rewrite Hlo. destruct (Z.eqb_spec r 0) as [Er|Er]; cbn [negb].
  - destruct (ip6_addr_ismulticast _); cbn [negb carried_out].
    + right. by rewrite (io_bind_ok _ _ _ _ _ eq_refl).
    + rewrite Hlo. unfold mbind, io_bind. destruct (on_pbufs _ _) as [[z n]|]; [|done].
      by destruct (icmp_port_unreach p n) as [[? ?]|].
  - destruct (receiver_entry s s1 l l1 lu sport dport Hi Hi1 Hperm Hk Er) as (b0 & b1 & H0 & _ & _ & H1 & Erec & Earg).
    fold r in H0, H1. rewrite H0. assert (H1' : pcbs (udp (stripped p b s1)) !! r = Some b1) by done.
    rewrite (io_bind_ok _ _ _ _ _ (get_pcb_ok _ _ _ H1')), Erec. destruct (recv b0 =? 0); cbn [negb carried_out].
    + by right.
    + by rewrite Earg, Hlo.
Qed.

(** A datagram for a control block that has a callback: the callback gets the
    data, the sender's address and port. *)
Lemma datagram_received s l lu inp p b lp src dst sport dport data :
  let r := receiver (lower s) sport dport l in
  udp_inv s l lu -> inp <> 0 -> ip_current_src_addr (lower s) = src -> ip_current_dest_addr (lower s) = dst ->
  chain (pbufs (n_heap s)) p ((p, b) :: lp) -> packet ((p, b) :: lp) ->
  content (bytes (n_heap s)) ((p, b) :: lp) (udp_datagram src dst sport dport data) -> UDP_HLEN <= len b ->
  wf_ip6 src -> wf_ip6 dst -> is_u16 sport -> is_u16 dport -> Forall is_u8 data -> zlen data + UDP_HLEN < 65536 ->
  r <> 0 -> (forall br, pcbs (udp s) !! r = Some br -> recv br <> 0) ->
  exists s2 b2 br, pcbs (udp s) !! r = Some br /\
    udp_input icmp_port_unreach call_recv p inp s = call_recv (recv br) (recv_arg br) r p src sport s2 /\
    chain (pbufs (n_heap s2)) p ((p, b2) :: lp) /\ packet ((p, b2) :: lp) /\
    content (bytes (n_heap s2)) ((p, b2) :: lp) data.
Proof using Type.
  intros r Hi Hinp Es Ed Hch Hp Hc Hlen Hs Hd Hsp Hdp Hdata Hlt Hr Hrecv.
  destruct (udp_datagram_ok src dst sport dport data Hs Hd Hsp Hdp Hdata Hlt) as [Hu Hck].
  assert (Hs' : wf_ip6 (ip_current_src_addr (lower s))) by by rewrite Es.
  assert (Hd' : wf_ip6 (ip_current_dest_addr (lower s))) by by rewrite Ed.
  pose proof (input_spec icmp_port_unreach call_recv s l lu p inp b lp _ _ _ _ _ _ _ _ data Hi Hinp Hch Hp Hc Hlen Hu Hs' Hd') as Hin.
  rewrite !be16_half in Hin. destruct Hin as (s1 & l1 & _ & Hi1 & Hlo & Hh & Hperm & Hk & ->). fold r.
  rewrite (proj2 (Z.eqb_neq r 0)) by done. cbn [negb orb]. rewrite Es, Ed.
  match goal with |- context [bad_checksum src dst ?x ?y] => rewrite (Hck y : bad_checksum src dst x y = false) end.
  destruct (receiver_entry s s1 l l1 lu sport dport Hi Hi1 Hperm Hk Hr) as (b0 & b1 & H0 & _ & Hin1 & H1 & Er & Ea).
  fold r in H0, Hin1, H1. rewrite <- Hh in Hch, Hc.
  destruct (deliver_data icmp_port_unreach call_recv s1 l1 lu p b lp _ r sport Hi1 Hch Hp Hc Hlen) as (br & Hinb & E & Hch2 & Hp2 & Hc2).
  { exists b1. rewrite Er. auto. }
  destruct (links_lookup _ _ _ _ _ _ (ui_links _ _ _ Hi1) Hinb) as [Hbr _]. rewrite H1 in Hbr. injection Hbr as <-.
  exists (stripped p b s1), (trimmed UDP_HLEN b), b0. split_and!; try done. rewrite E, Er, Ea, Hlo, Es. done.
Qed.
End Verdict.

(** C13: What becomes of every datagram that reaches UDP with its header in the
    first buffer and its data in any: it is delivered to the control block that matches both its ends or else to
    the first unconnected one on its port, with the header taken off and the
    sender's address and port; with no control block the sender of a unicast
    datagram is told the port is unreachable; datagrams with a wrong
    checksum, for other hosts or without a callback are freed. *)
Theorem udp_input_verdict {PP RP HP UP N : Type} `{PPO : PoolOps PP} `{RPO : PoolOps RP} `{HPO : HeapOps HP}
    `{UPO : PoolOps UP} `{UPL : !PoolLaws UP} `{IPL : IpLayer N} (icmp : Z -> io (net PP RP HP UP N) unit)
    (call : Z -> Z -> Z -> Z -> ip6_addr -> Z -> io (net PP RP HP UP N) unit)
    (s : net PP RP HP UP N) l lu p inp b lp a0 a1 d0 d1 n0 n1 k0 k1 data :
  let c := [a0; a1; d0; d1; n0; n1; k0; k1] ++ data in
  udp_inv s l lu -> inp <> 0 ->
  chain (pbufs (n_heap s)) p ((p, b) :: lp) -> packet ((p, b) :: lp) ->
  content (bytes (n_heap s)) ((p, b) :: lp) c -> UDP_HLEN <= len b -> Forall is_u8 c ->
  wf_ip6 (ip_current_src_addr (lower s)) -> wf_ip6 (ip_current_dest_addr (lower s)) ->
  exists s1 l1, udp_inv s1 l1 lu /\ lower s1 = lower s /\ n_heap s1 = n_heap s /\
    carried_out icmp call s1 (udp_verdict s l inp (be16 a0 a1) (be16 d0 d1) (be16 k0 k1) c) p b (be16 a0 a1)
      (udp_input icmp call p inp s).
Proof.
  intros c Hi Hinp Hch Hp Hc Hlen Hu Hs Hd.
  destruct (input_spec icmp call s l lu p inp b lp a0 a1 d0 d1 n0 n1 k0 k1 data Hi Hinp Hch Hp Hc Hlen Hu Hs Hd)
    as (s1 & l1 & E & Hi1 & Hlo & Hh & Hperm & Hk & Ev). exists s1, l1. split_and!; try done. rewrite Ev.
  unfold udp_verdict. cbv zeta.
  destruct (negb _ || _); [|by left]. destruct (bad_checksum _ _ _ _); [by left|].
  by apply (deliver_verdict icmp call s s1 l l1 lu).
Qed.

(** C7: A datagram arrives as it was sent: [udp_sendto_if_src] hands IP a
    packet that [udp_input], with the packet in buffers of its own, hands to
    the callback of the control block it is for, with the data, and the
    sender's address and port. *)
Theorem udp_roundtrip {PP RP HP UP N : Type} `{PPO : PoolOps PP} `{RPO : PoolOps RP} `{HPO : HeapOps HP}
    `{UPO : PoolOps UP} `{UPL : !PoolLaws UP} `{IPL : IpLayer N}
    (output : Z -> ip6_addr -> ip6_addr -> Z -> Z -> Z -> Z -> io (net PP RP HP UP N) Z)
    (icmp : Z -> io (net PP RP HP UP N) unit)
    (call : Z -> Z -> Z -> Z -> ip6_addr -> Z -> io (net PP RP HP UP N) unit)
    (s s' : net PP RP HP UP N) pcb bp p b l data n dst dport netif src l' lu' inp p' b' lp' :
  let c := udp_datagram src dst (local_port bp) dport data in
  let r := receiver (lower s') (local_port bp) dport l' in
  sendable s p b l data n -> pcb <> 0 -> pcbs (udp s) !! pcb = Some bp -> local_port bp <> 0 ->
  is_u16 (local_port bp) -> is_u16 dport -> netif <> 0 -> wf_ip6 src -> wf_ip6 dst ->
  udp_inv s' l' lu' -> inp <> 0 ->
  ip_current_src_addr (lower s') = src -> ip_current_dest_addr (lower s') = dst ->
  chain (pbufs (n_heap s')) p' ((p', b') :: lp') -> packet ((p', b') :: lp') ->
  content (bytes (n_heap s')) ((p', b') :: lp') c -> UDP_HLEN <= len b' ->
  r <> 0 -> (forall br, pcbs (udp s') !! r = Some br -> recv br <> 0) ->
  (exists s1, sent_as s s1 p b l (n - UDP_HLEN) c /\
    udp_sendto_if_src output pcb p (Some dst) dport netif (Some src) s =
      output p src dst (if ip6_addr_ismulticast dst then mcast_ttl bp else ttl bp) (tos bp) IP_PROTO_UDP netif s1) /\
  exists s2 b2 br, pcbs (udp s') !! r = Some br /\
    udp_input icmp call p' inp s' = call (recv br) (recv_arg br) r p' src (local_port bp) s2 /\
    chain (pbufs (n_heap s2)) p' ((p', b2) :: lp') /\ packet ((p', b2) :: lp') /\
    content (bytes (n_heap s2)) ((p', b2) :: lp') data.
Proof.
  intros c r Hsend Hpcb Hbp Hport Hsp Hdp Hnetif Hs Hd Hi Hinp Es Ed Hch Hp Hc Hlen Hr Hrecv. split.
  { by apply (send_spec output s pcb bp p b l data n dst dport netif src). }
  destruct Hsend as [_ _ _ Hdata Hlt _ _]. by apply (datagram_received icmp call s' l' lu' inp p' b' lp' src dst (local_port bp) dport data).
Qed.

(* ------------------------------------------------------------------ *)
(** * Witnesses: a datagram to a group, a control block on port 5353 *)

Lemma udp_inv_same {PP RP HP UP N N' : Type} `{UPO : PoolOps UP} `{UPL : !PoolLaws UP}
    (s : net PP RP HP UP N) (s' : net PP RP HP UP N') l lu : udp s' = udp s -> udp_pool s' = udp_pool s -> udp_inv s l lu -> udp_inv s' l lu.
Proof. intros Eu Ep [? ? ? ? ? ? ? ? ?]. by split; rewrite ?Eu, ?Ep. Qed.

Definition listening : net pool pool ram_heap pool lan :=
  after [OpNew; OpBind 262328 any6 5353; OpRecv 262328 0x8000 9].
(** The pbuf with the data, with room for headers in front, and the pbuf
    with the datagram. *)
Definition out_buf : pbuf := mk_pbuf 0 0x440 3 3 0x80 0 1 0.
Definition in_buf : pbuf := mk_pbuf 0 0x300 11 11 0x41 0 1 0.
Definition greeting : list Z := udp_datagram node group 5353 5353 [1; 2; 3].
Definition with_packet (p : Z) (b : pbuf) (bs : gmap Z Z) : net pool pool ram_heap pool lan :=
  mk_net (mk_pheap (mk_pool 0 ∅) (mk_pool 0 ∅) (mk_ram 0 ∅ 0) {[p := b]} bs) (udp listening) (udp_pool listening)
    (mk_lan node node group).
Definition sending : net pool pool ram_heap pool lan :=
  with_packet 0x400 out_buf (at_address 0x438 [0; 0; 0; 0; 0; 0; 0; 0; 1; 2; 3]).
Definition receiving : net pool pool ram_heap pool lan := with_packet 0x30 in_buf (at_address 0x300 greeting).
Definition listener : udp_pcb :=
  mk_pcb any6 any6 0 0 0 UDP_TTL 0 0 5353 0 0 UDP_TTL 0x8000 9.

(** A callback that insists on its arguments. *)
Definition expected_call (f a pcb p : Z) (addr : ip6_addr) (port : Z) : io (net pool pool ram_heap pool lan) unit :=
  io_assert ((f =? 0x8000) && (a =? 9) && (pcb =? 262328) && (p =? 0x30) && ip6_addr_eq addr node && (port =? 5353)).

Lemma listening_inv : exists lu, udp_inv (UPL := udp_laws) receiving [(262328, listener)] lu.
Proof.
  destruct (after_inv [OpNew; OpBind 262328 any6 5353; OpRecv 262328 0x8000 9] ltac:(vm_compute; reflexivity)) as (l & lu & Hi).
  exists lu. assert (Hl : links u_next (pcbs (udp listening)) (udp_pcbs (udp listening)) [(262328, listener)]).
  { split; [vm_compute; reflexivity|]. split; [done|]. split; [vm_compute; reflexivity|]. vm_compute; reflexivity. }
  rewrite <- (links_fun _ _ _ _ _ (ui_links (UPL := udp_laws) _ _ _ Hi) Hl).
  exact (udp_inv_same (UPL := udp_laws) listening receiving l lu eq_refl eq_refl Hi).
Qed.

Lemma receiving_packet : chain (pbufs (n_heap receiving)) 0x30 [(0x30, in_buf)] /\ packet [(0x30, in_buf)] /\
  content (bytes (n_heap receiving)) [(0x30, in_buf)] greeting /\ Forall is_u8 greeting.
Proof.
  destruct (one_piece_ok greeting eq_refl ltac:(vm_compute; reflexivity)) as (H1 & H2 & H3). split_and!; try done.
  unfold greeting. destruct nodes_ok as [Hn Hg].
  apply (udp_datagram_ok node group 5353 5353 [1; 2; 3] Hn Hg); try (unfold is_u16; lia); [|done].
  rewrite !Forall_cons_iff. by split_and!.
Qed.

Lemma sending_packet : sendable sending 0x400 out_buf [] [1; 2; 3] 8.
Proof.
  split; try done.
  - exists [1; 2; 3], []. split_and!; [done|vm_compute; reflexivity|done].
  - rewrite !Forall_cons_iff. by split_and!.
  - split; try done.
    + intros i Hi. change (payload out_buf) with 0x440 in Hi.
      assert (C : i = 0x438 \/ i = 0x439 \/ i = 0x43a \/ i = 0x43b \/ i = 0x43c \/ i = 0x43d \/ i = 0x43e \/ i = 0x43f) by lia.
      destruct C as [-> | [-> | [-> | [-> | [-> | [-> | [-> | ->]]]]]]]; vm_compute; by eexists.
    + intros i _ (a & b & Hin%not_elem_of_nil & _). exact Hin.
Qed.

Lemma udp_input_verdict_witness :
  exists s1 l1 lu, udp_inv (UPL := udp_laws) s1 l1 lu /\ lower s1 = lower receiving /\ n_heap s1 = n_heap receiving /\
    udp_verdict receiving [(262328, listener)] 1 5353 5353 (be16 211 132) greeting = Deliver 262328 listener /\
    udp_input (fun _ => mret tt) expected_call 0x30 1 receiving =
      Ok (tt, stripped 0x30 in_buf s1).
Proof.
  destruct listening_inv as (lu & Hi), receiving_packet as (Hch & Hp & Hc & Hu), nodes_ok as [Hn Hg].
  assert (Hlen : UDP_HLEN <= len in_buf) by (vm_compute; discriminate).
  destruct (udp_input_verdict (UPL := udp_laws) (IPL := lan_ip) (fun _ => mret tt) expected_call
    receiving _ lu 0x30 1 in_buf [] _ _ _ _ _ _ _ _ [1; 2; 3] Hi ltac:(lia) Hch Hp Hc Hlen Hu Hn Hg)
    as (s1 & l1 & Hi1 & Hlo & Hh & Hv).
  exists s1, l1, lu. split; [exact Hi1|]. split; [exact Hlo|]. split; [exact Hh|].
  assert (Ev : udp_verdict receiving [(262328, listener)] 1 5353 5353 (be16 211 132) greeting = Deliver 262328 listener)
    by (vm_compute; reflexivity).
  split; [exact Ev|].
  match type of Hv with carried_out _ _ _ ?v _ _ _ _ =>
    assert (Ev' : v = Deliver 262328 listener) by (vm_compute; reflexivity) end.
  rewrite Ev' in Hv. unfold carried_out in Hv. rewrite Hlo in Hv. etransitivity; [exact Hv|]. vm_compute. reflexivity.
Defined.

Lemma udp_roundtrip_witness :
  (exists s1, sent_as sending s1 0x400 out_buf [] (8 - UDP_HLEN) greeting /\
    udp_sendto_if_src (fun _ _ _ _ _ _ _ => mret 0) 262328 0x400 (Some group) 5353 1 (Some node) sending = Ok (0, s1)) /\
  exists s2 b2, udp_input (fun _ => mret tt) expected_call 0x30 1 receiving = Ok (tt, s2) /\
    content (bytes (n_heap s2)) [(0x30, b2)] [1; 2; 3].
Proof.
  destruct listening_inv as (lu & Hi), receiving_packet as (Hch & Hp & Hc & Hu), nodes_ok as [Hn Hg].
  assert (Hlen : UDP_HLEN <= len in_buf) by (vm_compute; discriminate).
  assert (Hport : is_u16 5353) by (unfold is_u16; lia).
  assert (Hl : pcbs (udp sending) !! 262328 = Some listener) by (vm_compute; reflexivity).
  assert (Hl' : forall br, pcbs (udp receiving) !! receiver (lower receiving) 5353 5353 [(262328, listener)] = Some br ->
    recv br <> 0) by (intros br [= <-]; vm_compute; discriminate).
  assert (Hr : receiver (lower receiving) 5353 5353 [(262328, listener)] <> 0) by (vm_compute; discriminate).
  destruct (udp_roundtrip (UPL := udp_laws) (IPL := lan_ip) (fun _ _ _ _ _ _ _ => mret 0) (fun _ => mret tt) expected_call
    sending receiving 262328 listener 0x400 out_buf [] [1; 2; 3] 8 group 5353 1 node _ lu 1 0x30 in_buf []
    sending_packet ltac:(lia) Hl ltac:(discriminate) Hport Hport ltac:(lia) Hn Hg Hi ltac:(lia) eq_refl eq_refl
    Hch Hp Hc Hlen Hr Hl') as [Hs (s2 & b2 & br & Hbr & E & _ & _ & Hd)].
  split; [exact Hs|]. exists s2, b2. split; [|exact Hd]. rewrite E. injection Hbr as <-. vm_compute. reflexivity.
Defined.
