(* ===== verification/Netif.v ===== *)
(** Interfaces and the state of the IPv6 layer: lwip/netif.h, ip_globals of
    lwip/ip.h, the tables of lwip/priv/nd6_priv.h and the groups of
    lwip/mld6.h, with the accesses the IPv6 files make.

    The state of the layer is the [lower] part of [Udp]'s [net]. There is one
    interface ([LWIP_SINGLE_NETIF]): [NETIF_FOREACH] is a test of
    [netif_default], addresses carry no zone, and without autoconfiguration
    they have no lifetimes. Functions the interface points to, and rand(),
    are the class [Hooks]. *)

From Stdlib Require Import ZArith Lia.
From stdpp Require Import base list numbers gmap.
From S2P Require Import Prelude Mmio Mem Memp Pbuf Ip6Addr Chksum Udp.

Open Scope Z_scope.

(* ------------------------------------------------------------------ *)
(** * Constants *)

Definition LWIP_IPV6_NUM_ADDRESSES : Z := 3.
Definition LWIP_IPV6_DUP_DETECT_ATTEMPTS : Z := 1.
Definition NETIF_FLAG_UP : Z := 0x01.
Definition NETIF_FLAG_BROADCAST : Z := 0x02.
Definition NETIF_FLAG_LINK_UP : Z := 0x04.
Definition NETIF_FLAG_ETHARP : Z := 0x08.
Definition NETIF_FLAG_ETHERNET : Z := 0x10.
Definition NETIF_FLAG_MLD6 : Z := 0x40.
Definition NETIF_DEL_MAC_FILTER : Z := 0.
Definition NETIF_ADD_MAC_FILTER : Z := 1.

Definition IP6_ADDR_INVALID : Z := 0x00.
Definition IP6_ADDR_TENTATIVE : Z := 0x08.
Definition IP6_ADDR_VALID : Z := 0x10.
Definition IP6_ADDR_PREFERRED : Z := 0x30.
Definition IP6_ADDR_DEPRECATED : Z := 0x10.
Definition IP6_ADDR_DUPLICATED : Z := 0x40.
Definition IP6_ADDR_TENTATIVE_COUNT_MASK : Z := 0x07.

Definition ip6_addr_isinvalid (s : Z) : bool := s =? IP6_ADDR_INVALID.
Definition ip6_addr_istentative (s : Z) : bool := negb (Z.land s IP6_ADDR_TENTATIVE =? 0).
Definition ip6_addr_isvalid (s : Z) : bool := negb (Z.land s IP6_ADDR_VALID =? 0).
Definition ip6_addr_ispreferred (s : Z) : bool := s =? IP6_ADDR_PREFERRED.
Definition ip6_addr_isduplicated (s : Z) : bool := s =? IP6_ADDR_DUPLICATED.

Definition ip6_addr_nethost_eq (a b : ip6_addr) : bool :=
  (word a 2 =? word b 2) && (word a 3 =? word b 3).
Definition IP6_ADDR_ANY6 : ip6_addr := IP6_ADDR 0 0 0 0.

Definition IP6_HLEN : Z := 40.
Definition IP6_MIN_MTU_LENGTH : Z := 1280.
Definition IP6_NEXTH_HOPBYHOP : Z := 0.
Definition IP6_NEXTH_UDP : Z := 17.
Definition IP6_NEXTH_ROUTING : Z := 43.
Definition IP6_NEXTH_FRAGMENT : Z := 44.
Definition IP6_NEXTH_ICMP6 : Z := 58.
Definition IP6_NEXTH_NONE : Z := 59.
Definition IP6_NEXTH_DESTOPTS : Z := 60.

Definition ERR_BUF : Z := -2.
Definition ERR_IF : Z := -12.

(* ------------------------------------------------------------------ *)
(** * State *)

(** [struct netif]; its pointers to functions are in [Hooks]. *)
Record netif := mk_netif {
  ip6_addrs : list ip6_addr;
  addr_states : list Z;
  mld6_data : Z;
  mtu : Z;
  mtu6 : Z;
  hwaddr : list Z;
  hwaddr_len : Z;
  nif_flags : Z;
  nif_num : Z;
  rs_count : Z;
  mld_mac_filter : Z
}.

Definition set_ip6_addrs (v : list ip6_addr) (n : netif) : netif :=
  mk_netif v (addr_states n) (mld6_data n) (mtu n) (mtu6 n) (hwaddr n) (hwaddr_len n) (nif_flags n) (nif_num n)
    (rs_count n) (mld_mac_filter n).
Definition set_addr_states (v : list Z) (n : netif) : netif :=
  mk_netif (ip6_addrs n) v (mld6_data n) (mtu n) (mtu6 n) (hwaddr n) (hwaddr_len n) (nif_flags n) (nif_num n)
    (rs_count n) (mld_mac_filter n).
Definition set_mld6_data (v : Z) (n : netif) : netif :=
  mk_netif (ip6_addrs n) (addr_states n) v (mtu n) (mtu6 n) (hwaddr n) (hwaddr_len n) (nif_flags n) (nif_num n)
    (rs_count n) (mld_mac_filter n).
Definition set_mtu6 (v : Z) (n : netif) : netif :=
  mk_netif (ip6_addrs n) (addr_states n) (mld6_data n) (mtu n) (u16 v) (hwaddr n) (hwaddr_len n) (nif_flags n)
    (nif_num n) (rs_count n) (mld_mac_filter n).
Definition set_nif_flags (v : Z) (n : netif) : netif :=
  mk_netif (ip6_addrs n) (addr_states n) (mld6_data n) (mtu n) (mtu6 n) (hwaddr n) (hwaddr_len n) (u8 v) (nif_num n)
    (rs_count n) (mld_mac_filter n).
Definition set_rs_count (v : Z) (n : netif) : netif :=
  mk_netif (ip6_addrs n) (addr_states n) (mld6_data n) (mtu n) (mtu6 n) (hwaddr n) (hwaddr_len n) (nif_flags n)
    (nif_num n) (u8 v) (mld_mac_filter n).

Definition netif_set_flags (f : Z) (n : netif) : netif := set_nif_flags (Z.lor (nif_flags n) f) n.
Definition netif_clear_flags (f : Z) (n : netif) : netif :=
  set_nif_flags (Z.land (nif_flags n) (u8 (Z.land (Z.lnot f) 0xff))) n.
Definition netif_is_flag_set (n : netif) (f : Z) : bool := negb (Z.land (nif_flags n) f =? 0).
Definition netif_is_up (n : netif) : bool := netif_is_flag_set n NETIF_FLAG_UP.
Definition netif_is_link_up (n : netif) : bool := netif_is_flag_set n NETIF_FLAG_LINK_UP.

(** [struct nd6_neighbor_cache_entry]; the members of [counter] share their
    memory. [nbr_netif] and [q] are addresses. *)
Record neighbor := mk_neighbor {
  next_hop_address : ip6_addr;
  nbr_netif : Z;
  lladdr : list Z;
  q : Z;
  state : Z;
  isrouter : Z;
  counter : Z
}.

Definition set_next_hop_address (v : ip6_addr) (e : neighbor) : neighbor :=
  mk_neighbor v (nbr_netif e) (lladdr e) (q e) (state e) (isrouter e) (counter e).
Definition set_nbr_netif (v : Z) (e : neighbor) : neighbor :=
  mk_neighbor (next_hop_address e) v (lladdr e) (q e) (state e) (isrouter e) (counter e).
Definition set_lladdr (v : list Z) (e : neighbor) : neighbor :=
  mk_neighbor (next_hop_address e) (nbr_netif e) v (q e) (state e) (isrouter e) (counter e).
Definition set_q (v : Z) (e : neighbor) : neighbor :=
  mk_neighbor (next_hop_address e) (nbr_netif e) (lladdr e) v (state e) (isrouter e) (counter e).
Definition set_state (v : Z) (e : neighbor) : neighbor :=
  mk_neighbor (next_hop_address e) (nbr_netif e) (lladdr e) (q e) v (isrouter e) (counter e).
Definition set_isrouter (v : Z) (e : neighbor) : neighbor :=
  mk_neighbor (next_hop_address e) (nbr_netif e) (lladdr e) (q e) (state e) v (counter e).
Definition set_counter (v : Z) (e : neighbor) : neighbor :=
  mk_neighbor (next_hop_address e) (nbr_netif e) (lladdr e) (q e) (state e) (isrouter e) (u32 v).

(** [struct nd6_destination_cache_entry]. *)
Record destination := mk_destination {
  destination_addr : ip6_addr;
  next_hop_addr : ip6_addr;
  pmtu : Z;
  cached_neighbor_idx : Z;
  age : Z
}.

Definition set_destination_addr (v : ip6_addr) (e : destination) : destination :=
  mk_destination v (next_hop_addr e) (pmtu e) (cached_neighbor_idx e) (age e).
Definition set_next_hop_addr (v : ip6_addr) (e : destination) : destination :=
  mk_destination (destination_addr e) v (pmtu e) (cached_neighbor_idx e) (age e).
Definition set_pmtu (v : Z) (e : destination) : destination :=
  mk_destination (destination_addr e) (next_hop_addr e) (u16 v) (cached_neighbor_idx e) (age e).
Definition set_cached_neighbor_idx (v : Z) (e : destination) : destination :=
  mk_destination (destination_addr e) (next_hop_addr e) (pmtu e) (u8 v) (age e).
Definition set_age (v : Z) (e : destination) : destination :=
  mk_destination (destination_addr e) (next_hop_addr e) (pmtu e) (cached_neighbor_idx e) (u32 v).

(** [struct nd6_prefix_list_entry]. *)
Record prefix_entry := mk_prefix { prefix : ip6_addr; prefix_netif : Z; prefix_timer : Z }.

(** [struct nd6_router_list_entry]; [neighbor_entry] points into the neighbour
    cache, NULL is [None]. *)
Record router_entry := mk_router { neighbor_entry : option Z; router_timer : Z; router_flags : Z }.

(** The variables of core/ipv6/nd6.c. *)
Record nd6_vars := mk_nd6 {
  neighbor_cache : list neighbor;
  destination_cache : list destination;
  prefix_list : list prefix_entry;
  default_router_list : list router_entry;
  reachable_time : Z;
  retrans_timer : Z;
  nd6_queue_size : Z;
  nd6_cached_destination_index : Z;
  nd6_tmr_rs_reduction : Z;
  last_router : Z
}.

Definition set_neighbor_cache (v : list neighbor) (s : nd6_vars) : nd6_vars :=
  mk_nd6 v (destination_cache s) (prefix_list s) (default_router_list s) (reachable_time s) (retrans_timer s)
    (nd6_queue_size s) (nd6_cached_destination_index s) (nd6_tmr_rs_reduction s) (last_router s).
Definition set_destination_cache (v : list destination) (s : nd6_vars) : nd6_vars :=
  mk_nd6 (neighbor_cache s) v (prefix_list s) (default_router_list s) (reachable_time s) (retrans_timer s)
    (nd6_queue_size s) (nd6_cached_destination_index s) (nd6_tmr_rs_reduction s) (last_router s).
Definition set_prefix_list (v : list prefix_entry) (s : nd6_vars) : nd6_vars :=
  mk_nd6 (neighbor_cache s) (destination_cache s) v (default_router_list s) (reachable_time s) (retrans_timer s)
    (nd6_queue_size s) (nd6_cached_destination_index s) (nd6_tmr_rs_reduction s) (last_router s).
Definition set_router_list (v : list router_entry) (s : nd6_vars) : nd6_vars :=
  mk_nd6 (neighbor_cache s) (destination_cache s) (prefix_list s) v (reachable_time s) (retrans_timer s)
    (nd6_queue_size s) (nd6_cached_destination_index s) (nd6_tmr_rs_reduction s) (last_router s).
Definition set_reachable_time (v : Z) (s : nd6_vars) : nd6_vars :=
  mk_nd6 (neighbor_cache s) (destination_cache s) (prefix_list s) (default_router_list s) v (retrans_timer s)
    (nd6_queue_size s) (nd6_cached_destination_index s) (nd6_tmr_rs_reduction s) (last_router s).
Definition set_retrans_timer (v : Z) (s : nd6_vars) : nd6_vars :=
  mk_nd6 (neighbor_cache s) (destination_cache s) (prefix_list s) (default_router_list s) (reachable_time s) v
    (nd6_queue_size s) (nd6_cached_destination_index s) (nd6_tmr_rs_reduction s) (last_router s).
Definition set_queue_size (v : Z) (s : nd6_vars) : nd6_vars :=
  mk_nd6 (neighbor_cache s) (destination_cache s) (prefix_list s) (default_router_list s) (reachable_time s)
    (retrans_timer s) (u8 v) (nd6_cached_destination_index s) (nd6_tmr_rs_reduction s) (last_router s).
Definition set_cached_destination (v : Z) (s : nd6_vars) : nd6_vars :=
  mk_nd6 (neighbor_cache s) (destination_cache s) (prefix_list s) (default_router_list s) (reachable_time s)
    (retrans_timer s) (nd6_queue_size s) (u8 v) (nd6_tmr_rs_reduction s) (last_router s).
Definition set_rs_reduction (v : Z) (s : nd6_vars) : nd6_vars :=
  mk_nd6 (neighbor_cache s) (destination_cache s) (prefix_list s) (default_router_list s) (reachable_time s)
    (retrans_timer s) (nd6_queue_size s) (nd6_cached_destination_index s) (u8 v) (last_router s).
Definition set_last_router (v : Z) (s : nd6_vars) : nd6_vars :=
  mk_nd6 (neighbor_cache s) (destination_cache s) (prefix_list s) (default_router_list s) (reachable_time s)
    (retrans_timer s) (nd6_queue_size s) (nd6_cached_destination_index s) (nd6_tmr_rs_reduction s) v.

(** [struct nd6_q_entry]. *)
Record nd6_q_entry := mk_qe { q_next : Z; q_p : Z }.
Definition set_q_next (v : Z) (e : nd6_q_entry) : nd6_q_entry := mk_qe v (q_p e).

(** [struct mld_group]. *)
Record mld_group := mk_group {
  g_next : Z;
  group_address : ip6_addr;
  last_reporter_flag : Z;
  group_state : Z;
  timer : Z;
  use : Z
}.

Definition set_g_next (v : Z) (g : mld_group) : mld_group :=
  mk_group v (group_address g) (last_reporter_flag g) (group_state g) (timer g) (use g).
Definition set_last_reporter (v : Z) (g : mld_group) : mld_group :=
  mk_group (g_next g) (group_address g) (u8 v) (group_state g) (timer g) (use g).
Definition set_group_state (v : Z) (g : mld_group) : mld_group :=
  mk_group (g_next g) (group_address g) (last_reporter_flag g) (u8 v) (timer g) (use g).
Definition set_timer (v : Z) (g : mld_group) : mld_group :=
  mk_group (g_next g) (group_address g) (last_reporter_flag g) (group_state g) (u16 v) (use g).
Definition set_use (v : Z) (g : mld_group) : mld_group :=
  mk_group (g_next g) (group_address g) (last_reporter_flag g) (group_state g) (timer g) (u8 v).

(** [struct ip_globals]. *)
Record ip_globals := mk_globals {
  current_netif : Z;
  current_input_netif : Z;
  current_ip6_header : Z;
  current_ip_header_tot_len : Z;
  current_iphdr_src : ip6_addr;
  current_iphdr_dest : ip6_addr
}.

Definition set_current_addrs (dest src : ip6_addr) (g : ip_globals) : ip_globals :=
  mk_globals (current_netif g) (current_input_netif g) (current_ip6_header g) (current_ip_header_tot_len g) src dest.
Definition set_current_header (v : Z) (g : ip_globals) : ip_globals :=
  mk_globals (current_netif g) (current_input_netif g) v (current_ip_header_tot_len g) (current_iphdr_src g)
    (current_iphdr_dest g).
Definition set_current_netif (v : Z) (g : ip_globals) : ip_globals :=
  mk_globals v (current_input_netif g) (current_ip6_header g) (current_ip_header_tot_len g) (current_iphdr_src g)
    (current_iphdr_dest g).
Definition set_current_input_netif (v : Z) (g : ip_globals) : ip_globals :=
  mk_globals (current_netif g) v (current_ip6_header g) (current_ip_header_tot_len g) (current_iphdr_src g)
    (current_iphdr_dest g).
Definition set_current_tot_len (v : Z) (g : ip_globals) : ip_globals :=
  mk_globals (current_netif g) (current_input_netif g) (current_ip6_header g) v (current_iphdr_src g)
    (current_iphdr_dest g).

(** The state of the IPv6 layer: the variables, and by address the interfaces,
    groups and queue entries; the pools MEMP_ND6_QUEUE and MEMP_MLD6_GROUP;
    the state of rand(); and what the drivers of the interfaces keep. *)
Record ipst (QP MP DV : Type) := mk_ipst {
  netifs : gmap Z netif;
  netif_default : Z;
  ip_data : ip_globals;
  nd6 : nd6_vars;
  q_entries : gmap Z nd6_q_entry;
  mld_groups : gmap Z mld_group;
  q_pool : QP;
  mld_pool : MP;
  seed : Z;
  nic : DV
}.
Arguments mk_ipst {QP MP DV}.
Arguments netifs {QP MP DV}.
Arguments netif_default {QP MP DV}.
Arguments ip_data {QP MP DV}.
Arguments nd6 {QP MP DV}.
Arguments q_entries {QP MP DV}.
Arguments mld_groups {QP MP DV}.
Arguments q_pool {QP MP DV}.
Arguments mld_pool {QP MP DV}.
Arguments seed {QP MP DV}.
Arguments nic {QP MP DV}.

(** What the interface's pointers lead to, on the state [S]:
    [netif->output_ip6], [netif->linkoutput], [netif->mld_mac_filter] where
    it is set; and rand() from one state of the generator to the next. *)
Class Hooks (S : Type) := {
  output_ip6 : Z -> Z -> ip6_addr -> io S Z;
  linkoutput : Z -> Z -> io S Z;
  mac_filter : Z -> ip6_addr -> Z -> io S unit;
  rand : Z -> Z * Z
}.

(* ------------------------------------------------------------------ *)
(** * Searches *)

(** [for (i = 0; i < N; i++) if (...) return i; return -1;] over a table. *)
Fixpoint first_from {A} (test : A -> bool) (l : list A) (i : Z) : Z :=
  match l with
  | [] => -1
  | x :: l => if test x then i else first_from test l (i + 1)
  end.
Definition first_index {A} (test : A -> bool) (l : list A) : Z := first_from test l 0.

(** The states and addresses of an interface, slot by slot. *)
Definition addr_slots (n : netif) : list (Z * ip6_addr) := zip (addr_states n) (ip6_addrs n).
Definition find_slot (test : Z -> ip6_addr -> bool) (n : netif) : Z :=
  first_index (fun '(st, a) => test st a) (addr_slots n).

(** [netif_get_ip6_addr_match]. *)
Definition get_ip6_addr_match (n : netif) (ip6addr : ip6_addr) : Z :=
  find_slot (fun st a => negb (ip6_addr_isinvalid st) && ip6_addr_zoneless_eq a ip6addr) n.

(** [netif_get_index]. *)
Definition get_index (n : netif) : Z := u8 (nif_num n + 1).

(* ------------------------------------------------------------------ *)
(** * Accesses *)

Section Access.
Context {PP RP HP UP QP MP DV : Type}.
Abbreviation st := (net PP RP HP UP (ipst QP MP DV)).
Abbreviation uio := (io st).

Definition with_lower (f : ipst QP MP DV -> ipst QP MP DV) (s : st) : st :=
  mk_net (n_heap s) (udp s) (udp_pool s) (f (lower s)).

Definition set_netifs (f : gmap Z netif -> gmap Z netif) (l : ipst QP MP DV) : ipst QP MP DV :=
  mk_ipst (f (netifs l)) (netif_default l) (ip_data l) (nd6 l) (q_entries l) (mld_groups l) (q_pool l) (mld_pool l)
    (seed l) (nic l).
Definition set_default (v : Z) (l : ipst QP MP DV) : ipst QP MP DV :=
  mk_ipst (netifs l) v (ip_data l) (nd6 l) (q_entries l) (mld_groups l) (q_pool l) (mld_pool l) (seed l) (nic l).
Definition set_ip_data (f : ip_globals -> ip_globals) (l : ipst QP MP DV) : ipst QP MP DV :=
  mk_ipst (netifs l) (netif_default l) (f (ip_data l)) (nd6 l) (q_entries l) (mld_groups l) (q_pool l) (mld_pool l)
    (seed l) (nic l).
Definition set_nd6 (f : nd6_vars -> nd6_vars) (l : ipst QP MP DV) : ipst QP MP DV :=
  mk_ipst (netifs l) (netif_default l) (ip_data l) (f (nd6 l)) (q_entries l) (mld_groups l) (q_pool l) (mld_pool l)
    (seed l) (nic l).
Definition set_q_entries (f : gmap Z nd6_q_entry -> gmap Z nd6_q_entry) (l : ipst QP MP DV) : ipst QP MP DV :=
  mk_ipst (netifs l) (netif_default l) (ip_data l) (nd6 l) (f (q_entries l)) (mld_groups l) (q_pool l) (mld_pool l)
    (seed l) (nic l).
Definition set_groups (f : gmap Z mld_group -> gmap Z mld_group) (l : ipst QP MP DV) : ipst QP MP DV :=
  mk_ipst (netifs l) (netif_default l) (ip_data l) (nd6 l) (q_entries l) (f (mld_groups l)) (q_pool l) (mld_pool l)
    (seed l) (nic l).
Definition set_q_pool (v : QP) (l : ipst QP MP DV) : ipst QP MP DV :=
  mk_ipst (netifs l) (netif_default l) (ip_data l) (nd6 l) (q_entries l) (mld_groups l) v (mld_pool l) (seed l) (nic l).
Definition set_mld_pool (v : MP) (l : ipst QP MP DV) : ipst QP MP DV :=
  mk_ipst (netifs l) (netif_default l) (ip_data l) (nd6 l) (q_entries l) (mld_groups l) (q_pool l) v (seed l) (nic l).
Definition set_seed (v : Z) (l : ipst QP MP DV) : ipst QP MP DV :=
  mk_ipst (netifs l) (netif_default l) (ip_data l) (nd6 l) (q_entries l) (mld_groups l) (q_pool l) (mld_pool l) v (nic l).
Definition set_nic (v : DV) (l : ipst QP MP DV) : ipst QP MP DV :=
  mk_ipst (netifs l) (netif_default l) (ip_data l) (nd6 l) (q_entries l) (mld_groups l) (q_pool l) (mld_pool l) (seed l) v.

(** Without a change of the state. *)
Definition gets {A} (f : st -> A) : uio A := fun s => Ok (f s, s).
Definition tries {A} (f : st -> outcome A) : uio A := fun s => x ← f s; Ok (x, s).

Definition the_default : uio Z := gets (fun s => netif_default (lower s)).
Definition globals : uio ip_globals := gets (fun s => ip_data (lower s)).
Definition nd : uio nd6_vars := gets (fun s => nd6 (lower s)).
Definition upd_nd (f : nd6_vars -> nd6_vars) : uio unit := io_modify (with_lower (set_nd6 f)).
Definition upd_globals (f : ip_globals -> ip_globals) : uio unit := io_modify (with_lower (set_ip_data f)).
Definition ip6_current_src_addr : uio ip6_addr := g ← globals; mret (current_iphdr_src g).
Definition ip6_current_dest_addr : uio ip6_addr := g ← globals; mret (current_iphdr_dest g).

(** [netif->...]; nothing is at NULL. *)
Definition get_netif (a : Z) : uio netif :=
  tries (fun s => match netifs (lower s) !! a with Some n => Ok n | None => Fault NullPointer end).
Definition upd_netif (a : Z) (f : netif -> netif) : uio unit :=
  n ← get_netif a; io_modify (with_lower (set_netifs <[a := f n]>)).
Definition get_qe (a : Z) : uio nd6_q_entry :=
  tries (fun s => match q_entries (lower s) !! a with Some e => Ok e | None => Fault NullPointer end).
Definition upd_qe (a : Z) (f : nd6_q_entry -> nd6_q_entry) : uio unit :=
  e ← get_qe a; io_modify (with_lower (set_q_entries <[a := f e]>)).
Definition get_group (a : Z) : uio mld_group :=
  tries (fun s => match mld_groups (lower s) !! a with Some g => Ok g | None => Fault NullPointer end).
Definition upd_group (a : Z) (f : mld_group -> mld_group) : uio unit :=
  g ← get_group a; io_modify (with_lower (set_groups <[a := f g]>)).

(** [neighbor_cache[i]] and the like. *)
Definition get_nbr (i : Z) : uio neighbor := tries (fun s => rd (neighbor_cache (nd6 (lower s))) i).
Definition upd_nbr (i : Z) (f : neighbor -> neighbor) : uio unit :=
  s ← nd; e ← get_nbr i; l ← tries (fun _ => wr (neighbor_cache s) i (f e)); upd_nd (set_neighbor_cache l).
Definition get_dest (i : Z) : uio destination := tries (fun s => rd (destination_cache (nd6 (lower s))) i).
Definition upd_dest (i : Z) (f : destination -> destination) : uio unit :=
  s ← nd; e ← get_dest i; l ← tries (fun _ => wr (destination_cache s) i (f e)); upd_nd (set_destination_cache l).
Definition get_router (i : Z) : uio router_entry := tries (fun s => rd (default_router_list (nd6 (lower s))) i).
Definition upd_router (i : Z) (f : router_entry -> router_entry) : uio unit :=
  s ← nd; e ← get_router i; l ← tries (fun _ => wr (default_router_list s) i (f e)); upd_nd (set_router_list l).
Definition get_prefix (i : Z) : uio prefix_entry := tries (fun s => rd (prefix_list (nd6 (lower s))) i).
Definition upd_prefix (i : Z) (f : prefix_entry -> prefix_entry) : uio unit :=
  s ← nd; e ← get_prefix i; l ← tries (fun _ => wr (prefix_list s) i (f e)); upd_nd (set_prefix_list l).

(** [netif_ip6_addr(netif, i)], [netif_ip6_addr_state(netif, i)]. *)
Definition netif_ip6_addr (netif i : Z) : uio ip6_addr := n ← get_netif netif; tries (fun _ => rd (ip6_addrs n) i).
Definition netif_ip6_addr_state (netif i : Z) : uio Z := n ← get_netif netif; tries (fun _ => rd (addr_states n) i).

(** Packet memory: bytes, big-endian halfwords and words, addresses. *)
Definition read_bytes (a n : Z) : uio (list Z) := tries (fun s => load_bytes (bytes (n_heap s)) a (Z.to_nat n)).
Definition read8 (a : Z) : uio Z := tries (fun s => load8 (bytes (n_heap s)) a).
Definition read32 (a : Z) : uio Z := hi ← read16 a; lo ← read16 (a + 2); mret (hi * 65536 + lo).
Definition read_addr (a : Z) : uio ip6_addr :=
  w0 ← read32 a; w1 ← read32 (a + 4); w2 ← read32 (a + 8); w3 ← read32 (a + 12); mret (IP6_ADDR w0 w1 w2 w3).
Definition set_bytes (f : gmap Z Z -> gmap Z Z) (h : pheap PP RP HP) : pheap PP RP HP :=
  mk_pheap (pool_st h) (rom_st h) (heap_st h) (pbufs h) (f (bytes h)).
Definition write_bytes (a : Z) (l : list Z) : uio unit := fun s =>
  bs ← store_bytes (bytes (n_heap s)) a l;
  Ok (tt, mk_net (set_bytes (fun _ => bs) (n_heap s)) (udp s) (udp_pool s) (lower s)).
Definition write8 (a v : Z) : uio unit := write_bytes a [u8 v].
Definition store16 (a v : Z) : uio unit := on_pbufs (write16 a v).
Definition write32 (a v : Z) : uio unit := write_bytes a (word_bytes (u32 v)).
Definition write_addr (a : Z) (v : ip6_addr) : uio unit := write_bytes a (ip6_bytes v).

(** Headers of packets: [p->payload], [p->len], ... *)
Definition pb (p : Z) : uio pbuf := on_pbufs (pb_read p).
(** A checksum over the pseudo-header and a chain. *)
Definition ip6_chksum (p proto n : Z) (src dest : ip6_addr) : uio Z := on_pbufs (chksum_pseudo p proto n src dest).
Definition add_header (p n : Z) : uio Z := on_pbufs (pbuf_change (fun m => pbuf_add_header m p n)).
Definition remove_header (p n : Z) : uio Z := on_pbufs (pbuf_change (fun m => pbuf_remove_header m p n)).

(** [LWIP_RAND()]. *)
Definition LWIP_RAND `{Hooks st} : uio Z :=
  r ← gets (fun s => rand (seed (lower s)));
  _ ← io_modify (with_lower (set_seed (snd r)));
  mret (fst r).
End Access.
