(* ===== verification/Ip6Out.v ===== *)
(** Sending: the source address, the route and the header of core/ipv6/ip6.c,
    with one interface and without scopes, loopback and fragmentation. *)

From Stdlib Require Import ZArith Lia.
From stdpp Require Import base list numbers gmap.
From S2P Require Import Prelude Mmio Mem Memp Pbuf Ip6Addr Chksum Udp Netif.

Open Scope Z_scope.

Definition IP6_MULTICAST_SCOPE_RESERVED : Z := 0x0.
Definition IP6_MULTICAST_SCOPE_LINK_LOCAL : Z := 0x2.
Definition IP6_MULTICAST_SCOPE_SITE_LOCAL : Z := 0x5.
Definition IP6_MULTICAST_SCOPE_ORGANIZATION_LOCAL : Z := 0x8.
Definition IP6_MULTICAST_SCOPE_GLOBAL : Z := 0xe.
Definition IP6_MULTICAST_SCOPE_RESERVEDF : Z := 0xf.

Definition IP6_HBH_HLEN : Z := 2.
Definition IP6_OPT_HLEN : Z := 2.
Definition IP6_PAD1_OPTION : Z := 0.
Definition IP6_PADN_OPTION : Z := 1.
Definition IP6_ROUTER_ALERT_OPTION : Z := 5.
Definition IP6_JUMBO_OPTION : Z := 194.
Definition IP6_HOME_ADDRESS_OPTION : Z := 201.
Definition IP6_ROUTER_ALERT_DLEN : Z := 2.
Definition IP6_ROUTER_ALERT_VALUE_MLD : Z := 0.

(* ------------------------------------------------------------------ *)
(** * The source address *)

Definition dest_scope (dest : ip6_addr) : Z :=
  if ip6_addr_isglobal dest then IP6_MULTICAST_SCOPE_GLOBAL
  else if ip6_addr_islinklocal dest || ip6_addr_isloopback dest then IP6_MULTICAST_SCOPE_LINK_LOCAL
  else if ip6_addr_isuniquelocal dest then IP6_MULTICAST_SCOPE_ORGANIZATION_LOCAL
  else if ip6_addr_ismulticast dest then ip6_addr_multicast_scope dest
  else if ip6_addr_issitelocal dest then IP6_MULTICAST_SCOPE_SITE_LOCAL
  else IP6_MULTICAST_SCOPE_GLOBAL.

Definition cand_scope (cand_addr : ip6_addr) : Z :=
  if ip6_addr_isglobal cand_addr then IP6_MULTICAST_SCOPE_GLOBAL
  else if ip6_addr_islinklocal cand_addr then IP6_MULTICAST_SCOPE_LINK_LOCAL
  else if ip6_addr_isuniquelocal cand_addr then IP6_MULTICAST_SCOPE_ORGANIZATION_LOCAL
  else if ip6_addr_issitelocal cand_addr then IP6_MULTICAST_SCOPE_SITE_LOCAL
  else IP6_MULTICAST_SCOPE_RESERVEDF.

(** The variables of the search; [best_addr] is NULL at first. *)
Record best := mk_best { best_addr : option ip6_addr; best_scope : Z; best_pref : Z; best_bits : Z }.

Definition wins (dest_scope : Z) (cand b : best) : bool :=
  bool_decide (best_addr b = None) ||
  ((best_scope cand <? best_scope b) && (dest_scope <=? best_scope cand)) ||
  ((best_scope b <? best_scope cand) && (best_scope b <? dest_scope)) ||
  ((best_scope cand =? best_scope b) &&
   ((best_pref b <? best_pref cand) ||
    ((best_pref cand =? best_pref b) && (best_bits b <? best_bits cand)))).

Definition candidate (st : Z) (cand_addr dest : ip6_addr) : best :=
  mk_best (Some cand_addr) (cand_scope cand_addr) (Z.b2z (ip6_addr_ispreferred st))
    (Z.b2z (ip6_addr_net_zoneless_eq cand_addr dest)).

(** [for (i = 0; i < LWIP_IPV6_NUM_ADDRESSES; i++)] over the slots. *)
Fixpoint select_loop (slots : list (Z * ip6_addr)) (dest : ip6_addr) (dest_scope : Z) (b : best) : option ip6_addr :=
  match slots with
  | [] => best_addr b
  | (st, cand_addr) :: slots =>
      if negb (ip6_addr_isvalid st) then select_loop slots dest dest_scope b
      else
        let cand := candidate st cand_addr dest in
        if negb (best_bits cand =? 0) && ip6_addr_nethost_eq cand_addr dest then Some cand_addr
        else select_loop slots dest dest_scope (if wins dest_scope cand b then cand else b)
  end.

(** [ip6_select_source_address]; NULL is [None]. *)
Definition select_source_address (n : netif) (dest : ip6_addr) : option ip6_addr :=
  select_loop (addr_slots n) dest (dest_scope dest) (mk_best None IP6_MULTICAST_SCOPE_RESERVED 0 0).

Section Output.
Context {PP RP HP UP QP MP DV : Type} `{PoolOps PP} `{PoolOps RP} `{HeapOps HP}.
Abbreviation st := (net PP RP HP UP (ipst QP MP DV)).
Context {HK : Hooks st}.
Abbreviation uio := (io st).

(** [ip6_route]: the default interface if it can send; NULL is 0. *)
Definition ip6_route (src : option ip6_addr) (dest : ip6_addr) : uio Z :=
  d ← the_default;
  if d =? 0 then mret 0
  else
    n ← get_netif d;
    if negb (netif_is_up n) || negb (netif_is_link_up n) then mret 0 else mret d.

Definition ip6_select_source (netif : Z) (dest : ip6_addr) : uio (option ip6_addr) :=
  n ← get_netif netif; mret (select_source_address n dest).

(* ------------------------------------------------------------------ *)
(** * The header *)

(** The fields of [struct ip6_hdr] from its start. *)
Definition IP6H_v_tc_fl : Z := 0.
Definition IP6H_plen : Z := 4.
Definition IP6H_nexth : Z := 6.
Definition IP6H_hoplim : Z := 7.
Definition IP6H_src : Z := 8.
Definition IP6H_dest : Z := 24.

Definition IP6H_VTCFL_SET (hdr v tc fl : Z) : uio unit :=
  write32 (hdr + IP6H_v_tc_fl) (Z.lor (Z.lor (Z.shiftl v 28) (Z.shiftl tc 20)) fl).

(** The header of [p], its payload pointer at it. *)
Definition ip6_fill_header (p : Z) (src dest : ip6_addr) (hl tc nexth : Z) : uio unit :=
  b ← pb p;
  let ip6hdr := payload b in
  _ ← io_assert (IP6_HLEN <=? len b);
  _ ← write8 (ip6hdr + IP6H_hoplim) hl;
  _ ← write8 (ip6hdr + IP6H_nexth) nexth;
  _ ← write_addr (ip6hdr + IP6H_dest) dest;
  _ ← IP6H_VTCFL_SET ip6hdr 6 tc 0;
  _ ← store16 (ip6hdr + IP6H_plen) (u16 (tot_len b - IP6_HLEN));
  write_addr (ip6hdr + IP6H_src) src.

(** [LWIP_IP_CHECK_PBUF_REF_COUNT_FOR_TX]. *)
Definition check_ref_count (p : Z) : uio unit := b ← pb p; io_assert (ref b =? 1).

(** [dest] is [LWIP_IP_HDRINCL], NULL, for a packet with a header. *)
Definition ip6_output_if_src (p : Z) (src dest : option ip6_addr) (hl tc nexth netif : Z) : uio Z :=
  _ ← check_ref_count p;
  match dest with
  | Some dest =>
      r ← add_header p IP6_HLEN;
      if negb (r =? 0) then mret ERR_BUF
      else
        _ ← ip6_fill_header p (default IP6_ADDR_ANY6 src) dest hl tc nexth;
        output_ip6 netif p dest
  | None =>
      b ← pb p;
      dest_addr ← read_addr (payload b + IP6H_dest);
      output_ip6 netif p dest_addr
  end.

(** NULL for [src] stands for the unspecified address, which is replaced. *)
Definition ip6_output_if (p : Z) (src dest : option ip6_addr) (hl tc nexth netif : Z) : uio Z :=
  match src, dest with
  | Some s, Some d =>
      if ip6_addr_isany_val s then
        src_used ← ip6_select_source netif d;
        match src_used with
        | None => mret ERR_RTE
        | Some u =>
            if ip6_addr_isany_val u then mret ERR_RTE
            else ip6_output_if_src p (Some u) dest hl tc nexth netif
        end
      else ip6_output_if_src p src dest hl tc nexth netif
  | _, _ => ip6_output_if_src p src dest hl tc nexth netif
  end.

Definition ip6_output (p : Z) (src dest : option ip6_addr) (hl tc nexth : Z) : uio Z :=
  _ ← check_ref_count p;
  match dest with
  | Some d =>
      netif ← ip6_route src d;
      if netif =? 0 then mret ERR_RTE else ip6_output_if p src dest hl tc nexth netif
  | None =>
      b ← pb p;
      src_addr ← read_addr (payload b + IP6H_src);
      dest_addr ← read_addr (payload b + IP6H_dest);
      netif ← ip6_route (Some src_addr) dest_addr;
      if netif =? 0 then mret ERR_RTE else ip6_output_if p src (Some dest_addr) hl tc nexth netif
  end.

(** The header with a router alert in front of an MLD message. *)
Definition ip6_options_add_hbh_ra (p nexth value : Z) : uio Z :=
  let hlen := u8 (2 * 2 + IP6_ROUTER_ALERT_DLEN) in
  r ← add_header p (2 + hlen);
  if negb (r =? 0) then mret ERR_BUF
  else
    b ← pb p;
    let hbh_hdr := payload b in
    _ ← write8 hbh_hdr nexth;
    _ ← write8 (hbh_hdr + 1) 0;
    let offset := IP6_HBH_HLEN in
    _ ← write8 (hbh_hdr + offset) IP6_ROUTER_ALERT_OPTION;
    _ ← write8 (hbh_hdr + offset + 1) IP6_ROUTER_ALERT_DLEN;
    dlen ← read8 (hbh_hdr + offset + 1);
    let opt_data := hbh_hdr + offset + IP6_OPT_HLEN in
    _ ← write8 opt_data value;
    _ ← write8 (opt_data + 1) 0;
    let offset := u32 (offset + IP6_OPT_HLEN + dlen) in
    _ ← write8 (hbh_hdr + offset) IP6_PADN_OPTION;
    _ ← write8 (hbh_hdr + offset + 1) 0;
    mret ERR_OK.
End Output.
