(* ===== verification/Mld6.v ===== *)
(** Multicast listener discovery: core/ipv6/mld6.c.

    Groups are elements of the pool MEMP_MLD6_GROUP, linked from the
    interface's client data. *)

From Stdlib Require Import ZArith Lia.
From stdpp Require Import base list numbers gmap.
From S2P Require Import Prelude Mmio Mem Memp Pbuf Ip6Addr Chksum Udp Netif Ip6Out.

Open Scope Z_scope.

Definition MLD6_HL : Z := 1.
Definition MLD6_TMR_INTERVAL : Z := 100.
Definition MLD6_JOIN_DELAYING_MEMBER_TMR_MS : Z := 500.
Definition MLD6_GROUP_DELAYING_MEMBER : Z := 1.
Definition MLD6_GROUP_IDLE_MEMBER : Z := 2.
Definition MLD6_HBH_HLEN : Z := 8.
Definition ICMP6_TYPE_MLQ : Z := 130.
Definition ICMP6_TYPE_MLR : Z := 131.
Definition ICMP6_TYPE_MLD : Z := 132.

(** [struct mld_header]: its size and its fields from its start. *)
Definition SIZEOF_MLD_HEADER : Z := 24.
Definition MLDH_type : Z := 0.
Definition MLDH_code : Z := 1.
Definition MLDH_chksum : Z := 2.
Definition MLDH_max_resp_delay : Z := 4.
Definition MLDH_reserved : Z := 6.
Definition MLDH_multicast_address : Z := 8.

(** [while (group != NULL) { if (...) return group; group = group->next; }] *)
Definition group_at (m : gmap Z mld_group) (a : Z) : outcome mld_group :=
  match m !! a with Some g => Ok g | None => Fault NullPointer end.
Definition group_fuel (m : gmap Z mld_group) : nat := S (stdpp.base.size m).
Fixpoint find_group (fuel : nat) (m : gmap Z mld_group) (test : mld_group -> bool) (group : Z) : outcome Z :=
  if group =? 0 then Ok 0
  else
    match fuel with
    | O => Fault Diverges
    | S fuel => g ← group_at m group; if test g then Ok group else find_group fuel m test (g_next g)
    end.

(** The delay of a report in ticks: [maxresp] after the division and the
    random draw [r]. *)
Definition mld6_ticks (maxresp_in : Z) : Z :=
  let maxresp := u16 (maxresp_in / MLD6_TMR_INTERVAL) in if maxresp =? 0 then 1 else maxresp.
Definition mld6_random_ticks (maxresp r : Z) : Z :=
  let maxresp := u16 (Z.rem r maxresp) in if maxresp =? 0 then 1 else maxresp.

(** The timer is set unless a report is due earlier. *)
Definition mld6_schedule (maxresp : Z) (g : mld_group) : mld_group :=
  if (group_state g =? MLD6_GROUP_IDLE_MEMBER) ||
     ((group_state g =? MLD6_GROUP_DELAYING_MEMBER) && ((timer g =? 0) || (maxresp <? timer g)))
  then set_group_state MLD6_GROUP_DELAYING_MEMBER (set_timer maxresp g) else g.

Section Mld.
Context {PP RP HP UP QP MP DV : Type} `{PoolOps PP} `{PoolOps RP} `{HeapOps HP} `{PoolOps MP}.
Abbreviation st := (net PP RP HP UP (ipst QP MP DV)).
Context {HK : Hooks st}.
Abbreviation uio := (io st).

Definition memp_malloc_MLD6_GROUP : uio (option Z) := fun s =>
  '(r, ps) ← pool_malloc (mld_pool (lower s)); Ok (r, with_lower (set_mld_pool ps) s).
(** A freed group is gone. *)
Definition memp_free_MLD6_GROUP (group : Z) : uio unit := fun s =>
  ps ← pool_free group (mld_pool (lower s));
  Ok (tt, with_lower (fun l => set_groups (delete group) (set_mld_pool ps l)) s).

Definition netif_mld6_data (netif : Z) : uio Z := n ← get_netif netif; mret (mld6_data n).
Definition search_group (netif : Z) (test : mld_group -> bool) : uio Z :=
  group ← netif_mld6_data netif;
  tries (fun s => find_group (group_fuel (mld_groups (lower s))) (mld_groups (lower s)) test group).
Definition mld6_lookfor_group (ifp : Z) (addr : ip6_addr) : uio Z :=
  search_group ifp (fun g => ip6_addr_eq (group_address g) addr).

(** [netif->mld_mac_filter] if it is set. *)
Definition filter_group (netif : Z) (addr : ip6_addr) (action : Z) : uio unit :=
  n ← get_netif netif; io_when (negb (mld_mac_filter n =? 0)) (mac_filter netif addr action).

(** A loop over the groups from [group] whose body may change the state. *)
Fixpoint each_group (fuel : nat) (body : Z -> uio unit) (group : Z) : uio unit :=
  if group =? 0 then mret tt
  else
    match fuel with
    | O => io_fault Diverges
    | S fuel => _ ← body group; g ← get_group group; each_group fuel body (g_next g)
    end.
Definition groups_fuel : uio nat := gets (fun s => group_fuel (mld_groups (lower s))).

Fixpoint stop_loop (fuel : nat) (netif group : Z) : uio unit :=
  if group =? 0 then mret tt
  else
    match fuel with
    | O => io_fault Diverges
    | S fuel =>
        g ← get_group group;
        _ ← filter_group netif (group_address g) NETIF_DEL_MAC_FILTER;
        _ ← memp_free_MLD6_GROUP group;
        stop_loop fuel netif (g_next g)
    end.
Definition mld6_stop (netif : Z) : uio Z :=
  group ← netif_mld6_data netif;
  _ ← upd_netif netif (set_mld6_data 0);
  fuel ← groups_fuel;
  _ ← stop_loop fuel netif group;
  mret ERR_OK.

Definition mld6_delayed_report (group maxresp_in : Z) : uio unit :=
  r ← LWIP_RAND;
  upd_group group (mld6_schedule (mld6_random_ticks (mld6_ticks maxresp_in) r)).

Definition mld6_report_groups (netif : Z) : uio unit :=
  group ← netif_mld6_data netif;
  fuel ← groups_fuel;
  each_group fuel (fun g => mld6_delayed_report g MLD6_JOIN_DELAYING_MEMBER_TMR_MS) group.

Definition mld6_new_group (ifp : Z) (addr : ip6_addr) : uio Z :=
  r ← memp_malloc_MLD6_GROUP;
  match r with
  | None => mret 0
  | Some group =>
      next ← netif_mld6_data ifp;
      _ ← io_modify (with_lower (set_groups <[group := mk_group next addr 0 MLD6_GROUP_IDLE_MEMBER 0 0]>));
      _ ← upd_netif ifp (set_mld6_data group);
      mret group
  end.

Definition mld6_remove_group (netif group : Z) : uio Z :=
  head ← netif_mld6_data netif;
  if head =? group then
    g ← get_group group;
    _ ← upd_netif netif (set_mld6_data (g_next g));
    mret ERR_OK
  else
    tmpGroup ← search_group netif (fun g => g_next g =? group);
    if tmpGroup =? 0 then mret ERR_ARG
    else
      g ← get_group group;
      _ ← upd_group tmpGroup (set_g_next (g_next g));
      mret ERR_OK.

(** The fields of the message. *)
Definition mld6_fill (p : Z) (src_addr group_addr : ip6_addr) (type : Z) : uio unit :=
  b ← pb p;
  let mld_hdr := payload b in
  _ ← write8 (mld_hdr + MLDH_type) type;
  _ ← write8 (mld_hdr + MLDH_code) 0;
  _ ← store16 (mld_hdr + MLDH_chksum) 0;
  _ ← store16 (mld_hdr + MLDH_max_resp_delay) 0;
  _ ← store16 (mld_hdr + MLDH_reserved) 0;
  _ ← write_addr (mld_hdr + MLDH_multicast_address) group_addr;
  c ← ip6_chksum p IP6_NEXTH_ICMP6 (len b) src_addr group_addr;
  store16 (mld_hdr + MLDH_chksum) c.

Definition mld6_send (netif group type : Z) : uio unit :=
  r ← on_pbufs (pbuf_alloc PBUF_IP (SIZEOF_MLD_HEADER + MLD6_HBH_HLEN) PBUF_RAM);
  match r with
  | None => mret tt
  | Some p =>
      r ← remove_header p MLD6_HBH_HLEN;
      if negb (r =? 0) then Udp.free p
      else
        addr_state ← netif_ip6_addr_state netif 0;
        src_addr ← (if negb (ip6_addr_isvalid addr_state) then mret IP6_ADDR_ANY6 else netif_ip6_addr netif 0);
        g ← get_group group;
        _ ← mld6_fill p src_addr (group_address g) type;
        _ ← ip6_options_add_hbh_ra p IP6_NEXTH_ICMP6 IP6_ROUTER_ALERT_VALUE_MLD;
        _ ← io_when (type =? ICMP6_TYPE_MLR) (upd_group group (set_last_reporter 1));
        _ ← ip6_output_if p (if ip6_addr_isany_val src_addr then None else Some src_addr)
              (Some (group_address g)) MLD6_HL 0 IP6_NEXTH_HOPBYHOP netif;
        Udp.free p
  end.

(** A general query asks for all groups but those of the node. *)
Definition report_if_routed (max_resp_delay group : Z) : uio unit :=
  g ← get_group group;
  io_when (negb (ip6_addr_ismulticast_iflocal (group_address g)) &&
           negb (ip6_addr_isallnodes_linklocal (group_address g)))
    (mld6_delayed_report group max_resp_delay).

Definition mld6_query (p inp : Z) : uio unit :=
  b ← pb p;
  let mld_hdr := payload b in
  dest ← ip6_current_dest_addr;
  addr ← read_addr (mld_hdr + MLDH_multicast_address);
  max_resp_delay ← read16 (mld_hdr + MLDH_max_resp_delay);
  if ip6_addr_isallnodes_linklocal dest && ip6_addr_isany_val addr then
    group ← netif_mld6_data inp;
    fuel ← groups_fuel;
    each_group fuel (report_if_routed max_resp_delay) group
  else
    group ← mld6_lookfor_group inp dest;
    io_when (negb (group =? 0)) (mld6_delayed_report group max_resp_delay).

(** Another node's report for a group replaces ours. *)
Definition cancel_report (g : mld_group) : mld_group :=
  if group_state g =? MLD6_GROUP_DELAYING_MEMBER
  then set_last_reporter 0 (set_group_state MLD6_GROUP_IDLE_MEMBER (set_timer 0 g)) else g.

Definition mld6_input (p inp : Z) : uio unit :=
  b ← pb p;
  if len b <? SIZEOF_MLD_HEADER then Udp.free p
  else
    type ← read8 (payload b + MLDH_type);
    _ ← (if type =? ICMP6_TYPE_MLQ then mld6_query p inp
         else if type =? ICMP6_TYPE_MLR then
           dest ← ip6_current_dest_addr;
           group ← mld6_lookfor_group inp dest;
           io_when (negb (group =? 0)) (upd_group group cancel_report)
         else mret tt);
    Udp.free p.

Definition mld6_joingroup_netif (netif : Z) (groupaddr : ip6_addr) : uio Z :=
  group ← mld6_lookfor_group netif groupaddr;
  group ←
    (if group =? 0 then
       group ← mld6_new_group netif groupaddr;
       if group =? 0 then mret 0
       else
         _ ← filter_group netif groupaddr NETIF_ADD_MAC_FILTER;
         _ ← mld6_send netif group ICMP6_TYPE_MLR;
         _ ← mld6_delayed_report group MLD6_JOIN_DELAYING_MEMBER_TMR_MS;
         mret group
     else mret group);
  if group =? 0 then mret ERR_MEM
  else
    _ ← upd_group group (fun g => set_use (use g + 1) g);
    mret ERR_OK.

Definition mld6_leavegroup_netif (netif : Z) (groupaddr : ip6_addr) : uio Z :=
  group ← mld6_lookfor_group netif groupaddr;
  if group =? 0 then mret ERR_VAL
  else
    g ← get_group group;
    _ ← (if use g <=? 1 then
           _ ← mld6_remove_group netif group;
           _ ← io_when (negb (last_reporter_flag g =? 0)) (mld6_send netif group ICMP6_TYPE_MLD);
           _ ← filter_group netif groupaddr NETIF_DEL_MAC_FILTER;
           memp_free_MLD6_GROUP group
         else upd_group group (fun g => set_use (use g - 1) g));
    mret ERR_OK.

(** [ip6_addr_isany(srcaddr) || netif_get_ip6_addr_match(netif, srcaddr) >= 0]. *)
Definition selected (n : netif) (srcaddr : option ip6_addr) : bool :=
  match srcaddr with
  | None => true
  | Some a => ip6_addr_isany_val a || (0 <=? get_ip6_addr_match n a)
  end.

Definition mld6_joingroup (srcaddr : option ip6_addr) (groupaddr : ip6_addr) : uio Z :=
  netif ← the_default;
  if netif =? 0 then mret ERR_VAL
  else
    n ← get_netif netif;
    if selected n srcaddr then mld6_joingroup_netif netif groupaddr else mret ERR_VAL.

Definition mld6_leavegroup (srcaddr : option ip6_addr) (groupaddr : ip6_addr) : uio Z :=
  netif ← the_default;
  if netif =? 0 then mret ERR_VAL
  else
    n ← get_netif netif;
    if selected n srcaddr then mld6_leavegroup_netif netif groupaddr else mret ERR_VAL.

(** One group at a tick of the timer. *)
Definition mld6_tick (netif group : Z) : uio unit :=
  g ← get_group group;
  io_when (0 <? timer g)
    (_ ← upd_group group (fun g => set_timer (timer g - 1) g);
     g ← get_group group;
     io_when ((timer g =? 0) && (group_state g =? MLD6_GROUP_DELAYING_MEMBER))
       (_ ← mld6_send netif group ICMP6_TYPE_MLR;
        upd_group group (set_group_state MLD6_GROUP_IDLE_MEMBER))).

Definition mld6_tmr : uio unit :=
  netif ← the_default;
  if netif =? 0 then mret tt
  else
    group ← netif_mld6_data netif;
    fuel ← groups_fuel;
    each_group fuel (mld6_tick netif) group.
End Mld.
