(* ===== verification/Addrs.v ===== *)
(** The addresses of an interface: the IPv6 part of core/netif.c, and the
    membership in solicited-node groups core/ipv6/nd6.c keeps with them.
    Without status callbacks. *)

From Stdlib Require Import ZArith Lia.
From stdpp Require Import base list numbers gmap.
From S2P Require Import Prelude Mmio Mem Memp Pbuf Ip6Addr Chksum Udp Netif Ip6Out Mld6.

Open Scope Z_scope.

Definition NETIF_REPORT_TYPE_IPV4 : Z := 0x01.
Definition NETIF_REPORT_TYPE_IPV6 : Z := 0x02.

(** The node is a member once the address is being checked or valid. *)
Definition state_member (st : Z) : bool :=
  negb (st =? IP6_ADDR_INVALID) && negb (st =? IP6_ADDR_DUPLICATED) && negb (st =? IP6_ADDR_TENTATIVE).

(** The interface identifier from a 48-bit MAC address, as an EUI-64. *)
Definition eui64 (hwaddr : list Z) : outcome (Z * Z) :=
  h0 ← rd hwaddr 0; h1 ← rd hwaddr 1; h2 ← rd hwaddr 2;
  h3 ← rd hwaddr 3; h4 ← rd hwaddr 4; h5 ← rd hwaddr 5;
  Ok (lwip_htonl (Z.lor (Z.lor (Z.lor (Z.shiftl (Z.lxor h0 0x02) 24) (Z.shiftl h1 16)) (Z.shiftl h2 8)) 0xff),
      lwip_htonl (Z.lor (Z.lor (Z.lor (Z.shiftl 0xfe 24) (Z.shiftl h3 16)) (Z.shiftl h4 8)) h5)).

(** [for (i = 0; (i < 8) && (i < netif->hwaddr_len); i++)]: the words 2 and 3
    of the address; [k] is [8 - i]. *)
Fixpoint hwaddr_id (k : nat) (hwaddr : list Z) (hwaddr_len i addr_index w2 w3 : Z) : outcome (Z * Z) :=
  match k with
  | O => Ok (w2, w3)
  | S k =>
      if i <? hwaddr_len then
        let addr_index := if i =? 4 then addr_index - 1 else addr_index in
        h ← rd hwaddr (hwaddr_len - i - 1);
        let v := lwip_htonl (Z.shiftl h (8 * Z.land i 0x03)) in
        if addr_index =? 3 then hwaddr_id k hwaddr hwaddr_len (i + 1) addr_index w2 (Z.lor w3 v)
        else hwaddr_id k hwaddr hwaddr_len (i + 1) addr_index (Z.lor w2 v) w3
      else Ok (w2, w3)
  end.

Section Addrs.
Context {PP RP HP UP QP MP DV : Type} `{PoolOps PP} `{PoolOps RP} `{HeapOps HP} `{PoolOps MP}.
Abbreviation st := (net PP RP HP UP (ipst QP MP DV)).
Context {HK : Hooks st}.
Abbreviation uio := (io st).

Definition netif_do_ip_addr_changed (old_addr new_addr : option ip6_addr) : uio unit :=
  udp_netif_ip_addr_changed old_addr new_addr.

Definition netif_issue_reports (netif report_type : Z) : uio unit :=
  _ ← io_assert (negb (netif =? 0));
  n ← get_netif netif;
  if (Z.land (nif_flags n) NETIF_FLAG_LINK_UP =? 0) || (Z.land (nif_flags n) NETIF_FLAG_UP =? 0) then mret tt
  else io_when (negb (Z.land report_type NETIF_REPORT_TYPE_IPV6 =? 0)) (mld6_report_groups netif).

Definition nd6_adjust_mld_membership (netif addr_idx new_state : Z) : uio unit :=
  old_state ← netif_ip6_addr_state netif addr_idx;
  if Bool.eqb (state_member old_state) (state_member new_state) then mret tt
  else
    a ← netif_ip6_addr netif addr_idx;
    let multicast_address := ip6_addr_set_solicitednode (word a 3) in
    _ ← (if state_member new_state then mld6_joingroup_netif netif multicast_address
         else mld6_leavegroup_netif netif multicast_address);
    mret tt.

Definition put_state (netif addr_idx state : Z) : uio unit :=
  n ← get_netif netif;
  l ← tries (fun _ => wr (addr_states n) addr_idx state);
  upd_netif netif (set_addr_states l).
Definition put_addr (netif addr_idx : Z) (a : ip6_addr) : uio unit :=
  n ← get_netif netif;
  l ← tries (fun _ => wr (ip6_addrs n) addr_idx a);
  upd_netif netif (set_ip6_addrs l).

Definition netif_ip6_addr_set_state (netif addr_idx state : Z) : uio unit :=
  _ ← io_assert (negb (netif =? 0));
  _ ← io_assert (addr_idx <? LWIP_IPV6_NUM_ADDRESSES);
  old_state ← netif_ip6_addr_state netif addr_idx;
  if old_state =? state then mret tt
  else
    let old_valid := negb (Z.land old_state IP6_ADDR_VALID =? 0) in
    let new_valid := negb (Z.land state IP6_ADDR_VALID =? 0) in
    n ← get_netif netif;
    _ ← io_when (netif_is_flag_set n NETIF_FLAG_MLD6) (nd6_adjust_mld_membership netif addr_idx state);
    a ← netif_ip6_addr netif addr_idx;
    _ ← io_when (old_valid && negb new_valid) (netif_do_ip_addr_changed (Some a) None);
    _ ← put_state netif addr_idx state;
    io_when (negb old_valid && new_valid) (netif_issue_reports netif NETIF_REPORT_TYPE_IPV6).

Definition netif_ip6_addr_set_parts (netif addr_idx i0 i1 i2 i3 : Z) : uio unit :=
  _ ← io_assert (negb (netif =? 0));
  _ ← io_assert (addr_idx <? LWIP_IPV6_NUM_ADDRESSES);
  old_addr ← netif_ip6_addr netif addr_idx;
  let new_ipaddr := IP6_ADDR i0 i1 i2 i3 in
  if ip6_addr_zoneless_eq old_addr new_ipaddr then mret tt
  else
    s ← netif_ip6_addr_state netif addr_idx;
    _ ← io_when (ip6_addr_isvalid s) (netif_do_ip_addr_changed (Some old_addr) (Some new_ipaddr));
    _ ← put_addr netif addr_idx new_ipaddr;
    s ← netif_ip6_addr_state netif addr_idx;
    io_when (ip6_addr_isvalid s) (netif_issue_reports netif NETIF_REPORT_TYPE_IPV6).

Definition netif_ip6_addr_set (netif addr_idx : Z) (addr6 : ip6_addr) : uio unit :=
  _ ← io_assert (negb (netif =? 0));
  netif_ip6_addr_set_parts netif addr_idx (word addr6 0) (word addr6 1) (word addr6 2) (word addr6 3).

Definition netif_create_ip6_linklocal_address (netif from_mac_48bit : Z) : uio unit :=
  _ ← io_assert (negb (netif =? 0));
  n ← get_netif netif;
  '(w2, w3) ← tries (fun _ =>
    if negb (from_mac_48bit =? 0) then eui64 (hwaddr n) else hwaddr_id 8 (hwaddr n) (hwaddr_len n) 0 3 0 0);
  _ ← put_addr netif 0 (IP6_ADDR 0xfe800000 0 w2 w3);
  netif_ip6_addr_set_state netif 0 IP6_ADDR_TENTATIVE.

(** The first free slot from [i] on, with [k] slots left; -1 for none. *)
Fixpoint free_slot (k : nat) (netif i : Z) : uio Z :=
  match k with
  | O => mret (-1)
  | S k =>
      s ← netif_ip6_addr_state netif i;
      if ip6_addr_isinvalid s then mret i else free_slot k netif (i + 1)
  end.

(** The result and [*chosen_idx]. *)
Definition netif_add_ip6_address (netif : Z) (ip6addr : ip6_addr) : uio (Z * Z) :=
  _ ← io_assert (negb (netif =? 0));
  n ← get_netif netif;
  let i := get_ip6_addr_match n ip6addr in
  if 0 <=? i then mret (ERR_OK, i)
  else
    let first := if ip6_addr_islinklocal ip6addr then 0 else 1 in
    i ← free_slot (Z.to_nat (LWIP_IPV6_NUM_ADDRESSES - first)) netif first;
    if i <? 0 then mret (ERR_VAL, -1)
    else
      _ ← put_addr netif i ip6addr;
      _ ← netif_ip6_addr_set_state netif i IP6_ADDR_TENTATIVE;
      mret (ERR_OK, i).
End Addrs.
