(* ===== verification/Nd6.v ===== *)
(** Neighbour discovery, but for the messages received: core/ipv6/nd6.c.

    The neighbour, destination, prefix and router tables are arrays; pointers
    into them are indices. Packets waiting for an address are queues of
    elements of MEMP_ND6_QUEUE. The static [multicast_address] never outlives
    the call that sets it and is a value here. *)

From Stdlib Require Import ZArith Lia.
From stdpp Require Import base list numbers gmap.
From S2P Require Import Prelude Mmio Mem Memp Pbuf Ip6Addr Chksum Udp Netif Ip6Out Mld6 Addrs.

Open Scope Z_scope.

Definition LWIP_ND6_NUM_NEIGHBORS : Z := 10.
Definition LWIP_ND6_NUM_DESTINATIONS : Z := 10.
Definition LWIP_ND6_NUM_PREFIXES : Z := 5.
Definition LWIP_ND6_NUM_ROUTERS : Z := 3.
Definition MEMP_NUM_ND6_QUEUE : Z := 20.
Definition LWIP_ND6_MAX_MULTICAST_SOLICIT : Z := 3.
Definition LWIP_ND6_REACHABLE_TIME : Z := 30000.
Definition LWIP_ND6_RETRANS_TIMER : Z := 1000.
Definition LWIP_ND6_DELAY_FIRST_PROBE_TIME : Z := 5000.
Definition ND6_TMR_INTERVAL : Z := 1000.
Definition ND6_RTR_SOLICITATION_INTERVAL : Z := 4000.
Definition ND6_HOPLIM : Z := 255.
Definition NETIF_ADDR_IDX_MAX : Z := 0x7F.

(** [enum nd6_neighbor_cache_entry_state]. *)
Definition ND6_NO_ENTRY : Z := 0.
Definition ND6_INCOMPLETE : Z := 1.
Definition ND6_REACHABLE : Z := 2.
Definition ND6_STALE : Z := 3.
Definition ND6_DELAY : Z := 4.
Definition ND6_PROBE : Z := 5.

Definition ND6_SEND_FLAG_MULTICAST_DEST : Z := 0x01.
Definition ND6_SEND_FLAG_ALLNODES_DEST : Z := 0x02.
Definition ND6_SEND_FLAG_ANY_SRC : Z := 0x04.
Definition ND6_FLAG_ROUTER : Z := 0x80.
Definition ND6_FLAG_SOLICITED : Z := 0x40.
Definition ND6_FLAG_OVERRIDE : Z := 0x20.

Definition ICMP6_TYPE_RS : Z := 133.
Definition ICMP6_TYPE_RA : Z := 134.
Definition ICMP6_TYPE_NS : Z := 135.
Definition ICMP6_TYPE_NA : Z := 136.
Definition ICMP6_TYPE_RD : Z := 137.
Definition ND6_OPTION_TYPE_SOURCE_LLADDR : Z := 0x01.
Definition ND6_OPTION_TYPE_TARGET_LLADDR : Z := 0x02.

(** [struct ns_header], [na_header], [rs_header]: sizes, and fields from the
    start; a link-layer address option is type, length, address. *)
Definition SIZEOF_NS_HEADER : Z := 24.
Definition SIZEOF_NA_HEADER : Z := 24.
Definition SIZEOF_RS_HEADER : Z := 8.
Definition ND_type : Z := 0.
Definition ND_code : Z := 1.
Definition ND_chksum : Z := 2.
Definition ND_word : Z := 4.
Definition ND_target_address : Z := 8.
Definition OPT_type : Z := 0.
Definition OPT_length : Z := 1.
Definition OPT_addr : Z := 2.

(* ------------------------------------------------------------------ *)
(** * Searches of the tables *)

Definition has_state (st : Z) (e : neighbor) : bool := (state e =? st) && (isrouter e =? 0).

(** The loops of [nd6_new_neighbor_cache_entry] that keep the best entry so
    far in [j] and [time]. *)
Fixpoint oldest_reachable (l : list neighbor) (i j time : Z) : Z :=
  match l with
  | [] => j
  | e :: l =>
      if has_state ND6_REACHABLE e && (counter e <? time) then oldest_reachable l (i + 1) i (counter e)
      else oldest_reachable l (i + 1) j time
  end.
Fixpoint oldest_incomplete (any_queue : bool) (l : list neighbor) (i j time : Z) : Z :=
  match l with
  | [] => j
  | e :: l =>
      if (any_queue || (q e =? 0)) && has_state ND6_INCOMPLETE e && (time <=? counter e)
      then oldest_incomplete any_queue l (i + 1) i (counter e)
      else oldest_incomplete any_queue l (i + 1) j time
  end.

(** The entry to use, and whether it has to be freed first; -1 for none. *)
Definition recycle_choice (l : list neighbor) : Z * bool :=
  let free := first_index (fun e => state e =? ND6_NO_ENTRY) l in
  let stale := first_index (has_state ND6_STALE) l in
  let probe := first_index (has_state ND6_PROBE) l in
  let delay := first_index (has_state ND6_DELAY) l in
  let reachable := oldest_reachable l 0 (-1) 0xffffffff in
  let unqueued := oldest_incomplete false l 0 (-1) 0 in
  let queued := oldest_incomplete true l 0 (-1) 0 in
  if 0 <=? free then (free, false)
  else if 0 <=? stale then (stale, true)
  else if 0 <=? probe then (probe, true)
  else if 0 <=? delay then (delay, true)
  else if 0 <=? reachable then (reachable, true)
  else if 0 <=? unqueued then (unqueued, true)
  else if 0 <=? queued then (queued, true)
  else (-1, false).

Definition find_neighbor (ip6addr : ip6_addr) (l : list neighbor) : Z :=
  first_index (fun e => ip6_addr_eq ip6addr (next_hop_address e)) l.
Definition find_destination (ip6addr : ip6_addr) (l : list destination) : Z :=
  first_index (fun e => ip6_addr_eq ip6addr (destination_addr e)) l.

(** The search for the oldest destination: [age] stays 0. *)
Fixpoint oldest_destination (l : list destination) (i j : Z) : Z :=
  match l with
  | [] => j
  | e :: l => oldest_destination l (i + 1) (if 0 <? age e then i else j)
  end.
Definition new_destination (l : list destination) : Z :=
  let free := first_index (fun e => ip6_addr_isany_val (destination_addr e)) l in
  if 0 <=? free then free else oldest_destination l 0 (LWIP_ND6_NUM_DESTINATIONS - 1).

(** [PBUF_NEEDS_COPY] of some pbuf of a chain. *)
Definition PBUF_NEEDS_COPY (b : pbuf) : bool := negb (Z.land (type_internal b) PBUF_TYPE_FLAG_DATA_VOLATILE =? 0).
Fixpoint needs_copy (fuel : nat) (m : gmap Z pbuf) (p : Z) : outcome bool :=
  if p =? 0 then Ok false
  else
    match fuel with
    | O => Fault Diverges
    | S fuel => b ← deref m p; if PBUF_NEEDS_COPY b then Ok true else needs_copy fuel m (Pbuf.next b)
    end.

Section Nd6.
Context {PP RP HP UP QP MP DV : Type} `{PoolOps PP} `{PoolOps RP} `{HeapOps HP} `{PoolOps QP} `{PoolOps MP}.
Abbreviation st := (net PP RP HP UP (ipst QP MP DV)).
Context {HK : Hooks st}.
Abbreviation uio := (io st).

(** A loop over indices [i], ..., [i + k - 1]. *)
Fixpoint for_from (k : nat) (body : Z -> uio unit) (i : Z) : uio unit :=
  match k with
  | O => mret tt
  | S k => _ ← body i; for_from k body (i + 1)
  end.

(* ------------------------------------------------------------------ *)
(** * Queues *)

Definition memp_malloc_ND6_QUEUE : uio (option Z) := fun s =>
  '(r, ps) ← pool_malloc (q_pool (lower s)); Ok (r, with_lower (set_q_pool ps) s).
(** A freed entry is gone. *)
Definition memp_free_ND6_QUEUE (a : Z) : uio unit := fun s =>
  ps ← pool_free a (q_pool (lower s));
  Ok (tt, with_lower (fun l => set_q_entries (delete a) (set_q_pool ps l)) s).
Definition count_queue (d : Z) : uio unit := upd_nd (fun s => set_queue_size (nd6_queue_size s + d) s).
Definition queue_fuel : uio nat := gets (fun s => S (stdpp.base.size (q_entries (lower s)))).

Fixpoint free_q_loop (fuel : nat) (q : Z) : uio unit :=
  if q =? 0 then mret tt
  else
    match fuel with
    | O => io_fault Diverges
    | S fuel =>
        let r := q in
        e ← get_qe r;
        _ ← io_assert (negb (q_p e =? 0));
        _ ← Udp.free (q_p e);
        _ ← memp_free_ND6_QUEUE r;
        _ ← count_queue (-1);
        free_q_loop fuel (q_next e)
    end.
Definition nd6_free_q (q : Z) : uio unit :=
  _ ← io_assert (negb (q =? 0));
  e ← get_qe q;
  _ ← io_assert (negb (q_p e =? 0));
  fuel ← queue_fuel;
  free_q_loop fuel q.

(** The oldest packet of a queue goes. *)
Definition drop_oldest (i : Z) : uio unit :=
  e ← get_nbr i;
  let r := q e in
  x ← get_qe r;
  _ ← upd_nbr i (set_q (q_next x));
  _ ← upd_qe r (set_q_next 0);
  nd6_free_q r.

Fixpoint clone_loop (fuel : nat) (i p : Z) : uio (option Z) :=
  r ← on_pbufs (pbuf_clone PBUF_LINK PBUF_RAM p);
  match r with
  | Some _ => mret r
  | None =>
      e ← get_nbr i;
      if q e =? 0 then mret None
      else
        match fuel with
        | O => io_fault Diverges
        | S fuel => _ ← drop_oldest i; clone_loop fuel i p
        end
  end.

(** [while (r->next != NULL) r = r->next; r->next = new_entry;] *)
Fixpoint append_walk (fuel : nat) (r new_entry : Z) : uio unit :=
  e ← get_qe r;
  if q_next e =? 0 then upd_qe r (set_q_next new_entry)
  else
    match fuel with
    | O => io_fault Diverges
    | S fuel => append_walk fuel (q_next e) new_entry
    end.

Definition queue_alloc (i : Z) : uio (option Z) :=
  s ← nd;
  new_entry ←
    (if nd6_queue_size s <? MEMP_NUM_ND6_QUEUE then
       r ← memp_malloc_ND6_QUEUE; _ ← count_queue 1; mret r
     else mret None);
  match new_entry with
  | Some _ => mret new_entry
  | None =>
      e ← get_nbr i;
      if q e =? 0 then mret None
      else
        _ ← drop_oldest i;
        r ← memp_malloc_ND6_QUEUE; _ ← count_queue 1; mret r
  end.

Definition queue_append (i p new_entry : Z) : uio unit :=
  _ ← io_modify (with_lower (set_q_entries <[new_entry := mk_qe 0 p]>));
  e ← get_nbr i;
  if negb (q e =? 0) then fuel ← queue_fuel; append_walk fuel (q e) new_entry
  else upd_nbr i (set_q new_entry).

Definition nd6_queue_packet (neighbor_index p : Z) : uio Z :=
  if (neighbor_index <? 0) || (LWIP_ND6_NUM_NEIGHBORS <=? neighbor_index) then mret ERR_ARG
  else
    copy_needed ← tries (fun s => needs_copy (chain_fuel (pbufs (n_heap s))) (pbufs (n_heap s)) p);
    r ← (if copy_needed : bool then fuel ← queue_fuel; clone_loop fuel neighbor_index p
         else _ ← on_pbufs (pbuf_ref p); mret (Some p));
    match r with
    | None => mret ERR_MEM
    | Some p =>
        new_entry ← queue_alloc neighbor_index;
        match new_entry with
        | Some new_entry => _ ← queue_append neighbor_index p new_entry; mret ERR_OK
        | None => _ ← Udp.free p; mret ERR_MEM
        end
    end.

(** Every turn takes a packet off the queue. *)
Fixpoint send_q_loop (fuel : nat) (i : Z) : uio unit :=
  e ← get_nbr i;
  if q e =? 0 then mret tt
  else
    match fuel with
    | O => io_fault Diverges
    | S fuel =>
        let a := q e in
        x ← get_qe a;
        _ ← upd_nbr i (set_q (q_next x));
        b ← pb (q_p x);
        dest ← read_addr (payload b + IP6H_dest);
        e ← get_nbr i;
        _ ← output_ip6 (nbr_netif e) (q_p x) dest;
        _ ← Udp.free (q_p x);
        _ ← memp_free_ND6_QUEUE a;
        _ ← count_queue (-1);
        send_q_loop fuel i
    end.
Definition nd6_send_q (i : Z) : uio unit :=
  if (i <? 0) || (LWIP_ND6_NUM_NEIGHBORS <=? i) then mret tt
  else fuel ← queue_fuel; send_q_loop fuel i.

(* ------------------------------------------------------------------ *)
(** * The neighbour and destination caches *)

Definition nd6_find_neighbor_cache_entry (ip6addr : ip6_addr) : uio Z :=
  s ← nd; mret (find_neighbor ip6addr (neighbor_cache s)).

Definition nd6_free_neighbor_cache_entry (i : Z) : uio unit :=
  if (i <? 0) || (LWIP_ND6_NUM_NEIGHBORS <=? i) then mret tt
  else
    e ← get_nbr i;
    if negb (isrouter e =? 0) then mret tt
    else
      _ ← io_when (negb (q e =? 0)) (_ ← nd6_free_q (q e); upd_nbr i (set_q 0));
      _ ← upd_nbr i (set_state ND6_NO_ENTRY);
      _ ← upd_nbr i (set_isrouter 0);
      _ ← upd_nbr i (set_nbr_netif 0);
      _ ← upd_nbr i (set_counter 0);
      upd_nbr i (set_next_hop_address IP6_ADDR_ANY6).

Definition nd6_new_neighbor_cache_entry : uio Z :=
  s ← nd;
  let '(i, used) := recycle_choice (neighbor_cache s) in
  _ ← io_when used (nd6_free_neighbor_cache_entry i);
  mret i.

Definition nd6_find_destination_cache_entry (ip6addr : ip6_addr) : uio Z :=
  s ← nd; mret (find_destination ip6addr (destination_cache s)).
Definition nd6_new_destination_cache_entry : uio Z := s ← nd; mret (new_destination (destination_cache s)).

Definition nd6_clear_destination_cache : uio unit :=
  for_from (Z.to_nat LWIP_ND6_NUM_DESTINATIONS) (fun i => upd_dest i (set_destination_addr IP6_ADDR_ANY6)) 0.

(* ------------------------------------------------------------------ *)
(** * Sending *)

(** The option with the interface's own link-layer address. *)
Definition write_lladdr_opt (a type opt_len netif : Z) : uio unit :=
  n ← get_netif netif;
  _ ← write8 (a + OPT_type) type;
  _ ← write8 (a + OPT_length) opt_len;
  l ← tries (fun _ => rd_block (hwaddr n) 0 (hwaddr_len n));
  write_bytes (a + OPT_addr) l.

(** Type, code and checksum of a message; then four bytes. *)
Definition write_nd_start (a type word : Z) : uio unit :=
  _ ← write8 (a + ND_type) type;
  _ ← write8 (a + ND_code) 0;
  _ ← store16 (a + ND_chksum) 0;
  write32 (a + ND_word) word.

(** The source of a solicitation: the unspecified address is [Some None], a
    missing one [None]. *)
Definition ns_source (netif : Z) (target_addr : ip6_addr) (flags : Z) : uio (option (option ip6_addr)) :=
  if negb (Z.land flags ND6_SEND_FLAG_ANY_SRC =? 0) then mret (Some None)
  else
    n ← get_netif netif;
    let i := find_slot (fun st a => ip6_addr_isvalid st && ip6_addr_net_eq target_addr a) n in
    if i <? 0 then mret None else a ← netif_ip6_addr netif i; mret (Some (Some a)).

Definition send_ns_from (netif : Z) (src : option ip6_addr) (target_addr : ip6_addr) (flags : Z) : uio unit :=
  n ← get_netif netif;
  let lladdr_opt_len := match src with Some _ => u16 (Z.shiftr (hwaddr_len n + 2 + 7) 3) | None => 0 end in
  r ← on_pbufs (pbuf_alloc PBUF_IP (SIZEOF_NS_HEADER + Z.shiftl lladdr_opt_len 3) PBUF_RAM);
  match r with
  | None => mret tt
  | Some p =>
      b ← pb p;
      let ns_hdr := payload b in
      _ ← write_nd_start ns_hdr ICMP6_TYPE_NS 0;
      _ ← write_addr (ns_hdr + ND_target_address) target_addr;
      _ ← io_when (negb (lladdr_opt_len =? 0))
            (write_lladdr_opt (ns_hdr + SIZEOF_NS_HEADER) ND6_OPTION_TYPE_SOURCE_LLADDR lladdr_opt_len netif);
      let dest := if negb (Z.land flags ND6_SEND_FLAG_MULTICAST_DEST =? 0)
                  then ip6_addr_set_solicitednode (word target_addr 3) else target_addr in
      c ← ip6_chksum p IP6_NEXTH_ICMP6 (len b) (default IP6_ADDR_ANY6 src) dest;
      _ ← store16 (ns_hdr + ND_chksum) c;
      _ ← ip6_output_if p src (Some dest) ND6_HOPLIM 0 IP6_NEXTH_ICMP6 netif;
      Udp.free p
  end.
Definition nd6_send_ns (netif : Z) (target_addr : ip6_addr) (flags : Z) : uio unit :=
  src ← ns_source netif target_addr flags;
  match src with
  | None => mret tt
  | Some src => send_ns_from netif src target_addr flags
  end.

Definition nd6_send_neighbor_cache_probe (i flags : Z) : uio unit :=
  e ← get_nbr i; nd6_send_ns (nbr_netif e) (next_hop_address e) flags.

(** [(n >> 3) + ((n & 7) ? 1 : 0)]. *)
Definition opt_units (n : Z) : Z := Z.shiftr n 3 + (if negb (Z.land n 0x07 =? 0) then 1 else 0).

Definition na_dest (target_addr : ip6_addr) (flags : Z) : uio ip6_addr :=
  if negb (Z.land flags ND6_SEND_FLAG_MULTICAST_DEST =? 0) then mret (ip6_addr_set_solicitednode (word target_addr 3))
  else if negb (Z.land flags ND6_SEND_FLAG_ALLNODES_DEST =? 0) then mret ip6_addr_set_allnodes_linklocal
  else ip6_current_src_addr.

Definition nd6_send_na (netif : Z) (target_addr : ip6_addr) (flags : Z) : uio unit :=
  n ← get_netif netif;
  let lladdr_opt_len := u16 (opt_units (hwaddr_len n + 2)) in
  r ← on_pbufs (pbuf_alloc PBUF_IP (SIZEOF_NA_HEADER + Z.shiftl lladdr_opt_len 3) PBUF_RAM);
  match r with
  | None => mret tt
  | Some p =>
      b ← pb p;
      let na_hdr := payload b in
      _ ← write_nd_start na_hdr ICMP6_TYPE_NA (Z.shiftl (Z.land flags 0xf0) 24);
      _ ← write_addr (na_hdr + ND_target_address) target_addr;
      _ ← write_lladdr_opt (na_hdr + SIZEOF_NA_HEADER) ND6_OPTION_TYPE_TARGET_LLADDR lladdr_opt_len netif;
      dest_addr ← na_dest target_addr flags;
      c ← ip6_chksum p IP6_NEXTH_ICMP6 (len b) target_addr dest_addr;
      _ ← store16 (na_hdr + ND_chksum) c;
      _ ← ip6_output_if p (Some target_addr) (Some dest_addr) ND6_HOPLIM 0 IP6_NEXTH_ICMP6 netif;
      Udp.free p
  end.

Definition nd6_send_rs (netif : Z) : uio Z :=
  n ← get_netif netif;
  state0 ← netif_ip6_addr_state netif 0;
  src ← (if ip6_addr_isvalid state0 then a ← netif_ip6_addr netif 0; mret (Some a) else mret None);
  let dest := ip6_addr_set_allrouters_linklocal in
  let lladdr_opt_len := match src with Some _ => u16 (opt_units (hwaddr_len n + 2)) | None => 0 end in
  r ← on_pbufs (pbuf_alloc PBUF_IP (SIZEOF_RS_HEADER + Z.shiftl lladdr_opt_len 3) PBUF_RAM);
  match r with
  | None => mret ERR_BUF
  | Some p =>
      b ← pb p;
      let rs_hdr := payload b in
      _ ← write_nd_start rs_hdr ICMP6_TYPE_RS 0;
      _ ← io_when (match src with Some _ => true | None => false end)
            (write_lladdr_opt (rs_hdr + SIZEOF_RS_HEADER) ND6_OPTION_TYPE_SOURCE_LLADDR lladdr_opt_len netif);
      c ← ip6_chksum p IP6_NEXTH_ICMP6 (len b) (default IP6_ADDR_ANY6 src) dest;
      _ ← store16 (rs_hdr + ND_chksum) c;
      err ← ip6_output_if p src (Some dest) ND6_HOPLIM 0 IP6_NEXTH_ICMP6 netif;
      _ ← Udp.free p;
      mret err
  end.

(* ------------------------------------------------------------------ *)
(** * Routers and prefixes *)

(** The interface of a router's neighbour entry, if it may be used for
    [netif] (NULL, 0, for any that can send), with the entry's state. *)
Definition router_candidate (i netif : Z) : uio (option Z) :=
  r ← get_router i;
  match neighbor_entry r with
  | None => mret None
  | Some j =>
      e ← get_nbr j;
      let router_netif := nbr_netif e in
      if router_netif =? 0 then mret None
      else if negb (netif =? 0) then mret (if netif =? router_netif then Some (state e) else None)
      else
        n ← get_netif router_netif;
        mret (if netif_is_up n && netif_is_link_up n then Some (state e) else None)
  end.

(** The first loop of [nd6_select_router]: a reachable router, or a valid one
    in [valid_router], or -1; [k] routers are left. *)
Fixpoint valid_router_loop (k : nat) (netif i valid_router : Z) : uio Z :=
  match k with
  | O => mret valid_router
  | S k =>
      c ← router_candidate i netif;
      match c with
      | Some st =>
          if negb (st =? ND6_INCOMPLETE) then
            if st =? ND6_REACHABLE then mret i
            else valid_router_loop k netif (i + 1) (if valid_router <? 0 then i else valid_router)
          else valid_router_loop k netif (i + 1) valid_router
      | None => valid_router_loop k netif (i + 1) valid_router
      end
  end.

(** The second loop, round robin from [i]. *)
Fixpoint any_router_loop (k : nat) (netif i : Z) : uio Z :=
  match k with
  | O => mret (-1)
  | S k =>
      c ← router_candidate i netif;
      match c with
      | Some _ => mret i
      | None => any_router_loop k netif (if LWIP_ND6_NUM_ROUTERS <=? i + 1 then 0 else i + 1)
      end
  end.

Definition nd6_select_router (ip6addr : ip6_addr) (netif : Z) : uio Z :=
  r ← valid_router_loop (Z.to_nat LWIP_ND6_NUM_ROUTERS) netif 0 (-1);
  if 0 <=? r then mret r
  else
    s ← nd;
    _ ← io_when (netif =? 0)
      (let next := last_router s + 1 in
       upd_nd (set_last_router (if LWIP_ND6_NUM_ROUTERS <=? next then 0 else next)));
    s ← nd;
    any_router_loop (Z.to_nat LWIP_ND6_NUM_ROUTERS) netif (last_router s).

(** [for (i = 0; i < LWIP_ND6_NUM_PREFIXES; ++i)] of [nd6_find_route]. *)
Fixpoint route_loop (l : list prefix_entry) (ip6addr : ip6_addr) : uio Z :=
  match l with
  | [] => mret 0
  | e :: l =>
      let netif := prefix_netif e in
      if negb (netif =? 0) && ip6_addr_net_eq (prefix e) ip6addr then
        n ← get_netif netif;
        if netif_is_up n && netif_is_link_up n then mret netif else route_loop l ip6addr
      else route_loop l ip6addr
  end.
Definition nd6_find_route (ip6addr : ip6_addr) : uio Z :=
  s ← nd;
  netif ← route_loop (prefix_list s) ip6addr;
  if negb (netif =? 0) then mret netif
  else
    i ← nd6_select_router ip6addr 0;
    if 0 <=? i then
      r ← get_router i;
      match neighbor_entry r with
      | None => io_fault AssertFailed
      | Some j => e ← get_nbr j; mret (nbr_netif e)
      end
    else mret 0.

Definition nd6_is_prefix_in_netif (ip6addr : ip6_addr) (netif : Z) : uio bool :=
  s ← nd;
  n ← get_netif netif;
  mret (existsb (fun e => (prefix_netif e =? netif) && (0 <? prefix_timer e) && ip6_addr_net_eq ip6addr (prefix e))
          (prefix_list s) ||
        (0 <=? find_slot (fun st a => ip6_addr_isvalid st && ip6_addr_net_eq ip6addr a) n)).

(** Whether router [i] is the one at [router_addr] on [netif]. *)
Fixpoint get_router_loop (k : nat) (router_addr : ip6_addr) (netif i : Z) : uio Z :=
  match k with
  | O => mret (-1)
  | S k =>
      r ← get_router i;
      match neighbor_entry r with
      | None => get_router_loop k router_addr netif (i + 1)
      | Some j =>
          e ← get_nbr j;
          if ((netif =? 0) || (netif =? nbr_netif e)) && ip6_addr_eq router_addr (next_hop_address e) then mret i
          else get_router_loop k router_addr netif (i + 1)
      end
  end.
Definition nd6_get_router (router_addr : ip6_addr) (netif : Z) : uio Z :=
  get_router_loop (Z.to_nat LWIP_ND6_NUM_ROUTERS) router_addr netif 0.

(** [for (router_index = LWIP_ND6_NUM_ROUTERS - 1; router_index >= 0;
    router_index--)]: the router of the entry ([inl]) or the lowest free
    index ([inr]); [k] is [router_index + 1]. *)
Fixpoint router_slot (k : nat) (neighbor_index free_router_index : Z) : uio (Z + Z) :=
  match k with
  | O => mret (inr free_router_index)
  | S k =>
      let router_index := Z.of_nat k in
      r ← get_router router_index;
      match neighbor_entry r with
      | Some j => if j =? neighbor_index then mret (inl router_index) else router_slot k neighbor_index free_router_index
      | None => router_slot k neighbor_index router_index
      end
  end.

Definition set_neighbor_entry (v : option Z) (r : router_entry) : router_entry :=
  mk_router v (router_timer r) (router_flags r).
Definition set_router_timer (v : Z) (r : router_entry) : router_entry :=
  mk_router (neighbor_entry r) (u32 v) (router_flags r).
Definition set_router_flags (v : Z) (r : router_entry) : router_entry :=
  mk_router (neighbor_entry r) (router_timer r) (u8 v).

(** The part of [nd6_new_router] that has the neighbour entry. *)
Definition router_of_neighbor (neighbor_index : Z) : uio Z :=
  _ ← upd_nbr neighbor_index (set_isrouter 1);
  r ← router_slot (Z.to_nat LWIP_ND6_NUM_ROUTERS) neighbor_index LWIP_ND6_NUM_ROUTERS;
  match r with
  | inl router_index => mret router_index
  | inr free_router_index =>
      if free_router_index <? LWIP_ND6_NUM_ROUTERS then
        _ ← upd_router free_router_index (set_neighbor_entry (Some neighbor_index));
        mret free_router_index
      else
        _ ← upd_nbr neighbor_index (set_isrouter 0);
        mret (-1)
  end.
Definition nd6_new_router (router_addr : ip6_addr) (netif : Z) : uio Z :=
  neighbor_index ← nd6_find_neighbor_cache_entry router_addr;
  if neighbor_index <? 0 then
    neighbor_index ← nd6_new_neighbor_cache_entry;
    if neighbor_index <? 0 then mret (-1)
    else
      _ ← upd_nbr neighbor_index (set_next_hop_address router_addr);
      _ ← upd_nbr neighbor_index (set_nbr_netif netif);
      _ ← upd_nbr neighbor_index (set_q 0);
      _ ← upd_nbr neighbor_index (set_state ND6_INCOMPLETE);
      _ ← upd_nbr neighbor_index (set_counter 1);
      _ ← nd6_send_neighbor_cache_probe neighbor_index ND6_SEND_FLAG_MULTICAST_DEST;
      router_of_neighbor neighbor_index
  else router_of_neighbor neighbor_index.

Definition nd6_get_onlink_prefix (p : ip6_addr) (netif : Z) : uio Z :=
  s ← nd; mret (first_index (fun e => ip6_addr_net_eq (prefix e) p && (prefix_netif e =? netif)) (prefix_list s)).

Definition set_prefix_timer (v : Z) (e : prefix_entry) : prefix_entry := mk_prefix (prefix e) (prefix_netif e) (u32 v).
Definition set_prefix_netif (v : Z) (e : prefix_entry) : prefix_entry := mk_prefix (prefix e) v (prefix_timer e).
Definition set_prefix (v : ip6_addr) (e : prefix_entry) : prefix_entry := mk_prefix v (prefix_netif e) (prefix_timer e).

Definition nd6_new_onlink_prefix (p : ip6_addr) (netif : Z) : uio Z :=
  s ← nd;
  let i := first_index (fun e => (prefix_netif e =? 0) || (prefix_timer e =? 0)) (prefix_list s) in
  if i <? 0 then mret (-1)
  else
    _ ← upd_prefix i (set_prefix_netif netif);
    _ ← upd_prefix i (set_prefix p);
    mret i.

(* ------------------------------------------------------------------ *)
(** * The next hop *)

(** The destination's entry, made if there is none; its index, or the error. *)
Definition destination_entry (ip6addr : ip6_addr) (netif : Z) : uio (Z + Z) :=
  dst_idx ← nd6_find_destination_cache_entry ip6addr;
  if 0 <=? dst_idx then
    _ ← io_assert (dst_idx <? NETIF_ADDR_IDX_MAX);
    _ ← upd_nd (set_cached_destination dst_idx);
    mret (inl dst_idx)
  else
    dst_idx ← nd6_new_destination_cache_entry;
    if dst_idx <? 0 then mret (inr ERR_MEM)
    else
      _ ← io_assert (dst_idx <? NETIF_ADDR_IDX_MAX);
      _ ← upd_nd (set_cached_destination dst_idx);
      _ ← upd_dest dst_idx (set_destination_addr ip6addr);
      onlink ← (if ip6_addr_islinklocal ip6addr then mret true else nd6_is_prefix_in_netif ip6addr netif);
      n ← get_netif netif;
      if onlink : bool then
        _ ← upd_dest dst_idx (set_pmtu (mtu6 n));
        _ ← upd_dest dst_idx (fun e => set_next_hop_addr (destination_addr e) e);
        mret (inl dst_idx)
      else
        i ← nd6_select_router ip6addr netif;
        if i <? 0 then
          _ ← upd_dest dst_idx (set_destination_addr IP6_ADDR_ANY6);
          mret (inr ERR_RTE)
        else
          _ ← upd_dest dst_idx (set_pmtu (mtu6 n));
          r ← get_router i;
          match neighbor_entry r with
          | None => io_fault NullPointer
          | Some j =>
              e ← get_nbr j;
              _ ← upd_dest dst_idx (set_next_hop_addr (next_hop_address e));
              mret (inl dst_idx)
          end.

(** The neighbour entry of a destination's next hop, made if there is none. *)
Definition next_hop_entry (dest netif : Z) : uio Z :=
  d ← get_dest dest;
  e ← get_nbr (cached_neighbor_idx d);
  r ←
    (if ip6_addr_eq (next_hop_addr d) (next_hop_address e) then mret ERR_OK
     else
       i ← nd6_find_neighbor_cache_entry (next_hop_addr d);
       if 0 <=? i then _ ← upd_dest dest (set_cached_neighbor_idx i); mret ERR_OK
       else
         i ← nd6_new_neighbor_cache_entry;
         if i <? 0 then mret ERR_MEM
         else
           _ ← upd_dest dest (set_cached_neighbor_idx i);
           d ← get_dest dest;
           _ ← upd_nbr i (set_next_hop_address (next_hop_addr d));
           _ ← upd_nbr i (set_isrouter 0);
           _ ← upd_nbr i (set_nbr_netif netif);
           _ ← upd_nbr i (set_state ND6_INCOMPLETE);
           _ ← upd_nbr i (set_counter 1);
           _ ← nd6_send_neighbor_cache_probe i ND6_SEND_FLAG_MULTICAST_DEST;
           mret ERR_OK);
  if negb (r =? ERR_OK) then mret r
  else
    _ ← upd_dest dest (set_age 0);
    d ← get_dest dest;
    mret (cached_neighbor_idx d).

Definition nd6_get_next_hop_entry (ip6addr : ip6_addr) (netif : Z) : uio Z :=
  s ← nd;
  _ ← io_assert (nd6_cached_destination_index s <? LWIP_ND6_NUM_DESTINATIONS);
  d ← get_dest (nd6_cached_destination_index s);
  dest ← (if ip6_addr_eq ip6addr (destination_addr d) then mret (inl (nd6_cached_destination_index s))
          else destination_entry ip6addr netif);
  match dest with
  | inr err => mret err
  | inl dest => next_hop_entry dest netif
  end.

(** The result and [*hwaddrp], NULL as [None]. *)
Definition nd6_get_next_hop_addr_or_queue (netif p : Z) (ip6addr : ip6_addr) : uio (Z * option (list Z)) :=
  i ← nd6_get_next_hop_entry ip6addr netif;
  if i <? 0 then mret (i, None)
  else
    e ← get_nbr i;
    _ ← io_when (state e =? ND6_STALE)
      (_ ← upd_nbr i (set_state ND6_DELAY);
       upd_nbr i (set_counter (LWIP_ND6_DELAY_FIRST_PROBE_TIME / ND6_TMR_INTERVAL)));
    e ← get_nbr i;
    if (state e =? ND6_REACHABLE) || (state e =? ND6_DELAY) || (state e =? ND6_PROBE) then
      mret (ERR_OK, Some (lladdr e))
    else
      r ← nd6_queue_packet i p;
      mret (r, None).

Definition nd6_get_destination_mtu (ip6addr : ip6_addr) (netif : Z) : uio Z :=
  i ← nd6_find_destination_cache_entry ip6addr;
  known ← (if 0 <=? i then d ← get_dest i; mret (pmtu d) else mret 0);
  if 0 <? known then mret known
  else if negb (netif =? 0) then n ← get_netif netif; mret (mtu6 n)
  else mret IP6_MIN_MTU_LENGTH.

(* ------------------------------------------------------------------ *)
(** * The timer *)

(** Solicit again, or give up. *)
Definition probe_or_free (i flags : Z) : uio unit :=
  e ← get_nbr i;
  if (LWIP_ND6_MAX_MULTICAST_SOLICIT <=? counter e) && (isrouter e =? 0) then nd6_free_neighbor_cache_entry i
  else
    _ ← upd_nbr i (fun e => set_counter (counter e + 1) e);
    nd6_send_neighbor_cache_probe i flags.

Definition tmr_neighbor (i : Z) : uio unit :=
  e ← get_nbr i;
  let s := state e in
  if s =? ND6_INCOMPLETE then probe_or_free i ND6_SEND_FLAG_MULTICAST_DEST
  else if s =? ND6_REACHABLE then
    _ ← io_when (negb (q e =? 0)) (nd6_send_q i);
    e ← get_nbr i;
    if counter e <=? ND6_TMR_INTERVAL then
      _ ← upd_nbr i (set_state ND6_STALE);
      upd_nbr i (set_counter 0)
    else upd_nbr i (set_counter (counter e - ND6_TMR_INTERVAL))
  else if s =? ND6_STALE then upd_nbr i (set_counter (counter e + 1))
  else if s =? ND6_DELAY then
    if counter e <=? 1 then
      _ ← upd_nbr i (set_state ND6_PROBE);
      upd_nbr i (set_counter 0)
    else upd_nbr i (set_counter (counter e - 1))
  else if s =? ND6_PROBE then probe_or_free i 0
  else mret tt.

Definition tmr_destination (i : Z) : uio unit := upd_dest i (fun d => set_age (age d + 1) d).

Definition tmr_router (i : Z) : uio unit :=
  r ← get_router i;
  match neighbor_entry r with
  | None => mret tt
  | Some k =>
      if router_timer r <=? ND6_TMR_INTERVAL / 1000 then
        _ ← for_from (Z.to_nat LWIP_ND6_NUM_DESTINATIONS)
              (fun j =>
                 d ← get_dest j;
                 e ← get_nbr k;
                 io_when (ip6_addr_eq (next_hop_addr d) (next_hop_address e))
                   (upd_dest j (set_destination_addr IP6_ADDR_ANY6))) 0;
        _ ← upd_nbr k (set_isrouter 0);
        _ ← upd_router i (set_neighbor_entry None);
        _ ← upd_router i (set_router_timer 0);
        upd_router i (set_router_flags 0)
      else upd_router i (set_router_timer (router_timer r - ND6_TMR_INTERVAL / 1000))
  end.

Definition tmr_prefix (i : Z) : uio unit :=
  e ← get_prefix i;
  if negb (prefix_netif e =? 0) then
    if prefix_timer e <=? ND6_TMR_INTERVAL / 1000 then
      _ ← upd_prefix i (set_prefix_timer 0);
      upd_prefix i (set_prefix_netif 0)
    else upd_prefix i (set_prefix_timer (prefix_timer e - ND6_TMR_INTERVAL / 1000))
  else mret tt.

(** Duplicate address detection for one address. *)
Definition tmr_address (netif i : Z) : uio unit :=
  addr_state ← netif_ip6_addr_state netif i;
  if ip6_addr_istentative addr_state then
    if LWIP_IPV6_DUP_DETECT_ATTEMPTS <=? Z.land addr_state IP6_ADDR_TENTATIVE_COUNT_MASK then
      netif_ip6_addr_set_state netif i IP6_ADDR_PREFERRED
    else
      n ← get_netif netif;
      if netif_is_up n && netif_is_link_up n then
        _ ← netif_ip6_addr_set_state netif i (u8 (addr_state + 1));
        a ← netif_ip6_addr netif i;
        nd6_send_ns netif a (Z.lor ND6_SEND_FLAG_MULTICAST_DEST ND6_SEND_FLAG_ANY_SRC)
      else mret tt
  else mret tt.

Definition tmr_solicit (netif : Z) : uio unit :=
  n ← get_netif netif;
  state0 ← netif_ip6_addr_state netif 0;
  io_when ((0 <? rs_count n) && netif_is_up n && netif_is_link_up n &&
           negb (ip6_addr_isinvalid state0) && negb (ip6_addr_isduplicated state0))
    (err ← nd6_send_rs netif;
     io_when (err =? ERR_OK) (upd_netif netif (fun n => set_rs_count (rs_count n - 1) n))).

Definition nd6_tmr : uio unit :=
  _ ← for_from (Z.to_nat LWIP_ND6_NUM_NEIGHBORS) tmr_neighbor 0;
  _ ← for_from (Z.to_nat LWIP_ND6_NUM_DESTINATIONS) tmr_destination 0;
  _ ← for_from (Z.to_nat LWIP_ND6_NUM_ROUTERS) tmr_router 0;
  _ ← for_from (Z.to_nat LWIP_ND6_NUM_PREFIXES) tmr_prefix 0;
  netif ← the_default;
  _ ← io_when (negb (netif =? 0)) (for_from (Z.to_nat LWIP_IPV6_NUM_ADDRESSES) (tmr_address netif) 0);
  s ← nd;
  if nd6_tmr_rs_reduction s =? 0 then
    _ ← upd_nd (set_rs_reduction (ND6_RTR_SOLICITATION_INTERVAL / ND6_TMR_INTERVAL - 1));
    netif ← the_default;
    io_when (negb (netif =? 0)) (tmr_solicit netif)
  else upd_nd (set_rs_reduction (nd6_tmr_rs_reduction s - 1)).

(* ------------------------------------------------------------------ *)
(** * Interfaces coming and going *)

Definition cleanup_router (i router_index : Z) : uio unit :=
  r ← get_router router_index;
  io_when (bool_decide (neighbor_entry r = Some i))
    (_ ← upd_router router_index (set_neighbor_entry None);
     upd_router router_index (set_router_flags 0)).

Definition nd6_cleanup_netif (netif : Z) : uio unit :=
  _ ← for_from (Z.to_nat LWIP_ND6_NUM_PREFIXES)
        (fun i => e ← get_prefix i; io_when (prefix_netif e =? netif) (upd_prefix i (set_prefix_netif 0))) 0;
  _ ← for_from (Z.to_nat LWIP_ND6_NUM_NEIGHBORS)
        (fun i =>
           e ← get_nbr i;
           io_when (nbr_netif e =? netif)
             (_ ← for_from (Z.to_nat LWIP_ND6_NUM_ROUTERS) (cleanup_router i) 0;
              _ ← upd_nbr i (set_isrouter 0);
              nd6_free_neighbor_cache_entry i)) 0;
  nd6_clear_destination_cache.

Definition nd6_restart_netif (netif : Z) : uio unit :=
  upd_netif netif (set_rs_count LWIP_ND6_MAX_MULTICAST_SOLICIT).

Definition nd6_duplicate_addr_detected (netif addr_idx : Z) : uio unit :=
  netif_ip6_addr_set_state netif addr_idx IP6_ADDR_DUPLICATED.
End Nd6.
