(* ===== verification/Nd6In.v ===== *)
(** Neighbour discovery messages received: [nd6_input] of core/ipv6/nd6.c,
    without autoconfiguration, DHCPv6 and DNS servers. *)

From Stdlib Require Import ZArith Lia.
From stdpp Require Import base list numbers gmap.
From S2P Require Import Prelude Mmio Mem Memp Pbuf Ip6Addr Chksum Udp Netif Ip6Out Mld6 Addrs Nd6.

Open Scope Z_scope.

Definition ICMP6_TYPE_PTB : Z := 2.
Definition ICMP6_HLEN : Z := 8.
Definition SIZEOF_RA_HEADER : Z := 16.
Definition SIZEOF_REDIRECT_HEADER : Z := 40.
Definition SIZEOF_LLADDR_OPTION : Z := 8.
Definition SIZEOF_MTU_OPTION : Z := 8.
Definition SIZEOF_PREFIX_OPTION : Z := 32.
(** [sizeof(union ra_options)]. *)
Definition SIZEOF_RA_OPTIONS : Z := 32.
Definition ND6_OPTION_TYPE_PREFIX_INFO : Z := 0x03.
Definition ND6_OPTION_TYPE_MTU : Z := 0x05.
Definition ND6_OPTION_TYPE_RDNSS : Z := 25.
Definition ND6_PREFIX_FLAG_ON_LINK : Z := 0x80.

(** The fields of [struct ra_header] and [struct redirect_header]. *)
Definition RA_flags : Z := 5.
Definition RA_router_lifetime : Z := 6.
Definition RA_reachable_time : Z := 8.
Definition RA_retrans_timer : Z := 12.
Definition RD_target_address : Z := 8.
Definition RD_destination_address : Z := 24.

(** How a message ends: the packet is always freed. *)
Inductive nd_verdict := Processed | Dropped.

(** Words of a buffer, big-endian. *)
Definition buf32 (l : list Z) (i : Z) : outcome Z :=
  b0 ← rd l i; b1 ← rd l (i + 1); b2 ← rd l (i + 2); b3 ← rd l (i + 3); Ok (be32 b0 b1 b2 b3).
Definition buf_addr (l : list Z) (i : Z) : outcome ip6_addr :=
  w0 ← buf32 l i; w1 ← buf32 l (i + 4); w2 ← buf32 l (i + 8); w3 ← buf32 l (i + 12); Ok (IP6_ADDR w0 w1 w2 w3).

Section Nd6In.
Context {PP RP HP UP QP MP DV : Type} `{PoolOps PP} `{PoolOps RP} `{HeapOps HP} `{PoolOps QP} `{PoolOps MP}.
Abbreviation st := (net PP RP HP UP (ipst QP MP DV)).
Context {HK : Hooks st}.
Abbreviation uio := (io st).

(** [IP6H_HOPLIM(ip6_current_header())]. *)
Definition current_hoplim : uio Z := g ← globals; read8 (current_ip6_header g + IP6H_hoplim).

(** [MEMCPY(neighbor_cache[i].lladdr, lladdr_opt->addr, inp->hwaddr_len)]. *)
Definition copy_lladdr (i opt inp : Z) : uio unit :=
  n ← get_netif inp;
  l ← read_bytes (opt + OPT_addr) (hwaddr_len n);
  e ← get_nbr i;
  l ← tries (fun _ => wr_block (lladdr e) 0 l);
  upd_nbr i (set_lladdr l).

(** Reachability is not proved: a probe is due later. *)
Definition delay_probe (i : Z) : uio unit :=
  _ ← upd_nbr i (set_state ND6_DELAY);
  upd_nbr i (set_counter (LWIP_ND6_DELAY_FIRST_PROBE_TIME / ND6_TMR_INTERVAL)).

(** Whether an option behind a header of [hlen] bytes is in the first pbuf. *)
Definition opt_fits (b : pbuf) (hlen : Z) : uio bool :=
  if len b <? hlen + 2 then mret false
  else
    length ← read8 (payload b + hlen + OPT_length);
    mret (negb (len b <? hlen + Z.shiftl length 3)).

(* ------------------------------------------------------------------ *)
(** * Neighbour advertisements *)

Definition na_unsolicited (b : pbuf) (inp : Z) (target_address : ip6_addr) : uio nd_verdict :=
  n ← get_netif inp;
  let dup := find_slot (fun st a => negb (ip6_addr_isinvalid st) && negb (ip6_addr_isduplicated st) &&
                                    ip6_addr_eq target_address a) n in
  if 0 <=? dup then _ ← nd6_duplicate_addr_detected inp dup; mret Processed
  else
    fits ← opt_fits b SIZEOF_NA_HEADER;
    if negb fits then mret Dropped
    else
      let lladdr_opt := payload b + SIZEOF_NA_HEADER in
      i ← nd6_find_neighbor_cache_entry target_address;
      flags ← read8 (payload b + ND_word);
      _ ← io_when ((0 <=? i) && negb (Z.land flags ND6_FLAG_OVERRIDE =? 0)) (copy_lladdr i lladdr_opt inp);
      mret Processed.

Definition na_solicited (b : pbuf) (inp : Z) (target_address : ip6_addr) : uio nd_verdict :=
  i ← nd6_find_neighbor_cache_entry target_address;
  if i <? 0 then mret Dropped
  else
    flags ← read8 (payload b + ND_word);
    e ← get_nbr i;
    let update := negb (Z.land flags ND6_FLAG_OVERRIDE =? 0) || (state e =? ND6_INCOMPLETE) in
    fits ← (if update then opt_fits b SIZEOF_NA_HEADER else mret true);
    if negb fits then mret Dropped
    else
      _ ← io_when update (copy_lladdr i (payload b + SIZEOF_NA_HEADER) inp);
      s ← nd;
      _ ← upd_nbr i (set_nbr_netif inp);
      _ ← upd_nbr i (set_state ND6_REACHABLE);
      _ ← upd_nbr i (set_counter (reachable_time s));
      e ← get_nbr i;
      _ ← io_when (negb (q e =? 0)) (nd6_send_q i);
      mret Processed.

Definition na_input (p inp : Z) : uio nd_verdict :=
  b ← pb p;
  if len b <? SIZEOF_NA_HEADER then mret Dropped
  else
    target_address ← read_addr (payload b + ND_target_address);
    hoplim ← current_hoplim;
    code ← read8 (payload b + ND_code);
    if negb (hoplim =? ND6_HOPLIM) || negb (code =? 0) || ip6_addr_ismulticast target_address then mret Dropped
    else
      dest ← ip6_current_dest_addr;
      if ip6_addr_ismulticast dest then na_unsolicited b inp target_address
      else na_solicited b inp target_address.

(* ------------------------------------------------------------------ *)
(** * Neighbour solicitations *)

(** Duplicate address detection by another node: slot [i] of [inp]. *)
Definition dad_answer (inp : Z) (target_address : ip6_addr) (i : Z) : uio unit :=
  s ← netif_ip6_addr_state inp i;
  a ← netif_ip6_addr inp i;
  io_when (negb (ip6_addr_isinvalid s) && ip6_addr_eq target_address a)
    (_ ← nd6_send_na inp a (Z.lor ND6_FLAG_OVERRIDE ND6_SEND_FLAG_ALLNODES_DEST);
     s ← netif_ip6_addr_state inp i;
     io_when (ip6_addr_istentative s) (nd6_duplicate_addr_detected inp i)).

(** The solicitor's entry; false when there is no room for it. *)
Definition learn_solicitor (inp opt : Z) (src : ip6_addr) : uio bool :=
  i ← nd6_find_neighbor_cache_entry src;
  if 0 <=? i then
    e ← get_nbr i;
    _ ← io_when (state e =? ND6_INCOMPLETE)
          (_ ← upd_nbr i (set_nbr_netif inp);
           _ ← copy_lladdr i opt inp;
           delay_probe i);
    mret true
  else
    i ← nd6_new_neighbor_cache_entry;
    if i <? 0 then mret false
    else
      _ ← upd_nbr i (set_nbr_netif inp);
      _ ← copy_lladdr i opt inp;
      _ ← upd_nbr i (set_next_hop_address src);
      _ ← delay_probe i;
      mret true.

Definition ns_input (p inp : Z) : uio nd_verdict :=
  b ← pb p;
  if len b <? SIZEOF_NS_HEADER then mret Dropped
  else
    target_address ← read_addr (payload b + ND_target_address);
    hoplim ← current_hoplim;
    code ← read8 (payload b + ND_code);
    if negb (hoplim =? ND6_HOPLIM) || negb (code =? 0) || ip6_addr_ismulticast target_address then mret Dropped
    else
      has_opt ← opt_fits b SIZEOF_NS_HEADER;
      src ← ip6_current_src_addr;
      n ← get_netif inp;
      let accepted := find_slot (fun st a => (ip6_addr_isvalid st || (ip6_addr_istentative st && ip6_addr_isany_val src)) &&
                                             ip6_addr_eq target_address a) n in
      if accepted <? 0 then mret Dropped
      else if ip6_addr_isany_val src then
        _ ← for_from (Z.to_nat LWIP_IPV6_NUM_ADDRESSES) (dad_answer inp target_address) 0;
        mret Processed
      else if negb has_opt then mret Dropped
      else
        known ← learn_solicitor inp (payload b + SIZEOF_NS_HEADER) src;
        if negb known then mret Dropped
        else
          _ ← nd6_send_na inp target_address (Z.lor ND6_FLAG_SOLICITED ND6_FLAG_OVERRIDE);
          mret Processed.

(* ------------------------------------------------------------------ *)
(** * Router advertisements *)

(** The source link-layer address resolves the router. *)
Definition ra_lladdr (inp i : Z) (buffer : list Z) : uio unit :=
  r ← get_router i;
  match neighbor_entry r with
  | None => mret tt
  | Some k =>
      e ← get_nbr k;
      io_when (state e =? ND6_INCOMPLETE)
        (n ← get_netif inp;
         l ← tries (fun _ => rd_block buffer OPT_addr (hwaddr_len n));
         l ← tries (fun _ => wr_block (lladdr e) 0 l);
         s ← nd;
         _ ← upd_nbr k (set_lladdr l);
         _ ← upd_nbr k (set_state ND6_REACHABLE);
         upd_nbr k (set_counter (reachable_time s)))
  end.

Definition ra_mtu (inp : Z) (buffer : list Z) : uio unit :=
  mtu32 ← tries (fun _ => buf32 buffer 4);
  io_when ((IP6_MIN_MTU_LENGTH <=? mtu32) && (mtu32 <=? 0xffff))
    (n ← get_netif inp;
     upd_netif inp
       (set_mtu6 (if negb (mtu n =? 0) then Z.min (Z.min (mtu n) (mtu6 n)) (u16 mtu32) else u16 mtu32))).

Definition ra_prefix (inp : Z) (buffer : list Z) : uio unit :=
  prefix_addr ← tries (fun _ => buf_addr buffer 16);
  prefix_length ← tries (fun _ => rd buffer 2);
  flags ← tries (fun _ => rd buffer 3);
  if negb (ip6_addr_islinklocal prefix_addr) && negb (Z.land flags ND6_PREFIX_FLAG_ON_LINK =? 0) &&
     (prefix_length =? 64)
  then
    valid_life ← tries (fun _ => buf32 buffer 4);
    k ← nd6_get_onlink_prefix prefix_addr inp;
    k ← (if (k <? 0) && (0 <? valid_life) then nd6_new_onlink_prefix prefix_addr inp else mret k);
    io_when (0 <=? k) (upd_prefix k (set_prefix_timer valid_life))
  else mret tt.

(** One option in [buffer]; false for one shorter than its kind. *)
Definition ra_option (inp i option_len : Z) (buffer : list Z) : uio bool :=
  option_type ← tries (fun _ => rd buffer 0);
  if option_type =? ND6_OPTION_TYPE_SOURCE_LLADDR then
    if option_len <? SIZEOF_LLADDR_OPTION then mret false else _ ← ra_lladdr inp i buffer; mret true
  else if option_type =? ND6_OPTION_TYPE_MTU then
    if option_len <? SIZEOF_MTU_OPTION then mret false else _ ← ra_mtu inp buffer; mret true
  else if option_type =? ND6_OPTION_TYPE_PREFIX_INFO then
    if option_len <? SIZEOF_PREFIX_OPTION then mret false else _ ← ra_prefix inp buffer; mret true
  else mret true.

(** The option at [offset] of [option_len] bytes: in place, or a copy that is
    cut at the buffer's size for the options that may be longer. What the
    static buffer held before is never read: the copy starts from zeros. *)
Definition ra_buffer (p : Z) (b : pbuf) (offset option_len : Z) : uio (option (Z * list Z)) :=
  if len b =? tot_len b then
    l ← read_bytes (payload b + offset) option_len;
    mret (Some (option_len, l))
  else
    invalid ←
      (if SIZEOF_RA_OPTIONS <? option_len then
         type ← tries (fun s => pbuf_get_at (pbufs (n_heap s)) (bytes (n_heap s)) p offset);
         mret (negb (type =? ND6_OPTION_TYPE_RDNSS))
       else mret false);
    if invalid : bool then mret None
    else
      '(n, data) ← tries (fun s =>
        pbuf_copy_partial (pbufs (n_heap s)) (bytes (n_heap s)) p (Some (replicate (Z.to_nat SIZEOF_RA_OPTIONS) 0))
          (Z.min option_len SIZEOF_RA_OPTIONS) offset);
      mret (match data with Some l => Some (n, l) | None => None end).

(** [while ((p->tot_len - offset) >= 2)]; false is the jump to the error. *)
Fixpoint ra_options_loop (fuel : nat) (p inp i offset : Z) : uio bool :=
  b ← pb p;
  if tot_len b - offset <? 2 then mret true
  else
    option_len8 ← tries (fun s => pbuf_try_get_at (pbufs (n_heap s)) (bytes (n_heap s)) p (u16 (offset + 1)));
    if option_len8 <=? 0 then mret false
    else
      let option_len := u16 (Z.shiftl (u8 option_len8) 3) in
      if tot_len b - offset <? option_len then mret false
      else
        r ← ra_buffer p b offset option_len;
        match r with
        | None => mret false
        | Some (n, buffer) =>
            ok ← ra_option inp i n buffer;
            if negb ok then mret false
            else
              match fuel with
              | O => io_fault Diverges
              | S fuel => ra_options_loop fuel p inp i (u16 (offset + 8 * u8 option_len8))
              end
        end.

(** A router of the sender's address, found or new; -1 for none. *)
Definition ra_router (inp : Z) : uio Z :=
  src ← ip6_current_src_addr;
  i ← nd6_get_router src inp;
  if i <? 0 then nd6_new_router src inp else mret i.

(** At least one solicitation is sent. *)
Definition ra_stop_solicitation (inp : Z) : uio unit :=
  n ← get_netif inp;
  stop ← (if rs_count n <? LWIP_ND6_MAX_MULTICAST_SOLICIT then mret true
          else err ← nd6_send_rs inp; mret (err =? ERR_OK));
  upd_netif inp (set_rs_count (if stop : bool then 0 else 1)).

Definition ra_input (p inp : Z) : uio nd_verdict :=
  b ← pb p;
  if len b <? SIZEOF_RA_HEADER then mret Dropped
  else
    let ra_hdr := payload b in
    src ← ip6_current_src_addr;
    hoplim ← current_hoplim;
    code ← read8 (ra_hdr + ND_code);
    if negb (ip6_addr_islinklocal src) || negb (hoplim =? ND6_HOPLIM) || negb (code =? 0) then mret Dropped
    else
      _ ← ra_stop_solicitation inp;
      i ← ra_router inp;
      if i <? 0 then mret Dropped
      else
        lifetime ← read16 (ra_hdr + RA_router_lifetime);
        _ ← upd_router i (set_router_timer lifetime);
        retrans ← read32 (ra_hdr + RA_retrans_timer);
        _ ← io_when (0 <? retrans) (upd_nd (set_retrans_timer retrans));
        reachable ← read32 (ra_hdr + RA_reachable_time);
        _ ← io_when (0 <? reachable) (upd_nd (set_reachable_time reachable));
        flags ← read8 (ra_hdr + RA_flags);
        _ ← upd_router i (set_router_flags flags);
        ok ← ra_options_loop (Z.to_nat (tot_len b)) p inp i SIZEOF_RA_HEADER;
        mret (if ok : bool then Processed else Dropped).

(* ------------------------------------------------------------------ *)
(** * Redirects and Packet Too Big *)

(** The new next hop's link-layer address. *)
Definition redirect_neighbor (inp opt : Z) (target_address : ip6_addr) : uio unit :=
  i ← nd6_find_neighbor_cache_entry target_address;
  i ← (if i <? 0 then
         i ← nd6_new_neighbor_cache_entry;
         _ ← io_when (0 <=? i)
               (_ ← upd_nbr i (set_nbr_netif inp);
                _ ← copy_lladdr i opt inp;
                _ ← upd_nbr i (set_next_hop_address target_address);
                delay_probe i);
         mret i
       else mret i);
  if 0 <=? i then
    e ← get_nbr i;
    io_when (state e =? ND6_INCOMPLETE) (_ ← copy_lladdr i opt inp; delay_probe i)
  else mret tt.

Definition rd_input (p inp : Z) : uio nd_verdict :=
  b ← pb p;
  if len b <? SIZEOF_REDIRECT_HEADER then mret Dropped
  else
    let redir_hdr := payload b in
    destination_address ← read_addr (redir_hdr + RD_destination_address);
    src ← ip6_current_src_addr;
    hoplim ← current_hoplim;
    code ← read8 (redir_hdr + ND_code);
    if negb (ip6_addr_islinklocal src) || negb (hoplim =? ND6_HOPLIM) || negb (code =? 0) ||
       ip6_addr_ismulticast destination_address then mret Dropped
    else
      has_opt ← opt_fits b SIZEOF_REDIRECT_HEADER;
      dest_idx ← nd6_find_destination_cache_entry destination_address;
      if dest_idx <? 0 then mret Dropped
      else
        target_address ← read_addr (redir_hdr + RD_target_address);
        _ ← upd_dest dest_idx (set_next_hop_addr target_address);
        if has_opt : bool then
          type ← read8 (redir_hdr + SIZEOF_REDIRECT_HEADER + OPT_type);
          _ ← io_when (type =? ND6_OPTION_TYPE_TARGET_LLADDR)
                (redirect_neighbor inp (redir_hdr + SIZEOF_REDIRECT_HEADER) target_address);
          mret Processed
        else mret Processed.

Definition ptb_input (p inp : Z) : uio nd_verdict :=
  b ← pb p;
  if len b <? ICMP6_HLEN + IP6_HLEN then mret Dropped
  else
    destination_address ← read_addr (payload b + ICMP6_HLEN + IP6H_dest);
    dest_idx ← nd6_find_destination_cache_entry destination_address;
    if dest_idx <? 0 then mret Dropped
    else
      pmtu ← read32 (payload b + ND_word);
      _ ← upd_dest dest_idx (set_pmtu (Z.min pmtu 0xFFFF));
      mret Processed.

Definition nd6_input (p inp : Z) : uio unit :=
  b ← pb p;
  msg_type ← read8 (payload b);
  _ ← (if msg_type =? ICMP6_TYPE_NA then na_input p inp
       else if msg_type =? ICMP6_TYPE_NS then ns_input p inp
       else if msg_type =? ICMP6_TYPE_RA then ra_input p inp
       else if msg_type =? ICMP6_TYPE_RD then rd_input p inp
       else if msg_type =? ICMP6_TYPE_PTB then ptb_input p inp
       else mret Dropped);
  Udp.free p.
End Nd6In.
