(* ===== verification/Icmp6.v ===== *)
(** ICMPv6: core/ipv6/icmp6.c. *)

From Stdlib Require Import ZArith Lia.
From stdpp Require Import base list numbers gmap.
From S2P Require Import Prelude Mmio Mem Memp Pbuf Ip6Addr Chksum Udp Netif Ip6Out Mld6 Addrs Nd6 Nd6In.

Open Scope Z_scope.

Definition ICMP6_TYPE_DUR : Z := 1.
Definition ICMP6_TYPE_TE : Z := 3.
Definition ICMP6_TYPE_PP : Z := 4.
Definition ICMP6_TYPE_EREQ : Z := 128.
Definition ICMP6_TYPE_EREP : Z := 129.
Definition ICMP6_DUR_PORT : Z := 4.
Definition ICMP6_PP_FIELD : Z := 0.
Definition ICMP6_PP_HEADER : Z := 1.
Definition ICMP6_PP_OPTION : Z := 2.
Definition LWIP_ICMP6_HL : Z := 255.
Definition LWIP_ICMP6_DATASIZE : Z := IP6_MIN_MTU_LENGTH - IP6_HLEN - ICMP6_HLEN.

(** [struct icmp6_hdr]. *)
Definition ICMPH_type : Z := 0.
Definition ICMPH_code : Z := 1.
Definition ICMPH_chksum : Z := 2.
Definition ICMPH_data : Z := 4.

Section Icmp6.
Context {PP RP HP UP QP MP DV : Type} `{PoolOps PP} `{PoolOps RP} `{HeapOps HP} `{PoolOps QP} `{PoolOps MP}.
Abbreviation st := (net PP RP HP UP (ipst QP MP DV)).
Context {HK : Hooks st}.
Abbreviation uio := (io st).

(** The bytes of [f]: the chain [p] copied into [q] from [offset] on. *)
Definition copy_into (q p copy_len offset : Z) : uio Z := fun s =>
  '(err, bs) ← pbuf_copy_partial_pbuf (pbufs (n_heap s)) (bytes (n_heap s)) q p copy_len offset;
  Ok (err, mk_net (set_bytes (fun _ => bs) (n_heap s)) (udp s) (udp_pool s) (lower s)).

(* ------------------------------------------------------------------ *)
(** * Errors *)

Definition icmp6_send_response_with_addrs_and_netif (p code data type : Z) (reply_src reply_dest : ip6_addr)
    (netif : Z) : uio unit :=
  b ← pb p;
  let datalen := Z.min (tot_len b) LWIP_ICMP6_DATASIZE in
  r ← on_pbufs (pbuf_alloc PBUF_IP (ICMP6_HLEN + datalen) PBUF_RAM);
  match r with
  | None => mret tt
  | Some q =>
      b ← pb q;
      _ ← io_assert (ICMP6_HLEN <=? len b);
      let icmp6hdr := payload b in
      _ ← write8 (icmp6hdr + ICMPH_type) type;
      _ ← write8 (icmp6hdr + ICMPH_code) code;
      _ ← write32 (icmp6hdr + ICMPH_data) data;
      _ ← copy_into q p datalen ICMP6_HLEN;
      _ ← store16 (icmp6hdr + ICMPH_chksum) 0;
      b ← pb q;
      c ← ip6_chksum q IP6_NEXTH_ICMP6 (tot_len b) reply_src reply_dest;
      _ ← store16 (icmp6hdr + ICMPH_chksum) c;
      _ ← ip6_output_if q (Some reply_src) (Some reply_dest) LWIP_ICMP6_HL 0 IP6_NEXTH_ICMP6 netif;
      Udp.free q
  end.

Definition icmp6_send_response (p code data type : Z) : uio unit :=
  g ← globals;
  let netif := current_netif g in
  _ ← io_assert (negb (netif =? 0));
  let reply_dest := current_iphdr_src g in
  reply_src ← ip6_select_source netif reply_dest;
  match reply_src with
  | None => mret tt
  | Some reply_src => icmp6_send_response_with_addrs_and_netif p code data type reply_src reply_dest netif
  end.

Definition icmp6_send_response_with_addrs (p code data type : Z) (src_addr dest_addr : ip6_addr) : uio unit :=
  let reply_dest := src_addr in
  let reply_src := dest_addr in
  netif ← ip6_route (Some reply_src) reply_dest;
  if netif =? 0 then mret tt
  else icmp6_send_response_with_addrs_and_netif p code data type reply_src reply_dest netif.

Definition icmp6_dest_unreach (p c : Z) : uio unit := icmp6_send_response p c 0 ICMP6_TYPE_DUR.
Definition icmp6_packet_too_big (p mtu : Z) : uio unit := icmp6_send_response p 0 mtu ICMP6_TYPE_PTB.
Definition icmp6_time_exceeded (p c : Z) : uio unit := icmp6_send_response p c 0 ICMP6_TYPE_TE.
Definition icmp6_time_exceeded_with_addrs (p c : Z) (src_addr dest_addr : ip6_addr) : uio unit :=
  icmp6_send_response_with_addrs p c 0 ICMP6_TYPE_TE src_addr dest_addr.
Definition icmp6_param_problem (p c pointer : Z) : uio unit :=
  g ← globals; icmp6_send_response p c (u32 (pointer - current_ip6_header g)) ICMP6_TYPE_PP.

(* ------------------------------------------------------------------ *)
(** * Messages received *)

(** The source of an echo reply: to a multicast request, the best for the
    requester. *)
Definition echo_source (inp : Z) : uio (option ip6_addr) :=
  g ← globals;
  if ip6_addr_ismulticast (current_iphdr_dest g) then ip6_select_source inp (current_iphdr_src g)
  else mret (Some (current_iphdr_dest g)).

(** The type and the checksum of the reply [r]. *)
Definition echo_fill (r : Z) (reply_src reply_dest : ip6_addr) : uio unit :=
  b ← pb r;
  _ ← write8 (payload b + ICMPH_type) ICMP6_TYPE_EREP;
  _ ← store16 (payload b + ICMPH_chksum) 0;
  c ← ip6_chksum r IP6_NEXTH_ICMP6 (tot_len b) reply_src reply_dest;
  store16 (payload b + ICMPH_chksum) c.

(** The reply to an echo request; the request is freed afterwards. *)
Definition echo_reply (p inp : Z) : uio unit :=
  b ← pb p;
  r ← on_pbufs (pbuf_alloc PBUF_IP (tot_len b) PBUF_RAM);
  match r with
  | None => mret tt
  | Some r =>
      err ← on_pbufs (pb_copy r p);
      if negb (err =? ERR_OK) then Udp.free r
      else
        reply_src ← echo_source inp;
        match reply_src with
        | None => Udp.free r
        | Some reply_src =>
            reply_dest ← ip6_current_src_addr;
            _ ← echo_fill r reply_src reply_dest;
            _ ← ip6_output_if r (Some reply_src) (Some reply_dest) LWIP_ICMP6_HL 0 IP6_NEXTH_ICMP6 inp;
            Udp.free r
        end
  end.

Definition is_nd (type : Z) : bool :=
  (type =? ICMP6_TYPE_NA) || (type =? ICMP6_TYPE_NS) || (type =? ICMP6_TYPE_RA) || (type =? ICMP6_TYPE_RD) ||
  (type =? ICMP6_TYPE_PTB).
Definition is_mld (type : Z) : bool :=
  (type =? ICMP6_TYPE_MLQ) || (type =? ICMP6_TYPE_MLR) || (type =? ICMP6_TYPE_MLD).

Definition icmp6_input (p inp : Z) : uio unit :=
  b ← pb p;
  if len b <? ICMP6_HLEN then Udp.free p
  else
    g ← globals;
    c ← ip6_chksum p IP6_NEXTH_ICMP6 (tot_len b) (current_iphdr_src g) (current_iphdr_dest g);
    if negb (c =? 0) then Udp.free p
    else
      type ← read8 (payload b + ICMPH_type);
      if is_nd type then nd6_input p inp
      else if is_mld type then mld6_input p inp
      else
        _ ← io_when (type =? ICMP6_TYPE_EREQ) (echo_reply p inp);
        Udp.free p.
End Icmp6.
