(* ===== verification/Ip6In.v ===== *)
(** Receiving: [ip6_input] of core/ipv6/ip6.c, without forwarding and
    reassembly. The packet's protocol gets it through [upper]. *)

From Stdlib Require Import ZArith Lia.
From stdpp Require Import base list numbers gmap.
From S2P Require Import Prelude Mmio Mem Memp Pbuf Ip6Addr Chksum Udp Netif Ip6Out Mld6 Addrs Nd6 Nd6In Icmp6.

Open Scope Z_scope.

Definition IP6_ROUT_TYPE2 : Z := 2.
Definition IP6_ROUT_RPL : Z := 3.
Definition IP6_DEST_HLEN : Z := 2.
Definition IP6_FRAG_OFFSET_MASK : Z := 0xfff8.
Definition IP6_FRAG_MORE_FLAG : Z := 0x0001.

(** [IP6H_V]. *)
Definition IP6H_V (v_tc_fl : Z) : Z := Z.land (Z.shiftr v_tc_fl 28) 0x0f.
(** [IP6_OPT_TYPE_ACTION]. *)
Definition IP6_OPT_TYPE_ACTION (t : Z) : Z := Z.land (Z.shiftr t 6) 0x3.

(** What becomes of a packet on the way through its extension headers. *)
Inductive ext :=
| Next (nexth hlen_tot : Z)  (* on to the next header *)
| Done (nexth hlen_tot : Z)  (* [goto options_done] *)
| Drop.                      (* freed, [goto ip6_input_cleanup] *)

(** The option types that are skipped over whatever they are. *)
Definition known_option (dest_hdr : bool) (t : Z) : bool :=
  (t =? IP6_PADN_OPTION) || (t =? IP6_ROUTER_ALERT_OPTION) || (t =? IP6_JUMBO_OPTION) ||
  (dest_hdr && (t =? IP6_HOME_ADDRESS_OPTION)).

Section Ip6In.
Context {PP RP HP UP QP MP DV : Type} `{PoolOps PP} `{PoolOps RP} `{HeapOps HP} `{PoolOps QP} `{PoolOps MP}.
Abbreviation st := (net PP RP HP UP (ipst QP MP DV)).
Context {HK : Hooks st}.
Abbreviation uio := (io st).

(** [udp_input] and [icmp6_input]. *)
Variable udp_input icmp6_input : Z -> Z -> uio unit.

(** [ip6_input_accept]. *)
Definition ip6_input_accept (netif : Z) : uio bool :=
  n ← get_netif netif;
  dest ← ip6_current_dest_addr;
  mret (netif_is_up n && (0 <=? find_slot (fun st a => ip6_addr_isvalid st && ip6_addr_eq dest a) n)).

(** The interface the packet is for; NULL is 0. *)
Definition input_netif (inp : Z) : uio Z :=
  dest ← ip6_current_dest_addr;
  if ip6_addr_ismulticast dest then
    if ip6_addr_isallnodes_iflocal dest || ip6_addr_isallnodes_linklocal dest then mret inp
    else group ← mld6_lookfor_group inp dest; mret (if negb (group =? 0) then inp else 0)
  else
    accept ← ip6_input_accept inp;
    mret (if accept : bool then inp else 0).

(** [while (opt_offset < hlen)]: false when an option has the packet dropped. *)
Fixpoint options_loop (fuel : nat) (p hdr hlen opt_offset : Z) (dest_hdr : bool) : uio bool :=
  if opt_offset <? hlen then
    let opt_hdr := hdr + opt_offset in
    type ← read8 opt_hdr;
    r ←
      (if type =? IP6_PAD1_OPTION then mret (Some (-1))
       else if known_option dest_hdr type || (IP6_OPT_TYPE_ACTION type =? 0) then
         dlen ← read8 (opt_hdr + 1); mret (Some dlen)
       else
         dest ← ip6_current_dest_addr;
         let action := IP6_OPT_TYPE_ACTION type in
         _ ← io_when ((action =? 2) || ((action =? 3) && negb (ip6_addr_ismulticast dest)))
               (icmp6_param_problem p ICMP6_PP_OPTION opt_hdr);
         mret None);
    match r with
    | None => mret false
    | Some opt_dlen =>
        match fuel with
        | O => io_fault Diverges
        | S fuel => options_loop fuel p hdr hlen (opt_offset + IP6_OPT_HLEN + opt_dlen) dest_hdr
        end
    end
  else mret true.

(** A header with options: hop-by-hop or destination. The next header is read
    after the header has been removed, at its old address. *)
Definition options_header (p hlen_tot : Z) (dest_hdr : bool) : uio ext :=
  b ← pb p;
  let hdr := payload b in
  _hlen ← read8 (hdr + 1);
  let hlen := u16 (8 * (1 + _hlen)) in
  if (len b <? 8) || (len b <? hlen) then _ ← Udp.free p; mret Drop
  else
    let hlen_tot := u16 (hlen_tot + hlen) in
    ok ← options_loop (Z.to_nat hlen) p hdr hlen (if dest_hdr then IP6_DEST_HLEN else IP6_HBH_HLEN) dest_hdr;
    if negb ok then _ ← Udp.free p; mret Drop
    else _ ← remove_header p hlen; mret (Next hdr hlen_tot).

Definition param_problem_drop (p c pointer : Z) : uio ext :=
  _ ← icmp6_param_problem p c pointer; _ ← Udp.free p; mret Drop.

Definition routing_header (p hlen_tot : Z) : uio ext :=
  b ← pb p;
  let hdr := payload b in
  _hlen ← read8 (hdr + 1);
  let hlen := u16 (8 * (1 + _hlen)) in
  if (len b <? 8) || (len b <? hlen) then _ ← Udp.free p; mret Drop
  else
    let hlen_tot := u16 (hlen_tot + hlen) in
    seg_left ← read8 (hdr + 3);
    type ← read8 (hdr + 2);
    if negb (seg_left =? 0) && negb (Z.land _hlen 0x1 =? 0) then param_problem_drop p ICMP6_PP_FIELD (hdr + 1)
    else if negb (seg_left =? 0) && negb ((type =? IP6_ROUT_TYPE2) || (type =? IP6_ROUT_RPL)) then
      param_problem_drop p ICMP6_PP_FIELD (hdr + 2)
    else _ ← remove_header p hlen; mret (Next hdr hlen_tot).

Definition fragment_header (p ip6hdr hlen_tot : Z) : uio ext :=
  b ← pb p;
  let hdr := payload b in
  let hlen := 8 in
  if len b <? hlen then _ ← Udp.free p; mret Drop
  else
    let hlen_tot := u16 (hlen_tot + hlen) in
    offset ← read16 (hdr + 2);
    plen ← read16 (ip6hdr + IP6H_plen);
    if negb (Z.land offset 0x1 =? 0) && negb (Z.land plen 0x7 =? 0) then
      param_problem_drop p ICMP6_PP_FIELD (ip6hdr + IP6H_plen)
    else if Z.land offset (Z.lor IP6_FRAG_OFFSET_MASK IP6_FRAG_MORE_FLAG) =? 0 then
      _ ← remove_header p hlen; mret (Next hdr hlen_tot)
    else _ ← Udp.free p; mret Drop.

(** One turn of [while ( *nexth != IP6_NEXTH_NONE)] and the check at its
    end; [nexth] is the address of the next header's number. *)
Definition ext_header (p ip6hdr nexth hlen_tot : Z) : uio ext :=
  t ← read8 nexth;
  r ←
    (if t =? IP6_NEXTH_HOPBYHOP then options_header p hlen_tot false
     else if t =? IP6_NEXTH_DESTOPTS then options_header p hlen_tot true
     else if t =? IP6_NEXTH_ROUTING then routing_header p hlen_tot
     else if t =? IP6_NEXTH_FRAGMENT then fragment_header p ip6hdr hlen_tot
     else mret (Done nexth hlen_tot));
  match r with
  | Next nexth hlen_tot =>
      t ← read8 nexth;
      if t =? IP6_NEXTH_HOPBYHOP then param_problem_drop p ICMP6_PP_HEADER nexth else mret r
  | _ => mret r
  end.

(** The headers in turn: where the last header's number is, or [None] when
    the packet was dropped. *)
Fixpoint ext_loop (fuel : nat) (p ip6hdr nexth hlen_tot : Z) : uio (option (Z * Z)) :=
  t ← read8 nexth;
  if t =? IP6_NEXTH_NONE then mret (Some (nexth, hlen_tot))
  else
    r ← ext_header p ip6hdr nexth hlen_tot;
    match r with
    | Drop => mret None
    | Done nexth hlen_tot => mret (Some (nexth, hlen_tot))
    | Next nexth hlen_tot =>
        match fuel with
        | O => io_fault Diverges
        | S fuel => ext_loop fuel p ip6hdr nexth hlen_tot
        end
    end.

(** The switch behind [options_done]. *)
Definition ip6_deliver (p inp ip6hdr nexth hlen_tot : Z) : uio unit :=
  _ ← upd_globals (set_current_tot_len hlen_tot);
  t ← read8 nexth;
  if t =? IP6_NEXTH_NONE then Udp.free p
  else if t =? IP6_NEXTH_UDP then udp_input p inp
  else if t =? IP6_NEXTH_ICMP6 then icmp6_input p inp
  else
    _ ← on_pbufs (pbuf_change (fun m => pbuf_add_header_force m p hlen_tot));
    dest ← ip6_current_dest_addr;
    first ← read8 (ip6hdr + IP6H_nexth);
    _ ← io_when (negb (ip6_addr_ismulticast dest) && negb (first =? IP6_NEXTH_ICMP6))
          (icmp6_param_problem p ICMP6_PP_HEADER nexth);
    Udp.free p.

(** [ip6_input_cleanup]. *)
Definition input_cleanup : uio unit :=
  upd_globals (fun _ => mk_globals 0 0 0 0 IP6_ADDR_ANY6 IP6_ADDR_ANY6).

(** From the choice of the interface on. *)
Definition input_accepted (p inp ip6hdr : Z) : uio unit :=
  netif ← input_netif inp;
  g ← globals;
  if ip6_addr_isany_val (current_iphdr_src g) && negb (ip6_addr_issolicitednode (current_iphdr_dest g)) then Udp.free p
  else if netif =? 0 then Udp.free p
  else
    _ ← upd_globals (set_current_netif netif);
    b ← pb p;
    _ ← remove_header p IP6_HLEN;
    r ← ext_loop (Z.to_nat (len b)) p ip6hdr (ip6hdr + IP6H_nexth) IP6_HLEN;
    match r with
    | None => mret tt
    | Some (nexth, hlen_tot) => ip6_deliver p inp ip6hdr nexth hlen_tot
    end.

Definition ip6_input (p inp : Z) : uio Z :=
  b ← pb p;
  let ip6hdr := payload b in
  v ← read32 (ip6hdr + IP6H_v_tc_fl);
  if negb (IP6H_V v =? 6) then _ ← Udp.free p; mret ERR_OK
  else
    plen ← read16 (ip6hdr + IP6H_plen);
    if (len b <? IP6_HLEN) || (tot_len b - IP6_HLEN <? plen) then _ ← Udp.free p; mret ERR_OK
    else
      _ ← on_pbufs (pbuf_realloc p (u16 (IP6_HLEN + plen)));
      dest ← read_addr (ip6hdr + IP6H_dest);
      src ← read_addr (ip6hdr + IP6H_src);
      _ ← upd_globals (set_current_addrs dest src);
      if ip6_addr_isipv4mappedipv6 dest || ip6_addr_isipv4mappedipv6 src || ip6_addr_ismulticast src then
        _ ← Udp.free p; mret ERR_OK
      else
        _ ← upd_globals (set_current_header ip6hdr);
        _ ← upd_globals (set_current_netif inp);
        _ ← upd_globals (set_current_input_netif inp);
        _ ← input_accepted p inp ip6hdr;
        _ ← input_cleanup;
        mret ERR_OK.
End Ip6In.
