(* ===== verification/Ethernet.v ===== *)
(** The Ethernet layer: netif/ethernet.c without VLANs and ARP, and
    core/ipv6/ethip6.c. *)

From Stdlib Require Import ZArith Lia.
From stdpp Require Import base list numbers gmap.
From S2P Require Import Prelude Mmio Mem Memp Pbuf Ip6Addr Chksum Udp Netif Ip6Out Mld6 Addrs Nd6.

Open Scope Z_scope.

Definition SIZEOF_ETH_HDR : Z := 14.
Definition ETH_HWADDR_LEN : Z := 6.
Definition ETHTYPE_IPV6 : Z := 0x86DD.
Definition LL_IP4_MULTICAST_ADDR_0 : Z := 0x01.
Definition LL_IP6_MULTICAST_ADDR_0 : Z := 0x33.
Definition LL_IP6_MULTICAST_ADDR_1 : Z := 0x33.
Definition PBUF_FLAG_LLBCAST : Z := 0x08.
Definition PBUF_FLAG_LLMCAST : Z := 0x10.
Definition ethbroadcast : list Z := [0xff; 0xff; 0xff; 0xff; 0xff; 0xff].

(** [struct eth_hdr]. *)
Definition ETHH_dest : Z := 0.
Definition ETHH_src : Z := 6.
Definition ETHH_type : Z := 12.

Definition set_if_idx (v : Z) (b : pbuf) : pbuf :=
  mk_pbuf (Pbuf.next b) (payload b) (tot_len b) (len b) (type_internal b) (flags b) (ref b) (u8 v).

(** The MAC address of an IPv6 multicast address. *)
Definition multicast_mac (ip6addr : ip6_addr) : list Z := [0x33; 0x33] ++ word_bytes (word ip6addr 3).

(** The flag of a destination with the group bit. *)
Definition ll_flag (dest : list Z) : outcome Z :=
  a0 ← rd dest 0;
  a1 ← rd dest 1;
  Ok (if Z.land a0 1 =? 0 then 0
      else if a0 =? LL_IP4_MULTICAST_ADDR_0 then 0
      else if (a0 =? LL_IP6_MULTICAST_ADDR_0) && (a1 =? LL_IP6_MULTICAST_ADDR_1) then PBUF_FLAG_LLMCAST
      else if bool_decide (dest = ethbroadcast) then PBUF_FLAG_LLBCAST
      else 0).

Section Ethernet.
Context {PP RP HP UP QP MP DV : Type} `{PoolOps PP} `{PoolOps RP} `{HeapOps HP} `{PoolOps QP} `{PoolOps MP}.
Abbreviation st := (net PP RP HP UP (ipst QP MP DV)).
Context {HK : Hooks st}.
Abbreviation uio := (io st).

(** [ip6_input]. *)
Variable ip6_input : Z -> Z -> uio Z.

Definition ethernet_input (p netif : Z) : uio Z :=
  b ← pb p;
  if len b <=? SIZEOF_ETH_HDR then _ ← Udp.free p; mret ERR_OK
  else
    let ethhdr := payload b in
    type ← read16 (ethhdr + ETHH_type);
    _ ← io_when (if_idx b =? NETIF_NO_INDEX)
          (n ← get_netif netif; on_pbufs (pb_update p (set_if_idx (get_index n))));
    dest ← read_bytes (ethhdr + ETHH_dest) ETH_HWADDR_LEN;
    f ← tries (fun _ => ll_flag dest);
    _ ← io_when (negb (f =? 0)) (on_pbufs (pb_update p (fun b => set_flags (Z.lor (flags b) f) b)));
    if type =? ETHTYPE_IPV6 then
      r ← remove_header p SIZEOF_ETH_HDR;
      if negb (r =? 0) then _ ← Udp.free p; mret ERR_OK
      else _ ← ip6_input p netif; mret ERR_OK
    else _ ← Udp.free p; mret ERR_OK.

Definition ethernet_output (netif p : Z) (src dst : list Z) (eth_type : Z) : uio Z :=
  let eth_type_be := lwip_htons eth_type in
  r ← add_header p SIZEOF_ETH_HDR;
  if negb (r =? 0) then mret ERR_BUF
  else
    b ← pb p;
    let ethhdr := payload b in
    _ ← store16 (ethhdr + ETHH_type) eth_type_be;
    d ← tries (fun _ => rd_block dst 0 ETH_HWADDR_LEN);
    _ ← write_bytes (ethhdr + ETHH_dest) d;
    s ← tries (fun _ => rd_block src 0 ETH_HWADDR_LEN);
    _ ← write_bytes (ethhdr + ETHH_src) s;
    n ← get_netif netif;
    _ ← io_assert (hwaddr_len n =? ETH_HWADDR_LEN);
    linkoutput netif p.

Definition ethip6_output (netif p : Z) (ip6addr : ip6_addr) : uio Z :=
  if ip6_addr_ismulticast ip6addr then
    n ← get_netif netif;
    ethernet_output netif p (hwaddr n) (multicast_mac ip6addr) ETHTYPE_IPV6
  else
    '(result, hw) ← nd6_get_next_hop_addr_or_queue netif p ip6addr;
    if negb (result =? ERR_OK) then mret result
    else
      match hw with
      | None => mret ERR_OK
      | Some hw =>
          n ← get_netif netif;
          ethernet_output netif p (hwaddr n) hw ETHTYPE_IPV6
      end.
End Ethernet.
