(* ===== verification/Stack.v ===== *)
(** The stack put together: the functions interfaces point to, what UDP takes
    from below, the way of a frame from the driver to the application, and
    interfaces being added, set up and removed (core/netif.c, ip_input).

    [netif->output_ip6] is [ethip6_output], which sends neighbour
    solicitations through [netif->output_ip6] again: a solicitation goes to a
    multicast address, for which [ethip6_output] sends nothing else. *)

From Stdlib Require Import ZArith Lia.
From stdpp Require Import base list numbers gmap.
From S2P Require Import Prelude Mmio Mem Memp Pbuf Ip6Addr Chksum Udp Netif Ip6Out Mld6 Addrs Nd6 Nd6In Icmp6.
From S2P Require Import Ip6In Ethernet.

Open Scope Z_scope.

(** What UDP reads of this layer. An address without an interface has no
    index and no IPv6 address. *)
#[export] Instance ipst_layer {QP MP DV} : IpLayer (ipst QP MP DV) := {|
  netif_get_index l netif := match netifs l !! netif with Some n => get_index n | None => NETIF_NO_INDEX end;
  netif_get_by_index l idx :=
    if negb (idx =? NETIF_NO_INDEX) && negb (netif_default l =? 0) then
      match netifs l !! netif_default l with
      | Some n => if idx =? get_index n then netif_default l else 0
      | None => 0
      end
    else 0;
  ip_route l _ _ :=
    match netifs l !! netif_default l with
    | Some n => if netif_is_up n && netif_is_link_up n then netif_default l else 0
    | None => 0
    end;
  ip6_select_source_address l netif dest :=
    match netifs l !! netif with Some n => select_source_address n dest | None => None end;
  netif_get_ip6_addr_match l netif a :=
    match netifs l !! netif with Some n => get_ip6_addr_match n a | None => -1 end;
  ip_current_input_netif l := current_input_netif (ip_data l);
  ip_current_src_addr l := current_iphdr_src (ip_data l);
  ip_current_dest_addr l := current_iphdr_dest (ip_data l);
  ip_current_header_tot_len l := current_ip_header_tot_len (ip_data l)
|}.

(* ------------------------------------------------------------------ *)
(** * Interfaces *)

Section Interfaces.
Context {PP RP HP UP QP MP DV : Type} `{PoolOps PP} `{PoolOps RP} `{HeapOps HP} `{PoolOps QP} `{PoolOps MP}.
Abbreviation st := (net PP RP HP UP (ipst QP MP DV)).
Context {HK : Hooks st}.
Abbreviation uio := (io st).

(** What [netif_add] writes before [init], over what was in the structure. *)
Definition fresh_netif (n : netif) : netif :=
  mk_netif (replicate 3 IP6_ADDR_ANY6) (replicate 3 IP6_ADDR_INVALID) 0 0 (mtu6 n) (hwaddr n) (hwaddr_len n) 0 0
    (rs_count n) 0.

(** [netif] is the address of a structure; the driver's function sets the MTU,
    the hardware address, the flags and the number. NULL is 0. *)
Definition netif_add (netif : Z) (init : option (Z -> uio Z)) : uio Z :=
  d ← the_default;
  if negb (d =? 0) then io_fault AssertFailed
  else if netif =? 0 then mret 0
  else
    match init with
    | None => mret 0
    | Some init =>
        _ ← upd_netif netif fresh_netif;
        _ ← nd6_restart_netif netif;
        r ← init netif;
        if negb (r =? ERR_OK) then mret 0
        else _ ← upd_netif netif (fun n => set_mtu6 (mtu n) n); mret netif
    end.

Definition netif_set_default (netif : Z) : uio unit := io_modify (with_lower (set_default netif)).

Definition netif_set_up (netif : Z) : uio unit :=
  if netif =? 0 then mret tt
  else
    n ← get_netif netif;
    io_when (Z.land (nif_flags n) NETIF_FLAG_UP =? 0)
      (_ ← upd_netif netif (netif_set_flags NETIF_FLAG_UP);
       _ ← netif_issue_reports netif (Z.lor NETIF_REPORT_TYPE_IPV4 NETIF_REPORT_TYPE_IPV6);
       nd6_restart_netif netif).

Definition netif_set_down (netif : Z) : uio unit :=
  if netif =? 0 then mret tt
  else
    n ← get_netif netif;
    io_when (negb (Z.land (nif_flags n) NETIF_FLAG_UP =? 0))
      (_ ← upd_netif netif (netif_clear_flags NETIF_FLAG_UP);
       nd6_cleanup_netif netif).

Definition netif_set_link_up (netif : Z) : uio unit :=
  if netif =? 0 then mret tt
  else
    n ← get_netif netif;
    io_when (Z.land (nif_flags n) NETIF_FLAG_LINK_UP =? 0)
      (_ ← upd_netif netif (netif_set_flags NETIF_FLAG_LINK_UP);
       _ ← netif_issue_reports netif (Z.lor NETIF_REPORT_TYPE_IPV4 NETIF_REPORT_TYPE_IPV6);
       nd6_restart_netif netif).

Definition netif_set_link_down (netif : Z) : uio unit :=
  if netif =? 0 then mret tt
  else
    n ← get_netif netif;
    io_when (negb (Z.land (nif_flags n) NETIF_FLAG_LINK_UP =? 0))
      (_ ← upd_netif netif (netif_clear_flags NETIF_FLAG_LINK_UP);
       upd_netif netif (fun n => set_mtu6 (mtu n) n)).

Definition netif_remove (netif : Z) : uio unit :=
  if netif =? 0 then mret tt
  else
    _ ← for_from (Z.to_nat LWIP_IPV6_NUM_ADDRESSES)
          (fun i =>
             s ← netif_ip6_addr_state netif i;
             a ← netif_ip6_addr netif i;
             io_when (ip6_addr_isvalid s) (netif_do_ip_addr_changed (Some a) None)) 0;
    _ ← mld6_stop netif;
    n ← get_netif netif;
    _ ← io_when (netif_is_up n) (netif_set_down netif);
    d ← the_default;
    io_when (d =? netif) (netif_set_default 0).
End Interfaces.

(* ------------------------------------------------------------------ *)
(** * The way up and down *)

Section Stack.
Context {PP RP HP UP QP MP DV : Type} `{PoolOps PP} `{PoolOps RP} `{HeapOps HP} `{PoolOps UP} `{PoolOps QP}
  `{PoolOps MP}.
Abbreviation st := (net PP RP HP UP (ipst QP MP DV)).
Abbreviation uio := (io st).

(** The driver's [hdkif_output] and MAC filter, rand(), the application's
    receive callbacks, and the driver's init function. *)
Variable hdkif_output : Z -> Z -> uio Z.
Variable driver_mac_filter : Z -> ip6_addr -> Z -> uio unit.
Variable c_rand : Z -> Z * Z.
Variable call_recv : Z -> Z -> Z -> Z -> ip6_addr -> Z -> uio unit.

Definition hooks_with (output : Z -> Z -> ip6_addr -> uio Z) : Hooks st := {|
  output_ip6 := output;
  linkoutput := hdkif_output;
  mac_filter := driver_mac_filter;
  rand := c_rand
|}.

(** [ethip6_output] with [depth] calls of itself below. *)
Fixpoint eth_output (depth : nat) : Z -> Z -> ip6_addr -> uio Z :=
  match depth with
  | O => fun _ _ _ => io_fault Diverges
  | S depth => ethip6_output (HK := hooks_with (eth_output depth))
  end.

(** Sending a queued packet may send a solicitation. *)
Definition output_depth : nat := 3.
#[local] Instance board : Hooks st := hooks_with (eth_output output_depth).

Definition stack_udp_input : Z -> Z -> uio unit :=
  udp_input (fun p => icmp6_dest_unreach p ICMP6_DUR_PORT) call_recv.
Definition stack_ip6_input : Z -> Z -> uio Z := ip6_input stack_udp_input icmp6_input.
Definition stack_ethernet_input : Z -> Z -> uio Z := ethernet_input stack_ip6_input.

(** [ip_output_if_src] as UDP calls it. *)
Definition stack_output_if_src (q : Z) (src dst : ip6_addr) (ttl tos proto netif : Z) : uio Z :=
  ip6_output_if_src q (Some src) (Some dst) ttl tos proto netif.
Definition stack_udp_sendto : Z -> Z -> option ip6_addr -> Z -> uio Z :=
  udp_sendto stack_output_if_src.

(** [ip_input] is [ip6_input] without IPv4. *)
Definition ip_input : Z -> Z -> uio Z := stack_ip6_input.
Definition netif_input (p inp : Z) : uio Z :=
  _ ← io_assert (negb (p =? 0));
  _ ← io_assert (negb (inp =? 0));
  n ← get_netif inp;
  if negb (Z.land (nif_flags n) (Z.lor NETIF_FLAG_ETHARP NETIF_FLAG_ETHERNET) =? 0)
  then stack_ethernet_input p inp else ip_input p inp.

End Stack.
