(* ===== verification/Searches.v ===== *)
(** Which entry the stack chooses: the source address of a packet
    ([ip6_select_source_address], the order of RFC 6724 as ranks), and the
    neighbour cache entry that gives way to a new neighbour
    ([nd6_new_neighbor_cache_entry], by classes of entries). *)

From Stdlib Require Import ZArith Lia.
From stdpp Require Import base list numbers gmap.
From S2P Require Import Prelude Mmio Mem Memp Pbuf Ip6Addr Chksum Udp Netif Ip6Out Mld6 Addrs Nd6.

Open Scope Z_scope.

(* ------------------------------------------------------------------ *)
(** * Loops that look for an entry *)

(** [i] is the first index whose element has [P]; -1 says that none has. *)
Definition first_with {A} (P : A -> Prop) (l : list A) (i : Z) : Prop :=
  (i = -1 /\ forall k x, l !! k = Some x -> ~ P x) \/
  (exists k x, i = Z.of_nat k /\ l !! k = Some x /\ P x /\ forall j y, (j < k)%nat -> l !! j = Some y -> ~ P y).

Lemma first_with_cons {A} (P : A -> Prop) x l (i : Z) :
  ~ P x -> first_with P l i -> first_with P (x :: l) (if i =? -1 then -1 else i + 1).
Proof.
  intros HP [[-> H] | (k & y & -> & E & Hy & H)].
  - left. split; [done | ]. intros [ | k] y Ey; [by simplify_eq/= | by eapply H].
  - right. exists (S k), y. rewrite (proj2 (Z.eqb_neq _ _)); [ | lia]. split; [lia | ].
    split; [done | ]. split; [done | ]. intros [ | j] z Hj Ez; [by simplify_eq/= | ]. apply (H j); [lia | done].
Qed.

Lemma first_from_shift {A} (test : A -> bool) l i :
  0 <= i -> first_from test l i = if first_from test l 0 =? -1 then -1 else i + first_from test l 0.
Proof.
  assert (G : forall l i, 0 <= i -> first_from test l i = -1 \/ i <= first_from test l i).
  { intros l'. induction l' as [ | x l' IH]; intros j Hj; simpl; [by left | ].
    destruct (test x); [right; lia | ]. destruct (IH (j + 1)) as [-> | H]; [lia | by left | right; lia]. }
  revert i. induction l as [ | x l IH]; intros i Hi; simpl; [done | ].
  destruct (test x); simpl; [lia | ]. rewrite (IH (i + 1)), (IH (0 + 1)) by lia.
  destruct (G l 0) as [-> | H]; [lia | done | ]. rewrite !(proj2 (Z.eqb_neq _ _)); lia.
Qed.

Lemma first_index_spec {A} (test : A -> bool) l : first_with (fun x => test x = true) l (first_index test l).
Proof.
  unfold first_index. induction l as [ | x l IH]; simpl.
  - left. split; [done | ]. intros k y E. by rewrite lookup_nil in E.
  - destruct (test x) eqn:T.
    + right. exists 0%nat, x. repeat split; [done | ]. intros j y Hj. lia.
    + rewrite first_from_shift by lia.
      assert (E : (if first_from test l 0 =? -1 then -1 else 0 + 1 + first_from test l 0)
                  = (if first_from test l 0 =? -1 then -1 else first_from test l 0 + 1)) by (case_match; lia).
      rewrite E. apply first_with_cons; [congruence | done].
Qed.

(* ------------------------------------------------------------------ *)
(** * The source address *)

(** How good a candidate is for a destination of scope [ds]: scopes that
    reach the destination come first, the smallest of them best; of the
    others the largest is best; then preferred addresses; then addresses of
    the destination's /64. *)
Definition scope_rank (ds s : Z) : Z := if ds <=? s then 32 - s else s - 16.
Definition source_rank (dest : ip6_addr) (st : Z) (a : ip6_addr) : Z :=
  4 * scope_rank (dest_scope dest) (cand_scope a) + 2 * Z.b2z (ip6_addr_ispreferred st)
  + Z.b2z (ip6_addr_net_zoneless_eq a dest).

(** Slot [i] of the interface holds the valid address [a] in state [st]. *)
Definition valid_slot (slots : list (Z * ip6_addr)) (i : nat) (st : Z) (a : ip6_addr) : Prop :=
  slots !! i = Some (st, a) /\ ip6_addr_isvalid st = true.

(** [a] is the destination itself. *)
Definition is_dest (dest a : ip6_addr) : bool := ip6_addr_net_zoneless_eq a dest && ip6_addr_nethost_eq a dest.

Lemma cand_scope_range a : 2 <= cand_scope a <= 15.
Proof. unfold cand_scope. repeat case_match; vm_compute; split; discriminate. Qed.

(** [wins] compares ranks. *)
Lemma wins_rank dest st a st' a' :
  wins (dest_scope dest) (candidate st a dest) (candidate st' a' dest)
  = (source_rank dest st' a' <? source_rank dest st a).
Proof.
  unfold wins, source_rank, scope_rank, candidate. simpl.
  generalize (cand_scope_range a), (cand_scope_range a'). generalize (cand_scope a), (cand_scope a').
  generalize (dest_scope dest). intros ds s s' Hs Hs'.
  destruct (ip6_addr_ispreferred st), (ip6_addr_ispreferred st'), (ip6_addr_net_zoneless_eq a dest),
    (ip6_addr_net_zoneless_eq a' dest); simpl; apply eq_iff_eq_true;
    destruct (Z.leb_spec ds s), (Z.leb_spec ds s'); lia.
Qed.

(** The best slot among the first ones: [None] while no slot was valid. *)
Definition best_so_far (dest : ip6_addr) (slots : list (Z * ip6_addr)) (b : best) : Prop :=
  match best_addr b with
  | None => forall i st a, ~ valid_slot slots i st a
  | Some a => exists i st, valid_slot slots i st a /\ b = candidate st a dest /\
      forall j st' a', valid_slot slots j st' a' ->
        source_rank dest st' a' <= source_rank dest st a /\
        ((j < i)%nat -> source_rank dest st' a' < source_rank dest st a)
  end.

Lemma valid_slot_app slots x i st a :
  valid_slot (slots ++ [x]) i st a ->
  valid_slot slots i st a \/ (i = length slots /\ x = (st, a) /\ ip6_addr_isvalid st = true).
Proof.
  intros [E V]. apply lookup_app_Some in E as [E | [Hi E]]; [by left | right].
  destruct (i - length slots)%nat eqn:Ei; simplify_eq/=. split; [lia | done].
Qed.
Lemma valid_slot_mono slots x i st a : valid_slot slots i st a -> valid_slot (slots ++ [x]) i st a.
Proof. intros [E V]. split; [by apply lookup_app_l_Some | done]. Qed.
Lemma valid_slot_length slots i st a : valid_slot slots i st a -> (i < length slots)%nat.
Proof. intros [E _]. by eapply lookup_lt_Some. Qed.

(** One turn of the loop keeps the best. *)
Lemma best_so_far_step dest slots st a b :
  best_so_far dest slots b -> ip6_addr_isvalid st = true ->
  best_so_far dest (slots ++ [(st, a)])
    (if wins (dest_scope dest) (candidate st a dest) b then candidate st a dest else b).
Proof.
  intros Hb V. assert (Hn : valid_slot (slots ++ [(st, a)]) (length slots) st a)
    by (split; [apply list_lookup_middle | ]; done).
  destruct (best_addr b) as [c | ] eqn:Ec; unfold best_so_far in Hb; rewrite Ec in Hb.
  - destruct Hb as (i & sc & Hc & -> & Hbest). rewrite wins_rank. unfold best_so_far.
    destruct (Z.ltb_spec (source_rank dest sc c) (source_rank dest st a)) as [Hlt | Hge]; simpl.
    + exists (length slots), st. split; [done | ]. split; [done | ]. intros j st' a' Hj.
      apply valid_slot_app in Hj as [Hj | (-> & E & _)]; [ | simplify_eq; lia].
      destruct (Hbest _ _ _ Hj). lia.
    + exists i, sc. split; [by apply valid_slot_mono | ]. split; [done | ]. intros j st' a' Hj.
      apply valid_slot_app in Hj as [Hj | (-> & E & _)]; [by apply Hbest | ].
      simplify_eq. apply valid_slot_length in Hc. lia.
  - unfold wins. rewrite Ec, bool_decide_eq_true_2 by done. simpl. exists (length slots), st.
    split; [done | ]. split; [done | ]. intros j st' a' Hj.
    apply valid_slot_app in Hj as [Hj | (-> & E & _)]; [by destruct (Hb _ _ _ Hj) | simplify_eq; lia].
Qed.

Lemma best_so_far_skip dest slots st a b :
  best_so_far dest slots b -> ip6_addr_isvalid st = false -> best_so_far dest (slots ++ [(st, a)]) b.
Proof.
  intros Hb V. unfold best_so_far in *. destruct (best_addr b) as [c | ].
  - destruct Hb as (i & sc & Hc & -> & Hbest). exists i, sc. split; [by apply valid_slot_mono | ]. split; [done | ].
    intros j st' a' Hj. apply valid_slot_app in Hj as [Hj | (_ & E & V')]; [by apply Hbest | congruence].
  - intros i st' a' Hi. apply valid_slot_app in Hi as [Hi | (_ & E & V')]; [by eapply Hb | congruence].
Qed.

(** What the loop returns, the slots [seen] behind it: the first slot with the
    destination itself among the rest, or else the best of all. *)
Definition chosen_source (dest : ip6_addr) (slots : list (Z * ip6_addr)) (r : option ip6_addr) : Prop :=
  match r with
  | None => forall i st a, ~ valid_slot slots i st a
  | Some a => exists i st, valid_slot slots i st a /\
      if is_dest dest a
      then forall j st' a', (j < i)%nat -> valid_slot slots j st' a' -> is_dest dest a' = false
      else forall j st' a', valid_slot slots j st' a' ->
             is_dest dest a' = false /\ source_rank dest st' a' <= source_rank dest st a /\
             ((j < i)%nat -> source_rank dest st' a' < source_rank dest st a)
  end.

Lemma select_loop_cons dest ds st a slots b :
  select_loop ((st, a) :: slots) dest ds b =
    if ip6_addr_isvalid st then
      if is_dest dest a then Some a
      else select_loop slots dest ds (if wins ds (candidate st a dest) b then candidate st a dest else b)
    else select_loop slots dest ds b.
Proof. cbn. unfold is_dest. by destruct (ip6_addr_isvalid st), (ip6_addr_net_zoneless_eq a dest). Qed.

Lemma select_loop_chosen dest slots : forall seen b,
  best_so_far dest seen b ->
  (forall i st a, valid_slot seen i st a -> is_dest dest a = false) ->
  chosen_source dest (seen ++ slots) (select_loop slots dest (dest_scope dest) b).
Proof.
  induction slots as [ | [st a] slots IH]; intros seen b Hb Hno.
  - rewrite app_nil_r. simpl. unfold chosen_source, best_so_far in *. destruct (best_addr b) as [c | ]; [ | done].
    destruct Hb as (i & sc & Hc & _ & Hbest). exists i, sc. split; [done | ]. rewrite (Hno _ _ _ Hc).
    intros j st' a' Hj. split; [by eapply Hno | by apply Hbest].
  - rewrite select_loop_cons, (cons_middle (st, a) seen slots), app_assoc.
    destruct (ip6_addr_isvalid st) eqn:V.
    + destruct (is_dest dest a) eqn:D.
      * exists (length seen), st. rewrite D. split.
        { split; [ | done]. apply lookup_app_l_Some. by apply list_lookup_middle. }
        intros j st' a' Hj [Ej V']. rewrite <- app_assoc, lookup_app_l in Ej by lia. by eapply Hno; split.
      * apply IH; [by apply best_so_far_step | ]. intros i st' a' Hi.
        apply valid_slot_app in Hi as [Hi | (_ & E & _)]; [by eapply Hno | congruence].
    + apply IH; [by apply best_so_far_skip | ]. intros i st' a' Hi.
      apply valid_slot_app in Hi as [Hi | (_ & E & V')]; [by eapply Hno | congruence].
Qed.

(** C25: The source address for a destination is the destination itself if it
    is a valid address of the interface; otherwise the first valid address of
    the highest rank, in the order of RFC 6724: a scope that reaches the
    destination, and the smallest such, before larger and smaller ones, then
    preferred addresses, then addresses of the destination's /64. There is
    none exactly if the interface has no valid address. *)
Theorem ip6_select_source_address_best (n : netif) (dest : ip6_addr) :
  chosen_source dest (addr_slots n) (select_source_address n dest).
Proof.
  apply (select_loop_chosen dest (addr_slots n) [] (mk_best None IP6_MULTICAST_SCOPE_RESERVED 0 0)).
  - intros i st a [E _]. by rewrite lookup_nil in E.
  - intros i st a [E _]. by rewrite lookup_nil in E.
Qed.

(* ------------------------------------------------------------------ *)
(** * The neighbour that gives way *)

(** Entries by how readily they are given up: free ones, then by state;
    routers that are in use never are. *)
Definition recycle_class (e : neighbor) : Z :=
  if state e =? ND6_NO_ENTRY then 0
  else if negb (isrouter e =? 0) then 7
  else if state e =? ND6_STALE then 1
  else if state e =? ND6_PROBE then 2
  else if state e =? ND6_DELAY then 3
  else if state e =? ND6_REACHABLE then 4
  else if q e =? 0 then 5 else 6.

(** In a class: of the reachable ones the one with the least time left, of
    the incomplete ones the one solicited most often. *)
Definition recycle_score (e : neighbor) : Z :=
  if recycle_class e =? 4 then counter e else if 5 <=? recycle_class e then - counter e else 0.

Definition neighbor_wf (e : neighbor) : Prop := ND6_NO_ENTRY <= state e <= ND6_PROBE /\ 0 <= counter e < 0xffffffff.

(** Entry [k] of the table is given up before any other. Ties go to the first
    entry, but to the last among incomplete ones. *)
Definition gives_way (l : list neighbor) (k : nat) (e : neighbor) : Prop :=
  l !! k = Some e /\ recycle_class e < 7 /\
  forall j e', l !! j = Some e' ->
    recycle_class e <= recycle_class e' /\
    (recycle_class e' = recycle_class e ->
     recycle_score e <= recycle_score e' /\
     (recycle_score e' = recycle_score e -> if recycle_class e <? 5 then (k <= j)%nat else (j <= k)%nat)).

(** The loops that keep the best entry so far. *)
Lemma oldest_reachable_spec l : forall i j t,
  let r := oldest_reachable l i j t in
  (r = j /\ forall k e, l !! k = Some e -> has_state ND6_REACHABLE e = true -> t <= counter e) \/
  (exists k e, r = i + Z.of_nat k /\ l !! k = Some e /\ has_state ND6_REACHABLE e = true /\ counter e < t /\
     forall m e', l !! m = Some e' -> has_state ND6_REACHABLE e' = true ->
       counter e <= counter e' /\ ((m < k)%nat -> counter e < counter e')).
Proof.
  induction l as [ | x l IH]; intros i j t; simpl; [by left | ].
  destruct (has_state ND6_REACHABLE x && (counter x <? t)) eqn:T.
  - apply andb_prop in T as [Hx Ht%Z.ltb_lt]. right.
    destruct (IH (i + 1) i (counter x)) as [[-> H] | (k & e & -> & E & He & Hlt & H)].
    + exists 0%nat, x. repeat split; [lia | done | done | ..]; [ | lia].
      destruct m as [ | m]; intros; simplify_eq/=; [lia | by eapply H].
    + exists (S k), e. repeat split; [lia | done | done | lia | ..];
        destruct m as [ | m]; simplify_eq/=; try lia; intros; eapply H; try done; lia.
  - destruct (IH (i + 1) j t) as [[-> H] | (k & e & -> & E & He & Hlt & H)]; [left | right].
    + split; [done | ]. intros [ | k] e E He; simplify_eq/=; [rewrite He in T; simpl in T; lia | by eapply H].
    + exists (S k), e. repeat split; [lia | done | done | lia | ..];
        destruct m as [ | m]; simplify_eq/=; try (rewrite H1 in T; simpl in T); try lia; intros; eapply H; try done; lia.
Qed.

Definition incomplete (any_queue : bool) (e : neighbor) : bool :=
  (any_queue || (q e =? 0)) && has_state ND6_INCOMPLETE e.

Lemma oldest_incomplete_spec any l : forall i j t,
  let r := oldest_incomplete any l i j t in
  (r = j /\ forall k e, l !! k = Some e -> incomplete any e = true -> counter e < t) \/
  (exists k e, r = i + Z.of_nat k /\ l !! k = Some e /\ incomplete any e = true /\ t <= counter e /\
     forall m e', l !! m = Some e' -> incomplete any e' = true ->
       counter e' <= counter e /\ ((k < m)%nat -> counter e' < counter e)).
Proof.
  induction l as [ | x l IH]; intros i j t; simpl; [by left | ].
  fold (incomplete any x). destruct (incomplete any x && (t <=? counter x)) eqn:T.
  - apply andb_prop in T as [Hx Ht%Z.leb_le]. right.
    destruct (IH (i + 1) i (counter x)) as [[-> H] | (k & e & -> & E & He & Hlt & H)].
    + exists 0%nat, x. repeat split; [lia | done | done | ..];
        destruct m as [ | m]; simplify_eq/=; try lia; intros; eapply Z.lt_le_incl || idtac; eapply H; done.
    + exists (S k), e. repeat split; [lia | done | done | lia | ..];
        destruct m as [ | m]; simplify_eq/=; try lia; intros; eapply H; try done; lia.
  - destruct (IH (i + 1) j t) as [[-> H] | (k & e & -> & E & He & Hlt & H)]; [left | right].
    + split; [done | ]. intros [ | k] e E He; simplify_eq/=; [rewrite He in T; simpl in T; lia | by eapply H].
    + exists (S k), e. repeat split; [lia | done | done | lia | ..];
        destruct m as [ | m]; simplify_eq/=; try (rewrite H1 in T; simpl in T); try lia; intros; eapply H; try done; lia.
Qed.

(** The class an entry has tells which tests it passes. *)
Lemma recycle_class_cases e : neighbor_wf e ->
  (recycle_class e = 0 <-> (state e =? ND6_NO_ENTRY) = true) /\
  (recycle_class e = 1 <-> has_state ND6_STALE e = true) /\
  (recycle_class e = 2 <-> has_state ND6_PROBE e = true) /\
  (recycle_class e = 3 <-> has_state ND6_DELAY e = true) /\
  (recycle_class e = 4 <-> has_state ND6_REACHABLE e = true) /\
  (recycle_class e = 5 <-> incomplete false e = true) /\
  (recycle_class e = 5 \/ recycle_class e = 6 <-> incomplete true e = true) /\ 0 <= recycle_class e <= 7.
Proof.
  intros [Hs _]. unfold recycle_class, incomplete, has_state.
  unfold ND6_NO_ENTRY, ND6_STALE, ND6_PROBE, ND6_DELAY, ND6_REACHABLE, ND6_INCOMPLETE in *.
  assert (C : state e = 0 \/ state e = 1 \/ state e = 2 \/ state e = 3 \/ state e = 4 \/ state e = 5) by lia.
  destruct C as [-> | [-> | [-> | [-> | [-> | ->]]]]]; simpl; destruct (isrouter e =? 0), (q e =? 0); simpl; lia.
Qed.

(** A search that is tested with [0 <=?]. *)
Lemma first_index_cases {A} (test : A -> bool) l :
  if 0 <=? first_index test l
  then exists k x, first_index test l = Z.of_nat k /\ l !! k = Some x /\ test x = true /\
         forall j y, l !! j = Some y -> test y = true -> (k <= j)%nat
  else forall k x, l !! k = Some x -> test x <> true.
Proof.
  destruct (first_index_spec test l) as [[-> H] | (k & x & -> & E & T & H)]; simpl; [done | ].
  destruct (Z.leb_spec 0 (Z.of_nat k)); [ | lia]. exists k, x. repeat split; [done | done | ].
  intros j y Ej Tj. destruct (decide (j < k)%nat) as [Hj | Hj]; [by destruct (H j y Hj Ej) | lia].
Qed.

(** The search of one class, when no better class has an entry: it finds the
    entry that gives way, or the class has none either. *)
Definition search_of (l : list neighbor) (c i : Z) : Prop :=
  (forall k e, l !! k = Some e -> c <= recycle_class e) ->
  if 0 <=? i then exists k e, i = Z.of_nat k /\ gives_way l k e /\ recycle_class e = c
  else forall k e, l !! k = Some e -> c + 1 <= recycle_class e.

Lemma none_of_class (l : list neighbor) c (P : neighbor -> Prop) :
  (forall k e, l !! k = Some e -> recycle_class e = c -> P e) ->
  (forall k e, l !! k = Some e -> ~ P e) ->
  (forall k e, l !! k = Some e -> c <= recycle_class e) ->
  forall k e, l !! k = Some e -> c + 1 <= recycle_class e.
Proof.
  intros HP HN Hc k e E. pose proof (Hc k e E). destruct (Z.eq_dec (recycle_class e) c); [ | lia].
  destruct (HN k e E). by eapply HP.
Qed.

Lemma first_of_class l c test :
  0 <= c < 4 -> (forall k e, l !! k = Some e -> recycle_class e = c <-> test e = true) ->
  search_of l c (first_index test l).
Proof.
  intros Hc HT Hmin. pose proof (first_index_cases test l) as HF.
  destruct (0 <=? first_index test l); [ | by eapply (none_of_class l c (fun e => test e = true));
    [intros; by eapply HT | ..]].
  destruct HF as (k & e & -> & E & T & H). exists k, e. apply (HT k e E) in T.
  split; [done | ]. split; [ | done]. split; [done | ]. split; [lia | ]. intros j e' E'.
  split; [rewrite T; by eapply Hmin | ]. intros He'. unfold recycle_score.
  rewrite He', T, (proj2 (Z.eqb_neq c 4)), (proj2 (Z.leb_gt 5 c)), (proj2 (Z.ltb_lt c 5)) by lia.
  split; [done | ]. intros _. eapply H; [done | ]. eapply HT; [done | lia].
Qed.

Lemma oldest_reachable_search l :
  Forall neighbor_wf l -> search_of l 4 (oldest_reachable l 0 (-1) 0xffffffff).
Proof.
  intros Hwf Hmin. assert (HC : forall k e, l !! k = Some e -> neighbor_wf e) by (intros; by eapply Forall_lookup_1).
  assert (HT : forall k e, l !! k = Some e -> recycle_class e = 4 <-> has_state ND6_REACHABLE e = true)
    by (intros k e E; apply (recycle_class_cases e (HC k e E))).
  destruct (oldest_reachable_spec l 0 (-1) 0xffffffff) as [[-> H] | (k & e & -> & E & He & Hlt & H)].
  - change (0 <=? -1) with false. cbv iota. apply (none_of_class l 4 (fun e => has_state ND6_REACHABLE e = true)); [intros; by eapply HT | | done].
    intros k e E He. pose proof (H k e E He). destruct (HC k e E). lia.
  - rewrite Z.add_0_l, (proj2 (Z.leb_le 0 (Z.of_nat k))) by lia. apply (HT k e E) in He. exists k, e.
    split; [done | ]. split; [ | done]. split; [done | ]. split; [lia | ]. intros j e' E'.
    split; [rewrite He; by eapply Hmin | ]. rewrite He. intros He'. unfold recycle_score. rewrite He, He'. simpl.
    destruct (H j e' E') as [H1 H2]; [by apply (HT j e' E') | ]. split; [done | ].
    intros Hq. destruct (decide (j < k)%nat); lia.
Qed.

Lemma oldest_incomplete_search (any : bool) l :
  Forall neighbor_wf l -> search_of l (if any then 6 else 5) (oldest_incomplete any l 0 (-1) 0).
Proof.
  intros Hwf Hmin. assert (HC : forall k e, l !! k = Some e -> neighbor_wf e) by (intros; by eapply Forall_lookup_1).
  assert (HT : forall k e, l !! k = Some e -> recycle_class e = (if any then 6 else 5) <-> incomplete any e = true).
  { intros k e E. destruct (recycle_class_cases e (HC k e E)) as (_ & _ & _ & _ & _ & H5 & H6 & _).
    pose proof (Hmin k e E). destruct any; [rewrite <- H6; lia | done]. }
  destruct (oldest_incomplete_spec any l 0 (-1) 0) as [[-> H] | (k & e & -> & E & He & Hlt & H)].
  - change (0 <=? -1) with false. cbv iota. apply (none_of_class l _ (fun e => incomplete any e = true)); [intros; by eapply HT | | done].
    intros k e E He. pose proof (H k e E He). destruct (HC k e E). lia.
  - rewrite Z.add_0_l, (proj2 (Z.leb_le 0 (Z.of_nat k))) by lia. apply (HT k e E) in He. exists k, e.
    split; [done | ]. split; [ | done]. split; [done | ]. split; [destruct any; lia | ]. intros j e' E'.
    split; [rewrite He; by eapply Hmin | ]. rewrite He. intros He'. unfold recycle_score. rewrite He, He'.
    destruct (H j e' E') as [H1 H2]; [by apply (HT j e' E') | ].
    destruct any; simpl; (split; [lia | ]); intros Hq; destruct (decide (k < j)%nat); lia.
Qed.

(** What [nd6_new_neighbor_cache_entry] chooses: nothing if all are routers in
    use; else the entry that gives way, freed first unless it is free. *)
Definition recycled (l : list neighbor) (r : Z * bool) : Prop :=
  (r.1 = -1 /\ forall k e, l !! k = Some e -> recycle_class e = 7) \/
  (exists k e, r.1 = Z.of_nat k /\ gives_way l k e /\ r.2 = negb (state e =? ND6_NO_ENTRY)).

Lemma class_free e : (recycle_class e =? 0) = (state e =? ND6_NO_ENTRY).
Proof. unfold recycle_class. by repeat case_match. Qed.

Lemma recycle_step l c i (r : Z * bool) :
  search_of l c i -> (forall k e, l !! k = Some e -> c <= recycle_class e) ->
  ((forall k e, l !! k = Some e -> c + 1 <= recycle_class e) -> recycled l r) ->
  recycled l (if 0 <=? i then (i, negb (c =? 0)) else r).
Proof.
  intros S Hmin Hr. specialize (S Hmin). destruct (0 <=? i); [ | by apply Hr].
  destruct S as (k & e & -> & G & Hc). right. exists k, e. by rewrite <- class_free, Hc.
Qed.

(** When the neighbour cache has no free entry, the entry that gives way
    to a new neighbour is, if there is any that is no router: a stale one, or
    else one being probed, one waiting to be, the reachable one with the least
    time left, the incomplete one with the most solicitations sent and no
    packet waiting, or the one with the most sent of those with packets. Only
    an entry in use is freed first, and -1 means that all are routers. *)
Theorem nd6_recycle_order (l : list neighbor) : Forall neighbor_wf l -> recycled l (recycle_choice l).
Proof.
  intros Hwf. assert (HC : forall k e, l !! k = Some e -> neighbor_wf e) by (intros; by eapply Forall_lookup_1).
  assert (HM : forall k e, l !! k = Some e -> 0 <= recycle_class e <= 7)
    by (intros k e E; apply (recycle_class_cases e (HC k e E))).
  unfold recycle_choice.
  apply (recycle_step l 0); [ | intros k e E; apply (HM k e E) | intros H0].
  { apply first_of_class; [lia | ]. intros k e E. apply (recycle_class_cases e (HC k e E)). }
  apply (recycle_step l 1); [ | exact H0 | intros H1].
  { apply first_of_class; [lia | ]. intros k e E. apply (recycle_class_cases e (HC k e E)). }
  apply (recycle_step l 2); [ | exact H1 | intros H2].
  { apply first_of_class; [lia | ]. intros k e E. apply (recycle_class_cases e (HC k e E)). }
  apply (recycle_step l 3); [ | exact H2 | intros H3].
  { apply first_of_class; [lia | ]. intros k e E. apply (recycle_class_cases e (HC k e E)). }
  apply (recycle_step l 4); [by apply oldest_reachable_search | exact H3 | intros H4].
  apply (recycle_step l 5); [by apply (oldest_incomplete_search false) | exact H4 | intros H5].
  apply (recycle_step l 6); [by apply (oldest_incomplete_search true) | exact H5 | intros H6].
  left. split; [done | ]. intros k e E. pose proof (H6 k e E). pose proof (HM k e E). lia.
Qed.

(** A cache with a router, a reachable entry, two incomplete ones and two that
    are being probed. *)
Lemma nd6_recycle_order_witness :
  let e st r c := mk_neighbor IP6_ADDR_ANY6 1 [] 0 st r c in
  let l := [e ND6_STALE 1 4; e ND6_REACHABLE 0 7; e ND6_INCOMPLETE 0 2; e ND6_PROBE 0 1; e ND6_INCOMPLETE 0 1;
            e ND6_PROBE 0 0] in
  recycled l (recycle_choice l) /\ recycle_choice l = (3, true).
Proof.
  split; [ | reflexivity]. apply nd6_recycle_order.
  repeat constructor; vm_compute; discriminate.
Defined.
