(* ===== verification/Ip6Packets.v ===== *)
(** IPv6 packets and Ethernet frames on their way: the bytes
    [ip6_output_if_src], [ethip6_output] and [ethernet_output] put in front of
    a packet, and what [ethernet_input] and [ip6_input] make of them, with any
    extension headers in between. *)

From Stdlib Require Import ZArith Lia.
From stdpp Require Import base list numbers gmap.
From S2P Require Import Prelude Mmio Mem Memp Pbuf PbufChain PbufHeaders PbufAlloc Ip6Addr Chksum Udp UdpPackets.
From S2P Require Import Netif Ip6Out Mld6 Addrs Nd6 Nd6In Icmp6 Ip6In Ethernet.

Open Scope Z_scope.

(* ------------------------------------------------------------------ *)
(** * Headers as bytes *)

(** RFC 8200: version, traffic class and flow label; payload length, next
    header, hop limit; addresses. *)
Definition ip6_header (src dst : ip6_addr) (hl tc nexth plen : Z) : list Z :=
  word_bytes (u32 (Z.lor (Z.lor (Z.shiftl 6 28) (Z.shiftl tc 20)) 0)) ++ half_bytes plen ++ [u8 nexth; u8 hl] ++
  ip6_bytes src ++ ip6_bytes dst.

(** RFC 894: destination, source and type. *)
Definition eth_header (dst src : list Z) (type : Z) : list Z := dst ++ src ++ half_bytes type.

(** What a header over [n] unknown bytes is written field by field. *)
Tactic Notation "open_list" ident(l) integer(n) :=
  do n (destruct l as [|? l]; [discriminate|]); destruct l; [|discriminate].

Lemma ip6_addr_words a : wf_ip6 a -> exists w0 w1 w2 w3, a = IP6_ADDR w0 w1 w2 w3 /\
  is_u32 w0 /\ is_u32 w1 /\ is_u32 w2 /\ is_u32 w3.
Proof.
  destruct a as [ws]. unfold wf_ip6. cbn [addr]. intros [Hl Hw]. open_list ws 4.
  rewrite !Forall_cons_iff in Hw. exists z, z0, z1, z2. split; [done|]. by destruct_and!.
Qed.

Lemma ip6_bytes_words w0 w1 w2 w3 :
  ip6_bytes (IP6_ADDR w0 w1 w2 w3) = word_bytes w0 ++ word_bytes w1 ++ word_bytes w2 ++ word_bytes w3.
Proof. unfold ip6_bytes. cbn [addr IP6_ADDR mbind list_bind]. by rewrite app_nil_r. Qed.

Lemma ip6_bytes_length a : wf_ip6 a -> length (ip6_bytes a) = 16%nat.
Proof. intros (w0 & w1 & w2 & w3 & -> & _)%ip6_addr_words. by rewrite ip6_bytes_words. Qed.

Section Out.
Context {PP RP HP UP QP MP DV : Type} `{PoolOps PP} `{PoolOps RP} `{HeapOps HP} `{PoolOps QP} `{PoolOps MP}.
Abbreviation st := (net PP RP HP UP (ipst QP MP DV)).
Context {HK : Hooks st}.
Implicit Types s : st.

(** A packet with content [c] and [n] bytes of headroom. *)
Record outgoing s (p : Z) (b : pbuf) l (c : list Z) (n : Z) : Prop := {
  og_chain : chain (pbufs (n_heap s)) p ((p, b) :: l);
  og_packet : packet ((p, b) :: l);
  og_content : content (bytes (n_heap s)) ((p, b) :: l) c;
  og_headroom : headroom (bytes (n_heap s)) p b l n;
  og_room : 0 <= n
}.

(** Only packets have changed. *)
Definition same_stack s s' : Prop := udp s' = udp s /\ udp_pool s' = udp_pool s /\ lower s' = lower s.

Lemma same_stack_refl s : same_stack s s.
Proof using Type. done. Qed.
Lemma same_stack_trans s1 s2 s3 : same_stack s1 s2 -> same_stack s2 s3 -> same_stack s1 s3.
Proof using Type. intros (? & ? & ?) (? & ? & ?). split_and!; congruence. Qed.

Lemma pb_ok s p b : pbufs (n_heap s) !! p = Some b -> pb p s = Ok (b, s).
Proof using Type. apply on_read_ok. Qed.

Lemma og_pb s p b l c n : outgoing s p b l c n -> pb p s = Ok (b, s).
Proof using Type. intros [Hch _ _ _]. apply pb_ok, Hch. Qed.

Lemma og_length s p b l c n : outgoing s p b l c n -> tot_len b = zlen c /\ 0 <= len b < 65536 /\ 0 <= tot_len b < 65536.
Proof using Type.
  intros [_ Hp Hc _]. pose proof (content_length _ _ _ Hc Hp) as E. destruct Hp as (Et & (Hl & Ht & _) & _).
  simpl in E. unfold is_u16 in *. lia.
Qed.

(** A block of bytes written into the packet's first pbuf. *)
Lemma put_block s p b l c n off v : outgoing s p b l c n -> 0 <= off -> off + zlen v <= len b ->
  exists s', write_bytes (payload b + off) v s = Ok (tt, s') /\ outgoing s' p b l (put_at off v c) n /\ same_stack s s'.
Proof using Type.
  intros [Hch Hp Hc Hh Hn] Hoff Hlen.
  destruct (store_block _ p b l c off v Hc (headroom_disjoint _ _ _ _ _ Hh Hn) Hoff Hlen) as (bs & E & Hc' & _ & Hm).
  exists (with_heap (with_bytes bs (n_heap s)) s). split; [unfold write_bytes; by rewrite E|]. split; [|done].
  split; try done. by apply (headroom_same (bytes (n_heap s)) _ _ b).
Qed.

Lemma put_half s p b l c n off v : outgoing s p b l c n -> 0 <= off -> off + 2 <= len b -> is_u16 v ->
  exists s', store16 (payload b + off) v s = Ok (tt, s') /\ outgoing s' p b l (put_at off (half_bytes v) c) n /\
    same_stack s s'.
Proof using Type.
  intros [Hch Hp Hc Hh Hn] Hoff Hlen Hv.
  destruct (write16_spec (n_heap s) p b l c off v Hc (headroom_disjoint _ _ _ _ _ Hh Hn) Hoff Hlen Hv) as (bs & E & Hc' & Hm).
  exists (with_heap (with_bytes bs (n_heap s)) s). split; [by apply on_pbufs_ok|]. split; [|done].
  split; try done. by apply (headroom_same (bytes (n_heap s)) _ _ b).
Qed.

(** Room for a header of [m] bytes. *)
Lemma push_ok s p b l c n m : outgoing s p b l c n -> 0 < m <= n -> zlen c + m < 65536 ->
  exists s' h, add_header p m s = Ok (0, s') /\ outgoing s' p (grown m b) l (h ++ c) (n - m) /\ length h = Z.to_nat m /\
    same_stack s s' /\ len (grown m b) = len b + m /\ tot_len (grown m b) = zlen c + m.
Proof using Type.
  intros [Hch Hp Hc Hh Hn] Hm Hlt.
  destruct (push_header _ _ _ _ _ _ _ m Hch Hp Hc Hh Hm Hlt) as (E & Hch' & Hp' & (h & Hc' & Hl) & Hh' & Et & El).
  exists (with_heap (with_pbufs (fun _ => <[p := grown m b]> (pbufs (n_heap s))) (n_heap s)) s), h.
  split; [apply on_pbufs_ok; unfold pbuf_change; by rewrite E|]. split_and!; try done. split; try done. lia.
Qed.

(** The header over 40 unknown bytes. *)
Lemma fill_header_ok s p b l hd c n src dst hl tc nexth : outgoing s p b l (hd ++ c) n -> length hd = 40%nat ->
  IP6_HLEN <= len b -> wf_ip6 src -> wf_ip6 dst ->
  exists s', ip6_fill_header p src dst hl tc nexth s = Ok (tt, s') /\
    outgoing s' p b l (ip6_header src dst hl tc nexth (zlen c) ++ c) n /\ same_stack s s'.
Proof using Type.
  intros Ho Hhd Hlen (v0 & v1 & v2 & v3 & -> & _)%ip6_addr_words (w0 & w1 & w2 & w3 & -> & _)%ip6_addr_words.
  destruct (og_length _ _ _ _ _ _ Ho) as (Et & _ & Ht). rewrite length_app in Et. unfold IP6_HLEN in *.
  assert (Eplen : u16 (tot_len b - 40) = zlen c) by (rewrite u16_small; ulia).
  do 40 (destruct hd as [|? hd]; [discriminate|]). destruct hd; [clear Hhd|discriminate].
  destruct (put_block s p b l _ n 7 [u8 hl] Ho ltac:(lia) ltac:(simpl; lia)) as (s1 & E1 & O1 & T1).
  destruct (put_block s1 p b l _ n 6 [u8 nexth] O1 ltac:(lia) ltac:(simpl; lia)) as (s2 & E2 & O2 & T2).
  destruct (put_block s2 p b l _ n 24 (ip6_bytes (IP6_ADDR w0 w1 w2 w3)) O2 ltac:(lia) ltac:(rewrite ip6_bytes_words; simpl; lia))
    as (s3 & E3 & O3 & T3).
  destruct (put_block s3 p b l _ n 0 (word_bytes (u32 (Z.lor (Z.lor (Z.shiftl 6 28) (Z.shiftl tc 20)) 0))) O3 ltac:(lia)
    ltac:(simpl; lia)) as (s4 & E4 & O4 & T4).
  destruct (put_half s4 p b l _ n 4 (zlen c) O4 ltac:(lia) ltac:(lia) ltac:(unfold is_u16; lia)) as (s5 & E5 & O5 & T5).
  destruct (put_block s5 p b l _ n 8 (ip6_bytes (IP6_ADDR v0 v1 v2 v3)) O5 ltac:(lia) ltac:(rewrite ip6_bytes_words; simpl; lia))
    as (s6 & E6 & O6 & T6).
  exists s6. split; [|split; [|by do 5 (eapply same_stack_trans; [eassumption|])]].
  - unfold ip6_fill_header. rewrite (io_bind_ok _ _ _ _ _ (og_pb _ _ _ _ _ _ Ho)), (proj2 (Z.leb_le IP6_HLEN (len b))) by done.
    rewrite (io_bind_ok _ _ _ tt s eq_refl), (io_bind_ok _ _ _ _ _ E1), (io_bind_ok _ _ _ _ _ E2), (io_bind_ok _ _ _ _ _ E3).
    unfold IP6H_VTCFL_SET, write32. rewrite (io_bind_ok _ _ _ _ _ E4). unfold IP6_HLEN. rewrite Eplen.
    by rewrite (io_bind_ok _ _ _ _ _ E5).
  - rewrite !ip6_bytes_words in O6. unfold ip6_header. rewrite !ip6_bytes_words. exact O6.
Qed.

(** [ip6_output_if_src] passes the packet with its header on. *)
Lemma output_if_src_ok s p b l c n src dst hl tc nexth netif : outgoing s p b l c n -> ref b = 1 -> IP6_HLEN <= n ->
  zlen c + IP6_HLEN < 65536 -> wf_ip6 src -> wf_ip6 dst ->
  exists s', ip6_output_if_src p (Some src) (Some dst) hl tc nexth netif s = output_ip6 netif p dst s' /\
    outgoing s' p (grown IP6_HLEN b) l (ip6_header src dst hl tc nexth (zlen c) ++ c) (n - IP6_HLEN) /\ same_stack s s'.
Proof using Type.
  intros Ho Hr Hn Hlt Hsrc Hdst. pose proof (og_length _ _ _ _ _ _ Ho) as (_ & Hlb & _).
  destruct (push_ok s p b l c n IP6_HLEN Ho ltac:(unfold IP6_HLEN in *; lia) Hlt) as (s1 & h & E1 & O1 & Hh & T1 & El & _).
  destruct (fill_header_ok s1 p _ l h c _ src dst hl tc nexth O1 Hh ltac:(lia) Hsrc Hdst) as (s2 & E2 & O2 & T2).
  exists s2. split; [|split; [done|by eapply same_stack_trans]].
  unfold ip6_output_if_src, check_ref_count. rewrite (io_bind_ok _ _ _ tt s).
  - rewrite (io_bind_ok _ _ _ _ _ E1). cbn [Z.eqb negb]. by rewrite (io_bind_ok _ _ _ _ _ E2).
  - by rewrite (io_bind_ok _ _ _ _ _ (og_pb _ _ _ _ _ _ Ho)), Hr.
Qed.

(* ------------------------------------------------------------------ *)
(** * The frame *)

Lemma rd_block_all (d : list Z) : rd_block d 0 (zlen d) = Ok d.
Proof using Type.
  unfold rd_block. rewrite Z.add_0_l, !Z.ltb_irrefl, (proj2 (Z.ltb_ge (zlen d) 0)) by lia. cbn [orb].
  by rewrite Nat2Z.id, take_ge by (rewrite length_drop; lia).
Qed.

(** [ethernet_output] passes the packet to the driver as a frame. *)
Lemma ethernet_output_ok s p b l c n netif nif src dst type : outgoing s p b l c n -> SIZEOF_ETH_HDR <= n ->
  zlen c + SIZEOF_ETH_HDR < 65536 -> zlen src = 6 -> zlen dst = 6 -> is_u16 type ->
  netifs (lower s) !! netif = Some nif -> hwaddr_len nif = 6 ->
  exists s', ethernet_output netif p src dst type s = linkoutput netif p s' /\
    outgoing s' p (grown SIZEOF_ETH_HDR b) l (eth_header dst src type ++ c) (n - SIZEOF_ETH_HDR) /\ same_stack s s'.
Proof using Type.
  intros Ho Hn Hlt Hsrc Hdst Htype Hnif Hhw. pose proof (og_length _ _ _ _ _ _ Ho) as (_ & Hlb & _). unfold SIZEOF_ETH_HDR in *.
  destruct (push_ok s p b l c n 14 Ho ltac:(lia) Hlt) as (s1 & h & E1 & O1 & Hh & T1 & El & _).
  do 14 (destruct h as [|? h]; [discriminate|]). destruct h; [clear Hh|discriminate].
  destruct (put_half s1 p _ l _ _ 12 type O1 ltac:(lia) ltac:(lia) Htype) as (s2 & E2 & O2 & T2).
  destruct (put_block s2 p _ l _ _ 0 dst O2 ltac:(lia) ltac:(lia)) as (s3 & E3 & O3 & T3).
  destruct (put_block s3 p _ l _ _ 6 src O3 ltac:(lia) ltac:(lia)) as (s4 & E4 & O4 & T4).
  assert (T : same_stack s s4) by by do 3 (eapply same_stack_trans; [eassumption|]).
  exists s4. split; [|split; [|done]].
  - unfold ethernet_output, SIZEOF_ETH_HDR. rewrite (io_bind_ok _ _ _ _ _ E1). cbn [Z.eqb negb].
    rewrite (io_bind_ok _ _ _ _ _ (og_pb _ _ _ _ _ _ O1)). unfold lwip_htons, ETHH_type. rewrite (u16_small type) by done.
    rewrite (io_bind_ok _ _ _ _ _ E2). unfold ETH_HWADDR_LEN.
    rewrite (io_bind_ok _ _ _ dst s2) by (unfold tries; by rewrite <- Hdst, rd_block_all).
    rewrite (io_bind_ok _ _ _ _ _ E3).
    rewrite (io_bind_ok _ _ _ src s3) by (unfold tries; by rewrite <- Hsrc, rd_block_all).
    rewrite (io_bind_ok _ _ _ _ _ E4). rewrite (io_bind_ok _ _ _ nif s4).
    + by rewrite Hhw.
    + unfold get_netif, tries. destruct T as (_ & _ & ->). by rewrite Hnif.
  - assert (Hd : length dst = 6%nat) by lia. assert (Hs : length src = 6%nat) by lia. clear - O4 Hd Hs.
    open_list dst 6. open_list src 6. exact O4.
Qed.

(* ------------------------------------------------------------------ *)
(** * The next hop *)

(** A destination and the neighbour that are in the caches together: the
    entries, when the destination is the last one used, its next hop is that
    neighbour, and the neighbour's address is known. *)
Definition cached_hop (s : nd6_vars) (dst : ip6_addr) : option (Z * destination * Z * neighbor) :=
  let k := nd6_cached_destination_index s in
  d ← destination_cache s !! Z.to_nat k;
  e ← neighbor_cache s !! Z.to_nat (cached_neighbor_idx d);
  if ip6_addr_eq dst (destination_addr d) && ip6_addr_eq (next_hop_addr d) (next_hop_address e) &&
     ((state e =? ND6_REACHABLE) || (state e =? ND6_STALE) || (state e =? ND6_DELAY) || (state e =? ND6_PROBE))
  then Some (k, d, cached_neighbor_idx d, e) else None.

(** The MAC address a packet to [dst] goes to. *)
Definition next_mac (s : nd6_vars) (dst : ip6_addr) : option (list Z) :=
  if ip6_addr_ismulticast dst then Some (multicast_mac dst)
  else '(_, _, _, e) ← cached_hop s dst; Some (lladdr e).

(** The caches after the packet: its destination is fresh, and a stale
    neighbour is about to be probed. *)
Definition used_neighbor (e : neighbor) : neighbor :=
  if state e =? ND6_STALE
  then set_counter (LWIP_ND6_DELAY_FIRST_PROBE_TIME / ND6_TMR_INTERVAL) (set_state ND6_DELAY e) else e.
Definition after_hop (s : nd6_vars) (dst : ip6_addr) : nd6_vars :=
  if ip6_addr_ismulticast dst then s
  else match cached_hop s dst with
       | Some (k, d, i, e) =>
           set_neighbor_cache (<[Z.to_nat i := used_neighbor e]> (neighbor_cache s))
             (set_destination_cache (<[Z.to_nat k := set_age 0 d]> (destination_cache s)) s)
       | None => s
       end.

(** The destination's index is within its table, the neighbour's within its
    own; both are array indices. *)
Definition nd6_indices (s : nd6_vars) : Prop :=
  0 <= nd6_cached_destination_index s < LWIP_ND6_NUM_DESTINATIONS /\
  Forall (fun d => 0 <= cached_neighbor_idx d) (destination_cache s).

Lemma rd_lookup {A} (l : list A) i x : 0 <= i -> l !! Z.to_nat i = Some x -> rd l i = Ok x.
Proof using Type. intros. by apply rd_ok. Qed.

Lemma wr_insert {A} (l : list A) i x y : 0 <= i -> l !! Z.to_nat i = Some x -> wr l i y = Ok (<[Z.to_nat i := y]> l).
Proof using Type.
  intros Hi Hl. apply lookup_lt_Some in Hl. unfold wr.
  by rewrite (proj2 (Z.ltb_ge i 0)), (proj2 (Z.leb_gt (zlen l) i)) by lia.
Qed.

Definition with_nd6 (v : nd6_vars) s : st := with_lower (set_nd6 (fun _ => v)) s.

Lemma get_dest_ok s k d : 0 <= k -> destination_cache (nd6 (lower s)) !! Z.to_nat k = Some d -> get_dest k s = Ok (d, s).
Proof using Type. intros Hk Hd. unfold get_dest, tries. by rewrite (rd_lookup _ _ d). Qed.

Lemma get_nbr_ok s i e : 0 <= i -> neighbor_cache (nd6 (lower s)) !! Z.to_nat i = Some e -> get_nbr i s = Ok (e, s).
Proof using Type. intros Hi He. unfold get_nbr, tries. by rewrite (rd_lookup _ _ e). Qed.

Lemma upd_dest_ok s k d f : 0 <= k -> destination_cache (nd6 (lower s)) !! Z.to_nat k = Some d ->
  upd_dest k f s =
    Ok (tt, with_nd6 (set_destination_cache (<[Z.to_nat k := f d]> (destination_cache (nd6 (lower s)))) (nd6 (lower s))) s).
Proof using Type.
  intros Hk Hd. unfold upd_dest. erewrite (io_bind_ok nd) by done. rewrite (io_bind_ok _ _ _ _ _ (get_dest_ok s k d Hk Hd)).
  erewrite io_bind_ok; [done|]. unfold tries. by rewrite (wr_insert _ _ d).
Qed.

Lemma upd_nbr_ok s i e f : 0 <= i -> neighbor_cache (nd6 (lower s)) !! Z.to_nat i = Some e ->
  upd_nbr i f s =
    Ok (tt, with_nd6 (set_neighbor_cache (<[Z.to_nat i := f e]> (neighbor_cache (nd6 (lower s)))) (nd6 (lower s))) s).
Proof using Type.
  intros Hi He. unfold upd_nbr. erewrite (io_bind_ok nd) by done. rewrite (io_bind_ok _ _ _ _ _ (get_nbr_ok s i e Hi He)).
  erewrite io_bind_ok; [done|]. unfold tries. by rewrite (wr_insert _ _ e).
Qed.

Lemma next_hop_entry_ok s k d i e netif : 0 <= k -> destination_cache (nd6 (lower s)) !! Z.to_nat k = Some d ->
  0 <= i -> cached_neighbor_idx d = i -> neighbor_cache (nd6 (lower s)) !! Z.to_nat i = Some e ->
  ip6_addr_eq (next_hop_addr d) (next_hop_address e) = true ->
  next_hop_entry k netif s =
    Ok (i, with_nd6 (set_destination_cache (<[Z.to_nat k := set_age 0 d]> (destination_cache (nd6 (lower s)))) (nd6 (lower s))) s).
Proof using Type.
  intros Hk Hd Hi <- He Heq. unfold next_hop_entry.
  rewrite (io_bind_ok _ _ _ _ _ (get_dest_ok s k d Hk Hd)), (io_bind_ok _ _ _ _ _ (get_nbr_ok s _ e Hi He)), Heq.
  rewrite (io_bind_ok _ _ _ ERR_OK s eq_refl). cbn [negb Z.eqb ERR_OK].
  rewrite (io_bind_ok _ _ _ _ _ (upd_dest_ok s k d (set_age 0) Hk Hd)).
  erewrite (io_bind_ok (get_dest k)); [|apply (get_dest_ok _ k (set_age 0 d) Hk)]; [done|].
  cbn [with_nd6 with_lower lower set_nd6 nd6 set_destination_cache destination_cache].
  by apply list_lookup_insert_eq, (lookup_lt_Some _ _ d).
Qed.

Lemma set_neighbor_cache_id v : set_neighbor_cache (neighbor_cache v) v = v.
Proof using Type. by destruct v. Qed.

(** The neighbour found is used. *)
Lemma use_neighbor_ok s p i e : 0 <= i -> neighbor_cache (nd6 (lower s)) !! Z.to_nat i = Some e ->
  (state e =? ND6_REACHABLE) || (state e =? ND6_STALE) || (state e =? ND6_DELAY) || (state e =? ND6_PROBE) = true ->
  (e ← get_nbr i;
   _ ← io_when (state e =? ND6_STALE)
     (_ ← upd_nbr i (set_state ND6_DELAY);
      upd_nbr i (set_counter (LWIP_ND6_DELAY_FIRST_PROBE_TIME / ND6_TMR_INTERVAL)));
   e ← get_nbr i;
   if (state e =? ND6_REACHABLE) || (state e =? ND6_DELAY) || (state e =? ND6_PROBE) then
     mret (ERR_OK, Some (lladdr e))
   else
     r ← nd6_queue_packet i p;
     mret (r, None)) s =
  Ok ((ERR_OK, Some (lladdr e)),
      with_nd6 (set_neighbor_cache (<[Z.to_nat i := used_neighbor e]> (neighbor_cache (nd6 (lower s)))) (nd6 (lower s))) s).
Proof using Type.
  intros Hi He Hst. pose proof (lookup_lt_Some _ _ _ He) as Hlt. rewrite (io_bind_ok _ _ _ _ _ (get_nbr_ok s i e Hi He)).
  unfold used_neighbor. destruct (Z.eqb_spec (state e) ND6_STALE) as [Es|Es]; cbn [io_when].
  - set (e1 := set_state ND6_DELAY e). set (e2 := set_counter _ e1). set (l1 := <[Z.to_nat i := e1]> (neighbor_cache (nd6 (lower s)))).
    set (s1 := with_nd6 (set_neighbor_cache l1 (nd6 (lower s))) s).
    assert (He1 : neighbor_cache (nd6 (lower s1)) !! Z.to_nat i = Some e1) by by apply list_lookup_insert_eq.
    set (s2 := with_nd6 (set_neighbor_cache (<[Z.to_nat i := e2]> l1) (nd6 (lower s))) s).
    assert (He2 : neighbor_cache (nd6 (lower s2)) !! Z.to_nat i = Some e2)
      by (apply list_lookup_insert_eq; unfold l1; by rewrite length_insert).
    rewrite (io_bind_ok _ _ _ tt s2).
    + rewrite (io_bind_ok _ _ _ _ _ (get_nbr_ok s2 i e2 Hi He2)). cbn [state e2 e1 set_state set_counter Z.eqb orb].
      unfold s2, l1. by rewrite list_insert_insert_eq.
    + rewrite (io_bind_ok _ _ _ _ _ (upd_nbr_ok s i e _ Hi He)). exact (upd_nbr_ok s1 i e1 _ Hi He1).
  - rewrite (io_bind_ok _ _ _ tt s eq_refl), (io_bind_ok _ _ _ _ _ (get_nbr_ok s i e Hi He)).
    rewrite orb_false_r in Hst. rewrite Hst, list_insert_id by done.
    rewrite set_neighbor_cache_id. by destruct s as [? ? ? []].
Qed.

(** With the neighbour known the packet is not queued. *)
Lemma next_hop_ok s p dst netif k d i e : nd6_indices (nd6 (lower s)) -> ip6_addr_ismulticast dst = false ->
  cached_hop (nd6 (lower s)) dst = Some (k, d, i, e) ->
  nd6_get_next_hop_addr_or_queue netif p dst s = Ok ((ERR_OK, Some (lladdr e)), with_nd6 (after_hop (nd6 (lower s)) dst) s).
Proof using Type.
  intros [Hk Hi] Hm Hc. unfold after_hop. rewrite Hm, Hc. unfold cached_hop in Hc. cbv zeta in Hc.
  set (nds := nd6 (lower s)) in *.
  destruct (destination_cache nds !! _) as [d'|] eqn:Hd; [|done]. cbn [mbind option_bind] in Hc.
  destruct (neighbor_cache nds !! _) as [e'|] eqn:He; [|done]. cbn [mbind option_bind] in Hc.
  destruct (ip6_addr_eq dst _) eqn:E1; [|done]. destruct (ip6_addr_eq (next_hop_addr d') _) eqn:E2; [|done].
  cbn [andb] in Hc. destruct (_ || _) eqn:Est in Hc; [|done]. injection Hc as <- -> <- ->.
  pose proof (proj1 (Forall_lookup _ _) Hi _ _ Hd) as Hi0.
  unfold nd6_get_next_hop_addr_or_queue. erewrite io_bind_ok.
  2: { unfold nd6_get_next_hop_entry. erewrite (io_bind_ok nd) by done. fold nds.
       rewrite (proj2 (Z.ltb_lt _ _)) by lia. erewrite (io_bind_ok (io_assert true)) by done.
       rewrite (io_bind_ok _ _ _ _ _ (get_dest_ok s (nd6_cached_destination_index nds) d ltac:(lia) Hd)), E1. erewrite (io_bind_ok (mret _)) by done.
       apply (next_hop_entry_ok s (nd6_cached_destination_index nds) d _ e netif ltac:(lia) Hd Hi0 eq_refl He E2). }
  rewrite (proj2 (Z.ltb_ge _ 0)) by done.
  erewrite use_neighbor_ok; [done|done| |done]. exact He.
Qed.

(** What is ready for Ethernet: the interface has a MAC address, the next
    hop is known. *)
Record eth_ready s (nif : netif) (netif : Z) (dst : ip6_addr) (mac : list Z) : Prop := {
  er_netif : netifs (lower s) !! netif = Some nif;
  er_hwaddr : length (hwaddr nif) = 6%nat /\ hwaddr_len nif = 6;
  er_indices : nd6_indices (nd6 (lower s));
  er_mac : next_mac (nd6 (lower s)) dst = Some mac;
  er_length : length mac = 6%nat
}.

(** Only packets and the caches have changed. *)
Definition after_sending s s' (dst : ip6_addr) : Prop :=
  udp s' = udp s /\ udp_pool s' = udp_pool s /\
  lower s' = set_nd6 (fun _ => after_hop (nd6 (lower s)) dst) (lower s).

Lemma ethip6_output_ok s p b l c n netif nif dst mac : outgoing s p b l c n -> SIZEOF_ETH_HDR <= n ->
  zlen c + SIZEOF_ETH_HDR < 65536 -> eth_ready s nif netif dst mac ->
  exists s', ethip6_output netif p dst s = linkoutput netif p s' /\
    outgoing s' p (grown SIZEOF_ETH_HDR b) l (eth_header mac (hwaddr nif) ETHTYPE_IPV6 ++ c) (n - SIZEOF_ETH_HDR) /\
    after_sending s s' dst.
Proof using Type.
  intros Ho Hn Hlt [Hnif [Hhw Hhl] Hix Hmac Hlen]. unfold ethip6_output, after_sending, after_hop. unfold next_mac in Hmac.
  destruct (ip6_addr_ismulticast dst) eqn:Em.
  - injection Hmac as <-. rewrite (io_bind_ok _ _ _ nif s) by (unfold get_netif, tries; by rewrite Hnif).
    destruct (ethernet_output_ok s p b l c n netif nif (hwaddr nif) (multicast_mac dst) ETHTYPE_IPV6 Ho Hn Hlt
      ltac:(lia) ltac:(lia) ltac:(done) Hnif Hhl) as (s' & E & O' & Tu & Tp & Tl).
    exists s'. split_and!; try done. rewrite Tl. by destruct (lower s).
  - destruct (cached_hop (nd6 (lower s)) dst) as [[[[k d] i] e]|] eqn:Ec; [|done]. injection Hmac as <-.
    pose proof (next_hop_ok s p dst netif k d i e Hix Em Ec) as E. unfold after_hop in E. rewrite Em, Ec in E.
    rewrite (io_bind_ok _ _ _ _ _ E). cbn [negb Z.eqb ERR_OK]. clear E. set (v := set_neighbor_cache _ _).
    rewrite (io_bind_ok _ _ _ nif (with_nd6 v s)) by (unfold get_netif, tries; cbn; by rewrite Hnif).
    destruct (ethernet_output_ok (with_nd6 v s) p b l c n netif nif (hwaddr nif) (lladdr e) ETHTYPE_IPV6) as (s' & E & O' & Tu & Tp & Tl);
      try done; try lia.
    { by destruct Ho. }
    exists s'. by split_and!.
Qed.
End Out.
