(* ===== verification/Ip6Receive.v ===== *)
(** IPv6 packets and frames received: extension headers, [ip6_input] and
    [ethernet_input] up to the protocol above. *)

From Stdlib Require Import ZArith Lia.
From stdpp Require Import base list numbers gmap.
From S2P Require Import Prelude Mmio Mem Memp Pbuf PbufChain PbufHeaders PbufAlloc Ip6Addr Chksum Udp UdpPackets.
From S2P Require Import Netif Ip6Out Mld6 Addrs Nd6 Nd6In Icmp6 Ip6In Ethernet Ip6Packets.

Open Scope Z_scope.

(* ------------------------------------------------------------------ *)
(** * Extension headers *)

(** Options that are skipped: padding of a byte, and type, length, value. *)
Inductive tlvs (dest_hdr : bool) : list Z -> Prop :=
| tlvs_end : tlvs dest_hdr []
| tlvs_pad o : tlvs dest_hdr o -> tlvs dest_hdr (IP6_PAD1_OPTION :: o)
| tlvs_option t v o : t <> IP6_PAD1_OPTION -> known_option dest_hdr t || (IP6_OPT_TYPE_ACTION t =? 0) = true ->
    tlvs dest_hdr o -> tlvs dest_hdr (t :: zlen v :: v ++ o).

(** Protocols [ip6_input] does not look into. *)
Definition upper_layer (n : Z) : Prop :=
  n <> IP6_NEXTH_HOPBYHOP /\ n <> IP6_NEXTH_DESTOPTS /\ n <> IP6_NEXTH_ROUTING /\ n <> IP6_NEXTH_FRAGMENT.

(** Headers from the first, of kind [t], to the protocol [last]: options,
    routing headers at their end, and fragment headers of whole packets. Only
    the first may be hop-by-hop. *)
Inductive headers : Z -> list Z -> Z -> Prop :=
| headers_end n : upper_layer n -> headers n [] n
| headers_options t n k o e last : t = IP6_NEXTH_HOPBYHOP \/ t = IP6_NEXTH_DESTOPTS -> n <> IP6_NEXTH_HOPBYHOP ->
    0 <= k -> zlen o + 2 = 8 * (1 + k) -> tlvs (t =? IP6_NEXTH_DESTOPTS) o -> headers n e last ->
    headers t (n :: k :: o ++ e) last
| headers_routing n k ty o e last : n <> IP6_NEXTH_HOPBYHOP -> 0 <= k -> zlen o + 4 = 8 * (1 + k) ->
    headers n e last -> headers IP6_NEXTH_ROUTING (n :: k :: ty :: 0 :: o ++ e) last
| headers_fragment n r o1 o2 i0 i1 i2 i3 e last : n <> IP6_NEXTH_HOPBYHOP ->
    Z.land (be16 o1 o2) (Z.lor IP6_FRAG_OFFSET_MASK IP6_FRAG_MORE_FLAG) = 0 -> headers n e last ->
    headers IP6_NEXTH_FRAGMENT ([n; r; o1; o2; i0; i1; i2; i3] ++ e) last.

Section Receive.
Context {PP RP HP UP QP MP DV : Type} `{PoolOps PP} `{PoolOps RP} `{HeapOps HP} `{PoolOps QP} `{PoolOps MP}.
Abbreviation st := (net PP RP HP UP (ipst QP MP DV)).
Context {HK : Hooks st}.
Implicit Types s : st.

(** A packet with content [c]. *)
Record arrived s (p : Z) (b : pbuf) l (c : list Z) : Prop := {
  ar_chain : chain (pbufs (n_heap s)) p ((p, b) :: l);
  ar_packet : packet ((p, b) :: l);
  ar_content : content (bytes (n_heap s)) ((p, b) :: l) c
}.

(** Only headers of pbufs have changed. *)
Definition same_bytes s s' : Prop := same_stack s s' /\ bytes (n_heap s') = bytes (n_heap s).

Lemma ar_pb s p b l c : arrived s p b l c -> pb p s = Ok (b, s).
Proof using Type. intros [Hch _ _]. apply pb_ok, Hch. Qed.

Lemma ar_length s p b l c : arrived s p b l c -> p <> 0 /\ tot_len b = zlen c /\ 0 <= len b < 65536 /\ 0 <= tot_len b < 65536.
Proof using Type.
  intros [Hch Hp Hc]. pose proof (content_length _ _ _ Hc Hp) as E. destruct Hp as (Et & (Hl & Ht & _) & _).
  simpl in E. unfold is_u16 in *. split; [apply Hch|lia].
Qed.

Lemma read8_at s a x : bytes (n_heap s) !! a = Some x -> read8 a s = Ok (x, s).
Proof using Type. intros E. unfold read8, tries, load8. by rewrite E. Qed.

Lemma ar_byte s p b l c off : arrived s p b l c -> 0 <= off < len b ->
  bytes (n_heap s) !! (payload b + off) = c !! Z.to_nat off.
Proof using Type. intros [_ _ Hc] Ho. by apply (content_head _ _ _ _ _ _ Hc). Qed.

Lemma ar_read8 s p b l c off x : arrived s p b l c -> 0 <= off < len b -> c !! Z.to_nat off = Some x ->
  read8 (payload b + off) s = Ok (x, s).
Proof using Type. intros Ha Ho Hx. apply read8_at. by rewrite (ar_byte _ _ _ _ _ _ Ha Ho). Qed.

Lemma ar_read16 s p b l c off hi lo : arrived s p b l c -> 0 <= off -> off + 2 <= len b ->
  c !! Z.to_nat off = Some hi -> c !! (Z.to_nat off + 1)%nat = Some lo -> read16 (payload b + off) s = Ok (be16 hi lo, s).
Proof using Type.
  intros [_ _ Hc] Ho Hl Hh Hlo. unfold read16. by rewrite (load_field _ _ _ _ _ off hi lo Hc).
Qed.

(** A header of [n] bytes taken off. *)
Lemma ar_remove s p b l c n : arrived s p b l c -> 0 < n <= len b ->
  exists s', remove_header p n s = Ok (0, s') /\ arrived s' p (trimmed n b) l (drop (Z.to_nat n) c) /\ same_bytes s s' /\
    payload (trimmed n b) = payload b + n /\ len (trimmed n b) = len b - n.
Proof using Type.
  intros Ha Hn. destruct (ar_length _ _ _ _ _ Ha) as (Hp0 & _ & Hlb & _). destruct Ha as [Hch Hp Hc].
  destruct (trimmed_packet n _ _ _ _ _ Hp Hc ltac:(lia)) as (Hp' & Hc' & _ & El).
  exists (with_heap (with_pbufs (fun _ => <[p := trimmed n b]> (pbufs (n_heap s))) (n_heap s)) s). split_and!; try done.
  - apply on_pbufs_ok. unfold pbuf_change. rewrite (remove_header_ok n _ p b); [done|apply Hch|done|lia|lia].
  - split; [|done|done]. by apply (chain_set_head _ _ b).
Qed.

(* ------------------------------------------------------------------ *)
(** * Through the headers *)

(** The options are skipped. *)
Lemma options_loop_ok s p b l d o : tlvs d o -> forall pre post fuel, arrived s p b l (pre ++ o ++ post) ->
  zlen pre + zlen o <= len b -> (length o <= fuel)%nat ->
  options_loop fuel p (payload b) (zlen pre + zlen o) (zlen pre) d s = Ok (true, s).
Proof using Type.
  induction 1 as [|o Ho IH|t v o Ht Hk Ho IH]; intros pre post fuel Ha Hlen Hfuel.
  - destruct fuel; cbn [options_loop]; by rewrite (proj2 (Z.ltb_ge _ _)) by (simpl; lia).
  - destruct fuel as [|fuel]; [simpl in Hfuel; lia|]. cbn [options_loop length] in *.
    rewrite (proj2 (Z.ltb_lt _ _)) by lia.
    erewrite io_bind_ok; [|apply (ar_read8 _ _ _ _ _ _ IP6_PAD1_OPTION Ha); [lia|by rewrite Nat2Z.id, lookup_app_r, Nat.sub_diag by lia]].
    rewrite Z.eqb_refl. erewrite (io_bind_ok (mret _)) by done. unfold IP6_OPT_HLEN.
    specialize (IH (pre ++ [IP6_PAD1_OPTION]) post fuel). rewrite <- app_assoc in IH.
    specialize (IH Ha). rewrite length_app in IH. cbn [length] in IH.
    replace (zlen pre + 2 + -1) with (Z.of_nat (length pre + 1)) by lia.
    replace (zlen pre + Z.of_nat (S (length o))) with (Z.of_nat (length pre + 1) + zlen o) by lia. apply IH; lia.
  - destruct fuel as [|fuel]; [simpl in Hfuel; lia|]. cbn [options_loop length] in *. rewrite length_app in *.
    rewrite (proj2 (Z.ltb_lt _ _)) by lia.
    erewrite io_bind_ok; [|apply (ar_read8 _ _ _ _ _ _ t Ha); [lia|by rewrite Nat2Z.id, lookup_app_r, Nat.sub_diag by lia]].
    rewrite (proj2 (Z.eqb_neq _ _) Ht), Hk. erewrite io_bind_ok.
    2: { replace (payload b + zlen pre + 1) with (payload b + (zlen pre + 1)) by lia.
         erewrite io_bind_ok; [done|]. apply (ar_read8 _ _ _ _ _ _ (zlen v) Ha); [lia|].
         rewrite lookup_app_r by lia. by replace (Z.to_nat (zlen pre + 1) - length pre)%nat with 1%nat by lia. }
    unfold IP6_OPT_HLEN. specialize (IH (pre ++ t :: zlen v :: v) post fuel).
    assert (E : pre ++ (t :: zlen v :: v ++ o) ++ post = (pre ++ t :: zlen v :: v) ++ o ++ post)
      by (rewrite <- !app_assoc; cbn [app]; by rewrite <- app_assoc).
    rewrite E in Ha. specialize (IH Ha). rewrite length_app in IH. cbn [length] in IH.
    replace (zlen pre + 2 + zlen v) with (Z.of_nat (length pre + S (S (length v)))) by lia.
    replace (zlen pre + Z.of_nat (S (S (length v + length o)))) with (Z.of_nat (length pre + S (S (length v))) + zlen o) by lia.
    apply IH; lia.
Qed.

(** What is left of the packet behind the first [k] bytes [e]. *)
Definition past s s' (p : Z) (b : pbuf) l (k : Z) (c : list Z) : Prop :=
  exists b', arrived s' p b' l c /\ same_bytes s s' /\ payload b' = payload b + k /\ len b' = len b - k.

Lemma past_remove s p b l e c : arrived s p b l (e ++ c) -> 0 < zlen e <= len b ->
  exists s', remove_header p (zlen e) s = Ok (0, s') /\ past s s' p b l (zlen e) c.
Proof using Type.
  intros Ha Hn. destruct (ar_remove _ _ _ _ _ _ Ha Hn) as (s' & E & Ha' & Hs & Ep & El).
  exists s'. split; [done|]. exists (trimmed (zlen e) b). split_and!; try done. by rewrite Nat2Z.id, drop_app_length in Ha'.
Qed.

(** One header with options. *)
Lemma options_header_ok s p b l n k o c tot d : arrived s p b l ((n :: k :: o) ++ c) -> 0 <= k ->
  zlen o + 2 = 8 * (1 + k) -> zlen o + 2 <= len b -> tlvs d o -> 0 <= tot -> tot + (zlen o + 2) < 65536 ->
  exists s', options_header p tot d s = Ok (Next (payload b) (tot + (zlen o + 2)), s') /\ past s s' p b l (zlen o + 2) c.
Proof using Type.
  intros Ha Hk Ho Hlen Ht Htot Hlt. destruct (ar_length _ _ _ _ _ Ha) as (_ & _ & Hlb & _).
  destruct (past_remove s p b l (n :: k :: o) c Ha ltac:(cbn [length]; lia)) as (s' & E & Hs').
  replace (zlen (n :: k :: o)) with (zlen o + 2) in * by (cbn [length]; lia). exists s'. split; [|done].
  unfold options_header. rewrite (io_bind_ok _ _ _ _ _ (ar_pb _ _ _ _ _ Ha)).
  rewrite (io_bind_ok _ _ _ k s) by (apply (ar_read8 _ _ _ _ _ 1 k Ha); [lia|done]).
  rewrite <- Ho, (u16_small (zlen o + 2)) by ulia. rewrite (proj2 (Z.ltb_ge (len b) 8)), (proj2 (Z.ltb_ge (len b) _)) by lia.
  cbn [orb]. rewrite (u16_small (tot + _)) by ulia.
  pose proof (options_loop_ok s p b l d o Ht [n; k] c (Z.to_nat (zlen o + 2)) Ha ltac:(cbn [length]; lia) ltac:(lia)) as El.
  replace (zlen [n; k] + zlen o) with (zlen o + 2) in El by (cbn [length]; lia).
  rewrite (io_bind_ok _ _ _ true s) by (destruct d; exact El). cbn [negb]. by rewrite (io_bind_ok _ _ _ _ _ E).
Qed.

Lemma routing_header_ok s p b l n k ty o c tot : arrived s p b l ((n :: k :: ty :: 0 :: o) ++ c) -> 0 <= k ->
  zlen o + 4 = 8 * (1 + k) -> zlen o + 4 <= len b -> 0 <= tot -> tot + (zlen o + 4) < 65536 ->
  exists s', routing_header p tot s = Ok (Next (payload b) (tot + (zlen o + 4)), s') /\ past s s' p b l (zlen o + 4) c.
Proof using Type.
  intros Ha Hk Ho Hlen Htot Hlt. destruct (ar_length _ _ _ _ _ Ha) as (_ & _ & Hlb & _).
  destruct (past_remove s p b l (n :: k :: ty :: 0 :: o) c Ha ltac:(cbn [length]; lia)) as (s' & E & Hs').
  replace (zlen (n :: k :: ty :: 0 :: o)) with (zlen o + 4) in * by (cbn [length]; lia). exists s'. split; [|done].
  unfold routing_header. rewrite (io_bind_ok _ _ _ _ _ (ar_pb _ _ _ _ _ Ha)).
  rewrite (io_bind_ok _ _ _ k s) by (apply (ar_read8 _ _ _ _ _ 1 k Ha); [lia|done]).
  rewrite <- Ho, (u16_small (zlen o + 4)) by ulia. rewrite (proj2 (Z.ltb_ge (len b) 8)), (proj2 (Z.ltb_ge (len b) _)) by lia.
  cbn [orb]. rewrite (u16_small (tot + _)) by ulia.
  rewrite (io_bind_ok _ _ _ 0 s) by (apply (ar_read8 _ _ _ _ _ 3 0 Ha); [lia|done]).
  rewrite (io_bind_ok _ _ _ ty s) by (apply (ar_read8 _ _ _ _ _ 2 ty Ha); [lia|done]). cbn [Z.eqb negb andb].
  by rewrite (io_bind_ok _ _ _ _ _ E).
Qed.

Lemma fragment_header_ok s p b l ip6hdr n r o1 o2 i0 i1 i2 i3 c tot plen :
  arrived s p b l ([n; r; o1; o2; i0; i1; i2; i3] ++ c) -> read16 (ip6hdr + IP6H_plen) s = Ok (plen, s) ->
  Z.land (be16 o1 o2) (Z.lor IP6_FRAG_OFFSET_MASK IP6_FRAG_MORE_FLAG) = 0 -> 8 <= len b -> 0 <= tot -> tot + 8 < 65536 ->
  exists s', fragment_header p ip6hdr tot s = Ok (Next (payload b) (tot + 8), s') /\ past s s' p b l 8 c.
Proof using Type.
  intros Ha Hplen Hf Hlen Htot Hlt.
  destruct (past_remove s p b l [n; r; o1; o2; i0; i1; i2; i3] c Ha ltac:(cbn [length]; lia)) as (s' & E & Hs').
  exists s'. split; [|done].
  unfold fragment_header. rewrite (io_bind_ok _ _ _ _ _ (ar_pb _ _ _ _ _ Ha)), (proj2 (Z.ltb_ge (len b) 8)) by lia.
  rewrite (io_bind_ok _ _ _ (be16 o1 o2) s) by (apply (ar_read16 _ _ _ _ _ 2 o1 o2 Ha); [lia|lia|done|done]).
  rewrite (io_bind_ok _ _ _ _ _ Hplen).
  assert (E1 : Z.land (be16 o1 o2) 0x1 = 0).
  { change 0x1 with (Z.land (Z.lor IP6_FRAG_OFFSET_MASK IP6_FRAG_MORE_FLAG) 0x1). by rewrite Z.land_assoc, Hf. }
  rewrite E1, Hf, (u16_small (tot + 8)) by ulia. cbn [Z.eqb negb andb]. by rewrite (io_bind_ok _ _ _ _ _ E).
Qed.

(** A turn of the loop, the header in the way taken off. *)
Lemma ext_loop_step s s1 p ip6hdr nexth tot fuel t n hdr tot1 r : bytes (n_heap s) !! nexth = Some t -> t <> IP6_NEXTH_NONE ->
  r s = Ok (Next hdr tot1, s1) ->
  (if t =? IP6_NEXTH_HOPBYHOP then options_header p tot false
   else if t =? IP6_NEXTH_DESTOPTS then options_header p tot true
   else if t =? IP6_NEXTH_ROUTING then routing_header p tot
   else if t =? IP6_NEXTH_FRAGMENT then fragment_header p ip6hdr tot
   else mret (Done nexth tot)) = r ->
  bytes (n_heap s1) !! hdr = Some n -> n <> IP6_NEXTH_HOPBYHOP ->
  ext_loop (S fuel) p ip6hdr nexth tot s = ext_loop fuel p ip6hdr hdr tot1 s1.
Proof using Type.
  intros Ht Hne Er <- Hn Hn0. cbn [ext_loop]. rewrite (io_bind_ok _ _ _ _ _ (read8_at _ _ _ Ht)), (proj2 (Z.eqb_neq _ _) Hne).
  unfold ext_header. erewrite io_bind_ok; [|erewrite io_bind_ok; [|exact (read8_at _ _ _ Ht)]; rewrite (io_bind_ok _ _ _ _ _ Er);
    rewrite (io_bind_ok _ _ _ _ _ (read8_at _ _ _ Hn)), (proj2 (Z.eqb_neq _ _) Hn0); done]. done.
Qed.

(** The loop takes the headers [e] off and finds the protocol [last]. *)
Definition takes_off fuel p ip6hdr nexth tot s b l (e c : list Z) last : Prop :=
  exists s' a, ext_loop fuel p ip6hdr nexth tot s = Ok (Some (a, tot + zlen e), s') /\
    bytes (n_heap s) !! a = Some last /\ past s s' p b l (zlen e) c.

Lemma takes_off_step fuel p ip6hdr nexth tot s s1 b l h e c last t n r : arrived s p b l (h ++ e ++ c) ->
  zlen (h ++ e) <= len b -> h !! 0%nat = Some n -> n <> IP6_NEXTH_HOPBYHOP ->
  bytes (n_heap s) !! nexth = Some t -> t <> IP6_NEXTH_NONE ->
  r s = Ok (Next (payload b) (tot + zlen h), s1) -> past s s1 p b l (zlen h) (e ++ c) ->
  (if t =? IP6_NEXTH_HOPBYHOP then options_header p tot false
   else if t =? IP6_NEXTH_DESTOPTS then options_header p tot true
   else if t =? IP6_NEXTH_ROUTING then routing_header p tot
   else if t =? IP6_NEXTH_FRAGMENT then fragment_header p ip6hdr tot
   else mret (Done nexth tot)) = r ->
  (forall b1, arrived s1 p b1 l (e ++ c) -> bytes (n_heap s1) !! payload b = Some n -> zlen e <= len b1 ->
    takes_off fuel p ip6hdr (payload b) (tot + zlen h) s1 b1 l e c last) ->
  takes_off (S fuel) p ip6hdr nexth tot s b l (h ++ e) c last.
Proof using Type.
  intros Ha Hlen Hn Hn0 Ht Ht0 Er (b1 & Ha1 & [Hs Hb] & Ep & El) E IH. rewrite length_app in Hlen.
  pose proof (lookup_lt_Some _ _ _ Hn) as Hh.
  assert (Hn1 : bytes (n_heap s1) !! payload b = Some n).
  { rewrite Hb, <- (Z.add_0_r (payload b)), (ar_byte _ _ _ _ _ 0 Ha) by lia. by rewrite lookup_app_l by lia. }
  destruct (IH b1 Ha1 Hn1 ltac:(lia)) as (s' & a & E' & Hl & b2 & Ha2 & [Ht2 Hb2] & Ep2 & El2).
  exists s', a. rewrite (ext_loop_step _ _ _ _ _ _ _ _ _ _ _ _ Ht Ht0 Er E Hn1 Hn0), E', length_app, <- Hb. split_and!.
  - replace (tot + zlen h + zlen e) with (tot + Z.of_nat (length h + length e)) by lia. done.
  - done.
  - exists b2. split_and!; [done|split; [by eapply same_stack_trans|by rewrite Hb2]|lia|lia].
Qed.

(** All extension headers are taken off. *)
Lemma ext_loop_ok ip6hdr plen p l t e last : headers t e last -> forall s b c fuel nexth tot,
  arrived s p b l (e ++ c) -> bytes (n_heap s) !! nexth = Some t -> load16 (bytes (n_heap s)) (ip6hdr + IP6H_plen) = Ok plen ->
  zlen e <= len b -> 0 <= tot -> tot + zlen e < 65536 -> (length e <= fuel)%nat ->
  takes_off fuel p ip6hdr nexth tot s b l e c last.
Proof using Type.
  induction 1 as [n Hn|t n k o e last Ht Hn Hk Ho Htl He IH|n k ty o e last Hn Hk Ho He IH|n r o1 o2 i0 i1 i2 i3 e last Hn Hf He IH];
    intros s b c fuel nexth tot Ha Hnx Hpl Hlen Htot Hlt Hfuel.
  - exists s, nexth. rewrite Z.add_0_r. split_and!; [|done|exists b; by rewrite !Z.add_0_r, Z.sub_0_r].
    destruct fuel; cbn [ext_loop]; rewrite (io_bind_ok _ _ _ _ _ (read8_at _ _ _ Hnx)); (destruct (Z.eqb_spec n IP6_NEXTH_NONE); [done|]);
      unfold ext_header; (erewrite io_bind_ok; [|erewrite io_bind_ok; [|exact (read8_at _ _ _ Hnx)];
        destruct Hn as (? & ? & ? & ?); by rewrite !(proj2 (Z.eqb_neq n _)) by done]); done.
  - change (n :: k :: o ++ e) with ((n :: k :: o) ++ e) in *. rewrite <- app_assoc in Ha.
    pose proof Hlen as Hlen'. rewrite length_app in Hlen, Hlt, Hfuel. cbn [length] in Hlen, Hlt, Hfuel.
    destruct fuel as [|fuel]; [lia|].
    destruct (options_header_ok s p b l n k o (e ++ c) tot _ Ha Hk Ho ltac:(lia) Htl Htot ltac:(lia)) as (s1 & E & Hp).
    replace (zlen o + 2) with (zlen (n :: k :: o)) in * by (cbn [length]; lia).
    eapply takes_off_step; try done.
    + by destruct Ht; subst.
    + by destruct Ht; subst.
    + intros b1 Ha1 Hn1 Hl1. apply IH; try done; try (cbn [length]; lia).
      by destruct Hp as (_ & _ & [_ ->] & _).
  - change (n :: k :: ty :: 0 :: o ++ e) with ((n :: k :: ty :: 0 :: o) ++ e) in *. rewrite <- app_assoc in Ha.
    pose proof Hlen as Hlen'. rewrite length_app in Hlen, Hlt, Hfuel. cbn [length] in Hlen, Hlt, Hfuel.
    destruct fuel as [|fuel]; [lia|].
    destruct (routing_header_ok s p b l n k ty o (e ++ c) tot Ha Hk Ho ltac:(lia) Htot ltac:(lia)) as (s1 & E & Hp).
    replace (zlen o + 4) with (zlen (n :: k :: ty :: 0 :: o)) in * by (cbn [length]; lia).
    eapply takes_off_step; try done.
    intros b1 Ha1 Hn1 Hl1. apply IH; try done; try (cbn [length]; lia).
    by destruct Hp as (_ & _ & [_ ->] & _).
  - rewrite <- app_assoc in Ha. pose proof Hlen as Hlen'. rewrite length_app in Hlen, Hlt, Hfuel.
    cbn [length] in Hlen, Hlt, Hfuel. destruct fuel as [|fuel]; [lia|].
    assert (Hpr : read16 (ip6hdr + IP6H_plen) s = Ok (plen, s)) by (unfold read16; by rewrite Hpl).
    destruct (fragment_header_ok s p b l ip6hdr n r o1 o2 i0 i1 i2 i3 (e ++ c) tot plen Ha Hpr Hf ltac:(lia) Htot ltac:(lia))
      as (s1 & E & Hp).
    eapply takes_off_step; try done.
    intros b1 Ha1 Hn1 Hl1. apply IH; try done; try (cbn [length]; lia).
    by destruct Hp as (_ & _ & [_ ->] & _).
Qed.

(* ------------------------------------------------------------------ *)
(** * The header *)

Lemma take_drop_lookup {A} (c v : list A) off i : take (length v) (drop off c) = v -> (i < length v)%nat ->
  c !! (off + i)%nat = v !! i.
Proof using Type. intros <- Hi. rewrite length_take in Hi. by rewrite lookup_take_lt, lookup_drop by lia. Qed.

Lemma ar_read32 s p b l c off w : arrived s p b l c -> 0 <= off -> off + 4 <= len b -> is_u32 w ->
  take 4 (drop (Z.to_nat off) c) = word_bytes w -> read32 (payload b + off) s = Ok (w, s).
Proof using Type.
  intros Ha Ho Hl Hw Hf. pose proof (fun i => take_drop_lookup c (word_bytes w) (Z.to_nat off) i Hf) as Hi.
  unfold read32. rewrite (io_bind_ok _ _ _ (be16 (w / 16777216) (w / 65536 mod 256)) s).
  - rewrite (io_bind_ok _ _ _ (be16 (w / 256 mod 256) (w mod 256)) s).
    + unfold be16. unfold mret, io_ret. repeat f_equal. ulia.
    + replace (payload b + off + 2) with (payload b + (off + 2)) by lia.
      apply (ar_read16 _ _ _ _ _ _ _ _ Ha); [lia|lia| |];
        replace (Z.to_nat (off + 2)) with (Z.to_nat off + 2)%nat by lia; rewrite <- ?Nat.add_assoc; apply Hi; simpl; lia.
  - apply (ar_read16 _ _ _ _ _ _ _ _ Ha); [lia|lia| |]; [rewrite <- (Nat.add_0_r (Z.to_nat off))|]; apply Hi; simpl; lia.
Qed.

Lemma ar_read_addr s p b l c off a : arrived s p b l c -> 0 <= off -> off + 16 <= len b -> wf_ip6 a ->
  take 16 (drop (Z.to_nat off) c) = ip6_bytes a -> read_addr (payload b + off) s = Ok (a, s).
Proof using Type.
  intros Ha Ho Hl (w0 & w1 & w2 & w3 & -> & H0' & H1' & H2' & H3')%ip6_addr_words Hf. rewrite ip6_bytes_words in Hf.
  assert (Hw : forall k w, (k < 4)%nat -> take 4 (drop (4 * k) (take 16 (drop (Z.to_nat off) c))) = word_bytes w -> is_u32 w ->
    read32 (payload b + off + Z.of_nat (4 * k)) s = Ok (w, s)).
  { intros k w Hk E Hu. replace (payload b + off + Z.of_nat (4 * k)) with (payload b + (off + Z.of_nat (4 * k))) by lia.
    apply (ar_read32 _ _ _ _ _ _ _ Ha); [lia|lia|done|]. rewrite <- E, skipn_firstn_comm, firstn_firstn, drop_drop.
    replace (Nat.min 4 (16 - 4 * k)) with 4%nat by lia. f_equal. f_equal. lia. }
  rewrite Hf in Hw. unfold read_addr.
  rewrite (io_bind_ok _ _ _ w0 s) by (rewrite <- (Hw 0%nat w0) by (done || lia); f_equal; lia).
  rewrite (io_bind_ok _ _ _ w1 s) by (apply (Hw 1%nat); done || lia).
  rewrite (io_bind_ok _ _ _ w2 s) by (apply (Hw 2%nat); done || lia).
  by rewrite (io_bind_ok _ _ _ w3 s) by (apply (Hw 3%nat); done || lia).
Qed.

(** The version is 6. *)
Lemma header_version tc : is_u8 tc -> IP6H_V (u32 (Z.lor (Z.lor (Z.shiftl 6 28) (Z.shiftl tc 20)) 0)) = 6.
Proof using Type.
  intros Htc. rewrite Z.lor_0_r. change (Z.shiftl 6 28) with (6 * 2 ^ 28). rewrite Z.shiftl_mul_pow2 by lia.
  rewrite (lor_low (6 * 2 ^ 28) _ 28) by ulia. rewrite u32_small by ulia. unfold IP6H_V. rewrite Z.shiftr_div_pow2 by lia.
  replace ((6 * 2 ^ 28 + tc * 2 ^ 20) / 2 ^ 28) with 6 by ulia. done.
Qed.

(** Padding behind the packet is cut off: it may be there when the packet is
    in one buffer from a pool. *)
Definition paddable (b : pbuf) (l : list (Z * pbuf)) (pad : list Z) : Prop :=
  pad = [] \/ (l = [] /\ pbuf_match_allocsrc b PBUF_TYPE_ALLOC_SRC_MASK_STD_HEAP = false).

Lemma cut_padding s p b l c pad : arrived s p b l (c ++ pad) -> paddable b l pad ->
  exists s' b', on_pbufs (pbuf_realloc p (u16 (zlen c))) s = Ok (tt, s') /\ arrived s' p b' l c /\ same_bytes s s' /\
    payload b' = payload b /\ (len b' = len b \/ len b' = zlen c).
Proof using Type.
  intros Ha Hpad. destruct (ar_length _ _ _ _ _ Ha) as (Hp0 & Et & Hlb & Htb). rewrite length_app in Et.
  pose proof Ha as [Hch Hp Hc]. assert (Hb : pbufs (n_heap s) !! p = Some b) by apply Hch.
  rewrite u16_small by ulia. destruct (decide (pad = [])) as [->|Hne].
  - exists s, b. rewrite app_nil_r in Ha. cbn [length] in Et. split_and!; try done; [|by left].
    apply on_pbufs_same. unfold pbuf_realloc. rewrite (proj2 (Z.eqb_neq p 0)) by done.
    rewrite (io_bind_ok _ _ _ tt _ eq_refl), (io_bind_ok _ _ _ _ _ (pb_read_ok _ _ _ Hb)).
    by rewrite (proj2 (Z.leb_le _ _)) by lia.
  - destruct Hpad as [|[-> Hf]]; [done|]. set (b' := set_next 0 (set_tot_len (zlen c) (set_len (zlen c) b))).
    assert (Hlt : 0 < zlen pad) by (destruct pad; [done|simpl; lia]).
    pose proof Hp as (Et1 & [Hl [Ht Hr]] & _). cbn in Et1. assert (Hn : next b = 0) by apply Hch.
    exists (with_heap (with_pbufs (fun _ => <[p := b']> (pbufs (n_heap s))) (n_heap s)) s), b'.
    assert (El : len b' = zlen c) by (cbn; apply u16_small; ulia).
    split_and!; [|split|done|done|by right].
    + apply on_pbufs_ok. unfold pbuf_realloc. rewrite (proj2 (Z.eqb_neq p 0)) by done.
      rewrite (io_bind_ok _ _ _ tt _ eq_refl), (io_bind_ok _ _ _ _ _ (pb_read_ok _ _ _ Hb)).
      rewrite (proj2 (Z.leb_gt _ _)) by lia. rewrite (io_bind_ok _ _ _ _ _ eq_refl).
      rewrite (io_bind_ok _ _ _ (p, zlen c) (n_heap s)).
      * unfold realloc_cut. rewrite (io_bind_ok _ _ _ _ _ (pb_read_ok _ _ _ Hb)). unfold realloc_trim. rewrite Hf. cbn [andb].
        rewrite (io_bind_ok _ _ _ tt _ eq_refl), (io_bind_ok _ _ _ _ _ (pb_update_ok _ _ _ _ Hb)), Hn. cbn [Z.eqb negb].
        rewrite (io_bind_ok _ _ _ tt _ eq_refl). erewrite pb_update_ok by apply lookup_insert_eq.
        unfold with_pbufs. cbn [pool_st rom_st heap_st pbufs bytes]. by rewrite insert_insert_eq.
      * unfold chain_fuel. cbn [realloc_walk]. rewrite (io_bind_ok _ _ _ _ _ (pb_read_ok _ _ _ Hb)).
        by rewrite (proj2 (Z.ltb_ge _ _)) by lia.
    + apply (chain_set_head _ _ b); [done|]. by rewrite Hn.
    + split; [|split; [|done]].
      * change (tot_len b') with (u16 (zlen c)). rewrite El, u16_small by ulia. simpl. lia.
      * split_and!; [cbn; apply u16_range|cbn; apply u16_range|exact Hr].
    + destruct Hc as (c1 & c2 & Ec & Hl1 & ->). rewrite app_nil_r in Ec. subst c1.
      exists c, []. split_and!; [by rewrite app_nil_r| |done]. rewrite El. pose proof Hl1 as [Hlen _]%load_bytes_ok.
      rewrite length_app in Hlen.
      pose proof (load_bytes_sub _ _ _ _ 0 (length c) Hl1 ltac:(lia)) as Es. rewrite Z.add_0_r, drop_0, take_app_length in Es.
      by rewrite Nat2Z.id.
Qed.

Lemma header_fields src dst hl tc nexth plen c : wf_ip6 src -> wf_ip6 dst ->
  let h := ip6_header src dst hl tc nexth plen in
  length h = 40%nat /\ take 4 (h ++ c) = word_bytes (u32 (Z.lor (Z.lor (Z.shiftl 6 28) (Z.shiftl tc 20)) 0)) /\
  (h ++ c) !! 4%nat = Some (plen / 256) /\ (h ++ c) !! 5%nat = Some (plen mod 256) /\ (h ++ c) !! 6%nat = Some (u8 nexth) /\
  take 16 (drop 8 (h ++ c)) = ip6_bytes src /\ take 16 (drop 24 (h ++ c)) = ip6_bytes dst.
Proof using Type.
  intros (v0 & v1 & v2 & v3 & -> & _)%ip6_addr_words (w0 & w1 & w2 & w3 & -> & _)%ip6_addr_words h. unfold h, ip6_header.
  rewrite !ip6_bytes_words. by split_and!.
Qed.

(* ------------------------------------------------------------------ *)
(** * The packet is for the node *)

(** The interface is a member of the group, or has the address. *)
Definition for_us (lw : ipst QP MP DV) (n : netif) (dst : ip6_addr) : Prop :=
  if ip6_addr_ismulticast dst then
    ip6_addr_isallnodes_iflocal dst || ip6_addr_isallnodes_linklocal dst = true \/
    exists g, g <> 0 /\ find_group (group_fuel (mld_groups lw)) (mld_groups lw)
      (fun g => ip6_addr_eq (group_address g) dst) (mld6_data n) = Ok g
  else netif_is_up n && (0 <=? find_slot (fun st a => ip6_addr_isvalid st && ip6_addr_eq dst a) n) = true.

Lemma input_netif_ok s inp n : netifs (lower s) !! inp = Some n ->
  for_us (lower s) n (current_iphdr_dest (ip_data (lower s))) -> input_netif inp s = Ok (inp, s).
Proof using Type.
  intros Hn Hus. set (dst := current_iphdr_dest (ip_data (lower s))) in *.
  assert (Eg : get_netif inp s = Ok (n, s)) by (unfold get_netif, tries; by rewrite Hn).
  assert (Ed : ip6_current_dest_addr s = Ok (dst, s)) by done.
  unfold input_netif, for_us in *. rewrite (io_bind_ok _ _ _ _ _ Ed). destruct (ip6_addr_ismulticast dst).
  - destruct Hus as [->|(g & Hg & Ef)]; [done|]. destruct (_ || _); [done|].
    rewrite (io_bind_ok _ _ _ g s); [by rewrite (proj2 (Z.eqb_neq g 0))|].
    unfold mld6_lookfor_group, search_group, netif_mld6_data. rewrite (io_bind_ok _ _ _ (mld6_data n) s) by (by rewrite (io_bind_ok _ _ _ _ _ Eg)).
    unfold tries. by rewrite Ef.
  - rewrite (io_bind_ok _ _ _ true s); [done|]. unfold ip6_input_accept.
    by rewrite (io_bind_ok _ _ _ _ _ Eg), (io_bind_ok _ _ _ _ _ Ed), Hus.
Qed.

(** Source and destination that [ip6_input] lets pass. *)
Definition acceptable (src dst : ip6_addr) : bool :=
  negb (ip6_addr_isipv4mappedipv6 dst || ip6_addr_isipv4mappedipv6 src || ip6_addr_ismulticast src) &&
  negb (ip6_addr_isany_val src && negb (ip6_addr_issolicitednode dst)).

(** The protocols that get packets. *)
Definition handed (udp_input icmp6_input : Z -> Z -> io st unit) (last p inp : Z) : io st unit :=
  if last =? IP6_NEXTH_NONE then Udp.free p
  else if last =? IP6_NEXTH_UDP then udp_input p inp else icmp6_input p inp.
Definition a_protocol (n : Z) : Prop := n = IP6_NEXTH_NONE \/ n = IP6_NEXTH_UDP \/ n = IP6_NEXTH_ICMP6.

(** From the choice of the interface to the protocol. *)
Lemma input_accepted_ok udp_input icmp6_input s p b l inp n src dst hl tc nexth plen e d last :
  let g := ip_data (lower s) in
  arrived s p b l (ip6_header src dst hl tc nexth plen ++ e ++ d) -> wf_ip6 src -> wf_ip6 dst ->
  is_u8 nexth -> headers nexth e last -> a_protocol last -> IP6_HLEN + zlen e <= len b ->
  current_iphdr_src g = src -> current_iphdr_dest g = dst -> netifs (lower s) !! inp = Some n -> for_us (lower s) n dst ->
  inp <> 0 -> ip6_addr_isany_val src && negb (ip6_addr_issolicitednode dst) = false ->
  exists s' b', input_accepted udp_input icmp6_input p inp (payload b) s = handed udp_input icmp6_input last p inp s' /\
    arrived s' p b' l d /\ len b' = len b - (IP6_HLEN + zlen e) /\ udp s' = udp s /\ udp_pool s' = udp_pool s /\
    lower s' = set_ip_data (fun g => set_current_tot_len (IP6_HLEN + zlen e) (set_current_netif inp g)) (lower s).
Proof using Type.
  intros g Ha Hsrc Hdst Hnx He Hlast Hlen Es Ed Hn Hus Hinp Hacc. unfold IP6_HLEN in *.
  destruct (ar_length _ _ _ _ _ Ha) as (Hp0 & _ & Hlb & _).
  destruct (header_fields src dst hl tc nexth plen (e ++ d) Hsrc Hdst) as (Hhl & _ & H4 & H5 & H6 & _). rewrite u8_small in H6 by done.
  set (h := ip6_header src dst hl tc nexth plen) in *.
  set (s1 := with_lower (set_ip_data (set_current_netif inp)) s).
  assert (Ha1 : arrived s1 p b l (h ++ e ++ d)) by by destruct Ha.
  destruct (past_remove s1 p b l h (e ++ d) Ha1 ltac:(lia)) as (s2 & E2 & b2 & Ha2 & [[Tu [Tp Tl]] Hb2] & Ep2 & El2).
  assert (Hzh : zlen h = 40) by lia. rewrite Hzh in *.
  assert (Hpl : load16 (bytes (n_heap s2)) (payload b + IP6H_plen) = Ok (be16 (plen / 256) (plen mod 256))).
  { rewrite Hb2. destruct Ha1 as [_ _ Hc]. apply (load_field _ _ _ _ _ _ _ _ Hc); [done|unfold IP6H_plen; lia|done|done]. }
  assert (Hn1 : bytes (n_heap s2) !! (payload b + IP6H_nexth) = Some nexth).
  { rewrite Hb2. change (bytes (n_heap s1)) with (bytes (n_heap s)). unfold IP6H_nexth.
    by rewrite (ar_byte _ _ _ _ _ 6 Ha) by lia. }
  destruct (ext_loop_ok (payload b) _ p l nexth e last He s2 b2 d (Z.to_nat (len b)) (payload b + IP6H_nexth) 40 Ha2 Hn1 Hpl)
    as (s3 & a & E3 & Hl3 & b3 & Ha3 & [[Tu3 [Tp3 Tl3]] Hb3] & Ep3 & El3); try lia.
  set (s4 := with_lower (set_ip_data (set_current_tot_len (40 + zlen e))) s3).
  assert (E4 : read8 a s4 = Ok (last, s4)) by (apply read8_at; by rewrite <- Hl3, <- Hb3).
  exists s4, b3.
  split_and!; [|by destruct Ha3|lia|exact (eq_trans Tu3 Tu)|exact (eq_trans Tp3 Tp)|].
  - unfold input_accepted. rewrite (io_bind_ok _ _ _ inp s) by (apply (input_netif_ok s inp n Hn); fold g; by rewrite Ed).
    rewrite (io_bind_ok _ _ _ g s eq_refl), Es, Ed, Hacc, (proj2 (Z.eqb_neq inp 0)) by done.
    rewrite (io_bind_ok _ _ _ tt s1 eq_refl), (io_bind_ok _ _ _ _ _ (ar_pb _ _ _ _ _ Ha1)). unfold IP6_HLEN.
    rewrite (io_bind_ok _ _ _ _ _ E2), (io_bind_ok _ _ _ _ _ E3). unfold ip6_deliver.
    rewrite (io_bind_ok _ _ _ tt s4 eq_refl), (io_bind_ok _ _ _ _ _ E4). unfold handed. by destruct Hlast as [->|[->| ->]].
  - cbn [s4 lower with_lower]. by rewrite Tl3, Tl.
Qed.

(** What the packet's protocol sees: where it came from and went to, and how
    long its headers were. *)
Definition arrived_globals (inp hdr tot : Z) (src dst : ip6_addr) : ip_globals := mk_globals inp inp hdr tot src dst.

Lemma ip6_input_ok udp_input icmp6_input s p b l inp n src dst hl tc nexth e d pad last :
  arrived s p b l ((ip6_header src dst hl tc nexth (zlen (e ++ d)) ++ e ++ d) ++ pad) -> paddable b l pad ->
  wf_ip6 src -> wf_ip6 dst -> is_u8 tc -> is_u8 nexth -> headers nexth e last -> a_protocol last ->
  IP6_HLEN + zlen e <= len b -> netifs (lower s) !! inp = Some n -> for_us (lower s) n dst -> inp <> 0 ->
  acceptable src dst = true ->
  exists s' b', ip6_input udp_input icmp6_input p inp s =
      (_ ← handed udp_input icmp6_input last p inp; _ ← input_cleanup; mret ERR_OK) s' /\
    arrived s' p b' l d /\ (len b' = len b - (IP6_HLEN + zlen e) \/ len b' = zlen d) /\
    udp s' = udp s /\ udp_pool s' = udp_pool s /\
    lower s' = set_ip_data (fun _ => arrived_globals inp (payload b) (IP6_HLEN + zlen e) src dst) (lower s).
Proof using Type.
  intros Ha Hpad Hsrc Hdst Htc Hnx He Hlast Hlen Hn Hus Hinp [Hacc1 Hacc2]%andb_prop. apply negb_true_iff in Hacc1, Hacc2.
  destruct (header_fields src dst hl tc nexth (zlen (e ++ d)) ((e ++ d) ++ pad) Hsrc Hdst) as (Hhl & H0' & H4 & H5 & H6 & _).
  destruct (header_fields src dst hl tc nexth (zlen (e ++ d)) (e ++ d) Hsrc Hdst) as (_ & _ & _ & _ & _ & H8 & H24).
  set (h := ip6_header src dst hl tc nexth (zlen (e ++ d))) in *. unfold IP6_HLEN in *.
  destruct (ar_length _ _ _ _ _ Ha) as (_ & Et & Hlb & Htb). rewrite !length_app, Hhl in Et.
  destruct (cut_padding s p b l (h ++ e ++ d) pad Ha Hpad) as (s1 & b1 & E1 & Ha1 & [(Tu & Tp & Tl) Hb1] & Ep1 & El1).
  rewrite <- app_assoc in Ha. assert (Hzc : zlen (h ++ e ++ d) = 40 + zlen (e ++ d)) by (rewrite length_app; lia).
  assert (Hed : zlen (e ++ d) = zlen e + zlen d) by (rewrite length_app; lia).
  set (s2 := with_lower (set_ip_data (set_current_input_netif inp)) (with_lower (set_ip_data (set_current_netif inp))
    (with_lower (set_ip_data (set_current_header (payload b))) (with_lower (set_ip_data (set_current_addrs dst src)) s1)))).
  assert (Ha2 : arrived s2 p b1 l (h ++ e ++ d)) by by destruct Ha1.
  assert (Hl1 : 40 + zlen e <= len b1) by lia.
  destruct (input_accepted_ok udp_input icmp6_input s2 p b1 l inp n src dst hl tc nexth _ e d last Ha2 Hsrc Hdst Hnx He Hlast Hl1
    eq_refl eq_refl) as (s3 & b3 & E3 & Ha3 & El3 & Tu3 & Tp3 & Tl3); try done.
  { change (netifs (lower s1) !! inp = Some n). by rewrite Tl. }
  { change (for_us (lower s1) n dst). by rewrite Tl. }
  exists s3, b3. split_and!; [|done|destruct El1 as [->| ->] in El3; unfold IP6_HLEN in *; lia|by rewrite Tu3|by rewrite Tp3|].
  - unfold ip6_input, IP6H_v_tc_fl, IP6H_plen, IP6H_dest, IP6H_src. rewrite (io_bind_ok _ _ _ _ _ (ar_pb _ _ _ _ _ Ha)).
    rewrite (io_bind_ok _ _ _ _ _ (ar_read32 _ _ _ _ _ 0 _ Ha ltac:(lia) ltac:(lia) (u32_range _) H0')), header_version, Z.eqb_refl by done. cbn [negb].
    rewrite (io_bind_ok _ _ _ _ _ (ar_read16 _ _ _ _ _ 4 _ _ Ha ltac:(lia) ltac:(lia) H4 H5)), be16_half. unfold IP6_HLEN.
    rewrite (proj2 (Z.ltb_ge (len b) 40)), (proj2 (Z.ltb_ge (tot_len b - 40) _)) by lia. cbn [orb].
    rewrite <- Hzc, (io_bind_ok _ _ _ _ _ E1), <- Ep1.
    rewrite (io_bind_ok _ _ _ _ _ (ar_read_addr _ _ _ _ _ 24 dst Ha1 ltac:(lia) ltac:(lia) Hdst H24)).
    rewrite (io_bind_ok _ _ _ _ _ (ar_read_addr _ _ _ _ _ 8 src Ha1 ltac:(lia) ltac:(lia) Hsrc H8)).
    rewrite (io_bind_ok _ _ _ tt _ eq_refl), Hacc1. do 3 rewrite (io_bind_ok _ _ _ tt _ eq_refl). rewrite Ep1 in *. fold s2.
    unfold mbind, io_bind. rewrite E3. done.
  - rewrite Tl3. cbn [s2 lower with_lower]. rewrite Tl. by destruct (lower s).
Qed.

(* ------------------------------------------------------------------ *)
(** * The frame *)

(** Headers that agree but for flags and the interface's index. *)
Definition alike (b b' : pbuf) : Prop :=
  Pbuf.next b' = Pbuf.next b /\ payload b' = payload b /\ tot_len b' = tot_len b /\ len b' = len b /\
  type_internal b' = type_internal b /\ ref b' = ref b.

Lemma ar_update s p b l c (t : bool) f : arrived s p b l c -> (forall b, alike b (f b)) ->
  exists s' b', io_when t (on_pbufs (pb_update p f)) s = Ok (tt, s') /\ arrived s' p b' l c /\ same_bytes s s' /\ alike b b'.
Proof using Type.
  intros Ha Hf. destruct t; cbn [io_when].
  2: { exists s, b. by split_and!. }
  destruct (Hf b) as (En & Ep & Et & El & Ety & Er). destruct Ha as [Hch Hp Hc]. assert (Hb : pbufs (n_heap s) !! p = Some b) by apply Hch.
  exists (with_heap (with_pbufs <[p := f b]> (n_heap s)) s), (f b). split_and!; [|split|done|by split_and!].
  - by apply on_pbufs_ok, pb_update_ok.
  - by apply (chain_set_head _ _ b).
  - destruct Hp as (Et' & (Hl & Ht & Hr) & Hp). cbn [packet]. unfold wf_pbuf. by rewrite Et, El, Er.
  - by apply (content_same_head _ _ b).
Qed.

Lemma read_bytes_ok s p b l c off n : arrived s p b l c -> 0 <= off -> 0 <= n -> off + n <= len b ->
  read_bytes (payload b + off) n s = Ok (take (Z.to_nat n) (drop (Z.to_nat off) c), s).
Proof using Type.
  intros [_ _ Hc] Ho Hn Hl. unfold read_bytes, tries. by rewrite (load_block _ _ _ _ _ off _ Hc) by lia.
Qed.

Lemma ll_flag_ok (d : list Z) : (2 <= length d)%nat -> exists f, ll_flag d = Ok f.
Proof using Type. do 2 (destruct d as [|? d]; [simpl; lia|]). intros _. by eexists. Qed.

(** A frame with an IPv6 packet. *)
Lemma ethernet_input_ok ip6_input s p b l netif n dst src c :
  arrived s p b l (eth_header dst src ETHTYPE_IPV6 ++ c) -> length dst = 6%nat -> length src = 6%nat ->
  SIZEOF_ETH_HDR < len b -> netifs (lower s) !! netif = Some n ->
  exists s' b', ethernet_input ip6_input p netif s = (_ ← ip6_input p netif; mret ERR_OK) s' /\ arrived s' p b' l c /\
    same_stack s s' /\ len b' = len b - SIZEOF_ETH_HDR /\ type_internal b' = type_internal b /\ payload b' = payload b + SIZEOF_ETH_HDR.
Proof using Type.
  intros Ha Hd Hs Hlen Hn. unfold SIZEOF_ETH_HDR in *.
  assert (Hf : exists f, ll_flag (take (Z.to_nat 6) (drop (Z.to_nat 0) (eth_header dst src ETHTYPE_IPV6 ++ c))) = Ok f)
    by (apply ll_flag_ok; unfold eth_header; open_list dst 6; simpl; lia).
  destruct Hf as [f Hf].
  assert (Htype : forall k, eth_header dst src ETHTYPE_IPV6 ++ c = eth_header dst src ETHTYPE_IPV6 ++ k ->
    (eth_header dst src ETHTYPE_IPV6 ++ k) !! 12%nat = Some 0x86 /\ (eth_header dst src ETHTYPE_IPV6 ++ k) !! 13%nat = Some 0xDD)
    by (intros k _; unfold eth_header; open_list dst 6; by open_list src 6).
  destruct (Htype c eq_refl) as [H12 H13].
  assert (Hle : length (eth_header dst src ETHTYPE_IPV6) = 14%nat) by (unfold eth_header; rewrite !length_app; simpl; lia).
  destruct (ar_update s p b l _ (if_idx b =? NETIF_NO_INDEX) (set_if_idx (get_index n)) Ha ltac:(intros ?; by repeat split))
    as (s1 & b1 & E1 & Ha1 & [T1 _] & _ & Ep1 & _ & El1 & Ety1 & _).
  destruct (ar_update s1 p b1 l _ (negb (f =? 0)) (fun b => set_flags (Z.lor (flags b) f) b) Ha1 ltac:(intros ?; by repeat split))
    as (s2 & b2 & E2 & Ha2 & [T2 _] & _ & Ep2 & _ & El2 & Ety2 & _).
  destruct (ar_remove _ _ _ _ _ 14 Ha2 ltac:(lia)) as (s3 & E3 & Ha3 & [T3 _] & Ep3 & El3).
  exists s3, (trimmed 14 b2). split_and!; [| |by eapply same_stack_trans; [|eapply same_stack_trans]|lia|by rewrite <- Ety1, <- Ety2|lia].
  - unfold ethernet_input, SIZEOF_ETH_HDR, ETHH_type, ETHH_dest, ETH_HWADDR_LEN.
    rewrite (io_bind_ok _ _ _ _ _ (ar_pb _ _ _ _ _ Ha)), (proj2 (Z.leb_gt (len b) 14)) by lia.
    rewrite (io_bind_ok _ _ _ _ _ (ar_read16 _ _ _ _ _ 12 _ _ Ha ltac:(lia) ltac:(lia) H12 H13)).
    rewrite (io_bind_ok _ _ _ tt s1).
    2: { destruct (if_idx b =? NETIF_NO_INDEX); [|done]. cbn [io_when] in *. rewrite (io_bind_ok _ _ _ n s); [done|].
         unfold get_netif, tries. by rewrite Hn. }
    rewrite <- Ep1, (io_bind_ok _ _ _ _ _ (read_bytes_ok _ _ _ _ _ 0 6 Ha1 ltac:(lia) ltac:(lia) ltac:(lia))).
    rewrite (io_bind_ok _ _ _ f s1) by (unfold tries; by rewrite Hf). rewrite (io_bind_ok _ _ _ _ _ E2).
    change (be16 0x86 0xDD =? ETHTYPE_IPV6) with true. cbv iota. by rewrite (io_bind_ok _ _ _ _ _ E3).
  - replace c with (drop (Z.to_nat 14) (eth_header dst src ETHTYPE_IPV6 ++ c)) at 1; [done|].
    change (Z.to_nat 14) with 14%nat. by rewrite <- Hle, drop_app_length.
Qed.
End Receive.
