(* ===== verification/StackProps.v ===== *)
(** The stack as a whole: a datagram from one board's application over the
    wire to another's. *)

From Stdlib Require Import ZArith Lia.
From stdpp Require Import base list numbers gmap.
From S2P Require Import Prelude Mmio Mem Memp MemProofs Pbuf PbufChain PbufHeaders PbufAlloc Links Ip6Addr.
From S2P Require Import Chksum Udp UdpPcbs UdpPackets Netif Ip6Out Mld6 Addrs Nd6 Nd6In Icmp6 Ip6In Ethernet.
From S2P Require Import Stack Ip6Packets Ip6Receive.

Open Scope Z_scope.

(** A datagram as it is on the wire. *)
Definition udp_packet (src dst : ip6_addr) (hl tc : Z) (c : list Z) : list Z :=
  ip6_header src dst hl tc IP6_NEXTH_UDP (zlen c) ++ c.
Definition udp_frame (mac_dst mac_src : list Z) (src dst : ip6_addr) (hl tc : Z) (c : list Z) : list Z :=
  eth_header mac_dst mac_src ETHTYPE_IPV6 ++ udp_packet src dst hl tc c.

(** The room all headers take. *)
Definition HEADERS : Z := UDP_HLEN + IP6_HLEN + SIZEOF_ETH_HDR.

Section Path.
Context {PP RP HP UP QP MP DV : Type} `{PPO : PoolOps PP} `{RPO : PoolOps RP} `{HPO : HeapOps HP}
  `{UPO : PoolOps UP} `{UPL : !PoolLaws UP} `{QPO : PoolOps QP} `{MPO : PoolOps MP}.
Abbreviation st := (net PP RP HP UP (ipst QP MP DV)).
Implicit Types s : st.
Variable hdkif_output : Z -> Z -> io st Z.
Variable mac_filter : Z -> ip6_addr -> Z -> io st unit.
Variable c_rand : Z -> Z * Z.
Variable call_recv : Z -> Z -> Z -> Z -> ip6_addr -> Z -> io st unit.

(** [ip6_output_if_src] and Ethernet below: what the driver is given. *)
Lemma output_ok s p b l c n src dst hl tc netif nif mac : outgoing s p b l c n -> ref b = 1 ->
  IP6_HLEN + SIZEOF_ETH_HDR <= n -> zlen c + IP6_HLEN + SIZEOF_ETH_HDR < 65536 -> wf_ip6 src -> wf_ip6 dst ->
  eth_ready s nif netif dst mac ->
  exists s' b', stack_output_if_src hdkif_output mac_filter c_rand p src dst hl tc IP6_NEXTH_UDP netif s =
      hdkif_output netif p s' /\
    outgoing s' p b' l (udp_frame mac (hwaddr nif) src dst hl tc c) (n - IP6_HLEN - SIZEOF_ETH_HDR) /\
    ref b' = 1 /\ payload b' = payload b - IP6_HLEN - SIZEOF_ETH_HDR /\ after_sending s s' dst.
Proof using Type.
  intros Ho Hr Hn Hlt Hs Hd He. unfold stack_output_if_src.
  destruct (output_if_src_ok (HK := board hdkif_output mac_filter c_rand) s p b l c n src dst hl tc IP6_NEXTH_UDP netif Ho Hr)
    as (s1 & E1 & O1 & Tu & Tp & Tl); [unfold SIZEOF_ETH_HDR in *; lia|unfold SIZEOF_ETH_HDR in *; lia|done|done|].
  assert (He1 : eth_ready s1 nif netif dst mac) by (destruct He; split; by rewrite ?Tl).
  assert (Hl : zlen (ip6_header src dst hl tc IP6_NEXTH_UDP (zlen c) ++ c) = 40 + zlen c).
  { rewrite length_app. destruct (header_fields src dst hl tc IP6_NEXTH_UDP (zlen c) [] Hs Hd) as [-> _]. lia. }
  destruct (ethip6_output_ok (HK := hooks_with hdkif_output mac_filter c_rand (eth_output hdkif_output mac_filter c_rand 2))
    s1 p _ l _ _ netif nif dst mac O1) as (s2 & E2 & O2 & Tu2 & Tp2 & Tl2); try done; [lia|rewrite Hl; unfold IP6_HLEN in *; lia|].
  exists s2, (grown SIZEOF_ETH_HDR (grown IP6_HLEN b)). rewrite E1. split_and!; [exact E2|exact O2|done|done|].
  split_and!; [by rewrite Tu2|by rewrite Tp2|by rewrite Tl2, Tl].
Qed.

(** A control block that sends from any address to [dst] by the default
    interface, which is up. *)
Record sender s (nif : netif) (pcb : Z) (bp : udp_pcb) (dst src : ip6_addr) (netif : Z) (mac : list Z) : Prop := {
  sn_pcb : pcb <> 0 /\ pcbs (udp s) !! pcb = Some bp;
  sn_port : local_port bp <> 0 /\ is_u16 (local_port bp);
  sn_unbound : netif_idx bp = NETIF_NO_INDEX /\ mcast_ifindex bp = NETIF_NO_INDEX /\ ip6_addr_isany_val (local_ip bp) = true;
  sn_default : netif_default (lower s) = netif /\ netif <> 0;
  sn_up : netif_is_up nif && netif_is_link_up nif = true;
  sn_source : select_source_address nif dst = Some src;
  sn_eth : eth_ready s nif netif dst mac;
  sn_addresses : wf_ip6 src /\ wf_ip6 dst
}.

(** The hop limit of a datagram. *)
Definition hop_limit (bp : udp_pcb) (dst : ip6_addr) : Z := if ip6_addr_ismulticast dst then mcast_ttl bp else ttl bp.

(** [udp_sendto] finds the interface and the source. *)
Lemma sendto_route output s nif pcb bp dst src netif mac p dport : sender s nif pcb bp dst src netif mac -> p <> 0 ->
  udp_sendto output pcb p (Some dst) dport s = udp_sendto_if_src output pcb p (Some dst) dport netif (Some src) s.
Proof using Type.
  intros [[Hp Hb] [Hport _] (Hi & Hm & Hany) [Hdef Hn0] Hup Hsrc He _] Hp0.
  assert (Hnif : netifs (lower s) !! netif = Some nif) by apply He.
  unfold udp_sendto, udp_sendto_if. rewrite (proj2 (Z.eqb_neq pcb 0)), (proj2 (Z.eqb_neq p 0)) by done. cbn [orb].
  rewrite (io_bind_ok _ _ _ _ _ (get_pcb_ok _ _ _ Hb)), (io_bind_ok _ _ _ s s eq_refl), Hi, Hm, Z.eqb_refl. cbn [negb].
  rewrite andb_false_r. cbn [ip_route ipst_layer]. rewrite Z.eqb_refl, Hdef, Hnif, Hup, (proj2 (Z.eqb_neq netif 0)) by done.
  rewrite (io_bind_ok _ _ _ _ _ (get_pcb_ok _ _ _ Hb)), (io_bind_ok _ _ _ s s eq_refl), Hany. cbn [orb ip6_select_source_address ipst_layer].
  by rewrite Hnif, Hsrc.
Qed.

Lemma datagram_length src dst sport dport data : zlen (udp_datagram src dst sport dport data) = UDP_HLEN + zlen data.
Proof using Type. unfold udp_datagram, udp_header. rewrite !length_app. cbn. unfold UDP_HLEN. lia. Qed.

(** From the application to the driver. *)
Lemma sendto_ok s nif pcb bp dst src netif mac p b l data n dport : sender s nif pcb bp dst src netif mac ->
  sendable s p b l data n -> ref b = 1 -> HEADERS <= n -> zlen data + HEADERS < 65536 -> is_u16 dport ->
  exists s' b', stack_udp_sendto hdkif_output mac_filter c_rand pcb p (Some dst) dport s = hdkif_output netif p s' /\
    outgoing s' p b' l (udp_frame mac (hwaddr nif) src dst (hop_limit bp dst) (tos bp)
      (udp_datagram src dst (local_port bp) dport data)) (n - HEADERS) /\
    ref b' = 1 /\ payload b' = payload b - HEADERS /\ after_sending s s' dst.
Proof using Type.
  intros Hsn Hsb Hr Hn Hlt Hdp. unfold HEADERS, SIZEOF_ETH_HDR, IP6_HLEN, UDP_HLEN in *.
  assert (Hp0 : p <> 0) by apply Hsb. unfold stack_udp_sendto. rewrite (sendto_route _ _ _ _ _ _ _ _ _ _ _ Hsn Hp0).
  destruct Hsn as [[Hp Hb] [Hport Hpu] _ [_ Hn0] _ _ He [Hs Hd]].
  destruct (send_spec (stack_output_if_src hdkif_output mac_filter c_rand) s pcb bp p b l data n dst dport netif src Hsb Hp Hb
    Hport Hpu Hdp Hn0 Hs Hd) as (s1 & (b1 & Hch1 & Hp1 & Hc1 & Hh1 & Hr1 & _ & Epl & Tu & Tp & Tl) & ->).
  destruct (output_ok s1 p b1 l _ (n - 8) src dst (hop_limit bp dst) (tos bp) netif nif mac
    ltac:(split; try done; unfold UDP_HLEN in *; lia)) as (s2 & b2 & E2 & O2 & Hr2 & Epl2 & Tu2 & Tp2 & Tl2); try done.
  - by rewrite Hr1.
  - unfold IP6_HLEN, SIZEOF_ETH_HDR. lia.
  - rewrite datagram_length. unfold IP6_HLEN, SIZEOF_ETH_HDR, UDP_HLEN. lia.
  - destruct He. split; by rewrite ?Tl.
  - exists s2, b2. split_and!; [exact E2| |done|rewrite Epl2, Epl; unfold IP6_HLEN, SIZEOF_ETH_HDR, UDP_HLEN; lia|split_and!; [by rewrite Tu2|by rewrite Tp2|by rewrite Tl2, Tl]].
    replace (n - (8 + 40 + 14)) with (n - 8 - IP6_HLEN - SIZEOF_ETH_HDR); [exact O2|unfold IP6_HLEN, SIZEOF_ETH_HDR; lia].
Qed.

(** What the layer holds while the datagram is passed up. *)
Definition while_up s (inp hdr : Z) (src dst : ip6_addr) : ipst QP MP DV :=
  set_ip_data (fun _ => arrived_globals inp hdr IP6_HLEN src dst) (lower s).

(** An interface that takes packets from [src] to [dst], and a control block
    with a callback for the ports. *)
Record receiver_of s (nif : netif) (inp hdr : Z) (src dst : ip6_addr) (sport dport : Z) lp lu (r : Z) (br : udp_pcb) : Prop := {
  rc_netif : netifs (lower s) !! inp = Some nif /\ inp <> 0;
  rc_us : for_us (lower s) nif dst;
  rc_addresses : acceptable src dst = true;
  rc_udp : udp_inv s lp lu;
  rc_receiver : r = receiver (while_up s inp hdr src dst) sport dport lp /\ r <> 0;
  rc_callback : pcbs (udp s) !! r = Some br /\ recv br <> 0
}.

Lemma udp_header_only : headers IP6_NEXTH_UDP [] IP6_NEXTH_UDP.
Proof using Type. by constructor. Qed.

(** From the driver to the application: the callback, then the globals are
    reset. *)
Lemma input_ok s nif inp p b l mac_dst mac_src src dst hl tc sport dport data pad lp lu r br :
  arrived s p b l (udp_frame mac_dst mac_src src dst hl tc (udp_datagram src dst sport dport data) ++ pad) ->
  length mac_dst = 6%nat -> length mac_src = 6%nat -> HEADERS <= len b -> paddable b l pad ->
  wf_ip6 src -> wf_ip6 dst -> is_u8 tc -> is_u16 sport -> is_u16 dport -> Forall is_u8 data -> zlen data + HEADERS < 65536 ->
  receiver_of s nif inp (payload b + SIZEOF_ETH_HDR) src dst sport dport lp lu r br ->
  exists s' b', stack_ethernet_input hdkif_output mac_filter c_rand call_recv p inp s =
      (_ ← call_recv (recv br) (recv_arg br) r p src sport; _ ← input_cleanup; mret ERR_OK) s' /\ arrived s' p b' l data.
Proof using Type.
  intros Ha Hmd Hms Hlen Hpad Hs Hd Htc Hsp Hdp Hdata Hlt [[Hnif Hinp] Hus Hacc Hi [-> Hr] [Hbr Hrecv]].
  unfold HEADERS, SIZEOF_ETH_HDR, IP6_HLEN, UDP_HLEN in *. set (dg := udp_datagram src dst sport dport data) in *.
  unfold udp_frame in Ha. rewrite <- app_assoc in Ha.
  destruct (ethernet_input_ok (stack_ip6_input hdkif_output mac_filter c_rand call_recv) s p b l inp nif mac_dst mac_src _ Ha Hmd Hms)
    as (s1 & b1 & E1 & Ha1 & (Tu1 & Tp1 & Tl1) & El1 & Ety1 & Ep1); [unfold SIZEOF_ETH_HDR; lia|done|].
  assert (Hpad1 : paddable b1 l pad).
  { destruct Hpad as [|[Hl0 Hf]]; [by left|right]. split; [done|]. unfold pbuf_match_allocsrc, pbuf_get_allocsrc in *. by rewrite Ety1. }
  destruct (ip6_input_ok (HK := board hdkif_output mac_filter c_rand) (stack_udp_input hdkif_output mac_filter c_rand call_recv)
    (icmp6_input (HK := board hdkif_output mac_filter c_rand)) s1 p b1 l inp nif src dst hl tc IP6_NEXTH_UDP [] dg pad
    IP6_NEXTH_UDP Ha1 Hpad1 Hs Hd Htc ltac:(done) udp_header_only ltac:(by right; left))
    as (s2 & b2 & E2 & Ha2 & El2 & Tu2 & Tp2 & Tl2); try done.
  { rewrite El1. unfold IP6_HLEN, SIZEOF_ETH_HDR. cbn. lia. }
  { by rewrite Tl1. }
  { by rewrite Tl1. }
  assert (Elo : lower s2 = while_up s inp (payload b + 14) src dst) by (rewrite Tl2, Tl1, Ep1; done).
  assert (Hlen2 : UDP_HLEN <= len b2).
  { destruct El2 as [->| ->]; [rewrite El1; unfold IP6_HLEN, SIZEOF_ETH_HDR, UDP_HLEN; cbn; lia|].
    unfold dg. rewrite datagram_length. lia. }
  assert (Eu : udp s2 = udp s) by (by rewrite Tu2).
  destruct (datagram_received (fun p => icmp6_dest_unreach (HK := board hdkif_output mac_filter c_rand) p ICMP6_DUR_PORT) call_recv
    s2 lp lu inp p b2 l src dst sport dport data) as (s3 & b3 & br' & Hbr' & E3 & Hch3 & Hp3 & Hc3); try done.
  { apply (udp_inv_same s); [done|by rewrite Tp2|done]. }
  { by rewrite Elo. }
  { by rewrite Elo. }
  { apply Ha2. }
  { apply Ha2. }
  { apply Ha2. }
  { unfold UDP_HLEN. lia. }
  { by rewrite Elo. }
  { rewrite Elo, Eu. intros br'. rewrite Hbr. by intros [= <-]. }
  rewrite Elo, Eu, Hbr in *. injection Hbr' as <-. exists s3, b3. split; [|by split].
  unfold stack_ethernet_input. rewrite E1. unfold stack_ip6_input. unfold mbind, io_bind in E2 |- *. rewrite E2.
  cbn [handed Z.eqb]. unfold stack_udp_input in *. unfold handed. cbn. rewrite E3. destruct (call_recv _ _ _ _ _ _ _) as [[[] s4]|]; done.
Qed.
End Path.

(** A datagram sent by one board reaches the application of another. On
    the one [udp_sendto] finds interface, source and next hop and gives the
    driver one frame: the Ethernet header with the neighbour's MAC address
    (or the group's), the IPv6 header and the datagram. On the other, which
    received that frame, [ethernet_input] calls the callback of the control
    block it is for with exactly the data that was sent, and the sender's
    address and port, padding removed; then the layer forgets the packet. *)
Theorem datagram_over_ethernet {PP RP HP UP QP MP DV : Type} `{PPO : PoolOps PP} `{RPO : PoolOps RP} `{HPO : HeapOps HP}
    `{UPO : PoolOps UP} `{UPL : !PoolLaws UP} `{QPO : PoolOps QP} `{MPO : PoolOps MP}
    (out out' : Z -> Z -> io (net PP RP HP UP (ipst QP MP DV)) Z) filter filter' rand rand' call
    (s s' : net PP RP HP UP (ipst QP MP DV)) nif pcb bp dst src netif mac p b l data n dport
    nif' inp p' b' l' pad lp lu r br :
  let frame := udp_frame mac (hwaddr nif) src dst (hop_limit bp dst) (tos bp)
                 (udp_datagram src dst (local_port bp) dport data) in
  sender s nif pcb bp dst src netif mac -> sendable s p b l data n -> ref b = 1 -> HEADERS <= n ->
  zlen data + HEADERS < 65536 -> is_u16 dport -> is_u8 (tos bp) ->
  arrived s' p' b' l' (frame ++ pad) -> HEADERS <= len b' -> paddable b' l' pad ->
  receiver_of s' nif' inp (payload b' + SIZEOF_ETH_HDR) src dst (local_port bp) dport lp lu r br ->
  (exists s1 b1, stack_udp_sendto out filter rand pcb p (Some dst) dport s = out netif p s1 /\
     outgoing s1 p b1 l frame (n - HEADERS) /\ after_sending s s1 dst) /\
  (exists s1 b1, stack_ethernet_input out' filter' rand' call p' inp s' =
       (_ ← call (recv br) (recv_arg br) r p' src (local_port bp); _ ← input_cleanup; mret ERR_OK) s1 /\
     arrived s1 p' b1 l' data).
Proof.
  intros frame Hsn Hsb Hr Hn Hlt Hdp Htos Ha Hlen Hpad Hrc. split.
  - destruct (sendto_ok out filter rand s nif pcb bp dst src netif mac p b l data n dport Hsn Hsb Hr Hn Hlt Hdp)
      as (s1 & b1 & E & Ho & _ & _ & Hs). by exists s1, b1.
  - pose proof Hsn as [_ [_ Hsp] _ _ _ _ [_ [Hhw _] _ _ Hmac] [Hs Hd]].
    apply (input_ok out' filter' rand' call s' nif' inp p' b' l' mac (hwaddr nif) src dst (hop_limit bp dst) (tos bp)
      (local_port bp) dport data pad lp lu r br); try done. apply Hsb.
Qed.

(** C5: [ip6_input] hands a packet for the node to its protocol whatever
    extension headers are in front of it: hop-by-hop and destination options
    of known or skippable types, routing headers at their end, fragment
    headers of whole packets, in any number and with hop-by-hop options only
    first. The protocol gets the packet without any header or padding, knows
    both addresses, the interface and how long the headers were, and the
    globals are reset afterwards. *)
Theorem ip6_input_delivers {PP RP HP UP QP MP DV : Type} `{PPO : PoolOps PP} `{RPO : PoolOps RP} `{HPO : HeapOps HP}
    `{QPO : PoolOps QP} `{MPO : PoolOps MP} (HK : Hooks (net PP RP HP UP (ipst QP MP DV))) udp_input icmp6_input
    (s : net PP RP HP UP (ipst QP MP DV)) p b l inp n src dst hl tc nexth e d pad last :
  arrived s p b l ((ip6_header src dst hl tc nexth (zlen (e ++ d)) ++ e ++ d) ++ pad) -> paddable b l pad ->
  wf_ip6 src -> wf_ip6 dst -> is_u8 tc -> is_u8 nexth -> headers nexth e last -> a_protocol last ->
  IP6_HLEN + zlen e <= len b -> netifs (lower s) !! inp = Some n -> for_us (lower s) n dst -> inp <> 0 ->
  acceptable src dst = true ->
  exists s' b', ip6_input udp_input icmp6_input p inp s =
      (_ ← handed udp_input icmp6_input last p inp; _ ← input_cleanup; mret ERR_OK) s' /\
    arrived s' p b' l d /\ udp s' = udp s /\ udp_pool s' = udp_pool s /\
    lower s' = set_ip_data (fun _ => arrived_globals inp (payload b) (IP6_HLEN + zlen e) src dst) (lower s).
Proof.
  intros Ha Hpad Hs Hd Htc Hnx He Hl Hlen Hn Hus Hinp Hacc.
  destruct (ip6_input_ok udp_input icmp6_input s p b l inp n src dst hl tc nexth e d pad last Ha Hpad Hs Hd Htc Hnx He Hl
    Hlen Hn Hus Hinp Hacc) as (s' & b' & E & Ha' & _ & H). by exists s', b'.
Qed.

(* ------------------------------------------------------------------ *)
(** * Witness: two boards on a link *)

Definition peer : ip6_addr := IP6_ADDR 0xfe800000 0 0 2.
Definition near_mac : list Z := [2; 0; 0x16; 0; 0x60; 1].
Definition far_mac : list Z := [2; 0; 0x16; 0; 0x60; 2].
Definition board_if (mac : list Z) (a : ip6_addr) : netif :=
  mk_netif [a; any6; any6] [IP6_ADDR_PREFERRED; 0; 0] 0 1500 1500 mac 6 0x4f 0 0 0.
Definition no_dest : destination := mk_destination any6 any6 0 0 0.
Definition no_nbr : neighbor := mk_neighbor any6 0 (replicate 6 0) 0 ND6_NO_ENTRY 0 0.
(** The board's caches with a reachable neighbour. *)
Definition knows (a : ip6_addr) (mac : list Z) : nd6_vars :=
  mk_nd6 (mk_neighbor a 1 mac 0 ND6_REACHABLE 0 30000 :: replicate 9 no_nbr) (mk_destination a a 1500 0 3 :: replicate 9 no_dest)
    (replicate 5 (mk_prefix any6 0 0)) (replicate 3 (mk_router None 0 0)) 30000 1000 0 0 0 0.
Definition board_ip (n : netif) (v : nd6_vars) : ipst pool pool unit :=
  mk_ipst {[1 := n]} 1 (mk_globals 0 0 0 0 any6 any6) v ∅ ∅ (mk_pool 0 ∅) (mk_pool 0 ∅) 0 tt.
Abbreviation board_st := (net pool pool ram_heap pool (ipst pool pool unit)).
Definition board_with (p : Z) (b : pbuf) (bs : gmap Z Z) (i : ipst pool pool unit) : board_st :=
  mk_net (mk_pheap (mk_pool 0 ∅) (mk_pool 0 ∅) (mk_ram 0 ∅ 0) {[p := b]} bs) (udp listening) (udp_pool listening) i.

Definition near_buf : pbuf := mk_pbuf 0 0x480 3 3 0x80 0 1 0.
Definition near : board_st :=
  board_with 0x400 near_buf (at_address 0x440 (replicate 64 0 ++ [1; 2; 3])) (board_ip (board_if near_mac node) (knows peer far_mac)).
Definition hello_frame : list Z :=
  udp_frame far_mac near_mac node peer UDP_TTL 0 (udp_datagram node peer 5353 5353 [1; 2; 3]).
Definition far_buf : pbuf := mk_pbuf 0 0x300 67 67 0x41 0 1 0.
Definition far : board_st :=
  board_with 0x30 far_buf (at_address 0x300 (hello_frame ++ [0; 0])) (board_ip (board_if far_mac peer) (knows node near_mac)).

(** A driver that takes the frame, and a callback that insists on its
    arguments. *)
Definition wire (netif p : Z) : io board_st Z := mret 0.
Definition no_filter (netif : Z) (a : ip6_addr) (action : Z) : io board_st unit := mret tt.
Definition no_rand (x : Z) : Z * Z := (7, x).
Definition greeted (f a pcb p : Z) (addr : ip6_addr) (port : Z) : io board_st unit :=
  io_assert ((f =? 0x8000) && (a =? 9) && (pcb =? 262328) && (p =? 0x30) && ip6_addr_eq addr node && (port =? 5353)).

Lemma peer_ok : wf_ip6 node /\ wf_ip6 peer.
Proof. split; (split; [done|]); cbn; rewrite !Forall_cons_iff; by split_and!. Qed.

Lemma near_packet : sendable near 0x400 near_buf [] [1; 2; 3] HEADERS.
Proof.
  split; try done.
  - exists [1; 2; 3], []. split_and!; [done|vm_compute; reflexivity|done].
  - rewrite !Forall_cons_iff. by split_and!.
  - split; try done.
    + intros i Hi. change (payload near_buf - HEADERS) with 0x442 in Hi. change (payload near_buf) with 0x480 in Hi.
      assert (C : forallb (fun i => bool_decide (is_Some (bytes (n_heap near) !! i))) (seqZ 0x442 62) = true)
        by (vm_compute; reflexivity).
      rewrite forallb_forall in C. apply (bool_decide_eq_true_1 _), C, list_elem_of_In, elem_of_seqZ. lia.
    + intros i _ (a & b & Hin%not_elem_of_nil & _). exact Hin.
Qed.

Lemma near_sender : sender near (board_if near_mac node) 262328 listener peer node 1 far_mac.
Proof.
  destruct peer_ok as [Hn Hp]. split; try done; try (by split_and!); try (vm_compute; by split_and!).
  split; try done. split; [done|]. cbn. rewrite !Forall_cons_iff. split_and!; try done.
Qed.

Lemma far_packet : arrived far 0x30 far_buf [] (hello_frame ++ [0; 0]).
Proof. split; try done. exists (hello_frame ++ [0; 0]), []. split_and!; [by rewrite app_nil_r|vm_compute; reflexivity|done]. Qed.

Lemma far_receiver : exists lu, receiver_of (UPL := udp_laws) far (board_if far_mac peer) 1 (0x300 + SIZEOF_ETH_HDR) node peer 5353 5353
  [(262328, listener)] lu 262328 listener.
Proof.
  destruct listening_inv as (lu & Hi). exists lu. split; try done; try (vm_compute; by split_and!).
  by apply (udp_inv_same (UPL := udp_laws) receiving).
Qed.

Lemma datagram_over_ethernet_witness :
  (exists s1 b1, stack_udp_sendto wire no_filter no_rand 262328 0x400 (Some peer) 5353 near = Ok (0, s1) /\
     outgoing s1 0x400 b1 [] hello_frame 0) /\
  (exists s1 b1, stack_ethernet_input wire no_filter no_rand greeted 0x30 1 far = Ok (0, s1) /\
     content (bytes (n_heap s1)) [(0x30, b1)] [1; 2; 3]).
Proof.
  destruct far_receiver as (lu & Hrc).
  destruct (datagram_over_ethernet (UPL := udp_laws) wire wire no_filter no_filter no_rand no_rand greeted near far
    _ 262328 listener peer node 1 far_mac 0x400 near_buf [] [1; 2; 3] HEADERS 5353 _ 1 0x30 far_buf [] [0; 0] _ lu 262328 listener
    near_sender near_packet eq_refl ltac:(reflexivity) ltac:(reflexivity) ltac:(done) ltac:(done) far_packet
    ltac:(vm_compute; discriminate) ltac:(right; done) Hrc) as [(s1 & b1 & E1 & O1 & _) (s2 & b2 & E2 & [Hch _ Hc])].
  assert (Ef : udp_frame far_mac (hwaddr (board_if near_mac node)) node peer (hop_limit listener peer) (tos listener)
    (udp_datagram node peer (local_port listener) 5353 [1; 2; 3]) = hello_frame) by (vm_compute; reflexivity).
  rewrite Ef in O1. split; [exists s1, b1; split; [rewrite E1; reflexivity|exact O1]|]. exists (match input_cleanup s2 with Ok (_, s3) => s3 | _ => s2 end), b2. split; [|exact Hc].
  rewrite E2. vm_compute. reflexivity.
Defined.

(** A packet with a router alert, padded destination options and the header
    of a fragment that is the whole packet. *)
Definition alert : list Z := [IP6_ROUTER_ALERT_OPTION; 2; 0; 0; IP6_PADN_OPTION; 0].
Definition padding : list Z := [IP6_PAD1_OPTION; IP6_PADN_OPTION; 3; 0; 0; 0].
Definition exts : list Z :=
  IP6_NEXTH_DESTOPTS :: 0 :: alert ++ IP6_NEXTH_FRAGMENT :: 0 :: padding ++ [IP6_NEXTH_UDP; 0; 0; 0; 1; 2; 3; 4] ++ [].
Definition wrapped : list Z :=
  ip6_header node peer UDP_TTL 0 IP6_NEXTH_HOPBYHOP (zlen (exts ++ [7; 8; 9])) ++ exts ++ [7; 8; 9].
Definition wrapped_buf : pbuf := mk_pbuf 0 0x300 69 69 0x41 0 1 0.
Definition far2 : board_st :=
  board_with 0x30 wrapped_buf (at_address 0x300 (wrapped ++ [0; 0])) (board_ip (board_if far_mac peer) (knows node near_mac)).

Lemma exts_ok : headers IP6_NEXTH_HOPBYHOP exts IP6_NEXTH_UDP.
Proof.
  apply headers_options; [by left|done|done|done| |].
  { apply (tlvs_option _ IP6_ROUTER_ALERT_OPTION [0; 0]); [done|done|].
    apply (tlvs_option _ IP6_PADN_OPTION [] []); [done|done|constructor]. }
  apply headers_options; [by right|done|done|done| |].
  { apply tlvs_pad. apply (tlvs_option _ IP6_PADN_OPTION [0; 0; 0] []); [done|done|constructor]. }
  apply headers_fragment; [done|done|]. by constructor.
Qed.

Lemma ip6_input_delivers_witness :
  exists s' b', ip6_input (HK := board wire no_filter no_rand) (fun p inp => io_assert ((p =? 0x30) && (inp =? 1)))
      (fun _ _ => io_fault AssertFailed) 0x30 1 far2 = Ok (ERR_OK, s') /\
    content (bytes (n_heap s')) [(0x30, b')] [7; 8; 9].
Proof.
  destruct peer_ok as [Hn Hp].
  assert (Ha : arrived far2 0x30 wrapped_buf [] (wrapped ++ [0; 0])).
  { split; try done. exists (wrapped ++ [0; 0]), []. split_and!; [by rewrite app_nil_r|vm_compute; reflexivity|done]. }
  destruct (ip6_input_delivers (board wire no_filter no_rand) (fun p inp => io_assert ((p =? 0x30) && (inp =? 1)))
    (fun _ _ => io_fault AssertFailed) far2 0x30 wrapped_buf [] 1 (board_if far_mac peer) node peer UDP_TTL 0 IP6_NEXTH_HOPBYHOP exts
    [7; 8; 9] [0; 0] IP6_NEXTH_UDP Ha ltac:(right; done) Hn Hp ltac:(done) ltac:(done) exts_ok ltac:(by right; left)
    ltac:(vm_compute; discriminate) eq_refl ltac:(vm_compute; reflexivity) ltac:(discriminate) ltac:(vm_compute; reflexivity))
    as (s' & b' & E & [_ _ Hc] & _).
  exists (match input_cleanup s' with Ok (_, s3) => s3 | _ => s' end), b'. split; [|exact Hc]. rewrite E. vm_compute. reflexivity.
Defined.
