(* ===== verification/BridgeNet.v ===== *)
(** The bridge on the network stack: the calls of src/src/cannelloni.c to
    lwIP, which Cannelloni makes through the class [NetStack], are the
    functions of Pbuf, Udp and Stack on the board's state. *)

From Stdlib Require Import ZArith Lia.
From stdpp Require Import base list numbers gmap.
From S2P Require Import Prelude Mmio Cannelloni BridgeProofs BridgeProps.
Import Queue Bridge.
From S2P Require Import Mem Memp MemProofs Pbuf PbufChain PbufHeaders PbufAlloc PbufCopy Links Ip6Addr.
From S2P Require Import Chksum Udp UdpPcbs UdpPackets Netif Ip6Out Mld6 Addrs Nd6 Nd6In Icmp6 Ip6In Ethernet.
From S2P Require Import Stack Ip6Packets Ip6Receive StackProps.

Open Scope Z_scope.

(* ------------------------------------------------------------------ *)
(** * The stack as the bridge sees it *)

(** What the bridge works on of a [struct pbuf]: where it is, [tot_len] and
    the [len] bytes at [payload]. *)
Record bpacket := mk_bpacket { bp_addr : Z; bp_len : Z; bp_bytes : list Z }.

(** The board's state, unless it has stopped, and the datagrams handed to
    [udp_sendto] so far. *)
Record world (S : Type) := mk_world { wd_st : outcome S; wd_sent : list (list Z) }.
Arguments mk_world {S}.
Arguments wd_st {S}.
Arguments wd_sent {S}.

Definition run {S A : Type} (m : io S A) (w : world S) : option A * world S :=
  match wd_st w with
  | Fault e => (None, w)
  | Ok s =>
      match m s with
      | Ok (a, s) => (Some a, mk_world (Ok s) (wd_sent w))
      | Fault e => (None, mk_world (Fault e) (wd_sent w))
      end
  end.

Section Buffers.
Context {PP RP HP UP QP MP DV : Type} `{PPO : PoolOps PP} `{RPO : PoolOps RP} `{HPO : HeapOps HP}
  `{UPO : PoolOps UP} `{QPO : PoolOps QP} `{MPO : PoolOps MP}.
Abbreviation st := (net PP RP HP UP (ipst QP MP DV)).
Implicit Types (s : st) (x : bpacket).

(** The packet at an address, looked at. *)
Definition view (p : Z) : io st bpacket := fun s =>
  b ← deref (pbufs (n_heap s)) p;
  l ← load_bytes (bytes (n_heap s)) (payload b) (Z.to_nat (len b));
  Ok (mk_bpacket p (tot_len b) l, s).

(** [pbuf_alloc(PBUF_TRANSPORT, n, PBUF_RAM)]. *)
Definition net_alloc (n : Z) : io st (option bpacket) :=
  r ← on_pbufs (Pbuf.pbuf_alloc PBUF_TRANSPORT n PBUF_RAM);
  match r with
  | None => mret None
  | Some p => x ← view p; mret (Some x)
  end.

(** The stores through [p->payload], [p->tot_len] and [p->len]. *)
Definition store_packet (x : bpacket) : io (pheap PP RP HP) unit := fun h =>
  b ← deref (pbufs h) (bp_addr x);
  bs ← store_bytes (bytes h) (payload b) (bp_bytes x);
  Ok (tt, mk_pheap (pool_st h) (rom_st h) (heap_st h)
    (<[bp_addr x := Pbuf.set_len (bp_len x) (Pbuf.set_tot_len (bp_len x) b)]> (pbufs h)) bs).

(** The buffer has the length it was asked for. *)
Lemma alloc_ram_lengths off n (h h' : pheap PP RP HP) p : alloc_ram off n h = Ok (Some p, h') ->
  exists b, pbufs h' !! p = Some b /\ tot_len b = n /\ len b = n.
Proof using Type.
  unfold alloc_ram. destruct (_ || _); [done|]. intros H.
  apply bind_ok_inv in H as ([[q|] h1] & _ & H); [|done].
  apply bind_ok_inv in H as ([[] h2] & E2 & H). apply bind_ok_inv in H as ([[] h3] & E3 & H).
  injection H as -> ->.
  assert (h' = h2) as -> by (unfold io_assert in E3; destruct (_ =? _); [by injection E3|done]).
  cbn in E2. injection E2 as <-. eexists. split; [apply lookup_insert_eq|done].
Qed.

Lemma view_ok s p b l c : arrived s p b l c -> l = [] -> view p s = Ok (mk_bpacket p (zlen c) c, s).
Proof using Type.
  intros [Hch Hp Hc] ->. pose proof (content_length _ _ _ Hc Hp) as Hl. destruct Hch as (_ & _ & Hb & _), Hp as (Et & _).
  destruct Hc as (c1 & c2 & -> & E & ->). rewrite app_nil_r in *. unfold view, deref. rewrite Hb. cbn. rewrite E. cbn.
  do 3 f_equal. cbn in Et, Hl. lia.
Qed.

(** A buffer of [n] bytes at [p] behind room for all headers. *)
Definition fresh_buffer s (p n : Z) : Prop :=
  0 < p /\ pbufs (n_heap s) !! p = Some (ram_pbuf p (u16 PBUF_TRANSPORT) n) /\
  forall i, p <= i < p + ram_size (u16 PBUF_TRANSPORT) n -> is_Some (bytes (n_heap s) !! i).

Lemma load_mapped bs a n : (forall i, a <= i < a + Z.of_nat n -> is_Some (bs !! i)) -> exists l, load_bytes bs a n = Ok l.
Proof using Type.
  revert a. induction n as [|n IH]; intros a H; [by exists []|]. cbn [load_bytes].
  destruct (H a) as [x ->]; [lia|]. destruct (IH (a + 1)) as [l ->]; [intros i Hi; apply H; lia|]. by eexists.
Qed.

Lemma net_alloc_ok `{PLP : !PoolLaws PP} `{PLR : !PoolLaws RP} `{HLH : !HeapLaws HP} s lp lr bl n :
  pheap_inv (n_heap s) lp lr bl -> 0 <= n < 65536 -> fresh_memory (n_heap s) [] (ram_size (u16 PBUF_TRANSPORT) n) ->
  exists r s1, Pbuf.pbuf_alloc PBUF_TRANSPORT n PBUF_RAM (n_heap s) = Ok (r, n_heap s1) /\ same_stack s s1 /\
    match r with
    | None => net_alloc n s = Ok (None, s1)
    | Some p => fresh_buffer s1 p n /\ exists c, net_alloc n s = Ok (Some (mk_bpacket p n c), s1)
    end.
Proof using Type.
  intros Hinv Hn Hfresh.
  destruct (alloc_ram_ok (n_heap s) lp lr bl [] (u16 PBUF_TRANSPORT) n Hinv (u16_range _) Hn Hfresh) as (r & hs & E & Hr).
  exists r. eexists (with_heap _ s). split; [exact E|]. split; [done|].
  unfold net_alloc. rewrite (io_bind_ok _ _ _ _ _ (on_pbufs_ok _ _ _ _ E)). destruct r as [p|]; [|done].
  destruct Hr as (Hp & _ & _ & Hmem & _). split.
  { split_and!; [done|apply lookup_insert_eq|]. intros i Hi. by apply Hmem. }
  destruct (load_mapped (bytes (n_heap s)) (payload (ram_pbuf p (u16 PBUF_TRANSPORT) n)) (Z.to_nat n)) as [c Ec].
  { intros i Hi. apply Hmem. revert Hi. unfold ram_size. cbn [ram_pbuf payload].
    change (4 * ((u16 PBUF_TRANSPORT + 3) / 4)) with 76. Z.div_mod_to_equations. lia. }
  exists c. unfold mbind, io_bind, view, deref. cbn [n_heap with_heap pbufs bytes]. rewrite lookup_insert_eq.
  cbn [mbind outcome_bind len ram_pbuf payload] in Ec |- *. by rewrite Ec.
Qed.

Lemma store_packet_ok s p n d : fresh_buffer s p n -> Forall is_u8 d -> zlen d <= n -> n < 65528 ->
  exists s1 b, on_pbufs (store_packet (mk_bpacket p (zlen d) d)) s = Ok (tt, s1) /\
    sendable s1 p b [] d PBUF_TRANSPORT /\ ref b = 1 /\ same_stack s s1.
Proof using Type.
  intros (Hp & Hb & Hmem) Hd Hn Hlt. set (b0 := ram_pbuf p (u16 PBUF_TRANSPORT) n) in *.
  assert (Epl : payload b0 = p + 92).
  { unfold b0. cbn [ram_pbuf payload]. change (4 * ((u16 PBUF_TRANSPORT + 3) / 4)) with 76. lia. }
  assert (Hin : forall i, p + 16 <= i < p + 92 + zlen d -> is_Some (bytes (n_heap s) !! i)).
  { intros i Hi. apply Hmem. unfold ram_size. change (4 * ((u16 PBUF_TRANSPORT + 3) / 4)) with 76. Z.div_mod_to_equations. lia. }
  destruct (store_bytes_ok (bytes (n_heap s)) (p + 92) d) as (bs & E & Hbs); [intros i Hi; apply Hin; lia|].
  set (b1 := mk_pbuf 0 (p + 92) (zlen d) (zlen d) (u8 (pbuf_type_val PBUF_RAM)) 0 1 NETIF_NO_INDEX).
  assert (Eb : Pbuf.set_len (zlen d) (Pbuf.set_tot_len (zlen d) b0) = b1).
  { unfold Pbuf.set_len, Pbuf.set_tot_len. rewrite Epl, u16_small by (unfold is_u16; lia). done. }
  exists (with_heap (mk_pheap (pool_st (n_heap s)) (rom_st (n_heap s)) (heap_st (n_heap s)) (<[p := b1]> (pbufs (n_heap s))) bs) s), b1.
  split; [|split; [|done]].
  - apply on_pbufs_ok. unfold store_packet, deref. cbn [bp_addr bp_len bp_bytes]. rewrite Hb. cbn [mbind outcome_bind].
    by rewrite Epl, E, Eb.
  - split; cbn [n_heap with_heap pbufs bytes].
    + split_and!; [done|lia|apply lookup_insert_eq|done].
    + split; [cbn; lia|]. split; [|done]. unfold wf_pbuf, is_u16, is_u8. cbn. lia.
    + exists d, []. split_and!; [by rewrite app_nil_r| |done]. unfold b1. cbn [payload len]. rewrite Nat2Z.id.
      apply load_bytes_ok. split; [done|]. intros i Hi. rewrite Hbs. zcase; cbn [andb]; f_equal; lia.
    + done.
    + unfold UDP_HLEN. lia.
    + split; try done; unfold b1; cbn [payload len].
      * change (SIZEOF_STRUCT_PBUF) with 16. change PBUF_TRANSPORT with 74. lia.
      * intros i Hi. change PBUF_TRANSPORT with 74 in Hi.
        rewrite Hbs, (proj2 (Z.leb_gt _ _)) by lia. apply Hin. lia.
      * intros i _ (a & b' & Hx%not_elem_of_nil & _). exact Hx.
    + done.
Qed.
End Buffers.

Section Net.
Context {PP RP HP UP QP MP DV : Type} `{PPO : PoolOps PP} `{RPO : PoolOps RP} `{HPO : HeapOps HP}
  `{UPO : PoolOps UP} `{QPO : PoolOps QP} `{MPO : PoolOps MP}.
Abbreviation st := (net PP RP HP UP (ipst QP MP DV)).
Implicit Types (s : st) (w : world st) (x : bpacket).
Variable hdkif_output : Z -> Z -> io st Z.
Variable mac_filter : Z -> ip6_addr -> Z -> io st unit.
Variable c_rand : Z -> Z * Z.
(** The addresses of [handle_cannelloni_frame] and of the handle. *)
Variables handler handle : Z.

Definition net_sendto (pcb : option Z) (x : bpacket) (a : list Z) (port : Z) : io st Z :=
  _ ← on_pbufs (store_packet x);
  stack_udp_sendto hdkif_output mac_filter c_rand (default 0 pcb) (bp_addr x) (Some (mk_ip6 a)) port.

Definition logged (d : list Z) (w : world st) : world st := mk_world (wd_st w) (wd_sent w ++ [d]).

#[export] Instance stack_net : NetStack (world st) bpacket := {|
  Cannelloni.pbuf_tot_len := bp_len;
  Cannelloni.pbuf_payload := bp_bytes;
  Cannelloni.pbuf_fill x l n := mk_bpacket (bp_addr x) n (take (Z.to_nat n) l);
  Cannelloni.pbuf_alloc n w := let '(r, w) := run (net_alloc n) w in (default None r, w);
  Cannelloni.pbuf_free x w := (run (Udp.free (bp_addr x)) w).2;
  Cannelloni.udp_sendto pcb x a port w := logged (bp_bytes x) (run (net_sendto pcb x a port) w).2;
  Cannelloni.udp_new w :=
    let '(r, w) := run Udp.udp_new w in (match r with Some pcb => if pcb =? 0 then None else Some pcb | None => None end, w);
  Cannelloni.udp_bind pcb port w := let '(r, w) := run (Udp.udp_bind pcb (Some IP6_ADDR_ANY6) port) w in (default ERR_VAL r, w);
  Cannelloni.udp_recv pcb w := (run (Udp.udp_recv pcb handler handle) w).2
|}.

(* ------------------------------------------------------------------ *)
(** * The laws *)

Lemma run_sent {A} (m : io st A) w : wd_sent (run m w).2 = wd_sent w.
Proof using Type. unfold run. destruct (wd_st w) as [s|]; [destruct (m s) as [[]|]|]; done. Qed.

#[export] Instance stack_net_laws : NetStackLaws (world st) bpacket.
Proof using Type.
  refine {| Cannelloni.sent := wd_sent |}.
  - intros n w x w' Hn. cbn. destruct (run _ w) as [r w1] eqn:E. intros [= Er ->].
    split_and!; [..|by rewrite <- (run_sent (net_alloc n) w), E].
    all: unfold run in E; destruct (wd_st w) as [s|]; [|by injection E as <- _]; destruct (net_alloc n s) as [[[y|] s1]|] eqn:Ea; try (injection E as <- _); cbn in Er; try done; injection Er as ->.
    all: unfold net_alloc in Ea; apply bind_ok_inv in Ea as ([[p|] s2] & E1 & E2); [|done].
    all: apply bind_ok_inv in E1 as ([r1 h1] & E1 & E3); injection E3 as -> <-.
    all: destruct (alloc_ram_lengths _ _ _ _ _ E1) as (b & Hb & Ht & Hl).
    all: apply bind_ok_inv in E2 as ([y s3] & Ev & Ey); injection Ey as -> _.
    all: unfold view, deref in Ev; cbn [n_heap] in Ev; rewrite Hb in Ev; cbn in Ev.
    all: apply bind_ok_inv in Ev as (l & El & Ev); injection Ev as <- _; cbn; try done.
    apply load_bytes_ok in El as [El _]. lia.
  - intros n w w'. cbn. destruct (run _ w) as [r w1] eqn:E. intros [= Er ->]. by rewrite <- (run_sent (net_alloc n) w), E.
  - intros x l n Hl Hn. by split.
  - intros x w. apply run_sent.
  - intros pcb x a port w. cbn. by rewrite run_sent.
Defined.
(* ------------------------------------------------------------------ *)
(** * Sending *)

(** Only packets have changed: who sends is as before. *)
Lemma sender_same s s' nif pcb bp dst src netif mac : same_stack s s' -> sender s nif pcb bp dst src netif mac ->
  sender s' nif pcb bp dst src netif mac.
Proof using Type.
  intros (Eu & Ep & El) [H1 H2 H3 H4 H5 H6 [? ? ? ? ?] H8]. split; rewrite ?Eu, ?El; try done. split; by rewrite ?El.
Qed.

(** A whole call of the bridge to [udp_sendto] and the [pbuf_free] behind it:
    the driver gets the frame. *)
Lemma net_sendto_ok s nif pcb bp dst src netif mac p n d dport w :
  sender s nif pcb bp dst src netif mac -> fresh_buffer s p n -> Forall is_u8 d -> zlen d <= n -> n < 60000 -> is_u16 dport ->
  wd_st w = Ok s ->
  let x := mk_bpacket p (zlen d) d in
  exists s1 b, run (net_sendto (Some pcb) x (Ip6Addr.addr dst) dport) w = run (hdkif_output netif p) (mk_world (Ok s1) (wd_sent w)) /\
    outgoing s1 p b [] (udp_frame mac (hwaddr nif) src dst (hop_limit bp dst) (tos bp) (udp_datagram src dst (local_port bp) dport d))
      (PBUF_TRANSPORT - HEADERS) /\ after_sending s s1 dst.
Proof using Type.
  intros Hsn Hf Hd Hn Hlt Hdp Ew x.
  destruct (store_packet_ok s p n d Hf Hd Hn ltac:(lia)) as (s1 & b1 & E1 & Hsb & Hr & T1).
  destruct (sendto_ok hdkif_output mac_filter c_rand s1 nif pcb bp dst src netif mac p b1 [] d PBUF_TRANSPORT dport
    (sender_same _ _ _ _ _ _ _ _ _ T1 Hsn) Hsb Hr) as (s2 & b2 & E2 & O2 & _ & _ & (Tu & Tp & Tl)); try done.
  { unfold HEADERS, UDP_HLEN, IP6_HLEN, SIZEOF_ETH_HDR. lia. }
  exists s2, b2. split; [|split; [exact O2|]].
  - unfold run, net_sendto. rewrite Ew, (io_bind_ok _ _ _ _ _ E1). destruct dst as [a]. unfold x.
    cbn [default id bp_addr Ip6Addr.addr wd_st wd_sent]. unfold id. by rewrite E2.
  - destruct T1 as (? & ? & E). split_and!; try congruence. by rewrite Tl, E.
Qed.
End Net.

(* ------------------------------------------------------------------ *)
(** * Datagrams *)

#[local] Transparent enc_frame enc_body.
Lemma enc_body_u8 fs : Forall (fun g => frame_ok g = true) fs -> Forall (fun g => Forall is_u8 (data g)) fs ->
  Forall is_u8 (enc_body fs).
Proof.
  intros Hok Hd. unfold enc_body. apply Forall_concat, Forall_fmap. rewrite Forall_forall in Hok, Hd |- *.
  intros g Hg. destruct (frame_ok_fields g (Hok g Hg)) as (_ & Hl & _). unfold compose, enc_frame.
  rewrite !Forall_app, Forall_singleton. split_and!; [apply be32_bytes_u8|unfold is_u8; lia|]. by apply Forall_take, Hd.
Qed.
#[local] Opaque enc_frame enc_body.

Lemma enc_datagram_u8 seq fs : Forall (fun g => frame_ok g = true) fs -> Forall (fun g => Forall is_u8 (data g)) fs ->
  zlen fs < 65536 -> Forall is_u8 (enc_datagram seq fs).
Proof.
  intros Hok Hd Hn. unfold enc_datagram. apply Forall_app. split; [|by apply enc_body_u8].
  unfold enc_header. rewrite !Forall_cons_iff. split_and!; try done; [apply u8_range|..]; unfold is_u8; Z.div_mod_to_equations; lia.
Qed.

Lemma run_free_logged {PP RP HP UP N : Type} `{PoolOps PP} `{PoolOps RP} `{HeapOps HP} {A} d
    (m : io (net PP RP HP UP N) A) p s log :
  (run (Udp.free p) (mk_world (wd_st (run m (mk_world (Ok s) log)).2) (wd_sent (run m (mk_world (Ok s) log)).2 ++ [d]))).2 =
  (run (_ ← m; Udp.free p) (mk_world (Ok s) (log ++ [d]))).2.
Proof. unfold run, mbind, io_bind. cbn [wd_st wd_sent]. destruct (m s) as [[a s1]|]; done. Qed.

(** The frames of a datagram are bytes, and there are not too many of them. *)
Lemma packed_ok seq f fs : Forall (fun g => frame_ok g = true) (f :: fs) -> Forall (fun g => Forall is_u8 (data g)) (f :: fs) ->
  let now := (pack 1200 5 (f :: fs)).1 in
  now <> [] /\ Forall (fun g => frame_ok g = true) now /\ zlen (enc_datagram seq now) < 1200 /\
  Forall is_u8 (enc_datagram seq now).
Proof.
  intros Hok Hd now. assert (Hfit : Forall frame_fits (f :: fs)) by exact (Forall_impl _ _ _ Hok frame_ok_fits).
  pose proof (pack_app 1200 5 (f :: fs)) as Happ. fold now in Happ.
  rewrite <- Happ in Hok, Hd. apply Forall_app in Hok as [Hok _]. apply Forall_app in Hd as [Hd _].
  destruct (pack_nonempty f fs) as (? & Hne); [by inversion Hfit|]. fold now in Hne.
  pose proof (pack_size 1200 5 (f :: fs) Hfit ltac:(lia)) as Hsz. fold now in Hsz.
  pose proof (enc_body_length now (Forall_impl _ _ _ Hok frame_ok_fits)) as Hl.
  rewrite enc_datagram_length. split_and!; [by rewrite Hne|done|lia|]. apply enc_datagram_u8; try done. lia.
Qed.

Section Path.
Context {PP RP HP UP QP MP DV : Type} `{PPO : PoolOps PP} `{RPO : PoolOps RP} `{HPO : HeapOps HP}
  `{UPO : PoolOps UP} `{UPL : !PoolLaws UP} `{QPO : PoolOps QP} `{MPO : PoolOps MP}.
Abbreviation st := (net PP RP HP UP (ipst QP MP DV)).
Implicit Types (s : st) (h : cannelloni_handle).
Variable out : Z -> Z -> io st Z.
Variable filter : Z -> ip6_addr -> Z -> io st unit.
Variable rand : Z -> Z * Z.

(** No byte of a payload matters to the pools and the heap. *)
Lemma inv_other_bytes `{PLP : !PoolLaws PP} `{PLR : !PoolLaws RP} `{HLH : !HeapLaws HP} (hp : pheap PP RP HP) lp lr bl bs :
  pheap_inv hp lp lr bl -> pheap_inv (mk_pheap (pool_st hp) (rom_st hp) (heap_st hp) (pbufs hp) bs) lp lr bl.
Proof using Type. by intros []; split. Qed.

(** Sending: the frames that fit into one datagram go to the driver. *)
Lemma bridge_sends `{PLP : !PoolLaws PP} `{PLR : !PoolLaws RP} `{HLH : !HeapLaws HP} fn arg h st f fs s log nif pcb bp dst src netif mac lp lr bl :
  q_rep st (rx_queue h) (f :: fs) -> Forall (fun g => frame_ok g = true) (f :: fs) ->
  Forall (fun g => Forall is_u8 (data g)) (f :: fs) -> q_count (rx_queue h) < 65536 ->
  Bridge.udp_pcb h = Some pcb -> Bridge.addr (Init h) = Ip6Addr.addr dst -> is_u16 (Bridge.remote_port (Init h)) ->
  sender s nif pcb bp dst src netif mac ->
  pheap_inv (n_heap s) lp lr bl -> fresh_memory (n_heap s) [] (ram_size (u16 PBUF_TRANSPORT) 1200) ->
  let net := stack_net out filter rand fn arg in
  let now := (pack 1200 5 (f :: fs)).1 in let rest := (pack 1200 5 (f :: fs)).2 in
  let dg := enc_datagram (sequence_number h) now in
  exists r s1, Pbuf.pbuf_alloc PBUF_TRANSPORT 1200 PBUF_RAM (n_heap s) = Ok (r, n_heap s1) /\
  match r with
  | None => transmit_udp_frame (NS := net) h st (mk_world (Ok s) log) = Ok (false, h, mk_world (Ok s1) log)
  | Some p => exists q' s2 b,
      transmit_udp_frame (NS := net) h st (mk_world (Ok s) log) =
        Ok (negb (bool_decide (rest = [])), set_sequence_number (set_rx_queue h q') (u32 (sequence_number h + 1)),
            (run (_ ← out netif p; Udp.free p) (mk_world (Ok s2) (log ++ [dg]))).2) /\
      q_rep st q' rest /\ after_sending s s2 dst /\
      outgoing s2 p b [] (udp_frame mac (hwaddr nif) src dst (hop_limit bp dst) (tos bp)
        (udp_datagram src dst (local_port bp) (Bridge.remote_port (Init h)) dg)) (PBUF_TRANSPORT - HEADERS)
  end.
Proof using Type.
  intros HR Hok Hd Hc Hpcb Haddr Hport Hsn Hinv Hfresh net now rest dg.
  assert (Hfit : Forall frame_fits (f :: fs)) by exact (Forall_impl _ _ _ Hok frame_ok_fits).
  destruct (net_alloc_ok s lp lr bl 1200 Hinv ltac:(lia) Hfresh) as (r & s1 & Ea & T1 & Hr).
  exists r, s1. split; [exact Ea|]. destruct r as [p|].
  - destruct Hr as (Hb & c & Ec).
    assert (Ew : Cannelloni.pbuf_alloc (NetStack := net) 1200 (mk_world (Ok s) log) = (Some (mk_bpacket p 1200 c), mk_world (Ok s1) log)).
    { cbn. unfold run. cbn [wd_st]. by rewrite Ec. }
    destruct (transmit_packet (NSL := stack_net_laws out filter rand fn arg) h st _ (f :: fs) _ _ HR ltac:(done) Hfit Hc Ew)
      as (q' & d & Et & HR' & _ & _ & _ & Hpl).
    destruct (packed_ok (sequence_number h) f fs Hok Hd) as (_ & _ & Hlt & Hu). fold now in Hlt, Hu. fold dg in Hlt, Hu.
    destruct (net_sendto_ok out filter rand s1 nif pcb bp dst src netif mac p 1200 dg (Bridge.remote_port (Init h)) (mk_world (Ok s1) log)
      (sender_same _ _ _ _ _ _ _ _ _ T1 Hsn) Hb Hu ltac:(lia) ltac:(lia) Hport eq_refl) as (s2 & b & Es & O2 & Tu & Tp & Tl).
    exists q', s2, b. split; [|split; [done|split; [|exact O2]]].
    + refine (eq_trans Et _). do 2 f_equal. set (y := take (Z.to_nat (zlen dg)) d).
      change ((run (Udp.free p) (logged y (run (net_sendto out filter rand (Bridge.udp_pcb h) (mk_bpacket p (zlen dg) y)
        (Bridge.addr (Init h)) (Bridge.remote_port (Init h))) (mk_world (Ok s1) log)).2)).2 =
        (run (_ ← out netif p; Udp.free p) (mk_world (Ok s2) (log ++ [dg]))).2).
      change (y = dg) in Hpl. rewrite Hpl, Hpcb, Haddr, Es. apply run_free_logged.
    + destruct T1 as (Eu & Ep & El). split_and!; try congruence. by rewrite Tl, El.
  - destruct (q_rep_cons _ _ _ _ HR) as (i & _ & Eq & _). unfold transmit_udp_frame. rewrite Eq. cbn. unfold run. cbn [wd_st]. by rewrite Hr.
Qed.

(** Receiving: the callback's packet is taken apart. *)
Lemma bridge_receives fn arg call s nif inp p b mac_dst mac_src src dst hl tc sport dport seq now pad lp lu r br h str l log :
  let dg := enc_datagram seq now in
  arrived s p b [] (udp_frame mac_dst mac_src src dst hl tc (udp_datagram src dst sport dport dg) ++ pad) ->
  length mac_dst = 6%nat -> length mac_src = 6%nat -> HEADERS <= len b -> paddable b [] pad ->
  wf_ip6 src -> wf_ip6 dst -> is_u8 tc -> is_u16 sport -> is_u16 dport -> Forall is_u8 dg -> zlen dg < 1200 ->
  receiver_of s nif inp (payload b + SIZEOF_ETH_HDR) src dst sport dport lp lu r br ->
  Forall (fun g => frame_ok g = true) now -> q_rep str (tx_queue h) l -> zlen l + zlen now < q_count (tx_queue h) ->
  exists s1 x h' str' gs,
    stack_ethernet_input out filter rand call p inp s =
      (_ ← call (recv br) (recv_arg br) r p src sport; _ ← input_cleanup; mret ERR_OK) s1 /\
    view p s1 = Ok (x, s1) /\
    handle_cannelloni_frame (NS := stack_net out filter rand fn arg) h str (Some x) (mk_world (Ok s1) log) =
      Ok (h', str', (run (Udp.free p) (mk_world (Ok s1) log)).2) /\
    q_rep str' (tx_queue h') (l ++ gs) /\ Forall2 frame_eqv gs now.
Proof using Type*.
  intros dg Ha Hmd Hms Hlen Hpad Hs Hd Htc Hsp Hdp Hu Hlt Hrc Hok HR Hroom.
  destruct (input_ok out filter rand call s nif inp p b [] mac_dst mac_src src dst hl tc sport dport dg pad lp lu r br
    Ha Hmd Hms Hlen Hpad Hs Hd Htc Hsp Hdp Hu) as (s1 & b1 & E1 & Ha1);
    [unfold HEADERS, UDP_HLEN, IP6_HLEN, SIZEOF_ETH_HDR; lia|exact Hrc|].
  destruct (deliver_one (NS := stack_net out filter rand fn arg) h str (mk_bpacket p (zlen dg) dg) (mk_world (Ok s1) log) l seq now)
    as (h' & str' & gs & E2 & HR2 & Heqv & _); try done.
  exists s1, (mk_bpacket p (zlen dg) dg), h', str', gs. split_and!; [exact E1|by apply (view_ok s1 p b1 [])|exact E2|done|done].
Qed.
End Path.

(** C2: The bridge on its network stack, from one board's queue to another's.
    [transmit_udp_frame] takes a buffer from the heap (without room for one,
    nothing happens), fills it with the frames at the head of its queue, and
    the driver is given one Ethernet frame that holds them behind UDP, IPv6
    and Ethernet headers; then the buffer is freed. When this Ethernet frame,
    padded or not, arrives at a board that takes packets to the address,
    [handle_cannelloni_frame] finds the same frames in the packet
    [ethernet_input] hands to the callback, queues them in order and frees
    it. *)
Theorem frames_over_ethernet {PP RP HP UP QP MP DV : Type} `{PPO : PoolOps PP} `{RPO : PoolOps RP} `{HPO : HeapOps HP}
    `{PLP : !PoolLaws PP} `{PLR : !PoolLaws RP} `{HLH : !HeapLaws HP} `{UPO : PoolOps UP} `{UPL : !PoolLaws UP}
    `{QPO : PoolOps QP} `{MPO : PoolOps MP} (out out' : Z -> Z -> io (net PP RP HP UP (ipst QP MP DV)) Z) filter filter' rand rand' call
    fn arg (h : cannelloni_handle) st f fs (s : net PP RP HP UP (ipst QP MP DV)) log nif pcb bp dst src netif mac lp lr bl :
  q_rep st (rx_queue h) (f :: fs) -> Forall (fun g => frame_ok g = true) (f :: fs) ->
  Forall (fun g => Forall is_u8 (data g)) (f :: fs) -> q_count (rx_queue h) < 65536 ->
  Bridge.udp_pcb h = Some pcb -> Bridge.addr (Init h) = Ip6Addr.addr dst -> is_u16 (Bridge.remote_port (Init h)) ->
  sender s nif pcb bp dst src netif mac -> is_u8 (tos bp) ->
  pheap_inv (n_heap s) lp lr bl -> fresh_memory (n_heap s) [] (ram_size (u16 PBUF_TRANSPORT) 1200) ->
  let now := (pack 1200 5 (f :: fs)).1 in let rest := (pack 1200 5 (f :: fs)).2 in
  let dg := enc_datagram (sequence_number h) now in
  let frame := udp_frame mac (hwaddr nif) src dst (hop_limit bp dst) (tos bp)
                 (udp_datagram src dst (local_port bp) (Bridge.remote_port (Init h)) dg) in
  (exists r s1, Pbuf.pbuf_alloc PBUF_TRANSPORT 1200 PBUF_RAM (n_heap s) = Ok (r, n_heap s1) /\
   match r with
   | None => transmit_udp_frame (NS := stack_net out filter rand fn arg) h st (mk_world (Ok s) log) =
       Ok (false, h, mk_world (Ok s1) log)
   | Some p => exists q' s2 b,
       transmit_udp_frame (NS := stack_net out filter rand fn arg) h st (mk_world (Ok s) log) =
         Ok (negb (bool_decide (rest = [])), set_sequence_number (set_rx_queue h q') (u32 (sequence_number h + 1)),
             (run (_ ← out netif p; Udp.free p) (mk_world (Ok s2) (log ++ [dg]))).2) /\
       q_rep st q' rest /\ after_sending s s2 dst /\ outgoing s2 p b [] frame (PBUF_TRANSPORT - HEADERS)
   end) /\
  now <> [] /\ now ++ rest = f :: fs /\
  forall s' nif' inp p b pad lp' lu r br hr str l log',
    arrived s' p b [] (frame ++ pad) -> HEADERS <= len b -> paddable b [] pad ->
    receiver_of s' nif' inp (payload b + SIZEOF_ETH_HDR) src dst (local_port bp) (Bridge.remote_port (Init h)) lp' lu r br ->
    q_rep str (tx_queue hr) l -> zlen l + zlen now < q_count (tx_queue hr) ->
    exists s1 x hr' str' gs,
      stack_ethernet_input out' filter' rand' call p inp s' =
        (_ ← call (recv br) (recv_arg br) r p src (local_port bp); _ ← input_cleanup; mret ERR_OK) s1 /\
      view p s1 = Ok (x, s1) /\
      handle_cannelloni_frame (NS := stack_net out' filter' rand' fn arg) hr str (Some x) (mk_world (Ok s1) log') =
        Ok (hr', str', (run (Udp.free p) (mk_world (Ok s1) log')).2) /\
      q_rep str' (tx_queue hr') (l ++ gs) /\ Forall2 frame_eqv gs now.
Proof.
  intros HR Hok Hd Hc Hpcb Haddr Hport Hsn Htos Hinv Hfresh now rest dg frame.
  split; [by eapply bridge_sends|].
  destruct (packed_ok (sequence_number h) f fs Hok Hd) as (Hne & Hok' & Hlt & Hu).
  split; [done|]. split; [exact (pack_app 1200 5 (f :: fs))|].
  intros s' nif' inp p b pad lp' lu r br hr str l log' Ha Hlen Hpad Hrc HRr Hroom.
  pose proof Hsn as [_ [_ Hsp] _ _ _ _ [_ [Hhw _] _ _ Hmac] [Hs Hdst]].
  by apply (bridge_receives out' filter' rand' fn arg call s' nif' inp p b mac (hwaddr nif) src dst (hop_limit bp dst) (tos bp)
    (local_port bp) (Bridge.remote_port (Init h)) (sequence_number h) now pad lp' lu r br).
Qed.

(** The boards of [StackProps] with a bridge on each. *)
Definition bridge_to_peer : cannelloni_handle :=
  mk_handle (mk_init 5353 (Ip6Addr.addr peer) 5353 4 100 200) (mk_queue 0 0 4 100) (mk_queue 0 2 4 200) 7 (Some 262328) 0.
Definition near_heap : pheap pool pool ram_heap :=
  mk_pheap (pool_st (used 1)) (rom_st (used 1)) (heap_st (used 1)) (pbufs (used 1))
    (bytes (used 1) ∪ list_to_map ((fun a => (a, 0)) <$> seqZ 0x08001004 1400)).
Definition near_bridge : board_st := with_heap near_heap near.
Definition two_frames : list Z :=
  udp_frame far_mac near_mac node peer UDP_TTL 0 (udp_datagram node peer 5353 5353 (enc_datagram 7 [frame_a; frame_b])).
Definition far_bridge : board_st :=
  with_heap (mk_pheap (mk_pool 0 ∅) (mk_pool 0 ∅) (mk_ram 0 ∅ 0) {[0x30 := mk_pbuf 0 0x300 90 90 0x41 0 1 0]}
    (at_address 0x300 (two_frames ++ [0; 0]))) far.

Lemma near_heap_inv : pheap_inv (PLP := laws3) (PLR := laws2) near_heap [0x20004] (reverse (pool_els rom2)) ∅.
Proof. exact (inv_other_bytes (PLP := laws3) (PLR := laws2) (used 1) _ _ _ _ (used_inv 1)). Qed.

Lemma near_heap_fresh : fresh_memory (PLP := laws3) (PLR := laws2) near_heap [] (ram_size (u16 PBUF_TRANSPORT) 1200).
Proof.
  intros a h E.
  assert (Ea : match heap_malloc (ram_size (u16 PBUF_TRANSPORT) 1200) (heap_st near_heap) with Ok (Some a, _) => a = 0x8001010 | _ => False end)
    by (vm_compute; reflexivity).
  rewrite E in Ea. subst a.
  split; [by apply (bool_decide_unpack _); vm_compute|]. split; [by apply (bool_decide_unpack _); vm_compute|].
  change (ram_size (u16 PBUF_TRANSPORT) 1200) with 1292. intros i Hi. split.
  - assert (C : forallb (fun i => bool_decide (is_Some (bytes near_heap !! i))) (seqZ 0x8001010 1292) = true) by (vm_compute; reflexivity).
    rewrite forallb_forall in C. apply (bool_decide_eq_true_1 _), C, list_elem_of_In, elem_of_seqZ. lia.
  - intros (a & b & Hin%not_elem_of_nil & _). exact Hin.
Qed.

Lemma far_bridge_arrived : arrived far_bridge 0x30 (mk_pbuf 0 0x300 90 90 0x41 0 1 0) [] (two_frames ++ [0; 0]).
Proof. split; try done. exists (two_frames ++ [0; 0]), []. split_and!; [by rewrite app_nil_r|vm_compute; reflexivity|done]. Qed.

Lemma far_bridge_receiver : exists lu, receiver_of (UPL := udp_laws) far_bridge (board_if far_mac peer) 1 (0x300 + SIZEOF_ETH_HDR)
  node peer 5353 5353 [(262328, listener)] lu 262328 listener.
Proof.
  destruct listening_inv as (lu & Hi). exists lu. split; try done; try (vm_compute; by split_and!).
  by apply (udp_inv_same (UPL := udp_laws) receiving).
Qed.

Lemma frames_over_ethernet_witness :
  exists q' s2 b s3 x hr' str' gs,
    transmit_udp_frame (NS := stack_net wire no_filter no_rand 0x8000 9) bridge_to_peer demo_store (mk_world (Ok near_bridge) []) =
      Ok (false, set_sequence_number (set_rx_queue bridge_to_peer q') 8,
          (run (_ ← wire 1 0x8001010; Udp.free 0x8001010) (mk_world (Ok s2) [enc_datagram 7 [frame_a; frame_b]])).2) /\
    q_rep demo_store q' [] /\ outgoing s2 0x8001010 b [] two_frames 12 /\
    view 0x30 s3 = Ok (x, s3) /\
    handle_cannelloni_frame (NS := stack_net wire no_filter no_rand 0x8000 9) bridge_to_peer demo_store (Some x) (mk_world (Ok s3) []) =
      Ok (hr', str', (run (Udp.free 0x30) (mk_world (Ok s3) [])).2) /\
    q_rep str' (tx_queue hr') gs /\ Forall2 frame_eqv gs [frame_a; frame_b].
Proof.
  destruct far_bridge_receiver as (lu & Hrc).
  destruct (frames_over_ethernet (PLP := laws3) (PLR := laws2) (UPL := udp_laws) wire wire no_filter no_filter no_rand no_rand greeted
    0x8000 9 bridge_to_peer demo_store frame_a [frame_b] near_bridge [] _ 262328 listener peer node 1 far_mac _ _ _
    demo_rx_rep demo_frames_ok ltac:(repeat constructor; unfold is_u8; lia) ltac:(done) eq_refl eq_refl ltac:(done)
    (sender_same near near_bridge _ _ _ _ _ _ _ (conj eq_refl (conj eq_refl eq_refl)) near_sender) ltac:(done)
    near_heap_inv near_heap_fresh) as ((r & s1 & Ea & Hr) & _ & _ & Hrcv).
  assert (Ep : pack 1200 5 [frame_a; frame_b] = ([frame_a; frame_b], [])) by (vm_compute; reflexivity).
  rewrite Ep in Hr, Hrcv. cbn [fst snd] in Hr, Hrcv.
  assert (Ef : udp_frame far_mac (hwaddr (board_if near_mac node)) node peer (hop_limit listener peer) (tos listener)
    (udp_datagram node peer (local_port listener) (Bridge.remote_port (Init bridge_to_peer))
      (enc_datagram (sequence_number bridge_to_peer) [frame_a; frame_b])) = two_frames) by (vm_compute; reflexivity).
  rewrite Ef in Hr, Hrcv.
  assert (Er : match Pbuf.pbuf_alloc PBUF_TRANSPORT 1200 PBUF_RAM (n_heap near_bridge) with Ok (r, _) => r = Some 0x8001010 | _ => False end)
    by (vm_compute; reflexivity).
  rewrite Ea in Er. subst r. destruct Hr as (q' & s2 & b & E & HR & _ & Ho).
  pose proof (Hrcv far_bridge (board_if far_mac peer) 1 0x30 (mk_pbuf 0 0x300 90 90 0x41 0 1 0) [0; 0] [(262328, listener)] lu 262328
    listener bridge_to_peer demo_store [] [] far_bridge_arrived) as H.
  specialize (H ltac:(vm_compute; discriminate)).
  specialize (H (or_intror (conj eq_refl eq_refl))).
  specialize (H Hrc).
  specialize (H demo_tx_rep ltac:(vm_compute; reflexivity)).
  destruct H as (s3 & x & hr' & str' & gs & _ & Ev & Eh & HRr & Heqv).
  exists q', s2, b, s3, x, hr', str', gs. split_and!; [exact E|exact HR|exact Ho|exact Ev|exact Eh|exact HRr|exact Heqv].
Defined.
