(* ===== verification/Machine.v ===== *)
(** The stack on the Ethernet driver: [netif->linkoutput] is the driver's
    [hdkif_output], and the driver's receive interrupt calls the stack's
    [ethernet_input]. A datagram is followed from [udp_sendto] on one board to
    the descriptors of its DMA engine, and from the descriptors of another
    board's engine to the callback of the application. *)

From Stdlib Require Import ZArith Lia.
From stdpp Require Import functions base list numbers gmap sets.
From S2P Require Import Prelude Mmio Board Mem Memp MemProofs Pbuf PbufChain PbufHeaders PbufAlloc PbufCopy Links.
From S2P Require Import Emac EmacRing EmacProofs EmacRx.
From S2P Require Import Ip6Addr Chksum Udp UdpPcbs UdpPackets Netif Ip6Out Mld6 Addrs Nd6 Nd6In Icmp6 Ip6In Ethernet.
From S2P Require Import Stack Ip6Packets Ip6Receive StackProps.

Open Scope Z_scope.

(* ------------------------------------------------------------------ *)
(** * The state of both *)

(** What the driver keeps: the engine's side, [struct hdkif], the status
    register, the vector table, and the interface's name. *)
Record nicst (D : Type) := mk_nic {
  nic_dev : hw D;
  nic_ctl : hdkif;
  nic_cpsr : CPSR;
  nic_irqs : vim;
  nic_name : Z * Z
}.
Arguments mk_nic {D}.
Arguments nic_dev {D}.
Arguments nic_ctl {D}.
Arguments nic_cpsr {D}.
Arguments nic_irqs {D}.
Arguments nic_name {D}.

(** [struct netif] as the driver sees it, and with what it wrote. *)
Definition driver_netif (nm : Z * Z) (n : netif) : Emac.netif :=
  Emac.mk_netif (hwaddr_len n) (hwaddr n) (mtu n) (nif_flags n) nm (nif_num n).
Definition from_driver (e : Emac.netif) (n : netif) : netif :=
  mk_netif (ip6_addrs n) (addr_states n) (mld6_data n) (Emac.mtu e) (mtu6 n) (Emac.hwaddr e) (Emac.hwaddr_len e)
    (Emac.nif_flags e) (Emac.num e) (rs_count n) (mld_mac_filter n).

(* ------------------------------------------------------------------ *)
(** * A frame in transmit descriptors *)

(** The bytes the [n] descriptors from the [i]-th on point to. *)
Fixpoint frame_in {D} (h : hw D) (bs : gmap Z Z) (i : Z) (n : nat) (c : list Z) : Prop :=
  match n with
  | O => c = []
  | S n => exists x c1 c2, bds h !! slot i = Some x /\ c = c1 ++ c2 /\
      load_bytes bs (hdkif_swizzle_data (bufptr x)) (Z.to_nat (dlen x)) = Ok c1 /\ frame_in h bs (i + 1) n c2
  end.

Lemma described_bytes {D} (h : hw D) bs l : forall i c, describes h i l -> content bs l c ->
  Forall (fun x => is_u32 (payload x.2) /\ is_u16 (len x.2)) l -> frame_in h bs i (length l) c.
Proof.
  induction l as [|[q b] l IH]; intros i c Hd Hc Hf; [done|]. destruct Hc as (c1 & c2 & -> & E & Hc).
  apply Forall_cons_1 in Hf as [[Hp Hl] Hf]. cbn [snd] in *. cbn [length frame_in].
  destruct (Hd 0%nat q b eq_refl) as (x & Hx & Ep & El). rewrite Z.add_0_r in Hx. exists x, c1, c2.
  assert (Ed : dlen x = len b).
  { unfold dlen, flag. rewrite El. change 0xFFFF with (Z.ones 16). rewrite !Z.land_ones by done. unfold is_u16 in Hl.
    rewrite swz_swz by (unfold is_u32; change (2 ^ 16) with 65536; Z.div_mod_to_equations; lia).
    rewrite Zmod_mod, Z.mod_small; [done|]. change (2 ^ 16) with 65536. lia. }
  rewrite Ep, swz_swz, Ed by done. split_and!; try done. apply IH; [|done|done]. intros j q' b' Hj.
  destruct (Hd (S j) q' b' Hj) as (y & Hy & H). exists y. split; [|done]. rewrite <- Hy. do 2 f_equal. lia.
Qed.

Section Machine.
Context {D PP RP HP UP QP MP : Type} {DM : Dma D} `{PPO : PoolOps PP} `{RPO : PoolOps RP} `{HPO : HeapOps HP}
  `{UPO : PoolOps UP} `{QPO : PoolOps QP} `{MPO : PoolOps MP}.
Abbreviation st := (net PP RP HP UP (ipst QP MP (nicst D))).
Abbreviation est := (eth D PP RP HP st).
Implicit Types (s : st) (e : est).

(** The one interface, [netif] of main.c, by its address. *)
Variable the_netif : Z.

Definition eth_of s : outcome est :=
  match netifs (lower s) !! the_netif with
  | None => Fault NullPointer
  | Some n =>
      let v := nic (lower s) in
      Ok (mk_eth (nic_dev v) (nic_ctl v) (driver_netif (nic_name v) n) (nic_cpsr v) (nic_irqs v) (n_heap s) s)
  end.
Definition st_of e : st :=
  let s := rest e in
  mk_net (heap e) (udp s) (udp_pool s)
    (set_nic (mk_nic (dev e) (ctl e) (cpsr e) (irqs e) (Emac.name (nif e)))
       (set_netifs (alter (from_driver (nif e)) the_netif) (lower s))).

(** The driver called by the stack, and the stack by the driver. *)
Definition on_driver {A} (m : io est A) : io st A := fun s =>
  e ← eth_of s; '(x, e) ← m e; Ok (x, st_of e).
Definition on_stack {A} (m : io st A) : io est A := fun e =>
  '(x, s) ← m (st_of e); e ← eth_of s; Ok (x, e).

(** The MAC filter, which this driver does not set, rand() and the
    application's callbacks. *)
Variable filter : Z -> ip6_addr -> Z -> io st unit.
Variable c_rand : Z -> Z * Z.
Variable call_recv : Z -> Z -> Z -> Z -> ip6_addr -> Z -> io st unit.
Variable fuel : nat.

(** [netif->linkoutput(netif, p)]. *)
Definition board_output (netif p : Z) : io st Z := on_driver (hdkif_output fuel p).
(** [ethernet_input(q, netif)]. *)
Definition board_input (q : Z) : io est Z :=
  on_stack (stack_ethernet_input board_output filter c_rand call_recv q the_netif).
(** [EMACCore0RxIsr] and [EMACCore0TxIsr]. *)
Definition board_rx_isr (n : nat) : io st unit := on_driver (hdkif_rx_inthandler n board_input).
Definition board_tx_isr : io st unit := on_driver (hdkif_tx_inthandler fuel).

Lemma on_stack_bind {A B} (m : io st A) (k : A -> io est B) e r : m (st_of e) = r ->
  (on_stack m ≫= k) e = ('(x, s) ← r; e ← eth_of s; k x e).
Proof using Type.
  intros E. unfold mbind, io_bind, on_stack. rewrite E. destruct r as [[x s]|]; [|done]. cbn. by destruct (eth_of s).
Qed.

Lemma from_driver_id nm n : from_driver (driver_netif nm n) n = n.
Proof using Type. by destruct n. Qed.

Lemma set_netifs_id (l : ipst QP MP (nicst D)) f : f (netifs l) = netifs l -> set_netifs f l = l.
Proof using Type. intros E. unfold set_netifs. rewrite E. by destruct l. Qed.

(** The driver wrote nothing to the interface: only packets and its own state
    differ. *)
Lemma st_of_lower s e e' : eth_of s = Ok e -> nif e' = nif e -> rest e' = rest e ->
  lower (st_of e') = set_nic (mk_nic (dev e') (ctl e') (cpsr e') (irqs e') (nic_name (nic (lower s)))) (lower s) /\
  udp (st_of e') = udp s /\ udp_pool (st_of e') = udp_pool s /\ n_heap (st_of e') = heap e'.
Proof using Type.
  unfold eth_of. destruct (netifs (lower s) !! the_netif) as [n|] eqn:En; [|done]. intros [= <-] Hn Hr.
  unfold st_of. rewrite Hr, Hn. cbn [rest nif]. split_and!; try done. cbn [lower]. f_equal.
  apply set_netifs_id, alter_id. intros n' Hn'. assert (n' = n) as -> by congruence. apply from_driver_id.
Qed.

Lemma eth_of_lower s s' v : is_Some (netifs (lower s) !! the_netif) -> lower s' = set_nic v (lower s) ->
  exists n, eth_of s' = Ok (mk_eth (nic_dev v) (nic_ctl v) (driver_netif (nic_name v) n) (nic_cpsr v) (nic_irqs v) (n_heap s') s').
Proof using Type. intros [n En] El. exists n. unfold eth_of. rewrite El. cbn [netifs set_nic nic]. by rewrite En. Qed.

(* ------------------------------------------------------------------ *)
(** * The way down *)

Context {DL : DmaLaws D} {UPL : PoolLaws UP}.

(** [packet] is not in buffers the engine receives into. *)
Definition apart_from e (l : list (Z * pbuf)) : Prop := forall i, in_payload l i -> ~ owned_at (dev e) i.

Lemma in_payload_head p b b' l i : payload b' = payload b -> len b' = len b -> in_payload ((p, b') :: l) i -> in_payload ((p, b) :: l) i.
Proof using Type. intros Ep El. rewrite !in_payload_cons, Ep, El. done. Qed.

(** A frame given to the driver is in the descriptors behind those in use. *)
Lemma board_output_ok s e k pend p b l c n : (dma_bound <= fuel)%nat -> eth_of s = Ok e -> tx_ok e k pend ->
  Ip6Packets.outgoing s p b l c n -> ref b = 1 -> MIN_PKT_LEN <= zlen c -> total pend + 1 + zlen l <= 203 ->
  Forall (fun x => is_u32 (payload x.2)) ((p, b) :: l) -> apart_from e ((p, b) :: l) ->
  exists s' e', board_output the_netif p s = Ok (ERR_OK, s') /\ eth_of s' = Ok e' /\
    tx_ok e' k (pend ++ [(1 + zlen l, p)]) /\ todo (dma (dev e')) = Some (slot (k + total pend)) /\
    frame_in (dev e') (bytes (heap e')) (k + total pend) (S (length l)) c /\
    (exists x, bds (dev e') !! slot (k + total pend) = Some x /\ flag (flags_pktlen x) 0xFFFF = zlen c) /\
    udp s' = udp s /\ exists v, lower s' = set_nic v (lower s).
Proof using DL PPO RPO HPO.
  intros Hfuel He Htx [Hch Hp Hc _ _] Hr Hmin Hn Hu Hap.
  pose proof (content_length _ _ _ Hc Hp) as Hlen. pose proof Hp as (Et & (Hl16 & Ht16 & _) & Hpl). cbn [lens foldr snd] in Hlen.
  fold (lens l) in Hlen. assert (Htc : tot_len b = zlen c) by lia.
  assert (Hheap : heap e = n_heap s).
  { unfold eth_of in He. destruct (netifs (lower s) !! the_netif); [|done]. by injection He as <-. }
  assert (Hhas : is_Some (netifs (lower s) !! the_netif)).
  { unfold eth_of in He. destruct (netifs (lower s) !! the_netif); [by eexists|done]. }
  destruct (hdkif_output_ok fuel e k pend p b l Hfuel Htx) as (e1 & E1 & Hok & Htd & Hdes & Hx & Hpb & Hcp & Hnif & Hirq & Hre & Hown & Hby);
    [by rewrite Hheap|done|lia|done|].
  destruct (st_of_lower s e e1 He Hnif) as (El & Eu & Eup & Eh).
  { rewrite Hre. unfold eth_of in He. destruct (netifs (lower s) !! the_netif); [|done]. by injection He as <-. }
  destruct (eth_of_lower s (st_of e1) _ Hhas El) as (n' & E2). cbn [nic_dev nic_ctl nic_cpsr nic_irqs nic_name] in E2.
  eexists (st_of e1), _. split; [|split; [exact E2|]].
  { unfold board_output, on_driver. rewrite He. cbn [mbind outcome_bind]. by rewrite E1. }
  cbn [dev heap]. rewrite Eh. assert (Eo : payload (EmacProofs.outgoing b) = payload b /\ len (EmacProofs.outgoing b) = len b).
  { unfold EmacProofs.outgoing. rewrite (proj2 (Z.ltb_ge (tot_len b) MIN_PKT_LEN)) by lia. done. }
  destruct Eo as [Eo1 Eo2]. split_and!.
  - destruct Hok as (V & t & c' & m & HI). exists V, t, c', m. by eapply tx_inv_dev; [| |exact HI].
  - done.
  - change (S (length l)) with (length ((p, EmacProofs.outgoing b) :: l)). apply described_bytes; [exact Hdes| |].
    + assert (Hc1 : content (bytes (heap e)) ((p, EmacProofs.outgoing b) :: l) c).
      { rewrite Hheap. destruct Hc as (c1 & c2 & -> & E & Hc). exists c1, c2. by rewrite Eo1, Eo2. }
      eapply content_agree; [|exact Hc1]. intros i Hi. destruct (Hby i) as [Ho|Ho]; [|done]. exfalso.
      apply (Hap i); [|done]. by eapply in_payload_head.
    + apply Forall_cons_1 in Hu as [Hu1 Hu]. constructor; [cbn [snd]; by rewrite Eo1, Eo2|].
      clear -Hpl Hu. induction l as [|[q d] l IH]; [done|]. apply Forall_cons_1 in Hu as [Hu1 Hu]. destruct Hpl as (_ & [? _] & Hpl).
      constructor; [done|by apply IH].
  - destruct Hx as (x & Hx & Ex). exists x. split; [done|]. rewrite Ex. lia.
  - done.
  - by eexists.
Qed.

Lemma udp_frame_length md ms src dst hl tc sport dport data : length md = 6%nat -> length ms = 6%nat -> wf_ip6 src -> wf_ip6 dst ->
  zlen (udp_frame md ms src dst hl tc (udp_datagram src dst sport dport data)) = zlen data + HEADERS.
Proof using Type.
  intros Hmd Hms Hs Hd. unfold udp_frame, udp_packet, eth_header, half_bytes. rewrite !length_app. pose proof (datagram_length src dst sport dport data) as Hl.
  destruct (header_fields src dst hl tc IP6_NEXTH_UDP (zlen (udp_datagram src dst sport dport data)) [] Hs Hd) as [Hh _].
  unfold HEADERS, UDP_HLEN, IP6_HLEN, SIZEOF_ETH_HDR in *. cbn [length] in *. lia.
Qed.

(** From the application to the descriptors. *)
Lemma board_sendto_ok s e k pend nif pcb bp dst src mac p b l data n dport :
  sender s nif pcb bp dst src the_netif mac -> sendable s p b l data n -> ref b = 1 -> HEADERS <= n ->
  zlen data + HEADERS < 65536 -> is_u16 dport -> (dma_bound <= fuel)%nat -> eth_of s = Ok e -> tx_ok e k pend ->
  total pend + 1 + zlen l <= 203 -> Forall (fun x => is_u32 (payload x.2)) ((p, b) :: l) -> HEADERS <= payload b ->
  apart_from e ((p, grown HEADERS b) :: l) ->
  let frame := udp_frame mac (hwaddr nif) src dst (hop_limit bp dst) (tos bp) (udp_datagram src dst (local_port bp) dport data) in
  exists s' e', stack_udp_sendto board_output filter c_rand pcb p (Some dst) dport s = Ok (ERR_OK, s') /\ eth_of s' = Ok e' /\
    tx_ok e' k (pend ++ [(1 + zlen l, p)]) /\ todo (dma (dev e')) = Some (slot (k + total pend)) /\
    frame_in (dev e') (bytes (heap e')) (k + total pend) (S (length l)) frame /\
    (exists x, bds (dev e') !! slot (k + total pend) = Some x /\ flag (flags_pktlen x) 0xFFFF = zlen frame).
Proof using DL PPO RPO HPO QPO MPO.
  intros Hsn Hsb Hr Hn Hlt Hdp Hfuel He Htx Hroom Hu Hpl Hap frame.
  destruct (sendto_ok board_output filter c_rand s nif pcb bp dst src the_netif mac p b l data n dport Hsn Hsb Hr Hn Hlt Hdp)
    as (s1 & b1 & -> & Ho & Hr1 & Epl & _ & _ & El). fold frame in Ho.
  pose proof Hsn as [_ _ _ _ _ _ [_ [Hhw _] _ _ Hmac] [Hs Hd]].
  assert (Hfl : zlen frame = zlen data + HEADERS) by by apply udp_frame_length.
  assert (He1 : exists e1, eth_of s1 = Ok e1 /\ dev e1 = dev e /\ ctl e1 = ctl e).
  { unfold eth_of in He |- *. rewrite El. cbn [netifs nic set_nd6]. destruct (netifs (lower s) !! the_netif); [|done].
    injection He as <-. by eexists. }
  destruct He1 as (e1 & He1 & Ed & Ec).
  assert (Elen : len b1 = len b + HEADERS).
  { pose proof (content_length _ _ _ (og_content _ _ _ _ _ _ Ho) (og_packet _ _ _ _ _ _ Ho)) as L1.
    pose proof (content_length _ _ _ (sb_content _ _ _ _ _ _ Hsb) (sb_packet _ _ _ _ _ _ Hsb)) as L2. cbn [lens foldr snd] in L1, L2. lia. }
  apply Forall_cons_1 in Hu as [Hu1 Hu]. cbn [snd] in Hu1.
  destruct (board_output_ok s1 e1 k pend p b1 l frame (n - HEADERS) Hfuel He1) as (s2 & e2 & E2 & He2 & Hok & Htd & Hf & Hx & _); try done.
  - destruct Htx as (V & t & c & m & HI). exists V, t, c, m. by eapply tx_inv_dev; [| |exact HI].
  - rewrite Hfl. unfold HEADERS, UDP_HLEN, IP6_HLEN, SIZEOF_ETH_HDR, MIN_PKT_LEN. lia.
  - constructor; [|done]. cbn [snd]. rewrite Epl. unfold is_u32, HEADERS, UDP_HLEN, IP6_HLEN, SIZEOF_ETH_HDR in *. lia.
  - intros i Hi. rewrite Ed. apply Hap. apply (in_payload_head p (grown HEADERS b) b1); [exact Epl| |exact Hi].
    pose proof (og_packet _ _ _ _ _ _ Ho) as (_ & (Hl & _) & _). unfold grown. cbn [len set_tot_len set_len set_payload].
    rewrite <- Elen. symmetry. apply u16_small. unfold is_u16 in *. lia.
  - by exists s2, e2.
Qed.

(* ------------------------------------------------------------------ *)
(** * The way up *)

Context {RL : RxLaws D}.

(** What the driver keeps has no part in what a datagram is for. *)
Lemma receiver_set_nic s s' v nif inp hdr src dst sport dport lp lu r br : lower s' = set_nic v (lower s) -> udp s' = udp s ->
  udp_pool s' = udp_pool s -> receiver_of s nif inp hdr src dst sport dport lp lu r br ->
  receiver_of s' nif inp hdr src dst sport dport lp lu r br.
Proof using Type.
  intros El Eu Ep [H1 H2 H3 H4 [H5 H6] H7]. split; rewrite ?Eu; try done.
  - by rewrite El.
  - by rewrite El.
  - by apply (udp_inv_same s).
  - split; [|done]. rewrite H5. unfold while_up. rewrite El. done.
Qed.

(** From the descriptors to the callback; then the interrupt goes on with what
    the callback left. *)
Lemma board_rx_ok s e a d b l nxt nx n md ms src dst hl tc sport dport data pad nif lp lu r br :
  eth_of s = Ok e ->
  rx_ready e a d b l nxt nx (udp_frame md ms src dst hl tc (udp_datagram src dst sport dport data) ++ pad) ->
  rx_active_head (rx (ctl e)) = a -> fbit d SOP_BIT = true ->
  length md = 6%nat -> length ms = 6%nat -> HEADERS <= dlen d ->
  pad = [] \/ (l = [] /\ pbuf_match_allocsrc b PBUF_TYPE_ALLOC_SRC_MASK_STD_HEAP = false) ->
  wf_ip6 src -> wf_ip6 dst -> is_u8 tc -> is_u16 sport -> is_u16 dport -> Forall is_u8 data -> zlen data + HEADERS < 65536 ->
  receiver_of s nif the_netif (payload b + SIZEOF_ETH_HDR) src dst sport dport lp lu r br ->
  exists s1 b1 l1, arrived s1 (bd_pbuf d) b1 l1 data /\
    hdkif_rx_inthandler (S n) board_input e =
      ('(_, s2) ← (_ ← call_recv (recv br) (recv_arg br) r (bd_pbuf d) src sport; _ ← input_cleanup; mret ERR_OK) s1;
       e2 ← eth_of s2;
       rx_after board_input n nxt (last_bd ((a, d, b) :: l)) (freed 0 ((a, d, b) :: l)) (rx_active_tail (rx (ctl e))) e2).
Proof using RL UPL.
  intros He Hrr Ha Hsop Hmd Hms Hlen Hpad Hs Hd Htc Hsp Hdp Hdata Hlt Hrc.
  destruct (rx_inthandler_ok board_input n e a d b l nxt nx _ Hrr Ha Hsop) as (e1 & [Hch Hp Hc _ _ _ (Hn & _ & _ & Hre & _)] & E).
  destruct (st_of_lower s e e1 He Hn) as (El & Eu & Eup & Eh).
  { rewrite Hre. unfold eth_of in He. destruct (netifs (lower s) !! the_netif); [|done]. by injection He as <-. }
  cbn [collected] in Hch, Hp, Hc.
  match type of Hch with chain _ _ ((_, ?x) :: ?y) => set (b' := x) in *; set (l' := y) in * end.
  destruct (input_ok board_output filter c_rand call_recv (st_of e1) nif the_netif (bd_pbuf d) b' l' md ms src dst hl tc sport dport
    data pad lp lu r br) as (s1 & b1 & E1 & Ha1); try done.
  - destruct Hpad as [->|[-> Hm]]; [by left|by right].
  - eapply receiver_set_nic; [exact El|done|done|exact Hrc].
  - exists s1, b1, l'. split; [exact Ha1|]. rewrite E. by apply on_stack_bind.
Qed.
End Machine.

(* ------------------------------------------------------------------ *)
(** * Property *)

(** C3: A datagram between two boards, engine to engine. On the one,
    [udp_sendto] goes through UDP, IPv6, Ethernet and the driver, returns
    [ERR_OK], and leaves the whole frame, byte for byte, in the transmit
    descriptors behind those in use, which the engine has to work on. On the
    other, the receive interrupt that finds the engine has put this frame,
    padded or not, into receive descriptors calls the application's callback
    with exactly the data that was sent and the sender's address and port;
    then it gives the descriptors other pbufs. *)
Theorem datagram_between_engines {D D' PP RP HP UP QP MP : Type} {DM : Dma D} {DM' : Dma D'} `{PPO : PoolOps PP}
    `{RPO : PoolOps RP} `{HPO : HeapOps HP} `{UPO : PoolOps UP} `{QPO : PoolOps QP} `{MPO : PoolOps MP}
    {DL : DmaLaws D} {RL : RxLaws D'} {UPL : PoolLaws UP}
    (s : net PP RP HP UP (ipst QP MP (nicst D))) (s' : net PP RP HP UP (ipst QP MP (nicst D')))
    netif netif' filter filter' rand rand' call fuel fuel' n' e e' k pend nif pcb bp dst src mac p b l data n dport
    a d b' l' nxt nx pad nif' lp lu r br :
  let frame := udp_frame mac (hwaddr nif) src dst (hop_limit bp dst) (tos bp)
                 (udp_datagram src dst (local_port bp) dport data) in
  sender s nif pcb bp dst src netif mac -> sendable s p b l data n -> ref b = 1 -> HEADERS <= n ->
  zlen data + HEADERS < 65536 -> is_u16 dport -> is_u8 (tos bp) ->
  (dma_bound <= fuel)%nat -> eth_of netif s = Ok e -> tx_ok e k pend -> total pend + 1 + zlen l <= 203 ->
  Forall (fun x => is_u32 (payload x.2)) ((p, b) :: l) -> HEADERS <= payload b -> apart_from e ((p, grown HEADERS b) :: l) ->
  eth_of netif' s' = Ok e' -> rx_ready e' a d b' l' nxt nx (frame ++ pad) -> rx_active_head (rx (ctl e')) = a ->
  fbit d SOP_BIT = true -> HEADERS <= dlen d ->
  pad = [] \/ (l' = [] /\ pbuf_match_allocsrc b' PBUF_TYPE_ALLOC_SRC_MASK_STD_HEAP = false) ->
  receiver_of s' nif' netif' (payload b' + SIZEOF_ETH_HDR) src dst (local_port bp) dport lp lu r br ->
  (exists s1 e1, stack_udp_sendto (board_output netif fuel) filter rand pcb p (Some dst) dport s = Ok (ERR_OK, s1) /\
     eth_of netif s1 = Ok e1 /\ tx_ok e1 k (pend ++ [(1 + zlen l, p)]) /\
     todo (dma (dev e1)) = Some (slot (k + total pend)) /\
     frame_in (dev e1) (bytes (heap e1)) (k + total pend) (S (length l)) frame /\
     exists x, bds (dev e1) !! slot (k + total pend) = Some x /\ flag (flags_pktlen x) 0xFFFF = zlen frame) /\
  (exists s1 b1 l1, arrived s1 (bd_pbuf d) b1 l1 data /\
     hdkif_rx_inthandler (S n') (board_input netif' filter' rand' call fuel') e' =
       ('(_, s2) ← (_ ← call (recv br) (recv_arg br) r (bd_pbuf d) src (local_port bp); _ ← input_cleanup; mret ERR_OK) s1;
        e2 ← eth_of netif' s2;
        rx_after (board_input netif' filter' rand' call fuel') n' nxt (last_bd ((a, d, b') :: l'))
          (freed 0 ((a, d, b') :: l')) (rx_active_tail (rx (ctl e'))) e2)).
Proof.
  intros frame Hsn Hsb Hr Hn Hlt Hdp Htos Hfuel He Htx Hroom Hu Hpl Hap He' Hrr Ha Hsop Hlen Hpad Hrc. split.
  - by apply (board_sendto_ok netif filter rand fuel s e k pend nif pcb bp dst src mac p b l data n dport).
  - pose proof Hsn as [_ [_ Hsp] _ _ _ _ [_ [Hhw _] _ _ Hmac] [Hs Hd]].
    apply (board_rx_ok netif' filter' rand' call fuel' s' e' a d b' l' nxt nx n' mac (hwaddr nif) src dst (hop_limit bp dst) (tos bp)
      (local_port bp) dport data pad nif' lp lu r br); try done. apply Hsb.
Qed.

(** The boards of [StackProps] with a driver on each: the near one with its
    ring of transmit descriptors, the far one with the frame and padding in
    the first of two receive descriptors. *)
Definition with_driver {D} (v : nicst D) (s : board_st) : net pool pool ram_heap pool (ipst pool pool (nicst D)) :=
  let l := lower s in
  mk_net (n_heap s) (udp s) (udp_pool s)
    (mk_ipst (netifs l) (netif_default l) (ip_data l) (nd6 l) (q_entries l) (mld_groups l) (q_pool l) (mld_pool l) (seed l) v).
Definition near_machine : net pool pool ram_heap pool (ipst pool pool (nicst engine)) :=
  with_driver (mk_nic (mk_hw None ∅ (ring_of linked_bd)) demo_ctl 0 (mk_vim [] []) (101, 110)) near.
Definition far_d1 : bdp := mk_bdp (hdkif_swizzle_data (rx_bd 1)) (hdkif_swizzle_data 0x300) (hdkif_swizzle_data 67)
  (hdkif_swizzle_data (Z.lor EMAC_BUF_DESC_SOP (Z.lor EMAC_BUF_DESC_EOP 67))) 0x30.
Definition far_d2 : bdp := mk_bdp 0 (hdkif_swizzle_data 0x1000) (hdkif_swizzle_data 100) (hdkif_swizzle_data EMAC_BUF_DESC_OWNER) 0x900.
Definition far_machine : net pool pool ram_heap pool (ipst pool pool (nicst EmacRx.receiver)) :=
  with_driver (mk_nic (mk_hw None ∅ (list_to_map [(rx_bd 0, far_d1); (rx_bd 1, far_d2)]))
    (mk_hdkif 0 EMAC_0_BASE EMAC_CTRL_0_BASE EMAC_CTRL_RAM_0_BASE (mk_txch 0 0 0) (mk_rxch 0 (rx_bd 0) (rx_bd 1) 0))
    0 (mk_vim [] []) (101, 110)) far.

Definition filter_none {S} (netif : Z) (a : ip6_addr) (action : Z) : io S unit := mret tt.
Definition greeting_taken {S} (f a pcb p : Z) (addr : ip6_addr) (port : Z) : io S unit :=
  io_assert ((f =? 0x8000) && (a =? 9) && (pcb =? 262328) && (p =? 0x30) && ip6_addr_eq addr node && (port =? 5353)).

Lemma near_machine_sender : sender near_machine (board_if near_mac node) 262328 listener peer node 1 far_mac.
Proof.
  destruct near_sender as [H1 H2 H3 H4 H5 H6 [H7 H8 H9 H10 H11] H12].
  split; [exact H1|exact H2|exact H3|exact H4|exact H5|exact H6| |exact H12].
  split; [exact H7|exact H8|exact H9|exact H10|exact H11].
Qed.

Lemma near_machine_packet : sendable near_machine 0x400 near_buf [] [1; 2; 3] HEADERS.
Proof.
  destruct near_packet as [H1 H2 H3 H4 H5 H6 H7].
  split; [exact H1|exact H2|exact H3|exact H4|exact H5|exact H6|exact H7].
Qed.

Lemma near_machine_apart e : eth_of 1 near_machine = Ok e -> apart_from e [(0x400, grown HEADERS near_buf)].
Proof.
  intros [= <-] i _ (a & b & Ha & Hb & Ho & _). cbn [dev] in Hb. unfold ring_of in Hb.
  apply elem_of_list_to_map_2, list_elem_of_fmap in Hb as (j & [= -> ->] & _). by apply (slot_not_rx j).
Qed.

Lemma near_machine_tx e : eth_of 1 near_machine = Ok e -> tx_ok e 0 [].
Proof.
  intros [= <-]. apply linked_tx_ok; [done|done|done|]. intros j Hj. exists (linked_bd j).
  split; [by apply ring_of_at|]. by split_and!.
Qed.

Lemma far_machine_ready e : eth_of 1 far_machine = Ok e ->
  rx_ready e (rx_bd 0) far_d1 far_buf [] (rx_bd 1) 0x900 (hello_frame ++ [0; 0]).
Proof.
  intros [= <-]. split.
  - cbn [rx_frame]. split_and!; try (by vm_compute).
    change (is_rx (rx_bd 1) /\ exists y, list_to_map (M := gmap Z bdp) [(rx_bd 0, far_d1); (rx_bd 1, far_d2)] !! rx_bd 1 = Some y /\ bd_pbuf y = 0x900).
    split; [by vm_compute|]. by exists far_d2.
  - split; [by apply (bool_decide_unpack _); vm_compute|]. by repeat constructor.
  - by vm_compute; lia.
  - by vm_compute.
  - exists (hello_frame ++ [0; 0]), []. split; [by rewrite app_nil_r|]. split; [by vm_compute|done].
  - intros a d b i Hin Hi (p & y & _ & Hy & Ho & Hb). apply list_elem_of_singleton in Hin as [= -> -> ->].
    change (0x300 <= i < 0x300 + 67) in Hi. cbn [dev bds] in Hy. apply elem_of_list_to_map_2 in Hy.
    rewrite !elem_of_cons in Hy. destruct Hy as [[= -> ->]|[[= -> ->]|[]%elem_of_nil]]; [by vm_compute in Ho|].
    unfold in_buffer in Hb. change (0x1000 <= i < 0x1000 + 100) in Hb. lia.
Qed.

Lemma far_machine_receiver : exists lu, receiver_of (UPL := udp_laws) far_machine (board_if far_mac peer) 1 (0x300 + SIZEOF_ETH_HDR)
  node peer 5353 5353 [(262328, listener)] lu 262328 listener.
Proof.
  destruct far_receiver as (lu & [H1 H2 H3 H4 H5 H6]). exists lu.
  split; [exact H1|exact H2|exact H3| |exact H5|exact H6]. destruct H4. by split.
Qed.

Lemma datagram_between_engines_witness :
  (exists s1 e1, stack_udp_sendto (board_output 1 1) filter_none no_rand 262328 0x400 (Some peer) 5353 near_machine = Ok (ERR_OK, s1) /\
     eth_of 1 s1 = Ok e1 /\ frame_in (dev e1) (bytes (heap e1)) 0 1 hello_frame) /\
  (exists s1 b1 l1, @arrived pool pool ram_heap pool pool pool (nicst EmacRx.receiver) s1 0x30 b1 l1 [1; 2; 3]) /\
  is_ok (e ← eth_of 1 far_machine; hdkif_rx_inthandler 1 (board_input 1 filter_none no_rand greeting_taken 1) e) = true.
Proof.
  assert (H1 : zlen [1; 2; 3] + HEADERS < 65536) by reflexivity.
  assert (H2 : is_u16 5353) by done.
  assert (H3 : is_u8 (tos listener)) by done.
  assert (H4 : total [] + 1 + Z.of_nat (@length (Z * pbuf) []) <= 203) by done.
  assert (H5 : Forall (fun x => is_u32 (payload x.2)) [(0x400, near_buf)]) by by repeat constructor.
  assert (H6 : HEADERS <= payload near_buf) by done.
  assert (H8 : fbit far_d1 SOP_BIT = true) by (vm_compute; reflexivity).
  assert (H9 : HEADERS <= dlen far_d1) by (vm_compute; discriminate).
  assert (H10 : [0; 0] = [] \/ @nil (Z * bdp * pbuf) = [] /\ pbuf_match_allocsrc far_buf PBUF_TYPE_ALLOC_SRC_MASK_STD_HEAP = false)
    by by right.
  assert (Ef : udp_frame far_mac (hwaddr (board_if near_mac node)) node peer (hop_limit listener peer) (tos listener)
    (udp_datagram node peer (local_port listener) 5353 [1; 2; 3]) = hello_frame) by (vm_compute; reflexivity).
  destruct far_machine_receiver as (lu & Hrc).
  assert (Hok : is_ok (e ← eth_of 1 far_machine; hdkif_rx_inthandler 1 (board_input 1 filter_none no_rand greeting_taken 1) e) = true)
    by (vm_compute; reflexivity).
  destruct (eth_of 1 near_machine) as [e|] eqn:He; [|discriminate He].
  destruct (eth_of 1 far_machine) as [e'|] eqn:He'; [|discriminate He'].
  pose proof (far_machine_ready e' He') as Hrr. rewrite <- Ef in Hrr.
  pose proof (datagram_between_engines (DL := engine_laws) (RL := receiver_laws) (UPL := udp_laws) near_machine far_machine 1 1
    filter_none filter_none no_rand no_rand greeting_taken 1 1 0 e e' 0 [] (board_if near_mac node) 262328 listener peer node far_mac
    0x400 near_buf [] [1; 2; 3] HEADERS 5353 (rx_bd 0) far_d1 far_buf [] (rx_bd 1) 0x900 [0; 0] (board_if far_mac peer)
    [(262328, listener)] lu 262328 listener) as T.
  cbv zeta in T.
  assert (H7 : rx_active_head (rx (ctl e')) = rx_bd 0) by (injection He' as <-; reflexivity).
  specialize (T near_machine_sender near_machine_packet eq_refl (Z.le_refl _) H1 H2 H3 (le_n 1) He (near_machine_tx e He) H4 H5 H6
    (near_machine_apart e He) He' Hrr H7 H8 H9 H10 Hrc).
  destruct T as [(s1 & e1 & E1 & E2 & _ & _ & Hf & _) (s2 & b2 & l2 & Ha & _)].
  rewrite Ef in Hf. split; [exists s1, e1; exact (conj E1 (conj E2 Hf))|]. split; [exists s2, b2, l2; exact Ha|].
  exact Hok.
Defined.
