(* ===== verification/Nd6Props.v ===== *)
(** Neighbour discovery messages and multicast listener reports: which
    messages are refused, how an advertisement resolves a neighbour, and when
    a report is due. *)

From Stdlib Require Import ZArith Lia.
From stdpp Require Import base list numbers gmap.
From S2P Require Import Prelude Mmio Mem Memp Pbuf PbufChain PbufHeaders Ip6Addr Chksum Udp UdpPackets Netif.
From S2P Require Import Ip6Out Mld6 Addrs Nd6 Nd6In Stack Searches Ip6Packets Ip6Receive StackProps.

Open Scope Z_scope.

Section Messages.
Context {PP RP HP UP QP MP DV : Type} `{PoolOps PP} `{PoolOps RP} `{HeapOps HP} `{PoolOps QP} `{PoolOps MP}.
Abbreviation st := (net PP RP HP UP (ipst QP MP DV)).
Context {HK : Hooks st}.
Implicit Types s : st.

(* ------------------------------------------------------------------ *)
(** * Reading what is there *)

Lemma ar_in_content s p b l c off : arrived s p b l c -> 0 <= off < len b -> exists x, c !! Z.to_nat off = Some x.
Proof using Type.
  intros [_ _ (c1 & c2 & -> & [Hn _]%load_bytes_ok & _)] Ho. apply lookup_lt_is_Some_2. rewrite length_app. lia.
Qed.

Lemma ar_read8_some s p b l c off : arrived s p b l c -> 0 <= off < len b -> exists x, read8 (payload b + off) s = Ok (x, s).
Proof using Type. intros Ha Ho. destruct (ar_in_content _ _ _ _ _ _ Ha Ho) as [x Ex]. exists x. by apply (ar_read8 _ _ _ _ _ _ _ Ha Ho). Qed.

Lemma ar_read16_some s p b l c off : arrived s p b l c -> 0 <= off -> off + 2 <= len b ->
  exists x, read16 (payload b + off) s = Ok (x, s).
Proof using Type.
  intros Ha Ho Hl. destruct (ar_in_content _ _ _ _ _ off Ha ltac:(lia)) as [x Ex].
  destruct (ar_in_content _ _ _ _ _ (off + 1) Ha ltac:(lia)) as [y Ey]. exists (be16 x y).
  replace (Z.to_nat (off + 1)) with (Z.to_nat off + 1)%nat in Ey by lia. by apply (ar_read16 _ _ _ _ _ _ _ _ Ha).
Qed.

Lemma ar_read32_some s p b l c off : arrived s p b l c -> 0 <= off -> off + 4 <= len b ->
  exists x, read32 (payload b + off) s = Ok (x, s).
Proof using Type.
  intros Ha Ho Hl. destruct (ar_read16_some _ _ _ _ _ off Ha ltac:(lia) ltac:(lia)) as [x Ex].
  destruct (ar_read16_some _ _ _ _ _ (off + 2) Ha ltac:(lia) ltac:(lia)) as [y Ey]. exists (x * 65536 + y).
  unfold read32. rewrite (io_bind_ok _ _ _ _ _ Ex), <- Z.add_assoc. by rewrite (io_bind_ok _ _ _ _ _ Ey).
Qed.

Lemma ar_read_addr_some s p b l c off : arrived s p b l c -> 0 <= off -> off + 16 <= len b ->
  exists a, read_addr (payload b + off) s = Ok (a, s).
Proof using Type.
  intros Ha Ho Hl. destruct (ar_read32_some _ _ _ _ _ off Ha ltac:(lia) ltac:(lia)) as [x0 E0].
  destruct (ar_read32_some _ _ _ _ _ (off + 4) Ha ltac:(lia) ltac:(lia)) as [x1 E1].
  destruct (ar_read32_some _ _ _ _ _ (off + 8) Ha ltac:(lia) ltac:(lia)) as [x2 E2].
  destruct (ar_read32_some _ _ _ _ _ (off + 12) Ha ltac:(lia) ltac:(lia)) as [x3 E3]. rewrite !Z.add_assoc in *.
  exists (IP6_ADDR x0 x1 x2 x3). unfold read_addr. rewrite (io_bind_ok _ _ _ _ _ E0), (io_bind_ok _ _ _ _ _ E1).
  by rewrite (io_bind_ok _ _ _ _ _ E2), (io_bind_ok _ _ _ _ _ E3).
Qed.

(* ------------------------------------------------------------------ *)
(** * Messages from beyond the link *)

(** The hop limit of the packet being received. *)
Definition hop_limit_is s (h : Z) : Prop :=
  bytes (n_heap s) !! (current_ip6_header (ip_data (lower s)) + IP6H_hoplim) = Some h.

Lemma current_hoplim_ok s h : hop_limit_is s h -> current_hoplim s = Ok (h, s).
Proof using Type. intros Hh. unfold current_hoplim. rewrite (io_bind_ok _ _ _ _ _ eq_refl). by apply read8_at. Qed.

Lemma na_off_link s p b l c inp h : arrived s p b l c -> hop_limit_is s h -> h <> ND6_HOPLIM -> na_input p inp s = Ok (Dropped, s).
Proof using Type.
  intros Ha Hh Hne. unfold na_input. rewrite (io_bind_ok _ _ _ _ _ (ar_pb _ _ _ _ _ Ha)).
  destruct (Z.ltb_spec (len b) SIZEOF_NA_HEADER) as [|Hl]; [done|]. unfold SIZEOF_NA_HEADER in Hl.
  destruct (ar_read_addr_some _ _ _ _ _ ND_target_address Ha ltac:(done) ltac:(unfold ND_target_address; lia)) as [a Ea].
  destruct (ar_read8_some _ _ _ _ _ ND_code Ha ltac:(unfold ND_code; lia)) as [k Ek].
  rewrite (io_bind_ok _ _ _ _ _ Ea), (io_bind_ok _ _ _ _ _ (current_hoplim_ok _ _ Hh)), (io_bind_ok _ _ _ _ _ Ek).
  by rewrite (proj2 (Z.eqb_neq _ _) Hne).
Qed.

Lemma ns_off_link s p b l c inp h : arrived s p b l c -> hop_limit_is s h -> h <> ND6_HOPLIM -> ns_input p inp s = Ok (Dropped, s).
Proof using Type.
  intros Ha Hh Hne. unfold ns_input. rewrite (io_bind_ok _ _ _ _ _ (ar_pb _ _ _ _ _ Ha)).
  destruct (Z.ltb_spec (len b) SIZEOF_NS_HEADER) as [|Hl]; [done|]. unfold SIZEOF_NS_HEADER in Hl.
  destruct (ar_read_addr_some _ _ _ _ _ ND_target_address Ha ltac:(done) ltac:(unfold ND_target_address; lia)) as [a Ea].
  destruct (ar_read8_some _ _ _ _ _ ND_code Ha ltac:(unfold ND_code; lia)) as [k Ek].
  rewrite (io_bind_ok _ _ _ _ _ Ea), (io_bind_ok _ _ _ _ _ (current_hoplim_ok _ _ Hh)), (io_bind_ok _ _ _ _ _ Ek).
  by rewrite (proj2 (Z.eqb_neq _ _) Hne).
Qed.

Lemma ra_off_link s p b l c inp h : arrived s p b l c -> hop_limit_is s h -> h <> ND6_HOPLIM -> ra_input p inp s = Ok (Dropped, s).
Proof using Type.
  intros Ha Hh Hne. unfold ra_input. rewrite (io_bind_ok _ _ _ _ _ (ar_pb _ _ _ _ _ Ha)).
  destruct (Z.ltb_spec (len b) SIZEOF_RA_HEADER) as [|Hl]; [done|]. unfold SIZEOF_RA_HEADER in Hl.
  destruct (ar_read8_some _ _ _ _ _ ND_code Ha ltac:(unfold ND_code; lia)) as [k Ek].
  rewrite (io_bind_ok _ _ _ (current_iphdr_src (ip_data (lower s))) s eq_refl).
  rewrite (io_bind_ok _ _ _ _ _ (current_hoplim_ok _ _ Hh)), (io_bind_ok _ _ _ _ _ Ek).
  by rewrite (proj2 (Z.eqb_neq _ _) Hne), orb_true_r.
Qed.

Lemma rd_off_link s p b l c inp h : arrived s p b l c -> hop_limit_is s h -> h <> ND6_HOPLIM -> rd_input p inp s = Ok (Dropped, s).
Proof using Type.
  intros Ha Hh Hne. unfold rd_input. rewrite (io_bind_ok _ _ _ _ _ (ar_pb _ _ _ _ _ Ha)).
  destruct (Z.ltb_spec (len b) SIZEOF_REDIRECT_HEADER) as [|Hl]; [done|]. unfold SIZEOF_REDIRECT_HEADER in Hl.
  destruct (ar_read_addr_some _ _ _ _ _ RD_destination_address Ha ltac:(done) ltac:(unfold RD_destination_address; lia)) as [a Ea].
  destruct (ar_read8_some _ _ _ _ _ ND_code Ha ltac:(unfold ND_code; lia)) as [k Ek].
  rewrite (io_bind_ok _ _ _ _ _ Ea), (io_bind_ok _ _ _ (current_iphdr_src (ip_data (lower s))) s eq_refl).
  rewrite (io_bind_ok _ _ _ _ _ (current_hoplim_ok _ _ Hh)), (io_bind_ok _ _ _ _ _ Ek).
  by rewrite (proj2 (Z.eqb_neq _ _) Hne), orb_true_r.
Qed.

(* ------------------------------------------------------------------ *)
(** * An advertisement that was asked for *)

(** The message: type, code, checksum, flags, target, and an option with the
    target's link-layer address. *)
Definition advertisement (k0 k1 flags : Z) (target : ip6_addr) (mac : list Z) : list Z :=
  [ICMP6_TYPE_NA; 0; k0; k1; flags; 0; 0; 0] ++ ip6_bytes target ++ [ND6_OPTION_TYPE_TARGET_LLADDR; 1] ++ mac.

Lemma advertisement_fields k0 k1 flags target mac : wf_ip6 target -> length mac = 6%nat ->
  let c := advertisement k0 k1 flags target mac in
  length c = 32%nat /\ take 16 (drop 8 c) = ip6_bytes target /\ c !! 25%nat = Some 1 /\ take 6 (drop 26 c) = mac.
Proof using Type.
  intros (w0 & w1 & w2 & w3 & -> & _)%ip6_addr_words Hm. unfold advertisement. rewrite ip6_bytes_words. by open_list mac 6.
Qed.

(** The entry once it is resolved. *)
Definition resolved (inp : Z) (mac : list Z) (rt : Z) (e : neighbor) : neighbor :=
  set_counter rt (set_state ND6_REACHABLE (set_nbr_netif inp (set_lladdr mac e))).
Definition with_neighbor (i : Z) (e : neighbor) s : st :=
  with_nd6 (set_neighbor_cache (<[Z.to_nat i := e]> (neighbor_cache (nd6 (lower s)))) (nd6 (lower s))) s.

Lemma with_neighbor_lookup i e0 e s : neighbor_cache (nd6 (lower s)) !! Z.to_nat i = Some e0 ->
  neighbor_cache (nd6 (lower (with_neighbor i e s))) !! Z.to_nat i = Some e.
Proof using Type. intros Hl. by apply list_lookup_insert_eq, (lookup_lt_Some _ _ e0). Qed.

Lemma with_neighbor_twice i e e' s : with_neighbor i e' (with_neighbor i e s) = with_neighbor i e' s.
Proof using Type. unfold with_neighbor. cbn. by rewrite list_insert_insert_eq. Qed.

Lemma upd_neighbor i e f s : 0 <= i -> neighbor_cache (nd6 (lower s)) !! Z.to_nat i = Some e ->
  upd_nbr i f s = Ok (tt, with_neighbor i (f e) s).
Proof using Type. apply upd_nbr_ok. Qed.

Lemma upd_neighbor_again i e0 e f s : 0 <= i -> neighbor_cache (nd6 (lower s)) !! Z.to_nat i = Some e0 ->
  upd_nbr i f (with_neighbor i e s) = Ok (tt, with_neighbor i (f e) s).
Proof using Type. intros Hi He. rewrite (upd_neighbor i e) by (done || by eapply with_neighbor_lookup). by rewrite with_neighbor_twice. Qed.

(** The option's address goes into the entry. *)
Lemma copy_lladdr_ok s p b l c inp n i e off mac : arrived s p b l c -> netifs (lower s) !! inp = Some n -> hwaddr_len n = 6 ->
  0 <= off -> off + 8 <= len b -> take 6 (drop (Z.to_nat (off + 2)) c) = mac -> length mac = 6%nat ->
  0 <= i -> neighbor_cache (nd6 (lower s)) !! Z.to_nat i = Some e -> length (lladdr e) = 6%nat ->
  copy_lladdr i (payload b + off) inp s = Ok (tt, with_neighbor i (set_lladdr mac e) s).
Proof using Type.
  intros Ha Hn Hh Ho Hl Hm Hlm Hi He Hle. unfold copy_lladdr, OPT_addr.
  rewrite (io_bind_ok _ _ _ n s) by (unfold get_netif, tries; by rewrite Hn). rewrite Hh, <- Z.add_assoc.
  rewrite (io_bind_ok _ _ _ mac s) by (rewrite (read_bytes_ok _ _ _ _ _ _ 6 Ha) by lia; by rewrite <- Hm).
  rewrite (io_bind_ok _ _ _ _ _ (get_nbr_ok s i e Hi He)).
  rewrite (io_bind_ok _ _ _ mac s); [by apply upd_neighbor|]. unfold tries, wr_block. cbn [Z.ltb Z.compare orb].
  rewrite (proj2 (Z.ltb_ge _ _)) by lia. cbn [mbind outcome_bind]. rewrite drop_ge by lia. simpl. by rewrite app_nil_r.
Qed.

(** The last steps of a computation, for those behind it. *)
Lemma bind_via {A B} (m : io st A) (k : io st unit) (f : A -> io st B) (x : A) s s' :
  m s = (_ ← k; mret x) s' -> (m ≫= f) s = (_ ← k; f x) s'.
Proof using Type.
  unfold mbind, io_bind. intros ->. by destruct (k s') as [[[] s2]|].
Qed.

Lemma na_resolves_ok s p b l k0 k1 flags target mac inp n i e :
  arrived s p b l (advertisement k0 k1 flags target mac) -> len b = 32 -> wf_ip6 target -> length mac = 6%nat ->
  hop_limit_is s ND6_HOPLIM -> ip6_addr_ismulticast target = false ->
  ip6_addr_ismulticast (current_iphdr_dest (ip_data (lower s))) = false ->
  netifs (lower s) !! inp = Some n -> hwaddr_len n = 6 ->
  find_neighbor target (neighbor_cache (nd6 (lower s))) = i -> 0 <= i ->
  neighbor_cache (nd6 (lower s)) !! Z.to_nat i = Some e -> length (lladdr e) = 6%nat ->
  state e = ND6_INCOMPLETE \/ Z.land flags ND6_FLAG_OVERRIDE <> 0 ->
  nd6_input p inp s =
    (_ ← io_when (negb (q e =? 0)) (nd6_send_q i); Udp.free p)
      (with_neighbor i (resolved inp mac (reachable_time (nd6 (lower s))) e) s).
Proof using Type.
  intros Ha Hl Ht Hm Hh Htm Hdm Hn Hhw Hf Hi He Hle Hupd.
  destruct (advertisement_fields k0 k1 flags target mac Ht Hm) as (_ & Hta & Hol & Hma).
  set (s1 := with_neighbor i (set_lladdr mac e) s). set (rt := reachable_time (nd6 (lower s))).
  assert (Hd : ip6_current_dest_addr s = Ok (current_iphdr_dest (ip_data (lower s)), s)) by done.
  assert (Ea : forall off x, 0 <= off < 32 -> advertisement k0 k1 flags target mac !! Z.to_nat off = Some x ->
    read8 (payload b + off) s = Ok (x, s)) by (intros off x Hoff; apply (ar_read8 _ _ _ _ _ _ _ Ha); lia).
  unfold nd6_input. rewrite (io_bind_ok _ _ _ _ _ (ar_pb _ _ _ _ _ Ha)).
  rewrite (io_bind_ok _ _ _ ICMP6_TYPE_NA s) by (rewrite <- (Ea 0 _ ltac:(lia) eq_refl); f_equal; lia). rewrite Z.eqb_refl.
  set (s2 := with_neighbor i (resolved inp mac rt e) s).
  enough (E : na_input p inp s = (_ ← io_when (negb (q e =? 0)) (nd6_send_q i); mret Processed) s2).
  { rewrite (bind_via _ _ _ Processed s s2 E). done. }
  unfold na_input, SIZEOF_NA_HEADER, ND_target_address, ND_code.
  rewrite (io_bind_ok _ _ _ _ _ (ar_pb _ _ _ _ _ Ha)), Hl. cbn [Z.ltb Z.compare Pos.compare Pos.compare_cont].
  rewrite (io_bind_ok _ _ _ _ _ (ar_read_addr _ _ _ _ _ 8 target Ha ltac:(lia) ltac:(lia) Ht Hta)).
  rewrite (io_bind_ok _ _ _ _ _ (current_hoplim_ok _ _ Hh)), (io_bind_ok _ _ _ _ _ (Ea 1 _ ltac:(lia) eq_refl)), Htm.
  cbn [Z.eqb Pos.eqb ND6_HOPLIM negb orb]. rewrite (io_bind_ok _ _ _ _ _ Hd), Hdm.
  unfold na_solicited. rewrite (io_bind_ok _ _ _ i s) by (by rewrite <- Hf).
  rewrite (proj2 (Z.ltb_ge i 0)) by done. unfold ND_word, SIZEOF_NA_HEADER.
  rewrite (io_bind_ok _ _ _ _ _ (Ea 4 _ ltac:(lia) eq_refl)), (io_bind_ok _ _ _ _ _ (get_nbr_ok s i e Hi He)).
  assert (Eu : negb (Z.land flags ND6_FLAG_OVERRIDE =? 0) || (state e =? ND6_INCOMPLETE) = true).
  { destruct Hupd as [-> | Hfl]; [by rewrite orb_true_r|by rewrite (proj2 (Z.eqb_neq _ _) Hfl)]. }
  rewrite Eu. cbn [io_when].
  rewrite (io_bind_ok _ _ _ true s).
  2: { unfold opt_fits, OPT_length. rewrite Hl, (proj2 (Z.ltb_ge 32 (24 + 2))) by lia.
       replace (payload b + 24 + 1) with (payload b + 25) by lia. by rewrite (io_bind_ok _ _ _ _ _ (Ea 25 _ ltac:(lia) Hol)). }
  cbn [negb].
  rewrite (io_bind_ok _ _ _ tt s1) by (apply (copy_lladdr_ok s p b l _ inp n i e 24 mac Ha); try done; rewrite Hl; lia).
  rewrite (io_bind_ok _ _ _ (nd6 (lower s1)) s1 eq_refl). unfold s1.
  rewrite (io_bind_ok _ _ _ _ _ (upd_neighbor_again i e _ _ s Hi He)), (io_bind_ok _ _ _ _ _ (upd_neighbor_again i e _ _ s Hi He)).
  rewrite (io_bind_ok _ _ _ _ _ (upd_neighbor_again i e _ _ s Hi He)).
  erewrite io_bind_ok; [|apply (get_nbr_ok _ i _ Hi), (with_neighbor_lookup i e), He].
  done.
Qed.

(** The entry with the first packet off its queue. *)
Definition waiting (s : st) (i a : Z) (x : nd6_q_entry) (w : pbuf) l c (dst : ip6_addr) : Prop :=
  q_entries (lower s) !! a = Some x /\ arrived s (q_p x) w l c /\ IP6_HLEN <= len w /\ wf_ip6 dst /\
  take 16 (drop 24 c) = ip6_bytes dst.

Lemma send_q_first s i e a x w l c dst : 0 <= i < LWIP_ND6_NUM_NEIGHBORS ->
  neighbor_cache (nd6 (lower s)) !! Z.to_nat i = Some e -> q e = a -> a <> 0 -> waiting s i a x w l c dst ->
  nd6_send_q i s =
    (_ ← output_ip6 (nbr_netif e) (q_p x) dst; _ ← Udp.free (q_p x); _ ← memp_free_ND6_QUEUE a; _ ← count_queue (-1);
     send_q_loop (stdpp.base.size (q_entries (lower s))) i) (with_neighbor i (set_q (q_next x) e) s).
Proof using Type.
  intros Hi He Hq Ha (Hx & Har & Hl & Hd & Hc). unfold nd6_send_q.
  rewrite (proj2 (Z.ltb_ge _ _)), (proj2 (Z.leb_gt _ _)) by lia. cbn [orb].
  rewrite (io_bind_ok _ _ _ _ _ (eq_refl : queue_fuel s = Ok (S (stdpp.base.size (q_entries (lower s))), s))).
  cbn [send_q_loop]. rewrite (io_bind_ok _ _ _ _ _ (get_nbr_ok s i e ltac:(lia) He)), Hq, (proj2 (Z.eqb_neq a 0)) by done.
  rewrite (io_bind_ok _ _ _ x s) by (unfold get_qe, tries; by rewrite Hx).
  rewrite (io_bind_ok _ _ _ _ _ (upd_neighbor i e _ s ltac:(lia) He)).
  set (s1 := with_neighbor i (set_q (q_next x) e) s). assert (Ha1 : arrived s1 (q_p x) w l c) by by destruct Har.
  rewrite (io_bind_ok _ _ _ _ _ (ar_pb _ _ _ _ _ Ha1)). unfold IP6H_dest.
  rewrite (io_bind_ok _ _ _ _ _ (ar_read_addr _ _ _ _ _ 24 dst Ha1 ltac:(lia) ltac:(unfold IP6_HLEN in *; lia) Hd Hc)).
  assert (He1 : neighbor_cache (nd6 (lower s1)) !! Z.to_nat i = Some (set_q (q_next x) e)) by by eapply with_neighbor_lookup.
  by rewrite (io_bind_ok _ _ _ _ _ (get_nbr_ok s1 i _ ltac:(lia) He1)).
Qed.
End Messages.

(* ------------------------------------------------------------------ *)
(** * Properties *)

(** C23: Neighbour discovery messages that a router has forwarded change
    nothing: an advertisement, solicitation, router advertisement or redirect
    whose hop limit is not 255, with any content and of any length, is freed
    and the caches, addresses and queues stay as they are. *)
Theorem nd6_off_link_dropped {PP RP HP UP QP MP DV : Type} `{PPO : PoolOps PP} `{RPO : PoolOps RP} `{HPO : HeapOps HP}
    `{QPO : PoolOps QP} `{MPO : PoolOps MP} (HK : Hooks (net PP RP HP UP (ipst QP MP DV))) (s : net PP RP HP UP (ipst QP MP DV)) p b l c inp t h :
  arrived s p b l c -> c !! 0%nat = Some t -> 0 < len b ->
  t = ICMP6_TYPE_NA \/ t = ICMP6_TYPE_NS \/ t = ICMP6_TYPE_RA \/ t = ICMP6_TYPE_RD ->
  hop_limit_is s h -> h <> ND6_HOPLIM ->
  nd6_input p inp s = Udp.free p s.
Proof.
  intros Ha Ht Hl Htype Hh Hne. unfold nd6_input. rewrite (io_bind_ok _ _ _ _ _ (ar_pb _ _ _ _ _ Ha)).
  rewrite (io_bind_ok _ _ _ t s).
  - rewrite (io_bind_ok _ _ _ Dropped s); [done|]. destruct Htype as [->|[->|[->| ->]]]; cbn [Z.eqb Pos.eqb ICMP6_TYPE_NA
      ICMP6_TYPE_NS ICMP6_TYPE_RA ICMP6_TYPE_RD].
    + by apply (na_off_link s p b l c inp h).
    + by apply (ns_off_link s p b l c inp h).
    + by apply (ra_off_link s p b l c inp h).
    + by apply (rd_off_link s p b l c inp h).
  - rewrite <- (Z.add_0_r (payload b)). by apply (ar_read8 _ _ _ _ _ 0 t Ha).
Qed.

(** C18: A solicited advertisement with the address option, for a neighbour
    that is being resolved (or, with the override flag, for any known one),
    makes its entry REACHABLE with the address from the option, and changes
    nothing else before the packets that wait for this neighbour are sent:
    the first of them comes off the queue and goes to the interface for the
    destination in its header, is freed with its entry, and the loop goes on
    with the next. Without packets waiting the entry is all that changes. Then
    the message is freed. From the moment the entry is REACHABLE, a packet to a
    destination behind that neighbour goes straight to the new address. *)
Theorem nd6_advertisement_resolves {PP RP HP UP QP MP DV : Type} `{PPO : PoolOps PP} `{RPO : PoolOps RP} `{HPO : HeapOps HP}
    `{QPO : PoolOps QP} `{MPO : PoolOps MP} (HK : Hooks (net PP RP HP UP (ipst QP MP DV))) (s : net PP RP HP UP (ipst QP MP DV))
    p b l k0 k1 flags target mac inp n i e :
  arrived s p b l (advertisement k0 k1 flags target mac) -> len b = 32 -> wf_ip6 target -> length mac = 6%nat ->
  hop_limit_is s ND6_HOPLIM -> ip6_addr_ismulticast target = false ->
  ip6_addr_ismulticast (current_iphdr_dest (ip_data (lower s))) = false ->
  netifs (lower s) !! inp = Some n -> hwaddr_len n = 6 ->
  find_neighbor target (neighbor_cache (nd6 (lower s))) = i -> 0 <= i < LWIP_ND6_NUM_NEIGHBORS ->
  neighbor_cache (nd6 (lower s)) !! Z.to_nat i = Some e -> length (lladdr e) = 6%nat ->
  state e = ND6_INCOMPLETE \/ Z.land flags ND6_FLAG_OVERRIDE <> 0 ->
  let e' := resolved inp mac (reachable_time (nd6 (lower s))) e in
  exists s', s' = with_neighbor i e' s /\
    nd6_input p inp s = (_ ← io_when (negb (q e =? 0)) (nd6_send_q i); Udp.free p) s' /\
    (q e = 0 -> nd6_input p inp s = Udp.free p s') /\
    (forall x w lw cw dst, q e <> 0 -> waiting s i (q e) x w lw cw dst ->
      nd6_send_q i s' =
        (_ ← output_ip6 inp (q_p x) dst; _ ← Udp.free (q_p x); _ ← memp_free_ND6_QUEUE (q e); _ ← count_queue (-1);
         send_q_loop (stdpp.base.size (q_entries (lower s))) i) (with_neighbor i (set_q (q_next x) e') s)) /\
    forall dst d, ip6_addr_ismulticast dst = false ->
      destination_cache (nd6 (lower s)) !! Z.to_nat (nd6_cached_destination_index (nd6 (lower s))) = Some d ->
      ip6_addr_eq dst (destination_addr d) = true -> cached_neighbor_idx d = i ->
      ip6_addr_eq (next_hop_addr d) (next_hop_address e) = true ->
      next_mac (nd6 (lower s')) dst = Some mac /\
      forall nxt, next_mac (nd6 (lower (with_neighbor i (set_q nxt e') s))) dst = Some mac.
Proof.
  intros Ha Hl Ht Hm Hh Htm Hdm Hn Hhw Hf Hi He Hle Hupd e'. set (s' := with_neighbor i e' s). exists s'.
  pose proof (na_resolves_ok s p b l k0 k1 flags target mac inp n i e Ha Hl Ht Hm Hh Htm Hdm Hn Hhw Hf ltac:(lia) He Hle Hupd) as E.
  split; [done|]. split; [exact E|]. split; [intros Hq; rewrite E, Hq; done|]. split.
  - intros x w lw cw dst Hq (Hx & Har & Hw & Hd & Hc).
    rewrite (send_q_first s' i e' (q e) x w lw cw dst Hi); [|by eapply with_neighbor_lookup|done|done|by destruct Har].
    unfold s'. rewrite with_neighbor_twice. done.
  - intros dst d Hdst Hd Edst Eidx Ehop.
    enough (H : forall e2, lladdr e2 = mac -> state e2 = ND6_REACHABLE -> next_hop_address e2 = next_hop_address e ->
      next_mac (nd6 (lower (with_neighbor i e2 s))) dst = Some mac) by (split; [|intros nxt]; by apply H).
    intros e2 H1 H2 H3. unfold next_mac, cached_hop. rewrite Hdst.
    change (destination_cache (nd6 (lower (with_neighbor i e2 s)))) with (destination_cache (nd6 (lower s))).
    change (nd6_cached_destination_index (nd6 (lower (with_neighbor i e2 s)))) with (nd6_cached_destination_index (nd6 (lower s))).
    rewrite Hd. cbn [mbind option_bind]. rewrite Eidx, (with_neighbor_lookup i e _ _ He). cbn [mbind option_bind].
    rewrite Edst, H3, Ehop, H2. cbn. by rewrite H1.
Qed.

(** A node answers a query in time: the report [mld6_delayed_report]
    schedules for a group is due after at least one tick and no later than
    the query's maximum response delay (one tick when that is shorter), it
    never postpones a report that was due earlier, and the group is then
    waiting to report. *)
Theorem mld6_report_in_time {PP RP HP UP QP MP DV : Type} (HK : Hooks (net PP RP HP UP (ipst QP MP DV)))
    (s : net PP RP HP UP (ipst QP MP DV)) group g maxresp :
  mld_groups (lower s) !! group = Some g -> is_u16 maxresp -> 0 <= fst (rand (seed (lower s))) ->
  group_state g = MLD6_GROUP_IDLE_MEMBER \/ (group_state g = MLD6_GROUP_DELAYING_MEMBER /\ 0 <= timer g) ->
  exists s' g', mld6_delayed_report group maxresp s = Ok (tt, s') /\ mld_groups (lower s') = <[group := g']> (mld_groups (lower s)) /\
    group_state g' = MLD6_GROUP_DELAYING_MEMBER /\ 1 <= timer g' /\
    timer g' * MLD6_TMR_INTERVAL <= Z.max MLD6_TMR_INTERVAL maxresp /\
    (group_state g = MLD6_GROUP_DELAYING_MEMBER -> timer g <> 0 -> timer g' <= timer g).
Proof.
  intros Hg Hm Hr Hst. set (r := fst (rand (seed (lower s)))) in *. set (t := mld6_random_ticks (mld6_ticks maxresp) r).
  assert (Ht : 1 <= t /\ t * 100 <= Z.max 100 maxresp /\ t < 65536).
  { unfold t, mld6_random_ticks, mld6_ticks, MLD6_TMR_INTERVAL in *. rewrite (u16_small (maxresp / 100)) by ulia.
    destruct (Z.eqb_spec (maxresp / 100) 0) as [E0|E0].
    - rewrite Z.rem_1_r. change (u16 0 =? 0) with true. cbv iota. lia.
    - pose proof (Z.rem_bound_pos r (maxresp / 100) Hr ltac:(ulia)). rewrite u16_small by ulia.
      destruct (Z.eqb_spec (Z.rem r (maxresp / 100)) 0); ulia. }
  set (s1 := with_lower (set_seed (snd (rand (seed (lower s))))) s).
  exists (with_lower (set_groups <[group := mld6_schedule t g]>) s1), (mld6_schedule t g). split_and!; [|done|..].
  - unfold mld6_delayed_report. rewrite (io_bind_ok _ _ _ r s1 eq_refl). unfold upd_group.
    rewrite (io_bind_ok _ _ _ g s1); [done|]. unfold get_group, tries. change (mld_groups (lower s1)) with (mld_groups (lower s)). by rewrite Hg.
  - unfold mld6_schedule. destruct Hst as [Eg|[Eg Hpos]]; rewrite Eg; [done|]. cbn.
    destruct (_ || _); [done|exact Eg].
  - unfold mld6_schedule. destruct Hst as [->|[-> Hpos]]; cbn; [rewrite u16_small; ulia|].
    destruct (Z.eqb_spec (timer g) 0); cbn; [rewrite u16_small; ulia|]. destruct (Z.ltb_spec t (timer g)); cbn; [rewrite u16_small; ulia|lia].
  - unfold mld6_schedule, MLD6_TMR_INTERVAL. destruct Hst as [->|[-> Hpos]]; cbn; [rewrite u16_small; ulia|].
    destruct (Z.eqb_spec (timer g) 0); cbn; [rewrite u16_small; ulia|]. destruct (Z.ltb_spec t (timer g)); cbn; [rewrite u16_small; ulia|lia].
  - intros Ed Hne. unfold mld6_schedule. rewrite Ed. cbn. rewrite (proj2 (Z.eqb_neq _ _) Hne). cbn.
    destruct (Z.ltb_spec t (timer g)); cbn; [rewrite u16_small; ulia|lia].
Qed.

(* ------------------------------------------------------------------ *)
(** * Witnesses *)

(** A board in the middle of receiving a message of [c] with hop limit [h],
    its header at 0x200. *)
Definition message_buf (n : Z) : pbuf := mk_pbuf 0 0x300 n n 0x41 0 1 0.
Definition receiving_nd (v : nd6_vars) (h : Z) (dst : ip6_addr) (c : list Z) : board_st :=
  board_with 0x30 (message_buf (zlen c)) (at_address 0x300 c ∪ at_address 0x200 (replicate 7 0 ++ [h]))
    (set_ip_data (fun _ => arrived_globals 1 0x200 40 peer dst) (board_ip (board_if near_mac node) v)).
Definition boards : Hooks board_st := board wire no_filter no_rand.

Lemma receiving_arrived v h dst c : is_u16 (zlen c) -> load_bytes (bytes (n_heap (receiving_nd v h dst c))) 0x300 (length c) = Ok c ->
  arrived (receiving_nd v h dst c) 0x30 (message_buf (zlen c)) [] c.
Proof.
  intros Hl Hc. split.
  - by split_and!.
  - split; [cbn; lia|]. split; [|done]. by split_and!.
  - exists c, []. split; [by rewrite app_nil_r|]. split; [|done]. cbn. by rewrite Nat2Z.id.
Qed.

(** A router advertisement of no lifetime with hop limit 64. *)
Definition stray : list Z := ICMP6_TYPE_RA :: replicate 15 0.

Lemma nd6_off_link_dropped_witness :
  exists s', nd6_input (HK := boards) 0x30 1 (receiving_nd (knows peer far_mac) 64 node stray) = Ok (tt, s') /\
    nd6 (lower s') = knows peer far_mac.
Proof.
  pose proof (nd6_off_link_dropped boards (receiving_nd (knows peer far_mac) 64 node stray) 0x30 (message_buf 16) [] stray 1
    ICMP6_TYPE_RA 64 (receiving_arrived _ _ _ stray ltac:(done) eq_refl) eq_refl ltac:(reflexivity) ltac:(by right; right; left)
    ltac:(vm_compute; reflexivity) ltac:(discriminate)) as E.
  destruct (Udp.free 0x30 (receiving_nd (knows peer far_mac) 64 node stray)) as [[[] s']|f] eqn:Ef; [|by vm_compute in Ef].
  exists s'. split; [exact E|]. assert (Hs : match Udp.free 0x30 (receiving_nd (knows peer far_mac) 64 node stray) with
    Ok (_, s') => nd6 (lower s') = knows peer far_mac | _ => False end) by (vm_compute; reflexivity). by rewrite Ef in Hs.
Defined.

(** The neighbour is known by its address only, and a packet for it waits. *)
Definition asking : nd6_vars :=
  set_neighbor_cache (mk_neighbor peer 1 (replicate 6 0) 0x50008 ND6_INCOMPLETE 0 1 :: replicate 9 no_nbr) (knows peer far_mac).
Definition answer : list Z := advertisement 0 0 0x60 peer far_mac.
Definition queued : list Z := ip6_header node peer 255 0 17 0.
Definition queued_buf : pbuf := mk_pbuf 0 0x840 40 40 0x80 0 2 0.
Definition queue_pool : pool := match pool_malloc (memp_init_pool (mk_desc 8 2 0x50001) (mk_pool 0 ∅)) with Ok (_, ps) => ps | _ => mk_pool 0 ∅ end.
Definition asked_board : board_st :=
  let s := receiving_nd asking 255 node answer in let v := lower s in
  mk_net (mk_pheap (mk_pool 0 ∅) (mk_pool 0 ∅) (mk_ram 0 ∅ 0) {[0x30 := message_buf 32; 0x800 := queued_buf]}
      (bytes (n_heap s) ∪ at_address 0x820 (replicate 32 0 ++ queued)))
    (udp s) (udp_pool s)
    (mk_ipst (netifs v) (netif_default v) (ip_data v) (nd6 v) {[0x50008 := mk_qe 0 0x800]} (mld_groups v) queue_pool (mld_pool v) (seed v) (nic v)).

Lemma asked_arrived : arrived asked_board 0x30 (message_buf 32) [] answer /\ arrived asked_board 0x800 queued_buf [] queued.
Proof.
  split.
  - split; [by split_and!|by vm_compute|]. exists answer, []. by split_and!.
  - split; [by split_and!|by vm_compute|]. exists queued, []. by split_and!.
Qed.

(** The packet is sent, and nothing waits any more. *)
Lemma nd6_advertisement_resolves_witness :
  exists s', nd6_input (HK := boards) 0x30 1 asked_board =
      (_ ← nd6_send_q (HK := boards) 0; Udp.free 0x30) s' /\
    nd6_send_q (HK := boards) 0 s' =
      (_ ← output_ip6 (Hooks := boards) 1 0x800 peer; _ ← Udp.free 0x800; _ ← memp_free_ND6_QUEUE 0x50008; _ ← count_queue (-1);
       send_q_loop (HK := boards) 1 0)
        (with_neighbor 0 (mk_neighbor peer 1 far_mac 0 ND6_REACHABLE 0 30000) asked_board) /\
    next_mac asking peer = None /\ next_mac (nd6 (lower s')) peer = Some far_mac /\
    is_ok (nd6_input (HK := boards) 0x30 1 asked_board) = true.
Proof.
  destruct peer_ok as [Hn Hp]. destruct asked_arrived as [Ha Hw].
  destruct (nd6_advertisement_resolves boards asked_board 0x30 (message_buf 32) [] 0 0 0x60 peer far_mac
    1 (board_if near_mac node) 0 (mk_neighbor peer 1 (replicate 6 0) 0x50008 ND6_INCOMPLETE 0 1)
    Ha eq_refl Hp eq_refl
    ltac:(vm_compute; reflexivity) ltac:(vm_compute; reflexivity) ltac:(vm_compute; reflexivity) eq_refl eq_refl
    ltac:(vm_compute; reflexivity) ltac:(unfold LWIP_ND6_NUM_NEIGHBORS; lia) eq_refl eq_refl ltac:(by left))
    as (s' & _ & E & _ & Hfirst & Hmac).
  exists s'. split; [exact E|]. split.
  { apply (Hfirst (mk_qe 0 0x800) queued_buf [] queued peer); [discriminate|].
    split; [reflexivity|]. split; [exact Hw|]. split; [vm_compute; discriminate|]. split; [exact Hp|]. vm_compute. reflexivity. }
  split; [vm_compute; reflexivity|]. split; [|vm_compute; reflexivity].
  apply (Hmac peer (mk_destination peer peer 1500 0 3)); vm_compute; reflexivity.
Defined.

Definition member : mld_group := mk_group 0 group 0 MLD6_GROUP_DELAYING_MEMBER 7 1.
Definition in_group : board_st :=
  board_with 0x30 far_buf ∅ (set_groups <[0x70 := member]> (board_ip (board_if near_mac node) (knows peer far_mac))).

Lemma mld6_report_in_time_witness :
  exists s' g', mld6_delayed_report (HK := board wire no_filter (fun x => (123, x))) 0x70 400 in_group = Ok (tt, s') /\
    mld_groups (lower s') !! 0x70 = Some g' /\ 1 <= timer g' <= 4.
Proof.
  destruct (mld6_report_in_time (board wire no_filter (fun x => (123, x))) in_group 0x70 member 400 eq_refl ltac:(done)
    ltac:(vm_compute; discriminate) ltac:(right; done)) as (s' & g' & E & Hg & _ & H1 & H2 & _).
  exists s', g'. split; [exact E|]. rewrite Hg. split; [apply lookup_insert_eq|]. unfold MLD6_TMR_INTERVAL in H2. lia.
Defined.
