(* ===== verification/EchoProps.v ===== *)
(** Echo requests and their answers: [icmp6_input] of core/ipv6/icmp6.c. *)

From Stdlib Require Import ZArith Lia.
From stdpp Require Import base list numbers gmap sets.
From S2P Require Import Prelude Mmio Mem MemProofs Memp Pbuf PbufChain PbufHeaders PbufAlloc PbufCopy Ip6Addr Chksum Udp.
From S2P Require Import UdpPackets Netif Ip6Out Mld6 Addrs Nd6 Nd6In Icmp6 Ethernet Stack Ip6Packets Ip6Receive StackProps Nd6Props.

Open Scope Z_scope.

(** An ICMPv6 message of type [ty] with its checksum over the pseudo-header. *)
Definition icmp6_message (src dst : ip6_addr) (ty code : Z) (rest : list Z) : list Z :=
  with_field [ty; code] rest
    (rfc1071 (pseudo_header src dst (zlen rest + 4) IP6_NEXTH_ICMP6 ++ with_field [ty; code] rest 0)).

(** It verifies. *)
Lemma icmp6_message_ok src dst ty code rest : wf_ip6 src -> wf_ip6 dst -> is_u8 ty -> is_u8 code -> Forall is_u8 rest ->
  zlen rest + 4 < 65536 ->
  Forall is_u8 (icmp6_message src dst ty code rest) /\ zlen (icmp6_message src dst ty code rest) = zlen rest + 4 /\
  rfc1071 (pseudo_header src dst (zlen rest + 4) IP6_NEXTH_ICMP6 ++ icmp6_message src dst ty code rest) = 0.
Proof.
  intros Hs Hd Hty Hco Hr Hlt. assert (Hn : is_u16 (zlen rest + 4)) by (unfold is_u16; lia).
  destruct (pseudo_header_ok src dst (zlen rest + 4) IP6_NEXTH_ICMP6 Hs Hd Hn ltac:(done)) as (Hh & Ho & _).
  assert (H1 : Forall is_u8 [ty; code]) by (rewrite !Forall_cons_iff; by split_and!).
  pose proof (wire_rfc1071 _ [ty; code] rest Hh Ho H1 eq_refl Hr) as [Hf E].
  unfold icmp6_message. set (ck := rfc1071 (_ ++ with_field _ _ 0)) in *.
  assert (Hck : is_u16 ck).
  { apply rfc1071_u16, Forall_app. split; [done|]. by apply (with_field_sum [ty; code] rest 0). }
  split; [|split].
  - by apply (with_field_sum [ty; code] rest ck).
  - unfold with_field. rewrite !length_app. cbn [length]. lia.
  - destruct (decide (ck = 0)) as [E0|Hne]; [by rewrite E0 at 1|].
    unfold wire_chksum in E. by rewrite (proj2 (Z.eqb_neq ck 0)) in E.
Qed.

Section Echo.
Context {PP RP HP UP QP MP DV : Type} `{PPO : PoolOps PP} `{RPO : PoolOps RP} `{HPO : HeapOps HP}
  `{PLP : !PoolLaws PP} `{PLR : !PoolLaws RP} `{HLH : !HeapLaws HP} `{QPO : PoolOps QP} `{MPO : PoolOps MP}.
Abbreviation st := (net PP RP HP UP (ipst QP MP DV)).
Context {HK : Hooks st}.
Implicit Types s : st.

(** The checksum over a packet. *)
Lemma ip6_chksum_ok s p b l c src dst proto n : arrived s p b l c -> Forall is_u8 c -> is_u8 proto -> is_u16 n ->
  wf_ip6 src -> wf_ip6 dst ->
  ip6_chksum p proto n src dst s = Ok (rfc1071 (pseudo_header src dst n proto ++ c), s).
Proof using Type.
  intros [Hch Hp Hc] Hu Hpr Hn Hs Hd. apply on_pbufs_same. by apply (pseudo_ok (n_heap s) p ((p, b) :: l)).
Qed.

Lemma outgoing_arrived s p b l c n : outgoing s p b l c n -> arrived s p b l c.
Proof using Type. intros [Hch Hp Hc _ _]. by split. Qed.

(** Type and checksum of the reply. *)
Lemma echo_fill_ok s q b ty code k0 k1 rest n src dst : outgoing s q b [] (ty :: code :: k0 :: k1 :: rest) n -> is_u8 code ->
  Forall is_u8 rest -> wf_ip6 src -> wf_ip6 dst ->
  exists s', echo_fill q src dst s = Ok (tt, s') /\ outgoing s' q b [] (icmp6_message src dst ICMP6_TYPE_EREP code rest) n /\
    same_stack s s'.
Proof using Type.
  intros Ho Hco Hr Hs Hd. destruct (og_length _ _ _ _ _ _ Ho) as (Et & Hlb & Htb).
  assert (El : len b = tot_len b) by (destruct Ho as [_ (E & _) _ _ _]; cbn in E; lia). cbn [length] in Et.
  destruct (put_block s q b [] _ n 0 [u8 ICMP6_TYPE_EREP] Ho ltac:(lia) ltac:(cbn; lia)) as (s1 & E1 & O1 & T1).
  destruct (put_half s1 q b [] _ n 2 0 O1 ltac:(lia) ltac:(lia) ltac:(done)) as (s2 & E2 & O2 & T2).
  assert (O2' : outgoing s2 q b [] (with_field [ICMP6_TYPE_EREP; code] rest 0) n) by exact O2. clear O2.
  assert (Hn : is_u16 (zlen rest + 4)) by (unfold is_u16; lia).
  assert (Hu : Forall is_u8 (with_field [ICMP6_TYPE_EREP; code] rest 0)).
  { apply (with_field_sum [ICMP6_TYPE_EREP; code] rest 0); try done. rewrite !Forall_cons_iff. by split_and!. }
  destruct (pseudo_header_ok src dst (zlen rest + 4) IP6_NEXTH_ICMP6 Hs Hd Hn ltac:(done)) as (Hh & Hodd & _).
  pose proof (ip6_chksum_ok s2 q b [] _ src dst IP6_NEXTH_ICMP6 (zlen rest + 4) (outgoing_arrived _ _ _ _ _ _ O2') Hu ltac:(done) Hn Hs Hd) as E3.
  set (ck := rfc1071 _) in E3.
  assert (Hck : is_u16 ck) by (by apply rfc1071_u16, Forall_app).
  destruct (put_half s2 q b [] _ n 2 ck O2' ltac:(lia) ltac:(lia) Hck) as (s3 & E4 & O3 & T3).
  exists s3. split; [|split; [exact O3|by eapply same_stack_trans; [|eapply same_stack_trans]]].
  unfold echo_fill, ICMPH_type, ICMPH_chksum. rewrite (io_bind_ok _ _ _ _ _ (og_pb _ _ _ _ _ _ Ho)).
  rewrite (io_bind_ok _ _ _ _ _ E1), (io_bind_ok _ _ _ _ _ E2).
  replace (tot_len b) with (zlen rest + 4) by lia. by rewrite (io_bind_ok _ _ _ _ _ E3).
Qed.

(** The source of the reply to a request from [src] to [dst]. *)
Definition reply_source (n : netif) (src dst : ip6_addr) : option ip6_addr :=
  if ip6_addr_ismulticast dst then select_source_address n src else Some dst.

Lemma echo_source_ok s inp n : netifs (lower s) !! inp = Some n ->
  echo_source inp s = Ok (reply_source n (current_iphdr_src (ip_data (lower s))) (current_iphdr_dest (ip_data (lower s))), s).
Proof using Type.
  intros Hn. unfold echo_source, reply_source. rewrite (io_bind_ok _ _ _ (ip_data (lower s)) s eq_refl).
  destruct (ip6_addr_ismulticast _); [|done]. unfold ip6_select_source.
  by rewrite (io_bind_ok _ _ _ n s) by (unfold get_netif, tries; by rewrite Hn).
Qed.

(** A request that can be answered. *)
Record request s (p : Z) (b : pbuf) l (ty code k0 k1 : Z) (rest : list Z) (inp : Z) (src dst from : ip6_addr) lp lr bl : Prop := {
  rq_arrived : arrived s p b l (ty :: code :: k0 :: k1 :: rest);
  rq_bytes : Forall is_u8 (ty :: code :: k0 :: k1 :: rest);
  rq_room : zlen rest + 44 < 65536;
  rq_tail : no_empty_tail ((p, b) :: l);
  rq_memory : pheap_inv (n_heap s) lp lr bl;
  rq_fresh : fresh_memory (n_heap s) ((p, b) :: l) (ram_size (u16 PBUF_IP) (zlen rest + 4));
  rq_from : exists n, netifs (lower s) !! inp = Some n /\ reply_source n src dst = Some from;
  rq_globals : current_iphdr_src (ip_data (lower s)) = src /\ current_iphdr_dest (ip_data (lower s)) = dst;
  rq_addresses : wf_ip6 src /\ wf_ip6 dst /\ wf_ip6 from /\ ip6_addr_isany_val from = false
}.

(** The answer goes out, or there is no memory for it. *)
Lemma echo_reply_ok s p b l ty code k0 k1 rest inp src dst from lp lr bl :
  request s p b l ty code k0 k1 rest inp src dst from lp lr bl ->
  exists r s1, pbuf_alloc PBUF_IP (zlen rest + 4) PBUF_RAM (n_heap s) = Ok (r, n_heap s1) /\ same_stack s s1 /\
    match r with
    | None => echo_reply p inp s = Ok (tt, s1)
    | Some q => exists s2 b2, echo_reply p inp s = (_ ← output_ip6 inp q src; Udp.free q) s2 /\ same_stack s s2 /\
        outgoing s2 q b2 [] (ip6_header from src LWIP_ICMP6_HL 0 IP6_NEXTH_ICMP6 (zlen rest + 4) ++
          icmp6_message from src ICMP6_TYPE_EREP code rest) 14 /\ ref b2 = 1
    end.
Proof using Type*.
  intros [Ha Hu Hlt Htl Hinv Hfresh (n & Hn & Hfrom) [Es Ed] (Hs & Hd & Hf & Hany)]. set (c := ty :: code :: k0 :: k1 :: rest) in *.
  pose proof Ha as [Hch Hp Hc]. destruct (ar_length _ _ _ _ _ Ha) as (_ & Et & _).
  assert (Hzc : zlen c = zlen rest + 4) by (unfold c; cbn [length]; lia). rewrite <- Hzc in Hfresh |- *.
  assert (Hcode : is_u8 code /\ Forall is_u8 rest).
  { unfold c in Hu. rewrite !Forall_cons_iff in Hu. by destruct_and!. }
  destruct Hcode as [Hco Hr].
  destruct (alloc_copy_ok (n_heap s) lp lr bl p _ c PBUF_IP Hinv Hch Hp Hc ltac:(done) Htl Hfresh) as (r & h1 & E1 & Hcase).
  exists r, (with_heap h1 s). split; [exact E1|]. split; [done|].
  assert (Ep : echo_reply p inp s = (match r with
    | None => mret tt
    | Some r =>
        err ← on_pbufs (pb_copy r p);
        if negb (err =? ERR_OK) then Udp.free r
        else
          reply_src ← echo_source inp;
          match reply_src with
          | None => Udp.free r
          | Some reply_src =>
              reply_dest ← ip6_current_src_addr;
              _ ← echo_fill r reply_src reply_dest;
              _ ← ip6_output_if r (Some reply_src) (Some reply_dest) LWIP_ICMP6_HL 0 IP6_NEXTH_ICMP6 inp;
              Udp.free r
          end
    end : io st unit) (with_heap h1 s)).
  { unfold echo_reply. rewrite (io_bind_ok _ _ _ _ _ (ar_pb _ _ _ _ _ Ha)), Et. by rewrite (io_bind_ok _ _ _ _ _ (on_pbufs_ok _ _ _ _ E1)). }
  rewrite Ep. clear Ep. destruct r as [q|]; [|done].
  destruct Hcase as (h2 & b2 & m & E2 & [Hchq Hpq Hcq Hhq Hrq _] & _).
  set (s2 := with_heap h2 (with_heap h1 s)).
  assert (O2 : outgoing s2 q b2 [] c 54) by by split.
  destruct (echo_fill_ok s2 q b2 ty code k0 k1 rest 54 from src O2 Hco Hr Hf Hs) as (s3 & E3 & O3 & T3).
  destruct (icmp6_message_ok from src ICMP6_TYPE_EREP code rest Hf Hs ltac:(done) Hco Hr ltac:(lia)) as (_ & Hzm & _).
  destruct (output_if_src_ok s3 q b2 [] _ 54 from src LWIP_ICMP6_HL 0 IP6_NEXTH_ICMP6 inp O3 Hrq) as (s4 & E4 & O4 & T4);
    [unfold IP6_HLEN; lia|rewrite Hzm; unfold IP6_HLEN; lia|done|done|].
  exists s4, (grown IP6_HLEN b2). rewrite Hzm in O4. rewrite Hzc. split_and!; [|by do 2 (eapply same_stack_trans; [|eassumption])|exact O4|done].
  assert (Ecopy : on_pbufs (pb_copy q p) (with_heap h1 s) = Ok (ERR_OK, s2)) by (apply on_pbufs_ok; exact E2).
  rewrite (io_bind_ok _ _ _ _ _ Ecopy). change (negb (ERR_OK =? ERR_OK)) with false. cbv iota.
  assert (Hn2 : netifs (lower s2) !! inp = Some n) by done. rewrite (io_bind_ok _ _ _ _ _ (echo_source_ok s2 inp n Hn2)).
  cbn [s2 lower with_heap]. rewrite Es, Ed, Hfrom. rewrite (io_bind_ok _ _ _ src s2) by (by rewrite <- Es).
  rewrite (io_bind_ok _ _ _ _ _ E3). unfold ip6_output_if. rewrite Hany. unfold mbind, io_bind. by rewrite E4.
Qed.

(** Messages that verify are looked at. *)
Lemma icmp6_input_echo s p b l code k0 k1 rest inp src dst : arrived s p b l (ICMP6_TYPE_EREQ :: code :: k0 :: k1 :: rest) ->
  Forall is_u8 (ICMP6_TYPE_EREQ :: code :: k0 :: k1 :: rest) -> ICMP6_HLEN <= len b -> zlen rest + 44 < 65536 ->
  current_iphdr_src (ip_data (lower s)) = src -> current_iphdr_dest (ip_data (lower s)) = dst -> wf_ip6 src -> wf_ip6 dst ->
  icmp6_input p inp s =
    if rfc1071 (pseudo_header src dst (zlen rest + 4) IP6_NEXTH_ICMP6 ++ ICMP6_TYPE_EREQ :: code :: k0 :: k1 :: rest) =? 0
    then (_ ← echo_reply p inp; Udp.free p) s else Udp.free p s.
Proof using Type.
  intros Ha Hu Hlen Hlt Es Ed Hs Hd. set (c := ICMP6_TYPE_EREQ :: code :: k0 :: k1 :: rest) in *.
  destruct (ar_length _ _ _ _ _ Ha) as (_ & Et & _). assert (Hzc : zlen c = zlen rest + 4) by (unfold c; cbn [length]; lia).
  pose proof (ip6_chksum_ok s p b l c src dst IP6_NEXTH_ICMP6 (zlen rest + 4) Ha Hu ltac:(done) ltac:(unfold is_u16; lia) Hs Hd) as E.
  unfold icmp6_input. rewrite (io_bind_ok _ _ _ _ _ (ar_pb _ _ _ _ _ Ha)), (proj2 (Z.ltb_ge _ _) Hlen).
  rewrite (io_bind_ok _ _ _ (ip_data (lower s)) s eq_refl), Es, Ed, Et, Hzc, (io_bind_ok _ _ _ _ _ E).
  destruct (_ =? 0); cbn [negb]; [|done]. unfold ICMPH_type.
  rewrite (io_bind_ok _ _ _ _ _ (ar_read8 _ _ _ _ _ 0 ICMP6_TYPE_EREQ Ha ltac:(unfold ICMP6_HLEN in *; lia) eq_refl)). done.
Qed.
End Echo.

(* ------------------------------------------------------------------ *)
(** * Properties *)

(** C22: An echo request is answered: [icmp6_input] sends the requester an
    echo reply with the request's code, identifier, sequence number and data,
    from the address that was asked (from the best one for the requester when
    a group was asked), with a checksum that verifies; then reply and request
    are freed. A request that does not verify, or for whose reply the heap
    has no room, is only freed. *)
Theorem icmp6_echo_answered {PP RP HP UP QP MP DV : Type} `{PPO : PoolOps PP} `{RPO : PoolOps RP} `{HPO : HeapOps HP}
    `{PLP : !PoolLaws PP} `{PLR : !PoolLaws RP} `{HLH : !HeapLaws HP} `{QPO : PoolOps QP} `{MPO : PoolOps MP}
    (HK : Hooks (net PP RP HP UP (ipst QP MP DV))) (s : net PP RP HP UP (ipst QP MP DV))
    p b l code k0 k1 rest inp src dst from lp lr bl :
  request s p b l ICMP6_TYPE_EREQ code k0 k1 rest inp src dst from lp lr bl -> ICMP6_HLEN <= len b ->
  let n := zlen rest + 4 in
  if rfc1071 (pseudo_header src dst n IP6_NEXTH_ICMP6 ++ ICMP6_TYPE_EREQ :: code :: k0 :: k1 :: rest) =? 0 then
    exists r s1, pbuf_alloc PBUF_IP n PBUF_RAM (n_heap s) = Ok (r, n_heap s1) /\
      match r with
      | None => icmp6_input p inp s = Udp.free p s1
      | Some q => exists s2 b2 m,
          icmp6_input p inp s = (_ ← output_ip6 inp q src; _ ← Udp.free q; Udp.free p) s2 /\ same_stack s s2 /\
          outgoing s2 q b2 [] (ip6_header from src LWIP_ICMP6_HL 0 IP6_NEXTH_ICMP6 n ++ m) SIZEOF_ETH_HDR /\
          m = icmp6_message from src ICMP6_TYPE_EREP code rest /\
          rfc1071 (pseudo_header from src n IP6_NEXTH_ICMP6 ++ m) = 0
      end
  else icmp6_input p inp s = Udp.free p s.
Proof.
  intros Hrq Hlen n. pose proof Hrq as [Ha Hu Hlt _ _ _ _ [Es Ed] (Hs & Hd & Hf & _)].
  pose proof (icmp6_input_echo s p b l code k0 k1 rest inp src dst Ha Hu Hlen Hlt Es Ed Hs Hd) as E. fold n in E.
  destruct (_ =? 0); [|exact E]. rewrite E.
  destruct (echo_reply_ok s p b l _ code k0 k1 rest inp src dst from lp lr bl Hrq) as (r & s1 & E1 & _ & Hr). exists r, s1.
  split; [exact E1|]. destruct r as [q|]; [|by rewrite (io_bind_ok _ _ _ _ _ Hr)].
  destruct Hr as (s2 & b2 & E2 & Hst & O2 & _). exists s2, b2, (icmp6_message from src ICMP6_TYPE_EREP code rest).
  rewrite !Forall_cons_iff in Hu. destruct Hu as (_ & Hco & _ & _ & Hrest).
  split_and!; [|done|exact O2|done|by apply icmp6_message_ok; try done; lia].
  unfold mbind, io_bind. rewrite E2. unfold mbind, io_bind. destruct (output_ip6 inp q src s2) as [[? ?]|]; done.
Qed.

(** A request from the peer in two pbufs of the pool; the heap's memory is
    empty. *)
Definition ping : list Z := icmp6_message peer node ICMP6_TYPE_EREQ 0 [0; 7; 0; 1; 42; 43].
Definition ping_head : pbuf := mk_pbuf 0x2058c 0x20b24 10 8 (u8 (pbuf_type_val PBUF_POOL)) 0 1 NETIF_NO_INDEX.
Definition ping_tail : pbuf := mk_pbuf 0 0x2059c 2 2 (u8 (pbuf_type_val PBUF_POOL)) 0 1 NETIF_NO_INDEX.
Definition ping_heap : pheap pool pool ram_heap :=
  mk_pheap (pool_st (used 1)) (rom_st (used 1)) (heap_st (used 1))
    (<[0x2058c := ping_tail]> (<[0x20b14 := ping_head]> (pbufs (used 1))))
    (at_address 0x20b24 (take 8 ping) ∪ at_address 0x2059c (drop 8 ping) ∪ list_to_map ((fun a => (a, 0)) <$> seqZ 0x08001004 200)).
Definition pinged : board_st :=
  mk_net ping_heap (udp listening) (udp_pool listening)
    (set_ip_data (fun _ => arrived_globals 1 0x200 40 peer node) (board_ip (board_if near_mac node) (knows peer far_mac))).
Definition ping_chain : list (Z * pbuf) := [(0x2058c, ping_tail)].

Lemma ping_inv : pheap_inv (PLP := laws3) (PLR := laws2) ping_heap [0x20004] (reverse (pool_els rom2)) ∅.
Proof.
  pose proof (inv_update (PLP := laws3) (PLR := laws2) (used 1) _ _ _ 0x20b14 _ ping_head (used_inv 1) eq_refl eq_refl) as H1.
  pose proof (inv_update (PLP := laws3) (PLR := laws2) _ _ _ _ 0x2058c _ ping_tail H1 eq_refl eq_refl) as [? ? ? ? ? ? ? ?].
  by split.
Qed.

Lemma ping_fresh : fresh_memory (PLP := laws3) (PLR := laws2) ping_heap ((0x20b14, ping_head) :: ping_chain) (ram_size (u16 PBUF_IP) 10).
Proof.
  intros a h E.
  assert (Ea : match heap_malloc (ram_size (u16 PBUF_IP) 10) (heap_st ping_heap) with Ok (Some a, _) => a = 0x8001010 | _ => False end)
    by (vm_compute; reflexivity).
  rewrite E in Ea. subst a.
  split; [by apply (bool_decide_unpack _); vm_compute|]. split; [by apply (bool_decide_unpack _); vm_compute|].
  change (ram_size (u16 PBUF_IP) 10) with 84. intros i Hi. split.
  - assert (C : forallb (fun i => bool_decide (is_Some (bytes ping_heap !! i))) (seqZ 0x8001010 84) = true) by (vm_compute; reflexivity).
    rewrite forallb_forall in C. apply (bool_decide_eq_true_1 _), C, list_elem_of_In, elem_of_seqZ. lia.
  - intros (a & b & Hin & Hb). unfold ping_chain in Hin. rewrite elem_of_cons, list_elem_of_singleton in Hin.
    destruct Hin as [[= -> ->]|[= -> ->]]; cbn in Hb; lia.
Qed.

Lemma ping_data_ok : Forall is_u8 [0; 7; 0; 1; 42; 43].
Proof. repeat constructor; unfold is_u8; lia. Qed.

Lemma ping_parts :
  ICMP6_TYPE_EREQ :: 0 :: default 0 (ping !! 2%nat) :: default 0 (ping !! 3%nat) :: [0; 7; 0; 1; 42; 43] = ping.
Proof. vm_compute. reflexivity. Qed.

Lemma ping_bytes_ok : Forall is_u8 ping.
Proof.
  destruct peer_ok as [Hn Hp].
  apply icmp6_message_ok; [exact Hp|exact Hn|unfold is_u8, ICMP6_TYPE_EREQ; lia|unfold is_u8; lia|exact ping_data_ok|reflexivity].
Qed.

Lemma ping_arrived : arrived pinged 0x20b14 ping_head ping_chain ping.
Proof.
  split.
  - vm_compute. by split_and!.
  - unfold packet, wf_pbuf, is_u16, is_u8. simpl. lia.
  - exists (take 8 ping), (drop 8 ping). split_and!; [vm_compute; reflexivity|vm_compute; reflexivity|].
    exists (drop 8 ping), []. split_and!; [vm_compute; reflexivity|vm_compute; reflexivity|done].
Qed.

Lemma ping_request : request (PLP := laws3) (PLR := laws2) pinged 0x20b14 ping_head ping_chain ICMP6_TYPE_EREQ 0
  (default 0 (ping !! 2%nat)) (default 0 (ping !! 3%nat)) [0; 7; 0; 1; 42; 43] 1 peer node node [0x20004] (reverse (pool_els rom2)) ∅.
Proof.
  destruct peer_ok as [Hn Hp]. split; rewrite ?ping_parts.
  - exact ping_arrived.
  - exact ping_bytes_ok.
  - reflexivity.
  - by repeat constructor.
  - exact ping_inv.
  - exact ping_fresh.
  - exists (board_if near_mac node). split; [reflexivity|vm_compute; reflexivity].
  - by split.
  - by split_and!.
Qed.

Lemma icmp6_echo_answered_witness :
  exists s2 b2 m, icmp6_input (HK := boards) 0x20b14 1 pinged =
      (_ ← output_ip6 (Hooks := boards) 1 0x8001010 peer; _ ← Udp.free 0x8001010; Udp.free 0x20b14) s2 /\
    outgoing s2 0x8001010 b2 [] (ip6_header node peer 255 0 58 10 ++ m) 14 /\ take 2 m = [129; 0] /\ drop 4 m = [0; 7; 0; 1; 42; 43].
Proof.
  pose proof (icmp6_echo_answered (PLP := laws3) (PLR := laws2) boards pinged 0x20b14 ping_head ping_chain 0
    (default 0 (ping !! 2%nat)) (default 0 (ping !! 3%nat)) [0; 7; 0; 1; 42; 43] 1 peer node node _ _ _ ping_request
    ltac:(vm_compute; discriminate)) as H. cbv zeta in H.
  change (zlen [0; 7; 0; 1; 42; 43] + 4) with 10 in H.
  assert (Eck : rfc1071 (pseudo_header peer node 10 IP6_NEXTH_ICMP6 ++ ICMP6_TYPE_EREQ :: 0 :: default 0 (ping !! 2%nat) ::
    default 0 (ping !! 3%nat) :: [0; 7; 0; 1; 42; 43]) =? 0 = true) by (vm_compute; reflexivity).
  rewrite Eck in H. destruct H as (r & s1 & E1 & H).
  assert (Er : match pbuf_alloc PBUF_IP 10 PBUF_RAM (n_heap pinged) with Ok (r, _) => r = Some 0x8001010 | _ => False end)
    by (vm_compute; reflexivity).
  rewrite E1 in Er. subst r. destruct H as (s2 & b2 & m & E & _ & O & Em & _). exists s2, b2, m.
  split; [exact E|]. split; [exact O|]. rewrite Em. split; vm_compute; reflexivity.
Defined.
