(* ===== verification/MdnsDomain.v ===== *)
(** Names of the mDNS responder: apps/mdns/mdns_domain.c, with the structures
    of apps/mdns_priv.h they are built from. A name is a sequence of labels,
    each behind its length; in a packet the rest of a name may be a jump to
    where it has been written before. *)

From Stdlib Require Import ZArith Lia.
From stdpp Require Import base list numbers gmap.
From S2P Require Import Prelude Mmio Mem Memp Pbuf Ip6Addr Chksum.

Open Scope Z_scope.

(* ------------------------------------------------------------------ *)
(** * Structures *)

Definition MDNS_LABEL_MAXLEN : Z := 63.
Definition MDNS_DOMAIN_MAXLEN : Z := 256.
Definition MDNS_READNAME_ERROR : Z := 0xFFFF.
Definition NUM_DOMAIN_OFFSETS : Z := 10.
Definition MDNS_MAX_SERVICES : Z := 4.
Definition SIZEOF_DNS_HDR : Z := 12.
Definition DOMAIN_JUMP_SIZE : Z := 2.
Definition DOMAIN_JUMP : Z := 0xc000.

(** struct mdns_domain: the array, of which the first [dlength] bytes are the
    name. *)
Record mdns_domain := mk_domain {
  dname : list Z;
  dlength : Z;
  skip_compression : Z
}.
Definition set_skip (v : Z) (d : mdns_domain) : mdns_domain := mk_domain (dname d) (dlength d) v.

(** [memset(domain, 0, sizeof(struct mdns_domain))]. *)
Definition zero_domain : mdns_domain := mk_domain (replicate (Z.to_nat MDNS_DOMAIN_MAXLEN) 0) 0 0.

(** Strings are the characters before the NUL; pointers to functions and data
    of the application are numbers, NULL is 0. *)
Record mdns_request := mk_request {
  rq_name : list Z;
  rq_service : mdns_domain;
  result_fn : Z;
  rq_arg : Z;
  rq_proto : Z;
  qtype : Z;
  only_ptr : Z
}.

Record mdns_service := mk_service {
  txtdata : mdns_domain;
  sv_name : list Z;
  service : list Z;
  txt_fn : Z;
  txt_userdata : Z;
  proto : Z;
  port : Z
}.

Record mdns_outpacket := mk_outpacket {
  op_pbuf : Z;
  write_offset : Z;
  op_questions : Z;
  op_answers : Z;
  op_authoritative : Z;
  op_additional : Z;
  domain_offsets : list Z
}.
Definition set_write_offset (v : Z) (o : mdns_outpacket) : mdns_outpacket :=
  mk_outpacket (op_pbuf o) v (op_questions o) (op_answers o) (op_authoritative o) (op_additional o) (domain_offsets o).
Definition set_domain_offsets (v : list Z) (o : mdns_outpacket) : mdns_outpacket :=
  mk_outpacket (op_pbuf o) (write_offset o) (op_questions o) (op_answers o) (op_authoritative o) (op_additional o) v.

(** The constant strings: [TOPDOMAIN_LOCAL] and its siblings. *)
Definition TOPDOMAIN_LOCAL : list Z := [108; 111; 99; 97; 108].
Definition REVERSE_PTR_TOPDOMAIN : list Z := [97; 114; 112; 97].
Definition REVERSE_PTR_V6_DOMAIN : list Z := [105; 112; 54].
Definition DNSSD_SERVICES : list Z := [95; 115; 101; 114; 118; 105; 99; 101; 115].
Definition DNSSD_DNS_SD : list Z := [95; 100; 110; 115; 45; 115; 100].
Definition DNSSD_PROTO_UDP : Z := 0.
Definition DNSSD_PROTO_TCP : Z := 1.
Definition dnssd_protos : list (list Z) := [[95; 117; 100; 112]; [95; 116; 99; 112]].

(* ------------------------------------------------------------------ *)
(** * Building a name *)

Definition mdns_domain_add_label_base (domain : mdns_domain) (len : Z) : outcome (Z * mdns_domain) :=
  if MDNS_LABEL_MAXLEN <? len then Ok (ERR_VAL, domain)
  else if (0 <? len) && (MDNS_DOMAIN_MAXLEN <=? 1 + len + dlength domain) then Ok (ERR_VAL, domain)
  else if (len =? 0) && (MDNS_DOMAIN_MAXLEN <? 1 + dlength domain) then Ok (ERR_VAL, domain)
  else
    nm ← wr (dname domain) (dlength domain) len;
    Ok (ERR_OK, mk_domain nm (u16 (dlength domain + 1)) (skip_compression domain)).

Definition mdns_domain_add_label (domain : mdns_domain) (label : list Z) (len : Z) : outcome (Z * mdns_domain) :=
  '(err, domain) ← mdns_domain_add_label_base domain len;
  if negb (err =? ERR_OK) then Ok (err, domain)
  else if len =? 0 then Ok (ERR_OK, domain)
  else
    l ← rd_block label 0 len;
    nm ← wr_block (dname domain) (dlength domain) l;
    Ok (ERR_OK, mk_domain nm (u16 (dlength domain + len)) (skip_compression domain)).

(** The label is copied from the packet [p]. *)
Definition mdns_domain_add_label_pbuf (m : gmap Z pbuf) (bs : gmap Z Z) (domain : mdns_domain) (p offset len : Z)
    : outcome (Z * mdns_domain) :=
  '(err, domain) ← mdns_domain_add_label_base domain len;
  if negb (err =? ERR_OK) then Ok (err, domain)
  else if len =? 0 then Ok (ERR_OK, domain)
  else
    let pre := take (Z.to_nat (dlength domain)) (dname domain) in
    let buf := drop (Z.to_nat (dlength domain)) (dname domain) in
    '(copied, buf') ← pbuf_copy_partial m bs p (Some buf) len offset;
    let nm := pre ++ default buf buf' in
    if negb (copied =? len) then Ok (ERR_ARG, mk_domain nm (u16 (dlength domain - 1)) (skip_compression domain))
    else Ok (ERR_OK, mk_domain nm (u16 (dlength domain + len)) (skip_compression domain)).

Definition mdns_domain_add_domain (domain source : mdns_domain) : outcome (Z * mdns_domain) :=
  let len := dlength source in
  if (0 <? len) && (MDNS_DOMAIN_MAXLEN <=? 1 + len + dlength domain) then Ok (ERR_VAL, domain)
  else if (len =? 0) && (MDNS_DOMAIN_MAXLEN <? 1 + dlength domain) then Ok (ERR_VAL, domain)
  else if negb (len =? 0) then
    l ← rd_block (dname source) 0 len;
    nm ← wr_block (dname domain) (dlength domain) l;
    Ok (ERR_OK, mk_domain nm (u16 (dlength domain + len)) (skip_compression domain))
  else
    nm ← wr (dname domain) (dlength domain) 0;
    Ok (ERR_OK, mk_domain nm (u16 (dlength domain + 1)) (skip_compression domain)).

(** [len] and [start] are indices of the array: where the length of the label
    stands, and the next character. *)
Fixpoint add_string_loop (source : list Z) (nm : list Z) (len start : Z) : outcome (list Z * Z) :=
  match source with
  | [] => Ok (nm, start)
  | c :: source =>
      if MDNS_DOMAIN_MAXLEN <=? start then Ok (nm, start)
      else if c =? 46 then
        nm ← wr nm start 0;
        add_string_loop source nm start (start + 1)
      else
        nm ← wr nm start c;
        n ← rd nm len;
        nm ← wr nm len (u8 (n + 1));
        add_string_loop source nm len (start + 1)
  end.
Definition mdns_domain_add_string (domain : mdns_domain) (source : list Z) : outcome (Z * mdns_domain) :=
  nm ← wr (dname domain) (dlength domain) 0;
  '(nm, start) ← add_string_loop source nm (dlength domain) (dlength domain + 1);
  let domain := mk_domain nm (dlength domain) (skip_compression domain) in
  if start =? MDNS_DOMAIN_MAXLEN then Ok (ERR_VAL, domain)
  else Ok (ERR_OK, mk_domain nm (u16 start) (skip_compression domain)).

(* ------------------------------------------------------------------ *)
(** * Reading a name *)

(** A round adds a label, of which a name has fewer than 256, or jumps, which
    is done at most six times. *)
Definition name_fuel : nat := 300.

Fixpoint mdns_readname_loop (fuel : nat) (m : gmap Z pbuf) (bs : gmap Z Z) (p offset : Z) (domain : mdns_domain)
    (depth : Z) : outcome (Z * mdns_domain) :=
  if 5 <? depth then Ok (MDNS_READNAME_ERROR, domain)
  else
    c ← pbuf_get_at m bs p offset;
    let offset := u16 (offset + 1) in
    match fuel with
    | O => Fault Diverges
    | S fuel =>
        if Z.land c 0xc0 =? 0xc0 then
          b ← deref m p;
          if tot_len b <=? offset then Ok (MDNS_READNAME_ERROR, domain)
          else
            lo ← pbuf_get_at m bs p offset;
            let jumpaddr := Z.lor (Z.shiftl (Z.land c 0x3f) 8) (Z.land lo 0xff) in
            let offset := u16 (offset + 1) in
            if (SIZEOF_DNS_HDR <=? jumpaddr) && (jumpaddr <? tot_len b) then
              '(res, domain) ← mdns_readname_loop fuel m bs p jumpaddr domain (depth + 1);
              if res =? MDNS_READNAME_ERROR then Ok (res, domain) else Ok (offset, domain)
            else Ok (MDNS_READNAME_ERROR, domain)
        else if c <=? MDNS_LABEL_MAXLEN then
          if MDNS_DOMAIN_MAXLEN <=? c + dlength domain then Ok (MDNS_READNAME_ERROR, domain)
          else
            '(res, domain) ← mdns_domain_add_label_pbuf m bs domain p offset c;
            if negb (res =? ERR_OK) then Ok (MDNS_READNAME_ERROR, domain)
            else
              let offset := u16 (offset + c) in
              if c =? 0 then Ok (offset, domain)
              else mdns_readname_loop fuel m bs p offset domain depth
        else Ok (MDNS_READNAME_ERROR, domain)
    end.
Definition mdns_readname (m : gmap Z pbuf) (bs : gmap Z Z) (p offset : Z) : outcome (Z * mdns_domain) :=
  mdns_readname_loop name_fuel m bs p offset zero_domain 0.

(** The walk of the debug output; what it prints is not modelled. *)
Fixpoint debug_print_loop (fuel : nat) (nm : list Z) (src : Z) : outcome unit :=
  label_len ← rd nm src;
  if label_len =? 0 then Ok tt
  else
    match fuel with
    | O => Fault Diverges
    | S fuel => debug_print_loop fuel nm (src + 1 + label_len)
    end.
Definition mdns_domain_debug_print (domain : mdns_domain) : outcome unit :=
  debug_print_loop (Z.to_nat MDNS_DOMAIN_MAXLEN) (dname domain) 0.

(* ------------------------------------------------------------------ *)
(** * Comparing names *)

(** [lwip_strnicmp] of core/def.c: [len] is counted down from what was
    passed; the arrays end the walk. *)
Definition differ (c1 c2 : Z) : bool :=
  negb (c1 =? c2) &&
  (let c1_upc := Z.lor c1 0x20 in
   if (97 <=? c1_upc) && (c1_upc <=? 122) then negb (c1_upc =? Z.lor c2 0x20) else true).
Fixpoint strnicmp_loop (fuel : nat) (str1 str2 : list Z) (i len : Z) : outcome Z :=
  match fuel with
  | O => Fault Diverges
  | S fuel =>
      c1 ← rd str1 i;
      c2 ← rd str2 i;
      if differ c1 c2 then Ok 1
      else
        let len := u32 (len - 1) in
        if negb (len =? 0) && negb (c1 =? 0) then strnicmp_loop fuel str1 str2 (i + 1) len else Ok 0
  end.
Definition lwip_strnicmp (str1 str2 : list Z) (len : Z) : outcome Z :=
  strnicmp_loop (S (length str1)) str1 str2 0 len.

(** [ptra] and [ptrb] stand at the same index of the two arrays. *)
Definition eq_end (a b : mdns_domain) (i : Z) : outcome Z :=
  ca ← rd (dname a) i;
  cb ← rd (dname b) i;
  Ok (if negb (ca =? cb) && (i <? dlength a) then 0 else 1).
Fixpoint eq_loop (fuel : nat) (a b : mdns_domain) (i : Z) : outcome Z :=
  ca ← rd (dname a) i;
  if ca =? 0 then eq_end a b i
  else
    cb ← rd (dname b) i;
    if cb =? 0 then eq_end a b i
    else if i <? dlength a then
      if negb (ca =? cb) then Ok 0
      else
        res ← lwip_strnicmp (drop (Z.to_nat (i + 1)) (dname a)) (drop (Z.to_nat (i + 1)) (dname b)) ca;
        if negb (res =? 0) then Ok 0
        else
          match fuel with
          | O => Fault Diverges
          | S fuel => eq_loop fuel a b (i + 1 + ca)
          end
    else eq_end a b i.
Definition mdns_domain_eq (a b : mdns_domain) : outcome Z :=
  if negb (dlength a =? dlength b) then Ok 0
  else eq_loop (Z.to_nat MDNS_DOMAIN_MAXLEN) a b 0.

(* ------------------------------------------------------------------ *)
(** * The names of the responder *)

(** [res = add_label(...); LWIP_ERROR(..., res == ERR_OK, return res)] for
    one label after another. *)
Fixpoint add_labels (domain : mdns_domain) (labels : list (list Z)) : outcome (Z * mdns_domain) :=
  match labels with
  | [] => Ok (ERR_OK, domain)
  | l :: labels =>
      '(res, domain) ← mdns_domain_add_label domain l (u8 (zlen l));
      if negb (res =? ERR_OK) then Ok (res, domain) else add_labels domain labels
  end.

Definition nibble_char (n : Z) : Z := if n <? 0xA then 48 + n else 97 + n - 0xA.
(** Two labels per byte, the last byte first. *)
Definition nibble_labels (bs : list Z) : list (list Z) :=
  mjoin ((fun b => [[nibble_char (Z.land b 0x0F)]; [nibble_char (Z.land (Z.shiftr b 4) 0x0F)]]) <$> reverse bs).
Definition mdns_build_reverse_v6_domain (addr : ip6_addr) : outcome (Z * mdns_domain) :=
  add_labels zero_domain (nibble_labels (ip6_bytes addr) ++ [REVERSE_PTR_V6_DOMAIN; REVERSE_PTR_TOPDOMAIN; []]).

Definition mdns_add_dotlocal (domain : mdns_domain) : outcome (Z * mdns_domain) :=
  '(res, domain) ← mdns_domain_add_label domain TOPDOMAIN_LOCAL (u8 (zlen TOPDOMAIN_LOCAL));
  if negb (res =? ERR_OK) then Ok (res, domain) else mdns_domain_add_label domain [] 0.

(** [.local.] behind labels that were added without an error. *)
Definition with_dotlocal (r : outcome (Z * mdns_domain)) : outcome (Z * mdns_domain) :=
  '(res, domain) ← r;
  if negb (res =? ERR_OK) then Ok (res, domain) else mdns_add_dotlocal domain.

(** The host is given by its name. *)
Definition mdns_build_host_domain (name : list Z) : outcome (Z * mdns_domain) :=
  with_dotlocal (add_labels zero_domain [name]).

Definition mdns_build_dnssd_domain : outcome (Z * mdns_domain) :=
  with_dotlocal (add_labels zero_domain [DNSSD_SERVICES; DNSSD_DNS_SD; default [] (dnssd_protos !! Z.to_nat DNSSD_PROTO_UDP)]).

Definition proto_label (proto : Z) : outcome (list Z) := rd dnssd_protos proto.

Definition mdns_build_service_domain (s : mdns_service) (include_name : bool) : outcome (Z * mdns_domain) :=
  '(res, domain) ← add_labels zero_domain ((if include_name then [sv_name s] else []) ++ [service s]);
  if negb (res =? ERR_OK) then Ok (res, domain)
  else
    p ← proto_label (proto s);
    with_dotlocal (add_labels domain [p]).

Definition mdns_build_request_domain (request : mdns_request) (include_name : bool) : outcome (Z * mdns_domain) :=
  '(res, domain) ← add_labels zero_domain (if include_name then [rq_name request] else []);
  if negb (res =? ERR_OK) then Ok (res, domain)
  else
    '(res, domain) ← mdns_domain_add_domain domain (rq_service request);
    if negb (res =? ERR_OK) then Ok (res, domain)
    else
      p ← proto_label (rq_proto request);
      with_dotlocal (add_labels domain [p]).

(* ------------------------------------------------------------------ *)
(** * Writing a name *)

(** [writelen] is a byte, [ptr] the index it stands for. *)
Fixpoint compress_loop (fuel : nat) (domain target : mdns_domain) (target_len offset writelen ptr : Z) : outcome (Z * Z) :=
  if writelen <? dlength domain then
    let domainlen := u8 (dlength domain - writelen) in
    let targetpos := u8 (dlength target - domainlen) in
    let comparable := (domainlen <=? dlength target) && (DOMAIN_JUMP_SIZE <? domainlen) in
    if comparable && (target_len <=? targetpos + DOMAIN_JUMP_SIZE) then Ok (dlength domain, offset)
    else
      same ← (if comparable then
                a ← rd_block (dname domain) writelen domainlen;
                b ← rd_block (dname target) targetpos domainlen;
                Ok (bool_decide (a = b))
              else Ok false);
      if same : bool then Ok (writelen, u16 (offset + targetpos))
      else
        labellen ← rd (dname domain) ptr;
        match fuel with
        | O => Fault Diverges
        | S fuel => compress_loop fuel domain target target_len offset (u8 (writelen + 1 + labellen)) (ptr + 1 + labellen)
        end
  else Ok (dlength domain, offset).

(** The number of bytes to write, and where to jump behind them. *)
Definition mdns_compress_domain (m : gmap Z pbuf) (bs : gmap Z Z) (p offset : Z) (domain : mdns_domain) : outcome (Z * Z) :=
  if p =? 0 then Ok (dlength domain, offset)
  else
    '(target_end, target) ← mdns_readname m bs p offset;
    if target_end =? MDNS_READNAME_ERROR then Ok (dlength domain, offset)
    else compress_loop name_fuel domain target (u8 (target_end - offset)) offset 0 0.

(** The best of the names written before. *)
Fixpoint best_offset (m : gmap Z pbuf) (bs : gmap Z Z) (p : Z) (domain : mdns_domain) (offsets : list Z)
    (writelen jump_offset : Z) : outcome (Z * Z) :=
  match offsets with
  | [] => Ok (writelen, jump_offset)
  | offset :: offsets =>
      if negb (offset =? 0) then
        '(len, offset) ← mdns_compress_domain m bs p offset domain;
        if len <? writelen then best_offset m bs p domain offsets len offset
        else best_offset m bs p domain offsets writelen jump_offset
      else best_offset m bs p domain offsets writelen jump_offset
  end.

(** The first free entry takes the offset. *)
Fixpoint store_offset (offsets : list Z) (v : Z) : list Z :=
  match offsets with
  | [] => []
  | o :: offsets => if o =? 0 then v :: offsets else o :: store_offset offsets v
  end.

Definition mdns_write_domain (m : gmap Z pbuf) (bs : gmap Z Z) (outpkt : mdns_outpacket) (domain : mdns_domain)
    : outcome (Z * gmap Z Z * mdns_outpacket) :=
  '(writelen, jump_offset) ←
    (if skip_compression domain =? 0 then
       best_offset m bs (op_pbuf outpkt) domain (domain_offsets outpkt) (dlength domain) 0
     else Ok (dlength domain, 0));
  '(res, bs, outpkt) ←
    (if negb (writelen =? 0) then
       '(res, bs) ← pbuf_take_at m bs (op_pbuf outpkt) (dname domain) writelen (write_offset outpkt);
       if negb (res =? ERR_OK) then Ok (res, bs, outpkt)
       else Ok (ERR_OK, bs, set_write_offset (u16 (write_offset outpkt + writelen))
              (set_domain_offsets (store_offset (domain_offsets outpkt) (write_offset outpkt)) outpkt))
     else Ok (ERR_OK, bs, outpkt));
  if negb (res =? ERR_OK) then Ok (res, bs, outpkt)
  else if negb (jump_offset =? 0) then
    let jump := lwip_htons (Z.lor DOMAIN_JUMP jump_offset) in
    '(res, bs) ← pbuf_take_at m bs (op_pbuf outpkt) [Z.shiftr jump 8; Z.land jump 0xff] DOMAIN_JUMP_SIZE (write_offset outpkt);
    if negb (res =? ERR_OK) then Ok (res, bs, outpkt)
    else Ok (ERR_OK, bs, set_write_offset (u16 (write_offset outpkt + DOMAIN_JUMP_SIZE)) outpkt)
  else Ok (ERR_OK, bs, outpkt).
