(* ===== verification/MdnsNames.v ===== *)
(** The wire format of names, and what MdnsDomain does with it: names are
    built, read from packets and compared as sequences of labels. *)

From Stdlib Require Import ZArith Lia.
From stdpp Require Import base list numbers gmap.
From S2P Require Import Prelude Mmio Mem Memp Pbuf PbufChain Ip6Addr Chksum MdnsDomain.

Open Scope Z_scope.

(* ------------------------------------------------------------------ *)
(** * Labels *)

Definition wf_label (l : list Z) : Prop := 0 < zlen l <= 63 /\ Forall is_u8 l.

Fixpoint encode (ls : list (list Z)) : list Z :=
  match ls with
  | [] => []
  | l :: ls => zlen l :: l ++ encode ls
  end.

(** A whole name. *)
Definition wire_name (ls : list (list Z)) : list Z := encode ls ++ [0].

Lemma encode_app l1 l2 : encode (l1 ++ l2) = encode l1 ++ encode l2.
Proof. induction l1 as [|l l1 IH]; simpl; [done|]. by rewrite IH, <- app_assoc. Qed.

Lemma encode_u8 ls : Forall wf_label ls -> Forall is_u8 (encode ls).
Proof.
  induction 1 as [|l ls [Hl Hu] _ IH]; simpl; constructor.
  - unfold is_u8. lia.
  - by apply Forall_app.
Qed.

Lemma wire_cons x ls : wire_name (x :: ls) = zlen x :: x ++ wire_name ls.
Proof. unfold wire_name. cbn [encode app]. by rewrite <- app_assoc. Qed.

Lemma wire_pos ls : 0 < zlen (wire_name ls).
Proof. unfold wire_name. rewrite length_app. cbn. lia. Qed.

Lemma wire_longer y ls : zlen (wire_name []) <> zlen (wire_name (y :: ls)).
Proof. rewrite wire_cons. cbn [length]. rewrite length_app. pose proof (wire_pos ls). cbn. lia. Qed.

(** The array of [d] starts with [b], and this is its name. *)
Definition holds (d : mdns_domain) (b : list Z) : Prop :=
  exists rest, dname d = b ++ rest /\ dlength d = zlen b /\ zlen (dname d) = MDNS_DOMAIN_MAXLEN.

Lemma holds_zero : holds zero_domain [].
Proof. by exists (replicate 256 0). Qed.

Lemma holds_prefix d b : holds d b -> take (length b) (dname d) = b.
Proof. intros (rest & -> & _). by rewrite take_app_length. Qed.

Lemma holds_length d b : holds d b -> dlength d = zlen b /\ zlen b <= 256.
Proof.
  intros (rest & E & -> & Hl). split; [done|]. rewrite E, length_app in Hl. unfold MDNS_DOMAIN_MAXLEN in Hl. lia.
Qed.

Lemma holds_rd d b i x : holds d b -> 0 <= i -> b !! Z.to_nat i = Some x -> rd (dname d) i = Ok x.
Proof. intros (rest & -> & _) Hi Hx. apply rd_ok. split; [done|]. by apply lookup_app_l_Some. Qed.

Lemma holds_rd_block d b i n : holds d b -> 0 <= i -> 0 <= n -> i + n <= zlen b ->
  rd_block (dname d) i n = Ok (take (Z.to_nat n) (drop (Z.to_nat i) b)).
Proof.
  intros (rest & -> & _) Hi Hn Hle. rewrite rd_block_in by (rewrite ?length_app; lia).
  by rewrite drop_app_le, take_app_le by (rewrite ?length_drop; lia).
Qed.

(** Appending to the name. *)
Lemma holds_app d b l nm : holds d b -> zlen b + zlen l <= 256 ->
  (nm = take (length b) (dname d) ++ l ++ drop (length b + length l) (dname d)) ->
  holds (mk_domain nm (zlen b + zlen l) (skip_compression d)) (b ++ l).
Proof.
  intros (rest & E & _ & Hl) Hle ->. exists (drop (length b + length l) (dname d)). cbn [dname dlength].
  rewrite E, take_app_length, <- app_assoc. split_and!; [done|rewrite length_app; lia|].
  rewrite E, length_app in Hl. unfold MDNS_DOMAIN_MAXLEN in *. rewrite !length_app, length_drop, length_app. lia.
Qed.

(** There is room behind [b] for the label [l]; the empty one is the root. *)
Definition room (b l : list Z) : Prop := if decide (l = []) then zlen b < 256 else 1 + zlen l + zlen b < 256.

Lemma room_le b l : room b l -> zlen b + 1 + zlen l <= 256.
Proof. unfold room. case_decide; subst; cbn [length]; lia. Qed.

Lemma room_nil b : room b [] <-> zlen b < 256.
Proof. unfold room. by rewrite decide_True. Qed.

Lemma room_cons b l : 0 < zlen l -> room b l <-> 1 + zlen l + zlen b < 256.
Proof. intros Hl. unfold room. rewrite decide_False; [done|]. by intros ->. Qed.

Lemma add_label_base_ok d b l : holds d b -> zlen l <= 63 -> room b l ->
  exists d', mdns_domain_add_label_base d (zlen l) = Ok (ERR_OK, d') /\ holds d' (b ++ [zlen l]) /\
    skip_compression d' = skip_compression d.
Proof.
  intros Hh Hl Hr. pose proof (holds_length _ _ Hh) as [El Hb]. pose proof (room_le _ _ Hr) as Hle.
  destruct Hh as (rest & E & _ & Hlen). unfold mdns_domain_add_label_base, MDNS_LABEL_MAXLEN, MDNS_DOMAIN_MAXLEN in *.
  rewrite El, (proj2 (Z.ltb_ge _ _)) by lia.
  assert (E1 : (0 <? zlen l) && (256 <=? 1 + zlen l + zlen b) = false).
  { destruct (Z.ltb_spec 0 (zlen l)); [|done]. apply room_cons in Hr; [|done]. apply Z.leb_gt. lia. }
  assert (E2 : (zlen l =? 0) && (256 <? 1 + zlen b) = false).
  { destruct (Z.eqb_spec (zlen l) 0); [|done]. apply Z.ltb_ge. lia. }
  rewrite E1, E2, wr_in by lia. cbn [mbind outcome_bind]. eexists. split; [reflexivity|]. split; [|done].
  rewrite u16_small by (unfold is_u16; lia). change 1 with (zlen [zlen l]). apply holds_app; [by exists rest|cbn; lia|].
  rewrite Nat2Z.id, insert_take_drop by lia. cbn [length app]. by rewrite Nat.add_1_r.
Qed.

Lemma add_label_ok d b l : holds d b -> zlen l <= 63 -> room b l ->
  exists d', mdns_domain_add_label d l (zlen l) = Ok (ERR_OK, d') /\ holds d' (b ++ zlen l :: l) /\
    skip_compression d' = skip_compression d.
Proof.
  intros Hh Hl Hr. pose proof (room_le _ _ Hr) as Hle.
  destruct (add_label_base_ok d b l Hh Hl Hr) as (d1 & E & Hh1 & Es). unfold mdns_domain_add_label. rewrite E.
  cbn [mbind outcome_bind]. rewrite Z.eqb_refl. cbn [negb]. destruct (Z.eqb_spec (zlen l) 0) as [E0|Hne].
  { destruct l; [|done]. by exists d1. }
  pose proof (holds_length _ _ Hh1) as [El Hb]. rewrite length_app in El, Hb. cbn [length] in El, Hb.
  rewrite rd_block_in by lia. cbn [mbind outcome_bind]. rewrite drop_0, Nat2Z.id, firstn_all.
  destruct Hh1 as (rest & E1 & Hh1).
  assert (Hh1' : holds d1 (b ++ [zlen l])) by (by exists rest).
  rewrite wr_block_in by (destruct Hh1 as [_ Hd]; rewrite ?Hd; unfold MDNS_DOMAIN_MAXLEN; lia).
  cbn [mbind outcome_bind]. eexists. split; [reflexivity|]. split; [|done].
  replace (b ++ zlen l :: l) with ((b ++ [zlen l]) ++ l) by (by rewrite <- app_assoc).
  rewrite El, u16_small by (unfold is_u16; lia).
  replace (Z.of_nat (length b + 1) + zlen l) with (zlen (b ++ [zlen l]) + zlen l) by (rewrite length_app; cbn; lia).
  apply holds_app; [done|rewrite length_app; cbn [length]; lia|].
  rewrite Nat2Z.id, length_app. done.
Qed.

(** A whole sequence of labels. *)
Lemma add_labels_ok d b ls : holds d b -> Forall wf_label ls -> zlen b + zlen (encode ls) < 256 ->
  exists d', add_labels d ls = Ok (ERR_OK, d') /\ holds d' (b ++ encode ls) /\ skip_compression d' = skip_compression d.
Proof.
  revert d b. induction ls as [|l ls IH]; intros d b Hh Hf Hle.
  { exists d. rewrite app_nil_r. by split. }
  apply Forall_cons_iff in Hf as [[Hl Hu] Hf]. cbn [encode] in *. cbn [length] in Hle. rewrite length_app in Hle.
  destruct (add_label_ok d b l Hh ltac:(lia)) as (d1 & E & Hh1 & Es); [apply room_cons; lia|].
  cbn [add_labels]. rewrite u8_small by (unfold is_u8; lia). rewrite E. cbn [mbind outcome_bind]. rewrite Z.eqb_refl. cbn [negb].
  destruct (IH d1 _ Hh1 Hf) as (d2 & E2 & Hh2 & Es2); [rewrite length_app; cbn [length]; lia|].
  exists d2. split; [done|]. rewrite <- app_assoc in Hh2. split; [done|congruence].
Qed.

Lemma add_dotlocal_ok d b : holds d b -> zlen b < 249 ->
  exists d', mdns_add_dotlocal d = Ok (ERR_OK, d') /\ holds d' (b ++ wire_name [TOPDOMAIN_LOCAL]) /\
    skip_compression d' = skip_compression d.
Proof.
  intros Hh Hle. unfold mdns_add_dotlocal.
  destruct (add_label_ok d b TOPDOMAIN_LOCAL Hh ltac:(done)) as (d1 & E & Hh1 & Es).
  { apply room_cons; [done|]. change (zlen TOPDOMAIN_LOCAL) with 5. lia. }
  change (u8 (zlen TOPDOMAIN_LOCAL)) with (zlen TOPDOMAIN_LOCAL). rewrite E. cbn [mbind outcome_bind]. rewrite Z.eqb_refl. cbn [negb].
  destruct (add_label_ok d1 _ [] Hh1 ltac:(done)) as (d2 & E2 & Hh2 & Es2).
  { apply room_nil. rewrite length_app. cbn [length]. change (length TOPDOMAIN_LOCAL) with 5%nat. lia. }
  exists d2. split; [exact E2|]. rewrite <- app_assoc in Hh2. split; [exact Hh2|congruence].
Qed.

Lemma with_dotlocal_ok d b ls : holds d b -> Forall wf_label ls -> zlen b + zlen (encode ls) < 249 ->
  exists d', with_dotlocal (add_labels d ls) = Ok (ERR_OK, d') /\ holds d' (b ++ wire_name (ls ++ [TOPDOMAIN_LOCAL])) /\
    skip_compression d' = skip_compression d.
Proof.
  intros Hh Hf Hle. destruct (add_labels_ok d b ls Hh Hf ltac:(lia)) as (d1 & E & Hh1 & Es).
  unfold with_dotlocal. rewrite E. cbn [mbind outcome_bind]. rewrite Z.eqb_refl. cbn [negb].
  destruct (add_dotlocal_ok d1 _ Hh1) as (d2 & E2 & Hh2 & Es2); [rewrite length_app; lia|].
  exists d2. split; [done|]. unfold wire_name in *. rewrite encode_app, <- !app_assoc in *. split; [done|congruence].
Qed.

(** The names of the responder. *)
Lemma build_host_ok name : wf_label name ->
  exists d, mdns_build_host_domain name = Ok (ERR_OK, d) /\ holds d (wire_name [name; TOPDOMAIN_LOCAL]) /\ skip_compression d = 0.
Proof.
  intros Hn. destruct (with_dotlocal_ok zero_domain [] [name] holds_zero) as (d & E & Hd & Es).
  - by constructor.
  - destruct Hn. cbn [encode]. cbn [length]. rewrite length_app. cbn [length]. lia.
  - exists d. by split_and!.
Qed.

Definition service_labels (s : mdns_service) (p : list Z) (include_name : bool) : list (list Z) :=
  (if include_name then [sv_name s] else []) ++ [service s; p; TOPDOMAIN_LOCAL].

Lemma build_service_ok s p (include_name : bool) : wf_label (sv_name s) -> wf_label (service s) -> dnssd_protos !! Z.to_nat (proto s) = Some p ->
  0 <= proto s -> exists d, mdns_build_service_domain s include_name = Ok (ERR_OK, d) /\
    holds d (wire_name (service_labels s p include_name)) /\ skip_compression d = 0.
Proof.
  intros Hn Hs Hp H0. assert (Hpl : wf_label p /\ zlen p = 4).
  { destruct (Z.to_nat (proto s)) as [|[|n]]; simplify_eq/=; repeat split; try done; repeat constructor; unfold is_u8; lia. }
  destruct Hpl as [Hpw Hpl]. unfold mdns_build_service_domain.
  set (ls := (if include_name then [sv_name s] else []) ++ [service s]).
  assert (Hls : Forall wf_label ls /\ zlen (encode ls) <= 128).
  { destruct Hn as [Hn Hnu], Hs as [Hs Hsu]. unfold ls.
    destruct include_name; (split; [repeat constructor; done || lia|]); cbn [encode app length]; rewrite ?length_app; cbn [length];
      rewrite ?length_app; cbn [length]; lia. }
  destruct Hls as [Hf Hle]. destruct (add_labels_ok zero_domain [] ls holds_zero Hf ltac:(cbn [length]; lia)) as (d1 & E1 & Hh1 & Es1).
  rewrite E1. cbn [mbind outcome_bind]. rewrite Z.eqb_refl. cbn [negb]. unfold proto_label.
  rewrite (proj2 (rd_ok _ _ _) (conj H0 Hp)). cbn [mbind outcome_bind].
  destruct (with_dotlocal_ok d1 _ [p] Hh1 ltac:(by constructor)) as (d2 & E2 & Hh2 & Es2).
  { cbn [encode app length]. rewrite length_app. cbn [length]. lia. }
  exists d2. split; [done|]. split; [|by rewrite Es2].
  unfold wire_name in *. rewrite app_assoc in Hh2. cbn [app] in Hh2. rewrite <- encode_app in Hh2. unfold ls in Hh2.
  rewrite <- app_assoc in Hh2. exact Hh2.
Qed.

Lemma nibble_labels_ok bs : Forall is_u8 bs -> Forall wf_label (nibble_labels bs) /\ zlen (encode (nibble_labels bs)) = 4 * zlen bs.
Proof.
  intros Hu. unfold nibble_labels. assert (Hr : Forall is_u8 (reverse bs)) by (by apply Forall_reverse).
  rewrite <- (length_reverse bs). revert Hr. generalize (reverse bs). clear bs Hu. intros bs Hr.
  assert (Hc : forall n, 0 <= n < 16 -> wf_label [nibble_char n]).
  { intros n Hn. split; [cbn; lia|]. constructor; [|constructor]. unfold nibble_char, is_u8. zcase. }
  induction Hr as [|b bs Hb Hr [IH1 IH2]]; [done|]. rewrite fmap_cons. cbn [mjoin list_join app]. split.
  - constructor; [|constructor; [|exact IH1]]; apply Hc; change 0x0F with (Z.ones 4); rewrite Z.land_ones by lia; apply Z.mod_pos_bound; lia.
  - set (r := mjoin _) in *. clearbody r. cbn [encode app]. rewrite !length_cons. lia.
Qed.

Definition reverse_labels (a : ip6_addr) : list (list Z) :=
  nibble_labels (ip6_bytes a) ++ [REVERSE_PTR_V6_DOMAIN; REVERSE_PTR_TOPDOMAIN].

Lemma add_labels_app d l1 l2 :
  add_labels d (l1 ++ l2) = '(res, d) ← add_labels d l1; if negb (res =? ERR_OK) then Ok (res, d) else add_labels d l2.
Proof.
  revert d. induction l1 as [|l l1 IH]; intros d; [done|]. cbn [app add_labels].
  destruct (mdns_domain_add_label d l (u8 (zlen l))) as [[res d1]|]; cbn [mbind outcome_bind]; [|done].
  destruct (negb (res =? ERR_OK)) eqn:E; [by cbn; rewrite E|]. apply IH.
Qed.

Lemma build_reverse_ok a : Forall is_u8 (ip6_bytes a) -> zlen (ip6_bytes a) = 16 ->
  exists d, mdns_build_reverse_v6_domain a = Ok (ERR_OK, d) /\ holds d (wire_name (reverse_labels a)) /\ skip_compression d = 0.
Proof.
  intros Hu Hl. destruct (nibble_labels_ok _ Hu) as [Hf Hle].
  assert (Hf2 : Forall wf_label (reverse_labels a)).
  { apply Forall_app. split; [done|]. repeat constructor; cbn; try lia; unfold is_u8; lia. }
  assert (Hle2 : zlen (encode (reverse_labels a)) = 73).
  { unfold reverse_labels. rewrite encode_app, length_app. cbn. lia. }
  unfold mdns_build_reverse_v6_domain.
  replace (nibble_labels (ip6_bytes a) ++ [REVERSE_PTR_V6_DOMAIN; REVERSE_PTR_TOPDOMAIN; []]) with (reverse_labels a ++ [[]])
    by (unfold reverse_labels; by rewrite <- app_assoc).
  destruct (add_labels_ok zero_domain [] _ holds_zero Hf2 ltac:(cbn [length]; lia)) as (d & E & Hd & Es).
  rewrite add_labels_app, E. cbn [mbind outcome_bind]. rewrite Z.eqb_refl. cbn [negb add_labels].
  destruct (add_label_ok d _ [] Hd ltac:(done)) as (d2 & E2 & Hd2 & Es2); [apply room_nil; cbn [app]; lia|].
  change (u8 (zlen [])) with (zlen ([] : list Z)). rewrite E2. cbn. exists d2. split; [done|]. split; [done|]. by rewrite Es2, Es.
Qed.

(* ------------------------------------------------------------------ *)
(** * Names in a packet *)

(** [pbuf_get_at] gives 0 behind the end of the packet. *)
Definition byte_at (c : list Z) (off : Z) : Z := default 0 (c !! Z.to_nat off).

(** At [off] stands the name [ls], in [n] bytes and through [k] jumps. *)
Inductive name_at (c : list Z) : nat -> Z -> list (list Z) -> Z -> Prop :=
| na_end off : byte_at c off = 0 -> name_at c 0 off [] 1
| na_label k off l ls n : wf_label l -> byte_at c off = zlen l -> off + 1 + zlen l <= zlen c ->
    take (length l) (drop (Z.to_nat (off + 1)) c) = l -> name_at c k (off + 1 + zlen l) ls n ->
    name_at c k off (l :: ls) (1 + zlen l + n)
| na_jump k off to ls n : off + 1 < zlen c -> SIZEOF_DNS_HDR <= to < zlen c -> to < 16384 ->
    byte_at c off = 192 + to / 256 -> byte_at c (off + 1) = to mod 256 -> name_at c k to ls n ->
    name_at c (S k) off ls 2.

(** What the reader accepts: at most five jumps, 255 bytes and the root. *)
Definition readable (c : list Z) (off : Z) (ls : list (list Z)) (n : Z) : Prop :=
  exists k, (k <= 5)%nat /\ name_at c k off ls n /\ zlen (wire_name ls) <= 256.

Lemma name_at_wf c k off ls n : name_at c k off ls n -> Forall wf_label ls.
Proof. induction 1; [apply Forall_nil_2|by apply Forall_cons_2|done]. Qed.

Lemma name_at_width c k off ls n : name_at c k off ls n -> 0 < n <= zlen (wire_name ls) + 1.
Proof.
  unfold wire_name. induction 1 as [|k off l ls n [Hl _] _ _ _ _ IH|k off to ls n _ _ _ _ _ _ IH]; [cbn; lia| |];
    rewrite ?length_app in *; cbn [encode length] in *; rewrite ?length_app; lia.
Qed.

(** The byte that starts a jump. *)
Lemma jump_bits c lo : is_u8 c -> is_u8 lo -> 
  ((Z.land c 0xc0 =? 0xc0) = (192 <=? c)) /\
  Z.lor (Z.shiftl (Z.land c 0x3f) 8) (Z.land lo 0xff) = (c mod 64) * 256 + lo.
Proof.
  intros Hc Hlo. split.
  - apply Bool.eqb_prop. revert c Hc. apply u8_cases. vm_compute. reflexivity.
  - rewrite Z.shiftl_mul_pow2 by lia. change 0xff with (Z.ones 8). change 0x3f with (Z.ones 6).
    rewrite !Z.land_ones by lia. unfold is_u8 in *. change (2 ^ 8) with 256. rewrite (Z.mod_small lo) by lia.
    apply (lor_low _ lo 8); change (2 ^ 8) with 256; [lia|apply Z.mod_mul; lia|lia].
Qed.

Section Reading.
Context (m : gmap Z pbuf) (bs : gmap Z Z) (p : Z) (l : list (Z * pbuf)) (c : list Z).
Context (Hch : chain m p l) (Hp : packet l) (Hc : content bs l c) (Hu : Forall is_u8 c) (Hne : l <> []).
Context (Hlen : zlen c <= 65000).

Lemma get_byte off : 0 <= off < 65536 -> pbuf_get_at m bs p off = Ok (byte_at c off).
Proof using Type*. intros Ho. by apply (pbuf_get_at_spec m bs p l). Qed.

Lemma byte_u8 off : is_u8 (byte_at c off).
Proof using Hu.
  unfold byte_at. destruct (c !! Z.to_nat off) as [x|] eqn:E; [|unfold is_u8; cbn; lia]. by eapply Forall_lookup_1 in E.
Qed.

Lemma head_ok : exists b, deref m p = Ok b /\ tot_len b = zlen c.
Proof using Hch Hp Hc Hne.
  rewrite (content_length _ _ _ Hc Hp). destruct l as [|[a b] l']; [done|]. destruct Hch as (-> & _ & Hb & _), Hp as (Et & _).
  exists b. unfold deref. rewrite Hb. split; [done|]. cbn. unfold lens in Et. lia.
Qed.

(** A label, or too few bytes for it. *)
Lemma add_label_pbuf_ok d b off n : holds d b -> 0 <= n <= 63 -> n + zlen b < 256 -> (0 < n -> 1 + n + zlen b < 256) ->
  0 <= off < 65536 ->
  exists r d', mdns_domain_add_label_pbuf m bs d p off n = Ok (r, d') /\ skip_compression d' = skip_compression d /\
    if decide (n = 0 \/ off + n <= zlen c) then
      r = ERR_OK /\ holds d' (b ++ n :: take (Z.to_nat n) (drop (Z.to_nat off) c))
    else r <> ERR_OK.
Proof using Type*.
  intros Hh Hn Hr Hr' Ho.
  assert (Hl63 : zlen (replicate (Z.to_nat n) 0) = n) by (rewrite length_replicate; lia).
  destruct (add_label_base_ok d b (replicate (Z.to_nat n) 0) Hh ltac:(lia)) as (d1 & E & Hh1 & Es).
  { destruct (decide (n = 0)) as [->|]; [by apply room_nil|]. apply room_cons; lia. }
  rewrite Hl63 in E, Hh1. pose proof (holds_length _ _ Hh1) as [El Hb]. rewrite length_app in El, Hb. cbn [length] in El, Hb.
  unfold mdns_domain_add_label_pbuf. rewrite E. cbn [mbind outcome_bind]. rewrite Z.eqb_refl. cbn [negb].
  destruct (Z.eqb_spec n 0) as [E0|Hn0].
  { exists ERR_OK, d1. split; [done|]. split; [done|]. rewrite decide_True by (by left). split; [done|]. by rewrite E0 in *. }
  pose proof Hh1 as (rest & E1 & _ & Hl1). unfold MDNS_DOMAIN_MAXLEN in Hl1. rewrite E1, !length_app in Hl1. cbn [length] in Hl1.
  assert (Hpre : take (Z.to_nat (dlength d1)) (dname d1) = b ++ [n]).
  { rewrite El, E1. rewrite take_app_le by (rewrite length_app; cbn; lia). rewrite take_ge; [done|]. rewrite length_app. cbn. lia. }
  assert (Hsuf : drop (Z.to_nat (dlength d1)) (dname d1) = rest).
  { rewrite El, E1, drop_app_length'; [done|]. rewrite length_app. cbn. lia. }
  rewrite Hpre, Hsuf.
  rewrite (pbuf_copy_partial_slice m bs p l c rest n off Hch Hp Hc Hne) by (unfold is_u16; lia).
  cbn [mbind outcome_bind default]. unfold id.
  destruct (decide (n = 0 \/ off + n <= zlen c)) as [[?|Hin]|Hout]; [done| |].
  - rewrite (Z.max_r 0), (Z.min_l n) by lia. rewrite Z.eqb_refl. cbn [negb]. eexists _, _. split; [reflexivity|].
    split; [done|]. split; [done|]. set (x := take (Z.to_nat n) (drop (Z.to_nat off) c)).
    assert (Hx : zlen x = n) by (unfold x; rewrite length_take, length_drop; lia).
    exists (drop (Z.to_nat n) rest). cbn [dname dlength]. split_and!.
    + by rewrite <- !app_assoc.
    + rewrite El, u16_small by (unfold is_u16; lia). rewrite length_app. cbn [length]. lia.
    + unfold MDNS_DOMAIN_MAXLEN. rewrite !length_app, length_drop. cbn [length]. lia.
  - rewrite (proj2 (Z.eqb_neq _ n)) by lia. eexists _, _. split; [reflexivity|]. by split.
Qed.

(** How a name can start: with a jump, a label, or the root. *)
Lemma name_jump k off ls n : 192 <= byte_at c off -> name_at c k off ls n ->
  let to := byte_at c off mod 64 * 256 + byte_at c (off + 1) in
  exists k' n', off + 1 < zlen c /\ SIZEOF_DNS_HDR <= to < zlen c /\ name_at c k' to ls n' /\ k = S k' /\ n = 2.
Proof using Type.
  intros Hx H to. destruct H as [off E|k off x ls n [Hl _] E _ _ _|k off to' ls n Hle Hto Hto2 E E2 H]; [lia|lia|].
  exists k, n. unfold SIZEOF_DNS_HDR in *. assert (Et : to = to').
  { unfold to. rewrite E, E2. clear - Hto Hto2. Z.div_mod_to_equations. lia. }
  rewrite Et. split_and!; done || lia.
Qed.

Lemma jump_name k off ls n : let to := byte_at c off mod 64 * 256 + byte_at c (off + 1) in
  192 <= byte_at c off < 256 -> 0 <= byte_at c (off + 1) < 256 -> off + 1 < zlen c -> SIZEOF_DNS_HDR <= to < zlen c ->
  name_at c k to ls n -> name_at c (S k) off ls 2.
Proof using Type.
  intros to Hx Hy Hle Hto H. apply (na_jump c k off to ls n); try done; unfold to; clear - Hx Hy; Z.div_mod_to_equations; lia.
Qed.

Definition label_at (off : Z) : list Z := take (Z.to_nat (byte_at c off)) (drop (Z.to_nat (off + 1)) c).

Lemma name_label k off ls n : 0 < byte_at c off < 192 -> name_at c k off ls n ->
  exists ls' n', byte_at c off <= 63 /\ off + 1 + byte_at c off <= zlen c /\
    name_at c k (off + 1 + byte_at c off) ls' n' /\ ls = label_at off :: ls' /\ n = 1 + byte_at c off + n'.
Proof using Type.
  intros Hx H. destruct H as [off E|k off x ls n [Hl _] E Hle Et H|k off to ls n _ Hto _ E _ _]; [lia| |].
  - exists ls, n. unfold label_at. rewrite E, Nat2Z.id, Et. by split_and!; try lia.
  - unfold SIZEOF_DNS_HDR in Hto. pose proof (Z.div_pos to 256). lia.
Qed.

Lemma label_length off : 0 <= off -> 0 <= byte_at c off -> off + 1 + byte_at c off <= zlen c -> zlen (label_at off) = byte_at c off.
Proof using Type. intros Ho Hx Hle. unfold label_at. rewrite length_take, length_drop. lia. Qed.

Lemma label_name k off ls n : 0 <= off -> 0 < byte_at c off <= 63 -> off + 1 + byte_at c off <= zlen c ->
  name_at c k (off + 1 + byte_at c off) ls n -> name_at c k off (label_at off :: ls) (1 + byte_at c off + n).
Proof using Hu.
  intros Ho Hx Hle H. pose proof (label_length off Ho ltac:(lia) Hle) as El. rewrite <- El.
  apply na_label; rewrite ?El; try done.
  - split; [lia|]. by apply Forall_take, Forall_drop.
  - unfold label_at at 2. f_equal. lia.
Qed.

Lemma add_label_pbuf_full d b off n : holds d b -> 0 < n <= 63 -> 256 <= 1 + n + zlen b ->
  mdns_domain_add_label_pbuf m bs d p off n = Ok (ERR_VAL, d).
Proof using Type.
  intros Hh Hn Hb. destruct (holds_length _ _ Hh) as [El _]. unfold mdns_domain_add_label_pbuf, mdns_domain_add_label_base.
  unfold MDNS_LABEL_MAXLEN, MDNS_DOMAIN_MAXLEN. rewrite El. clear - Hn Hb.
  rewrite (proj2 (Z.ltb_ge 63 n)), (proj2 (Z.ltb_lt 0 n)), (proj2 (Z.leb_le 256 _)) by lia. done.
Qed.

(** What a run of the reader behind [b] gives: an error when there is no name
    that fits, or the name. *)
Definition no_name (off depth : Z) (b : list Z) : Prop := forall k ls n,
  name_at c k off ls n -> Z.of_nat k + depth <= 5 -> zlen b + zlen (wire_name ls) <= 256 -> False.
Definition reads (off depth : Z) (b : list Z) (r : Z) (d' : mdns_domain) : Prop :=
  (r = MDNS_READNAME_ERROR /\ no_name off depth b) \/
  (exists k ls n, name_at c k off ls n /\ Z.of_nat k + depth <= 5 /\ zlen b + zlen (wire_name ls) <= 256 /\
     r = off + n /\ holds d' (b ++ wire_name ls)).

Lemma reads_jump off depth b r d' : let to := byte_at c off mod 64 * 256 + byte_at c (off + 1) in
  192 <= byte_at c off < 256 -> 0 <= byte_at c (off + 1) < 256 -> off + 1 < zlen c -> SIZEOF_DNS_HDR <= to < zlen c ->
  reads to (depth + 1) b r d' -> reads off depth b (if r =? MDNS_READNAME_ERROR then r else off + 2) d'.
Proof using Hlen.
  intros to Hx Hy Hle Hto [[-> Hno]|(k & ls & n & Hat & Hk & Hls & -> & Hh')].
  - left. split; [done|]. intros k ls n Hat Hk Hls. apply name_jump in Hat as (k' & n' & _ & _ & Hat & -> & ->); [|lia].
    apply (Hno k' ls n' Hat); lia.
  - right. pose proof (name_at_width _ _ _ _ _ Hat) as Hw. unfold SIZEOF_DNS_HDR in Hto.
    rewrite (proj2 (Z.eqb_neq (to + n) _)) by (unfold MDNS_READNAME_ERROR; lia).
    exists (S k), ls, 2. split_and!; [by apply (jump_name k off ls n)|lia|done|done|done].
Qed.

Lemma reads_label off depth b r d' : 0 <= off -> 0 < byte_at c off <= 63 -> off + 1 + byte_at c off <= zlen c ->
  reads (off + 1 + byte_at c off) depth (b ++ byte_at c off :: label_at off) r d' -> reads off depth b r d'.
Proof using Hu.
  intros Ho Hx Hle Hr. pose proof (label_length off Ho ltac:(lia) Hle) as El.
  assert (Ew : forall ls, zlen (wire_name (label_at off :: ls)) = 1 + byte_at c off + zlen (wire_name ls)).
  { intros ls. rewrite wire_cons. cbn [length]. rewrite length_app. clear - El. lia. }
  assert (Eb : zlen (b ++ byte_at c off :: label_at off) = zlen b + 1 + byte_at c off).
  { rewrite length_app. cbn [length]. clear - El. lia. }
  destruct Hr as [[-> Hno]|(k & ls & n & Hat & Hk & Hls & -> & Hh')].
  - left. split; [done|]. intros k ls n Hat Hk Hls. apply name_label in Hat as (ls' & n' & _ & _ & Hat & -> & ->); [|lia].
    rewrite Ew in Hls. apply (Hno k ls' n' Hat Hk). lia.
  - right. exists k, (label_at off :: ls), (1 + byte_at c off + n). rewrite Ew.
    split_and!; [by apply label_name|done|lia|lia|]. rewrite wire_cons, El. by rewrite <- app_assoc in Hh'.
Qed.

Lemma read_loop_ok fuel off d b depth : holds d b -> zlen b < 256 -> 0 <= off <= 65100 -> 0 <= depth <= 6 ->
  (256 - zlen b) + (6 - depth) < Z.of_nat fuel ->
  exists r d', mdns_readname_loop fuel m bs p off d depth = Ok (r, d') /\ skip_compression d' = skip_compression d /\
    reads off depth b r d'.
Proof using Type*.
  revert off d b depth. induction fuel as [|fuel IH]; intros off d b depth Hh Hb Ho Hd Hf; [lia|]. cbn [mdns_readname_loop].
  assert (Herr : no_name off depth b -> forall d1, skip_compression d1 = skip_compression d -> exists r d',
    Ok (MDNS_READNAME_ERROR, d1) = Ok (r, d') /\ skip_compression d' = skip_compression d /\ reads off depth b r d').
  { intros Hno d1 Es. exists MDNS_READNAME_ERROR, d1. split; [done|]. split; [done|]. by left. }
  destruct (Z.ltb_spec 5 depth) as [H5|H5]; [apply Herr; [|done]; intros k ls n _ Hk _; lia|].
  rewrite (get_byte off) by lia. cbn [mbind outcome_bind]. pose proof (byte_u8 off) as Hx. pose proof (byte_u8 (off + 1)) as Hy.
  rewrite (u16_small (off + 1)) by (unfold is_u16; lia). destruct (jump_bits _ _ Hx Hy) as [E1 E2]. rewrite E1.
  unfold is_u8 in Hx, Hy. destruct (Z.leb_spec 192 (byte_at c off)) as [Hj|Hj].
  - destruct head_ok as (hb & Ehb & Etot). rewrite Ehb. cbn [mbind outcome_bind]. rewrite Etot.
    destruct (Z.leb_spec (zlen c) (off + 1)) as [Hend|Hin].
    { apply Herr; [|done]. intros k ls n (k' & n' & ? & _)%name_jump _ _; lia. }
    rewrite get_byte by lia. cbn [mbind outcome_bind]. rewrite E2.
    destruct ((SIZEOF_DNS_HDR <=? _) && _) eqn:Hto.
    + apply andb_prop in Hto as [Hto1%Z.leb_le Hto2%Z.ltb_lt]. unfold SIZEOF_DNS_HDR in Hto1.
      destruct (IH (byte_at c off mod 64 * 256 + byte_at c (off + 1)) d b (depth + 1) Hh Hb ltac:(lia) ltac:(lia) ltac:(lia)) as (r & d' & E & Es & Hr).
      rewrite E. cbn [mbind outcome_bind]. apply reads_jump in Hr; [|unfold SIZEOF_DNS_HDR; done || lia..]. rewrite (u16_small (off + 1 + 1)) by (unfold is_u16; lia).
      replace (off + 1 + 1) with (off + 2) by lia. by destruct (r =? _); eexists _, _.
    + apply Herr; [|done]. intros k ls n (k' & n' & _ & Hto' & _)%name_jump _ _; [|done].
      apply andb_false_iff in Hto as [Hto%Z.leb_gt|Hto%Z.ltb_ge]; lia.
  - destruct (holds_length _ _ Hh) as [El _]. unfold MDNS_LABEL_MAXLEN, MDNS_DOMAIN_MAXLEN.
    destruct (Z.leb_spec (byte_at c off) 63) as [H63|H63].
    2: { apply Herr; [|done]. intros k ls n (? & ? & ? & _)%name_label _ _; lia. }
    rewrite El. assert (Hfull : 256 <= 1 + byte_at c off + zlen b -> 0 < byte_at c off -> no_name off depth b).
    { intros Hbig Hx0 k ls n (ls' & n' & _ & Hle & _ & -> & _)%name_label _ Hls; [|lia]. rewrite wire_cons in Hls. cbn [length] in Hls.
      rewrite length_app in Hls. pose proof (wire_pos ls'). pose proof (label_length off ltac:(lia) ltac:(lia) Hle). lia. }
    destruct (Z.leb_spec 256 (byte_at c off + zlen b)) as [Hbig|Hbig]; [apply Herr; [apply Hfull; lia|done]|].
    destruct (decide (0 < byte_at c off /\ 256 <= 1 + byte_at c off + zlen b)) as [[Hx0 Hbig2]|Hroom].
    { rewrite (add_label_pbuf_full d b) by (done || lia). apply Herr; [by apply Hfull|done]. }
    destruct (add_label_pbuf_ok d b (off + 1) (byte_at c off) Hh ltac:(lia) ltac:(lia) ltac:(lia) ltac:(lia)) as (r & d1 & E & Es & Hr).
    rewrite E. cbn [mbind outcome_bind]. destruct (decide (byte_at c off = 0 \/ off + 1 + byte_at c off <= zlen c)) as [Hin|Hout].
    2: { rewrite (proj2 (Z.eqb_neq r _)) by done. apply Herr; [|done]. intros k ls n (? & ? & ? & ? & _)%name_label _ _; lia. }
    destruct Hr as [-> Hh1]. rewrite Z.eqb_refl. cbn [negb]. rewrite (u16_small (off + 1 + _)) by (unfold is_u16; lia).
    destruct (Z.eqb_spec (byte_at c off) 0) as [E0|Hx0].
    { exists (off + 1 + byte_at c off), d1. split; [done|]. split; [done|]. right. exists 0%nat, [], 1. rewrite E0 in *.
      split_and!; [by apply na_end|lia|cbn; lia|lia|done]. }
    destruct Hin as [?|Hin]; [done|]. pose proof (label_length off ltac:(lia) ltac:(lia) Hin) as Ey.
    destruct (IH (off + 1 + byte_at c off) d1 (b ++ byte_at c off :: label_at off) depth Hh1) as (r & d' & E' & Es' & Hr);
      [rewrite length_app; cbn [length]; lia|lia|lia|rewrite length_app; cbn [length]; lia|].
    exists r, d'. split; [done|]. split; [congruence|]. apply reads_label; done || lia.
Qed.
End Reading.

(** [mdns_readname] on a packet. *)
Lemma readname_ok m bs p l c off : chain m p l -> packet l -> content bs l c -> Forall is_u8 c -> l <> [] ->
  zlen c <= 65000 -> 0 <= off <= 65100 ->
  exists r d, mdns_readname m bs p off = Ok (r, d) /\ skip_compression d = 0 /\
    ((r = MDNS_READNAME_ERROR /\ forall ls n, ~ readable c off ls n) \/
     (exists ls n, readable c off ls n /\ r = off + n /\ holds d (wire_name ls))).
Proof.
  intros Hch Hp Hc Hu Hne Hlen Ho.
  destruct (read_loop_ok m bs p l c Hch Hp Hc Hu Hne Hlen name_fuel off zero_domain [] 0) as (r & d & E & Es & Hr);
    [exact holds_zero|cbn; lia|lia|lia|unfold name_fuel; cbn [length]; lia|].
  exists r, d. split; [exact E|]. split; [done|]. destruct Hr as [[-> Hno]|(k & ls & n & Hat & Hk & Hls & -> & Hh)].
  - left. split; [done|]. intros ls n (k & Hk & Hat & Hls). apply (Hno k ls n Hat); cbn [length]; lia.
  - right. exists ls, n. split; [|by split]. exists k. split; [lia|]. split; [done|]. cbn [length] in Hls. lia.
Qed.

(* ------------------------------------------------------------------ *)
(** * Comparing names *)

Definition lower (c : Z) : Z := if (65 <=? c) && (c <=? 90) then c + 32 else c.
Definition lower_label (l : list Z) : list Z := lower <$> l.

Lemma differ_lower x y : is_u8 x -> is_u8 y -> differ x y = negb (lower x =? lower y).
Proof.
  intros Hx Hy. apply Bool.eqb_prop.
  pose proof (u8_cases (fun x => forallb (fun y => Bool.eqb (differ x y) (negb (lower x =? lower y))) (seqZ 0 256))) as H.
  assert (E : forallb (fun x => forallb (fun y => Bool.eqb (differ x y) (negb (lower x =? lower y))) (seqZ 0 256)) (seqZ 0 256) = true)
    by (vm_compute; reflexivity).
  specialize (H E x Hx). cbv beta in H. by apply (u8_cases _ H).
Qed.

(** What a comparison sees of a label: its length, and its bytes up to a NUL,
    which ends the comparison. *)
Fixpoint before_nul (l : list Z) : list Z :=
  match l with [] => [] | c :: l => if c =? 0 then [] else c :: before_nul l end.
Definition label_key (l : list Z) : nat * list Z := (length l, lower_label (before_nul l)).

Lemma lower_nul c : lower c = 0 <-> c = 0.
Proof. unfold lower. destruct (Z.leb_spec 65 c), (Z.leb_spec c 90); simpl; lia. Qed.

Lemma strnicmp_loop_ok fuel a x ra b y rb i len : i = zlen a -> i = zlen b -> zlen x = len -> zlen y = len -> 0 < len < 256 ->
  (length x <= fuel)%nat -> Forall is_u8 x -> Forall is_u8 y ->
  strnicmp_loop fuel (a ++ x ++ ra) (b ++ y ++ rb) i len =
    Ok (if decide (lower_label (before_nul x) = lower_label (before_nul y)) then 0 else 1).
Proof.
  revert a x b y i len. induction fuel as [|fuel IH]; intros a x b y i len Ha Hb Hx Hy Hlen Hf Hux Huy; [lia|].
  destruct x as [|c1 x], y as [|c2 y]; cbn [length] in *; [lia..|]. cbn [strnicmp_loop app].
  rewrite (rd_mid a), (rd_mid b) by done. cbn [mbind outcome_bind].
  apply Forall_cons_iff in Hux as [H1 Hux]. apply Forall_cons_iff in Huy as [H2 Huy].
  rewrite differ_lower by done. cbn [before_nul]. destruct (Z.eqb_spec (lower c1) (lower c2)) as [Ec|Hc]; cbn [negb].
  2: { rewrite decide_False; [done|]. destruct (Z.eqb_spec c1 0), (Z.eqb_spec c2 0); unfold lower_label; intros E; simplify_eq/=. }
  rewrite u32_small by (unfold is_u32; lia). destruct (Z.eqb_spec c1 0) as [E1|E1].
  { subst c1. assert (E2 : c2 = 0) by (apply lower_nul; rewrite <- Ec; done). subst c2.
    cbn [Z.eqb negb]. by rewrite andb_false_r, decide_True. }
  rewrite (proj2 (Z.eqb_neq c2 0)) by (intros E2; apply E1, lower_nul; rewrite Ec; by apply lower_nul).
  cbn [negb]. rewrite andb_true_r. unfold lower_label. rewrite !fmap_cons.
  fold (lower_label (before_nul x)) (lower_label (before_nul y)).
  destruct (Z.eqb_spec (len - 1) 0) as [E0|Hne]; cbn [negb].
  { destruct x, y; cbn [length] in *; try lia. rewrite decide_True; [done|]. by rewrite Ec. }
  specialize (IH (a ++ [c1]) x (b ++ [c2]) y (i + 1) (len - 1)). rewrite <- !app_assoc in IH. cbn [app] in IH.
  rewrite IH; try done; try (rewrite ?length_app; cbn [length]; lia).
  destruct (decide (lower_label (before_nul x) = lower_label (before_nul y))) as [E|Hn].
  - rewrite decide_True; [done|]. by rewrite Ec, E.
  - rewrite decide_False; [done|]. by intros [= _ ?].
Qed.

Lemma eq_end_ok a b i x : rd (dname a) i = Ok x -> rd (dname b) i = Ok x -> eq_end a b i = Ok 1.
Proof. intros Ha Hb. unfold eq_end. rewrite Ha, Hb. cbn. by rewrite Z.eqb_refl. Qed.

Lemma eq_loop_ok fuel a b pa pb ra rb la lb i : dname a = pa ++ wire_name la ++ ra -> dname b = pb ++ wire_name lb ++ rb ->
  i = zlen pa -> i = zlen pb -> i + zlen (wire_name la) = dlength a -> zlen (wire_name la) = zlen (wire_name lb) ->
  Forall wf_label la -> Forall wf_label lb -> (length la <= fuel)%nat ->
  eq_loop fuel a b i = Ok (if decide (label_key <$> la = label_key <$> lb) then 1 else 0).
Proof.
  revert pa pb la lb i. induction fuel as [|fuel IH]; intros pa pb la lb i Ea Eb Hpa Hpb Hla Hll Ha Hb Hf.
  all: destruct la as [|x la], lb as [|y lb]; try (cbn [length] in Hf; lia);
    try (by destruct (wire_longer _ _ Hll)); try (by destruct (wire_longer _ _ (eq_sym Hll))).
  1, 2: (cbn [eq_loop]; assert (R : forall d q r, dname d = q ++ wire_name [] ++ r -> i = zlen q -> rd (dname d) i = Ok 0)
    by (intros d q r -> ->; by apply rd_mid);
    rewrite (R a pa ra Ea Hpa); cbn [mbind outcome_bind]; rewrite (eq_end_ok _ _ _ 0 (R a pa ra Ea Hpa) (R b pb rb Eb Hpb));
    by rewrite decide_True).
  apply Forall_cons_iff in Ha as [[Hx Hxu] Ha]. apply Forall_cons_iff in Hb as [[Hy Hyu] Hb].
  rewrite !wire_cons in *. cbn [app] in *. cbn [eq_loop]. rewrite Ea, (rd_mid pa) by done. cbn [mbind outcome_bind].
  rewrite (proj2 (Z.eqb_neq (zlen x) 0)) by lia. rewrite Eb, (rd_mid pb) by done. cbn [mbind outcome_bind].
  rewrite (proj2 (Z.eqb_neq (zlen y) 0)) by lia. cbn [length] in Hla, Hll. rewrite !length_app in Hll. rewrite length_app in Hla.
  rewrite (proj2 (Z.ltb_lt i (dlength a))) by lia. rewrite !fmap_cons. destruct (Z.eqb_spec (zlen x) (zlen y)) as [Exy|Hne]; cbn [negb].
  2: { rewrite decide_False; [done|]. intros [= E _]. lia. }
  assert (D : forall (q : list Z) z r, i = zlen q -> drop (Z.to_nat (i + 1)) (q ++ z :: r) = r).
  { intros q z r Hq. replace (Z.to_nat (i + 1)) with (length (q ++ [z])) by (rewrite length_app; cbn; lia).
    replace (q ++ z :: r) with ((q ++ [z]) ++ r) by (by rewrite <- app_assoc). apply drop_app_length. }
  rewrite !D, <- !app_assoc by done. unfold lwip_strnicmp.
  rewrite (strnicmp_loop_ok _ [] x (wire_name la ++ ra) [] y (wire_name lb ++ rb)); try done; try lia; [|rewrite length_app; lia].
  cbn [mbind outcome_bind]. pose proof (Nat2Z.inj _ _ Exy) as Exy'.
  destruct (decide (lower_label (before_nul x) = lower_label (before_nul y))) as [El|Hn]; cbn [negb Z.eqb].
  2: { rewrite decide_False; [done|]. intros E. apply Hn. injection E. intros. congruence. }
  rewrite (IH (pa ++ zlen x :: x) (pb ++ zlen y :: y) la lb); try done;
    try (rewrite ?length_app; cbn [length]; lia); try (rewrite <- !app_assoc in *; exact Ea || exact Eb); [|cbn [length] in Hf; lia].
  destruct (decide (label_key <$> la = label_key <$> lb)) as [E|Hn2].
  - rewrite decide_True; [done|]. unfold label_key at 1 3. by rewrite Exy', El, E.
  - rewrite decide_False; [done|]. by intros [= _ _ ?].
Qed.

Lemma domain_eq_ok a b la lb : holds a (wire_name la) -> holds b (wire_name lb) -> Forall wf_label la -> Forall wf_label lb ->
  mdns_domain_eq a b = Ok (if decide (label_key <$> la = label_key <$> lb) then 1 else 0).
Proof.
  intros Hha Hhb Ha Hb. destruct (holds_length _ _ Hha) as [Ea Hle], (holds_length _ _ Hhb) as [Eb _]. unfold mdns_domain_eq.
  assert (El : forall ls, (length ls <= length (wire_name ls))%nat).
  { induction ls as [|x ls IH]; [cbn; lia|]. rewrite wire_cons. cbn [length]. rewrite length_app. lia. }
  destruct (Z.eqb_spec (dlength a) (dlength b)) as [E|Hne]; cbn [negb].
  - destruct Hha as (ra & Era & _), Hhb as (rb & Erb & _).
    apply (eq_loop_ok _ a b [] [] ra rb); try done; cbn [length]; try lia.
    specialize (El la). unfold MDNS_DOMAIN_MAXLEN. lia.
  - rewrite decide_False; [done|]. intros Heq. apply Hne. rewrite Ea, Eb. f_equal. clear - Heq.
    revert lb Heq. induction la as [|x la IH]; intros [|y lb] Heq; try done. rewrite !fmap_cons in Heq. injection Heq as Ex _ Heq.
    rewrite !wire_cons. cbn [length]. rewrite !length_app, (IH lb Heq). lia.
Qed.

(* ------------------------------------------------------------------ *)
(** * Properties *)

(** C11: [mdns_readname] reads exactly the names of a packet: whatever bytes a
    packet holds and however it is cut into pbufs, the reader ends without an
    access outside the packet or the name's array; it returns the name at the
    offset and the offset behind it when one stands there (labels of at most
    63 bytes, at most five jumps, 256 bytes in all), and
    [MDNS_READNAME_ERROR] when none does. *)
Theorem mdns_readname_exact m bs p l c off : chain m p l -> packet l -> content bs l c -> Forall is_u8 c -> l <> [] ->
  zlen c <= 65000 -> 0 <= off <= 65100 ->
  exists r d, mdns_readname m bs p off = Ok (r, d) /\
    ((r = MDNS_READNAME_ERROR /\ forall ls n, ~ readable c off ls n) \/
     (exists ls n, readable c off ls n /\ r = off + n /\ holds d (wire_name ls))).
Proof.
  intros Hch Hp Hc Hu Hne Hlen Ho. destruct (readname_ok m bs p l c off Hch Hp Hc Hu Hne Hlen Ho) as (r & d & E & _ & H). by exists r, d.
Qed.

(** A packet in two pbufs: behind the header the name local, and a.local with
    a jump to it, cut between label and jump. *)
Definition names_bytes : list Z := replicate 12 0 ++ [5; 108; 111; 99; 97; 108; 0; 1; 97; 192; 12].
Definition names_chain : list (Z * pbuf) :=
  [(0x100, mk_pbuf 0x200 0x1000 23 21 0 0 1 0); (0x200, mk_pbuf 0 0x2000 2 2 0 0 1 0)].
Definition names_pbufs : gmap Z pbuf := list_to_map names_chain.
Definition names_mem : gmap Z Z :=
  list_to_map (zip (seqZ 0x1000 21) (take 21 names_bytes) ++ zip (seqZ 0x2000 2) (drop 21 names_bytes)).

Lemma names_ok : chain names_pbufs 0x100 names_chain /\ packet names_chain /\ content names_mem names_chain names_bytes /\
  Forall is_u8 names_bytes.
Proof.
  split_and!.
  - vm_compute. by split_and!.
  - unfold packet, wf_pbuf, is_u16, is_u8. simpl. lia.
  - exists (take 21 names_bytes), (drop 21 names_bytes). split_and!; [done|vm_compute; reflexivity|].
    exists (drop 21 names_bytes), []. split_and!; [done|vm_compute; reflexivity|done].
  - repeat constructor; unfold is_u8; lia.
Qed.

Lemma mdns_readname_exact_witness : exists r d, mdns_readname names_pbufs names_mem 0x100 19 = Ok (r, d) /\ r = 23 /\
  exists ls, readable names_bytes 19 ls 4 /\ holds d (wire_name ls).
Proof.
  destruct names_ok as (H1 & H2 & H3 & H4).
  destruct (mdns_readname_exact names_pbufs names_mem 0x100 names_chain names_bytes 19 H1 H2 H3 H4 ltac:(discriminate)
    ltac:(vm_compute; discriminate) ltac:(lia)) as (r & d & E & H).
  assert (Er : match mdns_readname names_pbufs names_mem 0x100 19 with Ok (r, _) => r = 23 | _ => False end) by (vm_compute; reflexivity).
  rewrite E in Er. exists r, d. split; [exact E|]. split; [exact Er|]. subst r.
  destruct H as [[H _]|(ls & n & Hr & En & Hh)]; [discriminate|]. exists ls. split; [|exact Hh]. replace 4 with n by lia. exact Hr.
Defined.

(** Without a NUL a label is compared as a whole. *)
Lemma before_nul_none l : Forall (fun x => x <> 0) l -> before_nul l = l.
Proof. induction 1 as [|c l Hc _ IH]; [done|]. cbn. by rewrite (proj2 (Z.eqb_neq c 0)), IH. Qed.
Lemma before_nul_prefix l : exists r, l = before_nul l ++ r.
Proof.
  induction l as [|c l (r & E)]; [by exists []|]. cbn. destruct (c =? 0); [by eexists|]. exists r. cbn. by rewrite <- E.
Qed.
Lemma label_key_plain x y : Forall (fun c => c <> 0) x -> label_key x = label_key y <-> lower_label x = lower_label y.
Proof.
  intros Hx. unfold label_key. rewrite (before_nul_none x Hx). split.
  - intros [= Hl E]. destruct (before_nul_prefix y) as (r & Ey).
    assert (Hr : r = []).
    { apply (f_equal length) in E, Ey. unfold lower_label in E. rewrite !length_fmap in E. rewrite length_app in Ey.
      apply length_zero_iff_nil. lia. }
    subst r. rewrite app_nil_r in Ey. by rewrite E, <- Ey.
  - intros E. assert (Hl := f_equal length E). unfold lower_label in Hl. rewrite !length_fmap in Hl. rewrite Hl, E. f_equal.
    f_equal. symmetry. apply before_nul_none. clear Hl. revert y E.
    induction Hx as [|c x Hc _ IH]; intros [|d y] E; try done.
    injection E as Ec E. constructor; [|by apply IH].
    intros ->. apply Hc, lower_nul. by rewrite Ec.
Qed.

(** C20: [mdns_domain_eq] compares names without regard to the case of
    letters, label by label: it gives 1 exactly when the names have as many
    labels, of the same lengths, which agree up to case as far as their first
    NUL, and 0 otherwise; no label is compared beyond its end. For names whose
    labels hold no NUL, as those of hosts and services do, that is equality up
    to case; labels from the network that differ behind a NUL are taken for
    the same. *)
Theorem mdns_domain_eq_names a b la lb : holds a (wire_name la) -> holds b (wire_name lb) -> Forall wf_label la -> Forall wf_label lb ->
  mdns_domain_eq a b = Ok (if decide (label_key <$> la = label_key <$> lb) then 1 else 0) /\
  (Forall (Forall (fun c => c <> 0)) la -> label_key <$> la = label_key <$> lb <-> lower_label <$> la = lower_label <$> lb).
Proof.
  intros Ha Hb Hla Hlb. split; [by apply domain_eq_ok|]. intros Hn. clear - Hn. revert lb.
  induction Hn as [|x la Hx _ IH]; intros [|y lb]; try done. rewrite !fmap_cons. split.
  - intros [= E1 E2 E3]. assert (E : label_key x = label_key y) by (unfold label_key; congruence).
    apply label_key_plain in E; [|done]. apply IH in E3. by rewrite E, E3.
  - intros [= E1 E2]. apply label_key_plain in E1; [|done]. apply IH in E2. by rewrite E1, E2.
Qed.

Definition can_domain (name : list Z) : mdns_domain :=
  match mdns_build_host_domain name with Ok (_, d) => d | Fault _ => zero_domain end.

Lemma mdns_domain_eq_names_witness :
  mdns_domain_eq (can_domain [99; 97; 110]) (can_domain [67; 65; 78]) = Ok 1 /\
  mdns_domain_eq (can_domain [99; 97; 110]) (can_domain [67; 65; 79]) = Ok 0 /\
  mdns_domain_eq (can_domain [99; 0; 110]) (can_domain [67; 0; 79]) = Ok 1.
Proof.
  assert (H : forall x, zlen x = 3 -> Forall is_u8 x -> holds (can_domain x) (wire_name [x; TOPDOMAIN_LOCAL]) /\ Forall wf_label [x; TOPDOMAIN_LOCAL]).
  { intros x Hx Hu. assert (Hw : wf_label x) by (split; [lia|done]). destruct (build_host_ok x Hw) as (d & E & Hd & _).
    unfold can_domain. rewrite E. split; [done|]. repeat constructor; try done; try lia; unfold is_u8; lia. }
  destruct (H [99; 97; 110]) as [H1 W1]; [done|repeat constructor; unfold is_u8; lia|].
  destruct (H [67; 65; 78]) as [H2 W2]; [done|repeat constructor; unfold is_u8; lia|].
  destruct (H [67; 65; 79]) as [H3 W3]; [done|repeat constructor; unfold is_u8; lia|].
  destruct (H [99; 0; 110]) as [H4 W4]; [done|repeat constructor; unfold is_u8; lia|].
  destruct (H [67; 0; 79]) as [H5 W5]; [done|repeat constructor; unfold is_u8; lia|].
  split_and!.
  - rewrite (proj1 (mdns_domain_eq_names _ _ _ _ H1 H2 W1 W2)). reflexivity.
  - rewrite (proj1 (mdns_domain_eq_names _ _ _ _ H1 H3 W1 W3)). reflexivity.
  - rewrite (proj1 (mdns_domain_eq_names _ _ _ _ H4 H5 W4 W5)). reflexivity.
Defined.
