(* ===== verification/MdnsCompress.v ===== *)
(** Compression of names: what [mdns_write_domain] writes is the name, whole
    or with a jump to a name written before, and [mdns_readname] reads it
    back. *)

From Stdlib Require Import ZArith Lia.
From stdpp Require Import base list numbers gmap.
From S2P Require Import Prelude Mmio Mem Memp Pbuf PbufChain Ip6Addr MdnsDomain MdnsNames.

Open Scope Z_scope.

(* ------------------------------------------------------------------ *)
(** * Names that stay *)

(** The name is in every packet that starts with [w]. *)
Definition fixed (w : list Z) (k : nat) (off : Z) (ls : list (list Z)) (n : Z) : Prop :=
  forall c, w `prefix_of` c -> name_at c k off ls n.

Lemma fixed_mono w w' k off ls n : w `prefix_of` w' -> fixed w k off ls n -> fixed w' k off ls n.
Proof. intros Hw H c Hc. apply H. by etrans. Qed.

Lemma byte_mid a x r : byte_at (a ++ x :: r) (zlen a) = x.
Proof. unfold byte_at. by rewrite Nat2Z.id, list_lookup_middle. Qed.

Lemma fixed_root a r : fixed (a ++ 0 :: r) 0 (zlen a) [] 1.
Proof. intros c [s ->]. apply na_end. rewrite <- app_assoc. apply byte_mid. Qed.

Lemma fixed_jump a to r k ls n : SIZEOF_DNS_HDR <= to < zlen a -> to < 16384 ->
  fixed (a ++ (192 + to / 256) :: to mod 256 :: r) k to ls n ->
  fixed (a ++ (192 + to / 256) :: to mod 256 :: r) (S k) (zlen a) ls 2.
Proof.
  intros Hto Hto2 H c Hc. pose proof (H c Hc) as Hat. destruct Hc as [s ->]. rewrite <- app_assoc in *. cbn [app] in *.
  apply (na_jump _ k (zlen a) to ls n); try done.
  - rewrite length_app. cbn [length]. lia.
  - rewrite length_app. cbn [length]. lia.
  - apply byte_mid.
  - replace (zlen a + 1) with (zlen (a ++ [192 + to / 256])) by (rewrite length_app; cbn; lia).
    replace (a ++ 192 + to / 256 :: to mod 256 :: r ++ s) with ((a ++ [192 + to / 256]) ++ to mod 256 :: r ++ s)
      by (by rewrite <- app_assoc).
    apply byte_mid.
Qed.

Lemma fixed_labels a l1 r k l2 n : Forall wf_label l1 -> fixed (a ++ encode l1 ++ r) k (zlen a + zlen (encode l1)) l2 n ->
  fixed (a ++ encode l1 ++ r) k (zlen a) (l1 ++ l2) (zlen (encode l1) + n).
Proof.
  revert a. induction l1 as [|x l1 IH]; intros a Hf H; [by rewrite Z.add_0_r in H|].
  apply Forall_cons_iff in Hf as [Hx Hf]. cbn [encode app] in *. rewrite <- app_assoc in *.
  specialize (IH (a ++ zlen x :: x) Hf). rewrite <- !app_assoc in IH. cbn [app] in IH.
  intros c Hc. rewrite length_cons, length_app in *.
  replace (Z.of_nat (S (length x + length (encode l1))) + n) with (1 + zlen x + (zlen (encode l1) + n)) by lia.
  pose proof Hc as [s E]. rewrite <- !app_assoc in E. cbn [app] in E. rewrite <- !app_assoc in E. apply na_label.
  - done.
  - rewrite E. apply byte_mid.
  - rewrite E, length_app, length_cons, length_app. lia.
  - rewrite E. replace (a ++ zlen x :: x ++ encode l1 ++ r ++ s) with ((a ++ [zlen x]) ++ x ++ encode l1 ++ r ++ s) by (by rewrite <- app_assoc).
    replace (Z.to_nat (zlen a + 1)) with (length (a ++ [zlen x])) by (rewrite length_app; cbn; lia).
    by rewrite drop_app_length, take_app_length.
  - replace (zlen a + 1 + zlen x) with (Z.of_nat (length a + length (zlen x :: x))) by (cbn [length]; lia).
    apply IH; [|done]. rewrite length_cons.
    replace (Z.of_nat (length a + S (length x)) + zlen (encode l1)) with (zlen a + Z.of_nat (S (length x + length (encode l1)))) by lia.
    exact H.
Qed.

(** The rest of a name, before its jump. *)
Lemma name_suffix c k off l1 l2 n : name_at c k off (l1 ++ l2) n -> zlen (encode l1) + 2 < n ->
  name_at c k (off + zlen (encode l1)) l2 (n - zlen (encode l1)).
Proof.
  revert off n. induction l1 as [|x l1 IH]; intros off n H Hn; [by rewrite Z.add_0_r, Z.sub_0_r|].
  cbn [app encode] in *. rewrite length_cons, length_app in *.
  inversion H as [|k' off' l ls n' Hx Hb Hle Hl Hat E1 E2|]; subst; [|lia]. apply IH in Hat; [|lia].
  replace (off + Z.of_nat (S (length x + length (encode l1)))) with (off + 1 + zlen x + zlen (encode l1)) by lia.
  by replace (1 + zlen x + n' - Z.of_nat (S (length x + length (encode l1)))) with (n' - zlen (encode l1)) by lia.
Qed.

Lemma name_at_fun c k off ls n k' ls' n' : name_at c k off ls n -> name_at c k' off ls' n' -> k = k' /\ ls = ls' /\ n = n'.
Proof.
  intros H. revert k' ls' n'. induction H as [off E|k off x ls n [Hx _] E Hle Hl H IH|k off to ls n Hle Hto Hto2 E E2 H IH]; intros k' ls' n' H'.
  - destruct H' as [|? ? ? ? ? [? _]|? ? to]; [done|lia|]. pose proof (Z.div_pos to 256). unfold SIZEOF_DNS_HDR in *. lia.
  - destruct H' as [|k' off x' ls' n' [Hx' _] E' _ Hl' H'|? off to ? ? _ Hto _ E' _ _]; [lia| |].
    + assert (Exx : zlen x = zlen x') by lia. assert (x = x') as <-.
      { etrans; [symmetry; exact Hl|]. etrans; [|exact Hl']. f_equal. lia. }
      apply IH in H' as (-> & -> & ->). done.
    + pose proof (Z.div_pos to 256). unfold SIZEOF_DNS_HDR in *. lia.
  - destruct H' as [off E'|k' off x' ls' n' [Hx' _] E' _ _ _|k' off to' ls' n' _ Hto' Hto2' E' E2' H'].
    + pose proof (Z.div_pos to 256). unfold SIZEOF_DNS_HDR in *. lia.
    + pose proof (Z.div_pos to 256). unfold SIZEOF_DNS_HDR in *. lia.
    + assert (to = to') as <- by (clear - E E2 E' E2'; Z.div_mod_to_equations; lia). by apply IH in H' as (-> & -> & ->).
Qed.

(* ------------------------------------------------------------------ *)
(** * Suffixes *)

(** No character of a label can be taken for a length: labels have at most
    [mx] characters, all of which have larger codes. *)
Definition clear (mx : Z) (ls : list (list Z)) : Prop := Forall (fun l => zlen l <= mx /\ Forall (fun x => mx < x) l) ls.

Lemma encode_inj l1 l2 : Forall wf_label l1 -> Forall wf_label l2 -> wire_name l1 = wire_name l2 -> l1 = l2.
Proof.
  revert l2. induction l1 as [|x l1 IH]; intros [|y l2] H1 H2 E; [done| | |].
  - rewrite wire_cons in E. unfold wire_name in E. cbn [encode app] in E. injection E as E0 _. apply Forall_cons_iff in H2 as [[? _] _]. lia.
  - rewrite wire_cons in E. unfold wire_name in E at 2. cbn [encode app] in E. injection E as E0 _. apply Forall_cons_iff in H1 as [[? _] _]. lia.
  - rewrite !wire_cons in E. injection E as E0 E. apply Forall_cons_iff in H1 as [_ H1]. apply Forall_cons_iff in H2 as [_ H2].
    apply app_inj_1 in E as [-> E]; [|lia]. f_equal. by apply IH.
Qed.

Lemma align mx lt x l2 : Forall wf_label lt -> Forall wf_label l2 -> clear mx lt -> clear mx l2 -> l2 <> [] ->
  wire_name lt = x ++ wire_name l2 -> exists l1, lt = l1 ++ l2 /\ x = encode l1.
Proof.
  revert x. induction lt as [|y lt IH]; intros x H1 H2 C1 C2 Hne E.
  - destruct l2 as [|z l2]; [done|]. apply (f_equal length) in E. rewrite length_app, wire_cons, length_cons, length_app in E.
    pose proof (wire_pos l2). cbn in E. lia.
  - apply Forall_cons_iff in H1 as [Hy H1]. apply Forall_cons_iff in C1 as [[Cy Cy'] C1]. destruct x as [|b x].
    + exists []. split; [|done]. apply encode_inj in E; [by rewrite <- E|by constructor|done].
    + rewrite wire_cons in E. cbn [app] in E. injection E as <- E.
      destruct (decide (length y <= length x)%nat) as [Hle|Hlt].
      * assert (Ex : x = y ++ drop (length y) x).
        { rewrite <- (take_drop (length y) x) at 1. f_equal. apply (f_equal (take (length y))) in E.
          rewrite take_app_length, take_app_le in E by done. done. }
        rewrite Ex, <- app_assoc in E. apply app_inv_head in E. apply IH in E as (l1 & -> & El); try done.
        exists (y :: l1). split; [done|]. cbn [encode]. by rewrite <- El, <- Ex.
      * exfalso. destruct l2 as [|z l2]; [done|]. apply Forall_cons_iff in C2 as [[Cz _] _].
        assert (Hz : y !! length x = Some (zlen z)).
        { apply (f_equal (lookup (length x))) in E. rewrite lookup_app_l in E by lia. rewrite E, wire_cons. by apply list_lookup_middle. }
        apply (Forall_lookup_1 _ _ _ _ Cy') in Hz. lia.
Qed.

(* ------------------------------------------------------------------ *)
(** * The search for a name written before *)

(** A suffix of the name is the end of the target, before its jump. *)
Definition suffix_found (ls lt : list (list Z)) (tl off : Z) (wl to : Z) : Prop :=
  exists l1 l2 tp, ls = l1 ++ l2 /\ l2 <> [] /\ wl = zlen (encode l1) /\ to = u16 (off + tp) /\ 0 <= tp /\ tp + 2 < tl /\
    wire_name lt = take (Z.to_nat tp) (wire_name lt) ++ wire_name l2 /\ tp + zlen (wire_name l2) = zlen (wire_name lt).

Lemma compress_loop_ok fuel d t l1 l2 lt tl off : holds d (wire_name (l1 ++ l2)) -> holds t (wire_name lt) ->
  zlen (wire_name (l1 ++ l2)) <= 255 -> Forall wf_label l2 -> (S (length l2) <= fuel)%nat ->
  exists wl to, compress_loop fuel d t tl off (zlen (encode l1)) (zlen (encode l1)) = Ok (wl, to) /\
    ((wl = dlength d /\ to = off) \/ suffix_found (l1 ++ l2) lt tl off wl to).
Proof.
  revert l1 fuel. induction l2 as [|x l2 IH]; intros l1 fuel Hd Ht Hle Hf Hfuel; destruct (holds_length _ _ Hd) as [Ed _];
    destruct (holds_length _ _ Ht) as [Et Htl]; destruct fuel as [|fuel]; try (cbn [length] in Hfuel; lia); cbn [compress_loop].
  - assert (Ew : zlen (wire_name (l1 ++ [])) = zlen (encode l1) + 1).
    { rewrite app_nil_r. unfold wire_name. rewrite length_app. cbn. lia. }
    rewrite Ed, Ew. rewrite (proj2 (Z.ltb_lt _ _)) by lia. replace (zlen (encode l1) + 1 - zlen (encode l1)) with 1 by lia.
    change (u8 1) with 1. change (DOMAIN_JUMP_SIZE <? 1) with false. rewrite andb_false_r. cbn [andb mbind outcome_bind].
    rewrite (holds_rd d _ _ 0 Hd) by (try lia; rewrite app_nil_r, Nat2Z.id; by apply list_lookup_middle). cbn [mbind outcome_bind].
    rewrite Z.add_0_r, u8_small by (unfold is_u8; lia). exists (zlen (encode l1) + 1), off.
    destruct fuel; cbn [compress_loop]; rewrite Ed, Ew, Z.ltb_irrefl; (split; [done|]); by left.
  - assert (Ew : zlen (wire_name (l1 ++ x :: l2)) = zlen (encode l1) + zlen (wire_name (x :: l2))).
    { unfold wire_name. rewrite encode_app, <- app_assoc, length_app. lia. }
    apply Forall_cons_iff in Hf as [[Hx _] Hf]. assert (Hw3 : 3 <= zlen (wire_name (x :: l2))).
    { rewrite wire_cons, length_cons, length_app. pose proof (wire_pos l2). lia. }
    rewrite Ed, (proj2 (Z.ltb_lt _ _)) by lia. set (dl := zlen (wire_name (x :: l2))) in *.
    replace (zlen (wire_name (l1 ++ x :: l2)) - zlen (encode l1)) with dl by lia. rewrite (u8_small dl) by (unfold is_u8; lia).
    rewrite (proj2 (Z.ltb_lt DOMAIN_JUMP_SIZE dl)) by (unfold DOMAIN_JUMP_SIZE; lia). rewrite andb_true_r, Et.
    assert (Hnext : exists wl to, (labellen ← rd (dname d) (zlen (encode l1));
        compress_loop fuel d t tl off (u8 (zlen (encode l1) + 1 + labellen)) (zlen (encode l1) + 1 + labellen)) = Ok (wl, to) /\
        ((wl = dlength d /\ to = off) \/ suffix_found (l1 ++ x :: l2) lt tl off wl to)).
    { rewrite (holds_rd d _ _ (zlen x) Hd) by (try lia; unfold wire_name; rewrite encode_app, <- app_assoc, Nat2Z.id; by apply list_lookup_middle).
      cbn [mbind outcome_bind]. assert (Ee : zlen (encode l1) + 1 + zlen x = zlen (encode (l1 ++ [x]))).
      { rewrite encode_app, length_app. cbn [encode length]. rewrite app_nil_r. lia. }
      rewrite Ee. rewrite u8_small.
      2: { rewrite <- Ee. unfold is_u8, dl in *. rewrite wire_cons, length_cons, length_app in Ew. pose proof (wire_pos l2). lia. }
      replace (l1 ++ x :: l2) with ((l1 ++ [x]) ++ l2) in * by (by rewrite <- app_assoc).
      apply IH; try done. cbn [length] in Hfuel. lia. }
    rewrite Ed in Hnext. destruct (Z.leb_spec dl (zlen (wire_name lt))) as [Hcmp|Hcmp]; cbn [andb]; [|exact Hnext].
    rewrite u8_small by (unfold is_u8; lia). destruct (Z.leb_spec tl (zlen (wire_name lt) - dl + DOMAIN_JUMP_SIZE)) as [Hend|Hin].
    { exists (zlen (wire_name (l1 ++ x :: l2))), off. split; [done|]. by left. }
    rewrite (holds_rd_block d _ _ _ Hd) by lia. cbn [mbind outcome_bind].
    rewrite (holds_rd_block t _ _ _ Ht) by lia. cbn [mbind outcome_bind]. case_bool_decide as Hsame; [|exact Hnext].
    exists (zlen (encode l1)), (u16 (off + (zlen (wire_name lt) - dl))). split; [done|]. right.
    unfold DOMAIN_JUMP_SIZE in Hin. exists l1, (x :: l2), (zlen (wire_name lt) - dl). split_and!; try done; try lia.
    assert (E1 : take (Z.to_nat dl) (drop (Z.to_nat (zlen (encode l1))) (wire_name (l1 ++ x :: l2))) = wire_name (x :: l2)).
    { unfold wire_name. rewrite encode_app, <- app_assoc, Nat2Z.id, drop_app_length. apply take_ge. unfold dl, wire_name. lia. }
    rewrite E1 in Hsame. rewrite Hsame. rewrite (take_ge (drop _ _)) by (rewrite length_drop; lia). by rewrite take_drop.
Qed.

(** A name written before, which ends the reach of [fixed]. *)
Definition stored (mx : Z) (K : nat) (w : list Z) (off : Z) : Prop :=
  exists k lt n, SIZEOF_DNS_HDR <= off /\ (k <= K)%nat /\ fixed w k off lt n /\ clear mx lt.

(** Where a jump may go to. *)
Definition jump_found (K : nat) (w : list Z) (ls : list (list Z)) (wl to : Z) : Prop :=
  exists k l1 l2 n, ls = l1 ++ l2 /\ wl = zlen (encode l1) /\ l2 <> [] /\ SIZEOF_DNS_HDR <= to < zlen w /\ (k <= K)%nat /\ fixed w k to l2 n.

(** A packet in one pbuf whose first bytes, [w], are written. *)
Record one_pbuf (m : gmap Z pbuf) (bs : gmap Z Z) (p : Z) (b : pbuf) (w rest : list Z) : Prop := {
  op_chain : chain m p [(p, b)];
  op_packet : packet [(p, b)];
  op_content : content bs [(p, b)] (w ++ rest);
  op_bytes : Forall is_u8 (w ++ rest);
  op_short : zlen (w ++ rest) < 16384
}.

(** The first bytes of a packet may be counted otherwise. *)
Lemma one_pbuf_split m bs p b w1 w2 rest : one_pbuf m bs p b (w1 ++ w2) rest -> one_pbuf m bs p b w1 (w2 ++ rest).
Proof. intros []. by split; rewrite ?app_assoc. Qed.
Lemma one_pbuf_join m bs p b w1 w2 rest : one_pbuf m bs p b w1 (w2 ++ rest) -> one_pbuf m bs p b (w1 ++ w2) rest.
Proof. intros []. split; rewrite <- ?app_assoc; done. Qed.

Lemma compress_ok m bs p b w rest mx K off d ls : one_pbuf m bs p b w rest -> stored mx K w off -> off < zlen w ->
  holds d (wire_name ls) -> Forall wf_label ls -> clear mx ls -> zlen (wire_name ls) <= 255 ->
  exists wl to, mdns_compress_domain m bs p off d = Ok (wl, to) /\ (wl = dlength d \/ jump_found K w ls wl to).
Proof.
  intros [Hch Hp Hc Hu Hlen] (k & lt & n & Ho & Hk & Hfix & Hclear) How Hd Hf Hcl Hle. unfold SIZEOF_DNS_HDR in Ho.
  unfold mdns_compress_domain. pose proof Hch as (_ & Hp0 & _). rewrite (proj2 (Z.eqb_neq p 0)) by done.
  destruct (readname_ok m bs p [(p, b)] _ off Hch Hp Hc Hu ltac:(done) ltac:(lia)) as (r & t & E & _ & Hr); [rewrite length_app in Hlen; lia|].
  rewrite E. cbn [mbind outcome_bind]. destruct Hr as [[-> _]|(lt' & n' & (k' & Hk' & Hat & Hwl) & -> & Ht)].
  { exists (dlength d), off. split; [done|]. by left. }
  assert (Hpre : w `prefix_of` w ++ rest) by (by eexists).
  destruct (name_at_fun _ _ _ _ _ _ _ _ (Hfix _ Hpre) Hat) as (<- & <- & <-). pose proof (name_at_width _ _ _ _ _ Hat) as Hw.
  rewrite length_app in Hlen. rewrite (proj2 (Z.eqb_neq (off + n) _)) by (unfold MDNS_READNAME_ERROR; lia).
  replace (off + n - off) with n by lia.
  destruct (compress_loop_ok name_fuel d t [] ls lt (u8 n) off Hd Ht Hle Hf) as (wl & to & El & Hcase).
  { assert (Hls : (length ls <= length (wire_name ls))%nat); [|unfold name_fuel; lia]. clear. induction ls as [|x ls IH]; [cbn; lia|].
    rewrite wire_cons, !length_cons, length_app. lia. }
  cbn [encode length] in El. exists wl, to. split; [exact El|]. destruct Hcase as [[-> _]|(l1 & l2 & tp & Els & Hne & -> & -> & Htp & Htl & Esuf & Elen)]; [by left|right].
  cbn [app] in Els. assert (Hwt : Forall wf_label lt) by (by eapply name_at_wf). rewrite Els in Hf, Hcl. apply Forall_app in Hf as [_ Hf2].
  apply Forall_app in Hcl as [_ Hcl2]. destruct (align mx lt _ l2 Hwt Hf2 Hclear Hcl2 Hne Esuf) as (la & -> & Ela).
  assert (Etp : tp = zlen (encode la)).
  { rewrite <- Ela, length_take. lia. }
  assert (Hn : tp + 2 < n) by (unfold u8 in Htl; pose proof (Z.mod_le n 256); lia).
  assert (Hsuf : fixed w k (off + tp) l2 (n - tp)).
  { intros c Hcw. rewrite Etp. apply name_suffix; [by apply Hfix|lia]. }
  pose proof (Hsuf w ltac:(done)) as Hatw. exists k, l1, l2, (n - tp).
  assert (Hto : SIZEOF_DNS_HDR <= off + tp < zlen w).
  { unfold SIZEOF_DNS_HDR. split; [lia|]. destruct l2 as [|y l2]; [done|].
    inversion Hatw as [|? ? ? ? ? [? _] _ ? _ _ |? ? ? ? ? ? _ _ _ _ _]; subst; lia. }
  rewrite u16_small by (unfold is_u16, SIZEOF_DNS_HDR in *; lia). split_and!; done || lia.
Qed.

Lemma best_offset_ok m bs p b w rest mx K d ls offs wl jo : one_pbuf m bs p b w rest ->
  Forall (fun o => o = 0 \/ stored mx K w o /\ o < zlen w) offs ->
  holds d (wire_name ls) -> Forall wf_label ls -> clear mx ls -> zlen (wire_name ls) <= 255 ->
  (wl = dlength d /\ jo = 0) \/ jump_found K w ls wl jo ->
  exists wl' jo', best_offset m bs p d offs wl jo = Ok (wl', jo') /\ ((wl' = dlength d /\ jo' = 0) \/ jump_found K w ls wl' jo').
Proof.
  intros Hop Ho Hd Hf Hcl Hle. revert wl jo. induction Ho as [|o offs Ho _ IH]; intros wl jo Hacc; cbn [best_offset].
  { by exists wl, jo. }
  destruct (Z.eqb_spec o 0) as [->|Hne]; cbn [negb]; [by apply IH|]. destruct Ho as [?|[Hst How]]; [done|].
  destruct (compress_ok m bs p b w rest mx K o d ls Hop Hst How Hd Hf Hcl Hle) as (wl2 & to & E & Hc). rewrite E. cbn [mbind outcome_bind].
  destruct (Z.ltb_spec wl2 wl) as [Hlt|Hge]; [|by apply IH]. apply IH. destruct Hc as [->|Hc]; [exfalso|by right].
  destruct (holds_length _ _ Hd) as [Ed _]. destruct Hacc as [[-> _]|(k & l1 & l2 & n & -> & -> & _)]; [lia|].
  rewrite Ed in Hlt. unfold wire_name in Hlt. rewrite encode_app, !length_app in Hlt. lia.
Qed.

(* ------------------------------------------------------------------ *)
(** * Writing *)

Lemma content_one bs p b c : content bs [(p, b)] c <-> load_bytes bs (payload b) (Z.to_nat (len b)) = Ok c.
Proof.
  cbn [content]. split.
  - intros (c1 & c2 & -> & Hl & ->). by rewrite app_nil_r.
  - intros Hl. exists c, []. by rewrite app_nil_r.
Qed.

(** Bytes written behind [w]. *)
Lemma write_ok m bs p b w rest data n : one_pbuf m bs p b w rest -> 0 < n <= zlen rest -> n <= zlen data ->
  Forall is_u8 (take (Z.to_nat n) data) ->
  exists bs', pbuf_take_at m bs p data n (zlen w) = Ok (ERR_OK, bs') /\
    one_pbuf m bs' p b (w ++ take (Z.to_nat n) data) (drop (Z.to_nat n) rest) /\
    forall i, ~ (payload b <= i < payload b + len b) -> bs' !! i = bs !! i.
Proof.
  intros [Hch Hp Hc Hu Hlen] Hn Hdata Hud. pose proof Hch as (_ & Hp0 & Hb & Hnext). cbn [chain] in Hnext.
  pose proof (content_length _ _ _ Hc Hp) as Hl. pose proof Hp as (Et & [Hlb _] & _). unfold is_u16 in Hlb. cbn [lens foldr snd] in Hl, Et.
  rewrite length_app in Hl, Hlen. apply content_one in Hc. unfold pbuf_take_at, pbuf_skip, pbuf_skip_const. 
  assert (Es : skip_loop (chain_fuel m) m p (zlen w) = Ok (p, zlen w)).
  { unfold chain_fuel. cbn [skip_loop]. rewrite (proj2 (Z.eqb_neq p 0)) by done. unfold deref. rewrite Hb. cbn [mbind outcome_bind].
    by rewrite (proj2 (Z.leb_gt _ _)) by lia. }
  rewrite Es. cbn [mbind outcome_bind]. rewrite (proj2 (Z.eqb_neq p 0)) by done. unfold deref. rewrite Hb. cbn [mbind outcome_bind].
  rewrite (proj2 (Z.leb_le _ (tot_len b))) by lia. rewrite (proj2 (Z.ltb_lt _ (len b))) by lia. cbn [lwip_assert mbind outcome_bind].
  rewrite Z.min_r by lia. rewrite (u16_small n) by (unfold is_u16; lia). rewrite rd_block_in by lia. cbn [mbind outcome_bind].
  rewrite drop_0. set (d := take (Z.to_nat n) data) in *. assert (Hd : zlen d = n) by (unfold d; rewrite length_take; lia).
  apply load_bytes_ok in Hc as [Hcl Hc].
  destruct (store_bytes_ok bs (payload b + zlen w) d) as (bs' & E & Hbs').
  { intros i Hi. replace i with (payload b + Z.of_nat (Z.to_nat (i - payload b))) by lia. rewrite Hc by lia.
    apply lookup_lt_is_Some_2. rewrite length_app. lia. }
  rewrite E. cbn [mbind outcome_bind]. rewrite Z.sub_diag. change (u16 0) with 0. cbn [Z.ltb]. exists bs'. split; [done|]. split.
  - split; [done|done| | |].
    + apply content_one, load_bytes_ok. split; [rewrite !length_app, length_drop; lia|]. intros i Hi. rewrite Hbs'. rewrite <- app_assoc.
      destruct (Z.leb_spec (payload b + zlen w) (payload b + Z.of_nat i)) as [H1|H1]; cbn [andb].
      * rewrite lookup_app_r by lia. destruct (Z.ltb_spec (payload b + Z.of_nat i) (payload b + zlen w + zlen d)) as [H2|H2].
        -- rewrite lookup_app_l by lia. f_equal. lia.
        -- rewrite Hc, lookup_app_r, lookup_app_r, lookup_drop by lia. f_equal. lia.
      * rewrite Hc by lia. rewrite !lookup_app_l by lia. done.
    + rewrite Forall_app in Hu |- *. destruct Hu as [Hw Hr]. split; [by apply Forall_app|by apply Forall_drop].
    + rewrite !length_app, length_drop. lia.
  - intros i Hi. rewrite Hbs'. zcase; done.
Qed.

(** An outpacket: the pbuf, and where its names begin. *)
Record outpkt_ok (mx : Z) (K : nat) (m : gmap Z pbuf) (bs : gmap Z Z) (b : pbuf) (w rest : list Z) (o : mdns_outpacket) : Prop := {
  oo_pbuf : one_pbuf m bs (op_pbuf o) b w rest;
  oo_offset : write_offset o = zlen w;
  oo_header : SIZEOF_DNS_HDR <= zlen w;
  oo_names : Forall (fun off => off = 0 \/ stored mx K w off /\ off < zlen w) (domain_offsets o)
}.

Lemma stored_mono mx K w w' off : w `prefix_of` w' -> stored mx K w off -> stored mx (S K) w' off.
Proof.
  intros Hw (k & lt & n & Ho & Hk & Hf & Hc). exists k, lt, n. split_and!; [done|lia| |done]. by eapply fixed_mono.
Qed.

Lemma names_mono mx K w v offs : Forall (fun off => off = 0 \/ stored mx K w off /\ off < zlen w) offs ->
  Forall (fun off => off = 0 \/ stored mx (S K) (w ++ v) off /\ off < zlen (w ++ v)) offs.
Proof.
  intros H. eapply Forall_impl; [exact H|]. intros off [->|[Hs Hlt]]; [by left|right]. split; [|rewrite length_app; lia].
  eapply stored_mono; [|done]. by eexists.
Qed.

Lemma store_offset_ok (P : Z -> Prop) offs v : Forall P offs -> P v -> Forall P (store_offset offs v).
Proof. intros H Hv. induction H as [|o offs Ho H IH]; cbn [store_offset]; [done|]. destruct (o =? 0); by constructor. Qed.

Definition jump_bytes (to : Z) : list Z := [192 + to / 256; to mod 256].

Lemma jump_bytes_ok to : 0 <= to < 16384 ->
  let jump := lwip_htons (Z.lor DOMAIN_JUMP to) in [Z.shiftr jump 8; Z.land jump 0xff] = jump_bytes to /\ Forall is_u8 (jump_bytes to).
Proof.
  intros Hto jump. assert (E : jump = 49152 + to).
  { unfold jump, lwip_htons, DOMAIN_JUMP. rewrite (lor_low _ to 14); [apply u16_small; unfold is_u16; lia|lia|done|]. change (2 ^ 14) with 16384. lia. }
  rewrite E, Z.shiftr_div_pow2, land_255 by lia. change (2 ^ 8) with 256. unfold jump_bytes. clear E jump. split.
  - f_equal; [Z.div_mod_to_equations; lia|f_equal; Z.div_mod_to_equations; lia].
  - repeat constructor; unfold is_u8; Z.div_mod_to_equations; lia.
Qed.

(** The jump behind the labels [l1] that are written. *)
Lemma write_jump_ok mx K m bs b w rest o (to : Z) : outpkt_ok mx K m bs b w rest o -> SIZEOF_DNS_HDR <= to < 16384 -> 2 <= zlen rest ->
  exists bs', (let jump := lwip_htons (Z.lor DOMAIN_JUMP to) in
    '(res, bs) ← pbuf_take_at m bs (op_pbuf o) [Z.shiftr jump 8; Z.land jump 0xff] DOMAIN_JUMP_SIZE (write_offset o);
    if negb (res =? ERR_OK) then Ok (res, bs, o)
    else Ok (ERR_OK, bs, set_write_offset (u16 (write_offset o + DOMAIN_JUMP_SIZE)) o)) =
      Ok (ERR_OK, bs', set_write_offset (zlen w + 2) o) /\
    outpkt_ok mx (S K) m bs' b (w ++ jump_bytes to) (drop 2 rest) (set_write_offset (zlen w + 2) o) /\
    forall i, ~ (payload b <= i < payload b + len b) -> bs' !! i = bs !! i.
Proof.
  intros [Hop Ho Hh Hn] Hto Hr. unfold SIZEOF_DNS_HDR in Hto. destruct (jump_bytes_ok to ltac:(lia)) as [Ej Hj]. cbv zeta in Ej |- *. rewrite Ej, Ho.
  destruct (write_ok _ _ _ _ _ _ (jump_bytes to) DOMAIN_JUMP_SIZE Hop) as (bs' & E & Hop' & Hout); [unfold DOMAIN_JUMP_SIZE; lia|done|done|].
  rewrite E. cbn [mbind outcome_bind]. rewrite Z.eqb_refl. cbn [negb]. exists bs'. pose proof (op_short _ _ _ _ _ _ Hop) as Hs. rewrite length_app in Hs.
  unfold DOMAIN_JUMP_SIZE. rewrite u16_small by (unfold is_u16; lia). split; [done|]. split; [|done]. split; cbn [op_pbuf write_offset domain_offsets set_write_offset].
  - exact Hop'.
  - rewrite length_app. cbn. lia.
  - rewrite length_app. lia.
  - by apply names_mono.
Qed.

(** The labels [l1] and, when nothing else follows, the root. *)
Lemma write_labels_ok mx K m bs b w rest o d v tail : outpkt_ok mx K m bs b w rest o -> holds d (v ++ tail) -> 0 < zlen v <= zlen rest ->
  Forall is_u8 v ->
  let o' := set_write_offset (zlen w + zlen v) (set_domain_offsets (store_offset (domain_offsets o) (zlen w)) o) in
  exists bs', ('(res, bs) ← pbuf_take_at m bs (op_pbuf o) (dname d) (zlen v) (write_offset o);
    if negb (res =? ERR_OK) then Ok (res, bs, o)
    else Ok (ERR_OK, bs, set_write_offset (u16 (write_offset o + zlen v))
           (set_domain_offsets (store_offset (domain_offsets o) (write_offset o)) o))) = Ok (ERR_OK, bs', o') /\
    one_pbuf m bs' (op_pbuf o) b (w ++ v) (drop (length v) rest) /\
    forall i, ~ (payload b <= i < payload b + len b) -> bs' !! i = bs !! i.
Proof.
  intros [Hop Ho Hh Hn] Hd Hv Hu o'. rewrite Ho. destruct (holds_length _ _ Hd) as [_ Hl]. pose proof Hd as (r & Er & _).
  assert (Ht : take (Z.to_nat (zlen v)) (dname d) = v) by (by rewrite Er, <- app_assoc, Nat2Z.id, take_app_length).
  destruct (write_ok _ _ _ _ _ _ (dname d) (zlen v) Hop ltac:(lia)) as (bs' & E & Hop' & Hout); [rewrite Er, !length_app; lia|by rewrite Ht|].
  rewrite E. cbn [mbind outcome_bind]. rewrite Z.eqb_refl. cbn [negb]. exists bs'. pose proof (op_short _ _ _ _ _ _ Hop) as Hs. rewrite length_app in Hs.
  rewrite u16_small by (unfold is_u16; lia). split; [done|]. split; [|done]. by rewrite Ht, Nat2Z.id in Hop'.
Qed.

(** The packet's counts are not touched. *)
Definition same_counts (o o' : mdns_outpacket) : Prop :=
  op_pbuf o' = op_pbuf o /\ op_questions o' = op_questions o /\ op_answers o' = op_answers o /\
  op_authoritative o' = op_authoritative o /\ op_additional o' = op_additional o.

(** The names written before, all of them in [u]. *)
Definition names_in (mx : Z) (K : nat) (u : list Z) (offs : list Z) : Prop :=
  Forall (fun off => off = 0 \/ stored mx K u off /\ off < zlen u) offs.

(** What writing the name [ls] behind [w] gives. The name stays whatever
    becomes of the bytes of [w] behind [u]. *)
Definition written (mx : Z) (K : nat) (m : gmap Z pbuf) (bs : gmap Z Z) (b : pbuf) (u w rest : list Z) (o : mdns_outpacket)
    (ls : list (list Z)) (r : outcome (Z * gmap Z Z * mdns_outpacket)) : Prop :=
  exists bs' o' v k, r = Ok (ERR_OK, bs', o') /\ outpkt_ok mx (S K) m bs' b (w ++ v) (drop (length v) rest) o' /\
    same_counts o o' /\ zlen v <= zlen (wire_name ls) /\ (k <= S K)%nat /\
    (forall w', u `prefix_of` w' -> length w' = length w -> fixed (w' ++ v) k (zlen w) ls (zlen v) /\ names_in mx (S K) (w' ++ v) (domain_offsets o')) /\
    forall i, ~ (payload b <= i < payload b + len b) -> bs' !! i = bs !! i.

Lemma wire_app l1 l2 : wire_name (l1 ++ l2) = encode l1 ++ wire_name l2.
Proof. unfold wire_name. by rewrite encode_app, <- app_assoc. Qed.

Lemma fixed_whole w ls : Forall wf_label ls -> fixed (w ++ wire_name ls) 0 (zlen w) ls (zlen (wire_name ls)).
Proof.
  intros Hf. pose proof (fixed_root (w ++ encode ls) []) as H. rewrite <- app_assoc, length_app in H.
  rewrite Nat2Z.inj_add in H. apply fixed_labels in H; [|done]. rewrite app_nil_r in H.
  unfold wire_name at 2. rewrite length_app. rewrite Nat2Z.inj_add. exact H.
Qed.

Lemma fixed_jumping w l1 k to l2 n : Forall wf_label l1 -> SIZEOF_DNS_HDR <= to < zlen w -> to < 16384 -> fixed w k to l2 n ->
  fixed (w ++ encode l1 ++ jump_bytes to) (S k) (zlen w) (l1 ++ l2) (zlen (encode l1) + 2).
Proof.
  intros Hf Hto Hto2 H. apply fixed_labels; [done|]. rewrite app_assoc, <- Nat2Z.inj_add, <- length_app.
  apply (fixed_jump _ to [] k l2 n); [rewrite length_app; lia|done|]. eapply fixed_mono; [|exact H]. rewrite <- app_assoc. by eexists.
Qed.

Section Write.
Context (mx : Z) (K : nat) (m : gmap Z pbuf) (bs : gmap Z Z) (b : pbuf) (u w rest : list Z) (o : mdns_outpacket).
Context (Hpre : u `prefix_of` w) (Hnames : names_in mx K u (domain_offsets o)).
Context (d : mdns_domain) (ls : list (list Z)).
Context (Hok : outpkt_ok mx K m bs b w rest o) (Hd : holds d (wire_name ls)) (Hf : Forall wf_label ls) (Hcl : clear mx ls).
Context (Hle : zlen (wire_name ls) <= 255) (Hroom : zlen (wire_name ls) <= zlen rest).

(** Behind the choice of a jump. *)
Definition write_from (writelen jump_offset : Z) : outcome (Z * gmap Z Z * mdns_outpacket) :=
  '(res, bs, outpkt) ←
    (if negb (writelen =? 0) then
       '(res, bs) ← pbuf_take_at m bs (op_pbuf o) (dname d) writelen (write_offset o);
       if negb (res =? ERR_OK) then Ok (res, bs, o)
       else Ok (ERR_OK, bs, set_write_offset (u16 (write_offset o + writelen))
              (set_domain_offsets (store_offset (domain_offsets o) (write_offset o)) o))
     else Ok (ERR_OK, bs, o));
  if negb (res =? ERR_OK) then Ok (res, bs, outpkt)
  else if negb (jump_offset =? 0) then
    let jump := lwip_htons (Z.lor DOMAIN_JUMP jump_offset) in
    '(res, bs) ← pbuf_take_at m bs (op_pbuf outpkt) [Z.shiftr jump 8; Z.land jump 0xff] DOMAIN_JUMP_SIZE (write_offset outpkt);
    if negb (res =? ERR_OK) then Ok (res, bs, outpkt)
    else Ok (ERR_OK, bs, set_write_offset (u16 (write_offset outpkt + DOMAIN_JUMP_SIZE)) outpkt)
  else Ok (ERR_OK, bs, outpkt).

Lemma names_kept w' v : u `prefix_of` w' -> names_in mx (S K) (w' ++ v) (domain_offsets o).
Proof using Hnames.
  intros [x ->]. apply names_mono. eapply Forall_impl; [exact Hnames|]. intros off [->|[(k' & lt & n' & Ho & Hk' & Hst & Hc) Hlt]]; [by left|right].
  split; [|rewrite length_app; clear - Hlt; lia]. exists k', lt, n'. split_and!; try done. eapply fixed_mono; [|exact Hst]. by eexists.
Qed.

(** The new name's offset among the others'. *)
Lemma names_new k w' v n : (k <= S K)%nat -> u `prefix_of` w' -> length w' = length w -> 0 < zlen v ->
  fixed (w' ++ v) k (zlen w) ls n -> names_in mx (S K) (w' ++ v) (store_offset (domain_offsets o) (zlen w)).
Proof using Hok Hcl Hnames.
  intros Hk Hu' Hlen Hv Hfix. apply store_offset_ok; [by apply names_kept|].
  right. split; [|rewrite length_app; lia]. exists k, ls, n. split_and!; try done. apply (oo_header _ _ _ _ _ _ _ _ Hok).
Qed.

Lemma write_whole : written mx K m bs b u w rest o ls (write_from (dlength d) 0).
Proof using Type*.
  destruct (holds_length _ _ Hd) as [Ed _]. pose proof (wire_pos ls) as Hpos.
  assert (Hu : Forall is_u8 (wire_name ls)) by (apply Forall_app; split; [by apply encode_u8|repeat constructor; unfold is_u8; lia]).
  rewrite <- (app_nil_r (wire_name ls)) in Hd.
  destruct (write_labels_ok mx K m bs b w rest o d _ [] Hok Hd ltac:(lia) Hu) as (bs' & E & Hop & Hout).
  unfold write_from. rewrite Ed, (proj2 (Z.eqb_neq (zlen (wire_name ls)) 0)) by lia. cbn [negb]. rewrite E. cbn [mbind outcome_bind]. rewrite Z.eqb_refl. cbn [negb Z.eqb].
  assert (Hfix : forall w', length w' = length w -> fixed (w' ++ wire_name ls) 0 (zlen w) ls (zlen (wire_name ls)))
    by (intros w' <-; by apply fixed_whole).
  destruct Hok as [_ Ho Hh Hn].
  eexists bs', _, (wire_name ls), 0%nat. split; [reflexivity|]. split_and!; try done; try lia;
    cbn [write_offset domain_offsets set_write_offset set_domain_offsets].
  - split; [exact Hop| | |]; cbn [write_offset domain_offsets set_write_offset set_domain_offsets]; [rewrite length_app; lia..|].
    eapply names_new; [|done|done|done|by apply Hfix]. lia.
  - intros w' Hw' Hlen. split; [by apply Hfix|]. eapply names_new; [|done|done|done|by apply Hfix]. lia.
Qed.

Lemma write_jumping wl to : jump_found K u ls wl to -> written mx K m bs b u w rest o ls (write_from wl to).
Proof using Type*.
  intros (k & l1 & l2 & n & Els & -> & Hne & Hto & Hk & Hfix). rewrite Els, wire_app in Hd, Hroom. rewrite Els in Hf.
  apply Forall_app in Hf as [Hf1 Hf2]. pose proof Hok as [Hop Ho Hh Hn]. pose proof (op_short _ _ _ _ _ _ Hop) as Hs. rewrite length_app in Hs, Hroom.
  assert (Hw3 : 3 <= zlen (wire_name l2)).
  { destruct l2 as [|x l2]; [done|]. apply Forall_cons_iff in Hf2 as [[? _] _]. rewrite wire_cons, length_cons, length_app. pose proof (wire_pos l2). lia. }
  pose proof Hpre as [x Ex]. assert (Huw : zlen u <= zlen w) by (rewrite Ex, length_app; lia).
  assert (Hnew : forall w', u `prefix_of` w' -> length w' = length w ->
    fixed (w' ++ encode l1 ++ jump_bytes to) (S k) (zlen w) ls (zlen (encode l1) + 2)).
  { intros w' Hw' <-. rewrite Els. assert (Hlu : (length u <= length w')%nat) by (destruct Hw' as [y ->]; rewrite length_app; lia).
    eapply (fixed_jumping w' l1 k to l2 n); try done; unfold SIZEOF_DNS_HDR in *; try lia. by eapply fixed_mono. }
  assert (Hto2 : SIZEOF_DNS_HDR <= to < 16384) by lia. assert (Ewl : zlen (wire_name ls) = zlen (encode l1) + zlen (wire_name l2)).
  { rewrite Els, wire_app, length_app. lia. }
  assert (Hj0 : (to =? 0) = false) by (apply Z.eqb_neq; unfold SIZEOF_DNS_HDR in *; lia).
  unfold write_from. destruct (Z.eqb_spec (zlen (encode l1)) 0) as [E0|Hne0]; cbn [negb].
  - destruct l1 as [|y l1]; [|cbn [encode length] in E0; lia]. cbn [mbind outcome_bind]. rewrite Z.eqb_refl, Hj0. cbn [negb].
    destruct (write_jump_ok mx K m bs b w rest o to Hok Hto2 ltac:(lia)) as (bs' & E & Hok' & Hout). cbv zeta in E |- *. rewrite E.
    eexists bs', _, (jump_bytes to), (S k). split; [reflexivity|]. split_and!; try done; try lia.
    + change (zlen (jump_bytes to)) with 2. lia.
    + intros w' Hw' Hlen. split; [by apply Hnew|by apply names_kept].
  - assert (Hu : Forall is_u8 (encode l1)) by (by apply encode_u8).
    destruct (write_labels_ok mx K m bs b w rest o d _ _ Hok Hd ltac:(lia) Hu) as (bs1 & E1 & Hop1 & Hout1).
    rewrite E1. cbn [mbind outcome_bind]. rewrite Z.eqb_refl, Hj0. cbn [negb]. set (o1 := set_write_offset _ _).
    assert (Hok1 : outpkt_ok mx K m bs1 b (w ++ encode l1) (drop (length (encode l1)) rest)
      (set_domain_offsets [] o1)).
    { split; [exact Hop1| | |constructor]; cbn [write_offset set_domain_offsets o1 set_write_offset]; rewrite length_app; lia. }
    destruct (write_jump_ok _ _ _ _ _ _ _ _ to Hok1 Hto2) as (bs2 & E2 & [Hop2 Ho2 Hh2 _] & Hout2); [rewrite length_drop; lia|].
    cbn [op_pbuf write_offset set_domain_offsets set_write_offset o1] in E2, Hop2, Ho2. cbv zeta in E2 |- *.
    destruct (pbuf_take_at m bs1 (op_pbuf o) _ DOMAIN_JUMP_SIZE _) as [[res bs3]|f] eqn:Et; [|done]. cbn [mbind outcome_bind] in E2.
    cbn [op_pbuf write_offset o1 set_write_offset set_domain_offsets]. rewrite Et. cbn [mbind outcome_bind].
    destruct (negb (res =? ERR_OK)) eqn:Er; [by injection E2 as -> ? _; rewrite Z.eqb_refl in Er|]. injection E2 as -> Eoff.
    eexists bs2, _, (encode l1 ++ jump_bytes to), (S k). split; [reflexivity|].
    assert (Elen : zlen (encode l1 ++ jump_bytes to) = zlen (encode l1) + 2) by (rewrite length_app; cbn; lia).
    rewrite Elen. assert (Hnn : forall w', u `prefix_of` w' -> length w' = length w ->
      names_in mx (S K) (w' ++ encode l1 ++ jump_bytes to) (store_offset (domain_offsets o) (zlen w))).
    { intros w' Hw' Hl. eapply names_new; [|done|done|lia|by apply Hnew]. lia. }
    split_and!; try done; try lia; cbn [op_pbuf write_offset domain_offsets set_write_offset set_domain_offsets o1].
    + split; cbn [op_pbuf write_offset domain_offsets set_write_offset set_domain_offsets o1].
      * rewrite app_assoc, length_app, <- drop_drop. exact Hop2.
      * rewrite Eoff, Ho2, <- app_assoc. done.
      * rewrite length_app. lia.
      * by apply Hnn.
    + intros w' Hw' Hl. split; [by apply Hnew|by apply Hnn].
    + intros i Hi. rewrite Hout2, Hout1; done.
Qed.

Lemma write_domain_hole : written mx K m bs b u w rest o ls (mdns_write_domain m bs o d).
Proof using Type*.
  change (mdns_write_domain m bs o d) with ('(writelen, jump_offset) ←
    (if skip_compression d =? 0 then best_offset m bs (op_pbuf o) d (domain_offsets o) (dlength d) 0 else Ok (dlength d, 0));
    write_from writelen jump_offset).
  destruct (skip_compression d =? 0); [|exact write_whole].
  pose proof Hpre as [x Ex]. pose proof (oo_pbuf _ _ _ _ _ _ _ _ Hok) as Hop. rewrite Ex in Hop. apply one_pbuf_split in Hop.
  destruct (best_offset_ok m bs (op_pbuf o) b u _ mx K d ls (domain_offsets o) (dlength d) 0 Hop Hnames Hd Hf Hcl Hle) as (wl & jo & E & H); [by left|].
  rewrite E. cbn [mbind outcome_bind]. destruct H as [[-> ->]|H]; [exact write_whole|by apply write_jumping].
Qed.
End Write.

(** Without bytes to be changed. *)
Lemma write_domain_ok mx K m bs b w rest o d ls : outpkt_ok mx K m bs b w rest o -> holds d (wire_name ls) -> Forall wf_label ls ->
  clear mx ls -> zlen (wire_name ls) <= 255 -> zlen (wire_name ls) <= zlen rest ->
  written mx K m bs b w w rest o ls (mdns_write_domain m bs o d).
Proof. intros Hok. intros. apply write_domain_hole; try done. apply (oo_names _ _ _ _ _ _ _ _ Hok). Qed.

(* ------------------------------------------------------------------ *)
(** * Property *)

(** C10: A name that [mdns_write_domain] puts into a packet is read back by
    [mdns_readname], which ends where writing goes on: whole or compressed
    against any of the names written before, the name is the same, takes at
    most its uncompressed length, and every name written before can still be
    jumped to. (Names whose characters could be taken for lengths are
    excluded: all labels are at most [mx] long and made of codes above
    [mx]; the packet has one pbuf, names have at most 255 bytes, and those
    written before take at most four jumps to read.) *)
Theorem mdns_name_roundtrip mx K m bs b w rest o d ls : outpkt_ok mx K m bs b w rest o -> (K <= 4)%nat ->
  holds d (wire_name ls) -> Forall wf_label ls -> clear mx ls -> dlength d <= 255 -> write_offset o + dlength d <= tot_len b ->
  exists bs' o' d' v, mdns_write_domain m bs o d = Ok (ERR_OK, bs', o') /\
    mdns_readname m bs' (op_pbuf o) (write_offset o) = Ok (write_offset o', d') /\ holds d' (wire_name ls) /\
    write_offset o' <= write_offset o + dlength d /\ outpkt_ok mx (S K) m bs' b (w ++ v) (drop (length v) rest) o'.
Proof.
  intros Hok HK Hd Hf Hcl Hle Hroom. destruct (holds_length _ _ Hd) as [Ed _]. pose proof Hok as [Hop Ho Hh _].
  pose proof (content_length _ _ _ (op_content _ _ _ _ _ _ Hop) (op_packet _ _ _ _ _ _ Hop)) as Hl.
  destruct (op_packet _ _ _ _ _ _ Hop) as (Et & _). cbn [lens foldr snd] in Hl, Et. rewrite length_app in Hl.
  destruct (write_domain_ok mx K m bs b w rest o d ls Hok Hd Hf Hcl ltac:(lia) ltac:(lia)) as
    (bs' & o' & v & k & E & Hok' & (Ep & _) & Hv & Hk & Hw & _). destruct (Hw w ltac:(done) ltac:(done)) as [Hfix _].
  pose proof Hok' as [[Hch Hp Hc Hu Hs] Ho' _ _]. rewrite Ep in Hch. rewrite length_app in Ho', Hs. rewrite length_app in Hs.
  destruct (readname_ok m bs' (op_pbuf o) [(op_pbuf o, b)] _ (zlen w) Hch ltac:(by rewrite Ep in Hp) ltac:(by rewrite Ep in Hc) Hu ltac:(done))
    as (r & d' & Er & _ & Hr); [rewrite !length_app; lia|lia|].
  assert (Hpre : w ++ v `prefix_of` (w ++ v) ++ drop (length v) rest) by (by eexists). pose proof (Hfix _ Hpre) as Hat.
  exists bs', o', d', v. destruct Hr as [[_ Hno]|(ls' & n & (k' & Hk' & Hat' & _) & -> & Hd')].
  - destruct (Hno ls (zlen v)). exists k. split; [lia|]. split; [exact Hat|]. lia.
  - destruct (name_at_fun _ _ _ _ _ _ _ _ Hat Hat') as (<- & <- & <-).
    rewrite Ho, Ho', Er. split_and!; try done; try lia. do 2 f_equal. lia.
Qed.

(** A packet that holds can.local; x.local is written behind it. *)
Definition rt_labels : list (list Z) := [[99; 97; 110]; TOPDOMAIN_LOCAL].
Definition rt_head : list Z := replicate 12 0 ++ wire_name rt_labels.
Definition rt_rest : list Z := replicate 40 0.
Definition rt_pbuf : pbuf := mk_pbuf 0 0x1000 63 63 0 0 1 0.
Definition rt_pbufs : gmap Z pbuf := {[0x100 := rt_pbuf]}.
Definition rt_mem : gmap Z Z := list_to_map (zip (seqZ 0x1000 63) (rt_head ++ rt_rest)).
Definition rt_outpkt : mdns_outpacket := mk_outpacket 0x100 23 0 1 0 0 (12 :: replicate 9 0).

Lemma rt_ok : outpkt_ok 44 0 rt_pbufs rt_mem rt_pbuf rt_head rt_rest rt_outpkt.
Proof.
  assert (Hf : Forall wf_label rt_labels) by (repeat constructor; try (cbn; lia); unfold is_u8; lia).
  split.
  - split.
    + vm_compute. by split_and!.
    + unfold packet, wf_pbuf, is_u16, is_u8. simpl. lia.
    + apply content_one. vm_compute. reflexivity.
    + repeat constructor; unfold is_u8; lia.
    + vm_compute. reflexivity.
  - reflexivity.
  - vm_compute. discriminate.
  - constructor; [right|by repeat constructor; left]. split; [|by vm_compute].
    exists 0%nat, rt_labels, (zlen (wire_name rt_labels)). split_and!; [by vm_compute|lia| |].
    + apply (fixed_whole (replicate 12 0)). exact Hf.
    + repeat constructor; try (cbn; lia); lia.
Qed.

Lemma mdns_name_roundtrip_witness :
  exists bs' o' d', mdns_write_domain rt_pbufs rt_mem rt_outpkt (can_domain [120]) = Ok (ERR_OK, bs', o') /\ write_offset o' = 27 /\
    mdns_readname rt_pbufs bs' 0x100 23 = Ok (27, d') /\ holds d' (wire_name [[120]; TOPDOMAIN_LOCAL]).
Proof.
  destruct (build_host_ok [120]) as (d & E & Hd & _); [split; [cbn; lia|repeat constructor; unfold is_u8; lia]|].
  assert (Ed : can_domain [120] = d) by (unfold can_domain; by rewrite E). rewrite <- Ed in Hd. clear d E Ed.
  assert (Hf : Forall wf_label [[120]; TOPDOMAIN_LOCAL]) by (repeat constructor; try (cbn; lia); unfold is_u8; lia).
  assert (Hcl : clear 44 [[120]; TOPDOMAIN_LOCAL]) by (repeat constructor; try (cbn; lia); lia).
  destruct (mdns_name_roundtrip 44 0 rt_pbufs rt_mem rt_pbuf rt_head rt_rest rt_outpkt (can_domain [120]) _ rt_ok ltac:(lia) Hd Hf Hcl
    ltac:(vm_compute; discriminate) ltac:(vm_compute; discriminate)) as (bs' & o' & d' & v & E & Er & Hd' & _).
  assert (Eo : match mdns_write_domain rt_pbufs rt_mem rt_outpkt (can_domain [120]) with Ok (_, _, o) => write_offset o = 27 | _ => False end)
    by (vm_compute; reflexivity).
  rewrite E in Eo. exists bs', o', d'. split; [exact E|]. split; [exact Eo|]. rewrite Eo in Er. split; [exact Er|exact Hd'].
Defined.
