(* ===== verification/MdnsOut.v ===== *)
(** Messages of the mDNS responder: apps/mdns/mdns_out.c. Records are written
    into an outgoing packet, packets are put together from the masks of a
    message and sent, and the timers that spread multicast messages.

    The state of the responder lies beside that of the stack and under the
    timers: the structures of hosts and services by address, and for each
    interface the host that is its client data. *)

From Stdlib Require Import ZArith Lia.
From stdpp Require Import base list numbers gmap.
From S2P Require Import Prelude Mmio Mem Memp Timeouts Pbuf Ip6Addr Chksum Udp Netif Ip6Out Mld6 Addrs Nd6 Stack MdnsDomain.

Open Scope Z_scope.

(* ------------------------------------------------------------------ *)
(** * Structures *)

Definition MDNS_OUTPUT_PACKET_SIZE : Z := 1450.
Definition LWIP_IANA_PORT_MDNS : Z := 5353.
Definition SRV_PRIORITY : Z := 0.
Definition SRV_WEIGHT : Z := 0.
Definition MDNS_TTL_10 : Z := 10.
Definition MDNS_TTL_120 : Z := 120.
Definition MDNS_TTL_4500 : Z := 4500.
Definition MDNS_MULTICAST_TIMEOUT : Z := 1000.
Definition MDNS_MULTICAST_PROBE_TIMEOUT : Z := 250.
Definition MDNS_MULTICAST_TIMEOUT_25TTL : Z := 30000.

Definition QUESTION_PROBE_HOST_ANY : Z := 0x10.
Definition QUESTION_PROBE_SERVICE_NAME_ANY : Z := 0x10.
Definition REPLY_HOST_AAAA : Z := 0x04.
Definition REPLY_HOST_PTR_V6 : Z := 0x08.
Definition REPLY_SERVICE_TYPE_PTR : Z := 0x10.
Definition REPLY_SERVICE_NAME_PTR : Z := 0x20.
Definition REPLY_SERVICE_SRV : Z := 0x40.
Definition REPLY_SERVICE_TXT : Z := 0x80.

Definition DNS_RRTYPE_PTR : Z := 12.
Definition DNS_RRTYPE_TXT : Z := 16.
Definition DNS_RRTYPE_AAAA : Z := 28.
Definition DNS_RRTYPE_SRV : Z := 33.
Definition DNS_RRTYPE_ANY : Z := 255.
Definition DNS_RRCLASS_IN : Z := 1.
Definition DNS_RRCLASS_ANY : Z := 255.
Definition DNS_FLAG1_RESPONSE : Z := 0x80.
Definition DNS_FLAG1_AUTHORATIVE : Z := 0x04.
Definition DNS_FLAG1_TRUNC : Z := 0x02.

(** A bit of a mask is set. *)
Definition has (mask bit : Z) : bool := negb (Z.land mask bit =? 0).

Record mdns_outmsg := mk_outmsg {
  m_tx_id : Z;
  m_flags : Z;
  m_dest_addr : ip6_addr;
  m_dest_port : Z;
  m_cache_flush : Z;
  unicast_reply_requested : Z;
  legacy_query : Z;
  probe_query_recv : Z;
  host_questions : Z;
  serv_questions : list Z;
  host_replies : Z;
  host_reverse_v6_replies : Z;
  serv_replies : list Z;
  m_query : option mdns_request
}.

(** [memset(&msg, 0, sizeof(msg))]. *)
Definition zero_outmsg : mdns_outmsg :=
  mk_outmsg 0 0 IP6_ADDR_ANY6 0 0 0 0 0 0 (replicate 4 0) 0 0 (replicate 4 0) None.

Definition set_m_tx_id v m := match m with mk_outmsg _ b c d e f g h i j k l x y => mk_outmsg v b c d e f g h i j k l x y end.
Definition set_m_flags v m := match m with mk_outmsg a _ c d e f g h i j k l x y => mk_outmsg a v c d e f g h i j k l x y end.
Definition set_m_dest v p m := match m with mk_outmsg a b _ _ e f g h i j k l x y => mk_outmsg a b v p e f g h i j k l x y end.
Definition set_m_cache_flush v m := match m with mk_outmsg a b c d _ f g h i j k l x y => mk_outmsg a b c d v f g h i j k l x y end.
Definition set_unicast_requested v m := match m with mk_outmsg a b c d e _ g h i j k l x y => mk_outmsg a b c d e v g h i j k l x y end.
Definition set_legacy_query v m := match m with mk_outmsg a b c d e f _ h i j k l x y => mk_outmsg a b c d e f v h i j k l x y end.
Definition set_probe_query_recv v m := match m with mk_outmsg a b c d e f g _ i j k l x y => mk_outmsg a b c d e f g v i j k l x y end.
Definition set_host_questions v m := match m with mk_outmsg a b c d e f g h _ j k l x y => mk_outmsg a b c d e f g h v j k l x y end.
Definition set_serv_questions v m := match m with mk_outmsg a b c d e f g h i _ k l x y => mk_outmsg a b c d e f g h i v k l x y end.
Definition set_host_replies v m := match m with mk_outmsg a b c d e f g h i j _ l x y => mk_outmsg a b c d e f g h i j (u8 v) l x y end.
Definition set_host_reverse v m := match m with mk_outmsg a b c d e f g h i j k _ x y => mk_outmsg a b c d e f g h i j k (u8 v) x y end.
Definition set_serv_replies v m := match m with mk_outmsg a b c d e f g h i j k l _ y => mk_outmsg a b c d e f g h i j k l v y end.
Definition set_m_query v m := match m with mk_outmsg a b c d e f g h i j k l x _ => mk_outmsg a b c d e f g h i j k l x v end.

Record mdns_delayed_msg := mk_delayed {
  multicast_msg_waiting : Z;
  multicast_timeout : Z;
  multicast_probe_timeout : Z;
  delayed_msg_multicast : mdns_outmsg;
  multicast_timeout_25TTL : Z;
  unicast_msg_in_use : Z;
  delayed_msg_unicast : mdns_outmsg
}.
Definition set_msg_waiting v d := match d with mk_delayed _ b c e f g i => mk_delayed v b c e f g i end.
Definition set_multicast_timeout v d := match d with mk_delayed a _ c e f g i => mk_delayed a v c e f g i end.
Definition set_probe_timeout v d := match d with mk_delayed a b _ e f g i => mk_delayed a b v e f g i end.
Definition set_delayed_multicast v d := match d with mk_delayed a b c _ f g i => mk_delayed a b c v f g i end.
Definition set_timeout_25TTL v d := match d with mk_delayed a b c e _ g i => mk_delayed a b c e v g i end.
Definition set_unicast_in_use v d := match d with mk_delayed a b c e f _ i => mk_delayed a b c e f v i end.
Definition set_delayed_unicast v d := match d with mk_delayed a b c e f g _ => mk_delayed a b c e f g v end.

Inductive mdns_resp_state_enum_t :=
| MDNS_STATE_OFF | MDNS_STATE_PROBE_WAIT | MDNS_STATE_PROBING | MDNS_STATE_ANNOUNCE_WAIT | MDNS_STATE_ANNOUNCING
| MDNS_STATE_COMPLETE.
#[export] Instance mdns_state_eq_dec : EqDecision mdns_resp_state_enum_t.
Proof. solve_decision. Defined.

(** The services are addresses, NULL is 0. *)
Record mdns_host := mk_host {
  h_name : list Z;
  h_services : list Z;
  sent_num : Z;
  mstate : mdns_resp_state_enum_t;
  ipv6 : mdns_delayed_msg;
  conflict_time : list Z;
  rate_limit_activated : Z;
  h_index : Z;
  num_conflicts : Z
}.
Definition set_h_name v x := match x with mk_host _ b c d e f g h i => mk_host v b c d e f g h i end.
Definition set_h_services v x := match x with mk_host a _ c d e f g h i => mk_host a v c d e f g h i end.
Definition set_sent_num v x := match x with mk_host a b _ d e f g h i => mk_host a b (u8 v) d e f g h i end.
Definition set_mstate v x := match x with mk_host a b c _ e f g h i => mk_host a b c v e f g h i end.
Definition set_ipv6 f' x := match x with mk_host a b c d e f g h i => mk_host a b c d (f' e) f g h i end.
Definition set_conflict_time v x := match x with mk_host a b c d e _ g h i => mk_host a b c d e v g h i end.
Definition set_rate_limit v x := match x with mk_host a b c d e f _ h i => mk_host a b c d e f v h i end.
Definition set_h_index v x := match x with mk_host a b c d e f g _ i => mk_host a b c d e f g v i end.
Definition set_num_conflicts v x := match x with mk_host a b c d e f g h _ => mk_host a b c d e f g h (u8 v) end.

Definition zero_delayed : mdns_delayed_msg := mk_delayed 0 0 0 zero_outmsg 0 0 zero_outmsg.
Definition zero_host : mdns_host := mk_host [] (replicate 4 0) 0 MDNS_STATE_OFF zero_delayed (replicate 15 0) 0 0 0.

Definition set_txtdata v s := match s with mk_service _ b c d e f g => mk_service v b c d e f g end.
Definition set_sv_name v s := match s with mk_service a _ c d e f g => mk_service a v c d e f g end.

Definition set_op_pbuf v o := match o with mk_outpacket _ b c d e f g => mk_outpacket v b c d e f g end.
Definition set_op_questions v o := match o with mk_outpacket a b _ d e f g => mk_outpacket a b (u16 v) d e f g end.
Definition set_op_answers v o := match o with mk_outpacket a b c _ e f g => mk_outpacket a b c (u16 v) e f g end.
Definition set_op_authoritative v o := match o with mk_outpacket a b c d _ f g => mk_outpacket a b c d (u16 v) f g end.
Definition set_op_additional v o := match o with mk_outpacket a b c d e _ g => mk_outpacket a b c d e (u16 v) g end.
Definition zero_outpacket : mdns_outpacket := mk_outpacket 0 0 0 0 0 0 (replicate 10 0).

(** Information about a received packet. *)
Record mdns_packet := mk_packet {
  source_addr : ip6_addr;
  source_port : Z;
  recv_unicast : Z;
  pk_pbuf : Z;
  parse_offset : Z;
  pk_tx_id : Z;
  pk_questions : Z;
  questions_left : Z;
  pk_answers : Z;
  answers_left : Z;
  pk_authoritative : Z;
  authoritative_left : Z;
  pk_additional : Z;
  additional_left : Z;
  next_answer : Z;
  next_tc_question : Z
}.

(** The module's variables: [mdns_requests], [mdns_pcb], the callback of the
    application, the client data of the interfaces, the structures the heap
    holds, the list and the pool of stored packets. *)
Record mdns_vars (KP : Type) := mk_mdns {
  mdns_requests : list mdns_request;
  mdns_pcb : Z;
  mdns_name_result_cb : Z;
  netif_client_id : Z;
  mdns_netif_client_id : Z;
  client_data : gmap (Z * Z) Z;
  hosts : gmap Z mdns_host;
  services : gmap Z mdns_service;
  pending_tc_questions : Z;
  packets : gmap Z mdns_packet;
  pkts_pool : KP
}.
Arguments mk_mdns {KP}.
Arguments mdns_requests {KP}.
Arguments mdns_pcb {KP}.
Arguments mdns_name_result_cb {KP}.
Arguments netif_client_id {KP}.
Arguments mdns_netif_client_id {KP}.
Arguments client_data {KP}.
Arguments hosts {KP}.
Arguments services {KP}.
Arguments pending_tc_questions {KP}.
Arguments packets {KP}.
Arguments pkts_pool {KP}.

(** The stack, the responder, and the clock. *)
Record mworld (NS KP : Type) := mk_mworld { w_net : NS; w_mdns : mdns_vars KP; w_now : Z }.
Arguments mk_mworld {NS KP}.
Arguments w_net {NS KP}.
Arguments w_mdns {NS KP}.
Arguments w_now {NS KP}.

(* ------------------------------------------------------------------ *)
(** * Records in a packet *)

Section Records.
Context {PP RP HP : Type} `{PoolOps PP} `{PoolOps RP} `{HeapOps HP}.
Abbreviation pio := (io (pheap PP RP HP)).

(** A result and the packet; what follows is done when the result is
    [ERR_OK]. *)
Definition and_then {S A : Type} (r : io S (Z * A)) (k : A -> io S (Z * A)) : io S (Z * A) :=
  '(res, x) ← r; if negb (res =? ERR_OK) then mret (res, x) else k x.

Definition pb_take_at (p : Z) (data : list Z) (n off : Z) : pio Z := fun s =>
  '(err, bs) ← pbuf_take_at (pbufs s) (bytes s) p data n off;
  Ok (err, mk_pheap (pool_st s) (rom_st s) (heap_st s) (pbufs s) bs).
Definition pb_take (p : Z) (data : list Z) (n : Z) : pio Z := fun s =>
  '(err, bs) ← pbuf_take (pbufs s) (bytes s) p (Some data) n;
  Ok (err, mk_pheap (pool_st s) (rom_st s) (heap_st s) (pbufs s) bs).
Definition pb_write_domain (outpkt : mdns_outpacket) (domain : mdns_domain) : pio (Z * mdns_outpacket) := fun s =>
  '(err, bs, o) ← mdns_write_domain (pbufs s) (bytes s) outpkt domain;
  Ok (err, o, mk_pheap (pool_st s) (rom_st s) (heap_st s) (pbufs s) bs).

(** [pbuf_take_at(outpkt->pbuf, &field, sizeof(field), outpkt->write_offset)],
    then the offset advances. *)
Definition put_field (data : list Z) (outpkt : mdns_outpacket) : pio (Z * mdns_outpacket) :=
  res ← pb_take_at (op_pbuf outpkt) data (zlen data) (write_offset outpkt);
  if negb (res =? ERR_OK) then mret (res, outpkt)
  else mret (ERR_OK, set_write_offset (u16 (write_offset outpkt + zlen data)) outpkt).

Definition field16 (v : Z) : list Z := [u16 v / 256; u16 v mod 256].
Definition field32 (v : Z) : list Z := word_bytes (u32 v).

(** A pbuf is allocated when there is none. *)
Definition outpacket_pbuf (outpkt : mdns_outpacket) : pio (Z * mdns_outpacket) :=
  if op_pbuf outpkt =? 0 then
    r ← pbuf_alloc PBUF_TRANSPORT MDNS_OUTPUT_PACKET_SIZE PBUF_RAM;
    match r with
    | None => mret (ERR_MEM, outpkt)
    | Some p => mret (ERR_OK, set_write_offset SIZEOF_DNS_HDR (set_op_pbuf p outpkt))
    end
  else mret (ERR_OK, outpkt).

(** The worst case of what is to be written must fit. *)
Definition outpacket_room (n : Z) (outpkt : mdns_outpacket) : pio (Z * mdns_outpacket) :=
  b ← pb_read (op_pbuf outpkt);
  if tot_len b <? write_offset outpkt + n then mret (ERR_MEM, outpkt) else mret (ERR_OK, outpkt).

Definition mdns_add_question (outpkt : mdns_outpacket) (domain : mdns_domain) (type klass unicast : Z)
    : pio (Z * mdns_outpacket) :=
  and_then (outpacket_pbuf outpkt) (fun outpkt =>
  and_then (outpacket_room (u16 (dlength domain + 4)) outpkt) (fun outpkt =>
  and_then (pb_write_domain outpkt domain) (fun outpkt =>
  and_then (put_field (field16 type) outpkt) (fun outpkt =>
  put_field (field16 (if negb (unicast =? 0) then Z.lor klass 0x8000 else klass)) outpkt)))).

(** Behind the question part of an answer: the time to live, the data and
    its length. NULL is [None]. *)
Definition answer_data (ttl : Z) (buf : option (list Z)) (buf_length : Z) (answer_domain : option mdns_domain)
    (reply : mdns_outpacket) : pio (Z * mdns_outpacket) :=
  and_then (put_field (field32 ttl) reply) (fun reply =>
  let rdlen_offset := write_offset reply in
  let reply := set_write_offset (u16 (write_offset reply + 2)) reply in
  let answer_offset := write_offset reply in
  and_then
    (match buf with
     | Some buf =>
         res ← pb_take_at (op_pbuf reply) buf (u16 buf_length) (write_offset reply);
         if negb (res =? ERR_OK) then mret (res, reply)
         else mret (ERR_OK, set_write_offset (u16 (write_offset reply + u16 buf_length)) reply)
     | None => mret (ERR_OK, reply)
     end) (fun reply =>
  and_then
    (match answer_domain with Some d => pb_write_domain reply d | None => mret (ERR_OK, reply) end) (fun reply =>
  res ← pb_take_at (op_pbuf reply) (field16 (write_offset reply - answer_offset)) 2 rdlen_offset;
  mret (res, reply)))).

Definition answer_len (domain : mdns_domain) (buf : option (list Z)) (buf_length : Z) (answer_domain : option mdns_domain) : Z :=
  let n := u16 (dlength domain + 10) in
  let n := match buf with Some _ => u16 (n + u16 buf_length) | None => n end in
  match answer_domain with Some d => u16 (n + dlength d) | None => n end.

(** The result of [mdns_add_question] is not looked at. *)
Definition mdns_add_answer (reply : mdns_outpacket) (domain : mdns_domain) (type klass cache_flush ttl : Z)
    (buf : option (list Z)) (buf_length : Z) (answer_domain : option mdns_domain) : pio (Z * mdns_outpacket) :=
  and_then (outpacket_pbuf reply) (fun reply =>
  and_then (outpacket_room (answer_len domain buf buf_length answer_domain) reply) (fun reply =>
  '(_, reply) ← mdns_add_question reply domain type klass cache_flush;
  answer_data ttl buf buf_length answer_domain reply)).

(** The domain that [mdns_build_...] leaves; its result is not looked at. *)
Definition built (r : outcome (Z * mdns_domain)) : pio mdns_domain := fun s => '(_, d) ← r; Ok (d, s).

Definition mdns_add_any_host_question (outpkt : mdns_outpacket) (mdns : mdns_host) (request_unicast_reply : Z)
    : pio (Z * mdns_outpacket) :=
  host ← built (mdns_build_host_domain (h_name mdns));
  mdns_add_question outpkt host DNS_RRTYPE_ANY DNS_RRCLASS_IN request_unicast_reply.

Definition mdns_add_any_service_question (outpkt : mdns_outpacket) (service : mdns_service) (request_unicast_reply : Z)
    : pio (Z * mdns_outpacket) :=
  domain ← built (mdns_build_service_domain service true);
  mdns_add_question outpkt domain DNS_RRTYPE_ANY DNS_RRCLASS_IN request_unicast_reply.

(** For a legacy querier the question is repeated, once, and the time to live
    is short. *)
Definition legacy_question (reply : mdns_outpacket) (msg : mdns_outmsg) (domain : mdns_domain) (type : Z)
    (answer : mdns_outpacket -> (Z -> Z) -> pio (Z * mdns_outpacket)) : pio (Z * mdns_outpacket) :=
  if negb (legacy_query msg =? 0) then
    and_then
      (if op_questions reply <? 1 then
         and_then (mdns_add_question reply domain type DNS_RRCLASS_IN 0) (fun reply => mret (ERR_OK, set_op_questions 1 reply))
       else mret (ERR_OK, reply))
      (fun reply => answer reply (fun _ => MDNS_TTL_10))
  else answer reply (fun ttl => ttl).

Definition mdns_add_aaaa_answer (reply : mdns_outpacket) (msg : mdns_outmsg) (mdns : mdns_host) (addr : ip6_addr)
    : pio (Z * mdns_outpacket) :=
  host ← built (mdns_build_host_domain (h_name mdns));
  legacy_question reply msg host DNS_RRTYPE_AAAA (fun reply ttl =>
    mdns_add_answer reply host DNS_RRTYPE_AAAA DNS_RRCLASS_IN (m_cache_flush msg) (ttl MDNS_TTL_120)
      (Some (ip6_bytes addr)) 16 None).

Definition mdns_add_hostv6_ptr_answer (reply : mdns_outpacket) (msg : mdns_outmsg) (mdns : mdns_host) (addr : ip6_addr)
    : pio (Z * mdns_outpacket) :=
  host ← built (mdns_build_host_domain (h_name mdns));
  revhost ← built (mdns_build_reverse_v6_domain addr);
  legacy_question reply msg revhost DNS_RRTYPE_PTR (fun reply ttl =>
    mdns_add_answer reply revhost DNS_RRTYPE_PTR DNS_RRCLASS_IN (m_cache_flush msg) (ttl MDNS_TTL_120) None 0 (Some host)).

Definition mdns_add_servicetype_ptr_answer (reply : mdns_outpacket) (msg : mdns_outmsg) (service : mdns_service)
    : pio (Z * mdns_outpacket) :=
  service_type ← built (mdns_build_service_domain service false);
  service_dnssd ← built mdns_build_dnssd_domain;
  legacy_question reply msg service_dnssd DNS_RRTYPE_PTR (fun reply ttl =>
    mdns_add_answer reply service_dnssd DNS_RRTYPE_PTR DNS_RRCLASS_IN 0 (ttl MDNS_TTL_4500) None 0 (Some service_type)).

Definition mdns_add_servicename_ptr_answer (reply : mdns_outpacket) (msg : mdns_outmsg) (service : mdns_service)
    : pio (Z * mdns_outpacket) :=
  service_type ← built (mdns_build_service_domain service false);
  service_instance ← built (mdns_build_service_domain service true);
  legacy_question reply msg service_type DNS_RRTYPE_PTR (fun reply ttl =>
    mdns_add_answer reply service_type DNS_RRTYPE_PTR DNS_RRCLASS_IN 0 (ttl MDNS_TTL_120) None 0 (Some service_instance)).

Definition srv_data (service : mdns_service) : list Z :=
  field16 SRV_PRIORITY ++ field16 SRV_WEIGHT ++ field16 (port service).
(** The host's name is not compressed for a legacy querier. *)
Definition mdns_add_srv_answer (reply : mdns_outpacket) (msg : mdns_outmsg) (mdns : mdns_host) (service : mdns_service)
    : pio (Z * mdns_outpacket) :=
  service_instance ← built (mdns_build_service_domain service true);
  srvhost ← built (mdns_build_host_domain (h_name mdns));
  let srvhost := if negb (legacy_query msg =? 0) then set_skip 1 srvhost else srvhost in
  legacy_question reply msg service_instance DNS_RRTYPE_SRV (fun reply ttl =>
    mdns_add_answer reply service_instance DNS_RRTYPE_SRV DNS_RRCLASS_IN (m_cache_flush msg) (ttl MDNS_TTL_120)
      (Some (srv_data service)) 6 (Some srvhost)).

(** With the text the application has put into [txtdata]. *)
Definition txt_answer (reply : mdns_outpacket) (msg : mdns_outmsg) (service_instance : mdns_domain) (service : mdns_service)
    : pio (Z * mdns_outpacket) :=
  legacy_question reply msg service_instance DNS_RRTYPE_TXT (fun reply ttl =>
    mdns_add_answer reply service_instance DNS_RRTYPE_TXT DNS_RRCLASS_IN (m_cache_flush msg) (ttl MDNS_TTL_120)
      (Some (dname (txtdata service))) (dlength (txtdata service)) None).
End Records.

(* ------------------------------------------------------------------ *)
(** * Messages *)

(** The handlers of the timers, as the addresses the timers hold. *)
Definition MULTICAST_TIMEOUT_RESET : Z := 0x10.
Definition MULTICAST_PROBE_TIMEOUT_RESET : Z := 0x11.
Definition MULTICAST_TIMEOUT_25TTL_RESET : Z := 0x12.
Definition SEND_MULTICAST_MSG_DELAYED : Z := 0x13.
Definition SEND_UNICAST_MSG_DELAYED : Z := 0x14.

(** One step after another while the result is [ERR_OK]. *)
Fixpoint run_steps {S A : Type} (fs : list (A -> io S (Z * A))) (x : A) : io S (Z * A) :=
  match fs with
  | [] => mret (ERR_OK, x)
  | f :: fs => and_then (f x) (run_steps fs)
  end.

Section Messages.
Context {PP RP HP UP QP MP DV PS KP : Type} `{PoolOps PP} `{PoolOps RP} `{HeapOps HP} `{PoolOps UP} `{PoolOps QP}
  `{PoolOps MP} `{PoolOps PS} `{PoolOps KP}.
Abbreviation st := (net PP RP HP UP (ipst QP MP DV)).
Context {HK : Hooks st}.
Abbreviation world := (timers PS (mworld st KP)).
Abbreviation mio := (io world).

(** [txt_fn(service, txt_userdata)] of the application. *)
Variable call_txt_fn : Z -> Z -> Z -> mio unit.

Definition with_world (f : mworld st KP -> mworld st KP) (s : world) : world :=
  mk_timers (next_timeout s) (current_timeout_due_time s) (t_pool s) (f (t_world s)).
Definition with_net (v : st) (w : mworld st KP) : mworld st KP := mk_mworld v (w_mdns w) (w_now w).
Definition with_mdns (f : mdns_vars KP -> mdns_vars KP) (w : mworld st KP) : mworld st KP :=
  mk_mworld (w_net w) (f (w_mdns w)) (w_now w).

(** Operations of the stack, of its packet buffers, and of the timers. *)
Definition on_net {A} (m : io st A) : mio A := fun s =>
  '(x, n) ← m (w_net (t_world s)); Ok (x, with_world (with_net n) s).
Definition on_heap {A} (m : io (pheap PP RP HP) A) : mio A := on_net (on_pbufs m).
Definition on_timers (f : world -> outcome world) : mio unit := fun s => s ← f s; Ok (tt, s).
Definition timeout (msecs handler a : Z) : mio unit := on_timers (sys_timeout w_now msecs handler a).
Definition untimeout (handler a : Z) : mio unit := on_timers (sys_untimeout handler a).
Definition sys_now : mio Z := fun s => Ok (w_now (t_world s), s).

Definition mvars : mio (mdns_vars KP) := fun s => Ok (w_mdns (t_world s), s).
Definition upd_mvars (f : mdns_vars KP -> mdns_vars KP) : mio unit := io_modify (with_world (with_mdns f)).
Definition set_hosts (f : gmap Z mdns_host -> gmap Z mdns_host) (v : mdns_vars KP) : mdns_vars KP :=
  match v with mk_mdns a b c d e g i j k l m => mk_mdns a b c d e g (f i) j k l m end.
Definition set_services (f : gmap Z mdns_service -> gmap Z mdns_service) (v : mdns_vars KP) : mdns_vars KP :=
  match v with mk_mdns a b c d e g i j k l m => mk_mdns a b c d e g i (f j) k l m end.

(** [netif_mdns_data(netif)]; NULL is 0. *)
Definition netif_mdns_data (netif : Z) : mio Z :=
  v ← mvars; mret (default 0 (client_data v !! (netif, mdns_netif_client_id v))).
Definition get_host (p : Z) : mio mdns_host :=
  v ← mvars; match hosts v !! p with Some x => mret x | None => io_fault NullPointer end.
Definition upd_host (p : Z) (f : mdns_host -> mdns_host) : mio unit :=
  x ← get_host p; upd_mvars (set_hosts <[p := f x]>).
Definition get_service (p : Z) : mio mdns_service :=
  v ← mvars; match services v !! p with Some x => mret x | None => io_fault NullPointer end.
Definition upd_service (p : Z) (f : mdns_service -> mdns_service) : mio unit :=
  x ← get_service p; upd_mvars (set_services <[p := f x]>).

Definition mdns_prepare_txtdata (service : Z) : mio unit :=
  _ ← upd_service service (set_txtdata zero_domain);
  x ← get_service service;
  if negb (txt_fn x =? 0) then call_txt_fn (txt_fn x) service (txt_userdata x) else mret tt.

Definition mdns_add_txt_answer (reply : mdns_outpacket) (msg : mdns_outmsg) (service : Z) : mio (Z * mdns_outpacket) :=
  x ← get_service service;
  service_instance ← on_heap (built (mdns_build_service_domain x true));
  _ ← mdns_prepare_txtdata service;
  x ← get_service service;
  on_heap (txt_answer reply msg service_instance x).

(** What is done for the service in slot [i], if there is one. *)
Definition with_service {A} (mdns : mdns_host) (i : Z) (none : mio A) (k : Z -> mdns_service -> mio A) : mio A :=
  p ← (fun s => p ← rd (h_services mdns) i; Ok (p, s));
  if p =? 0 then none else x ← get_service p; k p x.
Definition slots : list Z := [0; 1; 2; 3].

(** [outpkt->questions++] behind a question. *)
Definition asked (r : mio (Z * mdns_outpacket)) : mio (Z * mdns_outpacket) :=
  and_then r (fun o => mret (ERR_OK, set_op_questions (op_questions o + 1) o)).

Definition mdns_add_probe_questions_to_outpacket (outpkt : mdns_outpacket) (msg : mdns_outmsg) (mdns : mdns_host)
    : mio (Z * mdns_outpacket) :=
  run_steps
    ((fun o => if has (host_questions msg) QUESTION_PROBE_HOST_ANY
               then asked (on_heap (mdns_add_any_host_question o mdns 1)) else mret (ERR_OK, o)) ::
     ((fun i o => with_service mdns i (mret (ERR_OK, o)) (fun _ x =>
        if has (default 0 (serv_questions msg !! Z.to_nat i)) QUESTION_PROBE_SERVICE_NAME_ANY
        then asked (on_heap (mdns_add_any_service_question o x 1)) else mret (ERR_OK, o))) <$> slots)) outpkt.

Definition mdns_add_query_question_to_outpacket (outpkt : mdns_outpacket) (msg : mdns_outmsg) : mio (Z * mdns_outpacket) :=
  match m_query msg with
  | None => mret (ERR_OK, outpkt)
  | Some req =>
      dom ← on_heap (built (mdns_build_request_domain req (match rq_name req with [] => false | _ => true end)));
      asked (on_heap (mdns_add_question outpkt dom (qtype req) DNS_RRCLASS_IN 0))
  end.

(** A record that is counted in [answers], and one that is counted in
    [outpkt->additional]. *)
Definition answer_if (b : bool) (f : mdns_outpacket -> mio (Z * mdns_outpacket)) (x : mdns_outpacket * Z)
    : mio (Z * (mdns_outpacket * Z)) :=
  if b then
    '(res, o) ← f (fst x);
    if negb (res =? ERR_OK) then mret (res, (o, snd x)) else mret (ERR_OK, (o, u16 (snd x + 1)))
  else mret (ERR_OK, x).
Definition additional_if (b : bool) (f : mdns_outpacket -> mio (Z * mdns_outpacket)) (o : mdns_outpacket)
    : mio (Z * mdns_outpacket) :=
  if b then and_then (f o) (fun o => mret (ERR_OK, set_op_additional (op_additional o + 1) o)) else mret (ERR_OK, o).

(** The address of slot [i] of the interface, when it is valid. *)
Definition aaaa_answer (msg : mdns_outmsg) (mdns : mdns_host) (netif i : Z) (o : mdns_outpacket) : mio (Z * mdns_outpacket) :=
  a ← on_net (netif_ip6_addr netif i); on_heap (mdns_add_aaaa_answer o msg mdns a).
Definition slot_valid (netif i : Z) : mio bool := st ← on_net (netif_ip6_addr_state netif i); mret (ip6_addr_isvalid st).

Definition host_answers (netif : Z) (msg : mdns_outmsg) (mdns : mdns_host)
    : list (mdns_outpacket * Z -> mio (Z * (mdns_outpacket * Z))) :=
  ((fun i x => if has (host_replies msg) REPLY_HOST_AAAA
               then v ← slot_valid netif i; answer_if v (aaaa_answer msg mdns netif i) x else mret (ERR_OK, x)) <$> [0; 1; 2]) ++
  ((fun i x => answer_if (has (host_replies msg) REPLY_HOST_PTR_V6 && Z.testbit (host_reverse_v6_replies msg) i)
      (fun o => a ← on_net (netif_ip6_addr netif i); on_heap (mdns_add_hostv6_ptr_answer o msg mdns a)) x) <$> seqZ 0 8).

Definition service_answers (msg : mdns_outmsg) (mdns : mdns_host) (i : Z) (x : mdns_outpacket * Z)
    : mio (Z * (mdns_outpacket * Z)) :=
  let replies := default 0 (serv_replies msg !! Z.to_nat i) in
  with_service mdns i (mret (ERR_OK, x)) (fun p s =>
    run_steps
      [answer_if (has replies REPLY_SERVICE_TYPE_PTR) (fun o => on_heap (mdns_add_servicetype_ptr_answer o msg s));
       answer_if (has replies REPLY_SERVICE_NAME_PTR) (fun o => on_heap (mdns_add_servicename_ptr_answer o msg s));
       answer_if (has replies REPLY_SERVICE_SRV) (fun o => on_heap (mdns_add_srv_answer o msg mdns s));
       answer_if (has replies REPLY_SERVICE_TXT) (fun o => mdns_add_txt_answer o msg p)] x).

(** SRV and TXT behind a pointer to the instance, and the addresses of the
    host behind either and behind an address. *)
Definition service_additional (netif : Z) (msg : mdns_outmsg) (mdns : mdns_host) (i : Z) (o : mdns_outpacket)
    : mio (Z * mdns_outpacket) :=
  let replies := default 0 (serv_replies msg !! Z.to_nat i) in
  let name := has replies REPLY_SERVICE_NAME_PTR in
  with_service mdns i (mret (ERR_OK, o)) (fun p s =>
    run_steps
      ([additional_if (name && negb (has replies REPLY_SERVICE_SRV)) (fun o => on_heap (mdns_add_srv_answer o msg mdns s));
        additional_if (name && negb (has replies REPLY_SERVICE_TXT)) (fun o => mdns_add_txt_answer o msg p)] ++
       ((fun j o =>
           if (has replies (Z.lor REPLY_SERVICE_NAME_PTR REPLY_SERVICE_SRV) || has (host_replies msg) (Z.lor 0x01 REPLY_HOST_AAAA)) &&
              negb (has (host_replies msg) REPLY_HOST_AAAA)
           then v ← slot_valid netif j; additional_if v (aaaa_answer msg mdns netif j) o else mret (ERR_OK, o)) <$> [0; 1; 2])) o).

Definition mdns_create_outpacket (netif : Z) (msg : mdns_outmsg) (outpkt : mdns_outpacket) : mio (Z * mdns_outpacket) :=
  hp ← netif_mdns_data netif;
  and_then (mdns_add_query_question_to_outpacket outpkt msg) (fun outpkt =>
  mdns ← get_host hp;
  and_then (mdns_add_probe_questions_to_outpacket outpkt msg mdns) (fun outpkt =>
  '(res, (outpkt, answers)) ← run_steps (host_answers netif msg mdns ++ (service_answers msg mdns <$> slots)) (outpkt, 0);
  if negb (res =? ERR_OK) then mret (res, outpkt)
  else
    let outpkt := if has (m_flags msg) DNS_FLAG1_RESPONSE then set_op_answers (op_answers outpkt + answers) outpkt
                  else set_op_authoritative (op_authoritative outpkt + answers) outpkt in
    run_steps (service_additional netif msg mdns <$> slots) outpkt)).

(** [struct dns_hdr]. *)
Definition dns_header (msg : mdns_outmsg) (o : mdns_outpacket) : list Z :=
  field16 (m_tx_id msg) ++ [u8 (m_flags msg); 0] ++ field16 (op_questions o) ++ field16 (op_answers o) ++
  field16 (op_authoritative o) ++ field16 (op_additional o).

Definition get_mdns_pcb : mio Z := v ← mvars; mret (mdns_pcb v).
Definition mdns_sendto_if : Z -> Z -> option ip6_addr -> Z -> Z -> io st Z :=
  udp_sendto_if (fun q src dst ttl tos proto netif => ip6_output_if_src q (Some src) (Some dst) ttl tos proto netif).

Definition mdns_send_outpacket (msg : mdns_outmsg) (netif : Z) : mio Z :=
  '(res, outpkt) ← mdns_create_outpacket netif msg zero_outpacket;
  res ←
    (if negb (res =? ERR_OK) then mret res
     else if negb (op_pbuf outpkt =? 0) then
       _ ← on_heap (pb_take (op_pbuf outpkt) (dns_header msg outpkt) SIZEOF_DNS_HDR);
       _ ← on_heap (pbuf_realloc (op_pbuf outpkt) (write_offset outpkt));
       pcb ← get_mdns_pcb;
       on_net (mdns_sendto_if pcb (op_pbuf outpkt) (Some (m_dest_addr msg)) (m_dest_port msg) netif)
     else mret res);
  _ ← (if negb (op_pbuf outpkt =? 0) then _ ← on_heap (pbuf_free (op_pbuf outpkt)); mret tt else mret tt);
  mret res.

(* ------------------------------------------------------------------ *)
(** * Timers *)

(** All but the destination. *)
Definition mdns_clear_outmsg (m : mdns_outmsg) : mdns_outmsg :=
  mk_outmsg 0 0 (m_dest_addr m) (m_dest_port m) 0 0 0 0 0 (replicate 4 0) 0 0 (replicate 4 0) (m_query m).

(** [busy] and [set_busy] are the flag [busy_flag] points to. *)
Definition mdns_set_timeout (netif msecs handler : Z) (busy : mdns_delayed_msg -> Z)
    (set_busy : Z -> mdns_delayed_msg -> mdns_delayed_msg) : mio unit :=
  hp ← netif_mdns_data netif;
  x ← get_host hp;
  _ ← (if negb (busy (ipv6 x) =? 0) then _ ← untimeout handler netif; timeout msecs handler netif
       else timeout msecs handler netif);
  upd_host hp (set_ipv6 (set_busy 1)).

Definition mdns_start_multicast_timeouts_ipv6 (netif : Z) : mio unit :=
  _ ← mdns_set_timeout netif MDNS_MULTICAST_TIMEOUT MULTICAST_TIMEOUT_RESET multicast_timeout set_multicast_timeout;
  _ ← mdns_set_timeout netif MDNS_MULTICAST_PROBE_TIMEOUT MULTICAST_PROBE_TIMEOUT_RESET multicast_probe_timeout set_probe_timeout;
  mdns_set_timeout netif MDNS_MULTICAST_TIMEOUT_25TTL MULTICAST_TIMEOUT_25TTL_RESET multicast_timeout_25TTL set_timeout_25TTL.

Definition on_ipv6 (netif : Z) (f : mdns_delayed_msg -> mdns_delayed_msg) : mio unit :=
  hp ← netif_mdns_data netif; upd_host hp (set_ipv6 f).

(** The delayed multicast message is sent; when that works it is cleared. *)
Definition send_delayed_multicast (netif : Z) : mio unit :=
  hp ← netif_mdns_data netif;
  x ← get_host hp;
  res ← mdns_send_outpacket (delayed_msg_multicast (ipv6 x)) netif;
  if negb (res =? ERR_OK) then mret tt
  else
    _ ← on_ipv6 netif (fun d => set_delayed_multicast (mdns_clear_outmsg (delayed_msg_multicast d)) d);
    _ ← on_ipv6 netif (set_msg_waiting 0);
    mdns_start_multicast_timeouts_ipv6 netif.

Definition mdns_multicast_timeout_reset_ipv6 (netif : Z) : mio unit := on_ipv6 netif (set_multicast_timeout 0).

Definition mdns_multicast_probe_timeout_reset_ipv6 (netif : Z) : mio unit :=
  _ ← on_ipv6 netif (set_probe_timeout 0);
  hp ← netif_mdns_data netif;
  x ← get_host hp;
  if negb (multicast_msg_waiting (ipv6 x) =? 0) then send_delayed_multicast netif else mret tt.

Definition mdns_multicast_timeout_25ttl_reset_ipv6 (netif : Z) : mio unit := on_ipv6 netif (set_timeout_25TTL 0).

Definition mdns_send_multicast_msg_delayed_ipv6 (netif : Z) : mio unit := send_delayed_multicast netif.

Definition mdns_send_unicast_msg_delayed_ipv6 (netif : Z) : mio unit :=
  hp ← netif_mdns_data netif;
  x ← get_host hp;
  res ← mdns_send_outpacket (delayed_msg_unicast (ipv6 x)) netif;
  if negb (res =? ERR_OK) then mret tt
  else
    _ ← on_ipv6 netif (fun d => set_delayed_unicast (mdns_clear_outmsg (delayed_msg_unicast d)) d);
    on_ipv6 netif (set_unicast_in_use 0).

Definition mdns_send_request (req : mdns_request) (netif : Z) (destination : ip6_addr) : mio Z :=
  mdns_send_outpacket (set_m_dest destination LWIP_IANA_PORT_MDNS (set_m_query (Some req) zero_outmsg)) netif.
End Messages.
