(* ===== verification/MdnsIn.v ===== *)
(** Received messages of the mDNS responder: the reading half of
    apps/mdns/mdns.c. Questions and records are read out of a packet, records
    are compared with those of the host and its services, and the records of
    two simultaneous probes are compared with each other.

    A packet is a chain of packet buffers: the headers [m] and the memory
    [bs]. *)

From Stdlib Require Import ZArith Lia.
From stdpp Require Import base list numbers gmap.
From S2P Require Import Prelude Mmio Mem Memp Timeouts Pbuf Ip6Addr Chksum Udp Netif Ip6Out Mld6 Addrs Nd6 Stack MdnsDomain MdnsOut.

Open Scope Z_scope.

Definition REPLY_HOST_A : Z := 0x01.
Definition MDNS_PROBE_TIEBREAK_MAX_ANSWERS : Z := 5.
Definition MDNS_LEXICOGRAPHICAL_EQUAL : Z := 0.
Definition MDNS_LEXICOGRAPHICAL_EARLIER : Z := 1.
Definition MDNS_LEXICOGRAPHICAL_LATER : Z := 2.

(* ------------------------------------------------------------------ *)
(** * Structures *)

Record mdns_rr_info := mk_rr_info { rr_domain : mdns_domain; rr_type : Z; rr_klass : Z }.
Record mdns_question := mk_question { q_info : mdns_rr_info; q_unicast : Z }.
Record mdns_answer := mk_answer { a_info : mdns_rr_info; a_cache_flush : Z; a_ttl : Z; rd_length : Z; rd_offset : Z }.
Record mdns_answer_list := mk_answer_list { al_offset : list Z; al_size : Z }.

Definition zero_rr_info : mdns_rr_info := mk_rr_info zero_domain 0 0.
Definition zero_question : mdns_question := mk_question zero_rr_info 0.
Definition zero_answer : mdns_answer := mk_answer zero_rr_info 0 0 0 0.
Definition zero_packet : mdns_packet := mk_packet IP6_ADDR_ANY6 0 0 0 0 0 0 0 0 0 0 0 0 0 0 0.

Definition set_parse_offset v p := match p with mk_packet a b c d _ f g h i j k l m n o q => mk_packet a b c d (u16 v) f g h i j k l m n o q end.
Definition set_questions_left v p := match p with mk_packet a b c d e f g _ i j k l m n o q => mk_packet a b c d e f g (u16 v) i j k l m n o q end.
Definition set_answers_left v p := match p with mk_packet a b c d e f g h i _ k l m n o q => mk_packet a b c d e f g h i (u16 v) k l m n o q end.
Definition set_authoritative_left v p := match p with mk_packet a b c d e f g h i j k _ m n o q => mk_packet a b c d e f g h i j k (u16 v) m n o q end.
Definition set_additional_left v p := match p with mk_packet a b c d e f g h i j k l m _ o q => mk_packet a b c d e f g h i j k l m (u16 v) o q end.
Definition set_next_answer v p := match p with mk_packet a b c d e f g h i j k l m n _ q => mk_packet a b c d e f g h i j k l m n v q end.
Definition set_next_tc v p := match p with mk_packet a b c d e f g h i j k l m n o _ => mk_packet a b c d e f g h i j k l m n o v end.
Definition set_recv_unicast v p := match p with mk_packet a b _ d e f g h i j k l m n o q => mk_packet a b v d e f g h i j k l m n o q end.

(* ------------------------------------------------------------------ *)
(** * Questions and records of a packet *)

Section Reading.
Variables (m : gmap Z pbuf) (bs : gmap Z Z).

(** [copied = pbuf_copy_partial(pkt->pbuf, &field, n, pkt->parse_offset)];
    nothing when fewer than [n] bytes were copied, else the offset
    advances. *)
Definition take_field (pkt : mdns_packet) (n : Z) : outcome (option (list Z) * mdns_packet) :=
  '(copied, f) ← pbuf_copy_partial m bs (pk_pbuf pkt) (Some (replicate (Z.to_nat n) 0)) n (parse_offset pkt);
  if negb (copied =? n) then Ok (None, pkt)
  else Ok (f, set_parse_offset (parse_offset pkt + copied) pkt).
(** The bytes of a field, most significant first. *)
Definition field_value (l : list Z) : Z := foldl (fun v b => v * 256 + b) 0 l.

Definition mdns_read_rr_info (pkt : mdns_packet) : outcome (Z * mdns_packet * mdns_rr_info) :=
  '(off, domain) ← mdns_readname m bs (pk_pbuf pkt) (parse_offset pkt);
  let pkt := set_parse_offset off pkt in
  let info := mk_rr_info domain 0 0 in
  if parse_offset pkt =? MDNS_READNAME_ERROR then Ok (ERR_VAL, pkt, info)
  else
    '(f, pkt) ← take_field pkt 2;
    match f with
    | None => Ok (ERR_VAL, pkt, info)
    | Some f =>
        let info := mk_rr_info domain (field_value f) 0 in
        '(f, pkt) ← take_field pkt 2;
        match f with
        | None => Ok (ERR_VAL, pkt, info)
        | Some f => Ok (ERR_OK, pkt, mk_rr_info domain (rr_type info) (field_value f))
        end
    end.

Definition set_klass (v : Z) (i : mdns_rr_info) : mdns_rr_info := mk_rr_info (rr_domain i) (rr_type i) v.

Definition mdns_read_question (pkt : mdns_packet) : outcome (Z * mdns_packet * mdns_question) :=
  b ← deref m (pk_pbuf pkt);
  if tot_len b <? parse_offset pkt then Ok (ERR_VAL, pkt, zero_question)
  else if negb (questions_left pkt =? 0) then
    let pkt := set_questions_left (questions_left pkt - 1) pkt in
    '(res, pkt, info) ← mdns_read_rr_info pkt;
    if negb (res =? ERR_OK) then Ok (res, pkt, mk_question info 0)
    else Ok (ERR_OK, pkt, mk_question (set_klass (Z.land (rr_klass info) 0x7FFF) info) (Z.land (rr_klass info) 0x8000))
  else Ok (ERR_VAL, pkt, zero_question).

(** [num_left] is the counter that is passed by its address; its new value is
    returned last. *)
Definition mdns_read_answer (pkt : mdns_packet) (num_left : Z) : outcome (Z * mdns_packet * mdns_answer * Z) :=
  if negb (questions_left pkt =? 0) then Ok (ERR_VAL, pkt, zero_answer, num_left)
  else
    b ← deref m (pk_pbuf pkt);
    if tot_len b <? parse_offset pkt then Ok (ERR_VAL, pkt, zero_answer, num_left)
    else if negb (num_left =? 0) then
      let num_left := u16 (num_left - 1) in
      '(res, pkt, info) ← mdns_read_rr_info pkt;
      if negb (res =? ERR_OK) then Ok (res, pkt, mk_answer info 0 0 0 0, num_left)
      else
        let flush := Z.land (rr_klass info) 0x8000 in
        let info := set_klass (Z.land (rr_klass info) 0x7FFF) info in
        '(f, pkt) ← take_field pkt 4;
        match f with
        | None => Ok (ERR_VAL, pkt, mk_answer info flush 0 0 0, num_left)
        | Some ttl =>
            '(f, pkt) ← take_field pkt 2;
            match f with
            | None => Ok (ERR_VAL, pkt, mk_answer info flush (field_value ttl) 0 0, num_left)
            | Some f =>
                let ans := mk_answer info flush (field_value ttl) (field_value f) (parse_offset pkt) in
                Ok (ERR_OK, set_parse_offset (parse_offset pkt + rd_length ans) pkt, ans, num_left)
            end
        end
    else Ok (ERR_VAL, pkt, zero_answer, num_left).
End Reading.

(* ------------------------------------------------------------------ *)
(** * What a question is about *)

(** [res == ERR_OK && mdns_domain_eq(&rr->domain, &mydomain)] for a name that
    was built. *)
Definition is_named (domain : mdns_domain) (built : outcome (Z * mdns_domain)) : outcome bool :=
  '(res, mydomain) ← built;
  if negb (res =? ERR_OK) then Ok false
  else e ← mdns_domain_eq domain mydomain; Ok (negb (e =? 0)).

Definition wants (rr : mdns_rr_info) (type : Z) : bool := (rr_type rr =? type) || (rr_type rr =? DNS_RRTYPE_ANY).
Definition other_class (rr : mdns_rr_info) : bool :=
  negb (rr_klass rr =? DNS_RRCLASS_IN) && negb (rr_klass rr =? DNS_RRCLASS_ANY).

(** The loop over the addresses from slot [i]. *)
Fixpoint check_reverse (slots : list (Z * ip6_addr)) (i : Z) (rr : mdns_rr_info) (replies reverse_v6_reply : Z)
    : outcome (Z * Z) :=
  match slots with
  | [] => Ok (replies, reverse_v6_reply)
  | (st, a) :: slots =>
      b ← (if ip6_addr_isvalid st then is_named (rr_domain rr) (mdns_build_reverse_v6_domain a) else Ok false);
      if b : bool then
        check_reverse slots (i + 1) rr (Z.lor replies REPLY_HOST_PTR_V6) (u8 (Z.lor reverse_v6_reply (Z.shiftl 1 i)))
      else check_reverse slots (i + 1) rr replies reverse_v6_reply
  end.

(** [name] is the name of the interface's host; the second result is
    [*reverse_v6_reply]. *)
Definition check_host (n : netif) (name : list Z) (rr : mdns_rr_info) (reverse_v6_reply : Z) : outcome (Z * Z) :=
  if other_class rr then Ok (0, reverse_v6_reply)
  else
    '(replies, reverse_v6_reply) ←
      (if wants rr DNS_RRTYPE_PTR then check_reverse (addr_slots n) 0 rr 0 reverse_v6_reply else Ok (0, reverse_v6_reply));
    b ← is_named (rr_domain rr) (mdns_build_host_domain name);
    if b && wants rr DNS_RRTYPE_AAAA then Ok (Z.lor replies REPLY_HOST_AAAA, reverse_v6_reply)
    else Ok (replies, reverse_v6_reply).

(** [replies |= bit] when a condition holds. *)
Definition reply_if (b : bool) (bit replies : Z) : Z := if b then Z.lor replies bit else replies.

Definition check_service (service : mdns_service) (rr : mdns_rr_info) : outcome Z :=
  if other_class rr then Ok 0
  else
    b1 ← is_named (rr_domain rr) mdns_build_dnssd_domain;
    let replies := reply_if (b1 && wants rr DNS_RRTYPE_PTR) REPLY_SERVICE_TYPE_PTR 0 in
    b2 ← is_named (rr_domain rr) (mdns_build_service_domain service false);
    let replies := reply_if (b2 && wants rr DNS_RRTYPE_PTR) REPLY_SERVICE_NAME_PTR replies in
    b3 ← is_named (rr_domain rr) (mdns_build_service_domain service true);
    let replies := reply_if (b3 && wants rr DNS_RRTYPE_SRV) REPLY_SERVICE_SRV replies in
    Ok (reply_if (b3 && wants rr DNS_RRTYPE_TXT) REPLY_SERVICE_TXT replies).

Definition check_request (request : mdns_request) (rr : mdns_rr_info) : outcome Z :=
  if other_class rr then Ok 0
  else
    b1 ← is_named (rr_domain rr) (mdns_build_request_domain request false);
    let replies := reply_if (b1 && wants rr DNS_RRTYPE_PTR) REPLY_SERVICE_TYPE_PTR 0 in
    b2 ← is_named (rr_domain rr) (mdns_build_request_domain request true);
    let replies := reply_if (b2 && wants rr DNS_RRTYPE_SRV) REPLY_SERVICE_SRV replies in
    Ok (reply_if (b2 && wants rr DNS_RRTYPE_TXT) REPLY_SERVICE_TXT replies).

(** 1 or 0. *)
Definition mdns_is_answer_to_question (q : mdns_question) (a : mdns_answer) : outcome Z :=
  if (rr_type (q_info q) =? DNS_RRTYPE_ANY) || (rr_type (q_info q) =? rr_type (a_info a)) then
    e ← mdns_domain_eq (rr_domain (q_info q)) (rr_domain (a_info a));
    Ok (if negb (e =? 0) then 1 else 0)
  else Ok 0.

(* ------------------------------------------------------------------ *)
(** * Simultaneous probes *)

Section Tiebreaking.
Variables (m : gmap Z pbuf) (bs : gmap Z Z).

(** [if (a != b) { *result = a > b ? LATER : EARLIER; return ERR_OK; }] *)
Definition differs (a b : Z) : option Z :=
  if a =? b then None else Some (if b <? a then MDNS_LEXICOGRAPHICAL_LATER else MDNS_LEXICOGRAPHICAL_EARLIER).

(** [n] bytes of the data of two records, from byte [i]. *)
Fixpoint rdata_differs (n : nat) (pa pb oa ob i : Z) : outcome (option Z) :=
  match n with
  | O => Ok None
  | S n =>
      a ← pbuf_get_at m bs pa (u16 (oa + i));
      b ← pbuf_get_at m bs pb (u16 (ob + i));
      match differs a b with Some r => Ok (Some r) | None => rdata_differs n pa pb oa ob (i + 1) end
  end.
Fixpoint names_differ (n : nat) (a b : list Z) (i : Z) : outcome (option Z) :=
  match n with
  | O => Ok None
  | S n =>
      x ← rd a i;
      y ← rd b i;
      match differs x y with Some r => Ok (Some r) | None => names_differ n a b (i + 1) end
  end.

(** One comparison after another until one decides. *)
Definition or_else (r : outcome (option Z)) (k : outcome (Z * Z)) : outcome (Z * Z) :=
  r ← r; match r with Some r => Ok (ERR_OK, r) | None => k end.

(** The result of the call and [*result]. *)
Definition mdns_lexicographical_comparison (pkt_a pkt_b : mdns_packet) (ans_a ans_b : mdns_answer) : outcome (Z * Z) :=
  let pa := pk_pbuf pkt_a in
  let pb := pk_pbuf pkt_b in
  or_else (Ok (differs (rr_klass (a_info ans_a)) (rr_klass (a_info ans_b))))
  (or_else (Ok (differs (rr_type (a_info ans_a)) (rr_type (a_info ans_b))))
  (if negb (rr_type (a_info ans_a) =? DNS_RRTYPE_SRV) && negb (rr_type (a_info ans_b) =? DNS_RRTYPE_SRV) then
     or_else (rdata_differs (Z.to_nat (Z.min (rd_length ans_a) (rd_length ans_b))) pa pb (rd_offset ans_a) (rd_offset ans_b) 0)
     (or_else (Ok (differs (rd_length ans_a) (rd_length ans_b))) (Ok (ERR_OK, MDNS_LEXICOGRAPHICAL_EQUAL)))
   else
     or_else (rdata_differs 6 pa pb (rd_offset ans_a) (rd_offset ans_b) 0)
     ('(res, domain_a) ← mdns_readname m bs pa (u16 (rd_offset ans_a + 6));
      if res =? MDNS_READNAME_ERROR then Ok (ERR_VAL, 0)
      else
        '(res, domain_b) ← mdns_readname m bs pb (u16 (rd_offset ans_b + 6));
        if res =? MDNS_READNAME_ERROR then Ok (ERR_VAL, 0)
        else
          _ ← mdns_domain_debug_print domain_a;
          _ ← mdns_domain_debug_print domain_b;
          or_else (names_differ (Z.to_nat (Z.min (dlength domain_a) (dlength domain_b))) (dname domain_a) (dname domain_b) 0)
          (or_else (Ok (differs (dlength domain_a) (dlength domain_b))) (Ok (ERR_OK, MDNS_LEXICOGRAPHICAL_EQUAL)))))).

Definition mdns_init_answer_list : mdns_answer_list :=
  mk_answer_list (replicate (Z.to_nat MDNS_PROBE_TIEBREAK_MAX_ANSWERS) 0) 0.

(** [for (j = size + 1; j > i; j--) offset[j] = offset[j - 1]]; [n] is the
    number of rounds left. *)
Fixpoint shift_up (n : nat) (l : list Z) (j : Z) : outcome (list Z) :=
  match n with
  | O => Ok l
  | S n => x ← rd l (j - 1); l ← wr l j x; shift_up n l (j - 1)
  end.

(** The loop from entry [i]: the result, the packet that was read on, the
    place of the new entry and the offsets. *)
Fixpoint push_loop (fuel : nat) (a_list : mdns_answer_list) (pkt : mdns_packet) (new_answer : mdns_answer) (num_left i : Z)
    : outcome (Z * mdns_packet * Z * list Z) :=
  match fuel with
  | O => Ok (ERR_OK, pkt, al_size a_list, al_offset a_list)
  | S fuel =>
      off ← rd (al_offset a_list) i;
      '(res, pkt, a, num_left) ← mdns_read_answer m bs (set_parse_offset off pkt) num_left;
      if negb (res =? ERR_OK) then Ok (res, pkt, al_size a_list, al_offset a_list)
      else
        '(res, result) ← mdns_lexicographical_comparison pkt pkt a new_answer;
        if negb (res =? ERR_OK) then Ok (res, pkt, al_size a_list, al_offset a_list)
        else if result =? MDNS_LEXICOGRAPHICAL_LATER then
          l ← shift_up (Z.to_nat (al_size a_list + 1 - i)) (al_offset a_list) (al_size a_list + 1);
          Ok (ERR_OK, pkt, i, l)
        else push_loop fuel a_list pkt new_answer num_left (i + 1)
  end.
Definition mdns_push_answer_to_sorted_list (a_list : mdns_answer_list) (pkt : mdns_packet) (new_offset : Z)
    (new_answer : mdns_answer) : outcome (Z * mdns_answer_list * mdns_packet) :=
  if MDNS_PROBE_TIEBREAK_MAX_ANSWERS <=? al_size a_list + 1 then Ok (ERR_MEM, a_list, pkt)
  else
    '(res, pkt', pos, l) ← push_loop (Z.to_nat (al_size a_list)) a_list pkt new_answer (pk_authoritative pkt) 0;
    if negb (res =? ERR_OK) then Ok (res, a_list, pkt')
    else
      l ← wr l pos new_offset;
      Ok (ERR_OK, mk_answer_list l (u16 (al_size a_list + 1)), set_parse_offset (parse_offset pkt) pkt').

Definition mdns_convert_out_to_in_pkt (inpkt : mdns_packet) (outpkt : mdns_outpacket) : mdns_packet :=
  mk_packet (source_addr inpkt) (source_port inpkt) (recv_unicast inpkt) (op_pbuf outpkt) SIZEOF_DNS_HDR (pk_tx_id inpkt)
    (op_questions outpkt) (op_questions outpkt) (op_answers outpkt) (op_answers outpkt)
    (op_authoritative outpkt) (op_authoritative outpkt) (op_additional outpkt) (op_additional outpkt)
    (next_answer inpkt) (next_tc_question inpkt).

(** [None] is [goto cleanup]. *)
Definition step {A B : Type} (r : outcome (option A)) (k : A -> outcome (option B)) : outcome (option B) :=
  r ← r; match r with Some x => k x | None => Ok None end.

(** [while (pkt->questions_left) { ... }] without a use of the questions. *)
Fixpoint skip_questions (fuel : nat) (pkt : mdns_packet) : outcome (option mdns_packet) :=
  if questions_left pkt =? 0 then Ok (Some pkt)
  else
    match fuel with
    | O => Fault Diverges
    | S fuel =>
        '(res, pkt, _) ← mdns_read_question m bs pkt;
        if negb (res =? ERR_OK) then Ok None else skip_questions fuel pkt
    end.

(** The question of the other host that asks for the name of [my_q]. *)
Fixpoint find_question (fuel : nat) (pkt : mdns_packet) (my_q : mdns_question) : outcome (option (bool * mdns_packet)) :=
  if questions_left pkt =? 0 then Ok (Some (false, pkt))
  else
    match fuel with
    | O => Fault Diverges
    | S fuel =>
        '(res, pkt, pkt_q) ← mdns_read_question m bs pkt;
        if negb (res =? ERR_OK) then Ok None
        else if other_class (q_info pkt_q) then Ok None
        else
          e ← mdns_domain_eq (rr_domain (q_info pkt_q)) (rr_domain (q_info my_q));
          if negb (e =? 0) then Ok (Some (true, pkt)) else find_question fuel pkt my_q
    end.

(** The records of the authority section that answer [my_q], in order. *)
Fixpoint collect_answers (fuel : nat) (pkt : mdns_packet) (my_q : mdns_question) (a_list : mdns_answer_list)
    : outcome (option (mdns_answer_list * mdns_packet)) :=
  if authoritative_left pkt =? 0 then Ok (Some (a_list, pkt))
  else
    match fuel with
    | O => Fault Diverges
    | S fuel =>
        let save_parse_offset := parse_offset pkt in
        '(res, pkt, a, num_left) ← mdns_read_answer m bs pkt (authoritative_left pkt);
        let pkt := set_authoritative_left num_left pkt in
        if negb (res =? ERR_OK) then Ok None
        else
          y ← mdns_is_answer_to_question my_q a;
          if negb (y =? 0) then
            '(res, a_list, pkt) ← mdns_push_answer_to_sorted_list a_list pkt save_parse_offset a;
            if negb (res =? ERR_OK) then Ok None else collect_answers fuel pkt my_q a_list
          else collect_answers fuel pkt my_q a_list
    end.

(** How a comparison of two probes ends: this host wins, or the packets
    cannot be read ([goto cleanup]); it loses; or they are the same. *)
Inductive tiebreak := Cleanup | Lost | Same (my_pkt pkt : mdns_packet).

(** The loop over the two lists from entry [i]. *)
Fixpoint compare_lists (n : nat) (my_pkt pkt : mdns_packet) (my_l pkt_l : mdns_answer_list) (i : Z) : outcome tiebreak :=
  match n with
  | O => Ok (Same my_pkt pkt)
  | S n =>
      oa ← rd (al_offset my_l) i;
      '(res, my_pkt, my_a, num_left) ← mdns_read_answer m bs (set_parse_offset oa my_pkt) (authoritative_left my_pkt);
      let my_pkt := set_authoritative_left num_left my_pkt in
      if negb (res =? ERR_OK) then Ok Cleanup
      else
        ob ← rd (al_offset pkt_l) i;
        '(res, pkt, pkt_a, num_left) ← mdns_read_answer m bs (set_parse_offset ob pkt) (authoritative_left pkt);
        let pkt := set_authoritative_left num_left pkt in
        if negb (res =? ERR_OK) then Ok Cleanup
        else
          '(res, result) ← mdns_lexicographical_comparison my_pkt pkt my_a pkt_a;
          if negb (res =? ERR_OK) then Ok Cleanup
          else if result =? MDNS_LEXICOGRAPHICAL_LATER then Ok Cleanup
          else if result =? MDNS_LEXICOGRAPHICAL_EARLIER then Ok Lost
          else compare_lists n my_pkt pkt my_l pkt_l (i + 1)
  end.

Definition counter_fuel (n : Z) : nat := Z.to_nat n.

(** What is done with a question both hosts ask. *)
Definition compare_probes (my_pkt pkt : mdns_packet) (my_q : mdns_question) : outcome (option tiebreak) :=
  step (skip_questions (counter_fuel (questions_left pkt)) pkt) (fun pkt =>
  step (skip_questions (counter_fuel (questions_left my_pkt)) my_pkt) (fun my_pkt =>
  step (collect_answers (counter_fuel (authoritative_left my_pkt)) my_pkt my_q mdns_init_answer_list) (fun '(my_l, my_pkt) =>
  step (collect_answers (counter_fuel (authoritative_left pkt)) pkt my_q mdns_init_answer_list) (fun '(pkt_l, pkt) =>
    let my_pkt := set_authoritative_left (pk_authoritative my_pkt) my_pkt in
    let pkt := set_authoritative_left (pk_authoritative pkt) pkt in
    r ← compare_lists (Z.to_nat (Z.min (al_size my_l) (al_size pkt_l))) my_pkt pkt my_l pkt_l 0;
    match r with
    | Same my_pkt pkt =>
        if al_size pkt_l <? al_size my_l then Ok None
        else if al_size my_l <? al_size pkt_l then Ok (Some Lost)
        else Ok (Some (Same my_pkt pkt))
    | r => Ok (Some r)
    end)))).

(** The loop over this host's questions: whether it loses. *)
Fixpoint probes_lost (fuel : nat) (my_pkt pkt : mdns_packet) : outcome bool :=
  if questions_left my_pkt =? 0 then Ok false
  else
    match fuel with
    | O => Fault Diverges
    | S fuel =>
        '(res, my_pkt, my_q) ← mdns_read_question m bs my_pkt;
        if negb (res =? ERR_OK) then Ok false
        else
          let pkt_parse_offset := parse_offset pkt in
          let myprobe_parse_offset := parse_offset my_pkt in
          let myprobe_questions_left := questions_left my_pkt in
          let again my_pkt' pkt' :=
            probes_lost fuel
              (set_authoritative_left (pk_authoritative my_pkt')
                (set_questions_left myprobe_questions_left (set_parse_offset myprobe_parse_offset my_pkt')))
              (set_authoritative_left (pk_authoritative pkt')
                (set_questions_left (pk_questions pkt') (set_parse_offset pkt_parse_offset pkt'))) in
          r ← find_question (counter_fuel (questions_left pkt)) pkt my_q;
          match r with
          | None => Ok false
          | Some (false, pkt) => again my_pkt pkt
          | Some (true, pkt) =>
              r ← compare_probes my_pkt pkt my_q;
              match r with
              | None | Some Cleanup => Ok false
              | Some Lost => Ok true
              | Some (Same my_pkt pkt) => again my_pkt pkt
              end
          end
    end.
End Tiebreaking.
