(* ===== verification/Mdns.v ===== *)
(** The mDNS responder: apps/mdns/mdns.c. Received questions and responses,
    the delays of the answers, the state machine that probes for and
    announces the names of a host, and the functions the application calls.

    The reading of packets is in [MdnsIn], the writing in [MdnsOut]. *)

From Stdlib Require Import ZArith Lia.
From stdpp Require Import base list numbers gmap.
From S2P Require Import Prelude Mmio Mem Memp Timeouts Pbuf Ip6Addr Chksum Udp Netif Ip6Out Mld6 Addrs Nd6 Stack MdnsDomain MdnsOut MdnsIn.

Open Scope Z_scope.

Definition MDNS_IP_TTL : Z := 255.
Definition MDNS_RESPONSE_DELAY_MAX : Z := 120.
Definition MDNS_RESPONSE_DELAY_MIN : Z := 20.
Definition MDNS_RESPONSE_TC_DELAY_MAX : Z := 500.
Definition MDNS_RESPONSE_TC_DELAY_MIN : Z := 400.
Definition MDNS_PROBE_COUNT : Z := 3.
Definition MDNS_PROBE_DELAY_MS : Z := 250.
Definition MDNS_PROBE_TIEBREAK_CONFLICT_DELAY_MS : Z := 1000.
Definition MDNS_ANNOUNCE_DELAY_MS : Z := 1000.
Definition MDNS_ANNOUNCE_COUNT : Z := 2.
Definition MDNS_MAX_REQUESTS : Z := 2.
Definition MDNS_MAX_STORED_PKTS : Z := 4.
Definition MDNS_PROBE_MAX_CONFLICTS_BEFORE_RATE_LIMIT : Z := 15.
Definition MDNS_PROBE_MAX_CONFLICTS_TIME_WINDOW : Z := 10000.
Definition MDNS_PROBE_MAX_CONFLICTS_TIMEOUT : Z := 5000.
Definition MDNS_PROBING_CONFLICT : Z := 0.
Definition MDNS_PROBING_SUCCESSFUL : Z := 1.
Definition MDNS_SEARCH_RESULT_FIRST : Z := 1.
Definition MDNS_SEARCH_RESULT_LAST : Z := 2.
Definition LWIP_NUM_NETIF_CLIENT_DATA : Z := 1.
Definition LWIP_NETIF_CLIENT_DATA_INDEX_MAX : Z := 1.
Definition IPADDR_TYPE_ANY : Z := 46.

(** FF02::FB. *)
Definition v6group : ip6_addr := IP6_ADDR 0xFF020000 0 0 0xFB.

(** Handlers of timers and the callback of the control block, as addresses. *)
Definition MDNS_PROBE_AND_ANNOUNCE : Z := 0x15.
Definition MDNS_HANDLE_TC_QUESTION : Z := 0x16.
Definition MDNS_RECV : Z := 0x17.

(** The data of a record a search is told about: inside the packet, or a copy
    on the stack. *)
Inductive varpart := InPacket (a : Z) | OnStack (l : list Z).

(* ------------------------------------------------------------------ *)
(** * Messages *)

(** A mask for every service there is. *)
Definition service_masks (mask : Z) (mdns : mdns_host) : list Z :=
  (fun p => if p =? 0 then 0 else mask) <$> h_services mdns.

(** The valid addresses from slot [i], as bits. *)
Fixpoint valid_slots (states : list Z) (i : Z) : Z :=
  match states with
  | [] => 0
  | st :: states =>
      Z.lor (if ip6_addr_isvalid st then Z.shiftl 1 i else 0) (valid_slots states (i + 1))
  end.

(** What [mdns_announce] sends. *)
Definition announcement (mdns : mdns_host) (n : netif) (destination : ip6_addr) : mdns_outmsg :=
  let slots := valid_slots (addr_states n) 0 in
  let any := negb (slots =? 0) in
  set_m_flags (Z.lor DNS_FLAG1_RESPONSE DNS_FLAG1_AUTHORATIVE)
  (set_m_dest destination LWIP_IANA_PORT_MDNS
  (set_serv_replies (service_masks (Z.lor (Z.lor REPLY_SERVICE_TYPE_PTR REPLY_SERVICE_NAME_PTR)
                                          (Z.lor REPLY_SERVICE_SRV REPLY_SERVICE_TXT)) mdns)
  (set_host_reverse slots
  (set_host_replies (if any then Z.lor REPLY_HOST_AAAA REPLY_HOST_PTR_V6 else 0)
  (set_m_cache_flush 1 zero_outmsg))))).

Definition probe_rrs (mdns : mdns_host) (n : netif) : mdns_outmsg :=
  let any := negb (valid_slots (addr_states n) 0 =? 0) in
  set_serv_replies (service_masks REPLY_SERVICE_SRV mdns)
  (set_host_replies (if any then REPLY_HOST_AAAA else 0)
  (set_serv_questions (service_masks QUESTION_PROBE_SERVICE_NAME_ANY mdns)
  (set_host_questions QUESTION_PROBE_HOST_ANY zero_outmsg))).

Definition mdns_add_msg_to_delayed (dest src : mdns_outmsg) : mdns_outmsg :=
  mk_outmsg (m_tx_id src) (m_flags src) (m_dest_addr dest) (m_dest_port dest) (m_cache_flush src)
    (unicast_reply_requested dest) (legacy_query src) (probe_query_recv dest)
    (Z.lor (host_questions dest) (host_questions src)) (zip_with Z.lor (serv_questions dest) (serv_questions src))
    (Z.lor (host_replies dest) (host_replies src))
    (Z.lor (host_reverse_v6_replies dest) (host_reverse_v6_replies src))
    (zip_with Z.lor (serv_replies dest) (serv_replies src)) (m_query dest).

(** [reply->serv_replies[i]]. *)
Definition serv_reply (reply : mdns_outmsg) (i : Z) : Z := default 0 (serv_replies reply !! Z.to_nat i).
Definition upd_serv_reply (i : Z) (f : Z -> Z) (reply : mdns_outmsg) : mdns_outmsg :=
  set_serv_replies (alter (fun v => u8 (f v)) (Z.to_nat i) (serv_replies reply)) reply.
(** [x &= ~bits]. *)
Definition clear_bits (x bits : Z) : Z := Z.land x (Z.lnot bits).

(** [rrs_to_send]. *)
Definition rrs_to_send (reply : mdns_outmsg) : Z :=
  u8 (foldr Z.lor (Z.lor (host_replies reply) (host_questions reply)) (zip_with Z.lor (serv_replies reply) (serv_questions reply))).

(** [delay_response] and [send_unicast]. *)
Definition delay_response (d : mdns_delayed_msg) (questions : Z) (reply : mdns_outmsg) : bool :=
  let shared_answer := existsb (fun v => has v (Z.lor REPLY_SERVICE_TYPE_PTR REPLY_SERVICE_NAME_PTR)) (serv_replies reply) in
  let probe := negb (probe_query_recv reply =? 0) in
  let unicast := negb (unicast_reply_requested reply =? 0) in
  negb (((questions =? 1) && negb shared_answer && negb probe) || (probe && unicast) ||
        (probe && negb unicast && (multicast_probe_timeout d =? 0))).
Definition send_unicast (d : mdns_delayed_msg) (recv_unicast : Z) (reply : mdns_outmsg) : bool :=
  let probe := negb (probe_query_recv reply =? 0) in
  let unicast := negb (unicast_reply_requested reply =? 0) in
  (unicast && negb (multicast_timeout_25TTL d =? 0)) || negb (recv_unicast =? 0) || negb (legacy_query reply =? 0) ||
  (probe && unicast).

(** [mdns_conflict_save_time] at the time [now]. *)
Definition save_conflict (now : Z) (x : mdns_host) : outcome mdns_host :=
  let x := set_num_conflicts (num_conflicts x + 1) x in
  times ← wr (conflict_time x) (h_index x) now;
  let x := set_conflict_time times x in
  let index2 := Z.rem (h_index x + 1) MDNS_PROBE_MAX_CONFLICTS_BEFORE_RATE_LIMIT in
  x ← (if MDNS_PROBE_MAX_CONFLICTS_BEFORE_RATE_LIMIT <=? num_conflicts x then
         t1 ← rd times (h_index x);
         t2 ← rd times index2;
         Ok (if u32 (t1 - t2) <? MDNS_PROBE_MAX_CONFLICTS_TIME_WINDOW then set_rate_limit 1 x else x)
       else Ok x);
  Ok (set_h_index (u8 index2) x).

(** The fields of a domain as they lie in memory (the structure ends with a
    byte of padding), and back. *)
Definition domain_bytes (d : mdns_domain) : list Z :=
  dname d ++ [u16 (dlength d) / 256; u16 (dlength d) mod 256; u8 (skip_compression d); 0].
Definition bytes_domain (l : list Z) : mdns_domain :=
  mk_domain (take 256 l) (default 0 (l !! 256%nat) * 256 + default 0 (l !! 257%nat)) (default 0 (l !! 258%nat)).

(** [SRV_PRIORITY], [SRV_WEIGHT], the port and the host of a record are those
    of a service; [name] is the host's name. *)
Definition srv_field (m : gmap Z pbuf) (bs : gmap Z Z) (p pos v : Z) : outcome bool :=
  '(n, f) ← pbuf_copy_partial m bs p (Some [0; 0]) 2 pos;
  Ok ((n =? 2) && (field_value (default [] f) =? v)).
Definition srv_matches (m : gmap Z pbuf) (bs : gmap Z Z) (p read_pos port : Z) (name : list Z) : outcome bool :=
  b ← srv_field m bs p read_pos SRV_PRIORITY;
  if negb b then Ok false
  else
    b ← srv_field m bs p (u16 (read_pos + 2)) SRV_WEIGHT;
    if negb b then Ok false
    else
      b ← srv_field m bs p (u16 (read_pos + 4)) port;
      if negb b then Ok false
      else
        '(n, known_ans) ← mdns_readname m bs p (u16 (read_pos + 6));
        '(_, my_ans) ← mdns_build_host_domain name;
        if n =? MDNS_READNAME_ERROR then Ok false
        else e ← mdns_domain_eq known_ans my_ans; Ok (negb (e =? 0)).

(** The name in the data of a record is one that was built. *)
Definition rdata_named (m : gmap Z pbuf) (bs : gmap Z Z) (p off : Z) (built : outcome (Z * mdns_domain)) : outcome bool :=
  '(n, known_ans) ← mdns_readname m bs p off;
  if n =? MDNS_READNAME_ERROR then Ok false else is_named known_ans built.
Definition rdata_is (m : gmap Z pbuf) (bs : gmap Z Z) (p : Z) (ans : mdns_answer) (data : list Z) (n : Z) : outcome bool :=
  if rd_length ans =? n then r ← pbuf_memcmp m bs p (rd_offset ans) data (rd_length ans); Ok (r =? 0) else Ok false.

Section Responder.
Context {PP RP HP UP QP MP DV PS KP : Type} `{PoolOps PP} `{PoolOps RP} `{HeapOps HP} `{PoolOps UP} `{PoolOps QP}
  `{PoolOps MP} `{PoolOps PS} `{PoolOps KP}.
Abbreviation st := (net PP RP HP UP (ipst QP MP DV)).
Context {HK : Hooks st}.
Abbreviation world := (timers PS (mworld st KP)).
Abbreviation mio := (io world).

(** Callbacks of the application by their address: [txt_fn(service,
    userdata)], [mdns_name_result_cb(netif, result, slot)] and
    [result_fn(ans, varpart, varlen, flags, arg)]. *)
Variable call_txt_fn : Z -> Z -> Z -> mio unit.
Variable call_name_result : Z -> Z -> Z -> Z -> mio unit.
Variable call_result_fn : Z -> mdns_answer -> varpart -> Z -> Z -> Z -> mio unit.
(** The sizes of [struct mdns_host] and [struct mdns_service]. *)
Variable SIZEOF_MDNS_HOST SIZEOF_MDNS_SERVICE : Z.
(** [LWIP_MEMPOOL_INIT(MDNS_PKTS)]. *)
Variable mempool_init : KP -> KP.

Definition lift {A} (r : outcome A) : mio A := fun s => x ← r; Ok (x, s).
(** A computation on the packet memory that changes nothing. *)
Definition in_packets {A} (f : gmap Z pbuf -> gmap Z Z -> outcome A) : mio A := fun s =>
  let h := n_heap (w_net (t_world s)) in x ← f (pbufs h) (bytes h); Ok (x, s).
Definition rand_below (n min : Z) : mio Z := r ← on_net LWIP_RAND; mret (Z.rem r n + min).
Definition MDNS_RESPONSE_DELAY : mio Z :=
  rand_below (MDNS_RESPONSE_DELAY_MAX - MDNS_RESPONSE_DELAY_MIN) MDNS_RESPONSE_DELAY_MIN.
Definition MDNS_RESPONSE_TC_DELAY_MS : mio Z :=
  rand_below (MDNS_RESPONSE_TC_DELAY_MAX - MDNS_RESPONSE_TC_DELAY_MIN) MDNS_RESPONSE_TC_DELAY_MIN.
Definition MDNS_INITIAL_PROBE_DELAY_MS : mio Z := rand_below MDNS_PROBE_DELAY_MS 0.

Definition set_requests (f : list mdns_request -> list mdns_request) (v : mdns_vars KP) : mdns_vars KP :=
  match v with mk_mdns a b c d e g i j k l m => mk_mdns (f a) b c d e g i j k l m end.
Definition set_pcb (p : Z) (v : mdns_vars KP) : mdns_vars KP :=
  match v with mk_mdns a _ c d e g i j k l m => mk_mdns a p c d e g i j k l m end.
Definition set_name_cb (cb : Z) (v : mdns_vars KP) : mdns_vars KP :=
  match v with mk_mdns a b _ d e g i j k l m => mk_mdns a b cb d e g i j k l m end.
Definition set_netif_client_id (x : Z) (v : mdns_vars KP) : mdns_vars KP :=
  match v with mk_mdns a b c _ e g i j k l m => mk_mdns a b c (u8 x) e g i j k l m end.
Definition set_mdns_client_id (x : Z) (v : mdns_vars KP) : mdns_vars KP :=
  match v with mk_mdns a b c d _ g i j k l m => mk_mdns a b c d x g i j k l m end.
Definition set_client_data (f : gmap (Z * Z) Z -> gmap (Z * Z) Z) (v : mdns_vars KP) : mdns_vars KP :=
  match v with mk_mdns a b c d e g i j k l m => mk_mdns a b c d e (f g) i j k l m end.
Definition set_pending (p : Z) (v : mdns_vars KP) : mdns_vars KP :=
  match v with mk_mdns a b c d e g i j _ l m => mk_mdns a b c d e g i j p l m end.
Definition set_packets (f : gmap Z mdns_packet -> gmap Z mdns_packet) (v : mdns_vars KP) : mdns_vars KP :=
  match v with mk_mdns a b c d e g i j k l m => mk_mdns a b c d e g i j k (f l) m end.
Definition set_pkts_pool (ps : KP) (v : mdns_vars KP) : mdns_vars KP :=
  match v with mk_mdns a b c d e g i j k l _ => mk_mdns a b c d e g i j k l ps end.

(** [netif_set_client_data(netif, mdns_netif_client_id, data)]. *)
Definition netif_set_client_data (netif data : Z) : mio unit :=
  v ← mvars; upd_mvars (set_client_data <[(netif, mdns_netif_client_id v) := data]>).

Definition get_packet (p : Z) : mio mdns_packet :=
  v ← mvars; match packets v !! p with Some x => mret x | None => io_fault NullPointer end.
Definition upd_packet (p : Z) (f : mdns_packet -> mdns_packet) : mio unit :=
  x ← get_packet p; upd_mvars (set_packets <[p := f x]>).
(** [LWIP_MEMPOOL_ALLOC(MDNS_PKTS)] and [LWIP_MEMPOOL_FREE]; a freed element
    is gone. *)
Definition alloc_packet : mio (option Z) :=
  v ← mvars; '(r, ps) ← lift (pool_malloc (pkts_pool v)); _ ← upd_mvars (set_pkts_pool ps); mret r.
Definition free_packet (p : Z) : mio unit :=
  v ← mvars; ps ← lift (pool_free p (pkts_pool v));
  upd_mvars (fun v => set_packets (delete p) (set_pkts_pool ps v)).

Definition host_of (netif : Z) : mio mdns_host := hp ← netif_mdns_data netif; get_host hp.
Definition upd_host_of (netif : Z) (f : mdns_host -> mdns_host) : mio unit := hp ← netif_mdns_data netif; upd_host hp f.

(** The loop over the services: [body] for each slot that has one. *)
Fixpoint services_loop {A} (mdns : mdns_host) (idxs : list Z) (body : Z -> Z -> mdns_service -> A -> mio A) (x : A) : mio A :=
  match idxs with
  | [] => mret x
  | i :: idxs => x ← with_service mdns i (mret x) (fun p s => body i p s x); services_loop mdns idxs body x
  end.

(* ------------------------------------------------------------------ *)
(** * Sending *)

Definition mdns_announce (netif : Z) (destination : ip6_addr) : mio unit :=
  x ← host_of netif;
  n ← on_net (get_netif netif);
  _ ← mdns_send_outpacket call_txt_fn (announcement x n destination) netif;
  mret tt.

Definition mdns_resp_announce (netif : Z) : mio unit :=
  if netif =? 0 then mret tt
  else
    hp ← netif_mdns_data netif;
    if hp =? 0 then mret tt
    else
      x ← get_host hp;
      match mstate x with
      | MDNS_STATE_ANNOUNCING | MDNS_STATE_COMPLETE =>
          _ ← mdns_announce netif v6group; mdns_start_multicast_timeouts_ipv6 netif
      | _ => mret tt
      end.

Definition mdns_define_probe_rrs_to_send (netif : Z) : mio mdns_outmsg :=
  x ← host_of netif; n ← on_net (get_netif netif); mret (probe_rrs x n).

Definition mdns_send_probe (netif : Z) (destination : ip6_addr) : mio Z :=
  msg ← mdns_define_probe_rrs_to_send netif;
  mdns_send_outpacket call_txt_fn (set_m_dest destination LWIP_IANA_PORT_MDNS (set_m_tx_id 0 msg)) netif.

(** A probe was sent with the result [res]. *)
Definition count_probe (netif res : Z) : mio unit :=
  _ ← io_when (res =? ERR_OK) (upd_host_of netif (fun x => set_sent_num (sent_num x + 1) (set_mstate MDNS_STATE_PROBING x)));
  x ← host_of netif;
  io_when (MDNS_PROBE_COUNT <=? sent_num x)
    (upd_host_of netif (fun x => set_sent_num 0 (set_mstate MDNS_STATE_ANNOUNCE_WAIT x))).
(** The names are the host's now. *)
Definition first_announcement (netif : Z) : mio unit :=
  _ ← upd_host_of netif (fun x => set_rate_limit 0 (set_mstate MDNS_STATE_ANNOUNCING x));
  v ← mvars;
  io_when (negb (mdns_name_result_cb v =? 0))
    (call_name_result (mdns_name_result_cb v) netif MDNS_PROBING_SUCCESSFUL 0).
Definition count_announcement (netif : Z) : mio unit :=
  _ ← upd_host_of netif (fun x => set_sent_num (sent_num x + 1) x);
  x ← host_of netif;
  if MDNS_ANNOUNCE_COUNT <=? sent_num x
  then upd_host_of netif (fun x => set_sent_num 0 (set_mstate MDNS_STATE_COMPLETE x))
  else timeout (u32 (MDNS_ANNOUNCE_DELAY_MS * Z.shiftl 1 (sent_num x - 1))) MDNS_PROBE_AND_ANNOUNCE netif.

Definition mdns_probe_and_announce (netif : Z) : mio unit :=
  x ← host_of netif;
  match mstate x with
  | MDNS_STATE_OFF | MDNS_STATE_PROBE_WAIT | MDNS_STATE_PROBING =>
      res ← mdns_send_probe netif v6group;
      _ ← count_probe netif res;
      x ← host_of netif;
      if negb (sent_num x =? 0) && (rate_limit_activated x =? 1)
      then timeout MDNS_PROBE_MAX_CONFLICTS_TIMEOUT MDNS_PROBE_AND_ANNOUNCE netif
      else timeout MDNS_PROBE_DELAY_MS MDNS_PROBE_AND_ANNOUNCE netif
  | MDNS_STATE_ANNOUNCE_WAIT | MDNS_STATE_ANNOUNCING =>
      _ ← io_when (sent_num x =? 0) (first_announcement netif);
      _ ← mdns_resp_announce netif;
      count_announcement netif
  | MDNS_STATE_COMPLETE => mret tt
  end.

Definition mdns_resp_restart_delay (netif delay : Z) : mio unit :=
  if netif =? 0 then mret tt
  else
    hp ← netif_mdns_data netif;
    if hp =? 0 then mret tt
    else
      _ ← untimeout MDNS_PROBE_AND_ANNOUNCE netif;
      _ ← upd_host hp (fun x => set_mstate MDNS_STATE_PROBE_WAIT (set_sent_num 0 x));
      x ← get_host hp;
      if rate_limit_activated x =? 1 then timeout MDNS_PROBE_MAX_CONFLICTS_TIMEOUT MDNS_PROBE_AND_ANNOUNCE netif
      else timeout delay MDNS_PROBE_AND_ANNOUNCE netif.

Definition mdns_resp_restart (netif : Z) : mio unit :=
  delay ← MDNS_INITIAL_PROBE_DELAY_MS; mdns_resp_restart_delay netif delay.

(* ------------------------------------------------------------------ *)
(** * Conflicts *)

Definition mdns_conflict_save_time (netif : Z) : mio unit :=
  hp ← netif_mdns_data netif;
  x ← get_host hp;
  now ← sys_now;
  x ← lift (save_conflict now x);
  upd_host hp (fun _ => x).

Definition mdns_probe_conflict (netif slot : Z) : mio unit :=
  _ ← mdns_conflict_save_time netif;
  _ ← untimeout MDNS_PROBE_AND_ANNOUNCE netif;
  v ← mvars;
  io_when (negb (mdns_name_result_cb v =? 0))
    (call_name_result (mdns_name_result_cb v) netif MDNS_PROBING_CONFLICT slot).

(** The packet is not read on behind the call: the host is still probing, or
    waits to. [inpkt->pbuf] is NULL when no packet could be made. *)
Definition mdns_handle_probe_tiebreaking (netif : Z) (pkt : mdns_packet) : mio unit :=
  msg ← mdns_define_probe_rrs_to_send netif;
  '(res, outpkt) ← mdns_create_outpacket call_txt_fn netif msg zero_outpacket;
  if negb (res =? ERR_OK) then mret tt
  else
    let inpkt := mdns_convert_out_to_in_pkt zero_packet outpkt in
    lost ← in_packets (fun m bs => probes_lost m bs (counter_fuel (questions_left inpkt)) inpkt pkt);
    _ ← io_when lost
          (_ ← mdns_conflict_save_time netif; mdns_resp_restart_delay netif MDNS_PROBE_TIEBREAK_CONFLICT_DELAY_MS);
    io_when (negb (pk_pbuf inpkt =? 0)) (_ ← on_heap (pbuf_free (pk_pbuf inpkt)); mret tt).

(* ------------------------------------------------------------------ *)
(** * Questions *)

(** [while (pkt->questions_left)]. *)
Fixpoint mdns_parse_pkt_questions (fuel : nat) (netif : Z) (pkt : mdns_packet) (reply : mdns_outmsg)
    : mio (Z * mdns_packet * mdns_outmsg) :=
  if questions_left pkt =? 0 then mret (ERR_OK, pkt, reply)
  else
    match fuel with
    | O => io_fault Diverges
    | S fuel =>
        '(res, pkt, q) ← in_packets (fun m bs => mdns_read_question m bs pkt);
        if negb (res =? ERR_OK) then mret (res, pkt, reply)
        else
          _ ← lift (mdns_domain_debug_print (rr_domain (q_info q)));
          let reply := if negb (q_unicast q =? 0) then set_unicast_requested 1 reply else reply in
          mdns ← host_of netif;
          n ← on_net (get_netif netif);
          '(r, rev) ← lift (check_host n (h_name mdns) (q_info q) (host_reverse_v6_replies reply));
          let reply := set_host_replies (Z.lor (host_replies reply) r) (set_host_reverse rev reply) in
          reply ← services_loop mdns slots (fun i _ s reply =>
            c ← lift (check_service s (q_info q)); mret (upd_serv_reply i (fun v => Z.lor v c) reply)) reply;
          mdns_parse_pkt_questions fuel netif pkt reply
    end.

(** A record of the host the sender knows. *)
Definition known_host_answer (netif : Z) (mdns : mdns_host) (pkt : mdns_packet) (ans : mdns_answer) (reply : mdns_outmsg)
    : mio mdns_outmsg :=
  n ← on_net (get_netif netif);
  '(r, rev_v6) ← lift (check_host n (h_name mdns) (a_info ans) 0);
  let mask := Z.land (host_replies reply) r in
  if negb (mask =? 0) && (MDNS_TTL_120 / 2 <? a_ttl ans) then
    if rr_type (a_info ans) =? DNS_RRTYPE_PTR then
      same ← in_packets (fun m bs => rdata_named m bs (pk_pbuf pkt) (rd_offset ans) (mdns_build_host_domain (h_name mdns)));
      if same && has mask REPLY_HOST_PTR_V6 then
        let reply := set_host_reverse (clear_bits (host_reverse_v6_replies reply) rev_v6) reply in
        mret (if host_reverse_v6_replies reply =? 0
              then set_host_replies (clear_bits (host_replies reply) REPLY_HOST_PTR_V6) reply else reply)
      else mret reply
    else if has mask REPLY_HOST_A then mret reply
    else if has mask REPLY_HOST_AAAA then
      a ← on_net (netif_ip6_addr netif 0);
      same ← in_packets (fun m bs => rdata_is m bs (pk_pbuf pkt) ans (ip6_bytes a) 16);
      mret (if same : bool then set_host_replies (clear_bits (host_replies reply) REPLY_HOST_AAAA) reply else reply)
    else mret reply
  else mret reply.

(** A record of service [s], at [p], the sender knows; [rr_ttl] is carried
    from service to service. *)
Definition known_service_answer (mdns : mdns_host) (pkt : mdns_packet) (ans : mdns_answer) (i p : Z) (s : mdns_service)
    (x : mdns_outmsg * Z) : mio (mdns_outmsg * Z) :=
  let '(reply, rr_ttl) := x in
  c ← lift (check_service s (a_info ans));
  let mask := Z.land (serv_reply reply i) c in
  let rr_ttl := if has mask REPLY_SERVICE_TYPE_PTR then MDNS_TTL_4500 else rr_ttl in
  let forget b bit reply := if (b : bool) then upd_serv_reply i (fun v => clear_bits v bit) reply else reply in
  if negb (mask =? 0) && (rr_ttl / 2 <? a_ttl ans) then
    if rr_type (a_info ans) =? DNS_RRTYPE_PTR then
      let named built := in_packets (fun m bs => rdata_named m bs (pk_pbuf pkt) (rd_offset ans) built) in
      b1 ← (if has mask REPLY_SERVICE_TYPE_PTR then named (mdns_build_service_domain s false) else mret false);
      b2 ← (if has mask REPLY_SERVICE_NAME_PTR then named (mdns_build_service_domain s true) else mret false);
      mret (forget b2 REPLY_SERVICE_NAME_PTR (forget b1 REPLY_SERVICE_TYPE_PTR reply), rr_ttl)
    else if has mask REPLY_SERVICE_SRV then
      b ← in_packets (fun m bs => srv_matches m bs (pk_pbuf pkt) (rd_offset ans) (port s) (h_name mdns));
      mret (forget b REPLY_SERVICE_SRV reply, rr_ttl)
    else if has mask REPLY_SERVICE_TXT then
      _ ← mdns_prepare_txtdata call_txt_fn p;
      s ← get_service p;
      b ← in_packets (fun m bs => rdata_is m bs (pk_pbuf pkt) ans (dname (txtdata s)) (dlength (txtdata s)));
      mret (forget b REPLY_SERVICE_TXT reply, rr_ttl)
    else mret (reply, rr_ttl)
  else mret (reply, rr_ttl).

(** Records of type or class ANY are skipped. *)
Definition any_record (ans : mdns_answer) : bool :=
  (rr_type (a_info ans) =? DNS_RRTYPE_ANY) || (rr_klass (a_info ans) =? DNS_RRCLASS_ANY).

Fixpoint mdns_parse_pkt_known_answers (fuel : nat) (netif : Z) (pkt : mdns_packet) (reply : mdns_outmsg)
    : mio (Z * mdns_packet * mdns_outmsg) :=
  if answers_left pkt =? 0 then mret (ERR_OK, pkt, reply)
  else
    match fuel with
    | O => io_fault Diverges
    | S fuel =>
        '(res, pkt, ans, num_left) ← in_packets (fun m bs => mdns_read_answer m bs pkt (answers_left pkt));
        let pkt := set_answers_left num_left pkt in
        if negb (res =? ERR_OK) then mret (res, pkt, reply)
        else
          _ ← lift (mdns_domain_debug_print (rr_domain (a_info ans)));
          if any_record ans then mdns_parse_pkt_known_answers fuel netif pkt reply
          else
            mdns ← host_of netif;
            reply ← known_host_answer netif mdns pkt ans reply;
            '(reply, _) ← services_loop mdns slots (known_service_answer mdns pkt ans) (reply, MDNS_TTL_120);
            mdns_parse_pkt_known_answers fuel netif pkt reply
    end.

Fixpoint mdns_parse_pkt_authoritative_answers (fuel : nat) (netif : Z) (pkt : mdns_packet) (reply : mdns_outmsg)
    : mio (Z * mdns_packet * mdns_outmsg) :=
  if authoritative_left pkt =? 0 then mret (ERR_OK, pkt, reply)
  else
    match fuel with
    | O => io_fault Diverges
    | S fuel =>
        '(res, pkt, ans, num_left) ← in_packets (fun m bs => mdns_read_answer m bs pkt (authoritative_left pkt));
        let pkt := set_authoritative_left num_left pkt in
        if negb (res =? ERR_OK) then mret (res, pkt, reply)
        else
          _ ← lift (mdns_domain_debug_print (rr_domain (a_info ans)));
          if any_record ans then mdns_parse_pkt_authoritative_answers fuel netif pkt reply
          else
            mdns ← host_of netif;
            n ← on_net (get_netif netif);
            '(r, _) ← lift (check_host n (h_name mdns) (a_info ans) 0);
            let reply := if negb (Z.land (host_replies reply) r =? 0) then set_probe_query_recv 1 reply else reply in
            reply ← services_loop mdns slots (fun i _ s reply =>
              c ← lift (check_service s (a_info ans));
              mret (if negb (Z.land (serv_reply reply i) c =? 0) then set_probe_query_recv 1 reply else reply)) reply;
            mdns_parse_pkt_authoritative_answers fuel netif pkt reply
    end.

(** The stored packets with further known answers, from [pkta]. *)
Fixpoint known_answers_chain (fuel : nat) (netif pkta : Z) (reply : mdns_outmsg) : mio (Z * mdns_outmsg) :=
  if pkta =? 0 then mret (ERR_OK, reply)
  else
    match fuel with
    | O => io_fault Diverges
    | S fuel =>
        pkt ← get_packet pkta;
        '(res, pkt, reply) ← mdns_parse_pkt_known_answers (counter_fuel (answers_left pkt)) netif pkt reply;
        _ ← upd_packet pkta (fun _ => pkt);
        if negb (res =? ERR_OK) then mret (res, reply) else known_answers_chain fuel netif (next_answer pkt) reply
    end.
Definition packet_fuel : mio nat := v ← mvars; mret (S (stdpp.base.size (packets v))).

(** The questions, the known answers of this and of the stored packets, and
    the records of a probe; the packet and the reply, when all could be
    read. *)
Definition parse_query (netif : Z) (pkt : mdns_packet) : mio (mdns_packet * option mdns_outmsg) :=
  '(res, pkt, reply) ← mdns_parse_pkt_questions (counter_fuel (questions_left pkt)) netif pkt zero_outmsg;
  if negb (res =? ERR_OK) then mret (pkt, None)
  else
    '(res, pkt, reply) ← mdns_parse_pkt_known_answers (counter_fuel (answers_left pkt)) netif pkt reply;
    if negb (res =? ERR_OK) then mret (pkt, None)
    else
      fuel ← packet_fuel;
      '(res, reply) ← known_answers_chain fuel netif (next_answer pkt) reply;
      if negb (res =? ERR_OK) then mret (pkt, None)
      else
        '(res, pkt, reply) ← mdns_parse_pkt_authoritative_answers (counter_fuel (authoritative_left pkt)) netif pkt reply;
        if negb (res =? ERR_OK) then mret (pkt, None) else mret (pkt, Some reply).

(** The flags, and what a legacy querier gets; nothing for a legacy query
    with more than one question. *)
Definition address_reply (pkt : mdns_packet) (reply : mdns_outmsg) : option mdns_outmsg :=
  let reply := set_m_flags (Z.lor DNS_FLAG1_RESPONSE DNS_FLAG1_AUTHORATIVE) reply in
  if negb (source_port pkt =? LWIP_IANA_PORT_MDNS) then
    if pk_questions pkt =? 1
    then Some (set_m_cache_flush 0 (set_m_tx_id (pk_tx_id pkt) (set_legacy_query 1 reply)))
    else None
  else Some (set_m_cache_flush 1 reply).

(** The answer is sent, or added to one that is sent later. *)
Definition send_reply (netif : Z) (pkt : mdns_packet) (reply : mdns_outmsg) : mio unit :=
  x ← host_of netif;
  let d := ipv6 x in
  let probe := negb (probe_query_recv reply =? 0) in
  let unicast := send_unicast d (recv_unicast pkt) reply in
  if delay_response d (pk_questions pkt) reply then
    if unicast then
      io_when (unicast_msg_in_use d =? 0)
        (_ ← on_ipv6 netif (fun d => set_delayed_unicast
               (mdns_add_msg_to_delayed (set_m_dest (source_addr pkt) (source_port pkt) (delayed_msg_unicast d)) reply) d);
         delay ← MDNS_RESPONSE_DELAY;
         mdns_set_timeout netif delay SEND_UNICAST_MSG_DELAYED unicast_msg_in_use set_unicast_in_use)
    else
      let add d := set_delayed_multicast (mdns_add_msg_to_delayed (delayed_msg_multicast d) reply) d in
      if (multicast_timeout d =? 0) && negb probe then
        _ ← on_ipv6 netif add;
        delay ← MDNS_RESPONSE_DELAY;
        mdns_set_timeout netif delay SEND_MULTICAST_MSG_DELAYED multicast_msg_waiting set_msg_waiting
      else io_when probe (on_ipv6 netif (fun d => set_msg_waiting 1 (add d)))
  else if unicast then
    _ ← mdns_send_outpacket call_txt_fn (set_m_dest (source_addr pkt) (source_port pkt) reply) netif; mret tt
  else if negb (multicast_timeout d =? 0) && negb probe then mret tt
  else
    res ← mdns_send_outpacket call_txt_fn (set_m_dest v6group LWIP_IANA_PORT_MDNS reply) netif;
    io_when (res =? ERR_OK) (mdns_start_multicast_timeouts_ipv6 netif).

Definition probing (x : mdns_host) : bool :=
  match mstate x with MDNS_STATE_PROBING | MDNS_STATE_ANNOUNCE_WAIT => true | _ => false end.
Definition answering (x : mdns_host) : bool :=
  match mstate x with MDNS_STATE_ANNOUNCING | MDNS_STATE_COMPLETE => true | _ => false end.

(** The packet as it was read. *)
Definition mdns_handle_question (pkt : mdns_packet) (netif : Z) : mio mdns_packet :=
  x ← host_of netif;
  _ ← io_when (probing x && (0 <? pk_questions pkt) && (pk_answers pkt =? 0) && (0 <? pk_authoritative pkt) && (pk_additional pkt =? 0))
        (mdns_handle_probe_tiebreaking netif pkt);
  x ← host_of netif;
  if negb (answering x) then mret pkt
  else
    '(pkt, reply) ← parse_query netif pkt;
    match reply with
    | None => mret pkt
    | Some reply =>
        if rrs_to_send reply =? 0 then mret pkt
        else
          match address_reply pkt reply with
          | None => mret pkt
          | Some reply => _ ← send_reply netif pkt reply; mret pkt
          end
    end.

(** The entry of [pending_tc_questions] in front of [pkt], from [prev]. *)
Fixpoint tc_before (fuel : nat) (pkt prev : Z) : mio Z :=
  if prev =? 0 then mret prev
  else
    match fuel with
    | O => io_fault Diverges
    | S fuel => x ← get_packet prev; if next_tc_question x =? pkt then mret prev else tc_before fuel pkt (next_tc_question x)
    end.
Fixpoint free_answers (fuel : nat) (pkt : Z) : mio unit :=
  x ← get_packet pkt;
  if next_answer x =? 0 then mret tt
  else
    match fuel with
    | O => io_fault Diverges
    | S fuel =>
        ans ← get_packet (next_answer x);
        _ ← upd_packet pkt (set_next_answer (next_answer ans));
        _ ← on_heap (pbuf_free (pk_pbuf ans));
        _ ← free_packet (next_answer x);
        free_answers fuel pkt
    end.
Definition mdns_handle_tc_question (a : Z) : mio unit :=
  pkt ← get_packet a;
  b ← on_heap (pb_read (pk_pbuf pkt));
  from ← on_net (gets (fun s => netif_get_by_index (lower s) (if_idx b)));
  pkt ← mdns_handle_question pkt from;
  _ ← upd_packet a (fun _ => pkt);
  v ← mvars;
  fuel ← packet_fuel;
  _ ← (if pending_tc_questions v =? a then upd_mvars (set_pending (next_tc_question pkt))
       else
         prev ← tc_before fuel a (pending_tc_questions v);
         _ ← io_assert (negb (prev =? 0));
         upd_packet prev (set_next_tc (next_tc_question pkt)));
  _ ← free_answers fuel a;
  x ← get_packet a;
  _ ← on_heap (pbuf_free (pk_pbuf x));
  free_packet a.

(* ------------------------------------------------------------------ *)
(** * Responses *)

Fixpoint lookup_from (requests : list mdns_request) (rr : mdns_rr_info) (i : Z) : outcome Z :=
  match requests with
  | [] => Ok (-1)
  | r :: requests =>
      if negb (result_fn r =? 0) then
        c ← check_request r rr; if negb (c =? 0) then Ok i else lookup_from requests rr (i + 1)
      else lookup_from requests rr (i + 1)
  end.
(** The index in [mdns_requests]; NULL is -1. *)
Definition mdns_lookup_request (rr : mdns_rr_info) : mio Z := v ← mvars; lift (lookup_from (mdns_requests v) rr 0).
Definition get_request (i : Z) : mio mdns_request := v ← mvars; lift (rd (mdns_requests v) i).

(** The request the last question is about. *)
Fixpoint response_questions (fuel : nat) (pkt : mdns_packet) (req : Z) : mio (Z * mdns_packet * Z) :=
  if questions_left pkt =? 0 then mret (ERR_OK, pkt, req)
  else
    match fuel with
    | O => io_fault Diverges
    | S fuel =>
        '(res, pkt, q) ← in_packets (fun m bs => mdns_read_question m bs pkt);
        if negb (res =? ERR_OK) then mret (res, pkt, req)
        else req ← mdns_lookup_request (q_info q); response_questions fuel pkt req
    end.

(** The data of a pointer or service record: the name is read, or copied as
    it lies in the packet, behind the first six bytes for a service. The
    second result is [varlen]. *)
Definition named_data (m : gmap Z pbuf) (bs : gmap Z Z) (pb : Z) (ans : mdns_answer) (a : Z) : outcome (varpart * Z) :=
  let srv := rr_type (a_info ans) =? DNS_RRTYPE_SRV in
  let off := if srv then 6 else 0 in
  '(n, dom) ← mdns_readname m bs pb (u16 (rd_offset ans + off));
  mem ←
    (if n =? MDNS_READNAME_ERROR then
       let dom := mk_domain (dname dom) (u16 (rd_length ans - off)) (skip_compression dom) in
       l ← load_bytes bs (a + off) (Z.to_nat (dlength dom));
       wr_block (domain_bytes dom) 0 l
     else Ok (domain_bytes dom));
  let len := dlength (bytes_domain mem) in
  if srv then values ← load_bytes bs a 6; Ok (OnStack (values ++ mem), u16 (len + 6))
  else Ok (OnStack mem, len).

(** What is done for the searches: nothing more is read ([None]), or the
    request, [first] and whether the rest of the round is skipped. *)
Definition report_answer (pkt : mdns_packet) (ans : mdns_answer) (num_left req first : Z) : mio (option (Z * Z * bool)) :=
  r ← (if req =? -1 then mret None else x ← get_request req; mret (Some x));
  req ←
    match r with
    | Some x =>
        if negb (only_ptr x =? 0) then
          a ← lift (rd_block (dname (rq_service x)) 0 (dlength (rq_service x)));
          b ← lift (rd_block (dname (rr_domain (a_info ans))) 0 (dlength (rq_service x)));
          mret (if bool_decide (a = b) then req else -1)
        else mret req
    | None => mret req
    end;
  req ← (if req =? -1 then mdns_lookup_request (a_info ans) else mret req);
  if req =? -1 then mret (Some (req, first, false))
  else
    x ← get_request req;
    if result_fn x =? 0 then mret (Some (req, first, false))
    else if negb (only_ptr x =? 0) && negb (rr_type (a_info ans) =? DNS_RRTYPE_PTR) then mret (Some (req, first, true))
    else
      let flags :=
        if negb (only_ptr x =? 0) then Z.lor MDNS_SEARCH_RESULT_FIRST MDNS_SEARCH_RESULT_LAST
        else Z.lor (if negb (first =? 0) then MDNS_SEARCH_RESULT_FIRST else 0)
                   (if num_left =? 0 then MDNS_SEARCH_RESULT_LAST else 0) in
      '(p, offset) ← in_packets (fun m _ => pbuf_skip m (pk_pbuf pkt) (rd_offset ans));
      if p =? 0 then mret None
      else
        b ← on_heap (pb_read p);
        let a := payload b + offset in
        '(data, n) ←
          (if (rr_type (a_info ans) =? DNS_RRTYPE_PTR) || (rr_type (a_info ans) =? DNS_RRTYPE_SRV)
           then in_packets (fun m bs => named_data m bs (pk_pbuf pkt) ans a)
           else mret (InPacket a, rd_length ans));
        _ ← call_result_fn (result_fn x) ans data n flags (rq_arg x);
        mret (Some (req, 0, false)).

(** The slot, from 0 for the host, whose name a record has; -1 when none. *)
Fixpoint service_named (mdns : mdns_host) (idxs : list Z) (domain : mdns_domain) : mio Z :=
  match idxs with
  | [] => mret (-1)
  | i :: idxs =>
      b ← with_service mdns i (mret false) (fun _ s => lift (is_named domain (mdns_build_service_domain s true)));
      if b : bool then mret (i + 1) else service_named mdns idxs domain
  end.
Definition conflicting_slot (mdns : mdns_host) (domain : mdns_domain) : mio Z :=
  b ← lift (is_named domain (mdns_build_host_domain (h_name mdns)));
  if b : bool then mret 0 else service_named mdns slots domain.

Fixpoint any_address (addrs : list ip6_addr) (pkt : mdns_packet) (ans : mdns_answer) : mio bool :=
  match addrs with
  | [] => mret false
  | a :: addrs =>
      b ← in_packets (fun m bs => rdata_is m bs (pk_pbuf pkt) ans (ip6_bytes a) 16);
      rest ← any_address addrs pkt ans;
      mret (b || rest)
  end.

(** Whether a record contradicts those of the host; [conflict]. *)
Definition host_conflict (netif : Z) (mdns : mdns_host) (pkt : mdns_packet) (ans : mdns_answer) : mio bool :=
  b ← lift (is_named (rr_domain (a_info ans)) (mdns_build_host_domain (h_name mdns)));
  if negb b then mret false
  else if rr_type (a_info ans) =? DNS_RRTYPE_AAAA then
    n ← on_net (get_netif netif); same ← any_address (ip6_addrs n) pkt ans; mret (negb same)
  else mret true.
Definition service_conflict (mdns : mdns_host) (pkt : mdns_packet) (ans : mdns_answer) (i p : Z) (s : mdns_service) (conflict : bool)
    : mio bool :=
  b ← lift (is_named (rr_domain (a_info ans)) (mdns_build_service_domain s true));
  if negb b then mret conflict
  else if rr_type (a_info ans) =? DNS_RRTYPE_SRV then
    same ← in_packets (fun m bs => srv_matches m bs (pk_pbuf pkt) (rd_offset ans) (port s) (h_name mdns)); mret (negb same)
  else if rr_type (a_info ans) =? DNS_RRTYPE_TXT then
    _ ← mdns_prepare_txtdata call_txt_fn p;
    s ← get_service p;
    same ← in_packets (fun m bs => rdata_is m bs (pk_pbuf pkt) ans (dname (txtdata s)) (dlength (txtdata s)));
    mret (negb same)
  else mret true.

(** What a record of a response does to the names of the host: whether the
    loop is left. *)
Definition check_conflict (netif : Z) (pkt : mdns_packet) (ans : mdns_answer) : mio bool :=
  mdns ← host_of netif;
  if probing mdns then
    slot ← conflicting_slot mdns (rr_domain (a_info ans));
    if slot =? -1 then mret false else _ ← mdns_probe_conflict netif slot; mret true
  else if answering mdns then
    c ← host_conflict netif mdns pkt ans;
    c ← services_loop mdns slots (service_conflict mdns pkt ans) c;
    if c : bool then _ ← mdns_resp_restart netif; mret true else mret false
  else mret false.

Fixpoint response_answers (fuel : nat) (netif : Z) (pkt : mdns_packet) (num_left req first : Z) : mio unit :=
  if num_left =? 0 then mret tt
  else
    match fuel with
    | O => io_fault Diverges
    | S fuel =>
        '(res, pkt, ans, num_left) ← in_packets (fun m bs => mdns_read_answer m bs pkt num_left);
        if negb (res =? ERR_OK) then mret tt
        else
          _ ← lift (mdns_domain_debug_print (rr_domain (a_info ans)));
          if (rr_type (a_info ans) =? DNS_RRTYPE_ANY) || negb (rr_klass (a_info ans) =? DNS_RRCLASS_IN)
          then response_answers fuel netif pkt num_left req first
          else
            r ← report_answer pkt ans num_left req first;
            match r with
            | None => mret tt
            | Some (req, first, true) => response_answers fuel netif pkt num_left req first
            | Some (req, first, false) =>
                stop ← check_conflict netif pkt ans;
                if stop : bool then mret tt else response_answers fuel netif pkt num_left req first
            end
    end.

(** The counters of the packet are not used behind the call. *)
Definition mdns_handle_response (pkt : mdns_packet) (netif : Z) : mio unit :=
  if negb (source_port pkt =? LWIP_IANA_PORT_MDNS) then mret tt
  else
    '(res, pkt, req) ← response_questions (counter_fuel (questions_left pkt)) pkt (-1);
    if negb (res =? ERR_OK) then mret tt
    else
      let total_answers_left := u16 (answers_left pkt + authoritative_left pkt + additional_left pkt) in
      response_answers (counter_fuel total_answers_left) netif pkt total_answers_left req 1.

(* ------------------------------------------------------------------ *)
(** * Receiving *)

(** A stored packet that waits for more, from the same sender. *)
Fixpoint find_tc (fuel : nat) (q port : Z) (addr : ip6_addr) : mio Z :=
  if q =? 0 then mret 0
  else
    match fuel with
    | O => io_fault Diverges
    | S fuel =>
        x ← get_packet q;
        if (port =? source_port x) && ip6_addr_eq addr (source_addr x) then mret q else find_tc fuel (next_tc_question x) port addr
    end.

Definition free_pbuf (p : Z) : mio unit := _ ← on_heap (pbuf_free p); mret tt.

(** A query that is not truncated, and has questions or is not from a sender
    whose question waits, is answered now. *)
Definition receive_query (packet : mdns_packet) (flags1 netif : Z) : mio unit :=
  let answer := _ ← mdns_handle_question packet netif; free_pbuf (pk_pbuf packet) in
  v ← mvars;
  if negb (pk_questions packet =? 0) && has flags1 DNS_FLAG1_TRUNC then
    r ← alloc_packet;
    match r with
    | None => free_pbuf (pk_pbuf packet)
    | Some a =>
        _ ← upd_mvars (fun v => set_pending a (set_packets <[a := set_next_tc (pending_tc_questions v) packet]> v));
        delay ← MDNS_RESPONSE_TC_DELAY_MS;
        timeout delay MDNS_HANDLE_TC_QUESTION a
    end
  else if (pk_questions packet =? 0) && negb (pk_answers packet =? 0) && negb (pending_tc_questions v =? 0) then
    fuel ← packet_fuel;
    q ← find_tc fuel (pending_tc_questions v) (source_port packet) (source_addr packet);
    if q =? 0 then answer
    else
      r ← alloc_packet;
      match r with
      | None => free_pbuf (pk_pbuf packet)
      | Some a =>
          x ← get_packet q;
          _ ← upd_mvars (set_packets <[a := set_next_answer (next_answer x) packet]>);
          upd_packet q (set_next_answer a)
      end
  else answer.

(** [struct dns_hdr] at the start of a packet. *)
Definition hdr16 (hdr : list Z) (i : nat) : Z := field_value (take 2 (drop i hdr)).
Definition packet_of (hdr : list Z) (p : Z) (addr : ip6_addr) (port unicast : Z) : mdns_packet :=
  mk_packet addr port unicast p SIZEOF_DNS_HDR (hdr16 hdr 0) (hdr16 hdr 4) (hdr16 hdr 4) (hdr16 hdr 6) (hdr16 hdr 6)
    (hdr16 hdr 8) (hdr16 hdr 8) (hdr16 hdr 10) (hdr16 hdr 10) 0 0.

Definition ip6_addr_ismulticast_global (a : ip6_addr) : bool := Z.land (word a 0) 0xff8f0000 =? 0xff0e0000.

Definition mdns_recv (a pcb p : Z) (addr : ip6_addr) (port : Z) : mio unit :=
  g ← on_net globals;
  let recv_netif := current_input_netif g in
  hp ← netif_mdns_data recv_netif;
  if hp =? 0 then free_pbuf p
  else
    '(n, hdr) ← in_packets (fun m bs => pbuf_copy_partial m bs p (Some (replicate 12 0)) SIZEOF_DNS_HDR 0);
    let hdr := default [] hdr in
    if n <? SIZEOF_DNS_HDR then free_pbuf p
    else
      let flags1 := field_value (take 1 (drop 2 hdr)) in
      if negb (Z.land (Z.shiftr flags1 3) 0xF =? 0) then free_pbuf p
      else
        let unicast := negb (ip6_addr_zoneless_eq (current_iphdr_dest g) v6group) in
        let src := current_iphdr_src g in
        if unicast && (ip6_addr_ismulticast_global src || ip6_addr_isglobal src) then free_pbuf p
        else
          let packet := packet_of hdr p addr port (if unicast then 1 else 0) in
          if has flags1 DNS_FLAG1_RESPONSE then _ ← mdns_handle_response packet recv_netif; free_pbuf p
          else receive_query packet flags1 recv_netif.

(* ------------------------------------------------------------------ *)
(** * The functions of the application *)

(** [mem_calloc] of core/mem.c; the memory is zero. *)
Definition mem_calloc (count size : Z) : mio (option Z) := on_heap (pb_mem_malloc (u32 (count * size))).
Definition mem_free (p : Z) : mio unit := on_heap (pb_mem_free p).
Definition free_host (p : Z) : mio unit := _ ← mem_free p; upd_mvars (set_hosts (delete p)).
Definition free_service (p : Z) : mio unit := _ ← mem_free p; upd_mvars (set_services (delete p)).

(** A string is the list of its characters; NULL is 0 for [netif]. *)
Definition mdns_resp_add_netif (netif : Z) (hostname : list Z) : mio Z :=
  if netif =? 0 then mret ERR_VAL
  else if MDNS_LABEL_MAXLEN <? zlen hostname then mret ERR_VAL
  else
    hp ← netif_mdns_data netif;
    _ ← io_assert (hp =? 0);
    r ← mem_calloc 1 SIZEOF_MDNS_HOST;
    match r with
    | None => mret ERR_MEM
    | Some mdns =>
        let group d := set_delayed_multicast (set_m_dest v6group LWIP_IANA_PORT_MDNS (delayed_msg_multicast d)) d in
        _ ← upd_mvars (set_hosts <[mdns := set_ipv6 group (set_h_name hostname zero_host)]>);
        _ ← netif_set_client_data netif mdns;
        res ← on_net (mld6_joingroup_netif netif v6group);
        if negb (res =? ERR_OK) then _ ← free_host mdns; _ ← netif_set_client_data netif 0; mret res
        else _ ← mdns_resp_restart netif; mret ERR_OK
    end.

Fixpoint free_services (l : list Z) : mio unit :=
  match l with
  | [] => mret tt
  | p :: l => _ ← io_when (negb (p =? 0)) (free_service p); free_services l
  end.
Definition mdns_resp_remove_netif (netif : Z) : mio Z :=
  _ ← io_assert (negb (netif =? 0));
  hp ← netif_mdns_data netif;
  if hp =? 0 then mret ERR_VAL
  else
    _ ← untimeout MDNS_PROBE_AND_ANNOUNCE netif;
    x ← get_host hp;
    _ ← free_services (h_services x);
    _ ← on_net (mld6_leavegroup_netif netif v6group);
    _ ← free_host hp;
    _ ← netif_set_client_data netif 0;
    mret ERR_OK.

Definition mdns_resp_rename_netif (netif : Z) (hostname : list Z) : mio Z :=
  if netif =? 0 then mret ERR_VAL
  else if MDNS_LABEL_MAXLEN <? zlen hostname then mret ERR_VAL
  else
    hp ← netif_mdns_data netif;
    if hp =? 0 then mret ERR_VAL
    else
      _ ← upd_host hp (set_h_name hostname);
      _ ← mdns_resp_restart_delay netif MDNS_PROBE_DELAY_MS;
      mret ERR_OK.

Definition mdns_resp_netif_active (netif : Z) : mio bool := hp ← netif_mdns_data netif; mret (negb (hp =? 0)).

Definition good_proto (proto : Z) : bool := (proto =? DNSSD_PROTO_TCP) || (proto =? DNSSD_PROTO_UDP).
(** The first slot for which [test] holds, or as many as there are. *)
Fixpoint first_slot {A} (test : A -> bool) (l : list A) (i : Z) : Z :=
  match l with [] => i | x :: l => if test x then i else first_slot test l (i + 1) end.

Definition mdns_resp_add_service (netif : Z) (name service : list Z) (proto port txt_fn txt_data : Z) : mio Z :=
  _ ← io_assert (negb (netif =? 0));
  hp ← netif_mdns_data netif;
  if hp =? 0 then mret ERR_VAL
  else if (MDNS_LABEL_MAXLEN <? zlen name) || (MDNS_LABEL_MAXLEN <? zlen service) || negb (good_proto proto) then mret ERR_VAL
  else
    x ← get_host hp;
    let slot := first_slot (fun p => p =? 0) (h_services x) 0 in
    if MDNS_MAX_SERVICES <=? slot then mret ERR_MEM
    else
      r ← mem_calloc 1 SIZEOF_MDNS_SERVICE;
      match r with
      | None => mret ERR_MEM
      | Some srv =>
          _ ← upd_mvars (set_services <[srv := mk_service zero_domain name service txt_fn txt_data (u16 proto) port]>);
          l ← lift (wr (h_services x) slot srv);
          _ ← upd_host hp (set_h_services l);
          _ ← mdns_resp_restart netif;
          mret slot
      end.

(** [LWIP_ERROR("Invalid Service ID", ...)]: the service of a slot, 0 when
    there is none. *)
Definition service_at (hp slot : Z) : mio Z :=
  if MDNS_MAX_SERVICES <=? slot then mret 0 else x ← get_host hp; lift (rd (h_services x) slot).

Definition mdns_resp_del_service (netif slot : Z) : mio Z :=
  _ ← io_assert (negb (netif =? 0));
  hp ← netif_mdns_data netif;
  if hp =? 0 then mret ERR_VAL
  else
    srv ← service_at hp slot;
    if srv =? 0 then mret ERR_VAL
    else
      x ← get_host hp;
      l ← lift (wr (h_services x) slot 0);
      _ ← upd_host hp (set_h_services l);
      _ ← free_service srv;
      mret ERR_OK.

Definition mdns_resp_rename_service (netif slot : Z) (name : list Z) : mio Z :=
  _ ← io_assert (negb (netif =? 0));
  hp ← netif_mdns_data netif;
  if hp =? 0 then mret ERR_VAL
  else if MDNS_LABEL_MAXLEN <? zlen name then mret ERR_VAL
  else
    srv ← service_at hp slot;
    if srv =? 0 then mret ERR_VAL
    else
      _ ← upd_service srv (set_sv_name name);
      _ ← mdns_resp_restart_delay netif MDNS_PROBE_DELAY_MS;
      mret ERR_OK.

Definition mdns_resp_add_service_txtitem (service : Z) (txt : list Z) (txt_len : Z) : mio Z :=
  _ ← io_assert (negb (service =? 0));
  s ← get_service service;
  '(res, d) ← lift (mdns_domain_add_label (txtdata s) txt txt_len);
  _ ← upd_service service (set_txtdata d);
  mret res.

Definition mdns_get_service_txt_userdata (netif slot : Z) : mio Z :=
  _ ← io_assert (slot <? MDNS_MAX_SERVICES);
  x ← host_of netif;
  p ← lift (rd (h_services x) slot);
  if p =? 0 then mret 0 else s ← get_service p; mret (txt_userdata s).

Definition set_result_fn (f : Z) (r : mdns_request) : mdns_request :=
  mk_request (rq_name r) (rq_service r) f (rq_arg r) (rq_proto r) (qtype r) (only_ptr r).
Definition mdns_search_stop (request_id : Z) : mio unit :=
  _ ← io_assert (request_id <? MDNS_MAX_REQUESTS);
  r ← get_request request_id;
  if negb (result_fn r =? 0) then
    v ← mvars; l ← lift (wr (mdns_requests v) request_id (set_result_fn 0 r)); upd_mvars (set_requests (fun _ => l))
  else mret tt.

(** ["_services._dns-sd"]. *)
Definition SERVICES_DNS_SD : list Z := DNSSD_SERVICES ++ [46] ++ DNSSD_DNS_SD.
(** The result and [*request_id]; [name] may be NULL. *)
Definition mdns_search_service (name : option (list Z)) (service : list Z) (proto netif result_fn' arg' : Z) : mio (Z * option Z) :=
  if (match name with Some name => MDNS_LABEL_MAXLEN <? zlen name | None => false end) then mret (ERR_VAL, None)
  else if negb (zlen service <? MDNS_DOMAIN_MAXLEN) || negb (good_proto proto) then mret (ERR_VAL, None)
  else
    v ← mvars;
    let slot := first_slot (fun r => result_fn r =? 0) (mdns_requests v) 0 in
    if MDNS_MAX_REQUESTS <=? slot then mret (ERR_MEM, None)
    else
      let only := if (proto =? DNSSD_PROTO_UDP) && bool_decide (service = SERVICES_DNS_SD) then 1 else 0 in
      '(_, d) ← lift (mdns_domain_add_string zero_domain service);
      let req := mk_request (default [] name) d result_fn' arg' (u16 proto) DNS_RRTYPE_PTR only in
      l ← lift (wr (mdns_requests v) slot req);
      _ ← upd_mvars (set_requests (fun _ => l));
      _ ← mdns_send_request call_txt_fn req netif v6group;
      mret (ERR_OK, Some slot).

Definition mdns_resp_register_name_result_cb (cb : Z) : mio unit := upd_mvars (set_name_cb cb).

(** core/netif.c. *)
Definition netif_alloc_client_data_id : mio Z :=
  v ← mvars;
  let result := netif_client_id v in
  _ ← upd_mvars (set_netif_client_id (result + 1));
  _ ← io_assert (result <? LWIP_NUM_NETIF_CLIENT_DATA);
  mret (u8 (result + LWIP_NETIF_CLIENT_DATA_INDEX_MAX)).

Definition set_mcast_ttl (v : Z) (p : udp_pcb) : udp_pcb :=
  mk_pcb (local_ip p) (remote_ip p) (netif_idx p) (so_options p) (tos p) (ttl p) (u_next p) (u_flags p)
    (local_port p) (remote_port p) (mcast_ifindex p) v (recv p) (recv_arg p).
Definition zero_request : mdns_request := mk_request [] zero_domain 0 0 0 0 0.

Definition mdns_resp_init : mio unit :=
  _ ← upd_mvars (set_requests (fun _ => replicate (Z.to_nat MDNS_MAX_REQUESTS) zero_request));
  _ ← upd_mvars (fun v => set_pkts_pool (mempool_init (pkts_pool v)) v);
  pcb ← on_net (udp_new_ip_type IPADDR_TYPE_ANY);
  _ ← upd_mvars (set_pcb pcb);
  _ ← io_assert (negb (pcb =? 0));
  _ ← on_net (upd_pcb pcb (set_mcast_ttl MDNS_IP_TTL));
  res ← on_net (udp_bind pcb (Some IP6_ADDR_ANY6) LWIP_IANA_PORT_MDNS);
  _ ← io_assert (res =? ERR_OK);
  _ ← on_net (udp_recv pcb MDNS_RECV 0);
  id ← netif_alloc_client_data_id;
  upd_mvars (set_mdns_client_id id).

(** The handlers of all timers by their address; nothing is at another. *)
Definition timer_handler (h a : Z) : mio unit :=
  if h =? MULTICAST_TIMEOUT_RESET then mdns_multicast_timeout_reset_ipv6 a
  else if h =? MULTICAST_PROBE_TIMEOUT_RESET then mdns_multicast_probe_timeout_reset_ipv6 call_txt_fn a
  else if h =? MULTICAST_TIMEOUT_25TTL_RESET then mdns_multicast_timeout_25ttl_reset_ipv6 a
  else if h =? SEND_MULTICAST_MSG_DELAYED then mdns_send_multicast_msg_delayed_ipv6 call_txt_fn a
  else if h =? SEND_UNICAST_MSG_DELAYED then mdns_send_unicast_msg_delayed_ipv6 call_txt_fn a
  else if h =? MDNS_PROBE_AND_ANNOUNCE then mdns_probe_and_announce a
  else if h =? MDNS_HANDLE_TC_QUESTION then mdns_handle_tc_question a
  else if h =? Timeouts.nd6_tmr then on_net Nd6.nd6_tmr
  else if h =? Timeouts.mld6_tmr then on_net Mld6.mld6_tmr
  else io_fault NullPointer.

(** [sys_check_timeouts] of core/timeouts.c with these handlers. *)
Definition run_handler (h a : Z) (s : world) : outcome world := '(_, s) ← timer_handler h a s; Ok s.
Definition check_timeouts (fuel : nat) : mio unit := on_timers (sys_check_timeouts w_now run_handler fuel).
End Responder.
