(* ===== verification/MdnsState.v ===== *)
(** The states of a host: probing, announcing, complete. Only the turns of
    the timer that probes and announces lead a host on; whatever else the
    responder is asked to do, received or woken by a timer to do leaves a host
    as it is or makes it start over. The probes that a run sends are counted
    beside it. *)

From Stdlib Require Import ZArith Lia.
From stdpp Require Import base list numbers gmap relations.
From S2P Require Import Prelude Mmio Mem Memp Timeouts Pbuf Ip6Addr Chksum Udp Netif Ip6Out Mld6 Addrs Nd6 Stack MdnsDomain MdnsOut MdnsIn Mdns.

Open Scope Z_scope.

(* ------------------------------------------------------------------ *)
(** * What is seen of a host *)

(** Its state and the packets sent for it. *)
Definition hview : Type := mdns_resp_state_enum_t * Z.
Definition view_of (x : mdns_host) : hview := (mstate x, sent_num x).

Definition before_announcing (q : mdns_resp_state_enum_t) : bool :=
  match q with MDNS_STATE_OFF | MDNS_STATE_PROBE_WAIT | MDNS_STATE_PROBING => true | _ => false end.

(** The states between two calls. *)
Inductive hview_ok : option hview -> Prop :=
| ho_none : hview_ok None
| ho_off : hview_ok (Some (MDNS_STATE_OFF, 0))
| ho_wait : hview_ok (Some (MDNS_STATE_PROBE_WAIT, 0))
| ho_probing n : 0 < n < 3 -> hview_ok (Some (MDNS_STATE_PROBING, n))
| ho_announce_wait : hview_ok (Some (MDNS_STATE_ANNOUNCE_WAIT, 0))
| ho_announcing : hview_ok (Some (MDNS_STATE_ANNOUNCING, 1))
| ho_complete : hview_ok (Some (MDNS_STATE_COMPLETE, 0)).

Create HintDb hviews.
#[export] Hint Constructors hview_ok : hviews.

(** A host that is not there, is new or waits to probe. *)
Definition starts_over (v : option hview) : bool :=
  match v with None | Some (MDNS_STATE_OFF, _) | Some (MDNS_STATE_PROBE_WAIT, _) => true | _ => false end.
Definition fresh (v : option hview) : Prop := starts_over v = true /\ hview_ok v.

(** The probes that must have been sent for a host that is seen so. *)
Definition probes_of (v : option hview) : nat :=
  match v with
  | Some (MDNS_STATE_PROBING, n) => Z.to_nat n
  | Some (MDNS_STATE_ANNOUNCE_WAIT, _) | Some (MDNS_STATE_ANNOUNCING, _) | Some (MDNS_STATE_COMPLETE, _) => 3
  | _ => 0
  end.

(* ------------------------------------------------------------------ *)
(** * Computations that keep the hosts, or make them start over *)

Section Moves.
Context {PP RP HP UP QP MP DV PS KP : Type} `{PoolOps PP} `{PoolOps RP} `{HeapOps HP} `{PoolOps UP} `{PoolOps QP}
  `{PoolOps MP} `{PoolOps PS} `{PoolOps KP}.
Abbreviation st := (net PP RP HP UP (ipst QP MP DV)).
Context {HK : Hooks st}.
Abbreviation world := (timers PS (mworld st KP)).
Abbreviation mio := (io world).
Implicit Types (s : world).

Definition vars_of s : mdns_vars KP := w_mdns (t_world s).
Definition hview_at s (hp : Z) : option hview := view_of <$> hosts (vars_of s) !! hp.

(** What the state machine depends on is the same. *)
Definition same_hosts s s' : Prop :=
  (forall hp, hview_at s' hp = hview_at s hp) /\ client_data (vars_of s') = client_data (vars_of s) /\
  mdns_netif_client_id (vars_of s') = mdns_netif_client_id (vars_of s).
(** Every host is as it was or starts over. *)
Definition restarted s s' : Prop := forall hp, hview_at s' hp = hview_at s hp \/ fresh (hview_at s' hp).

(** All that a computation does is in [R]. *)
Definition within (R : world -> world -> Prop) {A} (m : mio A) : Prop := forall s x s', m s = Ok (x, s') -> R s s'.
Abbreviation keeps := (within same_hosts).
Abbreviation restarts := (within restarted).

#[export] Instance same_hosts_preorder : PreOrder same_hosts.
Proof using Type.
  split; [intros s; done|]. intros a b c (Hv & Hc & Hi) (Hv' & Hc' & Hi').
  split_and!; [|congruence|congruence]. intros hp. by rewrite Hv', Hv.
Qed.
#[export] Instance restarted_preorder : PreOrder restarted.
Proof using Type.
  split; [intros s hp; by left|]. intros a b c Hab Hbc hp. destruct (Hbc hp) as [->|]; [by apply Hab|by right].
Qed.
Lemma same_restarted s s' : same_hosts s s' -> restarted s s'.
Proof using Type. intros (Hv & _) hp. left. by rewrite Hv. Qed.

Class Coarser (R : world -> world -> Prop) : Prop := coarser s s' : same_hosts s s' -> R s s'.
#[export] Instance same_hosts_coarser : Coarser same_hosts.
Proof using Type. by intros s s'. Qed.
#[export] Instance restarted_coarser : Coarser restarted.
Proof using Type. intros s s'. apply same_restarted. Qed.

Section Within.
Context (R : world -> world -> Prop) `{!PreOrder R} `{!Coarser R}.

Lemma within_ret {A} (x : A) : within R (mret x).
Proof using PreOrder0. intros s y s' E. injection E as <- <-. reflexivity. Qed.
Lemma within_bind {A B} (m : mio A) (k : A -> mio B) : within R m -> (forall x, within R (k x)) -> within R (m ≫= k).
Proof using PreOrder0.
  intros Hm Hk s y s' E. unfold mbind, io_bind in E. apply bind_ok_inv in E as ((x & s1) & E1 & E2).
  transitivity s1; [by eapply Hm|by eapply Hk].
Qed.
Lemma within_fault {A} e : within R (io_fault (A := A) e).
Proof using Type. by intros s x s'. Qed.
Lemma within_pure {A} (f : world -> outcome A) : within R (fun s => x ← f s; Ok (x, s)).
Proof using PreOrder0. intros s x s' E. apply bind_ok_inv in E as (y & _ & E). injection E as <- <-. reflexivity. Qed.
Lemma within_assert b : within R (io_assert b).
Proof using PreOrder0. intros s x s' E. unfold io_assert, lwip_assert in E. destruct b; [|done]. injection E as <- <-. reflexivity. Qed.

(** What leaves the variables of the responder alone. *)
Lemma within_same {A} (m : mio A) : (forall s x s', m s = Ok (x, s') -> vars_of s' = vars_of s) -> within R m.
Proof using Coarser0.
  intros Hm s x s' E. apply coarser. unfold same_hosts, hview_at. by rewrite (Hm _ _ _ E).
Qed.
Lemma within_on_net {A} (m : io st A) : within R (on_net m).
Proof using Coarser0.
  apply within_same. intros s x s' E. apply bind_ok_inv in E as ((y & n) & _ & E). by injection E as <- <-.
Qed.
Lemma within_on_heap {A} (m : io (pheap PP RP HP) A) : within R (on_heap m).
Proof using Coarser0. apply within_on_net. Qed.
Lemma within_lift {A} (r : outcome A) : within R (lift r).
Proof using PreOrder0. apply (within_pure (fun _ => r)). Qed.
Lemma within_in_packets {A} (f : gmap Z pbuf -> gmap Z Z -> outcome A) : within R (in_packets f).
Proof using PreOrder0. apply (within_pure (fun s => f (pbufs (n_heap (w_net (t_world s)))) (bytes (n_heap (w_net (t_world s)))))). Qed.
Lemma within_on_timers f : (forall s s', f s = Ok s' -> t_world s' = t_world s) -> within R (on_timers f).
Proof using Coarser0.
  intros Hf. apply within_same. intros s x s' E. apply bind_ok_inv in E as (s1 & E1 & E). injection E as <- <-.
  unfold vars_of. by rewrite (Hf _ _ E1).
Qed.
Lemma within_timeout msecs h a : within R (timeout msecs h a).
Proof using Coarser0.
  apply within_on_timers. intros s s' E. unfold sys_timeout, sys_timeout_abs in E.
  apply bind_ok_inv in E as (u & _ & E). apply bind_ok_inv in E as ((m & ps) & _ & E). destruct m; [|done]. by injection E as <-.
Qed.
Lemma within_untimeout h a : within R (untimeout h a).
Proof using Coarser0.
  apply within_on_timers. intros s s' E. unfold sys_untimeout in E.
  destruct (unlink h a (next_timeout s)) as [[t l]|]; [|by injection E as <-].
  apply bind_ok_inv in E as (ps & _ & E). by injection E as <-.
Qed.
Lemma within_upd_mvars f :
  (forall v, hosts (f v) = hosts v /\ client_data (f v) = client_data v /\ mdns_netif_client_id (f v) = mdns_netif_client_id v) ->
  within R (upd_mvars f).
Proof using Coarser0.
  intros Hf s x s' E. injection E as <- <-. apply coarser. unfold same_hosts, hview_at, vars_of. simpl.
  destruct (Hf (w_mdns (t_world s))) as (-> & -> & ->). done.
Qed.
Lemma upd_host_at p f s u s' y :
  hosts (vars_of s) !! p = Some y -> view_of (f y) = view_of y -> upd_host p f s = Ok (u, s') -> R s s'.
Proof using Coarser0.
  unfold vars_of. intros Hp Hf E. unfold upd_host, get_host, mvars, mbind, io_bind in E. simpl in E. rewrite Hp in E.
  injection E as <- <-. apply coarser. unfold same_hosts, hview_at, vars_of. simpl.
  destruct (w_mdns (t_world s)). simpl in *. split_and!; [|done|done]. intros hp.
  destruct (decide (p = hp)) as [->|]; [by rewrite lookup_insert_eq, Hp; simpl; rewrite Hf|by rewrite lookup_insert_ne].
Qed.
Lemma within_upd_host p f : (forall x, view_of (f x) = view_of x) -> within R (upd_host p f).
Proof using Coarser0.
  intros Hf s u s' E. destruct (hosts (vars_of s) !! p) as [y|] eqn:Hp; [by eapply upd_host_at|].
  unfold vars_of in Hp. unfold upd_host, get_host, mvars, mbind, io_bind in E. simpl in E. by rewrite Hp in E.
Qed.
End Within.
End Moves.

Create HintDb within.
(** A computation is within a relation when its parts are: the goal is split
    along its sequences and its cases. *)
Ltac within_step :=
  lazymatch goal with
  | |- forall _, _ => intro
  | |- within _ (mret _) => apply within_ret; tc_solve
  | |- within _ (io_fault _) => apply within_fault
  | |- within _ (io_assert _) => apply within_assert; tc_solve
  | |- within _ (_ ≫= _) => apply within_bind; [tc_solve| |intros ?]
  | |- within _ (on_heap _) => apply within_on_heap; tc_solve
  | |- within _ (on_net _) => apply within_on_net; tc_solve
  | |- within _ (lift _) => apply within_lift; tc_solve
  | |- within _ (in_packets _) => apply within_in_packets; tc_solve
  | |- within _ (timeout _ _ _) => apply within_timeout; tc_solve
  | |- within _ (untimeout _ _) => apply within_untimeout; tc_solve
  | |- within _ mvars => apply (within_pure _ (fun s => Ok (w_mdns (t_world s)))); tc_solve
  | |- within _ sys_now => apply (within_pure _ (fun s => Ok (w_now (t_world s)))); tc_solve
  | |- within _ (upd_mvars _) => apply within_upd_mvars; [tc_solve|by intros []]
  | |- within _ (io_when ?b _) => unfold io_when
  | |- within _ (if ?b then _ else _) => destruct b
  | |- within _ (match ?x with _ => _ end) => destruct x
  | |- within _ (let _ := _ in _) => cbv zeta
  | |- within _ ((fun _ => _) _) => cbv beta
  end.
Ltac within_tac := repeat first [solve [eauto with within typeclass_instances]|within_step].

Section Parts.
Context {PP RP HP UP QP MP DV PS KP : Type} `{PoolOps PP} `{PoolOps RP} `{HeapOps HP} `{PoolOps UP} `{PoolOps QP}
  `{PoolOps MP} `{PoolOps PS} `{PoolOps KP}.
Abbreviation st := (net PP RP HP UP (ipst QP MP DV)).
Context {HK : Hooks st}.
Abbreviation world := (timers PS (mworld st KP)).
Abbreviation mio := (io world).
Context (R : world -> world -> Prop) `{!PreOrder R} `{!Coarser R}.
Variable call_txt_fn : Z -> Z -> Z -> mio unit.
Hypothesis Htxt : forall f p a, within R (call_txt_fn f p a).

Lemma within_netif_mdns_data netif : within R (netif_mdns_data netif).
Proof using PreOrder0 Coarser0. unfold netif_mdns_data. within_tac. Qed.
Lemma within_get_host p : within R (get_host p).
Proof using PreOrder0 Coarser0. unfold get_host. within_tac. Qed.
Lemma within_get_service p : within R (get_service p).
Proof using PreOrder0 Coarser0. unfold get_service. within_tac. Qed.
Lemma within_upd_service p f : within R (upd_service p f).
Proof using PreOrder0 Coarser0. unfold upd_service. apply within_bind; [tc_solve|apply within_get_service|intros x]. within_tac. Qed.
Lemma within_with_service {A} mdns i (none : mio A) k :
  within R none -> (forall p x, within R (k p x)) -> within R (with_service mdns i none k).
Proof using PreOrder0 Coarser0.
  intros Hn Hk. apply within_bind; [tc_solve|apply (within_pure _ (fun _ => rd (h_services mdns) i)); tc_solve|intros p].
  destruct (p =? 0); [done|]. apply within_bind; [tc_solve|apply within_get_service|done].
Qed.
Lemma within_and_then {A} (r : mio (Z * A)) k : within R r -> (forall x, within R (k x)) -> within R (and_then r k).
Proof using PreOrder0. intros Hr Hk. unfold and_then. apply within_bind; [tc_solve|done|intros [res x]]. within_tac. Qed.
Lemma within_run_steps {A} (fs : list (A -> mio (Z * A))) x :
  Forall (fun f => forall x, within R (f x)) fs -> within R (run_steps fs x).
Proof using PreOrder0. intros Hf. revert x. induction Hf as [|f fs Hf _ IH]; intros x; simpl; [within_tac|by apply within_and_then]. Qed.
End Parts.

#[export] Hint Resolve within_netif_mdns_data within_get_host within_get_service within_upd_service within_with_service
  within_and_then within_run_steps within_upd_host : within.

Section Sending.
Context {PP RP HP UP QP MP DV PS KP : Type} `{PoolOps PP} `{PoolOps RP} `{HeapOps HP} `{PoolOps UP} `{PoolOps QP}
  `{PoolOps MP} `{PoolOps PS} `{PoolOps KP}.
Abbreviation st := (net PP RP HP UP (ipst QP MP DV)).
Context {HK : Hooks st}.
Abbreviation world := (timers PS (mworld st KP)).
Abbreviation mio := (io world).
Context (R : world -> world -> Prop) `{!PreOrder R} `{!Coarser R}.
Variable call_txt_fn : Z -> Z -> Z -> mio unit.
Hypothesis Htxt : forall f p a, within R (call_txt_fn f p a).

Lemma within_prepare_txtdata p : within R (mdns_prepare_txtdata call_txt_fn p).
Proof using Type*. unfold mdns_prepare_txtdata. within_tac. Qed.
Lemma within_add_txt_answer reply msg p : within R (mdns_add_txt_answer call_txt_fn reply msg p).
Proof using Type*. unfold mdns_add_txt_answer. pose proof within_prepare_txtdata. within_tac. Qed.
Lemma within_asked (r : mio (Z * mdns_outpacket)) : within R r -> within R (asked r).
Proof using PreOrder0 Coarser0. intros. unfold asked. apply within_and_then; [tc_solve|done|intros x]. within_tac. Qed.
Lemma within_answer_if b f x : (forall o, within R (f o)) -> within R (answer_if (PS := PS) (KP := KP) b f x).
Proof using PreOrder0 Coarser0. intros. unfold answer_if. within_tac. Qed.
Lemma within_additional_if b f o : (forall o, within R (f o)) -> within R (additional_if (PS := PS) (KP := KP) b f o).
Proof using PreOrder0 Coarser0. intros. unfold additional_if. destruct b; [apply within_and_then; [tc_solve|done|intros x]|]; within_tac. Qed.
Lemma within_aaaa_answer msg mdns netif i o : within R (aaaa_answer (PS := PS) (KP := KP) msg mdns netif i o).
Proof using PreOrder0 Coarser0. unfold aaaa_answer. within_tac. Qed.
Lemma within_slot_valid netif i : within R (slot_valid (PS := PS) (KP := KP) netif i).
Proof using PreOrder0 Coarser0. unfold slot_valid. within_tac. Qed.

Lemma within_probe_questions o msg mdns :
  within R (mdns_add_probe_questions_to_outpacket (PS := PS) (KP := KP) o msg mdns).
Proof using PreOrder0 Coarser0.
  unfold mdns_add_probe_questions_to_outpacket. apply within_run_steps; [tc_solve|]. constructor.
  - intros x. destruct (has _ _); [apply within_asked; try tc_solve|]; within_tac.
  - rewrite Forall_fmap. apply Forall_true. intros i x. apply within_with_service; try tc_solve; [within_tac|].
    intros p y. destruct (has _ _); [apply within_asked; try tc_solve|]; within_tac.
Qed.
Lemma within_query_question o msg : within R (mdns_add_query_question_to_outpacket (PS := PS) (KP := KP) o msg).
Proof using PreOrder0 Coarser0.
  unfold mdns_add_query_question_to_outpacket. destruct (m_query msg); [|within_tac].
  apply within_bind; [tc_solve|within_tac|intros d]. apply within_asked; try tc_solve. within_tac.
Qed.
Lemma within_host_answers netif msg mdns :
  Forall (fun f => forall x, within R (f x)) (host_answers (PS := PS) (KP := KP) netif msg mdns).
Proof using PreOrder0 Coarser0.
  unfold host_answers. rewrite Forall_app, !Forall_fmap. split; apply Forall_true; intros i x; unfold compose.
  - destruct (has _ _); [|within_tac]. apply within_bind; [tc_solve|by apply within_slot_valid|intros v].
    apply within_answer_if; try tc_solve. intros. by apply within_aaaa_answer.
  - apply within_answer_if; try tc_solve. intros. within_tac.
Qed.
Lemma within_service_answers msg mdns i x : within R (service_answers call_txt_fn msg mdns i x).
Proof using Type*.
  unfold service_answers. apply within_with_service; try tc_solve; [within_tac|]. intros p y.
  apply within_run_steps; [tc_solve|].
  repeat constructor; intros z; apply within_answer_if; try tc_solve; intros o; try apply within_add_txt_answer; within_tac.
Qed.
Lemma within_service_additional netif msg mdns i o : within R (service_additional call_txt_fn netif msg mdns i o).
Proof using Type*.
  unfold service_additional. apply within_with_service; try tc_solve; [within_tac|]. intros p y.
  apply within_run_steps; [tc_solve|].
  repeat (apply Forall_cons; split); try apply Forall_nil_2; intros z;
    try (apply within_additional_if; try tc_solve; intros ?; try apply within_add_txt_answer; within_tac).
  all: destruct (_ && _); [|within_tac]; apply within_bind; [tc_solve|by apply within_slot_valid|intros v];
    apply within_additional_if; try tc_solve; intros; by apply within_aaaa_answer.
Qed.
Lemma within_create_outpacket netif msg o : within R (mdns_create_outpacket call_txt_fn netif msg o).
Proof using Type*.
  unfold mdns_create_outpacket. apply within_bind; [tc_solve|within_tac|intros hp].
  apply within_and_then; [tc_solve|by apply within_query_question|intros o1].
  apply within_bind; [tc_solve|within_tac|intros mdns].
  apply within_and_then; [tc_solve|by apply within_probe_questions|intros o2].
  apply within_bind; [tc_solve| |intros [res [o3 n]]].
  - apply within_run_steps; [tc_solve|]. apply Forall_app; split; [by apply within_host_answers|].
    rewrite Forall_fmap. apply Forall_true. intros i x. by apply within_service_answers.
  - destruct (negb _); [within_tac|]. apply within_run_steps; [tc_solve|].
    rewrite Forall_fmap. apply Forall_true. intros i x. by apply within_service_additional.
Qed.
Lemma within_send_outpacket msg netif : within R (mdns_send_outpacket call_txt_fn msg netif).
Proof using Type*.
  unfold mdns_send_outpacket. apply within_bind; [tc_solve|by apply within_create_outpacket|intros [res o]].
  within_tac.
  unfold get_mdns_pcb. within_tac.
Qed.
End Sending.

#[export] Hint Resolve within_prepare_txtdata within_add_txt_answer within_asked within_answer_if within_additional_if
  within_aaaa_answer within_slot_valid within_create_outpacket within_send_outpacket : within.

Lemma set_ipv6_view f x : view_of (set_ipv6 f x) = view_of x.
Proof. by destruct x. Qed.
Lemma save_conflict_view now x x' : save_conflict now x = Ok x' -> view_of x' = view_of x.
Proof.
  unfold save_conflict. intros E. apply bind_ok_inv in E as (times & _ & E). apply bind_ok_inv in E as (y & Ey & E).
  injection E as <-. destruct x. simpl in *. destruct (MDNS_PROBE_MAX_CONFLICTS_BEFORE_RATE_LIMIT <=? u8 (num_conflicts + 1)).
  - apply bind_ok_inv in Ey as (? & _ & Ey). apply bind_ok_inv in Ey as (? & _ & Ey). injection Ey as <-. by destruct (_ <? _).
  - by injection Ey as <-.
Qed.
#[export] Hint Resolve set_ipv6_view : within.

Section Answering.
Context {PP RP HP UP QP MP DV PS KP : Type} `{PoolOps PP} `{PoolOps RP} `{HeapOps HP} `{PoolOps UP} `{PoolOps QP}
  `{PoolOps MP} `{PoolOps PS} `{PoolOps KP}.
Abbreviation st := (net PP RP HP UP (ipst QP MP DV)).
Context {HK : Hooks st}.
Abbreviation world := (timers PS (mworld st KP)).
Abbreviation mio := (io world).
Context (R : world -> world -> Prop) `{!PreOrder R} `{!Coarser R}.
Variable call_txt_fn : Z -> Z -> Z -> mio unit.
Hypothesis Htxt : forall f p a, within R (call_txt_fn f p a).

Lemma within_host_of netif : within R (host_of netif).
Proof using PreOrder0 Coarser0. unfold host_of. within_tac. Qed.
Lemma within_on_ipv6 netif f : within R (on_ipv6 netif f).
Proof using PreOrder0 Coarser0. unfold on_ipv6. within_tac. Qed.
Lemma within_set_timeout netif msecs h busy set_busy : within R (mdns_set_timeout netif msecs h busy set_busy).
Proof using PreOrder0 Coarser0. unfold mdns_set_timeout. within_tac. Qed.
Lemma within_start_timeouts netif : within R (mdns_start_multicast_timeouts_ipv6 netif).
Proof using PreOrder0 Coarser0. unfold mdns_start_multicast_timeouts_ipv6. pose proof within_set_timeout. within_tac. Qed.
Lemma within_send_delayed_multicast netif : within R (send_delayed_multicast call_txt_fn netif).
Proof using Type*.
  unfold send_delayed_multicast. pose proof within_on_ipv6. pose proof within_start_timeouts.
  apply within_bind; [tc_solve|within_tac|intros hp]. apply within_bind; [tc_solve|within_tac|intros x].
  apply within_bind; [tc_solve|by apply within_send_outpacket|intros res]. within_tac.
Qed.
Lemma within_send_unicast_delayed netif : within R (mdns_send_unicast_msg_delayed_ipv6 call_txt_fn netif).
Proof using Type*.
  unfold mdns_send_unicast_msg_delayed_ipv6. pose proof within_on_ipv6.
  apply within_bind; [tc_solve|within_tac|intros hp]. apply within_bind; [tc_solve|within_tac|intros x].
  apply within_bind; [tc_solve|by apply within_send_outpacket|intros res]. within_tac.
Qed.
Lemma within_probe_timeout_reset netif : within R (mdns_multicast_probe_timeout_reset_ipv6 call_txt_fn netif).
Proof using Type*.
  unfold mdns_multicast_probe_timeout_reset_ipv6. pose proof within_on_ipv6. pose proof within_send_delayed_multicast. within_tac.
Qed.
Lemma within_rand_below n m : within R (rand_below (PS := PS) (KP := KP) n m).
Proof using PreOrder0 Coarser0. unfold rand_below. within_tac. Qed.
Lemma within_services_loop {A} mdns idxs (body : Z -> Z -> mdns_service -> A -> mio A) x :
  (forall i p s y, within R (body i p s y)) -> within R (services_loop mdns idxs body x).
Proof using PreOrder0 Coarser0.
  intros Hb. revert x. induction idxs as [|i idxs IH]; intros x; simpl; [within_tac|].
  apply within_bind; [tc_solve| |done]. apply within_with_service; try tc_solve; [within_tac|done].
Qed.

#[local] Arguments services_loop : simpl never.

Lemma within_announce netif dest : within R (mdns_announce call_txt_fn netif dest).
Proof using Type*.
  unfold mdns_announce. apply within_bind; [tc_solve|apply within_host_of|intros x]. apply within_bind; [tc_solve|within_tac|intros n].
  apply within_bind; [tc_solve|by apply within_send_outpacket|intros r]. within_tac.
Qed.
Lemma within_resp_announce netif : within R (mdns_resp_announce call_txt_fn netif).
Proof using Type*.
  unfold mdns_resp_announce. pose proof within_announce. pose proof within_start_timeouts. within_tac.
Qed.
Lemma within_send_probe netif dest : within R (mdns_send_probe call_txt_fn netif dest).
Proof using Type*.
  unfold mdns_send_probe, mdns_define_probe_rrs_to_send. pose proof within_host_of.
  apply within_bind; [tc_solve|within_tac|intros msg]. by apply within_send_outpacket.
Qed.
Lemma within_conflict_save_time netif : within R (mdns_conflict_save_time netif).
Proof using PreOrder0 Coarser0.
  intros s x s' E. unfold mdns_conflict_save_time in E. apply bind_ok_inv in E as ((hp & s1) & E1 & E).
  injection E1 as <- <-. apply bind_ok_inv in E as ((y & s1) & E1 & E).
  unfold get_host, mvars, mbind, io_bind in E1. simpl in E1. set (hp := default _ _) in *.
  destruct (hosts (w_mdns (t_world s)) !! hp) as [y'|] eqn:Hp; [|done]. injection E1 as -> <-.
  apply bind_ok_inv in E as ((now & s1) & E1 & E). injection E1 as <- <-.
  apply bind_ok_inv in E as ((z & s1) & E1 & E). apply bind_ok_inv in E1 as (z' & Ez & E1). injection E1 as -> <-.
  apply save_conflict_view in Ez.
  eapply (upd_host_at R hp (fun _ => z)); done.
Qed.

Lemma within_parse_questions fuel netif pkt reply : within R (mdns_parse_pkt_questions fuel netif pkt reply).
Proof using PreOrder0 Coarser0.
  revert pkt reply. induction fuel as [|fuel IH]; intros pkt reply; simpl; [within_tac|].
  pose proof within_host_of. destruct (_ =? _); [within_tac|].
  apply within_bind; [tc_solve|within_tac|intros [[res pkt1] q]]. destruct (negb _); [within_tac|].
  apply within_bind; [tc_solve|within_tac|intros _]. apply within_bind; [tc_solve|within_tac|intros mdns].
  apply within_bind; [tc_solve|within_tac|intros n]. apply within_bind; [tc_solve|within_tac|intros [r rev]].
  apply within_bind; [tc_solve| |done]. apply within_services_loop. within_tac.
Qed.
Lemma within_known_host_answer netif mdns pkt ans reply : within R (known_host_answer (PS := PS) (KP := KP) netif mdns pkt ans reply).
Proof using PreOrder0 Coarser0. unfold known_host_answer. within_tac. Qed.
Lemma within_known_service_answer mdns pkt ans i p s x : within R (known_service_answer call_txt_fn mdns pkt ans i p s x).
Proof using Type*. unfold known_service_answer. pose proof (within_prepare_txtdata R call_txt_fn Htxt). within_tac. Qed.
Lemma within_known_answers fuel netif pkt reply : within R (mdns_parse_pkt_known_answers call_txt_fn fuel netif pkt reply).
Proof using Type*.
  revert pkt reply. induction fuel as [|fuel IH]; intros pkt reply; simpl; [within_tac|].
  pose proof within_host_of. pose proof within_known_host_answer. destruct (_ =? _); [within_tac|].
  apply within_bind; [tc_solve|within_tac|intros [[[res pkt1] ans] n]]. destruct (negb _); [within_tac|].
  apply within_bind; [tc_solve|within_tac|intros _]. destruct (any_record ans); [done|].
  apply within_bind; [tc_solve|within_tac|intros mdns]. apply within_bind; [tc_solve|within_tac|intros reply1].
  apply within_bind; [tc_solve| |intros [reply2 ttl]; done].
  apply within_services_loop. intros. apply within_known_service_answer.
Qed.
Lemma within_authoritative fuel netif pkt reply : within R (mdns_parse_pkt_authoritative_answers fuel netif pkt reply).
Proof using PreOrder0 Coarser0.
  revert pkt reply. induction fuel as [|fuel IH]; intros pkt reply; simpl; [within_tac|].
  pose proof within_host_of. destruct (_ =? _); [within_tac|].
  apply within_bind; [tc_solve|within_tac|intros [[[res pkt1] ans] n]]. destruct (negb _); [within_tac|].
  apply within_bind; [tc_solve|within_tac|intros _]. destruct (any_record ans); [done|].
  apply within_bind; [tc_solve|within_tac|intros mdns]. apply within_bind; [tc_solve|within_tac|intros nif].
  apply within_bind; [tc_solve|within_tac|intros [r rev]].
  apply within_bind; [tc_solve| |done]. apply within_services_loop. within_tac.
Qed.
Lemma within_get_packet p : within R (get_packet p).
Proof using PreOrder0 Coarser0. unfold get_packet. within_tac. Qed.
Lemma within_upd_packet p f : within R (upd_packet p f).
Proof using PreOrder0 Coarser0. unfold upd_packet. apply within_bind; [tc_solve|apply within_get_packet|intros x]. within_tac. Qed.
Lemma within_alloc_packet : within R alloc_packet.
Proof using PreOrder0 Coarser0. unfold alloc_packet. within_tac. Qed.
Lemma within_free_packet p : within R (free_packet p).
Proof using PreOrder0 Coarser0. unfold free_packet. within_tac. Qed.
Lemma within_known_answers_chain fuel netif pkta reply : within R (known_answers_chain call_txt_fn fuel netif pkta reply).
Proof using Type*.
  revert pkta reply. pose proof within_get_packet. pose proof within_upd_packet. pose proof within_known_answers.
  induction fuel as [|fuel IH]; intros pkta reply; simpl; [within_tac|].
  destruct (_ =? _); [within_tac|]. apply within_bind; [tc_solve|done|intros pkt].
  apply within_bind; [tc_solve|done|intros [[res pkt1] reply1]]. apply within_bind; [tc_solve|done|intros _]. within_tac.
Qed.
Lemma within_parse_query netif pkt : within R (parse_query call_txt_fn netif pkt).
Proof using Type*.
  unfold parse_query, packet_fuel. pose proof within_parse_questions. pose proof within_known_answers.
  pose proof within_known_answers_chain. pose proof within_authoritative.
  repeat (apply within_bind; [tc_solve|within_tac|intros ?]; repeat match goal with x : (_ * _)%type |- _ => destruct x end;
    try (destruct (negb _); [within_tac|])). within_tac.
Qed.
Lemma within_send_reply netif pkt reply : within R (send_reply call_txt_fn netif pkt reply).
Proof using Type*.
  unfold send_reply, MDNS_RESPONSE_DELAY. pose proof within_host_of. pose proof within_on_ipv6. pose proof within_set_timeout.
  pose proof within_rand_below. pose proof within_start_timeouts. pose proof (within_send_outpacket R call_txt_fn Htxt). within_tac.
Qed.
End Answering.

#[export] Hint Resolve within_host_of within_on_ipv6 within_set_timeout within_start_timeouts within_rand_below
  within_conflict_save_time within_get_packet within_upd_packet within_alloc_packet within_free_packet : within.


(* ------------------------------------------------------------------ *)
(** * What the operations do to the hosts *)

Section Machine.
Context {PP RP HP UP QP MP DV PS KP : Type} `{PoolOps PP} `{PoolOps RP} `{HeapOps HP} `{PoolOps UP} `{PoolOps QP}
  `{PoolOps MP} `{PoolOps PS} `{PoolOps KP}.
Abbreviation st := (net PP RP HP UP (ipst QP MP DV)).
Context {HK : Hooks st}.
Abbreviation world := (timers PS (mworld st KP)).
Abbreviation mio := (io world).
Implicit Types (s : world).
Abbreviation keeps := (within (same_hosts : world -> world -> Prop)).
Abbreviation restarts := (within (restarted : world -> world -> Prop)).

Definition hp_of s (netif : Z) : Z := default 0 (client_data (vars_of s) !! (netif, mdns_netif_client_id (vars_of s))).

Lemma hp_of_same s s' netif : same_hosts s s' -> hp_of s' netif = hp_of s netif.
Proof using Type. unfold hp_of. by intros (_ & -> & ->). Qed.

Lemma host_of_inv netif s x s' :
  host_of netif s = Ok (x, s') -> s' = s /\ hosts (vars_of s) !! hp_of s netif = Some x.
Proof using Type.
  intros E. apply bind_ok_inv in E as ((hp & s1) & E1 & E). injection E1 as <- <-.
  unfold get_host, mvars, mbind, io_bind in E. simpl in E. fold (vars_of s) in *. fold (hp_of s netif) in *.
  destruct (hosts (vars_of s) !! hp_of s netif); [|done]. by injection E as <- <-.
Qed.
Lemma upd_host_inv p f s u s' :
  upd_host p f s = Ok (u, s') ->
  exists y, hosts (vars_of s) !! p = Some y /\ (forall netif, hp_of s' netif = hp_of s netif) /\
    forall hp, hview_at s' hp = if decide (p = hp) then Some (view_of (f y)) else hview_at s hp.
Proof using Type.
  intros E. unfold upd_host, get_host, mvars, mbind, io_bind in E. simpl in E. fold (vars_of s) in E.
  destruct (hosts (vars_of s) !! p) as [y|] eqn:Hp; [|done]. injection E as <- <-. exists y.
  unfold hp_of, hview_at, vars_of in *. simpl. destruct (w_mdns (t_world s)). simpl in *. split_and!; [done..|].
  intros hp. case_decide; [subst; by rewrite lookup_insert_eq|by rewrite lookup_insert_ne].
Qed.
Lemma upd_host_of_inv netif f s u s' :
  upd_host_of netif f s = Ok (u, s') ->
  exists y, hosts (vars_of s) !! hp_of s netif = Some y /\ (forall n, hp_of s' n = hp_of s n) /\
    forall hp, hview_at s' hp = if decide (hp_of s netif = hp) then Some (view_of (f y)) else hview_at s hp.
Proof using Type.
  intros E. apply bind_ok_inv in E as ((hp & s1) & E1 & E). injection E1 as <- <-. by apply upd_host_inv in E.
Qed.

Lemma restarts_upd_host p f : (forall y, fresh (Some (view_of (f y)))) -> restarts (upd_host p f).
Proof using Type.
  intros Hf s u s' E hp. apply upd_host_inv in E as (y & Hy & _ & Hv). rewrite Hv. case_decide as Hd; [by right|by left].
Qed.

Lemma restarts_restart_delay netif delay : restarts (mdns_resp_restart_delay netif delay).
Proof using Type.
  unfold mdns_resp_restart_delay. destruct (netif =? 0); [within_tac|].
  apply within_bind; [tc_solve|within_tac|intros hp]. destruct (hp =? 0); [within_tac|].
  apply within_bind; [tc_solve|within_tac|intros _].
  apply within_bind; [tc_solve| |intros _; within_tac].
  apply restarts_upd_host. intros []. split; [done|constructor].
Qed.
Lemma restarts_restart netif : restarts (mdns_resp_restart netif).
Proof using Type.
  unfold mdns_resp_restart, MDNS_INITIAL_PROBE_DELAY_MS. apply within_bind; [tc_solve|apply within_rand_below; tc_solve|intros d].
  apply restarts_restart_delay.
Qed.

(** One host starts over. *)
Lemma restarted_at s s' hp0 v :
  fresh v -> (forall hp, hview_at s' hp = if decide (hp0 = hp) then v else hview_at s hp) -> restarted s s'.
Proof using Type. intros Hv Hs hp. rewrite Hs. case_decide; [by right|by left]. Qed.

Variable call_txt_fn : Z -> Z -> Z -> mio unit.
Variable call_name_result : Z -> Z -> Z -> Z -> mio unit.
Variable call_result_fn : Z -> mdns_answer -> varpart -> Z -> Z -> Z -> mio unit.
(** What fills in a text and what is told of success leave the hosts alone;
    the other callbacks may call the functions below. *)
Hypothesis Htxt : forall f p a, keeps (call_txt_fn f p a).
Hypothesis Hname_ok : forall cb netif slot, keeps (call_name_result cb netif MDNS_PROBING_SUCCESSFUL slot).
Hypothesis Hname : forall cb netif slot, restarts (call_name_result cb netif MDNS_PROBING_CONFLICT slot).
Hypothesis Hresult : forall f ans data n flags a, restarts (call_result_fn f ans data n flags a).

Lemma keeps_restarts {A} (m : mio A) : keeps m -> restarts m.
Proof using Type. intros Hm s x s' E. apply same_restarted. by eapply Hm. Qed.

(** The view of the host of an interface. *)
Abbreviation host_view s netif := (hview_at s (hp_of s netif)).

Lemma host_view_of s netif x : hosts (vars_of s) !! hp_of s netif = Some x -> host_view s netif = Some (view_of x).
Proof using Type. unfold hview_at. by intros ->. Qed.
Lemma host_view_same s s' netif : same_hosts s s' -> host_view s' netif = host_view s netif.
Proof using Type. intros Hs. rewrite (hp_of_same _ _ _ Hs). by destruct Hs as (-> & _). Qed.

Lemma sent_probe_view x : view_of (set_sent_num (sent_num x + 1) (set_mstate MDNS_STATE_PROBING x)) = (MDNS_STATE_PROBING, u8 (sent_num x + 1)).
Proof using Type. by destruct x. Qed.

Lemma before_announcing_sent q n : hview_ok (Some (q, n)) -> before_announcing q = true -> 0 <= n < 3.
Proof using Type. inversion 1; subst; simpl; (done || lia). Qed.

(** Only the host at [hp] is another one, seen as [v]. *)
Definition changed s s' hp v : Prop := forall hp', hview_at s' hp' = if decide (hp = hp') then v else hview_at s hp'.
Lemma same_changed s s1 s2 hp v : same_hosts s s1 -> changed s1 s2 hp v -> changed s s2 hp v.
Proof using Type. intros (Hv & _) Hc hp'. by rewrite Hc, Hv. Qed.
Lemma changed_same s s1 s2 hp v : changed s s1 hp v -> same_hosts s1 s2 -> changed s s2 hp v.
Proof using Type. intros Hc (Hv & _) hp'. by rewrite Hv, Hc. Qed.
Lemma changed_changed s s1 s2 hp v w : changed s s1 hp v -> changed s1 s2 hp w -> changed s s2 hp w.
Proof using Type. intros Hc Hd hp'. rewrite Hd, Hc. by case_decide. Qed.
Lemma changed_at s s' hp v : changed s s' hp v -> hview_at s' hp = v.
Proof using Type. intros ->. by rewrite decide_True. Qed.
(** The view behind a probe with the result [res]. *)
Definition after_probe (res : Z) (q : mdns_resp_state_enum_t) (n : Z) : hview :=
  if res =? ERR_OK then if n <? 2 then (MDNS_STATE_PROBING, n + 1) else (MDNS_STATE_ANNOUNCE_WAIT, 0) else (q, n).
Lemma count_probe_changed netif res s u s' q n :
  count_probe netif res s = Ok (u, s') -> host_view s netif = Some (q, n) -> 0 <= n < 3 ->
  changed s s' (hp_of s netif) (Some (after_probe res q n)) /\ hp_of s' netif = hp_of s netif.
Proof using Type.
  intros E Hv Hr. unfold after_probe.
  apply bind_ok_inv in E as ((u1 & s1) & E1 & E). apply bind_ok_inv in E as ((x & s2) & E2 & E).
  apply host_of_inv in E2 as (-> & Hx). pose proof (host_view_of _ _ _ Hx) as Hvx. unfold io_when in *.
  destruct (res =? ERR_OK).
  - apply upd_host_of_inv in E1 as (y & Hy & Hhp & Hv1). apply host_view_of in Hy. rewrite Hv in Hy. injection Hy as -> ->.
    rewrite Hhp, Hv1, decide_True, sent_probe_view, u8_small in Hvx by (done || ulia). injection Hvx as Hst Hsn.
    rewrite <- Hsn in E. rewrite sent_probe_view, u8_small in Hv1 by ulia.
    unfold MDNS_PROBE_COUNT in E. destruct (Z.leb_spec 3 (sent_num y + 1)), (Z.ltb_spec (sent_num y) 2); try lia.
    + apply upd_host_of_inv in E as (z & _ & Hhp2 & Hv2). rewrite Hhp in Hv2. split; [|by rewrite Hhp2].
      eapply changed_changed; [exact Hv1|]. intros hp. rewrite Hv2. case_decide; [by destruct z|done].
    + injection E as <- <-. by split.
  - injection E1 as <- <-. rewrite Hv in Hvx. injection Hvx as -> ->. unfold MDNS_PROBE_COUNT in E.
    destruct (Z.leb_spec 3 (sent_num x)); [lia|]. injection E as <- <-. split; [|done].
    intros hp. case_decide as Hd; [by rewrite <- Hd|done].
Qed.
Lemma first_announcement_changed netif s u s' n :
  first_announcement call_name_result netif s = Ok (u, s') -> host_view s netif = Some (MDNS_STATE_ANNOUNCE_WAIT, n) ->
  changed s s' (hp_of s netif) (Some (MDNS_STATE_ANNOUNCING, n)) /\ hp_of s' netif = hp_of s netif.
Proof using Hname_ok.
  intros E Hv. apply bind_ok_inv in E as ((u1 & s1) & E1 & E). apply bind_ok_inv in E as ((v & s2) & E2 & E).
  injection E2 as <- <-. apply upd_host_of_inv in E1 as (x & Hx & Hhp & Hc). apply host_view_of in Hx. rewrite Hv in Hx.
  injection Hx as Hst Hn. fold (changed s s1 (hp_of s netif) (Some (view_of (set_rate_limit 0 (set_mstate MDNS_STATE_ANNOUNCING x))))) in Hc.
  replace (view_of _) with (MDNS_STATE_ANNOUNCING, n) in Hc by (destruct x; simpl in *; by subst).
  assert (Hs : same_hosts s1 s').
  { unfold io_when in E. destruct (negb _); [by eapply Hname_ok|]. injection E as _ <-. reflexivity. }
  split; [by eapply changed_same|]. by rewrite (hp_of_same _ _ _ Hs).
Qed.

Lemma count_announcement_changed netif s u s' n :
  count_announcement netif s = Ok (u, s') -> host_view s netif = Some (MDNS_STATE_ANNOUNCING, n) -> 0 <= n < 2 ->
  changed s s' (hp_of s netif)
    (Some (if n =? 0 then (MDNS_STATE_ANNOUNCING, 1) else (MDNS_STATE_COMPLETE, 0))).
Proof using Type.
  intros E Hv Hn. apply bind_ok_inv in E as ((u1 & s1) & E1 & E). apply bind_ok_inv in E as ((x & s2) & E2 & E).
  apply host_of_inv in E2 as (-> & Hx). apply host_view_of in Hx as Hvx.
  apply upd_host_of_inv in E1 as (y & Hy & Hhp & Hc). apply host_view_of in Hy. rewrite Hv in Hy. injection Hy as Hst Hy.
  fold (changed s s1 (hp_of s netif) (Some (view_of (set_sent_num (sent_num y + 1) y)))) in Hc.
  replace (view_of (set_sent_num (sent_num y + 1) y)) with (MDNS_STATE_ANNOUNCING, n + 1) in Hc
    by (destruct y; simpl in *; subst; unfold view_of; simpl; by rewrite u8_small by ulia).
  rewrite Hhp, (changed_at _ _ _ _ Hc) in Hvx. injection Hvx as Hst' Hsn. rewrite <- Hsn in E. unfold MDNS_ANNOUNCE_COUNT in E.
  destruct (Z.leb_spec 2 (n + 1)) as [Hl|Hl]; destruct (Z.eqb_spec n 0) as [Hz|Hz]; try lia.
  - apply upd_host_of_inv in E as (z & _ & _ & Hd). rewrite Hhp in Hd. eapply changed_changed; [exact Hc|].
    intros hp'. rewrite Hd. case_decide; [by destruct z|done].
  - subst n. rewrite Hz in Hc. eapply changed_same; [exact Hc|]. eapply (within_timeout same_hosts); exact E.
Qed.

(** ** Counting probes *)

(** The counts for the hosts, by address: a host that starts over starts with
    none. *)
Definition settle s (c : Z -> nat) : Z -> nat := fun hp => if starts_over (hview_at s hp) then 0%nat else c hp.

(** The turn of the probing timer sends a probe for the host, which goes
    out. *)
Definition probe_sent (netif : Z) s : bool :=
  match hosts (vars_of s) !! hp_of s netif with
  | Some x => before_announcing (mstate x) &&
      match mdns_send_probe call_txt_fn netif v6group s with Ok (res, _) => res =? ERR_OK | Fault _ => false end
  | None => false
  end.
(** A handler has led from [s] to [s']. *)
Definition count_turn (h a : Z) s s' (c : Z -> nat) : Z -> nat :=
  settle s' (fun hp => if (h =? MDNS_PROBE_AND_ANNOUNCE) && probe_sent a s && bool_decide (hp = hp_of s a) then S (c hp) else c hp).

(** The counts are those the states call for. *)
Definition counted s (c : Z -> nat) : Prop := forall hp, hview_ok (hview_at s hp) /\ c hp = probes_of (hview_at s hp).

Lemma starts_over_probes v : starts_over v = true -> probes_of v = 0%nat.
Proof using Type. by destruct v as [[[] n]|]. Qed.
Lemma counted_settle s c :
  (forall hp, hview_ok (hview_at s hp)) -> (forall hp, starts_over (hview_at s hp) = false -> c hp = probes_of (hview_at s hp)) -> counted s (settle s c).
Proof using Type.
  intros Hv Hc hp. split; [done|]. unfold settle. destruct (starts_over _) eqn:Hs; [by rewrite starts_over_probes|by apply Hc].
Qed.
Lemma counted_restarted s s' c : restarted s s' -> counted s c -> counted s' (settle s' c).
Proof using Type.
  intros Hr Hc. apply counted_settle; intros hp.
  - destruct (Hr hp) as [->|[_ ?]]; [apply Hc|done].
  - intros Hs. destruct (Hr hp) as [->|[Hs' _]]; [apply Hc|congruence].
Qed.
(** Only the host at [hp] is led on, with or without a probe. *)
Lemma counted_changed s s' c (b : bool) hp v :
  counted s c -> changed s s' hp v -> hview_ok v ->
  (starts_over v = false -> (if b then S (probes_of (hview_at s hp)) else probes_of (hview_at s hp)) = probes_of v) ->
  counted s' (settle s' (fun hp' => if b && bool_decide (hp' = hp) then S (c hp') else c hp')).
Proof using Type.
  intros Hc Hch Hv Hb. apply counted_settle; intros hp'; rewrite Hch; case_decide as Hd; try subst hp'.
  - done.
  - apply Hc.
  - intros Hs. rewrite <- Hb by done. rewrite bool_decide_true, andb_true_r by done. by rewrite (proj2 (Hc hp)).
  - intros _. rewrite bool_decide_false, andb_false_r by congruence. apply Hc.
Qed.

Lemma after_probe_ok res q n : before_announcing q = true -> hview_ok (Some (q, n)) ->
  0 <= n < 3 /\ hview_ok (Some (after_probe res q n)) /\
  (starts_over (Some (after_probe res q n)) = false ->
   (if res =? ERR_OK then S (probes_of (Some (q, n))) else probes_of (Some (q, n))) = probes_of (Some (after_probe res q n))).
Proof using Type.
  intros Hq Hv. pose proof (before_announcing_sent _ _ Hv Hq) as Hn. split; [done|]. unfold after_probe.
  destruct (res =? ERR_OK); [|done].
  destruct (Z.ltb_spec n 2) as [Hl|Hl]; (split; [constructor; lia|]); intros _; inversion Hv; subst; cbn [probes_of] in *; lia || done.
Qed.

(** What the turn of the probing timer does to a host, and whether it sent a
    probe. *)
Lemma probing_turn netif s s' u x :
  host_view s netif = Some (view_of x) -> hosts (vars_of s) !! hp_of s netif = Some x -> before_announcing (mstate x) = true ->
  hview_ok (Some (view_of x)) -> mdns_probe_and_announce call_txt_fn call_name_result netif s = Ok (u, s') ->
  exists res, probe_sent netif s = (res =? ERR_OK) /\ changed s s' (hp_of s netif) (Some (after_probe res (mstate x) (sent_num x))).
Proof using Htxt H2 H3 H4 H6.
  intros Hv Hx Hq Hok E. apply bind_ok_inv in E as ((y & s0) & E0 & E). apply host_of_inv in E0 as (-> & Hy).
  rewrite Hx in Hy. injection Hy as <-.
  assert (E1 : (res ← mdns_send_probe call_txt_fn netif v6group; _ ← count_probe netif res; x ← host_of netif;
     if negb (sent_num x =? 0) && (rate_limit_activated x =? 1)
     then timeout MDNS_PROBE_MAX_CONFLICTS_TIMEOUT MDNS_PROBE_AND_ANNOUNCE netif
     else timeout MDNS_PROBE_DELAY_MS MDNS_PROBE_AND_ANNOUNCE netif) s = Ok (u, s')) by (by destruct (mstate x)).
  clear E. apply bind_ok_inv in E1 as ((res & s1) & E1 & E). exists res. split.
  { unfold probe_sent. by rewrite Hx, Hq, E1. }
  apply (within_send_probe same_hosts) in E1 as Hs1; [|done]. apply bind_ok_inv in E as ((u2 & s2) & E2 & E).
  rewrite <- (host_view_same _ _ _ Hs1) in Hv. destruct (after_probe_ok res _ _ Hq Hok) as (Hn & _).
  destruct (count_probe_changed _ _ _ _ _ _ _ E2 Hv Hn) as (Hc & _). rewrite (hp_of_same _ _ _ Hs1) in Hc.
  eapply changed_same; [eapply same_changed; [exact Hs1|exact Hc]|].
  revert E. apply (within_bind same_hosts); [apply within_host_of; tc_solve|]. within_tac.
Qed.

(** What is done in the states of announcing. *)
Lemma announcing_turn netif s s' u x :
  host_view s netif = Some (view_of x) -> hview_ok (Some (view_of x)) ->
  mstate x = MDNS_STATE_ANNOUNCE_WAIT \/ mstate x = MDNS_STATE_ANNOUNCING ->
  (_ ← io_when (sent_num x =? 0) (first_announcement call_name_result netif); _ ← mdns_resp_announce call_txt_fn netif;
   count_announcement netif) s = Ok (u, s') ->
  changed s s' (hp_of s netif)
    (Some (if sent_num x =? 0 then (MDNS_STATE_ANNOUNCING, 1) else (MDNS_STATE_COMPLETE, 0))).
Proof using Htxt Hname_ok H2 H3 H4 H6.
  intros Hv Hn Hq E. apply bind_ok_inv in E as ((u1 & s1) & E1 & E). apply bind_ok_inv in E as ((u2 & s2) & E2 & E3).
  apply (within_resp_announce same_hosts) in E2 as Hs; [|done]. unfold io_when in E1. unfold view_of in Hv, Hn.
  assert (Hc : forall n, 0 <= n < 2 -> host_view s1 netif = Some (MDNS_STATE_ANNOUNCING, n) ->
    changed s1 s' (hp_of s1 netif) (Some (if n =? 0 then (MDNS_STATE_ANNOUNCING, 1) else (MDNS_STATE_COMPLETE, 0)))).
  { intros n Hr Hv1. eapply same_changed; [exact Hs|]. rewrite <- (hp_of_same _ _ netif Hs).
    eapply count_announcement_changed; [exact E3|by rewrite (host_view_same _ _ _ Hs)|done]. }
  destruct (mstate x), Hq; try done; inversion Hn as [| | | |Hs0|Hs0|]; rewrite <- Hs0 in *; simpl in E1.
  - apply first_announcement_changed with (n := 0) in E1 as (Hc1 & Hhp); [|done].
    specialize (Hc 0). rewrite Hhp in Hc. specialize (Hc ltac:(lia) (changed_at _ _ _ _ Hc1)). by eapply changed_changed.
  - injection E1 as _ <-. apply (Hc 1); [lia|done].
Qed.

Lemma counted_probe_and_announce netif s s' u c :
  mdns_probe_and_announce call_txt_fn call_name_result netif s = Ok (u, s') -> counted s c ->
  counted s' (count_turn MDNS_PROBE_AND_ANNOUNCE netif s s' c).
Proof using Htxt Hname_ok H2 H3 H4 H6.
  intros E Hc. pose proof E as E'. apply bind_ok_inv in E' as ((x & s0) & E0 & E1). apply host_of_inv in E0 as (-> & Hx).
  pose proof (host_view_of _ _ _ Hx) as Hv. pose proof (proj1 (Hc (hp_of s netif))) as Hok. rewrite Hv in Hok.
  unfold count_turn. rewrite Z.eqb_refl. cbn [andb]. destruct (before_announcing (mstate x)) eqn:Hq.
  - destruct (probing_turn netif s s' u x Hv Hx Hq Hok E) as (res & -> & Hch).
    destruct (after_probe_ok res _ _ Hq Hok) as (_ & Hok' & Hn).
    eapply counted_changed; [exact Hc|exact Hch|exact Hok'|]. rewrite Hv. exact Hn.
  - assert (Hns : probe_sent netif s = false) by (unfold probe_sent; by rewrite Hx, Hq). rewrite Hns.
    destruct (mstate x) eqn:Hm; try done.
    1, 2: eapply announcing_turn in E1; [|exact Hv|exact Hok|rewrite Hm; auto];
      eapply counted_changed; [exact Hc|exact E1|destruct (_ =? 0); constructor|]; rewrite Hv; unfold view_of; rewrite Hm; by destruct (_ =? 0).
    injection E1 as _ <-. eapply (counted_changed s s c false (hp_of s netif) (Some (view_of x))); [exact Hc| |exact Hok|by rewrite Hv].
    intros hp. case_decide as Hd; [by rewrite <- Hd|done].
Qed.
Lemma restarts_probe_conflict netif slot : restarts (mdns_probe_conflict call_name_result netif slot).
Proof using Hname.
  unfold mdns_probe_conflict. apply within_bind; [tc_solve|apply within_conflict_save_time; tc_solve|intros _].
  within_tac.
Qed.
Lemma restarts_tiebreaking netif pkt : restarts (mdns_handle_probe_tiebreaking call_txt_fn netif pkt).
Proof using Type*.
  unfold mdns_handle_probe_tiebreaking, mdns_define_probe_rrs_to_send. 
  apply within_bind; [tc_solve|within_tac|intros msg].
  apply within_bind; [tc_solve|apply keeps_restarts; by apply within_create_outpacket; try tc_solve|intros [res o]].
  pose proof restarts_restart_delay. within_tac.
Qed.
Lemma restarts_handle_question pkt netif : restarts (mdns_handle_question call_txt_fn pkt netif).
Proof using Type*.
  unfold mdns_handle_question. pose proof restarts_tiebreaking.
  assert (Hp : forall p, restarts (parse_query call_txt_fn netif p)) by (intros; apply keeps_restarts; by apply within_parse_query; try tc_solve).
  assert (Hs : forall p r, restarts (send_reply call_txt_fn netif p r)) by (intros; apply keeps_restarts; by apply within_send_reply; try tc_solve).
  within_tac.
Qed.
Lemma keeps_tc_before fuel pkt prev : keeps (tc_before fuel pkt prev).
Proof using Type.
  revert prev. induction fuel as [|fuel IH]; intros prev; simpl; within_tac.
Qed.
Lemma keeps_free_answers fuel pkt : keeps (free_answers fuel pkt).
Proof using Type.
  
  induction fuel as [|fuel IH]; simpl; within_tac.
Qed.
Lemma restarts_handle_tc_question a : restarts (mdns_handle_tc_question call_txt_fn a).
Proof using Type*.
  unfold mdns_handle_tc_question, packet_fuel. pose proof restarts_handle_question. 
  
  assert (Hb : forall fuel p q, restarts (tc_before fuel p q)) by (intros; apply keeps_restarts, keeps_tc_before).
  assert (Hf : forall fuel p, restarts (free_answers fuel p)) by (intros; apply keeps_restarts, keeps_free_answers).
  within_tac.
Qed.

Lemma keeps_lookup_request rr : keeps (mdns_lookup_request rr).
Proof using Type. unfold mdns_lookup_request. within_tac. Qed.
Lemma keeps_get_request i : keeps (get_request i).
Proof using Type. unfold get_request. within_tac. Qed.
Lemma keeps_response_questions fuel pkt req : keeps (response_questions fuel pkt req).
Proof using Type.
  revert pkt req. pose proof keeps_lookup_request. induction fuel as [|fuel IH]; intros pkt req; simpl; within_tac.
Qed.
Lemma restarts_report_answer pkt ans n req first : restarts (report_answer call_result_fn pkt ans n req first).
Proof using Hresult.
  unfold report_answer.
  assert (Hl : forall rr, restarts (mdns_lookup_request rr)) by (intros; apply keeps_restarts, keeps_lookup_request).
  assert (Hg : forall i, restarts (get_request i)) by (intros; apply keeps_restarts, keeps_get_request).
  within_tac.
Qed.
Lemma keeps_service_named mdns idxs d : keeps (service_named mdns idxs d).
Proof using Type.
  induction idxs as [|i idxs IH]; simpl; [within_tac|].
  apply within_bind; [tc_solve|apply within_with_service; within_tac|within_tac].
Qed.
Lemma keeps_conflicting_slot mdns d : keeps (conflicting_slot mdns d).
Proof using Type. unfold conflicting_slot. pose proof keeps_service_named. within_tac. Qed.
Lemma keeps_any_address addrs pkt ans : keeps (any_address addrs pkt ans).
Proof using Type. induction addrs; simpl; within_tac. Qed.
Lemma keeps_host_conflict netif mdns pkt ans : keeps (host_conflict netif mdns pkt ans).
Proof using Type. unfold host_conflict. pose proof keeps_any_address. within_tac. Qed.
Lemma keeps_service_conflict mdns pkt ans i p x c : keeps (service_conflict call_txt_fn mdns pkt ans i p x c).
Proof using Type*. unfold service_conflict. pose proof (within_prepare_txtdata same_hosts call_txt_fn Htxt). within_tac. Qed.
Lemma restarts_check_conflict netif pkt ans : restarts (check_conflict call_txt_fn call_name_result netif pkt ans).
Proof using Type*.
  unfold check_conflict. pose proof restarts_probe_conflict. pose proof restarts_restart.
  assert (Hc : forall m d, restarts (conflicting_slot m d)) by (intros; apply keeps_restarts, keeps_conflicting_slot).
  assert (Hh : forall n m p a, restarts (host_conflict n m p a)) by (intros; apply keeps_restarts, keeps_host_conflict).
  assert (Hs : forall m p a c, restarts (services_loop m slots (service_conflict call_txt_fn m p a) c)).
  { intros. apply keeps_restarts, within_services_loop; try tc_solve. intros. apply keeps_service_conflict. }
  within_tac.
Qed.
Lemma restarts_response_answers fuel netif pkt n req first :
  restarts (response_answers call_txt_fn call_name_result call_result_fn fuel netif pkt n req first).
Proof using Type*.
  revert pkt n req first. pose proof restarts_report_answer. pose proof restarts_check_conflict.
  induction fuel as [|fuel IH]; intros pkt n req first; simpl; within_tac.
Qed.
Lemma restarts_handle_response pkt netif :
  restarts (mdns_handle_response call_txt_fn call_name_result call_result_fn pkt netif).
Proof using Type*.
  unfold mdns_handle_response. pose proof restarts_response_answers.
  assert (Hq : forall f p r, restarts (response_questions f p r)) by (intros; apply keeps_restarts, keeps_response_questions).
  within_tac.
Qed.

Lemma keeps_free_pbuf p : keeps (free_pbuf p).
Proof using Type. unfold free_pbuf. within_tac. Qed.
Lemma keeps_find_tc fuel q port addr : keeps (find_tc fuel q port addr).
Proof using Type. revert q. induction fuel as [|fuel IH]; intros q; simpl; within_tac. Qed.
Lemma restarts_receive_query packet flags1 netif : restarts (receive_query call_txt_fn packet flags1 netif).
Proof using Type*.
  unfold receive_query, packet_fuel, MDNS_RESPONSE_TC_DELAY_MS. pose proof restarts_handle_question.
  assert (Hf : forall p, restarts (free_pbuf p)) by (intros; apply keeps_restarts, keeps_free_pbuf).
  assert (Ht : forall f q port a, restarts (find_tc f q port a)) by (intros; apply keeps_restarts, keeps_find_tc).
  within_tac.
Qed.
Lemma restarts_recv a pcb p addr port :
  restarts (mdns_recv call_txt_fn call_name_result call_result_fn a pcb p addr port).
Proof using Type*.
  unfold mdns_recv. pose proof restarts_receive_query. pose proof restarts_handle_response.
  assert (Hf : forall p, restarts (free_pbuf p)) by (intros; apply keeps_restarts, keeps_free_pbuf).
  within_tac.
Qed.

(** ** Timers *)

Lemma restarts_timer_handler h a : h <> MDNS_PROBE_AND_ANNOUNCE -> restarts (timer_handler call_txt_fn call_name_result h a).
Proof using Type*.
  intros Hne. apply Z.eqb_neq in Hne.
  unfold timer_handler, mdns_multicast_timeout_reset_ipv6, mdns_multicast_timeout_25ttl_reset_ipv6. rewrite Hne.
  repeat match goal with |- within _ (if ?b then _ else _) => destruct b end.
  - apply within_on_ipv6; tc_solve.
  - apply keeps_restarts. by apply within_probe_timeout_reset; try tc_solve.
  - apply within_on_ipv6; tc_solve.
  - apply keeps_restarts. by apply within_send_delayed_multicast; try tc_solve.
  - apply keeps_restarts. by apply within_send_unicast_delayed; try tc_solve.
  - apply restarts_handle_tc_question.
  - apply within_on_net; tc_solve.
  - apply within_on_net; tc_solve.
  - apply within_fault.
Qed.

(** The list, the pool and the time of the timers are not the hosts'. *)
Lemma hview_world s s' : t_world s' = t_world s -> forall hp, hview_at s' hp = hview_at s hp.
Proof using Type. intros Hw hp. unfold hview_at, vars_of. by rewrite Hw. Qed.
Lemma counted_world s s' c : t_world s' = t_world s -> counted s c -> counted s' c.
Proof using Type. intros Hw Hc hp. rewrite (hview_world s s' Hw). apply Hc. Qed.
Lemma timeout_abs_world s t h a s' : sys_timeout_abs t h a s = Ok s' -> t_world s' = t_world s.
Proof using Type.
  intros E. unfold sys_timeout_abs in E. apply bind_ok_inv in E as ((m & ps) & _ & E). destruct m; [|done]. by injection E as <-.
Qed.

Abbreviation handler := (run_handler call_txt_fn call_name_result).
Lemma restarted_run_handler h a s s' : h <> MDNS_PROBE_AND_ANNOUNCE -> handler h a s = Ok s' -> restarted s s'.
Proof using Type*.
  intros Hh E. apply bind_ok_inv in E as ((u & s1) & E1 & E). injection E as <-. by eapply restarts_timer_handler.
Qed.
Lemma restarted_call_handler h a s s' : h <> MDNS_PROBE_AND_ANNOUNCE -> call_handler w_now handler h a s = Ok s' -> restarted s s'.
Proof using Type*.
  intros Hh E. unfold call_handler in E. destruct (h =? 0); [injection E as <-; reflexivity|].
  destruct (h =? lwip_cyclic_timer_addr); [|by eapply restarted_run_handler].
  unfold lwip_cyclic_timer in E. apply bind_ok_inv in E as (c & Ec & E). apply bind_ok_inv in E as (s1 & E1 & E).
  apply restarted_run_handler in E1.
  - assert (Hw : t_world s' = t_world s1) by (destruct (TIME_LESS_THAN _ _); by apply timeout_abs_world in E).
    intros hp. rewrite (hview_world _ _ Hw). apply E1.
  - apply rd_ok in Ec as [_ Ec]. unfold lwip_cyclic_timers in Ec.
    destruct (Z.to_nat a) as [|[|n]]; cbn in Ec; [injection Ec as <-; cbn; discriminate..|done].
Qed.
Lemma counted_call_handler h a s s' c :
  call_handler w_now handler h a s = Ok s' -> counted s c -> counted s' (count_turn h a s s' c).
Proof using Type*.
  intros E Hc. destruct (decide (h = MDNS_PROBE_AND_ANNOUNCE)) as [->|Hne].
  - apply bind_ok_inv in E as ((u & s1) & E1 & E). injection E as <-. by eapply counted_probe_and_announce.
  - unfold count_turn. rewrite (proj2 (Z.eqb_neq _ _) Hne). cbn [andb]. eapply counted_restarted; [by eapply restarted_call_handler|done].
Qed.

(** The counts along the timers that [check_loop] fires: the handler is called
    when its timer is off the list. *)
Fixpoint count_loop (fuel : nat) (now : Z) s (c : Z -> nat) : Z -> nat :=
  match next_timeout s, fuel with
  | t :: rest, S fuel =>
      if TIME_LESS_THAN now (time t) then c
      else
        match pool_free (t_elem t) (t_pool s) with
        | Ok ps =>
            let s := mk_timers rest (time t) ps (t_world s) in
            match call_handler w_now handler (h t) (arg t) s with
            | Ok s' => count_loop fuel now s' (count_turn (h t) (arg t) s s' c)
            | Fault _ => c
            end
        | Fault _ => c
        end
  | _, _ => c
  end.
Lemma counted_loop fuel now s s' c : check_loop w_now handler fuel now s = Ok s' -> counted s c -> counted s' (count_loop fuel now s c).
Proof using Type*.
  revert s c. induction fuel as [|fuel IH]; intros s c E Hc; simpl in E |- *; destruct (next_timeout s) as [|t rest];
    try (by injection E as <-); destruct (TIME_LESS_THAN now (time t)); try (by injection E as <-); [done|].
  apply bind_ok_inv in E as (s1 & E1 & E). unfold fire in E1. apply bind_ok_inv in E1 as (ps & -> & E1). rewrite E1.
  apply IH; [done|]. eapply counted_call_handler; [exact E1|]. by eapply counted_world.
Qed.

(** ** The functions of the application *)

Variable SIZEOF_MDNS_HOST SIZEOF_MDNS_SERVICE : Z.
Variable mempool_init : KP -> KP.

(** An update of the variables that adds or takes away a host. *)
Lemma restarted_hosts f s s' hp v :
  upd_mvars f s = Ok (tt, s') ->
  hosts (f (vars_of s)) !! hp = v -> (forall hp', hp' <> hp -> hosts (f (vars_of s)) !! hp' = hosts (vars_of s) !! hp') ->
  fresh (view_of <$> v) -> restarted s s'.
Proof using Type.
  intros E Hv Ho Hm. injection E as <-. apply (restarted_at _ _ hp (view_of <$> v)); [done|]. unfold hview_at, vars_of in *. simpl.
  intros hp'. case_decide as Hd; [by rewrite <- Hd, Hv|]. by rewrite Ho.
Qed.
Lemma restarts_add_host p x : view_of x = (MDNS_STATE_OFF, 0) -> restarts (upd_mvars (set_hosts <[p := x]>)).
Proof using Type.
  intros Hx s [] s' E. apply (restarted_hosts _ _ _ p (Some x) E); destruct (vars_of s); simpl.
  - by rewrite lookup_insert_eq.
  - intros. by rewrite lookup_insert_ne.
  - simpl. rewrite Hx. split; [done|constructor].
Qed.
Lemma restarts_free_host p : restarts (free_host p).
Proof using Type.
  unfold free_host, mem_free. apply within_bind; [tc_solve|within_tac|intros _].
  intros s [] s' E. apply (restarted_hosts _ _ _ p None E); destruct (vars_of s); simpl.
  - by rewrite lookup_delete_eq.
  - intros. by rewrite lookup_delete_ne.
  - split; [done|constructor].
Qed.
Lemma keeps_free_service p : keeps (free_service p).
Proof using Type. unfold free_service, mem_free. within_tac. Qed.
Lemma keeps_free_services l : keeps (free_services l).
Proof using Type. pose proof keeps_free_service. induction l; simpl; within_tac. Qed.
(** The client data and its index are not the hosts'. *)
Lemma restarts_upd_mvars f : (forall v, hosts (f v) = hosts v) -> restarts (upd_mvars f).
Proof using Type. intros Hf s [] s' E hp. injection E as <-. left. unfold hview_at, vars_of. simpl. by rewrite Hf. Qed.
Lemma restarts_set_client_data netif d : restarts (netif_set_client_data netif d).
Proof using Type.
  unfold netif_set_client_data. apply within_bind; [tc_solve|within_tac|intros v]. apply restarts_upd_mvars. by intros [].
Qed.
Lemma restarts_set_host p f : (forall x, view_of (f x) = view_of x) -> restarts (upd_host p f).
Proof using Type. intros. apply within_upd_host; [tc_solve|done]. Qed.

Lemma restarts_add_netif netif hostname : restarts (mdns_resp_add_netif SIZEOF_MDNS_HOST netif hostname).
Proof using Type.
  unfold mdns_resp_add_netif, mem_calloc. pose proof restarts_free_host. pose proof restarts_set_client_data. pose proof restarts_restart.
  destruct (netif =? 0); [within_tac|]. destruct (_ <? _); [within_tac|].
  apply within_bind; [tc_solve|within_tac|intros hp]. apply within_bind; [tc_solve|within_tac|intros _].
  apply within_bind; [tc_solve|within_tac|intros [mdns|]]; [|within_tac].
  apply within_bind; [tc_solve|by apply restarts_add_host|intros _].
  apply within_bind; [tc_solve|done|intros _]. apply within_bind; [tc_solve|within_tac|intros res]. within_tac.
Qed.
Lemma restarts_remove_netif netif : restarts (mdns_resp_remove_netif netif).
Proof using Type.
  unfold mdns_resp_remove_netif. pose proof restarts_free_host. pose proof restarts_set_client_data.
  assert (Hf : forall l, restarts (free_services l)) by (intros; apply keeps_restarts, keeps_free_services). within_tac.
Qed.
Lemma set_h_name_view v x : view_of (set_h_name v x) = view_of x.
Proof using Type. by destruct x. Qed.
Lemma set_h_services_view v x : view_of (set_h_services v x) = view_of x.
Proof using Type. by destruct x. Qed.
Lemma restarts_rename_netif netif name : restarts (mdns_resp_rename_netif netif name).
Proof using Type.
  unfold mdns_resp_rename_netif. pose proof restarts_restart_delay.
  assert (Hu : forall p, restarts (upd_host p (set_h_name name))) by (intros; by apply restarts_set_host, set_h_name_view). within_tac.
Qed.
Lemma restarts_add_service netif name srv proto port f d :
  restarts (mdns_resp_add_service SIZEOF_MDNS_SERVICE netif name srv proto port f d).
Proof using Type.
  unfold mdns_resp_add_service, mem_calloc. pose proof restarts_restart.
  assert (Hu : forall p l, restarts (upd_host p (set_h_services l))) by (intros; by apply restarts_set_host, set_h_services_view). within_tac.
Qed.
Lemma keeps_service_at hp slot : keeps (service_at hp slot).
Proof using Type. unfold service_at. within_tac. Qed.
Lemma restarts_del_service netif slot : restarts (mdns_resp_del_service netif slot).
Proof using Type.
  unfold mdns_resp_del_service.
  assert (Hu : forall p l, restarts (upd_host p (set_h_services l))) by (intros; by apply restarts_set_host, set_h_services_view).
  assert (Hs : forall p i, restarts (service_at p i)) by (intros; apply keeps_restarts, keeps_service_at).
  assert (Hf : forall p, restarts (free_service p)) by (intros; apply keeps_restarts, keeps_free_service). within_tac.
Qed.
Lemma restarts_rename_service netif slot name : restarts (mdns_resp_rename_service netif slot name).
Proof using Type.
  unfold mdns_resp_rename_service. pose proof restarts_restart_delay.
  assert (Hs : forall p i, restarts (service_at p i)) by (intros; apply keeps_restarts, keeps_service_at). within_tac.
Qed.
Lemma restarts_add_txtitem p txt n : restarts (mdns_resp_add_service_txtitem p txt n).
Proof using Type. unfold mdns_resp_add_service_txtitem. within_tac. Qed.
Lemma restarts_search_stop i : restarts (mdns_search_stop i).
Proof using Type.
  unfold mdns_search_stop. assert (Hg : forall i, restarts (get_request i)) by (intros; apply keeps_restarts, keeps_get_request). within_tac.
Qed.
Lemma restarts_search name srv proto netif f a : restarts (mdns_search_service call_txt_fn name srv proto netif f a).
Proof using Type*.
  unfold mdns_search_service, mdns_send_request.
  assert (Hs : forall m n, restarts (mdns_send_outpacket call_txt_fn m n)).
  { intros. apply keeps_restarts. by apply within_send_outpacket; try tc_solve. }
  within_tac.
Qed.
Lemma restarts_init : restarts (mdns_resp_init mempool_init).
Proof using Type.
  unfold mdns_resp_init, netif_alloc_client_data_id.
  repeat (apply within_bind; [tc_solve|try within_tac|intros ?]); try within_tac; apply restarts_upd_mvars; by intros [].
Qed.

(** What can happen to the responder. *)
Inductive mdns_op :=
| OpInit
| OpClock (now : Z)
| OpTimers (fuel : nat)
| OpReceive (a pcb p : Z) (addr : ip6_addr) (port : Z)
| OpAddNetif (netif : Z) (name : list Z)
| OpRemoveNetif (netif : Z)
| OpRenameNetif (netif : Z) (name : list Z)
| OpAddService (netif : Z) (name srv : list Z) (proto port txt_fn txt_data : Z)
| OpDelService (netif slot : Z)
| OpRenameService (netif slot : Z) (name : list Z)
| OpAddTxt (service : Z) (txt : list Z) (txt_len : Z)
| OpSearch (name : option (list Z)) (srv : list Z) (proto netif fn a : Z)
| OpSearchStop (request_id : Z)
| OpAnnounce (netif : Z)
| OpRestart (netif : Z)
| OpRestartDelay (netif delay : Z)
| OpRegister (cb : Z).

Definition drop_result {A} (m : mio A) : mio unit := _ ← m; mret tt.
Definition run_mdns_op (op : mdns_op) : mio unit :=
  match op with
  | OpInit => mdns_resp_init mempool_init
  | OpClock now => io_modify (with_world (fun w => mk_mworld (w_net w) (w_mdns w) (u32 now)))
  | OpTimers fuel => check_timeouts call_txt_fn call_name_result fuel
  | OpReceive a pcb p addr port => mdns_recv call_txt_fn call_name_result call_result_fn a pcb p addr port
  | OpAddNetif netif name => drop_result (mdns_resp_add_netif SIZEOF_MDNS_HOST netif name)
  | OpRemoveNetif netif => drop_result (mdns_resp_remove_netif netif)
  | OpRenameNetif netif name => drop_result (mdns_resp_rename_netif netif name)
  | OpAddService netif name srv proto port f d =>
      drop_result (mdns_resp_add_service SIZEOF_MDNS_SERVICE netif name srv proto port f d)
  | OpDelService netif slot => drop_result (mdns_resp_del_service netif slot)
  | OpRenameService netif slot name => drop_result (mdns_resp_rename_service netif slot name)
  | OpAddTxt p txt n => drop_result (mdns_resp_add_service_txtitem p txt n)
  | OpSearch name srv proto netif f a => drop_result (mdns_search_service call_txt_fn name srv proto netif f a)
  | OpSearchStop i => mdns_search_stop i
  | OpAnnounce netif => mdns_resp_announce call_txt_fn netif
  | OpRestart netif => mdns_resp_restart netif
  | OpRestartDelay netif delay => mdns_resp_restart_delay netif delay
  | OpRegister cb => mdns_resp_register_name_result_cb cb
  end.
Fixpoint run_mdns_ops (ops : list mdns_op) : mio unit :=
  match ops with [] => mret tt | op :: ops => _ ← run_mdns_op op; run_mdns_ops ops end.

Lemma restarts_drop_result {A} (m : mio A) : restarts m -> restarts (drop_result m).
Proof using Type. intros. unfold drop_result. apply within_bind; [tc_solve|done|]. within_tac. Qed.
Definition fires (op : mdns_op) : bool := if op is OpTimers _ then true else false.
Lemma restarts_op op : fires op = false -> restarts (run_mdns_op op).
Proof using Type*.
  intros Hop. destruct op; simpl; try apply restarts_drop_result.
  - apply restarts_init.
  - intros s u s' E hp. injection E as _ <-. by left.
  - done.
  - apply restarts_recv.
  - apply restarts_add_netif.
  - apply restarts_remove_netif.
  - apply restarts_rename_netif.
  - apply restarts_add_service.
  - apply restarts_del_service.
  - apply restarts_rename_service.
  - apply restarts_add_txtitem.
  - apply restarts_search.
  - apply restarts_search_stop.
  - apply keeps_restarts. by apply within_resp_announce; try tc_solve.
  - apply restarts_restart.
  - apply restarts_restart_delay.
  - unfold mdns_resp_register_name_result_cb. within_tac.
Qed.

(** The probes that a run sends for the hosts since they last started over. *)
Definition count_op (op : mdns_op) s s' (c : Z -> nat) : Z -> nat :=
  match op with OpTimers fuel => count_loop fuel (w_now (t_world s)) s c | _ => settle s' c end.
Fixpoint probes_sent (ops : list mdns_op) s (c : Z -> nat) : Z -> nat :=
  match ops with
  | [] => c
  | op :: ops => match run_mdns_op op s with Ok (_, s') => probes_sent ops s' (count_op op s s' c) | Fault _ => c end
  end.

Lemma counted_op op s u s' c : run_mdns_op op s = Ok (u, s') -> counted s c -> counted s' (count_op op s s' c).
Proof using Type*.
  intros E Hc. destruct (fires op) eqn:Hop.
  - destruct op; try done. apply bind_ok_inv in E as (s1 & E1 & E). injection E as _ <-. by eapply counted_loop.
  - apply restarts_op in E; [|done]. destruct op; try done; by eapply counted_restarted.
Qed.
Lemma counted_ops ops s u s' c : run_mdns_ops ops s = Ok (u, s') -> counted s c -> counted s' (probes_sent ops s c).
Proof using Type*.
  revert s c. induction ops as [|op ops IH]; intros s c E Hc; [by injection E as _ <-|].
  apply bind_ok_inv in E as ((u1 & s1) & E1 & E). cbn [probes_sent]. rewrite E1. apply IH; [done|]. by eapply counted_op.
Qed.
End Machine.
