(* ===== verification/MdnsOrder.v ===== *)
(** The order of records by which two hosts that probe for the same name at
    the same time decide who keeps it: [mdns_lexicographical_comparison] of
    MdnsIn is the lexicographic order of what the records say. *)

From Stdlib Require Import ZArith Lia.
From stdpp Require Import base list numbers gmap.
From S2P Require Import Prelude Mmio Mem Memp Pbuf PbufChain Ip6Addr Chksum Netif Stack MdnsDomain MdnsNames MdnsCompress MdnsOut MdnsIn.

Open Scope Z_scope.

(* ------------------------------------------------------------------ *)
(** * The order *)

Fixpoint lex (a b : list Z) : comparison :=
  match a, b with
  | [], [] => Eq
  | [], _ => Lt
  | _, [] => Gt
  | x :: a, y :: b => match x ?= y with Eq => lex a b | c => c end
  end.

Definition verdict (c : comparison) : Z :=
  match c with Eq => MDNS_LEXICOGRAPHICAL_EQUAL | Lt => MDNS_LEXICOGRAPHICAL_EARLIER | Gt => MDNS_LEXICOGRAPHICAL_LATER end.
Definition decided (c : comparison) : option Z := match c with Eq => None | c => Some (verdict c) end.
Definition or_else_compare (c d : comparison) : comparison := match c with Eq => d | c => c end.

Lemma lex_antisym a b : lex b a = CompOpp (lex a b).
Proof.
  revert b. induction a as [|x a IH]; intros [|y b]; simpl; try done.
  rewrite Z.compare_antisym. destruct (x ?= y); simpl; [apply IH|done|done].
Qed.
Lemma lex_eq a b : lex a b = Eq -> a = b.
Proof.
  revert b. induction a as [|x a IH]; intros [|y b]; simpl; try done.
  destruct (x ?= y) eqn:E; try done. apply Z.compare_eq in E as ->. intros ?. f_equal. by apply IH.
Qed.

(** Lists of one length in front. *)
Lemma lex_app a1 a2 b1 b2 : length a1 = length b1 -> lex (a1 ++ a2) (b1 ++ b2) = or_else_compare (lex a1 b1) (lex a2 b2).
Proof.
  revert b1. induction a1 as [|x a1 IH]; intros [|y b1] Hl; try done. simpl.
  destruct (x ?= y); simpl; [apply IH; by injection Hl|done|done].
Qed.
(** The common length decides, or else the lengths. *)
Lemma lex_common a b :
  lex a b = or_else_compare (lex (take (length a `min` length b) a) (take (length a `min` length b) b)) (zlen a ?= zlen b).
Proof.
  revert b. induction a as [|x a IH]; intros [|y b]; try done. cbn [lex length Nat.min take].
  destruct (x ?= y); simpl; [|done|done]. rewrite IH. f_equal. symmetry.
  change (Z.of_nat (S (length a)) ?= Z.of_nat (S (length b)) = (zlen a ?= zlen b)).
  rewrite !Nat2Z.inj_succ. apply Zcompare_succ_compat.
Qed.

(* ------------------------------------------------------------------ *)
(** * The comparisons of the code *)

Lemma differs_ok a b : differs a b = decided (a ?= b).
Proof.
  unfold differs, decided. destruct (Z.compare_spec a b) as [->|Hl|Hl]; [by rewrite Z.eqb_refl| |];
    (destruct (Z.eqb_spec a b); [lia|]); destruct (Z.ltb_spec b a); try lia; done.
Qed.
Lemma or_else_ok c d k : k = Ok (ERR_OK, verdict d) -> or_else (Ok (decided c)) k = Ok (ERR_OK, verdict (or_else_compare c d)).
Proof. intros ->. by destruct c. Qed.
Lemma or_else_decided c k : c <> Eq -> or_else (Ok (decided c)) k = Ok (ERR_OK, verdict c).
Proof. by destruct c. Qed.

Lemma or_else_equal k : or_else (Ok (decided Eq)) k = k.
Proof. done. Qed.

Lemma names_differ_ok n a b i :
  0 <= i -> i + Z.of_nat n <= zlen a -> i + Z.of_nat n <= zlen b ->
  names_differ n a b i = Ok (decided (lex (take n (drop (Z.to_nat i) a)) (take n (drop (Z.to_nat i) b)))).
Proof.
  revert i. induction n as [|n IH]; intros i Hi Ha Hb; [done|]. cbn [names_differ].
  destruct (rd_in a i) as (x & Hx); [lia|]. destruct (rd_in b i) as (y & Hy); [lia|].
  rewrite Hx, Hy. cbn [mbind outcome_bind]. rewrite IH by lia. rewrite differs_ok.
  apply rd_ok in Hx as (_ & Hx). apply rd_ok in Hy as (_ & Hy).
  rewrite (drop_S _ _ _ Hx), (drop_S _ _ _ Hy). cbn [take lex]. replace (Z.to_nat (i + 1)) with (S (Z.to_nat i)) by lia.
  by destruct (x ?= y).
Qed.

Section Records.
Context (m : gmap Z pbuf) (bs : gmap Z Z).

(** The packet at [p] has the bytes [c]. *)
Definition packet_bytes (p : Z) (c : list Z) : Prop :=
  exists l, chain m p l /\ packet l /\ content bs l c /\ Forall is_u8 c /\ l <> [] /\ zlen c <= 65000.

Lemma rdata_differs_ok n pa pb ca cb oa ob i :
  packet_bytes pa ca -> packet_bytes pb cb -> 0 <= oa -> 0 <= ob -> 0 <= i ->
  oa + i + Z.of_nat n <= zlen ca -> ob + i + Z.of_nat n <= zlen cb ->
  rdata_differs m bs n pa pb oa ob i =
    Ok (decided (lex (take n (drop (Z.to_nat (oa + i)) ca)) (take n (drop (Z.to_nat (ob + i)) cb)))).
Proof.
  intros (la & A1 & A2 & A3 & A4 & A5 & A6) (lb & B1 & B2 & B3 & B4 & B5 & B6) Ho Hp. revert i.
  induction n as [|n IH]; intros i Hi Ha Hb; [done|]. cbn [rdata_differs].
  rewrite !u16_small by (unfold is_u16; lia).
  rewrite (get_byte m bs pa la ca), (get_byte m bs pb lb cb) by (done || lia). cbn [mbind outcome_bind].
  rewrite IH by lia. rewrite differs_ok. unfold byte_at.
  destruct (rd_in ca (oa + i)) as (x & (_ & Hx)%rd_ok); [lia|]. destruct (rd_in cb (ob + i)) as (y & (_ & Hy)%rd_ok); [lia|].
  rewrite Hx, Hy. cbn [default from_option id]. rewrite (drop_S _ _ _ Hx), (drop_S _ _ _ Hy). cbn [take lex].
  replace (Z.to_nat (oa + (i + 1))) with (S (Z.to_nat (oa + i))) by lia.
  replace (Z.to_nat (ob + (i + 1))) with (S (Z.to_nat (ob + i))) by lia.
  by destruct (x ?= y).
Qed.
End Records.

Lemma debug_loop_ok fuel nm pre ls rest :
  nm = pre ++ wire_name ls ++ rest -> Forall wf_label ls -> (length ls <= fuel)%nat ->
  debug_print_loop fuel nm (zlen pre) = Ok tt.
Proof.
  revert fuel pre. induction ls as [|l ls IH]; intros fuel pre -> Hw Hf.
  - assert (E : rd (pre ++ wire_name [] ++ rest) (zlen pre) = Ok 0)
      by (apply rd_ok; split; [lia|]; rewrite Nat2Z.id; by apply list_lookup_middle).
    destruct fuel; cbn [debug_print_loop]; by rewrite E.
  - apply Forall_cons in Hw as [[Hl _] Hw]. destruct fuel as [|fuel]; [by apply Nat.nle_succ_0 in Hf|].
    assert (E : rd (pre ++ wire_name (l :: ls) ++ rest) (zlen pre) = Ok (zlen l))
      by (apply rd_ok; split; [lia|]; rewrite Nat2Z.id, wire_cons; by apply list_lookup_middle).
    cbn [debug_print_loop]. rewrite E. cbn [mbind outcome_bind]. destruct (Z.eqb_spec (zlen l) 0); [lia|].
    specialize (IH fuel (pre ++ zlen l :: l)). rewrite length_app in IH. cbn [length] in IH.
    replace (zlen pre + 1 + zlen l) with (Z.of_nat (length pre + S (length l))) by lia.
    apply IH; [|done|cbn in Hf; lia]. rewrite wire_cons, <- !app_assoc. cbn [app]. by rewrite <- app_assoc.
Qed.
Lemma debug_print_ok d ls : holds d (wire_name ls) -> Forall wf_label ls -> mdns_domain_debug_print d = Ok tt.
Proof.
  intros Hh Hw. pose proof (holds_length _ _ Hh) as [_ Hl]. destruct Hh as (rest & E & _ & _).
  assert (Hn : (length ls <= length (wire_name ls))%nat).
  { clear. induction ls as [|l ls IH]; [cbn; lia|]. rewrite wire_cons. cbn [length]. rewrite length_app. lia. }
  unfold mdns_domain_debug_print, MDNS_DOMAIN_MAXLEN. apply (debug_loop_ok _ _ [] ls rest); [done|done|lia].
Qed.


(* ------------------------------------------------------------------ *)
(** * Records *)

(** The data of a record, its name uncompressed. *)
Inductive says (c : list Z) (ans : mdns_answer) : list Z -> Prop :=
| says_plain : rr_type (a_info ans) <> DNS_RRTYPE_SRV -> 0 <= rd_offset ans -> 0 <= rd_length ans ->
    rd_offset ans + rd_length ans <= zlen c ->
    says c ans (take (Z.to_nat (rd_length ans)) (drop (Z.to_nat (rd_offset ans)) c))
| says_service ls n : rr_type (a_info ans) = DNS_RRTYPE_SRV -> 0 <= rd_offset ans -> rd_offset ans + 6 <= zlen c ->
    readable c (rd_offset ans + 6) ls n -> says c ans (take 6 (drop (Z.to_nat (rd_offset ans)) c) ++ wire_name ls).

(** What records are ordered by. *)
Definition record_key (ans : mdns_answer) (data : list Z) : list Z :=
  rr_klass (a_info ans) :: rr_type (a_info ans) :: data.

(** The common length of data that decides first, and then the lengths. *)
Lemma decide_data xs ys n r :
  n = Z.to_nat (Z.min (zlen xs) (zlen ys)) -> r = Ok (decided (lex (take n xs) (take n ys))) ->
  or_else r (or_else (Ok (differs (zlen xs) (zlen ys))) (Ok (ERR_OK, MDNS_LEXICOGRAPHICAL_EQUAL))) =
  Ok (ERR_OK, verdict (lex xs ys)).
Proof.
  intros -> ->. rewrite (lex_common xs ys), differs_ok.
  replace (length xs `min` length ys)%nat with (Z.to_nat (Z.min (zlen xs) (zlen ys))) by lia.
  apply or_else_ok. change (Ok (ERR_OK, MDNS_LEXICOGRAPHICAL_EQUAL)) with (Ok (ERR_OK, verdict Eq)).
  rewrite (or_else_ok _ Eq) by done. by destruct (zlen xs ?= zlen ys).
Qed.

Section Comparison.
Context (m : gmap Z pbuf) (bs : gmap Z Z).

Lemma plain_data (ca cb : list Z) oa ob la lb pa pb :
  packet_bytes m bs pa ca -> packet_bytes m bs pb cb -> 0 <= oa -> 0 <= ob -> 0 <= la -> 0 <= lb ->
  oa + la <= zlen ca -> ob + lb <= zlen cb ->
  or_else (rdata_differs m bs (Z.to_nat (Z.min la lb)) pa pb oa ob 0)
    (or_else (Ok (differs la lb)) (Ok (ERR_OK, MDNS_LEXICOGRAPHICAL_EQUAL))) =
  Ok (ERR_OK, verdict (lex (take (Z.to_nat la) (drop (Z.to_nat oa) ca)) (take (Z.to_nat lb) (drop (Z.to_nat ob) cb)))).
Proof.
  intros Ha Hb Hoa Hob Hla Hlb Hea Heb.
  set (xs := take (Z.to_nat la) _). set (ys := take (Z.to_nat lb) _).
  assert (Hx : zlen xs = la) by (unfold xs; rewrite length_take, length_drop; lia).
  assert (Hy : zlen ys = lb) by (unfold ys; rewrite length_take, length_drop; lia).
  replace (differs la lb) with (differs (zlen xs) (zlen ys)) by (by rewrite Hx, Hy). apply decide_data with (n := Z.to_nat (Z.min (zlen xs) (zlen ys))); [done|].
  rewrite (rdata_differs_ok m bs _ _ _ ca cb) by (done || lia). unfold xs, ys. rewrite !take_take, !Z.add_0_r.
  fold xs ys. rewrite Hx, Hy. do 4 f_equal; lia.
Qed.

(** The names of two service records. *)
Lemma service_names c p off ls n : packet_bytes m bs p c -> 0 <= off -> off <= zlen c -> readable c off ls n ->
  exists r d, mdns_readname m bs p (u16 off) = Ok (r, d) /\ (r =? MDNS_READNAME_ERROR) = false /\
    holds d (wire_name ls) /\ mdns_domain_debug_print d = Ok tt.
Proof.
  intros (l & H1 & H2 & H3 & H4 & H5 & H6) Ho He Hr. rewrite u16_small by (unfold is_u16; lia).
  destruct (readname_ok m bs p l c off H1 H2 H3 H4 H5 H6) as (r & d & E & _ & [[_ Hno]|(ls' & n' & Hr' & Er & Hh)]); [lia|by edestruct Hno|].
  destruct Hr as (k & _ & Hat & _), Hr' as (k' & _ & Hat' & Hls). destruct (name_at_fun _ _ _ _ _ _ _ _ Hat Hat') as (-> & -> & ->).
  pose proof (name_at_width _ _ _ _ _ Hat'). exists r, d. split; [done|]. split_and!.
  - apply Z.eqb_neq. unfold MDNS_READNAME_ERROR. lia.
  - done.
  - eapply debug_print_ok; [done|]. by eapply name_at_wf.
Qed.
Lemma service_data ca cb oa ob la lb pa pb na nb :
  packet_bytes m bs pa ca -> packet_bytes m bs pb cb -> 0 <= oa -> 0 <= ob ->
  oa + 6 <= zlen ca -> ob + 6 <= zlen cb -> readable ca (oa + 6) la na -> readable cb (ob + 6) lb nb ->
  or_else (rdata_differs m bs 6 pa pb oa ob 0)
     ('(res, domain_a) ← mdns_readname m bs pa (u16 (oa + 6));
      if res =? MDNS_READNAME_ERROR then Ok (ERR_VAL, 0)
      else
        '(res, domain_b) ← mdns_readname m bs pb (u16 (ob + 6));
        if res =? MDNS_READNAME_ERROR then Ok (ERR_VAL, 0)
        else
          _ ← mdns_domain_debug_print domain_a;
          _ ← mdns_domain_debug_print domain_b;
          or_else (names_differ (Z.to_nat (Z.min (dlength domain_a) (dlength domain_b))) (dname domain_a) (dname domain_b) 0)
          (or_else (Ok (differs (dlength domain_a) (dlength domain_b))) (Ok (ERR_OK, MDNS_LEXICOGRAPHICAL_EQUAL)))) =
  Ok (ERR_OK, verdict (lex (take 6 (drop (Z.to_nat oa) ca) ++ wire_name la) (take 6 (drop (Z.to_nat ob) cb) ++ wire_name lb))).
Proof.
  intros Ha Hb Hoa Hob Hea Heb Hra Hrb.
  rewrite lex_app by (rewrite !length_take, !length_drop; lia).
  rewrite (rdata_differs_ok m bs _ _ _ ca cb) by (done || lia). rewrite !Z.add_0_r. apply or_else_ok.
  destruct (service_names ca pa (oa + 6) la na Ha) as (ra & da & -> & Ea & Hda & Pa); [lia..|done|].
  destruct (service_names cb pb (ob + 6) lb nb Hb) as (rb & db & Eb' & Eb & Hdb & Pb); [lia..|done|].
  cbn [mbind outcome_bind]. rewrite Ea, Eb'. cbn [mbind outcome_bind]. rewrite Eb, Pa, Pb. cbn [mbind outcome_bind].
  destruct Hda as (resta & Ena & -> & Hla), Hdb as (restb & Enb & -> & Hlb).
  apply decide_data with (n := Z.to_nat (Z.min (zlen (wire_name la)) (zlen (wire_name lb)))); [done|].
  rewrite names_differ_ok by (rewrite ?Ena, ?Enb, ?length_app; lia). rewrite !drop_0, Ena, Enb, !take_app_le by lia. done.
Qed.

Lemma comparison_ok pkt_a pkt_b a b ca cb da db :
  packet_bytes m bs (pk_pbuf pkt_a) ca -> packet_bytes m bs (pk_pbuf pkt_b) cb -> says ca a da -> says cb b db ->
  mdns_lexicographical_comparison m bs pkt_a pkt_b a b =
    Ok (ERR_OK, verdict (lex (record_key a da) (record_key b db))).
Proof.
  intros Ha Hb Hda Hdb. unfold mdns_lexicographical_comparison, record_key. cbv zeta.
  rewrite (differs_ok (rr_klass _)), (differs_ok (rr_type _)). cbn [lex].
  destruct (rr_klass (a_info a) ?= rr_klass (a_info b)); [|by apply or_else_decided..]. rewrite or_else_equal.
  destruct (rr_type (a_info a) ?= rr_type (a_info b)) eqn:Et; [|by apply or_else_decided..]. rewrite or_else_equal.
  apply Z.compare_eq in Et.
  destruct Hda as [Ta A1 A2 A3|la na Ta A1 A2 A3], Hdb as [Tb B1 B2 B3|lb nb Tb B1 B2 B3]; try congruence.
  - destruct (Z.eqb_spec (rr_type (a_info a)) DNS_RRTYPE_SRV); [done|].
    destruct (Z.eqb_spec (rr_type (a_info b)) DNS_RRTYPE_SRV); [done|]. by apply plain_data.
  - rewrite Ta, Z.eqb_refl. cbn [negb andb]. by eapply service_data.
Qed.
End Comparison.

(** C9: When two hosts probe for one name at the same time, the records they
    would publish are compared in the lexicographic order of class, type and
    data, byte by byte and with the names of service records uncompressed,
    however the packets are cut and compressed; and the comparison done from
    the other side has the opposite result, so that not both hosts win. *)
Theorem mdns_tie_break_order m bs pkt_a pkt_b a b ca cb da db :
  packet_bytes m bs (pk_pbuf pkt_a) ca -> packet_bytes m bs (pk_pbuf pkt_b) cb -> says ca a da -> says cb b db ->
  let order := lex (record_key a da) (record_key b db) in
  mdns_lexicographical_comparison m bs pkt_a pkt_b a b = Ok (ERR_OK, verdict order) /\
  mdns_lexicographical_comparison m bs pkt_b pkt_a b a = Ok (ERR_OK, verdict (CompOpp order)).
Proof.
  intros Ha Hb Hda Hdb order. split; [by apply (comparison_ok m bs _ _ _ _ ca cb)|].
  unfold order. rewrite <- lex_antisym. by apply (comparison_ok m bs _ _ _ _ cb ca).
Qed.

(** Two service records for port 80 in one packet: of local, and of a.local
    through a jump to the first. *)
Definition tie_bytes : list Z :=
  replicate 12 0 ++ [0; 0; 0; 0; 0; 80; 5; 108; 111; 99; 97; 108; 0] ++ [0; 0; 0; 0; 0; 80; 1; 97; 192; 18].
Definition tie_chain : list (Z * pbuf) :=
  [(0x100, mk_pbuf 0x200 0x1000 35 33 0 0 1 0); (0x200, mk_pbuf 0 0x2000 2 2 0 0 1 0)].
Definition tie_pbufs : gmap Z pbuf := list_to_map tie_chain.
Definition tie_mem : gmap Z Z :=
  list_to_map (zip (seqZ 0x1000 33) (take 33 tie_bytes) ++ zip (seqZ 0x2000 2) (drop 33 tie_bytes)).
Definition service_at_offset (off len : Z) : mdns_answer := mk_answer (mk_rr_info zero_domain DNS_RRTYPE_SRV 1) 0 0 len off.
Definition tie_packet : mdns_packet :=
  match zero_packet with mk_packet a b c _ e f g h i j k l m n o q => mk_packet a b c 0x100 e f g h i j k l m n o q end.

Lemma tie_bytes_ok : packet_bytes tie_pbufs tie_mem 0x100 tie_bytes.
Proof.
  exists tie_chain. split_and!.
  - vm_compute. by split_and!.
  - unfold packet, wf_pbuf, is_u16, is_u8. simpl. lia.
  - exists (take 33 tie_bytes), (drop 33 tie_bytes). split_and!; [done|vm_compute; reflexivity|].
    exists (drop 33 tie_bytes), []. split_and!; [done|vm_compute; reflexivity|done].
  - repeat constructor; unfold is_u8; lia.
  - done.
  - vm_compute. congruence.
Qed.

Lemma mdns_tie_break_order_witness :
  exists r r', mdns_lexicographical_comparison tie_pbufs tie_mem tie_packet tie_packet (service_at_offset 12 13) (service_at_offset 25 10) = Ok (ERR_OK, r) /\
    mdns_lexicographical_comparison tie_pbufs tie_mem tie_packet tie_packet (service_at_offset 25 10) (service_at_offset 12 13) = Ok (ERR_OK, r') /\
    r = MDNS_LEXICOGRAPHICAL_LATER /\ r' = MDNS_LEXICOGRAPHICAL_EARLIER.
Proof.
  assert (Hl : name_at tie_bytes 0 18 [TOPDOMAIN_LOCAL] 7).
  { change 7 with (1 + zlen TOPDOMAIN_LOCAL + 1). apply na_label; try reflexivity; [|vm_compute; congruence|by constructor].
    split; [vm_compute; split; congruence|]. repeat constructor; unfold is_u8; lia. }
  assert (Ha : name_at tie_bytes 1 31 [[97]; TOPDOMAIN_LOCAL] 4).
  { change 4 with (1 + zlen [97] + 2). apply na_label; try reflexivity; [|vm_compute; congruence|].
    - split; [vm_compute; split; congruence|]. repeat constructor; unfold is_u8; lia.
    - change (31 + 1 + zlen [97]) with 33. apply (na_jump _ _ _ 18 _ 7); try reflexivity; try (vm_compute; split; congruence); done. }
  assert (Sl : says tie_bytes (service_at_offset 12 13) (take 6 (drop (Z.to_nat 12) tie_bytes) ++ wire_name [TOPDOMAIN_LOCAL])).
  { apply (says_service tie_bytes (service_at_offset 12 13) _ 7); [reflexivity|vm_compute; congruence..|].
    exists 0%nat. split; [lia|]. split; [exact Hl|vm_compute; congruence]. }
  assert (Sa : says tie_bytes (service_at_offset 25 10) (take 6 (drop (Z.to_nat 25) tie_bytes) ++ wire_name [[97]; TOPDOMAIN_LOCAL])).
  { apply (says_service tie_bytes (service_at_offset 25 10) _ 4); [reflexivity|vm_compute; congruence..|].
    exists 1%nat. split; [lia|]. split; [exact Ha|vm_compute; congruence]. }
  destruct (mdns_tie_break_order tie_pbufs tie_mem tie_packet tie_packet _ _ _ _ _ _ tie_bytes_ok tie_bytes_ok Sl Sa) as (E1 & E2).
  eexists _, _. split; [exact E1|]. split; [exact E2|]. split; reflexivity.
Defined.
