(* ===== verification/MdnsRecords.v ===== *)
(** Whole records: what [mdns_add_answer] of MdnsOut writes, the
    [mdns_read_answer] of MdnsIn reads back. *)

From Stdlib Require Import ZArith Lia.
From stdpp Require Import base list numbers gmap.
From S2P Require Import Prelude Mmio Mem Memp Pbuf PbufChain Ip6Addr Chksum Netif Stack MdnsDomain MdnsNames MdnsCompress MdnsOut MdnsIn MdnsOrder.

Open Scope Z_scope.

(* ------------------------------------------------------------------ *)
(** * Fields *)

Lemma field16_ok v : is_u16 v -> Forall is_u8 (field16 v) /\ field_value (field16 v) = v.
Proof.
  intros Hv. unfold field16. rewrite u16_small by done. split; [repeat constructor; ulia|].
  unfold field_value. cbn [foldl]. ulia.
Qed.
Lemma field32_ok v : is_u32 v -> Forall is_u8 (field32 v) /\ field_value (field32 v) = v.
Proof.
  intros Hv. unfold field32. rewrite u32_small by done. split; [by apply word_bytes_u8|].
  unfold field_value, word_bytes. cbn [foldl]. ulia.
Qed.

(** [n] bytes of the packet from the offset on. *)
Lemma take_field_ok m bs pkt c n : packet_bytes m bs (pk_pbuf pkt) c -> 0 < n < 65536 -> 0 <= parse_offset pkt ->
  parse_offset pkt + n <= zlen c ->
  take_field m bs pkt n =
    Ok (Some (take (Z.to_nat n) (drop (Z.to_nat (parse_offset pkt)) c)), set_parse_offset (parse_offset pkt + n) pkt).
Proof.
  intros (l & Hch & Hp & Hc & _ & Hne & Hs) Hn Ho He. unfold take_field.
  rewrite (copy_partial_ok m bs _ l c) by (done || (unfold is_u16; lia) || (rewrite length_replicate; lia)).
  rewrite (Z.max_r 0), Z.min_l by lia. cbn [mbind outcome_bind]. rewrite Z.eqb_refl. cbn [negb].
  rewrite drop_replicate, Nat.sub_diag. cbn [replicate]. by rewrite app_nil_r.
Qed.
(** A field that stands at the offset. *)
Lemma take_field_at m bs pkt pre f post n : packet_bytes m bs (pk_pbuf pkt) (pre ++ f ++ post) -> parse_offset pkt = zlen pre ->
  n = zlen f -> 0 < n -> take_field m bs pkt n = Ok (Some f, set_parse_offset (zlen (pre ++ f)) pkt).
Proof.
  intros Hp Ho -> Hn. pose proof Hp as (_ & _ & _ & _ & _ & _ & Hs). rewrite !length_app in Hs.
  rewrite (take_field_ok m bs pkt _ _ Hp) by (rewrite ?length_app; lia).
  rewrite Ho, !Nat2Z.id, drop_app_length, take_app_length. do 4 f_equal. rewrite length_app. lia.
Qed.

Lemma stored_longer mx K w v off : stored mx K w off -> stored mx K (w ++ v) off.
Proof.
  intros (k & lt & n & Ho & Hk & Hf & Hc). exists k, lt, n. split_and!; try done. eapply fixed_mono; [|done]. by eexists.
Qed.

Lemma one_pbuf_bytes m bs p b w rest : one_pbuf m bs p b w rest -> packet_bytes m bs p (w ++ rest).
Proof. intros [Hch Hp Hc Hu Hs]. exists [(p, b)]. split_and!; try done. lia. Qed.

Section Writing.
Context {PP RP HP : Type} `{PoolOps PP} `{PoolOps RP} `{HeapOps HP}.
Abbreviation heap := (pheap PP RP HP).
Implicit Types (s : heap).

(** The outpacket in the state: its first bytes are [w]. *)
Definition out_at (mx : Z) (K : nat) (s : heap) (b : pbuf) (w rest : list Z) (o : mdns_outpacket) : Prop :=
  outpkt_ok mx K (pbufs s) (bytes s) b w rest o.

Lemma out_grow mx K s s' b w v rest rest' o :
  out_at mx K s b w rest o -> one_pbuf (pbufs s') (bytes s') (op_pbuf o) b (w ++ v) rest' ->
  out_at mx K s' b (w ++ v) rest' (set_write_offset (zlen (w ++ v)) o).
Proof using Type.
  intros [Hop Ho Hh Hn] Hop'. split; cbn [op_pbuf write_offset domain_offsets set_write_offset]; try done.
  - rewrite length_app. lia.
  - eapply Forall_impl; [exact Hn|]. intros off [->|[Hs Hlt]]; [by left|right]. split; [by apply stored_longer|rewrite length_app; lia].
Qed.

(** Bytes written over the next ones. *)
Lemma take_at_ok s p b w rest data :
  one_pbuf (pbufs s) (bytes s) p b w rest -> 0 < zlen data <= zlen rest -> Forall is_u8 data ->
  exists s', pb_take_at p data (zlen data) (zlen w) s = Ok (ERR_OK, s') /\ pbufs s' = pbufs s /\
    one_pbuf (pbufs s') (bytes s') p b (w ++ data) (drop (length data) rest).
Proof using Type.
  intros Hop Hn Hu.
  destruct (write_ok _ _ _ _ _ _ data (zlen data) Hop Hn ltac:(lia)) as (bs' & E & Hop' & _).
  { rewrite Nat2Z.id. by rewrite take_ge by lia. }
  unfold pb_take_at. rewrite E. cbn [mbind outcome_bind]. eexists. split; [reflexivity|]. split; [done|].
  rewrite Nat2Z.id, take_ge in Hop' by lia. exact Hop'.
Qed.

Lemma put_field_ok mx K s b w rest o data :
  out_at mx K s b w rest o -> 0 < zlen data <= zlen rest -> Forall is_u8 data ->
  exists s', put_field data o s = Ok (ERR_OK, set_write_offset (zlen (w ++ data)) o, s') /\ pbufs s' = pbufs s /\
    out_at mx K s' b (w ++ data) (drop (length data) rest) (set_write_offset (zlen (w ++ data)) o).
Proof using Type.
  intros Hok Hn Hu. pose proof Hok as [Hop Ho _ _]. pose proof (op_short _ _ _ _ _ _ Hop) as Hs. rewrite length_app in Hs.
  destruct (take_at_ok s _ b w rest data Hop Hn Hu) as (s' & E & Hpb & Hop').
  exists s'. split; [|split; [done|by eapply out_grow]].
  unfold put_field, mbind, io_bind. rewrite Ho, E. cbn [mbind outcome_bind]. rewrite Z.eqb_refl. cbn [negb].
  rewrite u16_small by (unfold is_u16; lia). by replace (zlen w + zlen data) with (zlen (w ++ data)) by (rewrite length_app; lia).
Qed.

(** A name, whole or compressed. *)
Lemma put_name_ok mx K s b w rest o d ls :
  out_at mx K s b w rest o -> holds d (wire_name ls) -> Forall wf_label ls -> clear mx ls ->
  zlen (wire_name ls) <= 255 -> zlen (wire_name ls) <= zlen rest ->
  exists s' o' v k, pb_write_domain o d s = Ok (ERR_OK, o', s') /\ pbufs s' = pbufs s /\ op_pbuf o' = op_pbuf o /\
    out_at mx (S K) s' b (w ++ v) (drop (length v) rest) o' /\ zlen v <= zlen (wire_name ls) /\ (k <= S K)%nat /\
    fixed (w ++ v) k (zlen w) ls (zlen v).
Proof using Type.
  intros Hok Hd Hf Hc Hle Hroom.
  destruct (write_domain_ok mx K _ _ b w rest o d ls Hok Hd Hf Hc Hle Hroom) as (bs' & o' & v & k & E & Hok' & (Ep & _) & Hv & Hk & Hw & _).
  destruct (Hw w ltac:(done) ltac:(done)) as [Hfix _]. eexists _, o', v, k. split; [unfold pb_write_domain; rewrite E; reflexivity|]. done.
Qed.

Lemma and_then_ok {A} (r : io heap (Z * A)) k s x s' : r s = Ok (ERR_OK, x, s') -> and_then r k s = k x s'.
Proof using Type. intros E. unfold and_then, mbind, io_bind. rewrite E. reflexivity. Qed.

(** There is a pbuf, and room in it. *)
Lemma room_ok mx K s b w rest o n : out_at mx K s b w rest o -> n <= zlen rest ->
  outpacket_pbuf o s = Ok (ERR_OK, o, s) /\ outpacket_room n o s = Ok (ERR_OK, o, s).
Proof using Type.
  intros [Hop Ho _ _] Hn. pose proof Hop as [(_ & Hp0 & Hb & _) (Et & _) Hc _ _].
  pose proof (content_length _ _ _ Hc (op_packet _ _ _ _ _ _ Hop)) as Hl. cbn [lens foldr snd] in Hl, Et. rewrite length_app in Hl.
  unfold outpacket_pbuf. rewrite (proj2 (Z.eqb_neq _ 0)) by done. split; [done|].
  unfold outpacket_room, pb_read, mbind, io_bind, deref. rewrite Hb. cbn [mbind outcome_bind].
  rewrite (proj2 (Z.ltb_ge _ _)) by lia. done.
Qed.

Lemma set_offset_twice x y o : set_write_offset x (set_write_offset y o) = set_write_offset x o.
Proof using Type. by destruct o. Qed.

(** A number written over the hole that was left for it. *)
Lemma fill_hole_ok mx K s o b w hole tail rest x :
  one_pbuf (pbufs s) (bytes s) (op_pbuf o) b (w ++ hole ++ tail) rest -> zlen hole = 2 -> is_u16 x ->
  SIZEOF_DNS_HDR <= zlen w -> write_offset o = zlen (w ++ hole ++ tail) ->
  names_in mx K (w ++ field16 x ++ tail) (domain_offsets o) ->
  exists s', pb_take_at (op_pbuf o) (field16 x) 2 (zlen w) s = Ok (ERR_OK, s') /\ pbufs s' = pbufs s /\
    out_at mx K s' b (w ++ field16 x ++ tail) rest o.
Proof using Type.
  intros Hop Hl Hx Hh Ho Hn. apply one_pbuf_split in Hop. rewrite <- app_assoc in Hop.
  destruct (take_at_ok s _ b _ _ (field16 x) Hop) as (s' & E & P & Hop'); [rewrite !length_app; cbn [length field16]; lia|by apply field16_ok|].
  assert (Hd : drop (length (field16 x)) (hole ++ tail ++ rest) = tail ++ rest).
  { apply drop_app_length'. change (2%nat = length hole). clear - Hl. lia. }
  rewrite Hd in Hop'. apply one_pbuf_join in Hop'. rewrite <- app_assoc in Hop'.
  exists s'. split; [exact E|]. split; [exact P|]. split; [exact Hop'| | |exact Hn].
  - rewrite Ho, !length_app. cbn [length field16]. lia.
  - rewrite length_app. lia.
Qed.

(** The data of a record: bytes, and behind them a name that may be
    compressed. *)
Definition raw (buf : option (list Z)) : list Z := default [] buf.
Definition target_ok (mx : Z) (target : option (mdns_domain * list (list Z))) : Prop :=
  match target with
  | Some (t, lt) => holds t (wire_name lt) /\ Forall wf_label lt /\ clear mx lt /\ dlength t <= 255
  | None => True
  end.
Definition target_len (target : option (mdns_domain * list (list Z))) : Z := from_option (fun x => dlength (fst x)) 0 target.
Definition target_names (target : option (mdns_domain * list (list Z))) : nat := if target then 1 else 0.

(** What stands behind [w] for the name. *)
Definition target_at (K : nat) (w v : list Z) (target : option (mdns_domain * list (list Z))) : Prop :=
  match target with
  | Some (_, lt) => exists k, (k <= S K)%nat /\ fixed (w ++ v) k (zlen w) lt (zlen v)
  | None => v = []
  end.

Lemma put_buf_ok mx K s b w rest o (buf : option (list Z)) :
  out_at mx K s b w rest o -> Forall is_u8 (raw buf) -> buf <> Some [] -> zlen (raw buf) <= zlen rest ->
  exists s', (match buf with
     | Some buf =>
         res ← pb_take_at (op_pbuf o) buf (u16 (zlen buf)) (write_offset o);
         if negb (res =? ERR_OK) then mret (res, o)
         else mret (ERR_OK, set_write_offset (u16 (write_offset o + u16 (zlen buf))) o)
     | None => mret (ERR_OK, o)
     end) s = Ok (ERR_OK, set_write_offset (zlen (w ++ raw buf)) o, s') /\ pbufs s' = pbufs s /\
    out_at mx K s' b (w ++ raw buf) (drop (length (raw buf)) rest) (set_write_offset (zlen (w ++ raw buf)) o).
Proof using Type.
  intros Hok Hu Hne Hroom. pose proof Hok as [Hop Ho _ _]. pose proof (op_short _ _ _ _ _ _ Hop) as Hs. rewrite length_app in Hs.
  destruct buf as [data|]; cbn [raw from_option id] in *.
  - assert (0 < zlen data) by (destruct data; [done|cbn; lia]). rewrite (u16_small (zlen data)) by (unfold is_u16; lia).
    exact (put_field_ok mx K s b w rest o data Hok ltac:(lia) Hu).
  - exists s. rewrite app_nil_r, <- Ho. assert (E : set_write_offset (write_offset o) o = o) by (by destruct o). rewrite E.
    split_and!; [done|done|exact Hok].
Qed.

Lemma put_target_ok mx K s b u w rest o target :
  out_at mx K s b w rest o -> u `prefix_of` w -> names_in mx K u (domain_offsets o) -> target_ok mx target ->
  target_len target <= zlen rest ->
  exists s' o' v, (match fst <$> target with Some d => pb_write_domain o d | None => mret (ERR_OK, o) end) s = Ok (ERR_OK, o', s') /\
    pbufs s' = pbufs s /\ op_pbuf o' = op_pbuf o /\ one_pbuf (pbufs s') (bytes s') (op_pbuf o) b (w ++ v) (drop (length v) rest) /\
    write_offset o' = zlen (w ++ v) /\ zlen v <= target_len target /\
    forall w', u `prefix_of` w' -> length w' = length w ->
      names_in mx (target_names target + K) (w' ++ v) (domain_offsets o') /\ target_at K w' v target.
Proof using Type.
  intros Hok Hu Hn Ht Hroom. destruct target as [[t lt]|]; cbn [target_ok target_len from_option fst target_names target_at fmap option_fmap option_map] in *.
  - destruct Ht as (Hd & Hf & Hc & Hle). destruct (holds_length _ _ Hd) as [Ed _].
    destruct (write_domain_hole mx K _ _ b u w rest o Hu Hn t lt Hok Hd Hf Hc ltac:(lia) ltac:(lia))
      as (bs' & o' & v & k & E & Hok' & (Ep & _) & Hv & Hk & Hw & _).
    eexists _, o', v. split; [unfold pb_write_domain; rewrite E; reflexivity|]. cbn [pbufs bytes].
    pose proof Hok' as [Hop' Ho' _ _]. rewrite Ep in Hop'. split_and!; try done; [lia|].
    intros w' Hw' Hl. destruct (Hw w' Hw' Hl) as [Hfix Hnn]. split; [exact Hnn|]. exists k. split; [done|]. by rewrite Hl.
  - exists s, o, []. rewrite !app_nil_r. pose proof Hok as [Hop Ho _ _]. split_and!; try done.
    intros w' [x ->] _. rewrite app_nil_r. split; [|done]. eapply Forall_impl; [exact Hn|].
    intros off [->|[Hs Hlt]]; [by left|right]. split; [by apply stored_longer|rewrite length_app; clear - Hlt; lia].
Qed.

(** The fields behind the question part. *)
Lemma answer_data_ok mx K s b w rest o ttl buf target :
  out_at mx K s b w rest o -> is_u32 ttl -> Forall is_u8 (raw buf) -> buf <> Some [] -> target_ok mx target ->
  6 + zlen (raw buf) + target_len target <= zlen rest ->
  exists s' o' v rest', let data := raw buf ++ v in
    answer_data ttl buf (zlen (raw buf)) (fst <$> target) o s = Ok (ERR_OK, o', s') /\ op_pbuf o' = op_pbuf o /\
    out_at mx (target_names target + K) s' b (w ++ field32 ttl ++ field16 (zlen data) ++ data) rest' o' /\
    target_at K (w ++ field32 ttl ++ field16 (zlen data) ++ raw buf) v target.
Proof using Type.
  intros Hok Ht Hu Hne Htg Hroom. pose proof Hok as [Hop Ho Hh Hn]. pose proof (op_short _ _ _ _ _ _ Hop) as Hs. rewrite length_app in Hs.
  assert (Hl4 : zlen (field32 ttl) = 4) by done.
  assert (Htl : 0 <= target_len target). { destruct target as [[t lt]|]; cbn in *; [|done]. destruct Htg as (Hd & _). destruct (holds_length _ _ Hd). lia. }
  destruct (put_field_ok mx K s b w rest o (field32 ttl) Hok ltac:(lia) (proj1 (field32_ok ttl Ht))) as (s1 & E1 & P1 & Hok1).
  set (w1 := w ++ field32 ttl) in *. set (r1 := drop (length (field32 ttl)) rest) in *.
  assert (Hw1 : zlen w1 = zlen w + 4) by (unfold w1; rewrite length_app; lia).
  assert (Hr1 : zlen r1 = zlen rest - 4) by (unfold r1; rewrite length_drop; lia).
  pose proof Hok1 as [Hop1 _ Hh1 Hn1]. cbn [op_pbuf set_write_offset domain_offsets] in Hop1, Hn1.
  set (hole := take 2 r1). assert (Hhl : zlen hole = 2) by (unfold hole; rewrite length_take; lia).
  assert (Hwh : zlen (w1 ++ hole) = zlen w1 + 2) by (rewrite length_app; lia).
  assert (Hok2 : out_at mx K s1 b (w1 ++ hole) (drop 2 r1) (set_write_offset (zlen w1 + 2) o)).
  { rewrite <- Hwh. rewrite <- (set_offset_twice _ (zlen w1)). apply (out_grow mx K s1 s1 b w1 hole r1); [exact Hok1|].
    apply one_pbuf_join. unfold hole. by rewrite take_drop. }
  destruct (put_buf_ok mx K s1 b _ _ _ buf Hok2 Hu Hne) as (s2 & E2 & P2 & Hok3); [rewrite length_drop; lia|].
  rewrite set_offset_twice in E2, Hok3.
  destruct (put_target_ok mx K s2 b w1 _ _ _ target Hok3) as (s3 & o3 & v & E3 & P3 & Q3 & Hop3 & Ho3 & Hv & Hw'); 
    [rewrite <- app_assoc; by eexists|exact Hn1|exact Htg|rewrite !length_drop; lia|].
  set (data := raw buf ++ v). assert (Hdl : zlen data = zlen (raw buf) + zlen v) by (unfold data; rewrite length_app; lia).
  cbn [op_pbuf set_write_offset] in Hop3, Q3. rewrite <- !app_assoc in Hop3, Ho3.
  destruct (Hw' (w1 ++ field16 (zlen data) ++ raw buf)) as [Hnn Htat]; [by eexists|rewrite !length_app; cbn [length field16]; lia|].
  rewrite <- !app_assoc in Hnn. rewrite <- Q3 in Hop3.
  destruct (fill_hole_ok mx (target_names target + K) s3 o3 b w1 hole data _ (zlen data) Hop3 Hhl) as (s4 & E4 & P4 & Hok4); try done; [unfold is_u16; lia|].
  exists s4, o3, v, (drop (length v) (drop (length (raw buf)) (drop 2 r1))). cbv zeta. fold data.
  split; [|split; [done|split]].
  - unfold answer_data. rewrite (and_then_ok _ _ _ _ _ E1).
    cbn [write_offset set_write_offset op_pbuf]. rewrite !(u16_small (zlen w1 + 2)) by (unfold is_u16; lia).
    rewrite set_offset_twice. cbn [write_offset set_write_offset op_pbuf] in E2.
    assert (Er : (match buf with
      | Some buf0 => res ← pb_take_at (op_pbuf o) buf0 (u16 (zlen (raw buf))) (zlen w1 + 2);
         if negb (res =? ERR_OK) then mret (res, set_write_offset (zlen w1 + 2) o)
         else mret (ERR_OK, set_write_offset (u16 (zlen w1 + 2 + u16 (zlen (raw buf)))) (set_write_offset (zlen w1 + 2) o))
      | None => mret (ERR_OK, set_write_offset (zlen w1 + 2) o) end) s1 =
      Ok (ERR_OK, set_write_offset (zlen ((w1 ++ hole) ++ raw buf)) o, s2)) by (destruct buf; exact E2).
    rewrite (and_then_ok _ _ _ _ _ Er), (and_then_ok _ _ _ _ _ E3). cbn [op_pbuf].
    unfold mbind, io_bind. rewrite Ho3. replace (zlen (w1 ++ hole ++ raw buf ++ v) - (zlen w1 + 2)) with (zlen data)
      by (rewrite app_assoc, length_app; fold data; lia).
    rewrite E4. reflexivity.
  - unfold w1 in Hok4. rewrite <- !app_assoc in Hok4. exact Hok4.
  - unfold w1 in Htat. rewrite <- !app_assoc in Htat. exact Htat.
Qed.

(** The question part of a record: name, type and class, the bit for flushing
    caches among it. *)
Definition class_field (klass flush : Z) : Z := if negb (flush =? 0) then Z.lor klass 0x8000 else klass.

Lemma add_question_ok mx K s b w rest o d ls type klass flush :
  out_at mx K s b w rest o -> holds d (wire_name ls) -> Forall wf_label ls -> clear mx ls ->
  zlen (wire_name ls) <= 255 -> zlen (wire_name ls) + 4 <= zlen rest -> is_u16 type -> is_u16 (class_field klass flush) ->
  exists s' o' v k rest', mdns_add_question o d type klass flush s = Ok (ERR_OK, o', s') /\ pbufs s' = pbufs s /\ op_pbuf o' = op_pbuf o /\
    out_at mx (S K) s' b (w ++ v ++ field16 type ++ field16 (class_field klass flush)) rest' o' /\
    zlen v <= zlen (wire_name ls) /\ zlen rest' = zlen rest - zlen v - 4 /\ (k <= S K)%nat /\ fixed (w ++ v) k (zlen w) ls (zlen v).
Proof using Type.
  intros Hok Hd Hf Hc Hle Hroom Ht Hk. destruct (holds_length _ _ Hd) as [Ed _].
  destruct (room_ok mx K s b w rest o (u16 (dlength d + 4)) Hok) as (R1 & R2); [rewrite u16_small by (unfold is_u16; lia); lia|].
  destruct (put_name_ok mx K s b w rest o d ls Hok Hd Hf Hc Hle ltac:(lia)) as (s1 & o1 & v & k & E1 & P1 & Q1 & Hok1 & Hv & Hkk & Hfix).
  destruct (put_field_ok _ _ s1 b _ _ o1 (field16 type) Hok1) as (s2 & E2 & P2 & Hok2); [rewrite length_drop; cbn [length field16]; lia|by apply field16_ok|].
  destruct (put_field_ok _ _ s2 b _ _ _ (field16 (class_field klass flush)) Hok2) as (s3 & E3 & P3 & Hok3);
    [rewrite !length_drop; cbn [length field16]; lia|by apply field16_ok|].
  rewrite <- !app_assoc in E3, Hok3.
  eexists s3, _, v, k, _. split; [|split; [congruence|split; [|split; [exact Hok3|]]]]; try done.
  - unfold mdns_add_question. rewrite (and_then_ok _ _ _ _ _ R1), (and_then_ok _ _ _ _ _ R2), (and_then_ok _ _ _ _ _ E1),
      (and_then_ok _ _ _ _ _ E2).
    rewrite <- app_assoc. exact E3.
  - split; [done|]. split; [rewrite !length_drop; cbn [length field16]; lia|done].
Qed.

Lemma answer_len_ok mx d ls (buf : option (list Z)) target : dlength d = zlen (wire_name ls) -> zlen (wire_name ls) <= 255 -> target_ok mx target ->
  zlen (raw buf) < 16384 ->
  answer_len d buf (zlen (raw buf)) (fst <$> target) = zlen (wire_name ls) + 10 + zlen (raw buf) + target_len target.
Proof using Type.
  intros Ed Hle Ht Hb. unfold answer_len. rewrite Ed, (u16_small (_ + 10)) by (unfold is_u16; lia).
  assert (E : match buf with Some _ => u16 (zlen (wire_name ls) + 10 + u16 (zlen (raw buf))) | None => zlen (wire_name ls) + 10 end =
    zlen (wire_name ls) + 10 + zlen (raw buf)).
  { destruct buf; cbn [raw from_option id length] in *; [|lia]. by rewrite (u16_small (zlen _)), u16_small by (unfold is_u16; lia). }
  rewrite E. destruct target as [[t lt]|]; cbn [fmap option_fmap option_map fst target_len from_option] in *; [|lia].
  destruct Ht as (Hd & _ & _ & Ht). destruct (holds_length _ _ Hd). apply u16_small. unfold is_u16. lia.
Qed.

Lemma add_answer_ok mx K s b w rest o d ls type klass flush ttl buf target :
  out_at mx K s b w rest o -> holds d (wire_name ls) -> Forall wf_label ls -> clear mx ls -> zlen (wire_name ls) <= 255 ->
  is_u16 type -> is_u16 (class_field klass flush) -> is_u32 ttl -> Forall is_u8 (raw buf) -> buf <> Some [] -> target_ok mx target ->
  zlen (wire_name ls) + 10 + zlen (raw buf) + target_len target <= zlen rest ->
  exists s' o' v k tv rest', let data := raw buf ++ tv in
    let fields := v ++ field16 type ++ field16 (class_field klass flush) ++ field32 ttl ++ field16 (zlen data) in
    mdns_add_answer o d type klass flush ttl buf (zlen (raw buf)) (fst <$> target) s = Ok (ERR_OK, o', s') /\ op_pbuf o' = op_pbuf o /\
    out_at mx (target_names target + S K) s' b (w ++ fields ++ data) rest' o' /\ (k <= S K)%nat /\ fixed (w ++ v) k (zlen w) ls (zlen v) /\
    target_at (S K) (w ++ fields ++ raw buf) tv target.
Proof using Type.
  intros Hok Hd Hf Hc Hle Ht Hk Htt Hu Hne Htg Hroom. destruct (holds_length _ _ Hd) as [Ed _].
  pose proof (op_short _ _ _ _ _ _ (oo_pbuf _ _ _ _ _ _ _ _ Hok)) as Hs. rewrite length_app in Hs.
  assert (Htl : 0 <= target_len target) by (destruct target as [[t lt]|]; cbn in *; [destruct Htg as (Hd' & _); destruct (holds_length _ _ Hd'); lia|done]).
  destruct (room_ok mx K s b w rest o (answer_len d buf (zlen (raw buf)) (fst <$> target)) Hok) as (R1 & R2).
  { rewrite (answer_len_ok mx d ls) by (done || lia). lia. }
  destruct (add_question_ok mx K s b w rest o d ls type klass flush Hok Hd Hf Hc Hle ltac:(lia) Ht Hk)
    as (s1 & o1 & v & k & rest1 & E1 & P1 & Q1 & Hok1 & Hv & Hr1 & Hkk & Hfix).
  destruct (answer_data_ok _ _ s1 b _ rest1 o1 ttl buf target Hok1 Htt Hu Hne Htg ltac:(lia)) as (s2 & o2 & tv & rest2 & E2 & Q2 & Hok2 & Htat).
  rewrite <- !app_assoc in Hok2, Htat. exists s2, o2, v, k, tv, rest2. cbv zeta.
  split; [|split; [congruence|split; [|split; [done|split; [done|]]]]].
  - unfold mdns_add_answer. rewrite (and_then_ok _ _ _ _ _ R1), (and_then_ok _ _ _ _ _ R2), (io_bind_ok _ _ _ _ _ E1), E2. done.
  - rewrite <- !app_assoc. exact Hok2.
  - rewrite <- !app_assoc. exact Htat.
Qed.
End Writing.

(* ------------------------------------------------------------------ *)
(** * Reading a record back *)

Lemma set_parse_twice x y p : set_parse_offset x (set_parse_offset y p) = set_parse_offset x p.
Proof. by destruct p. Qed.
Lemma parse_offset_set x p : is_u16 x -> parse_offset (set_parse_offset x p) = x.
Proof. intros. destruct p. by apply u16_small. Qed.
Lemma pk_pbuf_set x p : pk_pbuf (set_parse_offset x p) = pk_pbuf p.
Proof. by destruct p. Qed.

(** The bit that flushes caches, and the class. *)
Lemma class_field_ok klass flush : 0 <= klass < 0x8000 ->
  is_u16 (class_field klass flush) /\ Z.land (class_field klass flush) 0x7FFF = klass /\
  Z.land (class_field klass flush) 0x8000 = if flush =? 0 then 0 else 0x8000.
Proof.
  intros Hk. unfold class_field.
  assert (E : Z.lor klass 0x8000 = 0x8000 + klass).
  { rewrite Z.lor_comm. apply (lor_low _ klass 15); [lia|done|change (2 ^ 15) with 0x8000; lia]. }
  assert (L : Z.land klass 0x7FFF = klass) by (rewrite (land_ones_mod _ 15 0x7FFF) by done; change (2 ^ 15) with 0x8000; apply Z.mod_small; lia).
  assert (H : Z.land klass 0x8000 = 0) by (rewrite <- L, <- Z.land_assoc; apply Z.land_0_r).
  destruct (flush =? 0); cbn [negb]; split_and!; try done; try (unfold is_u16; lia).
  - rewrite Z.land_lor_distr_l, L. apply Z.lor_0_r.
  - by rewrite Z.land_lor_distr_l, H.
Qed.

(** A name that stands in the packet. *)
Lemma read_name_at m bs p w v rest k ls : packet_bytes m bs p (w ++ v ++ rest) -> (k <= 5)%nat ->
  name_at (w ++ v ++ rest) k (zlen w) ls (zlen v) -> zlen (wire_name ls) <= 255 ->
  exists d, holds d (wire_name ls) /\ mdns_readname m bs p (zlen w) = Ok (zlen (w ++ v), d).
Proof.
  intros (l & Hch & Hpk & Hc & Hu & Hne & Hs) Hk Hat Hle. assert (Hs2 := Hs). rewrite !length_app in Hs2.
  destruct (readname_ok m bs _ l _ (zlen w) Hch Hpk Hc Hu Hne Hs) as (r & d & E & _ & [[_ Hno]|(ls' & n & (k' & _ & Hat' & _) & -> & Hd)]); [lia| |].
  { destruct (Hno ls (zlen v)). exists k. split; [done|]. split; [exact Hat|lia]. }
  destruct (name_at_fun _ _ _ _ _ _ _ _ Hat Hat') as (<- & <- & <-). exists d. split; [done|].
  by rewrite E, length_app, Nat2Z.inj_add.
Qed.

Section ReadBack.
Context (m : gmap Z pbuf) (bs : gmap Z Z) (pkt : mdns_packet) (w v rest : list Z) (k : nat) (ls : list (list Z)) (type klass : Z).
Context (post : list Z).
Abbreviation c := (w ++ v ++ field16 type ++ field16 klass ++ post).
Context (Hp : packet_bytes m bs (pk_pbuf pkt) c) (Ho : parse_offset pkt = zlen w).
Context (Hk : (k <= 5)%nat) (Hat : name_at c k (zlen w) ls (zlen v)) (Hle : zlen (wire_name ls) <= 255).
Context (Ht : is_u16 type) (Hkl : is_u16 klass).

Lemma read_rr_info_ok : exists d, holds d (wire_name ls) /\
  mdns_read_rr_info m bs pkt = Ok (ERR_OK, set_parse_offset (zlen (w ++ v ++ field16 type ++ field16 klass)) pkt, mk_rr_info d type klass).
Proof using Type*.
  pose proof Hp as (_ & _ & _ & _ & _ & _ & Hs2). rewrite !length_app in Hs2.
  destruct (read_name_at m bs _ w v _ k ls Hp Hk Hat Hle) as (d & Hd & E). rewrite length_app, Nat2Z.inj_add in E. exists d. split; [done|].
  unfold mdns_read_rr_info. rewrite Ho, E. cbn [mbind outcome_bind].
  assert (Hu16 : is_u16 (zlen w + zlen v)) by (unfold is_u16; lia). rewrite parse_offset_set by done.
  rewrite (proj2 (Z.eqb_neq _ _)) by (unfold MDNS_READNAME_ERROR; lia).
  rewrite (take_field_at m bs _ (w ++ v) (field16 type) (field16 klass ++ post)) by
    (rewrite ?pk_pbuf_set, <- ?app_assoc, ?parse_offset_set, ?length_app by done; done || lia).
  cbn [mbind outcome_bind]. rewrite set_parse_twice.
  assert (Hu2 : is_u16 (zlen ((w ++ v) ++ field16 type))) by (unfold is_u16; rewrite !length_app; cbn [length field16] in *; lia).
  rewrite (take_field_at m bs _ ((w ++ v) ++ field16 type) (field16 klass) post) by
    (rewrite ?pk_pbuf_set, <- ?app_assoc, ?parse_offset_set by (done || by rewrite <- ?app_assoc in Hu2); done || lia).
  cbn [mbind outcome_bind rr_type]. rewrite set_parse_twice, <- !app_assoc.
  by rewrite (proj2 (field16_ok type Ht)), (proj2 (field16_ok klass Hkl)).
Qed.
End ReadBack.

Lemma read_answer_ok m bs pkt w v data rest k ls type klass flush ttl left :
  let fields := v ++ field16 type ++ field16 (class_field klass flush) ++ field32 ttl ++ field16 (zlen data) in
  packet_bytes m bs (pk_pbuf pkt) (w ++ fields ++ data ++ rest) -> parse_offset pkt = zlen w -> questions_left pkt = 0 ->
  0 < left < 65536 -> (k <= 5)%nat -> name_at (w ++ fields ++ data ++ rest) k (zlen w) ls (zlen v) -> zlen (wire_name ls) <= 255 ->
  is_u16 type -> 0 <= klass < 0x8000 -> is_u32 ttl ->
  exists d, holds d (wire_name ls) /\ mdns_read_answer m bs pkt left =
    Ok (ERR_OK, set_parse_offset (zlen (w ++ fields ++ data)) pkt,
        mk_answer (mk_rr_info d type klass) (if flush =? 0 then 0 else 0x8000) ttl (zlen data) (zlen (w ++ fields)), left - 1).
Proof.
  intros fields Hp Ho Hq Hl Hk Hat Hle Ht Hkl Htt. destruct (class_field_ok klass flush Hkl) as (Hc & Hland & Hbit).
  set (head := w ++ v ++ field16 type ++ field16 (class_field klass flush)).
  assert (Ec : forall x, w ++ fields ++ x = w ++ v ++ field16 type ++ field16 (class_field klass flush) ++ field32 ttl ++ field16 (zlen data) ++ x)
    by (intros; unfold fields; by rewrite <- !app_assoc).
  assert (Eh : forall x, w ++ fields ++ x = head ++ field32 ttl ++ field16 (zlen data) ++ x) by (intros; unfold head, fields; by rewrite <- !app_assoc).
  pose proof Hp as (l & Hch & Hpk & Hcont & _ & Hne & Hs). destruct (head_ok m bs _ l _ Hch Hpk Hcont Hne) as (b & Eb & Htot).
  rewrite Ec in Hat. pose proof Hp as Hp1. rewrite Ec in Hp1.
  destruct (read_rr_info_ok m bs pkt w v k ls type (class_field klass flush) _ Hp1 Ho Hk Hat Hle Ht Hc) as (d & Hd & E).
  fold head in E. rewrite Eh in Hp, Hs, Htot. clear Hp1 Hat Hcont. rewrite !length_app in Hs. cbn [length field16 field32 word_bytes] in Hs.
  assert (L4 : zlen (field32 ttl) = 4) by done.
  assert (U0 : is_u16 (zlen head)) by (unfold is_u16; lia).
  assert (U1 : zlen (head ++ field32 ttl) = zlen head + 4) by (rewrite length_app; lia).
  assert (U2 : zlen ((head ++ field32 ttl) ++ field16 (zlen data)) = zlen head + 6) by (rewrite length_app; cbn [length field16]; lia).
  exists d. split; [done|]. unfold mdns_read_answer. rewrite Hq, Z.eqb_refl. cbn [negb]. rewrite Eb. cbn [mbind outcome_bind].
  rewrite (proj2 (Z.ltb_ge _ _)) by (rewrite Htot, Ho, !length_app; unfold head; rewrite !length_app; lia).
  rewrite (proj2 (Z.eqb_neq left 0)) by lia. cbn [negb]. rewrite E. cbn [mbind outcome_bind]. rewrite Z.eqb_refl. cbn [negb rr_klass].
  rewrite (take_field_at m bs _ head (field32 ttl) (field16 (zlen data) ++ data ++ rest)) by (rewrite ?pk_pbuf_set, ?parse_offset_set by done; done || lia).
  cbn [mbind outcome_bind]. rewrite set_parse_twice.
  rewrite (take_field_at m bs _ (head ++ field32 ttl) (field16 (zlen data)) (data ++ rest)) by
    (rewrite ?pk_pbuf_set, <- ?app_assoc, ?parse_offset_set by (unfold is_u16; rewrite ?app_assoc; lia); done || lia).
  cbn [mbind outcome_bind rd_length]. rewrite set_parse_twice, parse_offset_set by (unfold is_u16; lia).
  rewrite (proj2 (field32_ok ttl Htt)), (proj2 (field16_ok (zlen data) ltac:(unfold is_u16; lia))), Hland, Hbit.
  rewrite set_parse_twice, u16_small by (unfold is_u16; lia).
  assert (F1 : zlen (w ++ fields ++ data) = zlen ((head ++ field32 ttl) ++ field16 (zlen data)) + zlen data)
    by (rewrite Eh, !app_assoc, length_app; lia).
  assert (F2 : zlen (w ++ fields) = zlen ((head ++ field32 ttl) ++ field16 (zlen data)))
    by (rewrite <- (app_nil_r fields), Eh, app_nil_r, app_assoc; done).
  by rewrite F1, F2.
Qed.

(* ------------------------------------------------------------------ *)
(** * Properties *)

(** C8: A record that [mdns_add_answer] puts into a packet is read back by
    [mdns_read_answer]: name, type, class, the bit for flushing caches, time
    to live, length of the data and where the data stands; the reader ends
    where writing goes on. The data are bytes, at least one (AAAA, TXT), a name
    (PTR) or bytes and a name behind them (SRV), and [mdns_readname] reads the name
    of the data back, to the end of the record. All names may be compressed
    against names written before. The packet has one pbuf with room for the
    record, its names have labels whose characters cannot be taken for
    lengths, and the jumps to follow in it are at most five. *)
Theorem mdns_record_roundtrip {PP RP HP} `{PoolOps PP} `{PoolOps RP} `{HeapOps HP} mx K (s : pheap PP RP HP) b w rest o d ls
    type klass flush ttl buf target :
  out_at mx K s b w rest o -> (target_names target + S K <= 5)%nat ->
  holds d (wire_name ls) -> Forall wf_label ls -> clear mx ls -> dlength d <= 255 ->
  is_u16 type -> 0 <= klass < 0x8000 -> is_u32 ttl -> Forall is_u8 (raw buf) -> buf <> Some [] -> target_ok mx target ->
  write_offset o + dlength d + 10 + zlen (raw buf) + target_len target <= tot_len b ->
  exists o' s' before tv rest', let data := raw buf ++ tv in
    mdns_add_answer o d type klass flush ttl buf (zlen (raw buf)) (fst <$> target) s = Ok (ERR_OK, o', s') /\
    out_at mx (target_names target + S K) s' b (before ++ data) rest' o' /\
    (forall pkt left, pk_pbuf pkt = op_pbuf o -> parse_offset pkt = write_offset o -> questions_left pkt = 0 -> 0 < left < 65536 ->
     exists d', holds d' (wire_name ls) /\ mdns_read_answer (pbufs s') (bytes s') pkt left =
      Ok (ERR_OK, set_parse_offset (write_offset o') pkt,
          mk_answer (mk_rr_info d' type klass) (if flush =? 0 then 0 else 0x8000) ttl (zlen data) (zlen before), left - 1)) /\
    match target with
    | Some (_, lt) => exists t', holds t' (wire_name lt) /\
        mdns_readname (pbufs s') (bytes s') (op_pbuf o) (zlen before + zlen (raw buf)) = Ok (write_offset o', t')
    | None => tv = []
    end.
Proof.
  intros Hok HK Hd Hf Hc Hle Ht Hkl Htt Hu Hne Htg Hroom. destruct (holds_length _ _ Hd) as [Ed _]. rewrite Ed in Hle, Hroom.
  pose proof Hok as [Hop Ho _ _]. pose proof (content_length _ _ _ (op_content _ _ _ _ _ _ Hop) (op_packet _ _ _ _ _ _ Hop)) as Hl.
  destruct (op_packet _ _ _ _ _ _ Hop) as (Et & _). cbn [lens foldr snd] in Hl, Et. rewrite length_app in Hl.
  destruct (add_answer_ok mx K s b w rest o d ls type klass flush ttl buf target Hok Hd Hf Hc Hle Ht
    (proj1 (class_field_ok klass flush Hkl)) Htt Hu Hne Htg ltac:(lia)) as (s' & o' & v & k & tv & rest' & E & Ep & Hok' & Hk & Hfix & Htat).
  set (data := raw buf ++ tv) in *. set (fields := v ++ _) in *. exists o', s', (w ++ fields), tv, rest'. cbv zeta. fold data.
  split; [done|]. split; [by rewrite <- app_assoc|].
  pose proof Hok' as [Hop' Ho' _ _]. apply one_pbuf_bytes in Hop'. rewrite Ep in Hop'. rewrite <- app_assoc, <- (app_assoc fields) in Hop'.
  split.
  - intros pkt left Hpk Hpo Hq Hleft. rewrite <- Hpk in Hop'. rewrite Ho'. apply (read_answer_ok _ _ pkt w v data rest' k); try done; [congruence|lia|].
    apply Hfix. unfold fields. rewrite <- !app_assoc, (app_assoc w). by eexists.
  - destruct target as [[t lt]|]; [|exact Htat]. destruct Htat as (kt & Hkt & Hfixt).
    destruct Htg as (Htd & _ & _ & Htl). destruct (holds_length _ _ Htd) as [Etd _].
    assert (Ew : w ++ fields ++ data ++ rest' = (w ++ fields ++ raw buf) ++ tv ++ rest') by (unfold data; by rewrite <- !app_assoc).
    rewrite Ew in Hop'. cbn [target_names] in HK.
    destruct (read_name_at _ _ _ _ tv rest' kt lt Hop') as (t' & Ht' & Er); [lia| |lia|].
    { apply Hfixt. exists rest'. by rewrite <- !app_assoc. }
    exists t'. split; [done|]. rewrite Ho'. unfold data. rewrite <- !app_assoc in Er.
    rewrite <- Nat2Z.inj_add, <- length_app, <- app_assoc. exact Er.
Qed.

(** Behind can.local, the record of a service: x.local, port 20000, on the
    host can.local. *)
Definition record_heap : pheap pool pool ram_heap := mk_pheap (mk_pool 0 ∅) (mk_pool 0 ∅) (mk_ram 0 ∅ 0) rt_pbufs rt_mem.
Definition record_packet : mdns_packet :=
  match zero_packet with mk_packet a b c _ _ f g _ i j k l m n o q => mk_packet a b c 0x100 23 f g 0 i j k l m n o q end.
Definition record_srv : list Z := [0; 0; 0; 0; 78; 32].
Definition record_target : option (mdns_domain * list (list Z)) := Some (can_domain [99; 97; 110], rt_labels).

Lemma can_holds l : zlen l <= 63 -> 0 < zlen l -> Forall is_u8 l -> holds (can_domain l) (wire_name [l; TOPDOMAIN_LOCAL]).
Proof.
  intros Hl Hp Hu. destruct (build_host_ok l) as (d & E & Hd & _); [by split|]. unfold can_domain. by rewrite E.
Qed.

Lemma mdns_record_roundtrip_witness :
  exists o' s' d' t', mdns_add_answer rt_outpkt (can_domain [120]) 33 1 1 120 (Some record_srv) 6 (Some (can_domain [99; 97; 110])) record_heap =
      Ok (ERR_OK, o', s') /\ write_offset o' = 45 /\ holds d' (wire_name [[120]; TOPDOMAIN_LOCAL]) /\
    mdns_read_answer (pbufs s') (bytes s') record_packet 1 =
      Ok (ERR_OK, set_parse_offset 45 record_packet, mk_answer (mk_rr_info d' 33 1) 0x8000 120 8 37, 0) /\
    holds t' (wire_name rt_labels) /\ mdns_readname (pbufs s') (bytes s') 0x100 43 = Ok (45, t').
Proof.
  assert (Hd : holds (can_domain [120]) (wire_name [[120]; TOPDOMAIN_LOCAL])) by (apply can_holds; [cbn; lia|cbn; lia|repeat constructor; unfold is_u8; lia]).
  assert (Hf : Forall wf_label [[120]; TOPDOMAIN_LOCAL]) by (repeat constructor; try (cbn; lia); unfold is_u8; lia).
  assert (Hcl : clear 44 [[120]; TOPDOMAIN_LOCAL]) by (repeat constructor; try (cbn; lia); lia).
  assert (Ht : target_ok 44 record_target).
  { split; [apply can_holds; [cbn; lia|cbn; lia|repeat constructor; unfold is_u8; lia]|]. split; [repeat constructor; try (cbn; lia); unfold is_u8; lia|].
    split; [repeat constructor; try (cbn; lia); lia|vm_compute; congruence]. }
  destruct (mdns_record_roundtrip 44 0 record_heap rt_pbuf rt_head rt_rest rt_outpkt (can_domain [120]) [[120]; TOPDOMAIN_LOCAL]
    33 1 1 120 (Some record_srv) record_target rt_ok ltac:(cbn; lia) Hd Hf Hcl ltac:(vm_compute; congruence) ltac:(unfold is_u16; lia) ltac:(lia)
    ltac:(unfold is_u32; lia) ltac:(repeat constructor; unfold is_u8; lia) ltac:(discriminate) Ht ltac:(vm_compute; congruence))
    as (o' & s' & before & tv & rest' & E & Hok & Hread & t' & Ht' & Er).
  assert (Eo : match mdns_add_answer rt_outpkt (can_domain [120]) 33 1 1 120 (Some record_srv) 6 (Some (can_domain [99; 97; 110])) record_heap with
    | Ok (_, o, s) => write_offset o = 45 /\ match mdns_read_answer (pbufs s) (bytes s) record_packet 1 with
        | Ok (_, _, a, _) => rd_length a = 8 /\ rd_offset a = 37 | _ => False end
    | _ => False end) by (vm_compute; by split_and!).
  change (zlen (raw (Some record_srv))) with 6 in *. change (fst <$> record_target) with (Some (can_domain [99; 97; 110])) in E.
  rewrite E in Eo. destruct Eo as [Eo Elen].
  destruct (Hread record_packet 1) as (d' & Hd' & Ed); [reflexivity|reflexivity|reflexivity|lia|].
  rewrite Ed in Elen. cbn [rd_length rd_offset] in Elen. destruct Elen as [El Eb]. rewrite El, Eb, Eo in Ed. rewrite Eb, Eo in Er.
  exists o', s', d', t'. split; [exact E|]. split; [exact Eo|]. split; [exact Hd'|]. split; [exact Ed|]. split; [exact Ht'|exact Er].
Defined.
