(* ===== verification/MdnsBoard.v ===== *)
(** What the board registers with the responder: the calls of [main] in
    src/src/main.c. *)

From Stdlib Require Import ZArith Lia.
From stdpp Require Import base list numbers gmap.
From S2P Require Import Prelude Mmio Mem Memp Timeouts Pbuf Ip6Addr Chksum Udp Netif Ip6Out Mld6 Addrs Nd6 Stack MdnsDomain MdnsOut MdnsIn Mdns.

Open Scope Z_scope.

(** ["%d"] of a number that is not negative. *)
Fixpoint decimal_from (fuel : nat) (n : Z) (behind : list Z) : list Z :=
  let l := 48 + n mod 10 :: behind in
  match fuel with O => l | S fuel => if n / 10 =? 0 then l else decimal_from fuel (n / 10) l end.
Definition decimal (n : Z) : list Z := decimal_from 10 n [].
(** [snprintf] into an array of sixteen characters. *)
Definition snprintf16 (l : list Z) : list Z := take 15 l.

(** ["cangw%d"]. *)
Definition host_name (node : Z) : list Z := snprintf16 ([99; 97; 110; 103; 119] ++ decimal node).
(** ["can-%d-%d"]. *)
Definition srv_name (node i : Z) : list Z := snprintf16 ([99; 97; 110; 45] ++ decimal node ++ [45] ++ decimal i).
(** ["_cannelloni"]. *)
Definition cannelloni_service : list Z := [95; 99; 97; 110; 110; 101; 108; 108; 111; 110; 105].
(** [cannelloni->Init.port]. *)
Definition init_port (node i : Z) : Z := u16 (20000 + node * 10 + i).

Section Board.
Context {PP RP HP UP QP MP DV PS KP : Type} `{PoolOps PP} `{PoolOps RP} `{HeapOps HP} `{PoolOps UP} `{PoolOps QP}
  `{PoolOps MP} `{PoolOps PS} `{PoolOps KP}.
Abbreviation st := (net PP RP HP UP (ipst QP MP DV)).
Context {HK : Hooks st}.
Abbreviation mio := (io (timers PS (mworld st KP))).
Variable SIZEOF_MDNS_HOST SIZEOF_MDNS_SERVICE : Z.
Variable mempool_init : KP -> KP.

(** Before the loop over the interfaces, and in it. *)
Definition register_host (netif node : Z) : mio Z :=
  _ ← mdns_resp_init mempool_init; mdns_resp_add_netif SIZEOF_MDNS_HOST netif (host_name node).
Definition register_service (netif node i : Z) : mio Z :=
  mdns_resp_add_service SIZEOF_MDNS_SERVICE netif (srv_name node i) cannelloni_service DNSSD_PROTO_UDP (init_port node i) 0 0.
End Board.
