(* ===== verification/LwipStrings.v ===== *)
(** Strings of the stack: searches and decimal numbers of core/def.c, and the
    names of interfaces of core/netif.c, which are made of them.

    A [char *] is the list of the characters from it to the end of its object;
    a string ends at the first NUL, and reading on from the end of the object
    is a fault. *)

From Stdlib Require Import ZArith Lia.
From stdpp Require Import base list numbers.
From S2P Require Import Prelude Pbuf Emac MdnsDomain.

Open Scope Z_scope.

(* ------------------------------------------------------------------ *)
(** * The C library's *)

Fixpoint strlen (l : list Z) : outcome Z :=
  match l with
  | [] => Fault OutOfBounds
  | c :: l => if c =? 0 then Ok 0 else n ← strlen l; Ok (n + 1)
  end.

(** Zero where the first [n] characters agree, or end together before. *)
Fixpoint strncmp (n : nat) (a b : list Z) : outcome Z :=
  match n with
  | O => Ok 0
  | S n =>
      match a, b with
      | x :: a, y :: b => if x =? y then if x =? 0 then Ok 0 else strncmp n a b else Ok (x - y)
      | _, _ => Fault OutOfBounds
      end
  end.

Definition isdigit (c : Z) : bool := (48 <=? c) && (c <=? 57).
Definition isspace (c : Z) : bool := (c =? 32) || (9 <=? c) && (c <=? 13).
Fixpoint atoi_digits (l : list Z) (acc : Z) : outcome Z :=
  match l with
  | [] => Fault OutOfBounds
  | c :: l => if isdigit c then atoi_digits l (acc * 10 + (c - 48)) else Ok acc
  end.
Fixpoint atoi (l : list Z) : outcome Z :=
  match l with
  | [] => Fault OutOfBounds
  | c :: l' =>
      if isspace c then atoi l'
      else if c =? 45 then n ← atoi_digits l' 0; Ok (- n)
      else if c =? 43 then atoi_digits l' 0
      else atoi_digits l 0
  end.

(* ------------------------------------------------------------------ *)
(** * core/def.c *)

(** The loops of [lwip_strnstr] and [lwip_strnistr]: [l] is what [p] points to,
    [hit] the condition in the loop. The result is an index, or NULL. *)
Fixpoint find_loop (hit : list Z -> outcome bool) (tokenlen n : Z) (l : list Z) (p : Z) : outcome (option Z) :=
  match l with
  | [] => Fault OutOfBounds
  | c :: l' =>
      if negb (c =? 0) && (p + tokenlen <=? n) then
        b ← hit l;
        if b : bool then Ok (Some p) else find_loop hit tokenlen n l' (p + 1)
      else Ok None
  end.

Definition lwip_strnstr (buffer token : list Z) (n : Z) : outcome (option Z) :=
  tokenlen ← strlen token;
  if tokenlen =? 0 then Ok (Some 0)
  else
    find_loop (fun p =>
      x ← rd p 0;
      y ← rd token 0;
      if x =? y then r ← strncmp (Z.to_nat tokenlen) p token; Ok (r =? 0) else Ok false) tokenlen n buffer 0.

Definition lwip_strnistr (buffer token : list Z) (n : Z) : outcome (option Z) :=
  tokenlen ← strlen token;
  if tokenlen =? 0 then Ok (Some 0)
  else find_loop (fun p => r ← lwip_strnicmp p token tokenlen; Ok (r =? 0)) tokenlen n buffer 0.

Fixpoint lwip_stricmp (str1 str2 : list Z) : outcome Z :=
  match str1, str2 with
  | c1 :: str1, c2 :: str2 =>
      if differ c1 c2 then Ok 1
      else if negb (c1 =? 0) then lwip_stricmp str1 str2 else Ok 0
  | _, _ => Fault OutOfBounds
  end.

(** [while ((n != 0) && (tmp > res))] of [lwip_itoa]. *)
Fixpoint itoa_digits (fuel : nat) (buf : list Z) (res tmp n : Z) : outcome (list Z * Z * Z) :=
  if negb (n =? 0) && (res <? tmp) then
    match fuel with
    | O => Fault Diverges
    | S fuel =>
        buf ← wr buf (tmp - 1) (48 + Z.rem n 10);
        itoa_digits fuel buf res (tmp - 1) (Z.quot n 10)
    end
  else Ok (buf, tmp, n).

(** [buf] is the object [result] points to; [number] is above INT_MIN, whose
    negation C does not define. *)
Definition lwip_itoa (buf : list Z) (bufsize number : Z) : outcome (list Z) :=
  let n := if 0 <=? number then number else - number in
  if bufsize <? 2 then (if bufsize =? 1 then wr buf 0 0 else Ok buf)
  else
    '(buf, res) ← (if number <? 0 then b ← wr buf 0 45; Ok (b, 1) else Ok (buf, 0));
    buf ← wr buf (bufsize - 1) 0;
    '(buf, tmp, n) ← itoa_digits (Z.to_nat bufsize) buf res (bufsize - 1) n;
    if negb (n =? 0) then wr buf 0 0
    else
      c ← rd buf tmp;
      if c =? 0 then b ← wr buf res 48; wr b (res + 1) 0
      else l ← rd_block buf tmp (bufsize - tmp); wr_block buf res l.

(* ------------------------------------------------------------------ *)
(** * Names of interfaces *)

Definition NETIF_NAMESIZE : Z := 6.
Definition netif_get_index (n : netif) : Z := u8 (num n + 1).
Definition netif_index_to_num (index : Z) : Z := index - 1.

(** [netif_default], the one interface there may be. *)
Section Names.
Variable netif_default : option netif.

Definition netif_find (nm : option (list Z)) : outcome (option netif) :=
  match nm with
  | None => Ok None
  | Some nm =>
      a ← atoi (drop 2 nm);
      let n := u8 a in
      c ← rd nm 2;
      if (n =? 0) && negb (c =? 48) then Ok None
      else
        match netif_default with
        | None => Ok None
        | Some x =>
            if negb (n =? num x) then Ok None
            else
              c0 ← rd nm 0;
              if negb (c0 =? (name x).1) then Ok None
              else c1 ← rd nm 1; Ok (if c1 =? (name x).2 then Some x else None)
        end
  end.

Definition netif_name_to_index (nm : option (list Z)) : outcome Z :=
  r ← netif_find nm;
  Ok (match r with Some x => netif_get_index x | None => NETIF_NO_INDEX end).

Definition netif_get_by_index (idx : Z) : option netif :=
  if negb (idx =? NETIF_NO_INDEX) then
    match netif_default with
    | Some x => if idx =? netif_get_index x then Some x else None
    | None => None
    end
  else None.

(** [buf] is what [name] points to. *)
Definition netif_index_to_name (idx : Z) (buf : list Z) : outcome (option (list Z)) :=
  match netif_get_by_index idx with
  | None => Ok None
  | Some x =>
      b ← wr buf 0 (name x).1;
      b ← wr b 1 (name x).2;
      t ← lwip_itoa (drop 2 b) (NETIF_NAMESIZE - 2) (netif_index_to_num idx);
      Ok (Some (take 2 b ++ t))
  end.
End Names.

(* ------------------------------------------------------------------ *)
(** * Searches *)

(** A string: no NUL, and one behind it. *)
Definition text (s : list Z) : Prop := 0 ∉ s.

Lemma text_cons c s : text (c :: s) <-> c <> 0 /\ text s.
Proof. unfold text. rewrite not_elem_of_cons. naive_solver. Qed.

Lemma text_drop n s : text s -> text (drop n s).
Proof. unfold text. intros H Hd. apply H. rewrite <- (take_drop n s), elem_of_app. by right. Qed.

Lemma strlen_text s r : text s -> strlen (s ++ 0 :: r) = Ok (zlen s).
Proof.
  induction s as [|c s IH]; [done|]. intros [Hc Hs]%text_cons. cbn [app strlen]. rewrite (proj2 (Z.eqb_neq c 0) Hc), IH by done.
  cbn. f_equal. lia.
Qed.

(** [t] stands at the head of [s], and somewhere in [s], under an equality of
    characters. *)
Section First.
Variable same : Z -> Z -> bool.
Fixpoint starts (s t : list Z) {struct t} : bool :=
  match t, s with
  | [], _ => true
  | y :: t, x :: s => same x y && starts s t
  | _ :: _, [] => false
  end.
Definition occurs (s t : list Z) (k : Z) : Prop :=
  exists a t' b, s = a ++ t' ++ b /\ zlen a = k /\ Forall2 same t' t.

Lemma starts_spec s t : starts s t <-> exists t' b, s = t' ++ b /\ Forall2 same t' t.
Proof using Type.
  revert s. induction t as [|y t IH]; intros s; cbn [starts].
  - split; [intros _; by exists [], s|done].
  - destruct s as [|x s].
    + split; [done|]. intros (t' & b & E & H). inversion H; subst. done.
    + rewrite andb_True, IH. split.
      * intros (Hx & t' & b & -> & H). exists (x :: t'), b. split; [done|]. by constructor.
      * intros (t' & b & E & H). inversion H; subst. injection E as -> ->. split; [done|]. by eexists _, _.
Qed.

Lemma occurs_starts s t k : occurs s t (Z.of_nat k) <-> (k <= length s)%nat /\ starts (drop k s) t.
Proof using Type.
  rewrite starts_spec. split.
  - intros (a & t' & b & -> & Ha & H). rewrite length_app. split; [lia|]. exists t', b. split; [|done].
    by rewrite drop_app_length' by lia.
  - intros (Hk & t' & b & E & H). exists (take k s), t', b. rewrite <- E, take_drop, length_take. split_and!; try done. lia.
Qed.

(** The first of the places at which [t] lies within the first [n] characters;
    NULL when there is none. *)
Definition finds (s t : list Z) (n : Z) (o : option Z) : Prop :=
  match o with
  | Some k => occurs s t k /\ k + zlen t <= n /\ forall j, occurs s t j -> k <= j
  | None => forall k, k + zlen t <= n -> ~ occurs s t k
  end.

Lemma find_loop_from hit t r n : t <> [] -> forall l p, text l ->
  (forall k, (k < length l)%nat -> p + Z.of_nat k + zlen t <= n -> hit (drop k l ++ 0 :: r) = Ok (starts (drop k l) t)) ->
  exists o, find_loop hit (zlen t) n (l ++ 0 :: r) p = Ok o /\
    match o with
    | Some q => exists k, q = p + Z.of_nat k /\ (k <= length l)%nat /\ starts (drop k l) t /\ q + zlen t <= n /\
        forall j, (j < k)%nat -> ~ starts (drop j l) t
    | None => forall k, p + Z.of_nat k + zlen t <= n -> ~ starts (drop k l) t
    end.
Proof using Type.
  intros Ht. assert (Hnil : ~ starts [] t) by (destruct t; [done|exact id]).
  induction l as [|c l IH]; intros p Hs Hhit; cbn [app find_loop].
  - exists None. split; [done|]. intros k _. by rewrite drop_nil.
  - apply text_cons in Hs as [Hc Hs]. rewrite (proj2 (Z.eqb_neq c 0) Hc). cbn [negb andb].
    destruct (Z.leb_spec (p + zlen t) n) as [Hn|Hn].
    2:{ exists None. split; [done|]. intros k Hk. lia. }
    pose proof (Hhit 0%nat ltac:(cbn; lia) ltac:(lia)) as H0. cbn [drop app] in H0. rewrite H0.
    destruct (starts (c :: l) t) eqn:E; cbn [mbind outcome_bind].
    + exists (Some p). split; [done|]. exists 0%nat. cbn [drop]. rewrite E. split_and!; [lia|lia|done|done|lia].
    + destruct (IH (p + 1) Hs) as (o & -> & Ho).
      { intros k Hk Hb. apply (Hhit (S k)); [cbn; lia|lia]. }
      exists o. split; [done|]. destruct o as [q|].
      * destruct Ho as (k & -> & Hk & Hst & Hb & Hmin). exists (S k). cbn [drop length]. split_and!; try done; try lia.
        intros [|j] Hj; cbn [drop]; [rewrite E; exact id|]. apply Hmin. lia.
      * intros [|k] Hk; cbn [drop]; [rewrite E; exact id|]. apply Ho. lia.
Qed.

Lemma find_loop_finds hit s t r n : text s -> t <> [] ->
  (forall k, (k < length s)%nat -> hit (drop k s ++ 0 :: r) = Ok (starts (drop k s) t)) ->
  exists o, find_loop hit (zlen t) n (s ++ 0 :: r) 0 = Ok o /\ finds s t n o.
Proof using Type.
  intros Hs Ht Hhit. destruct (find_loop_from hit t r n Ht s 0 Hs ltac:(auto)) as (o & E & Ho). exists o. split; [done|].
  assert (Hz : forall j, occurs s t j -> j = Z.of_nat (Z.to_nat j)) by (intros j (a & t' & b & _ & Ha & _); lia).
  destruct o as [q|]; cbn.
  - destruct Ho as (k & -> & Hk & Hst & Hb & Hmin). rewrite Z.add_0_l in *. split_and!; [by apply occurs_starts|done|].
    intros j Hj. pose proof (Hz j Hj) as Ej. rewrite Ej in Hj. apply occurs_starts in Hj as [_ Hj].
    destruct (decide (Z.to_nat j < k)%nat) as [Hlt|]; [by apply Hmin in Hlt|lia].
  - intros k Hk Hoc. pose proof (Hz k Hoc) as Ek. rewrite Ek in Hoc. apply occurs_starts in Hoc as [_ Hoc].
    apply (Ho (Z.to_nat k)); [lia|done].
Qed.

Lemma finds_nil s n : 0 <= n -> finds s [] n (Some 0).
Proof using Type.
  intros Hn. split_and!; [|cbn; lia|].
  - exists [], [], s. by split_and!.
  - intros j (a & _ & _ & _ & Ha & _). lia.
Qed.
End First.

Lemma strncmp_starts t r' : forall s r, text s -> text t -> 
  exists z, strncmp (length t) (s ++ 0 :: r) (t ++ 0 :: r') = Ok z /\ (z =? 0) = starts Z.eqb s t.
Proof.
  induction t as [|y t IH]; intros s r Hs Ht; cbn [length app strncmp starts]; [by exists 0|].
  apply text_cons in Ht as [Hy Ht]. destruct s as [|x s]; cbn [app].
  - rewrite (proj2 (Z.eqb_neq 0 y)) by done. exists (0 - y). split; [done|]. apply Z.eqb_neq. lia.
  - apply text_cons in Hs as [Hx Hs]. destruct (Z.eqb_spec x y) as [->|Hne].
    + rewrite (proj2 (Z.eqb_neq y 0) Hy). by apply IH.
    + exists (x - y). split; [done|]. apply Z.eqb_neq. lia.
Qed.

(** [lwip_strnstr] finds the first place where one string stands in
    another, if all of it is among the first [n] characters, and NULL where
    there is no such place; it reads nothing behind the strings. *)
Theorem lwip_strnstr_finds s t r r' n : text s -> text t -> 0 <= n ->
  exists o, lwip_strnstr (s ++ 0 :: r) (t ++ 0 :: r') n = Ok o /\ finds Z.eqb s t n o.
Proof.
  intros Hs Ht Hn. unfold lwip_strnstr. rewrite strlen_text by done. cbn [mbind outcome_bind].
  destruct t as [|y t]; [exists (Some 0); split; [done|by apply finds_nil]|].
  rewrite (proj2 (Z.eqb_neq (zlen (y :: t)) 0)) by (cbn; lia). apply find_loop_finds; [done..|].
  intros k Hk. destruct (drop k s) as [|x l] eqn:Ed.
  { apply (f_equal length) in Ed. rewrite length_drop in Ed. cbn in Ed. lia. }
  pose proof (text_drop k s Hs) as Hd. rewrite Ed in Hd.
  change (rd ((x :: l) ++ 0 :: r) 0) with (Ok x). change (rd ((y :: t) ++ 0 :: r') 0) with (Ok y).
  cbn [mbind outcome_bind]. destruct (x =? y) eqn:Exy.
  - rewrite Nat2Z.id. destruct (strncmp_starts (y :: t) r' (x :: l) r Hd Ht) as (z & -> & Ez).
    cbn [mbind outcome_bind]. by rewrite Ez.
  - cbn [starts]. by rewrite Exy.
Qed.

(** The same letter, or the same character. *)
Definition same_letter (x y : Z) : bool := negb (differ x y).

Lemma differ_nul y : y <> 0 -> differ 0 y = true.
Proof. intros Hy. unfold differ. rewrite (proj2 (Z.eqb_neq 0 y)) by done. done. Qed.

Lemma strnicmp_starts r r' : forall s t p p' fuel, length p = length p' -> text s -> text t -> t <> [] -> zlen t < 4294967296 ->
  (length s < fuel)%nat ->
  exists z, strnicmp_loop fuel (p ++ s ++ 0 :: r) (p' ++ t ++ 0 :: r') (zlen p) (zlen t) = Ok z /\
    (z =? 0) = starts same_letter s t.
Proof.
  induction s as [|x s IH]; intros [|y t] p p' fuel Hp Hs Ht Hne Hlen Hf; try done; (destruct fuel as [|fuel]; [cbn in Hf; lia|]);
    apply text_cons in Ht as [Hy Ht]; cbn [strnicmp_loop app].
  - rewrite (rd_mid p) by done. rewrite (rd_mid p') by lia. cbn [mbind outcome_bind]. rewrite differ_nul by done. by exists 1.
  - apply text_cons in Hs as [Hx Hs]. rewrite (rd_mid p) by done. rewrite (rd_mid p') by lia. cbn [mbind outcome_bind starts].
    unfold same_letter at 1. destruct (differ x y); [by exists 1|]. cbn [negb andb].
    assert (E : u32 (zlen (y :: t) - 1) = zlen t) by (cbn [length] in *; unfold u32; rewrite Z.mod_small by lia; lia). rewrite E, (proj2 (Z.eqb_neq x 0) Hx). destruct t as [|y2 t].
    + exists 0. split; [done|]. by destruct s.
    + rewrite (proj2 (Z.eqb_neq _ 0)) by (cbn; lia). cbn [negb andb].
      destruct (IH (y2 :: t) (p ++ [x]) (p' ++ [y]) fuel) as (z & Ez & Hz); try done.
      { rewrite !length_app. cbn. lia. }
      { cbn [length] in *. lia. }
      { cbn [length] in *. lia. }
      exists z. split; [|done]. rewrite <- Ez, <- !app_assoc, length_app. cbn [length app]. f_equal. lia.
Qed.

(** [lwip_strnistr] finds the first place where one string stands in
    another up to the case of letters, if all of it is among the first [n]
    characters, and NULL where there is no such place. *)
Theorem lwip_strnistr_finds s t r r' n : text s -> text t -> 0 <= n -> zlen t < 4294967296 ->
  exists o, lwip_strnistr (s ++ 0 :: r) (t ++ 0 :: r') n = Ok o /\ finds same_letter s t n o.
Proof.
  intros Hs Ht Hn Hlen. unfold lwip_strnistr. rewrite strlen_text by done. cbn [mbind outcome_bind].
  destruct (decide (t = [])) as [->|Hne]; [exists (Some 0); split; [done|by apply finds_nil]|].
  rewrite (proj2 (Z.eqb_neq (zlen t) 0)) by (destruct t; [done|cbn; lia]). apply find_loop_finds; [done..|].
  intros k Hk. unfold lwip_strnicmp.
  destruct (strnicmp_starts r r' (drop k s) t [] [] (S (length (drop k s ++ 0 :: r)))) as (z & E & Ez); try done.
  { by apply text_drop. }
  { rewrite length_app. lia. }
  cbn [app length] in E. change (Z.of_nat 0) with 0 in E. rewrite E. cbn [mbind outcome_bind]. by rewrite Ez.
Qed.

(* ------------------------------------------------------------------ *)
(** * Numbers *)

Definition digits_value (ds : list Z) : Z := foldl (fun a c => a * 10 + (c - 48)) 0 ds.

(** [ds] is [n] in decimal. *)
Record decimal_of (n : Z) (ds : list Z) : Prop := {
  do_digits : Forall isdigit ds;
  do_value : digits_value ds = n;
  do_head : n = 0 /\ ds = [48] \/ 0 < n /\ exists d ds', ds = d :: ds' /\ 48 < d
}.

Lemma digits_value_snoc ds c : digits_value (ds ++ [c]) = digits_value ds * 10 + (c - 48).
Proof. unfold digits_value. by rewrite foldl_app. Qed.

Lemma isdigit_spec c : isdigit c <-> 48 <= c <= 57.
Proof. unfold isdigit. rewrite andb_True, !Is_true_true, !Z.leb_le. done. Qed.

Lemma digits_value_bound ds : Forall isdigit ds -> 0 <= digits_value ds < 10 ^ zlen ds.
Proof.
  induction ds as [|c ds IH] using rev_ind; [done|]. rewrite Forall_app, Forall_singleton. intros [Hds Hc].
  apply isdigit_spec in Hc. specialize (IH Hds). rewrite digits_value_snoc, length_app. cbn [length].
  replace (Z.of_nat (length ds + 1)) with (Z.succ (zlen ds)) by lia. rewrite Z.pow_succ_r by lia. lia.
Qed.

Lemma atoi_digits_value ds : forall r acc, Forall isdigit ds ->
  atoi_digits (ds ++ 0 :: r) acc = Ok (foldl (fun a c => a * 10 + (c - 48)) acc ds).
Proof.
  induction ds as [|d ds IH]; intros r acc H; [done|]. apply Forall_cons_1 in H as [Hd H]. cbn [app atoi_digits foldl].
  apply Is_true_true in Hd. rewrite Hd. by apply IH.
Qed.

Lemma atoi_decimal n ds r : decimal_of n ds -> atoi (ds ++ 0 :: r) = Ok n.
Proof.
  intros [Hd Hv Hh]. assert (exists d ds', ds = d :: ds') as (d & ds' & ->) by naive_solver. pose proof Hd as Hd'. apply Forall_cons_1 in Hd' as [H1 _]. apply isdigit_spec in H1.
  cbn [app atoi]. unfold isspace. rewrite !(proj2 (Z.eqb_neq d _)), (proj2 (Z.leb_gt d 13)), andb_false_r by lia. cbn [orb].
  change (d :: ds' ++ 0 :: r) with ((d :: ds') ++ 0 :: r). rewrite atoi_digits_value by done. by rewrite <- Hv.
Qed.

(** The digits of [n] go in front of [tmp], the lowest last, until none is
    left or the room is used up. *)
Lemma itoa_digits_ok fuel : forall buf res tmp n, 0 <= n -> 0 <= res <= tmp -> tmp <= zlen buf -> tmp - res <= Z.of_nat fuel ->
  exists ds q, itoa_digits fuel buf res tmp n =
      Ok (take (Z.to_nat (tmp - zlen ds)) buf ++ ds ++ drop (Z.to_nat tmp) buf, tmp - zlen ds, q) /\
    Forall isdigit ds /\ zlen ds <= tmp - res /\ 0 <= q /\ n = q * 10 ^ zlen ds + digits_value ds /\
    (q = 0 \/ zlen ds = tmp - res) /\ (q = 0 -> 0 < n -> exists d ds', ds = d :: ds' /\ 48 < d) /\ (n = 0 -> ds = []).
Proof.
  assert (Hend : forall fuel buf res tmp n, 0 <= n -> 0 <= res <= tmp -> negb (n =? 0) && (res <? tmp) = false ->
    exists ds q, itoa_digits fuel buf res tmp n =
        Ok (take (Z.to_nat (tmp - zlen ds)) buf ++ ds ++ drop (Z.to_nat tmp) buf, tmp - zlen ds, q) /\
      Forall isdigit ds /\ zlen ds <= tmp - res /\ 0 <= q /\ n = q * 10 ^ zlen ds + digits_value ds /\
      (q = 0 \/ zlen ds = tmp - res) /\ (q = 0 -> 0 < n -> exists d ds', ds = d :: ds' /\ 48 < d) /\ (n = 0 -> ds = [])).
  { intros f buf res tmp n Hn Hr Hc. exists [], n. split.
    { destruct f; cbn [itoa_digits]; rewrite Hc; cbn [length app]; by rewrite Z.sub_0_r, take_drop. }
    apply andb_false_iff in Hc. rewrite negb_false_iff, Z.eqb_eq, Z.ltb_ge in Hc. cbn. split_and!; try done; lia. }
  induction fuel as [|fuel IH]; intros buf res tmp n Hn Hr Hb Hf; (destruct (negb (n =? 0) && (res <? tmp)) eqn:Hc; [|by apply Hend]);
    apply andb_true_iff in Hc as [Hn0 Hlt]; rewrite negb_true_iff, Z.eqb_neq in Hn0; apply Z.ltb_lt in Hlt; [lia|].
  cbn [itoa_digits]. rewrite (proj2 (Z.eqb_neq n 0)), (proj2 (Z.ltb_lt res tmp)) by lia. cbn [negb andb].
  rewrite wr_in by lia. cbn [mbind outcome_bind]. rewrite Z.rem_mod_nonneg, Z.quot_div_nonneg by lia.
  set (c := 48 + n mod 10). pose proof (Z.div_mod n 10 ltac:(lia)) as Hdm. pose proof (Z.mod_pos_bound n 10 ltac:(lia)) as Hm.
  pose proof (Z.div_pos n 10 ltac:(lia) ltac:(lia)) as Hq.
  destruct (IH (<[Z.to_nat (tmp - 1) := c]> buf) res (tmp - 1) (n / 10)) as (ds & q & -> & Hds & Hlen & Hq0 & Hval & Hfull & Hhd & H0);
    [lia|lia|rewrite length_insert; lia|lia|].
  assert (Hl : zlen (ds ++ [c]) = zlen ds + 1) by (rewrite length_app; cbn; lia).
  exists (ds ++ [c]), q. rewrite Hl. split_and!.
  - rewrite take_insert_ge by lia. replace (tmp - 1 - zlen ds) with (tmp - (zlen ds + 1)) by lia. do 3 f_equal.
    rewrite <- app_assoc. f_equal. rewrite (drop_S _ c).
    + rewrite drop_insert_lt by lia. by replace (S (Z.to_nat (tmp - 1))) with (Z.to_nat tmp) by lia.
    + apply list_lookup_insert_eq. lia.
  - apply Forall_app. split; [done|]. constructor; [|done]. apply isdigit_spec. lia.
  - lia.
  - done.
  - rewrite digits_value_snoc, Z.pow_add_r by lia. unfold c. nia.
  - destruct Hfull; [by left|right; lia].
  - intros -> _. destruct (decide (0 < n / 10)) as [Hp|Hp].
    + destruct (Hhd eq_refl Hp) as (d & ds' & -> & Hd). by exists d, (ds' ++ [c]).
    + assert (E0 : n / 10 = 0) by lia. rewrite (H0 E0). exists c, []. split; [done|]. unfold c. lia.
  - lia.
Qed.

Lemma itoa_move a m ds : exists r,
  (l ← rd_block ((a ++ m) ++ ds ++ [0]) (zlen (a ++ m)) (zlen ((a ++ m) ++ ds ++ [0]) - zlen (a ++ m));
   wr_block ((a ++ m) ++ ds ++ [0]) (zlen a) l) = Ok (a ++ ds ++ 0 :: r) /\
  zlen (a ++ ds ++ 0 :: r) = zlen ((a ++ m) ++ ds ++ [0]).
Proof.
  assert (E : rd_block ((a ++ m) ++ (ds ++ [0]) ++ []) (zlen (a ++ m)) (zlen ((a ++ m) ++ ds ++ [0]) - zlen (a ++ m)) = Ok (ds ++ [0])).
  { apply rd_block_mid; [done|]. rewrite !length_app. lia. }
  rewrite app_nil_r in E. rewrite E. cbn [mbind outcome_bind]. rewrite wr_block_in by (rewrite ?length_app; lia).
  rewrite <- (app_assoc a m), take_app_length' by lia. eexists. rewrite <- !app_assoc. split; [done|].
  rewrite !length_app. cbn [length app]. rewrite length_drop, !length_app. cbn. lia.
Qed.

Definition sign (number : Z) : list Z := if number <? 0 then [45] else [].

(** [lwip_itoa] writes the number in decimal, its sign in front, and a NUL
    where that fits the buffer, and the empty string where it does not; it
    writes nothing outside the buffer. *)
Theorem lwip_itoa_decimal buf number : 2 <= zlen buf ->
  exists buf', lwip_itoa buf (zlen buf) number = Ok buf' /\ zlen buf' = zlen buf /\
    if Z.abs number <? 10 ^ (zlen buf - 1 - zlen (sign number))
    then exists ds r, decimal_of (Z.abs number) ds /\ buf' = sign number ++ ds ++ 0 :: r
    else exists r, buf' = 0 :: r.
Proof.
  intros Hbuf. unfold lwip_itoa. rewrite (proj2 (Z.ltb_ge (zlen buf) 2)) by lia.
  assert (En : (if 0 <=? number then number else - number) = Z.abs number) by (zcase; lia). rewrite En. clear En.
  set (n := Z.abs number). assert (Hn : 0 <= n) by lia. set (res := zlen (sign number)).
  assert (H1 : exists b, (if number <? 0 then b ← wr buf 0 45; Ok (b, 1) else Ok (buf, 0)) = Ok (sign number ++ b, res) /\
    zlen (sign number ++ b) = zlen buf /\ 0 <= res <= 1).
  { subst res. unfold sign. destruct buf as [|x buf]; [cbn in Hbuf; lia|]. destruct (number <? 0).
    - exists buf. cbn. split_and!; try done.
    - exists (x :: buf). split_and!; try done. }
  destruct H1 as (b & -> & Hb & Hres). cbn [mbind outcome_bind].
  destruct (exists_last (l := b)) as (m & z & ->).
  { intros ->. rewrite app_nil_r in Hb. subst res. lia. }
  rewrite !length_app in Hb. cbn [length] in Hb. assert (Hm : zlen m = zlen buf - 1 - res) by lia.
  rewrite app_assoc, wr_snoc by (rewrite length_app; lia). cbn [mbind outcome_bind]. rewrite app_nil_r.
  destruct (itoa_digits_ok (Z.to_nat (zlen buf)) ((sign number ++ m) ++ [0]) res (zlen buf - 1) n) as
    (ds & q & -> & Hds & Hlen & Hq0 & Hval & Hfull & Hhd & Hnil); [lia|lia|rewrite !length_app; cbn; lia|lia|].
  cbn [mbind outcome_bind].
  assert (Ed : drop (Z.to_nat (zlen buf - 1)) ((sign number ++ m) ++ [0]) = [0]) by (apply drop_app_length'; rewrite length_app; lia).
  assert (Et : exists m1, take (Z.to_nat (zlen buf - 1 - zlen ds)) ((sign number ++ m) ++ [0]) = sign number ++ m1 /\ zlen m1 = zlen m - zlen ds).
  { exists (take (Z.to_nat (zlen m - zlen ds)) m). rewrite take_app_le by (rewrite length_app; lia).
    rewrite take_app_ge by lia. split; [|rewrite length_take; lia]. f_equal. f_equal. lia. }
  destruct Et as (m1 & -> & Hm1). rewrite Ed. rewrite <- Hm. clear Ed Hres. pose proof (digits_value_bound ds Hds) as Hbd.
  destruct (Z.eqb_spec q 0) as [->|Hq]; cbn [negb].
  - assert (Hlt : n < 10 ^ zlen m).
    { apply Z.lt_le_trans with (10 ^ zlen ds); [lia|]. apply Z.pow_le_mono_r; lia. }
    rewrite (proj2 (Z.ltb_lt _ _) Hlt). destruct ds as [|d ds].
    + assert (E0 : n = 0) by (cbn in Hval; lia). assert (Es : sign number = []) by (unfold sign; by replace number with 0 by lia).
      subst res. rewrite Es in *. cbn [app length] in *. destruct m1 as [|x m1]; [cbn in Hm1; lia|].
      rewrite rd_mid by (cbn [length] in *; lia). cbn [mbind outcome_bind]. change (0 =? 0) with true. cbn iota.
      rewrite wr_in by (cbn; lia). cbn [mbind outcome_bind]. rewrite wr_in by (rewrite length_insert, length_app; cbn; lia).
      eexists. split; [done|]. rewrite !length_insert, length_app. split; [cbn [length] in *; lia|].
      exists [48]. destruct (m1 ++ [0]) as [|y l] eqn:El; [by destruct m1|]. exists l. cbn [app]. rewrite El. split; [|done].
      split; [by constructor|by rewrite E0|by left].
    + pose proof Hds as Hd1. apply Forall_cons_1 in Hd1 as [Hd1 _]. apply isdigit_spec in Hd1.
      assert (Hi : zlen buf - 1 - zlen (d :: ds) = zlen (sign number ++ m1)) by (rewrite length_app; lia).
      assert (Er : rd ((sign number ++ m1) ++ (d :: ds) ++ [0]) (zlen (sign number ++ m1)) = Ok d) by by apply rd_mid.
      rewrite Hi, Er. cbn [mbind outcome_bind]. rewrite (proj2 (Z.eqb_neq d 0)) by lia.
      destruct (itoa_move (sign number) m1 (d :: ds)) as (r & Em & Hr).
      replace (zlen ((sign number ++ m1) ++ (d :: ds) ++ [0])) with (zlen buf) in Em, Hr by (rewrite !length_app in *; cbn [length] in *; lia).
      exists (sign number ++ (d :: ds) ++ 0 :: r). split; [exact Em|]. split; [exact Hr|]. exists (d :: ds), r. split; [|done].
      split; [done|lia|].
      destruct (decide (0 < n)) as [Hp|Hp]; [|specialize (Hnil ltac:(lia)); discriminate].
      destruct (Hhd eq_refl Hp) as (d' & ds' & [= -> ->] & Hd'). right. split; [done|]. by eexists _, _.
  - assert (Hge : 10 ^ zlen m <= n).
    { replace (zlen ds) with (zlen m) in * by lia. nia. }
    rewrite (proj2 (Z.ltb_ge _ _) Hge). rewrite wr_in by (rewrite !length_app; cbn; lia). eexists. split; [done|].
    rewrite length_insert, !length_app. cbn [length]. split; [lia|].
    destruct ((sign number ++ m1) ++ ds ++ [0]) as [|x l] eqn:El; [|by exists l].
    apply (f_equal length) in El. rewrite !length_app in El. cbn in El. lia.
Qed.

(* ------------------------------------------------------------------ *)
(** * Names of interfaces *)

(** The name of an interface, by its index, leads back to the index; there is
    room for it in the [NETIF_NAMESIZE] bytes callers have. *)
Theorem netif_names_roundtrip x buf : is_u8 (num x) -> num x <> 255 -> zlen buf = NETIF_NAMESIZE ->
  exists b, netif_index_to_name (Some x) (netif_get_index x) buf = Ok (Some b) /\
    netif_name_to_index (Some x) (Some b) = Ok (netif_get_index x) /\ zlen b = NETIF_NAMESIZE.
Proof.
  unfold NETIF_NAMESIZE. intros Hn H255 Hb.
  assert (Ei : netif_get_index x = num x + 1) by (unfold netif_get_index, u8, is_u8 in *; apply Z.mod_small; lia).
  unfold netif_index_to_name, netif_get_by_index. rewrite Ei, Z.eqb_refl, (proj2 (Z.eqb_neq (num x + 1) NETIF_NO_INDEX))
    by (unfold is_u8, NETIF_NO_INDEX in *; lia). cbn [negb].
  destruct buf as [|c0 [|c1 l]]; [done|done|]. assert (Hl : zlen l = 4) by (cbn [length] in Hb; lia).
  change (wr (c0 :: c1 :: l) 0 (name x).1) with (wr ([] ++ c0 :: (c1 :: l)) 0 (name x).1). rewrite wr_snoc by done.
  cbn [mbind outcome_bind app].
  change (wr ((name x).1 :: c1 :: l) 1 (name x).2) with (wr ([(name x).1] ++ c1 :: l) 1 (name x).2). rewrite wr_snoc by done.
  cbn [mbind outcome_bind app]. change (drop 2 ((name x).1 :: (name x).2 :: l)) with l.
  change (take 2 ((name x).1 :: (name x).2 :: l)) with [(name x).1; (name x).2].
  unfold netif_index_to_num, NETIF_NAMESIZE. replace (num x + 1 - 1) with (num x) by lia. change (6 - 2) with 4.
  destruct (lwip_itoa_decimal l (num x) ltac:(lia)) as (t & Et & Ht & Hcase). rewrite Hl in *. rewrite Et.
  assert (Es : sign (num x) = []) by (unfold sign, is_u8 in *; zcase; try done; lia). rewrite Es in Hcase.
  rewrite (proj2 (Z.ltb_lt _ _)) in Hcase by (unfold is_u8 in *; cbn; lia). destruct Hcase as (ds & r & Hd & ->).
  cbn [mbind outcome_bind app] in *. eexists. split; [done|]. split; [|cbn [length]; lia].
  replace (Z.abs (num x)) with (num x) in Hd by (unfold is_u8 in *; lia).
  unfold netif_name_to_index, netif_find. change (drop 2 ((name x).1 :: (name x).2 :: ds ++ 0 :: r)) with (ds ++ 0 :: r).
  rewrite (atoi_decimal _ _ _ Hd). cbn [mbind outcome_bind].
  pose proof (do_head _ _ Hd) as Hh. assert (exists d ds', ds = d :: ds') as (d & ds' & ->) by naive_solver.
  change (rd ((name x).1 :: (name x).2 :: (d :: ds') ++ 0 :: r) 2) with (Ok d).
  change (rd ((name x).1 :: (name x).2 :: (d :: ds') ++ 0 :: r) 0) with (Ok (name x).1).
  change (rd ((name x).1 :: (name x).2 :: (d :: ds') ++ 0 :: r) 1) with (Ok (name x).2).
  cbn [mbind outcome_bind]. assert (Eu : u8 (num x) = num x) by (unfold u8, is_u8 in *; apply Z.mod_small; lia).
  rewrite Eu, !Z.eqb_refl. cbn [negb mbind outcome_bind].
  destruct (Z.eqb_spec (num x) 0) as [E0|]; cbn [andb]; [|cbn [mbind outcome_bind]; by rewrite Ei].
  destruct Hh as [[_ [= -> _]]|[? _]]; [|lia]. cbn. by rewrite Ei.
Qed.

(** The number behind the letters is taken modulo 256: an interface
    answers to names of others. *)
Example netif_find_wraps : let en1 := mk_netif 6 [] 0 0 (101, 110) 1 in
  netif_find (Some en1) (Some [101; 110; 50; 53; 55; 0]) = Ok (Some en1).
Proof. reflexivity. Qed.
