(* ===== verification/MdnsProps.v ===== *)
(** The properties of the responder: it announces names only after probing
    for them, and its conflicts are rate-limited. *)

From Stdlib Require Import ZArith Lia.
From stdpp Require Import base list numbers gmap relations.
From S2P Require Import Prelude Mmio Mem MemProofs Memp Timeouts Pbuf Ip6Addr Chksum Udp UdpPcbs UdpPackets Netif Ip6Out Mld6 Addrs Nd6 Stack StackProps MdnsDomain MdnsOut MdnsIn Mdns MdnsState MdnsBoard.

Open Scope Z_scope.

(* ------------------------------------------------------------------ *)
(** * Announcing *)

Lemma insert_timeout_elem t l : t ∈ insert_timeout t l.
Proof.
  destruct l as [|u l]; simpl; [set_solver|]. destruct (TIME_LESS_THAN _ _); [set_solver|].
  revert u. induction l as [|n l IH]; intros u; simpl; [set_solver|]. destruct (TIME_LESS_THAN _ _); [set_solver|].
  apply elem_of_cons. right. apply IH.
Qed.

Section Announcing.
Context {PP RP HP UP QP MP DV PS KP : Type} `{PoolOps PP} `{PoolOps RP} `{HeapOps HP} `{PoolOps UP} `{PoolOps QP}
  `{PoolOps MP} `{PoolOps PS} `{PoolOps KP}.
Abbreviation st := (net PP RP HP UP (ipst QP MP DV)).
Context {HK : Hooks st}.
Abbreviation world := (timers PS (mworld st KP)).
Abbreviation mio := (io world).
Variable call_txt_fn : Z -> Z -> Z -> mio unit.
Variable call_name_result : Z -> Z -> Z -> Z -> mio unit.
Variable call_result_fn : Z -> mdns_answer -> varpart -> Z -> Z -> Z -> mio unit.
Variable SIZEOF_MDNS_HOST SIZEOF_MDNS_SERVICE : Z.
Variable mempool_init : KP -> KP.


(** A timer for [h] and [a] that expires in [ms] milliseconds. *)
Definition pending (s : world) (h a ms : Z) : Prop :=
  exists e, mk_timeo e (u32 (w_now (t_world s) + ms)) h a ∈ next_timeout s.

Lemma timeout_pending ms h a (s : world) u s' : timeout ms h a s = Ok (u, s') -> pending s' h a ms /\ t_world s' = t_world s.
Proof using Type.
  intros E. apply bind_ok_inv in E as (s1 & E1 & E). injection E as <- <-. unfold sys_timeout, sys_timeout_abs in E1.
  apply bind_ok_inv in E1 as (u' & _ & E1). apply bind_ok_inv in E1 as ((m & ps) & _ & E1). destruct m as [e|]; [|done].
  injection E1 as <-. split; [|done]. exists e. apply insert_timeout_elem.
Qed.

(** C19: A turn of the probing timer sends one probe. Only when it could be
    sent does the host count it, and the third ends the probing; a probe that
    was not sent is tried again. No other host changes, and the timer runs
    again: after 250 ms, or 5 s while the conflicts of a host that is still
    probing are rate-limited. *)
Theorem mdns_probe_step netif (s s' : world) x :
  (forall f p a, within same_hosts (call_txt_fn f p a)) ->
  hosts (vars_of s) !! hp_of s netif = Some x -> before_announcing (mstate x) = true -> 0 <= sent_num x < 3 ->
  mdns_probe_and_announce call_txt_fn call_name_result netif s = Ok (tt, s') ->
  exists res s1 x', mdns_send_probe call_txt_fn netif v6group s = Ok (res, s1) /\
    hosts (vars_of s') !! hp_of s netif = Some x' /\ view_of x' = after_probe res (mstate x) (sent_num x) /\
    (forall hp, hp <> hp_of s netif -> hview_at s' hp = hview_at s hp) /\
    pending s' MDNS_PROBE_AND_ANNOUNCE netif
      (if negb (sent_num x' =? 0) && (rate_limit_activated x' =? 1) then 5000 else 250).
Proof using Type H2 H3 H4 H6.
  intros Ht Hx Hq Hr E. apply bind_ok_inv in E as ((y & s0) & E0 & E). apply host_of_inv in E0 as (-> & Hy).
  rewrite Hx in Hy. injection Hy as <-.
  assert (E1 : (res ← mdns_send_probe call_txt_fn netif v6group; _ ← count_probe netif res; x ← host_of netif;
     if negb (sent_num x =? 0) && (rate_limit_activated x =? 1)
     then timeout MDNS_PROBE_MAX_CONFLICTS_TIMEOUT MDNS_PROBE_AND_ANNOUNCE netif
     else timeout MDNS_PROBE_DELAY_MS MDNS_PROBE_AND_ANNOUNCE netif) s = Ok (tt, s')) by (by destruct (mstate x)).
  clear E. apply bind_ok_inv in E1 as ((res & s1) & E1 & E). exists res, s1.
  apply (within_send_probe same_hosts) in E1 as Hs1; [|done].
  apply bind_ok_inv in E as ((u2 & s2) & E2 & E). apply bind_ok_inv in E as ((x' & s3) & E3 & E).
  apply host_of_inv in E3 as (-> & Hx'). exists x'.
  pose proof (host_view_of _ _ _ Hx) as Hv. rewrite <- (host_view_same _ _ _ Hs1) in Hv.
  destruct (count_probe_changed _ _ _ _ _ _ _ E2 Hv Hr) as (Hc & Hhp). rewrite (hp_of_same _ _ _ Hs1) in *.
  rewrite Hhp in Hx'. pose proof (same_changed _ _ _ _ _ Hs1 Hc) as Hc'.
  assert (Ht' : pending s' MDNS_PROBE_AND_ANNOUNCE netif
      (if negb (sent_num x' =? 0) && (rate_limit_activated x' =? 1) then 5000 else 250) /\ t_world s' = t_world s2)
    by (destruct (_ && _); by apply timeout_pending in E).
  destruct Ht' as (Hp & Hw).
  unfold hview_at, vars_of in *. rewrite Hw. split_and!; [done|done| | |].
  - specialize (Hc' (hp_of s netif)). rewrite decide_True in Hc' by done. unfold hview_at, vars_of in Hc'.
    rewrite Hx' in Hc'. by injection Hc'.
  - intros hp Hne. specialize (Hc' hp). rewrite decide_False in Hc' by done. exact Hc'.
  - exact Hp.
Qed.

End Announcing.

(* ------------------------------------------------------------------ *)
(** * The rate limit *)

(** A host met conflicts at the times [ts]. *)
Fixpoint save_conflicts (ts : list Z) (x : mdns_host) : outcome mdns_host :=
  match ts with [] => Ok x | t :: ts => x ← save_conflict t x; save_conflicts ts x end.

Lemma save_conflicts_app ts1 ts2 x : save_conflicts (ts1 ++ ts2) x = (x ← save_conflicts ts1 x; save_conflicts ts2 x).
Proof. revert x. induction ts1 as [|t ts1 IH]; intros x; [done|]. simpl. destruct (save_conflict t x); simpl; [apply IH|done]. Qed.

(** Conflict [i + 14] is within the window of conflict [i], and was looked at:
    the number of conflicts is a byte. *)
Definition crowded (ts : list Z) (i : nat) : Prop :=
  15 <= (Z.of_nat i + 15) mod 256 /\
  exists t1 t2, ts !! (i + 14)%nat = Some t1 /\ ts !! i = Some t2 /\ u32 (t1 - t2) < 10000.

(** The times of the last conflicts, in a ring. *)
Record conflicts_ok (ts : list Z) (x : mdns_host) : Prop := {
  co_len : length (conflict_time x) = 15%nat;
  co_ring j : (j < length ts)%nat -> (length ts <= j + 15)%nat -> conflict_time x !! (j mod 15)%nat = ts !! j;
  co_index : h_index x = Z.of_nat (length ts) mod 15;
  co_num : num_conflicts x = Z.of_nat (length ts) mod 256;
  co_limit : rate_limit_activated x = 1 <-> exists i, crowded ts i
}.

Lemma crowded_snoc ts t i :
  crowded (ts ++ [t]) i <-> crowded ts i \/ (length ts = (i + 14)%nat /\ 15 <= (Z.of_nat i + 15) mod 256 /\
    exists t2, ts !! i = Some t2 /\ u32 (t - t2) < 10000).
Proof.
  unfold crowded. destruct (decide (i + 14 < length ts)%nat) as [Hl|Hl].
  - rewrite !lookup_app_l by lia. split; [auto|]. intros [?|(? & _)]; [done|lia].
  - destruct (decide (i + 14 = length ts)%nat) as [He|He].
    + rewrite He, list_lookup_middle by done. rewrite lookup_app_l by lia. split.
      * intros (Hm & t1 & t2 & [= <-] & H2 & H3). right. eauto.
      * intros [(_ & t1 & t2 & Hn & _)|(_ & Hm & t2 & H2 & H3)]; [by rewrite lookup_ge_None_2 in Hn by lia|]. eauto 10.
    + split; [|intros [(_ & t1 & t2 & Hn & _)|(? & _)]; [by rewrite lookup_ge_None_2 in Hn by lia|lia]].
      intros (_ & t1 & t2 & Hn & _). rewrite lookup_ge_None_2 in Hn; [done|]. rewrite length_app. simpl. lia.
Qed.

(** The ring after one more. *)
Lemma ring_snoc (ts : list Z) (t : Z) (ring : list Z) (j : nat) :
  length ring = 15%nat ->
  (forall j, (j < length ts)%nat -> (length ts <= j + 15)%nat -> ring !! (j mod 15)%nat = ts !! j) ->
  (j < S (length ts))%nat -> (S (length ts) <= j + 15)%nat ->
  <[(length ts mod 15)%nat := t]> ring !! (j mod 15)%nat = (ts ++ [t]) !! j.
Proof.
  intros Hr Hring H1 H2. destruct (decide (j = length ts)) as [->|Hne].
  - rewrite list_lookup_middle by done. apply list_lookup_insert_eq. rewrite Hr. apply Nat.mod_upper_bound. lia.
  - rewrite lookup_app_l by lia. rewrite list_lookup_insert_ne; [apply Hring; lia|].
    intros He. pose proof (Nat.div_mod_eq j 15). pose proof (Nat.div_mod_eq (length ts) 15). nia.
Qed.

Lemma to_nat_mod15 n : Z.to_nat (Z.of_nat n mod 15) = (n mod 15)%nat.
Proof. change 15 with (Z.of_nat 15). by rewrite <- Nat2Z.inj_mod, Nat2Z.id. Qed.

Lemma save_conflict_ok ts t x :
  conflicts_ok ts x -> exists x', save_conflict t x = Ok x' /\ conflicts_ok (ts ++ [t]) x'.
Proof.
  intros [Hlen Hring Hi Hn Hl]. destruct x as [nm sv sn st v6 ring lim idx num].
  cbn [conflict_time h_index num_conflicts rate_limit_activated] in *. subst idx num.
  assert (Hm : 0 <= Z.of_nat (length ts) mod 15 < 15) by (apply Z.mod_pos_bound; lia).
  assert (Hnat : Z.to_nat (Z.of_nat (length ts) mod 15) = (length ts mod 15)%nat) by apply to_nat_mod15.
  unfold save_conflict, MDNS_PROBE_MAX_CONFLICTS_BEFORE_RATE_LIMIT, MDNS_PROBE_MAX_CONFLICTS_TIME_WINDOW. cbv zeta.
  cbn [set_num_conflicts conflict_time h_index num_conflicts].
  rewrite wr_in by (rewrite Hlen; exact Hm). cbn [mbind outcome_bind set_conflict_time num_conflicts h_index]. rewrite Hnat.
  set (ring' := <[_:=t]> ring).
  assert (Hring' : forall j, (j < S (length ts))%nat -> (S (length ts) <= j + 15)%nat -> ring' !! (j mod 15)%nat = (ts ++ [t]) !! j)
    by (intros; by apply ring_snoc).
  assert (Hu : u8 (Z.of_nat (length ts) mod 256 + 1) = Z.of_nat (S (length ts)) mod 256) by ulia.
  assert (Hr : Z.rem (Z.of_nat (length ts) mod 15 + 1) 15 = Z.of_nat (S (length ts)) mod 15)
    by (rewrite Z.rem_mod_nonneg by lia; ulia).
  assert (Hlen' : length (ts ++ [t]) = S (length ts)) by (rewrite length_app; simpl; lia).
  rewrite Hu, Hr.
  assert (Hk : forall lim', (lim' = 1 <-> exists i, crowded (ts ++ [t]) i) ->
    conflicts_ok (ts ++ [t]) (set_h_index (u8 (Z.of_nat (S (length ts)) mod 15))
      (mk_host nm sv sn st v6 ring' lim' (Z.of_nat (length ts) mod 15) (Z.of_nat (S (length ts)) mod 256)))).
  { intros lim' Hlim. split; cbn [set_h_index conflict_time h_index num_conflicts rate_limit_activated]; rewrite ?Hlen'; [by unfold ring'; rewrite length_insert|done|ulia|done|done]. }
  destruct (Z.leb_spec 15 (Z.of_nat (S (length ts)) mod 256)) as [Hc|Hc].
  - set (i0 := (length ts - 14)%nat). pose proof (Z.mod_le (Z.of_nat (S (length ts))) 256 ltac:(lia) ltac:(lia)).
    assert (Hi0 : length ts = (i0 + 14)%nat) by (unfold i0; lia).
    destruct (lookup_lt_is_Some_2 ts i0) as (t2 & Ht2); [lia|].
    assert (R1 : rd ring' (Z.of_nat (length ts) mod 15) = Ok t).
    { apply rd_ok. split; [lia|]. rewrite Hnat. apply list_lookup_insert_eq. rewrite Hlen. apply Nat.mod_upper_bound. lia. }
    assert (R2 : rd ring' (Z.of_nat (S (length ts)) mod 15) = Ok t2).
    { apply rd_ok. split; [apply Z.mod_pos_bound; lia|]. replace (Z.to_nat (Z.of_nat (S (length ts)) mod 15)) with (i0 mod 15)%nat
        by (rewrite to_nat_mod15, Hi0; replace (S (i0 + 14)) with (i0 + 1 * 15)%nat by lia; by rewrite Nat.Div0.mod_add).
      rewrite Hring' by lia. by rewrite lookup_app_l by lia. }
    cbn [h_index]. rewrite R1, R2. cbn [mbind outcome_bind]. eexists. split; [reflexivity|].
    destruct (Z.ltb_spec (u32 (t - t2)) 10000) as [Hw|Hw]; apply Hk.
    + split; [|done]. intros _. exists i0. apply crowded_snoc. right. split; [done|].
      split; [by replace (Z.of_nat i0 + 15) with (Z.of_nat (S (length ts))) by lia|]. eauto.
    + rewrite Hl. split; intros (i & Hcr); exists i; [apply crowded_snoc; by left|].
      apply crowded_snoc in Hcr as [?|(Hi & _ & t2' & Ht2' & Hw')]; [done|].
      replace i with i0 in Ht2' by lia. rewrite Ht2 in Ht2'. injection Ht2' as <-. lia.
  - eexists. split; [reflexivity|]. apply Hk. rewrite Hl. split; intros (i & Hcr); exists i; [apply crowded_snoc; by left|].
    apply crowded_snoc in Hcr as [?|(Hi & Hm' & _)]; [done|].
    replace (Z.of_nat i + 15) with (Z.of_nat (S (length ts))) in Hm' by lia. lia.
Qed.

(** C21: After conflicts at any times (and no first announcement, which turns
    the limit off, between them), the limit on the rate of probing is on
    exactly when some conflict came less than ten seconds (on the wrapping
    clock) after the fourteenth one before it, was at least the fifteenth
    when the byte that counts them was last 0, and never anything is written
    outside the ring of times. *)
Theorem mdns_rate_limit ts x :
  length (conflict_time x) = 15%nat -> h_index x = 0 -> num_conflicts x = 0 -> rate_limit_activated x = 0 ->
  exists x', save_conflicts ts x = Ok x' /\ (rate_limit_activated x' = 1 <-> exists i, crowded ts i).
Proof.
  intros Hl Hi Hn Hr. assert (Hs : exists x', save_conflicts ts x = Ok x' /\ conflicts_ok ts x').
  { induction ts as [|t ts IH] using rev_ind.
    - exists x. split; [done|]. split; simpl; try done; [lia|]. rewrite Hr. split; [done|]. intros (i & _ & t1 & _ & E & _). done.
    - destruct IH as (x1 & E & Hx). destruct (save_conflict_ok ts t x1 Hx) as (x' & E' & Hx'). exists x'. split; [|done].
      rewrite save_conflicts_app, E. simpl. by rewrite E'. }
  destruct Hs as (x' & E & []). eauto.
Qed.

(** Sixteen conflicts, the first long before the others. *)
Definition new_host : mdns_host :=
  mk_host [] [] 0 MDNS_STATE_OFF zero_delayed (replicate 15 0) 0 0 0.
Definition conflict_days : list Z := 1000 :: ((fun i => 20000 + 100 * Z.of_nat i) <$> seq 0 15).
Lemma mdns_rate_limit_witness :
  exists x', save_conflicts conflict_days new_host = Ok x' /\ rate_limit_activated x' = 1 /\
    (rate_limit_activated x' = 1 <-> exists i, crowded conflict_days i).
Proof.
  destruct (mdns_rate_limit conflict_days new_host eq_refl eq_refl eq_refl eq_refl) as (x' & E & Hc).
  exists x'. split; [exact E|]. split; [|exact Hc]. apply Hc. exists 1%nat. split; [vm_compute; congruence|].
  eexists _, _. split; [reflexivity|]. split; [reflexivity|]. reflexivity.
Defined.

(* ------------------------------------------------------------------ *)
(** ** A board with the responder *)

Definition responder_heap : ram_heap := match mem_init 0x8001001 (mk_ram 0 ∅ 0) with Ok (_, h) => h | _ => mk_ram 0 ∅ 0 end.
Definition pool_at (sz : Z) (n : nat) (a : Z) : pool := memp_init_pool (mk_desc sz n a) (mk_pool 0 ∅).
Definition responder_net : board_st :=
  mk_net
    (mk_pheap (pool_at 600 4 0x10001) (pool_at 24 4 0x20001) responder_heap ∅ (at_address 0x8001000 (replicate 8192 0)))
    (mk_udp 0xc000 0 ∅) (pool_at 60 4 0x40001)
    (mk_ipst {[1 := board_if near_mac node]} 1 (mk_globals 1 0 0 0 any6 any6) (knows peer far_mac) ∅ ∅
       (pool_at 8 4 0x50001) (pool_at 40 4 0x60001) 0 tt).
Definition responder_world : timers pool (mworld board_st pool) :=
  mk_timers [] 0 (pool_at 16 8 0x1001) (mk_mworld responder_net (mk_mdns [] 0 0 0 0 ∅ ∅ ∅ 0 ∅ (mk_pool 0 ∅)) 0).
Definition responder_hooks : Hooks board_st := board wire no_filter no_rand.

(** An application whose callbacks do nothing. *)
Definition no_txt (f p a : Z) : io (timers pool (mworld board_st pool)) unit := mret tt.
Definition no_name (cb netif result slot : Z) : io (timers pool (mworld board_st pool)) unit := mret tt.
Definition no_result (f : Z) (x : mdns_answer) (y : varpart) (n flags a : Z) : io (timers pool (mworld board_st pool)) unit := mret tt.
Definition run_board :=
  run_mdns_ops (HK := responder_hooks) no_txt no_name no_result 1500 500 (fun _ => pool_at 100 4 0x70001).



Lemma some_inj {A} (x y : A) : Some x = Some y -> x = y.
Proof. by injection 1. Qed.


(** The turn of the timer in which the first probe is sent. *)
Definition world_after (r : outcome (unit * timers pool (mworld board_st pool))) : timers pool (mworld board_st pool) :=
  match r with Ok (_, s) => s | Fault _ => responder_world end.
Definition probing_world : timers pool (mworld board_st pool) :=
  world_after (run_board [OpInit; OpAddNetif 1 (host_name 1); OpClock 300] responder_world).
Definition probe_turn := mdns_probe_and_announce (HK := responder_hooks) no_txt no_name 1 probing_world.

Lemma mdns_probe_step_witness :
  exists x s' res s1 x', hosts (vars_of probing_world) !! hp_of probing_world 1 = Some x /\ probe_turn = Ok (tt, s') /\
    mdns_send_probe (HK := responder_hooks) no_txt 1 v6group probing_world = Ok (res, s1) /\
    hosts (vars_of s') !! hp_of probing_world 1 = Some x' /\ view_of x' = after_probe res (mstate x) (sent_num x) /\
    (forall hp, hp <> hp_of probing_world 1 -> hview_at s' hp = hview_at probing_world hp) /\
    pending s' MDNS_PROBE_AND_ANNOUNCE 1 (if negb (sent_num x' =? 0) && (rate_limit_activated x' =? 1) then 5000 else 250).
Proof.
  assert (Hx : view_of <$> hosts (vars_of probing_world) !! hp_of probing_world 1 = Some (MDNS_STATE_PROBE_WAIT, 0))
    by (vm_compute; reflexivity).
  assert (Ht : match probe_turn with Ok _ => true | Fault _ => false end = true) by (vm_compute; reflexivity).
  destruct (hosts (vars_of probing_world) !! hp_of probing_world 1) as [x|] eqn:Eh; [|discriminate Hx].
  destruct probe_turn as [[[] s']|f] eqn:E; [|discriminate Ht]. apply some_inj in Hx. unfold view_of in Hx. pose proof (f_equal fst Hx) as Hq. pose proof (f_equal snd Hx) as Hn. cbn [fst snd] in Hq, Hn.
  exists x, s'.
  destruct (mdns_probe_step (HK := responder_hooks) no_txt no_name 1 probing_world s' x) as (res & s1 & x' & P).
  - intros. apply within_ret, same_hosts_preorder.
  - exact Eh.
  - rewrite Hq. reflexivity.
  - rewrite Hn. vm_compute. split; congruence.
  - exact E.
  - exists res, s1, x'. split; [reflexivity|]. split; [reflexivity|]. exact P.
Defined.
